(* ===== verification/_CoqProject ===== *)
-Q . S2P
Prelude.v
Types.v
State.v
Pack.v
Codec.v
Commands.v
Replies.v
Records.v
Indicators.v
Integrity.v
Frame.v
Dispatch.v
Stream.v
Multipart.v
ScCrypto.v
ScFrame.v
Aes.v
PdTypes.v
PdEvents.v
PdPdcap.v
PdBanks.v
PdFile.v
PdDispatch.v
PdSc.v
Pd.v
PdInv.v
PdLeds.v
PdSafe.v
PdReach.v
PdSpec.v
Ports.v
AcuTypes.v
AcuBanks.v
AcuCmd.v
AcuSc.v
Acu.v
AcuSlot.v
AcuInv.v
AcuSafe.v
AcuReach.v
AcuSpec.v
Link.v
Steps.v
Handshake.v
Session.v
Lossy.v
Osdpcap.v
ToolText.v
Parser.v
Serial.v
PdMock.v
AcuMock.v
