(* ===== verification/Prelude.v ===== *)
(** * OSDP-Embedded in Rocq

    A shallow embedding of the C library OSDP-Embedded - the Open Supervised Device
    Protocol for a reader (PD) and a control unit (ACU) - with its AES backend, its cipher
    ports and three of its host programs, and the theorems that make them correct.

    ** How the program is put together

    core/ is what both sides share: frames, the byte-stream decoder, payload codecs,
    multi-part messages, indicator resolvers and the Secure Channel.  pd/ is the reader's
    state machine, acu/ the control unit's; each is one context structure driven by
    osdp_*_tick and by host callbacks (transport, clock, cipher, application).  vendor/tiny-aes
    and ports/ give the cipher; tools/ are host programs.

    ** How C is modelled

    - A byte, uint16_t or uint32_t is a [Z], reduced with [u8], [u16], [u32] where the code's
      arithmetic or a cast wraps; a size_t is a [nat].
    - A pointer is [NULL] or the region the program may use through it; every access is
      checked, and [None] is undefined behaviour (this file).  An out parameter is an option
      in and an option out, [None] the null pointer.
    - A structure is a [Record] with the C fields under a prefix, an enum an [Inductive].  A
      function on a context is a computation [M S W] (State.v) on the context [S] and the host's
      world [W], which stands for everything behind the callbacks' user pointers.
    - A callback is a function on [W]; those of the ACU for replies, timeouts and Secure
      Channel events may call the ACU back ([AcuTypes.cb_action], [AcuCmd.run_callback]).
    - A loop is a [Fixpoint], structural or with fuel.  Running out of fuel is [None] too, so
      every "is defined" below is also "ends".

    ** Files, in dependency order

    core/
    - Types.v: osdp_types.h.  Pack.v: shared/pack.h.  State.v: the monad and its logic [wp].
    - Codec.v: the interface [Codec] and its laws [CodecLaws], one instance per message in
      Commands.v (commands/cmd_*.c) and Replies.v (replies/reply_*.c); Records.v: the payloads
      that carry lists, and osdp_pdcap_validate.
    - Indicators.v: led_state.c, buz_state.c.  Integrity.v: crc16.c, checksum.c.
    - Frame.v: frame.c.  Dispatch.v: dispatch_classify.c and Annex A.  Stream.v: stream.c.
      Multipart.v: multipart.c.
    - ScCrypto.v: sc/keys.c, cbc.c, mac.c, payload.c.  ScFrame.v: sc/session.c, wrap.c.

    pd/
    - PdTypes.v: osdp_pd.h, initialisation and setters.  PdEvents.v, PdPdcap.v, PdBanks.v,
      PdFile.v, PdDispatch.v, PdSc.v, Pd.v: the parts of pd.c, pd_pdcap.c, pd_dispatch.c and
      pd_sc.c named in their headers; [Pd.osdp_pd_tick] is the tick.
    - PdInv.v, PdSafe.v, PdReach.v: the invariant [pd_inv], its preservation by every
      function, and the API as a transition system.  PdLeds.v, PdSpec.v: what the PD promises.

    acu/
    - AcuTypes.v, AcuBanks.v, AcuCmd.v, AcuSc.v, Acu.v: osdp_acu.h, acu_sc.c and acu.c;
      AcuCmd.v is what the unit sends and how it runs a callback that sends.
    - AcuSlot.v: a logic for computations on one slot; AcuInv.v, AcuSafe.v, AcuReach.v as for
      the PD; AcuSpec.v: timeouts and clear-text replies.

    Both sides
    - Link.v, Steps.v: the two contexts on one line.  Handshake.v, Session.v: what they reach
      together on a line without loss.  Lossy.v: what they reach when it loses messages.

    Cipher and tools
    - Aes.v: vendor/tiny-aes/aes.c.  Ports.v: ports/tiny, ports/wolfcrypt, the tools'
      aes_adapter.c.
    - Osdpcap.v, Parser.v: tools/osdp-parser.  Serial.v, PdMock.v: tools/osdp-pd-mock.
      AcuMock.v: tools/osdp-acu-mock.  ToolText.v: what both command lines are read with.

    ** What the theorems show

    - Safety and termination: whatever bytes arrive and whatever admissible calls a host makes,
      the PD ([PdReach.pd_never_undefined]), the ACU ([AcuReach.acu_never_undefined]), the
      capture inspector ([Parser.parser_total]) and the mock PD and ACU
      ([PdMock.pd_mock_total], [AcuMock.acu_mock_total]) are defined, end, and keep their
      invariants; the ACU also when its callbacks call it back.
    - Both sides together: the handshake ends in one session
      ([Handshake.handshake_agreement]), and the commands the PD's application serves itself
      (not those the library handles; at most 111 bytes each way; never deferred) are remote
      procedure calls under it, each executed once, in order
      ([Session.secured_calls_refine_rpc]), also when the line loses commands and replies and
      they have to be repeated ([Lossy.lossy_line_exactly_once]).
    - Secure Channel: wrapped traffic stays in step, an accepted frame is one the key holder
      sealed ([ScFrame]), the primitives are Annex D's ([ScCrypto]), and the cipher behind
      them is FIPS 197 ([Aes], [Ports]).
    - Refinement: the event queue is a first-in first-out list as long as events fit the
      reply scratch (a larger one is accepted, and lost on its poll), the LED bank a finite
      map, the file receiver a transfer, the framer a parser of the concatenated input if the
      noise in it has no start-of-message byte, the fragmenter and the reassembler the identity.
    - Round trips and canonicity of frames, of every payload codec (those with a structure and
      those without a payload in Commands.v and Replies.v, the record lists in Records.v),
      NULL arguments included, and of capture lines; the CRC is Annex C's register.
    - Behaviour on the line: retransmission, clear-text policy, forged commands (ignored, but
      for the retransmit record they overwrite), KEYSET and osdp_CAP ([PdSpec]); timeouts and
      reply matching ([AcuSpec]).
    - Errors the code makes: [Session.busy_reply_ends_session],
      [AcuMock.acu_mock_lost_challenge] and the lemmas [Osdpcap.osdpcap_lossy_lines] and
      [PdMock.hex_key_accepts_signs].

    ** Fuel and bounds

    - The drain and frame loops of a tick have [S OSDP_STREAM_BUFFER_LEN] turns: a turn that
      goes on has taken a byte of a budget of that many, or consumed a buffered byte.
    - [send_loop] has [S len]: a turn that goes on has sent a byte.  [decode_loop] has one
      more turn than buffered bytes, [read_lines] one more than the bytes of the file.
    - The AES rounds have as many turns as rounds, CBC as many as bytes.
      [Serial.write_fuel] is what a driver that refuses at most [patience] times a byte needs.
    - The theorems above prove each of them enough.

    ** Hypotheses

    The cipher is a vtable whose laws ([ScCrypto.Aes], [PdInv.cipher_ok]) the shipped ports are
    proved to satisfy; wolfCrypt, the C library's generator and clock and the POSIX calls are
    classes of operations with their documented behaviour ([WolfLaws], [PosixLaws]), each
    with a concrete instance.  Storage given to the library does not overlap, as its headers
    ask.

    ** Not modelled

    - A NULL context given to the functions that are computations on it (they return at once).
    - Callbacks that call back into the library, other than the ACU's three with its two
      sending functions.  serial_posix.c of tools/osdp-acu-mock, a copy of the PD tool's.
    - Aliasing between the regions of one context, uninitialised memory other than as an
      arbitrary argument, stack and code size.
    - The texts programs print (their values are) and Win32 I/O (serial_win.c).
    - On the line of Link.v, whole messages arrive or are lost (Lossy.v); chunks, noise and
      corruption are shown of each side alone ([Stream], [Frame], [PdReach], [AcuReach]).  The
      ACU has a clock there, the PD none.
    - AES-192 and AES-256, which the build does not compile; tools/osdp-mcp (Rust); tests and
      examples.

    ** What could be added

    The LED and buzzer callbacks, and those of the PD, as computations on the context; the
    PD's multi-part MFG exchange against Multipart.v. *)
From stdpp Require Export base list option numbers tactics.
From Stdlib Require Export ZArith Lia.

(** Bytes, words and the memory of the C program.

    A byte, a [uint16_t] or a [uint32_t] is a [Z] with its range written out
    where it matters; [size_t] is [nat].  A pointer is either [NULL] or the
    region the program may access through it.  Every access is checked: an
    access outside the region gives [None], which stands for undefined
    behaviour of the C program. *)

Declare Scope osdp_scope.
Delimit Scope osdp_scope with osdp.
Global Open Scope osdp_scope.

Notation "'Ret' x" := (Some x) (at level 10, only parsing) : osdp_scope.
Notation "'UB'" := None (only parsing) : osdp_scope.

Definition is_byte (b : Z) : Prop := (0 ≤ b < 256)%Z.
Definition is_u16 (v : Z) : Prop := (0 ≤ v < 65536)%Z.
Definition is_u32 (v : Z) : Prop := (0 ≤ v < 4294967296)%Z.

Definition u8 (v : Z) : Z := (v mod 256)%Z.
Definition u16 (v : Z) : Z := (v mod 65536)%Z.
Definition u32 (v : Z) : Z := (v mod 4294967296)%Z.

#[export] Instance is_byte_dec b : Decision (is_byte b).
Proof. unfold is_byte. apply _. Defined.
#[export] Instance is_u16_dec v : Decision (is_u16 v).
Proof. unfold is_u16. apply _. Defined.
#[export] Instance is_u32_dec v : Decision (is_u32 v).
Proof. unfold is_u32. apply _. Defined.

Abbreviation bytes_ok := (Forall is_byte).

(** ** Checked memory *)

(** [memcpy] source: [n] bytes from offset [off]. *)
Definition mslice (m : list Z) (off n : nat) : option (list Z) :=
  if decide (off + n ≤ length m) then Ret (take n (drop off m)) else UB.

(** [memcpy]/assignment destination: store [bs] from offset [off]. *)
Definition mwr (m : list Z) (off : nat) (bs : list Z) : option (list Z) :=
  if decide (off + length bs ≤ length m)
  then Ret (take off m ++ bs ++ drop (off + length bs) m) else UB.

Inductive ptr : Type :=
  | NULL
  | Ptr (mem : list Z).

#[export] Instance ptr_eq_dec : EqDecision ptr.
Proof. solve_decision. Defined.

Definition is_null (p : ptr) : bool := match p with NULL => true | Ptr _ => false end.

Definition rd (p : ptr) (i : nat) : option Z :=
  match p with NULL => UB | Ptr m => m !! i end.

Definition rd_slice (p : ptr) (off n : nat) : option (list Z) :=
  match p with NULL => UB | Ptr m => mslice m off n end.

Definition wr (p : ptr) (off : nat) (bs : list Z) : option ptr :=
  match p with NULL => UB | Ptr m => Ptr <$> mwr m off bs end.

(** The bytes a [(pointer, length)] pair designates. *)
Definition view (p : ptr) (n : nat) : list Z :=
  match p with NULL => [] | Ptr m => take n m end.

(** [(n > 0) ? &p[off] : NULL], as a region of exactly [n] bytes. *)
Definition sub_ptr (p : ptr) (off n : nat) : option ptr :=
  if decide (0 < n) then Ptr <$> rd_slice p off n else Ret NULL.

(** ** Little-endian integers *)

Fixpoint le_split (n : nat) (v : Z) : list Z :=
  match n with
  | O => []
  | S n => Z.land v 0xFF :: le_split n (Z.shiftr v 8)
  end.

Fixpoint le_combine (bs : list Z) : Z :=
  match bs with
  | [] => 0%Z
  | b :: bs => Z.lor b (Z.shiftl (le_combine bs) 8)
  end.

(** The 256 byte values. *)
Definition z256 : list Z := Z.of_nat <$> seq 0 256.

(** The monadic loop [for (i = k; i < k + n; i++)] over a state. *)
Fixpoint for_loop {A} (body : nat → A → option A) (i n : nat) (a : A) : option A :=
  match n with
  | O => Ret a
  | S n => a ← body i a; for_loop body (S i) n a
  end.

(** ** Automation *)

Create HintDb osdp.

(** Opens conjunctions and existentials in hypotheses. *)
Ltac deex :=
  repeat match goal with
         | H : ∃ _, _ |- _ => destruct H as [? H]
         | H : _ ∧ _ |- _ => destruct H
         end.

(** Case analysis on every [if decide]/[match] the goal is stuck on, closing
    arithmetic contradictions. *)
Ltac by_cases :=
  repeat first
    [ progress simplify_eq/=
    | case_decide; try (exfalso; lia) ].

(** Proves a decidable closed goal by evaluation. *)
Ltac vm_decide :=
  match goal with
  | |- ?P => let D := constr:(_ : Decision P) in
             refine (@bool_decide_unpack P D _); vm_compute; exact I
  end.

Ltac solve_len :=
  repeat first
    [ rewrite length_app | rewrite length_take | rewrite length_drop
    | rewrite length_replicate | rewrite length_fmap ];
  simpl; try lia.

(** ** Facts on bytes and words *)

Lemma u8_byte v : is_byte (u8 v).
Proof. unfold is_byte, u8. apply Z.mod_pos_bound. lia. Qed.

Lemma u16_range v : is_u16 (u16 v).
Proof. unfold is_u16, u16. apply Z.mod_pos_bound. lia. Qed.

Lemma u32_range v : is_u32 (u32 v).
Proof. unfold is_u32, u32. apply Z.mod_pos_bound. lia. Qed.

Lemma u8_id v : is_byte v → u8 v = v.
Proof. intros. apply Z.mod_small. done. Qed.

Lemma u16_id v : is_u16 v → u16 v = v.
Proof. intros. apply Z.mod_small. done. Qed.

Lemma u32_id v : is_u32 v → u32 v = v.
Proof. intros. apply Z.mod_small. done. Qed.

Lemma land_FF v : Z.land v 0xFF = u8 v.
Proof. unfold u8. change 0xFF%Z with (Z.ones 8). by rewrite Z.land_ones by lia. Qed.

Lemma land_FF_byte v : is_byte (Z.land v 0xFF).
Proof. rewrite land_FF. apply u8_byte. Qed.

Lemma byte_lxor a b : is_byte a → is_byte b → is_byte (Z.lxor a b).
Proof.
  intros Ha Hb. unfold is_byte in *. split; [apply Z.lxor_nonneg; lia|].
  change 256%Z with (2 ^ 8)%Z.
  destruct (Z.eq_dec (Z.lxor a b) 0) as [->|Hne]; [done|].
  assert (0 ≤ Z.lxor a b)%Z by (apply Z.lxor_nonneg; lia).
  apply Z.log2_lt_pow2; [lia|]. eapply Z.le_lt_trans; [apply Z.log2_lxor; lia|].
  apply Z.max_lub_lt.
  - destruct (Z.eq_dec a 0) as [->|]; [done|]. apply Z.log2_lt_pow2; lia.
  - destruct (Z.eq_dec b 0) as [->|]; [done|]. apply Z.log2_lt_pow2; lia.
Qed.

#[export] Hint Resolve u8_byte u16_range u32_range land_FF_byte : osdp.

Lemma testbit_high n a i : (0 ≤ a < 2 ^ n)%Z → (0 ≤ n ≤ i)%Z → Z.testbit a i = false.
Proof.
  intros. rewrite <-(Z.mod_small a (2 ^ n)) by done. by apply Z.mod_pow2_bits_high.
Qed.

(** Bitwise operations on a pair (low part below 2^n, high part shifted). *)
Lemma lor_shiftl_add n a b :
  (0 ≤ n)%Z → (0 ≤ a < 2 ^ n)%Z → Z.lor a (Z.shiftl b n) = (a + b * 2 ^ n)%Z.
Proof.
  intros Hn Ha. rewrite Z.shiftl_mul_pow2 by done.
  assert (∀ i, (0 ≤ i)%Z → Z.testbit a i = false ∨ Z.testbit (b * 2 ^ n) i = false) as Hd.
  { intros i Hi. destruct (decide (i < n)%Z).
    - right. by apply Z.mul_pow2_bits_low.
    - left. apply (testbit_high n); [done|lia]. }
  rewrite Z.add_nocarry_lxor; apply Z.bits_inj'; intros i Hi;
    rewrite ?Z.lxor_spec, ?Z.lor_spec, ?Z.land_spec, ?Z.bits_0;
    destruct (Hd i Hi) as [-> | ->]; by rewrite ?xorb_false_r, ?orb_false_r, ?andb_false_r.
Qed.

Lemma lor_byte_shiftl a b : is_byte a → Z.lor a (Z.shiftl b 8) = (a + b * 256)%Z.
Proof. intros. by apply (lor_shiftl_add 8). Qed.

Lemma elem_z256 v : is_byte v → v ∈ z256.
Proof.
  intros [? ?]. unfold z256. apply list_elem_of_fmap. exists (Z.to_nat v).
  split; [lia|]. apply elem_of_seq. lia.
Qed.

(** A boolean check of the 256 byte values is a universal statement. *)
Lemma z256_forall (f : Z → bool) v : forallb f z256 = true → is_byte v → f v = true.
Proof.
  intros Hf Hv. rewrite forallb_forall in Hf.
  by apply Hf, list_elem_of_In, elem_z256.
Qed.

(** Exhaustive check of a decidable statement over bytes. *)
Lemma byte_forall (P : Z → Prop) {D : ∀ v, Decision (P v)} v :
  forallb (λ v, bool_decide (P v)) z256 = true → is_byte v → P v.
Proof.
  intros Hf Hv. apply (z256_forall (λ v, bool_decide (P v)) v Hf) in Hv.
  by apply bool_decide_eq_true in Hv.
Qed.

(** Proves a decidable statement about the byte [v] by evaluating it at all
    256 values. *)
Ltac check_bytes v :=
  cbv zeta; pattern v;
  match goal with
  | |- ?P v => refine (byte_forall P v _ _); [vm_compute; reflexivity | try done]
  end.

(** ** Facts on little-endian integers *)

Lemma length_le_split n v : length (le_split n v) = n.
Proof. revert v. induction n; simpl; auto. Qed.

Lemma le_split_bytes n v : bytes_ok (le_split n v).
Proof. revert v. induction n; constructor; auto with osdp. Qed.

Lemma le_combine_split n v :
  le_combine (le_split n v) = (v mod 2 ^ (8 * Z.of_nat n))%Z.
Proof.
  revert v. induction n as [|n IH]; intros v.
  { simpl. by rewrite Z.mod_1_r. }
  cbn [le_split le_combine]. rewrite IH, lor_byte_shiftl by apply land_FF_byte.
  rewrite land_FF. unfold u8. rewrite Z.shiftr_div_pow2 by lia.
  replace (8 * Z.of_nat (S n))%Z with (8 + 8 * Z.of_nat n)%Z by lia.
  rewrite Z.pow_add_r by lia. change (2 ^ 8)%Z with 256%Z.
  rewrite Z.rem_mul_r by (try apply Z.pow_nonzero; lia). lia.
Qed.

Lemma le_split_combine bs : bytes_ok bs → le_split (length bs) (le_combine bs) = bs.
Proof.
  induction 1 as [|b bs Hb Hbs IH]; [done|].
  cbn [length le_split le_combine]. rewrite lor_byte_shiftl by done. f_equal.
  - rewrite land_FF. unfold u8. rewrite Z.mod_add by lia. by apply Z.mod_small.
  - rewrite Z.shiftr_div_pow2 by lia. change (2 ^ 8)%Z with 256%Z.
    rewrite Z.div_add by lia. rewrite (Z.div_small b) by done. by rewrite Z.add_0_l.
Qed.

Lemma le_combine_bound bs :
  bytes_ok bs → (0 ≤ le_combine bs < 2 ^ (8 * Z.of_nat (length bs)))%Z.
Proof.
  intros Hbs. rewrite <-(le_split_combine bs Hbs) at 1 2.
  rewrite le_combine_split. apply Z.mod_pos_bound. apply Z.pow_pos_nonneg; lia.
Qed.

(** ** Facts on checked memory *)

Lemma mslice_Some m off n :
  off + n ≤ length m → mslice m off n = Some (take n (drop off m)).
Proof. intros. unfold mslice. by rewrite decide_True. Qed.

Lemma mslice_inv m off n bs :
  mslice m off n = Some bs → bs = take n (drop off m) ∧ length bs = n ∧ off + n ≤ length m.
Proof. unfold mslice. intros. by_cases. split_and!; [done| |done]. solve_len. Qed.

Lemma mwr_Some m off bs :
  off + length bs ≤ length m →
  mwr m off bs = Some (take off m ++ bs ++ drop (off + length bs) m).
Proof. intros. unfold mwr. by rewrite decide_True. Qed.

Lemma mwr_length m off bs m' : mwr m off bs = Some m' → length m' = length m.
Proof. unfold mwr. intros. by_cases. solve_len. Qed.

Lemma mwr_bytes m off bs m' :
  mwr m off bs = Some m' → bytes_ok m → bytes_ok bs → bytes_ok m'.
Proof.
  unfold mwr. intros. by_cases.
  apply Forall_app; split; [by apply Forall_take|].
  apply Forall_app; split; [done|by apply Forall_drop].
Qed.

Lemma mwr_0 m bs : length bs ≤ length m → mwr m 0 bs = Some (bs ++ drop (length bs) m).
Proof. intros. by rewrite mwr_Some. Qed.

(** Overwriting right after a known prefix. *)
Lemma mwr_app pre m off bs :
  off = length pre → length bs ≤ length m →
  mwr (pre ++ m) off bs = Some ((pre ++ bs) ++ drop (length bs) m).
Proof.
  intros -> ?. rewrite mwr_Some by solve_len.
  rewrite take_app_length, <-drop_drop, drop_app_length, <-app_assoc. done.
Qed.

Lemma mslice_app pre m off n :
  off = length pre → n ≤ length m → mslice (pre ++ m) off n = Some (take n m).
Proof.
  intros -> ?. rewrite mslice_Some by solve_len. by rewrite drop_app_length.
Qed.

Lemma sub_ptr_pos p off n : 0 < n → sub_ptr p off n = Ptr <$> rd_slice p off n.
Proof. intros. unfold sub_ptr. by rewrite decide_True. Qed.

Lemma sub_ptr_0 p off : sub_ptr p off 0 = Some NULL.
Proof. done. Qed.

(** Region of a decoded slice: [NULL] when empty, exactly the bytes otherwise. *)
Definition slice_ptr (bs : list Z) : ptr := if decide (0 < length bs) then Ptr bs else NULL.

Lemma sub_ptr_Ptr m off n :
  off + n ≤ length m → sub_ptr (Ptr m) off n = Some (slice_ptr (take n (drop off m))).
Proof.
  intros. unfold sub_ptr, slice_ptr. rewrite length_take, length_drop.
  replace (n `min` (length m - off)) with n by lia.
  case_decide; [|done]. simpl. by rewrite mslice_Some.
Qed.

Lemma view_slice_ptr bs : view (slice_ptr bs) (length bs) = bs.
Proof.
  unfold slice_ptr. case_decide; simpl; [by rewrite firstn_all|].
  destruct bs; simpl in *; [done|lia].
Qed.

(** Rewriting with this keeps the rest of a long computation folded. *)
Lemma bind_Some {A B} (x : A) (f : A → option B) : Some x ≫= f = f x.
Proof. done. Qed.

Lemma for_loop_S {A} (body : nat → A → option A) i n a :
  for_loop body i (S n) a = a ← body i a; for_loop body (S i) n a.
Proof. done. Qed.

Lemma for_loop_ext {A} (f g : nat → A → option A) i n a :
  (∀ j x, i ≤ j < i + n → f j x = g j x) → for_loop f i n a = for_loop g i n a.
Proof.
  revert i a. induction n as [|n IH]; intros i a H; [done|].
  rewrite !for_loop_S, (H i) by lia. destruct (g i a); [|done]. apply IH. intros. apply H. lia.
Qed.

Lemma for_loop_app {A} (body : nat → A → option A) i n k a :
  for_loop body i (n + k) a = a ← for_loop body i n a; for_loop body (i + n) k a.
Proof.
  revert i a. induction n as [|n IH]; intros i a; simpl.
  { by rewrite Nat.add_0_r. }
  destruct (body i a) as [a'|]; simpl; [|done]. rewrite IH.
  by replace (S i + n) with (i + S n) by lia.
Qed.

Lemma rd_app pre x suf i : i = length pre → rd (Ptr (pre ++ x :: suf)) i = Some x.
Proof. intros ->. simpl. by apply list_lookup_middle. Qed.

(** A read past a known prefix. *)
Lemma rd_prefix pre bs i j : i = length pre + j → rd (Ptr (pre ++ bs)) i = bs !! j.
Proof. intros ->. simpl. by rewrite lookup_app_r, Nat.add_comm, Nat.add_sub by lia. Qed.

Lemma sub_ptr_app pre bs suf off n :
  off = length pre → n = length bs → sub_ptr (Ptr (pre ++ bs ++ suf)) off n = Some (slice_ptr bs).
Proof.
  intros -> ->. rewrite sub_ptr_Ptr by solve_len. by rewrite drop_app_length, take_app_length.
Qed.

Lemma le16 v : Z.lor (Z.land v 0xFF) (Z.shiftl (Z.land (Z.shiftr v 8) 0xFF) 8) = u16 v.
Proof.
  pose proof (le_combine_split 2 v) as H. cbn [le_split le_combine] in H.
  rewrite Z.shiftl_0_l, Z.lor_0_r in H. by rewrite H.
Qed.

Lemma le16_join a b :
  is_byte a → is_byte b →
  le_split 2 (Z.lor a (Z.shiftl b 8)) = [a; b] ∧ is_u16 (Z.lor a (Z.shiftl b 8)).
Proof.
  intros Ha Hb. split.
  - pose proof (le_split_combine [a; b] ltac:(by repeat constructor; apply Ha || apply Hb)) as H.
    cbn [le_combine length] in H. by rewrite Z.shiftl_0_l, Z.lor_0_r in H.
  - rewrite lor_byte_shiftl by done. unfold is_u16, is_byte in *. lia.
Qed.

(** A 16-bit value is determined by its two bytes. *)
Lemma le_split_u16_inj a b : is_u16 a → is_u16 b → le_split 2 a = le_split 2 b → a = b.
Proof.
  intros Ha Hb H. apply (f_equal le_combine) in H. rewrite !le_combine_split in H.
  change (2 ^ (8 * Z.of_nat 2))%Z with 65536%Z in H. unfold is_u16 in *.
  by rewrite !Z.mod_small in H.
Qed.

(** ** Slices *)

(** A slice pointer designates at least the bytes its length claims, and they
    are bytes. *)
Definition region_ok (p : ptr) (n : nat) : Prop :=
  match p with NULL => True | Ptr m => n ≤ length m ∧ bytes_ok m end.

#[export] Instance region_ok_dec p n : Decision (region_ok p n).
Proof. destruct p; simpl; apply _. Defined.

Lemma length_view p n : region_ok p n → (0 < n → p ≠ NULL) → length (view p n) = n.
Proof.
  destruct p as [|m]; simpl; intros H Hn.
  - destruct n; [done|]. by destruct Hn; [lia|].
  - rewrite length_take. lia.
Qed.

Lemma view_bytes p n : region_ok p n → bytes_ok (view p n).
Proof. destruct p as [|m]; simpl; [constructor|]. intros [_ ?]. by apply Forall_take. Qed.

Lemma view_le p n k : k ≤ n → region_ok p n → region_ok p k.
Proof. destruct p; simpl; [done|]. intros ? []. split; [lia|done]. Qed.

(** A slice of the input. *)
Definition sl (m : list Z) (i n : nat) : list Z := take n (drop i m).

Lemma sl_length m i n : i + n ≤ length m → length (sl m i n) = n.
Proof. intros. unfold sl. solve_len. Qed.

Lemma sl_bytes m i n : bytes_ok m → bytes_ok (sl m i n).
Proof. intros. by apply Forall_take, Forall_drop. Qed.

Lemma sl_app m i a b : sl m i a ++ sl m (i + a) b = sl m i (a + b).
Proof. unfold sl. by rewrite <-drop_drop, take_take_drop. Qed.

Lemma sl_one m i x : m !! i = Some x → sl m i 1 = [x].
Proof. intros H. unfold sl. by rewrite (drop_S m x i H). Qed.

Lemma sl_region m i n : bytes_ok m → i + n ≤ length m → region_ok (slice_ptr (sl m i n)) n.
Proof.
  intros Hm Hl. unfold slice_ptr. case_decide; simpl; [|done].
  rewrite sl_length by done. split; [done|by apply sl_bytes].
Qed.

Lemma sl_view m i n : i + n ≤ length m → view (slice_ptr (sl m i n)) n = sl m i n.
Proof. intros. rewrite <-(sl_length m i n) at 2 by done. apply view_slice_ptr. Qed.

Lemma sl_notnull m i n : i + n ≤ length m → 0 < n → slice_ptr (sl m i n) ≠ NULL.
Proof. intros. unfold slice_ptr. rewrite sl_length, decide_True by done. done. Qed.

Lemma rd_byte m i : bytes_ok m → i < length m → ∃ b, rd (Ptr m) i = Some b ∧ m !! i = Some b ∧ is_byte b.
Proof.
  intros Hm Hi. destruct (lookup_lt_is_Some_2 m i Hi) as [b Hb].
  exists b. split_and!; [done|done|]. by eapply Forall_lookup_1.
Qed.

Lemma rd_slice_app pre bs suf off n :
  off = length pre → n = length bs → rd_slice (Ptr (pre ++ bs ++ suf)) off n = Some bs.
Proof.
  intros -> ->. simpl. rewrite mslice_app by solve_len. by rewrite take_app_length.
Qed.

Lemma rd_slice_view p n :
  region_ok p n → p ≠ NULL → rd_slice p 0 n = Some (view p n).
Proof.
  destruct p as [|m]; [done|]. intros [? _] _. simpl. by rewrite mslice_Some, drop_0 by lia.
Qed.

(** ** Pointwise view of stores and slices *)

Lemma mwr_lookup m off bs m' i :
  mwr m off bs = Some m' →
  m' !! i = if decide (off ≤ i < off + length bs) then bs !! (i - off) else m !! i.
Proof.
  unfold mwr. intros. by_cases.
  - rewrite lookup_app_r by solve_len. rewrite length_take_le by lia.
    by rewrite lookup_app_l by lia.
  - destruct (decide (i < off)).
    + rewrite lookup_app_l by solve_len. by rewrite lookup_take_lt.
    + rewrite lookup_app_r by solve_len. rewrite length_take_le by lia.
      rewrite lookup_app_r by lia. rewrite lookup_drop. f_equal. lia.
Qed.

Lemma sl_lookup m i n k : k < n → sl m i n !! k = m !! (i + k).
Proof. intros. unfold sl. by rewrite lookup_take_lt, lookup_drop. Qed.

(** Two lists agree on their first [k] elements. *)
Definition agree (a b : list Z) (k : nat) : Prop := ∀ i, i < k → a !! i = b !! i.

Lemma agree_take a b k : k ≤ length a → k ≤ length b → agree a b k ↔ take k a = take k b.
Proof.
  intros Ha Hb. split.
  - intros H. apply list_eq. intros i. destruct (decide (i < k)).
    + rewrite !lookup_take_lt by done. by apply H.
    + rewrite !lookup_take_ge by lia. done.
  - intros H i Hi. rewrite <-(lookup_take_lt a k i Hi), <-(lookup_take_lt b k i Hi). by rewrite H.
Qed.

(** Storing a slice of [b] at its own place extends the agreement. *)
Lemma agree_mwr a b k o n a' :
  agree a b k → o ≤ k → o + n ≤ length b → mwr a o (sl b o n) = Some a' →
  agree a' b (k `max` (o + n)).
Proof.
  intros Hag Ho Hn Hw i Hi. pose proof (sl_length b o n Hn) as Hl.
  rewrite (mwr_lookup _ _ _ _ i Hw). case_decide as Hin.
  - rewrite sl_lookup by lia. f_equal. lia.
  - apply Hag. lia.
Qed.
