(* ===== verification/Types.v ===== *)
(** * Status codes shared by every component (core/include/osdp/osdp_types.h) *)
From S2P Require Import Prelude.

Inductive osdp_status : Type :=
  | OSDP_OK
  | OSDP_ERR_INVALID_ARG
  | OSDP_ERR_BUFFER_TOO_SMALL
  | OSDP_ERR_TRUNCATED
  | OSDP_ERR_BAD_SOM
  | OSDP_ERR_BAD_LENGTH
  | OSDP_ERR_BAD_CTRL
  | OSDP_ERR_BAD_CRC
  | OSDP_ERR_BAD_CHECKSUM
  | OSDP_ERR_BAD_PAYLOAD
  | OSDP_ERR_NOT_SUPPORTED
  | OSDP_ERR_BUSY.

#[export] Instance osdp_status_eq_dec : EqDecision osdp_status.
Proof. solve_decision. Defined.
