(* ===== verification/State.v ===== *)
(** * Stateful code: the context monad and record update

    A function that works on a context structure of the program (osdp_pd_t,
    osdp_acu_t) and calls the host through callbacks is a computation over the
    context [S] and the host's world [W].  [None] is still undefined
    behaviour.  [set f g r] is [r] with the field [f] changed by [g], for the
    structures that declare how they are rebuilt ([Settable]). *)
From S2P Require Import Prelude.

(** ** Record update *)

(** [settable] rebuilds a structure from its fields. *)
Class Settable (R : Type) : Type := settable : R → R.

Class Setter {R E : Type} (f : R → E) : Type := set : (E → E) → R → R.
Arguments set {R E} f {_} _ _.

(** The setter of [f]: the rebuilding function with [f r] replaced. *)
Ltac derive_setter f :=
  match type of f with
  | ?R → ?E =>
      let inst := constr:(_ : Settable R) in
      let h := eval hnf in inst in
      let a := eval pattern f in h in
      match a with
      | ?F _ => exact (λ (g : E → E), F (λ r : R, g (f r)))
      end
  end.

#[export] Hint Extern 1 (Setter ?f) => (derive_setter f) : typeclass_instances.

(** [r <| f := v |>] *)
Notation "r <| f := v |>" := (set f (λ _, v) r)
  (at level 1, left associativity, f at level 10, v at level 200) : osdp_scope.

(** ** The monad *)

Definition M (S W A : Type) : Type := S → W → option (A * S * W).

#[export] Instance M_ret {S W} : MRet (M S W) := λ A a s w, Some (a, s, w).
#[export] Instance M_bind {S W} : MBind (M S W) :=
  λ A B k m s w, '(a, s, w) ← m s w; k a s w.

Section ops.
Context {S W : Type}.

Definition ret {A} (a : A) : M S W A := mret a.

(** [f(ctx)], read only. *)
Definition gets {A} (f : S → A) : M S W A := λ s w, Some (f s, s, w).

Definition modify (f : S → S) : M S W unit := λ s w, Some (tt, f s, w).

(** A checked computation on values. *)
Definition lift {A} (o : option A) : M S W A := λ s w, a ← o; Some (a, s, w).

(** A host callback. *)
Definition host {A} (f : W → A * W) : M S W A := λ s w, let '(a, w) := f w in Some (a, s, w).

Definition host_ (f : W → W) : M S W unit := λ s w, Some (tt, s, f w).

(** The loop [for (i = k; i < k + n; i++)]. *)
Fixpoint for_m (body : nat → M S W unit) (i n : nat) : M S W unit :=
  match n with
  | O => mret tt
  | Datatypes.S n => body i ;; for_m body (Datatypes.S i) n
  end.

(** Stepping through a computation. *)
Lemma run_ret {A} (a : A) s w : (mret a : M S W A) s w = Some (a, s, w).
Proof. done. Qed.

Lemma run_ret_bind {A B} (a : A) (k : A → M S W B) s w : (mret a ≫= k) s w = k a s w.
Proof. done. Qed.

Lemma run_gets {A B} (f : S → A) (k : A → M S W B) s w : (gets f ≫= k) s w = k (f s) s w.
Proof. done. Qed.

Lemma run_modify {B} (f : S → S) (k : unit → M S W B) s w : (modify f ≫= k) s w = k tt (f s) w.
Proof. done. Qed.

Lemma run_modify_end (f : S → S) s w : (modify f : M S W unit) s w = Some (tt, f s, w).
Proof. done. Qed.

Lemma run_lift {A B} (o : option A) a (k : A → M S W B) s w :
  o = Some a → (lift o ≫= k) s w = k a s w.
Proof. by intros ->. Qed.

Lemma run_lift_Some {A B} (a : A) (k : A → M S W B) s w : (lift (Some a) ≫= k) s w = k a s w.
Proof. done. Qed.

Lemma run_host {A B} (f : W → A * W) (k : A → M S W B) s w :
  (host f ≫= k) s w = k (f w).1 s (f w).2.
Proof. unfold host, mbind, M_bind. by destruct (f w). Qed.

Lemma run_host_ {B} (f : W → W) (k : unit → M S W B) s w : (host_ f ≫= k) s w = k tt s (f w).
Proof. done. Qed.

Lemma run_assoc {A B C} (m : M S W A) (k : A → M S W B) (k' : B → M S W C) s w :
  ((m ≫= k) ≫= k') s w = (m ≫= λ a, k a ≫= k') s w.
Proof. unfold mbind, M_bind. by destruct (m s w) as [[[]]|]. Qed.

Lemma run_bind {A B} (m : M S W A) (k : A → M S W B) s w a s' w' :
  m s w = Some (a, s', w') → (m ≫= k) s w = k a s' w'.
Proof. intros H. unfold mbind, M_bind. by rewrite H. Qed.

Lemma bind_inv {A B} (m : M S W A) (k : A → M S W B) s w r :
  (m ≫= k) s w = Some r → ∃ a s' w', m s w = Some (a, s', w') ∧ k a s' w' = Some r.
Proof.
  unfold mbind, M_bind. intros H. destruct (m s w) as [[[a s'] w']|] eqn:E; [|done].
  by exists a, s', w'.
Qed.

End ops.

(** One step of a computation whose values are known; checked accesses are left
    to [run_lift]. *)
Ltac m_step :=
  first
    [ rewrite run_gets | rewrite run_modify | rewrite run_modify_end | rewrite run_ret_bind
    | rewrite run_ret | rewrite run_host_ | rewrite run_lift_Some | rewrite run_assoc ]; cbv beta.

(** A field read through an update: of another field, or of the same one. *)
Class ReadOther {R E F : Type} (p : R → F) (f : R → E) {i : Setter f} : Prop :=
  read_other g r : p (set f g r) = p r.
Class ReadSame {R E : Type} (f : R → E) {i : Setter f} : Prop :=
  read_same g r : f (set f g r) = g (f r).

#[export] Hint Extern 1 (ReadOther _ _) => (intros ? ?; reflexivity) : typeclass_instances.
#[export] Hint Extern 1 (ReadSame _) => (intros ? ?; reflexivity) : typeclass_instances.

(** Reads fields through updates. *)
Ltac read_set :=
  repeat match goal with
         | |- context [?p (@set ?R ?E ?f ?i ?g ?r)] =>
             first [is_const p | match p with ?h _ => is_const h end];
             first [ rewrite (@read_other R E _ p f i _ g r) | rewrite (@read_same R E f i _ g r) ];
             cbv beta
         end.

Ltac m_run := repeat (m_step; read_set).

(** Takes the branch of a test [x ≠ x]. *)
Ltac m_ok := rewrite decide_False by (by intros []); m_run.

(** ** Total correctness

    [wp m Q s w]: from [s] and [w] the computation is defined and its result,
    context and world satisfy [Q]. *)

Definition wp {S W A} (m : M S W A) (Q : A → S → W → Prop) (s : S) (w : W) : Prop :=
  ∃ a s' w', m s w = Some (a, s', w') ∧ Q a s' w'.

Section wp.
Context {S W : Type}.
Implicit Types (s : S) (w : W).

Lemma wp_weaken {A} (m : M S W A) (Q Q' : A → S → W → Prop) s w :
  wp m Q s w → (∀ a s' w', Q a s' w' → Q' a s' w') → wp m Q' s w.
Proof. intros (a & s' & w' & Hm & HQ) H. exists a, s', w'. auto. Qed.

Lemma wp_run {A} (m : M S W A) (Q : A → S → W → Prop) s w a s' w' :
  m s w = Some (a, s', w') → Q a s' w' → wp m Q s w.
Proof. intros. by exists a, s', w'. Qed.

Lemma wp_ret {A} (a : A) (Q : A → S → W → Prop) s w : Q a s w → wp (mret a) Q s w.
Proof. by apply wp_run. Qed.

Lemma wp_bind {A B} (m : M S W A) (k : A → M S W B) (Q : B → S → W → Prop) s w :
  wp m (λ a s' w', wp (k a) Q s' w') s w → wp (m ≫= k) Q s w.
Proof.
  intros (a & s1 & w1 & Hm & b & s2 & w2 & Hk & HQ). exists b, s2, w2. split; [|done].
  by rewrite (run_bind _ _ _ _ _ _ _ Hm).
Qed.

Lemma wp_gets {A} (f : S → A) (Q : A → S → W → Prop) s w : Q (f s) s w → wp (gets f) Q s w.
Proof. by apply wp_run. Qed.

Lemma wp_modify (f : S → S) (Q : unit → S → W → Prop) s w : Q tt (f s) w → wp (modify f) Q s w.
Proof. by apply wp_run. Qed.

Lemma wp_lift {A} (o : option A) a (Q : A → S → W → Prop) s w :
  o = Some a → Q a s w → wp (lift o) Q s w.
Proof. intros -> ?. by apply (wp_run _ _ _ _ a s w). Qed.

Lemma wp_host {A} (f : W → A * W) (Q : A → S → W → Prop) s w :
  Q (f w).1 s (f w).2 → wp (host f) Q s w.
Proof. intros. apply (wp_run _ _ _ _ (f w).1 s (f w).2); [|done]. unfold host. by destruct (f w). Qed.

Lemma wp_host_ (f : W → W) (Q : unit → S → W → Prop) s w : Q tt s (f w) → wp (host_ f) Q s w.
Proof. by apply wp_run. Qed.

(** The loop rule: an invariant kept by the body. *)
Lemma wp_for (body : nat → M S W unit) (I : nat → S → W → Prop) i n s w :
  I i s w →
  (∀ j s w, i ≤ j < i + n → I j s w → wp (body j) (λ _ s w, I (Datatypes.S j) s w) s w) →
  wp (for_m body i n) (λ _ s w, I (i + n) s w) s w.
Proof.
  revert i s w. induction n as [|n IH]; intros i s w HI Hb; cbn [for_m].
  { apply wp_ret. by rewrite Nat.add_0_r. }
  apply wp_bind. eapply wp_weaken; [apply Hb; [lia|done]|]. intros [] s1 w1 H1. cbv beta.
  rewrite <-Nat.add_succ_comm. apply IH; [done|]. intros. apply Hb; [lia|done].
Qed.

End wp.

(** ** Invariants

    [triple I m Q]: from any context in [I] and any world, [m] is defined and
    leaves the context in [I], with a result in [Q]. *)
Definition triple {S W A} (I : S → Prop) (m : M S W A) (Q : A → Prop) : Prop :=
  ∀ s w, I s → wp m (λ a s' _, I s' ∧ Q a) s w.

Section triple.
Context {S W : Type} {I : S → Prop}.
Implicit Types (s : S) (w : W).

Lemma tr_weaken {A} (m : M S W A) (Q Q' : A → Prop) :
  triple I m Q → (∀ a, Q a → Q' a) → triple I m Q'.
Proof. intros Hm HQ s w Hs. eapply wp_weaken; [by apply Hm|]. intros a s' _ []. auto. Qed.

Lemma tr_bind {A B} (m : M S W A) (k : A → M S W B) Q Q' :
  triple I m Q → (∀ a, Q a → triple I (k a) Q') → triple I (m ≫= k) Q'.
Proof.
  intros Hm Hk s w Hs. apply wp_bind. eapply wp_weaken; [by apply Hm|].
  intros a s' w' [Hs' Ha]. by apply Hk.
Qed.

Lemma tr_ret {A} (a : A) (Q : A → Prop) : Q a → triple I (mret a : M S W A) Q.
Proof. intros ? s w Hs. by apply wp_ret. Qed.

Lemma tr_gets {A} (f : S → A) (Q : A → Prop) : (∀ s, I s → Q (f s)) → triple I (gets f : M S W A) Q.
Proof. intros H s w Hs. apply wp_gets. auto. Qed.

Lemma tr_modify (f : S → S) (Q : unit → Prop) :
  (∀ s, I s → I (f s)) → Q tt → triple I (modify f : M S W unit) Q.
Proof. intros H ? s w Hs. apply wp_modify. auto. Qed.

Lemma tr_lift {A} (o : option A) a (Q : A → Prop) : o = Some a → Q a → triple I (lift o : M S W A) Q.
Proof. intros E ? s w Hs. by apply (wp_lift _ _ _ _ _ E). Qed.

Lemma tr_host {A} (f : W → A * W) (Q : A → Prop) : (∀ w, Q (f w).1) → triple I (host f : M S W A) Q.
Proof. intros H s w Hs. apply wp_host. auto. Qed.

Lemma tr_host_ (f : W → W) (Q : unit → Prop) : Q tt → triple I (host_ f : M S W unit) Q.
Proof. intros ? s w Hs. by apply wp_host_. Qed.

Lemma tr_for (body : nat → M S W unit) i n :
  (∀ j, j < i + n → triple I (body j) (λ _, True)) → triple I (for_m body i n) (λ _, True).
Proof.
  revert i. induction n as [|n IH]; intros i Hb; cbn [for_m]; [by apply tr_ret|].
  eapply tr_bind; [apply Hb; lia|]. intros [] _. apply IH. intros j ?. apply Hb. lia.
Qed.

Lemma tr_get {A B} (f : S → A) (k : A → M S W B) Q :
  (∀ s, I s → triple I (k (f s)) Q) → triple I (gets f ≫= k) Q.
Proof. intros H s w Hs. apply wp_bind, wp_gets. by apply (H s Hs). Qed.

Lemma tr_lift_bind {A B} (o : option A) a (k : A → M S W B) Q :
  o = Some a → triple I (k a) Q → triple I (lift o ≫= k) Q.
Proof. intros E H. eapply tr_bind; [exact (tr_lift _ a (λ x, x = a) E eq_refl)|]. by intros ? ->. Qed.

Lemma tr_host_bind {A B} (f : W → A * W) (k : A → M S W B) Q :
  (∀ w, triple I (k (f w).1) Q) → triple I (host f ≫= k) Q.
Proof. intros H s w Hs. apply wp_bind, wp_host. by apply H. Qed.

Lemma tr_modify_bind {B} (f : S → S) (k : unit → M S W B) Q :
  (∀ s, I s → I (f s)) → triple I (k tt) Q → triple I (modify f ≫= k) Q.
Proof. intros H Hk s w Hs. apply wp_bind, wp_modify. by apply Hk, H. Qed.

End triple.

(** ** Invariants of the context and the world

    [stable J m]: if [m] is defined, it leaves the context and the world in [J].  For a
    conclusion about the world, next to a [triple] for definedness. *)
Definition stable {S W A} (J : S → W → Prop) (m : M S W A) : Prop :=
  ∀ s w a s' w', m s w = Some (a, s', w') → J s w → J s' w'.

Section stable.
Context {S W : Type} {J : S → W → Prop}.

Lemma st_ret {A} (a : A) : stable J (mret a : M S W A).
Proof. by intros s w a' s' w' [= <- <- <-]. Qed.

Lemma st_bind {A B} (m : M S W A) (k : A → M S W B) : stable J m → (∀ a, stable J (k a)) → stable J (m ≫= k).
Proof. intros Hm Hk s w b s' w' (a & s1 & w1 & E & E')%bind_inv H. by eapply Hk, Hm. Qed.

Lemma st_get {A B} (f : S → A) (k : A → M S W B) :
  (∀ s w, J s w → stable J (k (f s))) → stable J (gets f ≫= k).
Proof. intros Hk s w b s' w' E H. rewrite run_gets in E. by eapply Hk. Qed.

Lemma st_lift {A B} (o : option A) (k : A → M S W B) :
  (∀ a, o = Some a → stable J (k a)) → stable J (lift o ≫= k).
Proof.
  intros Hk s w b s' w' E H. destruct o as [a|]; [|done]. rewrite run_lift_Some in E. by eapply Hk.
Qed.

Lemma st_host {A B} (f : W → A * W) (k : A → M S W B) :
  (∀ s w, J s w → J s (f w).2 ∧ stable J (k (f w).1)) → stable J (host f ≫= k).
Proof.
  intros Hk s w b s' w' E H. rewrite run_host in E. destruct (Hk s w H) as [Hw Hr]. by eapply Hr.
Qed.

Lemma st_host_ (f : W → W) : (∀ s w, J s w → J s (f w)) → stable J (host_ f).
Proof. intros Hf s w b s' w' [= <- <- <-]. apply Hf. Qed.

Lemma st_modify (f : S → S) : (∀ s w, J s w → J (f s) w) → stable J (modify f : M S W unit).
Proof. intros Hf s w b s' w' [= <- <- <-]. apply Hf. Qed.

Lemma st_for (body : nat → M S W unit) i n : (∀ j, i ≤ j < i + n → stable J (body j)) → stable J (for_m body i n).
Proof.
  revert i. induction n as [|n IH]; intros i Hb; cbn [for_m]; [by apply st_ret|].
  apply st_bind; [apply Hb; lia|]. intros []. apply IH. intros j ?. apply Hb. lia.
Qed.

End stable.

(** ** What a computation leaves alone

    [keeps o m]: whatever [m] does, [o] of the context is the same after. *)
Definition keeps {S W X A} (o : S → X) (m : M S W A) : Prop :=
  ∀ s w a s' w', m s w = Some (a, s', w') → o s' = o s.

Section keeps.
Context {S W X : Type} (o : S → X).

Lemma keeps_ret {A} (a : A) : keeps o (mret a : M S W A).
Proof. by intros s w a' s' w' [= <- <- <-]. Qed.

Lemma keeps_gets {A} (f : S → A) : keeps o (gets f : M S W A).
Proof. by intros s w a' s' w' [= <- <- <-]. Qed.

Lemma keeps_lift {A} (x : option A) : keeps o (lift x : M S W A).
Proof. intros s w a' s' w'. unfold lift. destruct x; simpl; [|done]. by intros [= <- <- <-]. Qed.

Lemma keeps_host {A} (f : W → A * W) : keeps o (host f : M S W A).
Proof. intros s w a' s' w'. unfold host. destruct (f w). by intros [= <- <- <-]. Qed.

Lemma keeps_host_ (f : W → W) : keeps o (host_ f : M S W unit).
Proof. by intros s w a' s' w' [= <- <- <-]. Qed.

Lemma keeps_modify (f : S → S) : (∀ s, o (f s) = o s) → keeps o (modify f : M S W unit).
Proof. intros H s w a' s' w' [= <- <- <-]. apply H. Qed.

Lemma keeps_bind {A B} (m : M S W A) (k : A → M S W B) :
  keeps o m → (∀ a, keeps o (k a)) → keeps o (m ≫= k).
Proof.
  intros Hm Hk s w b s2 w2 H. apply bind_inv in H as (a & s1 & w1 & H1 & H2).
  rewrite (Hk a _ _ _ _ _ H2). by apply (Hm s w a s1 w1).
Qed.

Lemma keeps_for (body : nat → M S W unit) i n :
  (∀ j, keeps o (body j)) → keeps o (for_m body i n).
Proof.
  intros Hb. revert i. induction n as [|n IH]; intros i; cbn [for_m]; [apply keeps_ret|].
  apply keeps_bind; [done|]. intros []. apply IH.
Qed.

End keeps.

#[export] Hint Resolve keeps_ret keeps_gets keeps_lift keeps_host keeps_host_ : osdp.

(** Follows a computation through its binds and branches. *)
Ltac keeps_step :=
  repeat first
    [ progress intros
    | apply keeps_bind
    | solve [auto with osdp]
    | apply keeps_modify; intros; reflexivity
    | apply keeps_for
    | case_decide
    | match goal with |- keeps _ (match ?x with _ => _ end) => destruct x end
    | match goal with |- keeps _ (if ?x then _ else _) => destruct x end ].

(** Steps through a computation up to the first checked access, loop, call or
    branch. *)
Ltac wp_step :=
  first
    [ apply wp_bind; cbv beta | apply wp_gets | apply wp_modify | apply wp_ret | apply wp_host
    | apply wp_host_ ].
