(* ===== verification/Pack.v ===== *)
(** * Little-endian fields: core/src/shared/pack.h

    Reads and writes at an offset of a region, and their round trips. *)
From S2P Require Import Prelude.

Definition osdp_pack_read_u16le (p : ptr) (i : nat) : option Z :=
  p0 ← rd p i;
  p1 ← rd p (i + 1);
  Ret (u16 (Z.lor p0 (Z.shiftl p1 8))).

Definition osdp_pack_read_u32le (p : ptr) (i : nat) : option Z :=
  p0 ← rd p i;
  p1 ← rd p (i + 1);
  p2 ← rd p (i + 2);
  p3 ← rd p (i + 3);
  Ret (u32 (Z.lor (Z.lor (Z.lor p0 (Z.shiftl p1 8)) (Z.shiftl p2 16)) (Z.shiftl p3 24))).

Definition osdp_pack_write_u16le (p : ptr) (i : nat) (v : Z) : option ptr :=
  p ← wr p i [Z.land v 0xFF];
  wr p (i + 1) [Z.land (Z.shiftr v 8) 0xFF].

Definition osdp_pack_write_u32le (p : ptr) (i : nat) (v : Z) : option ptr :=
  p ← wr p i [Z.land v 0xFF];
  p ← wr p (i + 1) [Z.land (Z.shiftr v 8) 0xFF];
  p ← wr p (i + 2) [Z.land (Z.shiftr v 16) 0xFF];
  wr p (i + 3) [Z.land (Z.shiftr v 24) 0xFF].

(** ** Writes *)

(** Two adjacent stores are one. *)
Lemma wr_wr m i j a b :
  j = i + length a → i + length a + length b ≤ length m →
  (p ← wr (Ptr m) i a; wr p j b) = wr (Ptr m) i (a ++ b).
Proof.
  intros -> Hl. simpl. rewrite !mwr_Some by solve_len. simpl.
  rewrite mwr_Some by solve_len. simpl. do 2 f_equal.
  rewrite (app_assoc (take i m) a). rewrite take_app_length' by solve_len.
  rewrite <-!app_assoc. do 3 f_equal. 
  rewrite app_assoc, drop_app_ge by solve_len. rewrite drop_drop. f_equal. solve_len.
Qed.

Lemma write_u16le_ok m i v :
  i + 2 ≤ length m → osdp_pack_write_u16le (Ptr m) i v = wr (Ptr m) i (le_split 2 v).
Proof. intros. unfold osdp_pack_write_u16le. by rewrite wr_wr by (simpl; lia). Qed.

Lemma write_u32le_ok m i v :
  i + 4 ≤ length m → osdp_pack_write_u32le (Ptr m) i v = wr (Ptr m) i (le_split 4 v).
Proof.
  intros. unfold osdp_pack_write_u32le.
  assert (le_split 4 v = [Z.land v 255] ++ [Z.land (Z.shiftr v 8) 255] ++
    [Z.land (Z.shiftr v 16) 255] ++ [Z.land (Z.shiftr v 24) 255]) as ->.
  { cbn [le_split]. by rewrite !Z.shiftr_shiftr by lia. }
  rewrite <-(wr_wr m i (i + 1) [_] _) by (simpl; lia).
  destruct (wr (Ptr m) i _) as [[|m1]|] eqn:E1; cbn [mbind option_bind]; [done| |done].
  assert (length m1 = length m) as Hl1.
  { simpl in E1. destruct (mwr m i _) eqn:Ew; simplify_eq/=. by apply mwr_length in Ew. }
  rewrite <-(wr_wr m1 (i + 1) (i + 2) [_] _) by (simpl; lia).
  destruct (wr (Ptr m1) (i + 1) _) as [[|m2]|] eqn:E2; cbn [mbind option_bind]; [done| |done].
  assert (length m2 = length m) as Hl2.
  { simpl in E2. destruct (mwr m1 _ _) eqn:Ew; simplify_eq/=. apply mwr_length in Ew. lia. }
  by rewrite <-(wr_wr m2 (i + 2) (i + 3) [_] _) by (simpl; lia).
Qed.

(** ** Reads *)

Lemma read_u16le_ok m i :
  bytes_ok m → i + 2 ≤ length m →
  ∃ v, osdp_pack_read_u16le (Ptr m) i = Some v ∧ is_u16 v ∧ sl m i 2 = le_split 2 v.
Proof.
  intros Hm Hl. unfold osdp_pack_read_u16le.
  destruct (rd_byte m i) as (a & -> & Ha & ?); [done|lia|].
  destruct (rd_byte m (i + 1)) as (b & -> & Hb & ?); [done|lia|]. cbn [mbind option_bind].
  destruct (le16_join a b) as [Hs Hu]; [done..|].
  eexists. split; [done|]. rewrite u16_id by done. split; [done|].
  rewrite Hs. change 2 with (1 + 1). rewrite <-(sl_app m i 1 1). by rewrite (sl_one m i a), (sl_one m (i + 1) b).
Qed.

Lemma read_u16le_split m i v :
  bytes_ok m → i + 2 ≤ length m → is_u16 v → sl m i 2 = le_split 2 v →
  osdp_pack_read_u16le (Ptr m) i = Some v.
Proof.
  intros Hm Hl Hv Hs. destruct (read_u16le_ok m i Hm Hl) as (w & -> & Hw & Hs').
  f_equal. apply le_split_u16_inj; [done|done|]. by rewrite <-Hs, <-Hs'.
Qed.

(** A 32-bit value is determined by its four bytes. *)
Lemma le_split_u32_inj a b : is_u32 a → is_u32 b → le_split 4 a = le_split 4 b → a = b.
Proof.
  intros Ha Hb H. apply (f_equal le_combine) in H. rewrite !le_combine_split in H.
  change (2 ^ (8 * Z.of_nat 4))%Z with 4294967296%Z in H. unfold is_u32 in *.
  by rewrite !Z.mod_small in H.
Qed.

Lemma le32_join a b c d :
  is_byte a → is_byte b → is_byte c → is_byte d →
  let v := Z.lor (Z.lor (Z.lor a (Z.shiftl b 8)) (Z.shiftl c 16)) (Z.shiftl d 24) in
  le_split 4 v = [a; b; c; d] ∧ is_u32 v.
Proof.
  intros Ha Hb Hc Hd v.
  assert (v = le_combine [a; b; c; d]) as ->.
  { unfold v. cbn [le_combine]. rewrite Z.shiftl_0_l, Z.lor_0_r.
    rewrite !Z.shiftl_lor, !Z.shiftl_shiftl by lia. cbn [Z.add Pos.add]. by rewrite !Z.lor_assoc. }
  assert (bytes_ok [a; b; c; d]) as Hb4 by (by do 4 (apply Forall_cons_2; [done|])).
  split; [exact (le_split_combine [a; b; c; d] Hb4)|].
  exact (le_combine_bound [a; b; c; d] Hb4).
Qed.

Lemma read_u32le_ok m i :
  bytes_ok m → i + 4 ≤ length m →
  ∃ v, osdp_pack_read_u32le (Ptr m) i = Some v ∧ is_u32 v ∧ sl m i 4 = le_split 4 v.
Proof.
  intros Hm Hl. unfold osdp_pack_read_u32le.
  destruct (rd_byte m i) as (a & -> & Ha & ?); [done|lia|].
  destruct (rd_byte m (i + 1)) as (b & -> & Hb & ?); [done|lia|].
  destruct (rd_byte m (i + 2)) as (c & -> & Hc & ?); [done|lia|].
  destruct (rd_byte m (i + 3)) as (d & -> & Hd & ?); [done|lia|]. cbn [mbind option_bind].
  destruct (le32_join a b c d) as [Hs Hu]; [done..|].
  eexists. split; [done|]. rewrite u32_id by done. split; [done|].
  rewrite Hs. change 4 with (1 + (1 + (1 + 1))). rewrite <-!sl_app.
  replace (i + 1 + 1) with (i + 2) by lia. replace (i + 2 + 1) with (i + 3) by lia.
  by rewrite (sl_one m i a), (sl_one m (i + 1) b), (sl_one m (i + 2) c), (sl_one m (i + 3) d).
Qed.

Lemma read_u32le_split m i v :
  bytes_ok m → i + 4 ≤ length m → is_u32 v → sl m i 4 = le_split 4 v →
  osdp_pack_read_u32le (Ptr m) i = Some v.
Proof.
  intros Hm Hl Hv Hs. destruct (read_u32le_ok m i Hm Hl) as (w & -> & Hw & Hs').
  f_equal. apply le_split_u32_inj; [done|done|]. by rewrite <-Hs, <-Hs'.
Qed.

(** ** Sequential writes *)

(** A write behind a prefix already written. *)
Lemma wr_next pre rest i bs :
  i = length pre → length bs ≤ length rest →
  wr (Ptr (pre ++ rest)) i bs = Some (Ptr ((pre ++ bs) ++ drop (length bs) rest)).
Proof. intros -> ?. simpl. by rewrite mwr_app. Qed.

Lemma write_u16le_next pre rest i v :
  i = length pre → 2 ≤ length rest →
  osdp_pack_write_u16le (Ptr (pre ++ rest)) i v =
    Some (Ptr ((pre ++ le_split 2 v) ++ drop 2 rest)).
Proof.
  intros -> ?. rewrite write_u16le_ok by solve_len. by rewrite wr_next.
Qed.

Lemma write_u32le_next pre rest i v :
  i = length pre → 4 ≤ length rest →
  osdp_pack_write_u32le (Ptr (pre ++ rest)) i v =
    Some (Ptr ((pre ++ le_split 4 v) ++ drop 4 rest)).
Proof.
  intros -> ?. rewrite write_u32le_ok by solve_len. by rewrite wr_next.
Qed.

Lemma le32 v :
  Z.lor (Z.lor (Z.lor (Z.land v 0xFF) (Z.shiftl (Z.land (Z.shiftr v 8) 0xFF) 8))
           (Z.shiftl (Z.land (Z.shiftr v 16) 0xFF) 16))
    (Z.shiftl (Z.land (Z.shiftr v 24) 0xFF) 24) = u32 v.
Proof.
  pose proof (le_combine_split 4 v) as H. cbn [le_split le_combine] in H.
  rewrite !Z.shiftr_shiftr, Z.shiftl_0_l, Z.lor_0_r, !Z.shiftl_lor, !Z.shiftl_shiftl, !Z.lor_assoc in H
    by lia. exact H.
Qed.
