(* ===== verification/Codec.v ===== *)
(** * The shape every message codec shares

    [osdp_X_decode] reads a payload into a structure, [osdp_X_build] writes it
    back.  The class names the pair together with the wire image of a value;
    [CodecLaws] is the contract the dispatchers rely on, proved once per message
    in Commands.v and Replies.v. *)
From S2P Require Import Prelude Types Pack.

Class Codec (T : Type) : Type := {
  cd_decode : ptr → nat → option T → option (osdp_status * option T);
  cd_build : option T → ptr → nat → option nat → option (osdp_status * ptr * option nat);
  (** The payload bytes of a value. *)
  cd_wire : T → list Z;
  (** The C types of the fields. *)
  cd_typed : T → Prop;
  (** Length fields that agree with their slices: values that have a payload. *)
  cd_ok : T → Prop;
  (** What the builder accepts. *)
  cd_buildable : T → Prop;
  (** Slices in canonical form, as the decoder produces them. *)
  cd_canon : T → T
}.

Class CodecLaws (T : Type) {C : Codec T} : Prop := {
  cl_buildable_ok v : cd_typed v → cd_buildable v → cd_ok v;
  cl_build v m cap w :
    cd_typed v → cd_buildable v → cap ≤ length m →
    cd_build (Some v) (Ptr m) cap (Some w) =
      if decide (length (cd_wire v) ≤ cap)
      then Some (OSDP_OK, Ptr (cd_wire v ++ drop (length (cd_wire v)) m), Some (length (cd_wire v)))
      else Some (OSDP_ERR_BUFFER_TOO_SMALL, Ptr m, Some 0);
  cl_reject v m cap w :
    cd_typed v → ¬ cd_buildable v →
    cd_build (Some v) (Ptr m) cap (Some w) = Some (OSDP_ERR_INVALID_ARG, Ptr m, Some 0);
  cl_decode_wire v ext o :
    cd_typed v → cd_ok v → cd_decode (Ptr (cd_wire v ++ ext)) (length (cd_wire v)) (Some o) =
      Some (OSDP_OK, Some (cd_canon v));
  cl_decode_sound m len o :
    bytes_ok m → len ≤ length m →
    ∃ s v, cd_decode (Ptr m) len (Some o) = Some (s, Some v) ∧
      (s = OSDP_OK ∧ cd_typed v ∧ cd_ok v ∧ cd_wire v = take len m ∨
       s = OSDP_ERR_BAD_PAYLOAD);
  cl_null p len o v buf cap w :
    cd_decode p len None = Some (OSDP_ERR_INVALID_ARG, None) ∧
    cd_decode NULL len (Some o) = Some (OSDP_ERR_BAD_PAYLOAD, Some o) ∧
    cd_build None buf cap w = Some (OSDP_ERR_INVALID_ARG, buf, w) ∧
    cd_build v NULL cap w = Some (OSDP_ERR_INVALID_ARG, NULL, w) ∧
    cd_build v buf cap None = Some (OSDP_ERR_INVALID_ARG, buf, None)
}.

(** The contract as one statement about the two functions: the build of every
    acceptable value is its wire image or a clean [BUFFER_TOO_SMALL]; decoding a
    wire image gives the value back; the decoder is defined on every readable
    payload, and accepts it if and only if it is a wire image; and every NULL
    argument is refused, nothing written. *)
Definition codec_correct (T : Type) {C : Codec T} : Prop :=
  (∀ v m cap w o, cd_typed v → cd_buildable v → cap ≤ length m →
     if decide (length (cd_wire v) ≤ cap) then
       ∃ m', cd_build (Some v) (Ptr m) cap (Some w) =
               Some (OSDP_OK, Ptr m', Some (length (cd_wire v))) ∧
             length m' = length m ∧
             cd_decode (Ptr m') (length (cd_wire v)) (Some o) = Some (OSDP_OK, Some (cd_canon v))
     else cd_build (Some v) (Ptr m) cap (Some w) = Some (OSDP_ERR_BUFFER_TOO_SMALL, Ptr m, Some 0)) ∧
  (∀ v m cap w, cd_typed v → ¬ cd_buildable v →
     cd_build (Some v) (Ptr m) cap (Some w) = Some (OSDP_ERR_INVALID_ARG, Ptr m, Some 0)) ∧
  (∀ m len o, bytes_ok m → len ≤ length m →
     ∃ s v, cd_decode (Ptr m) len (Some o) = Some (s, Some v) ∧
       (s = OSDP_OK ∧ cd_typed v ∧ cd_ok v ∧ cd_wire v = take len m ∨
        s = OSDP_ERR_BAD_PAYLOAD ∧ ∀ v', cd_typed v' → cd_ok v' → cd_wire v' ≠ take len m)) ∧
  (∀ p len o v buf cap w,
     cd_decode p len None = Some (OSDP_ERR_INVALID_ARG, None) ∧
     cd_decode NULL len (Some o) = Some (OSDP_ERR_BAD_PAYLOAD, Some o) ∧
     cd_build None buf cap w = Some (OSDP_ERR_INVALID_ARG, buf, w) ∧
     cd_build v NULL cap w = Some (OSDP_ERR_INVALID_ARG, NULL, w) ∧
     cd_build v buf cap None = Some (OSDP_ERR_INVALID_ARG, buf, None)).

Lemma codec_laws_correct (T : Type) `{CodecLaws T} : codec_correct T.
Proof.
  split_and!.
  - intros v m cap w o Ht Hb Hm. rewrite cl_build by done. case_decide; [|done].
    eexists. split_and!; [done|rewrite length_app, length_drop; lia|]. apply cl_decode_wire; [done|].
    by apply cl_buildable_ok.
  - intros. by apply cl_reject.
  - intros m len o Hm Hl. destruct (cl_decode_sound m len o Hm Hl) as (s & v & Hd & Hcase).
    exists s, v. split; [done|]. destruct Hcase as [?| ->]; [by left|right]. split; [done|].
    intros v' Ht Hok Hw. pose proof (cl_decode_wire v' (drop len m) o Ht Hok) as Hd'.
    rewrite Hw, take_drop, length_take_le in Hd' by done. rewrite Hd in Hd'. by simplify_eq.
  - intros. apply cl_null.
Qed.

(** The contract of a message without a payload. *)
Definition empty_codec_correct (dec : ptr → nat → osdp_status)
    (bld : ptr → nat → option nat → osdp_status * option nat) : Prop :=
  (∀ p len, dec p len = if decide (len = 0) then OSDP_OK else OSDP_ERR_BAD_PAYLOAD) ∧
  (∀ buf cap w, bld buf cap (Some w) = (OSDP_OK, Some 0)) ∧
  (∀ buf cap, bld buf cap None = (OSDP_ERR_INVALID_ARG, None)).

Ltac empty_codec := split_and!; [by intros ? []|done|done].

(** The optional trailing copy of every variable-length builder. *)
Definition copy_tail (buf : ptr) (off : nat) (data : ptr) (n : nat) : option ptr :=
  if decide (0 < n) then
    bs ← rd_slice data 0 n;
    wr buf off bs
  else Ret buf.

Lemma copy_tail_next pre rest off data n :
  region_ok data n → (0 < n → data ≠ NULL) → off = length pre → n ≤ length rest →
  copy_tail (Ptr (pre ++ rest)) off data n =
    Some (Ptr ((pre ++ view data n) ++ drop n rest)).
Proof.
  intros Hr Hn Ho Hl. pose proof (length_view data n Hr Hn) as Hv. unfold copy_tail.
  case_decide as Hp.
  - rewrite rd_slice_view by auto. cbn [mbind option_bind]. rewrite wr_next by (rewrite ?Hv; done).
    by rewrite Hv.
  - assert (n = 0) as -> by lia. assert (view data 0 = []) as -> by (by destruct data).
    by rewrite app_nil_r.
Qed.

(** ** Tactics for the per-message proofs *)

Ltac len_tac := rewrite ?length_app, ?length_drop, ?length_le_split, ?length_view; simpl; lia.

(** Runs the builder's stores behind the prefix written so far. *)
Ltac run_writes m :=
  change (Ptr m) with (Ptr ([] ++ m));
  repeat (first
    [ rewrite wr_next by len_tac
    | rewrite write_u16le_next by len_tac
    | rewrite write_u32le_next by len_tac
    | rewrite copy_tail_next by (first [assumption | len_tac]) ]; cbn [mbind option_bind]);
  rewrite ?drop_drop.

(** Exposes the first bytes of a list known to be long enough. *)
Ltac explode m n :=
  lazymatch n with
  | O => idtac
  | S ?n' =>
      let b := fresh "b" in
      destruct m as [|b m]; [exfalso; simpl in *; lia|explode m n']
  end.

Ltac bytes_tac :=
  repeat match goal with
         | H : bytes_ok (_ :: _) |- _ => apply Forall_cons_1 in H as [? H]
         end.

Lemma le16_bytes a b :
  is_byte a → is_byte b →
  le_split 2 (u16 (Z.lor a (Z.shiftl b 8))) = [a; b] ∧ is_u16 (u16 (Z.lor a (Z.shiftl b 8))).
Proof.
  intros Ha Hb. destruct (le16_join a b Ha Hb) as [Hs Hu]. rewrite u16_id by done. done.
Qed.

Lemma le32_bytes a b c d :
  is_byte a → is_byte b → is_byte c → is_byte d →
  let v := u32 (Z.lor (Z.lor (Z.lor a (Z.shiftl b 8)) (Z.shiftl c 16)) (Z.shiftl d 24)) in
  le_split 4 v = [a; b; c; d] ∧ is_u32 v.
Proof.
  intros Ha Hb Hc Hd v. destruct (le32_join a b c d Ha Hb Hc Hd) as [Hs Hu].
  unfold v. rewrite u32_id by done. done.
Qed.

(** A decoded slice. *)
Definition canon_slice (p : ptr) (n : nat) : ptr := slice_ptr (view p n).

Lemma sub_ptr_view pre data n ext off :
  region_ok data n → (0 < n → data ≠ NULL) → off = length pre →
  sub_ptr (Ptr (pre ++ view data n ++ ext)) off n = Some (canon_slice data n).
Proof.
  intros Hr Hn Ho. pose proof (length_view data n Hr Hn) as Hv. by apply sub_ptr_app.
Qed.

Lemma slice_ok m n :
  bytes_ok m → n ≤ length m →
  region_ok (slice_ptr (take n m)) n ∧ (0 < n → slice_ptr (take n m) ≠ NULL) ∧
  view (slice_ptr (take n m)) n = take n m.
Proof.
  intros Hm Hn. change (take n m) with (sl m 0 n). split_and!.
  - by apply sl_region.
  - by apply sl_notnull.
  - by apply sl_view.
Qed.

(** Reads of 16- and 32-bit fields that the builder wrote. *)
Lemma le16_read v :
  is_u16 v → u16 (Z.lor (Z.land v 255) (Z.shiftl (Z.land (Z.shiftr v 8) 255) 8)) = v.
Proof. intros. by rewrite le16, !u16_id by (rewrite ?u16_id; done). Qed.

Lemma le32_read v :
  is_u32 v →
  u32 (Z.lor (Z.lor (Z.lor (Z.land v 255) (Z.shiftl (Z.land (Z.shiftr v 8) 255) 8))
                    (Z.shiftl (Z.land (Z.shiftr (Z.shiftr v 8) 8) 255) 16))
             (Z.shiftl (Z.land (Z.shiftr (Z.shiftr (Z.shiftr v 8) 8) 8) 255) 24)) = v.
Proof.
  intros. rewrite !Z.shiftr_shiftr by lia. cbn [Z.add Pos.add Pos.succ].
  rewrite le32. by rewrite !u32_id by (rewrite ?u32_id; done).
Qed.

(** [int16_t] as two's complement. *)
Definition is_i16 (v : Z) : Prop := (-32768 ≤ v < 32768)%Z.
Definition s16 (v : Z) : Z := if decide (v < 32768)%Z then v else (v - 65536)%Z.

Lemma s16_u16 v : is_i16 v → s16 (u16 v) = v.
Proof.
  unfold is_i16, s16, u16. intros. destruct (decide (0 ≤ v)%Z).
  - rewrite Z.mod_small by lia. by rewrite decide_True by lia.
  - rewrite <-(Z.mod_add v 1), Z.mod_small by lia. rewrite decide_False by lia. lia.
Qed.

Lemma u16_s16 v : is_u16 v → u16 (s16 v) = v ∧ is_i16 (s16 v).
Proof.
  unfold is_i16, s16, u16, is_u16. intros. case_decide; (split; [|lia]).
  - apply Z.mod_small. lia.
  - rewrite <-(Z.mod_add _ 1), Z.mod_small by lia. lia.
Qed.

Create HintDb osdp_lens.

(** The five error clauses of [cl_null]. *)
Ltac null_law dec bld :=
  intros ? ? ? v ? ? w; split_and!;
  [ done
  | unfold dec; rewrite decide_True by auto; done
  | done
  | destruct v, w; done
  | destruct v; done ].

(** Splits on whether the buffer is large enough for [n] bytes. *)
Ltac size_cases :=
  match goal with
  | |- (if decide (?cap < ?n) then _ else _) = _ =>
      destruct (decide (cap < n));
      [ rewrite decide_False
          by (rewrite ?length_app, ?length_le_split, ?length_view by done; simpl; lia); reflexivity
      | rewrite decide_True
          by (rewrite ?length_app, ?length_le_split, ?length_view by done; simpl; lia) ]
  end.

Ltac lens := autounfold with osdp_lens in *.

Ltac build_law bld :=
  let v := fresh "v" in let m := fresh "m" in let cap := fresh "cap" in let w := fresh "w" in
  let Ht := fresh "Ht" in let Hb := fresh "Hb" in let Hm := fresh "Hm" in
  intros v m cap w Ht Hb Hm; destruct_and?; unfold bld; lens; cbn [is_null];
  repeat (rewrite decide_False by (tauto || lia)); cbv zeta; size_cases;
  run_writes m;
  rewrite ?length_app, ?length_le_split, ?length_view by done; cbn [length app Nat.add];
  rewrite <-?app_assoc; reflexivity.

Ltac reject_law bld :=
  let v := fresh "v" in let m := fresh "m" in let cap := fresh "cap" in let w := fresh "w" in
  let Ht := fresh "Ht" in let Hb := fresh "Hb" in
  intros v m cap w Ht Hb; unfold bld; cbn [is_null];
  repeat (case_decide; [done|]); exfalso; apply Hb; split_and?; try tauto; lia.

(** Evaluates the reads at constant offsets. *)
Ltac run_reads :=
  unfold osdp_pack_read_u16le, osdp_pack_read_u32le;
  cbn [rd lookup list_lookup mbind option_bind app Nat.add le_split rd_slice]; cbv zeta.

Ltac tail_read :=
  rewrite sub_ptr_Ptr by (cbn [length]; rewrite ?length_app, ?length_view by done; lia);
  cbn [skipn mbind option_bind]; rewrite drop_0;
  rewrite take_app_length' by (by rewrite length_view).

Ltac wire_law dec :=
  let v := fresh "v" in let ext := fresh "ext" in let o := fresh "o" in
  let Ht := fresh "Ht" in let Hok := fresh "Hok" in
  intros v ext o Ht Hok; destruct_and?; unfold dec; lens;
  rewrite ?length_app, ?length_le_split, ?length_view by done; cbn [length Nat.add];
  rewrite decide_False by (intros [|]; (done || lia)); run_reads;
  rewrite ?le16_read, ?le32_read by done.

(** What a read of a field says about the bytes it came from. *)
Ltac field_tac :=
  repeat match goal with
  | |- context [u16 (Z.lor ?a (Z.shiftl ?b 8))] =>
      let H := fresh in let H' := fresh in
      destruct (le16_bytes a b ltac:(assumption) ltac:(assumption)) as [H H'];
      revert H H'; generalize (u16 (Z.lor a (Z.shiftl b 8))); intros ? H H'
  | |- context [u32 (Z.lor (Z.lor (Z.lor ?a (Z.shiftl ?b 8)) (Z.shiftl ?c 16)) (Z.shiftl ?d 24))] =>
      let H := fresh in let H' := fresh in
      destruct (le32_bytes a b c d ltac:(assumption) ltac:(assumption) ltac:(assumption)
        ltac:(assumption)) as [H H'];
      revert H H';
      generalize (u32 (Z.lor (Z.lor (Z.lor a (Z.shiftl b 8)) (Z.shiftl c 16)) (Z.shiftl d 24)));
      intros ? H H'
  end.

Ltac wire_eq :=
  repeat match goal with
  | H : le_split _ _ = _ |- _ => cbn [le_split] in H; injection H; clear H; intros
  end; cbn [le_split app firstn]; rewrite ?take_0; congruence.

(** Fixed-length payloads of [k] bytes. *)
Ltac sound_law dec k :=
  let m := fresh "m" in let len := fresh "len" in let o := fresh "o" in let Hm := fresh "Hm" in
  let Hl := fresh "Hl" in let Hb := fresh "Hb" in
  intros m len o Hm Hl; unfold dec; lens; case_decide as Hb; [by eauto|];
  assert (len = k) as -> by (destruct (decide (len = k)); [done|exfalso; apply Hb; by left]);
  explode m k; bytes_tac; run_reads; field_tac;
  eexists _, _; split; [reflexivity|]; left; cbn -[le_split is_byte is_u16 is_u32];
  split_and!; try done; wire_eq.

(** The start of a variable-length payload with a header of [k] bytes. *)
Ltac sound_head dec k m len :=
  let o := fresh "o" in let Hm := fresh "Hm" in
  let Hl := fresh "Hl" in let Hb := fresh "Hb" in let Hlen := fresh "Hlen" in
  intros m len o Hm Hl; unfold dec; lens; case_decide as Hb; [by eauto|];
  assert (k ≤ len) as Hlen by (destruct (decide (k ≤ len)); [done|exfalso; apply Hb; left; lia]);
  explode m k; bytes_tac; run_reads.

(** Its trailing slice of [n] bytes. *)
Ltac sound_tail m n :=
  let Hr := fresh "Hr" in let Hnn := fresh "Hnn" in let Hv := fresh "Hv" in
  destruct (slice_ok m n) as (Hr & Hnn & Hv); [done|simpl in *; lia|];
  rewrite sub_ptr_Ptr by lia; cbn [skipn mbind option_bind]; rewrite drop_0;
  field_tac;
  eexists _, _; split; [reflexivity|]; left; cbn -[le_split is_byte is_u16 is_u32 region_ok view]; rewrite Hv;
  split_and!; try done; try (unfold is_byte, is_u16 in *; lia).
