(* ===== verification/Commands.v ===== *)
(** * Command payloads: osdp_commands.h and core/src/commands/cmd_*.c

    One structure, decoder and builder per command, with the wire image of the
    structure as its specification and the [CodecLaws] instance that ties the
    three together.  The two commands that carry a list of records (osdp_OUT,
    osdp_LED) are in Records.v; the commands without a payload come last. *)
From S2P Require Import Prelude Types Pack Codec.

(** ** osdp_BUZ (cmd_buz.c) *)

Definition OSDP_BUZ_PAYLOAD_BYTES : nat := 5.
#[export] Hint Unfold OSDP_BUZ_PAYLOAD_BYTES : osdp_lens.

Record osdp_buz_cmd : Type := mk_buz {
  bz_reader_no : Z; bz_tone_code : Z; bz_on_time_100ms : Z; bz_off_time_100ms : Z;
  bz_count : Z }.

Definition osdp_buz_decode (payload : ptr) (len : nat) (out : option osdp_buz_cmd)
  : option (osdp_status * option osdp_buz_cmd) :=
  match out with
  | None => Ret (OSDP_ERR_INVALID_ARG, None)
  | Some _ =>
      if decide (len ≠ OSDP_BUZ_PAYLOAD_BYTES ∨ payload = NULL)
      then Ret (OSDP_ERR_BAD_PAYLOAD, out) else
      reader_no ← rd payload 0;
      tone_code ← rd payload 1;
      on_time_100ms ← rd payload 2;
      off_time_100ms ← rd payload 3;
      count ← rd payload 4;
      Ret (OSDP_OK, Some (mk_buz reader_no tone_code on_time_100ms off_time_100ms count))
  end.

Definition osdp_buz_build (i : option osdp_buz_cmd) (buf : ptr) (buf_cap : nat)
    (written : option nat) : option (osdp_status * ptr * option nat) :=
  match i, written with
  | Some i, Some _ =>
      if is_null buf then Ret (OSDP_ERR_INVALID_ARG, buf, written) else
      if decide (buf_cap < OSDP_BUZ_PAYLOAD_BYTES) then Ret (OSDP_ERR_BUFFER_TOO_SMALL, buf, Some 0) else
      buf ← wr buf 0 [bz_reader_no i];
      buf ← wr buf 1 [bz_tone_code i];
      buf ← wr buf 2 [bz_on_time_100ms i];
      buf ← wr buf 3 [bz_off_time_100ms i];
      buf ← wr buf 4 [bz_count i];
      Ret (OSDP_OK, buf, Some OSDP_BUZ_PAYLOAD_BYTES)
  | _, _ => Ret (OSDP_ERR_INVALID_ARG, buf, written)
  end.

#[export] Instance buz_codec : Codec osdp_buz_cmd := {
  cd_decode := osdp_buz_decode;
  cd_build := osdp_buz_build;
  cd_wire v := [bz_reader_no v; bz_tone_code v; bz_on_time_100ms v; bz_off_time_100ms v; bz_count v];
  cd_typed v := is_byte (bz_reader_no v) ∧ is_byte (bz_tone_code v) ∧ is_byte (bz_on_time_100ms v) ∧
    is_byte (bz_off_time_100ms v) ∧ is_byte (bz_count v);
  cd_ok v := True;
  cd_buildable v := True;
  cd_canon v := v
}.

#[export] Instance buz_laws : CodecLaws osdp_buz_cmd.
Proof.
  split; cbn [cd_decode cd_build cd_wire cd_typed cd_ok cd_buildable cd_canon buz_codec].
  - done.
  - build_law osdp_buz_build.
  - reject_law osdp_buz_build.
  - wire_law osdp_buz_decode. by destruct v.
  - sound_law osdp_buz_decode 5.
  - null_law osdp_buz_decode osdp_buz_build.
Qed.

(** ** osdp_ID (cmd_id.c) *)

Record osdp_id_cmd : Type := mk_id {
  id_id_type : Z }.

Definition osdp_id_decode (payload : ptr) (len : nat) (out : option osdp_id_cmd)
  : option (osdp_status * option osdp_id_cmd) :=
  match out with
  | None => Ret (OSDP_ERR_INVALID_ARG, None)
  | Some _ =>
      if decide (len ≠ 1 ∨ payload = NULL)
      then Ret (OSDP_ERR_BAD_PAYLOAD, out) else
      id_type ← rd payload 0;
      Ret (OSDP_OK, Some (mk_id id_type))
  end.

Definition osdp_id_build (i : option osdp_id_cmd) (buf : ptr) (buf_cap : nat)
    (written : option nat) : option (osdp_status * ptr * option nat) :=
  match i, written with
  | Some i, Some _ =>
      if is_null buf then Ret (OSDP_ERR_INVALID_ARG, buf, written) else
      if decide (buf_cap < 1) then Ret (OSDP_ERR_BUFFER_TOO_SMALL, buf, Some 0) else
      buf ← wr buf 0 [id_id_type i];
      Ret (OSDP_OK, buf, Some 1)
  | _, _ => Ret (OSDP_ERR_INVALID_ARG, buf, written)
  end.

#[export] Instance id_codec : Codec osdp_id_cmd := {
  cd_decode := osdp_id_decode;
  cd_build := osdp_id_build;
  cd_wire v := [id_id_type v];
  cd_typed v := is_byte (id_id_type v);
  cd_ok v := True;
  cd_buildable v := True;
  cd_canon v := v
}.

#[export] Instance id_laws : CodecLaws osdp_id_cmd.
Proof.
  split; cbn [cd_decode cd_build cd_wire cd_typed cd_ok cd_buildable cd_canon id_codec].
  - done.
  - build_law osdp_id_build.
  - reject_law osdp_id_build.
  - wire_law osdp_id_decode. by destruct v.
  - sound_law osdp_id_decode 1.
  - null_law osdp_id_decode osdp_id_build.
Qed.

(** ** osdp_CAP (cmd_cap.c) *)

Record osdp_cap_cmd : Type := mk_cap {
  cp_reply_type : Z }.

Definition osdp_cap_decode (payload : ptr) (len : nat) (out : option osdp_cap_cmd)
  : option (osdp_status * option osdp_cap_cmd) :=
  match out with
  | None => Ret (OSDP_ERR_INVALID_ARG, None)
  | Some _ =>
      if decide (len ≠ 1 ∨ payload = NULL)
      then Ret (OSDP_ERR_BAD_PAYLOAD, out) else
      reply_type ← rd payload 0;
      Ret (OSDP_OK, Some (mk_cap reply_type))
  end.

Definition osdp_cap_build (i : option osdp_cap_cmd) (buf : ptr) (buf_cap : nat)
    (written : option nat) : option (osdp_status * ptr * option nat) :=
  match i, written with
  | Some i, Some _ =>
      if is_null buf then Ret (OSDP_ERR_INVALID_ARG, buf, written) else
      if decide (buf_cap < 1) then Ret (OSDP_ERR_BUFFER_TOO_SMALL, buf, Some 0) else
      buf ← wr buf 0 [cp_reply_type i];
      Ret (OSDP_OK, buf, Some 1)
  | _, _ => Ret (OSDP_ERR_INVALID_ARG, buf, written)
  end.

#[export] Instance cap_codec : Codec osdp_cap_cmd := {
  cd_decode := osdp_cap_decode;
  cd_build := osdp_cap_build;
  cd_wire v := [cp_reply_type v];
  cd_typed v := is_byte (cp_reply_type v);
  cd_ok v := True;
  cd_buildable v := True;
  cd_canon v := v
}.

#[export] Instance cap_laws : CodecLaws osdp_cap_cmd.
Proof.
  split; cbn [cd_decode cd_build cd_wire cd_typed cd_ok cd_buildable cd_canon cap_codec].
  - done.
  - build_law osdp_cap_build.
  - reject_law osdp_cap_build.
  - wire_law osdp_cap_decode. by destruct v.
  - sound_law osdp_cap_decode 1.
  - null_law osdp_cap_decode osdp_cap_build.
Qed.

(** ** osdp_ACURXSIZE (cmd_acurxsize.c) *)

Definition OSDP_ACURXSIZE_PAYLOAD_BYTES : nat := 2.
#[export] Hint Unfold OSDP_ACURXSIZE_PAYLOAD_BYTES : osdp_lens.

Record osdp_acurxsize_cmd : Type := mk_acurxsize {
  ar_max_size : Z }.

Definition osdp_acurxsize_decode (payload : ptr) (len : nat) (out : option osdp_acurxsize_cmd)
  : option (osdp_status * option osdp_acurxsize_cmd) :=
  match out with
  | None => Ret (OSDP_ERR_INVALID_ARG, None)
  | Some _ =>
      if decide (len ≠ OSDP_ACURXSIZE_PAYLOAD_BYTES ∨ payload = NULL)
      then Ret (OSDP_ERR_BAD_PAYLOAD, out) else
      max_size ← osdp_pack_read_u16le payload 0;
      Ret (OSDP_OK, Some (mk_acurxsize max_size))
  end.

Definition osdp_acurxsize_build (i : option osdp_acurxsize_cmd) (buf : ptr) (buf_cap : nat)
    (written : option nat) : option (osdp_status * ptr * option nat) :=
  match i, written with
  | Some i, Some _ =>
      if is_null buf then Ret (OSDP_ERR_INVALID_ARG, buf, written) else
      if decide (buf_cap < OSDP_ACURXSIZE_PAYLOAD_BYTES) then Ret (OSDP_ERR_BUFFER_TOO_SMALL, buf, Some 0) else
      buf ← osdp_pack_write_u16le buf 0 (ar_max_size i);
      Ret (OSDP_OK, buf, Some OSDP_ACURXSIZE_PAYLOAD_BYTES)
  | _, _ => Ret (OSDP_ERR_INVALID_ARG, buf, written)
  end.

#[export] Instance acurxsize_codec : Codec osdp_acurxsize_cmd := {
  cd_decode := osdp_acurxsize_decode;
  cd_build := osdp_acurxsize_build;
  cd_wire v := le_split 2 (ar_max_size v);
  cd_typed v := is_u16 (ar_max_size v);
  cd_ok v := True;
  cd_buildable v := True;
  cd_canon v := v
}.

#[export] Instance acurxsize_laws : CodecLaws osdp_acurxsize_cmd.
Proof.
  split; cbn [cd_decode cd_build cd_wire cd_typed cd_ok cd_buildable cd_canon acurxsize_codec].
  - done.
  - build_law osdp_acurxsize_build.
  - reject_law osdp_acurxsize_build.
  - wire_law osdp_acurxsize_decode. by destruct v.
  - sound_law osdp_acurxsize_decode 2.
  - null_law osdp_acurxsize_decode osdp_acurxsize_build.
Qed.

(** ** osdp_KEEPACTIVE (cmd_keepactive.c) *)

Definition OSDP_KEEPACTIVE_PAYLOAD_BYTES : nat := 2.
#[export] Hint Unfold OSDP_KEEPACTIVE_PAYLOAD_BYTES : osdp_lens.

Record osdp_keepactive_cmd : Type := mk_keepactive {
  ka_time_ms : Z }.

Definition osdp_keepactive_decode (payload : ptr) (len : nat) (out : option osdp_keepactive_cmd)
  : option (osdp_status * option osdp_keepactive_cmd) :=
  match out with
  | None => Ret (OSDP_ERR_INVALID_ARG, None)
  | Some _ =>
      if decide (len ≠ OSDP_KEEPACTIVE_PAYLOAD_BYTES ∨ payload = NULL)
      then Ret (OSDP_ERR_BAD_PAYLOAD, out) else
      time_ms ← osdp_pack_read_u16le payload 0;
      Ret (OSDP_OK, Some (mk_keepactive time_ms))
  end.

Definition osdp_keepactive_build (i : option osdp_keepactive_cmd) (buf : ptr) (buf_cap : nat)
    (written : option nat) : option (osdp_status * ptr * option nat) :=
  match i, written with
  | Some i, Some _ =>
      if is_null buf then Ret (OSDP_ERR_INVALID_ARG, buf, written) else
      if decide (buf_cap < OSDP_KEEPACTIVE_PAYLOAD_BYTES) then Ret (OSDP_ERR_BUFFER_TOO_SMALL, buf, Some 0) else
      buf ← osdp_pack_write_u16le buf 0 (ka_time_ms i);
      Ret (OSDP_OK, buf, Some OSDP_KEEPACTIVE_PAYLOAD_BYTES)
  | _, _ => Ret (OSDP_ERR_INVALID_ARG, buf, written)
  end.

#[export] Instance keepactive_codec : Codec osdp_keepactive_cmd := {
  cd_decode := osdp_keepactive_decode;
  cd_build := osdp_keepactive_build;
  cd_wire v := le_split 2 (ka_time_ms v);
  cd_typed v := is_u16 (ka_time_ms v);
  cd_ok v := True;
  cd_buildable v := True;
  cd_canon v := v
}.

#[export] Instance keepactive_laws : CodecLaws osdp_keepactive_cmd.
Proof.
  split; cbn [cd_decode cd_build cd_wire cd_typed cd_ok cd_buildable cd_canon keepactive_codec].
  - done.
  - build_law osdp_keepactive_build.
  - reject_law osdp_keepactive_build.
  - wire_law osdp_keepactive_decode. by destruct v.
  - sound_law osdp_keepactive_decode 2.
  - null_law osdp_keepactive_decode osdp_keepactive_build.
Qed.

(** ** osdp_COMSET (cmd_comset.c) *)

Definition OSDP_COMSET_PAYLOAD_BYTES : nat := 5.
#[export] Hint Unfold OSDP_COMSET_PAYLOAD_BYTES : osdp_lens.

(** The decoder takes any address, the builder refuses 0x7F and above. *)
Definition OSDP_COMSET_MAX_ADDR : Z := 0x7E.

Record osdp_comset_cmd : Type := mk_comset {
  cs_address : Z; cs_baud_rate : Z }.

Definition osdp_comset_decode (payload : ptr) (len : nat) (out : option osdp_comset_cmd)
  : option (osdp_status * option osdp_comset_cmd) :=
  match out with
  | None => Ret (OSDP_ERR_INVALID_ARG, None)
  | Some _ =>
      if decide (len ≠ OSDP_COMSET_PAYLOAD_BYTES ∨ payload = NULL)
      then Ret (OSDP_ERR_BAD_PAYLOAD, out) else
      address ← rd payload 0;
      baud_rate ← osdp_pack_read_u32le payload 1;
      Ret (OSDP_OK, Some (mk_comset address baud_rate))
  end.

Definition osdp_comset_build (i : option osdp_comset_cmd) (buf : ptr) (buf_cap : nat)
    (written : option nat) : option (osdp_status * ptr * option nat) :=
  match i, written with
  | Some i, Some _ =>
      if is_null buf then Ret (OSDP_ERR_INVALID_ARG, buf, written) else
      if decide (OSDP_COMSET_MAX_ADDR < cs_address i)%Z then Ret (OSDP_ERR_INVALID_ARG, buf, Some 0) else
      if decide (buf_cap < OSDP_COMSET_PAYLOAD_BYTES) then Ret (OSDP_ERR_BUFFER_TOO_SMALL, buf, Some 0) else
      buf ← wr buf 0 [cs_address i];
      buf ← osdp_pack_write_u32le buf 1 (cs_baud_rate i);
      Ret (OSDP_OK, buf, Some OSDP_COMSET_PAYLOAD_BYTES)
  | _, _ => Ret (OSDP_ERR_INVALID_ARG, buf, written)
  end.

#[export] Instance comset_codec : Codec osdp_comset_cmd := {
  cd_decode := osdp_comset_decode;
  cd_build := osdp_comset_build;
  cd_wire v := [cs_address v] ++ le_split 4 (cs_baud_rate v);
  cd_typed v := is_byte (cs_address v) ∧ is_u32 (cs_baud_rate v);
  cd_ok v := True;
  cd_buildable v := (cs_address v ≤ OSDP_COMSET_MAX_ADDR)%Z;
  cd_canon v := v
}.

#[export] Instance comset_laws : CodecLaws osdp_comset_cmd.
Proof.
  split; cbn [cd_decode cd_build cd_wire cd_typed cd_ok cd_buildable cd_canon comset_codec].
  - done.
  - build_law osdp_comset_build.
  - reject_law osdp_comset_build.
  - wire_law osdp_comset_decode. by destruct v.
  - sound_law osdp_comset_decode 5.
  - null_law osdp_comset_decode osdp_comset_build.
Qed.

(** ** osdp_TEXT (cmd_text.c) *)

Definition OSDP_TEXT_HEADER_BYTES : nat := 6.
#[export] Hint Unfold OSDP_TEXT_HEADER_BYTES : osdp_lens.

Record osdp_text_cmd : Type := mk_text {
  tx_reader_no : Z; tx_text_command : Z; tx_temp_text_time_s : Z; tx_row : Z; tx_column : Z;
  tx_text_length : Z; tx_text : ptr; tx_text_len : nat }.

Definition osdp_text_decode (payload : ptr) (len : nat) (out : option osdp_text_cmd)
  : option (osdp_status * option osdp_text_cmd) :=
  match out with
  | None => Ret (OSDP_ERR_INVALID_ARG, None)
  | Some _ =>
      if decide (len < OSDP_TEXT_HEADER_BYTES ∨ payload = NULL)
      then Ret (OSDP_ERR_BAD_PAYLOAD, out) else
      text_length ← rd payload 5;
      if decide (OSDP_TEXT_HEADER_BYTES + Z.to_nat text_length ≠ len) then Ret (OSDP_ERR_BAD_PAYLOAD, out) else
      reader_no ← rd payload 0;
      text_command ← rd payload 1;
      temp_text_time_s ← rd payload 2;
      row ← rd payload 3;
      column ← rd payload 4;
      text ← sub_ptr payload OSDP_TEXT_HEADER_BYTES (Z.to_nat text_length);
      Ret (OSDP_OK, Some (mk_text reader_no text_command temp_text_time_s row column text_length text (Z.to_nat text_length)))
  end.

Definition osdp_text_build (i : option osdp_text_cmd) (buf : ptr) (buf_cap : nat)
    (written : option nat) : option (osdp_status * ptr * option nat) :=
  match i, written with
  | Some i, Some _ =>
      if is_null buf then Ret (OSDP_ERR_INVALID_ARG, buf, written) else
      if decide (tx_text_length i ≠ Z.of_nat (tx_text_len i)) then Ret (OSDP_ERR_INVALID_ARG, buf, Some 0) else
      if decide (0 < tx_text_len i ∧ tx_text i = NULL) then Ret (OSDP_ERR_INVALID_ARG, buf, Some 0) else
      let total := OSDP_TEXT_HEADER_BYTES + tx_text_len i in
      if decide (buf_cap < total) then Ret (OSDP_ERR_BUFFER_TOO_SMALL, buf, Some 0) else
      buf ← wr buf 0 [tx_reader_no i];
      buf ← wr buf 1 [tx_text_command i];
      buf ← wr buf 2 [tx_temp_text_time_s i];
      buf ← wr buf 3 [tx_row i];
      buf ← wr buf 4 [tx_column i];
      buf ← wr buf 5 [tx_text_length i];
      buf ← copy_tail buf OSDP_TEXT_HEADER_BYTES (tx_text i) (tx_text_len i);
      Ret (OSDP_OK, buf, Some total)
  | _, _ => Ret (OSDP_ERR_INVALID_ARG, buf, written)
  end.

#[export] Instance text_codec : Codec osdp_text_cmd := {
  cd_decode := osdp_text_decode;
  cd_build := osdp_text_build;
  cd_wire v := [tx_reader_no v; tx_text_command v; tx_temp_text_time_s v; tx_row v; tx_column v; tx_text_length v] ++
    view (tx_text v) (tx_text_len v);
  cd_typed v := is_byte (tx_reader_no v) ∧ is_byte (tx_text_command v) ∧
    is_byte (tx_temp_text_time_s v) ∧ is_byte (tx_row v) ∧ is_byte (tx_column v) ∧
    is_byte (tx_text_length v) ∧ region_ok (tx_text v) (tx_text_len v);
  cd_ok v := tx_text_length v = Z.of_nat (tx_text_len v) ∧ (0 < tx_text_len v → tx_text v ≠ NULL);
  cd_buildable v := tx_text_length v = Z.of_nat (tx_text_len v) ∧ (0 < tx_text_len v → tx_text v ≠ NULL);
  cd_canon v := mk_text (tx_reader_no v) (tx_text_command v) (tx_temp_text_time_s v) (tx_row v) (tx_column v)
    (tx_text_length v) (canon_slice (tx_text v) (tx_text_len v)) (tx_text_len v)
}.

#[export] Instance text_laws : CodecLaws osdp_text_cmd.
Proof.
  split; cbn [cd_decode cd_build cd_wire cd_typed cd_ok cd_buildable cd_canon text_codec].
  - done.
  - build_law osdp_text_build.
  - reject_law osdp_text_build.
  - wire_law osdp_text_decode. rewrite decide_False by lia.
    run_reads. rewrite ?le16_read, ?le32_read by done.
    assert (Z.to_nat (tx_text_length v) = tx_text_len v) as -> by lia. by tail_read.
  - sound_head osdp_text_decode 6 m len. field_tac.
    case_decide as Hn; [by eauto|]. subst len.
    match goal with |- context [Z.to_nat ?x] => sound_tail m (Z.to_nat x); wire_eq end.
  - null_law osdp_text_decode osdp_text_build.
Qed.

(** ** osdp_FILETRANSFER (cmd_filetransfer.c) *)

Definition OSDP_FILETRANSFER_HEADER_BYTES : nat := 11.
#[export] Hint Unfold OSDP_FILETRANSFER_HEADER_BYTES : osdp_lens.

Record osdp_filetransfer_cmd : Type := mk_filetransfer {
  ft_ft_type : Z; ft_total_size : Z; ft_offset : Z; ft_fragment_size : Z; ft_data : ptr;
  ft_data_len : nat }.

Definition osdp_filetransfer_decode (payload : ptr) (len : nat) (out : option osdp_filetransfer_cmd)
  : option (osdp_status * option osdp_filetransfer_cmd) :=
  match out with
  | None => Ret (OSDP_ERR_INVALID_ARG, None)
  | Some _ =>
      if decide (len < OSDP_FILETRANSFER_HEADER_BYTES ∨ payload = NULL)
      then Ret (OSDP_ERR_BAD_PAYLOAD, out) else
      fragment_size ← osdp_pack_read_u16le payload 9;
      if decide (OSDP_FILETRANSFER_HEADER_BYTES + Z.to_nat fragment_size ≠ len) then Ret (OSDP_ERR_BAD_PAYLOAD, out) else
      ft_type ← rd payload 0;
      total_size ← osdp_pack_read_u32le payload 1;
      offset ← osdp_pack_read_u32le payload 5;
      data ← sub_ptr payload OSDP_FILETRANSFER_HEADER_BYTES (Z.to_nat fragment_size);
      Ret (OSDP_OK, Some (mk_filetransfer ft_type total_size offset fragment_size data (Z.to_nat fragment_size)))
  end.

Definition osdp_filetransfer_build (i : option osdp_filetransfer_cmd) (buf : ptr) (buf_cap : nat)
    (written : option nat) : option (osdp_status * ptr * option nat) :=
  match i, written with
  | Some i, Some _ =>
      if is_null buf then Ret (OSDP_ERR_INVALID_ARG, buf, written) else
      if decide (ft_fragment_size i ≠ Z.of_nat (ft_data_len i)) then Ret (OSDP_ERR_INVALID_ARG, buf, Some 0) else
      if decide (0 < ft_data_len i ∧ ft_data i = NULL) then Ret (OSDP_ERR_INVALID_ARG, buf, Some 0) else
      let total := OSDP_FILETRANSFER_HEADER_BYTES + ft_data_len i in
      if decide (buf_cap < total) then Ret (OSDP_ERR_BUFFER_TOO_SMALL, buf, Some 0) else
      buf ← wr buf 0 [ft_ft_type i];
      buf ← osdp_pack_write_u32le buf 1 (ft_total_size i);
      buf ← osdp_pack_write_u32le buf 5 (ft_offset i);
      buf ← osdp_pack_write_u16le buf 9 (ft_fragment_size i);
      buf ← copy_tail buf OSDP_FILETRANSFER_HEADER_BYTES (ft_data i) (ft_data_len i);
      Ret (OSDP_OK, buf, Some total)
  | _, _ => Ret (OSDP_ERR_INVALID_ARG, buf, written)
  end.

#[export] Instance filetransfer_codec : Codec osdp_filetransfer_cmd := {
  cd_decode := osdp_filetransfer_decode;
  cd_build := osdp_filetransfer_build;
  cd_wire v := [ft_ft_type v] ++ le_split 4 (ft_total_size v) ++ le_split 4 (ft_offset v) ++
    le_split 2 (ft_fragment_size v) ++ view (ft_data v) (ft_data_len v);
  cd_typed v := is_byte (ft_ft_type v) ∧ is_u32 (ft_total_size v) ∧ is_u32 (ft_offset v) ∧
    is_u16 (ft_fragment_size v) ∧ region_ok (ft_data v) (ft_data_len v);
  cd_ok v := ft_fragment_size v = Z.of_nat (ft_data_len v) ∧ (0 < ft_data_len v → ft_data v ≠ NULL);
  cd_buildable v := ft_fragment_size v = Z.of_nat (ft_data_len v) ∧ (0 < ft_data_len v → ft_data v ≠ NULL);
  cd_canon v := mk_filetransfer (ft_ft_type v) (ft_total_size v) (ft_offset v) (ft_fragment_size v)
    (canon_slice (ft_data v) (ft_data_len v)) (ft_data_len v)
}.

#[export] Instance filetransfer_laws : CodecLaws osdp_filetransfer_cmd.
Proof.
  split; cbn [cd_decode cd_build cd_wire cd_typed cd_ok cd_buildable cd_canon filetransfer_codec].
  - done.
  - build_law osdp_filetransfer_build.
  - reject_law osdp_filetransfer_build.
  - wire_law osdp_filetransfer_decode. rewrite decide_False by lia.
    run_reads. rewrite ?le16_read, ?le32_read by done.
    assert (Z.to_nat (ft_fragment_size v) = ft_data_len v) as -> by lia. by tail_read.
  - sound_head osdp_filetransfer_decode 11 m len. field_tac.
    case_decide as Hn; [by eauto|]. subst len.
    match goal with |- context [Z.to_nat ?x] => sound_tail m (Z.to_nat x); wire_eq end.
  - null_law osdp_filetransfer_decode osdp_filetransfer_build.
Qed.

(** ** osdp_KEYSET (cmd_keyset.c) *)

Definition OSDP_KEYSET_HEADER_BYTES : nat := 2.
#[export] Hint Unfold OSDP_KEYSET_HEADER_BYTES : osdp_lens.

Record osdp_keyset_cmd : Type := mk_keyset {
  ks_key_type : Z; ks_key_length : Z; ks_key_data : ptr; ks_key_data_len : nat }.

Definition osdp_keyset_decode (payload : ptr) (len : nat) (out : option osdp_keyset_cmd)
  : option (osdp_status * option osdp_keyset_cmd) :=
  match out with
  | None => Ret (OSDP_ERR_INVALID_ARG, None)
  | Some _ =>
      if decide (len < OSDP_KEYSET_HEADER_BYTES ∨ payload = NULL)
      then Ret (OSDP_ERR_BAD_PAYLOAD, out) else
      key_type ← rd payload 0;
      key_length ← rd payload 1;
      let data_len := len - OSDP_KEYSET_HEADER_BYTES in
      if decide (Z.to_nat key_length ≠ data_len) then Ret (OSDP_ERR_BAD_PAYLOAD, out) else
      key_data ← sub_ptr payload OSDP_KEYSET_HEADER_BYTES data_len;
      Ret (OSDP_OK, Some (mk_keyset key_type key_length key_data data_len))
  end.

Definition osdp_keyset_build (i : option osdp_keyset_cmd) (buf : ptr) (buf_cap : nat)
    (written : option nat) : option (osdp_status * ptr * option nat) :=
  match i, written with
  | Some i, Some _ =>
      if is_null buf then Ret (OSDP_ERR_INVALID_ARG, buf, written) else
      if decide (255 < ks_key_data_len i) then Ret (OSDP_ERR_INVALID_ARG, buf, Some 0) else
      if decide (ks_key_length i ≠ Z.of_nat (ks_key_data_len i)) then Ret (OSDP_ERR_INVALID_ARG, buf, Some 0) else
      if decide (0 < ks_key_data_len i ∧ ks_key_data i = NULL) then Ret (OSDP_ERR_INVALID_ARG, buf, Some 0) else
      let total := OSDP_KEYSET_HEADER_BYTES + ks_key_data_len i in
      if decide (buf_cap < total) then Ret (OSDP_ERR_BUFFER_TOO_SMALL, buf, Some 0) else
      buf ← wr buf 0 [ks_key_type i];
      buf ← wr buf 1 [ks_key_length i];
      buf ← copy_tail buf OSDP_KEYSET_HEADER_BYTES (ks_key_data i) (ks_key_data_len i);
      Ret (OSDP_OK, buf, Some total)
  | _, _ => Ret (OSDP_ERR_INVALID_ARG, buf, written)
  end.

#[export] Instance keyset_codec : Codec osdp_keyset_cmd := {
  cd_decode := osdp_keyset_decode;
  cd_build := osdp_keyset_build;
  cd_wire v := [ks_key_type v; ks_key_length v] ++ view (ks_key_data v) (ks_key_data_len v);
  cd_typed v := is_byte (ks_key_type v) ∧ is_byte (ks_key_length v) ∧
    region_ok (ks_key_data v) (ks_key_data_len v);
  cd_ok v := ks_key_length v = Z.of_nat (ks_key_data_len v) ∧
    (0 < ks_key_data_len v → ks_key_data v ≠ NULL);
  cd_buildable v := ks_key_data_len v ≤ 255 ∧ ks_key_length v = Z.of_nat (ks_key_data_len v) ∧
    (0 < ks_key_data_len v → ks_key_data v ≠ NULL);
  cd_canon v := mk_keyset (ks_key_type v) (ks_key_length v) (canon_slice (ks_key_data v) (ks_key_data_len v))
    (ks_key_data_len v)
}.

#[export] Instance keyset_laws : CodecLaws osdp_keyset_cmd.
Proof.
  split; cbn [cd_decode cd_build cd_wire cd_typed cd_ok cd_buildable cd_canon keyset_codec].
  - tauto.
  - build_law osdp_keyset_build.
  - reject_law osdp_keyset_build.
  - wire_law osdp_keyset_decode. replace (S (S (ks_key_data_len v)) - 2) with (ks_key_data_len v) by lia.
    rewrite decide_False by lia. by tail_read.
  - sound_head osdp_keyset_decode 2 m len. case_decide as Hn; [by eauto|].
    destruct len as [|[|n]]; [lia..|]. replace (S (S n) - 2) with n in * by lia. by sound_tail m n.
  - null_law osdp_keyset_decode osdp_keyset_build.
Qed.

(** ** osdp_MFG (cmd_mfg.c) *)

Definition OSDP_MFG_VENDOR_CODE_BYTES : nat := 3.
Definition OSDP_MFG_HEADER_BYTES : nat := OSDP_MFG_VENDOR_CODE_BYTES.
#[export] Hint Unfold OSDP_MFG_VENDOR_CODE_BYTES OSDP_MFG_HEADER_BYTES : osdp_lens.

Record osdp_mfg_cmd : Type := mk_mfg {
  mg_vendor_code : list Z; mg_data : ptr; mg_data_len : nat }.

Definition osdp_mfg_decode (payload : ptr) (len : nat) (out : option osdp_mfg_cmd)
  : option (osdp_status * option osdp_mfg_cmd) :=
  match out with
  | None => Ret (OSDP_ERR_INVALID_ARG, None)
  | Some _ =>
      if decide (len < OSDP_MFG_HEADER_BYTES ∨ payload = NULL)
      then Ret (OSDP_ERR_BAD_PAYLOAD, out) else
      vendor_code ← rd_slice payload 0 OSDP_MFG_VENDOR_CODE_BYTES;
      let data_len := len - OSDP_MFG_HEADER_BYTES in
      data ← sub_ptr payload OSDP_MFG_HEADER_BYTES data_len;
      Ret (OSDP_OK, Some (mk_mfg vendor_code data data_len))
  end.

Definition osdp_mfg_build (i : option osdp_mfg_cmd) (buf : ptr) (buf_cap : nat)
    (written : option nat) : option (osdp_status * ptr * option nat) :=
  match i, written with
  | Some i, Some _ =>
      if is_null buf then Ret (OSDP_ERR_INVALID_ARG, buf, written) else
      if decide (0 < mg_data_len i ∧ mg_data i = NULL)
      then Ret (OSDP_ERR_INVALID_ARG, buf, Some 0) else
      let total := OSDP_MFG_HEADER_BYTES + mg_data_len i in
      if decide (buf_cap < total) then Ret (OSDP_ERR_BUFFER_TOO_SMALL, buf, Some 0) else
      buf ← wr buf 0 (mg_vendor_code i);
      buf ← copy_tail buf OSDP_MFG_HEADER_BYTES (mg_data i) (mg_data_len i);
      Ret (OSDP_OK, buf, Some total)
  | _, _ => Ret (OSDP_ERR_INVALID_ARG, buf, written)
  end.

#[export] Instance mfg_codec : Codec osdp_mfg_cmd := {
  cd_decode := osdp_mfg_decode;
  cd_build := osdp_mfg_build;
  cd_wire v := mg_vendor_code v ++ view (mg_data v) (mg_data_len v);
  cd_typed v := bytes_ok (mg_vendor_code v) ∧ length (mg_vendor_code v) = 3 ∧
    region_ok (mg_data v) (mg_data_len v);
  cd_ok v := 0 < mg_data_len v → mg_data v ≠ NULL;
  cd_buildable v := 0 < mg_data_len v → mg_data v ≠ NULL;
  cd_canon v := mk_mfg (mg_vendor_code v) (canon_slice (mg_data v) (mg_data_len v)) (mg_data_len v)
}.

#[export] Instance mfg_laws : CodecLaws osdp_mfg_cmd.
Proof.
  split; cbn [cd_decode cd_build cd_wire cd_typed cd_ok cd_buildable cd_canon mfg_codec].
  - done.
  - intros [vc d n] m cap w. cbn [mg_data mg_data_len mg_vendor_code]. intros (Hvb & Hvl & Hd) Hb Hm.
    destruct vc as [|x [|y [|z []]]]; try discriminate Hvl.
    unfold osdp_mfg_build. lens. cbn [is_null mg_data mg_data_len mg_vendor_code].
    rewrite decide_False by tauto. cbv zeta. size_cases. run_writes m.
    cbn [length app Nat.add]. by rewrite ?length_view by done.
  - reject_law osdp_mfg_build.
  - intros [vc d n] ext o. cbn [mg_data mg_data_len mg_vendor_code]. intros (Hvb & Hvl & Hd) Hok.
    destruct vc as [|x [|y [|z []]]]; try discriminate Hvl. cbn [app length].
    unfold osdp_mfg_decode. lens. rewrite length_view by done.
    rewrite decide_False by (intros [|]; (done || lia)).
    cbn [rd_slice]. rewrite mslice_Some by (simpl; lia). cbn [skipn firstn mbind option_bind]. cbv zeta.
    replace (S (S (S n)) - 3) with n by lia. rewrite take_0. by tail_read.
  - sound_head osdp_mfg_decode 3 m len.
    rewrite mslice_Some by (simpl; lia). cbn [skipn firstn mbind option_bind]. rewrite ?take_0.
    destruct len as [|[|[|n]]]; [lia..|]. replace (S (S (S n)) - 3) with n in * by lia.
    sound_tail m n. constructor; [done|]. constructor; [done|]. by constructor.
  - null_law osdp_mfg_decode osdp_mfg_build.
Qed.

(** ** Commands without a payload (cmd_poll.c, cmd_lstat.c, cmd_istat.c,
    cmd_ostat.c, cmd_rstat.c, cmd_abort.c) *)

Definition osdp_poll_decode (payload : ptr) (len : nat) : osdp_status :=
  if decide (len ≠ 0) then OSDP_ERR_BAD_PAYLOAD else OSDP_OK.

Definition osdp_poll_build (buf : ptr) (buf_cap : nat) (written : option nat)
  : osdp_status * option nat :=
  match written with
  | None => (OSDP_ERR_INVALID_ARG, None)
  | Some _ => (OSDP_OK, Some 0)
  end.

Definition osdp_lstat_decode (payload : ptr) (len : nat) : osdp_status :=
  if decide (len ≠ 0) then OSDP_ERR_BAD_PAYLOAD else OSDP_OK.

Definition osdp_lstat_build (buf : ptr) (buf_cap : nat) (written : option nat)
  : osdp_status * option nat :=
  match written with
  | None => (OSDP_ERR_INVALID_ARG, None)
  | Some _ => (OSDP_OK, Some 0)
  end.

Definition osdp_istat_decode (payload : ptr) (len : nat) : osdp_status :=
  if decide (len ≠ 0) then OSDP_ERR_BAD_PAYLOAD else OSDP_OK.

Definition osdp_istat_build (buf : ptr) (buf_cap : nat) (written : option nat)
  : osdp_status * option nat :=
  match written with
  | None => (OSDP_ERR_INVALID_ARG, None)
  | Some _ => (OSDP_OK, Some 0)
  end.

Definition osdp_ostat_decode (payload : ptr) (len : nat) : osdp_status :=
  if decide (len ≠ 0) then OSDP_ERR_BAD_PAYLOAD else OSDP_OK.

Definition osdp_ostat_build (buf : ptr) (buf_cap : nat) (written : option nat)
  : osdp_status * option nat :=
  match written with
  | None => (OSDP_ERR_INVALID_ARG, None)
  | Some _ => (OSDP_OK, Some 0)
  end.

Definition osdp_rstat_decode (payload : ptr) (len : nat) : osdp_status :=
  if decide (len ≠ 0) then OSDP_ERR_BAD_PAYLOAD else OSDP_OK.

Definition osdp_rstat_build (buf : ptr) (buf_cap : nat) (written : option nat)
  : osdp_status * option nat :=
  match written with
  | None => (OSDP_ERR_INVALID_ARG, None)
  | Some _ => (OSDP_OK, Some 0)
  end.

Definition osdp_abort_decode (payload : ptr) (len : nat) : osdp_status :=
  if decide (len ≠ 0) then OSDP_ERR_BAD_PAYLOAD else OSDP_OK.

Definition osdp_abort_build (buf : ptr) (buf_cap : nat) (written : option nat)
  : osdp_status * option nat :=
  match written with
  | None => (OSDP_ERR_INVALID_ARG, None)
  | Some _ => (OSDP_OK, Some 0)
  end.

(** ** Properties *)

(** C24: The command codecs with a fixed structure and those without a payload.
    For each of the ten commands osdp_BUZ, ID, CAP, ACURXSIZE, KEEPACTIVE, COMSET,
    TEXT, FILETRANSFER, KEYSET and MFG: building any acceptable value writes
    exactly its wire image (or reports that the buffer is too small and writes
    nothing), decoding the image gives the value back, unacceptable values are
    refused, the decoder accepts a payload if and only if it is a wire image,
    reading nothing outside it, and every NULL argument (payload, output, value,
    buffer, length pointer) is refused with its error code, nothing written.  The six
    commands without a payload (POLL, LSTAT, ISTAT, OSTAT, RSTAT, ABORT) accept
    exactly the empty payload, build no bytes, and refuse a NULL length pointer.
    (The two record lists, osdp_OUT and osdp_LED, are in Records.v.) *)
Theorem command_codecs_correct :
  (codec_correct osdp_buz_cmd ∧ codec_correct osdp_id_cmd ∧ codec_correct osdp_cap_cmd ∧
   codec_correct osdp_acurxsize_cmd ∧ codec_correct osdp_keepactive_cmd ∧
   codec_correct osdp_comset_cmd ∧ codec_correct osdp_text_cmd ∧
   codec_correct osdp_filetransfer_cmd ∧ codec_correct osdp_keyset_cmd ∧
   codec_correct osdp_mfg_cmd) ∧
  empty_codec_correct osdp_poll_decode osdp_poll_build ∧
  empty_codec_correct osdp_lstat_decode osdp_lstat_build ∧
  empty_codec_correct osdp_istat_decode osdp_istat_build ∧
  empty_codec_correct osdp_ostat_decode osdp_ostat_build ∧
  empty_codec_correct osdp_rstat_decode osdp_rstat_build ∧
  empty_codec_correct osdp_abort_decode osdp_abort_build.
Proof.
  split; [split_and!; apply codec_laws_correct; apply _|].
  split_and!; empty_codec.
Qed.
