(* ===== verification/Replies.v ===== *)
(** * Reply payloads: osdp_replies.h and core/src/replies/reply_*.c

    As Commands.v, for the replies with a structure.  The replies that carry a
    list (osdp_PDCAP and the three status reports) are in Records.v. *)
From S2P Require Import Prelude Types Pack Codec.

(** ** osdp_COM (reply_com.c) *)

Definition OSDP_COM_PAYLOAD_BYTES : nat := 5.
#[export] Hint Unfold OSDP_COM_PAYLOAD_BYTES : osdp_lens.

Record osdp_com : Type := mk_com {
  cm_address : Z; cm_baud_rate : Z }.

Definition osdp_com_decode (payload : ptr) (len : nat) (out : option osdp_com)
  : option (osdp_status * option osdp_com) :=
  match out with
  | None => Ret (OSDP_ERR_INVALID_ARG, None)
  | Some _ =>
      if decide (len ≠ OSDP_COM_PAYLOAD_BYTES ∨ payload = NULL)
      then Ret (OSDP_ERR_BAD_PAYLOAD, out) else
      address ← rd payload 0;
      baud_rate ← osdp_pack_read_u32le payload 1;
      Ret (OSDP_OK, Some (mk_com address baud_rate))
  end.

Definition osdp_com_build (i : option osdp_com) (buf : ptr) (buf_cap : nat)
    (written : option nat) : option (osdp_status * ptr * option nat) :=
  match i, written with
  | Some i, Some _ =>
      if is_null buf then Ret (OSDP_ERR_INVALID_ARG, buf, written) else
      if decide (buf_cap < OSDP_COM_PAYLOAD_BYTES) then Ret (OSDP_ERR_BUFFER_TOO_SMALL, buf, Some 0) else
      buf ← wr buf 0 [cm_address i];
      buf ← osdp_pack_write_u32le buf 1 (cm_baud_rate i);
      Ret (OSDP_OK, buf, Some OSDP_COM_PAYLOAD_BYTES)
  | _, _ => Ret (OSDP_ERR_INVALID_ARG, buf, written)
  end.

#[export] Instance com_codec : Codec osdp_com := {
  cd_decode := osdp_com_decode;
  cd_build := osdp_com_build;
  cd_wire v := [cm_address v] ++ le_split 4 (cm_baud_rate v);
  cd_typed v := is_byte (cm_address v) ∧ is_u32 (cm_baud_rate v);
  cd_ok v := True;
  cd_buildable v := True;
  cd_canon v := v
}.

#[export] Instance com_laws : CodecLaws osdp_com.
Proof.
  split; cbn [cd_decode cd_build cd_wire cd_typed cd_ok cd_buildable cd_canon com_codec].
  - done.
  - build_law osdp_com_build.
  - reject_law osdp_com_build.
  - wire_law osdp_com_decode. by destruct v.
  - sound_law osdp_com_decode 5.
  - null_law osdp_com_decode osdp_com_build.
Qed.

(** ** osdp_LSTATR (reply_lstatr.c) *)

Definition OSDP_LSTATR_PAYLOAD_BYTES : nat := 2.
#[export] Hint Unfold OSDP_LSTATR_PAYLOAD_BYTES : osdp_lens.

Record osdp_lstatr : Type := mk_lstatr {
  ls_tamper : Z; ls_power : Z }.

Definition osdp_lstatr_decode (payload : ptr) (len : nat) (out : option osdp_lstatr)
  : option (osdp_status * option osdp_lstatr) :=
  match out with
  | None => Ret (OSDP_ERR_INVALID_ARG, None)
  | Some _ =>
      if decide (len ≠ OSDP_LSTATR_PAYLOAD_BYTES ∨ payload = NULL)
      then Ret (OSDP_ERR_BAD_PAYLOAD, out) else
      tamper ← rd payload 0;
      power ← rd payload 1;
      Ret (OSDP_OK, Some (mk_lstatr tamper power))
  end.

Definition osdp_lstatr_build (i : option osdp_lstatr) (buf : ptr) (buf_cap : nat)
    (written : option nat) : option (osdp_status * ptr * option nat) :=
  match i, written with
  | Some i, Some _ =>
      if is_null buf then Ret (OSDP_ERR_INVALID_ARG, buf, written) else
      if decide (buf_cap < OSDP_LSTATR_PAYLOAD_BYTES) then Ret (OSDP_ERR_BUFFER_TOO_SMALL, buf, Some 0) else
      buf ← wr buf 0 [ls_tamper i];
      buf ← wr buf 1 [ls_power i];
      Ret (OSDP_OK, buf, Some OSDP_LSTATR_PAYLOAD_BYTES)
  | _, _ => Ret (OSDP_ERR_INVALID_ARG, buf, written)
  end.

#[export] Instance lstatr_codec : Codec osdp_lstatr := {
  cd_decode := osdp_lstatr_decode;
  cd_build := osdp_lstatr_build;
  cd_wire v := [ls_tamper v; ls_power v];
  cd_typed v := is_byte (ls_tamper v) ∧ is_byte (ls_power v);
  cd_ok v := True;
  cd_buildable v := True;
  cd_canon v := v
}.

#[export] Instance lstatr_laws : CodecLaws osdp_lstatr.
Proof.
  split; cbn [cd_decode cd_build cd_wire cd_typed cd_ok cd_buildable cd_canon lstatr_codec].
  - done.
  - build_law osdp_lstatr_build.
  - reject_law osdp_lstatr_build.
  - wire_law osdp_lstatr_decode. by destruct v.
  - sound_law osdp_lstatr_decode 2.
  - null_law osdp_lstatr_decode osdp_lstatr_build.
Qed.

(** ** osdp_MFGSTATR (reply_mfgstatr.c) *)

Definition OSDP_MFGSTATR_PAYLOAD_BYTES : nat := 1.
#[export] Hint Unfold OSDP_MFGSTATR_PAYLOAD_BYTES : osdp_lens.

Record osdp_mfgstatr : Type := mk_mfgstatr {
  ms_data : Z }.

Definition osdp_mfgstatr_decode (payload : ptr) (len : nat) (out : option osdp_mfgstatr)
  : option (osdp_status * option osdp_mfgstatr) :=
  match out with
  | None => Ret (OSDP_ERR_INVALID_ARG, None)
  | Some _ =>
      if decide (len ≠ OSDP_MFGSTATR_PAYLOAD_BYTES ∨ payload = NULL)
      then Ret (OSDP_ERR_BAD_PAYLOAD, out) else
      data ← rd payload 0;
      Ret (OSDP_OK, Some (mk_mfgstatr data))
  end.

Definition osdp_mfgstatr_build (i : option osdp_mfgstatr) (buf : ptr) (buf_cap : nat)
    (written : option nat) : option (osdp_status * ptr * option nat) :=
  match i, written with
  | Some i, Some _ =>
      if is_null buf then Ret (OSDP_ERR_INVALID_ARG, buf, written) else
      if decide (buf_cap < OSDP_MFGSTATR_PAYLOAD_BYTES) then Ret (OSDP_ERR_BUFFER_TOO_SMALL, buf, Some 0) else
      buf ← wr buf 0 [ms_data i];
      Ret (OSDP_OK, buf, Some OSDP_MFGSTATR_PAYLOAD_BYTES)
  | _, _ => Ret (OSDP_ERR_INVALID_ARG, buf, written)
  end.

#[export] Instance mfgstatr_codec : Codec osdp_mfgstatr := {
  cd_decode := osdp_mfgstatr_decode;
  cd_build := osdp_mfgstatr_build;
  cd_wire v := [ms_data v];
  cd_typed v := is_byte (ms_data v);
  cd_ok v := True;
  cd_buildable v := True;
  cd_canon v := v
}.

#[export] Instance mfgstatr_laws : CodecLaws osdp_mfgstatr.
Proof.
  split; cbn [cd_decode cd_build cd_wire cd_typed cd_ok cd_buildable cd_canon mfgstatr_codec].
  - done.
  - build_law osdp_mfgstatr_build.
  - reject_law osdp_mfgstatr_build.
  - wire_law osdp_mfgstatr_decode. by destruct v.
  - sound_law osdp_mfgstatr_decode 1.
  - null_law osdp_mfgstatr_decode osdp_mfgstatr_build.
Qed.

(** ** osdp_MFGERRR (reply_mfgerrr.c) *)

Definition OSDP_MFGERRR_PAYLOAD_BYTES : nat := 1.
#[export] Hint Unfold OSDP_MFGERRR_PAYLOAD_BYTES : osdp_lens.

Record osdp_mfgerrr : Type := mk_mfgerrr {
  me_data : Z }.

Definition osdp_mfgerrr_decode (payload : ptr) (len : nat) (out : option osdp_mfgerrr)
  : option (osdp_status * option osdp_mfgerrr) :=
  match out with
  | None => Ret (OSDP_ERR_INVALID_ARG, None)
  | Some _ =>
      if decide (len ≠ OSDP_MFGERRR_PAYLOAD_BYTES ∨ payload = NULL)
      then Ret (OSDP_ERR_BAD_PAYLOAD, out) else
      data ← rd payload 0;
      Ret (OSDP_OK, Some (mk_mfgerrr data))
  end.

Definition osdp_mfgerrr_build (i : option osdp_mfgerrr) (buf : ptr) (buf_cap : nat)
    (written : option nat) : option (osdp_status * ptr * option nat) :=
  match i, written with
  | Some i, Some _ =>
      if is_null buf then Ret (OSDP_ERR_INVALID_ARG, buf, written) else
      if decide (buf_cap < OSDP_MFGERRR_PAYLOAD_BYTES) then Ret (OSDP_ERR_BUFFER_TOO_SMALL, buf, Some 0) else
      buf ← wr buf 0 [me_data i];
      Ret (OSDP_OK, buf, Some OSDP_MFGERRR_PAYLOAD_BYTES)
  | _, _ => Ret (OSDP_ERR_INVALID_ARG, buf, written)
  end.

#[export] Instance mfgerrr_codec : Codec osdp_mfgerrr := {
  cd_decode := osdp_mfgerrr_decode;
  cd_build := osdp_mfgerrr_build;
  cd_wire v := [me_data v];
  cd_typed v := is_byte (me_data v);
  cd_ok v := True;
  cd_buildable v := True;
  cd_canon v := v
}.

#[export] Instance mfgerrr_laws : CodecLaws osdp_mfgerrr.
Proof.
  split; cbn [cd_decode cd_build cd_wire cd_typed cd_ok cd_buildable cd_canon mfgerrr_codec].
  - done.
  - build_law osdp_mfgerrr_build.
  - reject_law osdp_mfgerrr_build.
  - wire_law osdp_mfgerrr_decode. by destruct v.
  - sound_law osdp_mfgerrr_decode 1.
  - null_law osdp_mfgerrr_decode osdp_mfgerrr_build.
Qed.

(** ** osdp_FTSTAT (reply_ftstat.c) *)

Definition OSDP_FTSTAT_PAYLOAD_BYTES : nat := 7.
#[export] Hint Unfold OSDP_FTSTAT_PAYLOAD_BYTES : osdp_lens.

Record osdp_ftstat : Type := mk_ftstat {
  fs_action : Z; fs_delay_ms : Z; fs_status_detail : Z; fs_update_msg_max : Z }.

Definition osdp_ftstat_decode (payload : ptr) (len : nat) (out : option osdp_ftstat)
  : option (osdp_status * option osdp_ftstat) :=
  match out with
  | None => Ret (OSDP_ERR_INVALID_ARG, None)
  | Some _ =>
      if decide (len ≠ OSDP_FTSTAT_PAYLOAD_BYTES ∨ payload = NULL)
      then Ret (OSDP_ERR_BAD_PAYLOAD, out) else
      action ← rd payload 0;
      delay_ms ← osdp_pack_read_u16le payload 1;
      status_detail ← osdp_pack_read_u16le payload 3;
      update_msg_max ← osdp_pack_read_u16le payload 5;
      Ret (OSDP_OK, Some (mk_ftstat action delay_ms (s16 status_detail) update_msg_max))
  end.

Definition osdp_ftstat_build (i : option osdp_ftstat) (buf : ptr) (buf_cap : nat)
    (written : option nat) : option (osdp_status * ptr * option nat) :=
  match i, written with
  | Some i, Some _ =>
      if is_null buf then Ret (OSDP_ERR_INVALID_ARG, buf, written) else
      if decide (buf_cap < OSDP_FTSTAT_PAYLOAD_BYTES) then Ret (OSDP_ERR_BUFFER_TOO_SMALL, buf, Some 0) else
      buf ← wr buf 0 [fs_action i];
      buf ← osdp_pack_write_u16le buf 1 (fs_delay_ms i);
      buf ← osdp_pack_write_u16le buf 3 (u16 (fs_status_detail i));
      buf ← osdp_pack_write_u16le buf 5 (fs_update_msg_max i);
      Ret (OSDP_OK, buf, Some OSDP_FTSTAT_PAYLOAD_BYTES)
  | _, _ => Ret (OSDP_ERR_INVALID_ARG, buf, written)
  end.

#[export] Instance ftstat_codec : Codec osdp_ftstat := {
  cd_decode := osdp_ftstat_decode;
  cd_build := osdp_ftstat_build;
  cd_wire v := [fs_action v] ++ le_split 2 (fs_delay_ms v) ++ le_split 2 (u16 (fs_status_detail v)) ++
    le_split 2 (fs_update_msg_max v);
  cd_typed v := is_byte (fs_action v) ∧ is_u16 (fs_delay_ms v) ∧ is_i16 (fs_status_detail v) ∧
    is_u16 (fs_update_msg_max v);
  cd_ok v := True;
  cd_buildable v := True;
  cd_canon v := v
}.

#[export] Instance ftstat_laws : CodecLaws osdp_ftstat.
Proof.
  split; cbn [cd_decode cd_build cd_wire cd_typed cd_ok cd_buildable cd_canon ftstat_codec].
  - done.
  - build_law osdp_ftstat_build.
  - reject_law osdp_ftstat_build.
  - wire_law osdp_ftstat_decode. rewrite !le16_read by (done || apply u16_range).
    rewrite s16_u16 by done. by destruct v.
  - intros m len o Hm Hl. unfold osdp_ftstat_decode. lens. case_decide as Hb; [by eauto|].
    assert (len = 7) as -> by (destruct (decide (len = 7)); [done|exfalso; apply Hb; by left]).
    explode m 7. bytes_tac. run_reads. field_tac.
    match goal with |- context [s16 ?v] => destruct (u16_s16 v ltac:(assumption)) as [Hs Hi];
      revert Hs Hi; generalize (s16 v); intros ? Hs Hi end.
    eexists _, _. split; [reflexivity|]. left. cbn -[le_split is_byte is_u16 is_i16 u16].
    split_and!; try done. rewrite Hs. wire_eq.
  - null_law osdp_ftstat_decode osdp_ftstat_build.
Qed.

(** ** osdp_FMT (reply_fmt.c) *)

Definition OSDP_FMT_HEADER_BYTES : nat := 3.
#[export] Hint Unfold OSDP_FMT_HEADER_BYTES : osdp_lens.

Record osdp_fmt : Type := mk_fmt {
  fm_reader_no : Z; fm_direction : Z; fm_char_count : Z; fm_chars : ptr; fm_chars_len : nat }.

Definition osdp_fmt_decode (payload : ptr) (len : nat) (out : option osdp_fmt)
  : option (osdp_status * option osdp_fmt) :=
  match out with
  | None => Ret (OSDP_ERR_INVALID_ARG, None)
  | Some _ =>
      if decide (len < OSDP_FMT_HEADER_BYTES ∨ payload = NULL)
      then Ret (OSDP_ERR_BAD_PAYLOAD, out) else
      char_count ← rd payload 2;
      if decide (OSDP_FMT_HEADER_BYTES + Z.to_nat char_count ≠ len) then Ret (OSDP_ERR_BAD_PAYLOAD, out) else
      reader_no ← rd payload 0;
      direction ← rd payload 1;
      chars ← sub_ptr payload OSDP_FMT_HEADER_BYTES (Z.to_nat char_count);
      Ret (OSDP_OK, Some (mk_fmt reader_no direction char_count chars (Z.to_nat char_count)))
  end.

Definition osdp_fmt_build (i : option osdp_fmt) (buf : ptr) (buf_cap : nat)
    (written : option nat) : option (osdp_status * ptr * option nat) :=
  match i, written with
  | Some i, Some _ =>
      if is_null buf then Ret (OSDP_ERR_INVALID_ARG, buf, written) else
      if decide (fm_char_count i ≠ Z.of_nat (fm_chars_len i)) then Ret (OSDP_ERR_INVALID_ARG, buf, Some 0) else
      if decide (0 < fm_chars_len i ∧ fm_chars i = NULL) then Ret (OSDP_ERR_INVALID_ARG, buf, Some 0) else
      let total := OSDP_FMT_HEADER_BYTES + fm_chars_len i in
      if decide (buf_cap < total) then Ret (OSDP_ERR_BUFFER_TOO_SMALL, buf, Some 0) else
      buf ← wr buf 0 [fm_reader_no i];
      buf ← wr buf 1 [fm_direction i];
      buf ← wr buf 2 [fm_char_count i];
      buf ← copy_tail buf OSDP_FMT_HEADER_BYTES (fm_chars i) (fm_chars_len i);
      Ret (OSDP_OK, buf, Some total)
  | _, _ => Ret (OSDP_ERR_INVALID_ARG, buf, written)
  end.

#[export] Instance fmt_codec : Codec osdp_fmt := {
  cd_decode := osdp_fmt_decode;
  cd_build := osdp_fmt_build;
  cd_wire v := [fm_reader_no v; fm_direction v; fm_char_count v] ++ view (fm_chars v) (fm_chars_len v);
  cd_typed v := is_byte (fm_reader_no v) ∧ is_byte (fm_direction v) ∧ is_byte (fm_char_count v) ∧
    region_ok (fm_chars v) (fm_chars_len v);
  cd_ok v := fm_char_count v = Z.of_nat (fm_chars_len v) ∧ (0 < fm_chars_len v → fm_chars v ≠ NULL);
  cd_buildable v := fm_char_count v = Z.of_nat (fm_chars_len v) ∧ (0 < fm_chars_len v → fm_chars v ≠ NULL);
  cd_canon v := mk_fmt (fm_reader_no v) (fm_direction v) (fm_char_count v)
    (canon_slice (fm_chars v) (fm_chars_len v)) (fm_chars_len v)
}.

#[export] Instance fmt_laws : CodecLaws osdp_fmt.
Proof.
  split; cbn [cd_decode cd_build cd_wire cd_typed cd_ok cd_buildable cd_canon fmt_codec].
  - done.
  - build_law osdp_fmt_build.
  - reject_law osdp_fmt_build.
  - wire_law osdp_fmt_decode. rewrite decide_False by lia.
    run_reads. rewrite ?le16_read, ?le32_read by done.
    assert (Z.to_nat (fm_char_count v) = fm_chars_len v) as -> by lia. by tail_read.
  - sound_head osdp_fmt_decode 3 m len. field_tac.
    case_decide as Hn; [by eauto|]. subst len.
    match goal with |- context [Z.to_nat ?x] => sound_tail m (Z.to_nat x); wire_eq end.
  - null_law osdp_fmt_decode osdp_fmt_build.
Qed.

(** ** osdp_KEYPAD (reply_keypad.c) *)

Definition OSDP_KEYPAD_HEADER_BYTES : nat := 2.
#[export] Hint Unfold OSDP_KEYPAD_HEADER_BYTES : osdp_lens.

Record osdp_keypad : Type := mk_keypad {
  kp_reader_no : Z; kp_digit_count : Z; kp_digits : ptr; kp_digits_len : nat }.

Definition osdp_keypad_decode (payload : ptr) (len : nat) (out : option osdp_keypad)
  : option (osdp_status * option osdp_keypad) :=
  match out with
  | None => Ret (OSDP_ERR_INVALID_ARG, None)
  | Some _ =>
      if decide (len < OSDP_KEYPAD_HEADER_BYTES ∨ payload = NULL)
      then Ret (OSDP_ERR_BAD_PAYLOAD, out) else
      digit_count ← rd payload 1;
      if decide (OSDP_KEYPAD_HEADER_BYTES + Z.to_nat digit_count ≠ len) then Ret (OSDP_ERR_BAD_PAYLOAD, out) else
      reader_no ← rd payload 0;
      digits ← sub_ptr payload OSDP_KEYPAD_HEADER_BYTES (Z.to_nat digit_count);
      Ret (OSDP_OK, Some (mk_keypad reader_no digit_count digits (Z.to_nat digit_count)))
  end.

Definition osdp_keypad_build (i : option osdp_keypad) (buf : ptr) (buf_cap : nat)
    (written : option nat) : option (osdp_status * ptr * option nat) :=
  match i, written with
  | Some i, Some _ =>
      if is_null buf then Ret (OSDP_ERR_INVALID_ARG, buf, written) else
      if decide (kp_digit_count i ≠ Z.of_nat (kp_digits_len i)) then Ret (OSDP_ERR_INVALID_ARG, buf, Some 0) else
      if decide (0 < kp_digits_len i ∧ kp_digits i = NULL) then Ret (OSDP_ERR_INVALID_ARG, buf, Some 0) else
      let total := OSDP_KEYPAD_HEADER_BYTES + kp_digits_len i in
      if decide (buf_cap < total) then Ret (OSDP_ERR_BUFFER_TOO_SMALL, buf, Some 0) else
      buf ← wr buf 0 [kp_reader_no i];
      buf ← wr buf 1 [kp_digit_count i];
      buf ← copy_tail buf OSDP_KEYPAD_HEADER_BYTES (kp_digits i) (kp_digits_len i);
      Ret (OSDP_OK, buf, Some total)
  | _, _ => Ret (OSDP_ERR_INVALID_ARG, buf, written)
  end.

#[export] Instance keypad_codec : Codec osdp_keypad := {
  cd_decode := osdp_keypad_decode;
  cd_build := osdp_keypad_build;
  cd_wire v := [kp_reader_no v; kp_digit_count v] ++ view (kp_digits v) (kp_digits_len v);
  cd_typed v := is_byte (kp_reader_no v) ∧ is_byte (kp_digit_count v) ∧
    region_ok (kp_digits v) (kp_digits_len v);
  cd_ok v := kp_digit_count v = Z.of_nat (kp_digits_len v) ∧
    (0 < kp_digits_len v → kp_digits v ≠ NULL);
  cd_buildable v := kp_digit_count v = Z.of_nat (kp_digits_len v) ∧
    (0 < kp_digits_len v → kp_digits v ≠ NULL);
  cd_canon v := mk_keypad (kp_reader_no v) (kp_digit_count v) (canon_slice (kp_digits v) (kp_digits_len v))
    (kp_digits_len v)
}.

#[export] Instance keypad_laws : CodecLaws osdp_keypad.
Proof.
  split; cbn [cd_decode cd_build cd_wire cd_typed cd_ok cd_buildable cd_canon keypad_codec].
  - done.
  - build_law osdp_keypad_build.
  - reject_law osdp_keypad_build.
  - wire_law osdp_keypad_decode. rewrite decide_False by lia.
    run_reads. rewrite ?le16_read, ?le32_read by done.
    assert (Z.to_nat (kp_digit_count v) = kp_digits_len v) as -> by lia. by tail_read.
  - sound_head osdp_keypad_decode 2 m len. field_tac.
    case_decide as Hn; [by eauto|]. subst len.
    match goal with |- context [Z.to_nat ?x] => sound_tail m (Z.to_nat x); wire_eq end.
  - null_law osdp_keypad_decode osdp_keypad_build.
Qed.

(** ** osdp_NAK (reply_nak.c) *)

Record osdp_nak : Type := mk_nak {
  nk_error_code : Z; nk_details : ptr; nk_details_len : nat }.

Definition osdp_nak_decode (payload : ptr) (len : nat) (out : option osdp_nak)
  : option (osdp_status * option osdp_nak) :=
  match out with
  | None => Ret (OSDP_ERR_INVALID_ARG, None)
  | Some _ =>
      if decide (len < 1 ∨ payload = NULL)
      then Ret (OSDP_ERR_BAD_PAYLOAD, out) else
      error_code ← rd payload 0;
      let details_len := len - 1 in
      details ← sub_ptr payload 1 details_len;
      Ret (OSDP_OK, Some (mk_nak error_code details details_len))
  end.

Definition osdp_nak_build (i : option osdp_nak) (buf : ptr) (buf_cap : nat)
    (written : option nat) : option (osdp_status * ptr * option nat) :=
  match i, written with
  | Some i, Some _ =>
      if is_null buf then Ret (OSDP_ERR_INVALID_ARG, buf, written) else
      if decide (0 < nk_details_len i ∧ nk_details i = NULL) then Ret (OSDP_ERR_INVALID_ARG, buf, Some 0) else
      let total := 1 + nk_details_len i in
      if decide (buf_cap < total) then Ret (OSDP_ERR_BUFFER_TOO_SMALL, buf, Some 0) else
      buf ← wr buf 0 [nk_error_code i];
      buf ← copy_tail buf 1 (nk_details i) (nk_details_len i);
      Ret (OSDP_OK, buf, Some total)
  | _, _ => Ret (OSDP_ERR_INVALID_ARG, buf, written)
  end.

#[export] Instance nak_codec : Codec osdp_nak := {
  cd_decode := osdp_nak_decode;
  cd_build := osdp_nak_build;
  cd_wire v := [nk_error_code v] ++ view (nk_details v) (nk_details_len v);
  cd_typed v := is_byte (nk_error_code v) ∧ region_ok (nk_details v) (nk_details_len v);
  cd_ok v := (0 < nk_details_len v → nk_details v ≠ NULL);
  cd_buildable v := (0 < nk_details_len v → nk_details v ≠ NULL);
  cd_canon v := mk_nak (nk_error_code v) (canon_slice (nk_details v) (nk_details_len v)) (nk_details_len v)
}.

#[export] Instance nak_laws : CodecLaws osdp_nak.
Proof.
  split; cbn [cd_decode cd_build cd_wire cd_typed cd_ok cd_buildable cd_canon nak_codec].
  - done.
  - build_law osdp_nak_build.
  - reject_law osdp_nak_build.
  - wire_law osdp_nak_decode. replace (S (nk_details_len v) - 1) with (nk_details_len v) by lia. by tail_read.
  - sound_head osdp_nak_decode 1 m len. destruct len as [|n]; [lia|]. replace (S n - 1) with n in * by lia.
    sound_tail m n.
  - null_law osdp_nak_decode osdp_nak_build.
Qed.

(** ** osdp_RAW (reply_raw.c) *)

Definition OSDP_RAW_HEADER_BYTES : nat := 4.
#[export] Hint Unfold OSDP_RAW_HEADER_BYTES : osdp_lens.

Record osdp_raw : Type := mk_raw {
  rw_reader_no : Z; rw_format_code : Z; rw_bit_count : Z; rw_bit_data : ptr;
  rw_bit_data_len : nat }.

Definition osdp_raw_decode (payload : ptr) (len : nat) (out : option osdp_raw)
  : option (osdp_status * option osdp_raw) :=
  match out with
  | None => Ret (OSDP_ERR_INVALID_ARG, None)
  | Some _ =>
      if decide (len < OSDP_RAW_HEADER_BYTES ∨ payload = NULL)
      then Ret (OSDP_ERR_BAD_PAYLOAD, out) else
      reader_no ← rd payload 0;
      format_code ← rd payload 1;
      bit_count ← osdp_pack_read_u16le payload 2;
      let bit_data_len := len - OSDP_RAW_HEADER_BYTES in
      bit_data ← sub_ptr payload OSDP_RAW_HEADER_BYTES bit_data_len;
      let expected := Z.to_nat ((bit_count + 7) / 8)%Z in
      let o := (mk_raw reader_no format_code bit_count bit_data bit_data_len) in
      if decide (bit_data_len ≠ expected) then Ret (OSDP_ERR_BAD_PAYLOAD, Some o) else
      Ret (OSDP_OK, Some o)
  end.

Definition osdp_raw_build (i : option osdp_raw) (buf : ptr) (buf_cap : nat)
    (written : option nat) : option (osdp_status * ptr * option nat) :=
  match i, written with
  | Some i, Some _ =>
      if is_null buf then Ret (OSDP_ERR_INVALID_ARG, buf, written) else
      let expected := Z.to_nat ((rw_bit_count i + 7) / 8)%Z in
      if decide (rw_bit_data_len i ≠ expected) then Ret (OSDP_ERR_INVALID_ARG, buf, Some 0) else
      if decide (0 < rw_bit_data_len i ∧ rw_bit_data i = NULL) then Ret (OSDP_ERR_INVALID_ARG, buf, Some 0) else
      let total := OSDP_RAW_HEADER_BYTES + rw_bit_data_len i in
      if decide (buf_cap < total) then Ret (OSDP_ERR_BUFFER_TOO_SMALL, buf, Some 0) else
      buf ← wr buf 0 [rw_reader_no i];
      buf ← wr buf 1 [rw_format_code i];
      buf ← osdp_pack_write_u16le buf 2 (rw_bit_count i);
      buf ← copy_tail buf OSDP_RAW_HEADER_BYTES (rw_bit_data i) (rw_bit_data_len i);
      Ret (OSDP_OK, buf, Some total)
  | _, _ => Ret (OSDP_ERR_INVALID_ARG, buf, written)
  end.

#[export] Instance raw_codec : Codec osdp_raw := {
  cd_decode := osdp_raw_decode;
  cd_build := osdp_raw_build;
  cd_wire v := [rw_reader_no v; rw_format_code v] ++ le_split 2 (rw_bit_count v) ++
    view (rw_bit_data v) (rw_bit_data_len v);
  cd_typed v := is_byte (rw_reader_no v) ∧ is_byte (rw_format_code v) ∧ is_u16 (rw_bit_count v) ∧
    region_ok (rw_bit_data v) (rw_bit_data_len v);
  cd_ok v := rw_bit_data_len v = Z.to_nat ((rw_bit_count v + 7) / 8)%Z ∧
    (0 < rw_bit_data_len v → rw_bit_data v ≠ NULL);
  cd_buildable v := rw_bit_data_len v = Z.to_nat ((rw_bit_count v + 7) / 8)%Z ∧
    (0 < rw_bit_data_len v → rw_bit_data v ≠ NULL);
  cd_canon v := mk_raw (rw_reader_no v) (rw_format_code v) (rw_bit_count v)
    (canon_slice (rw_bit_data v) (rw_bit_data_len v)) (rw_bit_data_len v)
}.

#[export] Instance raw_laws : CodecLaws osdp_raw.
Proof.
  split; cbn [cd_decode cd_build cd_wire cd_typed cd_ok cd_buildable cd_canon raw_codec].
  - done.
  - build_law osdp_raw_build.
  - reject_law osdp_raw_build.
  - wire_law osdp_raw_decode. replace (S (S (S (S (rw_bit_data_len v)))) - 4) with (rw_bit_data_len v) by lia.
    tail_read. by rewrite decide_False by tauto.
  - sound_head osdp_raw_decode 4 m len. destruct len as [|[|[|[|n]]]]; [lia..|]. replace (S (S (S (S n))) - 4) with n in * by lia.
    field_tac. destruct (slice_ok m n) as (Hr & Hnn & Hv); [done|simpl in *; lia|].
    rewrite sub_ptr_Ptr by lia. cbn [skipn mbind option_bind]. rewrite drop_0.
    case_decide as He; [by eauto|]. eexists _, _. split; [reflexivity|]. left.
    cbn -[le_split is_byte is_u16 region_ok view Z.div Z.add]. rewrite Hv. split_and!; try done.
    wire_eq.
  - null_law osdp_raw_decode osdp_raw_build.
Qed.

(** ** osdp_MFGREP (reply_mfgrep.c) *)

Definition OSDP_MFGREP_VENDOR_CODE_BYTES : nat := 3.
Definition OSDP_MFGREP_HEADER_BYTES : nat := OSDP_MFGREP_VENDOR_CODE_BYTES.
#[export] Hint Unfold OSDP_MFGREP_VENDOR_CODE_BYTES OSDP_MFGREP_HEADER_BYTES : osdp_lens.

Record osdp_mfgrep : Type := mk_mfgrep {
  mp_vendor_code : list Z; mp_data : ptr; mp_data_len : nat }.

Definition osdp_mfgrep_decode (payload : ptr) (len : nat) (out : option osdp_mfgrep)
  : option (osdp_status * option osdp_mfgrep) :=
  match out with
  | None => Ret (OSDP_ERR_INVALID_ARG, None)
  | Some _ =>
      if decide (len < OSDP_MFGREP_HEADER_BYTES ∨ payload = NULL)
      then Ret (OSDP_ERR_BAD_PAYLOAD, out) else
      vendor_code ← rd_slice payload 0 OSDP_MFGREP_VENDOR_CODE_BYTES;
      let data_len := len - OSDP_MFGREP_HEADER_BYTES in
      data ← sub_ptr payload OSDP_MFGREP_HEADER_BYTES data_len;
      Ret (OSDP_OK, Some (mk_mfgrep vendor_code data data_len))
  end.

Definition osdp_mfgrep_build (i : option osdp_mfgrep) (buf : ptr) (buf_cap : nat)
    (written : option nat) : option (osdp_status * ptr * option nat) :=
  match i, written with
  | Some i, Some _ =>
      if is_null buf then Ret (OSDP_ERR_INVALID_ARG, buf, written) else
      if decide (0 < mp_data_len i ∧ mp_data i = NULL)
      then Ret (OSDP_ERR_INVALID_ARG, buf, Some 0) else
      let total := OSDP_MFGREP_HEADER_BYTES + mp_data_len i in
      if decide (buf_cap < total) then Ret (OSDP_ERR_BUFFER_TOO_SMALL, buf, Some 0) else
      buf ← wr buf 0 (mp_vendor_code i);
      buf ← copy_tail buf OSDP_MFGREP_HEADER_BYTES (mp_data i) (mp_data_len i);
      Ret (OSDP_OK, buf, Some total)
  | _, _ => Ret (OSDP_ERR_INVALID_ARG, buf, written)
  end.

#[export] Instance mfgrep_codec : Codec osdp_mfgrep := {
  cd_decode := osdp_mfgrep_decode;
  cd_build := osdp_mfgrep_build;
  cd_wire v := mp_vendor_code v ++ view (mp_data v) (mp_data_len v);
  cd_typed v := bytes_ok (mp_vendor_code v) ∧ length (mp_vendor_code v) = 3 ∧
    region_ok (mp_data v) (mp_data_len v);
  cd_ok v := 0 < mp_data_len v → mp_data v ≠ NULL;
  cd_buildable v := 0 < mp_data_len v → mp_data v ≠ NULL;
  cd_canon v := mk_mfgrep (mp_vendor_code v) (canon_slice (mp_data v) (mp_data_len v)) (mp_data_len v)
}.

#[export] Instance mfgrep_laws : CodecLaws osdp_mfgrep.
Proof.
  split; cbn [cd_decode cd_build cd_wire cd_typed cd_ok cd_buildable cd_canon mfgrep_codec].
  - done.
  - intros [vc d n] m cap w. cbn [mp_data mp_data_len mp_vendor_code]. intros (Hvb & Hvl & Hd) Hb Hm.
    destruct vc as [|x [|y [|z []]]]; try discriminate Hvl.
    unfold osdp_mfgrep_build. lens. cbn [is_null mp_data mp_data_len mp_vendor_code].
    rewrite decide_False by tauto. cbv zeta. size_cases. run_writes m.
    cbn [length app Nat.add]. by rewrite ?length_view by done.
  - reject_law osdp_mfgrep_build.
  - intros [vc d n] ext o. cbn [mp_data mp_data_len mp_vendor_code]. intros (Hvb & Hvl & Hd) Hok.
    destruct vc as [|x [|y [|z []]]]; try discriminate Hvl. cbn [app length].
    unfold osdp_mfgrep_decode. lens. rewrite length_view by done.
    rewrite decide_False by (intros [|]; (done || lia)).
    cbn [rd_slice]. rewrite mslice_Some by (simpl; lia). cbn [skipn firstn mbind option_bind]. cbv zeta.
    replace (S (S (S n)) - 3) with n by lia. rewrite take_0. by tail_read.
  - sound_head osdp_mfgrep_decode 3 m len.
    rewrite mslice_Some by (simpl; lia). cbn [skipn firstn mbind option_bind]. rewrite ?take_0.
    destruct len as [|[|[|n]]]; [lia..|]. replace (S (S (S n)) - 3) with n in * by lia.
    sound_tail m n. constructor; [done|]. constructor; [done|]. by constructor.
  - null_law osdp_mfgrep_decode osdp_mfgrep_build.
Qed.

(** ** osdp_PDID (reply_pdid.c): the vendor code is an array of three bytes *)

Definition OSDP_PDID_PAYLOAD_BYTES : nat := 12.
#[export] Hint Unfold OSDP_PDID_PAYLOAD_BYTES : osdp_lens.

Record osdp_pdid : Type := mk_pdid {
  pi_vendor_code0 : Z; pi_vendor_code1 : Z; pi_vendor_code2 : Z; pi_model : Z;
  pi_version : Z; pi_serial : Z; pi_firmware_major : Z; pi_firmware_minor : Z;
  pi_firmware_build : Z }.

Definition osdp_pdid_decode (payload : ptr) (len : nat) (out : option osdp_pdid)
  : option (osdp_status * option osdp_pdid) :=
  match out with
  | None => Ret (OSDP_ERR_INVALID_ARG, None)
  | Some _ =>
      if decide (len ≠ OSDP_PDID_PAYLOAD_BYTES ∨ payload = NULL)
      then Ret (OSDP_ERR_BAD_PAYLOAD, out) else
      vendor_code0 ← rd payload 0;
      vendor_code1 ← rd payload 1;
      vendor_code2 ← rd payload 2;
      model ← rd payload 3;
      version ← rd payload 4;
      serial ← osdp_pack_read_u32le payload 5;
      firmware_major ← rd payload 9;
      firmware_minor ← rd payload 10;
      firmware_build ← rd payload 11;
      Ret (OSDP_OK, Some (mk_pdid vendor_code0 vendor_code1 vendor_code2 model version serial firmware_major
        firmware_minor firmware_build))
  end.

Definition osdp_pdid_build (i : option osdp_pdid) (buf : ptr) (buf_cap : nat)
    (written : option nat) : option (osdp_status * ptr * option nat) :=
  match i, written with
  | Some i, Some _ =>
      if is_null buf then Ret (OSDP_ERR_INVALID_ARG, buf, written) else
      if decide (buf_cap < OSDP_PDID_PAYLOAD_BYTES) then Ret (OSDP_ERR_BUFFER_TOO_SMALL, buf, Some 0) else
      buf ← wr buf 0 [pi_vendor_code0 i];
      buf ← wr buf 1 [pi_vendor_code1 i];
      buf ← wr buf 2 [pi_vendor_code2 i];
      buf ← wr buf 3 [pi_model i];
      buf ← wr buf 4 [pi_version i];
      buf ← osdp_pack_write_u32le buf 5 (pi_serial i);
      buf ← wr buf 9 [pi_firmware_major i];
      buf ← wr buf 10 [pi_firmware_minor i];
      buf ← wr buf 11 [pi_firmware_build i];
      Ret (OSDP_OK, buf, Some OSDP_PDID_PAYLOAD_BYTES)
  | _, _ => Ret (OSDP_ERR_INVALID_ARG, buf, written)
  end.

#[export] Instance pdid_codec : Codec osdp_pdid := {
  cd_decode := osdp_pdid_decode;
  cd_build := osdp_pdid_build;
  cd_wire v := [pi_vendor_code0 v; pi_vendor_code1 v; pi_vendor_code2 v; pi_model v; pi_version v] ++
    le_split 4 (pi_serial v) ++
    [pi_firmware_major v; pi_firmware_minor v; pi_firmware_build v];
  cd_typed v := is_byte (pi_vendor_code0 v) ∧ is_byte (pi_vendor_code1 v) ∧
    is_byte (pi_vendor_code2 v) ∧ is_byte (pi_model v) ∧ is_byte (pi_version v) ∧
    is_u32 (pi_serial v) ∧ is_byte (pi_firmware_major v) ∧ is_byte (pi_firmware_minor v) ∧
    is_byte (pi_firmware_build v);
  cd_ok v := True;
  cd_buildable v := True;
  cd_canon v := v
}.

#[export] Instance pdid_laws : CodecLaws osdp_pdid.
Proof.
  split; cbn [cd_decode cd_build cd_wire cd_typed cd_ok cd_buildable cd_canon pdid_codec].
  - done.
  - build_law osdp_pdid_build.
  - reject_law osdp_pdid_build.
  - wire_law osdp_pdid_decode. by destruct v.
  - sound_law osdp_pdid_decode 12.
  - null_law osdp_pdid_decode osdp_pdid_build.
Qed.

(** ** Replies without a payload (reply_ack.c, reply_busy.c) *)

Definition osdp_ack_decode (payload : ptr) (len : nat) : osdp_status :=
  if decide (len ≠ 0) then OSDP_ERR_BAD_PAYLOAD else OSDP_OK.

Definition osdp_ack_build (buf : ptr) (buf_cap : nat) (written : option nat)
  : osdp_status * option nat :=
  match written with
  | None => (OSDP_ERR_INVALID_ARG, None)
  | Some _ => (OSDP_OK, Some 0)
  end.

Definition osdp_busy_decode (payload : ptr) (len : nat) : osdp_status :=
  if decide (len ≠ 0) then OSDP_ERR_BAD_PAYLOAD else OSDP_OK.

Definition osdp_busy_build (buf : ptr) (buf_cap : nat) (written : option nat)
  : osdp_status * option nat :=
  match written with
  | None => (OSDP_ERR_INVALID_ARG, None)
  | Some _ => (OSDP_OK, Some 0)
  end.

(** ** Properties *)

(** C25: The reply codecs, in the sense of [command_codecs_correct]: the eleven
    structures osdp_COM, LSTATR, MFGSTATR, MFGERRR, FTSTAT, FMT, KEYPAD, NAK, RAW,
    MFGREP and PDID, among them osdp_RAW, whose data length must be the bit count
    rounded up to bytes, and osdp_FTSTAT, whose signed detail code survives the
    unsigned wire format, with every NULL argument refused; and the two replies
    without a payload, osdp_ACK and osdp_BUSY.  (The record lists, osdp_PDCAP and
    the three status reports, are in Records.v.) *)
Theorem reply_codecs_correct :
  (codec_correct osdp_com ∧ codec_correct osdp_lstatr ∧ codec_correct osdp_mfgstatr ∧
   codec_correct osdp_mfgerrr ∧ codec_correct osdp_ftstat ∧ codec_correct osdp_fmt ∧
   codec_correct osdp_keypad ∧ codec_correct osdp_nak ∧ codec_correct osdp_raw ∧
   codec_correct osdp_mfgrep ∧ codec_correct osdp_pdid) ∧
  empty_codec_correct osdp_ack_decode osdp_ack_build ∧
  empty_codec_correct osdp_busy_decode osdp_busy_build.
Proof.
  split; [split_and!; apply codec_laws_correct; apply _|].
  split_and!; empty_codec.
Qed.
