(* ===== verification/Records.v ===== *)
(** * Payloads that carry a list

    osdp_OUT and osdp_LED (cmd_out.c, cmd_led.c), osdp_PDCAP with its Annex B
    validation (reply_pdcap.c) and the status reports osdp_ISTATR, osdp_OSTATR and
    osdp_RSTATR (reply_istatr.c, reply_ostatr.c, reply_rstatr.c).  An array
    argument is the list of its elements, [None] for a null pointer. *)
From S2P Require Import Prelude Types Pack Codec.

(** [records[i] = r] in an array of the caller's. *)
Definition arr_set {R} (a : list R) (i : nat) (r : R) : option (list R) :=
  if decide (i < length a) then Ret (<[i := r]> a) else UB.

(** ** osdp_OUT (cmd_out.c) *)

Definition OSDP_OUT_RECORD_BYTES : nat := 4.

Record osdp_out_record : Type := mk_out {
  or_output_no : Z; or_control_code : Z; or_timer_100ms : Z }.

(** One record read at [&payload[base]] and one written at [&buf[base]]: the
    bodies of the two loops. *)
Definition out_read (payload : ptr) (base : nat) : option osdp_out_record :=
  r0 ← rd payload base;
  r1 ← rd payload (base + 1);
  t ← osdp_pack_read_u16le payload (base + 2);
  Ret (mk_out r0 r1 t).

Definition out_write (r : osdp_out_record) (buf : ptr) (base : nat) : option ptr :=
  buf ← wr buf base [or_output_no r];
  buf ← wr buf (base + 1) [or_control_code r];
  osdp_pack_write_u16le buf (base + 2) (or_timer_100ms r).

Definition osdp_out_decode (payload : ptr) (len : nat) (records : option (list osdp_out_record))
    (records_cap : nat) (records_written : option nat)
  : option (osdp_status * option (list osdp_out_record) * option nat) :=
  match records_written with
  | None => Ret (OSDP_ERR_INVALID_ARG, records, None)
  | Some _ =>
      if decide (len = 0 ∨ len mod OSDP_OUT_RECORD_BYTES ≠ 0)
      then Ret (OSDP_ERR_BAD_PAYLOAD, records, Some 0) else
      if is_null payload then Ret (OSDP_ERR_BAD_PAYLOAD, records, Some 0) else
      let count := len / OSDP_OUT_RECORD_BYTES in
      match records with
      | None => Ret (OSDP_ERR_BUFFER_TOO_SMALL, None, Some 0)
      | Some a =>
          if decide (records_cap < count) then Ret (OSDP_ERR_BUFFER_TOO_SMALL, records, Some 0) else
          a ← for_loop (λ i a, r ← out_read payload (i * OSDP_OUT_RECORD_BYTES); arr_set a i r) 0 count a;
          Ret (OSDP_OK, Some a, Some count)
      end
  end.

Definition osdp_out_build (records : option (list osdp_out_record)) (record_count : nat) (buf : ptr)
    (buf_cap : nat) (written : option nat) : option (osdp_status * ptr * option nat) :=
  match written with
  | None => Ret (OSDP_ERR_INVALID_ARG, buf, None)
  | Some _ =>
      if is_null buf then Ret (OSDP_ERR_INVALID_ARG, buf, written) else
      match records with
      | None => Ret (OSDP_ERR_INVALID_ARG, buf, Some 0)
      | Some rs =>
          if decide (record_count = 0) then Ret (OSDP_ERR_INVALID_ARG, buf, Some 0) else
          let total := record_count * OSDP_OUT_RECORD_BYTES in
          if decide (buf_cap < total) then Ret (OSDP_ERR_BUFFER_TOO_SMALL, buf, Some 0) else
          buf ← for_loop (λ i buf, r ← rs !! i; out_write r buf (i * OSDP_OUT_RECORD_BYTES))
                  0 record_count buf;
          Ret (OSDP_OK, buf, Some total)
      end
  end.

(** ** osdp_LED (cmd_led.c) *)

Definition OSDP_LED_RECORD_BYTES : nat := 14.

Record osdp_led_record : Type := mk_led_record {
  lr_reader_no : Z; lr_led_no : Z; lr_temp_control_code : Z; lr_temp_on_time : Z;
  lr_temp_off_time : Z; lr_temp_on_color : Z; lr_temp_off_color : Z; lr_temp_timer_100ms : Z;
  lr_perm_control_code : Z; lr_perm_on_time : Z; lr_perm_off_time : Z; lr_perm_on_color : Z;
  lr_perm_off_color : Z }.

Definition led_read (payload : ptr) (base : nat) : option osdp_led_record :=
  r0 ← rd payload base;
  r1 ← rd payload (base + 1);
  r2 ← rd payload (base + 2);
  r3 ← rd payload (base + 3);
  r4 ← rd payload (base + 4);
  r5 ← rd payload (base + 5);
  r6 ← rd payload (base + 6);
  t ← osdp_pack_read_u16le payload (base + 7);
  r9 ← rd payload (base + 9);
  r10 ← rd payload (base + 10);
  r11 ← rd payload (base + 11);
  r12 ← rd payload (base + 12);
  r13 ← rd payload (base + 13);
  Ret (mk_led_record r0 r1 r2 r3 r4 r5 r6 t r9 r10 r11 r12 r13).

Definition led_write (r : osdp_led_record) (buf : ptr) (base : nat) : option ptr :=
  buf ← wr buf base [lr_reader_no r];
  buf ← wr buf (base + 1) [lr_led_no r];
  buf ← wr buf (base + 2) [lr_temp_control_code r];
  buf ← wr buf (base + 3) [lr_temp_on_time r];
  buf ← wr buf (base + 4) [lr_temp_off_time r];
  buf ← wr buf (base + 5) [lr_temp_on_color r];
  buf ← wr buf (base + 6) [lr_temp_off_color r];
  buf ← osdp_pack_write_u16le buf (base + 7) (lr_temp_timer_100ms r);
  buf ← wr buf (base + 9) [lr_perm_control_code r];
  buf ← wr buf (base + 10) [lr_perm_on_time r];
  buf ← wr buf (base + 11) [lr_perm_off_time r];
  buf ← wr buf (base + 12) [lr_perm_on_color r];
  wr buf (base + 13) [lr_perm_off_color r].

Definition osdp_led_decode (payload : ptr) (len : nat) (records : option (list osdp_led_record))
    (records_cap : nat) (records_written : option nat)
  : option (osdp_status * option (list osdp_led_record) * option nat) :=
  match records_written with
  | None => Ret (OSDP_ERR_INVALID_ARG, records, None)
  | Some _ =>
      if decide (len = 0 ∨ len mod OSDP_LED_RECORD_BYTES ≠ 0)
      then Ret (OSDP_ERR_BAD_PAYLOAD, records, Some 0) else
      if is_null payload then Ret (OSDP_ERR_BAD_PAYLOAD, records, Some 0) else
      let count := len / OSDP_LED_RECORD_BYTES in
      match records with
      | None => Ret (OSDP_ERR_BUFFER_TOO_SMALL, None, Some 0)
      | Some a =>
          if decide (records_cap < count) then Ret (OSDP_ERR_BUFFER_TOO_SMALL, records, Some 0) else
          a ← for_loop (λ i a, r ← led_read payload (i * OSDP_LED_RECORD_BYTES); arr_set a i r) 0 count a;
          Ret (OSDP_OK, Some a, Some count)
      end
  end.

Definition osdp_led_build (records : option (list osdp_led_record)) (record_count : nat) (buf : ptr)
    (buf_cap : nat) (written : option nat) : option (osdp_status * ptr * option nat) :=
  match written with
  | None => Ret (OSDP_ERR_INVALID_ARG, buf, None)
  | Some _ =>
      if is_null buf then Ret (OSDP_ERR_INVALID_ARG, buf, written) else
      match records with
      | None => Ret (OSDP_ERR_INVALID_ARG, buf, Some 0)
      | Some rs =>
          if decide (record_count = 0) then Ret (OSDP_ERR_INVALID_ARG, buf, Some 0) else
          let total := record_count * OSDP_LED_RECORD_BYTES in
          if decide (buf_cap < total) then Ret (OSDP_ERR_BUFFER_TOO_SMALL, buf, Some 0) else
          buf ← for_loop (λ i buf, r ← rs !! i; led_write r buf (i * OSDP_LED_RECORD_BYTES))
                  0 record_count buf;
          Ret (OSDP_OK, buf, Some total)
      end
  end.

(** ** osdp_PDCAP (reply_pdcap.c) *)

Definition OSDP_PDCAP_RECORD_BYTES : nat := 3.

Record osdp_pdcap_record : Type := mk_pdcap {
  pc_function_code : Z; pc_compliance_level : Z; pc_num_objects : Z }.

Definition pdcap_read (payload : ptr) (base : nat) : option osdp_pdcap_record :=
  r0 ← rd payload base;
  r1 ← rd payload (base + 1);
  r2 ← rd payload (base + 2);
  Ret (mk_pdcap r0 r1 r2).

Definition pdcap_write (r : osdp_pdcap_record) (buf : ptr) (base : nat) : option ptr :=
  buf ← wr buf base [pc_function_code r];
  buf ← wr buf (base + 1) [pc_compliance_level r];
  wr buf (base + 2) [pc_num_objects r].

Definition osdp_pdcap_decode (payload : ptr) (len : nat) (records : option (list osdp_pdcap_record))
    (records_cap : nat) (records_written : option nat)
  : option (osdp_status * option (list osdp_pdcap_record) * option nat) :=
  match records_written with
  | None => Ret (OSDP_ERR_INVALID_ARG, records, None)
  | Some _ =>
      if decide (len mod OSDP_PDCAP_RECORD_BYTES ≠ 0) then Ret (OSDP_ERR_BAD_PAYLOAD, records, Some 0) else
      if decide (0 < len ∧ payload = NULL) then Ret (OSDP_ERR_BAD_PAYLOAD, records, Some 0) else
      let count := len / OSDP_PDCAP_RECORD_BYTES in
      match records with
      | None => if decide (0 < count) then Ret (OSDP_ERR_BUFFER_TOO_SMALL, None, Some 0)
                else Ret (OSDP_OK, None, Some 0)
      | Some a =>
          if decide (0 < count ∧ records_cap < count)
          then Ret (OSDP_ERR_BUFFER_TOO_SMALL, records, Some 0) else
          a ← for_loop (λ i a, r ← pdcap_read payload (i * OSDP_PDCAP_RECORD_BYTES); arr_set a i r)
                0 count a;
          Ret (OSDP_OK, Some a, Some count)
      end
  end.

Definition osdp_pdcap_build (records : option (list osdp_pdcap_record)) (record_count : nat)
    (buf : ptr) (buf_cap : nat) (written : option nat) : option (osdp_status * ptr * option nat) :=
  match written with
  | None => Ret (OSDP_ERR_INVALID_ARG, buf, None)
  | Some _ =>
      if is_null buf then Ret (OSDP_ERR_INVALID_ARG, buf, written) else
      if decide (0 < record_count ∧ records = None) then Ret (OSDP_ERR_INVALID_ARG, buf, Some 0) else
      let total := record_count * OSDP_PDCAP_RECORD_BYTES in
      if decide (buf_cap < total) then Ret (OSDP_ERR_BUFFER_TOO_SMALL, buf, Some 0) else
      buf ← for_loop (λ i buf, rs ← records; r ← rs !! i;
                       pdcap_write r buf (i * OSDP_PDCAP_RECORD_BYTES)) 0 record_count buf;
      Ret (OSDP_OK, buf, Some total)
  end.

(** *** osdp_pdcap_validate_record: the Annex B catalog *)

Inductive osdp_pdcap_field_kind : Type :=
  | OSDP_PDCAP_FIELD_ANY
  | OSDP_PDCAP_FIELD_RANGE
  | OSDP_PDCAP_FIELD_RANGE_OR_PRIVATE
  | OSDP_PDCAP_FIELD_BITMAP.

Record osdp_pdcap_field_rule : Type := mk_rule {
  fr_kind : osdp_pdcap_field_kind; fr_a : Z; fr_b : Z }.

Record osdp_pdcap_catalog_entry : Type := mk_entry {
  ce_function_code : Z; ce_compliance : osdp_pdcap_field_rule; ce_num_objects : osdp_pdcap_field_rule }.

Definition OSDP_PDCAP_ANY : osdp_pdcap_field_rule := mk_rule OSDP_PDCAP_FIELD_ANY 0 0.
Definition OSDP_PDCAP_RANGE (max : Z) : osdp_pdcap_field_rule := mk_rule OSDP_PDCAP_FIELD_RANGE max 0.
Definition OSDP_PDCAP_ZERO : osdp_pdcap_field_rule := OSDP_PDCAP_RANGE 0.
Definition OSDP_PDCAP_RANGE_PRIV (max priv_from : Z) : osdp_pdcap_field_rule :=
  mk_rule OSDP_PDCAP_FIELD_RANGE_OR_PRIVATE max priv_from.
Definition OSDP_PDCAP_BITMAP (mask : Z) : osdp_pdcap_field_rule :=
  mk_rule OSDP_PDCAP_FIELD_BITMAP mask 0.

Definition k_pdcap_catalog : list osdp_pdcap_catalog_entry := [
  mk_entry 1 (OSDP_PDCAP_RANGE 4) OSDP_PDCAP_ANY;
  mk_entry 2 (OSDP_PDCAP_RANGE 4) OSDP_PDCAP_ANY;
  mk_entry 3 (OSDP_PDCAP_RANGE 3) OSDP_PDCAP_ZERO;
  mk_entry 4 (OSDP_PDCAP_RANGE 6) OSDP_PDCAP_ANY;
  mk_entry 5 (OSDP_PDCAP_RANGE 2) OSDP_PDCAP_ANY;
  mk_entry 6 (OSDP_PDCAP_RANGE 3) OSDP_PDCAP_ANY;
  mk_entry 7 OSDP_PDCAP_ZERO OSDP_PDCAP_ZERO;
  mk_entry 8 (OSDP_PDCAP_RANGE 1) OSDP_PDCAP_ZERO;
  mk_entry 9 (OSDP_PDCAP_BITMAP 0x01) (OSDP_PDCAP_BITMAP 0x01);
  mk_entry 10 OSDP_PDCAP_ANY OSDP_PDCAP_ANY;
  mk_entry 11 OSDP_PDCAP_ANY OSDP_PDCAP_ANY;
  mk_entry 12 (OSDP_PDCAP_BITMAP 0x03) OSDP_PDCAP_ZERO;
  mk_entry 13 OSDP_PDCAP_ZERO OSDP_PDCAP_ANY;
  mk_entry 14 (OSDP_PDCAP_RANGE 3) OSDP_PDCAP_ZERO;
  mk_entry 15 (OSDP_PDCAP_RANGE 1) OSDP_PDCAP_ZERO;
  mk_entry 16 (OSDP_PDCAP_RANGE_PRIV 4 0x80) OSDP_PDCAP_ZERO
].

(** [(val & (uint8_t)~mask) == 0] for the bitmap rule. *)
Definition pdcap_field_ok (rule : osdp_pdcap_field_rule) (val : Z) : bool :=
  match fr_kind rule with
  | OSDP_PDCAP_FIELD_ANY => true
  | OSDP_PDCAP_FIELD_RANGE => bool_decide (val ≤ fr_a rule)%Z
  | OSDP_PDCAP_FIELD_RANGE_OR_PRIVATE =>
      bool_decide (val ≤ fr_a rule ∨ fr_b rule ≤ val)%Z
  | OSDP_PDCAP_FIELD_BITMAP => bool_decide (Z.land val (u8 (Z.lnot (fr_a rule))) = 0%Z)
  end.

(** The first catalog entry of the function code. *)
Fixpoint catalog_find (code : Z) (es : list osdp_pdcap_catalog_entry)
  : option osdp_pdcap_catalog_entry :=
  match es with
  | [] => None
  | e :: es => if decide (ce_function_code e = code) then Some e else catalog_find code es
  end.

Definition osdp_pdcap_validate_record (record : option osdp_pdcap_record) : osdp_status :=
  match record with
  | None => OSDP_ERR_INVALID_ARG
  | Some r =>
      match catalog_find (pc_function_code r) k_pdcap_catalog with
      | None => OSDP_ERR_INVALID_ARG
      | Some e =>
          if negb (pdcap_field_ok (ce_compliance e) (pc_compliance_level r))
          then OSDP_ERR_INVALID_ARG else
          if negb (pdcap_field_ok (ce_num_objects e) (pc_num_objects r))
          then OSDP_ERR_INVALID_ARG else OSDP_OK
      end
  end.

(** ** Status reports (reply_istatr.c, reply_ostatr.c, reply_rstatr.c) *)

Definition osdp_istatr_decode (payload : ptr) (len : nat) (statuses : ptr) (statuses_cap : nat)
    (statuses_written : option nat) : option (osdp_status * ptr * option nat) :=
  match statuses_written with
  | None => Ret (OSDP_ERR_INVALID_ARG, statuses, None)
  | Some _ =>
      if decide (0 < len ∧ payload = NULL) then Ret (OSDP_ERR_BAD_PAYLOAD, statuses, Some 0) else
      if decide (0 < len ∧ (statuses = NULL ∨ statuses_cap < len))
      then Ret (OSDP_ERR_BUFFER_TOO_SMALL, statuses, Some 0) else
      statuses ← copy_tail statuses 0 payload len;
      Ret (OSDP_OK, statuses, Some len)
  end.

Definition osdp_istatr_build (statuses : ptr) (count : nat) (buf : ptr) (buf_cap : nat)
    (written : option nat) : option (osdp_status * ptr * option nat) :=
  match written with
  | None => Ret (OSDP_ERR_INVALID_ARG, buf, None)
  | Some _ =>
      if decide (0 < count ∧ (statuses = NULL ∨ buf = NULL))
      then Ret (OSDP_ERR_INVALID_ARG, buf, Some 0) else
      if decide (buf_cap < count) then Ret (OSDP_ERR_BUFFER_TOO_SMALL, buf, Some 0) else
      buf ← copy_tail buf 0 statuses count;
      Ret (OSDP_OK, buf, Some count)
  end.

Definition osdp_ostatr_decode (payload : ptr) (len : nat) (statuses : ptr) (statuses_cap : nat)
    (statuses_written : option nat) : option (osdp_status * ptr * option nat) :=
  match statuses_written with
  | None => Ret (OSDP_ERR_INVALID_ARG, statuses, None)
  | Some _ =>
      if decide (0 < len ∧ payload = NULL) then Ret (OSDP_ERR_BAD_PAYLOAD, statuses, Some 0) else
      if decide (0 < len ∧ (statuses = NULL ∨ statuses_cap < len))
      then Ret (OSDP_ERR_BUFFER_TOO_SMALL, statuses, Some 0) else
      statuses ← copy_tail statuses 0 payload len;
      Ret (OSDP_OK, statuses, Some len)
  end.

Definition osdp_ostatr_build (statuses : ptr) (count : nat) (buf : ptr) (buf_cap : nat)
    (written : option nat) : option (osdp_status * ptr * option nat) :=
  match written with
  | None => Ret (OSDP_ERR_INVALID_ARG, buf, None)
  | Some _ =>
      if decide (0 < count ∧ (statuses = NULL ∨ buf = NULL))
      then Ret (OSDP_ERR_INVALID_ARG, buf, Some 0) else
      if decide (buf_cap < count) then Ret (OSDP_ERR_BUFFER_TOO_SMALL, buf, Some 0) else
      buf ← copy_tail buf 0 statuses count;
      Ret (OSDP_OK, buf, Some count)
  end.

Definition osdp_rstatr_decode (payload : ptr) (len : nat) (statuses : ptr) (statuses_cap : nat)
    (statuses_written : option nat) : option (osdp_status * ptr * option nat) :=
  match statuses_written with
  | None => Ret (OSDP_ERR_INVALID_ARG, statuses, None)
  | Some _ =>
      if decide (0 < len ∧ payload = NULL) then Ret (OSDP_ERR_BAD_PAYLOAD, statuses, Some 0) else
      if decide (0 < len ∧ (statuses = NULL ∨ statuses_cap < len))
      then Ret (OSDP_ERR_BUFFER_TOO_SMALL, statuses, Some 0) else
      statuses ← copy_tail statuses 0 payload len;
      Ret (OSDP_OK, statuses, Some len)
  end.

Definition osdp_rstatr_build (statuses : ptr) (count : nat) (buf : ptr) (buf_cap : nat)
    (written : option nat) : option (osdp_status * ptr * option nat) :=
  match written with
  | None => Ret (OSDP_ERR_INVALID_ARG, buf, None)
  | Some _ =>
      if decide (0 < count ∧ (statuses = NULL ∨ buf = NULL))
      then Ret (OSDP_ERR_INVALID_ARG, buf, Some 0) else
      if decide (buf_cap < count) then Ret (OSDP_ERR_BUFFER_TOO_SMALL, buf, Some 0) else
      buf ← copy_tail buf 0 statuses count;
      Ret (OSDP_OK, buf, Some count)
  end.

(** ** The record loops *)

Section records.
Context {R : Type} (size : nat) (wire : R → list Z) (typed : R → Prop)
  (read : ptr → nat → option R) (write : R → ptr → nat → option ptr).

(** What a record format has to satisfy. *)
Record record_laws : Prop := {
  rl_size r : length (wire r) = size;
  rl_pos : 0 < size;
  rl_read m i : bytes_ok m → i + size ≤ length m →
    ∃ r, read (Ptr m) i = Some r ∧ typed r ∧ wire r = sl m i size;
  rl_read_wire r pre ext : typed r → read (Ptr (pre ++ wire r ++ ext)) (length pre) = Some r;
  rl_write r pre rest : size ≤ length rest →
    write r (Ptr (pre ++ rest)) (length pre) = Some (Ptr ((pre ++ wire r) ++ drop size rest))
}.

Context (L : record_laws).

Definition wires (rs : list R) : list Z := concat (wire <$> rs).

Lemma wires_app rs rs' : wires (rs ++ rs') = wires rs ++ wires rs'.
Proof. unfold wires. by rewrite fmap_app, concat_app. Qed.

Lemma length_wires rs : length (wires rs) = length rs * size.
Proof.
  induction rs as [|r rs IH]; [done|]. change (wires (r :: rs)) with (wire r ++ wires rs).
  rewrite length_app, IH, (rl_size L). done.
Qed.

(** Storing the next element extends the decoded prefix. *)
Lemma arr_set_next (done : list R) (a : list R) i r :
  i = length done → i < length a →
  arr_set (done ++ drop i a) i r = Some ((done ++ [r]) ++ drop (S i) a).
Proof.
  intros -> Hi. unfold arr_set. rewrite decide_True by solve_len. f_equal.
  destruct (lookup_lt_is_Some_2 a (length done)) as [x Hx]; [done|].
  rewrite (drop_S a x) by done. rewrite insert_app_r_alt by lia.
  rewrite Nat.sub_diag. simpl. by rewrite <-app_assoc.
Qed.

Lemma read_loop_ok m n a i done0 :
  bytes_ok m → (i + n) * size ≤ length m → i + n ≤ length a → i = length done0 →
  Forall typed done0 → wires done0 = take (i * size) m →
  ∃ rs, for_loop (λ i a, r ← read (Ptr m) (i * size); arr_set a i r) i n (done0 ++ drop i a) =
      Some (rs ++ drop (i + n) a) ∧
    length rs = i + n ∧ Forall typed rs ∧ wires rs = take ((i + n) * size) m.
Proof.
  intros Hm. revert i done0. induction n as [|n IH]; intros i done0 Hlm Hla Hi Ht Hw.
  { exists done0. rewrite Nat.add_0_r. by split_and!. }
  rewrite for_loop_S.
  destruct (rl_read L m (i * size) Hm) as (r & -> & Hr & Hwr); [lia|]. cbn [mbind option_bind].
  rewrite arr_set_next by (done || lia). cbn [mbind option_bind].
  destruct (IH (S i) (done0 ++ [r])) as (rs & -> & Hl & Hrs & Hwrs); try lia.
  - rewrite length_app. simpl. lia.
  - apply Forall_app. split; [done|]. constructor; [done|constructor].
  - rewrite wires_app, Hw. change (wires [r]) with (wire r ++ []). rewrite app_nil_r, Hwr.
    pose proof (sl_app m 0 (i * size) size) as Hs. unfold sl in Hs at 1 3. rewrite drop_0 in Hs.
    cbn [Nat.add] in Hs. rewrite Hs. f_equal. lia.
  - exists rs. replace (i + S n) with (S i + n) by lia. by split_and!.
Qed.

(** Reading back a known list of records. *)
Lemma read_loop_wire rs pre ext a :
  Forall typed rs → length pre + length rs ≤ length a →
  for_loop (λ i a, r ← read (Ptr (wires pre ++ wires rs ++ ext)) (i * size); arr_set a i r)
    (length pre) (length rs) (pre ++ drop (length pre) a) =
  Some (pre ++ rs ++ drop (length pre + length rs) a).
Proof.
  revert pre. induction rs as [|r rs IH]; intros pre Ht Hl.
  { simpl. by rewrite Nat.add_0_r. }
  apply Forall_cons_1 in Ht as [Hr Ht]. cbn [length] in *. rewrite for_loop_S.
  change (wires (r :: rs)) with (wire r ++ wires rs). rewrite <-(app_assoc (wire r)).
  rewrite <-length_wires, (rl_read_wire L) by done. cbn [mbind option_bind].
  rewrite arr_set_next by lia. cbn [mbind option_bind].
  specialize (IH (pre ++ [r]) Ht). rewrite length_app in IH. cbn [length] in IH.
  replace (length pre + 1) with (S (length pre)) in IH by lia.
  rewrite wires_app in IH. change (wires [r]) with (wire r ++ []) in IH.
  rewrite app_nil_r, <-!app_assoc in IH. rewrite <-!app_assoc. rewrite IH by lia.
  cbn [app]. by replace (length pre + S (length rs)) with (S (length pre) + length rs) by lia.
Qed.

Lemma write_loop_ok rs all pre rest :
  all = pre ++ rs → length rs * size ≤ length rest →
  for_loop (λ i buf, r ← all !! i; write r buf (i * size)) (length pre) (length rs)
    (Ptr (wires pre ++ rest)) =
  Some (Ptr (wires all ++ drop (length rs * size) rest)).
Proof.
  revert pre rest. induction rs as [|r rs IH]; intros pre rest -> Hl.
  { simpl. by rewrite app_nil_r. }
  cbn [length] in *. rewrite for_loop_S. rewrite list_lookup_middle by done.
  cbn [mbind option_bind]. rewrite <-length_wires. rewrite (rl_write L) by lia.
  cbn [mbind option_bind].
  specialize (IH (pre ++ [r]) (drop size rest)). rewrite length_app in IH. cbn [length] in IH.
  replace (length pre + 1) with (S (length pre)) in IH by lia.
  rewrite wires_app in IH. change (wires [r]) with (wire r ++ []) in IH. rewrite app_nil_r in IH.
  rewrite IH; [|by rewrite <-app_assoc|rewrite length_drop; lia]. by rewrite drop_drop.
Qed.

(** The contract of a list message: the builder and the decoder on every branch,
    the empty list and NULL arguments included. *)
Definition list_codec_correct (empty_ok : bool)
    (dec : ptr → nat → option (list R) → nat → option nat →
           option (osdp_status * option (list R) * option nat))
    (bld : option (list R) → nat → ptr → nat → option nat →
           option (osdp_status * ptr * option nat)) : Prop :=
  (∀ rs m cap w, (rs = [] → empty_ok = true) → cap ≤ length m →
     bld (Some rs) (length rs) (Ptr m) cap (Some w) =
       if decide (length rs * size ≤ cap)
       then Some (OSDP_OK, Ptr (wires rs ++ drop (length rs * size) m), Some (length rs * size))
       else Some (OSDP_ERR_BUFFER_TOO_SMALL, Ptr m, Some 0)) ∧
  (∀ rs ext a w, (rs = [] → empty_ok = true) → Forall typed rs → length rs ≤ length a →
     dec (Ptr (wires rs ++ ext)) (length (wires rs)) (Some a) (length a) (Some w) =
       Some (OSDP_OK, Some (rs ++ drop (length rs) a), Some (length rs))) ∧
  (∀ m len a cap w, bytes_ok m → len ≤ length m → cap ≤ length a →
     ∃ s a' n, dec (Ptr m) len (Some a) cap (Some w) = Some (s, Some a', Some n) ∧
       ((s = OSDP_OK ∧ ∃ rs, a' = rs ++ drop n a ∧ n = length rs ∧ Forall typed rs ∧
           wires rs = take len m ∧ n ≤ cap ∧ (len = 0 → empty_ok = true)) ∨
        (s = OSDP_ERR_BAD_PAYLOAD ∧ a' = a ∧ n = 0 ∧
           (len mod size ≠ 0 ∨ len = 0 ∧ empty_ok = false)) ∨
        (s = OSDP_ERR_BUFFER_TOO_SMALL ∧ a' = a ∧ n = 0 ∧ cap < len / size))) ∧
  (∀ rs m cap w, empty_ok = false →
     bld (Some rs) 0 (Ptr m) cap (Some w) = Some (OSDP_ERR_INVALID_ARG, Ptr m, Some 0)) ∧
  (∀ ra p len cap w, empty_ok = true →
     bld ra 0 p cap (Some w) =
       Some (if is_null p then (OSDP_ERR_INVALID_ARG, p, Some w) else (OSDP_OK, p, Some 0)) ∧
     dec p 0 ra len (Some w) = Some (OSDP_OK, ra, Some 0)) ∧
  (∀ ra p len cap w, 0 < len →
     dec NULL len ra cap (Some w) = Some (OSDP_ERR_BAD_PAYLOAD, ra, Some 0) ∧
     (p ≠ NULL → len mod size = 0 →
        dec p len None cap (Some w) = Some (OSDP_ERR_BUFFER_TOO_SMALL, None, Some 0)) ∧
     (p ≠ NULL → bld None len p cap (Some w) = Some (OSDP_ERR_INVALID_ARG, p, Some 0))) ∧
  (∀ ra p count len cap w,
     dec p len ra cap None = Some (OSDP_ERR_INVALID_ARG, ra, None) ∧
     bld ra count p cap None = Some (OSDP_ERR_INVALID_ARG, p, None) ∧
     bld ra count NULL cap (Some w) = Some (OSDP_ERR_INVALID_ARG, NULL, Some w)).

Lemma div_exact len : len mod size = 0 → len = len / size * size.
Proof. intros H. pose proof (Nat.div_mod_eq len size). lia. Qed.

(** The whole decode loop on any payload of whole records. *)
Lemma read_all m len a :
  bytes_ok m → len ≤ length m → len mod size = 0 → len / size ≤ length a →
  ∃ rs, for_loop (λ i a, r ← read (Ptr m) (i * size); arr_set a i r) 0 (len / size) a =
      Some (rs ++ drop (len / size) a) ∧
    len / size = length rs ∧ Forall typed rs ∧ wires rs = take len m.
Proof.
  intros Hm Hl Hmod Ha. pose proof (div_exact len Hmod) as Hd.
  destruct (read_loop_ok m (len / size) a 0 []) as (rs & E & Hlr & Ht & Hw);
    [done|simpl; lia|lia|done|constructor|done|].
  exists rs. simpl in *. split_and!; [done|done|done|]. by rewrite <-Hd in Hw.
Qed.

Lemma read_all_wire rs ext a :
  Forall typed rs → length rs ≤ length a →
  for_loop (λ i a, r ← read (Ptr (wires rs ++ ext)) (i * size); arr_set a i r) 0 (length rs) a =
    Some (rs ++ drop (length rs) a).
Proof. intros. by apply (read_loop_wire rs [] ext a). Qed.

Lemma write_all rs m :
  length rs * size ≤ length m →
  for_loop (λ i buf, r ← rs !! i; write r buf (i * size)) 0 (length rs) (Ptr m) =
    Some (Ptr (wires rs ++ drop (length rs * size) m)).
Proof. intros. by apply (write_loop_ok rs rs [] m). Qed.

Lemma wires_len_div rs : length (wires rs) / size = length rs.
Proof. rewrite length_wires. apply Nat.div_mul. pose proof (rl_pos L). lia. Qed.

Lemma wires_len_mod rs : length (wires rs) mod size = 0.
Proof. rewrite length_wires. apply Nat.Div0.mod_mul. Qed.
End records.

(** ** The three record formats *)

Definition out_wire (r : osdp_out_record) : list Z :=
  [or_output_no r; or_control_code r] ++ le_split 2 (or_timer_100ms r).
Definition out_typed (r : osdp_out_record) : Prop :=
  is_byte (or_output_no r) ∧ is_byte (or_control_code r) ∧ is_u16 (or_timer_100ms r).

Definition led_wire (r : osdp_led_record) : list Z :=
  [lr_reader_no r; lr_led_no r; lr_temp_control_code r; lr_temp_on_time r; lr_temp_off_time r;
   lr_temp_on_color r; lr_temp_off_color r] ++ le_split 2 (lr_temp_timer_100ms r) ++
  [lr_perm_control_code r; lr_perm_on_time r; lr_perm_off_time r; lr_perm_on_color r;
   lr_perm_off_color r].
Definition led_typed (r : osdp_led_record) : Prop :=
  is_byte (lr_reader_no r) ∧ is_byte (lr_led_no r) ∧ is_byte (lr_temp_control_code r) ∧
  is_byte (lr_temp_on_time r) ∧ is_byte (lr_temp_off_time r) ∧ is_byte (lr_temp_on_color r) ∧
  is_byte (lr_temp_off_color r) ∧ is_u16 (lr_temp_timer_100ms r) ∧
  is_byte (lr_perm_control_code r) ∧ is_byte (lr_perm_on_time r) ∧ is_byte (lr_perm_off_time r) ∧
  is_byte (lr_perm_on_color r) ∧ is_byte (lr_perm_off_color r).

Definition pdcap_wire (r : osdp_pdcap_record) : list Z :=
  [pc_function_code r; pc_compliance_level r; pc_num_objects r].
Definition pdcap_typed (r : osdp_pdcap_record) : Prop :=
  is_byte (pc_function_code r) ∧ is_byte (pc_compliance_level r) ∧ is_byte (pc_num_objects r).

(** The rest of a region from [i] on, and reads relative to it. *)
Lemma rd_base m i k : rd (Ptr m) (i + k) = rd (Ptr (drop i m)) k.
Proof. simpl. by rewrite lookup_drop. Qed.

Lemma rd_base0 m i : rd (Ptr m) i = rd (Ptr (drop i m)) 0.
Proof. rewrite <-rd_base. by rewrite Nat.add_0_r. Qed.

Lemma read_u16le_base m i k :
  osdp_pack_read_u16le (Ptr m) (i + k) = osdp_pack_read_u16le (Ptr (drop i m)) k.
Proof. unfold osdp_pack_read_u16le. by rewrite <-Nat.add_assoc, !rd_base. Qed.

(** Rebases every read of a record at [i] to the list behind it. *)
Ltac rebase m i :=
  repeat first [rewrite (read_u16le_base m i) | rewrite (rd_base m i)]; rewrite (rd_base0 m i).

(** The three computational laws of a format of [k] bytes. *)
Ltac read_law k rd_def ty wi :=
  let m := fresh "m" in let i := fresh "i" in let Hm := fresh "Hm" in let Hl := fresh "Hl" in
  let Hd := fresh "Hd" in let Hld := fresh "Hld" in
  intros m i Hm Hl; unfold rd_def; rebase m i;
  assert (bytes_ok (drop i m)) as Hd by (by apply Forall_drop);
  assert (k ≤ length (drop i m)) as Hld by (rewrite length_drop; lia);
  unfold sl; revert Hd Hld; generalize (drop i m); clear m i Hm Hl; intros m Hd Hld;
  explode m k; bytes_tac; run_reads; field_tac;
  eexists; split; [reflexivity|]; unfold ty, wi; cbn -[le_split is_byte is_u16]; 
  split; [by split_and!|wire_eq].

Ltac read_wire_law rd_def ty wi :=
  let r := fresh "r" in
  intros r ? ? ?; unfold rd_def, ty, wi in *;
  match goal with |- context [rd (Ptr ?m) (length ?p)] => rebase m (length p) end;
  rewrite drop_app_length;
  destruct_and?; run_reads; rewrite ?le16_read by done; by destruct r.

Ltac write_law wr_def wi :=
  intros ? ? ? ?; unfold wr_def, wi;
  repeat (first [ rewrite wr_next by len_tac | rewrite write_u16le_next by len_tac ];
          cbn [mbind option_bind]);
  rewrite ?drop_drop, <-?app_assoc; reflexivity.

Lemma out_laws : record_laws OSDP_OUT_RECORD_BYTES out_wire out_typed out_read out_write.
Proof.
  unfold OSDP_OUT_RECORD_BYTES. constructor; [done|lia|..].
  - read_law 4 out_read out_typed out_wire.
  - read_wire_law out_read out_typed out_wire.
  - write_law out_write out_wire.
Qed.

Lemma led_laws : record_laws OSDP_LED_RECORD_BYTES led_wire led_typed led_read led_write.
Proof.
  unfold OSDP_LED_RECORD_BYTES. constructor; [done|lia|..].
  - read_law 14 led_read led_typed led_wire.
  - read_wire_law led_read led_typed led_wire.
  - write_law led_write led_wire.
Qed.

Lemma pdcap_laws :
  record_laws OSDP_PDCAP_RECORD_BYTES pdcap_wire pdcap_typed pdcap_read pdcap_write.
Proof.
  unfold OSDP_PDCAP_RECORD_BYTES. constructor; [done|lia|..].
  - read_law 3 pdcap_read pdcap_typed pdcap_wire.
  - read_wire_law pdcap_read pdcap_typed pdcap_wire.
  - write_law pdcap_write pdcap_wire.
Qed.

(** ** The list codecs *)

(** From the record laws to the contract: the codecs differ only in how they
    treat an empty list. *)

Lemma out_codec_correct :
  list_codec_correct OSDP_OUT_RECORD_BYTES out_wire out_typed false osdp_out_decode osdp_out_build.
Proof.
  split_and!.
  - intros rs m cap w Hne Hm. unfold osdp_out_build. cbn [is_null].
    rewrite decide_False by (destruct rs; [by specialize (Hne eq_refl)|done]). cbv zeta.
    case_decide; [by rewrite decide_False by lia|]. rewrite decide_True by lia.
    by rewrite (write_all _ _ _ _ _ out_laws) by lia.
  - intros rs ext a w Hne Ht Ha. unfold osdp_out_decode. cbn [is_null].
    rewrite (wires_len_mod _ _ _ _ _ out_laws), (wires_len_div _ _ _ _ _ out_laws).
    rewrite decide_False.
    2:{ intros [Hz|]; [|done]. rewrite (length_wires _ _ _ _ _ out_laws) in Hz.
        destruct rs; [by specialize (Hne eq_refl)|]. simpl in Hz. lia. }
    rewrite decide_False by lia. by rewrite (read_all_wire _ _ _ _ _ out_laws).
  - intros m len a cap w Hm Hl Ha. unfold osdp_out_decode. cbn [is_null].
    case_decide as H0; [eexists _, _, _; split; [done|]; right; left; split_and!; try done; destruct_or?; auto|].
    case_decide as Hc; [eexists _, _, _; split; [done|]; right; right; by split_and!|].
    destruct (read_all _ _ _ _ _ out_laws m len a) as (rs & -> & Hn & Ht & Hw); [done|done|apply dec_stable; tauto|lia|].
    eexists _, _, _. split; [done|]. left. split; [done|]. exists rs. split_and!; try done; [lia|intros ->; exfalso; apply H0; by left].
  - intros. unfold osdp_out_build. cbn [is_null]. by rewrite decide_True.
  - done.
  - intros ra p len cap w Hl. unfold osdp_out_decode, osdp_out_build. split_and!.
    + by case_decide.
    + intros Hp Hd. rewrite decide_False by lia. by destruct p.
    + intros Hp. by destruct p.
  - intros. by split_and!.
Qed.

Lemma led_codec_correct :
  list_codec_correct OSDP_LED_RECORD_BYTES led_wire led_typed false osdp_led_decode osdp_led_build.
Proof.
  split_and!.
  - intros rs m cap w Hne Hm. unfold osdp_led_build. cbn [is_null].
    rewrite decide_False by (destruct rs; [by specialize (Hne eq_refl)|done]). cbv zeta.
    case_decide; [by rewrite decide_False by lia|]. rewrite decide_True by lia.
    by rewrite (write_all _ _ _ _ _ led_laws) by lia.
  - intros rs ext a w Hne Ht Ha. unfold osdp_led_decode. cbn [is_null].
    rewrite (wires_len_mod _ _ _ _ _ led_laws), (wires_len_div _ _ _ _ _ led_laws).
    rewrite decide_False.
    2:{ intros [Hz|]; [|done]. rewrite (length_wires _ _ _ _ _ led_laws) in Hz.
        destruct rs; [by specialize (Hne eq_refl)|]. simpl in Hz. lia. }
    rewrite decide_False by lia. by rewrite (read_all_wire _ _ _ _ _ led_laws).
  - intros m len a cap w Hm Hl Ha. unfold osdp_led_decode. cbn [is_null].
    case_decide as H0; [eexists _, _, _; split; [done|]; right; left; split_and!; try done; destruct_or?; auto|].
    case_decide as Hc; [eexists _, _, _; split; [done|]; right; right; by split_and!|].
    destruct (read_all _ _ _ _ _ led_laws m len a) as (rs & -> & Hn & Ht & Hw); [done|done|apply dec_stable; tauto|lia|].
    eexists _, _, _. split; [done|]. left. split; [done|]. exists rs. split_and!; try done; [lia|intros ->; exfalso; apply H0; by left].
  - intros. unfold osdp_led_build. cbn [is_null]. by rewrite decide_True.
  - done.
  - intros ra p len cap w Hl. unfold osdp_led_decode, osdp_led_build. split_and!.
    + by case_decide.
    + intros Hp Hd. rewrite decide_False by lia. by destruct p.
    + intros Hp. by destruct p.
  - intros. by split_and!.
Qed.

Lemma pdcap_codec_correct :
  list_codec_correct OSDP_PDCAP_RECORD_BYTES pdcap_wire pdcap_typed true
    osdp_pdcap_decode osdp_pdcap_build.
Proof.
  split_and!.
  - intros rs m cap w _ Hm. unfold osdp_pdcap_build. cbn [is_null].
    rewrite decide_False by (by intros []). cbv zeta.
    case_decide; [by rewrite decide_False by lia|]. rewrite decide_True by lia.
    cbn [mbind option_bind]. by rewrite (write_all _ _ _ _ _ pdcap_laws) by lia.
  - intros rs ext a w _ Ht Ha. unfold osdp_pdcap_decode. cbn [is_null].
    rewrite (wires_len_mod _ _ _ _ _ pdcap_laws), (wires_len_div _ _ _ _ _ pdcap_laws).
    rewrite decide_False by lia. rewrite decide_False by (by intros []).
    rewrite decide_False by lia. by rewrite (read_all_wire _ _ _ _ _ pdcap_laws).
  - intros m len a cap w Hm Hl Ha. unfold osdp_pdcap_decode. cbn [is_null].
    case_decide as H0; [eexists _, _, _; split; [done|]; right; left; split_and!; try done; destruct_or?; auto|].
    rewrite decide_False by (by intros []).
    case_decide as Hc; [eexists _, _, _; split; [done|]; right; right; by destruct Hc; split_and!|].
    destruct (read_all _ _ _ _ _ pdcap_laws m len a) as (rs & -> & Hn & Ht & Hw); [done|done|apply dec_stable; tauto|lia|].
    eexists _, _, _. split; [done|]. left. split; [done|]. exists rs. split_and!; try done; lia.
  - done.
  - intros ra p len cap w _. unfold osdp_pdcap_build, osdp_pdcap_decode. split.
    + destruct p; [done|]. cbn [is_null]. rewrite decide_False by lia. by rewrite decide_False by (simpl; lia).
    + rewrite decide_False by (intros Hm; by apply Hm). rewrite decide_False by lia.
      destruct ra; by rewrite decide_False by (simpl; lia).
  - intros ra p len cap w Hl. unfold osdp_pdcap_decode, osdp_pdcap_build. split_and!.
    + case_decide; [done|]. by rewrite decide_True.
    + intros Hp Hd. rewrite decide_False by lia. rewrite decide_False by (by intros []).
      pose proof (div_exact OSDP_PDCAP_RECORD_BYTES len Hd) as He. unfold OSDP_PDCAP_RECORD_BYTES in *.
      by rewrite decide_True by lia.
    + intros Hp. destruct p; [done|]. cbn [is_null]. by rewrite decide_True.
  - intros. by split_and!.
Qed.

(** ** Status reports *)

(** The contract of a status report: the array is the payload. *)
Definition report_codec_correct
    (dec : ptr → nat → ptr → nat → option nat → option (osdp_status * ptr * option nat))
    (bld : ptr → nat → ptr → nat → option nat → option (osdp_status * ptr * option nat)) : Prop :=
  (∀ p count m cap w, region_ok p count → (0 < count → p ≠ NULL) → cap ≤ length m →
     bld p count (Ptr m) cap (Some w) =
       if decide (count ≤ cap) then Some (OSDP_OK, Ptr (view p count ++ drop count m), Some count)
       else Some (OSDP_ERR_BUFFER_TOO_SMALL, Ptr m, Some 0)) ∧
  (∀ p len a cap w, region_ok p len → (0 < len → p ≠ NULL) → cap ≤ length a →
     dec p len (Ptr a) cap (Some w) =
       if decide (len ≤ cap) then Some (OSDP_OK, Ptr (view p len ++ drop len a), Some len)
       else Some (OSDP_ERR_BUFFER_TOO_SMALL, Ptr a, Some 0)) ∧
  (∀ len a cap w, 0 < len → dec NULL len a cap (Some w) = Some (OSDP_ERR_BAD_PAYLOAD, a, Some 0)) ∧
  (∀ count buf cap w, 0 < count →
     bld NULL count buf cap (Some w) = Some (OSDP_ERR_INVALID_ARG, buf, Some 0)) ∧
  (∀ p n cap w, 0 < n →
     (p ≠ NULL → dec p n NULL cap (Some w) = Some (OSDP_ERR_BUFFER_TOO_SMALL, NULL, Some 0)) ∧
     bld p n NULL cap (Some w) = Some (OSDP_ERR_INVALID_ARG, NULL, Some 0)) ∧
  (∀ p a cap w, bld p 0 a cap (Some w) = Some (OSDP_OK, a, Some 0) ∧
     dec p 0 a cap (Some w) = Some (OSDP_OK, a, Some 0)) ∧
  (∀ p n a cap, bld p n a cap None = Some (OSDP_ERR_INVALID_ARG, a, None) ∧
     dec p n a cap None = Some (OSDP_ERR_INVALID_ARG, a, None)).

(** Only the first [record_count] records are read. *)
Lemma pdcap_build_front rs rest buf cap w :
  osdp_pdcap_build (Some (rs ++ rest)) (length rs) buf cap w = osdp_pdcap_build (Some rs) (length rs) buf cap w.
Proof.
  unfold osdp_pdcap_build. destruct w; [|done]. destruct (is_null buf); [done|].
  rewrite !(decide_False (P := _ ∧ _)) by (by intros []). case_decide; [done|].
  erewrite for_loop_ext; [reflexivity|]. intros j x Hj. cbn [mbind option_bind].
  by rewrite lookup_app_l by lia.
Qed.

Lemma copy_all p n m :
  region_ok p n → (0 < n → p ≠ NULL) → n ≤ length m →
  copy_tail (Ptr m) 0 p n = Some (Ptr (view p n ++ drop n m)).
Proof.
  intros. change (Ptr m) with (Ptr ([] ++ m)). by rewrite copy_tail_next.
Qed.

Ltac report_codec dec bld :=
  split_and!;
  [ intros p count m cap w Hr Hn Hm; unfold bld;
    rewrite decide_False by (intros [? [|]]; [by apply Hn|done]);
    destruct (decide (cap < count)); [by rewrite decide_False by lia|];
    rewrite decide_True, copy_all by (done || lia); done
  | intros p len a cap w Hr Hn Ha; unfold dec;
    rewrite decide_False by (intros []; by apply Hn);
    destruct (decide (len ≤ cap));
    [ rewrite decide_False, copy_all by (done || lia || (intros [? [|]]; [done|lia])); done
    | rewrite decide_True by (split; [lia|right; lia]); done ]
  | intros len a cap w Hl; unfold dec; by rewrite decide_True by done
  | intros count buf cap w Hc; unfold bld; by rewrite decide_True by auto
  | intros p n cap w Hn; unfold bld, dec; split;
    [ intros Hp; rewrite decide_False by (by intros []); by rewrite decide_True by auto
    | by rewrite decide_True by auto ]
  | intros p a cap w; unfold bld, dec, copy_tail; split; by rewrite !decide_False by lia
  | done ].

Lemma istatr_codec_correct : report_codec_correct osdp_istatr_decode osdp_istatr_build.
Proof. report_codec osdp_istatr_decode osdp_istatr_build. Qed.

Lemma ostatr_codec_correct : report_codec_correct osdp_ostatr_decode osdp_ostatr_build.
Proof. report_codec osdp_ostatr_decode osdp_ostatr_build. Qed.

Lemma rstatr_codec_correct : report_codec_correct osdp_rstatr_decode osdp_rstatr_build.
Proof. report_codec osdp_rstatr_decode osdp_rstatr_build. Qed.

(** ** Annex B, read declaratively *)

(** What Annex B allows for a record: per function code, the compliance levels
    and the object counts. *)
Definition annex_b (r : osdp_pdcap_record) : Prop :=
  let c := pc_compliance_level r in
  let n := pc_num_objects r in
  match pc_function_code r with
  | 1 | 2 => c ≤ 4
  | 3 => c ≤ 3 ∧ n = 0
  | 4 => c ≤ 6
  | 5 => c ≤ 2
  | 6 => c ≤ 3
  | 7 => c = 0 ∧ n = 0
  | 8 => c ≤ 1 ∧ n = 0
  | 9 => c ≤ 1 ∧ n ≤ 1
  | 10 | 11 => True
  | 12 => c ≤ 3 ∧ n = 0
  | 13 => c = 0
  | 14 => c ≤ 3 ∧ n = 0
  | 15 => c ≤ 1 ∧ n = 0
  | 16 => (c ≤ 4 ∨ 0x80 ≤ c) ∧ n = 0
  | _ => False
  end%Z.

Lemma bitmap_1 v : is_byte v → Z.land v (u8 (Z.lnot 1)) = 0%Z ↔ (v ≤ 1)%Z.
Proof. intros Hv. check_bytes v. Qed.

Lemma bitmap_3 v : is_byte v → Z.land v (u8 (Z.lnot 3)) = 0%Z ↔ (v ≤ 3)%Z.
Proof. intros Hv. check_bytes v. Qed.

Lemma validate_OK r :
  osdp_pdcap_validate_record (Some r) = OSDP_OK ↔
  ∃ e, catalog_find (pc_function_code r) k_pdcap_catalog = Some e ∧
    pdcap_field_ok (ce_compliance e) (pc_compliance_level r) = true ∧
    pdcap_field_ok (ce_num_objects e) (pc_num_objects r) = true.
Proof.
  unfold osdp_pdcap_validate_record.
  destruct (catalog_find (pc_function_code r) k_pdcap_catalog) as [e|];
    [|split; [done|by intros (? & ? & _)]].
  destruct (pdcap_field_ok (ce_compliance e) _) eqn:E1, (pdcap_field_ok (ce_num_objects e) _) eqn:E2;
    simpl; (split; [intros Hok; try done; by exists e|intros (e' & [= <-] & ? & ?); congruence]).
Qed.

(** ** Properties *)

(** C26: The list codecs.  osdp_OUT, osdp_LED and osdp_PDCAP write their records
    back to back and read back exactly the list written; a payload of the wrong
    length is refused, an array too small is reported before anything is stored,
    and every accepted payload is the concatenation of the records reported.
    osdp_OUT and osdp_LED refuse to build from no records and to read an empty
    payload, osdp_PDCAP accepts both.  The three status reports copy any number
    of status bytes, none included.  Every NULL argument is refused with its error
    code, except where there is nothing to copy through it. *)
Theorem record_codecs_correct :
  list_codec_correct OSDP_OUT_RECORD_BYTES out_wire out_typed false osdp_out_decode osdp_out_build ∧
  list_codec_correct OSDP_LED_RECORD_BYTES led_wire led_typed false osdp_led_decode osdp_led_build ∧
  list_codec_correct OSDP_PDCAP_RECORD_BYTES pdcap_wire pdcap_typed true
    osdp_pdcap_decode osdp_pdcap_build ∧
  report_codec_correct osdp_istatr_decode osdp_istatr_build ∧
  report_codec_correct osdp_ostatr_decode osdp_ostatr_build ∧
  report_codec_correct osdp_rstatr_decode osdp_rstatr_build.
Proof.
  split_and!; auto using out_codec_correct, led_codec_correct, pdcap_codec_correct,
    istatr_codec_correct, ostatr_codec_correct, rstatr_codec_correct.
Qed.

(** C27: [osdp_pdcap_validate_record] accepts a record exactly when Annex B allows
    its compliance level and object count for its function code; function codes
    17 and up, and 0, are refused. *)
Theorem pdcap_validate_annex_b r :
  pdcap_typed r → osdp_pdcap_validate_record (Some r) = OSDP_OK ↔ annex_b r.
Proof.
  intros (Hf & Hc & Hn). rewrite validate_OK. destruct r as [f c n]. unfold annex_b, is_byte in *.
  cbn [pc_function_code pc_compliance_level pc_num_objects] in *.
  assert (f = 0 ∨ 16 < f ∨ 1 ≤ f ≤ 16)%Z as [->|[Hf'|Hf']] by lia.
  - split; [by intros (? & ? & _)|done].
  - assert (catalog_find f k_pdcap_catalog = None) as ->.
    { unfold k_pdcap_catalog. cbn [catalog_find ce_function_code]. by rewrite !decide_False by lia. }
    split; [by intros (? & ? & _)|].
    destruct f as [|p|]; [done| |done]. do 5 (destruct p as [p|p|]; try done; try lia).
  - assert (f = 1 ∨ f = 2 ∨ f = 3 ∨ f = 4 ∨ f = 5 ∨ f = 6 ∨ f = 7 ∨ f = 8 ∨ f = 9 ∨ f = 10 ∨ f = 11 ∨
      f = 12 ∨ f = 13 ∨ f = 14 ∨ f = 15 ∨ f = 16)%Z as Hcase by lia.
    destruct_or! Hcase; subst f; cbn -[pdcap_field_ok Z.le];
      (split; [intros (e & [= <-] & H1 & H2)|intros H; eexists; split; [done|]]);
      cbn [ce_compliance ce_num_objects] in *; unfold pdcap_field_ok in *; cbn in *;
      rewrite ?bool_decide_eq_true in *; rewrite ?bitmap_1, ?bitmap_3 in * by done; lia.
Qed.

Lemma pdcap_validate_annex_b_witness :
  osdp_pdcap_validate_record (Some (mk_pdcap 9 1 1)) = OSDP_OK ↔ annex_b (mk_pdcap 9 1 1).
Proof. apply pdcap_validate_annex_b. vm_decide. Defined.
