(* ===== verification/Indicators.v ===== *)
(** * LED and buzzer resolvers: osdp_led_state.h, osdp_buz_state.h,
    core/src/shared/led_state.c and buz_state.c

    Both are pure value types asked with a 32-bit millisecond clock.  Times are
    [Z] reduced modulo 2^32 as the code's [uint32_t] arithmetic does. *)
From S2P Require Import Prelude Types Commands Records.

(** ** LEDs *)

Definition OSDP_LED_TEMP_NOP : Z := 0x00.
Definition OSDP_LED_TEMP_CANCEL : Z := 0x01.
Definition OSDP_LED_TEMP_SET : Z := 0x02.
Definition OSDP_LED_PERM_NOP : Z := 0x00.
Definition OSDP_LED_PERM_SET : Z := 0x01.
Definition OSDP_LED_BLACK : Z := 0x00.

Record osdp_led_flash : Type := mk_flash {
  lf_on_color : Z; lf_off_color : Z; lf_on_time_100ms : Z; lf_off_time_100ms : Z }.

Record osdp_led : Type := mk_led {
  ld_permanent : osdp_led_flash;
  ld_temporary : osdp_led_flash;
  ld_temp_active : bool;
  ld_temp_started_ms : Z;
  ld_temp_duration_ms : Z }.

Definition osdp_led_init (led : option osdp_led) : option osdp_led :=
  match led with
  | None => None
  | Some _ => Some (mk_led (mk_flash 0 0 0 0) (mk_flash 0 0 0 0) false 0 0)
  end.

Definition osdp_led_apply (led : option osdp_led) (rec : option osdp_led_record) (now_ms : Z)
  : option osdp_led :=
  match led, rec with
  | Some l, Some r =>
      let permanent :=
        if decide (lr_perm_control_code r = OSDP_LED_PERM_SET)
        then mk_flash (lr_perm_on_color r) (lr_perm_off_color r) (lr_perm_on_time r) (lr_perm_off_time r)
        else ld_permanent l in
      Some (
        if decide (lr_temp_control_code r = OSDP_LED_TEMP_CANCEL) then
          mk_led permanent (ld_temporary l) false (ld_temp_started_ms l) (ld_temp_duration_ms l)
        else if decide (lr_temp_control_code r = OSDP_LED_TEMP_SET) then
          mk_led permanent
            (mk_flash (lr_temp_on_color r) (lr_temp_off_color r) (lr_temp_on_time r) (lr_temp_off_time r))
            true now_ms (u32 (lr_temp_timer_100ms r * 100))
        else
          mk_led permanent (ld_temporary l) (ld_temp_active l) (ld_temp_started_ms l)
            (ld_temp_duration_ms l))
  | _, _ => led
  end.

Definition flash_color (f : osdp_led_flash) (elapsed_ms : Z) : Z :=
  let on := u32 (lf_on_time_100ms f * 100) in
  let off := u32 (lf_off_time_100ms f * 100) in
  let period := u32 (on + off) in
  if decide (period = 0%Z) then lf_on_color f else
  let phase := (elapsed_ms mod period)%Z in
  if decide (phase < on)%Z then lf_on_color f else lf_off_color f.

Definition osdp_led_color (led : option osdp_led) (now_ms : Z) : Z :=
  match led with
  | None => OSDP_LED_BLACK
  | Some l =>
      let elapsed := u32 (now_ms - ld_temp_started_ms l) in
      if decide (ld_temp_active l = true ∧ ld_temp_duration_ms l ≠ 0%Z ∧
                 (elapsed < ld_temp_duration_ms l)%Z)
      then flash_color (ld_temporary l) elapsed
      else flash_color (ld_permanent l) now_ms
  end.

(** ** Buzzers *)

Definition OSDP_BUZ_TONE_OFF : Z := 0x01.
Definition OSDP_BUZ_TONE_DEFAULT : Z := 0x02.

Record osdp_buz : Type := mk_buzzer {
  bu_tone : Z; bu_on_time_100ms : Z; bu_off_time_100ms : Z; bu_count : Z; bu_started_ms : Z;
  bu_active : bool }.

Definition osdp_buz_init (buz : option osdp_buz) : option osdp_buz :=
  match buz with
  | None => None
  | Some _ => Some (mk_buzzer 0 0 0 0 0 false)
  end.

Definition osdp_buz_apply (buz : option osdp_buz) (cmd : option osdp_buz_cmd) (now_ms : Z)
  : option osdp_buz :=
  match buz, cmd with
  | Some _, Some c =>
      Some (mk_buzzer (bz_tone_code c) (bz_on_time_100ms c) (bz_off_time_100ms c) (bz_count c) now_ms
              (negb (bool_decide (bz_tone_code c = OSDP_BUZ_TONE_OFF))))
  | _, _ => buz
  end.

Definition osdp_buz_sounding (buz : option osdp_buz) (now_ms : Z) : bool :=
  match buz with
  | None => false
  | Some b =>
      if negb (bu_active b) || bool_decide (bu_tone b = OSDP_BUZ_TONE_OFF) then false else
      let on := u32 (bu_on_time_100ms b * 100) in
      let off := u32 (bu_off_time_100ms b * 100) in
      let cycle := u32 (on + off) in
      if decide (cycle = 0%Z) then bool_decide (0 < on)%Z else
      let elapsed := u32 (now_ms - bu_started_ms b) in
      let total := u32 (bu_count b * cycle) in
      if decide (0 < bu_count b ∧ total ≤ elapsed)%Z then false else
      let phase := (elapsed mod cycle)%Z in
      bool_decide (phase < on)%Z
  end.

(** ** What the commands mean *)

(** The colour of a flash block [t] milliseconds into its cycle, on integers. *)
Definition flash_at (f : osdp_led_flash) (t : Z) : Z :=
  let on := (lf_on_time_100ms f * 100)%Z in
  let period := (on + lf_off_time_100ms f * 100)%Z in
  if decide (period = 0%Z) then lf_on_color f
  else if decide (t mod period < on)%Z then lf_on_color f else lf_off_color f.

Definition flash_typed (f : osdp_led_flash) : Prop :=
  is_byte (lf_on_color f) ∧ is_byte (lf_off_color f) ∧ is_byte (lf_on_time_100ms f) ∧
  is_byte (lf_off_time_100ms f).

Definition led_state_typed (l : osdp_led) : Prop :=
  flash_typed (ld_permanent l) ∧ flash_typed (ld_temporary l) ∧ is_u32 (ld_temp_started_ms l) ∧
  (0 ≤ ld_temp_duration_ms l ≤ 6553500)%Z.

Definition temp_flash (r : osdp_led_record) : osdp_led_flash :=
  mk_flash (lr_temp_on_color r) (lr_temp_off_color r) (lr_temp_on_time r) (lr_temp_off_time r).
Definition perm_flash (r : osdp_led_record) : osdp_led_flash :=
  mk_flash (lr_perm_on_color r) (lr_perm_off_color r) (lr_perm_on_time r) (lr_perm_off_time r).

#[export] Instance flash_typed_dec f : Decision (flash_typed f).
Proof. unfold flash_typed. apply _. Defined.
#[export] Instance led_state_typed_dec l : Decision (led_state_typed l).
Proof. unfold led_state_typed. apply _. Defined.

(** The pattern a buzzer command asks for: [count] cycles of [on] then [off]
    (0: for ever), [t] milliseconds after it was applied. *)
Definition pattern_at (c : osdp_buz_cmd) (t : Z) : bool :=
  let on := (bz_on_time_100ms c * 100)%Z in
  let cycle := (on + bz_off_time_100ms c * 100)%Z in
  bool_decide (bz_tone_code c ≠ OSDP_BUZ_TONE_OFF ∧ 0 < cycle ∧
    (bz_count c = 0 ∨ t < bz_count c * cycle) ∧ t mod cycle < on)%Z.

(** ** Lemmas *)

Lemma u32_time v : is_byte v → u32 (v * 100) = (v * 100)%Z.
Proof. intros. apply u32_id. unfold is_byte, is_u32 in *. lia. Qed.

Lemma flash_color_at f t : flash_typed f → flash_color f t = flash_at f t.
Proof.
  intros (_ & _ & Hon & Hoff). unfold flash_color, flash_at. cbv zeta.
  rewrite !u32_time by done. rewrite u32_id by (unfold is_byte, is_u32 in *; lia). done.
Qed.

Lemma led_apply_typed l r now l' :
  led_state_typed l → led_typed r → is_u32 now →
  osdp_led_apply (Some l) (Some r) now = Some l' → led_state_typed l'.
Proof.
  intros (Hp & Ht & Hs & Hd) Hr Hnow. unfold led_typed in Hr. destruct_and!.
  unfold osdp_led_apply. intros [= <-]. unfold led_state_typed, flash_typed in *.
  repeat case_decide; cbn; destruct_and?; split_and!; try done.
  all: rewrite u32_id; unfold is_u32, is_u16 in *; lia.
Qed.

(** Elapsed time on the wrapping clock. *)
Lemma elapsed_u32 start t :
  is_u32 start → (0 ≤ t < 4294967296)%Z → u32 (u32 (start + t) - start) = t.
Proof.
  intros Hs Ht. unfold u32. rewrite Zminus_mod_idemp_l. 
  replace (start + t - start)%Z with t by lia. by apply Z.mod_small.
Qed.

Lemma elapsed_wrap start t :
  is_u32 start → (0 ≤ t)%Z → u32 (u32 (start + t) - start) = u32 t.
Proof.
  intros Hs Ht. unfold u32. rewrite Zminus_mod_idemp_l. f_equal. lia.
Qed.

Lemma buz_sounding_at b c start t :
  is_u32 start → (0 ≤ t)%Z → is_byte (bz_on_time_100ms c) → is_byte (bz_off_time_100ms c) →
  is_byte (bz_count c) →
  osdp_buz_sounding (osdp_buz_apply (Some b) (Some c) start) (u32 (start + t)) = pattern_at c (u32 t).
Proof.
  intros Hs Ht Hon Hoff Hcnt. unfold osdp_buz_apply, osdp_buz_sounding, pattern_at.
  cbn [bu_tone bu_on_time_100ms bu_off_time_100ms bu_count bu_started_ms bu_active].
  rewrite negb_involutive, orb_diag, !u32_time, elapsed_wrap by done.
  unfold is_byte in *. 
  rewrite (u32_id (bz_on_time_100ms c * 100 + bz_off_time_100ms c * 100)) by (unfold is_u32; lia).
  rewrite (u32_id (bz_count c * _)) by (unfold is_u32; nia).
  case_bool_decide as Htone.
  { symmetry. apply bool_decide_eq_false. by intros (? & _). }
  case_decide as Hcyc.
  { rewrite bool_decide_false by lia. symmetry. apply bool_decide_eq_false. lia. }
  case_decide as Hdone.
  { symmetry. apply bool_decide_eq_false. lia. }
  apply bool_decide_ext. split; [intros; split_and!; [done|lia|lia|done]|by intros (_ & _ & _ & ?)].
Qed.

(** ** Properties *)

(** LED display.  After a record that sets a temporary state, the LED shows
    the temporary pattern from its start until the timer has run out, then the
    permanent pattern, for the next 2^32 milliseconds, whatever the clock value
    at the start (wrap-around included). *)
Theorem led_temporary_then_permanent l r start t :
  led_state_typed l → led_typed r → is_u32 start → (0 ≤ t < 4294967296)%Z →
  lr_temp_control_code r = OSDP_LED_TEMP_SET →
  ∃ l', osdp_led_apply (Some l) (Some r) start = Some l' ∧ led_state_typed l' ∧
    osdp_led_color (Some l') (u32 (start + t)) =
      if decide (t < lr_temp_timer_100ms r * 100)%Z then flash_at (temp_flash r) t
      else flash_at (if decide (lr_perm_control_code r = OSDP_LED_PERM_SET) then perm_flash r
                     else ld_permanent l) (u32 (start + t)).
Proof.
  intros Hl Hr Hs Ht Hset. destruct (osdp_led_apply (Some l) (Some r) start) as [l'|] eqn:E; [|done].
  exists l'. split; [done|]. split; [exact (led_apply_typed _ _ _ _ Hl Hr Hs E)|].
  unfold osdp_led_apply in E. rewrite Hset in E. injection E as <-.
  unfold osdp_led_color. cbn [ld_temp_active ld_temp_started_ms ld_temp_duration_ms ld_temporary ld_permanent].
  rewrite elapsed_u32 by done. unfold led_typed in Hr. destruct Hl as (Hp & _ & _ & _). destruct_and!.
  rewrite u32_id by (unfold is_u32, is_u16 in *; lia).
  destruct (decide (t < lr_temp_timer_100ms r * 100)%Z).
  - rewrite decide_True by (repeat split; (done || lia)). by apply flash_color_at.
  - rewrite decide_False by (intros (_ & _ & ?); lia). rewrite flash_color_at; [done|].
    by case_decide.
Qed.

(** The permanent and cancel codes.  A record without a temporary SET keeps
    the temporary pattern as it was, a CANCEL ends it at once, and a permanent SET
    replaces the permanent pattern; the representation stays well-typed. *)
Theorem led_apply_without_temporary_set l r now :
  led_state_typed l → led_typed r → is_u32 now → lr_temp_control_code r ≠ OSDP_LED_TEMP_SET →
  ∃ l', osdp_led_apply (Some l) (Some r) now = Some l' ∧ led_state_typed l' ∧
    ld_permanent l' = (if decide (lr_perm_control_code r = OSDP_LED_PERM_SET) then perm_flash r
                       else ld_permanent l) ∧
    (lr_temp_control_code r = OSDP_LED_TEMP_CANCEL →
       ∀ t, osdp_led_color (Some l') t = flash_at (ld_permanent l') t) ∧
    (lr_temp_control_code r ≠ OSDP_LED_TEMP_CANCEL → lr_perm_control_code r ≠ OSDP_LED_PERM_SET →
       l' = l).
Proof.
  intros Hl Hr Hnow Hset. destruct (osdp_led_apply (Some l) (Some r) now) as [l'|] eqn:E; [|done].
  pose proof (led_apply_typed _ _ _ _ Hl Hr Hnow E) as Hl'. exists l'. split; [done|]. split; [done|].
  unfold osdp_led_apply in E. injection E as <-. rewrite (decide_False (P := _ = OSDP_LED_TEMP_SET)) in * by done.
  split_and!.
  - by case_decide.
  - intros Hc t. rewrite decide_True in * by done. unfold osdp_led_color.
    rewrite decide_False by (by intros (? & _)). apply flash_color_at, Hl'.
  - intros Hc Hp. rewrite !decide_False by done. by destruct l.
Qed.

(** Buzzer.  After a command the buzzer sounds exactly in the on-phases of
    the requested cycles, for the next 2^32 milliseconds, whatever the clock value
    at the start. *)
Theorem buzzer_plays_pattern b c start t :
  is_u32 start → (0 ≤ t < 4294967296)%Z → is_byte (bz_on_time_100ms c) →
  is_byte (bz_off_time_100ms c) → is_byte (bz_count c) →
  ∃ b', osdp_buz_apply (Some b) (Some c) start = Some b' ∧
    osdp_buz_sounding (Some b') (u32 (start + t)) = pattern_at c t.
Proof.
  intros Hs Ht Hon Hoff Hcnt. eexists. split; [done|].
  etrans; [apply (buz_sounding_at b c start t); (done || lia)|]. by rewrite u32_id.
Qed.

(** Stale patterns come back.  Nothing clears an expired temporary state or a
    finished beep, so once the 32-bit clock has gone round (2^32 ms after the
    command) the LED shows the old temporary colour again and the buzzer replays
    its pattern. *)
Theorem expired_patterns_replay :
  (∃ r l t, lr_temp_control_code r = OSDP_LED_TEMP_SET ∧ led_typed r ∧
     osdp_led_apply (osdp_led_init (Some (mk_led (mk_flash 0 0 0 0) (mk_flash 0 0 0 0) false 0 0)))
       (Some r) 1000 = Some l ∧
     (lr_temp_timer_100ms r * 100 < t)%Z ∧
     osdp_led_color (Some l) (u32 (1000 + t)) ≠ OSDP_LED_BLACK ∧
     ∀ t', (lr_temp_timer_100ms r * 100 ≤ t' < 4294967296)%Z →
       osdp_led_color (Some l) (u32 (1000 + t')) = OSDP_LED_BLACK) ∧
  (∃ c b t, bz_count c = 1%Z ∧
     osdp_buz_apply (osdp_buz_init (Some (mk_buzzer 0 0 0 0 0 false))) (Some c) 1000 = Some b ∧
     osdp_buz_sounding (Some b) (u32 (1000 + t)) = true ∧ (4294967296 ≤ t)%Z).
Proof.
  split.
  - exists (mk_led_record 0 0 2 0 0 1 0 5 0 0 0 0 0).
    exists (mk_led (mk_flash 0 0 0 0) (mk_flash 1 0 0 0) true 1000 500). exists 4294967296%Z.
    split_and!; [done|vm_decide|reflexivity|vm_decide|by vm_compute|].
    cbn [lr_temp_timer_100ms]. intros t' Ht. unfold osdp_led_color.
    cbn [ld_temp_active ld_temp_started_ms ld_temp_duration_ms ld_permanent].
    rewrite elapsed_u32 by (unfold is_u32; lia).
    rewrite decide_False by (intros (_ & _ & ?); lia). done.
  - exists (mk_buz 0 2 1 1 1). eexists. exists 4294967296%Z.
    split_and!; [done|reflexivity|by vm_compute|lia].
Qed.

(** ** Witnesses *)

Lemma led_temporary_then_permanent_witness :
  ∃ l', osdp_led_apply (Some (mk_led (mk_flash 2 0 5 5) (mk_flash 0 0 0 0) false 0 0))
      (Some (mk_led_record 0 0 2 1 1 4 0 10 0 0 0 0 0)) 4294967000 = Some l' ∧ led_state_typed l' ∧
    osdp_led_color (Some l') (u32 (4294967000 + 950)) =
      if decide (950 < 10 * 100)%Z then flash_at (mk_flash 4 0 1 1) 950
      else flash_at (mk_flash 2 0 5 5) (u32 (4294967000 + 950)).
Proof. apply led_temporary_then_permanent; vm_decide. Defined.

Lemma led_apply_without_temporary_set_witness :
  ∃ l', osdp_led_apply (Some (mk_led (mk_flash 2 0 5 5) (mk_flash 1 0 0 0) true 7 100))
      (Some (mk_led_record 0 0 1 1 1 4 0 10 0 0 0 0 0)) 50 = Some l' ∧ led_state_typed l' ∧
    ld_permanent l' = mk_flash 2 0 5 5 ∧
    (1%Z = OSDP_LED_TEMP_CANCEL → ∀ t, osdp_led_color (Some l') t = flash_at (ld_permanent l') t) ∧
    (1%Z ≠ OSDP_LED_TEMP_CANCEL → 0%Z ≠ OSDP_LED_PERM_SET →
       l' = mk_led (mk_flash 2 0 5 5) (mk_flash 1 0 0 0) true 7 100).
Proof. apply led_apply_without_temporary_set; vm_decide. Defined.

Lemma buzzer_plays_pattern_witness :
  ∃ b', osdp_buz_apply (Some (mk_buzzer 0 0 0 0 0 false)) (Some (mk_buz 0 2 1 2 3)) 4294967200 =
      Some b' ∧
    osdp_buz_sounding (Some b') (u32 (4294967200 + 650)) = pattern_at (mk_buz 0 2 1 2 3) 650.
Proof. apply buzzer_plays_pattern; vm_decide. Defined.
