(* ===== verification/Integrity.v ===== *)
(** * Message integrity: CRC-16 and 8-bit checksum

    [osdp_crc16_update] is the table-driven routine of core/src/shared/crc16.c
    and [osdp_checksum] that of core/src/shared/checksum.c.  The theorems show
    that the table-driven CRC is the shift-and-XOR CRC of Annex C, that both
    routines read only the bytes they are given, and that both codes detect
    every corruption confined to one byte. *)
From S2P Require Import Prelude.

(** ** crc16.c *)

Definition OSDP_CRC16_INIT : Z := 0x1D0F.

Definition osdp_crc16_table : list Z :=
  [0x0000; 0x1021; 0x2042; 0x3063; 0x4084; 0x50A5; 0x60C6; 0x70E7; 0x8108; 0x9129; 0xA14A; 0xB16B;
   0xC18C; 0xD1AD; 0xE1CE; 0xF1EF; 0x1231; 0x0210; 0x3273; 0x2252; 0x52B5; 0x4294; 0x72F7; 0x62D6;
   0x9339; 0x8318; 0xB37B; 0xA35A; 0xD3BD; 0xC39C; 0xF3FF; 0xE3DE; 0x2462; 0x3443; 0x0420; 0x1401;
   0x64E6; 0x74C7; 0x44A4; 0x5485; 0xA56A; 0xB54B; 0x8528; 0x9509; 0xE5EE; 0xF5CF; 0xC5AC; 0xD58D;
   0x3653; 0x2672; 0x1611; 0x0630; 0x76D7; 0x66F6; 0x5695; 0x46B4; 0xB75B; 0xA77A; 0x9719; 0x8738;
   0xF7DF; 0xE7FE; 0xD79D; 0xC7BC; 0x48C4; 0x58E5; 0x6886; 0x78A7; 0x0840; 0x1861; 0x2802; 0x3823;
   0xC9CC; 0xD9ED; 0xE98E; 0xF9AF; 0x8948; 0x9969; 0xA90A; 0xB92B; 0x5AF5; 0x4AD4; 0x7AB7; 0x6A96;
   0x1A71; 0x0A50; 0x3A33; 0x2A12; 0xDBFD; 0xCBDC; 0xFBBF; 0xEB9E; 0x9B79; 0x8B58; 0xBB3B; 0xAB1A;
   0x6CA6; 0x7C87; 0x4CE4; 0x5CC5; 0x2C22; 0x3C03; 0x0C60; 0x1C41; 0xEDAE; 0xFD8F; 0xCDEC; 0xDDCD;
   0xAD2A; 0xBD0B; 0x8D68; 0x9D49; 0x7E97; 0x6EB6; 0x5ED5; 0x4EF4; 0x3E13; 0x2E32; 0x1E51; 0x0E70;
   0xFF9F; 0xEFBE; 0xDFDD; 0xCFFC; 0xBF1B; 0xAF3A; 0x9F59; 0x8F78; 0x9188; 0x81A9; 0xB1CA; 0xA1EB;
   0xD10C; 0xC12D; 0xF14E; 0xE16F; 0x1080; 0x00A1; 0x30C2; 0x20E3; 0x5004; 0x4025; 0x7046; 0x6067;
   0x83B9; 0x9398; 0xA3FB; 0xB3DA; 0xC33D; 0xD31C; 0xE37F; 0xF35E; 0x02B1; 0x1290; 0x22F3; 0x32D2;
   0x4235; 0x5214; 0x6277; 0x7256; 0xB5EA; 0xA5CB; 0x95A8; 0x8589; 0xF56E; 0xE54F; 0xD52C; 0xC50D;
   0x34E2; 0x24C3; 0x14A0; 0x0481; 0x7466; 0x6447; 0x5424; 0x4405; 0xA7DB; 0xB7FA; 0x8799; 0x97B8;
   0xE75F; 0xF77E; 0xC71D; 0xD73C; 0x26D3; 0x36F2; 0x0691; 0x16B0; 0x6657; 0x7676; 0x4615; 0x5634;
   0xD94C; 0xC96D; 0xF90E; 0xE92F; 0x99C8; 0x89E9; 0xB98A; 0xA9AB; 0x5844; 0x4865; 0x7806; 0x6827;
   0x18C0; 0x08E1; 0x3882; 0x28A3; 0xCB7D; 0xDB5C; 0xEB3F; 0xFB1E; 0x8BF9; 0x9BD8; 0xABBB; 0xBB9A;
   0x4A75; 0x5A54; 0x6A37; 0x7A16; 0x0AF1; 0x1AD0; 0x2AB3; 0x3A92; 0xFD2E; 0xED0F; 0xDD6C; 0xCD4D;
   0xBDAA; 0xAD8B; 0x9DE8; 0x8DC9; 0x7C26; 0x6C07; 0x5C64; 0x4C45; 0x3CA2; 0x2C83; 0x1CE0; 0x0CC1;
   0xEF1F; 0xFF3E; 0xCF5D; 0xDF7C; 0xAF9B; 0xBFBA; 0x8FD9; 0x9FF8; 0x6E17; 0x7E36; 0x4E55; 0x5E74;
   0x2E93; 0x3EB2; 0x0ED1; 0x1EF0]%Z.

(** One iteration of the loop of [osdp_crc16_update]. *)
Definition crc16_step (crc b : Z) : option Z :=
  let idx := Z.land (Z.lxor (Z.shiftr crc 8) b) 0xFF in
  t ← osdp_crc16_table !! Z.to_nat idx;
  Ret (Z.lxor (u16 (Z.shiftl crc 8)) t).

Definition osdp_crc16_update (crc : Z) (data : ptr) (len : nat) : option Z :=
  match data with
  | NULL => Ret crc
  | Ptr _ => for_loop (λ i crc, b ← rd data i; crc16_step crc b) 0 len crc
  end.

Definition osdp_crc16 (data : ptr) (len : nat) : option Z :=
  osdp_crc16_update OSDP_CRC16_INIT data len.

(** ** checksum.c *)

Definition s8 (v : Z) : Z := if decide (v < 128)%Z then v else (v - 256)%Z.

Definition osdp_checksum (data : ptr) (len : nat) : option Z :=
  match data with
  | NULL => Ret 0%Z
  | Ptr _ =>
      sum ← for_loop (λ i sum, b ← rd data i; Ret (u8 (sum + b)%Z)) 0 len 0%Z;
      Ret (u8 (- s8 sum)%Z)
  end.

(** ** Reference definitions *)

(** One bit of the shift-and-XOR register of Annex C, polynomial 0x1021. *)
Definition crc_bit (c : Z) : Z :=
  if Z.testbit c 15 then u16 (Z.lxor (Z.shiftl c 1) 0x1021) else u16 (Z.shiftl c 1).

Definition crc_byte (c b : Z) : Z := Nat.iter 8 crc_bit (Z.lxor c (Z.shiftl b 8)).

Definition crc_bytes (bs : list Z) : Z := foldl crc_byte OSDP_CRC16_INIT bs.

Definition sum_bytes (bs : list Z) : Z := foldr Z.add 0%Z bs.

Definition checksum_bytes (bs : list Z) : Z := u8 (- sum_bytes bs)%Z.

(** ** The table against the reference *)

Definition tbl (i : Z) : Z := default 0%Z (osdp_crc16_table !! Z.to_nat i).

(** The register update is linear over xor. *)
Lemma u16_lxor a b : u16 (Z.lxor a b) = Z.lxor (u16 a) (u16 b).
Proof.
  unfold u16. change 65536%Z with (2 ^ 16)%Z. rewrite <-!Z.land_ones by lia.
  apply Z.bits_inj'. intros i _. rewrite !Z.land_spec, !Z.lxor_spec, !Z.land_spec.
  by destruct (Z.testbit a i), (Z.testbit b i), (Z.testbit (Z.ones 16) i).
Qed.

Lemma crc_bit_alt c :
  crc_bit c = Z.lxor (u16 (Z.shiftl c 1)) (if Z.testbit c 15 then 0x1021%Z else 0%Z).
Proof.
  unfold crc_bit. destruct (Z.testbit c 15); [|by rewrite Z.lxor_0_r]. by rewrite u16_lxor.
Qed.

Lemma crc_bit_lxor x y : crc_bit (Z.lxor x y) = Z.lxor (crc_bit x) (crc_bit y).
Proof.
  rewrite !crc_bit_alt, Z.lxor_spec, Z.shiftl_lxor, u16_lxor.
  apply Z.bits_inj'. intros i _. rewrite !Z.lxor_spec.
  destruct (Z.testbit x 15), (Z.testbit y 15); simpl (xorb _ _);
    rewrite ?Z.bits_0; destruct (Z.testbit (u16 _) i), (Z.testbit (u16 _) i);
    try done; by destruct (Z.testbit 4129 i).
Qed.

Lemma crc_bits_lxor n x y :
  Nat.iter n crc_bit (Z.lxor x y) = Z.lxor (Nat.iter n crc_bit x) (Nat.iter n crc_bit y).
Proof. induction n as [|n IH]; simpl; [done|]. by rewrite IH, crc_bit_lxor. Qed.

Lemma lxor_low_high lo hi : is_byte lo → (lo + hi * 256)%Z = Z.lxor lo (hi * 256)%Z.
Proof.
  intros Hlo. rewrite Z.add_nocarry_lxor; [done|]. apply Z.bits_inj'. intros i Hi.
  rewrite Z.land_spec, Z.bits_0. change 256%Z with (2 ^ 8)%Z.
  destruct (decide (i < 8)%Z).
  - by rewrite Z.mul_pow2_bits_low, andb_false_r by lia.
  - rewrite (testbit_high 8 lo i); [done|apply Hlo|lia].
Qed.

Lemma tbl_spec i : is_byte i → tbl i = Nat.iter 8 crc_bit (i * 256)%Z.
Proof.
  intros Hi. apply Z.eqb_eq.
  apply (z256_forall (λ i, Z.eqb (tbl i) (Nat.iter 8 crc_bit (i * 256)%Z)));
    [vm_compute; reflexivity|done].
Qed.

Lemma crc_table_correct hi lo :
  is_byte hi → is_byte lo →
  Nat.iter 8 crc_bit (lo + hi * 256)%Z = Z.lxor (lo * 256)%Z (tbl hi).
Proof.
  intros Hh Hl. rewrite lxor_low_high, crc_bits_lxor, tbl_spec by done. f_equal.
  apply Z.eqb_eq.
  apply (z256_forall (λ l, Z.eqb (Nat.iter 8 crc_bit l) (l * 256)%Z));
    [vm_compute; reflexivity|done].
Qed.

Lemma tbl_lookup i : is_byte i → osdp_crc16_table !! Z.to_nat i = Some (tbl i).
Proof.
  intros [? ?]. unfold tbl.
  destruct (lookup_lt_is_Some_2 osdp_crc16_table (Z.to_nat i)) as [x Hx].
  { change (length osdp_crc16_table) with 256. lia. }
  by rewrite Hx.
Qed.

Lemma u16_hi_byte c : is_u16 c → is_byte (Z.shiftr c 8).
Proof.
  intros [? ?]. rewrite Z.shiftr_div_pow2 by lia. change (2 ^ 8)%Z with 256%Z.
  split; [apply Z.div_pos; lia|apply Z.div_lt_upper_bound; lia].
Qed.

(** Decomposition of the register xor the next byte. *)
Lemma lxor_reg c b :
  is_u16 c → is_byte b →
  Z.lxor c (Z.shiftl b 8) = (c mod 256 + Z.lxor (Z.shiftr c 8) b * 256)%Z.
Proof.
  intros Hc Hb.
  set (x := Z.lxor c (Z.shiftl b 8)).
  assert (x / 256 = Z.lxor (Z.shiftr c 8) b)%Z as Hq.
  { change 256%Z with (2 ^ 8)%Z. rewrite <-Z.shiftr_div_pow2 by lia. unfold x.
    rewrite Z.shiftr_lxor, Z.shiftr_shiftl_l by lia. by rewrite Z.shiftl_0_r. }
  assert (x mod 256 = c mod 256)%Z as Hr.
  { change 256%Z with (2 ^ 8)%Z. rewrite <-!Z.land_ones by lia. unfold x.
    apply Z.bits_inj'. intros i Hi. rewrite !Z.land_spec, Z.lxor_spec.
    destruct (decide (i < 8)%Z).
    - by rewrite Z.shiftl_spec_low, xorb_false_r by lia.
    - by rewrite Z.ones_spec_high, !andb_false_r by lia. }
  rewrite (Z.div_mod x 256) by lia. lia.
Qed.

Lemma crc16_step_eq c b :
  is_u16 c → is_byte b →
  crc16_step c b = Some (Z.lxor ((c mod 256) * 256)%Z (tbl (Z.lxor (Z.shiftr c 8) b))).
Proof.
  intros Hc Hb. unfold crc16_step.
  pose proof (byte_lxor _ _ (u16_hi_byte c Hc) Hb) as Hi.
  rewrite land_FF, (u8_id _ Hi), tbl_lookup by done. simpl. do 2 f_equal.
  unfold u16. rewrite Z.shiftl_mul_pow2 by lia.
  change 65536%Z with (256 * 2 ^ 8)%Z. by rewrite Z.mul_mod_distr_r by lia.
Qed.

Lemma crc16_step_ref c b : is_u16 c → is_byte b → crc16_step c b = Some (crc_byte c b).
Proof.
  intros Hc Hb. rewrite crc16_step_eq by done. unfold crc_byte.
  rewrite lxor_reg by done. rewrite crc_table_correct; [done| |].
  - by apply byte_lxor; [apply u16_hi_byte|].
  - apply (u8_byte c).
Qed.

Lemma crc_bit_u16 c : is_u16 (crc_bit c).
Proof. unfold crc_bit. destruct (Z.testbit c 15); apply u16_range. Qed.

Lemma crc_byte_u16 c b : is_u16 (crc_byte c b).
Proof. unfold crc_byte. apply crc_bit_u16. Qed.

Lemma foldl_crc_u16 bs c : is_u16 c → is_u16 (foldl crc_byte c bs).
Proof. revert c. induction bs; intros c Hc; simpl; auto using crc_byte_u16. Qed.

Lemma crc_bytes_u16 bs : is_u16 (crc_bytes bs).
Proof. apply foldl_crc_u16. unfold OSDP_CRC16_INIT, is_u16. lia. Qed.

(** A C loop over the bytes of a region is a left fold. *)
Lemma for_loop_fold {A} (f : A → Z → option A) m i n a :
  i + n ≤ length m →
  for_loop (λ i a, b ← rd (Ptr m) i; f a b) i n a =
  foldl (λ oa b, a ← oa; f a b) (Some a) (take n (drop i m)).
Proof.
  revert i a. induction n as [|n IH]; intros i a Hl; [done|].
  destruct (lookup_lt_is_Some_2 m i) as [b Hb]; [lia|].
  rewrite (drop_S _ _ _ Hb). simpl. rewrite Hb. simpl.
  destruct (f a b) as [a'|]; simpl; [by apply IH; lia|].
  clear. generalize (take n (drop (S i) m)) as l. by induction l.
Qed.

Lemma foldl_option_total {A} (P : A → Prop) (f : A → Z → option A) (g : A → Z → A) bs a :
  (∀ a b, P a → is_byte b → f a b = Some (g a b) ∧ P (g a b)) → P a → bytes_ok bs →
  foldl (λ oa b, a ← oa; f a b) (Some a) bs = Some (foldl g a bs).
Proof.
  intros Hf Ha Hbs. revert a Ha. induction Hbs as [|b bs Hb _ IH]; intros a Ha; [done|].
  simpl. destruct (Hf a b Ha Hb) as [-> ?]. simpl. by apply IH.
Qed.

Lemma osdp_crc16_update_ref c m len :
  is_u16 c → bytes_ok (take len m) → len ≤ length m →
  osdp_crc16_update c (Ptr m) len = Some (foldl crc_byte c (take len m)).
Proof.
  intros Hc Hm Hl. unfold osdp_crc16_update. rewrite for_loop_fold by done.
  apply (foldl_option_total is_u16); [|done..].
  intros. rewrite crc16_step_ref by done. auto using crc_byte_u16.
Qed.

Lemma osdp_crc16_bytes m len :
  bytes_ok (take len m) → len ≤ length m → osdp_crc16 (Ptr m) len = Some (crc_bytes (take len m)).
Proof. intros. apply osdp_crc16_update_ref; [unfold OSDP_CRC16_INIT, is_u16; lia|done..]. Qed.

(** ** Checksum *)

Lemma checksum_fold bs s :
  foldl (λ s b, u8 (s + b)%Z) (u8 s) bs = u8 (s + sum_bytes bs)%Z.
Proof.
  revert s. induction bs as [|b bs IH]; intros s; simpl; [by rewrite Z.add_0_r|].
  replace (u8 (u8 s + b)%Z) with (u8 (s + b)%Z).
  - rewrite IH. f_equal. lia.
  - unfold u8. by rewrite Z.add_mod_idemp_l by lia.
Qed.

Lemma osdp_checksum_bytes m len :
  bytes_ok (take len m) → len ≤ length m → osdp_checksum (Ptr m) len = Some (checksum_bytes (take len m)).
Proof.
  intros Hm Hl. unfold osdp_checksum. rewrite for_loop_fold by done.
  rewrite (foldl_option_total (λ _, True) _ (λ s b, u8 (s + b)%Z));
    [|auto|done..].
  cbn [mbind option_bind]. rewrite (checksum_fold _ 0). rewrite Z.add_0_l. f_equal.
  unfold checksum_bytes, s8, u8. set (s := sum_bytes _).
  pose proof (Z.mod_pos_bound s 256 ltac:(lia)).
  pose proof (Z.div_mod s 256 ltac:(lia)).
  case_decide.
  - replace (- s)%Z with (- (s mod 256) + (- (s / 256)) * 256)%Z by lia.
    by rewrite Z.mod_add by lia.
  - replace (- s)%Z with (- (s mod 256 - 256) + (- (s / 256) - 1) * 256)%Z by lia.
    by rewrite Z.mod_add by lia.
Qed.

Lemma sum_bytes_app a b : sum_bytes (a ++ b) = (sum_bytes a + sum_bytes b)%Z.
Proof. induction a; simpl; lia. Qed.

(** ** Detection of one corrupted byte *)

Lemma tbl_lxor i j :
  is_byte i → is_byte j → tbl (Z.lxor i j) = Z.lxor (tbl i) (tbl j).
Proof.
  intros. rewrite !tbl_spec by auto using byte_lxor. rewrite <-crc_bits_lxor. f_equal.
  change 256%Z with (2 ^ 8)%Z. rewrite <-!Z.shiftl_mul_pow2 by lia. apply Z.shiftl_lxor.
Qed.

Lemma tbl_low_inj i j :
  is_byte i → is_byte j → (tbl i mod 256 = tbl j mod 256)%Z → i = j.
Proof.
  intros Hi Hj Heq. apply Z.lxor_eq.
  assert (tbl (Z.lxor i j) mod 256 = 0)%Z as H0.
  { rewrite tbl_lxor by done. change 256%Z with (2 ^ 8)%Z in *.
    rewrite <-!Z.land_ones in * by lia. apply Z.bits_inj'. intros k _.
    apply (f_equal (λ v, Z.testbit v k)) in Heq. rewrite !Z.land_spec in Heq.
    rewrite Z.land_spec, Z.lxor_spec, Z.bits_0.
    by destruct (Z.testbit (tbl i) k), (Z.testbit (tbl j) k), (Z.testbit (Z.ones 8) k). }
  pose proof (z256_forall (λ i, implb (Z.eqb (tbl i mod 256)%Z 0) (Z.eqb i 0)) (Z.lxor i j)
    ltac:(vm_compute; reflexivity) (byte_lxor _ _ Hi Hj)) as Hz.
  simpl in Hz. rewrite H0 in Hz. by apply Z.eqb_eq.
Qed.

Lemma lxor_cancel_l a b c : Z.lxor a b = Z.lxor a c → b = c.
Proof.
  intros H. apply (f_equal (Z.lxor a)) in H.
  by rewrite <-!Z.lxor_assoc, Z.lxor_nilpotent, !Z.lxor_0_l in H.
Qed.

Lemma lxor_cancel_r a b c : Z.lxor b a = Z.lxor c a → b = c.
Proof. rewrite !(Z.lxor_comm _ a). apply lxor_cancel_l. Qed.

Lemma lxor_mod_256 x y : (Z.lxor (x * 256) y mod 256 = y mod 256)%Z.
Proof.
  change 256%Z with (2 ^ 8)%Z. rewrite <-!Z.land_ones by lia.
  apply Z.bits_inj'. intros i Hi. rewrite !Z.land_spec, Z.lxor_spec.
  destruct (decide (i < 8)%Z).
  - by rewrite Z.mul_pow2_bits_low by lia.
  - by rewrite Z.ones_spec_high, !andb_false_r by lia.
Qed.

Lemma crc_byte_eq c b :
  is_u16 c → is_byte b →
  crc_byte c b = Z.lxor ((c mod 256) * 256)%Z (tbl (Z.lxor (Z.shiftr c 8) b)).
Proof.
  intros Hc Hb. pose proof (crc16_step_ref c b Hc Hb) as H.
  rewrite crc16_step_eq in H by done. by simplify_eq.
Qed.

(** Two registers meet after a byte only through the same table row. *)
Lemma crc_byte_row c1 c2 b1 b2 :
  is_u16 c1 → is_u16 c2 → is_byte b1 → is_byte b2 →
  crc_byte c1 b1 = crc_byte c2 b2 →
  Z.lxor (Z.shiftr c1 8) b1 = Z.lxor (Z.shiftr c2 8) b2 ∧ (c1 mod 256 = c2 mod 256)%Z.
Proof.
  intros H1 H2 Hb1 Hb2 Heq. rewrite !crc_byte_eq in Heq by done.
  assert (Z.lxor (Z.shiftr c1 8) b1 = Z.lxor (Z.shiftr c2 8) b2) as Hrow.
  { apply tbl_low_inj; [apply byte_lxor; auto using u16_hi_byte..|].
    apply (f_equal (λ v, v mod 256)%Z) in Heq. by rewrite !lxor_mod_256 in Heq. }
  split; [done|]. rewrite Hrow in Heq. apply lxor_cancel_r in Heq. lia.
Qed.

Lemma crc_byte_inj_byte c b1 b2 :
  is_u16 c → is_byte b1 → is_byte b2 → crc_byte c b1 = crc_byte c b2 → b1 = b2.
Proof.
  intros Hc H1 H2 Heq. apply crc_byte_row in Heq as [Hr _]; [|done..].
  by apply lxor_cancel_l in Hr.
Qed.

Lemma crc_byte_inj_reg c1 c2 b :
  is_u16 c1 → is_u16 c2 → is_byte b → crc_byte c1 b = crc_byte c2 b → c1 = c2.
Proof.
  intros H1 H2 Hb Heq. apply crc_byte_row in Heq as [Hr Hm]; [|done..].
  apply lxor_cancel_r in Hr. rewrite !Z.shiftr_div_pow2 in Hr by lia.
  change (2 ^ 8)%Z with 256%Z in Hr.
  rewrite (Z.div_mod c1 256), (Z.div_mod c2 256) by lia. lia.
Qed.

Lemma foldl_crc_inj bs c1 c2 :
  is_u16 c1 → is_u16 c2 → bytes_ok bs →
  foldl crc_byte c1 bs = foldl crc_byte c2 bs → c1 = c2.
Proof.
  intros H1 H2 Hbs. revert c1 c2 H1 H2.
  induction Hbs as [|b bs Hb _ IH]; intros c1 c2 H1 H2 Heq; [done|].
  apply IH in Heq; [|apply crc_byte_u16..]. by apply crc_byte_inj_reg in Heq.
Qed.

Lemma crc_detects_byte pre b1 b2 suf :
  bytes_ok pre → bytes_ok suf → is_byte b1 → is_byte b2 → b1 ≠ b2 →
  crc_bytes (pre ++ b1 :: suf) ≠ crc_bytes (pre ++ b2 :: suf).
Proof.
  intros Hp Hs H1 H2 Hne Heq. unfold crc_bytes in Heq. rewrite !foldl_app in Heq. simpl in Heq.
  apply foldl_crc_inj in Heq; [|apply crc_byte_u16..|done].
  apply crc_byte_inj_byte in Heq; [done| |done..]. apply crc_bytes_u16.
Qed.

Lemma checksum_detects_byte pre b1 b2 suf :
  is_byte b1 → is_byte b2 → b1 ≠ b2 →
  checksum_bytes (pre ++ b1 :: suf) ≠ checksum_bytes (pre ++ b2 :: suf).
Proof.
  unfold checksum_bytes, u8, is_byte. intros H1 H2 Hne Heq.
  rewrite !sum_bytes_app in Heq. simpl in Heq.
  set (s := (sum_bytes pre + sum_bytes suf)%Z) in *.
  assert ((- (sum_bytes pre + (b1 + sum_bytes suf)) - - (sum_bytes pre + (b2 + sum_bytes suf))) mod 256 = 0)%Z as Hz.
  { rewrite Zminus_mod, Heq, Z.sub_diag. done. }
  apply Z.mod_divide in Hz; [|lia]. destruct Hz as [k Hk]. lia.
Qed.

(** The initial register is the augmented form's 0xFFFF after sixteen zero
    bits, as osdp_crc.h says. *)
Example crc16_init_augmented : crc_byte (crc_byte 0xFFFF 0) 0 = OSDP_CRC16_INIT.
Proof. vm_compute. reflexivity. Qed.

(** ** Properties *)

(** C29: CRC.  The table-driven [osdp_crc16_update] computes the bit-serial
    register of Annex C (polynomial 0x1021) from any starting register, stays
    inside 16 bits, and may be fed a buffer in two pieces cut anywhere. *)
Theorem crc16_is_annex_c_register c m k len :
  is_u16 c → bytes_ok m → k ≤ len ≤ length m →
  ∃ r1 r, osdp_crc16_update c (Ptr m) k = Some r1 ∧ osdp_crc16_update c (Ptr m) len = Some r ∧
    r = foldl crc_byte c (take len m) ∧ is_u16 r ∧
    osdp_crc16_update r1 (Ptr (drop k m)) (len - k) = Some r.
Proof.
  intros Hc Hm [Hk Hl]. exists (foldl crc_byte c (take k m)), (foldl crc_byte c (take len m)).
  split_and!; [| |done| |].
  - apply osdp_crc16_update_ref; [done|by apply Forall_take|lia].
  - apply osdp_crc16_update_ref; [done|by apply Forall_take|lia].
  - by apply foldl_crc_u16.
  - rewrite osdp_crc16_update_ref; [|by apply foldl_crc_u16|by apply Forall_take, Forall_drop|solve_len].
    rewrite <-foldl_app, take_take_drop. by replace (k + (len - k)) with len by lia.
Qed.

(** Checksum.  [osdp_checksum] makes the byte sum of the message and its
    check byte a multiple of 256. *)
Theorem checksum_balances_sum m len :
  bytes_ok m → len ≤ length m →
  ∃ k, osdp_checksum (Ptr m) len = Some k ∧ is_byte k ∧ ((sum_bytes (take len m) + k) mod 256 = 0)%Z.
Proof.
  intros Hm Hl. eexists. split; [by apply osdp_checksum_bytes; [apply Forall_take|]|].
  split; [apply u8_byte|]. unfold checksum_bytes, u8. rewrite Z.add_mod_idemp_r by lia.
  by rewrite Z.add_opp_diag_r.
Qed.

(** Error detection.  Changing any one covered byte changes both the CRC and
    the checksum of a buffer. *)
Theorem integrity_detects_byte_error m len i x b :
  bytes_ok m → len ≤ length m → i < len → is_byte b → m !! i = Some x → b ≠ x →
  ∃ c1 c2 k1 k2,
    osdp_crc16 (Ptr m) len = Some c1 ∧ osdp_crc16 (Ptr (<[i:=b]> m)) len = Some c2 ∧ c1 ≠ c2 ∧
    osdp_checksum (Ptr m) len = Some k1 ∧ osdp_checksum (Ptr (<[i:=b]> m)) len = Some k2 ∧ k1 ≠ k2.
Proof.
  intros Hm Hl Hi Hb Hx Hne. pose proof (Forall_lookup_1 _ _ _ _ Hm Hx) as Hxb.
  assert (bytes_ok (<[i:=b]> m)) as Hm2 by (by apply Forall_insert).
  assert (take len m !! i = Some x) as Hti by (by rewrite lookup_take_lt).
  assert (take len m = take i (take len m) ++ x :: drop (S i) (take len m)) as E1
    by (symmetry; by apply take_drop_middle).
  assert (take len (<[i:=b]> m) = take i (take len m) ++ b :: drop (S i) (take len m)) as E2.
  { rewrite take_insert_lt by done. rewrite insert_take_drop; [done|solve_len]. }
  exists (crc_bytes (take len m)), (crc_bytes (take len (<[i:=b]> m))).
  exists (checksum_bytes (take len m)), (checksum_bytes (take len (<[i:=b]> m))).
  assert (bytes_ok (take len m)) as Ht by (by apply Forall_take).
  split_and!.
  - by apply osdp_crc16_bytes.
  - apply osdp_crc16_bytes; [by apply Forall_take|by rewrite length_insert].
  - rewrite E1, E2. apply crc_detects_byte; [by apply Forall_take|by apply Forall_drop|done..].
  - by apply osdp_checksum_bytes.
  - apply osdp_checksum_bytes; [by apply Forall_take|by rewrite length_insert].
  - rewrite E1, E2. apply checksum_detects_byte; done.
Qed.

(** ** Witnesses *)

(** The ASCII digits 1 to 9. *)
Definition ex_digits : list Z := [49; 50; 51; 52; 53; 54; 55; 56; 57]%Z.

Lemma crc16_is_annex_c_register_witness :
  osdp_crc16 (Ptr ex_digits) 9 = Some 0xE5CC%Z ∧
  ∃ r1 r, osdp_crc16_update OSDP_CRC16_INIT (Ptr ex_digits) 4 = Some r1 ∧
    osdp_crc16_update OSDP_CRC16_INIT (Ptr ex_digits) 9 = Some r ∧
    r = foldl crc_byte OSDP_CRC16_INIT (take 9 ex_digits) ∧ is_u16 r ∧
    osdp_crc16_update r1 (Ptr (drop 4 ex_digits)) (9 - 4) = Some r.
Proof. split; [reflexivity|]. apply crc16_is_annex_c_register; vm_decide. Defined.

Lemma checksum_balances_sum_witness :
  ∃ k, osdp_checksum (Ptr ex_digits) 9 = Some k ∧ is_byte k ∧
    ((sum_bytes (take 9 ex_digits) + k) mod 256 = 0)%Z.
Proof. apply checksum_balances_sum; vm_decide. Defined.

Lemma integrity_detects_byte_error_witness :
  ∃ c1 c2 k1 k2,
    osdp_crc16 (Ptr ex_digits) 9 = Some c1 ∧ osdp_crc16 (Ptr (<[3:=60%Z]> ex_digits)) 9 = Some c2 ∧
    c1 ≠ c2 ∧
    osdp_checksum (Ptr ex_digits) 9 = Some k1 ∧
    osdp_checksum (Ptr (<[3:=60%Z]> ex_digits)) 9 = Some k2 ∧ k1 ≠ k2.
Proof. apply (integrity_detects_byte_error ex_digits 9 3 52 60); vm_decide. Defined.
