(* ===== verification/Frame.v ===== *)
(** * Frames: osdp_frame.h and core/src/shared/frame.c

    The decoder, the builder and the two sizing helpers.  Lengths are [nat]
    ([size_t]), bytes are [Z]; the fields of [osdp_frame] carry the prefix
    [fr_].  A slice pointer set by the decoder is modelled as a region of
    exactly the slice's bytes. *)
From S2P Require Import Prelude Types Integrity.

(** ** osdp_frame.h: constants *)

Definition OSDP_SOM : Z := 0x53.
Definition OSDP_CONFIG_ADDR : Z := 0x7F.
Definition OSDP_BROADCAST_ADDR : Z := OSDP_CONFIG_ADDR.
Definition OSDP_REPLY_FLAG : Z := 0x80.
Definition OSDP_ADDR_MASK : Z := 0x7F.
Definition OSDP_CTRL_SQN_MASK : Z := 0x03.
Definition OSDP_CTRL_USE_CRC : Z := 0x04.
Definition OSDP_CTRL_SCB : Z := 0x08.
Definition OSDP_CTRL_RESERVED : Z := 0xF0.
Definition OSDP_FRAME_HEADER_LEN : nat := 5.
Definition OSDP_FRAME_MIN_LEN_CKSUM : nat := 7.
Definition OSDP_FRAME_MIN_LEN_CRC : nat := 8.
Definition OSDP_FRAME_MAX_LEN : nat := 1440.
Definition OSDP_FRAME_MARK : Z := 0xFF.
Definition OSDP_FRAME_MARK_LEN : nat := 1.
Definition OSDP_SCB_MIN_LEN : nat := 2.
Definition OSDP_SCS_11 : Z := 0x11.
Definition OSDP_SCS_12 : Z := 0x12.
Definition OSDP_SCS_13 : Z := 0x13.
Definition OSDP_SCS_14 : Z := 0x14.
Definition OSDP_SCS_15 : Z := 0x15.
Definition OSDP_SCS_16 : Z := 0x16.
Definition OSDP_SCS_17 : Z := 0x17.
Definition OSDP_SCS_18 : Z := 0x18.
Definition OSDP_SCS_25 : Z := 0x25.
Definition OSDP_SCS_27 : Z := 0x27.
Definition OSDP_SCS_28 : Z := 0x28.
Definition OSDP_FRAME_MAC_LEN : nat := 4.
Definition OSDP_FRAME_MAC_LEN_SC2 : nat := 16.

Definition osdp_scb_mac_len (scb_type : Z) : nat :=
  if decide (OSDP_SCS_15 ≤ scb_type ∧ scb_type ≤ OSDP_SCS_18)%Z then OSDP_FRAME_MAC_LEN
  else if decide (OSDP_SCS_25 ≤ scb_type ∧ scb_type ≤ OSDP_SCS_28)%Z
  then OSDP_FRAME_MAC_LEN_SC2
  else 0.

Definition osdp_scb_has_mac (scb_type : Z) : bool := bool_decide (osdp_scb_mac_len scb_type ≠ 0).

Definition osdp_scb_is_encrypted (scb_type : Z) : bool :=
  bool_decide (scb_type = OSDP_SCS_17 ∨ scb_type = OSDP_SCS_18 ∨
               scb_type = OSDP_SCS_27 ∨ scb_type = OSDP_SCS_28).

(** [osdp_integrity_t]; the builder checks the value, so it stays a number. *)
Definition OSDP_INTEGRITY_CHECKSUM : Z := 0.
Definition OSDP_INTEGRITY_CRC : Z := 1.

Record osdp_frame : Type := mk_frame {
  fr_address : Z;
  fr_reply : bool;
  fr_sequence : Z;
  fr_integrity : Z;
  fr_has_scb : bool;
  fr_scb_length : Z;
  fr_scb_type : Z;
  fr_scb_data : ptr;
  fr_scb_data_len : nat;
  fr_code : Z;
  fr_payload : ptr;
  fr_payload_len : nat;
  fr_mac : ptr;
  fr_mac_len : nat;
  fr_raw : ptr;
  fr_raw_len : nat
}.

(** [memset(&frame, 0, sizeof frame)]. *)
Definition frame_zero : osdp_frame :=
  mk_frame 0 false 0 0 false 0 0 NULL 0 0 NULL 0 NULL 0 NULL 0.

(** ** Decoder *)

(** An early [return status] ([inl]) or a value to go on with ([inr]). *)
Definition step (A : Type) : Type := option (osdp_status + A).

Definition and_then {A B} (m : step A) (k : A → step B) : step B :=
  match m with
  | UB => UB
  | Ret (inl s) => Ret (inl s)
  | Ret (inr a) => k a
  end.

Notation "x ←? m ; k" := (and_then m (λ x, k))
  (at level 20, m at level 100, k at level 200, only parsing) : osdp_scope.

Notation "'fail' s" := (Some (inl s)) (at level 10, only parsing) : osdp_scope.
Notation "'go' x" := (Some (inr x)) (at level 10, only parsing) : osdp_scope.

Record decoded_header := mk_dh {
  dh_addr : Z; dh_ctrl : Z; dh_use_crc : bool; dh_has_scb : bool }.

Definition integrity_size_of (use_crc : bool) : nat := if use_crc then 2 else 1.

(** SOM, LEN and CTRL checks, up to the minimum length for the check type. *)
Definition decode_header (buf : ptr) (len : nat) : step decoded_header :=
  if decide (len < OSDP_FRAME_MIN_LEN_CKSUM) then fail OSDP_ERR_TRUNCATED else
  b0 ← rd buf 0;
  if decide (b0 ≠ OSDP_SOM) then fail OSDP_ERR_BAD_SOM else
  addr_byte ← rd buf 1;
  b2 ← rd buf 2;
  b3 ← rd buf 3;
  let len_field := u16 (Z.lor b2 (Z.shiftl b3 8)) in
  if decide (len_field ≠ Z.of_nat len) then fail OSDP_ERR_BAD_LENGTH else
  if decide (Z.of_nat OSDP_FRAME_MAX_LEN < len_field)%Z then fail OSDP_ERR_BAD_LENGTH else
  ctrl ← rd buf 4;
  if decide (Z.land ctrl OSDP_CTRL_RESERVED ≠ 0%Z) then fail OSDP_ERR_BAD_CTRL else
  let use_crc := bool_decide (Z.land ctrl OSDP_CTRL_USE_CRC ≠ 0%Z) in
  let has_scb := bool_decide (Z.land ctrl OSDP_CTRL_SCB ≠ 0%Z) in
  let min_required := if use_crc then OSDP_FRAME_MIN_LEN_CRC else OSDP_FRAME_MIN_LEN_CKSUM in
  if decide (len < min_required) then fail OSDP_ERR_TRUNCATED else
  go (mk_dh addr_byte ctrl use_crc has_scb).

Record decoded_scb := mk_ds {
  ds_cursor : nat; ds_length : Z; ds_type : Z; ds_data : ptr; ds_data_len : nat }.

(** The optional Security Control Block. *)
Definition decode_scb (buf : ptr) (len : nat) (h : decoded_header) : step decoded_scb :=
  let cursor := OSDP_FRAME_HEADER_LEN in
  let integrity_size := integrity_size_of (dh_use_crc h) in
  if dh_has_scb h then
    if decide (len < cursor + OSDP_SCB_MIN_LEN) then fail OSDP_ERR_TRUNCATED else
    scb_length ← rd buf cursor;
    scb_type ← rd buf (cursor + 1);
    let n := Z.to_nat scb_length in
    if decide (n < OSDP_SCB_MIN_LEN) then fail OSDP_ERR_BAD_LENGTH else
    if decide (len < cursor + n + 1 + integrity_size) then fail OSDP_ERR_BAD_LENGTH else
    let scb_data_len := n - OSDP_SCB_MIN_LEN in
    scb_data ← sub_ptr buf (cursor + OSDP_SCB_MIN_LEN) scb_data_len;
    go (mk_ds (cursor + n) scb_length scb_type scb_data scb_data_len)
  else go (mk_ds cursor 0 0 NULL 0).

Record decoded_body := mk_db {
  db_code : Z; db_payload : ptr; db_payload_len : nat; db_mac : ptr; db_mac_len : nat;
  db_payload_end : nat }.

(** Code byte, payload and trailing MAC. *)
Definition decode_body (buf : ptr) (len : nat) (h : decoded_header) (sc : decoded_scb)
  : step decoded_body :=
  let integrity_size := integrity_size_of (dh_use_crc h) in
  if decide (len < ds_cursor sc + 1 + integrity_size) then fail OSDP_ERR_TRUNCATED else
  code ← rd buf (ds_cursor sc);
  let payload_start := ds_cursor sc + 1 in
  let payload_end := len - integrity_size in
  if decide (payload_end < payload_start) then fail OSDP_ERR_TRUNCATED else
  let payload_len := payload_end - payload_start in
  let tag := if dh_has_scb h then osdp_scb_mac_len (ds_type sc) else 0 in
  if decide (0 < tag) then
    if decide (payload_len < tag) then fail OSDP_ERR_BAD_PAYLOAD else
    mac ← sub_ptr buf (payload_end - tag) tag;
    payload ← sub_ptr buf payload_start (payload_len - tag);
    go (mk_db code payload (payload_len - tag) mac tag payload_end)
  else
    payload ← sub_ptr buf payload_start payload_len;
    go (mk_db code payload payload_len NULL 0 payload_end).

(** The six identity fields written before the integrity check. *)
Definition set_identity (o : osdp_frame) (buf : ptr) (raw : ptr) (len : nat)
    (h : decoded_header) : osdp_frame :=
  mk_frame (Z.land (dh_addr h) OSDP_ADDR_MASK)
    (bool_decide (Z.land (dh_addr h) OSDP_REPLY_FLAG ≠ 0%Z))
    (Z.land (dh_ctrl h) OSDP_CTRL_SQN_MASK)
    (if dh_use_crc h then OSDP_INTEGRITY_CRC else OSDP_INTEGRITY_CHECKSUM)
    (fr_has_scb o) (fr_scb_length o) (fr_scb_type o) (fr_scb_data o) (fr_scb_data_len o)
    (fr_code o) (fr_payload o) (fr_payload_len o) (fr_mac o) (fr_mac_len o) raw len.

Definition set_content (o : osdp_frame) (h : decoded_header) (sc : decoded_scb)
    (b : decoded_body) : osdp_frame :=
  mk_frame (fr_address o) (fr_reply o) (fr_sequence o) (fr_integrity o)
    (dh_has_scb h) (ds_length sc) (ds_type sc) (ds_data sc) (ds_data_len sc)
    (db_code b) (db_payload b) (db_payload_len b) (db_mac b) (db_mac_len b)
    (fr_raw o) (fr_raw_len o).

(** CRC or checksum over the bytes before the trailer. *)
Definition check_integrity (buf : ptr) (use_crc : bool) (payload_end : nat)
  : option osdp_status :=
  if use_crc then
    expected ← osdp_crc16 buf payload_end;
    lo ← rd buf payload_end;
    hi ← rd buf (payload_end + 1);
    let actual := u16 (Z.lor lo (Z.shiftl hi 8)) in
    Ret (if decide (actual ≠ expected) then OSDP_ERR_BAD_CRC else OSDP_OK)
  else
    expected ← osdp_checksum buf payload_end;
    b ← rd buf payload_end;
    Ret (if decide (b ≠ expected) then OSDP_ERR_BAD_CHECKSUM else OSDP_OK).

Definition decode_parts (buf : ptr) (len : nat)
  : step (decoded_header * decoded_scb * decoded_body) :=
  h ←? decode_header buf len;
  sc ←? decode_scb buf len h;
  b ←? decode_body buf len h sc;
  go (h, sc, b).

Definition osdp_frame_decode (buf : ptr) (len : nat) (out : option osdp_frame)
  : option (osdp_status * option osdp_frame) :=
  match out with
  | None => Ret (OSDP_ERR_INVALID_ARG, None)
  | Some o =>
      if is_null buf then Ret (OSDP_ERR_INVALID_ARG, out) else
      r ← decode_parts buf len;
      match r with
      | inl s => Ret (s, out)
      | inr (h, sc, b) =>
          raw ← Ptr <$> rd_slice buf 0 len;
          let o1 := set_identity o buf raw len h in
          st ← check_integrity buf (dh_use_crc h) (db_payload_end b);
          if decide (st = OSDP_OK) then Ret (OSDP_OK, Some (set_content o1 h sc b))
          else Ret (st, Some o1)
      end
  end.

(** ** Builder *)

(** [frame_scb_total]: the status and [*out_total]. *)
Definition frame_scb_total (f : osdp_frame) : osdp_status * nat :=
  if negb (fr_has_scb f) then (OSDP_OK, 0) else
  if decide (Z.to_nat (fr_scb_length f) < OSDP_SCB_MIN_LEN) then (OSDP_ERR_INVALID_ARG, 0) else
  if decide (fr_scb_data_len f ≠ Z.to_nat (fr_scb_length f) - OSDP_SCB_MIN_LEN)
  then (OSDP_ERR_INVALID_ARG, 0) else
  if decide (0 < fr_scb_data_len f ∧ fr_scb_data f = NULL) then (OSDP_ERR_INVALID_ARG, 0) else
  (OSDP_OK, Z.to_nat (fr_scb_length f)).

Definition mac_needed (f : osdp_frame) : nat :=
  if fr_has_scb f then osdp_scb_mac_len (fr_scb_type f) else 0.

Definition integrity_size (f : osdp_frame) : nat :=
  if decide (fr_integrity f = OSDP_INTEGRITY_CRC) then 2 else 1.

(** [frame_overhead]: status, [*out_total], [*out_frame_only]. *)
Definition frame_overhead (f : osdp_frame) : osdp_status * nat * nat :=
  match frame_scb_total f with
  | (OSDP_OK, scb_total) =>
      let only := OSDP_FRAME_HEADER_LEN + scb_total + 1 + mac_needed f + integrity_size f in
      (OSDP_OK, OSDP_FRAME_MARK_LEN + only, only)
  | (s, _) => (s, 0, 0)
  end.

Definition osdp_frame_max_payload (shape : option osdp_frame) (buf_cap : nat)
    (out_max : option nat) : osdp_status * option nat :=
  match shape, out_max with
  | Some f, Some _ =>
      match frame_overhead f with
      | (OSDP_OK, overhead, only) =>
          if decide (buf_cap ≤ overhead) then (OSDP_OK, Some 0) else
          let max := buf_cap - overhead in
          if decide (only < OSDP_FRAME_MAX_LEN) then
            let spec_max := OSDP_FRAME_MAX_LEN - only in
            (OSDP_OK, Some (if decide (spec_max < max) then spec_max else max))
          else (OSDP_OK, Some 0)
      | (s, _, _) => (s, Some 0)
      end
  | _, _ => (OSDP_ERR_INVALID_ARG, out_max)
  end.

Definition osdp_frame_payload_offset (f : option osdp_frame) (out_offset : option nat)
  : osdp_status * option nat :=
  match f, out_offset with
  | Some f, Some _ =>
      match frame_scb_total f with
      | (OSDP_OK, scb_total) =>
          (OSDP_OK, Some (OSDP_FRAME_MARK_LEN + OSDP_FRAME_HEADER_LEN + scb_total + 1))
      | (s, _) => (s, out_offset)
      end
  | _, _ => (OSDP_ERR_INVALID_ARG, out_offset)
  end.

Definition addr_byte_of (f : osdp_frame) : Z :=
  Z.lor (Z.land (fr_address f) OSDP_ADDR_MASK)
        (if fr_reply f then OSDP_REPLY_FLAG else 0%Z).

Definition ctrl_byte_of (f : osdp_frame) : Z :=
  Z.lor (Z.lor (Z.land (fr_sequence f) OSDP_CTRL_SQN_MASK)
               (if decide (fr_integrity f = OSDP_INTEGRITY_CRC) then OSDP_CTRL_USE_CRC else 0%Z))
        (if fr_has_scb f then OSDP_CTRL_SCB else 0%Z).

(** A store at the write cursor: [memcpy(&buf[off], bs, n); off += n]. *)
Definition put (st : ptr * nat) (bs : list Z) : option (ptr * nat) :=
  let '(buf, off) := st in
  buf ← wr buf off bs;
  Ret (buf, off + length bs).

Definition build_header (f : osdp_frame) (total : nat) (st : ptr * nat) : option (ptr * nat) :=
  let tot := Z.of_nat total in
  st ← put st [OSDP_SOM];
  st ← put st [addr_byte_of f];
  st ← put st [Z.land tot 0xFF];
  st ← put st [Z.land (Z.shiftr tot 8) 0xFF];
  put st [ctrl_byte_of f].

Definition build_scb (f : osdp_frame) (st : ptr * nat) : option (ptr * nat) :=
  if fr_has_scb f then
    st ← put st [fr_scb_length f];
    st ← put st [fr_scb_type f];
    if decide (0 < fr_scb_data_len f) then
      bs ← rd_slice (fr_scb_data f) 0 (fr_scb_data_len f);
      put st bs
    else Ret st
  else Ret st.

(** The payload.  [in_buf] is the offset in the output buffer at which the
    caller's payload pointer already points ([None]: it points elsewhere).
    The copy is skipped when that offset is the payload's own; any other
    overlap of source and destination would be undefined behaviour. *)
Definition build_payload (f : osdp_frame) (in_buf : option nat) (st : ptr * nat)
  : option (ptr * nat) :=
  if decide (0 < fr_payload_len f) then
    match in_buf with
    | Some at_off =>
        if decide (at_off = st.2) then Ret (st.1, st.2 + fr_payload_len f) else UB
    | None =>
        bs ← rd_slice (fr_payload f) 0 (fr_payload_len f);
        put st bs
    end
  else Ret st.

Definition build_mac (f : osdp_frame) (st : ptr * nat) : option (ptr * nat) :=
  if decide (0 < mac_needed f) then
    bs ← rd_slice (fr_mac f) 0 (mac_needed f);
    put st bs
  else Ret st.

(** CRC or checksum of the bytes written since the SOM. *)
Definition build_integrity (f : osdp_frame) (st : ptr * nat) : option (ptr * nat) :=
  let '(buf, off) := st in
  frame ← Ptr <$> rd_slice buf OSDP_FRAME_MARK_LEN (off - OSDP_FRAME_MARK_LEN);
  if decide (fr_integrity f = OSDP_INTEGRITY_CRC) then
    crc ← osdp_crc16 frame (off - OSDP_FRAME_MARK_LEN);
    st ← put st [Z.land crc 0xFF];
    put st [Z.land (Z.shiftr crc 8) 0xFF]
  else
    cksum ← osdp_checksum frame (off - OSDP_FRAME_MARK_LEN);
    put st [cksum].

(** The argument checks of [osdp_frame_build] before any byte is written. *)
Definition build_check (f : osdp_frame) (in_buf : option nat) : osdp_status + nat :=
  if decide (OSDP_BROADCAST_ADDR < fr_address f)%Z then inl OSDP_ERR_INVALID_ARG else
  if decide (OSDP_CTRL_SQN_MASK < fr_sequence f)%Z then inl OSDP_ERR_INVALID_ARG else
  if decide (fr_integrity f ≠ OSDP_INTEGRITY_CHECKSUM ∧ fr_integrity f ≠ OSDP_INTEGRITY_CRC)
  then inl OSDP_ERR_INVALID_ARG else
  match frame_scb_total f with
  | (OSDP_OK, scb_total) =>
      if decide (0 < fr_payload_len f ∧ fr_payload f = NULL ∧ in_buf = None)
      then inl OSDP_ERR_INVALID_ARG else
      if decide (0 < mac_needed f) then
        if decide (fr_mac_len f ≠ mac_needed f ∨ fr_mac f = NULL)
        then inl OSDP_ERR_INVALID_ARG
        else inr scb_total
      else
        if decide (fr_mac_len f ≠ 0) then inl OSDP_ERR_INVALID_ARG else inr scb_total
  | (s, _) => inl s
  end.

Definition osdp_frame_build_at (f : option osdp_frame) (in_buf : option nat) (buf : ptr)
    (buf_cap : nat) (written : option nat) : option (osdp_status * ptr * option nat) :=
  match f, written with
  | Some f, Some _ =>
      if is_null buf then Ret (OSDP_ERR_INVALID_ARG, buf, written) else
      match build_check f in_buf with
      | inl s => Ret (s, buf, Some 0)
      | inr scb_total =>
          let total := OSDP_FRAME_HEADER_LEN + scb_total + 1 + fr_payload_len f +
                       mac_needed f + integrity_size f in
          if decide (OSDP_FRAME_MAX_LEN < total) then Ret (OSDP_ERR_INVALID_ARG, buf, Some 0) else
          if decide (buf_cap < OSDP_FRAME_MARK_LEN + total)
          then Ret (OSDP_ERR_BUFFER_TOO_SMALL, buf, Some 0) else
          st ← put (buf, 0) (replicate OSDP_FRAME_MARK_LEN OSDP_FRAME_MARK);
          st ← build_header f total st;
          st ← build_scb f st;
          st ← put st [fr_code f];
          st ← build_payload f in_buf st;
          st ← build_mac f st;
          st ← build_integrity f st;
          Ret (OSDP_OK, st.1, Some st.2)
      end
  | _, _ => Ret (OSDP_ERR_INVALID_ARG, buf, written)
  end.

(** The public entry point, for a template whose payload is not in [buf]. *)
Definition osdp_frame_build (f : option osdp_frame) (buf : ptr) (buf_cap : nat)
    (written : option nat) : option (osdp_status * ptr * option nat) :=
  osdp_frame_build_at f None buf buf_cap written.

(** ** Specification: the wire image of a frame *)

Definition scb_bytes (f : osdp_frame) : list Z :=
  if fr_has_scb f
  then fr_scb_length f :: fr_scb_type f :: view (fr_scb_data f) (fr_scb_data_len f)
  else [].

Definition scb_total_of (f : osdp_frame) : nat :=
  if fr_has_scb f then Z.to_nat (fr_scb_length f) else 0.

Definition frame_total (f : osdp_frame) : nat :=
  OSDP_FRAME_HEADER_LEN + scb_total_of f + 1 + fr_payload_len f + mac_needed f + integrity_size f.

Definition header_bytes (f : osdp_frame) (total : nat) : list Z :=
  [OSDP_SOM; addr_byte_of f] ++ le_split 2 (Z.of_nat total) ++ [ctrl_byte_of f].

(** SOM up to the byte before the check characters. *)
Definition frame_body (f : osdp_frame) : list Z :=
  header_bytes f (frame_total f) ++ scb_bytes f ++ [fr_code f] ++
  view (fr_payload f) (fr_payload_len f) ++ view (fr_mac f) (mac_needed f).

Definition trailer (f : osdp_frame) (body : list Z) : list Z :=
  if decide (fr_integrity f = OSDP_INTEGRITY_CRC)
  then le_split 2 (crc_bytes body) else [checksum_bytes body].

Definition frame_wire (f : osdp_frame) : list Z := frame_body f ++ trailer f (frame_body f).

(** The C types of the fields. *)
Record frame_typed (f : osdp_frame) : Prop := {
  ft_address : is_byte (fr_address f);
  ft_sequence : is_byte (fr_sequence f);
  ft_scb_length : is_byte (fr_scb_length f);
  ft_scb_type : is_byte (fr_scb_type f);
  ft_code : is_byte (fr_code f);
  ft_scb_data : region_ok (fr_scb_data f) (fr_scb_data_len f);
  ft_payload : region_ok (fr_payload f) (fr_payload_len f);
  ft_mac : region_ok (fr_mac f) (fr_mac_len f)
}.

(** The templates the builder accepts. *)
Record buildable (f : osdp_frame) : Prop := {
  bd_address : (fr_address f ≤ 0x7F)%Z;
  bd_sequence : (fr_sequence f ≤ 3)%Z;
  bd_integrity : fr_integrity f = OSDP_INTEGRITY_CHECKSUM ∨ fr_integrity f = OSDP_INTEGRITY_CRC;
  bd_scb : fr_has_scb f = true →
    2 ≤ Z.to_nat (fr_scb_length f) ∧
    fr_scb_data_len f = Z.to_nat (fr_scb_length f) - 2 ∧
    (0 < fr_scb_data_len f → fr_scb_data f ≠ NULL);
  bd_payload : 0 < fr_payload_len f → fr_payload f ≠ NULL;
  bd_mac_len : fr_mac_len f = mac_needed f;
  bd_mac : 0 < mac_needed f → fr_mac f ≠ NULL;
  bd_total : frame_total f ≤ OSDP_FRAME_MAX_LEN
}.

(** What the decoder reports for the wire image of [f]: the same fields, with
    the slice pointers in canonical form and [raw] set. *)
Definition decoded_of (f : osdp_frame) : osdp_frame :=
  mk_frame (fr_address f) (fr_reply f) (fr_sequence f) (fr_integrity f) (fr_has_scb f)
    (if fr_has_scb f then fr_scb_length f else 0%Z)
    (if fr_has_scb f then fr_scb_type f else 0%Z)
    (if fr_has_scb f then slice_ptr (view (fr_scb_data f) (fr_scb_data_len f)) else NULL)
    (if fr_has_scb f then fr_scb_data_len f else 0)
    (fr_code f)
    (slice_ptr (view (fr_payload f) (fr_payload_len f))) (fr_payload_len f)
    (slice_ptr (view (fr_mac f) (mac_needed f))) (mac_needed f)
    (Ptr (frame_wire f)) (length (frame_wire f)).

Definition with_payload (f : osdp_frame) (p : ptr) (n : nat) : osdp_frame :=
  mk_frame (fr_address f) (fr_reply f) (fr_sequence f) (fr_integrity f) (fr_has_scb f)
    (fr_scb_length f) (fr_scb_type f) (fr_scb_data f) (fr_scb_data_len f) (fr_code f)
    p n (fr_mac f) (fr_mac_len f) (fr_raw f) (fr_raw_len f).

(** ** Lemmas: sizes and bytes of the wire image *)

Lemma integrity_size_eq f :
  fr_integrity f = OSDP_INTEGRITY_CHECKSUM ∨ fr_integrity f = OSDP_INTEGRITY_CRC →
  integrity_size f = integrity_size_of (bool_decide (fr_integrity f = OSDP_INTEGRITY_CRC)).
Proof.
  intros _. unfold integrity_size. case_decide as H.
  - by rewrite bool_decide_true.
  - by rewrite bool_decide_false.
Qed.

Lemma length_trailer f body : length (trailer f body) = integrity_size f.
Proof. unfold trailer, integrity_size. by case_decide. Qed.

Lemma length_scb_bytes f :
  frame_typed f → buildable f → length (scb_bytes f) = scb_total_of f.
Proof.
  intros Ht Hb. unfold scb_bytes, scb_total_of. destruct (fr_has_scb f) eqn:Hs; [|done].
  destruct (bd_scb f Hb Hs) as (? & Hl & Hn). cbn [length].
  rewrite length_view by (auto; apply Ht). lia.
Qed.

Lemma length_payload_view f :
  frame_typed f → buildable f → length (view (fr_payload f) (fr_payload_len f)) = fr_payload_len f.
Proof. intros Ht Hb. apply length_view; [apply Ht|apply Hb]. Qed.

Lemma length_mac_view f :
  frame_typed f → buildable f → length (view (fr_mac f) (mac_needed f)) = mac_needed f.
Proof.
  intros Ht Hb. apply length_view; [|apply Hb]. rewrite <-(bd_mac_len f Hb). apply Ht.
Qed.

Lemma length_frame_body f :
  frame_typed f → buildable f → length (frame_body f) + integrity_size f = frame_total f.
Proof.
  intros Ht Hb. unfold frame_body, header_bytes, frame_total. rewrite !length_app.
  rewrite length_le_split, length_scb_bytes, length_payload_view, length_mac_view by done.
  unfold OSDP_FRAME_HEADER_LEN. simpl. lia.
Qed.

Lemma length_frame_wire f :
  frame_typed f → buildable f → length (frame_wire f) = frame_total f.
Proof.
  intros Ht Hb. unfold frame_wire. rewrite length_app, length_trailer.
  by apply length_frame_body.
Qed.

Lemma addr_byte_facts (r : bool) a :
  is_byte a → (a ≤ 0x7F)%Z →
  let b := Z.lor (Z.land a OSDP_ADDR_MASK) (if r then OSDP_REPLY_FLAG else 0%Z) in
  is_byte b ∧ Z.land b OSDP_ADDR_MASK = a ∧
  bool_decide (Z.land b OSDP_REPLY_FLAG ≠ 0%Z) = r.
Proof.
  intros Ha. destruct r; check_bytes a.
Qed.

Lemma addr_byte_rebuild b :
  is_byte b →
  Z.lor (Z.land (Z.land b OSDP_ADDR_MASK) OSDP_ADDR_MASK)
    (if bool_decide (Z.land b OSDP_REPLY_FLAG ≠ 0%Z) then OSDP_REPLY_FLAG else 0%Z) = b ∧
  (Z.land b OSDP_ADDR_MASK ≤ 0x7F)%Z ∧ is_byte (Z.land b OSDP_ADDR_MASK).
Proof.
  intros Hb. check_bytes b.
Qed.

Lemma ctrl_byte_facts sq (crc scb : bool) :
  is_byte sq → (sq ≤ 3)%Z →
  let c := Z.lor (Z.lor (Z.land sq OSDP_CTRL_SQN_MASK)
                   (if crc then OSDP_CTRL_USE_CRC else 0%Z))
             (if scb then OSDP_CTRL_SCB else 0%Z) in
  is_byte c ∧ Z.land c OSDP_CTRL_RESERVED = 0%Z ∧ Z.land c OSDP_CTRL_SQN_MASK = sq ∧
  bool_decide (Z.land c OSDP_CTRL_USE_CRC ≠ 0%Z) = crc ∧
  bool_decide (Z.land c OSDP_CTRL_SCB ≠ 0%Z) = scb.
Proof.
  intros [? ?] ?. assert (sq = 0 ∨ sq = 1 ∨ sq = 2 ∨ sq = 3)%Z as Hs by lia.
  destruct Hs as [-> | [-> | [-> | ->]]], crc, scb; vm_compute; split_and!; done.
Qed.

Lemma ctrl_byte_rebuild c :
  is_byte c → Z.land c OSDP_CTRL_RESERVED = 0%Z →
  Z.lor (Z.lor (Z.land (Z.land c OSDP_CTRL_SQN_MASK) OSDP_CTRL_SQN_MASK)
           (if bool_decide (Z.land c OSDP_CTRL_USE_CRC ≠ 0%Z) then OSDP_CTRL_USE_CRC else 0%Z))
    (if bool_decide (Z.land c OSDP_CTRL_SCB ≠ 0%Z) then OSDP_CTRL_SCB else 0%Z) = c ∧
  (Z.land c OSDP_CTRL_SQN_MASK ≤ 3)%Z ∧ is_byte (Z.land c OSDP_CTRL_SQN_MASK).
Proof.
  intros Hc. check_bytes c.
Qed.

Lemma addr_byte_of_byte f : frame_typed f → buildable f → is_byte (addr_byte_of f).
Proof. intros Ht Hb. apply addr_byte_facts; [apply Ht|apply Hb]. Qed.

Lemma ctrl_byte_of_facts f :
  frame_typed f → buildable f →
  is_byte (ctrl_byte_of f) ∧ Z.land (ctrl_byte_of f) OSDP_CTRL_RESERVED = 0%Z ∧
  Z.land (ctrl_byte_of f) OSDP_CTRL_SQN_MASK = fr_sequence f ∧
  bool_decide (Z.land (ctrl_byte_of f) OSDP_CTRL_USE_CRC ≠ 0%Z) =
    bool_decide (fr_integrity f = OSDP_INTEGRITY_CRC) ∧
  bool_decide (Z.land (ctrl_byte_of f) OSDP_CTRL_SCB ≠ 0%Z) = fr_has_scb f.
Proof.
  intros Ht Hb. unfold ctrl_byte_of. rewrite decide_bool_decide.
  apply ctrl_byte_facts; [apply Ht|apply Hb].
Qed.

(** ** The builder writes the wire image *)

(** The write cursor after the bytes [pre], with [rest] still to overwrite. *)
Definition cursor (pre rest : list Z) : ptr * nat := (Ptr (pre ++ rest), length pre).

Lemma put_cursor pre rest bs :
  length bs ≤ length rest →
  put (cursor pre rest) bs = Some (cursor (pre ++ bs) (drop (length bs) rest)).
Proof.
  intros Hl. unfold put, cursor. simpl. rewrite mwr_app by done. simpl.
  by rewrite length_app.
Qed.

Lemma put_cursor2 pre rest bs1 bs2 :
  length bs1 + length bs2 ≤ length rest →
  (st ← put (cursor pre rest) bs1; put st bs2) = put (cursor pre rest) (bs1 ++ bs2).
Proof.
  intros Hl. rewrite put_cursor by lia. cbn [mbind option_bind].
  rewrite !put_cursor by solve_len. by rewrite drop_drop, length_app, <-app_assoc.
Qed.

Lemma build_header_cursor f total pre rest :
  5 ≤ length rest →
  build_header f total (cursor pre rest) =
    Some (cursor (pre ++ header_bytes f total) (drop 5 rest)).
Proof.
  intros Hl. unfold build_header. cbv zeta.
  do 5 (rewrite put_cursor by solve_len; cbn [mbind option_bind length]).
  rewrite !drop_drop, <-!app_assoc. done.
Qed.

Lemma build_scb_cursor f pre rest :
  frame_typed f → buildable f → scb_total_of f ≤ length rest →
  build_scb f (cursor pre rest) =
    Some (cursor (pre ++ scb_bytes f) (drop (scb_total_of f) rest)).
Proof.
  intros Ht Hb Hl. pose proof (length_scb_bytes f Ht Hb) as Hlen.
  unfold build_scb, scb_bytes, scb_total_of in *. destruct (fr_has_scb f) eqn:Hs.
  2:{ by rewrite app_nil_r, drop_0. }
  destruct (bd_scb f Hb Hs) as (? & Hd & Hn). cbn [length] in Hlen.
  do 2 (rewrite put_cursor by solve_len; cbn [mbind option_bind length]).
  case_decide as Hpos.
  - rewrite rd_slice_view by (auto; apply Ht). cbn [mbind option_bind].
    rewrite put_cursor by solve_len. rewrite !drop_drop, <-!app_assoc.
    do 2 f_equal. f_equal. lia.
  - assert (view (fr_scb_data f) (fr_scb_data_len f) = []) as -> by (apply nil_length_inv; lia).
    rewrite drop_drop, <-app_assoc. do 2 f_equal. f_equal. lia.
Qed.

Lemma build_payload_cursor f pre rest :
  frame_typed f → buildable f → fr_payload_len f ≤ length rest →
  build_payload f None (cursor pre rest) =
    Some (cursor (pre ++ view (fr_payload f) (fr_payload_len f)) (drop (fr_payload_len f) rest)).
Proof.
  intros Ht Hb Hl. pose proof (length_payload_view f Ht Hb) as Hv.
  unfold build_payload. case_decide as Hpos.
  - rewrite rd_slice_view; [|apply Ht|by apply Hb]. cbn [mbind option_bind].
    rewrite put_cursor by solve_len. by rewrite Hv.
  - assert (view (fr_payload f) (fr_payload_len f) = []) as -> by (apply nil_length_inv; lia).
    replace (fr_payload_len f) with 0 by lia. by rewrite app_nil_r, drop_0.
Qed.

(** In place: the bytes already behind the cursor become the payload. *)
Lemma build_payload_in_place f pre rest :
  fr_payload_len f ≤ length rest →
  build_payload f (Some (length pre)) (cursor pre rest) =
    Some (cursor (pre ++ take (fr_payload_len f) rest) (drop (fr_payload_len f) rest)).
Proof.
  intros Hl. unfold build_payload, cursor. simpl. case_decide as Hpos.
  - rewrite decide_True by done. rewrite <-app_assoc, take_drop, length_app, length_take.
    do 3 f_equal. lia.
  - replace (fr_payload_len f) with 0 by lia. by rewrite take_0, app_nil_r, drop_0.
Qed.

Lemma build_mac_cursor f pre rest :
  frame_typed f → buildable f → mac_needed f ≤ length rest →
  build_mac f (cursor pre rest) =
    Some (cursor (pre ++ view (fr_mac f) (mac_needed f)) (drop (mac_needed f) rest)).
Proof.
  intros Ht Hb Hl. pose proof (length_mac_view f Ht Hb) as Hv.
  unfold build_mac. case_decide as Hpos.
  - rewrite rd_slice_view; [|rewrite <-(bd_mac_len f Hb); apply Ht|by apply Hb].
    cbn [mbind option_bind]. rewrite put_cursor by solve_len. by rewrite Hv.
  - assert (view (fr_mac f) (mac_needed f) = []) as -> by (apply nil_length_inv; lia).
    replace (mac_needed f) with 0 by lia. by rewrite app_nil_r, drop_0.
Qed.

Lemma build_integrity_cursor f body rest :
  bytes_ok body → integrity_size f ≤ length rest →
  build_integrity f (cursor (OSDP_FRAME_MARK :: body) rest) =
    Some (cursor (OSDP_FRAME_MARK :: body ++ trailer f body) (drop (integrity_size f) rest)).
Proof.
  intros Hbody Hl. unfold trailer, integrity_size in *. unfold build_integrity, cursor at 1.
  assert (rd_slice (Ptr ((OSDP_FRAME_MARK :: body) ++ rest)) OSDP_FRAME_MARK_LEN
    (length (OSDP_FRAME_MARK :: body) - OSDP_FRAME_MARK_LEN) = Some body) as Hf.
  { cbn [rd_slice]. unfold OSDP_FRAME_MARK_LEN. rewrite mslice_Some by solve_len.
    simpl. by rewrite Nat.sub_0_r, drop_0, take_app_length. }
  rewrite Hf. cbn [fmap option_fmap option_map mbind option_bind].
  fold (cursor (OSDP_FRAME_MARK :: body) rest).
  replace (length (OSDP_FRAME_MARK :: body) - OSDP_FRAME_MARK_LEN) with (length body)
    by (simpl; lia).
  case_decide.
  - rewrite osdp_crc16_bytes, firstn_all by (by rewrite ?firstn_all). cbn [mbind option_bind].
    rewrite put_cursor2 by solve_len. by rewrite put_cursor by solve_len.
  - rewrite osdp_checksum_bytes, firstn_all by (by rewrite ?firstn_all). cbn [mbind option_bind].
    by rewrite put_cursor by solve_len.
Qed.

Lemma scb_bytes_ok f : frame_typed f → bytes_ok (scb_bytes f).
Proof.
  intros Ht. unfold scb_bytes. destruct (fr_has_scb f); [|constructor].
  repeat constructor; try apply Ht. apply view_bytes, Ht.
Qed.

Lemma frame_body_bytes f : frame_typed f → buildable f → bytes_ok (frame_body f).
Proof.
  intros Ht Hb. unfold frame_body, header_bytes.
  rewrite !Forall_app. split_and!.
  - repeat constructor; [done..| |]; by apply addr_byte_of_byte.
  - apply le_split_bytes.
  - constructor; [|constructor]. by apply ctrl_byte_of_facts.
  - by apply scb_bytes_ok.
  - constructor; [apply Ht|constructor].
  - apply view_bytes, Ht.
  - apply view_bytes. rewrite <-(bd_mac_len f Hb). apply Ht.
Qed.

Lemma trailer_bytes f body : bytes_ok (trailer f body).
Proof.
  unfold trailer. case_decide; [apply le_split_bytes|]. constructor; [apply u8_byte|constructor].
Qed.

Lemma frame_wire_bytes f : frame_typed f → buildable f → bytes_ok (frame_wire f).
Proof.
  intros. apply Forall_app; split; [by apply frame_body_bytes|apply trailer_bytes].
Qed.

Lemma frame_scb_total_ok f : buildable f → frame_scb_total f = (OSDP_OK, scb_total_of f).
Proof.
  intros Hb. unfold frame_scb_total, scb_total_of.
  destruct (fr_has_scb f) eqn:Hs; [|done]. simpl.
  destruct (bd_scb f Hb Hs) as (? & ? & Hn). unfold OSDP_SCB_MIN_LEN in *.
  rewrite decide_False by lia. rewrite decide_False by lia.
  rewrite decide_False; [done|]. intros [? ?]. by apply Hn.
Qed.

Lemma build_check_ok f : buildable f → build_check f None = inr (scb_total_of f).
Proof.
  intros Hb. unfold build_check, OSDP_BROADCAST_ADDR, OSDP_CONFIG_ADDR, OSDP_CTRL_SQN_MASK.
  rewrite decide_False by (pose proof (bd_address f Hb); lia).
  rewrite decide_False by (pose proof (bd_sequence f Hb); lia).
  rewrite decide_False by (pose proof (bd_integrity f Hb); tauto).
  rewrite frame_scb_total_ok by done.
  rewrite decide_False by (pose proof (bd_payload f Hb); tauto).
  case_decide as Hm.
  - rewrite decide_False; [done|]. pose proof (bd_mac_len f Hb). pose proof (bd_mac f Hb Hm). tauto.
  - rewrite decide_False; [done|]. pose proof (bd_mac_len f Hb). lia.
Qed.

(** The builder's chain of stores, given how its payload stage behaves. *)
Lemma osdp_frame_build_at_ok f in_buf m cap w :
  frame_typed f → buildable f →
  OSDP_FRAME_MARK_LEN + frame_total f ≤ cap → cap ≤ length m →
  build_check f in_buf = inr (scb_total_of f) →
  (∀ pre, length pre = 7 + scb_total_of f →
    build_payload f in_buf (cursor pre (drop (length pre) m)) =
      Some (cursor (pre ++ view (fr_payload f) (fr_payload_len f))
                   (drop (fr_payload_len f) (drop (length pre) m)))) →
  osdp_frame_build_at (Some f) in_buf (Ptr m) cap (Some w) =
    Some (OSDP_OK,
          Ptr (OSDP_FRAME_MARK :: frame_wire f ++ drop (S (frame_total f)) m),
          Some (S (frame_total f))).
Proof.
  intros Ht Hb Hcap Hm Hchk Hpay. pose proof (length_frame_body f Ht Hb) as Hbody.
  unfold osdp_frame_build_at. cbn [is_null]. rewrite Hchk. fold (frame_total f).
  rewrite decide_False by (pose proof (bd_total f Hb); lia).
  rewrite decide_False by lia.
  change (Ptr m, 0) with (cursor [] m).
  unfold OSDP_FRAME_MARK_LEN in *.
  assert (frame_total f = 5 + scb_total_of f + 1 + fr_payload_len f + mac_needed f + integrity_size f) as Htot
    by reflexivity.
  rewrite put_cursor by solve_len. cbn [mbind option_bind replicate length app].
  rewrite build_header_cursor by solve_len. cbn [mbind option_bind].
  rewrite build_scb_cursor by (done || solve_len). cbn [mbind option_bind].
  rewrite put_cursor by solve_len. cbn [mbind option_bind length].
  rewrite !drop_drop.
  match goal with |- context [cursor ?p _] => remember p as pre eqn:Epre end.
  assert (length pre = 7 + scb_total_of f) as Hpre.
  { rewrite Epre. unfold header_bytes. rewrite !length_app, length_le_split.
    rewrite length_scb_bytes by done. simpl. lia. }
  replace (1 + (5 + (scb_total_of f + 1))) with (length pre) by lia.
  rewrite Hpay by done. cbn [mbind option_bind].
  rewrite build_mac_cursor by (done || solve_len). cbn [mbind option_bind].
  rewrite Hpre. clear Hpre. subst pre. rewrite <-!app_assoc. change ([OSDP_FRAME_MARK] ++ ?x) with (OSDP_FRAME_MARK :: x).
  fold (frame_body f).
  rewrite build_integrity_cursor by (by apply frame_body_bytes || solve_len).
  cbn [mbind option_bind]. unfold cursor. cbn [fst snd].
  fold (frame_wire f). rewrite !drop_drop. cbn [length].
  rewrite length_frame_wire by done.
  do 4 f_equal. cbn [app]. do 3 f_equal. lia.
Qed.

(** The functional correctness of the builder: the marking byte, then the wire
    image, and nothing else is written. *)
Lemma osdp_frame_build_ok f m cap w :
  frame_typed f → buildable f →
  OSDP_FRAME_MARK_LEN + frame_total f ≤ cap → cap ≤ length m →
  osdp_frame_build (Some f) (Ptr m) cap (Some w) =
    Some (OSDP_OK,
          Ptr (OSDP_FRAME_MARK :: frame_wire f ++ drop (S (frame_total f)) m),
          Some (S (frame_total f))).
Proof.
  intros Ht Hb Hcap Hm. apply osdp_frame_build_at_ok; [done..|by apply build_check_ok|].
  intros pre Hpre. apply build_payload_cursor; [done..|].
  unfold frame_total, OSDP_FRAME_MARK_LEN, OSDP_FRAME_HEADER_LEN in *. solve_len.
Qed.

Lemma build_check_in_place f at_off n :
  build_check f None = inr n → build_check f (Some at_off) = inr n.
Proof.
  unfold build_check. intros H. repeat (case_decide; [done|]).
  destruct (frame_scb_total f) as [[] k]; try done.
  case_decide; [done|]. rewrite decide_False; [done|]. by intros (? & ? & ?).
Qed.

(** A payload that already sits at its place in the output buffer gives the
    same message as a copied one. *)
Lemma osdp_frame_build_in_place f m cap w :
  frame_typed f → buildable f →
  OSDP_FRAME_MARK_LEN + frame_total f ≤ cap → cap ≤ length m →
  view (fr_payload f) (fr_payload_len f) =
    take (fr_payload_len f) (drop (7 + scb_total_of f) m) →
  osdp_frame_build_at (Some f) (Some (7 + scb_total_of f)) (Ptr m) cap (Some w) =
  osdp_frame_build (Some f) (Ptr m) cap (Some w).
Proof.
  intros Ht Hb Hcap Hm Hv. rewrite osdp_frame_build_ok by done.
  apply osdp_frame_build_at_ok; [done..| |].
  - by apply build_check_in_place, build_check_ok.
  - intros pre Hpre. rewrite Hv, <-Hpre. apply build_payload_in_place.
    unfold frame_total, OSDP_FRAME_MARK_LEN, OSDP_FRAME_HEADER_LEN in *. solve_len.
Qed.

Lemma build_check_inl f in_buf s : build_check f in_buf = inl s → s = OSDP_ERR_INVALID_ARG.
Proof.
  unfold build_check, frame_scb_total. intros H.
  repeat case_match; simplify_eq; done.
Qed.

Lemma frame_scb_total_inv f n :
  frame_scb_total f = (OSDP_OK, n) →
  n = scb_total_of f ∧
  (fr_has_scb f = true → 2 ≤ Z.to_nat (fr_scb_length f) ∧
    fr_scb_data_len f = Z.to_nat (fr_scb_length f) - 2 ∧
    (0 < fr_scb_data_len f → fr_scb_data f ≠ NULL)).
Proof.
  unfold frame_scb_total, scb_total_of, OSDP_SCB_MIN_LEN. intros H.
  destruct (fr_has_scb f); simpl in H; [|by simplify_eq].
  by_cases. split; [done|]. intros _. split_and!; [lia|lia|tauto].
Qed.

Lemma build_check_inr f n :
  build_check f None = inr n → frame_total f ≤ OSDP_FRAME_MAX_LEN → buildable f.
Proof.
  unfold build_check, OSDP_BROADCAST_ADDR, OSDP_CONFIG_ADDR, OSDP_CTRL_SQN_MASK. intros H Htot.
  repeat (case_decide; [done|]).
  destruct (frame_scb_total f) as [[] k] eqn:Hs; try done.
  apply frame_scb_total_inv in Hs as [-> Hscb].
  case_decide as Hp; [done|]. constructor; try done; try lia.
  - intros ? Hn. by destruct Hp.
  - by_cases; lia.
  - intros Hm. rewrite decide_True in H by done. case_decide; [done|tauto].
Qed.

(** Every outcome of the builder on a typed template. *)
Lemma osdp_frame_build_cases f m cap w :
  frame_typed f → cap ≤ length m →
  (buildable f ∧ S (frame_total f) ≤ cap ∧
   osdp_frame_build (Some f) (Ptr m) cap (Some w) =
     Some (OSDP_OK, Ptr (OSDP_FRAME_MARK :: frame_wire f ++ drop (S (frame_total f)) m),
           Some (S (frame_total f)))) ∨
  (buildable f ∧ cap < S (frame_total f) ∧
   osdp_frame_build (Some f) (Ptr m) cap (Some w) =
     Some (OSDP_ERR_BUFFER_TOO_SMALL, Ptr m, Some 0)) ∨
  (¬ buildable f ∧
   osdp_frame_build (Some f) (Ptr m) cap (Some w) =
     Some (OSDP_ERR_INVALID_ARG, Ptr m, Some 0)).
Proof.
  intros Ht Hm. unfold osdp_frame_build, osdp_frame_build_at. cbn [is_null].
  destruct (build_check f None) as [s|n] eqn:Hc.
  { right; right. split; [|by rewrite (build_check_inl _ _ _ Hc)].
    intros Hb. by rewrite build_check_ok in Hc. }
  assert (n = scb_total_of f) as ->.
  { revert Hc. unfold build_check. destruct (frame_scb_total f) as [[] k] eqn:Hs; intros Hc;
      repeat (case_decide; simplify_eq; try done); by apply frame_scb_total_inv in Hs as [-> _]. }
  fold (frame_total f). case_decide.
  { right; right. split; [|done]. intros Hb. pose proof (bd_total f Hb). lia. }
  pose proof (build_check_inr f _ Hc ltac:(lia)) as Hb.
  case_decide as Hcap; [right; left; unfold OSDP_FRAME_MARK_LEN in *; split_and!; done || lia|].
  left. split_and!; [done|unfold OSDP_FRAME_MARK_LEN in *; lia|].
  pose proof (osdp_frame_build_ok f m cap w Ht Hb ltac:(lia) Hm) as Hok.
  unfold osdp_frame_build, osdp_frame_build_at in Hok. cbn [is_null] in Hok.
  rewrite Hc in Hok. fold (frame_total f) in Hok. by rewrite !decide_False in Hok by lia.
Qed.

(** Building any typed template is defined and stays inside the buffer. *)
Lemma osdp_frame_build_total f m cap w :
  frame_typed f → cap ≤ length m →
  ∃ st m' n, osdp_frame_build (Some f) (Ptr m) cap (Some w) = Some (st, Ptr m', Some n) ∧
    length m' = length m ∧ n ≤ cap.
Proof.
  intros Ht Hm. destruct (osdp_frame_build_cases f m cap w Ht Hm) as [(Hb & Hc & ->)|[(_ & _ & ->)|(_ & ->)]];
    eexists _, _, _; (split; [done|]); split; try lia.
  cbn [length]. rewrite length_app, length_drop, length_frame_wire by done. lia.
Qed.

(** ** The decoder reads the wire image back *)

(** What each decoding stage finds in the wire image of [f]. *)
Definition uses_crc (f : osdp_frame) : bool := bool_decide (fr_integrity f = OSDP_INTEGRITY_CRC).

Definition wire_dh (f : osdp_frame) : decoded_header :=
  mk_dh (addr_byte_of f) (ctrl_byte_of f) (uses_crc f) (fr_has_scb f).

Definition wire_ds (f : osdp_frame) : decoded_scb :=
  if fr_has_scb f
  then mk_ds (5 + scb_total_of f) (fr_scb_length f) (fr_scb_type f)
         (slice_ptr (view (fr_scb_data f) (fr_scb_data_len f))) (fr_scb_data_len f)
  else mk_ds 5 0 0 NULL 0.

Definition wire_db (f : osdp_frame) : decoded_body :=
  mk_db (fr_code f) (slice_ptr (view (fr_payload f) (fr_payload_len f))) (fr_payload_len f)
    (slice_ptr (view (fr_mac f) (mac_needed f))) (mac_needed f)
    (frame_total f - integrity_size f).

Section decode_wire.
Context (f : osdp_frame) (Ht : frame_typed f) (Hb : buildable f) (extra : list Z).

Local Notation use_crc := (uses_crc f).
Local Notation pay := (view (fr_payload f) (fr_payload_len f)).
Local Notation mac := (view (fr_mac f) (mac_needed f)).
Local Notation total := (frame_total f).
Local Notation m := (frame_wire f ++ extra).

Lemma wire_bounds :
  total = 5 + scb_total_of f + 1 + fr_payload_len f + mac_needed f + integrity_size_of use_crc ∧
  integrity_size f = integrity_size_of use_crc ∧ total ≤ 1440.
Proof.
  pose proof (bd_total f Hb). pose proof (integrity_size_eq f (bd_integrity f Hb)) as Hi.
  split_and!; [|done|done]. unfold uses_crc. rewrite <-Hi. done.
Qed.

Lemma wire_header : m = header_bytes f total ++ (scb_bytes f ++ [fr_code f] ++ pay ++ mac ++
  trailer f (frame_body f) ++ extra).
Proof. unfold frame_wire, frame_body. by rewrite <-!app_assoc. Qed.

Lemma decode_header_wire : decode_header (Ptr m) total = Some (inr (wire_dh f)).
Proof.
  destruct wire_bounds as (Htot & _ & Hmax). rewrite wire_header.
  destruct (ctrl_byte_of_facts f Ht Hb) as (Hc & Hr & _ & Hcrc & Hscb).
  assert (7 ≤ total) by (unfold integrity_size_of in *; destruct use_crc; lia).
  unfold decode_header, header_bytes, OSDP_FRAME_MIN_LEN_CKSUM, OSDP_FRAME_MIN_LEN_CRC,
    OSDP_FRAME_MAX_LEN.
  rewrite decide_False by lia. cbn [rd app le_split lookup list_lookup mbind option_bind].
  rewrite decide_False by naive_solver. cbv zeta. rewrite le16, u16_id by apply u16_range.
  rewrite u16_id by (unfold is_u16; lia).
  rewrite decide_False by naive_solver. rewrite decide_False by lia.
  rewrite decide_False by naive_solver. rewrite Hcrc, Hscb. fold (uses_crc f).
  rewrite decide_False; [done|]. unfold integrity_size_of in *. destruct use_crc; lia.
Qed.

Lemma decode_scb_wire : decode_scb (Ptr m) total (wire_dh f) = Some (inr (wire_ds f)).
Proof.
  destruct wire_bounds as (Htot & _ & _). pose proof (length_scb_bytes f Ht Hb) as Hlen.
  unfold decode_scb, OSDP_FRAME_HEADER_LEN, OSDP_SCB_MIN_LEN. cbn [dh_has_scb dh_use_crc wire_dh].
  unfold wire_ds. destruct (fr_has_scb f) eqn:Hs; [|done].
  destruct (bd_scb f Hb Hs) as (Hl2 & Hd & _).
  unfold scb_total_of, scb_bytes in *. rewrite Hs in *. cbn [length] in Hlen.
  rewrite decide_False by lia. rewrite wire_header. unfold scb_bytes. rewrite Hs.
  cbn [app]. rewrite (rd_prefix _ _ 5 0), (rd_prefix _ _ _ 1) by done.
  cbn [lookup list_lookup mbind option_bind].
  rewrite decide_False by lia. rewrite decide_False by lia.
  assert (∀ a r : list Z, a ++ fr_scb_length f :: fr_scb_type f :: r =
    (a ++ [fr_scb_length f; fr_scb_type f]) ++ r) as -> by (intros; by rewrite <-app_assoc).
  rewrite (sub_ptr_app _ (view (fr_scb_data f) (fr_scb_data_len f))) by (done || lia).
  cbn [mbind option_bind]. by rewrite Hd.
Qed.

Lemma decode_body_wire : decode_body (Ptr m) total (wire_dh f) (wire_ds f) = Some (inr (wire_db f)).
Proof.
  destruct wire_bounds as (Htot & Hint & _). pose proof (length_scb_bytes f Ht Hb) as Hlen.
  pose proof (length_payload_view f Ht Hb) as Hp. pose proof (length_mac_view f Ht Hb) as Hmac.
  unfold decode_body. cbn [dh_use_crc dh_has_scb wire_dh].
  assert (ds_cursor (wire_ds f) = 5 + scb_total_of f) as Hcur.
  { unfold wire_ds, scb_total_of. by destruct (fr_has_scb f). }
  assert ((if fr_has_scb f then osdp_scb_mac_len (ds_type (wire_ds f)) else 0) = mac_needed f) as Htag.
  { unfold wire_ds, mac_needed. by destruct (fr_has_scb f). }
  assert (length (header_bytes f total ++ scb_bytes f) = 5 + scb_total_of f) as Hl1.
  { rewrite length_app, Hlen. done. }
  rewrite Hcur, Htag. rewrite decide_False by lia.
  rewrite wire_header, app_assoc, (rd_prefix _ _ _ 0) by lia.
  rewrite lookup_app_l by (simpl; lia). cbn [lookup list_lookup mbind option_bind].
  rewrite decide_False by lia.
  assert (∀ a b c d : list Z, a ++ [fr_code f] ++ b ++ c ++ d = (a ++ [fr_code f]) ++ b ++ c ++ d)
    as Hassoc by (intros; by rewrite <-!app_assoc).
  unfold wire_db. rewrite Hint.
  destruct (decide (0 < mac_needed f)) as [Hm|Hm].
  - rewrite decide_False by lia.
    rewrite Hassoc, app_assoc.
    rewrite (sub_ptr_app _ mac _ _ (mac_needed f)) by (rewrite ?length_app, ?Hlen; simpl; lia).
    cbn [mbind option_bind]. rewrite <-app_assoc.
    rewrite (sub_ptr_app _ pay) by (rewrite ?length_app, ?Hlen; simpl; lia).
    cbn [mbind option_bind]. do 4 f_equal. lia.
  - assert (mac = []) as -> by (apply nil_length_inv; lia).
    rewrite Hassoc.
    rewrite (sub_ptr_app _ pay) by (rewrite ?length_app, ?Hlen; simpl; lia).
    cbn [mbind option_bind]. do 3 f_equal; unfold slice_ptr; simpl; lia || f_equal; lia.
Qed.

Lemma check_integrity_wire :
  check_integrity (Ptr m) use_crc (total - integrity_size f) = Some OSDP_OK.
Proof.
  pose proof (length_frame_body f Ht Hb) as Hbl. pose proof (frame_body_bytes f Ht Hb) as Hby.
  unfold check_integrity. replace (total - integrity_size f) with (length (frame_body f))
    by lia.
  unfold frame_wire. rewrite <-app_assoc.
  assert (take (length (frame_body f)) (frame_body f ++ trailer f (frame_body f) ++ extra) =
    frame_body f) as Htk by apply take_app_length.
  unfold uses_crc, trailer in *. case_bool_decide as Hi.
  - rewrite osdp_crc16_bytes by (rewrite ?Htk; solve_len || done). rewrite Htk.
    rewrite decide_True by done. cbn [le_split app mbind option_bind].
    rewrite (rd_prefix _ _ (length (frame_body f)) 0), (rd_prefix _ _ _ 1) by lia.
    cbn [lookup list_lookup mbind option_bind]. rewrite le16, u16_id by (rewrite u16_id; apply crc_bytes_u16).
    rewrite u16_id by apply crc_bytes_u16. by rewrite decide_False by naive_solver.
  - rewrite osdp_checksum_bytes by (rewrite ?Htk; solve_len || done). rewrite Htk.
    rewrite decide_False by done. cbn [app mbind option_bind].
    rewrite rd_app by done. cbn [mbind option_bind]. by rewrite decide_False by naive_solver.
Qed.
End decode_wire.

Lemma uses_crc_integrity f :
  buildable f →
  (if uses_crc f then OSDP_INTEGRITY_CRC else OSDP_INTEGRITY_CHECKSUM) = fr_integrity f.
Proof.
  intros Hb. unfold uses_crc. case_bool_decide; [done|].
  by destruct (bd_integrity f Hb).
Qed.

(** The decoder's stages put together are [decoded_of]. *)
Lemma wire_content f o buf :
  frame_typed f → buildable f →
  set_content (set_identity o buf (Ptr (frame_wire f)) (frame_total f) (wire_dh f))
    (wire_dh f) (wire_ds f) (wire_db f) = decoded_of f.
Proof.
  intros Ht Hb. rewrite <-(length_frame_wire f Ht Hb).
  destruct (addr_byte_facts (fr_reply f) (fr_address f)) as (_ & Ha & Hr); [apply Ht|apply Hb|].
  destruct (ctrl_byte_of_facts f Ht Hb) as (_ & _ & Hq & _).
  unfold set_content, set_identity, decoded_of, wire_dh, wire_ds. simpl.
  unfold addr_byte_of. rewrite Ha, Hr, Hq.
  rewrite uses_crc_integrity by done.
  by destruct (fr_has_scb f).
Qed.

Lemma osdp_frame_decode_wire_prefix f extra o :
  frame_typed f → buildable f →
  osdp_frame_decode (Ptr (frame_wire f ++ extra)) (length (frame_wire f)) (Some o) =
    Some (OSDP_OK, Some (decoded_of f)).
Proof.
  intros Ht Hb. rewrite length_frame_wire by done.
  unfold osdp_frame_decode, decode_parts. cbn [is_null].
  rewrite decode_header_wire by done. cbn [and_then].
  rewrite decode_scb_wire by done. cbn [and_then].
  rewrite decode_body_wire by done. cbn [and_then mbind option_bind].
  rewrite <-length_frame_wire at 1 by done. cbn [rd_slice].
  rewrite mslice_Some, drop_0, take_app_length by solve_len. cbn [fmap option_fmap option_map mbind option_bind].
  rewrite check_integrity_wire by done. cbn [mbind option_bind].
  rewrite decide_True by done. do 3 f_equal. by apply wire_content.
Qed.

(** ** The decoder never leaves the buffer, and what it accepts is canonical *)

(** The statuses a structurally bad frame can give. *)
Definition structural_error (s : osdp_status) : bool :=
  match s with
  | OSDP_ERR_TRUNCATED | OSDP_ERR_BAD_SOM | OSDP_ERR_BAD_LENGTH | OSDP_ERR_BAD_CTRL
  | OSDP_ERR_BAD_PAYLOAD => true
  | _ => false
  end.

Lemma decode_header_cases m len :
  bytes_ok m → len ≤ length m →
  (∃ s, decode_header (Ptr m) len = fail s ∧ structural_error s = true) ∨
  (∃ a c, decode_header (Ptr m) len =
       go (mk_dh a c (bool_decide (Z.land c OSDP_CTRL_USE_CRC ≠ 0%Z))
             (bool_decide (Z.land c OSDP_CTRL_SCB ≠ 0%Z))) ∧
     is_byte a ∧ is_byte c ∧ Z.land c OSDP_CTRL_RESERVED = 0%Z ∧ 7 ≤ len ≤ 1440 ∧
     sl m 0 5 = [OSDP_SOM; a] ++ le_split 2 (Z.of_nat len) ++ [c]).
Proof.
  intros Hm Hl. unfold decode_header.
  unfold OSDP_FRAME_MIN_LEN_CKSUM, OSDP_FRAME_MIN_LEN_CRC, OSDP_FRAME_MAX_LEN.
  case_decide; [left; by eauto|].
  destruct (rd_byte m 0) as (b0 & -> & Hr0 & ?); [done|lia|].
  destruct (rd_byte m 1) as (a & -> & Hr1 & ?); [done|lia|].
  destruct (rd_byte m 2) as (b2 & -> & Hr2 & ?); [done|lia|].
  destruct (rd_byte m 3) as (b3 & -> & Hr3 & ?); [done|lia|].
  destruct (rd_byte m 4) as (c & -> & Hr4 & ?); [done|lia|].
  cbn [mbind option_bind]. cbv zeta.
  destruct (le16_join b2 b3) as [Hsplit Hu]; [done..|]. rewrite u16_id by done.
  generalize (if bool_decide (Z.land c OSDP_CTRL_USE_CRC ≠ 0%Z) then 8 else 7). intros mr.
  repeat (case_decide; [left; by eauto|]).
  right. exists a, c. split_and!; try (done || lia).
  assert (Z.lor b2 (Z.shiftl b3 8) = Z.of_nat len) as <- by (apply dec_stable; tauto).
  rewrite Hsplit. assert (b0 = OSDP_SOM) as <- by (apply dec_stable; tauto).
  change 5 with (1 + (1 + (1 + (1 + 1)))).
  rewrite <-!sl_app. simpl. by rewrite (sl_one m 0 b0), (sl_one m 1 a), (sl_one m 2 b2), (sl_one m 3 b3), (sl_one m 4 c).
Qed.

Lemma decode_scb_cases m len h :
  bytes_ok m → 7 ≤ len → len ≤ length m →
  (∃ s, decode_scb (Ptr m) len h = fail s ∧ structural_error s = true) ∨
  (∃ n l ty, decode_scb (Ptr m) len h =
       go (mk_ds (5 + n) l ty (slice_ptr (sl m 7 (n - 2))) (n - 2)) ∧
     5 + n ≤ len ∧ is_byte l ∧ is_byte ty ∧
     if dh_has_scb h
     then 2 ≤ n ∧ n = Z.to_nat l ∧ sl m 5 n = l :: ty :: sl m 7 (n - 2)
     else n = 0 ∧ l = 0%Z ∧ ty = 0%Z).
Proof.
  intros Hm H7 Hl. unfold decode_scb, OSDP_FRAME_HEADER_LEN, OSDP_SCB_MIN_LEN.
  destruct (dh_has_scb h).
  2:{ right. exists 0, 0%Z, 0%Z. unfold is_byte. split_and!; done || lia. }
  cbn [Nat.add]. case_decide; [left; by eauto|].
  destruct (rd_byte m 5) as (l & -> & Hr5 & ?); [done|lia|].
  destruct (rd_byte m 6) as (ty & -> & Hr6 & ?); [done|lia|]. cbn [mbind option_bind].
  do 2 (case_decide; [left; by eauto|]).
  right. exists (Z.to_nat l), l, ty.
  rewrite sub_ptr_Ptr by lia. cbn [mbind option_bind].
  split_and!; try (done || lia).
  replace (Z.to_nat l) with (1 + (1 + (Z.to_nat l - 2))) at 1 by lia.
  rewrite <-!sl_app. cbn [Nat.add]. by rewrite (sl_one m 5 l), (sl_one m 6 ty).
Qed.

Lemma decode_body_cases m len h sc :
  bytes_ok m → len ≤ length m → 
  (∃ s, decode_body (Ptr m) len h sc = fail s ∧ structural_error s = true) ∨
  (∃ code n tag,
     let k := ds_cursor sc in
     decode_body (Ptr m) len h sc =
       go (mk_db code (slice_ptr (sl m (k + 1) n)) n (slice_ptr (sl m (k + 1 + n) tag)) tag
             (k + 1 + n + tag)) ∧
     is_byte code ∧ sl m k 1 = [code] ∧
     tag = (if dh_has_scb h then osdp_scb_mac_len (ds_type sc) else 0) ∧
     len = k + 1 + n + tag + integrity_size_of (dh_use_crc h)).
Proof.
  intros Hm Hl. unfold decode_body. set (isz := integrity_size_of _).
  set (tag := if dh_has_scb h then _ else _). set (k := ds_cursor sc).
  case_decide; [left; by eauto|].
  destruct (rd_byte m k) as (code & -> & Hc & ?); [done|lia|]. cbn [mbind option_bind].
  case_decide; [left; by eauto|].
  case_decide as Ht; [case_decide; [left; by eauto|]|].
  - right. exists code, (len - isz - (k + 1) - tag), tag.
    rewrite !sub_ptr_Ptr by lia. cbn [mbind option_bind]. fold (sl m (k + 1) (len - isz - (k + 1) - tag)).
    replace (k + 1 + (len - isz - (k + 1) - tag)) with (len - isz - tag) by lia.
    replace (len - isz - tag + tag) with (len - isz) by lia.
    split_and!; [done|done|by apply sl_one|done|lia].
  - right. exists code, (len - isz - (k + 1)), 0.
    rewrite !sub_ptr_Ptr by lia. cbn [mbind option_bind].
    replace (k + 1 + (len - isz - (k + 1)) + 0) with (len - isz) by lia.
    split_and!; [done|done|by apply sl_one|lia|lia].
Qed.

Lemma check_integrity_cases m (crc : bool) n :
  bytes_ok m → n + integrity_size_of crc ≤ length m →
  let t := if crc then le_split 2 (crc_bytes (take n m)) else [checksum_bytes (take n m)] in
  check_integrity (Ptr m) crc n =
    Some (if decide (sl m n (integrity_size_of crc) = t) then OSDP_OK
          else if crc then OSDP_ERR_BAD_CRC else OSDP_ERR_BAD_CHECKSUM).
Proof.
  intros Hm Hl. unfold check_integrity, integrity_size_of in *. cbv zeta.
  assert (bytes_ok (take n m)) by by apply Forall_take.
  destruct crc.
  - rewrite osdp_crc16_bytes by (done || lia). cbn [mbind option_bind].
    destruct (rd_byte m n) as (lo & -> & Hr0 & ?); [done|lia|].
    destruct (rd_byte m (n + 1)) as (hi & -> & Hr1 & ?); [done|lia|]. cbn [mbind option_bind].
    destruct (le16_join lo hi) as [Hs Hu]; [done..|]. rewrite u16_id by done.
    assert (sl m n 2 = [lo; hi]) as ->.
    { change 2 with (1 + 1). rewrite <-(sl_app m n 1 1).
      by rewrite (sl_one m n lo), (sl_one m (n + 1) hi). }
    rewrite <-Hs. f_equal.
    case_decide as Hd; case_decide as He; try done.
    + exfalso. apply Hd, le_split_u16_inj; [done|apply crc_bytes_u16|done].
    + exfalso. apply He. by rewrite Hd.
  - rewrite osdp_checksum_bytes by (done || lia). cbn [mbind option_bind].
    destruct (rd_byte m n) as (b & -> & Hr0 & ?); [done|lia|]. cbn [mbind option_bind].
    rewrite (sl_one m n b) by done. f_equal.
    case_decide as Hd; case_decide as He; try done; exfalso; [congruence|].
    apply He. by rewrite Hd.
Qed.

(** The frame a successful decode hands out is well-formed, and its wire image
    is exactly the input. *)
Definition canonical (F : osdp_frame) (w : list Z) : Prop :=
  frame_typed F ∧ buildable F ∧ frame_wire F = w ∧ F = decoded_of F.

(** Assembling the stages: header, SCB, body. *)
Lemma decoded_canonical m len o a c n l ty code pl tag :
  let h := mk_dh a c (bool_decide (Z.land c OSDP_CTRL_USE_CRC ≠ 0%Z))
             (bool_decide (Z.land c OSDP_CTRL_SCB ≠ 0%Z)) in
  let isz := integrity_size_of (dh_use_crc h) in
  let sc := mk_ds (5 + n) l ty (slice_ptr (sl m 7 (n - 2))) (n - 2) in
  let b := mk_db code (slice_ptr (sl m (6 + n) pl)) pl (slice_ptr (sl m (6 + n + pl) tag)) tag
             (6 + n + pl + tag) in
  let F := set_content (set_identity o (Ptr m) (Ptr (take len m)) len h) h sc b in
  bytes_ok m → len ≤ length m → 7 ≤ len ≤ 1440 →
  is_byte a → is_byte c → Z.land c OSDP_CTRL_RESERVED = 0%Z →
  sl m 0 5 = [OSDP_SOM; a] ++ le_split 2 (Z.of_nat len) ++ [c] →
  is_byte l → is_byte ty →
  (if dh_has_scb h then 2 ≤ n ∧ n = Z.to_nat l ∧ sl m 5 n = l :: ty :: sl m 7 (n - 2)
   else n = 0 ∧ l = 0%Z ∧ ty = 0%Z) →
  is_byte code → sl m (5 + n) 1 = [code] →
  tag = (if dh_has_scb h then osdp_scb_mac_len ty else 0) →
  len = 6 + n + pl + tag + isz →
  frame_typed F ∧ buildable F ∧ frame_total F = len ∧
  frame_body F = take (6 + n + pl + tag) m ∧ integrity_size F = isz ∧
  uses_crc F = dh_use_crc h ∧
  (fr_has_scb F = false → fr_scb_length F = 0%Z ∧ fr_scb_type F = 0%Z ∧
     fr_scb_data F = NULL ∧ fr_scb_data_len F = 0).
Proof.
  intros h isz sc b F Hm Hl Hlen Ha Hc Hres H5 Hlb Htyb Hscb Hcode H1 Htag Htot.
  destruct (addr_byte_rebuild a Ha) as (Hra & Ha7 & Hab).
  destruct (ctrl_byte_rebuild c Hc Hres) as (Hrc & Hc3 & Hcb).
  assert (7 + (n - 2) ≤ length m) as H7n by (destruct (dh_has_scb h); lia).
  assert (F.(fr_integrity) = OSDP_INTEGRITY_CRC ↔ dh_use_crc h = true) as Hint.
  { unfold F. simpl. by destruct (bool_decide (Z.land c OSDP_CTRL_USE_CRC ≠ 0%Z)). }
  assert (integrity_size F = isz) as Hisz.
  { unfold integrity_size, isz, integrity_size_of. destruct (dh_use_crc h).
    - by rewrite decide_True by tauto.
    - rewrite decide_False; [done|]. intros Hx. by apply Hint in Hx. }
  assert (scb_total_of F = n) as Hst.
  { unfold scb_total_of. change (fr_has_scb F) with (dh_has_scb h).
    change (fr_scb_length F) with l. destruct (dh_has_scb h); [by destruct Hscb as (_ & -> & _)|].
    by destruct Hscb as [-> _]. }
  assert (mac_needed F = tag) as Hmn by done.
  assert (frame_total F = len) as Hft.
  { unfold frame_total. rewrite Hst, Hmn, Hisz. change (fr_payload_len F) with pl.
    unfold OSDP_FRAME_HEADER_LEN. lia. }
  assert (uses_crc F = dh_use_crc h) as Huc.
  { unfold uses_crc. rewrite (bool_decide_ext _ _ Hint).
    by destruct (dh_use_crc h). }
  split_and!; try done.
  - constructor; try done; apply sl_region; try done; simpl; lia.
  - constructor; try done.
    + unfold F. simpl. destruct (bool_decide (Z.land c OSDP_CTRL_USE_CRC ≠ 0%Z)); auto.
    + intros Hs. change (fr_has_scb F) with (dh_has_scb h) in Hs. rewrite Hs in Hscb.
      destruct Hscb as (? & -> & _). split_and!; [done|done|]. by apply sl_notnull.
    + apply (sl_notnull m (6 + n) pl). lia.
    + rewrite Hmn. apply (sl_notnull m (6 + n + pl) tag). lia.
    + unfold OSDP_FRAME_MAX_LEN. lia.
  - unfold frame_body. rewrite Hft, Hmn. change (fr_payload_len F) with pl.
    change (fr_payload F) with (slice_ptr (sl m (6 + n) pl)).
    change (fr_mac F) with (slice_ptr (sl m (6 + n + pl) tag)).
    change (fr_code F) with code. rewrite !sl_view by lia.
    assert (header_bytes F len = sl m 0 5) as ->.
    { rewrite H5. unfold header_bytes, addr_byte_of, ctrl_byte_of.
      change (fr_address F) with (Z.land a OSDP_ADDR_MASK).
      change (fr_reply F) with (bool_decide (Z.land a OSDP_REPLY_FLAG ≠ 0%Z)).
      change (fr_sequence F) with (Z.land c OSDP_CTRL_SQN_MASK).
      rewrite decide_bool_decide. fold (uses_crc F). rewrite Huc.
      change (fr_has_scb F) with (dh_has_scb h).
      unfold h. cbn [dh_use_crc dh_has_scb]. by rewrite Hra, Hrc. }
    assert (scb_bytes F = sl m 5 n) as ->.
    { unfold scb_bytes. change (fr_has_scb F) with (dh_has_scb h). destruct (dh_has_scb h).
      - destruct Hscb as (_ & _ & ->).
        change (view (fr_scb_data F) (fr_scb_data_len F)) with
          (view (slice_ptr (sl m 7 (n - 2))) (n - 2)). by rewrite sl_view.
      - by destruct Hscb as (-> & _). }
    rewrite <-H1. rewrite (sl_app m (6 + n) pl tag).
    replace (6 + n) with (5 + n + 1) at 1 by lia. rewrite (sl_app m (5 + n) 1).
    rewrite (sl_app m 5 n). rewrite (sl_app m 0 5). unfold sl. rewrite drop_0. f_equal. lia.
  - intros Hs. change (fr_has_scb F) with (dh_has_scb h) in Hs. rewrite Hs in Hscb.
    destruct Hscb as (-> & -> & ->). done.
Qed.

(** A decoded frame is a fixed point of [decoded_of]. *)
Lemma decoded_of_fix F :
  fr_mac_len F = mac_needed F →
  fr_raw F = Ptr (frame_wire F) → fr_raw_len F = length (frame_wire F) →
  (fr_has_scb F = false → fr_scb_length F = 0%Z ∧ fr_scb_type F = 0%Z ∧
     fr_scb_data F = NULL ∧ fr_scb_data_len F = 0) →
  slice_ptr (view (fr_scb_data F) (fr_scb_data_len F)) = fr_scb_data F →
  slice_ptr (view (fr_payload F) (fr_payload_len F)) = fr_payload F →
  slice_ptr (view (fr_mac F) (mac_needed F)) = fr_mac F →
  F = decoded_of F.
Proof.
  intros Hml Hr Hrl Hno Hs Hp Hm. unfold decoded_of. rewrite Hs, Hp, Hm, <-Hr, <-Hrl, <-Hml.
  destruct F, fr_has_scb0; simpl in *; [done|]. by destruct Hno as (-> & -> & -> & ->).
Qed.

(** Every outcome of the decoder on a readable buffer: a structural error that
    writes nothing, a failed check that writes the identity fields only, or a
    well-formed frame whose wire image is the input. *)
Lemma osdp_frame_decode_cases m len o :
  bytes_ok m → len ≤ length m →
  (∃ s, osdp_frame_decode (Ptr m) len (Some o) = Some (s, Some o) ∧ structural_error s = true) ∨
  (∃ F, osdp_frame_decode (Ptr m) len (Some o) =
      Some (if uses_crc F then OSDP_ERR_BAD_CRC else OSDP_ERR_BAD_CHECKSUM,
            Some (mk_frame (fr_address F) (fr_reply F) (fr_sequence F) (fr_integrity F)
              (fr_has_scb o) (fr_scb_length o) (fr_scb_type o) (fr_scb_data o)
              (fr_scb_data_len o) (fr_code o) (fr_payload o) (fr_payload_len o)
              (fr_mac o) (fr_mac_len o) (Ptr (take len m)) len)) ∧
    frame_typed F ∧ buildable F ∧ frame_total F = len ∧
    frame_body F = take (len - integrity_size F) m ∧ frame_wire F ≠ take len m) ∨
  (∃ F, osdp_frame_decode (Ptr m) len (Some o) = Some (OSDP_OK, Some F) ∧
    canonical F (take len m)).
Proof.
  intros Hm Hl. unfold osdp_frame_decode, decode_parts. cbn [is_null].
  destruct (decode_header_cases m len Hm Hl) as [(s & -> & Hs)|(a & c & -> & Ha & Hc & Hr & H7 & H5)];
    [left; by eauto|]. cbn [and_then]. set (h := mk_dh a c _ _).
  destruct (decode_scb_cases m len h Hm ltac:(lia) Hl)
    as [(s & -> & Hs)|(n & l & ty & -> & Hn & Hlb & Htyb & Hscb)]; [left; by eauto|].
  cbn [and_then]. set (sc := mk_ds _ _ _ _ _).
  destruct (decode_body_cases m len h sc Hm Hl)
    as [(s & -> & Hs)|(code & pl & tag & Heq & Hcode & H1 & Htag & Htot)]; [left; by eauto|].
  rewrite Heq. cbn [and_then mbind option_bind rd_slice].
  rewrite mslice_Some, drop_0 by lia. cbn [fmap option_fmap option_map mbind option_bind].
  change (ds_cursor sc) with (5 + n) in *. replace (5 + n + 1) with (6 + n) in * by lia.
  change (ds_type sc) with ty in *. cbn [db_payload_end].
  destruct (decoded_canonical m len o a c n l ty code pl tag) as
    (Ht & Hb & Hft & Hbody & Hisz & Huc & Hno); try done.
  fold h in Ht, Hb, Hft, Hbody, Hisz, Huc, Hno. fold sc in Ht, Hb, Hft, Hbody, Hisz, Huc, Hno.
  set (b := mk_db _ _ _ _ _ _) in *.
  set (F := set_content _ h sc b) in *. 
  rewrite check_integrity_cases by (done || lia). cbn [mbind option_bind].
  assert (frame_wire F = take len m ↔
    sl m (6 + n + pl + tag) (integrity_size_of (dh_use_crc h)) =
    (if dh_use_crc h then le_split 2 (crc_bytes (take (6 + n + pl + tag) m))
     else [checksum_bytes (take (6 + n + pl + tag) m)])) as Hiff.
  { unfold frame_wire, trailer. rewrite decide_bool_decide. fold (uses_crc F).
    rewrite Hbody, Huc. 
    replace (take len m) with (take (6 + n + pl + tag) m ++
      sl m (6 + n + pl + tag) (integrity_size_of (dh_use_crc h))).
    2:{ pose proof (sl_app m 0 (6 + n + pl + tag) (integrity_size_of (dh_use_crc h))) as Hsl.
        unfold sl at 1 3 in Hsl. rewrite drop_0 in Hsl. cbn [Nat.add] in *. rewrite Hsl. f_equal. lia. }
    split; [intros H; by apply app_inv_head in H|by intros ->]. }
  match goal with |- context [decide (sl ?x ?y ?z = ?t)] =>
    destruct (decide (sl x y z = t)) as [Hd|Hd] end.
  - right; right. exists F. split; [done|].
    apply Hiff in Hd. split_and!; try done.
    apply decoded_of_fix; [done|by rewrite Hd|by rewrite Hd, length_take_le|..].
    + intros Hs. by apply Hno.
    + assert (7 + (n - 2) ≤ length m) as H7n by (destruct (dh_has_scb h); lia).
      exact (f_equal slice_ptr (sl_view m 7 (n - 2) H7n)).
    + assert (6 + n + pl ≤ length m) as Hpl by lia.
      exact (f_equal slice_ptr (sl_view m (6 + n) pl Hpl)).
    + assert (6 + n + pl + tag ≤ length m) as Htg by lia.
      assert (mac_needed F = tag) as -> by (symmetry; exact Htag).
      exact (f_equal slice_ptr (sl_view m (6 + n + pl) tag Htg)).
  - right; left. exists F. rewrite Huc.
    split; [|split_and!; try done].
    + case_decide as Hok; [exfalso; revert Hok|]; by destruct (dh_use_crc h).
    + rewrite Hbody. f_equal. rewrite Hisz. lia.
    + by rewrite Hiff.
Qed.

(** The canonical frame of a wire image is what the decoder answers. *)
Lemma osdp_frame_decode_canonical_ok m len o F :
  len ≤ length m → canonical F (take len m) →
  osdp_frame_decode (Ptr m) len (Some o) = Some (OSDP_OK, Some F).
Proof.
  intros Hl (Ht & Hb & Hw & HF).
  pose proof (osdp_frame_decode_wire_prefix F (drop len m) o Ht Hb) as Hd.
  rewrite Hw, take_drop, length_take_le in Hd by done. by rewrite Hd, <-HF.
Qed.

(** A readable buffer never makes the decoder leave it. *)
Lemma osdp_frame_decode_total m len o :
  bytes_ok m → len ≤ length m → is_Some (osdp_frame_decode (Ptr m) len (Some o)).
Proof.
  intros Hm Hl.
  destruct (osdp_frame_decode_cases m len o Hm Hl) as [(?&->&_)|[(?&->&_)|(?&->&_)]]; done.
Qed.

Lemma wire_ctrl_byte f : frame_wire f !! 4 = Some (ctrl_byte_of f).
Proof. done. Qed.

(** Two accepted wire images of the same length and check type cannot differ in
    exactly one byte. *)
Lemma wires_differ_more_than_one f g k b c :
  frame_typed f → buildable f → frame_typed g → buildable g → uses_crc f = uses_crc g →
  frame_wire f !! k = Some b → frame_wire g = <[k := c]> (frame_wire f) → b = c.
Proof.
  intros Hft Hfb Hgt Hgb Hcrc Hk Hg. destruct (decide (b = c)) as [|Hne]; [done|exfalso].
  assert (integrity_size f = integrity_size g) as Hi.
  { unfold integrity_size. rewrite !decide_bool_decide. fold (uses_crc f) (uses_crc g). by rewrite Hcrc. }
  assert (∀ h body, trailer h body = if uses_crc h then le_split 2 (crc_bytes body)
    else [checksum_bytes body]) as Htr.
  { intros. unfold trailer, uses_crc. by rewrite decide_bool_decide. }
  pose proof (length_frame_body f Hft Hfb). pose proof (length_frame_body g Hgt Hgb).
  assert (frame_total f = frame_total g) as Hl.
  { rewrite <-!length_frame_wire by done. rewrite Hg. by rewrite length_insert. }
  assert (is_byte c) as Hcb.
  { pose proof (frame_wire_bytes g Hgt Hgb) as Hgy. rewrite Hg in Hgy.
    eapply (Forall_lookup_1 _ _ k); [exact Hgy|]. apply list_lookup_insert_eq.
    by apply lookup_lt_Some in Hk. }
  pose proof (frame_wire_bytes f Hft Hfb) as Hfy.
  assert (is_byte b) as Hbb by (by eapply Forall_lookup_1).
  pose proof (frame_body_bytes f Hft Hfb) as Hby.
  unfold frame_wire in Hk, Hg.
  destruct (decide (k < length (frame_body f))) as [Hin|Hout].
  - rewrite insert_app_l in Hg by done. apply app_inj_1 in Hg as [Hb Ht]; [|rewrite length_insert; lia].
    rewrite lookup_app_l in Hk by done.
    assert (frame_body f = take k (frame_body f) ++ b :: drop (S k) (frame_body f)) as Hsp
      by (symmetry; by apply take_drop_middle).
    assert (frame_body g = take k (frame_body f) ++ c :: drop (S k) (frame_body f)) as Hsg
      by (rewrite Hb; by apply insert_take_drop).
    rewrite !Htr, <-Hcrc in Ht. rewrite Hsg in Ht.
    assert (bytes_ok (take k (frame_body f))) by by apply Forall_take.
    assert (bytes_ok (drop (S k) (frame_body f))) by by apply Forall_drop.
    destruct (uses_crc f).
    + apply (crc_detects_byte (take k (frame_body f)) b c (drop (S k) (frame_body f))); try done.
      rewrite <-Hsp. symmetry. by apply le_split_u16_inj; try apply crc_bytes_u16.
    + injection Ht as Ht.
      apply (checksum_detects_byte (take k (frame_body f)) b c (drop (S k) (frame_body f))); try done.
      by rewrite <-Hsp.
  - rewrite insert_app_r_alt in Hg by lia. apply app_inj_1 in Hg as [Hb Ht]; [|lia].
    rewrite lookup_app_r in Hk by lia.
    assert (trailer g (frame_body g) = trailer f (frame_body f)) as He
      by (rewrite !Htr, Hb, Hcrc; done).
    rewrite He in Ht.
    assert (trailer f (frame_body f) !! (k - length (frame_body f)) = Some c) as Hc2.
    { rewrite Ht. apply list_lookup_insert_eq. by apply lookup_lt_Some in Hk. }
    naive_solver.
Qed.

(** The message around its payload. *)
Definition wire_head (f : osdp_frame) : list Z :=
  OSDP_FRAME_MARK :: header_bytes f (frame_total f) ++ scb_bytes f ++ [fr_code f].

Lemma wire_split f r :
  OSDP_FRAME_MARK :: frame_wire f ++ r =
  wire_head f ++ view (fr_payload f) (fr_payload_len f) ++
    (view (fr_mac f) (mac_needed f) ++ trailer f (frame_body f) ++ r).
Proof.
  unfold frame_wire, wire_head. unfold frame_body at 1.
  rewrite <-!app_assoc. cbn [app]. f_equal. by rewrite <-!app_assoc.
Qed.

Lemma length_wire_head f :
  frame_typed f → buildable f → length (wire_head f) = 7 + scb_total_of f.
Proof.
  intros. unfold wire_head. cbn [length]. rewrite !length_app, length_scb_bytes by done.
  simpl. lia.
Qed.

(** A command template with an SCS_17 block, used by the examples. *)
Definition ex_frame : osdp_frame :=
  mk_frame 0x25 false 2 OSDP_INTEGRITY_CRC true 2 OSDP_SCS_17 NULL 0 0x6A
    (Ptr [1; 2; 3; 4; 5]%Z) 5 (Ptr [0xAA; 0xBB; 0xCC; 0xDD]%Z) 4 NULL 0.

#[export] Instance frame_typed_dec f : Decision (frame_typed f).
Proof.
  refine (cast_if (decide (is_byte (fr_address f) ∧ is_byte (fr_sequence f) ∧
    is_byte (fr_scb_length f) ∧ is_byte (fr_scb_type f) ∧ is_byte (fr_code f) ∧
    region_ok (fr_scb_data f) (fr_scb_data_len f) ∧ region_ok (fr_payload f) (fr_payload_len f) ∧
    region_ok (fr_mac f) (fr_mac_len f))));
  abstract (try (intros []; tauto); destruct_and!; by constructor).
Defined.

#[export] Instance buildable_dec f : Decision (buildable f).
Proof.
  refine (cast_if (decide ((fr_address f ≤ 0x7F)%Z ∧ (fr_sequence f ≤ 3)%Z ∧
    (fr_integrity f = OSDP_INTEGRITY_CHECKSUM ∨ fr_integrity f = OSDP_INTEGRITY_CRC) ∧
    (fr_has_scb f = true → 2 ≤ Z.to_nat (fr_scb_length f) ∧
       fr_scb_data_len f = Z.to_nat (fr_scb_length f) - 2 ∧
       (0 < fr_scb_data_len f → fr_scb_data f ≠ NULL)) ∧
    (0 < fr_payload_len f → fr_payload f ≠ NULL) ∧ fr_mac_len f = mac_needed f ∧
    (0 < mac_needed f → fr_mac f ≠ NULL) ∧ frame_total f ≤ OSDP_FRAME_MAX_LEN)));
  abstract (try (intros []; tauto); destruct_and!; by constructor).
Defined.

(** ** Properties *)

(** C14: Round trip.  What [osdp_frame_build] writes for any well-formed
    template, the decoder reads back as that template, field for field. *)
Theorem frame_build_decode f m cap w o :
  frame_typed f → buildable f → S (frame_total f) ≤ cap → cap ≤ length m →
  ∃ m' n, osdp_frame_build (Some f) (Ptr m) cap (Some w) = Some (OSDP_OK, Ptr m', Some n) ∧
    n = S (frame_total f) ∧ length m' = length m ∧
    osdp_frame_decode (Ptr (drop 1 m')) (n - 1) (Some o) = Some (OSDP_OK, Some (decoded_of f)).
Proof.
  intros Ht Hb Hcap Hm. pose proof (length_frame_wire f Ht Hb) as Hl.
  eexists _, _. split_and!; [by apply osdp_frame_build_ok|done| |].
  - cbn [length]. rewrite length_app, length_drop. lia.
  - cbn [drop]. rewrite drop_0, Nat.sub_succ, Nat.sub_0_r, <-Hl.
    by apply osdp_frame_decode_wire_prefix.
Qed.

(** C15: The decoder accepts exactly the wire images of well-formed frames.  On
    any readable input the call is defined; it reports [OSDP_OK] if and only if
    the input is the wire image of some well-formed frame [f], and the frame it
    hands out is then [f] as decoded.  Rebuilding that frame gives the input back
    byte for byte, so no two inputs decode alike. *)
Theorem frame_decode_canonical m len o :
  bytes_ok m → len ≤ length m →
  ∃ s F, osdp_frame_decode (Ptr m) len (Some o) = Some (s, Some F) ∧
    (s = OSDP_OK ↔ ∃ f, frame_typed f ∧ buildable f ∧ frame_wire f = take len m) ∧
    (∀ f, frame_typed f → buildable f → frame_wire f = take len m → F = decoded_of f) ∧
    (s = OSDP_OK →
     frame_typed F ∧ buildable F ∧
     ∀ out cap w, S len ≤ cap → cap ≤ length out →
       osdp_frame_build (Some F) (Ptr out) cap (Some w) =
         Some (OSDP_OK, Ptr (OSDP_FRAME_MARK :: take len m ++ drop (S len) out), Some (S len))).
Proof.
  intros Hm Hl.
  assert (∀ s F, osdp_frame_decode (Ptr m) len (Some o) = Some (s, Some F) →
    ∀ f, frame_typed f → buildable f → frame_wire f = take len m → s = OSDP_OK ∧ F = decoded_of f) as Hacc.
  { intros s F Hd f Ht Hb Hw. pose proof (osdp_frame_decode_wire_prefix f (drop len m) o Ht Hb) as Hd'.
    rewrite Hw, take_drop, length_take_le in Hd' by done. rewrite Hd in Hd'. by simplify_eq. }
  destruct (osdp_frame_decode_cases m len o Hm Hl)
    as [(s & E & Hs)|[(F & E & _)|(F & E & Ht & Hb & Hw & _)]]; rewrite E; eexists _, _;
    (split; [done|]); specialize (Hacc _ _ E).
  - split_and!; [split; [by intros ->|]|by intros; apply Hacc|by intros ->].
    intros (f & ? & ? & ?). by apply (Hacc f).
  - split_and!; [split; [by destruct (uses_crc F)|]|by intros; apply Hacc|by destruct (uses_crc F)].
    intros (f & ? & ? & ?). by apply (Hacc f).
  - split_and!; [split; [intros _; by exists F|done]|by intros; apply Hacc|intros _].
    split_and!; [done|done|]. intros out cap w Hcap Hout.
    assert (frame_total F = len) as <-.
    { rewrite <-length_frame_wire by done. rewrite Hw. by apply length_take_le. }
    rewrite <-Hw. by apply osdp_frame_build_ok.
Qed.

(** C22: Corruption.  One byte of a wire image changed anywhere is never
    accepted, the CTRL byte included as long as its check-type bit, which selects
    the check, is kept. *)
Theorem frame_decode_rejects_corruption f k b o :
  frame_typed f → buildable f → k < frame_total f → is_byte b →
  (k = 4 → Z.land b OSDP_CTRL_USE_CRC = Z.land (ctrl_byte_of f) OSDP_CTRL_USE_CRC) →
  frame_wire f !! k ≠ Some b →
  ∃ s F, osdp_frame_decode (Ptr (<[k := b]> (frame_wire f))) (frame_total f) (Some o) =
    Some (s, Some F) ∧ s ≠ OSDP_OK.
Proof.
  intros Ht Hb Hk Hbyte H4 Hne. pose proof (length_frame_wire f Ht Hb) as Hl.
  set (w := <[k := b]> (frame_wire f)).
  assert (bytes_ok w) as Hw by (by apply Forall_insert; [apply frame_wire_bytes|]).
  assert (length w = frame_total f) as Hlw by (unfold w; by rewrite length_insert).
  destruct (osdp_frame_decode_cases w (frame_total f) o) as
    [(s & -> & Hs)|[(F & -> & _)|(F & -> & HtF & HbF & HwF & _)]]; [done|lia|..]; eexists _, _;
    (split; [done|]).
  - by intros ->.
  - by destruct (uses_crc F).
  - exfalso. rewrite <-Hlw, firstn_all in HwF.
    destruct (lookup_lt_is_Some_2 (frame_wire f) k) as [x Hx]; [lia|].
    assert (uses_crc f = uses_crc F) as Hu.
    { pose proof (wire_ctrl_byte F) as Hc. rewrite HwF in Hc. unfold w in Hc.
      destruct (ctrl_byte_of_facts f Ht Hb) as (_ & _ & _ & Hf & _).
      destruct (ctrl_byte_of_facts F HtF HbF) as (_ & _ & _ & HF & _).
      unfold uses_crc. rewrite <-Hf, <-HF. destruct (decide (k = 4)) as [->|Hn4].
      - rewrite list_lookup_insert_eq in Hc by lia. injection Hc as <-. by rewrite H4.
      - rewrite list_lookup_insert_ne, wire_ctrl_byte in Hc by done. injection Hc as Hc. by rewrite Hc. }
    apply Hne. rewrite Hx. f_equal. by eapply (wires_differ_more_than_one f F).
Qed.

(** C23: [osdp_frame_max_payload] is exact: for a template the builder would
    otherwise accept, a payload of [n > 0] bytes is built if and only if [n] is
    at most the reported maximum. *)
Theorem frame_max_payload_exact f m cap w w0 p n :
  frame_typed (with_payload f p n) → buildable (with_payload f NULL 0) →
  cap ≤ length m → 0 < n → p ≠ NULL →
  ∃ k, osdp_frame_max_payload (Some f) cap (Some w0) = (OSDP_OK, Some k) ∧
    ((∃ out, osdp_frame_build (Some (with_payload f p n)) (Ptr m) cap (Some w) =
        Some (OSDP_OK, out, Some (8 + scb_total_of f + n + mac_needed f + integrity_size f - 1))) ↔
     n ≤ k).
Proof.
  intros Ht Hb0 Hm Hn Hp. set (g := with_payload f p n) in *.
  pose proof (bd_total _ Hb0) as Htot0. unfold OSDP_FRAME_MAX_LEN in *.
  assert (frame_total (with_payload f NULL 0) = 6 + scb_total_of f + 0 + mac_needed f + integrity_size f)
    as E0 by (unfold frame_total, OSDP_FRAME_HEADER_LEN; simpl; unfold scb_total_of, mac_needed, integrity_size; simpl; lia).
  assert (frame_total g = 6 + scb_total_of f + n + mac_needed f + integrity_size f) as E1
    by (unfold frame_total, OSDP_FRAME_HEADER_LEN; simpl; unfold scb_total_of, mac_needed, integrity_size; simpl; lia).
  assert (frame_total g ≤ 1440 → buildable g) as Hbg.
  { intros. destruct Hb0. constructor; try done. }
  assert (osdp_frame_max_payload (Some f) cap (Some w0) =
    (OSDP_OK, Some ((cap - S (frame_total (with_payload f NULL 0))) `min`
                    (1440 - frame_total (with_payload f NULL 0))))) as ->.
  { unfold osdp_frame_max_payload, frame_overhead.
    change (frame_scb_total f) with (frame_scb_total (with_payload f NULL 0)).
    rewrite frame_scb_total_ok by done.
    change (scb_total_of (with_payload f NULL 0)) with (scb_total_of f).
    cbv zeta. unfold OSDP_FRAME_MARK_LEN, OSDP_FRAME_HEADER_LEN, OSDP_FRAME_MAX_LEN. rewrite E0.
    repeat case_decide; do 2 f_equal; lia. }
  eexists. split; [done|].
  destruct (osdp_frame_build_cases g m cap w Ht Hm) as [(Hb & Hc & ->)|[(Hb & Hc & ->)|(Hb & ->)]].
  - pose proof (bd_total _ Hb). unfold OSDP_FRAME_MAX_LEN in *. split; [lia|].
    intros _. eexists. do 3 f_equal. lia.
  - split; [intros [? ?]; done|]. lia.
  - split; [intros [? ?]; done|]. intros Hle. exfalso. apply Hb, Hbg. lia.
Qed.

(** Building in place.  A payload staged at [osdp_frame_payload_offset] in
    the output buffer itself gives the same message as the same payload copied
    from elsewhere, and lands at that offset. *)
Theorem frame_build_in_place_same f m cap w w0 :
  frame_typed f → buildable f → S (frame_total f) ≤ cap → cap ≤ length m →
  ∃ off, osdp_frame_payload_offset (Some f) (Some w0) = (OSDP_OK, Some off) ∧
    (view (fr_payload f) (fr_payload_len f) = take (fr_payload_len f) (drop off m) →
     osdp_frame_build_at (Some f) (Some off) (Ptr m) cap (Some w) =
     osdp_frame_build (Some f) (Ptr m) cap (Some w)) ∧
    (∀ m' n, osdp_frame_build (Some f) (Ptr m) cap (Some w) = Some (OSDP_OK, Ptr m', Some n) →
     take (fr_payload_len f) (drop off m') = view (fr_payload f) (fr_payload_len f)).
Proof.
  intros Ht Hb Hcap Hm. exists (7 + scb_total_of f). split_and!.
  - unfold osdp_frame_payload_offset. rewrite frame_scb_total_ok by done.
    unfold OSDP_FRAME_MARK_LEN, OSDP_FRAME_HEADER_LEN. do 2 f_equal. lia.
  - intros Hv. by apply osdp_frame_build_in_place.
  - intros m' n. rewrite osdp_frame_build_ok by done. intros Heq.
    assert (m' = OSDP_FRAME_MARK :: frame_wire f ++ drop (S (frame_total f)) m) as -> by congruence.
    rewrite wire_split. rewrite drop_app_length'; [|by rewrite length_wire_head].
    rewrite take_app_length'; [done|]. by rewrite length_payload_view.
Qed.

(** ** Witnesses *)

Lemma frame_build_decode_witness :
  ∃ m' n, osdp_frame_build (Some ex_frame) (Ptr (replicate 64 0%Z)) 64 (Some 0) =
      Some (OSDP_OK, Ptr m', Some n) ∧
    n = S (frame_total ex_frame) ∧ length m' = length (replicate 64 0%Z) ∧
    osdp_frame_decode (Ptr (drop 1 m')) (n - 1) (Some frame_zero) =
      Some (OSDP_OK, Some (decoded_of ex_frame)).
Proof. apply (frame_build_decode ex_frame); vm_decide. Defined.

Lemma frame_decode_canonical_witness :
  ∃ s F, osdp_frame_decode (Ptr (frame_wire ex_frame)) 19 (Some frame_zero) = Some (s, Some F) ∧
    s = OSDP_OK ∧ F = decoded_of ex_frame.
Proof.
  destruct (frame_decode_canonical (frame_wire ex_frame) 19 frame_zero) as (s & F & E & Hs & HF & _);
    [vm_decide..|].
  exists s, F. split; [done|]. split; [apply Hs; exists ex_frame|apply HF]; vm_decide.
Defined.

(** A payload byte, and the sequence number of the CTRL byte. *)
Lemma frame_decode_rejects_corruption_witness :
  (∃ s F, osdp_frame_decode (Ptr (<[9 := 0x77%Z]> (frame_wire ex_frame))) 19 (Some frame_zero) =
    Some (s, Some F) ∧ s ≠ OSDP_OK) ∧
  (∃ s F, osdp_frame_decode (Ptr (<[4 := Z.lxor (ctrl_byte_of ex_frame) 1]> (frame_wire ex_frame))) 19
    (Some frame_zero) = Some (s, Some F) ∧ s ≠ OSDP_OK).
Proof.
  split.
  - apply (frame_decode_rejects_corruption ex_frame 9 0x77%Z); vm_decide.
  - apply (frame_decode_rejects_corruption ex_frame 4); vm_decide.
Defined.

Lemma frame_max_payload_exact_witness :
  ∃ k, osdp_frame_max_payload (Some ex_frame) 32 (Some 0) = (OSDP_OK, Some k) ∧
    ((∃ out, osdp_frame_build (Some (with_payload ex_frame (Ptr [1; 2; 3]%Z) 3))
        (Ptr (replicate 32 0%Z)) 32 (Some 0) =
        Some (OSDP_OK, out, Some (8 + scb_total_of ex_frame + 3 + mac_needed ex_frame +
          integrity_size ex_frame - 1))) ↔ 3 ≤ k).
Proof. apply frame_max_payload_exact; vm_decide. Defined.

Lemma frame_build_in_place_same_witness :
  ∃ off, osdp_frame_payload_offset (Some ex_frame) (Some 0) = (OSDP_OK, Some off) ∧
    (view (fr_payload ex_frame) (fr_payload_len ex_frame) =
       take (fr_payload_len ex_frame) (drop off (replicate 9 0 ++ [1; 2; 3; 4; 5] ++ replicate 18 0)%Z) →
     osdp_frame_build_at (Some ex_frame) (Some off)
       (Ptr (replicate 9 0 ++ [1; 2; 3; 4; 5] ++ replicate 18 0)%Z) 32 (Some 0) =
     osdp_frame_build (Some ex_frame)
       (Ptr (replicate 9 0 ++ [1; 2; 3; 4; 5] ++ replicate 18 0)%Z) 32 (Some 0)) ∧
    (∀ m' n, osdp_frame_build (Some ex_frame)
        (Ptr (replicate 9 0 ++ [1; 2; 3; 4; 5] ++ replicate 18 0)%Z) 32 (Some 0) =
        Some (OSDP_OK, Ptr m', Some n) →
     take (fr_payload_len ex_frame) (drop off m') =
       view (fr_payload ex_frame) (fr_payload_len ex_frame)).
Proof. apply frame_build_in_place_same; vm_decide. Defined.

(** The wire image of the example, CRC included. *)
Example ex_frame_wire :
  frame_wire ex_frame = [0x53; 0x25; 0x13; 0x00; 0x0E; 0x02; 0x17; 0x6A; 1; 2; 3; 4; 5;
    0xAA; 0xBB; 0xCC; 0xDD; 0x49; 0x5A]%Z.
Proof. vm_compute. reflexivity. Qed.

(** The reference poll frame of the test suite. *)
Example poll_frame_decodes :
  option_map fst (osdp_frame_decode (Ptr [0x53; 0x00; 0x07; 0x00; 0x00; 0x60; 0x46]%Z) 7
    (Some frame_zero)) = Some OSDP_OK.
Proof. vm_compute. reflexivity. Qed.
