(* ===== verification/Dispatch.v ===== *)
(** * Message classification: osdp_dispatch.h and core/src/dispatch/dispatch_classify.c

    The code bytes of Annex A (osdp_commands.h, osdp_replies.h), the message
    kinds, the classifier and the names. *)
From S2P Require Import Prelude Types Frame.
From stdpp Require Import strings.

(** ** Code bytes *)

Definition OSDP_CMD_POLL : Z := 0x60.
Definition OSDP_CMD_ID : Z := 0x61.
Definition OSDP_CMD_CAP : Z := 0x62.
Definition OSDP_CMD_LSTAT : Z := 0x64.
Definition OSDP_CMD_ISTAT : Z := 0x65.
Definition OSDP_CMD_OSTAT : Z := 0x66.
Definition OSDP_CMD_RSTAT : Z := 0x67.
Definition OSDP_CMD_OUT : Z := 0x68.
Definition OSDP_CMD_LED : Z := 0x69.
Definition OSDP_CMD_BUZ : Z := 0x6A.
Definition OSDP_CMD_TEXT : Z := 0x6B.
Definition OSDP_CMD_COMSET : Z := 0x6E.
Definition OSDP_CMD_BIOREAD : Z := 0x73.
Definition OSDP_CMD_BIOMATCH : Z := 0x74.
Definition OSDP_CMD_KEYSET : Z := 0x75.
Definition OSDP_CMD_CHLNG : Z := 0x76.
Definition OSDP_CMD_SCRYPT : Z := 0x77.
Definition OSDP_CMD_ACURXSIZE : Z := 0x7B.
Definition OSDP_CMD_FILETRANSFER : Z := 0x7C.
Definition OSDP_CMD_MFG : Z := 0x80.
Definition OSDP_CMD_XWR : Z := 0xA1.
Definition OSDP_CMD_ABORT : Z := 0xA2.
Definition OSDP_CMD_PIVDATA : Z := 0xA3.
Definition OSDP_CMD_GENAUTH : Z := 0xA4.
Definition OSDP_CMD_CRAUTH : Z := 0xA5.
Definition OSDP_CMD_KEEPACTIVE : Z := 0xA7.
Definition OSDP_REPLY_ACK : Z := 0x40.
Definition OSDP_REPLY_NAK : Z := 0x41.
Definition OSDP_REPLY_PDID : Z := 0x45.
Definition OSDP_REPLY_PDCAP : Z := 0x46.
Definition OSDP_REPLY_LSTATR : Z := 0x48.
Definition OSDP_REPLY_ISTATR : Z := 0x49.
Definition OSDP_REPLY_OSTATR : Z := 0x4A.
Definition OSDP_REPLY_RSTATR : Z := 0x4B.
Definition OSDP_REPLY_RAW : Z := 0x50.
Definition OSDP_REPLY_FMT : Z := 0x51.
Definition OSDP_REPLY_KEYPAD : Z := 0x53.
Definition OSDP_REPLY_COM : Z := 0x54.
Definition OSDP_REPLY_BIOREADR : Z := 0x57.
Definition OSDP_REPLY_BIOMATCHR : Z := 0x58.
Definition OSDP_REPLY_CCRYPT : Z := 0x76.
Definition OSDP_REPLY_RMAC_I : Z := 0x78.
Definition OSDP_REPLY_BUSY : Z := 0x79.
Definition OSDP_REPLY_FTSTAT : Z := 0x7A.
Definition OSDP_REPLY_PIVDATAR : Z := 0x80.
Definition OSDP_REPLY_GENAUTHR : Z := 0x81.
Definition OSDP_REPLY_CRAUTHR : Z := 0x82.
Definition OSDP_REPLY_MFGSTATR : Z := 0x83.
Definition OSDP_REPLY_MFGERRR : Z := 0x84.
Definition OSDP_REPLY_MFGREP : Z := 0x90.
Definition OSDP_REPLY_XRD : Z := 0xB1.

Inductive osdp_message_kind : Type :=
  | OSDP_MSG_UNKNOWN_COMMAND
  | OSDP_MSG_UNKNOWN_REPLY
  | OSDP_MSG_CMD_POLL
  | OSDP_MSG_CMD_ID
  | OSDP_MSG_CMD_CAP
  | OSDP_MSG_CMD_LSTAT
  | OSDP_MSG_CMD_ISTAT
  | OSDP_MSG_CMD_OSTAT
  | OSDP_MSG_CMD_RSTAT
  | OSDP_MSG_CMD_OUT
  | OSDP_MSG_CMD_LED
  | OSDP_MSG_CMD_BUZ
  | OSDP_MSG_CMD_TEXT
  | OSDP_MSG_CMD_COMSET
  | OSDP_MSG_CMD_BIOREAD
  | OSDP_MSG_CMD_BIOMATCH
  | OSDP_MSG_CMD_KEYSET
  | OSDP_MSG_CMD_CHLNG
  | OSDP_MSG_CMD_SCRYPT
  | OSDP_MSG_CMD_ACURXSIZE
  | OSDP_MSG_CMD_FILETRANSFER
  | OSDP_MSG_CMD_MFG
  | OSDP_MSG_CMD_XWR
  | OSDP_MSG_CMD_ABORT
  | OSDP_MSG_CMD_PIVDATA
  | OSDP_MSG_CMD_GENAUTH
  | OSDP_MSG_CMD_CRAUTH
  | OSDP_MSG_CMD_KEEPACTIVE
  | OSDP_MSG_REPLY_ACK
  | OSDP_MSG_REPLY_NAK
  | OSDP_MSG_REPLY_PDID
  | OSDP_MSG_REPLY_PDCAP
  | OSDP_MSG_REPLY_LSTATR
  | OSDP_MSG_REPLY_ISTATR
  | OSDP_MSG_REPLY_OSTATR
  | OSDP_MSG_REPLY_RSTATR
  | OSDP_MSG_REPLY_RAW
  | OSDP_MSG_REPLY_FMT
  | OSDP_MSG_REPLY_KEYPAD
  | OSDP_MSG_REPLY_COM
  | OSDP_MSG_REPLY_BIOREADR
  | OSDP_MSG_REPLY_BIOMATCHR
  | OSDP_MSG_REPLY_CCRYPT
  | OSDP_MSG_REPLY_RMAC_I
  | OSDP_MSG_REPLY_BUSY
  | OSDP_MSG_REPLY_FTSTAT
  | OSDP_MSG_REPLY_PIVDATAR
  | OSDP_MSG_REPLY_GENAUTHR
  | OSDP_MSG_REPLY_CRAUTHR
  | OSDP_MSG_REPLY_MFGSTATR
  | OSDP_MSG_REPLY_MFGERRR
  | OSDP_MSG_REPLY_MFGREP
  | OSDP_MSG_REPLY_XRD.

#[export] Instance osdp_message_kind_eq_dec : EqDecision osdp_message_kind.
Proof. solve_decision. Defined.

(** ** The classifier *)

Definition classify_reply (code : Z) : osdp_message_kind :=
  if decide (code = OSDP_REPLY_ACK) then OSDP_MSG_REPLY_ACK else
  if decide (code = OSDP_REPLY_NAK) then OSDP_MSG_REPLY_NAK else
  if decide (code = OSDP_REPLY_PDID) then OSDP_MSG_REPLY_PDID else
  if decide (code = OSDP_REPLY_PDCAP) then OSDP_MSG_REPLY_PDCAP else
  if decide (code = OSDP_REPLY_LSTATR) then OSDP_MSG_REPLY_LSTATR else
  if decide (code = OSDP_REPLY_ISTATR) then OSDP_MSG_REPLY_ISTATR else
  if decide (code = OSDP_REPLY_OSTATR) then OSDP_MSG_REPLY_OSTATR else
  if decide (code = OSDP_REPLY_RSTATR) then OSDP_MSG_REPLY_RSTATR else
  if decide (code = OSDP_REPLY_RAW) then OSDP_MSG_REPLY_RAW else
  if decide (code = OSDP_REPLY_FMT) then OSDP_MSG_REPLY_FMT else
  if decide (code = OSDP_REPLY_KEYPAD) then OSDP_MSG_REPLY_KEYPAD else
  if decide (code = OSDP_REPLY_COM) then OSDP_MSG_REPLY_COM else
  if decide (code = OSDP_REPLY_BIOREADR) then OSDP_MSG_REPLY_BIOREADR else
  if decide (code = OSDP_REPLY_BIOMATCHR) then OSDP_MSG_REPLY_BIOMATCHR else
  if decide (code = OSDP_REPLY_CCRYPT) then OSDP_MSG_REPLY_CCRYPT else
  if decide (code = OSDP_REPLY_RMAC_I) then OSDP_MSG_REPLY_RMAC_I else
  if decide (code = OSDP_REPLY_BUSY) then OSDP_MSG_REPLY_BUSY else
  if decide (code = OSDP_REPLY_FTSTAT) then OSDP_MSG_REPLY_FTSTAT else
  if decide (code = OSDP_REPLY_PIVDATAR) then OSDP_MSG_REPLY_PIVDATAR else
  if decide (code = OSDP_REPLY_GENAUTHR) then OSDP_MSG_REPLY_GENAUTHR else
  if decide (code = OSDP_REPLY_CRAUTHR) then OSDP_MSG_REPLY_CRAUTHR else
  if decide (code = OSDP_REPLY_MFGSTATR) then OSDP_MSG_REPLY_MFGSTATR else
  if decide (code = OSDP_REPLY_MFGERRR) then OSDP_MSG_REPLY_MFGERRR else
  if decide (code = OSDP_REPLY_MFGREP) then OSDP_MSG_REPLY_MFGREP else
  if decide (code = OSDP_REPLY_XRD) then OSDP_MSG_REPLY_XRD else
  OSDP_MSG_UNKNOWN_REPLY.

Definition classify_command (code : Z) : osdp_message_kind :=
  if decide (code = OSDP_CMD_POLL) then OSDP_MSG_CMD_POLL else
  if decide (code = OSDP_CMD_ID) then OSDP_MSG_CMD_ID else
  if decide (code = OSDP_CMD_CAP) then OSDP_MSG_CMD_CAP else
  if decide (code = OSDP_CMD_LSTAT) then OSDP_MSG_CMD_LSTAT else
  if decide (code = OSDP_CMD_ISTAT) then OSDP_MSG_CMD_ISTAT else
  if decide (code = OSDP_CMD_OSTAT) then OSDP_MSG_CMD_OSTAT else
  if decide (code = OSDP_CMD_RSTAT) then OSDP_MSG_CMD_RSTAT else
  if decide (code = OSDP_CMD_OUT) then OSDP_MSG_CMD_OUT else
  if decide (code = OSDP_CMD_LED) then OSDP_MSG_CMD_LED else
  if decide (code = OSDP_CMD_BUZ) then OSDP_MSG_CMD_BUZ else
  if decide (code = OSDP_CMD_TEXT) then OSDP_MSG_CMD_TEXT else
  if decide (code = OSDP_CMD_COMSET) then OSDP_MSG_CMD_COMSET else
  if decide (code = OSDP_CMD_BIOREAD) then OSDP_MSG_CMD_BIOREAD else
  if decide (code = OSDP_CMD_BIOMATCH) then OSDP_MSG_CMD_BIOMATCH else
  if decide (code = OSDP_CMD_KEYSET) then OSDP_MSG_CMD_KEYSET else
  if decide (code = OSDP_CMD_CHLNG) then OSDP_MSG_CMD_CHLNG else
  if decide (code = OSDP_CMD_SCRYPT) then OSDP_MSG_CMD_SCRYPT else
  if decide (code = OSDP_CMD_ACURXSIZE) then OSDP_MSG_CMD_ACURXSIZE else
  if decide (code = OSDP_CMD_FILETRANSFER) then OSDP_MSG_CMD_FILETRANSFER else
  if decide (code = OSDP_CMD_MFG) then OSDP_MSG_CMD_MFG else
  if decide (code = OSDP_CMD_XWR) then OSDP_MSG_CMD_XWR else
  if decide (code = OSDP_CMD_ABORT) then OSDP_MSG_CMD_ABORT else
  if decide (code = OSDP_CMD_PIVDATA) then OSDP_MSG_CMD_PIVDATA else
  if decide (code = OSDP_CMD_GENAUTH) then OSDP_MSG_CMD_GENAUTH else
  if decide (code = OSDP_CMD_CRAUTH) then OSDP_MSG_CMD_CRAUTH else
  if decide (code = OSDP_CMD_KEEPACTIVE) then OSDP_MSG_CMD_KEEPACTIVE else
  OSDP_MSG_UNKNOWN_COMMAND.

Definition osdp_dispatch_classify (frame : option osdp_frame) : osdp_message_kind :=
  match frame with
  | None => OSDP_MSG_UNKNOWN_COMMAND
  | Some f => if fr_reply f then classify_reply (fr_code f) else classify_command (fr_code f)
  end.

Definition osdp_dispatch_name (kind : osdp_message_kind) : string :=
  match kind with
  | OSDP_MSG_UNKNOWN_COMMAND => "unknown command"%string
  | OSDP_MSG_UNKNOWN_REPLY => "unknown reply"%string
  | OSDP_MSG_CMD_POLL => "osdp_POLL"%string
  | OSDP_MSG_CMD_ID => "osdp_ID"%string
  | OSDP_MSG_CMD_CAP => "osdp_CAP"%string
  | OSDP_MSG_CMD_LSTAT => "osdp_LSTAT"%string
  | OSDP_MSG_CMD_ISTAT => "osdp_ISTAT"%string
  | OSDP_MSG_CMD_OSTAT => "osdp_OSTAT"%string
  | OSDP_MSG_CMD_RSTAT => "osdp_RSTAT"%string
  | OSDP_MSG_CMD_OUT => "osdp_OUT"%string
  | OSDP_MSG_CMD_LED => "osdp_LED"%string
  | OSDP_MSG_CMD_BUZ => "osdp_BUZ"%string
  | OSDP_MSG_CMD_TEXT => "osdp_TEXT"%string
  | OSDP_MSG_CMD_COMSET => "osdp_COMSET"%string
  | OSDP_MSG_CMD_BIOREAD => "osdp_BIOREAD"%string
  | OSDP_MSG_CMD_BIOMATCH => "osdp_BIOMATCH"%string
  | OSDP_MSG_CMD_KEYSET => "osdp_KEYSET"%string
  | OSDP_MSG_CMD_CHLNG => "osdp_CHLNG"%string
  | OSDP_MSG_CMD_SCRYPT => "osdp_SCRYPT"%string
  | OSDP_MSG_CMD_ACURXSIZE => "osdp_ACURXSIZE"%string
  | OSDP_MSG_CMD_FILETRANSFER => "osdp_FILETRANSFER"%string
  | OSDP_MSG_CMD_MFG => "osdp_MFG"%string
  | OSDP_MSG_CMD_XWR => "osdp_XWR"%string
  | OSDP_MSG_CMD_ABORT => "osdp_ABORT"%string
  | OSDP_MSG_CMD_PIVDATA => "osdp_PIVDATA"%string
  | OSDP_MSG_CMD_GENAUTH => "osdp_GENAUTH"%string
  | OSDP_MSG_CMD_CRAUTH => "osdp_CRAUTH"%string
  | OSDP_MSG_CMD_KEEPACTIVE => "osdp_KEEPACTIVE"%string
  | OSDP_MSG_REPLY_ACK => "osdp_ACK"%string
  | OSDP_MSG_REPLY_NAK => "osdp_NAK"%string
  | OSDP_MSG_REPLY_PDID => "osdp_PDID"%string
  | OSDP_MSG_REPLY_PDCAP => "osdp_PDCAP"%string
  | OSDP_MSG_REPLY_LSTATR => "osdp_LSTATR"%string
  | OSDP_MSG_REPLY_ISTATR => "osdp_ISTATR"%string
  | OSDP_MSG_REPLY_OSTATR => "osdp_OSTATR"%string
  | OSDP_MSG_REPLY_RSTATR => "osdp_RSTATR"%string
  | OSDP_MSG_REPLY_RAW => "osdp_RAW"%string
  | OSDP_MSG_REPLY_FMT => "osdp_FMT"%string
  | OSDP_MSG_REPLY_KEYPAD => "osdp_KEYPAD"%string
  | OSDP_MSG_REPLY_COM => "osdp_COM"%string
  | OSDP_MSG_REPLY_BIOREADR => "osdp_BIOREADR"%string
  | OSDP_MSG_REPLY_BIOMATCHR => "osdp_BIOMATCHR"%string
  | OSDP_MSG_REPLY_CCRYPT => "osdp_CCRYPT"%string
  | OSDP_MSG_REPLY_RMAC_I => "osdp_RMAC_I"%string
  | OSDP_MSG_REPLY_BUSY => "osdp_BUSY"%string
  | OSDP_MSG_REPLY_FTSTAT => "osdp_FTSTAT"%string
  | OSDP_MSG_REPLY_PIVDATAR => "osdp_PIVDATAR"%string
  | OSDP_MSG_REPLY_GENAUTHR => "osdp_GENAUTHR"%string
  | OSDP_MSG_REPLY_CRAUTHR => "osdp_CRAUTHR"%string
  | OSDP_MSG_REPLY_MFGSTATR => "osdp_MFGSTATR"%string
  | OSDP_MSG_REPLY_MFGERRR => "osdp_MFGERRR"%string
  | OSDP_MSG_REPLY_MFGREP => "osdp_MFGREP"%string
  | OSDP_MSG_REPLY_XRD => "osdp_XRD"%string
  end.

(** ** Annex A as a table *)

(** The direction (true: reply) and code byte of a message kind. *)
Definition kind_code (k : osdp_message_kind) : option (bool * Z) :=
  match k with
  | OSDP_MSG_UNKNOWN_COMMAND | OSDP_MSG_UNKNOWN_REPLY => None
  | OSDP_MSG_REPLY_ACK => Some (true, 0x40%Z)
  | OSDP_MSG_REPLY_NAK => Some (true, 0x41%Z)
  | OSDP_MSG_REPLY_PDID => Some (true, 0x45%Z)
  | OSDP_MSG_REPLY_PDCAP => Some (true, 0x46%Z)
  | OSDP_MSG_REPLY_LSTATR => Some (true, 0x48%Z)
  | OSDP_MSG_REPLY_ISTATR => Some (true, 0x49%Z)
  | OSDP_MSG_REPLY_OSTATR => Some (true, 0x4A%Z)
  | OSDP_MSG_REPLY_RSTATR => Some (true, 0x4B%Z)
  | OSDP_MSG_REPLY_RAW => Some (true, 0x50%Z)
  | OSDP_MSG_REPLY_FMT => Some (true, 0x51%Z)
  | OSDP_MSG_REPLY_KEYPAD => Some (true, 0x53%Z)
  | OSDP_MSG_REPLY_COM => Some (true, 0x54%Z)
  | OSDP_MSG_REPLY_BIOREADR => Some (true, 0x57%Z)
  | OSDP_MSG_REPLY_BIOMATCHR => Some (true, 0x58%Z)
  | OSDP_MSG_REPLY_CCRYPT => Some (true, 0x76%Z)
  | OSDP_MSG_REPLY_RMAC_I => Some (true, 0x78%Z)
  | OSDP_MSG_REPLY_BUSY => Some (true, 0x79%Z)
  | OSDP_MSG_REPLY_FTSTAT => Some (true, 0x7A%Z)
  | OSDP_MSG_REPLY_PIVDATAR => Some (true, 0x80%Z)
  | OSDP_MSG_REPLY_GENAUTHR => Some (true, 0x81%Z)
  | OSDP_MSG_REPLY_CRAUTHR => Some (true, 0x82%Z)
  | OSDP_MSG_REPLY_MFGSTATR => Some (true, 0x83%Z)
  | OSDP_MSG_REPLY_MFGERRR => Some (true, 0x84%Z)
  | OSDP_MSG_REPLY_MFGREP => Some (true, 0x90%Z)
  | OSDP_MSG_REPLY_XRD => Some (true, 0xB1%Z)
  | OSDP_MSG_CMD_POLL => Some (false, 0x60%Z)
  | OSDP_MSG_CMD_ID => Some (false, 0x61%Z)
  | OSDP_MSG_CMD_CAP => Some (false, 0x62%Z)
  | OSDP_MSG_CMD_LSTAT => Some (false, 0x64%Z)
  | OSDP_MSG_CMD_ISTAT => Some (false, 0x65%Z)
  | OSDP_MSG_CMD_OSTAT => Some (false, 0x66%Z)
  | OSDP_MSG_CMD_RSTAT => Some (false, 0x67%Z)
  | OSDP_MSG_CMD_OUT => Some (false, 0x68%Z)
  | OSDP_MSG_CMD_LED => Some (false, 0x69%Z)
  | OSDP_MSG_CMD_BUZ => Some (false, 0x6A%Z)
  | OSDP_MSG_CMD_TEXT => Some (false, 0x6B%Z)
  | OSDP_MSG_CMD_COMSET => Some (false, 0x6E%Z)
  | OSDP_MSG_CMD_BIOREAD => Some (false, 0x73%Z)
  | OSDP_MSG_CMD_BIOMATCH => Some (false, 0x74%Z)
  | OSDP_MSG_CMD_KEYSET => Some (false, 0x75%Z)
  | OSDP_MSG_CMD_CHLNG => Some (false, 0x76%Z)
  | OSDP_MSG_CMD_SCRYPT => Some (false, 0x77%Z)
  | OSDP_MSG_CMD_ACURXSIZE => Some (false, 0x7B%Z)
  | OSDP_MSG_CMD_FILETRANSFER => Some (false, 0x7C%Z)
  | OSDP_MSG_CMD_MFG => Some (false, 0x80%Z)
  | OSDP_MSG_CMD_XWR => Some (false, 0xA1%Z)
  | OSDP_MSG_CMD_ABORT => Some (false, 0xA2%Z)
  | OSDP_MSG_CMD_PIVDATA => Some (false, 0xA3%Z)
  | OSDP_MSG_CMD_GENAUTH => Some (false, 0xA4%Z)
  | OSDP_MSG_CMD_CRAUTH => Some (false, 0xA5%Z)
  | OSDP_MSG_CMD_KEEPACTIVE => Some (false, 0xA7%Z)
  end.

(** Every kind, known or not. *)
Definition all_kinds : list osdp_message_kind :=
  [OSDP_MSG_UNKNOWN_COMMAND; OSDP_MSG_UNKNOWN_REPLY; OSDP_MSG_CMD_POLL;
   OSDP_MSG_CMD_ID; OSDP_MSG_CMD_CAP; OSDP_MSG_CMD_LSTAT;
   OSDP_MSG_CMD_ISTAT; OSDP_MSG_CMD_OSTAT; OSDP_MSG_CMD_RSTAT;
   OSDP_MSG_CMD_OUT; OSDP_MSG_CMD_LED; OSDP_MSG_CMD_BUZ;
   OSDP_MSG_CMD_TEXT; OSDP_MSG_CMD_COMSET; OSDP_MSG_CMD_BIOREAD;
   OSDP_MSG_CMD_BIOMATCH; OSDP_MSG_CMD_KEYSET; OSDP_MSG_CMD_CHLNG;
   OSDP_MSG_CMD_SCRYPT; OSDP_MSG_CMD_ACURXSIZE; OSDP_MSG_CMD_FILETRANSFER;
   OSDP_MSG_CMD_MFG; OSDP_MSG_CMD_XWR; OSDP_MSG_CMD_ABORT;
   OSDP_MSG_CMD_PIVDATA; OSDP_MSG_CMD_GENAUTH; OSDP_MSG_CMD_CRAUTH;
   OSDP_MSG_CMD_KEEPACTIVE; OSDP_MSG_REPLY_ACK; OSDP_MSG_REPLY_NAK;
   OSDP_MSG_REPLY_PDID; OSDP_MSG_REPLY_PDCAP; OSDP_MSG_REPLY_LSTATR;
   OSDP_MSG_REPLY_ISTATR; OSDP_MSG_REPLY_OSTATR; OSDP_MSG_REPLY_RSTATR;
   OSDP_MSG_REPLY_RAW; OSDP_MSG_REPLY_FMT; OSDP_MSG_REPLY_KEYPAD;
   OSDP_MSG_REPLY_COM; OSDP_MSG_REPLY_BIOREADR; OSDP_MSG_REPLY_BIOMATCHR;
   OSDP_MSG_REPLY_CCRYPT; OSDP_MSG_REPLY_RMAC_I; OSDP_MSG_REPLY_BUSY;
   OSDP_MSG_REPLY_FTSTAT; OSDP_MSG_REPLY_PIVDATAR; OSDP_MSG_REPLY_GENAUTHR;
   OSDP_MSG_REPLY_CRAUTHR; OSDP_MSG_REPLY_MFGSTATR; OSDP_MSG_REPLY_MFGERRR;
   OSDP_MSG_REPLY_MFGREP; OSDP_MSG_REPLY_XRD].

(** ** Lemmas *)

Lemma elem_all_kinds k : k ∈ all_kinds.
Proof. apply list_elem_of_In. destruct k; cbn; tauto. Qed.

(** A decidable statement about kinds, by evaluation. *)
Lemma kinds_forall (P : osdp_message_kind → Prop) {D : ∀ k, Decision (P k)} k :
  forallb (λ k, bool_decide (P k)) all_kinds = true → P k.
Proof.
  rewrite forallb_forall. intros H. eapply bool_decide_eq_true, H, list_elem_of_In, elem_all_kinds.
Qed.

Lemma classify_reply_code c k :
  is_byte c → classify_reply c = k ∧ k ≠ OSDP_MSG_UNKNOWN_REPLY ↔ kind_code k = Some (true, c).
Proof.
  intros Hc. split.
  - intros [<- Hk]. revert Hk. check_bytes c.
  - intros Hk. destruct k; cbn in Hk; simplify_eq; (split; [vm_compute; reflexivity|done]).
Qed.

Lemma classify_command_code c k :
  is_byte c → classify_command c = k ∧ k ≠ OSDP_MSG_UNKNOWN_COMMAND ↔ kind_code k = Some (false, c).
Proof.
  intros Hc. split.
  - intros [<- Hk]. revert Hk. check_bytes c.
  - intros Hk. destruct k; cbn in Hk; simplify_eq; (split; [vm_compute; reflexivity|done]).
Qed.

(** ** Properties *)

(** Classification.  A frame is classified as a known kind exactly when its
    direction and code byte are that kind's line of Annex A; everything else is
    reported as unknown in the frame's own direction, so the code bytes shared by
    commands and replies (0x76, 0x80) never confuse them. *)
Theorem dispatch_classify_annex_a f k :
  is_byte (fr_code f) →
  (osdp_dispatch_classify (Some f) = k ↔
   kind_code k = Some (fr_reply f, fr_code f) ∨
   k = (if fr_reply f then OSDP_MSG_UNKNOWN_REPLY else OSDP_MSG_UNKNOWN_COMMAND) ∧
   ∀ k', kind_code k' ≠ Some (fr_reply f, fr_code f)).
Proof.
  intros Hc. unfold osdp_dispatch_classify. destruct (fr_reply f).
  - pose proof (λ k, classify_reply_code _ k Hc) as H. split.
    + intros Hk. destruct (decide (k = OSDP_MSG_UNKNOWN_REPLY)) as [->|Hne].
      * right. split; [done|]. intros k' Hk'. apply H in Hk' as [Hk' ?]. congruence.
      * left. by apply H.
    + intros [Hk|[-> Hno]]; [by apply H in Hk as [? _]|].
      destruct (decide (classify_reply (fr_code f) = OSDP_MSG_UNKNOWN_REPLY)) as [|Hne]; [done|].
      by destruct (Hno (classify_reply (fr_code f))); apply H.
  - pose proof (λ k, classify_command_code _ k Hc) as H. split.
    + intros Hk. destruct (decide (k = OSDP_MSG_UNKNOWN_COMMAND)) as [->|Hne].
      * right. split; [done|]. intros k' Hk'. apply H in Hk' as [Hk' ?]. congruence.
      * left. by apply H.
    + intros [Hk|[-> Hno]]; [by apply H in Hk as [? _]|].
      destruct (decide (classify_command (fr_code f) = OSDP_MSG_UNKNOWN_COMMAND)) as [|Hne]; [done|].
      by destruct (Hno (classify_command (fr_code f))); apply H.
Qed.

(** Names.  Every kind has a name of its own, distinct from the fallback
    "unknown". *)
Theorem dispatch_names_distinct k1 k2 :
  osdp_dispatch_name k1 ≠ "unknown"%string ∧
  (osdp_dispatch_name k1 = osdp_dispatch_name k2 ↔ k1 = k2).
Proof.
  split; [destruct k1; discriminate|]. split; [|by intros ->].
  assert (Forall (λ k2, osdp_dispatch_name k1 = osdp_dispatch_name k2 → k1 = k2) all_kinds) as G.
  { refine (kinds_forall (λ k1, Forall (λ k2, osdp_dispatch_name k1 = osdp_dispatch_name k2 → k1 = k2)
      all_kinds) k1 _). vm_compute. reflexivity. }
  rewrite Forall_forall in G. apply G, elem_all_kinds.
Qed.

(** ** Witnesses *)

Lemma dispatch_classify_annex_a_witness :
  let f := mk_frame 1 true 0 OSDP_INTEGRITY_CRC false 0 0 NULL 0 0x76 NULL 0 NULL 0 NULL 0 in
  osdp_dispatch_classify (Some f) = OSDP_MSG_REPLY_CCRYPT ↔
  kind_code OSDP_MSG_REPLY_CCRYPT = Some (true, 0x76%Z) ∨
  OSDP_MSG_REPLY_CCRYPT = OSDP_MSG_UNKNOWN_REPLY ∧ ∀ k', kind_code k' ≠ Some (true, 0x76%Z).
Proof. cbv zeta. apply (dispatch_classify_annex_a (mk_frame 1 true 0 OSDP_INTEGRITY_CRC false 0 0 NULL 0 0x76 NULL 0 NULL 0 NULL 0)). vm_decide. Defined.
