(* ===== verification/Stream.v ===== *)
(** * Byte stream reassembly: osdp_stream.h and core/src/shared/stream.c

    The buffer is the C array itself (always [OSDP_STREAM_BUFFER_LEN] bytes),
    with its two counters.  The frame a successful [osdp_stream_next] hands
    out is a copy of the slices it points at: the pointers stay valid until
    the next call, which is when the code drops the bytes. *)
From S2P Require Import Prelude Types Integrity Frame.

Definition OSDP_STREAM_BUFFER_LEN : nat := OSDP_FRAME_MAX_LEN.

Record osdp_stream : Type := mk_stream {
  st_buffer : list Z;
  st_fill : nat;
  st_pending_consume : nat
}.

(** [osdp_stream_consume]: [memmove(buffer, buffer + n, fill - n)]. *)
Definition osdp_stream_consume (s : osdp_stream) (n : nat) : option osdp_stream :=
  if decide (n = 0) then Ret s else
  if decide (st_fill s ≤ n) then Ret (mk_stream (st_buffer s) 0 (st_pending_consume s)) else
  bs ← mslice (st_buffer s) n (st_fill s - n);
  buffer ← mwr (st_buffer s) 0 bs;
  Ret (mk_stream buffer (st_fill s - n) (st_pending_consume s)).

Definition osdp_stream_apply_pending (s : osdp_stream) : option osdp_stream :=
  if decide (0 < st_pending_consume s) then
    s ← osdp_stream_consume s (st_pending_consume s);
    Ret (mk_stream (st_buffer s) (st_fill s) 0)
  else Ret s.

(** The scan [while (i < fill && buffer[i] != OSDP_SOM) i++], with [n] the
    bytes left to look at. *)
Fixpoint som_scan (buffer : list Z) (i n : nat) : option nat :=
  match n with
  | O => Ret i
  | S n =>
      b ← buffer !! i;
      if decide (b ≠ OSDP_SOM) then som_scan buffer (S i) n else Ret i
  end.

Definition osdp_stream_resync_to_som (s : osdp_stream) : option (osdp_stream * nat) :=
  i ← som_scan (st_buffer s) 0 (st_fill s);
  s ← (if decide (0 < i) then osdp_stream_consume s i else Ret s);
  Ret (s, i).

Definition osdp_stream_init (s : option osdp_stream) : option osdp_stream :=
  s ← s; Some (mk_stream (st_buffer s) 0 0).

Definition osdp_stream_reset (s : option osdp_stream) : option osdp_stream := osdp_stream_init s.

(** The copy loop of [osdp_stream_feed]; [fuel] bounds its iterations. *)
Fixpoint feed_loop (fuel : nat) (s : osdp_stream) (data : list Z) : option osdp_stream :=
  match data, fuel with
  | [], _ => Ret s
  | _, O => UB
  | _, S fuel =>
      s ← (if decide (OSDP_STREAM_BUFFER_LEN - st_fill s = 0)
           then osdp_stream_consume s 1 else Ret s);
      let free_room := OSDP_STREAM_BUFFER_LEN - st_fill s in
      let to_copy := if decide (length data < free_room) then length data else free_room in
      buffer ← mwr (st_buffer s) (st_fill s) (take to_copy data);
      feed_loop fuel (mk_stream buffer (st_fill s + to_copy) (st_pending_consume s))
        (drop to_copy data)
  end.

Definition osdp_stream_feed (s : option osdp_stream) (data : ptr) (len : nat)
  : option (osdp_status * option osdp_stream) :=
  match s with
  | None => Ret (OSDP_ERR_INVALID_ARG, None)
  | Some s =>
      if decide (len = 0) then Ret (OSDP_OK, Some s) else
      if is_null data then Ret (OSDP_ERR_INVALID_ARG, Some s) else
      bytes ← rd_slice data 0 len;
      s ← osdp_stream_apply_pending s;
      s ← feed_loop len s bytes;
      Ret (OSDP_OK, Some s)
  end.

Definition osdp_stream_pending (s : option osdp_stream) : nat :=
  match s with
  | None => 0
  | Some s =>
      if decide (st_pending_consume s < st_fill s) then st_fill s - st_pending_consume s else 0
  end.

Definition osdp_stream_next (s : option osdp_stream) (out : option osdp_frame)
  : option (osdp_status * option osdp_stream * option osdp_frame) :=
  match s, out with
  | Some s, Some o =>
      s ← osdp_stream_apply_pending s;
      '(s, _) ← osdp_stream_resync_to_som s;
      if decide (st_fill s = 0) then Ret (OSDP_ERR_TRUNCATED, Some s, out) else
      if decide (st_fill s < OSDP_FRAME_HEADER_LEN) then Ret (OSDP_ERR_TRUNCATED, Some s, out) else
      b2 ← st_buffer s !! 2;
      b3 ← st_buffer s !! 3;
      let frame_len := Z.to_nat (u16 (Z.lor b2 (Z.shiftl b3 8))) in
      if decide (frame_len < OSDP_FRAME_MIN_LEN_CKSUM ∨ OSDP_FRAME_MAX_LEN < frame_len) then
        s ← osdp_stream_consume s 1;
        Ret (OSDP_ERR_BAD_LENGTH, Some s, out)
      else
      if decide (st_fill s < frame_len) then Ret (OSDP_ERR_TRUNCATED, Some s, out) else
      '(r, out) ← osdp_frame_decode (Ptr (st_buffer s)) frame_len out;
      if decide (r ≠ OSDP_OK) then
        s ← osdp_stream_consume s 1;
        Ret (r, Some s, out)
      else Ret (OSDP_OK, Some (mk_stream (st_buffer s) (st_fill s) frame_len), out)
  | _, _ => Ret (OSDP_ERR_INVALID_ARG, s, out)
  end.

(** The caller's loop of pd.c and acu.c: poll until the stream asks for more
    input, collecting the frames. *)
Fixpoint drain (fuel : nat) (s : osdp_stream) (out : osdp_frame)
  : option (list osdp_frame * osdp_stream * osdp_frame) :=
  match fuel with
  | O => UB
  | S fuel =>
      r ← osdp_stream_next (Some s) (Some out);
      match r with
      | (st, Some s, Some out) =>
          if decide (st = OSDP_ERR_TRUNCATED) then Ret ([], s, out) else
          '(fs, s, o) ← drain fuel s out;
          Ret (if decide (st = OSDP_OK) then out :: fs else fs, s, o)
      | _ => UB
      end
  end.

(** ** The abstract stream: the bytes not yet handed out *)

Definition unread (s : osdp_stream) : list Z :=
  drop (st_pending_consume s) (take (st_fill s) (st_buffer s)).

(** Everything before the first SOM is noise. *)
Fixpoint drop_noise (bs : list Z) : list Z :=
  match bs with
  | [] => []
  | b :: bs' => if decide (b ≠ OSDP_SOM) then drop_noise bs' else bs
  end.

Definition len_field (bs : list Z) : nat :=
  match bs with
  | _ :: _ :: lo :: hi :: _ => Z.to_nat (u16 (Z.lor lo (Z.shiftl hi 8)))
  | _ => 0
  end.

Definition len_plausible (n : nat) : Prop := OSDP_FRAME_MIN_LEN_CKSUM ≤ n ≤ OSDP_FRAME_MAX_LEN.

(** One call, on the unread bytes: status, remaining bytes, frame. *)
Inductive next_step (bs : list Z) : osdp_status → list Z → option osdp_frame → Prop :=
  | next_need :
      length (drop_noise bs) < OSDP_FRAME_HEADER_LEN ∨
      (len_plausible (len_field (drop_noise bs)) ∧
       length (drop_noise bs) < len_field (drop_noise bs)) →
      next_step bs OSDP_ERR_TRUNCATED (drop_noise bs) None
  | next_bad_length :
      OSDP_FRAME_HEADER_LEN ≤ length (drop_noise bs) →
      ¬ len_plausible (len_field (drop_noise bs)) →
      next_step bs OSDP_ERR_BAD_LENGTH (drop 1 (drop_noise bs)) None
  | next_bad_frame st :
      len_plausible (len_field (drop_noise bs)) →
      len_field (drop_noise bs) ≤ length (drop_noise bs) → st ≠ OSDP_OK →
      (∀ F, ¬ canonical F (take (len_field (drop_noise bs)) (drop_noise bs))) →
      next_step bs st (drop 1 (drop_noise bs)) None
  | next_frame F :
      len_plausible (len_field (drop_noise bs)) →
      len_field (drop_noise bs) ≤ length (drop_noise bs) →
      canonical F (take (len_field (drop_noise bs)) (drop_noise bs)) →
      next_step bs OSDP_OK (drop (len_field (drop_noise bs)) (drop_noise bs)) (Some F).

(** The representation invariant. *)
Record stream_inv (s : osdp_stream) : Prop := {
  si_len : length (st_buffer s) = OSDP_STREAM_BUFFER_LEN;
  si_fill : st_fill s ≤ OSDP_STREAM_BUFFER_LEN;
  si_pending : st_pending_consume s ≤ st_fill s;
  si_bytes : bytes_ok (st_buffer s)
}.

(** ** Lemmas *)

Lemma length_unread s : stream_inv s → length (unread s) = st_fill s - st_pending_consume s.
Proof. intros []. unfold unread. solve_len. Qed.

Lemma unread_bytes s : stream_inv s → bytes_ok (unread s).
Proof. intros []. by apply Forall_drop, Forall_take. Qed.

Lemma drop_noise_suffix bs : ∃ pre, bs = pre ++ drop_noise bs ∧ Forall (λ b, b ≠ OSDP_SOM) pre.
Proof.
  induction bs as [|b bs (pre & IH & Hp)]; [by exists []|]. simpl. case_decide.
  - exists (b :: pre). split; [by rewrite IH at 1|by constructor].
  - by exists [].
Qed.

Lemma length_drop_noise bs : length (drop_noise bs) ≤ length bs.
Proof.
  destruct (drop_noise_suffix bs) as (pre & E & _). rewrite E at 2. rewrite length_app. lia.
Qed.

Lemma drop_noise_app pre bs :
  Forall (λ b, b ≠ OSDP_SOM) pre → drop_noise (pre ++ bs) = drop_noise bs.
Proof. induction 1; simpl; [done|]. by rewrite decide_True. Qed.

Definition filled (s : osdp_stream) : list Z := take (st_fill s) (st_buffer s).

Lemma consume_ok s n :
  length (st_buffer s) = OSDP_STREAM_BUFFER_LEN → st_fill s ≤ OSDP_STREAM_BUFFER_LEN →
  bytes_ok (st_buffer s) → n ≤ st_fill s →
  ∃ s', osdp_stream_consume s n = Some s' ∧ st_pending_consume s' = st_pending_consume s ∧
    length (st_buffer s') = OSDP_STREAM_BUFFER_LEN ∧ bytes_ok (st_buffer s') ∧
    st_fill s' = st_fill s - n ∧ filled s' = drop n (filled s).
Proof.
  intros Hl Hf Hb Hn. unfold osdp_stream_consume, filled.
  case_decide; [|case_decide].
  - exists s. subst n. rewrite drop_0. split_and!; done || lia.
  - eexists. split_and!; [done..|simpl; lia|]. simpl. rewrite drop_ge; [done|]. solve_len.
  - rewrite mslice_Some by lia. cbn [mbind option_bind]. rewrite mwr_0 by solve_len.
    cbn [mbind option_bind]. eexists. split_and!; [done|done| | |done|].
    + simpl. solve_len.
    + apply Forall_app. split; [by apply Forall_take, Forall_drop|by apply Forall_drop].
    + simpl. rewrite take_app_length' by solve_len. by rewrite skipn_firstn_comm.
Qed.

(** States with nothing pending, as every call leaves or makes them. *)
Definition settled (s : osdp_stream) (bs : list Z) : Prop :=
  stream_inv s ∧ st_pending_consume s = 0 ∧ filled s = bs.

Lemma settled_fill s bs : settled s bs → st_fill s = length bs.
Proof. intros ([] & _ & <-). unfold filled. solve_len. Qed.

Lemma settled_unread s bs : settled s bs → unread s = bs.
Proof. intros (_ & Hp & <-). unfold unread. by rewrite Hp, drop_0. Qed.

Lemma consume_settled s bs n :
  settled s bs → n ≤ length bs →
  ∃ s', osdp_stream_consume s n = Some s' ∧ settled s' (drop n bs).
Proof.
  intros Hs Hn. pose proof (settled_fill s bs Hs) as Hf. destruct Hs as ([] & Hp & <-).
  destruct (consume_ok s n) as (s' & Hc & Hp' & Hl & Hb & Hf' & Hfl); try done; [lia|].
  exists s'. split; [done|]. split_and!; [constructor; lia || done|lia|done].
Qed.

(** The bytes of a frame already handed out go first. *)
Lemma apply_pending_ok s :
  stream_inv s → ∃ s', osdp_stream_apply_pending s = Some s' ∧ settled s' (unread s).
Proof.
  intros []. unfold osdp_stream_apply_pending, unread. case_decide as Hp.
  - destruct (consume_ok s (st_pending_consume s)) as (s' & -> & Hp' & Hl & Hb & Hf & Hfl);
      try done. cbn [mbind option_bind]. eexists. split; [done|].
    split_and!; [constructor; simpl; lia || done|done|by unfold filled in *].
  - exists s. split; [done|]. assert (st_pending_consume s = 0) as Hp0 by lia.
    rewrite Hp0, drop_0. split_and!; [by constructor; lia || done|done|done].
Qed.

Lemma som_scan_ok buf i n :
  i + n ≤ length buf →
  som_scan buf i n = Some (i + (n - length (drop_noise (take n (drop i buf))))).
Proof.
  revert i. induction n as [|n IH]; intros i Hl; simpl.
  { f_equal. lia. }
  destruct (lookup_lt_is_Some_2 buf i) as [b Hb]; [lia|]. rewrite Hb. cbn [mbind option_bind].
  rewrite (drop_S buf b i) by done. simpl.
  case_decide.
  - rewrite IH by lia. f_equal.
    pose proof (length_drop_noise (take n (drop (S i) buf))) as H'.
    rewrite length_take in H'. lia.
  - f_equal. cbn [length]. solve_len.
Qed.

Lemma resync_ok s bs :
  settled s bs →
  ∃ s' i, osdp_stream_resync_to_som s = Some (s', i) ∧ settled s' (drop_noise bs) ∧
    i + length (drop_noise bs) = length bs.
Proof.
  intros Hs. pose proof (settled_fill s bs Hs) as Hf.
  pose proof (length_drop_noise bs) as Hn. pose proof Hs as ([] & _ & Hfl).
  unfold osdp_stream_resync_to_som.
  rewrite som_scan_ok by lia. rewrite drop_0. fold (filled s). rewrite Hfl, Hf.
  cbn [mbind option_bind Nat.add].
  assert (drop_noise bs = drop (length bs - length (drop_noise bs)) bs) as Hd.
  { destruct (drop_noise_suffix bs) as (pre & E & _). rewrite E at 4. rewrite E at 2.
    rewrite length_app, Nat.add_sub. by rewrite drop_app_length. }
  case_decide as Hpos.
  - destruct (consume_settled s bs (length bs - length (drop_noise bs)) Hs ltac:(lia))
      as (s' & -> & Hs'). cbn [mbind option_bind]. eexists _, _. split; [done|].
    rewrite Hd at 1. split; [done|lia].
  - cbn [mbind option_bind]. eexists _, _. split; [done|].
    rewrite Hd at 1. replace (length bs - length (drop_noise bs)) with 0 by lia. rewrite drop_0.
    split; [done|lia].
Qed.

(** [osdp_stream_next] is one [next_step] on the unread bytes, keeps the
    invariant, and is always defined. *)
Lemma osdp_stream_next_ok s o :
  stream_inv s →
  ∃ st s' o', osdp_stream_next (Some s) (Some o) = Some (st, Some s', Some o') ∧ stream_inv s' ∧
    next_step (unread s) st (unread s') (if decide (st = OSDP_OK) then Some o' else None).
Proof.
  intros Hi. unfold osdp_stream_next.
  destruct (apply_pending_ok s Hi) as (s1 & -> & Hs1). cbn [mbind option_bind].
  destruct (resync_ok s1 _ Hs1) as (s2 & i & -> & Hs2 & _). cbn [mbind option_bind].
  pose proof (settled_fill _ _ Hs2) as Hf. pose proof (settled_unread _ _ Hs2) as Hu.
  pose proof Hs2 as ([Hl Hfill _ Hb] & Hp & Hfl).
  remember (drop_noise (unread s)) as bs eqn:Ebs.
  case_decide as H0; [|case_decide as H5].
  1,2: eexists _, _, _; split_and!; [done|apply Hs2|]; rewrite decide_False, Hu by done; subst bs;
    apply next_need; left; unfold OSDP_FRAME_HEADER_LEN in *; lia.
  unfold OSDP_FRAME_HEADER_LEN in H5.
  assert (len_field bs = len_field (st_buffer s2)) as Hlf.
  { rewrite <-Hfl. unfold filled. destruct (st_fill s2) as [|[|[|[|]]]]; [lia..|].
    by destruct (st_buffer s2) as [|? [|? [|? [|]]]]. }
  destruct (st_buffer s2) as [|x0 [|x1 [|b2 [|b3 buf]]]] eqn:Ebuf; try done.
  cbn [lookup list_lookup mbind option_bind]. cbv zeta. rewrite <-Ebuf in *.
  assert (Z.to_nat (u16 (Z.lor b2 (Z.shiftl b3 8))) = len_field bs) as -> by (by rewrite Hlf, Ebuf).
  case_decide as Hbad.
  { destruct (consume_settled s2 bs 1 Hs2 ltac:(lia)) as (s3 & -> & Hs3). cbn [mbind option_bind].
    eexists _, _, _. split_and!; [done|apply Hs3|]. rewrite (settled_unread _ _ Hs3), decide_False by done. subst bs.
    apply next_bad_length; unfold len_plausible, OSDP_FRAME_HEADER_LEN; lia. }
  assert (len_plausible (len_field bs)) as Hpl by (unfold len_plausible; lia).
  case_decide as Hshort.
  { eexists _, _, _; split_and!; [done|apply Hs2|]; rewrite decide_False, Hu by done. subst bs.
    apply next_need. right. split; [done|lia]. }
  assert (take (len_field bs) (st_buffer s2) = take (len_field bs) bs) as Htk.
  { rewrite <-Hfl at 3. unfold filled. rewrite take_take. f_equal. lia. }
  assert (∀ st o1, st ≠ OSDP_OK → (∀ F, ¬ canonical F (take (len_field bs) bs)) →
    ∃ st' s' o',
    (s ← osdp_stream_consume s2 1; Some (st, Some s, Some o1)) = Some (st', Some s', Some o') ∧
    stream_inv s' ∧
    next_step (unread s) st' (unread s') (if decide (st' = OSDP_OK) then Some o' else None)) as Hskip.
  { intros st o1 Hst HnF. destruct (consume_settled s2 bs 1 Hs2 ltac:(lia)) as (s3 & -> & Hs3).
    cbn [mbind option_bind]. eexists _, _, _. split_and!; [done|apply Hs3|].
    rewrite (settled_unread _ _ Hs3), decide_False by done. subst bs.
    apply next_bad_frame; done || lia. }
  rewrite <-Htk in Hskip. assert (len_field bs ≤ length (st_buffer s2)) as Hle
    by (unfold len_plausible, OSDP_STREAM_BUFFER_LEN in *; lia).
  pose proof (λ F, osdp_frame_decode_canonical_ok (st_buffer s2) (len_field bs) o F Hle) as Hok.
  destruct (osdp_frame_decode_cases (st_buffer s2) (len_field bs) o Hb Hle) as
    [(st & Hd & Hst)|[(F & Hd & _)|(F & Hd & Hcan)]]; rewrite Hd in *; cbn [mbind option_bind].
  - rewrite decide_True by (by intros ->). apply Hskip; [by intros ->|].
    intros F HF. specialize (Hok F HF). by simplify_eq.
  - rewrite decide_True by (by destruct (uses_crc F)). apply Hskip; [by destruct (uses_crc F)|].
    intros G HG. specialize (Hok G HG). destruct (uses_crc F); by simplify_eq.
  - rewrite decide_False by naive_solver. eexists _, _, _. split_and!; [done| |].
    + destruct Hs2 as ([] & _ & _). constructor; simpl; lia || done.
    + rewrite decide_True by done. unfold unread at 2. simpl. fold (filled s2). rewrite Hfl.
      rewrite Htk in Hcan. subst bs.
      apply next_frame; done || lia.
Qed.

(** The address and sequence number the decoder reports, even of a damaged
    message, are bytes. *)
Definition ident_ok (f : osdp_frame) : Prop := is_byte (fr_address f) ∧ is_byte (fr_sequence f).

Lemma osdp_frame_decode_ident m len o st F :
  bytes_ok m → len ≤ length m → ident_ok o →
  osdp_frame_decode (Ptr m) len (Some o) = Some (st, Some F) → ident_ok F.
Proof.
  intros Hm Hl Ho E.
  destruct (osdp_frame_decode_cases m len o Hm Hl) as [(s & E' & _)|[(G & E' & Ht & _)|(G & E' & Ht & _)]];
    rewrite E' in E; simplify_eq; [done|..]; by split; apply Ht.
Qed.

Lemma osdp_stream_next_ident s o st s' o' :
  stream_inv s → ident_ok o → osdp_stream_next (Some s) (Some o) = Some (st, s', Some o') → ident_ok o'.
Proof.
  intros Hi Ho. unfold osdp_stream_next.
  destruct (apply_pending_ok s Hi) as (s1 & -> & Hs1). cbn [mbind option_bind].
  destruct (resync_ok s1 _ Hs1) as (s2 & i & -> & Hs2 & _). cbn [mbind option_bind].
  pose proof Hs2 as ([Hl Hfill _ Hb] & _).
  repeat (case_decide; [by intros [= <- <- <-]|]).
  destruct (st_buffer s2 !! 2) as [b2|], (st_buffer s2 !! 3) as [b3|]; cbn [mbind option_bind]; try done.
  cbv zeta. case_decide; [destruct (osdp_stream_consume s2 1); cbn [mbind option_bind]; [by intros [= <- <- <-]|done]|].
  case_decide; [by intros [= <- <- <-]|].
  destruct (osdp_frame_decode _ _ _) as [[r [F|]]|] eqn:E; cbn [mbind option_bind]; [| |done].
  2:{ case_decide; [by destruct (osdp_stream_consume s2 1)|done]. }
  apply osdp_frame_decode_ident in E; [|done|lia|done].
  case_decide; [destruct (osdp_stream_consume s2 1); cbn [mbind option_bind]; [by intros [= <- <- <-]|done]|].
  by intros [= <- <- <-].
Qed.

(** Feeding: the newest [n] bytes of a list. *)
Definition keep_last (n : nat) (bs : list Z) : list Z := drop (length bs - n) bs.

Lemma keep_last_id n bs : length bs ≤ n → keep_last n bs = bs.
Proof. intros. unfold keep_last. by replace (length bs - n) with 0 by lia. Qed.

Lemma keep_last_cons n b bs : n ≤ length bs → keep_last n (b :: bs) = keep_last n bs.
Proof. intros. unfold keep_last. cbn [length]. by replace (S (length bs) - n) with (S (length bs - n)) by lia. Qed.

Lemma feed_loop_ok fuel s bs data :
  settled s bs → bytes_ok data → length data ≤ fuel →
  ∃ s', feed_loop fuel s data = Some s' ∧
    settled s' (keep_last OSDP_STREAM_BUFFER_LEN (bs ++ data)).
Proof.
  revert s bs data. induction fuel as [|fuel IH]; intros s bs data Hs Hd Hl.
  all: pose proof (settled_fill _ _ Hs) as Hf; pose proof Hs as ([] & _ & _).
  { destruct data; [|simpl in *; lia]. exists s. split; [done|].
    rewrite app_nil_r, keep_last_id by lia. done. }
  destruct data as [|d data].
  { exists s. split; [done|]. rewrite app_nil_r, keep_last_id by lia. done. }
  cbn [feed_loop]. remember (d :: data) as ds eqn:Eds.
  assert (∃ s1 bs1, (if decide (OSDP_STREAM_BUFFER_LEN - st_fill s = 0)
      then osdp_stream_consume s 1 else Some s) = Some s1 ∧ settled s1 bs1 ∧
      length bs1 < OSDP_STREAM_BUFFER_LEN ∧
      keep_last OSDP_STREAM_BUFFER_LEN (bs1 ++ ds) = keep_last OSDP_STREAM_BUFFER_LEN (bs ++ ds))
    as (s1 & bs1 & -> & Hs1 & Hl1 & <-).
  { case_decide.
    - destruct bs as [|b bs]; [simpl in *; unfold OSDP_STREAM_BUFFER_LEN, OSDP_FRAME_MAX_LEN in *; lia|].
      destruct (consume_settled s (b :: bs) 1 Hs ltac:(simpl; lia)) as (s1 & -> & Hs1).
      exists s1, bs. split_and!; [done|done|simpl in *; lia|]. cbn [app].
      rewrite keep_last_cons; [done|]. subst ds. simpl in *. solve_len.
    - exists s, bs. split_and!; [done|done|lia|done]. }
  cbn [mbind option_bind]. cbv zeta. rewrite (settled_fill _ _ Hs1).
  set (n := if decide (length ds < OSDP_STREAM_BUFFER_LEN - length bs1) then length ds
            else OSDP_STREAM_BUFFER_LEN - length bs1).
  assert (1 ≤ n ≤ length ds ∧ length bs1 + n ≤ OSDP_STREAM_BUFFER_LEN) as [Hn Hroom].
  { unfold n. subst ds. simpl in *. case_decide; lia. }
  pose proof Hs1 as ([Hb1 Hf1 _ Hy1] & Hp1 & Hfl1). pose proof (settled_fill _ _ Hs1) as He.
  rewrite mwr_Some by solve_len. cbn [mbind option_bind].
  destruct (IH (mk_stream (take (length bs1) (st_buffer s1) ++ take n ds ++
      drop (length bs1 + length (take n ds)) (st_buffer s1)) (length bs1 + n)
      (st_pending_consume s1)) (bs1 ++ take n ds) (drop n ds)) as (s' & -> & Hs').
  - split_and!; [constructor; simpl; [solve_len|lia|lia|]|done|].
    + rewrite !Forall_app. split_and!; [by apply Forall_take|by apply Forall_take|by apply Forall_drop].
    + unfold filled in *. simpl. rewrite <-He, Hfl1, app_assoc.
      rewrite take_app_length'; [done|]. solve_len.
  - by apply Forall_drop.
  - solve_len.
  - exists s'. split; [done|]. by rewrite <-app_assoc, take_drop in Hs'.
Qed.

Lemma osdp_stream_feed_ok s m len :
  stream_inv s → bytes_ok m → len ≤ length m → 0 < len →
  ∃ s', osdp_stream_feed (Some s) (Ptr m) len = Some (OSDP_OK, Some s') ∧ stream_inv s' ∧
    unread s' = keep_last OSDP_STREAM_BUFFER_LEN (unread s ++ take len m).
Proof.
  intros Hi Hm Hl Hpos. unfold osdp_stream_feed. rewrite decide_False by lia. cbn [is_null rd_slice].
  rewrite mslice_Some, drop_0 by lia. cbn [mbind option_bind].
  destruct (apply_pending_ok s Hi) as (s1 & -> & Hs1). cbn [mbind option_bind].
  destruct (feed_loop_ok len s1 _ (take len m) Hs1) as (s2 & -> & Hs2);
    [by apply Forall_take|solve_len|]. cbn [mbind option_bind].
  eexists. split_and!; [done|apply Hs2|by apply settled_unread].
Qed.

(** ** Streams of frames *)

(** A frame on the line with the noise before it (marking bytes, say). *)
Definition segment : Type := list Z * osdp_frame.

Definition seg_ok (sg : segment) : Prop :=
  Forall (λ b, is_byte b ∧ b ≠ OSDP_SOM) sg.1 ∧ frame_typed sg.2 ∧ buildable sg.2.

Definition line_of (segs : list segment) : list Z :=
  concat ((λ sg, sg.1 ++ frame_wire sg.2) <$> segs).

Definition delivered (segs : list segment) : list osdp_frame := (λ sg, decoded_of sg.2) <$> segs.

(** The messages that are complete in the first [n] bytes of the line. *)
Fixpoint completed (segs : list segment) (n : nat) : list osdp_frame :=
  match segs with
  | [] => []
  | sg :: segs =>
      let k := length sg.1 + frame_total sg.2 in
      if decide (k ≤ n) then decoded_of sg.2 :: completed segs (n - k) else []
  end.

(** Feed each chunk, draining after each, as pd.c and acu.c do. *)
Fixpoint feed_all (s : osdp_stream) (chunks : list (list Z)) (o : osdp_frame)
  : option (list osdp_frame * osdp_stream) :=
  match chunks with
  | [] => Ret ([], s)
  | c :: chunks =>
      '(_, s') ← osdp_stream_feed (Some s) (Ptr c) (length c);
      match s' with
      | Some s =>
          '(fs, s, o) ← drain (S (st_fill s)) s o;
          '(fs', s) ← feed_all s chunks o;
          Ret (fs ++ fs', s)
      | None => UB
      end
  end.

Lemma next_step_progress bs st bs' F :
  next_step bs st bs' F → length bs' ≤ length bs ∧ (st ≠ OSDP_ERR_TRUNCATED → length bs' < length bs).
Proof.
  pose proof (length_drop_noise bs).
  destruct 1; unfold len_plausible, OSDP_FRAME_HEADER_LEN, OSDP_FRAME_MIN_LEN_CKSUM in *;
    rewrite ?length_drop; split; (done || lia).
Qed.

Lemma drain_total fuel s o :
  stream_inv s → length (unread s) < fuel →
  ∃ fs s' o', drain fuel s o = Some (fs, s', o') ∧ stream_inv s' ∧
    length (unread s') ≤ length (unread s) ∧ length fs ≤ length (unread s).
Proof.
  revert s o. induction fuel as [|fuel IH]; intros s o Hi Hl; [lia|]. cbn [drain].
  destruct (osdp_stream_next_ok s o Hi) as (st & s' & o' & -> & Hi' & Hstep).
  apply next_step_progress in Hstep as [Hle Hlt]. cbn [mbind option_bind].
  case_decide as Ht.
  { eexists _, _, _. split_and!; [done|done|lia|simpl; lia]. }
  specialize (Hlt Ht). destruct (IH s' o' Hi' ltac:(lia)) as (fs & s2 & o2 & -> & Hi2 & Hle2 & Hfs).
  cbn [mbind option_bind]. eexists _, _, _. split_and!; [done|done|lia|].
  case_decide; simpl; lia.
Qed.

Lemma frame_wire_head f : ∃ w, frame_wire f = OSDP_SOM :: w.
Proof. by eexists. Qed.

Lemma wire_len_field f ext :
  frame_typed f → buildable f → len_field (frame_wire f ++ ext) = frame_total f.
Proof.
  intros Ht Hb. unfold frame_wire, frame_body, header_bytes. cbn [app le_split len_field].
  rewrite le16, !u16_id; [lia|..]; pose proof (bd_total f Hb); unfold is_u16, OSDP_FRAME_MAX_LEN in *;
    rewrite ?u16_id; unfold is_u16; lia.
Qed.

Lemma len_field_prefix p w : 4 ≤ length p → len_field (p ++ w) = len_field p.
Proof. intros. by destruct p as [|? [|? [|? [|]]]]; simpl in *; try lia. Qed.

Lemma wire_plausible f : buildable f → len_plausible (frame_total f).
Proof.
  intros Hb. split; [|apply Hb].
  unfold frame_total, integrity_size, OSDP_FRAME_MIN_LEN_CKSUM, OSDP_FRAME_HEADER_LEN.
  case_decide; lia.
Qed.

(** A strict prefix of a wire image makes the decoder wait; the whole image is
    delivered. *)
Lemma next_step_in_wire bs ext f rest st bs' F :
  frame_typed f → buildable f → bs ++ ext = frame_wire f ++ rest →
  next_step bs st bs' F →
  (length bs < frame_total f ∧ st = OSDP_ERR_TRUNCATED ∧ F = None ∧ bs' = bs) ∨
  (st = OSDP_OK ∧ F = Some (decoded_of f) ∧ bs' ++ ext = rest).
Proof.
  intros Ht Hb E Hstep. pose proof (length_frame_wire f Ht Hb) as Hw.
  pose proof (wire_plausible f Hb) as Hpl.
  assert (drop_noise bs = bs) as Hdn.
  { destruct bs as [|b bs]; [done|]. destruct (frame_wire_head f) as [w Ew].
    rewrite Ew in E. injection E as -> _. cbn [drop_noise]. by rewrite decide_False by naive_solver. }
  assert (5 ≤ length bs → len_field bs = frame_total f) as Hlf.
  { intros. rewrite <-(len_field_prefix bs ext) by lia. rewrite E. by apply wire_len_field. }
  destruct (decide (length bs < frame_total f)) as [Hs|Hs].
  - left. unfold len_plausible, OSDP_FRAME_MIN_LEN_CKSUM in *.
    destruct Hstep as [Hn|H5 Hn|st H1 H2 H3 H4|F H1 H2 H3]; rewrite Hdn in *;
      unfold OSDP_FRAME_HEADER_LEN in *; [done|..]; exfalso.
    + rewrite Hlf in Hn by lia. by apply Hn.
    + destruct H1 as [H1 _]. unfold OSDP_FRAME_MIN_LEN_CKSUM in H1. rewrite Hlf in H2 by lia. lia.
    + destruct H1 as [H1 _]. unfold OSDP_FRAME_MIN_LEN_CKSUM in H1. rewrite Hlf in H2 by lia. lia.
  - right. assert (5 ≤ length bs) as H5
      by (unfold len_plausible, OSDP_FRAME_MIN_LEN_CKSUM in *; lia). specialize (Hlf H5).
    assert (bs = frame_wire f ++ drop (frame_total f) bs) as Hbs.
    { rewrite <-(take_drop (frame_total f) bs) at 1. f_equal.
      rewrite <-(take_app_le bs ext), E by lia. by rewrite <-Hw, take_app_length. }
    assert (take (frame_total f) bs = frame_wire f) as Htk.
    { rewrite Hbs. by rewrite <-Hw, take_app_length. }
    assert (drop (frame_total f) bs ++ ext = rest) as Hrest.
    { rewrite Hbs, <-app_assoc in E. by apply app_inv_head in E. }
    pose proof (osdp_frame_decode_wire_prefix f [] frame_zero Ht Hb) as Hdec.
    rewrite app_nil_r in Hdec.
    destruct Hstep as [Hn|_ Hn|st H1 H2 H3 H4|F H1 H2 H3]; rewrite Hdn, ?Hlf, ?Htk in *.
    + exfalso. unfold OSDP_FRAME_HEADER_LEN in *. lia.
    + done.
    + exfalso.
      destruct (osdp_frame_decode_cases (frame_wire f) (length (frame_wire f)) frame_zero) as
        [(s & Hd & Hs')|[(G & Hd & _)|(G & Hd & HG)]]; [by apply frame_wire_bytes|done|..];
        rewrite Hdec in Hd.
      * by simplify_eq.
      * destruct (uses_crc G); by simplify_eq.
      * rewrite firstn_all in HG. by apply (H4 G).
    + assert (osdp_frame_decode (Ptr (frame_wire f)) (length (frame_wire f)) (Some frame_zero) =
        Some (OSDP_OK, Some F)) as Hd.
      { apply osdp_frame_decode_canonical_ok; [done|]. by rewrite firstn_all. }
      rewrite Hdec in Hd. by simplify_eq.
Qed.

(** Noise is skipped without being reported. *)
Lemma next_step_noise n bs st bs' F :
  Forall (λ b, b ≠ OSDP_SOM) n → next_step (n ++ bs) st bs' F → next_step bs st bs' F.
Proof.
  intros Hn Hstep. pose proof (drop_noise_app n bs Hn) as E.
  destruct Hstep; rewrite E in *; by constructor.
Qed.

Lemma length_wire_rest f r :
  frame_typed f → buildable f → length (frame_wire f ++ r) = frame_total f + length r.
Proof. intros. by rewrite length_app, length_frame_wire. Qed.

Lemma length_wire_line n f r :
  frame_typed f → buildable f →
  length (n ++ frame_wire f ++ r) = length n + (frame_total f + length r).
Proof. intros. by rewrite length_app, length_wire_rest. Qed.

Lemma next_step_nil st bs' F :
  next_step [] st bs' F → st = OSDP_ERR_TRUNCATED ∧ bs' = [] ∧ F = None.
Proof.
  destruct 1 as [_|H5 _|st H1 H2 _ _|F H1 H2 _]; simpl in *; [done|..];
    unfold len_plausible, OSDP_FRAME_HEADER_LEN, OSDP_FRAME_MIN_LEN_CKSUM in *; lia.
Qed.

(** An empty stream has nothing to give. *)
Lemma stream_nothing s o :
  stream_inv s → unread s = [] →
  ∃ s' o', osdp_stream_next (Some s) (Some o) = Some (OSDP_ERR_TRUNCATED, Some s', Some o') ∧
    stream_inv s' ∧ unread s' = [] ∧ osdp_stream_pending (Some s') = 0.
Proof.
  intros Hs Hu. destruct (osdp_stream_next_ok s o Hs) as (st & s' & o' & E & Hs' & Hstep). rewrite Hu in Hstep.
  apply next_step_nil in Hstep as (-> & Hu' & _). exists s', o'. split_and!; [done..|].
  pose proof (length_unread s' Hs') as Hl. rewrite Hu' in Hl. cbn [osdp_stream_pending length] in *. case_decide; lia.
Qed.

(** Skipping [a] bytes of the noise in front of a message. *)
Lemma completed_trim n n' f segs a b k :
  length n + b = length n' + a → completed ((n, f) :: segs) (a + k) = completed ((n', f) :: segs) (b + k).
Proof.
  intros H. cbn [completed fst snd].
  destruct (decide (length n + frame_total f ≤ a + k)); [rewrite decide_True by lia|by rewrite decide_False by lia].
  do 2 f_equal. lia.
Qed.

Lemma next_step_line bs ext segs st bs' F :
  Forall seg_ok segs → bs ++ ext = line_of segs → next_step bs st bs' F →
  (st = OSDP_ERR_TRUNCATED ∧ F = None ∧ ∃ segs', Forall seg_ok segs' ∧
     bs' ++ ext = line_of segs' ∧ delivered segs' = delivered segs ∧ (ext = [] → segs = []) ∧
     match segs with [] => bs' = [] | sg :: _ => length bs' < frame_total sg.2 end ∧
     ∀ k, completed segs (length bs + k) = completed segs' (length bs' + k)) ∨
  (∃ sg segs', segs = sg :: segs' ∧ st = OSDP_OK ∧ F = Some (decoded_of sg.2) ∧
     bs' ++ ext = line_of segs').
Proof.
  intros Hok E Hstep. destruct segs as [|[n f] segs].
  { left. apply app_eq_nil in E as [-> ->].
    apply next_step_nil in Hstep as (-> & -> & ->).
    split_and!; [done|done|]. by exists []. }
  inversion_clear Hok as [|? ? (Hn & Ht & Hb) Hrest]. cbn [fst snd] in *.
  assert (Forall (λ b, b ≠ OSDP_SOM) n) as Hn' by (revert Hn; apply Forall_impl; simpl; tauto).
  unfold line_of in E. cbn [fmap list_fmap concat fst snd] in E. fold (line_of segs) in E.
  rewrite <-app_assoc in E.
  destruct (decide (length bs ≤ length n)) as [Hs|Hs].
  - left. 
    assert (n = bs ++ drop (length bs) n) as En.
    { rewrite <-(take_drop (length bs) n) at 1. f_equal.
      rewrite <-(take_app_le n (frame_wire f ++ line_of segs)), <-E by lia. by rewrite take_app_length. }
    assert (next_step [] st bs' F) as Hstep'.
    { apply (next_step_noise bs); [rewrite En in Hn'; by apply Forall_app in Hn' as [? _]|]. by rewrite app_nil_r. }
    apply next_step_nil in Hstep' as (-> & -> & ->).
    split_and!; [done|done|]. exists ((drop (length bs) n, f) :: segs). split_and!.
    + constructor; [|done]. split_and!; [by apply Forall_drop|done|done].
    + cbn [app]. unfold line_of. cbn [fmap list_fmap concat fst snd]. rewrite <-app_assoc.
      rewrite En, <-app_assoc in E. by apply app_inv_head in E.
    + done.
    + intros ->. exfalso. rewrite app_nil_r in E.
      apply (f_equal length) in E. rewrite ?length_wire_line, ?length_wire_rest in E by done.
      pose proof (wire_plausible f Hb). unfold len_plausible, OSDP_FRAME_MIN_LEN_CKSUM in *.
      cbn [length] in E. lia.
    + cbn [length fst snd]. pose proof (wire_plausible f Hb). unfold len_plausible, OSDP_FRAME_MIN_LEN_CKSUM in *. lia.
    + intros k. apply completed_trim; simpl; rewrite ?length_drop; lia.
  - assert (∃ bs1, bs = n ++ bs1) as [bs1 ->].
    { exists (drop (length n) bs). rewrite <-(take_drop (length n) bs) at 1. f_equal.
      rewrite <-(take_app_le bs ext), E by lia. by rewrite take_app_length. }
    rewrite <-app_assoc in E. apply app_inv_head in E.
    apply next_step_noise in Hstep; [|done].
    destruct (next_step_in_wire bs1 ext f (line_of segs) st bs' F Ht Hb E Hstep)
      as [(Hlt & -> & -> & ->)|(-> & -> & Hr)].
    + left. split_and!; [done|done|]. exists (([], f) :: segs). split_and!; try done.
      * constructor; [|done]. by split_and!.
      * intros ->. exfalso. rewrite app_nil_r in E.
      apply (f_equal length) in E. rewrite ?length_wire_line, ?length_wire_rest in E by done.
        cbn [length] in E. lia.
      * intros k. apply completed_trim; simpl; rewrite ?length_app; lia.
    + right. by eexists _, _.
Qed.

(** Draining a prefix of a line delivers the frames that are complete in it and
    leaves less than one frame behind. *)
Definition leftover_ok (bs : list Z) (segs : list segment) : Prop :=
  match segs with [] => bs = [] | sg :: _ => length bs < frame_total sg.2 end.

(** What is left behind completes nothing. *)
Lemma completed_leftover bs segs : leftover_ok bs segs → completed segs (length bs) = [].
Proof. destruct segs as [|sg segs]; [done|]. simpl. intros H. by rewrite decide_False by lia. Qed.

(** Taking the first message off the line. *)
Lemma completed_next sg segs bs bs' ext k :
  seg_ok sg → bs ++ ext = line_of (sg :: segs) → bs' ++ ext = line_of segs →
  completed (sg :: segs) (length bs + k) = decoded_of sg.2 :: completed segs (length bs' + k).
Proof.
  intros (_ & Ht & Hb) E E'. apply (f_equal length) in E, E'. unfold line_of in *.
  cbn [fmap list_fmap concat] in E. rewrite !length_app, length_frame_wire in * by done. cbn [completed].
  rewrite decide_True by lia. do 2 f_equal. lia.
Qed.

Lemma leftover_delivered segs segs' bs :
  Forall seg_ok segs → Forall seg_ok segs' → delivered segs' = delivered segs →
  match segs with [] => bs = [] | sg :: _ => length bs < frame_total sg.2 end →
  leftover_ok bs segs'.
Proof.
  intros Hok Hok' Hd Hlo. destruct segs as [|sg segs]; destruct segs' as [|sg' segs'']; try done.
  unfold delivered in Hd. cbn [fmap list_fmap] in Hd.
  assert (decoded_of sg'.2 = decoded_of sg.2) as Hd' by congruence. clear Hd.
  apply (f_equal fr_raw_len) in Hd'. cbn [fr_raw_len decoded_of] in Hd'.
  apply Forall_cons_1 in Hok as [(_ & ? & ?) _]. apply Forall_cons_1 in Hok' as [(_ & ? & ?) _].
  rewrite !length_frame_wire in Hd' by done. cbn [leftover_ok]. lia.
Qed.

Lemma drain_line fuel s ext segs o :
  stream_inv s → Forall seg_ok segs → unread s ++ ext = line_of segs →
  length (unread s) < fuel →
  ∃ fs s' o' segs', drain fuel s o = Some (fs, s', o') ∧ stream_inv s' ∧
    Forall seg_ok segs' ∧ unread s' ++ ext = line_of segs' ∧
    delivered segs = fs ++ delivered segs' ∧ (ext = [] → segs' = []) ∧
    leftover_ok (unread s') segs'.
Proof.
  revert s segs o. induction fuel as [|fuel IH]; intros s segs o Hi Hok E Hl; [lia|].
  cbn [drain]. destruct (osdp_stream_next_ok s o Hi) as (st & s1 & o1 & -> & Hi1 & Hstep).
  cbn [mbind option_bind].
  pose proof (next_step_progress _ _ _ _ Hstep) as [Hle Hlt].
  destruct (next_step_line _ ext segs _ _ _ Hok E Hstep)
    as [(-> & _ & segs' & Hok' & E' & Hd & He & Hlo & _)|(sg & segs' & -> & -> & HF & E')].
  - rewrite decide_True by done. eexists [], _, _, segs'. split_and!; try done.
    + intros ->. specialize (He eq_refl). subst segs. by destruct segs'.
    + by apply (leftover_delivered segs).
  - rewrite decide_False by done. rewrite decide_True in HF by done.
    apply Forall_cons_1 in Hok as [Hsg Hok].
    destruct (IH s1 segs' o1 Hi1 Hok E' ltac:(specialize (Hlt ltac:(done)); lia))
      as (fs & s2 & o2 & segs2 & -> & Hi2 & Hok2 & E2 & Hd2 & He2 & Hlo2).
    cbn [mbind option_bind]. rewrite decide_True by done.
    eexists _, _, _, segs2. split_and!; try done.
    unfold delivered in *. cbn [fmap list_fmap app]. rewrite Hd2. by injection HF as ->.
Qed.

Lemma feed_all_line s chunks segs o :
  stream_inv s → Forall seg_ok segs → unread s ++ concat chunks = line_of segs →
  Forall bytes_ok chunks → leftover_ok (unread s) segs →
  Forall (λ c, Forall (λ F, fr_raw_len F + length c ≤ S OSDP_STREAM_BUFFER_LEN) (delivered segs)) chunks →
  (concat chunks = [] → segs = []) →
  ∃ s', feed_all s chunks o = Some (delivered segs, s') ∧ stream_inv s' ∧ unread s' = [].
Proof.
  revert s segs o. induction chunks as [|c chunks IH]; intros s segs o Hi Hok E Hby Hlo Hroom He.
  { rewrite He in * by done. exists s. split_and!; [done|done|]. apply app_eq_nil in E. by destruct E. }
  apply Forall_cons_1 in Hby as [Hc Hby]. apply Forall_cons_1 in Hroom as [Hr Hroom].
  cbn [feed_all].
  assert (length (unread s) + length c ≤ OSDP_STREAM_BUFFER_LEN ∨ c = []) as Hfit.
  { destruct segs as [|sg segs]; simpl in Hlo.
    - rewrite Hlo in E. destruct c; [by right|done].
    - left. apply Forall_cons_1 in Hr as [Hr _]. apply Forall_cons_1 in Hok as [(_ & ? & ?) _].
      cbn beta in Hr. cbn [fr_raw_len decoded_of] in Hr.
      rewrite length_frame_wire in Hr by done. lia. }
  assert (∃ s1, osdp_stream_feed (Some s) (Ptr c) (length c) = Some (OSDP_OK, Some s1) ∧
    stream_inv s1 ∧ unread s1 = unread s ++ c) as (s1 & -> & Hi1 & Hu1).
  { destruct (decide (length c = 0)) as [Hc0|Hc0].
    - apply nil_length_inv in Hc0 as ->. exists s. rewrite app_nil_r. by split_and!.
    - destruct (osdp_stream_feed_ok s c (length c) Hi Hc) as (s1 & -> & Hi1 & Hu1); [lia..|].
      exists s1. split_and!; [done..|]. rewrite Hu1, firstn_all. apply keep_last_id.
      destruct Hfit as [Hf| ->]; [by rewrite length_app|done]. }
  cbn [mbind option_bind]. cbn [concat] in E. rewrite app_assoc, <-Hu1 in E.
  destruct (drain_line (S (st_fill s1)) s1 (concat chunks) segs o Hi1 Hok E)
    as (fs & s2 & o2 & segs2 & -> & Hi2 & Hok2 & E2 & Hd2 & He2 & Hlo2).
  { rewrite length_unread by done. lia. }
  cbn [mbind option_bind].
  assert (Forall (λ c, Forall (λ F, fr_raw_len F + length c ≤ S OSDP_STREAM_BUFFER_LEN)
    (delivered segs2)) chunks) as Hroom2.
  { revert Hroom. apply Forall_impl. intros c' Hc'. simpl in Hc'. rewrite Hd2 in Hc'.
    by apply Forall_app in Hc' as [_ ?]. }
  destruct (IH s2 segs2 o2 Hi2 Hok2 E2 Hby Hlo2 Hroom2 He2) as (s3 & -> & Hi3 & Hu3).
  cbn [mbind option_bind]. exists s3. split_and!; [|done|done]. by rewrite Hd2.
Qed.

(** A stream whose array holds arbitrary bytes and nothing is buffered. *)
Definition fresh_stream (buffer : list Z) : osdp_stream := mk_stream buffer 0 0.

Lemma fresh_stream_inv buffer :
  length buffer = OSDP_STREAM_BUFFER_LEN → bytes_ok buffer → stream_inv (fresh_stream buffer).
Proof. intros. by constructor; simpl; lia || done. Qed.

Definition ex_stream : osdp_stream := fresh_stream (replicate 1440 0%Z).

#[export] Instance stream_inv_dec s : Decision (stream_inv s).
Proof.
  refine (cast_if (decide (length (st_buffer s) = OSDP_STREAM_BUFFER_LEN ∧
    st_fill s ≤ OSDP_STREAM_BUFFER_LEN ∧ st_pending_consume s ≤ st_fill s ∧ bytes_ok (st_buffer s))));
  abstract (try (intros []; tauto); destruct_and!; by constructor).
Defined.

#[export] Instance seg_ok_dec sg : Decision (seg_ok sg).
Proof. unfold seg_ok. apply _. Defined.

(** ** Properties *)

(** C11: Delivery.  A line of well-formed messages, with any bytes other than the
    start-of-message byte between them (marking bytes, say), cut into chunks at any
    places and fed chunk by chunk (each drained as the PD and the ACU do), delivers
    exactly the messages, once each and in order, and leaves nothing behind.  Each
    chunk has to leave room for the message in progress: its length and the length
    of any message of the line sum to at most one more than the 1440 bytes of the
    buffer.  (A start-of-message byte among the noise can cost a message, and an
    overfull buffer drops its oldest bytes.) *)
Theorem stream_delivers_any_chunking s chunks segs o :
  stream_inv s → unread s = [] → Forall seg_ok segs → Forall bytes_ok chunks →
  concat chunks = line_of segs →
  Forall (λ c, Forall (λ sg, frame_total sg.2 + length c ≤ S OSDP_STREAM_BUFFER_LEN) segs) chunks →
  ∃ s', feed_all s chunks o = Some (delivered segs, s') ∧ stream_inv s' ∧ unread s' = [].
Proof.
  intros Hi Hu Hok Hby E Hroom. apply feed_all_line; [done|done|by rewrite Hu|done| | |].
  - destruct segs as [|[n f] segs]; [done|]. simpl. rewrite Hu.
    apply Forall_cons_1 in Hok as [(_ & ? & ?) _]. pose proof (wire_plausible f ltac:(done)) as Hp.
    unfold len_plausible, OSDP_FRAME_MIN_LEN_CKSUM in *. simpl in *. lia.
  - revert Hroom. apply Forall_impl. intros c Hc. unfold delivered. apply Forall_fmap.
    rewrite Forall_forall in Hok. apply Forall_forall. intros sg Hsg.
    rewrite Forall_forall in Hc. cbn beta. cbn [compose fr_raw_len decoded_of].
    destruct (Hok sg Hsg) as (_ & ? & ?).
    rewrite length_frame_wire by done. by apply Hc.
  - intros Hc. rewrite Hc in E. destruct segs as [|[n f] segs]; [done|]. exfalso.
    destruct (frame_wire_head f) as [w Ew]. unfold line_of in E. simpl in E. rewrite Ew in E.
    by destruct n.
Qed.

(** Memory safety and termination.  From any state that satisfies the
    invariant, feeding any bytes and draining with one call per buffered byte is
    defined, ends, and keeps the invariant; the decoder keeps the newest
    [OSDP_STREAM_BUFFER_LEN] bytes. *)
Theorem stream_feed_drain_total s m len o :
  stream_inv s → bytes_ok m → 0 < len → len ≤ length m →
  ∃ s1 fs s2 o2, osdp_stream_feed (Some s) (Ptr m) len = Some (OSDP_OK, Some s1) ∧
    unread s1 = keep_last OSDP_STREAM_BUFFER_LEN (unread s ++ take len m) ∧
    drain (S (osdp_stream_pending (Some s1))) s1 o = Some (fs, s2, o2) ∧ stream_inv s2 ∧
    osdp_stream_pending (Some s2) ≤ osdp_stream_pending (Some s1).
Proof.
  intros Hi Hm Hpos Hl.
  destruct (osdp_stream_feed_ok s m len Hi Hm Hl Hpos) as (s1 & E1 & Hi1 & Hu1).
  assert (∀ t, stream_inv t → osdp_stream_pending (Some t) = length (unread t)) as Hp.
  { intros t Ht. rewrite length_unread by done. simpl. by_cases; lia. }
  destruct (drain_total (S (length (unread s1))) s1 o Hi1) as (fs & s2 & o2 & E2 & Hi2 & Hle & _);
    [lia|].
  exists s1, fs, s2, o2. rewrite !Hp by done. by split_and!.
Qed.

(** A complete message can be held back.  The decoder answers
    [OSDP_ERR_TRUNCATED], which promises that no complete frame is buffered, for
    a seven-byte header that announces a CRC, although it consumed a byte and a
    complete valid message is next: the caller's loop stops on it. *)
Theorem stream_truncated_with_complete_frame :
  ∃ s1 s2, 
    osdp_stream_feed (Some ex_stream) (Ptr ([0x53; 0; 7; 0; 4; 0; 0] ++ frame_wire ex_frame)%Z) 26 =
      Some (OSDP_OK, Some s1) ∧
    osdp_stream_next (Some s1) (Some frame_zero) = Some (OSDP_ERR_TRUNCATED, Some s2, Some frame_zero) ∧
    ∃ s3, osdp_stream_next (Some s2) (Some frame_zero) =
      Some (OSDP_OK, Some s3, Some (decoded_of ex_frame)).
Proof.
  eexists _, _. split; [vm_compute; reflexivity|]. split; [vm_compute; reflexivity|].
  eexists. vm_compute. reflexivity.
Qed.

(** ** Witnesses *)

Lemma stream_delivers_any_chunking_witness :
  ∃ s', feed_all ex_stream
      [0xFF :: take 3 (frame_wire ex_frame); drop 3 (frame_wire ex_frame) ++ [0xFF; 0x00];
       frame_wire ex_frame]%Z frame_zero =
    Some (delivered [([0xFF]%Z, ex_frame); ([0xFF; 0x00]%Z, ex_frame)], s') ∧ stream_inv s' ∧
    unread s' = [].
Proof. apply stream_delivers_any_chunking; vm_decide. Defined.

Lemma stream_feed_drain_total_witness :
  ∃ s1 fs s2 o2, osdp_stream_feed (Some ex_stream) (Ptr [0x53; 1; 2]%Z) 3 = Some (OSDP_OK, Some s1) ∧
    unread s1 = keep_last OSDP_STREAM_BUFFER_LEN (unread ex_stream ++ take 3 [0x53; 1; 2]%Z) ∧
    drain (S (osdp_stream_pending (Some s1))) s1 frame_zero = Some (fs, s2, o2) ∧ stream_inv s2 ∧
    osdp_stream_pending (Some s2) ≤ osdp_stream_pending (Some s1).
Proof. apply stream_feed_drain_total; vm_decide. Defined.
