(* ===== verification/Multipart.v ===== *)
(** * Multi-part messages: osdp_multipart.h and core/src/shared/multipart.c

    The fragment codec, the reassembler and the fragmenter.  [uint16_t] fields
    are [Z], [size_t] fields [nat]; a fragment's [data] is a region of at least
    [frag_len] bytes. *)
From S2P Require Import Prelude Types Pack.

Definition OSDP_MP_HEADER_BYTES : nat := 6.
Definition OSDP_MP_DEFAULT_FRAGMENT_SIZE : nat := 128.

Record osdp_mp_fragment : Type := mk_fragment {
  mf_total_size : Z;
  mf_offset : Z;
  mf_data : ptr;
  mf_frag_len : nat
}.

Inductive osdp_mp_state : Type :=
  | OSDP_MP_IN_PROGRESS
  | OSDP_MP_COMPLETE
  | OSDP_MP_TERMINATED.

Record osdp_mp_reasm : Type := mk_reasm {
  mr_buf : ptr;
  mr_cap : nat;
  mr_total : Z;
  mr_received : Z;
  mr_active : bool
}.

Record osdp_mp_frag_iter : Type := mk_iter {
  mi_msg : ptr;
  mi_msg_len : nat;
  mi_max_frag : nat;
  mi_offset : nat
}.

(** ** Fragment codec *)

Definition osdp_mp_is_early_termination (f : option osdp_mp_fragment) : bool :=
  match f with
  | None => false
  | Some f => bool_decide (mf_frag_len f = 0 ∧ (0 < mf_total_size f)%Z ∧
                           (mf_total_size f ≤ mf_offset f)%Z)
  end.

(** [(uint32_t)offset + (uint32_t)n]. *)
Definition end_of (offset : Z) (n : nat) : Z := u32 (u32 offset + u32 (Z.of_nat n))%Z.

Definition osdp_mp_fragment_decode (payload : ptr) (len : nat) (out : option osdp_mp_fragment)
  : option (osdp_status * option osdp_mp_fragment) :=
  match out with
  | None => Ret (OSDP_ERR_INVALID_ARG, None)
  | Some _ =>
      if decide (payload = NULL ∨ len < OSDP_MP_HEADER_BYTES) then Ret (OSDP_ERR_BAD_PAYLOAD, out) else
      total_size ← osdp_pack_read_u16le payload 0;
      offset ← osdp_pack_read_u16le payload 2;
      frag_size ← osdp_pack_read_u16le payload 4;
      let data_len := len - OSDP_MP_HEADER_BYTES in
      if decide (Z.to_nat frag_size ≠ data_len) then Ret (OSDP_ERR_BAD_PAYLOAD, out) else
      data ← sub_ptr payload OSDP_MP_HEADER_BYTES data_len;
      let o := mk_fragment total_size offset data data_len in
      if osdp_mp_is_early_termination (Some o) then Ret (OSDP_OK, Some o) else
      if decide (u32 total_size < u32 (u32 offset + u32 frag_size))%Z
      then Ret (OSDP_ERR_BAD_PAYLOAD, Some o)
      else Ret (OSDP_OK, Some o)
  end.

Definition osdp_mp_fragment_build (f : option osdp_mp_fragment) (buf : ptr) (buf_cap : nat)
    (written : option nat) : option (osdp_status * ptr * option nat) :=
  match f, written with
  | Some i, Some _ =>
      if is_null buf then Ret (OSDP_ERR_INVALID_ARG, buf, written) else
      if decide (65535 < Z.of_nat (mf_frag_len i))%Z
      then Ret (OSDP_ERR_INVALID_ARG, buf, Some 0) else
      if decide (0 < mf_frag_len i ∧ mf_data i = NULL) then Ret (OSDP_ERR_INVALID_ARG, buf, Some 0) else
      if decide (osdp_mp_is_early_termination (Some i) = false ∧
                 (u32 (mf_total_size i) < end_of (mf_offset i) (mf_frag_len i))%Z)
      then Ret (OSDP_ERR_INVALID_ARG, buf, Some 0) else
      let total := OSDP_MP_HEADER_BYTES + mf_frag_len i in
      if decide (buf_cap < total) then Ret (OSDP_ERR_BUFFER_TOO_SMALL, buf, Some 0) else
      buf ← osdp_pack_write_u16le buf 0 (mf_total_size i);
      buf ← osdp_pack_write_u16le buf 2 (mf_offset i);
      buf ← osdp_pack_write_u16le buf 4 (u16 (Z.of_nat (mf_frag_len i)));
      buf ← (if decide (0 < mf_frag_len i) then
               bs ← rd_slice (mf_data i) 0 (mf_frag_len i);
               wr buf OSDP_MP_HEADER_BYTES bs
             else Ret buf);
      Ret (OSDP_OK, buf, Some total)
  | _, _ => Ret (OSDP_ERR_INVALID_ARG, buf, written)
  end.

(** ** Inbound reassembly *)

Definition osdp_mp_reasm_init (r : option osdp_mp_reasm) (buf : ptr) (cap : nat)
  : option osdp_mp_reasm :=
  match r with
  | None => None
  | Some _ => Some (mk_reasm buf cap 0 0 false)
  end.

Definition osdp_mp_reasm_reset (r : osdp_mp_reasm) : osdp_mp_reasm :=
  mk_reasm (mr_buf r) (mr_cap r) 0 0 false.

(** The sequencing checks: offset 0 (re)starts, a continuation must fit. *)
Definition reasm_accept (r : osdp_mp_reasm) (frag : osdp_mp_fragment)
  : osdp_status + osdp_mp_reasm :=
  if decide (mf_offset frag = 0%Z) then
    if decide (mf_total_size frag = 0%Z) then inl OSDP_ERR_BAD_PAYLOAD else
    if decide (mr_cap r < Z.to_nat (mf_total_size frag)) then inl OSDP_ERR_BUFFER_TOO_SMALL else
    inr (mk_reasm (mr_buf r) (mr_cap r) (mf_total_size frag) 0 true)
  else
    if decide (mr_active r = false ∨ mf_total_size frag ≠ mr_total r)
    then inl OSDP_ERR_BAD_PAYLOAD else
    if decide (mr_received r < mf_offset frag)%Z then inl OSDP_ERR_BAD_PAYLOAD else
    inr r.

Definition osdp_mp_reasm_push (r : option osdp_mp_reasm) (frag : option osdp_mp_fragment)
    (state : option osdp_mp_state)
  : option (osdp_status * option osdp_mp_reasm * option osdp_mp_state) :=
  match r, frag, state with
  | Some r0, Some f, Some _ =>
      if is_null (mr_buf r0) then Ret (OSDP_ERR_INVALID_ARG, r, state) else
      if osdp_mp_is_early_termination frag
      then Ret (OSDP_OK, Some (osdp_mp_reasm_reset r0), Some OSDP_MP_TERMINATED) else
      match reasm_accept r0 f with
      | inl s => Ret (s, r, Some OSDP_MP_IN_PROGRESS)
      | inr r1 =>
          buf ← (if decide (0 < mf_frag_len f) then
                   bs ← rd_slice (mf_data f) 0 (mf_frag_len f);
                   wr (mr_buf r1) (Z.to_nat (mf_offset f)) bs
                 else Ret (mr_buf r1));
          let e := u16 (mf_offset f + Z.of_nat (mf_frag_len f)) in
          let received := if decide (mr_received r1 < e)%Z then e else mr_received r1 in
          let r2 := mk_reasm buf (mr_cap r1) (mr_total r1) received (mr_active r1) in
          Ret (OSDP_OK, Some r2,
               Some (if decide (received = mr_total r1) then OSDP_MP_COMPLETE
                     else OSDP_MP_IN_PROGRESS))
      end
  | _, _, _ => Ret (OSDP_ERR_INVALID_ARG, r, state)
  end.

(** ** Outbound fragmentation *)

Definition osdp_mp_frag_iter_init (it : option osdp_mp_frag_iter) (msg : ptr) (msg_len max_frag : nat)
  : option osdp_mp_frag_iter :=
  match it with
  | None => None
  | Some _ => Some (mk_iter msg msg_len
                (if decide (0 < max_frag) then max_frag else OSDP_MP_DEFAULT_FRAGMENT_SIZE) 0)
  end.

(** [&msg[off]] with [n] readable bytes behind it. *)
Definition ptr_at (p : ptr) (off n : nat) : option ptr := Ptr <$> rd_slice p off n.

Definition osdp_mp_frag_iter_next (it : option osdp_mp_frag_iter) (frag : option osdp_mp_fragment)
  : option (bool * option osdp_mp_frag_iter * option osdp_mp_fragment) :=
  match it, frag with
  | Some i, Some _ =>
      if is_null (mi_msg i) then Ret (false, it, frag) else
      if decide (mi_msg_len i ≤ mi_offset i) then Ret (false, it, frag) else
      let remaining := mi_msg_len i - mi_offset i in
      let this_len := if decide (remaining < mi_max_frag i) then remaining else mi_max_frag i in
      data ← ptr_at (mi_msg i) (mi_offset i) this_len;
      Ret (true,
           Some (mk_iter (mi_msg i) (mi_msg_len i) (mi_max_frag i) (mi_offset i + this_len)),
           Some (mk_fragment (u16 (Z.of_nat (mi_msg_len i))) (u16 (Z.of_nat (mi_offset i))) data
                   this_len))
  | _, _ => Ret (false, it, frag)
  end.

Definition osdp_mp_frag_terminate (frag : option osdp_mp_fragment) (msg_len : nat)
  : option osdp_mp_fragment :=
  match frag with
  | None => None
  | Some _ => Some (mk_fragment (u16 (Z.of_nat msg_len)) (u16 (Z.of_nat msg_len)) NULL 0)
  end.

(** ** Specification *)

(** The wire payload of a fragment. *)
Definition fragment_wire (f : osdp_mp_fragment) : list Z :=
  le_split 2 (mf_total_size f) ++ le_split 2 (mf_offset f) ++
  le_split 2 (Z.of_nat (mf_frag_len f)) ++ view (mf_data f) (mf_frag_len f).

(** The C types of the fields, and the data pointer's contract. *)
Record fragment_typed (f : osdp_mp_fragment) : Prop := {
  mt_total : is_u16 (mf_total_size f);
  mt_offset : is_u16 (mf_offset f);
  mt_data : region_ok (mf_data f) (mf_frag_len f)
}.

(** A fragment inside its message, or the early-termination marker. *)
Record fragment_ok (f : osdp_mp_fragment) : Prop := {
  mo_len : (Z.of_nat (mf_frag_len f) ≤ 65535)%Z;
  mo_data : 0 < mf_frag_len f → mf_data f ≠ NULL;
  mo_fits : osdp_mp_is_early_termination (Some f) = true ∨
    (mf_offset f + Z.of_nat (mf_frag_len f) ≤ mf_total_size f)%Z
}.

Definition fragment_canon (f : osdp_mp_fragment) : osdp_mp_fragment :=
  mk_fragment (mf_total_size f) (mf_offset f)
    (slice_ptr (view (mf_data f) (mf_frag_len f))) (mf_frag_len f).

(** A fragment of the message [msg]: the bytes from [o], [n] of them. *)
Definition genuine (msg : list Z) (f : osdp_mp_fragment) : Prop :=
  ∃ o n, o < length msg ∧ o + n ≤ length msg ∧ mf_total_size f = Z.of_nat (length msg) ∧
    mf_offset f = Z.of_nat o ∧ mf_frag_len f = n ∧ view (mf_data f) n = sl msg o n ∧
    region_ok (mf_data f) n ∧ (0 < n → mf_data f ≠ NULL).

(** The reassembler's invariant: what it holds stays inside the buffer. *)
Record reasm_inv (r : osdp_mp_reasm) : Prop := {
  rv_buf : ∃ m, mr_buf r = Ptr m ∧ mr_cap r ≤ length m;
  rv_total : is_u16 (mr_total r) ∧ Z.to_nat (mr_total r) ≤ mr_cap r;
  rv_received : (0 ≤ mr_received r ≤ mr_total r)%Z
}.

(** It holds the first [k] bytes of [msg]. *)
Definition holds (msg : list Z) (r : osdp_mp_reasm) (k : nat) : Prop :=
  mr_active r = true ∧ mr_total r = Z.of_nat (length msg) ∧ mr_received r = Z.of_nat k ∧
  k ≤ length msg ∧ ∃ m, mr_buf r = Ptr m ∧ agree m msg k.

(** States reachable from a fresh reassembler when every fragment pushed is one
    of [msg]'s, in any order and any number of times, or a termination. *)
Inductive reasm_reach (msg : list Z) (buf : list Z) (cap : nat) : osdp_mp_reasm → Prop :=
  | reach_init : reasm_reach msg buf cap (mk_reasm (Ptr buf) cap 0 0 false)
  | reach_push r f s r' st :
      reasm_reach msg buf cap r → genuine msg f ∨ osdp_mp_is_early_termination (Some f) = true →
      osdp_mp_reasm_push (Some r) (Some f) (Some OSDP_MP_IN_PROGRESS) = Some (s, Some r', Some st) →
      reasm_reach msg buf cap r'
  | reach_reset r : reasm_reach msg buf cap r → reasm_reach msg buf cap (osdp_mp_reasm_reset r).

(** The sender: fragments, each built into a payload, until the iterator ends. *)
Fixpoint send_all (fuel : nat) (it : osdp_mp_frag_iter) (cap : nat) : option (list (list Z)) :=
  match fuel with
  | O => UB
  | S fuel =>
      x ← osdp_mp_frag_iter_next (Some it) (Some (mk_fragment 0 0 NULL 0));
      match x with
      | (false, _, _) => Ret []
      | (true, Some it, Some f) =>
          y ← osdp_mp_fragment_build (Some f) (Ptr (replicate cap 0%Z)) cap (Some 0);
          match y with
          | (OSDP_OK, Ptr m, Some n) => ps ← send_all fuel it cap; Ret (take n m :: ps)
          | _ => UB
          end
      | _ => UB
      end
  end.

(** The receiver: decode each payload and push it. *)
Fixpoint receive_all (r : osdp_mp_reasm) (ps : list (list Z))
  : option (osdp_mp_reasm * list osdp_mp_state) :=
  match ps with
  | [] => Ret (r, [])
  | p :: ps =>
      x ← osdp_mp_fragment_decode (Ptr p) (length p) (Some (mk_fragment 0 0 NULL 0));
      match x with
      | (OSDP_OK, Some f) =>
          y ← osdp_mp_reasm_push (Some r) (Some f) (Some OSDP_MP_IN_PROGRESS);
          match y with
          | (OSDP_OK, Some r, Some st) => '(r, sts) ← receive_all r ps; Ret (r, st :: sts)
          | _ => UB
          end
      | _ => UB
      end
  end.

(** ** Lemmas: the fragment codec *)

Lemma end_of_small o n :
  is_u16 o → (Z.of_nat n ≤ 65535)%Z → end_of o n = (o + Z.of_nat n)%Z.
Proof.
  intros Ho Hn. unfold end_of, is_u16 in *.
  rewrite (u32_id o), (u32_id (Z.of_nat n)) by (unfold is_u32; lia).
  apply u32_id. unfold is_u32. lia.
Qed.

Lemma u16_u32 v : is_u16 v → u32 v = v.
Proof. intros. apply u32_id. unfold is_u32, is_u16 in *. lia. Qed.

Lemma early_termination_ok f :
  osdp_mp_is_early_termination (Some f) = true ↔
  mf_frag_len f = 0 ∧ (0 < mf_total_size f)%Z ∧ (mf_total_size f ≤ mf_offset f)%Z.
Proof. unfold osdp_mp_is_early_termination. apply bool_decide_eq_true. Qed.

(** The check both sides make, on the values themselves. *)
Lemma fits_check f :
  fragment_typed f → (Z.of_nat (mf_frag_len f) ≤ 65535)%Z →
  ((osdp_mp_is_early_termination (Some f) = false ∧
    (u32 (mf_total_size f) < end_of (mf_offset f) (mf_frag_len f))%Z) ↔
   ¬ (osdp_mp_is_early_termination (Some f) = true ∨
      (mf_offset f + Z.of_nat (mf_frag_len f) ≤ mf_total_size f)%Z)).
Proof.
  intros [Ht Ho _] Hn. rewrite end_of_small, u16_u32 by done.
  destruct (osdp_mp_is_early_termination (Some f)); split; intros H.
  - by destruct H.
  - exfalso. apply H. by left.
  - destruct H as [_ H]. intros [|]; [done|lia].
  - split; [done|]. destruct (decide (mf_total_size f < mf_offset f + Z.of_nat (mf_frag_len f))%Z);
      [done|]. exfalso. apply H. right. lia.
Qed.

Lemma length_fragment_wire f :
  fragment_typed f → fragment_ok f → length (fragment_wire f) = 6 + mf_frag_len f.
Proof.
  intros Ht Ho. unfold fragment_wire. rewrite !length_app, !length_le_split.
  rewrite length_view; [lia|apply Ht|apply Ho].
Qed.

Lemma fragment_wire_bytes f : fragment_typed f → bytes_ok (fragment_wire f).
Proof.
  intros Ht. unfold fragment_wire.
  repeat (apply Forall_app; split; [apply le_split_bytes|]). apply view_bytes, Ht.
Qed.

Lemma fragment_build_ok f m cap w :
  fragment_typed f → fragment_ok f → 6 + mf_frag_len f ≤ cap → cap ≤ length m →
  osdp_mp_fragment_build (Some f) (Ptr m) cap (Some w) =
    Some (OSDP_OK, Ptr (fragment_wire f ++ drop (6 + mf_frag_len f) m), Some (6 + mf_frag_len f)).
Proof.
  intros Ht Ho Hc Hm. pose proof (mo_len f Ho). unfold osdp_mp_fragment_build. cbn [is_null].
  rewrite decide_False by lia.
  rewrite decide_False by (intros [Hp Hn]; by apply (mo_data f Ho)).
  rewrite decide_False by (rewrite fits_check by done; intros H'; apply H', Ho).
  unfold OSDP_MP_HEADER_BYTES. rewrite decide_False by lia.
  change (Ptr m) with (Ptr ([] ++ m)).
  rewrite (write_u16le_next [] m 0) by (simpl; lia). cbn [mbind option_bind].
  rewrite (write_u16le_next _ _ 2) by (rewrite ?length_app, ?length_drop, ?length_le_split; simpl; lia).
  cbn [mbind option_bind].
  rewrite (write_u16le_next _ _ 4) by (rewrite ?length_app, ?length_drop, ?length_le_split; simpl; lia).
  cbn [mbind option_bind]. rewrite !drop_drop. cbn [Nat.add].
  rewrite u16_id by (unfold is_u16; lia).
  assert (∀ k, k = 6 + mf_frag_len f → Some (OSDP_OK, Ptr (fragment_wire f ++ drop k m), Some k) =
    Some (OSDP_OK, Ptr (fragment_wire f ++ drop (6 + mf_frag_len f) m), Some (6 + mf_frag_len f)))
    as _ by (by intros ? ->).
  case_decide as Hp.
  - rewrite rd_slice_view by (apply Ht || by apply Ho). cbn [mbind option_bind].
    pose proof (length_view (mf_data f) (mf_frag_len f) (mt_data f Ht) (mo_data f Ho)) as Hv.
    rewrite wr_next by (rewrite ?length_app, ?length_drop, ?length_le_split, ?Hv; simpl; lia).
    cbn [mbind option_bind]. rewrite Hv, drop_drop. unfold fragment_wire. by rewrite <-!app_assoc.
  - cbn [mbind option_bind]. unfold fragment_wire.
    assert (mf_frag_len f = 0) as Hz by lia. rewrite Hz.
    assert (view (mf_data f) 0 = []) as -> by (by destruct (mf_data f)).
    by rewrite <-!app_assoc.
Qed.

Lemma sl_le_split pre v suf i n :
  i = length pre → n = length (le_split 2 v) → sl (pre ++ le_split 2 v ++ suf) i n = le_split 2 v.
Proof.
  intros -> ->. unfold sl. by rewrite drop_app_length, take_app_length.
Qed.

Lemma fragment_decode_wire f ext o :
  fragment_typed f → fragment_ok f → bytes_ok ext →
  osdp_mp_fragment_decode (Ptr (fragment_wire f ++ ext)) (6 + mf_frag_len f) (Some o) =
    Some (OSDP_OK, Some (fragment_canon f)).
Proof.
  intros Ht Ho He. pose proof (mo_len f Ho) as Hl. pose proof (length_fragment_wire f Ht Ho) as Hw.
  pose proof (fragment_wire_bytes f Ht) as Hb.
  assert (bytes_ok (fragment_wire f ++ ext)) as Hbe by (by apply Forall_app).
  unfold osdp_mp_fragment_decode, OSDP_MP_HEADER_BYTES.
  rewrite decide_False by (intros [|]; [done|lia]).
  rewrite (read_u16le_split _ 0 (mf_total_size f)); [|done|solve_len|apply Ht|].
  2:{ unfold fragment_wire. rewrite <-!app_assoc. by apply (sl_le_split []). }
  rewrite (read_u16le_split _ 2 (mf_offset f)); [|done|solve_len|apply Ht|].
  2:{ unfold fragment_wire. rewrite <-!app_assoc. by apply sl_le_split. }
  rewrite (read_u16le_split _ 4 (Z.of_nat (mf_frag_len f))); [|done|solve_len|unfold is_u16; lia|].
  2:{ unfold fragment_wire. rewrite <-!app_assoc.
      rewrite (app_assoc (le_split 2 _) (le_split 2 _)). by apply sl_le_split. }
  cbn [mbind option_bind]. cbv zeta. rewrite Nat2Z.id.
  replace (6 + mf_frag_len f - 6) with (mf_frag_len f) by lia.
  rewrite decide_False by lia.
  rewrite sub_ptr_Ptr by (rewrite length_app; lia). cbn [mbind option_bind].
  assert (take (mf_frag_len f) (drop 6 (fragment_wire f ++ ext)) =
    view (mf_data f) (mf_frag_len f)) as ->.
  { unfold fragment_wire. rewrite <-!app_assoc.
    rewrite (app_assoc (le_split 2 (mf_offset f))), (app_assoc (le_split 2 (mf_total_size f))).
    rewrite drop_app_length' by (by rewrite !length_app, !length_le_split).
    apply take_app_length'. rewrite length_view; [done|apply Ht|apply Ho]. }
  fold (fragment_canon f).
  change (osdp_mp_is_early_termination (Some (fragment_canon f))) with
    (osdp_mp_is_early_termination (Some f)).
  destruct (osdp_mp_is_early_termination (Some f)) eqn:Hterm; [done|].
  fold (end_of (mf_offset f) (mf_frag_len f)). rewrite decide_False; [done|].
  intros Hlt. apply (proj1 (fits_check f Ht Hl)); [done|]. apply Ho.
Qed.

(** Every outcome of the fragment decoder on a readable payload. *)
Lemma fragment_decode_cases m len o :
  bytes_ok m → len ≤ length m →
  (∃ o', osdp_mp_fragment_decode (Ptr m) len (Some o) = Some (OSDP_ERR_BAD_PAYLOAD, Some o')) ∨
  (∃ f, osdp_mp_fragment_decode (Ptr m) len (Some o) = Some (OSDP_OK, Some f) ∧
    fragment_typed f ∧ fragment_ok f ∧ fragment_wire f = take len m ∧ f = fragment_canon f).
Proof.
  intros Hm Hl. unfold osdp_mp_fragment_decode, OSDP_MP_HEADER_BYTES.
  case_decide as H6; [left; by eauto|].
  assert (6 ≤ len) as H6' by (destruct (decide (6 ≤ len)); [done|exfalso; apply H6; right; lia]).
  destruct (read_u16le_ok m 0) as (t & -> & Ht & Hts); [done|lia|].
  destruct (read_u16le_ok m 2) as (ofs & -> & Ho & Hos); [done|lia|].
  destruct (read_u16le_ok m 4) as (n & -> & Hn & Hns); [done|lia|].
  cbn [mbind option_bind]. cbv zeta. case_decide as Hsz; [left; by eauto|].
  rewrite sub_ptr_Ptr by lia. cbn [mbind option_bind]. fold (sl m 6 (len - 6)).
  assert (Z.to_nat n = len - 6) as Hnl by lia. unfold is_u16 in Hn.
  set (f := mk_fragment t ofs (slice_ptr (sl m 6 (len - 6))) (len - 6)).
  assert (u32 (u32 ofs + u32 n)%Z = end_of (mf_offset f) (mf_frag_len f)) as ->.
  { unfold end_of. cbn [mf_offset mf_frag_len f]. rewrite <-Hnl. by rewrite Z2Nat.id by lia. }
  assert (fragment_typed f) as Hft.
  { constructor; [done|done|]. apply sl_region; [done|simpl; lia]. }
  assert (Z.of_nat (mf_frag_len f) ≤ 65535)%Z as Hfl by (simpl; lia).
  assert (fragment_wire f = take len m ∧ f = fragment_canon f) as [Hw Hc].
  { unfold fragment_wire, fragment_canon. cbn [mf_total_size mf_offset mf_data mf_frag_len f].
    rewrite !sl_view by lia. split; [|done].
    rewrite <-Hnl, Z2Nat.id, <-Hts, <-Hos, <-Hns by lia.
    rewrite (sl_app m 4 2), (sl_app m 2 2), (sl_app m 0 2). unfold sl. rewrite drop_0. f_equal. lia. }
  pose proof (fits_check f Hft Hfl) as Hfit.
  assert (0 < mf_frag_len f → mf_data f ≠ NULL) as Hnn by (apply sl_notnull; simpl; lia).
  destruct (osdp_mp_is_early_termination (Some f)) eqn:Hterm.
  - right. exists f. split_and!; [done|done| |done|done].
    constructor; [done|done|]. by left.
  - case_decide as Hov; [left; by eauto|]. right. exists f. split_and!; [done|done| |done|done].
    constructor; [done|done|]. right.
    destruct (decide (mf_offset f + Z.of_nat (mf_frag_len f) ≤ mf_total_size f)%Z) as [|Hgt]; [done|].
    exfalso. apply Hov. apply (proj2 Hfit). by intros [|].
Qed.

(** ** Lemmas: reassembly *)

(** The copy into the reassembly buffer. *)
Lemma reasm_copy m f o :
  region_ok (mf_data f) (mf_frag_len f) → (0 < mf_frag_len f → mf_data f ≠ NULL) →
  o + mf_frag_len f ≤ length m →
  ∃ m', (if decide (0 < mf_frag_len f) then
           bs ← rd_slice (mf_data f) 0 (mf_frag_len f); wr (Ptr m) o bs
         else Ret (Ptr m)) = Some (Ptr m') ∧
    mwr m o (view (mf_data f) (mf_frag_len f)) = Some m' ∧ length m' = length m.
Proof.
  intros Hr Hn Hl. pose proof (length_view _ _ Hr Hn) as Hv. case_decide as Hp.
  - rewrite rd_slice_view by auto. cbn [mbind option_bind wr].
    destruct (mwr m o _) as [m'|] eqn:E.
    + exists m'. split_and!; [done|done|by apply mwr_length in E].
    + rewrite mwr_Some in E by (rewrite Hv; lia). done.
  - exists m. assert (view (mf_data f) (mf_frag_len f) = []) as -> by (apply nil_length_inv; lia).
    split_and!; [done| |done]. rewrite mwr_Some by (simpl; lia).
    simpl. by rewrite Nat.add_0_r, take_drop.
Qed.

(** A decoded fragment is rejected without effect, ends the transfer, or is
    stored inside the buffer; the invariant holds in every case. *)
Lemma reasm_push_safe r f st :
  reasm_inv r → fragment_typed f → fragment_ok f →
  ∃ s r' st', osdp_mp_reasm_push (Some r) (Some f) (Some st) = Some (s, Some r', Some st') ∧
    reasm_inv r' ∧ (s ≠ OSDP_OK → r' = r ∧ st' = OSDP_MP_IN_PROGRESS) ∧
    (st' = OSDP_MP_COMPLETE → mr_received r' = mr_total r' ∧ (0 < mr_total r' ∨ mr_active r = true)%Z).
Proof.
  intros [(m & Hm & Hcap) [Ht Htc] Hr] Hft Hfo. unfold osdp_mp_reasm_push. rewrite Hm. cbn [is_null].
  destruct (osdp_mp_is_early_termination (Some f)) eqn:Hterm.
  { eexists _, _, _. split_and!; [done| |done|done].
    constructor; [exists m; by rewrite <-Hm|simpl; unfold is_u16; lia|simpl; lia]. }
  assert (mf_offset f + Z.of_nat (mf_frag_len f) ≤ mf_total_size f)%Z as Hfit
    by (destruct (mo_fits f Hfo); [congruence|done]).
  pose proof (mt_total f Hft) as Htf. pose proof (mt_offset f Hft) as Hof. unfold is_u16 in *.
  assert (∃ s, reasm_accept r f = inl s ∧ s ≠ OSDP_OK ∨ ∃ rec,
    reasm_accept r f = inr (mk_reasm (Ptr m) (mr_cap r) (mf_total_size f) rec true) ∧
    (0 ≤ rec ≤ mf_total_size f)%Z ∧ Z.to_nat (mf_total_size f) ≤ mr_cap r ∧
    ((0 < mf_total_size f)%Z ∨ mr_active r = true)) as [s [[-> Hs]|(rec & -> & Hrec & Hc & Hpos)]].
  { unfold reasm_accept. rewrite Hm.
    repeat case_decide; try (eexists; left; done).
    - exists OSDP_OK. right. exists 0%Z. split_and!; done || lia.
    - exists OSDP_OK. right. destruct r as [b c t rec a]. simpl in *. exists rec.
      destruct a; [|exfalso; tauto].
      assert (mf_total_size f = t) as -> by (apply dec_stable; tauto).
      subst b. split_and!; try (done || lia). }
  { eexists _, _, _. split_and!; [done| |done|done].
    constructor; [by exists m|unfold is_u16; lia|lia]. }
  cbn [mr_buf mr_cap mr_total mr_received mr_active].
  destruct (reasm_copy m f (Z.to_nat (mf_offset f))) as (m' & -> & _ & Hl);
    [apply Hft|apply Hfo|lia|].
  cbn [mbind option_bind]. rewrite u16_id by (unfold is_u16; lia).
  eexists _, _, _. split_and!; [done| |done|].
  - constructor; simpl; [exists m'; split; [done|lia]|unfold is_u16; lia|case_decide; lia].
  - simpl. intros He. split; [by destruct (decide (_ = mf_total_size f))|done].
Qed.

Lemma genuine_typed msg f :
  genuine msg f → (Z.of_nat (length msg) ≤ 65535)%Z →
  fragment_typed f ∧ fragment_ok f ∧ osdp_mp_is_early_termination (Some f) = false.
Proof.
  intros (o & n & Ho & Hn & Ht & Hof & Hl & Hv & Hr & Hnn) Hmax. split_and!.
  - constructor; [unfold is_u16; lia|unfold is_u16; lia|by rewrite Hl].
  - constructor; [lia|by rewrite Hl|]. right. lia.
  - apply not_true_is_false. rewrite early_termination_ok. lia.
Qed.

(** Pushing a fragment of [msg] onto a reassembler that is idle or holds a
    prefix of [msg]. *)
Lemma reasm_push_genuine msg r f st :
  reasm_inv r → genuine msg f → 0 < length msg ≤ mr_cap r → (Z.of_nat (length msg) ≤ 65535)%Z →
  mr_active r = false ∨ (∃ k, holds msg r k) →
  ∃ s r' st', osdp_mp_reasm_push (Some r) (Some f) (Some st) = Some (s, Some r', Some st') ∧
    mr_cap r' = mr_cap r ∧
    ((s ≠ OSDP_OK ∧ r' = r ∧ st' = OSDP_MP_IN_PROGRESS) ∨
     (s = OSDP_OK ∧ ∃ k,
        (if decide (mf_offset f = 0%Z) then k = 0
         else holds msg r k ∧ Z.to_nat (mf_offset f) ≤ k) ∧
        let k' := k `max` (Z.to_nat (mf_offset f) + mf_frag_len f) in
        holds msg r' k' ∧
        st' = if decide (k' = length msg) then OSDP_MP_COMPLETE else OSDP_MP_IN_PROGRESS)).
Proof.
  intros Hi Hg Hlen Hmax Hst.
  destruct (genuine_typed msg f Hg Hmax) as (Hft & Hfo & Hterm).
  pose proof Hi as [(m & Hm & Hcap) [Htt Htc] Hrr].
  destruct Hg as (o & n & Ho & Hn & Ht & Hof & Hl & Hv & Hr & Hnn).
  unfold osdp_mp_reasm_push. rewrite Hm, Hterm. cbn [is_null].
  assert (∀ k, k ≤ length msg → o ≤ k → agree m msg k →
    ∃ r' , (buf ← (if decide (0 < mf_frag_len f) then
                   bs ← rd_slice (mf_data f) 0 (mf_frag_len f);
                   wr (Ptr m) (Z.to_nat (mf_offset f)) bs
                 else Ret (Ptr m));
       let e := u16 (mf_offset f + Z.of_nat (mf_frag_len f)) in
       let received := if decide (Z.of_nat k < e)%Z then e else Z.of_nat k in
       Ret (OSDP_OK, Some (mk_reasm buf (mr_cap r) (Z.of_nat (length msg)) received true),
            Some (if decide (received = Z.of_nat (length msg)) then OSDP_MP_COMPLETE
                  else OSDP_MP_IN_PROGRESS))) =
      Some (OSDP_OK, Some r',
        Some (if decide (k `max` (o + n) = length msg) then OSDP_MP_COMPLETE
              else OSDP_MP_IN_PROGRESS)) ∧
      mr_cap r' = mr_cap r ∧ holds msg r' (k `max` (o + n))) as Hstore.
  { intros k Hk Hok Hag. rewrite Hof, Nat2Z.id.
    destruct (reasm_copy m f o) as (m' & -> & Hw & Hl'); [by rewrite Hl|by rewrite Hl|lia|].
    cbn [mbind option_bind]. cbv zeta. rewrite Hl in *. rewrite Hv in Hw.
    rewrite u16_id by (unfold is_u16; lia).
    assert ((if decide (Z.of_nat k < Z.of_nat o + Z.of_nat n)%Z then (Z.of_nat o + Z.of_nat n)%Z
      else Z.of_nat k) = Z.of_nat (k `max` (o + n))) as -> by (case_decide; lia).
    eexists. split_and!.
    - do 3 f_equal. apply decide_ext. lia.
    - done.
    - split_and!; [done|done|done|lia|]. exists m'. split; [done|]. by eapply agree_mwr. }
  destruct (decide (mf_offset f = 0%Z)) as [H0|H0].
  - assert (reasm_accept r f = inr (mk_reasm (Ptr m) (mr_cap r) (Z.of_nat (length msg)) 0 true)) as ->.
    { unfold reasm_accept. rewrite decide_True by done. rewrite Ht, Hm, Nat2Z.id.
      rewrite decide_False by lia. by rewrite decide_False by lia. }
    assert (o = 0) as -> by lia.
    destruct (Hstore 0) as (r' & Hs & Hc & Hh); [lia|lia|intros i Hii; lia|].
    cbn [mr_buf mr_cap mr_total mr_received mr_active]. cbv zeta in Hs |- *.
    change (Z.of_nat 0) with 0%Z in Hs. rewrite Hs. eexists _, _, _. split_and!; [done|done|]. right. split; [done|]. exists 0.
    by rewrite Hof, Nat2Z.id, Hl.
  - destruct (decide (mr_active r = false ∨ mf_total_size f ≠ mr_total r ∨
                      (mr_received r < mf_offset f)%Z)) as [Hrej|Hacc].
    + assert (reasm_accept r f = inl OSDP_ERR_BAD_PAYLOAD) as ->.
      { unfold reasm_accept. rewrite decide_False by done. repeat case_decide; tauto. }
      eexists _, _, _; split_and!; [done|done|left; done].
    + assert (reasm_accept r f = inr r) as ->.
      { unfold reasm_accept. rewrite decide_False by done. repeat case_decide; tauto. }
      destruct Hst as [Hst|[k Hk]]; [rewrite Hst in Hacc; tauto|].
      pose proof Hk as (Hact & Htot & Hrec & Hkl & m0 & Hm0 & Hag).
      rewrite Hm in Hm0. injection Hm0 as <-.
      destruct (Hstore k) as (r' & Hs & Hc & Hh); [done|lia|done|].
      cbv zeta in Hs |- *. rewrite Hm, Hrec, Htot, Hact, Hs.
      eexists _, _, _. split_and!; [done|done|]. right. split; [done|]. exists k.
      rewrite Hof, Nat2Z.id, Hl. split; [split; [done|lia]|done].
Qed.

(** An idle reassembler, or one that holds a prefix of [msg]. *)
Definition receiving (msg : list Z) (r : osdp_mp_reasm) : Prop :=
  reasm_inv r ∧ (mr_active r = false ∨ ∃ k, holds msg r k).

Lemma holds_inv msg r k :
  holds msg r k → length msg ≤ mr_cap r → region_ok (mr_buf r) (mr_cap r) →
  (Z.of_nat (length msg) ≤ 65535)%Z → reasm_inv r.
Proof.
  intros (_ & Ht & Hr & Hk & m & Hm & _) Hc Hreg Hmax. constructor.
  - exists m. rewrite Hm in *. split; [done|]. apply Hreg.
  - rewrite Ht. unfold is_u16. lia.
  - rewrite Ht, Hr. lia.
Qed.

Lemma reasm_push_early r f st :
  mr_buf r ≠ NULL → osdp_mp_is_early_termination (Some f) = true →
  osdp_mp_reasm_push (Some r) (Some f) (Some st) =
    Some (OSDP_OK, Some (osdp_mp_reasm_reset r), Some OSDP_MP_TERMINATED).
Proof.
  intros Hb Ht. unfold osdp_mp_reasm_push. rewrite Ht. by destruct (mr_buf r).
Qed.

Lemma reset_receiving msg r : reasm_inv r → receiving msg (osdp_mp_reasm_reset r).
Proof.
  intros [(m & Hm & Hc) [_ Htc] _]. split; [|by left].
  constructor; simpl; [by exists m|unfold is_u16; lia|lia].
Qed.

Lemma reach_receiving msg buf cap r :
  0 < length msg ≤ cap → (Z.of_nat (length msg) ≤ 65535)%Z → cap ≤ length buf →
  reasm_reach msg buf cap r → receiving msg r ∧ mr_cap r = cap.
Proof.
  intros Hlen Hmax Hcap. induction 1 as [|r f s r' st Hr [[Hinv Hst] Hc] Hf Hpush|r Hr [[Hinv Hst] Hc]].
  - split; [|done]. split; [|by left].
    constructor; simpl; [by exists buf|unfold is_u16; lia|lia].
  - destruct Hf as [Hg|Hterm].
    + destruct (genuine_typed msg f Hg Hmax) as (Hft & Hfo & _).
      destruct (reasm_push_safe r f OSDP_MP_IN_PROGRESS Hinv Hft Hfo) as (s1 & r1 & st1 & E1 & Hi1 & _).
      destruct (reasm_push_genuine msg r f OSDP_MP_IN_PROGRESS Hinv Hg ltac:(lia) Hmax Hst)
        as (s2 & r2 & st2 & E2 & Hc2 & Hcase).
      rewrite Hpush in E1, E2. simplify_eq. split; [|congruence]. split; [done|].
      destruct Hcase as [(_ & -> & _)|(_ & k & _ & Hh & _)]; [done|by right; eauto].
    + rewrite reasm_push_early in Hpush; [|by destruct Hinv as [(m & -> & _) _ _]|done].
      simplify_eq. split; [by apply reset_receiving|done].
  - split; [by apply reset_receiving|done].
Qed.

(** *** End to end *)

Definition frag_at (msg : list Z) (o n : nat) : osdp_mp_fragment :=
  mk_fragment (Z.of_nat (length msg)) (Z.of_nat o) (Ptr (sl msg o n)) n.

Lemma frag_at_genuine msg o n :
  bytes_ok msg → o < length msg → o + n ≤ length msg → genuine msg (frag_at msg o n).
Proof.
  intros Hb Ho Hn. exists o, n. pose proof (sl_length msg o n Hn) as Hl. split_and!; try done.
  - simpl. apply take_ge. lia.
  - simpl. split; [lia|by apply sl_bytes].
Qed.

(** How many bytes the fragment at offset [o] carries. *)
Definition step_len (max len o : nat) : nat := (len - o) `min` max.

Lemma frag_iter_next_ok msg max o :
  (Z.of_nat (length msg) ≤ 65535)%Z → o < length msg →
  osdp_mp_frag_iter_next (Some (mk_iter (Ptr msg) (length msg) max o)) (Some (mk_fragment 0 0 NULL 0)) =
    Some (true, Some (mk_iter (Ptr msg) (length msg) max (o + step_len max (length msg) o)),
          Some (frag_at msg o (step_len max (length msg) o))).
Proof.
  intros Hmax Ho. unfold osdp_mp_frag_iter_next. cbn [is_null mi_msg mi_msg_len mi_offset mi_max_frag].
  rewrite decide_False by lia. cbv zeta.
  assert ((if decide (length msg - o < max) then length msg - o else max) =
    step_len max (length msg) o) as -> by (unfold step_len; case_decide; lia).
  unfold ptr_at. cbn [rd_slice]. rewrite mslice_Some by (unfold step_len; lia).
  cbn [fmap option_fmap option_map mbind option_bind].
  rewrite !u16_id by (unfold is_u16; lia). done.
Qed.

(** The payloads the sender puts on the wire from offset [o] on. *)
Fixpoint payloads (fuel : nat) (msg : list Z) (max o : nat) : list (list Z) :=
  match fuel with
  | O => []
  | S fuel =>
      if decide (o < length msg) then
        fragment_wire (frag_at msg o (step_len max (length msg) o)) ::
          payloads fuel msg max (o + step_len max (length msg) o)
      else []
  end.

Lemma send_all_ok fuel msg max cap o :
  bytes_ok msg → (Z.of_nat (length msg) ≤ 65535)%Z → 0 < max → 6 + max ≤ cap →
  length msg - o < fuel →
  send_all fuel (mk_iter (Ptr msg) (length msg) max o) cap = Some (payloads fuel msg max o).
Proof.
  intros Hb Hmax Hpos Hcap. revert o. induction fuel as [|fuel IH]; intros o Hf; [lia|].
  cbn [send_all payloads]. case_decide as Ho.
  - rewrite frag_iter_next_ok by done. cbn [mbind option_bind].
    set (n := step_len max (length msg) o). assert (0 < n ≤ max ∧ o + n ≤ length msg) as [Hn Hn'].
    { unfold n, step_len. lia. }
    destruct (genuine_typed msg (frag_at msg o n)) as (Ht & Hok & _);
      [by apply frag_at_genuine|done|].
    rewrite fragment_build_ok by (rewrite ?length_replicate; simpl; done || lia).
    cbn [mbind option_bind]. rewrite IH by lia. cbn [mbind option_bind]. do 2 f_equal.
    apply take_app_length'. by rewrite length_fragment_wire.
  - unfold osdp_mp_frag_iter_next. cbn [is_null mi_msg mi_msg_len mi_offset mi_max_frag].
    by rewrite decide_True by lia.
Qed.

Lemma reasm_push_next msg r o n :
  bytes_ok msg → receiving msg r → length msg ≤ mr_cap r → (Z.of_nat (length msg) ≤ 65535)%Z →
  o < length msg → 0 < n → o + n ≤ length msg → (o = 0 ∨ holds msg r o) →
  ∃ r', osdp_mp_reasm_push (Some r) (Some (frag_at msg o n)) (Some OSDP_MP_IN_PROGRESS) =
      Some (OSDP_OK, Some r', Some (if decide (o + n = length msg) then OSDP_MP_COMPLETE
                                    else OSDP_MP_IN_PROGRESS)) ∧
    receiving msg r' ∧ holds msg r' (o + n) ∧ mr_cap r' = mr_cap r.
Proof.
  intros Hb [Hinv Hst] Hcap Hmax Ho Hn Hon Hstart.
  pose proof (frag_at_genuine msg o n Hb Ho Hon) as Hg.
  destruct (genuine_typed msg _ Hg Hmax) as (Hft & Hfo & Hterm).
  destruct (reasm_push_safe r (frag_at msg o n) OSDP_MP_IN_PROGRESS Hinv Hft Hfo)
    as (s1 & r1 & st1 & E1 & Hi1 & _).
  destruct (reasm_push_genuine msg r (frag_at msg o n) OSDP_MP_IN_PROGRESS Hinv Hg ltac:(lia) Hmax Hst)
    as (s2 & r2 & st2 & E2 & Hc2 & Hcase). rewrite E2 in E1. simplify_eq.
  destruct Hcase as [(Hbad & -> & _)|(-> & k & Hk & Hh & ->)].
  - exfalso. apply Hbad. revert E2. unfold osdp_mp_reasm_push. rewrite Hterm.
    destruct Hinv as [(m & Hm & Hmc) _ _]. rewrite Hm. cbn [is_null].
    assert (∃ r', reasm_accept r (frag_at msg o n) = inr r') as [r' ->].
    { unfold reasm_accept. cbn [mf_offset mf_total_size frag_at].
      destruct (decide (Z.of_nat o = 0%Z)).
      - rewrite decide_False by lia. rewrite decide_False by lia. by eexists.
      - destruct Hstart as [->|(Ha & Ht & Hr & _)]; [done|]. rewrite Ha, Ht, Hr.
        rewrite decide_False by (intros [|]; done). rewrite decide_False by lia. by eexists. }
    destruct (if decide (0 < mf_frag_len (frag_at msg o n)) then _ else _) as [buf|]; [|done].
    cbn [mbind option_bind]. by intros [= <-].
  - cbn [mf_offset mf_frag_len frag_at] in *. rewrite Nat2Z.id in *.
    assert (k `max` (o + n) = o + n) as Hkm.
    { destruct (decide (Z.of_nat o = 0%Z)).
      - subst k. lia.
      - destruct Hk as [(_ & _ & Hk & _) _].
        destruct Hstart as [->|(_ & _ & Hr & _)]; [done|]. lia. }
    rewrite Hkm in *. exists r1. split_and!; [done| |done|done].
    split; [done|]. right. by eexists.
Qed.

Lemma receive_all_ok fuel msg max r o :
  bytes_ok msg → receiving msg r → length msg ≤ mr_cap r → (Z.of_nat (length msg) ≤ 65535)%Z →
  0 < max → (o = 0 ∨ holds msg r o) → length msg - o < fuel → o < length msg →
  ∃ r' j, receive_all r (payloads fuel msg max o) =
      Some (r', replicate j OSDP_MP_IN_PROGRESS ++ [OSDP_MP_COMPLETE]) ∧
    holds msg r' (length msg).
Proof.
  intros Hb Hr Hcap Hmax Hpos. revert r o Hr Hcap.
  induction fuel as [|fuel IH]; intros r o Hr Hcap Hstart Hf Ho; [lia|].
  cbn [payloads]. rewrite decide_True by done. cbn [receive_all].
  set (n := step_len max (length msg) o). assert (0 < n ≤ max ∧ o + n ≤ length msg) as [Hn Hn'].
  { unfold n, step_len. lia. }
  pose proof (frag_at_genuine msg o n Hb Ho Hn') as Hg.
  destruct (genuine_typed msg (frag_at msg o n) Hg Hmax) as (Ht & Hok & _).
  pose proof (fragment_decode_wire (frag_at msg o n) [] (mk_fragment 0 0 NULL 0) Ht Hok) as Hdec.
  rewrite app_nil_r, <-length_fragment_wire in Hdec by done. rewrite Hdec by constructor.
  cbn [mbind option_bind].
  assert (fragment_canon (frag_at msg o n) = frag_at msg o n) as ->.
  { unfold fragment_canon, frag_at. cbn [mf_total_size mf_offset mf_data mf_frag_len view].
    rewrite take_ge by (rewrite sl_length by lia; lia). unfold slice_ptr.
    by rewrite sl_length, decide_True by lia. }
  destruct (reasm_push_next msg r o n Hb Hr Hcap Hmax Ho ltac:(lia) Hn' Hstart)
    as (r1 & -> & Hr1 & Hh1 & Hc1). cbn [mbind option_bind].
  destruct (decide (o + n = length msg)) as [Hend|Hmore].
  - destruct fuel; cbn [payloads]; rewrite ?decide_False by lia; cbn [receive_all mbind option_bind];
      (exists r1, 0; split; [done|by rewrite <-Hend]).
  - destruct (IH r1 (o + n) Hr1 ltac:(lia) ltac:(by right) ltac:(lia) ltac:(lia))
      as (r2 & j & -> & Hh2). cbn [mbind option_bind].
    exists r2, (S j). by split.
Qed.

#[export] Instance fragment_typed_dec f : Decision (fragment_typed f).
Proof.
  refine (cast_if (decide (is_u16 (mf_total_size f) ∧ is_u16 (mf_offset f) ∧
    region_ok (mf_data f) (mf_frag_len f))));
  abstract (try (intros []; tauto); destruct_and!; by constructor).
Defined.

(** ** Properties *)

(** The fragment header is a bijection between well-formed fragments and
    accepted payloads: building a fragment and decoding the result gives it
    back, and a payload the decoder accepts is exactly what the builder writes
    for the fragment it reports. *)
Theorem fragment_codec_bijective f m cap w o p len :
  fragment_typed f → fragment_ok f → 6 + mf_frag_len f ≤ cap → cap ≤ length m →
  bytes_ok p → len ≤ length p →
  (∃ n m', osdp_mp_fragment_build (Some f) (Ptr m) cap (Some w) = Some (OSDP_OK, Ptr m', Some n) ∧
     osdp_mp_fragment_decode (Ptr (take n m')) n (Some o) = Some (OSDP_OK, Some (fragment_canon f))) ∧
  (∃ s g, osdp_mp_fragment_decode (Ptr p) len (Some o) = Some (s, Some g) ∧
     (s = OSDP_OK → ∀ out cap' w', len ≤ cap' → cap' ≤ length out →
        osdp_mp_fragment_build (Some g) (Ptr out) cap' (Some w') =
          Some (OSDP_OK, Ptr (take len p ++ drop len out), Some len))).
Proof.
  intros Ht Ho Hc Hm Hp Hl. split.
  - eexists _, _. split; [by apply fragment_build_ok|].
    rewrite take_app_length' by (by rewrite length_fragment_wire).
    pose proof (fragment_decode_wire f [] o Ht Ho) as H. rewrite app_nil_r in H. by apply H.
  - destruct (fragment_decode_cases p len o Hp Hl) as [(o' & ->)|(g & -> & Htg & Hog & Hw & _)].
    + eexists _, _. by split.
    + exists OSDP_OK, g. split; [done|]. intros _ out cap' w' Hc' Hout.
      assert (6 + mf_frag_len g = len) as Hlen.
      { rewrite <-length_fragment_wire, Hw by done. by apply length_take_le. }
      rewrite fragment_build_ok by (done || lia). by rewrite Hw, Hlen.
Qed.

(** C18: End to end.  A message of 1 to 65535 bytes cut by the iterator with any
    fragment size, each fragment built into a payload, decoded and pushed, is
    reassembled byte for byte: every push is accepted, the last one and only the
    last reports completion, and both loops end. *)
Theorem multipart_end_to_end msg max cap buf rcap r0 it0 :
  bytes_ok msg → 0 < length msg → (Z.of_nat (length msg) ≤ 65535)%Z →
  6 + (if decide (0 < max) then max else OSDP_MP_DEFAULT_FRAGMENT_SIZE) ≤ cap →
  length msg ≤ rcap → rcap ≤ length buf →
  ∃ it r ps r' m j,
    osdp_mp_frag_iter_init (Some it0) (Ptr msg) (length msg) max = Some it ∧
    osdp_mp_reasm_init (Some r0) (Ptr buf) rcap = Some r ∧
    send_all (S (length msg)) it cap = Some ps ∧
    receive_all r ps = Some (r', replicate j OSDP_MP_IN_PROGRESS ++ [OSDP_MP_COMPLETE]) ∧
    mr_buf r' = Ptr m ∧ take (length msg) m = msg ∧ mr_received r' = Z.of_nat (length msg).
Proof.
  intros Hb Hpos Hmax Hcap Hrc Hbuf.
  set (mx := if decide (0 < max) then max else OSDP_MP_DEFAULT_FRAGMENT_SIZE) in *.
  assert (0 < mx) as Hmx by (unfold mx, OSDP_MP_DEFAULT_FRAGMENT_SIZE; case_decide; lia).
  set (r := mk_reasm (Ptr buf) rcap 0 0 false).
  assert (receiving msg r) as Hr.
  { split; [|by left]. constructor; simpl; [by exists buf|unfold is_u16; lia|lia]. }
  destruct (receive_all_ok (S (length msg)) msg mx r 0 Hb Hr ltac:(done) Hmax Hmx ltac:(by left)
    ltac:(lia) ltac:(lia)) as (r' & j & Hrecv & (_ & _ & Hrv & _ & m & Hm & Hag)).
  assert (length msg ≤ length m) as Hml.
  { destruct (decide (length msg ≤ length m)); [done|exfalso].
    specialize (Hag (length m) ltac:(lia)). rewrite lookup_ge_None_2 in Hag by lia.
    destruct (lookup_lt_is_Some_2 msg (length m)) as [x Hx]; [lia|]. congruence. }
  eexists _, r, _, r', m, j. split_and!; [done|done|by apply send_all_ok; done || lia|done|done| |done].
  apply agree_take in Hag; [|done|done]. by rewrite Hag, firstn_all.
Qed.

(** C19: Completion is never wrong.  Whatever fragments of the message arrive, in
    any order, repeated, restarted or interrupted by terminations and resets,
    every push is defined, the copy stays inside the buffer, and a push that
    reports completion leaves exactly the message in the buffer. *)
Theorem reassembly_never_wrong msg buf cap r f :
  0 < length msg ≤ cap → (Z.of_nat (length msg) ≤ 65535)%Z → cap ≤ length buf →
  reasm_reach msg buf cap r → genuine msg f →
  ∃ s r' st, osdp_mp_reasm_push (Some r) (Some f) (Some OSDP_MP_IN_PROGRESS) =
      Some (s, Some r', Some st) ∧ reasm_inv r' ∧
    (st = OSDP_MP_COMPLETE → view (mr_buf r') (length msg) = msg).
Proof.
  intros Hlen Hmax Hcap Hreach Hg.
  destruct (reach_receiving msg buf cap r Hlen Hmax Hcap Hreach) as [[Hinv Hst] Hc].
  destruct (genuine_typed msg f Hg Hmax) as (Hft & Hfo & _).
  destruct (reasm_push_safe r f OSDP_MP_IN_PROGRESS Hinv Hft Hfo) as (s1 & r1 & st1 & E1 & Hi1 & _).
  destruct (reasm_push_genuine msg r f OSDP_MP_IN_PROGRESS Hinv Hg ltac:(lia) Hmax Hst)
    as (s2 & r2 & st2 & E2 & Hc2 & Hcase).
  rewrite E2 in E1. simplify_eq. exists s1, r1, st1. split_and!; [done|done|]. intros ->.
  destruct Hcase as [(_ & _ & ?)|(_ & k & _ & (_ & Ht & Hr & _ & m & Hm & Hag) & Hst')]; [done|].
  case_decide as Hk; [|done]. rewrite Hk in Hag. rewrite Hm. simpl.
  destruct Hi1 as [(m' & Hm' & Hcm) _ _]. rewrite Hm in Hm'. injection Hm' as <-.
  apply agree_take in Hag; [|lia|done]. by rewrite Hag, firstn_all.
Qed.

(** ** Witnesses *)

Lemma fragment_codec_bijective_witness :
  (∃ n m', osdp_mp_fragment_build (Some (mk_fragment 300 4 (Ptr [7; 8]%Z) 2))
       (Ptr (replicate 16 0%Z)) 16 (Some 0) = Some (OSDP_OK, Ptr m', Some n) ∧
     osdp_mp_fragment_decode (Ptr (take n m')) n (Some (mk_fragment 0 0 NULL 0)) =
       Some (OSDP_OK, Some (fragment_canon (mk_fragment 300 4 (Ptr [7; 8]%Z) 2)))) ∧
  (∃ s g, osdp_mp_fragment_decode (Ptr [2; 0; 0; 0; 1; 0; 9]%Z) 7 (Some (mk_fragment 0 0 NULL 0)) =
       Some (s, Some g) ∧
     (s = OSDP_OK → ∀ out cap' w', 7 ≤ cap' → cap' ≤ length out →
        osdp_mp_fragment_build (Some g) (Ptr out) cap' (Some w') =
          Some (OSDP_OK, Ptr (take 7 [2; 0; 0; 0; 1; 0; 9]%Z ++ drop 7 out), Some 7))).
Proof.
  apply fragment_codec_bijective; try vm_decide. constructor; [vm_decide|done|].
  right. vm_decide.
Defined.

Lemma multipart_end_to_end_witness :
  ∃ it r ps r' m j,
    osdp_mp_frag_iter_init (Some (mk_iter NULL 0 0 0)) (Ptr [1; 2; 3; 4; 5]%Z) 5 2 = Some it ∧
    osdp_mp_reasm_init (Some (mk_reasm NULL 0 0 0 false)) (Ptr (replicate 8 0%Z)) 8 = Some r ∧
    send_all 6 it 8 = Some ps ∧
    receive_all r ps = Some (r', replicate j OSDP_MP_IN_PROGRESS ++ [OSDP_MP_COMPLETE]) ∧
    mr_buf r' = Ptr m ∧ take 5 m = [1; 2; 3; 4; 5]%Z ∧ mr_received r' = 5%Z.
Proof. apply (multipart_end_to_end [1; 2; 3; 4; 5]%Z 2 8); vm_decide. Defined.

Lemma reassembly_never_wrong_witness :
  ∃ s r' st, osdp_mp_reasm_push (Some (mk_reasm (Ptr (replicate 4 0%Z)) 4 0 0 false))
      (Some (frag_at [5; 6; 7]%Z 0 3)) (Some OSDP_MP_IN_PROGRESS) = Some (s, Some r', Some st) ∧
    reasm_inv r' ∧ (st = OSDP_MP_COMPLETE → view (mr_buf r') 3 = [5; 6; 7]%Z).
Proof.
  apply (reassembly_never_wrong [5; 6; 7]%Z (replicate 4 0%Z) 4); try vm_decide.
  - apply reach_init.
  - exists 0, 3. split_and!; try vm_decide; done.
Defined.
