(* ===== verification/ScCrypto.v ===== *)
(** * Secure Channel primitives: osdp_sc.h, osdp_sc_crypto.h and
    core/src/sc/keys.c, cbc.c, mac.c, payload.c

    The block cipher is a parameter: the vtable [osdp_sc_crypto] holds the host's
    AES callbacks ([None] for a null function pointer) and what they return,
    status and 16 output bytes.  [W] is the host state behind [user], which only
    the random source advances.  The reference definitions of Annex D (CBC,
    CBC-MAC, padding) are functions on lists of 16-byte blocks. *)
From S2P Require Import Prelude Types.

Definition OSDP_AES_BLOCK_LEN : nat := 16.
Definition OSDP_AES_KEY_LEN : nat := 16.
Definition OSDP_SC_KEY_LEN : nat := 16.
Definition OSDP_SC_RND_LEN : nat := 8.
Definition OSDP_SC_CUID_LEN : nat := 8.
Definition OSDP_SC_CRYPTOGRAM_LEN : nat := 16.
Definition OSDP_SC_MAC_LEN : nat := 16.
Definition OSDP_SC_MAC_TRUNCATED : nat := 4.

(** A block operation: key and input to status and the contents of [out]. *)
Definition block_fn : Type := list Z → list Z → osdp_status * list Z.

Record osdp_sc_crypto (W : Type) : Type := mk_crypto {
  aes128_ecb_encrypt : option block_fn;
  aes128_ecb_decrypt : option block_fn;
  rand_bytes : option (nat → W → osdp_status * list Z * W) }.
Arguments mk_crypto {_}.
Arguments aes128_ecb_encrypt {_}.
Arguments aes128_ecb_decrypt {_}.
Arguments rand_bytes {_}.

(** A loop whose body returns a status, left early on the first error. *)
Fixpoint loop_status {A} (body : nat → A → option (osdp_status * A)) (i n : nat) (a : A)
  : option (osdp_status * A) :=
  match n with
  | O => Ret (OSDP_OK, a)
  | S n =>
      '(s, a) ← body i a;
      if decide (s ≠ OSDP_OK) then Ret (s, a) else loop_status body (S i) n a
  end.

(** ** keys.c *)

Definition OSDP_SCBK_DEFAULT : list Z :=
  [0x30; 0x31; 0x32; 0x33; 0x34; 0x35; 0x36; 0x37;
   0x38; 0x39; 0x3A; 0x3B; 0x3C; 0x3D; 0x3E; 0x3F]%Z.

Record osdp_sc_session_keys : Type := mk_keys {
  s_enc : list Z; s_mac1 : list Z; s_mac2 : list Z }.

Definition build_derivation_input (selector : Z) (rnd_a : ptr) : option (list Z) :=
  r ← rd_slice rnd_a 0 6;
  Ret ([1%Z; selector] ++ r ++ replicate 8 0%Z).

Definition osdp_sc_derive_session_keys {W} (crypto : option (osdp_sc_crypto W)) (scbk rnd_a : ptr)
    (out : option osdp_sc_session_keys) : option (osdp_status * option osdp_sc_session_keys) :=
  match crypto ≫= aes128_ecb_encrypt, out with
  | Some enc, Some o =>
      if is_null scbk || is_null rnd_a then Ret (OSDP_ERR_INVALID_ARG, out) else
      key ← rd_slice scbk 0 OSDP_SC_KEY_LEN;
      input ← build_derivation_input 0x82 rnd_a;
      let '(s, k) := enc key input in
      let o := mk_keys k (s_mac1 o) (s_mac2 o) in
      if decide (s ≠ OSDP_OK) then Ret (s, Some o) else
      input ← build_derivation_input 0x01 rnd_a;
      let '(s, k) := enc key input in
      let o := mk_keys (s_enc o) k (s_mac2 o) in
      if decide (s ≠ OSDP_OK) then Ret (s, Some o) else
      input ← build_derivation_input 0x02 rnd_a;
      let '(s, k) := enc key input in
      let o := mk_keys (s_enc o) (s_mac1 o) k in
      if decide (s ≠ OSDP_OK) then Ret (s, Some o) else
      Ret (OSDP_OK, Some o)
  | _, _ => Ret (OSDP_ERR_INVALID_ARG, out)
  end.

Definition cryptogram {W} (crypto : option (osdp_sc_crypto W)) (s_enc a b out : ptr)
  : option (osdp_status * ptr) :=
  match crypto ≫= aes128_ecb_encrypt with
  | Some enc =>
      if is_null s_enc || is_null a || is_null b || is_null out
      then Ret (OSDP_ERR_INVALID_ARG, out) else
      x ← rd_slice a 0 OSDP_SC_RND_LEN;
      y ← rd_slice b 0 OSDP_SC_RND_LEN;
      key ← rd_slice s_enc 0 OSDP_SC_KEY_LEN;
      let '(s, c) := enc key (x ++ y) in
      out ← wr out 0 c;
      Ret (s, out)
  | None => Ret (OSDP_ERR_INVALID_ARG, out)
  end.

Definition osdp_sc_client_cryptogram {W} (crypto : option (osdp_sc_crypto W))
    (s_enc rnd_a rnd_b out : ptr) : option (osdp_status * ptr) :=
  cryptogram crypto s_enc rnd_a rnd_b out.

Definition osdp_sc_server_cryptogram {W} (crypto : option (osdp_sc_crypto W))
    (s_enc rnd_a rnd_b out : ptr) : option (osdp_status * ptr) :=
  cryptogram crypto s_enc rnd_b rnd_a out.

Definition osdp_sc_initial_rmac {W} (crypto : option (osdp_sc_crypto W))
    (s_mac1 s_mac2 server_crypto out : ptr) : option (osdp_status * ptr) :=
  match crypto ≫= aes128_ecb_encrypt with
  | Some enc =>
      if is_null s_mac1 || is_null s_mac2 || is_null server_crypto || is_null out
      then Ret (OSDP_ERR_INVALID_ARG, out) else
      k1 ← rd_slice s_mac1 0 OSDP_SC_KEY_LEN;
      k2 ← rd_slice s_mac2 0 OSDP_SC_KEY_LEN;
      x ← rd_slice server_crypto 0 OSDP_SC_CRYPTOGRAM_LEN;
      let '(s, intermediate) := enc k1 x in
      if decide (s ≠ OSDP_OK) then Ret (s, out) else
      let '(s, c) := enc k2 intermediate in
      out ← wr out 0 c;
      Ret (s, out)
  | None => Ret (OSDP_ERR_INVALID_ARG, out)
  end.

(** ** cbc.c *)

Definition xor_block (a b : list Z) : list Z := zip_with (λ x y, u8 (Z.lxor x y)) a b.

(** The input operand of a CBC call: a region of its own, or the output buffer
    itself ([ciphertext == plaintext]). *)
Inductive operand : Type :=
  | From (p : ptr)
  | In_place.

Definition read_operand (src : operand) (dst : ptr) (off n : nat) : option (list Z) :=
  match src with From p => rd_slice p off n | In_place => rd_slice dst off n end.

Definition operand_null (src : operand) : bool :=
  match src with From p => is_null p | In_place => false end.

Definition cbc_encrypt_block (enc : block_fn) (key : list Z) (plaintext : operand) (b : nat)
    (st : ptr * list Z) : option (osdp_status * (ptr * list Z)) :=
  let '(ciphertext, chain) := st in
  p ← read_operand plaintext ciphertext (b * OSDP_AES_BLOCK_LEN) OSDP_AES_BLOCK_LEN;
  let '(s, c) := enc key (xor_block p chain) in
  ciphertext ← wr ciphertext (b * OSDP_AES_BLOCK_LEN) c;
  if decide (s ≠ OSDP_OK) then Ret (s, (ciphertext, chain)) else
  chain ← rd_slice ciphertext (b * OSDP_AES_BLOCK_LEN) OSDP_AES_BLOCK_LEN;
  Ret (OSDP_OK, (ciphertext, chain)).

Definition osdp_sc_cbc_encrypt {W} (crypto : option (osdp_sc_crypto W)) (key iv : ptr)
    (plaintext : operand) (len : nat) (ciphertext : ptr) : option (osdp_status * ptr) :=
  match crypto ≫= aes128_ecb_encrypt with
  | Some enc =>
      if is_null key || is_null iv || operand_null plaintext || is_null ciphertext
      then Ret (OSDP_ERR_INVALID_ARG, ciphertext) else
      if decide (len = 0 ∨ len mod OSDP_AES_BLOCK_LEN ≠ 0)
      then Ret (OSDP_ERR_INVALID_ARG, ciphertext) else
      k ← rd_slice key 0 OSDP_SC_KEY_LEN;
      chain ← rd_slice iv 0 OSDP_AES_BLOCK_LEN;
      '(s, (ciphertext, _)) ←
        loop_status (cbc_encrypt_block enc k plaintext) 0 (len / OSDP_AES_BLOCK_LEN) (ciphertext, chain);
      Ret (s, ciphertext)
  | None => Ret (OSDP_ERR_INVALID_ARG, ciphertext)
  end.

Definition cbc_decrypt_block (dec : block_fn) (key : list Z) (ciphertext : operand) (b : nat)
    (st : ptr * list Z) : option (osdp_status * (ptr * list Z)) :=
  let '(plaintext, prev) := st in
  cur_ct ← read_operand ciphertext plaintext (b * OSDP_AES_BLOCK_LEN) OSDP_AES_BLOCK_LEN;
  let '(s, decrypted) := dec key cur_ct in
  if decide (s ≠ OSDP_OK) then Ret (s, (plaintext, prev)) else
  plaintext ← wr plaintext (b * OSDP_AES_BLOCK_LEN) (xor_block decrypted prev);
  Ret (OSDP_OK, (plaintext, cur_ct)).

Definition osdp_sc_cbc_decrypt {W} (crypto : option (osdp_sc_crypto W)) (key iv : ptr)
    (ciphertext : operand) (len : nat) (plaintext : ptr) : option (osdp_status * ptr) :=
  match crypto with
  | Some c =>
      if is_null key || is_null iv || operand_null ciphertext || is_null plaintext
      then Ret (OSDP_ERR_INVALID_ARG, plaintext) else
      match aes128_ecb_decrypt c with
      | None => Ret (OSDP_ERR_NOT_SUPPORTED, plaintext)
      | Some dec =>
          if decide (len = 0 ∨ len mod OSDP_AES_BLOCK_LEN ≠ 0)
          then Ret (OSDP_ERR_INVALID_ARG, plaintext) else
          k ← rd_slice key 0 OSDP_SC_KEY_LEN;
          prev ← rd_slice iv 0 OSDP_AES_BLOCK_LEN;
          '(s, (plaintext, _)) ←
            loop_status (cbc_decrypt_block dec k ciphertext) 0 (len / OSDP_AES_BLOCK_LEN) (plaintext, prev);
          Ret (s, plaintext)
      end
  | None => Ret (OSDP_ERR_INVALID_ARG, plaintext)
  end.

(** ** mac.c *)

(** The block at index [b]: whole from the message, or the rest of it padded. *)
Definition mac_block (msg : ptr) (len b : nat) : option (list Z) :=
  let block_off := b * OSDP_AES_BLOCK_LEN in
  if decide (block_off + OSDP_AES_BLOCK_LEN ≤ len) then rd_slice msg block_off OSDP_AES_BLOCK_LEN
  else
    let avail := len - block_off in
    bs ← (if decide (0 < avail) then rd_slice msg block_off avail else Ret []);
    Ret (bs ++ [0x80%Z] ++ replicate (OSDP_AES_BLOCK_LEN - avail - 1) 0%Z).

Definition mac_step (enc : block_fn) (k1 k2 : list Z) (msg : ptr) (len total_blocks b : nat)
    (chain : list Z) : option (osdp_status * list Z) :=
  block ← mac_block msg len b;
  let key := if decide (b = total_blocks - 1) then k2 else k1 in
  let '(s, cipher) := enc key (xor_block block chain) in
  if decide (s ≠ OSDP_OK) then Ret (s, chain) else Ret (OSDP_OK, cipher).

Definition osdp_sc_compute_mac {W} (crypto : option (osdp_sc_crypto W)) (s_mac1 s_mac2 icv msg : ptr)
    (len : nat) (out : ptr) : option (osdp_status * ptr) :=
  match crypto ≫= aes128_ecb_encrypt with
  | Some enc =>
      if is_null s_mac1 || is_null s_mac2 || is_null icv || is_null out
      then Ret (OSDP_ERR_INVALID_ARG, out) else
      if decide (0 < len ∧ msg = NULL) then Ret (OSDP_ERR_INVALID_ARG, out) else
      k1 ← rd_slice s_mac1 0 OSDP_SC_KEY_LEN;
      k2 ← rd_slice s_mac2 0 OSDP_SC_KEY_LEN;
      chain ← rd_slice icv 0 OSDP_AES_BLOCK_LEN;
      let remainder := len mod OSDP_AES_BLOCK_LEN in
      let padded_len := if decide (remainder = 0 ∧ 0 < len) then len
                        else len - remainder + OSDP_AES_BLOCK_LEN in
      if decide (padded_len = 0) then
        let block := 0x80%Z :: replicate 15 0%Z in
        let '(s, c) := enc k2 (xor_block block chain) in
        out ← wr out 0 c;
        Ret (s, out)
      else
        let total_blocks := padded_len / OSDP_AES_BLOCK_LEN in
        '(s, chain) ← loop_status (mac_step enc k1 k2 msg len total_blocks) 0 total_blocks chain;
        if decide (s ≠ OSDP_OK) then Ret (s, out) else
        out ← wr out 0 (take OSDP_SC_MAC_LEN chain);
        Ret (OSDP_OK, out)
  | None => Ret (OSDP_ERR_INVALID_ARG, out)
  end.

(** ** payload.c *)

Definition invert_iv (m : list Z) : list Z := (λ b, u8 (Z.lnot b)) <$> m.

Definition osdp_sc_encrypt_payload {W} (crypto : option (osdp_sc_crypto W))
    (s_enc last_inbound_mac plaintext : ptr) (plaintext_len : nat) (ciphertext : ptr)
    (ciphertext_cap : nat) (ciphertext_len : option nat)
  : option (osdp_status * ptr * option nat) :=
  match crypto, ciphertext_len with
  | Some _, Some _ =>
      if is_null s_enc || is_null last_inbound_mac || is_null ciphertext
      then Ret (OSDP_ERR_INVALID_ARG, ciphertext, ciphertext_len) else
      if decide (0 < plaintext_len ∧ plaintext = NULL)
      then Ret (OSDP_ERR_INVALID_ARG, ciphertext, ciphertext_len) else
      let padded_len := (plaintext_len / OSDP_AES_BLOCK_LEN + 1) * OSDP_AES_BLOCK_LEN in
      if decide (ciphertext_cap < padded_len)
      then Ret (OSDP_ERR_BUFFER_TOO_SMALL, ciphertext, Some 0) else
      ciphertext ← (if decide (0 < plaintext_len) then
                      bs ← rd_slice plaintext 0 plaintext_len; wr ciphertext 0 bs
                    else Ret ciphertext);
      ciphertext ← wr ciphertext plaintext_len [0x80%Z];
      ciphertext ← (if decide (plaintext_len + 1 < padded_len) then
                      wr ciphertext (plaintext_len + 1) (replicate (padded_len - plaintext_len - 1) 0%Z)
                    else Ret ciphertext);
      mac ← rd_slice last_inbound_mac 0 OSDP_SC_MAC_LEN;
      '(r, ciphertext) ← osdp_sc_cbc_encrypt crypto s_enc (Ptr (invert_iv mac)) In_place padded_len ciphertext;
      if decide (r ≠ OSDP_OK) then Ret (r, ciphertext, Some 0) else
      Ret (OSDP_OK, ciphertext, Some padded_len)
  | _, _ => Ret (OSDP_ERR_INVALID_ARG, ciphertext, ciphertext_len)
  end.

(** The walk back over the padding: the index of the marker, if it is there. *)
Fixpoint find_marker (plaintext : ptr) (i : nat) : option (option nat) :=
  match i with
  | O => Ret None
  | S i =>
      x ← rd plaintext i;
      if decide (x = 0x80%Z) then Ret (Some i)
      else if decide (x ≠ 0%Z) then Ret None
      else find_marker plaintext i
  end.

Definition osdp_sc_decrypt_payload {W} (crypto : option (osdp_sc_crypto W))
    (s_enc last_outbound_mac ciphertext : ptr) (ciphertext_len : nat) (plaintext : ptr)
    (plaintext_cap : nat) (plaintext_len : option nat) : option (osdp_status * ptr * option nat) :=
  match crypto, plaintext_len with
  | Some _, Some _ =>
      if is_null s_enc || is_null last_outbound_mac
      then Ret (OSDP_ERR_INVALID_ARG, plaintext, plaintext_len) else
      if decide (0 < ciphertext_len ∧ ciphertext = NULL)
      then Ret (OSDP_ERR_INVALID_ARG, plaintext, plaintext_len) else
      if decide (0 < plaintext_cap ∧ plaintext = NULL)
      then Ret (OSDP_ERR_INVALID_ARG, plaintext, plaintext_len) else
      if decide (ciphertext_len = 0 ∨ ciphertext_len mod OSDP_AES_BLOCK_LEN ≠ 0)
      then Ret (OSDP_ERR_BAD_PAYLOAD, plaintext, Some 0) else
      if decide (plaintext_cap < ciphertext_len)
      then Ret (OSDP_ERR_BUFFER_TOO_SMALL, plaintext, Some 0) else
      mac ← rd_slice last_outbound_mac 0 OSDP_SC_MAC_LEN;
      '(r, plaintext) ←
        osdp_sc_cbc_decrypt crypto s_enc (Ptr (invert_iv mac)) (From ciphertext) ciphertext_len plaintext;
      if decide (r ≠ OSDP_OK) then Ret (r, plaintext, Some 0) else
      m ← find_marker plaintext ciphertext_len;
      match m with
      | Some i => Ret (OSDP_OK, plaintext, Some i)
      | None => Ret (OSDP_ERR_BAD_PAYLOAD, plaintext, Some 0)
      end
  | _, _ => Ret (OSDP_ERR_INVALID_ARG, plaintext, plaintext_len)
  end.

(** ** Annex D on lists of blocks *)

Definition block (b : list Z) : Prop := length b = OSDP_AES_BLOCK_LEN ∧ bytes_ok b.

#[export] Instance block_dec b : Decision (block b).
Proof. unfold block. apply _. Defined.

Fixpoint blocks (n : nat) (m : list Z) : list (list Z) :=
  match n with O => [] | S n => take 16 m :: blocks n (drop 16 m) end.

Fixpoint cbc_enc (E : list Z → list Z) (iv : list Z) (bs : list (list Z)) : list (list Z) :=
  match bs with
  | [] => []
  | b :: bs => let c := E (xor_block b iv) in c :: cbc_enc E c bs
  end.

Fixpoint cbc_dec (D : list Z → list Z) (iv : list Z) (cs : list (list Z)) : list (list Z) :=
  match cs with
  | [] => []
  | c :: cs => xor_block (D c) iv :: cbc_dec D c cs
  end.

(** CBC-MAC with the last block under a second key. *)
Fixpoint cbc_mac (E1 E2 : list Z → list Z) (icv : list Z) (bs : list (list Z)) : list Z :=
  match bs with
  | [] => icv
  | [b] => E2 (xor_block b icv)
  | b :: bs => cbc_mac E1 E2 (E1 (xor_block b icv)) bs
  end.

(** An 8-byte random number. *)
Definition rnd_ok (r : list Z) : Prop := length r = OSDP_SC_RND_LEN ∧ bytes_ok r.

#[export] Instance rnd_ok_dec r : Decision (rnd_ok r).
Proof. unfold rnd_ok. apply _. Defined.

(** The marker 0x80 and zeros up to the block size. *)
Definition pad_bytes (n : nat) : list Z := 0x80%Z :: replicate (15 - n mod 16) 0%Z.

(** D.4.5: payloads are always padded. *)
Definition pad_payload (m : list Z) : list Z := m ++ pad_bytes (length m).

(** D.5: messages are padded unless they fill their blocks. *)
Definition pad_mac (m : list Z) : list Z :=
  if decide (length m mod 16 = 0 ∧ 0 < length m) then m else m ++ pad_bytes (length m).

(** What the code relies on of the host's cipher (osdp_sc_crypto.h): the
    callbacks do not fail on 16-byte operands, write 16 bytes, and decryption
    inverts encryption under the same key. *)
Class Aes {W} (c : osdp_sc_crypto W) (E D : list Z → list Z → list Z) : Prop := {
  aes_encrypt : ∃ f, aes128_ecb_encrypt c = Some f ∧
    ∀ k b, block k → block b → f k b = (OSDP_OK, E k b);
  aes_decrypt : ∃ f, aes128_ecb_decrypt c = Some f ∧
    ∀ k b, block k → block b → f k b = (OSDP_OK, D k b);
  aes_E_block : ∀ k b, block k → block b → block (E k b);
  aes_D_block : ∀ k b, block k → block b → block (D k b);
  aes_D_E : ∀ k b, block k → block b → D k (E k b) = b }.

(** ** Lemmas on blocks *)

Lemma rd_all m n : length m = n → rd_slice (Ptr m) 0 n = Some m.
Proof. intros <-. cbn [rd_slice]. by rewrite mslice_Some, drop_0, firstn_all by lia. Qed.

Lemma rd_front bs suf n : n = length bs → rd_slice (Ptr (bs ++ suf)) 0 n = Some bs.
Proof. intros ->. by apply (rd_slice_app []). Qed.

Lemma rd_block x : block x → rd_slice (Ptr x) 0 16 = Some x.
Proof. intros [Hx _]. by apply rd_all. Qed.

Lemma rd_rnd x : rnd_ok x → rd_slice (Ptr x) 0 8 = Some x.
Proof. intros [Hx _]. by apply rd_all. Qed.

#[export] Hint Resolve rd_block rd_rnd : osdp.

Lemma blocks_length n m : length (blocks n m) = n.
Proof. revert m. induction n; simpl; auto. Qed.

Lemma blocks_concat n m : length m = 16 * n → concat (blocks n m) = m.
Proof.
  revert m. induction n as [|n IH]; intros m Hl; simpl.
  - destruct m; [done|simpl in Hl; lia].
  - rewrite IH by solve_len. apply take_drop.
Qed.

Lemma blocks_ok n m : length m = 16 * n → bytes_ok m → Forall block (blocks n m).
Proof.
  revert m. induction n as [|n IH]; intros m Hl Hm; simpl; constructor.
  - split; [rewrite length_take_le by lia; done|by apply Forall_take].
  - apply IH; [solve_len|by apply Forall_drop].
Qed.

Lemma concat_blocks_len bs : Forall block bs → length (concat bs) = 16 * length bs.
Proof.
  induction 1 as [|b bs [Hb _] _ IH]; [done|]. simpl. rewrite length_app, IH, Hb.
  unfold OSDP_AES_BLOCK_LEN. lia.
Qed.

Lemma concat_blocks_bytes bs : Forall block bs → bytes_ok (concat bs).
Proof. induction 1 as [|b bs [_ Hb] _ IH]; [constructor|]. simpl. by apply Forall_app. Qed.

Lemma blocks_of_concat bs : Forall block bs → blocks (length bs) (concat bs) = bs.
Proof.
  induction 1 as [|b bs [Hb _] _ IH]; [done|]. simpl.
  rewrite take_app_length', drop_app_length' by done. by rewrite IH.
Qed.

Lemma xor_block_ok a b : block a → block b → block (xor_block a b).
Proof.
  intros [La Ha] [Lb Hb]. split.
  - unfold xor_block. rewrite length_zip_with, La, Lb. done.
  - unfold xor_block. apply Forall_lookup. intros i x Hx.
    apply lookup_zip_with_Some in Hx as (p & q & -> & _). apply u8_byte.
Qed.

Lemma xor_block_cancel a b : block a → block b → xor_block (xor_block a b) b = a.
Proof.
  intros [La Ha] [Lb Hb]. unfold OSDP_AES_BLOCK_LEN in *.
  assert (length a = length b) as Hl by congruence. clear La Lb.
  revert b Hb Hl. induction Ha as [|x a Hx Ha IH]; intros [|y b] Hb Hl; try done.
  apply Forall_cons_1 in Hb as [Hy Hb]. simpl. f_equal.
  - rewrite (u8_id (Z.lxor x y)) by (by apply byte_lxor).
    rewrite Z.lxor_assoc, Z.lxor_nilpotent, Z.lxor_0_r. by apply u8_id.
  - apply IH; [done|simpl in Hl; lia].
Qed.

Lemma cbc_enc_ok {E iv bs} :
  (∀ b, block b → block (E b)) → block iv → Forall block bs → Forall block (cbc_enc E iv bs).
Proof.
  intros HE Hiv Hbs. revert iv Hiv. induction Hbs as [|b bs Hb _ IH]; intros iv Hiv; simpl; [done|].
  assert (block (E (xor_block b iv))) by (by apply HE, xor_block_ok). constructor; auto.
Qed.

Lemma cbc_enc_length E iv bs : length (cbc_enc E iv bs) = length bs.
Proof. revert iv. induction bs; intros; simpl; auto. Qed.

Lemma cbc_dec_enc E D iv bs :
  (∀ b, block b → block (E b)) → (∀ b, block b → D (E b) = b) → block iv → Forall block bs →
  cbc_dec D iv (cbc_enc E iv bs) = bs.
Proof.
  intros HE HD Hiv Hbs. revert iv Hiv. induction Hbs as [|b bs Hb _ IH]; intros iv Hiv; simpl; [done|].
  assert (block (xor_block b iv)) by (by apply xor_block_ok).
  rewrite HD, xor_block_cancel by done. f_equal. apply IH. by apply HE.
Qed.

Lemma cbc_dec_ok {D iv cs} :
  (∀ b, block b → block (D b)) → block iv → Forall block cs → Forall block (cbc_dec D iv cs).
Proof.
  intros HD Hiv Hcs. revert iv Hiv. induction Hcs as [|c cs Hc _ IH]; intros iv Hiv; simpl; [done|].
  constructor; [|by apply IH]. apply xor_block_ok; [by apply HD|done].
Qed.

Lemma cbc_dec_length D iv cs : length (cbc_dec D iv cs) = length cs.
Proof. revert iv. induction cs; intros; simpl; auto. Qed.

Lemma invert_iv_block m : block m → block (invert_iv m).
Proof.
  intros [Hl Hm]. unfold invert_iv, block. rewrite length_fmap. split; [done|].
  apply Forall_fmap, Forall_true. intros. apply u8_byte.
Qed.

Lemma pad_payload_blocks m :
  bytes_ok m → length (pad_payload m) = 16 * (length m / 16 + 1) ∧ bytes_ok (pad_payload m).
Proof.
  intros Hm. unfold pad_payload, pad_bytes. split.
  - rewrite length_app. cbn [length]. rewrite length_replicate.
    pose proof (Nat.div_mod_eq (length m) 16). pose proof (Nat.mod_upper_bound (length m) 16). lia.
  - apply Forall_app. split; [done|]. constructor; [done|]. by apply Forall_replicate.
Qed.

Lemma pad_mac_blocks m :
  bytes_ok m → ∃ n, length (pad_mac m) = 16 * n ∧ 0 < n ∧ bytes_ok (pad_mac m).
Proof.
  intros Hm. unfold pad_mac. case_decide as H.
  - exists (length m / 16). pose proof (Nat.div_mod_eq (length m) 16). split_and!; [lia|lia|done].
  - exists (length m / 16 + 1). destruct (pad_payload_blocks m Hm) as [? ?]. split_and!; [done|lia|done].
Qed.

(** ** The loops compute the reference *)

(** The operand designates the blocks [bs] from block index [i] on; [old] is what
    the output buffer holds there. *)
Definition operand_at (src : operand) (i : nat) (old : list Z) (bs : list (list Z)) : Prop :=
  match src with
  | In_place => old = concat bs
  | From p => ∃ pre ext, p = Ptr (pre ++ concat bs ++ ext) ∧ length pre = 16 * i
  end.

Lemma read_operand_block src i pre old tail b bs :
  operand_at src i old (b :: bs) → block b → length pre = 16 * i →
  read_operand src (Ptr (pre ++ old ++ tail)) (i * OSDP_AES_BLOCK_LEN) OSDP_AES_BLOCK_LEN = Some b.
Proof.
  intros Hs [Hb _] Hpre. unfold OSDP_AES_BLOCK_LEN in *. destruct src as [p|]; simpl in Hs.
  - destruct Hs as (pre' & ext & -> & Hpre'). cbn [concat]. rewrite <-app_assoc. cbn [read_operand].
    rewrite rd_slice_app; [done|lia|done].
  - subst old. cbn [concat read_operand]. rewrite <-app_assoc. rewrite rd_slice_app; [done|lia|done].
Qed.

Lemma operand_at_next src i old b bs :
  operand_at src i old (b :: bs) → block b → operand_at src (S i) (drop 16 old) bs.
Proof.
  intros Hs [Hb _]. unfold OSDP_AES_BLOCK_LEN in *. destruct src as [p|]; simpl in *.
  - destruct Hs as (pre & ext & -> & Hpre). exists (pre ++ b), ext.
    rewrite <-!app_assoc, length_app. split; [done|lia].
  - subst old. by rewrite drop_app_length'.
Qed.

Lemma wr_block pre old tail c i :
  length pre = 16 * i → length c = 16 → 16 ≤ length old →
  wr (Ptr (pre ++ old ++ tail)) (i * OSDP_AES_BLOCK_LEN) c =
    Some (Ptr ((pre ++ c) ++ drop 16 old ++ tail)).
Proof.
  intros Hpre Hc Ho. unfold OSDP_AES_BLOCK_LEN. cbn [wr]. rewrite mwr_app by solve_len.
  simpl. rewrite Hc, drop_app_le by lia. done.
Qed.

Lemma loop_status_S {A} (body : nat → A → option (osdp_status * A)) i n a a' :
  body i a = Some (OSDP_OK, a') → loop_status body i (S n) a = loop_status body (S i) n a'.
Proof. intros H. simpl. by rewrite H. Qed.

Section cipher.
Context {W : Type} (c : osdp_sc_crypto W) (E D : list Z → list Z → list Z) {A : Aes c E D}.

Lemma encrypt_fn f : aes128_ecb_encrypt c = Some f →
  ∀ k b, block k → block b → f k b = (OSDP_OK, E k b).
Proof. destruct (aes_encrypt (c := c)) as (g & Hg & H). intros Hf. rewrite Hg in Hf. by injection Hf as <-. Qed.

Lemma decrypt_fn f : aes128_ecb_decrypt c = Some f →
  ∀ k b, block k → block b → f k b = (OSDP_OK, D k b).
Proof. destruct (aes_decrypt (c := c)) as (g & Hg & H). intros Hf. rewrite Hg in Hf. by injection Hf as <-. Qed.

Lemma cbc_encrypt_loop f k src bs i pre old tail chain :
  aes128_ecb_encrypt c = Some f → block k → Forall block bs → block chain →
  length pre = 16 * i → length old = 16 * length bs → operand_at src i old bs →
  ∃ chain', loop_status (cbc_encrypt_block f k src) i (length bs) (Ptr (pre ++ old ++ tail), chain) =
    Some (OSDP_OK, (Ptr (pre ++ concat (cbc_enc (E k) chain bs) ++ tail), chain')).
Proof.
  intros Hf Hk Hbs. revert i pre old chain.
  induction Hbs as [|b bs Hb _ IH]; intros i pre old chain Hch Hpre Hold Hs.
  { destruct old; [|simpl in Hold; lia]. by exists chain. }
  cbn [length] in *. set (e := E k (xor_block b chain)).
  assert (block e) as [He Heb] by (apply (aes_E_block (c := c)); [done|by apply xor_block_ok]).
  destruct (IH (S i) (pre ++ e) (drop 16 old) e) as [chain' Hl].
  { by split. } { rewrite length_app, He, Hpre. unfold OSDP_AES_BLOCK_LEN. lia. }
  { rewrite length_drop. lia. } { by eapply operand_at_next. }
  exists chain'. erewrite loop_status_S.
  - rewrite Hl. cbn [cbc_enc concat]. fold e. by rewrite <-!app_assoc.
  - unfold cbc_encrypt_block. erewrite read_operand_block by done. cbn [mbind option_bind].
    rewrite (encrypt_fn f Hf) by (done || by apply xor_block_ok). fold e.
    rewrite wr_block by (done || lia). cbn [mbind option_bind].
    rewrite decide_False by (intros []; done). rewrite <-(app_assoc pre).
    rewrite rd_slice_app by (unfold OSDP_AES_BLOCK_LEN; lia || done). done.
Qed.

Lemma cbc_decrypt_loop f k src cs i pre old tail prev :
  aes128_ecb_decrypt c = Some f → block k → Forall block cs → block prev →
  length pre = 16 * i → length old = 16 * length cs → operand_at src i old cs →
  ∃ prev', loop_status (cbc_decrypt_block f k src) i (length cs) (Ptr (pre ++ old ++ tail), prev) =
    Some (OSDP_OK, (Ptr (pre ++ concat (cbc_dec (D k) prev cs) ++ tail), prev')).
Proof.
  intros Hf Hk Hcs. revert i pre old prev.
  induction Hcs as [|b cs Hb _ IH]; intros i pre old prev Hp Hpre Hold Hs.
  { destruct old; [|simpl in Hold; lia]. by exists prev. }
  cbn [length] in *. set (e := xor_block (D k b) prev).
  assert (block e) as [He Heb] by (apply xor_block_ok; [by apply (aes_D_block (c := c))|done]).
  destruct (IH (S i) (pre ++ e) (drop 16 old) b) as [prev' Hl].
  { done. } { rewrite length_app, He, Hpre. unfold OSDP_AES_BLOCK_LEN. lia. }
  { rewrite length_drop. lia. } { by eapply operand_at_next. }
  exists prev'. erewrite loop_status_S.
  - rewrite Hl. cbn [cbc_dec concat]. fold e. by rewrite <-!app_assoc.
  - unfold cbc_decrypt_block. erewrite read_operand_block by done. cbn [mbind option_bind].
    rewrite (decrypt_fn f Hf) by done. rewrite decide_False by (intros []; done). fold e.
    by rewrite wr_block by (done || lia).
Qed.

(** The whole CBC calls, on a buffer [old ++ tail] whose first bytes they
    replace. *)
Lemma cbc_encrypt_ok key iv k v src bs old tail :
  rd_slice key 0 16 = Some k → rd_slice iv 0 16 = Some v → block k → block v →
  Forall block bs → bs ≠ [] → length old = 16 * length bs → operand_at src 0 old bs →
  osdp_sc_cbc_encrypt (Some c) key iv src (16 * length bs) (Ptr (old ++ tail)) =
    Some (OSDP_OK, Ptr (concat (cbc_enc (E k) v bs) ++ tail)).
Proof.
  intros Hkey Hiv Hk Hv Hbs Hne Hold Hs. unfold osdp_sc_cbc_encrypt, OSDP_AES_BLOCK_LEN, OSDP_SC_KEY_LEN.
  destruct (aes_encrypt (c := c)) as (f & Hf & _). cbn [mbind option_bind]. rewrite Hf.
  destruct key as [|key]; [done|]. destruct iv as [|iv]; [done|]. cbn [is_null orb].
  assert (operand_null src = false) as ->.
  { destruct src as [p|]; [|done]. by destruct Hs as (? & ? & -> & _). }
  cbn [orb]. assert (0 < length bs) by (destruct bs; [done|simpl; lia]).
  rewrite decide_False by (rewrite (Nat.mul_comm 16), Nat.Div0.mod_mul; lia).
  rewrite Hkey, Hiv. cbn [mbind option_bind].
  rewrite (Nat.mul_comm 16), Nat.div_mul by lia.
  destruct (cbc_encrypt_loop f k src bs 0 [] old tail v Hf Hk Hbs Hv) as [ch Hl]; [done..|].
  cbn [app] in Hl. by rewrite Hl.
Qed.

Lemma cbc_decrypt_ok key iv k v src cs old tail :
  rd_slice key 0 16 = Some k → rd_slice iv 0 16 = Some v → block k → block v →
  Forall block cs → cs ≠ [] → length old = 16 * length cs → operand_at src 0 old cs →
  osdp_sc_cbc_decrypt (Some c) key iv src (16 * length cs) (Ptr (old ++ tail)) =
    Some (OSDP_OK, Ptr (concat (cbc_dec (D k) v cs) ++ tail)).
Proof.
  intros Hkey Hiv Hk Hv Hcs Hne Hold Hs. unfold osdp_sc_cbc_decrypt, OSDP_AES_BLOCK_LEN, OSDP_SC_KEY_LEN.
  destruct (aes_decrypt (c := c)) as (f & Hf & _). rewrite Hf.
  destruct key as [|key]; [done|]. destruct iv as [|iv]; [done|]. cbn [is_null orb].
  assert (operand_null src = false) as ->.
  { destruct src as [p|]; [|done]. by destruct Hs as (? & ? & -> & _). }
  cbn [orb]. assert (0 < length cs) by (destruct cs; [done|simpl; lia]).
  rewrite decide_False by (rewrite (Nat.mul_comm 16), Nat.Div0.mod_mul; lia).
  rewrite Hkey, Hiv. cbn [mbind option_bind].
  rewrite (Nat.mul_comm 16), Nat.div_mul by lia.
  destruct (cbc_decrypt_loop f k src cs 0 [] old tail v Hf Hk Hcs Hv) as [ch Hl]; [done..|].
  cbn [app] in Hl. by rewrite Hl.
Qed.

(** The MAC of Annex D.5 on byte strings. *)
Definition mac_ref (k1 k2 icv m : list Z) : list Z :=
  cbc_mac (E k1) (E k2) icv (blocks (length (pad_mac m) / 16) (pad_mac m)).

Lemma cbc_mac_block k1 k2 icv bs :
  block k1 → block k2 → block icv → Forall block bs → block (cbc_mac (E k1) (E k2) icv bs).
Proof.
  intros H1 H2 Hi Hbs. revert icv Hi. induction Hbs as [|b bs Hb Hbs IH]; intros icv Hi; [done|].
  destruct bs as [|b' bs]; simpl.
  - apply (aes_E_block (c := c)); [done|by apply xor_block_ok].
  - apply IH. apply (aes_E_block (c := c)); [done|by apply xor_block_ok].
Qed.

Lemma mac_ref_block k1 k2 icv m :
  block k1 → block k2 → block icv → bytes_ok m → block (mac_ref k1 k2 icv m).
Proof.
  intros. apply cbc_mac_block; [done..|]. destruct (pad_mac_blocks m) as (n & Hl & Hn & Hb); [done|].
  apply blocks_ok; [|done]. rewrite Hl, (Nat.mul_comm 16 n), Nat.div_mul by lia. lia.
Qed.

Lemma mac_loop f k1 k2 msg len total i bs chain :
  aes128_ecb_encrypt c = Some f → block k1 → block k2 → block chain → Forall block bs →
  total = i + length bs → (∀ j x, bs !! j = Some x → mac_block msg len (i + j) = Some x) →
  loop_status (mac_step f k1 k2 msg len total) i (length bs) chain =
    Some (OSDP_OK, cbc_mac (E k1) (E k2) chain bs).
Proof.
  intros Hf H1 H2 Hch Hbs. revert i chain Hch.
  induction Hbs as [|b bs Hb Hbs IH]; intros i chain Hch Htot Hmb; [done|].
  set (k := if decide (i = total - 1) then k2 else k1).
  assert (block k) as Hk by (unfold k; by case_decide).
  pose proof (Hmb 0 b eq_refl) as Hb0. rewrite Nat.add_0_r in Hb0. cbn [length].
  rewrite (loop_status_S _ i (length bs) chain (E k (xor_block b chain))).
  - destruct bs as [|b' bs].
    + simpl. unfold k. rewrite decide_True; [done|]. simpl in Htot. lia.
    + replace (E k (xor_block b chain)) with (E k1 (xor_block b chain)).
      * cbn [cbc_mac]. apply IH.
        { apply (aes_E_block (c := c)); [done|by apply xor_block_ok]. }
        { simpl in *. lia. }
        intros j x Hj. replace (S i + j) with (i + S j) by lia. by apply Hmb.
      * unfold k. rewrite decide_False; [done|]. simpl in Htot. lia.
  - unfold mac_step. rewrite Hb0. cbn [mbind option_bind]. fold k.
    rewrite (encrypt_fn f Hf) by (done || by apply xor_block_ok).
    by rewrite decide_False by (intros []; done).
Qed.

Lemma blocks_lookup n m b x :
  blocks n m !! b = Some x → b < n ∧ x = sl m (16 * b) 16.
Proof.
  revert m b. induction n as [|n IH]; intros m b Hx; [done|].
  destruct b as [|b]; cbn [blocks] in Hx.
  - injection Hx as <-. split; [lia|]. rewrite Nat.mul_0_r. unfold sl. by rewrite drop_0.
  - apply IH in Hx as [? ->]. split; [lia|]. unfold sl. rewrite drop_drop. f_equal. f_equal. lia.
Qed.

Lemma pad_mac_total m :
  length (pad_mac m) = if decide (length m mod 16 = 0 ∧ 0 < length m) then length m
                       else length m - length m mod 16 + 16.
Proof.
  unfold pad_mac. case_decide; [done|]. unfold pad_bytes. rewrite length_app. cbn [length].
  rewrite length_replicate. pose proof (Nat.mod_upper_bound (length m) 16).
  pose proof (Nat.Div0.mod_le (length m) 16). lia.
Qed.

Lemma mac_block_ok msg m len b :
  rd_slice msg 0 len = Some m ∨ (len = 0 ∧ m = []) → 
  b < length (pad_mac m) / 16 → mac_block msg len b = Some (sl (pad_mac m) (16 * b) 16).
Proof.
  intros Hm Hb. assert (length m = len) as Hlen.
  { destruct Hm as [Hm|[-> ->]]; [|done]. destruct msg as [|mem]; [done|].
    apply mslice_inv in Hm as (_ & ? & _). done. }
  assert (∀ off n, off + n ≤ len → 0 < n → rd_slice msg off n = Some (sl m off n)) as Hrd.
  { intros off n Hon Hn. destruct Hm as [Hm|[-> ->]]; [|lia]. destruct msg as [|mem]; [done|].
    apply mslice_inv in Hm as (-> & _ & Hl). cbn [rd_slice]. rewrite mslice_Some by lia.
    unfold sl. rewrite drop_0, take_drop_commute. f_equal.
    rewrite <-take_drop_commute, skipn_firstn_comm, take_take. f_equal. lia. }
  clear Hm. pose proof (pad_mac_total m) as Htot. rewrite Hlen in Htot.
  unfold mac_block, OSDP_AES_BLOCK_LEN. rewrite (Nat.mul_comm b 16).
  pose proof (Nat.mod_upper_bound len 16). pose proof (Nat.div_mod_eq len 16).
  destruct (decide (16 * b + 16 ≤ len)) as [Hfull|Hfull].
  - rewrite Hrd by lia. f_equal. unfold pad_mac. destruct (decide (length m mod 16 = 0 ∧ 0 < length m)); [done|].
    unfold sl. rewrite drop_app_le, take_app_le by (rewrite ?length_drop; lia). done.
  - unfold pad_mac in *. rewrite Hlen in *. destruct (decide (len mod 16 = 0 ∧ 0 < len)) as [Hex|Hex].
    { exfalso. rewrite Htot in Hb. pose proof (Nat.div_mod_eq len 16). lia. }
    rewrite Htot in Hb.
    assert (len - len mod 16 + 16 = 16 * (len / 16 + 1)) as Hq by lia.
    rewrite Hq, (Nat.mul_comm 16), Nat.div_mul in Hb by lia.
    assert (16 * b = 16 * (len / 16)) as -> by lia.
    assert (len - 16 * (len / 16) = len mod 16) as -> by lia.
    assert (sl m (16 * (len / 16)) (len mod 16) = drop (16 * (len / 16)) m) as Hdrop.
    { unfold sl. apply take_ge. rewrite length_drop. lia. }
    assert (sl (m ++ pad_bytes len) (16 * (len / 16)) 16 = drop (16 * (len / 16)) m ++ pad_bytes len) as ->.
    { unfold sl. rewrite drop_app_le by lia. apply take_ge. unfold pad_bytes.
      rewrite length_app, length_drop. cbn [length]. rewrite length_replicate. lia. }
    replace (16 - len mod 16 - 1) with (15 - len mod 16) by lia.
    case_decide as Hav.
    + rewrite Hrd by lia. cbn [mbind option_bind]. rewrite Hdrop. done.
    + rewrite <-Hdrop. unfold pad_bytes. assert (len mod 16 = 0) as -> by lia. done.
Qed.

Lemma compute_mac_ok k1p k2p icvp k1 k2 icv msg m len o :
  rd_slice k1p 0 16 = Some k1 → rd_slice k2p 0 16 = Some k2 → rd_slice icvp 0 16 = Some icv →
  block k1 → block k2 → block icv → rd_slice msg 0 len = Some m ∨ (len = 0 ∧ m = []) →
  bytes_ok m → 16 ≤ length o →
  osdp_sc_compute_mac (Some c) k1p k2p icvp msg len (Ptr o) =
    Some (OSDP_OK, Ptr (mac_ref k1 k2 icv m ++ drop 16 o)).
Proof.
  intros Hk1 Hk2 Hicv B1 B2 Bi Hm Hmb Ho. unfold osdp_sc_compute_mac, OSDP_SC_KEY_LEN, OSDP_AES_BLOCK_LEN.
  destruct (aes_encrypt (c := c)) as (f & Hf & _). cbn [mbind option_bind]. rewrite Hf.
  destruct k1p as [|k1p]; [done|]. destruct k2p as [|k2p]; [done|]. destruct icvp as [|icvp]; [done|].
  cbn [is_null orb]. rewrite decide_False by (intros [? ->]; destruct Hm as [|[]]; [done|lia]).
  rewrite Hk1, Hk2, Hicv. cbn [mbind option_bind].
  assert (length m = len) as <-.
  { destruct Hm as [Hm|[-> ->]]; [|done]. destruct msg; [done|].
    apply mslice_inv in Hm as (_ & ? & _). done. }
  rewrite <-pad_mac_total. destruct (pad_mac_blocks m Hmb) as (n & Hl & Hn & Hpb).
  rewrite decide_False by lia.
  set (bs := blocks (length (pad_mac m) / 16) (pad_mac m)).
  assert (length (pad_mac m) / 16 = n) as En by (rewrite Hl, (Nat.mul_comm 16 n), Nat.div_mul; lia).
  assert (Forall block bs) as Hbs by (apply blocks_ok; [lia|done]).
  pose proof (mac_loop f k1 k2 msg (length m) (length (pad_mac m) / 16) 0 bs icv Hf B1 B2 Bi Hbs) as Hloop.
  assert (length bs = length (pad_mac m) / 16) as Hlb by apply blocks_length.
  rewrite Hlb in Hloop. rewrite Hloop; [|done|].
  - cbn [mbind option_bind]. rewrite decide_False by (intros []; done). unfold OSDP_SC_MAC_LEN.
    assert (block (mac_ref k1 k2 icv m)) as [Hml _] by (by apply mac_ref_block).
    unfold mac_ref in *. fold bs in Hml |- *. unfold OSDP_AES_BLOCK_LEN in Hml.
    rewrite take_ge by lia. cbn [wr]. rewrite mwr_0 by lia. by rewrite Hml.
  - intros j x Hj. apply blocks_lookup in Hj as [Hj ->]. rewrite mac_block_ok with (m := m); [done| |done].
    done.
Qed.

(** The ciphertext of a payload, and the text a ciphertext hides. *)
Definition enc_payload (k mac m : list Z) : list Z :=
  concat (cbc_enc (E k) (invert_iv mac) (blocks (length m / 16 + 1) (pad_payload m))).

Definition dec_payload (k mac ct : list Z) : list Z :=
  concat (cbc_dec (D k) (invert_iv mac) (blocks (length ct / 16) ct)).

Lemma pad_blocks_ok m :
  bytes_ok m → Forall block (blocks (length m / 16 + 1) (pad_payload m)).
Proof. intros Hm. destruct (pad_payload_blocks m Hm). by apply blocks_ok. Qed.

Lemma enc_payload_blocks k mac m :
  block k → block mac → bytes_ok m →
  Forall block (cbc_enc (E k) (invert_iv mac) (blocks (length m / 16 + 1) (pad_payload m))).
Proof.
  intros Hk Hmac Hm. apply cbc_enc_ok; [|by apply invert_iv_block|by apply pad_blocks_ok].
  intros. by apply (aes_E_block (c := c)).
Qed.

Lemma enc_payload_length k mac m :
  block k → block mac → bytes_ok m →
  length (enc_payload k mac m) = (length m / 16 + 1) * 16 ∧ bytes_ok (enc_payload k mac m).
Proof.
  intros Hk Hmac Hm. pose proof (enc_payload_blocks k mac m Hk Hmac Hm) as HF. split.
  - unfold enc_payload. rewrite concat_blocks_len, cbc_enc_length, blocks_length by done. lia.
  - by apply concat_blocks_bytes.
Qed.

Lemma dec_enc_payload k mac m :
  block k → block mac → bytes_ok m → dec_payload k mac (enc_payload k mac m) = pad_payload m.
Proof.
  intros Hk Hmac Hm. unfold dec_payload.
  destruct (enc_payload_length k mac m Hk Hmac Hm) as [Hl _].
  rewrite Hl, Nat.div_mul by lia. unfold enc_payload.
  replace (length m / 16 + 1) with
    (length (cbc_enc (E k) (invert_iv mac) (blocks (length m / 16 + 1) (pad_payload m)))) at 1
    by (by rewrite cbc_enc_length, blocks_length).
  rewrite blocks_of_concat by (by apply enc_payload_blocks).
  rewrite cbc_dec_enc; [|..].
  - apply blocks_concat. by apply pad_payload_blocks.
  - intros. by apply (aes_E_block (c := c)).
  - intros. by apply (aes_D_E (c := c)).
  - by apply invert_iv_block.
  - by apply pad_blocks_ok.
Qed.

(** Laying the padded plaintext out in the buffer. *)
Lemma lay_out_padded p m o :
  rd_slice p 0 (length m) = Some m ∨ m = [] → (length m / 16 + 1) * 16 ≤ length o →
  let n := length m in let padded := (n / 16 + 1) * 16 in
  ∃ c1 c2 c3,
    (if decide (0 < n) then bs ← rd_slice p 0 n; wr (Ptr o) 0 bs else Ret (Ptr o)) = Some c1 ∧
    wr c1 n [0x80%Z] = Some c2 ∧
    (if decide (n + 1 < padded) then wr c2 (n + 1) (replicate (padded - n - 1) 0%Z) else Ret c2)
      = Some c3 ∧
    c3 = Ptr (pad_payload m ++ drop padded o).
Proof.
  intros Hm Ho n padded.
  pose proof (Nat.mod_upper_bound n 16). pose proof (Nat.div_mod_eq n 16). fold n padded in Ho.
  assert (padded = n + 1 + (15 - n mod 16)) as Hpad by (unfold padded; lia).
  exists (Ptr (m ++ drop n o)), (Ptr ((m ++ [0x80%Z]) ++ drop (n + 1) o)).
  exists (Ptr (pad_payload m ++ drop padded o)). split_and!; [| | |done].
  - case_decide as Hn; [|destruct m; [by rewrite drop_0|cbn in *; lia]].
    destruct Hm as [Hm | ->]; [|cbn in *; lia]. unfold n. rewrite Hm. cbn [mbind option_bind wr].
    by rewrite mwr_0 by (unfold padded, n in *; lia).
  - cbn [wr]. rewrite mwr_app by (try done; rewrite length_drop; cbn [length]; lia).
    cbn [length fmap option_fmap option_map]. by rewrite drop_drop.
  - unfold pad_payload, pad_bytes. fold n. case_decide.
    + cbn [wr]. rewrite mwr_app; [|rewrite length_app; done|rewrite length_replicate, length_drop; lia].
      cbn [fmap option_fmap option_map]. rewrite length_replicate, drop_drop.
      replace (padded - n - 1) with (15 - n mod 16) by lia.
      rewrite <-(app_assoc m). do 3 f_equal. cbn [app]. f_equal. f_equal. lia.
    + replace (15 - n mod 16) with 0 by lia. replace padded with (n + 1) by lia. done.
Qed.

Lemma encrypt_payload_ok keyp macp k mac p m o cap cl :
  rd_slice keyp 0 16 = Some k → rd_slice macp 0 16 = Some mac → block k → block mac →
  rd_slice p 0 (length m) = Some m ∨ m = [] → bytes_ok m →
  (length m / 16 + 1) * 16 ≤ cap → cap ≤ length o →
  osdp_sc_encrypt_payload (Some c) keyp macp p (length m) (Ptr o) cap (Some cl) =
    Some (OSDP_OK, Ptr (enc_payload k mac m ++ drop ((length m / 16 + 1) * 16) o),
          Some ((length m / 16 + 1) * 16)).
Proof.
  intros Hkey Hmac Hk Hmk Hp Hm Hcap Ho. unfold osdp_sc_encrypt_payload, OSDP_AES_BLOCK_LEN, OSDP_SC_MAC_LEN.
  destruct keyp as [|keym]; [done|]. destruct macp as [|macm]; [done|]. cbn [is_null orb].
  rewrite decide_False by (intros [? ->]; destruct Hp as [| ->]; [done|cbn in *; lia]).
  rewrite decide_False by lia.
  destruct (lay_out_padded p m o Hp ltac:(lia)) as (c1 & c2 & c3 & H1 & H2 & H3 & ->).
  rewrite H1. cbn [mbind option_bind]. rewrite H2. cbn [mbind option_bind]. rewrite H3.
  cbn [mbind option_bind]. rewrite Hmac. cbn [mbind option_bind].
  destruct (pad_payload_blocks m Hm) as [Hpl Hpb].
  set (bs := blocks (length m / 16 + 1) (pad_payload m)).
  assert (length bs = length m / 16 + 1) as Hlb by apply blocks_length.
  replace ((length m / 16 + 1) * 16) with (16 * length bs) at 1 2 by lia.
  assert (block (invert_iv mac)) as Hiv by (by apply invert_iv_block).
  rewrite (cbc_encrypt_ok (Ptr keym) (Ptr (invert_iv mac)) k (invert_iv mac) In_place bs (pad_payload m));
    [|done| |done|done|by apply pad_blocks_ok|by destruct (length m / 16)|lia|].
  - cbn [mbind option_bind]. rewrite decide_False by (intros []; done). unfold enc_payload. fold bs.
    rewrite Hlb, ?(Nat.mul_comm 16). done.
  - by apply rd_block.
  - cbn [operand_at]. symmetry. by apply blocks_concat.
Qed.

Lemma find_marker_spec pt ext :
  (∃ i, find_marker (Ptr (pt ++ ext)) (length pt) = Some (Some i) ∧
     pt = take i pt ++ 0x80%Z :: replicate (length pt - i - 1) 0%Z ∧ i < length pt) ∨
  (find_marker (Ptr (pt ++ ext)) (length pt) = Some None ∧
     ∀ m k, pt ≠ m ++ 0x80%Z :: replicate k 0%Z).
Proof.
  revert ext. induction pt as [|x pt IH] using rev_ind; intros ext.
  { right. split; [done|]. intros [] ?; done. }
  rewrite length_app. cbn [length]. rewrite Nat.add_1_r. cbn [find_marker].
  rewrite <-app_assoc. cbn [app]. rewrite rd_app by done. cbn [mbind option_bind].
  destruct (decide (x = 0x80%Z)) as [->|Hx].
  { left. exists (length pt). split_and!; [done| |lia].
    rewrite take_app_length. replace (S (length pt) - length pt - 1) with 0 by lia. done. }
  destruct (decide (x ≠ 0%Z)) as [Hnz|Hz].
  { right. split; [done|]. intros m k Heq. destruct k as [|k].
    - apply app_inj_2 in Heq as [_ ?]; [|done]. congruence.
    - rewrite replicate_S_end, app_comm_cons, app_assoc in Heq.
      apply app_inj_2 in Heq as [_ ?]; [|done]. congruence. }
  assert (x = 0%Z) as -> by (by destruct (decide (x = 0%Z))).
  destruct (IH (0%Z :: ext)) as [(i & Hf & Heq & Hi)|[Hf Hno]].
  - left. exists i. split_and!; [done| |lia]. rewrite take_app_le by lia.
    replace (S (length pt) - i - 1) with (S (length pt - i - 1)) by lia.
    rewrite replicate_S_end, app_comm_cons, app_assoc. by rewrite <-Heq.
  - right. split; [done|]. intros m k Heq. destruct k as [|k].
    + apply app_inj_2 in Heq as [_ ?]; [|done]. congruence.
    + rewrite replicate_S_end, app_comm_cons, app_assoc in Heq.
      apply app_inj_2 in Heq as [Heq _]; [|done]. by apply (Hno m k).
Qed.

Lemma padding_unique m1 k1 m2 k2 :
  m1 ++ 0x80%Z :: replicate k1 0%Z = m2 ++ 0x80%Z :: replicate k2 0%Z → m1 = m2.
Proof.
  revert k2 m1 m2. induction k1 as [|k1 IH]; intros [|k2] m1 m2 H;
    rewrite ?(replicate_S_end k1), ?(replicate_S_end k2), ?(app_comm_cons _ _ 0x80%Z), ?app_assoc in H.
  - by apply app_inj_2 in H as [? _].
  - apply app_inj_2 in H as [_ ?]; done.
  - apply app_inj_2 in H as [_ ?]; done.
  - apply app_inj_2 in H as [H _]; [|done]. by eapply IH.
Qed.

Lemma decrypt_payload_ok keyp macp k mac ctp ct o cap pl :
  rd_slice keyp 0 16 = Some k → rd_slice macp 0 16 = Some mac → block k → block mac →
  rd_slice ctp 0 (length ct) = Some ct → bytes_ok ct → length ct mod 16 = 0 → 0 < length ct →
  length ct ≤ cap → cap ≤ length o →
  let pt := dec_payload k mac ct in
  length pt = length ct ∧ bytes_ok pt ∧
  ((∃ m j, pt = m ++ 0x80%Z :: replicate j 0%Z ∧
     osdp_sc_decrypt_payload (Some c) keyp macp ctp (length ct) (Ptr o) cap (Some pl) =
       Some (OSDP_OK, Ptr (pt ++ drop (length ct) o), Some (length m))) ∨
   ((∀ m j, pt ≠ m ++ 0x80%Z :: replicate j 0%Z) ∧
     osdp_sc_decrypt_payload (Some c) keyp macp ctp (length ct) (Ptr o) cap (Some pl) =
       Some (OSDP_ERR_BAD_PAYLOAD, Ptr (pt ++ drop (length ct) o), Some 0))).
Proof.
  intros Hkey Hmac Hk Hmk Hct Hcb Hmod Hpos Hcap Ho pt.
  set (cs := blocks (length ct / 16) ct).
  assert (length ct = 16 * (length ct / 16)) as Hlen by (pose proof (Nat.div_mod_eq (length ct) 16); lia).
  assert (length cs = length ct / 16) as Hlc by apply blocks_length.
  assert (Forall block cs) as Hcs by (by apply blocks_ok).
  assert (block (invert_iv mac)) as Hiv by (by apply invert_iv_block).
  assert (Forall block (cbc_dec (D k) (invert_iv mac) cs)) as Hpb.
  { apply cbc_dec_ok; [|done..]. intros. by apply (aes_D_block (c := c)). }
  assert (length pt = length ct) as Hpl.
  { unfold pt, dec_payload. fold cs. rewrite concat_blocks_len, cbc_dec_length by done. lia. }
  split; [done|]. split; [by apply concat_blocks_bytes|].
  assert (osdp_sc_decrypt_payload (Some c) keyp macp ctp (length ct) (Ptr o) cap (Some pl) =
    m ← find_marker (Ptr (pt ++ drop (length ct) o)) (length pt);
    match m with
    | Some i => Ret (OSDP_OK, Ptr (pt ++ drop (length ct) o), Some i)
    | None => Ret (OSDP_ERR_BAD_PAYLOAD, Ptr (pt ++ drop (length ct) o), Some 0)
    end) as ->.
  { unfold osdp_sc_decrypt_payload, OSDP_AES_BLOCK_LEN, OSDP_SC_MAC_LEN. rewrite Hpl.
    destruct keyp as [|keym]; [done|]. destruct macp as [|macm]; [done|]. cbn [is_null orb].
    destruct ctp as [|ctm]; [done|].
    do 2 (rewrite decide_False by (intros [_ ?]; done)). rewrite !decide_False by lia.
    rewrite Hmac. cbn [mbind option_bind].
    pose proof (cbc_decrypt_ok (Ptr keym) (Ptr (invert_iv mac)) k (invert_iv mac) (From (Ptr ctm)) cs
      (take (length ct) o) (drop (length ct) o)) as Hd.
    rewrite take_drop, Hlc, <-Hlen in Hd. rewrite Hd; clear Hd; [|done| |done|done|done| | |].
    - cbn [mbind option_bind]. by rewrite decide_False by (intros []; done).
    - by apply rd_block.
    - intros Hnil. rewrite Hnil in Hlc. cbn [length] in Hlc. lia.
    - rewrite length_take_le; lia.
    - cbn [operand_at rd_slice] in *. apply mslice_inv in Hct as (Hct & _ & Hl).
      exists [], (drop (length ct) ctm). split; [|done]. cbn [app].
      unfold cs. rewrite blocks_concat by done. rewrite drop_0 in Hct. rewrite Hct at 1.
      by rewrite take_drop. }
  destruct (find_marker_spec pt (drop (length ct) o)) as [(i & -> & Heq & Hi)|[-> Hno]].
  - left. exists (take i pt), (length pt - i - 1). split; [done|]. cbn [mbind option_bind].
    by rewrite length_take_le by lia.
  - right. by split.
Qed.

(** ** The handshake computations *)

(** D.4.1: the derived keys, the two cryptograms and the initial R-MAC. *)
Definition derived_key (scbk rnd_a : list Z) (selector : Z) : list Z :=
  E scbk ([1%Z; selector] ++ take 6 rnd_a ++ replicate 8 0%Z).

Definition derived_keys (scbk rnd_a : list Z) : osdp_sc_session_keys :=
  mk_keys (derived_key scbk rnd_a 0x82) (derived_key scbk rnd_a 0x01) (derived_key scbk rnd_a 0x02).

Definition rmac_of (ks : osdp_sc_session_keys) (server : list Z) : list Z :=
  E (s_mac2 ks) (E (s_mac1 ks) server).

Definition keys_ok (ks : osdp_sc_session_keys) : Prop :=
  block (s_enc ks) ∧ block (s_mac1 ks) ∧ block (s_mac2 ks).

Lemma rnd_pair_block a b : rnd_ok a → rnd_ok b → block (a ++ b).
Proof.
  intros [La Ha] [Lb Hb]. split; [by rewrite length_app, La, Lb|]. by apply Forall_app.
Qed.

Lemma derivation_block rnd_a selector :
  rnd_ok rnd_a → is_byte selector → block ([1%Z; selector] ++ take 6 rnd_a ++ replicate 8 0%Z).
Proof.
  intros [La Ha] Hs. unfold OSDP_SC_RND_LEN in *. split.
  - rewrite !length_app, length_take_le, length_replicate by lia. done.
  - apply Forall_app; split; [constructor; [by vm_compute|by constructor]|]. apply Forall_app; split; [by apply Forall_take|].
    by apply Forall_replicate.
Qed.

Lemma derived_keys_ok scbk rnd_a : block scbk → rnd_ok rnd_a → keys_ok (derived_keys scbk rnd_a).
Proof.
  intros Hk Ha. unfold keys_ok, derived_keys, derived_key. cbn [s_enc s_mac1 s_mac2]. split_and!;
    (apply (aes_E_block (c := c)); [done|apply derivation_block; [done|by vm_compute]]).
Qed.

Lemma rd_slice_le p n k bs : rd_slice p 0 n = Some bs → k ≤ n → rd_slice p 0 k = Some (take k bs).
Proof.
  destruct p as [|m]; [done|]. intros H Hk. apply mslice_inv in H as (-> & _ & Hl). cbn [rd_slice].
  rewrite mslice_Some by lia. rewrite !drop_0, take_take. by rewrite Nat.min_l.
Qed.

Lemma derive_ok scbkp rnd_ap scbk rnd_a o :
  rd_slice scbkp 0 16 = Some scbk → rd_slice rnd_ap 0 8 = Some rnd_a → block scbk → rnd_ok rnd_a →
  osdp_sc_derive_session_keys (Some c) scbkp rnd_ap (Some o) =
    Some (OSDP_OK, Some (derived_keys scbk rnd_a)).
Proof.
  intros Hs Ha Bs Ba. unfold osdp_sc_derive_session_keys, OSDP_SC_KEY_LEN, build_derivation_input.
  destruct (aes_encrypt (c := c)) as (f & Hf & _). cbn [mbind option_bind]. rewrite Hf.
  destruct scbkp as [|sm]; [done|]. destruct rnd_ap as [|am]; [done|]. cbn [is_null orb].
  rewrite Hs. cbn [mbind option_bind]. rewrite (rd_slice_le _ 8 6 rnd_a Ha) by lia.
  cbn [mbind option_bind].
  rewrite !(encrypt_fn f Hf) by (done || (apply derivation_block; [done|by vm_compute])).
  cbn [mbind option_bind]. done.
Qed.

Lemma cryptogram_ok keyp ap bp k a b o :
  rd_slice keyp 0 16 = Some k → rd_slice ap 0 8 = Some a → rd_slice bp 0 8 = Some b → block k →
  rnd_ok a → rnd_ok b → 16 ≤ length o →
  cryptogram (Some c) keyp ap bp (Ptr o) = Some (OSDP_OK, Ptr (E k (a ++ b) ++ drop 16 o)).
Proof.
  intros Hk Ha Hb Bk Ba Bb Ho. unfold cryptogram, OSDP_SC_RND_LEN, OSDP_SC_KEY_LEN.
  destruct (aes_encrypt (c := c)) as (f & Hf & _). cbn [mbind option_bind]. rewrite Hf.
  destruct keyp as [|km]; [done|]. destruct ap as [|am]; [done|]. destruct bp as [|bm]; [done|].
  cbn [is_null orb]. rewrite Ha, Hb, Hk. cbn [mbind option_bind].
  rewrite (encrypt_fn f Hf) by (done || by apply rnd_pair_block).
  destruct (aes_E_block (c := c) k (a ++ b) Bk (rnd_pair_block _ _ Ba Bb)) as [Hl _].
  unfold OSDP_AES_BLOCK_LEN in Hl. cbn [wr]. rewrite mwr_0 by lia. cbn. by rewrite Hl.
Qed.

Lemma initial_rmac_ok k1p k2p sp ks server o :
  rd_slice k1p 0 16 = Some (s_mac1 ks) → rd_slice k2p 0 16 = Some (s_mac2 ks) →
  rd_slice sp 0 16 = Some server → keys_ok ks → block server → 16 ≤ length o →
  osdp_sc_initial_rmac (Some c) k1p k2p sp (Ptr o) =
    Some (OSDP_OK, Ptr (rmac_of ks server ++ drop 16 o)) ∧ block (rmac_of ks server).
Proof.
  intros H1 H2 Hs (_ & B1 & B2) Bs Ho.
  assert (block (E (s_mac1 ks) server)) as Bi by (by apply (aes_E_block (c := c))).
  assert (block (rmac_of ks server)) as Br by (unfold rmac_of; by apply (aes_E_block (c := c))).
  split; [|done]. unfold osdp_sc_initial_rmac, OSDP_SC_KEY_LEN, OSDP_SC_CRYPTOGRAM_LEN.
  destruct (aes_encrypt (c := c)) as (f & Hf & _). cbn [mbind option_bind]. rewrite Hf.
  destruct k1p as [|m1]; [done|]. destruct k2p as [|m2]; [done|]. destruct sp as [|ms]; [done|].
  cbn [is_null orb]. rewrite H1, H2, Hs. cbn [mbind option_bind].
  rewrite (encrypt_fn f Hf) by done. rewrite decide_False by (intros []; done).
  rewrite (encrypt_fn f Hf) by done. fold (rmac_of ks server).
  destruct Br as [Hl _]. unfold OSDP_AES_BLOCK_LEN in Hl. cbn [wr]. rewrite mwr_0 by lia.
  cbn. by rewrite Hl.
Qed.

(** ** Properties *)

(** Payload encryption is invertible.  A payload of any length encrypts to
    the next whole number of blocks above it, and decrypting that ciphertext under
    the same key and MAC gives the payload back. *)
Theorem payload_encrypt_decrypt k mac p m o cap cl :
  block k → block mac → rd_slice p 0 (length m) = Some m ∨ m = [] → bytes_ok m →
  (length m / 16 + 1) * 16 ≤ cap → cap ≤ length o →
  ∃ ct n, n = (length m / 16 + 1) * 16 ∧
    osdp_sc_encrypt_payload (Some c) (Ptr k) (Ptr mac) p (length m) (Ptr o) cap (Some cl) =
      Some (OSDP_OK, Ptr ct, Some n) ∧ drop n ct = drop n o ∧
    ∀ o2 cap2, n ≤ cap2 → cap2 ≤ length o2 →
      ∃ pt, osdp_sc_decrypt_payload (Some c) (Ptr k) (Ptr mac) (Ptr ct) n (Ptr o2) cap2 (Some cl) =
        Some (OSDP_OK, Ptr pt, Some (length m)) ∧ take (length m) pt = m.
Proof.
  intros Bk Bm Hp Hm Hcap Ho. set (n := (length m / 16 + 1) * 16).
  destruct (enc_payload_length k mac m Bk Bm Hm) as [Hl Hb]. fold n in Hl.
  exists (enc_payload k mac m ++ drop n o), n. split_and!; [done| | |].
  - apply encrypt_payload_ok; auto with osdp.
  - by rewrite drop_app_length'.
  - intros o2 cap2 Hc2 Ho2.
    destruct (decrypt_payload_ok (Ptr k) (Ptr mac) k mac (Ptr (enc_payload k mac m ++ drop n o))
      (enc_payload k mac m) o2 cap2 cl) as (Hpl & _ & Hd); auto with osdp.
    + cbn [rd_slice]. rewrite mslice_Some by solve_len. by rewrite drop_0, take_app_length.
    + rewrite Hl. unfold n. by rewrite Nat.Div0.mod_mul.
    + unfold n in Hl. lia.
    + lia.
    + rewrite dec_enc_payload in Hd by done. rewrite Hl in Hd.
      destruct Hd as [(m' & j & Hpad & ->)|[Hno _]]; [|by destruct (Hno m (15 - length m mod 16))].
      apply padding_unique in Hpad as <-. eexists. split; [done|].
      unfold pad_payload. rewrite <-app_assoc. by rewrite take_app_length.
Qed.

(** What decryption accepts.  On a non-empty whole number of blocks the call
    succeeds exactly when the decrypted text ends in the marker 0x80 and zeros,
    and then it reports the text before the marker; any other length is refused
    before the buffer is touched. *)
Theorem decrypt_payload_exact k mac ct o cap pl :
  block k → block mac → bytes_ok ct → cap ≤ length o →
  ∃ s o' n, osdp_sc_decrypt_payload (Some c) (Ptr k) (Ptr mac) (Ptr ct) (length ct) (Ptr o) cap
      (Some pl) = Some (s, Ptr o', Some n) ∧ length o' = length o ∧
    (length ct = 0 ∨ length ct mod 16 ≠ 0 → s = OSDP_ERR_BAD_PAYLOAD ∧ o' = o) ∧
    (0 < length ct → length ct mod 16 = 0 →
      (cap < length ct → s = OSDP_ERR_BUFFER_TOO_SMALL ∧ o' = o) ∧
      (length ct ≤ cap →
        (s = OSDP_OK ∧ n < length ct ∧
           ∃ j, dec_payload k mac ct = take n o' ++ 0x80%Z :: replicate j 0%Z) ∨
        (s = OSDP_ERR_BAD_PAYLOAD ∧ n = 0 ∧
           ∀ m j, dec_payload k mac ct ≠ m ++ 0x80%Z :: replicate j 0%Z))).
Proof.
  intros Bk Bm Hb Ho.
  assert (osdp_sc_decrypt_payload (Some c) (Ptr k) (Ptr mac) (Ptr ct) (length ct) (Ptr o) cap (Some pl) =
    if decide (length ct = 0 ∨ length ct mod OSDP_AES_BLOCK_LEN ≠ 0)
    then Ret (OSDP_ERR_BAD_PAYLOAD, Ptr o, Some 0) else
    if decide (cap < length ct) then Ret (OSDP_ERR_BUFFER_TOO_SMALL, Ptr o, Some 0) else
    osdp_sc_decrypt_payload (Some c) (Ptr k) (Ptr mac) (Ptr ct) (length ct) (Ptr o) cap (Some pl)) as ->.
  { unfold osdp_sc_decrypt_payload. cbn [is_null orb].
    do 2 (rewrite decide_False by (intros [_ ?]; done)). by repeat case_decide. }
  unfold OSDP_AES_BLOCK_LEN. case_decide as Hbad.
  { do 3 eexists. split; [done|]. split_and!; [done|done|]. intros. lia. }
  case_decide as Hsmall.
  { do 3 eexists. split; [done|]. split_and!; [done| |]; intros; [lia|]. split; [done|lia]. }
  destruct (decrypt_payload_ok (Ptr k) (Ptr mac) k mac (Ptr ct) ct o cap pl) as (Hpl & _ & Hd); auto with osdp; try lia.
  { cbn [rd_slice]. by rewrite mslice_Some, drop_0, firstn_all by lia. }
  destruct Hd as [(m & j & Hpad & ->)|[Hno ->]]; do 3 eexists; (split; [done|]).
  - split_and!; [rewrite length_app, Hpl, length_drop; lia|lia|]. intros _ _. split; [lia|].
    intros _. left. rewrite Hpad, <-app_assoc, take_app_length. split_and!; [done| |by exists j].
    rewrite <-Hpl, Hpad, length_app. cbn [length]. lia.
  - split_and!; [rewrite length_app, Hpl, length_drop; lia|lia|]. intros _ _. split; [lia|].
    intros _. by right.
Qed.

(** C28: Message authentication.  [osdp_sc_compute_mac] is the two-key CBC-MAC of
    Annex D.5 on the message padded only when it does not fill its blocks, for
    messages of every length including the empty one. *)
Theorem compute_mac_annex_d5 k1 k2 icv msg m len o :
  block k1 → block k2 → block icv → rd_slice msg 0 len = Some m ∨ (len = 0 ∧ m = []) →
  bytes_ok m → 16 ≤ length o →
  ∃ mac, osdp_sc_compute_mac (Some c) (Ptr k1) (Ptr k2) (Ptr icv) msg len (Ptr o) =
      Some (OSDP_OK, Ptr (mac ++ drop 16 o)) ∧
    mac = cbc_mac (E k1) (E k2) icv (blocks (length (pad_mac m) / 16) (pad_mac m)) ∧ block mac.
Proof.
  intros B1 B2 Bi Hm Hb Ho. exists (mac_ref k1 k2 icv m). split_and!; [|done|by apply mac_ref_block].
  apply compute_mac_ok; auto with osdp.
Qed.

(** Handshake values.  Key derivation, the two cryptograms and the initial
    R-MAC are those of Annex D.  The keys depend on the first six bytes of RND.A
    only; the client and server cryptograms agree only if RND.A = RND.B, so one
    cannot be replayed as the other. *)
Theorem handshake_values_annex_d scbk a b o k0 :
  block scbk → rnd_ok a → rnd_ok b → 16 ≤ length o →
  let ks := derived_keys scbk a in
  osdp_sc_derive_session_keys (Some c) (Ptr scbk) (Ptr a) (Some k0) = Some (OSDP_OK, Some ks) ∧
  (∀ a', rnd_ok a' → take 6 a' = take 6 a → derived_keys scbk a' = ks) ∧
  ∃ client server rmac,
    osdp_sc_client_cryptogram (Some c) (Ptr (s_enc ks)) (Ptr a) (Ptr b) (Ptr o) =
      Some (OSDP_OK, Ptr (client ++ drop 16 o)) ∧
    osdp_sc_server_cryptogram (Some c) (Ptr (s_enc ks)) (Ptr a) (Ptr b) (Ptr o) =
      Some (OSDP_OK, Ptr (server ++ drop 16 o)) ∧
    osdp_sc_initial_rmac (Some c) (Ptr (s_mac1 ks)) (Ptr (s_mac2 ks)) (Ptr server) (Ptr o) =
      Some (OSDP_OK, Ptr (rmac ++ drop 16 o)) ∧
    block client ∧ block server ∧ block rmac ∧ (client = server ↔ a = b) ∧
    D (s_enc ks) client = a ++ b.
Proof.
  intros Bs Ba Bb Ho ks. assert (keys_ok ks) as Hks by (by apply derived_keys_ok).
  pose proof Hks as (Be & B1 & B2).
  assert (block (E (s_enc ks) (b ++ a))) as Bsrv by (apply (aes_E_block (c := c)); [done|by apply rnd_pair_block]).
  assert (block (E (s_enc ks) (a ++ b))) as Bcl by (apply (aes_E_block (c := c)); [done|by apply rnd_pair_block]).
  split; [apply derive_ok; auto with osdp|]. split.
  { intros a' _ Heq. unfold ks, derived_keys, derived_key. by rewrite Heq. }
  destruct (initial_rmac_ok (Ptr (s_mac1 ks)) (Ptr (s_mac2 ks)) (Ptr (E (s_enc ks) (b ++ a))) ks
    (E (s_enc ks) (b ++ a)) o) as [Hr Br]; auto with osdp.
  exists (E (s_enc ks) (a ++ b)), (E (s_enc ks) (b ++ a)), (rmac_of ks (E (s_enc ks) (b ++ a))).
  split_and!; [apply cryptogram_ok; auto with osdp|apply cryptogram_ok; auto with osdp|done|done|done|done| |].
  - split; [|by intros ->]. intros Heq. apply (f_equal (D (s_enc ks))) in Heq.
    rewrite !(aes_D_E (c := c)) in Heq by (done || by apply rnd_pair_block).
    destruct Ba as [La _], Bb as [Lb _]. apply app_inj_1 in Heq as [? _]; congruence.
  - apply (aes_D_E (c := c)); [done|by apply rnd_pair_block].
Qed.
End cipher.

(** ** Witnesses *)

(** A toy cipher that satisfies the laws: XOR with the key. *)
Definition toy (k b : list Z) : list Z := xor_block b k.

Definition toy_crypto : osdp_sc_crypto unit :=
  mk_crypto (Some (λ k b, (OSDP_OK, toy k b))) (Some (λ k b, (OSDP_OK, toy k b)))
    (Some (λ n w, (OSDP_OK, replicate n 7%Z, w))).

#[export] Instance toy_aes : Aes toy_crypto toy toy.
Proof.
  constructor.
  - by eexists.
  - by eexists.
  - intros. by apply xor_block_ok.
  - intros. by apply xor_block_ok.
  - intros. by apply xor_block_cancel.
Qed.

Lemma payload_encrypt_decrypt_witness :
  ∃ ct n, n = (length [1; 2; 3]%Z / 16 + 1) * 16 ∧
    osdp_sc_encrypt_payload (Some toy_crypto) (Ptr OSDP_SCBK_DEFAULT) (Ptr (replicate 16 9%Z))
      (Ptr [1; 2; 3]%Z) 3 (Ptr (replicate 20 0%Z)) 16 (Some 0) = Some (OSDP_OK, Ptr ct, Some n) ∧
    drop n ct = drop n (replicate 20 0%Z) ∧
    ∀ o2 cap2, n ≤ cap2 → cap2 ≤ length o2 →
      ∃ pt, osdp_sc_decrypt_payload (Some toy_crypto) (Ptr OSDP_SCBK_DEFAULT) (Ptr (replicate 16 9%Z))
          (Ptr ct) n (Ptr o2) cap2 (Some 0) = Some (OSDP_OK, Ptr pt, Some 3) ∧ take 3 pt = [1; 2; 3]%Z.
Proof.
  apply (payload_encrypt_decrypt toy_crypto toy toy _ _ _ [1; 2; 3]%Z); first [by left|vm_decide].
Defined.

Lemma decrypt_payload_exact_witness :
  ∃ s o' n, osdp_sc_decrypt_payload (Some toy_crypto) (Ptr OSDP_SCBK_DEFAULT) (Ptr (replicate 16 9%Z))
      (Ptr (replicate 16 5%Z)) 16 (Ptr (replicate 20 0%Z)) 16 (Some 0) = Some (s, Ptr o', Some n) ∧
    length o' = length (replicate 20 0%Z) ∧
    (16 = 0 ∨ 16 mod 16 ≠ 0 → s = OSDP_ERR_BAD_PAYLOAD ∧ o' = replicate 20 0%Z) ∧
    (0 < 16 → 16 mod 16 = 0 →
      (16 < 16 → s = OSDP_ERR_BUFFER_TOO_SMALL ∧ o' = replicate 20 0%Z) ∧
      (16 ≤ 16 →
        (s = OSDP_OK ∧ n < 16 ∧
           ∃ j, dec_payload toy OSDP_SCBK_DEFAULT (replicate 16 9%Z) (replicate 16 5%Z) =
                take n o' ++ 0x80%Z :: replicate j 0%Z) ∨
        (s = OSDP_ERR_BAD_PAYLOAD ∧ n = 0 ∧
           ∀ m j, dec_payload toy OSDP_SCBK_DEFAULT (replicate 16 9%Z) (replicate 16 5%Z) ≠
                  m ++ 0x80%Z :: replicate j 0%Z))).
Proof.
  apply (decrypt_payload_exact toy_crypto toy toy _ _ (replicate 16 5%Z)); vm_decide.
Defined.

Lemma compute_mac_annex_d5_witness :
  ∃ mac, osdp_sc_compute_mac (Some toy_crypto) (Ptr OSDP_SCBK_DEFAULT) (Ptr (replicate 16 9%Z))
      (Ptr (replicate 16 4%Z)) (Ptr (replicate 20 5%Z)) 18 (Ptr (replicate 16 0%Z)) =
      Some (OSDP_OK, Ptr (mac ++ drop 16 (replicate 16 0%Z))) ∧
    mac = cbc_mac (toy OSDP_SCBK_DEFAULT) (toy (replicate 16 9%Z)) (replicate 16 4%Z)
            (blocks (length (pad_mac (replicate 18 5%Z)) / 16) (pad_mac (replicate 18 5%Z))) ∧
    block mac.
Proof.
  apply (compute_mac_annex_d5 toy_crypto toy toy); first [by left|vm_decide].
Defined.

Lemma handshake_values_annex_d_witness :
  let a := replicate 8 1%Z in let b := replicate 8 2%Z in let o := replicate 16 0%Z in
  let ks := derived_keys toy OSDP_SCBK_DEFAULT a in
  osdp_sc_derive_session_keys (Some toy_crypto) (Ptr OSDP_SCBK_DEFAULT) (Ptr a) (Some (mk_keys [] [] [])) =
    Some (OSDP_OK, Some ks) ∧
  (∀ a', rnd_ok a' → take 6 a' = take 6 a → derived_keys toy OSDP_SCBK_DEFAULT a' = ks) ∧
  ∃ client server rmac,
    osdp_sc_client_cryptogram (Some toy_crypto) (Ptr (s_enc ks)) (Ptr a) (Ptr b) (Ptr o) =
      Some (OSDP_OK, Ptr (client ++ drop 16 o)) ∧
    osdp_sc_server_cryptogram (Some toy_crypto) (Ptr (s_enc ks)) (Ptr a) (Ptr b) (Ptr o) =
      Some (OSDP_OK, Ptr (server ++ drop 16 o)) ∧
    osdp_sc_initial_rmac (Some toy_crypto) (Ptr (s_mac1 ks)) (Ptr (s_mac2 ks)) (Ptr server) (Ptr o) =
      Some (OSDP_OK, Ptr (rmac ++ drop 16 o)) ∧
    block client ∧ block server ∧ block rmac ∧ (client = server ↔ a = b) ∧
    toy (s_enc ks) client = a ++ b.
Proof.
  cbv zeta. apply (handshake_values_annex_d toy_crypto toy toy); vm_decide.
Defined.
