(* ===== verification/ScFrame.v ===== *)
(** * Secure Channel frames: core/src/sc/session.c and wrap.c

    The session of a peer, wrapping an outbound frame (payload encrypted in
    place, MAC and integrity patched in) and verifying an inbound one.  The
    specification is [sealed]: the frame a template becomes on the wire. *)
From S2P Require Import Prelude Types Integrity Frame ScCrypto.

Record osdp_sc_session : Type := mk_session {
  ss_keys : osdp_sc_session_keys;
  last_outbound_mac : list Z;
  last_inbound_mac : list Z;
  established : bool }.

(** [memset(session, 0, sizeof *session)]. *)
Definition osdp_sc_session_init (session : option osdp_sc_session) : option osdp_sc_session :=
  match session with
  | None => None
  | Some _ =>
      let z := replicate 16 0%Z in Some (mk_session (mk_keys z z z) z z false)
  end.

(** ** max_payload *)

Definition osdp_sc_max_payload (shape : option osdp_frame) (buf_cap : nat) (out : option nat)
  : osdp_status * option nat :=
  match shape, out with
  | Some f, Some _ =>
      match osdp_frame_max_payload shape buf_cap (Some 0) with
      | (OSDP_OK, Some framed) =>
          if negb (fr_has_scb f) || negb (osdp_scb_is_encrypted (fr_scb_type f))
          then (OSDP_OK, Some framed)
          else
            let whole_blocks := framed / OSDP_AES_BLOCK_LEN in
            (OSDP_OK, Some (if decide (whole_blocks = 0) then 0
                            else whole_blocks * OSDP_AES_BLOCK_LEN - 1))
      | (s, _) => (s, out)
      end
  | _, _ => (OSDP_ERR_INVALID_ARG, out)
  end.

(** ** wrap *)

Definition with_mac (f : osdp_frame) (p : ptr) (n : nat) : osdp_frame :=
  mk_frame (fr_address f) (fr_reply f) (fr_sequence f) (fr_integrity f) (fr_has_scb f)
    (fr_scb_length f) (fr_scb_type f) (fr_scb_data f) (fr_scb_data_len f) (fr_code f)
    (fr_payload f) (fr_payload_len f) p n (fr_raw f) (fr_raw_len f).

Definition with_scb_type (f : osdp_frame) (t : Z) : osdp_frame :=
  mk_frame (fr_address f) (fr_reply f) (fr_sequence f) (fr_integrity f) (fr_has_scb f)
    (fr_scb_length f) t (fr_scb_data f) (fr_scb_data_len f) (fr_code f)
    (fr_payload f) (fr_payload_len f) (fr_mac f) (fr_mac_len f) (fr_raw f) (fr_raw_len f).

(** The SCB type by payload presence. *)
Definition coerce_scb_type (payload_len : nat) (t : Z) : Z :=
  if decide (payload_len = 0) then
    if decide (t = OSDP_SCS_17) then OSDP_SCS_15
    else if decide (t = OSDP_SCS_18) then OSDP_SCS_16 else t
  else
    if decide (t = OSDP_SCS_15) then OSDP_SCS_17
    else if decide (t = OSDP_SCS_16) then OSDP_SCS_18 else t.

(** [p + off]. *)
Definition ptr_add (p : ptr) (off : nat) : option ptr :=
  match p with
  | NULL => UB
  | Ptr m => if decide (off ≤ length m) then Ret (Ptr (drop off m)) else UB
  end.

(** [p] after the region at [p + off] became [r]. *)
Definition ptr_update (p : ptr) (off : nat) (r : ptr) : option ptr :=
  match p, r with
  | Ptr m, Ptr m' => Ret (Ptr (take off m ++ m'))
  | _, _ => UB
  end.

(** Encrypts the payload into its final position of [out_buf]: the frame with
    its payload there, and that position. *)
Definition wrap_encrypt {W} (crypto : option (osdp_sc_crypto W)) (session : osdp_sc_session)
    (built : osdp_frame) (out_buf : ptr) (out_cap : nat)
  : option (osdp_status * ptr * option (osdp_frame * option nat)) :=
  if osdp_scb_is_encrypted (fr_scb_type built) then
    match osdp_frame_payload_offset (Some built) (Some 0) with
    | (OSDP_OK, Some payload_off) =>
        if decide (out_cap ≤ payload_off) then Ret (OSDP_ERR_BUFFER_TOO_SMALL, out_buf, None) else
        region ← ptr_add out_buf payload_off;
        '(s, region, enc_len) ←
          osdp_sc_encrypt_payload crypto (Ptr (s_enc (ss_keys session))) (Ptr (last_inbound_mac session))
            (fr_payload built) (fr_payload_len built) region (out_cap - payload_off) (Some 0);
        out_buf ← ptr_update out_buf payload_off region;
        if decide (s ≠ OSDP_OK) then Ret (s, out_buf, None) else
        n ← enc_len;
        ct ← rd_slice region 0 n;
        Ret (OSDP_OK, out_buf, Some (with_payload built (Ptr ct) n, Some payload_off))
    | (s, _) => Ret (s, out_buf, None)
    end
  else Ret (OSDP_OK, out_buf, Some (built, None)).

(** Computes the MAC of the built message and patches it in, with the integrity
    characters over it. *)
Definition wrap_seal {W} (crypto : option (osdp_sc_crypto W)) (session : osdp_sc_session)
    (built : osdp_frame) (out_buf : ptr) (built_len : nat)
  : option (osdp_status * ptr * list Z) :=
  let frame_len := built_len - OSDP_FRAME_MARK_LEN in
  let mac_offset := frame_len - integrity_size built - OSDP_FRAME_MAC_LEN in
  let crc_offset := frame_len - integrity_size built in
  frame ← ptr_add out_buf OSDP_FRAME_MARK_LEN;
  '(s, mac_p) ←
    osdp_sc_compute_mac crypto (Ptr (s_mac1 (ss_keys session))) (Ptr (s_mac2 (ss_keys session)))
      (Ptr (last_inbound_mac session)) frame mac_offset (Ptr (replicate OSDP_SC_MAC_LEN 0%Z));
  if decide (s ≠ OSDP_OK) then Ret (s, out_buf, []) else
  mac_full ← rd_slice mac_p 0 OSDP_SC_MAC_LEN;
  frame ← wr frame mac_offset (take OSDP_FRAME_MAC_LEN mac_full);
  frame ← (if decide (fr_integrity built = OSDP_INTEGRITY_CRC) then
             crc ← osdp_crc16 frame crc_offset;
             frame ← wr frame crc_offset [Z.land crc 0xFF];
             wr frame (crc_offset + 1) [Z.land (Z.shiftr crc 8) 0xFF]
           else
             k ← osdp_checksum frame crc_offset;
             wr frame crc_offset [k]);
  out_buf ← ptr_update out_buf OSDP_FRAME_MARK_LEN frame;
  Ret (OSDP_OK, out_buf, mac_full).

(** Building and sealing the frame, once its payload is in place. *)
Definition wrap_build {W} (crypto : option (osdp_sc_crypto W)) (s : osdp_sc_session)
    (built : osdp_frame) (in_buf : option nat) (out_buf : ptr) (out_cap : nat)
  : option (osdp_status * option osdp_sc_session * ptr * option nat) :=
  '(st, out_buf, built_len) ← osdp_frame_build_at (Some built) in_buf out_buf out_cap (Some 0);
  if decide (st ≠ OSDP_OK) then Ret (st, Some s, out_buf, Some 0) else
  n ← built_len;
  '(st, out_buf, mac_full) ← wrap_seal crypto s built out_buf n;
  if decide (st ≠ OSDP_OK) then Ret (st, Some s, out_buf, Some 0) else
  Ret (OSDP_OK, Some (mk_session (ss_keys s) mac_full (last_inbound_mac s) (established s)),
       out_buf, Some n).

Definition osdp_sc_wrap_frame {W} (crypto : option (osdp_sc_crypto W))
    (session : option osdp_sc_session) (plain_template : option osdp_frame) (out_buf : ptr)
    (out_cap : nat) (out_len : option nat)
  : option (osdp_status * option osdp_sc_session * ptr * option nat) :=
  match crypto, session, plain_template, out_len with
  | Some _, Some s, Some t, Some _ =>
      if is_null out_buf then Ret (OSDP_ERR_INVALID_ARG, session, out_buf, out_len) else
      if negb (established s) then Ret (OSDP_ERR_INVALID_ARG, session, out_buf, Some 0) else
      if negb (fr_has_scb t) || negb (osdp_scb_has_mac (fr_scb_type t))
      then Ret (OSDP_ERR_INVALID_ARG, session, out_buf, Some 0) else
      let built := with_mac t (Ptr (replicate OSDP_FRAME_MAC_LEN 0%Z)) OSDP_FRAME_MAC_LEN in
      let built := with_scb_type built (coerce_scb_type (fr_payload_len built) (fr_scb_type built)) in
      '(st, out_buf, e) ← wrap_encrypt crypto s built out_buf out_cap;
      match e with
      | None => Ret (st, session, out_buf, Some 0)
      | Some (built, in_buf) => wrap_build crypto s built in_buf out_buf out_cap
      end
  | _, _, _, _ => Ret (OSDP_ERR_INVALID_ARG, session, out_buf, out_len)
  end.

(** ** unwrap *)

(** The plaintext of a verified frame: status, [plaintext_out], [*plain_len]. *)
Definition unwrap_payload {W} (crypto : option (osdp_sc_crypto W)) (session : osdp_sc_session)
    (f : osdp_frame) (plaintext_out : ptr) (plain_cap : nat)
  : option (osdp_status * ptr * option nat) :=
  if osdp_scb_is_encrypted (fr_scb_type f) then
    osdp_sc_decrypt_payload crypto (Ptr (s_enc (ss_keys session))) (Ptr (last_outbound_mac session))
      (fr_payload f) (fr_payload_len f) plaintext_out plain_cap (Some 0)
  else
    if decide (plain_cap < fr_payload_len f)
    then Ret (OSDP_ERR_BUFFER_TOO_SMALL, plaintext_out, Some 0) else
    if decide (0 < fr_payload_len f) then
      if is_null plaintext_out then Ret (OSDP_ERR_INVALID_ARG, plaintext_out, Some 0) else
      bs ← rd_slice (fr_payload f) 0 (fr_payload_len f);
      plaintext_out ← wr plaintext_out 0 bs;
      Ret (OSDP_OK, plaintext_out, Some (fr_payload_len f))
    else Ret (OSDP_OK, plaintext_out, Some (fr_payload_len f)).

(** [raw_len - integrity_size - 4] in [size_t]; where it would wrap, the MAC
    computation would read past the message. *)
Definition unwrap_mac_offset (f : osdp_frame) : option nat :=
  if decide (fr_raw_len f < integrity_size f + OSDP_FRAME_MAC_LEN) then UB
  else Ret (fr_raw_len f - integrity_size f - OSDP_FRAME_MAC_LEN).

Definition osdp_sc_unwrap_frame {W} (crypto : option (osdp_sc_crypto W))
    (session : option osdp_sc_session) (frame : option osdp_frame) (plaintext_out : ptr)
    (plain_cap : nat) (plain_len : option nat)
  : option (osdp_status * option osdp_sc_session * ptr * option nat) :=
  match crypto, session, frame, plain_len with
  | Some _, Some s, Some f, Some _ =>
      if negb (established s) then Ret (OSDP_ERR_INVALID_ARG, session, plaintext_out, Some 0) else
      if negb (fr_has_scb f) || negb (osdp_scb_has_mac (fr_scb_type f))
      then Ret (OSDP_ERR_INVALID_ARG, session, plaintext_out, Some 0) else
      if decide (fr_mac_len f ≠ OSDP_FRAME_MAC_LEN ∨ fr_mac f = NULL)
      then Ret (OSDP_ERR_INVALID_ARG, session, plaintext_out, Some 0) else
      if decide (fr_raw f = NULL ∨ fr_raw_len f = 0)
      then Ret (OSDP_ERR_INVALID_ARG, session, plaintext_out, Some 0) else
      mac_offset ← unwrap_mac_offset f;
      '(st, mac_p) ←
        osdp_sc_compute_mac crypto (Ptr (s_mac1 (ss_keys s))) (Ptr (s_mac2 (ss_keys s)))
          (Ptr (last_outbound_mac s)) (fr_raw f) mac_offset (Ptr (replicate OSDP_SC_MAC_LEN 0%Z));
      if decide (st ≠ OSDP_OK) then Ret (st, session, plaintext_out, Some 0) else
      expected_mac ← rd_slice mac_p 0 OSDP_SC_MAC_LEN;
      sent ← rd_slice (fr_mac f) 0 OSDP_FRAME_MAC_LEN;
      if decide (take OSDP_FRAME_MAC_LEN expected_mac ≠ sent)
      then Ret (OSDP_ERR_BAD_CRC, session, plaintext_out, Some 0) else
      '(st, plaintext_out, n) ← unwrap_payload crypto s f plaintext_out plain_cap;
      if decide (st ≠ OSDP_OK) then Ret (st, session, plaintext_out, n) else
      Ret (OSDP_OK,
           Some (mk_session (ss_keys s) (last_outbound_mac s) expected_mac (established s)),
           plaintext_out, n)
  | _, _, _, _ => Ret (OSDP_ERR_INVALID_ARG, session, plaintext_out, plain_len)
  end.

(** ** Specification *)

(** SOM up to the byte before the MAC. *)
Definition frame_prefix (f : osdp_frame) : list Z :=
  header_bytes f (frame_total f) ++ scb_bytes f ++ [fr_code f] ++ view (fr_payload f) (fr_payload_len f).

Section spec.
Context (E D : list Z → list Z → list Z).

(** The template with its wire SCB type, its wire payload and a MAC slot. *)
Definition sealed_shape (s : osdp_sc_session) (t : osdp_frame) : osdp_frame :=
  let ty := coerce_scb_type (fr_payload_len t) (fr_scb_type t) in
  let b := with_scb_type (with_mac t (Ptr (replicate 4 0%Z)) 4) ty in
  if osdp_scb_is_encrypted ty then
    let ct := enc_payload E (s_enc (ss_keys s)) (last_inbound_mac s) (view (fr_payload t) (fr_payload_len t)) in
    with_payload b (Ptr ct) (length ct)
  else b.

Definition seal_mac (s : osdp_sc_session) (t : osdp_frame) : list Z :=
  mac_ref E (s_mac1 (ss_keys s)) (s_mac2 (ss_keys s)) (last_inbound_mac s)
    (frame_prefix (sealed_shape s t)).

(** The frame that goes on the wire. *)
Definition sealed (s : osdp_sc_session) (t : osdp_frame) : osdp_frame :=
  with_mac (sealed_shape s t) (Ptr (take 4 (seal_mac s t))) 4.

End spec.

(** A live session: keys and chain entries are blocks. *)
Definition session_ok (s : osdp_sc_session) : Prop :=
  established s = true ∧ keys_ok (ss_keys s) ∧ block (last_outbound_mac s) ∧ block (last_inbound_mac s).

(** The keys and the chains of a session, live or not. *)
Definition session_blocks (s : osdp_sc_session) : Prop :=
  keys_ok (ss_keys s) ∧ block (last_outbound_mac s) ∧ block (last_inbound_mac s).

(** Two peers whose chains agree. *)
Definition mirrored (a b : osdp_sc_session) : Prop :=
  ss_keys a = ss_keys b ∧ last_outbound_mac a = last_inbound_mac b ∧
  last_inbound_mac a = last_outbound_mac b.

(** A template for SC1 operation: an SCS_15..18 block without SCB data. *)
Record sc_template (t : osdp_frame) : Prop := {
  sct_typed : frame_typed t;
  sct_scb : fr_has_scb t = true ∧ fr_scb_length t = 2%Z ∧ fr_scb_data_len t = 0;
  sct_type : (OSDP_SCS_15 ≤ fr_scb_type t ≤ OSDP_SCS_18)%Z;
  sct_address : (fr_address t ≤ 0x7F)%Z;
  sct_sequence : (fr_sequence t ≤ 3)%Z;
  sct_integrity : fr_integrity t = OSDP_INTEGRITY_CHECKSUM ∨ fr_integrity t = OSDP_INTEGRITY_CRC;
  sct_payload : 0 < fr_payload_len t → fr_payload t ≠ NULL }.

#[export] Instance session_ok_dec s : Decision (session_ok s).
Proof. unfold session_ok, keys_ok. apply _. Defined.
#[export] Instance osdp_sc_session_keys_eq_dec : EqDecision osdp_sc_session_keys.
Proof. solve_decision. Defined.
#[export] Instance mirrored_dec a b : Decision (mirrored a b).
Proof. unfold mirrored. apply _. Defined.
#[export] Instance sc_template_dec t : Decision (sc_template t).
Proof.
  refine (cast_if (decide (frame_typed t ∧ (fr_has_scb t = true ∧ fr_scb_length t = 2%Z ∧ fr_scb_data_len t = 0) ∧
    (OSDP_SCS_15 ≤ fr_scb_type t ≤ OSDP_SCS_18)%Z ∧ (fr_address t ≤ 0x7F)%Z ∧ (fr_sequence t ≤ 3)%Z ∧
    (fr_integrity t = OSDP_INTEGRITY_CHECKSUM ∨ fr_integrity t = OSDP_INTEGRITY_CRC) ∧
    (0 < fr_payload_len t → fr_payload t ≠ NULL))));
  abstract (try (intros []; tauto); destruct_and!; by constructor).
Defined.

(** The payload bytes the frame carries. *)
Definition wire_payload_len (t : osdp_frame) : nat :=
  if decide (fr_payload_len t = 0) then 0 else (fr_payload_len t / 16 + 1) * 16.

(** SOM to integrity of the wrapped frame. *)
Definition sealed_total (t : osdp_frame) : nat := 12 + wire_payload_len t + integrity_size t.

(** ** Lemmas: shape of the sealed frame *)

Lemma coerce_facts n t :
  (OSDP_SCS_15 ≤ t ≤ OSDP_SCS_18)%Z →
  let ty := coerce_scb_type n t in
  (OSDP_SCS_15 ≤ ty ≤ OSDP_SCS_18)%Z ∧ osdp_scb_mac_len ty = 4 ∧
  osdp_scb_is_encrypted ty = negb (bool_decide (n = 0)).
Proof.
  intros Ht. assert (t = 0x15 ∨ t = 0x16 ∨ t = 0x17 ∨ t = 0x18)%Z as Hc
    by (unfold OSDP_SCS_15, OSDP_SCS_18 in *; lia).
  unfold coerce_scb_type. destruct (decide (n = 0)) as [->|Hn].
  - destruct Hc as [-> | [-> | [-> | ->]]]; vm_compute; split_and!; done.
  - rewrite (bool_decide_false (n = 0)) by done.
    destruct Hc as [-> | [-> | [-> | ->]]]; vm_compute; split_and!; done.
Qed.

Lemma frame_body_prefix f : frame_body f = frame_prefix f ++ view (fr_mac f) (mac_needed f).
Proof. unfold frame_body, frame_prefix. by rewrite <-!app_assoc. Qed.

Lemma frame_wire_view f p q n :
  view p n = view q n → frame_wire (with_payload f p n) = frame_wire (with_payload f q n) ∧
  frame_prefix (with_payload f p n) = frame_prefix (with_payload f q n).
Proof.
  intros Hv. unfold frame_wire, frame_body, frame_prefix, trailer. cbn [fr_payload fr_payload_len with_payload].
  rewrite Hv. done.
Qed.

Lemma ptr_add_1 x l : ptr_add (Ptr (x :: l)) 1 = Some (Ptr l).
Proof. unfold ptr_add. rewrite decide_True by (cbn [length]; lia). by rewrite skipn_cons, drop_0. Qed.

(** Example peers and templates. *)
Definition ex_keys : osdp_sc_session_keys := derived_keys toy OSDP_SCBK_DEFAULT (replicate 8 1%Z).
Definition ex_acu : osdp_sc_session := mk_session ex_keys (replicate 16 3%Z) (replicate 16 4%Z) true.
Definition ex_pd : osdp_sc_session := mk_session ex_keys (replicate 16 4%Z) (replicate 16 3%Z) true.
Definition ex_template (ty : Z) (payload : list Z) : osdp_frame :=
  mk_frame 1 false 1 OSDP_INTEGRITY_CRC true 2 ty NULL 0 0x60 (slice_ptr payload) (length payload)
    NULL 0 NULL 0.
Definition ex_msgs : list (bool * osdp_frame) :=
  [(true, ex_template OSDP_SCS_15 []); (false, ex_template OSDP_SCS_16 [1; 2; 3]%Z);
   (true, ex_template OSDP_SCS_17 (replicate 16 9%Z)); (false, ex_template OSDP_SCS_16 [])].

Section wrap.
Context {W : Type} (c : osdp_sc_crypto W) (E D : list Z → list Z → list Z) {A : Aes c E D}.

Lemma sealed_shape_facts s t :
  session_ok s → sc_template t →
  let g := sealed_shape E s t in
  frame_typed g ∧ (sealed_total t ≤ OSDP_FRAME_MAX_LEN → buildable g) ∧ frame_total g = sealed_total t ∧ mac_needed g = 4 ∧
  scb_total_of g = 2 ∧ fr_payload_len g = wire_payload_len t ∧
  fr_mac g = Ptr (replicate 4 0%Z).
Proof.
  intros (Hest & (Be & _ & _) & Bo & Bi) Ht g. destruct Ht as [Hty (Hscb & Hsl & Hsd) Ht Ha Hs Hint Hp].
  destruct (coerce_facts (fr_payload_len t) (fr_scb_type t) Ht) as (Hct & Hml & Henc).
  set (ty := coerce_scb_type (fr_payload_len t) (fr_scb_type t)) in *.
  set (m := view (fr_payload t) (fr_payload_len t)).
  assert (length m = fr_payload_len t) as Hm by (apply length_view; [apply Hty|done]).
  assert (bytes_ok m) as Hmb by (apply view_bytes, Hty).
  destruct (enc_payload_length c E D (s_enc (ss_keys s)) (last_inbound_mac s) m Be Bi Hmb) as [Hcl Hcb].
  rewrite Hm in Hcl.
  assert (mac_needed g = 4 ∧ scb_total_of g = 2 ∧ fr_payload_len g = wire_payload_len t ∧
          fr_mac g = Ptr (replicate 4 0%Z) ∧ integrity_size g = integrity_size t) as (Hmn & Hst & Hpl & Hmac & His).
  { unfold g, sealed_shape, wire_payload_len. fold ty m. rewrite Henc.
    unfold mac_needed, scb_total_of, integrity_size.
    destruct (decide (fr_payload_len t = 0)) as [Hz|Hnz].
    - rewrite bool_decide_true by done. cbn. rewrite Hscb, Hsl. split_and!; done.
    - rewrite bool_decide_false by done. cbn. rewrite Hscb, Hsl. split_and!; first [exact Hcl|done]. }
  assert (frame_total g = sealed_total t) as Hft.
  { unfold frame_total, sealed_total. rewrite Hmn, Hst, Hpl, His. unfold OSDP_FRAME_HEADER_LEN. lia. }
  assert (is_byte ty) as Htyb by (unfold is_byte, OSDP_SCS_15, OSDP_SCS_18 in *; lia).
  assert (frame_typed g) as Hgt.
  { unfold g, sealed_shape. fold ty m. destruct Hty. destruct (osdp_scb_is_encrypted ty); constructor; cbn; try done.
    all: split; [done|vm_decide]. }
  split_and!; try done. intros Htot. assert (fr_has_scb g = true ∧ fr_scb_length g = 2%Z ∧ fr_scb_data_len g = 0 ∧
    fr_address g = fr_address t ∧ fr_sequence g = fr_sequence t ∧ fr_integrity g = fr_integrity t ∧
    fr_mac_len g = 4) as (E1 & E2 & E3 & E4 & E5 & E6 & E7).
  { unfold g, sealed_shape. fold ty m. by destruct (osdp_scb_is_encrypted ty). }
  constructor.
  - by rewrite E4.
  - by rewrite E5.
  - by rewrite E6.
  - intros _. rewrite E2, E3. split_and!; [lia|lia|lia].
  - unfold g, sealed_shape. fold ty m. by destruct (osdp_scb_is_encrypted ty).
  - by rewrite E7, Hmn.
  - by rewrite Hmac.
  - by rewrite Hft.
Qed.

Lemma prefix_facts g :
  frame_typed g → buildable g → mac_needed g = 4 →
  length (frame_prefix g) + 4 + integrity_size g = frame_total g ∧ bytes_ok (frame_prefix g).
Proof.
  intros Hg Hb Hm. pose proof (length_frame_body g Hg Hb) as Hl. rewrite frame_body_prefix, length_app in Hl.
  rewrite (length_mac_view g Hg Hb) in Hl. split; [lia|].
  pose proof (frame_body_bytes g Hg Hb) as Hbb. rewrite frame_body_prefix in Hbb.
  by apply Forall_app in Hbb as [? _].
Qed.

Lemma block_take4 m : block m → region_ok (Ptr (take 4 m)) 4 ∧ view (Ptr (take 4 m)) 4 = take 4 m ∧ length (take 4 m) = 4.
Proof.
  intros [Hl Hm]. unfold OSDP_AES_BLOCK_LEN in Hl. assert (length (take 4 m) = 4) as Ht by (rewrite length_take_le; lia).
  split_and!; [|cbn [view]; by rewrite take_take|done]. split; [lia|by apply Forall_take].
Qed.

(** Putting a MAC into the slot keeps the frame well-formed. *)
Lemma with_mac_facts g m :
  frame_typed g → buildable g → mac_needed g = 4 → block m →
  frame_typed (with_mac g (Ptr (take 4 m)) 4) ∧ buildable (with_mac g (Ptr (take 4 m)) 4) ∧
  frame_total (with_mac g (Ptr (take 4 m)) 4) = frame_total g ∧
  frame_prefix (with_mac g (Ptr (take 4 m)) 4) = frame_prefix g ∧
  frame_body (with_mac g (Ptr (take 4 m)) 4) = frame_prefix g ++ take 4 m.
Proof.
  intros Hg Hb Hmn Bm. destruct (block_take4 m Bm) as (Hr & Hv & Hl).
  split_and!.
  - destruct Hg. by constructor.
  - destruct Hb. constructor; cbn; try done.
  - done.
  - done.
  - rewrite frame_body_prefix. change (mac_needed (with_mac g (Ptr (take 4 m)) 4)) with (mac_needed g).
    rewrite Hmn. cbn [fr_mac with_mac]. rewrite Hv. done.
Qed.

Lemma wrap_seal_ok s g rest :
  session_ok s → frame_typed g → buildable g → mac_needed g = 4 →
  let mac := mac_ref E (s_mac1 (ss_keys s)) (s_mac2 (ss_keys s)) (last_inbound_mac s) (frame_prefix g) in
  block mac ∧
  wrap_seal (Some c) s g (Ptr (OSDP_FRAME_MARK :: frame_wire g ++ rest)) (S (frame_total g)) =
    Some (OSDP_OK, Ptr (OSDP_FRAME_MARK :: frame_wire (with_mac g (Ptr (take 4 mac)) 4) ++ rest), mac).
Proof.
  intros (_ & (Be & B1 & B2) & Bo & Bi) Hg Hb Hmn mac.
  destruct (prefix_facts g Hg Hb Hmn) as [Hpl Hpb].
  assert (block mac) as Bmac by (by apply (mac_ref_block c E D)). split; [done|].
  destruct (block_take4 mac Bmac) as (_ & _ & Hl4).
  destruct (with_mac_facts g mac Hg Hb Hmn Bmac) as (Hg' & Hb' & Htot' & Hpre' & Hbody').
  set (P := frame_prefix g) in *. set (M := view (fr_mac g) (mac_needed g)).
  assert (length M = 4) as HM by (unfold M; rewrite length_mac_view by done; done).
  unfold wrap_seal, OSDP_FRAME_MARK_LEN, OSDP_FRAME_MAC_LEN, OSDP_SC_MAC_LEN.
  replace (S (frame_total g) - 1 - integrity_size g - 4) with (length P) by lia.
  replace (S (frame_total g) - 1 - integrity_size g) with (length P + 4) by lia.
  rewrite ptr_add_1. cbn [mbind option_bind].
  assert (frame_wire g = P ++ M ++ trailer g (frame_body g)) as ->.
  { unfold frame_wire. rewrite frame_body_prefix at 1. by rewrite <-app_assoc. }
  rewrite <-!(app_assoc P), <-!(app_assoc M).
  rewrite (compute_mac_ok c E D _ _ _ (s_mac1 (ss_keys s)) (s_mac2 (ss_keys s)) (last_inbound_mac s) _ P);
    [|by apply rd_block..|done|done|done|left; by apply rd_front|done|by rewrite length_replicate].
  fold mac. cbn [mbind option_bind]. rewrite decide_False by (intros []; done).
  rewrite drop_ge, app_nil_r by (rewrite length_replicate; lia). rewrite rd_block by done.
  cbn [mbind option_bind wr]. rewrite mwr_app by (try done; rewrite !length_app; lia).
  cbn [fmap option_fmap option_map mbind option_bind]. rewrite Hl4, drop_app_length' by done.
  pose proof (length_trailer g (frame_body g)) as Hlt.
  assert (bytes_ok (P ++ take 4 mac)) as Hbb by (rewrite <-Hbody'; by apply frame_body_bytes).
  assert (length (P ++ take 4 mac) = length P + 4) as HlB by (rewrite length_app; lia).
  assert (take (length P + 4) ((P ++ take 4 mac) ++ trailer g (frame_body g) ++ rest) = P ++ take 4 mac) as Htk
    by (by apply take_app_length').
  unfold frame_wire. rewrite Hbody'. unfold trailer, integrity_size in *. cbn [with_mac fr_integrity].
  case_decide as Hint.
  - rewrite osdp_crc16_bytes by (first [rewrite Htk; done|rewrite length_app, HlB; lia]).
    rewrite Htk. set (crc := crc_bytes (P ++ take 4 mac)). cbn [mbind option_bind wr]. 
    rewrite mwr_app by (try done; rewrite length_app; cbn [length]; lia).
    cbn [fmap option_fmap option_map mbind option_bind length wr].
    rewrite mwr_app; [|rewrite (length_app (P ++ take 4 mac)); cbn [length]; lia|cbn; lia].
    cbn [fmap option_fmap option_map mbind option_bind length ptr_update].
    rewrite !drop_drop. rewrite drop_app_length' by (by rewrite length_le_split).
    cbn [le_split take app]. by rewrite <-!app_assoc.
  - rewrite osdp_checksum_bytes by (first [rewrite Htk; done|rewrite length_app, HlB; lia]).
    rewrite Htk. cbn [mbind option_bind wr].
    rewrite mwr_app by (try done; rewrite length_app; cbn [length]; lia).
    cbn [fmap option_fmap option_map mbind option_bind length ptr_update take app drop].
    by rewrite drop_0, <-!app_assoc.
Qed.

Lemma build_check_total f in_buf n : build_check f in_buf = inr n → n = scb_total_of f.
Proof.
  unfold build_check. intros H. repeat (case_decide; [done|]).
  destruct (frame_scb_total f) as [[] k] eqn:Hk; try done.
  apply frame_scb_total_inv in Hk as [-> _]. repeat case_decide; by simplify_eq.
Qed.

(** The builder refuses what does not fit and leaves the buffer alone. *)
Lemma build_at_refused f in_buf m cap w :
  OSDP_FRAME_MAX_LEN < frame_total f ∨ cap < S (frame_total f) →
  ∃ st, osdp_frame_build_at (Some f) in_buf (Ptr m) cap (Some w) = Some (st, Ptr m, Some 0) ∧ st ≠ OSDP_OK.
Proof.
  intros Hbig. unfold osdp_frame_build_at. cbn [is_null].
  destruct (build_check f in_buf) as [s|n] eqn:Hc.
  { apply build_check_inl in Hc as ->. by eexists. }
  apply build_check_total in Hc as ->. fold (frame_total f).
  case_decide; [by eexists|]. rewrite decide_True; [by eexists|]. unfold OSDP_FRAME_MARK_LEN. lia.
Qed.

(** ** wrap against its specification *)

Lemma sealed_facts s t :
  session_ok s → sc_template t → sealed_total t ≤ OSDP_FRAME_MAX_LEN →
  let g := sealed E s t in
  frame_typed g ∧ buildable g ∧ frame_total g = sealed_total t ∧ block (seal_mac E s t) ∧
  frame_body g = frame_prefix (sealed_shape E s t) ++ take 4 (seal_mac E s t).
Proof.
  intros Hs Ht Htot g. destruct (sealed_shape_facts s t Hs Ht) as (Hg & Hb & Hft & Hmn & _).
  specialize (Hb Htot). pose proof Hs as (_ & (_ & B1 & B2) & _ & Bi).
  destruct (prefix_facts _ Hg Hb Hmn) as [_ Hpb].
  assert (block (seal_mac E s t)) as Bm by (by apply (mac_ref_block c E D)).
  destruct (with_mac_facts _ _ Hg Hb Hmn Bm) as (? & ? & ? & _ & ?). split_and!; (done || congruence).
Qed.

Lemma sealed_plain s t :
  fr_payload_len t = 0 → sc_template t →
  sealed_shape E s t = with_scb_type (with_mac t (Ptr (replicate 4 0%Z)) 4)
    (coerce_scb_type (fr_payload_len t) (fr_scb_type t)) ∧
  osdp_scb_is_encrypted (coerce_scb_type (fr_payload_len t) (fr_scb_type t)) = false.
Proof.
  intros Hz Ht. destruct (coerce_facts (fr_payload_len t) (fr_scb_type t) (sct_type t Ht)) as (_ & _ & He).
  rewrite bool_decide_true in He by done. unfold sealed_shape. by rewrite He.
Qed.

Lemma sealed_encrypted s t :
  fr_payload_len t ≠ 0 → sc_template t →
  let ct := enc_payload E (s_enc (ss_keys s)) (last_inbound_mac s) (view (fr_payload t) (fr_payload_len t)) in
  sealed_shape E s t = with_payload (with_scb_type (with_mac t (Ptr (replicate 4 0%Z)) 4)
    (coerce_scb_type (fr_payload_len t) (fr_scb_type t))) (Ptr ct) (length ct) ∧
  osdp_scb_is_encrypted (coerce_scb_type (fr_payload_len t) (fr_scb_type t)) = true.
Proof.
  intros Hz Ht ct. destruct (coerce_facts (fr_payload_len t) (fr_scb_type t) (sct_type t Ht)) as (_ & _ & He).
  rewrite bool_decide_false in He by done. unfold sealed_shape. by rewrite He.
Qed.

(** What the encryption stage hands to the builder. *)
Lemma wrap_encrypt_ok s t m cap :
  session_ok s → sc_template t → fr_payload_len t ≠ 0 → cap ≤ length m →
  let n := (fr_payload_len t / 16 + 1) * 16 in
  let ct := enc_payload E (s_enc (ss_keys s)) (last_inbound_mac s) (view (fr_payload t) (fr_payload_len t)) in
  let b := with_scb_type (with_mac t (Ptr (replicate 4 0%Z)) 4)
             (coerce_scb_type (fr_payload_len t) (fr_scb_type t)) in
  length ct = n ∧
  (9 + n ≤ cap →
    wrap_encrypt (Some c) s b (Ptr m) cap =
      Some (OSDP_OK, Ptr (take 9 m ++ ct ++ drop (9 + n) m),
            Some (with_payload b (Ptr ct) n, Some 9))) ∧
  (cap < 9 + n →
    ∃ st, wrap_encrypt (Some c) s b (Ptr m) cap = Some (st, Ptr m, None) ∧ st ≠ OSDP_OK).
Proof.
  intros Hs Ht Hz Hm n ct b. pose proof Hs as (_ & (Be & _ & _) & _ & Bi).
  set (pl := view (fr_payload t) (fr_payload_len t)) in *.
  assert (length pl = fr_payload_len t) as Hpl by (apply length_view; [apply Ht|intros; by apply Ht]).
  assert (bytes_ok pl) as Hpb by (apply view_bytes, Ht).
  destruct (enc_payload_length c E D (s_enc (ss_keys s)) (last_inbound_mac s) pl Be Bi Hpb) as [Hcl _].
  rewrite Hpl in Hcl. split; [done|].
  assert (osdp_frame_payload_offset (Some b) (Some 0) = (OSDP_OK, Some 9)) as Hoff.
  { destruct Ht as [_ (H1 & H2 & H3) _ _ _ _ _]. unfold osdp_frame_payload_offset, frame_scb_total, OSDP_SCB_MIN_LEN.
    cbn [fr_has_scb fr_scb_length fr_scb_data_len fr_scb_data b with_scb_type with_mac].
    rewrite H1, H2, H3. cbn [negb]. rewrite !decide_False by (change (Z.to_nat 2) with 2; first [lia|intros [? _]; lia]). done. }
  destruct (sealed_encrypted s t Hz Ht) as [_ He].
  assert (rd_slice (fr_payload t) 0 (length pl) = Some pl) as Hrd.
  { rewrite Hpl. apply rd_slice_view; [apply Ht|apply Ht; lia]. }
  unfold wrap_encrypt. cbn [fr_scb_type b with_scb_type]. rewrite He, Hoff. cbn [ptr_add].
  split.
  - intros Hcap. rewrite decide_False, decide_True by lia. cbn [mbind option_bind fr_payload fr_payload_len b with_scb_type with_mac].
    rewrite <-Hpl. rewrite (encrypt_payload_ok c E D _ _ (s_enc (ss_keys s)) (last_inbound_mac s) _ pl);
      [|auto using rd_block..|by left|done|rewrite Hpl; fold n; lia|rewrite length_drop; lia].
    cbn [mbind option_bind ptr_update]. rewrite decide_False by (intros []; done). rewrite Hpl. fold n.
    rewrite rd_front by done. cbn [mbind option_bind]. by rewrite drop_drop.
  - intros Hcap. case_decide; [by eexists|]. rewrite decide_True by lia.
    cbn [mbind option_bind fr_payload fr_payload_len b with_scb_type with_mac].
    assert (osdp_sc_encrypt_payload (Some c) (Ptr (s_enc (ss_keys s))) (Ptr (last_inbound_mac s)) (fr_payload t)
      (fr_payload_len t) (Ptr (drop 9 m)) (cap - 9) (Some 0) =
      Some (OSDP_ERR_BUFFER_TOO_SMALL, Ptr (drop 9 m), Some 0)) as ->.
    { unfold osdp_sc_encrypt_payload, OSDP_AES_BLOCK_LEN. cbn [is_null orb].
      rewrite decide_False by (intros [? Hn]; rewrite Hn in Hrd; done). fold n. by rewrite decide_True by lia. }
    cbn [mbind option_bind ptr_update]. rewrite take_drop. by eexists.
Qed.

Lemma wrap_build_ok s g in_buf m cap rest :
  session_ok s → frame_typed g → buildable g → mac_needed g = 4 →
  osdp_frame_build_at (Some g) in_buf (Ptr m) cap (Some 0) =
    Some (OSDP_OK, Ptr (OSDP_FRAME_MARK :: frame_wire g ++ rest), Some (S (frame_total g))) →
  let mac := mac_ref E (s_mac1 (ss_keys s)) (s_mac2 (ss_keys s)) (last_inbound_mac s) (frame_prefix g) in
  wrap_build (Some c) s g in_buf (Ptr m) cap =
    Some (OSDP_OK, Some (mk_session (ss_keys s) mac (last_inbound_mac s) true),
          Ptr (OSDP_FRAME_MARK :: frame_wire (with_mac g (Ptr (take 4 mac)) 4) ++ rest),
          Some (S (frame_total g))).
Proof.
  intros Hs Hg Hb Hmn Hbuild mac. unfold wrap_build. rewrite Hbuild. cbn [mbind option_bind].
  rewrite decide_False by (intros []; done).
  destruct (wrap_seal_ok s g rest Hs Hg Hb Hmn) as [_ ->]. cbn [mbind option_bind].
  rewrite decide_False by (intros []; done). destruct Hs as [-> _]. done.
Qed.

Lemma wrap_start s t m cap w :
  session_ok s → sc_template t →
  osdp_sc_wrap_frame (Some c) (Some s) (Some t) (Ptr m) cap (Some w) =
    '(st, out_buf, e) ← wrap_encrypt (Some c) s
       (with_scb_type (with_mac t (Ptr (replicate 4 0%Z)) 4)
          (coerce_scb_type (fr_payload_len t) (fr_scb_type t))) (Ptr m) cap;
    match e with
    | None => Ret (st, Some s, out_buf, Some 0)
    | Some (built, in_buf) => wrap_build (Some c) s built in_buf out_buf cap
    end.
Proof.
  intros (Hest & _) Ht. destruct (sct_scb t Ht) as (Hscb & _).
  assert (osdp_scb_has_mac (fr_scb_type t) = true) as Hmac.
  { pose proof (sct_type t Ht). unfold osdp_scb_has_mac, osdp_scb_mac_len. by rewrite decide_True by lia. }
  unfold osdp_sc_wrap_frame. cbn [is_null]. rewrite Hest, Hscb, Hmac. done.
Qed.

Lemma wrap_cases s t m cap w :
  session_ok s → sc_template t → cap ≤ length m →
  (sealed_total t ≤ OSDP_FRAME_MAX_LEN ∧ S (sealed_total t) ≤ cap ∧
   osdp_sc_wrap_frame (Some c) (Some s) (Some t) (Ptr m) cap (Some w) =
     Some (OSDP_OK, Some (mk_session (ss_keys s) (seal_mac E s t) (last_inbound_mac s) true),
           Ptr (OSDP_FRAME_MARK :: frame_wire (sealed E s t) ++ drop (S (sealed_total t)) m),
           Some (S (sealed_total t)))) ∨
  ((OSDP_FRAME_MAX_LEN < sealed_total t ∨ cap < S (sealed_total t)) ∧
   ∃ st m', osdp_sc_wrap_frame (Some c) (Some s) (Some t) (Ptr m) cap (Some w) =
     Some (st, Some s, Ptr m', Some 0) ∧ st ≠ OSDP_OK ∧ length m' = length m).
Proof.
  intros Hs Ht Hm. destruct (sealed_shape_facts s t Hs Ht) as (Hg & Hb & Hft & Hmn & Hst & Hpl & _).
  rewrite wrap_start by done.
  destruct (decide (sealed_total t ≤ OSDP_FRAME_MAX_LEN ∧ S (sealed_total t) ≤ cap)) as [[H1 H2]|Hbig];
    [left; split; [done|]; split; [done|]; specialize (Hb H1)
    |right; assert (OSDP_FRAME_MAX_LEN < sealed_total t ∨ cap < S (sealed_total t)) as Hbig' by lia;
     split; [done|]; clear Hbig];
    destruct (decide (fr_payload_len t = 0)) as [Hz|Hz].
  - destruct (sealed_plain s t Hz Ht) as [Hsh He].
    unfold wrap_encrypt. cbn [fr_scb_type with_scb_type]. rewrite He. cbn [mbind option_bind].
    unfold sealed, seal_mac. rewrite <-Hft. rewrite Hsh in *. apply wrap_build_ok; [done..|].
    apply (osdp_frame_build_ok _ _ _ 0); [done|done|unfold OSDP_FRAME_MARK_LEN; lia|done].
  - destruct (wrap_encrypt_ok s t m cap Hs Ht Hz Hm) as (Hcl & Hok & _).
    destruct (sealed_encrypted s t Hz Ht) as [Hsh _].
    assert (sealed_total t = 12 + (fr_payload_len t / 16 + 1) * 16 + integrity_size t) as Htot
      by (unfold sealed_total, wire_payload_len; by rewrite decide_False).
    rewrite Hok by lia. clear Hok. cbn [mbind option_bind]. rewrite Hcl in Hsh. rewrite <-Hsh.
    set (n := (fr_payload_len t / 16 + 1) * 16) in *.
    set (ct := enc_payload E _ _ _) in *. set (g := sealed_shape E s t) in *.
    unfold sealed, seal_mac. fold g. rewrite <-Hft. rewrite <-Hft in H1, H2, Htot.
    assert (drop (S (frame_total g)) (take 9 m ++ ct ++ drop (9 + n) m) = drop (S (frame_total g)) m) as Hd.
    { rewrite app_assoc, drop_app_ge by (rewrite length_app, length_take_le; lia).
      rewrite length_app, length_take_le, Hcl, drop_drop by lia. f_equal. lia. }
    rewrite <-Hd. apply wrap_build_ok; [done..|].
    assert (length (take 9 m ++ ct ++ drop (9 + n) m) = length m) as Hlen
      by (rewrite !length_app, length_take_le, length_drop by lia; lia).
    replace 9 with (7 + scb_total_of g) at 1 by lia.
    rewrite osdp_frame_build_in_place; [|done|done|unfold OSDP_FRAME_MARK_LEN; lia|lia|].
    + apply osdp_frame_build_ok; [done|done|unfold OSDP_FRAME_MARK_LEN; lia|lia].
    + rewrite Hst, drop_app_length' by (rewrite length_take_le; lia).
      rewrite Hsh. cbn [fr_payload fr_payload_len with_payload view]. rewrite take_ge by lia.
      by rewrite take_app_length'.
  - destruct (sealed_plain s t Hz Ht) as [Hsh He].
    unfold wrap_encrypt. cbn [fr_scb_type with_scb_type]. rewrite He. cbn [mbind option_bind].
    rewrite <-Hsh. rewrite <-Hft in Hbig'. unfold wrap_build.
    destruct (build_at_refused _ None m cap 0 Hbig') as (st & -> & Hne).
    cbn [mbind option_bind]. rewrite decide_True by done. by exists st, m.
  - destruct (wrap_encrypt_ok s t m cap Hs Ht Hz Hm) as (Hcl & Hok & Hbad).
    destruct (sealed_encrypted s t Hz Ht) as [Hsh _].
    rewrite Hcl in Hsh. set (n := (fr_payload_len t / 16 + 1) * 16) in *.
    destruct (decide (9 + n ≤ cap)) as [Hfit|Hno].
    + rewrite Hok by done. cbn [mbind option_bind]. rewrite <-Hsh.
      rewrite <-Hft in Hbig'. unfold wrap_build.
      destruct (build_at_refused (sealed_shape E s t) (Some 9) (take 9 m ++
        enc_payload E (s_enc (ss_keys s)) (last_inbound_mac s) (view (fr_payload t) (fr_payload_len t)) ++
        drop (9 + n) m) cap 0 Hbig') as (st & -> & Hne).
      cbn [mbind option_bind]. rewrite decide_True by done. eexists st, _. split; [done|]. split; [done|].
      rewrite !length_app, length_take_le, length_drop, Hcl by lia. lia.
    + destruct Hbad as (st & -> & Hne); [lia|]. cbn [mbind option_bind]. by exists st, m.
Qed.

(** ** unwrap against its specification *)

Definition expected_mac (r : osdp_sc_session) (g : osdp_frame) : list Z :=
  mac_ref E (s_mac1 (ss_keys r)) (s_mac2 (ss_keys r)) (last_outbound_mac r) (frame_prefix g).

(** The steps of [osdp_sc_unwrap_frame] on a decoded SC1 frame, up to the MAC
    comparison. *)
Lemma unwrap_start r g o cap w :
  session_ok r → frame_typed g → buildable g → fr_has_scb g = true →
  osdp_scb_mac_len (fr_scb_type g) = 4 →
  block (expected_mac r g) ∧
  osdp_sc_unwrap_frame (Some c) (Some r) (Some (decoded_of g)) (Ptr o) cap (Some w) =
    if decide (take 4 (expected_mac r g) ≠ view (fr_mac g) 4)
    then Some (OSDP_ERR_BAD_CRC, Some r, Ptr o, Some 0) else
    '(st, p, n) ← unwrap_payload (Some c) r (decoded_of g) (Ptr o) cap;
    if decide (st ≠ OSDP_OK) then Some (st, Some r, p, n) else
    Some (OSDP_OK, Some (mk_session (ss_keys r) (last_outbound_mac r) (expected_mac r g) true), p, n).
Proof.
  intros (Hest & (Be & B1 & B2) & Bo & Bi) Hg Hb Hscb Hml.
  assert (mac_needed g = 4) as Hmn by (unfold mac_needed; by rewrite Hscb).
  destruct (prefix_facts g Hg Hb Hmn) as [Hpl Hpb].
  assert (block (expected_mac r g)) as Bm by (by apply (mac_ref_block c E D)). split; [done|].
  pose proof (length_frame_wire g Hg Hb) as Hwl. pose proof (length_mac_view g Hg Hb) as Hmv. rewrite Hmn in Hmv.
  unfold osdp_sc_unwrap_frame. rewrite Hest. cbn [negb].
  assert (fr_has_scb (decoded_of g) = true ∧ fr_scb_type (decoded_of g) = fr_scb_type g ∧
    fr_mac_len (decoded_of g) = 4 ∧ fr_mac (decoded_of g) = Ptr (view (fr_mac g) 4) ∧
    fr_raw (decoded_of g) = Ptr (frame_wire g) ∧ fr_raw_len (decoded_of g) = frame_total g)
    as (E1 & E2 & E3 & E4 & E5 & E6).
  { split_and!; [done| |done| |done|done].
    - cbn [decoded_of fr_scb_type]. by rewrite Hscb.
    - cbn [decoded_of fr_mac]. rewrite Hmn. unfold slice_ptr. by rewrite Hmv. }
  rewrite E1, E2, E3, E4, E5, E6. cbn [negb orb]. unfold osdp_scb_has_mac. rewrite Hml.
  unfold OSDP_FRAME_MAC_LEN, OSDP_SC_MAC_LEN. cbn [negb bool_decide].
  rewrite (bool_decide_true (4 ≠ 0)) by done. cbn [negb].
  rewrite decide_False by (intros [|]; done). rewrite decide_False by (intros [|]; [done|lia]).
  unfold unwrap_mac_offset. rewrite E6. change (integrity_size (decoded_of g)) with (integrity_size g).
  unfold OSDP_FRAME_MAC_LEN. rewrite decide_False by lia. cbn [mbind option_bind].
  replace (frame_total g - integrity_size g - 4) with (length (frame_prefix g)) by lia.
  rewrite (compute_mac_ok c E D _ _ _ (s_mac1 (ss_keys r)) (s_mac2 (ss_keys r)) (last_outbound_mac r) _
    (frame_prefix g)); [|by apply rd_block..|done|done|done| |done|by rewrite length_replicate].
  2: { left. unfold frame_wire. rewrite frame_body_prefix, <-app_assoc. by apply rd_front. }
  fold (expected_mac r g). cbn [mbind option_bind]. rewrite decide_False by (intros []; done).
  rewrite drop_ge, app_nil_r by (rewrite length_replicate; lia). rewrite rd_block by done.
  rewrite rd_all by done. done.
Qed.

Lemma unwrap_payload_ok s r t o cap :
  session_ok s → session_ok r → mirrored s r → sc_template t →
  wire_payload_len t ≤ cap → cap ≤ length o →
  ∃ o', unwrap_payload (Some c) r (decoded_of (sealed E s t)) (Ptr o) cap =
    Some (OSDP_OK, Ptr o', Some (fr_payload_len t)) ∧
  take (fr_payload_len t) o' = view (fr_payload t) (fr_payload_len t) ∧ length o' = length o.
Proof.
  intros Hs Hr (Hk & _ & Hin) Ht Hcap Ho. destruct (sct_scb t Ht) as (Hscb & _ & _).
  pose proof Hs as (_ & (Be & _ & _) & _ & Bi).
  set (pl := view (fr_payload t) (fr_payload_len t)).
  assert (length pl = fr_payload_len t) as Hpl by (apply length_view; [apply Ht|intros; by apply Ht]).
  assert (bytes_ok pl) as Hpb by (apply view_bytes, Ht).
  destruct (decide (fr_payload_len t = 0)) as [Hz|Hz].
  - destruct (sealed_plain s t Hz Ht) as [Hsh He]. exists o.
    unfold unwrap_payload, decoded_of, sealed. rewrite Hsh. cbn. rewrite Hscb, He, Hz. cbn.
    split_and!; [done| |done]. destruct pl; [done|simpl in Hpl; lia].
  - destruct (sealed_encrypted s t Hz Ht) as [Hsh He]. fold pl in Hsh.
    unfold wire_payload_len in Hcap. rewrite decide_False in Hcap by done.
    destruct (enc_payload_length c E D (s_enc (ss_keys s)) (last_inbound_mac s) pl Be Bi Hpb) as [Hcl Hcb].
    rewrite Hpl in Hcl.
    set (ct := enc_payload E (s_enc (ss_keys s)) (last_inbound_mac s) pl) in *.
    assert (unwrap_payload (Some c) r (decoded_of (sealed E s t)) (Ptr o) cap =
      osdp_sc_decrypt_payload (Some c) (Ptr (s_enc (ss_keys r))) (Ptr (last_outbound_mac r)) (Ptr ct)
        (length ct) (Ptr o) cap (Some 0)) as ->.
    { unfold unwrap_payload, decoded_of, sealed. rewrite Hsh.
      cbn [with_mac with_payload with_scb_type fr_scb_type fr_payload fr_payload_len fr_has_scb view].
      rewrite Hscb, He, firstn_all. unfold slice_ptr. rewrite decide_True by lia. done. }
    rewrite <-Hk, <-Hin.
    destruct (decrypt_payload_ok c E D (Ptr (s_enc (ss_keys s))) (Ptr (last_inbound_mac s)) (s_enc (ss_keys s))
      (last_inbound_mac s) (Ptr ct) ct o cap 0) as (Hl & _ & Hd);
      [by apply rd_block..|done|done|by apply rd_all|done|rewrite Hcl; apply Nat.Div0.mod_mul|lia|lia|lia|].
    assert (dec_payload D (s_enc (ss_keys s)) (last_inbound_mac s) ct = pad_payload pl) as Hdec
      by (by apply (dec_enc_payload c E D)).
    rewrite Hdec in Hd, Hl.
    destruct Hd as [(m & j & Hpad & ->)|[Hno _]].
    + apply padding_unique in Hpad as <-. rewrite Hpl. eexists. split; [done|]. split.
      * unfold pad_payload. rewrite <-app_assoc, <-Hpl. by rewrite take_app_length.
      * rewrite length_app, Hl, length_drop. lia.
    + by destruct (Hno pl (15 - length pl mod 16)).
Qed.

Lemma unwrap_ok s r t o cap w :
  session_ok s → session_ok r → mirrored s r → sc_template t →
  sealed_total t ≤ OSDP_FRAME_MAX_LEN → wire_payload_len t ≤ cap → cap ≤ length o →
  ∃ o', osdp_sc_unwrap_frame (Some c) (Some r) (Some (decoded_of (sealed E s t))) (Ptr o) cap (Some w) =
    Some (OSDP_OK, Some (mk_session (ss_keys r) (last_outbound_mac r) (seal_mac E s t) true), Ptr o',
          Some (fr_payload_len t)) ∧
  take (fr_payload_len t) o' = view (fr_payload t) (fr_payload_len t) ∧ length o' = length o.
Proof.
  intros Hs Hr Hm Ht Htot Hcap Ho.
  destruct (sealed_facts s t Hs Ht Htot) as (Hg & Hb & Hft & Bm & Hbody).
  destruct (sealed_shape_facts s t Hs Ht) as (_ & _ & _ & Hmn & _).
  assert (fr_has_scb (sealed E s t) = true ∧ osdp_scb_mac_len (fr_scb_type (sealed E s t)) = 4) as [Hscb Hml].
  { destruct (coerce_facts (fr_payload_len t) (fr_scb_type t) (sct_type t Ht)) as (_ & Hml & _).
    destruct (sct_scb t Ht) as [Hscb _]. unfold sealed, sealed_shape.
    by destruct (osdp_scb_is_encrypted _). }
  assert (expected_mac r (sealed E s t) = seal_mac E s t) as Hexp.
  { destruct Hm as (Hk & _ & Hin). unfold expected_mac, seal_mac. rewrite <-Hk, <-Hin. f_equal. }
  destruct (unwrap_start r (sealed E s t) o cap w Hr Hg Hb Hscb Hml) as [_ ->]. rewrite Hexp.
  rewrite decide_False by (intros Hne; apply Hne; cbn [sealed fr_mac with_mac view]; by rewrite take_take).
  destruct (unwrap_payload_ok s r t o cap Hs Hr Hm Ht Hcap Ho) as (o' & -> & Htk & Hl).
  exists o'. cbn [mbind option_bind]. by rewrite decide_False by (intros []; done).
Qed.

(** The payload stage is total, and stays inside its output region. *)
Lemma unwrap_payload_total r g o cap :
  session_ok r → frame_typed g → buildable g → cap ≤ length o →
  ∃ st o' n, unwrap_payload (Some c) r (decoded_of g) (Ptr o) cap = Some (st, Ptr o', Some n) ∧
    length o' = length o ∧ (bytes_ok o → bytes_ok o') ∧ (st = OSDP_OK → n ≤ cap).
Proof.
  intros Hr Hg Hb Ho. unfold unwrap_payload. pose proof (length_payload_view g Hg Hb) as Hpl.
  change (fr_payload (decoded_of g)) with (slice_ptr (view (fr_payload g) (fr_payload_len g))).
  change (fr_payload_len (decoded_of g)) with (fr_payload_len g).
  pose proof Hr as (_ & (Be & _ & _) & Bo & _).
  assert (bytes_ok (view (fr_payload g) (fr_payload_len g))) as Hpb by (apply view_bytes, Hg).
  set (pl := view (fr_payload g) (fr_payload_len g)) in *. rewrite <-Hpl.
  assert (∀ st, st ≠ OSDP_OK → ∃ st' o' n, Some (st, Ptr o, Some 0) = Some (st', Ptr o', Some n) ∧
    length o' = length o ∧ (bytes_ok o → bytes_ok o') ∧ (st' = OSDP_OK → n ≤ cap)) as Herr.
  { intros st Hst. eexists _, _, _. by split_and!. }
  destruct (osdp_scb_is_encrypted _).
  - destruct (decide (0 < length pl)) as [Hpos|Hz].
    + unfold slice_ptr. rewrite decide_True by done.
      destruct (decide (length pl mod 16 = 0 ∧ length pl ≤ cap)) as [[H1 H2]|Hno].
      * destruct (decrypt_payload_ok c E D (Ptr (s_enc (ss_keys r))) (Ptr (last_outbound_mac r)) (s_enc (ss_keys r))
          (last_outbound_mac r) (Ptr pl) pl o cap 0) as (Hl & Hpt & Hd);
          [by apply rd_block..|done|done|by apply rd_all|done|done|done|done|done|].
        assert (length (dec_payload D (s_enc (ss_keys r)) (last_outbound_mac r) pl ++ drop (length pl) o) = length o)
          by (rewrite length_app, Hl, length_drop; lia).
        destruct Hd as [(m & j & Hm & ->)|[_ ->]]; eexists _, _, _;
          (split; [done|]); (split; [done|]); (split; [intros; apply Forall_app; split; [done|by apply Forall_drop]|]);
          intros ?; [|done].
        apply (f_equal length) in Hm. rewrite Hl, length_app in Hm. cbn [length] in Hm. lia.
      * unfold osdp_sc_decrypt_payload, OSDP_AES_BLOCK_LEN. cbn [is_null orb].
        do 2 (rewrite decide_False by (intros [_ ?]; done)).
        case_decide; [by apply Herr|]. rewrite decide_True by lia. by apply Herr.
    + unfold osdp_sc_decrypt_payload. cbn [is_null orb].
      rewrite decide_False by lia. rewrite decide_False by (intros [_ ?]; done).
      rewrite decide_True by lia. by apply Herr.
  - case_decide; [by apply Herr|]. case_decide as Hpos; [|eexists _, _, _; split_and!; [done|done|done|lia]].
    cbn [is_null]. unfold slice_ptr. rewrite decide_True by done. rewrite rd_all by done. cbn [mbind option_bind wr].
    rewrite mwr_0 by lia. eexists _, _, _. split; [done|]. split_and!; [solve_len| |lia].
    intros. apply Forall_app. split; [done|by apply Forall_drop].
Qed.

(** Unwrapping any decoded message, with a live session or not. *)
Lemma unwrap_total r g o cap w :
  session_blocks r → frame_typed g → buildable g → cap ≤ length o →
  ∃ st r' o' n,
    osdp_sc_unwrap_frame (Some c) (Some r) (Some (decoded_of g)) (Ptr o) cap (Some w) =
      Some (st, Some r', Ptr o', Some n) ∧
    session_blocks r' ∧ established r' = established r ∧
    length o' = length o ∧ (bytes_ok o → bytes_ok o') ∧ (st = OSDP_OK → n ≤ cap).
Proof.
  intros (Hk & Bo & Bi) Hg Hb Ho. unfold session_blocks.
  destruct (decide (established r = true ∧ fr_has_scb g = true ∧ osdp_scb_mac_len (fr_scb_type g) = 4))
    as [(He & Hs & Hm)|Hno].
  - assert (session_ok r) as Hr by done.
    destruct (unwrap_start r g o cap w Hr Hg Hb Hs Hm) as [Bm ->]. case_decide.
    { eexists _, r, o, 0. by split_and!. }
    destruct (unwrap_payload_total r g o cap Hr Hg Hb Ho) as (st & o' & n & -> & Hl & Hby & Hn).
    cbn [mbind option_bind]. case_decide as Hst; eexists _, _, _, _; (split; [done|]); split_and!; (done || auto).
  - assert (osdp_sc_unwrap_frame (Some c) (Some r) (Some (decoded_of g)) (Ptr o) cap (Some w) =
      Some (OSDP_ERR_INVALID_ARG, Some r, Ptr o, Some 0)) as ->; [|eexists _, r, o, 0; by split_and!].
    unfold osdp_sc_unwrap_frame. destruct (established r) eqn:He; cbn [negb]; [|done].
    cbn [decoded_of fr_has_scb fr_scb_type]. destruct (fr_has_scb g) eqn:Hs; cbn [negb orb]; [|done].
    destruct (osdp_scb_has_mac (fr_scb_type g)); cbn [negb]; [|done].
    rewrite decide_True; [done|]. left. cbn [fr_mac_len decoded_of]. unfold mac_needed. rewrite Hs.
    intros Hm. by apply Hno.
Qed.

(** Wrapping any template the builder can be given. *)
Lemma wrap_total s t m cap w :
  session_blocks s → sc_template t → cap ≤ length m →
  ∃ st s' m' n, osdp_sc_wrap_frame (Some c) (Some s) (Some t) (Ptr m) cap (Some w) =
      Some (st, Some s', Ptr m', Some n) ∧
    session_blocks s' ∧ established s' = established s ∧ length m' = length m ∧ n ≤ cap.
Proof.
  intros Hs Ht Hm. destruct (established s) eqn:He.
  - assert (session_ok s) as Hok by done.
    destruct (wrap_cases s t m cap w Hok Ht Hm) as [(Hmax & Hfit & ->)|(_ & st & m' & -> & _ & Hl)].
    + destruct (sealed_facts s t Hok Ht Hmax) as (Hgt & Hgb & Htot & Bm & _). destruct Hs as (Hk & Bo & Bi).
      eexists _, _, _, _. split; [done|]. split_and!; [by split_and!|done| |done].
      cbn [length]. rewrite length_app, length_drop, length_frame_wire by done. lia.
    + eexists _, _, _, _. split; [done|]. split_and!; [done..|lia].
  - eexists _, s, m, 0. split; [by unfold osdp_sc_wrap_frame; rewrite He|]. split_and!; [apply Hs..|done|done|lia].
Qed.

(** ** Conversations *)

(** What the receiver does with [n] bytes off the line: decode them past the
    marking byte and unwrap the frame into a buffer of [rcap] bytes. *)
Definition deliver (b : osdp_sc_session) (out : ptr) (n rcap : nat)
  : option (list Z * osdp_sc_session) :=
  wire ← ptr_add out OSDP_FRAME_MARK_LEN;
  '(st, F) ← osdp_frame_decode wire (n - OSDP_FRAME_MARK_LEN) (Some frame_zero);
  if decide (st ≠ OSDP_OK) then None else
  '(st, b', p, k) ← osdp_sc_unwrap_frame (Some c) (Some b) F (Ptr (replicate rcap 0%Z)) rcap (Some 0);
  if decide (st ≠ OSDP_OK) then None else
  k ← k; b' ← b';
  Ret (view p k, b').

(** One message from [a] to [b]. *)
Definition exchange (a b : osdp_sc_session) (t : osdp_frame) (cap rcap : nat)
  : option (list Z * osdp_sc_session * osdp_sc_session) :=
  '(st, a', out, n) ← osdp_sc_wrap_frame (Some c) (Some a) (Some t) (Ptr (replicate cap 0%Z)) cap (Some 0);
  if decide (st ≠ OSDP_OK) then None else
  n ← n; a' ← a';
  '(p, b') ← deliver b out n rcap;
  Ret (p, a', b').

(** Messages in either direction ([true]: from [a]), with the payloads delivered. *)
Fixpoint conversation (a b : osdp_sc_session) (cap rcap : nat) (msgs : list (bool * osdp_frame))
  : option (list (list Z) * osdp_sc_session * osdp_sc_session) :=
  match msgs with
  | [] => Ret ([], a, b)
  | (true, t) :: msgs =>
      '(p, a, b) ← exchange a b t cap rcap;
      '(ps, a, b) ← conversation a b cap rcap msgs;
      Ret (p :: ps, a, b)
  | (false, t) :: msgs =>
      '(p, b, a) ← exchange b a t cap rcap;
      '(ps, a, b) ← conversation a b cap rcap msgs;
      Ret (p :: ps, a, b)
  end.

(** Sender and receiver of a message advance to the same MAC. *)
Lemma chains_advance s r mac :
  session_ok s → session_ok r → mirrored s r → block mac →
  let s' := mk_session (ss_keys s) mac (last_inbound_mac s) true in
  let r' := mk_session (ss_keys r) (last_outbound_mac r) mac true in
  session_ok s' ∧ session_ok r' ∧ mirrored s' r'.
Proof.
  intros (_ & Ks & Os & Is) (_ & Kr & Or & Ir) (Mk & Mo & Mi) Bm s' r'. by split_and!.
Qed.

Lemma deliver_ok s r t rest rcap :
  session_ok s → session_ok r → mirrored s r → sc_template t →
  sealed_total t ≤ OSDP_FRAME_MAX_LEN → wire_payload_len t ≤ rcap →
  deliver r (Ptr (OSDP_FRAME_MARK :: frame_wire (sealed E s t) ++ rest)) (S (sealed_total t)) rcap =
    Some (view (fr_payload t) (fr_payload_len t),
          mk_session (ss_keys r) (last_outbound_mac r) (seal_mac E s t) true).
Proof.
  intros Hs Hr Hm Ht Htot Hrcap. unfold deliver, OSDP_FRAME_MARK_LEN.
  destruct (sealed_facts s t Hs Ht Htot) as (Hg & Hb & Hft & Bm & _).
  rewrite ptr_add_1, bind_Some.
  replace (S (sealed_total t) - 1) with (length (frame_wire (sealed E s t)))
    by (rewrite length_frame_wire by done; lia).
  rewrite osdp_frame_decode_wire_prefix by done. rewrite bind_Some. rewrite decide_False by (intros []; done).
  destruct (unwrap_ok s r t (replicate rcap 0%Z) rcap 0 Hs Hr Hm Ht Htot Hrcap) as (o' & -> & Hv & _);
    [by rewrite length_replicate|].
  rewrite bind_Some. rewrite decide_False by (intros []; done). rewrite !bind_Some. cbn [view]. by rewrite Hv.
Qed.

Lemma exchange_ok s r t cap rcap :
  session_ok s → session_ok r → mirrored s r → sc_template t →
  sealed_total t ≤ OSDP_FRAME_MAX_LEN → S (sealed_total t) ≤ cap → wire_payload_len t ≤ rcap →
  ∃ s' r', exchange s r t cap rcap = Some (view (fr_payload t) (fr_payload_len t), s', r') ∧
    session_ok s' ∧ session_ok r' ∧ mirrored s' r'.
Proof.
  intros Hs Hr Hm Ht Htot Hcap Hrcap. unfold exchange.
  destruct (sealed_facts s t Hs Ht Htot) as (_ & _ & _ & Bm & _).
  destruct (wrap_cases s t (replicate cap 0%Z) cap 0 Hs Ht) as [(_ & _ & ->)|(? & _)];
    [by rewrite length_replicate| |lia].
  rewrite bind_Some. rewrite decide_False by (intros []; done). rewrite !bind_Some.
  rewrite (deliver_ok s) by done. rewrite bind_Some. eexists _, _. split; [done|].
  by apply chains_advance.
Qed.

Lemma mirrored_sym a b : mirrored a b → mirrored b a.
Proof. intros (? & ? & ?). split_and!; done. Qed.

(** ** Properties *)

(** C6: A Secure Channel conversation stays in step.  Two peers with the same
    keys and matching MAC chains, exchanging any sequence of messages in either
    direction, with or without payload, deliver every payload unchanged, and their
    chains still match at the end. *)
Theorem sc_conversation_in_sync a b cap rcap msgs :
  session_ok a → session_ok b → mirrored a b →
  Forall (λ m : bool * osdp_frame, sc_template m.2 ∧ sealed_total m.2 ≤ OSDP_FRAME_MAX_LEN ∧
    S (sealed_total m.2) ≤ cap ∧ wire_payload_len m.2 ≤ rcap) msgs →
  ∃ a' b', conversation a b cap rcap msgs =
      Some ((λ m : bool * osdp_frame, view (fr_payload m.2) (fr_payload_len m.2)) <$> msgs, a', b') ∧
    session_ok a' ∧ session_ok b' ∧ mirrored a' b'.
Proof.
  intros Ha Hb Hm Hmsgs. revert a b Ha Hb Hm.
  induction Hmsgs as [|[d t] msgs (Ht & H1 & H2 & H3) _ IH]; intros a b Ha Hb Hm.
  { by exists a, b. }
  cbn [snd] in *. cbn [conversation fmap list_fmap]. destruct d.
  - destruct (exchange_ok a b t cap rcap Ha Hb Hm Ht H1 H2 H3) as (a1 & b1 & -> & Ha1 & Hb1 & Hm1).
    cbn [mbind option_bind]. destruct (IH a1 b1 Ha1 Hb1 Hm1) as (a' & b' & -> & ? & ? & ?).
    by exists a', b'.
  - destruct (exchange_ok b a t cap rcap Hb Ha (mirrored_sym _ _ Hm) Ht H1 H2 H3)
      as (b1 & a1 & -> & Hb1 & Ha1 & Hm1).
    cbn [mbind option_bind]. apply mirrored_sym in Hm1.
    destruct (IH a1 b1 Ha1 Hb1 Hm1) as (a' & b' & -> & ? & ? & ?). by exists a', b'.
Qed.

(** C7: Verification.  On any decoded SCS_15..18 frame the call is defined.  A
    frame whose four MAC bytes are not the head of the CBC-MAC of everything
    before them, under the session's keys and chain, is refused with BAD_CRC and
    changes nothing; the chain advances exactly when the call succeeds, and then to
    that MAC. *)
Theorem sc_unwrap_authentic r g o cap w :
  session_ok r → frame_typed g → buildable g → fr_has_scb g = true →
  osdp_scb_mac_len (fr_scb_type g) = 4 → cap ≤ length o →
  let mac := mac_ref E (s_mac1 (ss_keys r)) (s_mac2 (ss_keys r)) (last_outbound_mac r) (frame_prefix g) in
  ∃ st r' o' n,
    osdp_sc_unwrap_frame (Some c) (Some r) (Some (decoded_of g)) (Ptr o) cap (Some w) =
      Some (st, Some r', Ptr o', Some n) ∧
    (take 4 mac ≠ view (fr_mac g) 4 → st = OSDP_ERR_BAD_CRC ∧ r' = r ∧ o' = o ∧ n = 0) ∧
    (st ≠ OSDP_OK → r' = r) ∧
    (st = OSDP_OK → take 4 mac = view (fr_mac g) 4 ∧ last_inbound_mac r' = mac ∧
       ss_keys r' = ss_keys r ∧ last_outbound_mac r' = last_outbound_mac r ∧ session_ok r').
Proof.
  intros Hr Hg Hb Hscb Hml Ho mac. destruct (unwrap_start r g o cap w Hr Hg Hb Hscb Hml) as [Bm ->].
  change (expected_mac r g) with mac in *. case_decide as Hmac.
  { by exists OSDP_ERR_BAD_CRC, r, o, 0. }
  assert (take 4 mac = view (fr_mac g) 4) as Heq by (by destruct (decide (take 4 mac = view (fr_mac g) 4))).
  destruct (unwrap_payload_total r g o cap Hr Hg Hb Ho) as (st & o' & n & -> & _).
  cbn [mbind option_bind]. case_decide as Hst.
  - exists st, r, o', n. by split_and!.
  - assert (st = OSDP_OK) as -> by (by destruct (decide (st = OSDP_OK))).
    eexists _, _, _, _. split; [done|]. split_and!; [done|done|]. intros _. split_and!; try done.
    destruct Hr as (? & ? & ? & ?). by split_and!.
Qed.

(** [osdp_sc_max_payload] is exact for the encrypted types: a payload of
    [n > 0] bytes under an SCS_17/18 template is wrapped if and only if [n] is at
    most the reported maximum. *)
Theorem sc_max_payload_exact s t m cap w w0 :
  session_ok s → sc_template t → cap ≤ length m → 0 < fr_payload_len t →
  fr_scb_type t = OSDP_SCS_17 ∨ fr_scb_type t = OSDP_SCS_18 →
  ∃ k, osdp_sc_max_payload (Some t) cap (Some w0) = (OSDP_OK, Some k) ∧
    ((∃ s' out n, osdp_sc_wrap_frame (Some c) (Some s) (Some t) (Ptr m) cap (Some w) =
        Some (OSDP_OK, s', out, n)) ↔ fr_payload_len t ≤ k).
Proof.
  intros Hs Ht Hm Hn Hty. destruct (sct_scb t Ht) as (Hscb & Hsl & Hsd).
  assert (osdp_scb_is_encrypted (fr_scb_type t) = true) as He by (destruct Hty as [-> | ->]; done).
  assert (osdp_scb_mac_len (fr_scb_type t) = 4) as Hml by (destruct Hty as [-> | ->]; done).
  set (framed := (cap - (13 + integrity_size t)) `min` (1440 - (12 + integrity_size t))).
  assert (osdp_frame_max_payload (Some t) cap (Some 0) = (OSDP_OK, Some framed)) as Hfm.
  { unfold osdp_frame_max_payload, frame_overhead, frame_scb_total, mac_needed, OSDP_SCB_MIN_LEN.
    rewrite Hscb, Hsl, Hsd, Hml. cbn [negb]. change (Z.to_nat 2) with 2.
    do 2 rewrite decide_False by lia. rewrite decide_False by (intros [? _]; lia).
    unfold OSDP_FRAME_MARK_LEN, OSDP_FRAME_HEADER_LEN, OSDP_FRAME_MAX_LEN, framed.
    assert (1 ≤ integrity_size t ≤ 2) by (unfold integrity_size; case_decide; lia).
    repeat case_decide; do 2 f_equal; lia. }
  assert (osdp_sc_max_payload (Some t) cap (Some w0) =
    (OSDP_OK, Some (if decide (framed / 16 = 0) then 0 else framed / 16 * 16 - 1))) as ->.
  { unfold osdp_sc_max_payload. rewrite Hfm, Hscb, He. done. }
  eexists. split; [done|].
  assert (sealed_total t = 12 + (fr_payload_len t / 16 + 1) * 16 + integrity_size t) as Htot
    by (unfold sealed_total, wire_payload_len; rewrite decide_False by lia; done).
  pose proof (Nat.div_mod_eq (fr_payload_len t) 16). pose proof (Nat.mod_upper_bound (fr_payload_len t) 16).
  pose proof (Nat.div_mod_eq framed 16). pose proof (Nat.mod_upper_bound framed 16).
  assert (1 ≤ integrity_size t ≤ 2) by (unfold integrity_size; case_decide; lia).
  destruct (wrap_cases s t m cap w Hs Ht Hm) as [(Hf1 & Hf2 & ->)|(Hbig & st & m' & -> & Hne & _)];
    unfold OSDP_FRAME_MAX_LEN in *.
  - split; [intros _|by eexists _, _, _]. case_decide; unfold framed in *; lia.
  - split; [intros (? & ? & ? & [=]); done|]. intros Hle. exfalso.
    case_decide; unfold framed in *; lia.
Qed.
End wrap.

(** A branch that returns an error with the session it was given. *)
Ltac refused H := by (injection H as <- <- <- <-; split; [intros _|intros]).

(** Errors leave the session alone.  Whatever the arguments, a wrap or unwrap
    that does not return OSDP_OK leaves both MAC chains as they were, and neither
    succeeds on a session that is not established. *)
Theorem sc_errors_keep_session {W} (crypto : option (osdp_sc_crypto W)) s f p cap n st s' p' n' :
  osdp_sc_wrap_frame crypto s f p cap n = Some (st, s', p', n') ∨
  osdp_sc_unwrap_frame crypto s f p cap n = Some (st, s', p', n') →
  (st ≠ OSDP_OK → s' = s) ∧ (st = OSDP_OK → established <$> s = Some true).
Proof.
  intros [H|H].
  - unfold osdp_sc_wrap_frame, wrap_build in H.
    destruct crypto as [cr|], s as [s|], f as [f|], n as [n|]; try refused H.
    destruct (is_null p); [refused H|]. destruct (established s) eqn:He; cbn [negb] in H; [|refused H].
    destruct (negb (fr_has_scb f) || negb (osdp_scb_has_mac (fr_scb_type f))); [refused H|].
    destruct (wrap_encrypt _ _ _ _ _) as [[[st1 o1] [[b ib]|]]|]; cbn [mbind option_bind] in H; [|by simplify_eq/=; rewrite He|done].
    destruct (osdp_frame_build_at _ _ _ _ _) as [[[st2 o2] n2]|]; [|done]. cbn [mbind option_bind] in H.
    case_decide; [refused H|]. destruct n2 as [n2|]; [|done]. cbn [mbind option_bind] in H.
    destruct (wrap_seal _ _ _ _ _) as [[[st3 o3] mac]|]; [|done]. cbn [mbind option_bind] in H.
    case_decide; [refused H|]. by simplify_eq/=; rewrite He.
  - unfold osdp_sc_unwrap_frame in H.
    destruct crypto as [cr|], s as [s|], f as [f|], n as [n|]; try refused H.
    destruct (established s) eqn:He; cbn [negb] in H; [|refused H].
    destruct (negb (fr_has_scb f) || negb (osdp_scb_has_mac (fr_scb_type f))); [refused H|].
    do 2 (case_decide; [refused H|]).
    destruct (unwrap_mac_offset f) as [off|]; [|done]. cbn [mbind option_bind] in H.
    destruct (osdp_sc_compute_mac _ _ _ _ _ _ _) as [[st1 mp]|]; [|done]. cbn [mbind option_bind] in H.
    case_decide; [refused H|]. destruct (rd_slice mp _ _) as [em|]; [|done]. cbn [mbind option_bind] in H.
    destruct (rd_slice (fr_mac f) _ _) as [sent|]; [|done]. cbn [mbind option_bind] in H. case_decide; [refused H|].
    destruct (unwrap_payload _ _ _ _ _) as [[[st2 o2] n2]|]; [|done]. cbn [mbind option_bind] in H.
    case_decide; [refused H|]. by simplify_eq/=; rewrite He.
Qed.

(** The bound is too large for the plain types.  [osdp_sc_max_payload] answers
    for an SCS_15 template as if the payload stayed in the clear, but
    [osdp_sc_wrap_frame] turns SCS_15 with a payload into SCS_17 and pads it, so the
    reported maximum does not fit. *)
Theorem sc_max_payload_overstates_scs15 :
  ∃ s t cap k, session_ok s ∧ sc_template t ∧ fr_scb_type t = OSDP_SCS_15 ∧
    osdp_sc_max_payload (Some t) cap (Some 0) = (OSDP_OK, Some k) ∧ fr_payload_len t = k ∧ 0 < k ∧
    ∃ s' m' n, osdp_sc_wrap_frame (Some toy_crypto) (Some s) (Some t) (Ptr (replicate cap 0%Z)) cap (Some 0) =
      Some (OSDP_ERR_BUFFER_TOO_SMALL, s', m', n).
Proof.
  exists ex_acu, (ex_template OSDP_SCS_15 (replicate 17 7%Z)), 32, 17.
  split_and!; [vm_decide|vm_decide|done|vm_compute; reflexivity|done|lia|].
  do 3 eexists. vm_compute. reflexivity.
Qed.

(** ** Witnesses *)

Lemma sc_conversation_in_sync_witness :
  ∃ a' b', conversation toy_crypto ex_acu ex_pd 128 64 ex_msgs =
      Some ((λ m : bool * osdp_frame, view (fr_payload m.2) (fr_payload_len m.2)) <$> ex_msgs, a', b') ∧
    session_ok a' ∧ session_ok b' ∧ mirrored a' b'.
Proof. apply (sc_conversation_in_sync toy_crypto toy toy); vm_decide. Defined.

Lemma sc_unwrap_authentic_witness :
  let g := sealed toy ex_pd (ex_template OSDP_SCS_18 [1; 2; 3]%Z) in
  let mac := mac_ref toy (s_mac1 (ss_keys ex_acu)) (s_mac2 (ss_keys ex_acu)) (last_outbound_mac ex_acu)
               (frame_prefix g) in
  ∃ st r' o' n,
    osdp_sc_unwrap_frame (Some toy_crypto) (Some ex_acu) (Some (decoded_of g)) (Ptr (replicate 32 0%Z)) 32
      (Some 0) = Some (st, Some r', Ptr o', Some n) ∧
    (take 4 mac ≠ view (fr_mac g) 4 →
       st = OSDP_ERR_BAD_CRC ∧ r' = ex_acu ∧ o' = replicate 32 0%Z ∧ n = 0) ∧
    (st ≠ OSDP_OK → r' = ex_acu) ∧
    (st = OSDP_OK → take 4 mac = view (fr_mac g) 4 ∧ last_inbound_mac r' = mac ∧
       ss_keys r' = ss_keys ex_acu ∧ last_outbound_mac r' = last_outbound_mac ex_acu ∧ session_ok r').
Proof.
  cbv zeta. apply (sc_unwrap_authentic toy_crypto toy toy ex_acu
    (sealed toy ex_pd (ex_template OSDP_SCS_18 [1; 2; 3]%Z)) (replicate 32 0%Z) 32 0); vm_decide.
Defined.

Lemma sc_max_payload_exact_witness :
  let t := ex_template OSDP_SCS_17 (replicate 17 7%Z) in
  ∃ k, osdp_sc_max_payload (Some t) 32 (Some 0) = (OSDP_OK, Some k) ∧
    ((∃ s' out n, osdp_sc_wrap_frame (Some toy_crypto) (Some ex_acu) (Some t) (Ptr (replicate 32 0%Z)) 32
        (Some 0) = Some (OSDP_OK, s', out, n)) ↔ 17 ≤ k).
Proof.
  cbv zeta. apply (sc_max_payload_exact toy_crypto toy toy ex_acu
    (ex_template OSDP_SCS_17 (replicate 17 7%Z)) (replicate 32 0%Z)); first [by left|vm_decide].
Defined.

Lemma sc_errors_keep_session_witness :
  (OSDP_ERR_BUFFER_TOO_SMALL ≠ OSDP_OK → Some ex_acu = Some ex_acu) ∧
  (OSDP_ERR_BUFFER_TOO_SMALL = OSDP_OK → established <$> Some ex_acu = Some true).
Proof.
  apply (sc_errors_keep_session (Some toy_crypto) (Some ex_acu) (Some (ex_template OSDP_SCS_15 []))
    (Ptr (replicate 8 0%Z)) 8 (Some 0) OSDP_ERR_BUFFER_TOO_SMALL (Some ex_acu) (Ptr (replicate 8 0%Z)) (Some 0)).
  left. vm_compute. reflexivity.
Defined.
