(* ===== verification/Aes.v ===== *)
(** * The AES-128 backend: vendor/tiny-aes/aes.c

    The block cipher behind the tiny port and the two mocks, as aes.c has it for
    AES128: the tables, the key schedule, the state transformations on the 16-byte
    buffer ([state[i][j]] is byte [4 * i + j]), [Cipher] and [InvCipher], and the
    ECB, CBC and CTR entry points.  [None] is an access outside an array.

    The reference is FIPS 197: the field with polynomial x^8 + x^4 + x^3 + x + 1,
    the S-box as the inverse followed by the affine map, the state as a matrix. *)
From S2P Require Import Prelude.
From Stdlib Require Import Btauto.

(** ** aes.c: constants and tables *)

Definition Nb : nat := 4.
Definition Nk : nat := 4.
Definition Nr : nat := 10.
Definition AES_BLOCKLEN : nat := 16.
Definition AES_KEYLEN : nat := 16.
Definition AES_keyExpSize : nat := 176.

Definition sbox : list Z :=
  [0x63; 0x7c; 0x77; 0x7b; 0xf2; 0x6b; 0x6f; 0xc5; 0x30; 0x01; 0x67; 0x2b; 0xfe; 0xd7; 0xab; 0x76;
   0xca; 0x82; 0xc9; 0x7d; 0xfa; 0x59; 0x47; 0xf0; 0xad; 0xd4; 0xa2; 0xaf; 0x9c; 0xa4; 0x72; 0xc0;
   0xb7; 0xfd; 0x93; 0x26; 0x36; 0x3f; 0xf7; 0xcc; 0x34; 0xa5; 0xe5; 0xf1; 0x71; 0xd8; 0x31; 0x15;
   0x04; 0xc7; 0x23; 0xc3; 0x18; 0x96; 0x05; 0x9a; 0x07; 0x12; 0x80; 0xe2; 0xeb; 0x27; 0xb2; 0x75;
   0x09; 0x83; 0x2c; 0x1a; 0x1b; 0x6e; 0x5a; 0xa0; 0x52; 0x3b; 0xd6; 0xb3; 0x29; 0xe3; 0x2f; 0x84;
   0x53; 0xd1; 0x00; 0xed; 0x20; 0xfc; 0xb1; 0x5b; 0x6a; 0xcb; 0xbe; 0x39; 0x4a; 0x4c; 0x58; 0xcf;
   0xd0; 0xef; 0xaa; 0xfb; 0x43; 0x4d; 0x33; 0x85; 0x45; 0xf9; 0x02; 0x7f; 0x50; 0x3c; 0x9f; 0xa8;
   0x51; 0xa3; 0x40; 0x8f; 0x92; 0x9d; 0x38; 0xf5; 0xbc; 0xb6; 0xda; 0x21; 0x10; 0xff; 0xf3; 0xd2;
   0xcd; 0x0c; 0x13; 0xec; 0x5f; 0x97; 0x44; 0x17; 0xc4; 0xa7; 0x7e; 0x3d; 0x64; 0x5d; 0x19; 0x73;
   0x60; 0x81; 0x4f; 0xdc; 0x22; 0x2a; 0x90; 0x88; 0x46; 0xee; 0xb8; 0x14; 0xde; 0x5e; 0x0b; 0xdb;
   0xe0; 0x32; 0x3a; 0x0a; 0x49; 0x06; 0x24; 0x5c; 0xc2; 0xd3; 0xac; 0x62; 0x91; 0x95; 0xe4; 0x79;
   0xe7; 0xc8; 0x37; 0x6d; 0x8d; 0xd5; 0x4e; 0xa9; 0x6c; 0x56; 0xf4; 0xea; 0x65; 0x7a; 0xae; 0x08;
   0xba; 0x78; 0x25; 0x2e; 0x1c; 0xa6; 0xb4; 0xc6; 0xe8; 0xdd; 0x74; 0x1f; 0x4b; 0xbd; 0x8b; 0x8a;
   0x70; 0x3e; 0xb5; 0x66; 0x48; 0x03; 0xf6; 0x0e; 0x61; 0x35; 0x57; 0xb9; 0x86; 0xc1; 0x1d; 0x9e;
   0xe1; 0xf8; 0x98; 0x11; 0x69; 0xd9; 0x8e; 0x94; 0x9b; 0x1e; 0x87; 0xe9; 0xce; 0x55; 0x28; 0xdf;
   0x8c; 0xa1; 0x89; 0x0d; 0xbf; 0xe6; 0x42; 0x68; 0x41; 0x99; 0x2d; 0x0f; 0xb0; 0x54; 0xbb; 0x16]%Z.

Definition rsbox : list Z :=
  [0x52; 0x09; 0x6a; 0xd5; 0x30; 0x36; 0xa5; 0x38; 0xbf; 0x40; 0xa3; 0x9e; 0x81; 0xf3; 0xd7; 0xfb;
   0x7c; 0xe3; 0x39; 0x82; 0x9b; 0x2f; 0xff; 0x87; 0x34; 0x8e; 0x43; 0x44; 0xc4; 0xde; 0xe9; 0xcb;
   0x54; 0x7b; 0x94; 0x32; 0xa6; 0xc2; 0x23; 0x3d; 0xee; 0x4c; 0x95; 0x0b; 0x42; 0xfa; 0xc3; 0x4e;
   0x08; 0x2e; 0xa1; 0x66; 0x28; 0xd9; 0x24; 0xb2; 0x76; 0x5b; 0xa2; 0x49; 0x6d; 0x8b; 0xd1; 0x25;
   0x72; 0xf8; 0xf6; 0x64; 0x86; 0x68; 0x98; 0x16; 0xd4; 0xa4; 0x5c; 0xcc; 0x5d; 0x65; 0xb6; 0x92;
   0x6c; 0x70; 0x48; 0x50; 0xfd; 0xed; 0xb9; 0xda; 0x5e; 0x15; 0x46; 0x57; 0xa7; 0x8d; 0x9d; 0x84;
   0x90; 0xd8; 0xab; 0x00; 0x8c; 0xbc; 0xd3; 0x0a; 0xf7; 0xe4; 0x58; 0x05; 0xb8; 0xb3; 0x45; 0x06;
   0xd0; 0x2c; 0x1e; 0x8f; 0xca; 0x3f; 0x0f; 0x02; 0xc1; 0xaf; 0xbd; 0x03; 0x01; 0x13; 0x8a; 0x6b;
   0x3a; 0x91; 0x11; 0x41; 0x4f; 0x67; 0xdc; 0xea; 0x97; 0xf2; 0xcf; 0xce; 0xf0; 0xb4; 0xe6; 0x73;
   0x96; 0xac; 0x74; 0x22; 0xe7; 0xad; 0x35; 0x85; 0xe2; 0xf9; 0x37; 0xe8; 0x1c; 0x75; 0xdf; 0x6e;
   0x47; 0xf1; 0x1a; 0x71; 0x1d; 0x29; 0xc5; 0x89; 0x6f; 0xb7; 0x62; 0x0e; 0xaa; 0x18; 0xbe; 0x1b;
   0xfc; 0x56; 0x3e; 0x4b; 0xc6; 0xd2; 0x79; 0x20; 0x9a; 0xdb; 0xc0; 0xfe; 0x78; 0xcd; 0x5a; 0xf4;
   0x1f; 0xdd; 0xa8; 0x33; 0x88; 0x07; 0xc7; 0x31; 0xb1; 0x12; 0x10; 0x59; 0x27; 0x80; 0xec; 0x5f;
   0x60; 0x51; 0x7f; 0xa9; 0x19; 0xb5; 0x4a; 0x0d; 0x2d; 0xe5; 0x7a; 0x9f; 0x93; 0xc9; 0x9c; 0xef;
   0xa0; 0xe0; 0x3b; 0x4d; 0xae; 0x2a; 0xf5; 0xb0; 0xc8; 0xeb; 0xbb; 0x3c; 0x83; 0x53; 0x99; 0x61;
   0x17; 0x2b; 0x04; 0x7e; 0xba; 0x77; 0xd6; 0x26; 0xe1; 0x69; 0x14; 0x63; 0x55; 0x21; 0x0c; 0x7d]%Z.

Definition Rcon : list Z :=
  [0x8d; 0x01; 0x02; 0x04; 0x08; 0x10; 0x20; 0x40; 0x80; 0x1b; 0x36]%Z.

Definition getSBoxValue (num : Z) : option Z := sbox !! Z.to_nat num.
Definition getSBoxInvert (num : Z) : option Z := rsbox !! Z.to_nat num.

(** ** aes.c: the state

    A cell of the state, and its assignment. *)
Definition cell (s : list Z) (i j : nat) : option Z := s !! (4 * i + j).

Definition set_cell (s : list Z) (i j : nat) (v : Z) : option (list Z) :=
  if (4 * i + j <? length s)%nat then Ret (<[4 * i + j := v]> s) else UB.

(** One word of [RoundKey] from [tempa] and the word four before it. *)
Definition xor_word (rk : list Z) (k : nat) (t : Z * Z * Z * Z) : option (list Z) :=
  let '(t0, t1, t2, t3) := t in
  a ← rk !! (k + 0); b ← rk !! (k + 1); c ← rk !! (k + 2); d ← rk !! (k + 3);
  Ret [Z.lxor a t0; Z.lxor b t1; Z.lxor c t2; Z.lxor d t3].

(** The body of the second loop of [KeyExpansion]. *)
Definition expand_word (i : nat) (rk : list Z) : option (list Z) :=
  let k := (i - 1) * 4 in
  t0 ← rk !! (k + 0); t1 ← rk !! (k + 1); t2 ← rk !! (k + 2); t3 ← rk !! (k + 3);
  tempa ← (if decide (i mod Nk = 0) then
             s0 ← getSBoxValue t1; s1 ← getSBoxValue t2; s2 ← getSBoxValue t3; s3 ← getSBoxValue t0;
             r ← Rcon !! (i / Nk);
             Ret (Z.lxor s0 r, s1, s2, s3)
           else Ret (t0, t1, t2, t3));
  w ← xor_word rk ((i - Nk) * 4) tempa;
  mwr rk (i * 4) w.

Definition KeyExpansion (RoundKey Key : list Z) : option (list Z) :=
  rk ← for_loop (λ i rk,
         a ← Key !! (i * 4 + 0); b ← Key !! (i * 4 + 1); c ← Key !! (i * 4 + 2); d ← Key !! (i * 4 + 3);
         mwr rk (i * 4) [a; b; c; d]) 0 Nk RoundKey;
  for_loop expand_word Nk (Nb * (Nr + 1) - Nk) rk.

Record AES_ctx : Type := mk_ctx { RoundKey : list Z; Iv : list Z }.

Definition AES_init_ctx (ctx : AES_ctx) (key : list Z) : option AES_ctx :=
  rk ← KeyExpansion (RoundKey ctx) key;
  Ret (mk_ctx rk (Iv ctx)).

Definition AES_init_ctx_iv (ctx : AES_ctx) (key iv : list Z) : option AES_ctx :=
  rk ← KeyExpansion (RoundKey ctx) key;
  v ← mslice iv 0 AES_BLOCKLEN;
  iv ← mwr (Iv ctx) 0 v;
  Ret (mk_ctx rk iv).

Definition AES_ctx_set_iv (ctx : AES_ctx) (iv : list Z) : option AES_ctx :=
  v ← mslice iv 0 AES_BLOCKLEN;
  iv ← mwr (Iv ctx) 0 v;
  Ret (mk_ctx (RoundKey ctx) iv).

(** A byte of the round key. *)
Definition round_key (rk : list Z) (round i j : nat) : option Z := rk !! (round * Nb * 4 + i * Nb + j).

Definition AddRoundKey (round : nat) (state rk : list Z) : option (list Z) :=
  for_loop (λ i s, for_loop (λ j s,
    v ← cell s i j; k ← round_key rk round i j; set_cell s i j (Z.lxor v k)) 0 4 s) 0 4 state.

(** The loop of [SubBytes] and [InvSubBytes] over the cells. *)
Definition substitute (box : Z → option Z) (state : list Z) : option (list Z) :=
  for_loop (λ i s, for_loop (λ j s,
    v ← cell s j i; w ← box v; set_cell s j i w) 0 4 s) 0 4 state.

Definition SubBytes (state : list Z) : option (list Z) := substitute getSBoxValue state.
Definition InvSubBytes (state : list Z) : option (list Z) := substitute getSBoxInvert state.

(** [state[i][j] = state[k][l]]. *)
Definition move (s : list Z) (i j k l : nat) : option (list Z) := v ← cell s k l; set_cell s i j v.

Definition ShiftRows (s : list Z) : option (list Z) :=
  temp ← cell s 0 1;
  s ← move s 0 1 1 1; s ← move s 1 1 2 1; s ← move s 2 1 3 1; s ← set_cell s 3 1 temp;
  temp ← cell s 0 2;
  s ← move s 0 2 2 2; s ← set_cell s 2 2 temp;
  temp ← cell s 1 2;
  s ← move s 1 2 3 2; s ← set_cell s 3 2 temp;
  temp ← cell s 0 3;
  s ← move s 0 3 3 3; s ← move s 3 3 2 3; s ← move s 2 3 1 3; set_cell s 1 3 temp.

Definition InvShiftRows (s : list Z) : option (list Z) :=
  temp ← cell s 3 1;
  s ← move s 3 1 2 1; s ← move s 2 1 1 1; s ← move s 1 1 0 1; s ← set_cell s 0 1 temp;
  temp ← cell s 0 2;
  s ← move s 0 2 2 2; s ← set_cell s 2 2 temp;
  temp ← cell s 1 2;
  s ← move s 1 2 3 2; s ← set_cell s 3 2 temp;
  temp ← cell s 0 3;
  s ← move s 0 3 1 3; s ← move s 1 3 2 3; s ← move s 2 3 3 3; set_cell s 3 3 temp.

Definition xtime (x : Z) : Z :=
  u8 (Z.lxor (Z.shiftl x 1) (Z.land (Z.shiftr x 7) 1 * 0x1b)).

(** [state[i][j] ^= v]. *)
Definition xor_cell (s : list Z) (i j : nat) (v : Z) : option (list Z) :=
  x ← cell s i j; set_cell s i j (Z.lxor x v).

Definition MixColumns (state : list Z) : option (list Z) :=
  for_loop (λ i s,
    t ← cell s i 0;
    a ← cell s i 0; b ← cell s i 1; c ← cell s i 2; d ← cell s i 3;
    let Tmp := Z.lxor (Z.lxor (Z.lxor a b) c) d in
    x ← cell s i 0; y ← cell s i 1; s ← xor_cell s i 0 (Z.lxor (xtime (Z.lxor x y)) Tmp);
    x ← cell s i 1; y ← cell s i 2; s ← xor_cell s i 1 (Z.lxor (xtime (Z.lxor x y)) Tmp);
    x ← cell s i 2; y ← cell s i 3; s ← xor_cell s i 2 (Z.lxor (xtime (Z.lxor x y)) Tmp);
    x ← cell s i 3; xor_cell s i 3 (Z.lxor (xtime (Z.lxor x t)) Tmp)) 0 4 state.

Definition Multiply (x y : Z) : Z :=
  Z.lxor (Z.lxor (Z.lxor (Z.lxor
    (Z.land y 1 * x)
    (Z.land (Z.shiftr y 1) 1 * xtime x))
    (Z.land (Z.shiftr y 2) 1 * xtime (xtime x)))
    (Z.land (Z.shiftr y 3) 1 * xtime (xtime (xtime x))))
    (Z.land (Z.shiftr y 4) 1 * xtime (xtime (xtime (xtime x)))).

(** The four products of a row, added. *)
Definition inv_row (p q r t a b c d : Z) : Z :=
  Z.lxor (Z.lxor (Z.lxor (Multiply a p) (Multiply b q)) (Multiply c r)) (Multiply d t).

Definition InvMixColumns (state : list Z) : option (list Z) :=
  for_loop (λ i s,
    a ← cell s i 0; b ← cell s i 1; c ← cell s i 2; d ← cell s i 3;
    s ← set_cell s i 0 (inv_row 0x0e 0x0b 0x0d 0x09 a b c d);
    s ← set_cell s i 1 (inv_row 0x09 0x0e 0x0b 0x0d a b c d);
    s ← set_cell s i 2 (inv_row 0x0d 0x09 0x0e 0x0b a b c d);
    set_cell s i 3 (inv_row 0x0b 0x0d 0x09 0x0e a b c d)) 0 4 state.

(** The endless loop of [Cipher] from [round] on; [fuel] bounds its iterations. *)
Fixpoint cipher_rounds (fuel round : nat) (s rk : list Z) : option (list Z) :=
  match fuel with
  | O => UB
  | S fuel =>
      s ← SubBytes s;
      s ← ShiftRows s;
      if decide (round = Nr) then Ret s else
      s ← MixColumns s;
      s ← AddRoundKey round s rk;
      cipher_rounds fuel (S round) s rk
  end.

Definition Cipher (state rk : list Z) : option (list Z) :=
  s ← AddRoundKey 0 state rk;
  s ← cipher_rounds Nr 1 s rk;
  AddRoundKey Nr s rk.

(** The endless loop of [InvCipher], counting [round] down. *)
Fixpoint inv_rounds (round : nat) (s rk : list Z) : option (list Z) :=
  s ← InvShiftRows s;
  s ← InvSubBytes s;
  s ← AddRoundKey round s rk;
  match round with
  | O => Ret s
  | S round =>
      s ← InvMixColumns s;
      inv_rounds round s rk
  end.

Definition InvCipher (state rk : list Z) : option (list Z) :=
  s ← AddRoundKey Nr state rk;
  inv_rounds (Nr - 1) s rk.

Definition AES_ECB_encrypt (ctx : AES_ctx) (buf : list Z) : option (list Z) := Cipher buf (RoundKey ctx).
Definition AES_ECB_decrypt (ctx : AES_ctx) (buf : list Z) : option (list Z) := InvCipher buf (RoundKey ctx).

(** *** CBC and CTR

    [off] is how far [buf] has advanced; the [Iv] pointer of the encryption loop
    points at bytes that no longer change, so it is the bytes. *)
Definition XorWithIv (buf iv : list Z) : option (list Z) :=
  for_loop (λ i b, x ← b !! i; y ← iv !! i; mwr b i [Z.lxor x y]) 0 AES_BLOCKLEN buf.

Fixpoint cbc_encrypt_loop (fuel off length : nat) (rk buf iv : list Z) : option (list Z * list Z) :=
  if decide (off < length) then
    match fuel with
    | O => UB
    | S fuel =>
        b ← mslice buf off AES_BLOCKLEN;
        b ← XorWithIv b iv;
        b ← Cipher b rk;
        buf ← mwr buf off b;
        cbc_encrypt_loop fuel (off + AES_BLOCKLEN) length rk buf b
    end
  else Ret (buf, iv).

Definition AES_CBC_encrypt_buffer (ctx : AES_ctx) (buf : list Z) (length : nat) : option (AES_ctx * list Z) :=
  '(buf, iv) ← cbc_encrypt_loop length 0 length (RoundKey ctx) buf (Iv ctx);
  v ← mslice iv 0 AES_BLOCKLEN;
  iv ← mwr (Iv ctx) 0 v;
  Ret (mk_ctx (RoundKey ctx) iv, buf).

Fixpoint cbc_decrypt_loop (fuel off length : nat) (rk buf iv : list Z) : option (list Z * list Z) :=
  if decide (off < length) then
    match fuel with
    | O => UB
    | S fuel =>
        storeNextIv ← mslice buf off AES_BLOCKLEN;
        b ← InvCipher storeNextIv rk;
        b ← XorWithIv b iv;
        buf ← mwr buf off b;
        iv ← mwr iv 0 storeNextIv;
        cbc_decrypt_loop fuel (off + AES_BLOCKLEN) length rk buf iv
    end
  else Ret (buf, iv).

Definition AES_CBC_decrypt_buffer (ctx : AES_ctx) (buf : list Z) (length : nat) : option (AES_ctx * list Z) :=
  '(buf, iv) ← cbc_decrypt_loop length 0 length (RoundKey ctx) buf (Iv ctx);
  Ret (mk_ctx (RoundKey ctx) iv, buf).

(** The carry over the counter, from byte [n - 1] down. *)
Fixpoint increment_iv (n : nat) (iv : list Z) : option (list Z) :=
  match n with
  | O => Ret iv
  | S n =>
      v ← iv !! n;
      if decide (v = 255%Z) then iv ← mwr iv n [0%Z]; increment_iv n iv
      else mwr iv n [u8 (v + 1)]
  end.

(** The byte loop: [bi] is the position in the keystream block [buffer]. *)
Fixpoint ctr_loop (n i bi : nat) (rk buf buffer iv : list Z) : option (list Z * list Z) :=
  match n with
  | O => Ret (buf, iv)
  | S n =>
      '(buffer, iv, bi) ← (if decide (bi = AES_BLOCKLEN) then
          buffer ← mslice iv 0 AES_BLOCKLEN;
          buffer ← Cipher buffer rk;
          iv ← increment_iv AES_BLOCKLEN iv;
          Ret (buffer, iv, 0)
        else Ret (buffer, iv, bi));
      x ← buf !! i;
      y ← buffer !! bi;
      buf ← mwr buf i [Z.lxor x y];
      ctr_loop n (S i) (S bi) rk buf buffer iv
  end.

(** [buffer] is the uninitialised local array. *)
Definition AES_CTR_xcrypt_buffer (buffer : list Z) (ctx : AES_ctx) (buf : list Z) (length : nat)
  : option (AES_ctx * list Z) :=
  '(buf, iv) ← ctr_loop length 0 AES_BLOCKLEN (RoundKey ctx) buf buffer (Iv ctx);
  Ret (mk_ctx (RoundKey ctx) iv, buf).

(** ** FIPS 197 *)

Module Fips.

(** Multiplication by x in GF(2^8), and the product as the sum of the multiples by
    the powers of x in the second factor. *)
Definition xmul (a : Z) : Z := if decide (128 ≤ a)%Z then Z.lxor (2 * a) 0x11b else (2 * a)%Z.

Fixpoint mul_bits (n : nat) (a b : Z) : Z :=
  match n with
  | O => 0%Z
  | S n => Z.lxor (if Z.odd b then a else 0%Z) (mul_bits n (xmul a) (Z.div2 b))
  end.

Definition mul (a b : Z) : Z := mul_bits 8 a b.

(** The inverse, 0 for 0. *)
Definition inv (a : Z) : Z := default 0%Z (head (filter (λ x, mul a x = 1%Z) z256)).

Definition rotl8 (a : Z) (n : nat) : Z :=
  Z.lor (u8 (Z.shiftl a (Z.of_nat n))) (Z.shiftr a (8 - Z.of_nat n)).

Definition affine (a : Z) : Z :=
  Z.lxor (Z.lxor (Z.lxor (Z.lxor (Z.lxor a (rotl8 a 1)) (rotl8 a 2)) (rotl8 a 3)) (rotl8 a 4)) 0x63.

Definition sub (a : Z) : Z := affine (inv a).

(** The state as a matrix: row [r], column [c]. *)
Definition at_ (s : list Z) (r c : nat) : Z := default 0%Z (s !! (r mod 4 + 4 * (c mod 4))).

Definition matrix (f : nat → nat → Z) : list Z := (λ n, f (n mod 4) (n / 4)) <$> seq 0 16.

Definition sub_bytes (s : list Z) : list Z := sub <$> s.
Definition shift_rows (s : list Z) : list Z := matrix (λ r c, at_ s r (c + r)).
Definition mix_columns (s : list Z) : list Z :=
  matrix (λ r c, Z.lxor (Z.lxor (Z.lxor (mul (at_ s r c) 2) (mul (at_ s (r + 1) c) 3))
                          (at_ s (r + 2) c)) (at_ s (r + 3) c)).
Definition add_round_key (s k : list Z) : list Z := zip_with Z.lxor s k.

(** The key schedule: the words so far, and the next one. *)
Definition xor_words (a b : list Z) : list Z := zip_with Z.lxor a b.
Definition rot_word (w : list Z) : list Z := tail w ++ take 1 w.
Definition rcon (i : nat) : list Z := [Nat.iter (i - 1) xmul 1%Z; 0%Z; 0%Z; 0%Z].

Definition next_word (ws : list (list Z)) : list Z :=
  let i := length ws in
  let prev := default [] (ws !! (i - 1)) in
  let temp := if decide (i mod 4 = 0) then xor_words (sub <$> rot_word prev) (rcon (i / 4)) else prev in
  xor_words (default [] (ws !! (i - 4))) temp.

Definition key_words (key : list Z) : list (list Z) :=
  Nat.iter 40 (λ ws, ws ++ [next_word ws])
    [take 4 key; take 4 (drop 4 key); take 4 (drop 8 key); take 4 (drop 12 key)].

Definition round_keys (key : list Z) (r : nat) : list Z := concat (take 4 (drop (4 * r) (key_words key))).

Fixpoint rounds (n : nat) (key s : list Z) : list Z :=
  match n with
  | O => s
  | S n => add_round_key (mix_columns (shift_rows (sub_bytes (rounds n key s)))) (round_keys key (S n))
  end.

Definition cipher (key s : list Z) : list Z :=
  add_round_key (shift_rows (sub_bytes (rounds 9 key (add_round_key s (round_keys key 0)))))
    (round_keys key 10).

End Fips.

(** ** The S-boxes *)

Lemma getSBoxValue_ok b : is_byte b → getSBoxValue b = Some (Fips.sub b).
Proof. intros ?. check_bytes b. Qed.

Lemma getSBoxInvert_ok b : is_byte b → getSBoxInvert (Fips.sub b) = Some b.
Proof. intros ?. check_bytes b. Qed.

Lemma sub_byte b : is_byte b → is_byte (Fips.sub b).
Proof. intros ?. check_bytes b. Qed.

(** ** Doubling is linear *)

Lemma xtime_spec x : xtime x = u8 (Z.lxor (Z.shiftl x 1) (if Z.testbit x 7 then 0x1b else 0)).
Proof.
  unfold xtime. do 2 f_equal. assert (Z.land (Z.shiftr x 7) 1 = Z.b2z (Z.testbit x 7)) as ->.
  { change 1%Z with (Z.ones 1) at 1. rewrite Z.land_ones by lia. change (2 ^ 1)%Z with 2%Z.
    rewrite <-Z.bit0_mod, Z.shiftr_spec by lia. done. }
  by destruct (Z.testbit x 7).
Qed.

Lemma u8_lxor a b : u8 (Z.lxor a b) = Z.lxor (u8 a) (u8 b).
Proof.
  rewrite <-!land_FF. apply Z.bits_inj'. intros n Hn.
  rewrite Z.lxor_spec, !Z.land_spec, Z.lxor_spec. btauto.
Qed.

Lemma xtime_lxor a b : xtime (Z.lxor a b) = Z.lxor (xtime a) (xtime b).
Proof.
  rewrite !xtime_spec, Z.lxor_spec, Z.shiftl_lxor, <-u8_lxor. f_equal.
  destruct (Z.testbit a 7), (Z.testbit b 7); cbn [xorb]; apply Z.bits_inj'; intros n _;
    rewrite !Z.lxor_spec, ?Z.bits_0; btauto.
Qed.

Lemma xtime_byte a : is_byte (xtime a).
Proof. apply u8_byte. Qed.

#[export] Hint Resolve xtime_byte byte_lxor sub_byte : osdp.

(** Equal up to the order and the repetitions of the terms of a sum. *)
Ltac xor_solve := apply Z.bits_inj'; intros ? _; rewrite ?Z.lxor_spec; btauto.

Lemma xtime_xmul a : is_byte a → xtime a = Fips.xmul a.
Proof. intros ?. check_bytes a. Qed.

Lemma mul_2 a : is_byte a → Fips.mul a 2 = xtime a.
Proof. intros ?. check_bytes a. Qed.

Lemma mul_3 a : is_byte a → Fips.mul a 3 = Z.lxor (xtime a) a.
Proof. intros ?. check_bytes a. Qed.

(** ** The transformations *)

(** A 16-byte state. *)
Definition state_ok (s : list Z) : Prop := length s = 16 ∧ bytes_ok s.

(** Names the cells of a state. *)
Ltac open_state s H :=
  let Hl := fresh in let Hb := fresh in destruct H as [Hl Hb];
  do 16 (destruct s as [|? s]; [discriminate Hl|]);
  destruct s; [clear Hl|discriminate Hl];
  repeat (apply Forall_cons_1 in Hb as [? Hb]); clear Hb.

(** Runs a transformation on named cells, the table lookups kept folded. *)
Ltac run_state := cbn -[getSBoxValue getSBoxInvert round_key xtime Multiply Z.lxor u8].

Lemma state_ok_map f s : (∀ b, is_byte b → is_byte (f b)) → state_ok s → state_ok (f <$> s).
Proof.
  intros Hf [Hl Hb]. split; [by rewrite length_fmap|]. apply Forall_fmap.
  by eapply Forall_impl; [|exact Hb].
Qed.

Lemma substitute_ok box f s :
  state_ok s → Forall (λ b, box b = Some (f b)) s → substitute box s = Some (f <$> s).
Proof.
  intros H Hf. open_state s H. repeat (apply Forall_cons_1 in Hf as [? Hf]). unfold substitute.
  repeat (run_state; match goal with E : box _ = _ |- _ => rewrite E end). reflexivity.
Qed.

Lemma sub_bytes_ok s : state_ok s → SubBytes s = Some (Fips.sub_bytes s) ∧ state_ok (Fips.sub_bytes s).
Proof.
  intros H. split; [|by apply state_ok_map; [apply sub_byte|]].
  apply substitute_ok; [done|]. eapply Forall_impl; [|apply H]. apply getSBoxValue_ok.
Qed.

Lemma inv_sub_bytes_ok s : state_ok s → InvSubBytes (Fips.sub_bytes s) = Some s.
Proof.
  intros H. unfold InvSubBytes, Fips.sub_bytes.
  rewrite (substitute_ok _ (λ b, default 0%Z (getSBoxInvert b))).
  - f_equal. rewrite <-list_fmap_compose. rewrite <-(list_fmap_id s) at 2.
    apply list_fmap_ext. intros i b Hb. destruct H as [_ H]. rewrite Forall_lookup in H.
    cbn [compose]. by rewrite getSBoxInvert_ok by by eapply H.
  - by apply state_ok_map; [apply sub_byte|].
  - apply Forall_fmap. eapply Forall_impl; [|apply H]. intros b Hb. cbn [compose].
    by rewrite getSBoxInvert_ok.
Qed.

Lemma matrix_ok f : (∀ r c, is_byte (f r c)) → state_ok (Fips.matrix f).
Proof.
  intros H. split; [by unfold Fips.matrix; rewrite length_fmap, length_seq|].
  unfold Fips.matrix. apply Forall_fmap, Forall_true. intros. apply H.
Qed.

Lemma at_byte s r c : state_ok s → is_byte (Fips.at_ s r c).
Proof.
  intros [_ Hb]. unfold Fips.at_. destruct (s !! _) as [b|] eqn:E; [|by vm_decide].
  rewrite Forall_lookup in Hb. by eapply Hb.
Qed.

Lemma shift_rows_ok s : state_ok s → ShiftRows s = Some (Fips.shift_rows s) ∧ state_ok (Fips.shift_rows s).
Proof.
  intros H. split; [|apply matrix_ok; intros; by apply at_byte]. open_state s H. reflexivity.
Qed.

Lemma inv_shift_rows_ok s : state_ok s → InvShiftRows (Fips.shift_rows s) = Some s.
Proof. intros H. open_state s H. reflexivity. Qed.

(** A mixed cell by doublings. *)
Definition mixed (s : list Z) (r c : nat) : Z :=
  Z.lxor (Z.lxor (Z.lxor (xtime (Fips.at_ s r c))
                    (Z.lxor (xtime (Fips.at_ s (r + 1) c)) (Fips.at_ s (r + 1) c)))
            (Fips.at_ s (r + 2) c)) (Fips.at_ s (r + 3) c).

Lemma mix_columns_mixed s : state_ok s → Fips.mix_columns s = Fips.matrix (mixed s).
Proof.
  intros H. apply list_fmap_ext. intros i n _. unfold mixed.
  by rewrite mul_2, mul_3 by by apply at_byte.
Qed.

Lemma mixed_ok s : state_ok s → state_ok (Fips.matrix (mixed s)).
Proof.
  intros H. apply matrix_ok. intros r c. pose proof (at_byte s). unfold mixed. auto 10 with osdp.
Qed.

(** Two lists of sums, entry by entry. *)
Ltac xor_lists := rewrite ?xtime_lxor; repeat (apply f_equal2; [xor_solve|]); reflexivity.

Lemma mix_columns_ok s : state_ok s → MixColumns s = Some (Fips.mix_columns s) ∧ state_ok (Fips.mix_columns s).
Proof.
  intros H. rewrite mix_columns_mixed by done. split; [|by apply mixed_ok].
  open_state s H. unfold MixColumns. run_state. f_equal. cbv -[xtime Z.lxor]. xor_lists.
Qed.

(** The products by the four constants of [InvMixColumns]. *)
Ltac multiply_const :=
  unfold Multiply;
  repeat match goal with
    | |- context [Z.land ?e 1] =>
        let v := eval vm_compute in (Z.land e 1) in change (Z.land e 1) with v
    end;
  rewrite ?Z.mul_0_l, ?Z.mul_1_l, ?Z.lxor_0_l, ?Z.lxor_0_r.

Lemma multiply_consts x :
  Multiply x 0x09 = Z.lxor x (xtime (xtime (xtime x))) ∧
  Multiply x 0x0b = Z.lxor (Z.lxor x (xtime x)) (xtime (xtime (xtime x))) ∧
  Multiply x 0x0d = Z.lxor (Z.lxor x (xtime (xtime x))) (xtime (xtime (xtime x))) ∧
  Multiply x 0x0e = Z.lxor (Z.lxor (xtime x) (xtime (xtime x))) (xtime (xtime (xtime x))).
Proof. split_and!; by multiply_const. Qed.

Lemma inv_mix_columns_ok s : state_ok s → InvMixColumns (Fips.mix_columns s) = Some s.
Proof.
  intros H. rewrite mix_columns_mixed by done. open_state s H. unfold InvMixColumns.
  cbv -[xtime Z.lxor inv_row]. f_equal. unfold inv_row.
  repeat match goal with |- context [Multiply ?x _] =>
    let E1 := fresh in let E2 := fresh in let E3 := fresh in let E4 := fresh in
    destruct (multiply_consts x) as (E1 & E2 & E3 & E4); rewrite ?E1, ?E2, ?E3, ?E4;
    clear E1 E2 E3 E4 end.
  xor_lists.
Qed.

(** ** The key schedule *)

Definition word_ok (w : list Z) : Prop := length w = 4 ∧ bytes_ok w.

Lemma words_lookup ws rest k w j :
  Forall word_ok ws → ws !! k = Some w → j < 4 → (concat ws ++ rest) !! (k * 4 + j) = w !! j.
Proof.
  intros Hws. revert k. induction Hws as [|v ws [Hv _] _ IH]; intros k Hk Hj; [done|].
  cbn [concat]. rewrite <-app_assoc. destruct k as [|k].
  - injection Hk as ->. by rewrite lookup_app_l by lia.
  - rewrite lookup_app_r by lia. replace (S k * 4 + j - length v) with (k * 4 + j) by lia. by apply IH.
Qed.

Lemma words_length ws : Forall word_ok ws → length (concat ws) = 4 * length ws.
Proof. induction 1 as [|v ws [Hv _] _ IH]; [done|]. simpl. rewrite length_app. lia. Qed.

Lemma word_at ws k : Forall word_ok ws → k < length ws → ∃ a b c d, ws !! k = Some [a; b; c; d] ∧
  is_byte a ∧ is_byte b ∧ is_byte c ∧ is_byte d.
Proof.
  intros Hws Hk. destruct (lookup_lt_is_Some_2 ws k Hk) as [w Hw].
  rewrite Forall_lookup in Hws. destruct (Hws k w Hw) as [Hl Hb].
  do 4 (destruct w as [|? w]; [discriminate Hl|]). destruct w; [|discriminate Hl].
  repeat (apply Forall_cons_1 in Hb as [? Hb]). by eexists _, _, _, _.
Qed.

Lemma rcon_ok j : 1 ≤ j ≤ 10 → ∃ r, Rcon !! j = Some r ∧ is_byte r ∧ Fips.rcon j = [r; 0; 0; 0]%Z.
Proof.
  intros Hj. do 11 (destruct j as [|j]; [first [lia | eexists; split_and!; [reflexivity|vm_decide..]]|]).
  lia.
Qed.

(** One iteration of the schedule appends the next word. *)
Lemma expand_word_ok ws rest :
  Forall word_ok ws → 4 ≤ length ws < 44 → 4 ≤ length rest →
  expand_word (length ws) (concat ws ++ rest) = Some (concat (ws ++ [Fips.next_word ws]) ++ drop 4 rest) ∧
  word_ok (Fips.next_word ws).
Proof.
  intros Hws Hl Hr. unfold expand_word, Fips.next_word, xor_word, Nk.
  destruct (word_at ws (length ws - 1) Hws ltac:(lia)) as (p0 & p1 & p2 & p3 & Hp & ? & ? & ? & ?).
  destruct (word_at ws (length ws - 4) Hws ltac:(lia)) as (o0 & o1 & o2 & o3 & Ho & ? & ? & ? & ?).
  rewrite !(words_lookup _ _ _ _ _ Hws Hp) by lia. cbn [lookup list_lookup]. rewrite !bind_Some.
  rewrite Hp, Ho. cbn [default from_option id].
  assert (∀ w : list Z, length w = 4 → mwr (concat ws ++ rest) (length ws * 4) w =
    Some (concat (ws ++ [w]) ++ drop 4 rest)) as Hw.
  { intros w Hw. rewrite mwr_app by (rewrite ?words_length by done; lia). rewrite Hw.
    rewrite concat_app. cbn [concat]. by rewrite app_nil_r. }
  case_decide as Hm.
  - destruct (rcon_ok (length ws / 4)) as (r & -> & ? & ->).
    { split; [apply Nat.div_le_lower_bound; lia|apply Nat.lt_succ_r, Nat.Div0.div_lt_upper_bound; lia]. }
    rewrite !getSBoxValue_ok by done. rewrite !bind_Some.
    rewrite !(words_lookup _ _ _ _ _ Hws Ho) by lia. cbn [lookup list_lookup]. rewrite !bind_Some.
    rewrite Hw by done. cbn. rewrite !Z.lxor_0_r. split; [done|].
    split; [done|]. repeat apply Forall_cons_2; auto 10 with osdp.
  - rewrite bind_Some. rewrite !(words_lookup _ _ _ _ _ Hws Ho) by lia. cbn [lookup list_lookup].
    rewrite !bind_Some, Hw by done. split; [done|].
    split; [done|]. repeat apply Forall_cons_2; auto 10 with osdp.
Qed.

Lemma expand_loop_ok n ws rest :
  Forall word_ok ws → 4 ≤ length ws → length ws + n ≤ 44 → 4 * n ≤ length rest →
  for_loop expand_word (length ws) n (concat ws ++ rest) =
    Some (concat (Nat.iter n (λ ws, ws ++ [Fips.next_word ws]) ws) ++ drop (4 * n) rest) ∧
  Forall word_ok (Nat.iter n (λ ws, ws ++ [Fips.next_word ws]) ws) ∧
  length (Nat.iter n (λ ws, ws ++ [Fips.next_word ws]) ws) = length ws + n.
Proof.
  revert ws rest. induction n as [|n IH]; intros ws rest Hws Hl Hn Hr.
  { simpl. by rewrite Nat.add_0_r, drop_0. }
  rewrite for_loop_S. destruct (expand_word_ok ws rest) as [E Hok]; [done|lia|lia|].
  rewrite E, bind_Some, Nat.iter_succ_r.
  destruct (IH (ws ++ [Fips.next_word ws]) (drop 4 rest)) as (E' & Hws' & Hl');
    [apply Forall_app; split; [done|by apply Forall_cons_2]|rewrite length_app; simpl; lia..|rewrite length_drop; lia|].
  rewrite length_app in E', Hl'. simpl length in E', Hl'. rewrite Nat.add_1_r in E', Hl'.
  rewrite E', drop_drop. split; [by replace (4 + 4 * n) with (4 * S n) by lia|]. split; [done|].
  rewrite Hl'. lia.
Qed.

Lemma key_words_ok key :
  state_ok key → Forall word_ok (Fips.key_words key) ∧ length (Fips.key_words key) = 44 ∧
  ∀ rk, length rk = AES_keyExpSize → KeyExpansion rk key = Some (concat (Fips.key_words key)).
Proof.
  intros H. unfold Fips.key_words.
  set (ws := [take 4 key; take 4 (drop 4 key); take 4 (drop 8 key); take 4 (drop 12 key)]).
  assert (Forall word_ok ws) as Hws.
  { destruct H as [Hl Hb]. repeat apply Forall_cons_2; [..|constructor].
    all: split; [rewrite length_take, ?length_drop; lia|by apply Forall_take; try apply Forall_drop]. }
  assert (∀ rest, length rest = 160 → for_loop expand_word 4 40 (concat ws ++ rest) =
      Some (concat (Nat.iter 40 (λ ws, ws ++ [Fips.next_word ws]) ws))) as Hloop.
  { intros rest Hr. destruct (expand_loop_ok 40 ws rest Hws) as (E & _); [done..|lia|].
    change (length ws) with 4 in E. rewrite E. f_equal. rewrite drop_ge by lia. apply app_nil_r. }
  destruct (expand_loop_ok 40 ws (replicate 160 0%Z) Hws) as (_ & Hok & Hl); [done..|].
  split; [done|]. split; [done|]. intros rk Hrk. unfold KeyExpansion.
  change (Nb * (Nr + 1) - Nk) with 40. unfold Nk.
  assert (for_loop (λ i rk0, a ← key !! (i * 4 + 0); b ← key !! (i * 4 + 1); c ← key !! (i * 4 + 2);
      d ← key !! (i * 4 + 3); mwr rk0 (i * 4) [a; b; c; d]) 0 4 rk = Some (concat ws ++ drop 16 rk)) as ->.
  { assert (16 ≤ length rk) as Hlong by (rewrite Hrk; vm_decide).
    do 16 (destruct rk as [|? rk]; [simpl in Hlong; lia|]). unfold ws. clear -H. open_state key H. reflexivity. }
  rewrite bind_Some. apply Hloop. rewrite length_drop, Hrk. done.
Qed.

(** The round keys as slices of the expanded key. *)
Lemma round_keys_ok key r : state_ok key → r ≤ 10 →
  Fips.round_keys key r = sl (concat (Fips.key_words key)) (16 * r) 16 ∧ state_ok (Fips.round_keys key r).
Proof.
  intros H Hr. destruct (key_words_ok key H) as (Hws & Hl & _). unfold Fips.round_keys, sl.
  assert (Forall word_ok (take 4 (drop (4 * r) (Fips.key_words key)))) as Hw
    by (by apply Forall_take, Forall_drop).
  assert (length (concat (take 4 (drop (4 * r) (Fips.key_words key)))) = 16) as Hlen.
  { rewrite words_length, length_take, length_drop, Hl by done. lia. }
  split.
  - rewrite <-(take_drop (4 * r) (Fips.key_words key)) at 2.
    rewrite <-(take_drop 4 (drop (4 * r) (Fips.key_words key))) at 2. rewrite !concat_app.
    assert (length (concat (take (4 * r) (Fips.key_words key))) = 16 * r) as <-.
    { rewrite words_length, length_take, Hl by (by apply Forall_take). lia. }
    rewrite drop_app_length. by rewrite take_app_length' by done.
  - split; [done|]. apply Forall_concat. eapply Forall_impl; [|exact Hw]. by intros ? [].
Qed.

Lemma zip_lxor_ok s k : state_ok s → state_ok k → state_ok (Fips.add_round_key s k).
Proof.
  intros H Hk. open_state s H. open_state k Hk. split; [done|].
  repeat apply Forall_cons_2; auto with osdp.
Qed.

Lemma add_round_key_ok key s r : state_ok key → state_ok s → r ≤ 10 →
  AddRoundKey r s (concat (Fips.key_words key)) = Some (Fips.add_round_key s (Fips.round_keys key r)) ∧
  state_ok (Fips.add_round_key s (Fips.round_keys key r)).
Proof.
  intros Hkey H Hr. destruct (round_keys_ok key r Hkey Hr) as [E Hk].
  split; [|by apply zip_lxor_ok].
  assert (∀ i j v, i < 4 → j < 4 → Fips.round_keys key r !! (4 * i + j) = Some v →
    round_key (concat (Fips.key_words key)) r i j = Some v) as Hrk.
  { intros i j v Hi Hj. rewrite E, sl_lookup by lia. unfold round_key, Nb. intros <-. f_equal. lia. }
  revert Hrk. generalize (concat (Fips.key_words key)). intros rk Hrk.
  revert Hk Hrk. generalize (Fips.round_keys key r). intros k Hk Hrk. clear E.
  open_state s H. open_state k Hk. unfold AddRoundKey.
  repeat (run_state; erewrite Hrk; [|lia|lia|reflexivity]). reflexivity.
Qed.

Lemma add_round_key_involutive s k : state_ok s → state_ok k →
  Fips.add_round_key (Fips.add_round_key s k) k = s.
Proof.
  intros H Hk. open_state s H. open_state k Hk. cbn.
  by rewrite !Z.lxor_assoc, !Z.lxor_nilpotent, !Z.lxor_0_r.
Qed.

(** ** The cipher and its inverse *)

#[local] Opaque Fips.sub_bytes Fips.shift_rows Fips.mix_columns Fips.add_round_key Fips.round_keys Fips.key_words.

Section Keyed.
Context (key : list Z) (Hkey : state_ok key).
Local Abbreviation rk := (concat (Fips.key_words key)).

Lemma rounds_ok n s : state_ok s → n ≤ 9 → state_ok (Fips.rounds n key s).
Proof.
  intros H. induction n as [|n IH]; intros Hn; [done|]. cbn [Fips.rounds].
  apply zip_lxor_ok; [|by apply round_keys_ok; [|lia]].
  apply mix_columns_ok, shift_rows_ok, sub_bytes_ok, IH. lia.
Qed.

Lemma rounds_S n s : Fips.rounds (S n) key s =
  Fips.add_round_key (Fips.mix_columns (Fips.shift_rows (Fips.sub_bytes (Fips.rounds n key s))))
    (Fips.round_keys key (S n)).
Proof. done. Qed.

Lemma cipher_rounds_ok n m s : state_ok s → m + n = 9 →
  cipher_rounds (S n) (S m) (Fips.rounds m key s) rk =
    Some (Fips.shift_rows (Fips.sub_bytes (Fips.rounds 9 key s))).
Proof.
  intros H. revert m. induction n as [|n IH]; intros m Hm.
  all: cbn [cipher_rounds]; pose proof (rounds_ok m s H ltac:(lia)) as Hr.
  all: destruct (sub_bytes_ok _ Hr) as [-> Hs]; rewrite bind_Some.
  all: destruct (shift_rows_ok _ Hs) as [-> Hsh]; rewrite bind_Some.
  - rewrite decide_True by (unfold Nr; lia). by replace m with 9 by lia.
  - rewrite decide_False by (unfold Nr; lia).
    destruct (mix_columns_ok _ Hsh) as [-> Hmx]. rewrite bind_Some.
    destruct (add_round_key_ok key _ (S m) Hkey Hmx ltac:(lia)) as [-> _]. rewrite bind_Some.
    rewrite <-rounds_S. apply IH. lia.
Qed.

Lemma cipher_ok s : state_ok s → Cipher s rk = Some (Fips.cipher key s) ∧ state_ok (Fips.cipher key s).
Proof.
  intros H. unfold Cipher, Fips.cipher.
  destruct (add_round_key_ok key s 0 Hkey H ltac:(lia)) as [-> H0]. rewrite bind_Some.
  pose proof (cipher_rounds_ok 9 0 _ H0 eq_refl) as E. cbn [Fips.rounds] in E.
  change Nr with 10. rewrite E, bind_Some. apply add_round_key_ok; [done| |lia].
  apply shift_rows_ok, sub_bytes_ok. by apply rounds_ok.
Qed.

Lemma inv_rounds_ok n s : state_ok s → n ≤ 9 →
  inv_rounds n (Fips.shift_rows (Fips.sub_bytes
    (Fips.rounds n key (Fips.add_round_key s (Fips.round_keys key 0))))) rk = Some s.
Proof.
  intros H. pose proof (zip_lxor_ok s (Fips.round_keys key 0) H) as H0.
  assert (∀ r, r ≤ 10 → state_ok (Fips.round_keys key r)) as Hk by (intros; by apply round_keys_ok).
  specialize (H0 (Hk 0 ltac:(lia))).
  induction n as [|n IH]; intros Hn.
  all: cbn [inv_rounds]; match goal with |- context [Fips.rounds ?n key ?t] =>
    pose proof (rounds_ok n t H0 ltac:(lia)) as Hr end.
  all: rewrite inv_shift_rows_ok, bind_Some by (by apply sub_bytes_ok).
  all: rewrite inv_sub_bytes_ok, bind_Some by done.
  - destruct (add_round_key_ok key _ 0 Hkey Hr ltac:(lia)) as [-> _]. rewrite bind_Some.
    cbn [Fips.rounds]. by rewrite add_round_key_involutive by auto with lia.
  - destruct (add_round_key_ok key _ (S n) Hkey Hr ltac:(lia)) as [-> _]. rewrite bind_Some.
    rewrite rounds_S. pose proof (rounds_ok n _ H0 ltac:(lia)) as Hr'.
    pose proof (proj2 (shift_rows_ok _ (proj2 (sub_bytes_ok _ Hr')))) as Hsh.
    rewrite add_round_key_involutive; [|by apply mix_columns_ok|apply Hk; lia].
    rewrite inv_mix_columns_ok, bind_Some by done. apply IH. lia.
Qed.

Lemma inv_cipher_ok s : state_ok s → InvCipher (Fips.cipher key s) rk = Some s.
Proof.
  intros H. unfold InvCipher. destruct (cipher_ok s H) as [_ Hc].
  destruct (add_round_key_ok key _ Nr Hkey Hc ltac:(unfold Nr; lia)) as [-> _]. rewrite bind_Some.
  unfold Fips.cipher. change Nr with 10.
  assert (state_ok (Fips.add_round_key s (Fips.round_keys key 0))) as H0
    by (apply zip_lxor_ok; [done|apply round_keys_ok; [done|lia]]).
  rewrite add_round_key_involutive; [by apply (inv_rounds_ok 9)| |by apply round_keys_ok].
  apply shift_rows_ok, sub_bytes_ok. by apply rounds_ok.
Qed.

(** On any block the inverse cipher is defined. *)
Lemma inv_steps_total s : state_ok s →
  (∃ t, InvShiftRows s = Some t ∧ state_ok t) ∧ (∃ t, InvSubBytes s = Some t ∧ state_ok t) ∧
  ∃ t, InvMixColumns s = Some t ∧ state_ok t.
Proof.
  assert (∀ b, is_byte b → ∃ v, getSBoxInvert b = Some v ∧ is_byte v) as Hbox.
  { intros b Hb. assert (is_byte (default 0%Z (getSBoxInvert b)) ∧ is_Some (getSBoxInvert b)) as [H [v E]]
      by (check_bytes b). rewrite E in H. by exists v. }
  intros H. split_and!.
  - open_state s H. eexists. split; [reflexivity|]. split; [done|]. by repeat apply Forall_cons_2.
  - exists ((λ b, default 0%Z (getSBoxInvert b)) <$> s). split.
    + apply substitute_ok; [done|]. eapply Forall_impl; [|apply H].
      intros b Hb. destruct (Hbox b Hb) as (v & -> & _). done.
    + apply state_ok_map; [|done]. intros b Hb. by destruct (Hbox b Hb) as (v & -> & ?).
  - open_state s H. eexists. unfold InvMixColumns. run_state. split; [reflexivity|].
    assert (∀ x y, is_byte x → is_byte (Multiply x y)) as Hm.
    { intros x y Hx. unfold Multiply. assert (∀ e v, is_byte v → is_byte (Z.land e 1 * v)) as He.
      { intros e v Hv. change 1%Z with (Z.ones 1). rewrite Z.land_ones by lia.
        pose proof (Z.mod_pos_bound e (2 ^ 1) ltac:(lia)). unfold is_byte in *. nia. }
      auto 10 with osdp. }
    split; [done|]. unfold inv_row. repeat apply Forall_cons_2; auto 10 with osdp.
Qed.

Lemma inv_cipher_total s : state_ok s → ∃ t, InvCipher s rk = Some t ∧ state_ok t.
Proof.
  intros H. unfold InvCipher.
  destruct (add_round_key_ok key s Nr Hkey H ltac:(unfold Nr; lia)) as [-> H0]. rewrite bind_Some.
  assert (Nr - 1 ≤ 9) as Hn by (unfold Nr; lia). revert H0 Hn. generalize (Nr - 1).
  generalize (Fips.add_round_key s (Fips.round_keys key Nr)). intros t n. revert t.
  induction n as [|n IH]; intros t Ht Hn; cbn [inv_rounds].
  all: destruct (inv_steps_total t Ht) as ((t1 & -> & H1) & _); rewrite bind_Some.
  all: destruct (inv_steps_total t1 H1) as (_ & (t2 & -> & H2) & _); rewrite bind_Some.
  - destruct (add_round_key_ok key t2 0 Hkey H2 ltac:(lia)) as [-> H3]. rewrite bind_Some. by eexists.
  - destruct (add_round_key_ok key t2 (S n) Hkey H2 ltac:(lia)) as [-> H3]. rewrite bind_Some.
    destruct (inv_steps_total _ H3) as (_ & _ & (t4 & -> & H4)). rewrite bind_Some. apply IH; [done|lia].
Qed.
End Keyed.

(** ** CBC and CTR *)

Lemma xor_iv_ok b iv : state_ok b → state_ok iv →
  XorWithIv b iv = Some (Fips.add_round_key b iv) ∧ state_ok (Fips.add_round_key b iv).
Proof.
  intros Hb Hi. split; [|by apply zip_lxor_ok]. open_state b Hb. open_state iv Hi. reflexivity.
Qed.

#[local] Opaque Fips.cipher.

(** The ciphertext blocks of CBC, under the cipher [E]. *)
Fixpoint cbc_blocks (E : list Z → list Z) (iv : list Z) (bs : list (list Z)) : list (list Z) :=
  match bs with
  | [] => []
  | b :: bs => E (Fips.add_round_key b iv) :: cbc_blocks E (E (Fips.add_round_key b iv)) bs
  end.

Lemma state_len s : state_ok s → length s = 16.
Proof. by intros []. Qed.

Lemma mslice_block pre b rest : length b = 16 → mslice (pre ++ b ++ rest) (length pre) AES_BLOCKLEN = Some b.
Proof.
  intros Hb. rewrite mslice_app by (rewrite ?length_app; unfold AES_BLOCKLEN; lia).
  by rewrite take_app_length' by done.
Qed.

Lemma mwr_block pre b c rest : length b = 16 → length c = 16 →
  mwr (pre ++ b ++ rest) (length pre) c = Some (pre ++ c ++ rest).
Proof.
  intros Hb Hc. rewrite mwr_app by (rewrite ?length_app; lia). rewrite Hc, <-Hb, drop_app_length.
  by rewrite <-app_assoc.
Qed.

Lemma blocks_len bs : Forall state_ok bs → length (concat bs) = 16 * length bs.
Proof. induction 1 as [|b bs [Hb _] _ IH]; [done|]. simpl. rewrite length_app. lia. Qed.

Lemma tiny_cbc_encrypt_ok key bs pre iv fuel : state_ok key → state_ok iv → Forall state_ok bs →
  length bs ≤ fuel →
  ∃ iv', cbc_encrypt_loop fuel (length pre) (length pre + length (concat bs)) (concat (Fips.key_words key))
      (pre ++ concat bs) iv = Some (pre ++ concat (cbc_blocks (Fips.cipher key) iv bs), iv') ∧ state_ok iv' ∧
    Forall state_ok (cbc_blocks (Fips.cipher key) iv bs).
Proof.
  intros Hkey Hiv Hbs. revert pre iv fuel Hiv.
  induction Hbs as [|b bs Hb Hbs IH]; intros pre iv fuel Hiv Hf.
  { exists iv. destruct fuel; cbn [cbc_encrypt_loop concat length]; rewrite decide_False by lia; done. }
  destruct fuel as [|fuel]; [simpl in Hf; lia|]. cbn [cbc_encrypt_loop concat].
  rewrite decide_True by (rewrite length_app; pose proof (state_len b Hb); lia).
  rewrite mslice_block, bind_Some by by apply state_len.
  destruct (xor_iv_ok b iv Hb Hiv) as [-> Hx]. rewrite bind_Some.
  destruct (cipher_ok key Hkey _ Hx) as [-> Hc]. rewrite bind_Some.
  rewrite mwr_block, bind_Some by by apply state_len.
  destruct (IH (pre ++ Fips.cipher key (Fips.add_round_key b iv)) _ fuel Hc ltac:(simpl in Hf; lia))
    as (iv' & E & Hiv' & Hcs).
  rewrite length_app, (state_len _ Hc) in E. rewrite <-!app_assoc in E.
  rewrite length_app, (state_len b Hb), Nat.add_assoc. unfold AES_BLOCKLEN. rewrite E.
  exists iv'. split; [done|]. split; [done|]. by apply Forall_cons_2.
Qed.

Lemma tiny_cbc_decrypt_ok key bs pre iv fuel : state_ok key → state_ok iv → Forall state_ok bs →
  length bs ≤ fuel →
  ∃ iv', cbc_decrypt_loop fuel (length pre) (length pre + length (concat (cbc_blocks (Fips.cipher key) iv bs)))
      (concat (Fips.key_words key)) (pre ++ concat (cbc_blocks (Fips.cipher key) iv bs)) iv = Some (pre ++ concat bs, iv').
Proof.
  intros Hkey Hiv Hbs. revert pre iv fuel Hiv.
  induction Hbs as [|b bs Hb Hbs IH]; intros pre iv fuel Hiv Hf.
  { exists iv. destruct fuel; cbn [cbc_decrypt_loop cbc_blocks concat length]; rewrite decide_False by lia; done. }
  destruct fuel as [|fuel]; [simpl in Hf; lia|]. cbn [cbc_decrypt_loop cbc_blocks concat].
  destruct (xor_iv_ok b iv Hb Hiv) as [_ Hx]. destruct (cipher_ok key Hkey _ Hx) as [_ Hc].
  pose proof (state_len _ Hc) as Hlc. pose proof (inv_cipher_ok key Hkey _ Hx) as Ei.
  set (c := Fips.cipher key (Fips.add_round_key b iv)) in *.
  rewrite decide_True by (rewrite length_app; lia). rewrite mslice_block, bind_Some by done.
  rewrite Ei, bind_Some. destruct (xor_iv_ok _ iv Hx Hiv) as [-> _].
  rewrite add_round_key_involutive, bind_Some by done.
  rewrite mwr_block, bind_Some by (done || by apply state_len).
  rewrite mwr_0 by (rewrite Hlc, state_len by done; lia).
  rewrite drop_ge, app_nil_r, bind_Some by (rewrite Hlc, state_len by done; lia).
  destruct (IH (pre ++ b) c fuel Hc ltac:(simpl in Hf; lia)) as (iv' & E).
  rewrite length_app, (state_len b Hb) in E. rewrite <-!app_assoc in E.
  rewrite length_app, Hlc, Nat.add_assoc. unfold AES_BLOCKLEN. rewrite E. by exists iv'.
Qed.

(** ** Properties *)

(** C16: tiny-AES is AES-128.  After [AES_init_ctx] with any 16-byte key, over
    whatever the context held, [AES_ECB_encrypt] replaces any block by its FIPS 197
    ciphertext and [AES_ECB_decrypt] brings the block back; every access stays in its
    array and both loops end. *)
Theorem tiny_aes_is_fips_197 ctx key s :
  length (RoundKey ctx) = AES_keyExpSize → state_ok key → state_ok s →
  ∃ ctx', AES_init_ctx ctx key = Some ctx' ∧
    AES_ECB_encrypt ctx' s = Some (Fips.cipher key s) ∧ state_ok (Fips.cipher key s) ∧
    AES_ECB_decrypt ctx' (Fips.cipher key s) = Some s.
Proof.
  intros Hl Hkey Hs. destruct (key_words_ok key Hkey) as (_ & _ & Hexp).
  unfold AES_init_ctx. rewrite (Hexp _ Hl), bind_Some. eexists. split; [done|].
  destruct (cipher_ok key Hkey s Hs) as [E Hc]. split; [exact E|]. split; [done|].
  exact (inv_cipher_ok key Hkey s Hs).
Qed.

(** CBC round trip.  With one context and IV, [AES_CBC_decrypt_buffer] undoes
    [AES_CBC_encrypt_buffer] on any number of blocks. *)
Theorem tiny_aes_cbc_round_trip ctx key iv bs :
  length (RoundKey ctx) = AES_keyExpSize → length (Iv ctx) = AES_BLOCKLEN →
  state_ok key → state_ok iv → Forall state_ok bs →
  ∃ ctx1 ctx2 ctx3 cs, AES_init_ctx_iv ctx key iv = Some ctx1 ∧
    AES_CBC_encrypt_buffer ctx1 (concat bs) (length (concat bs)) = Some (ctx2, cs) ∧
    length cs = length (concat bs) ∧
    AES_CBC_decrypt_buffer ctx1 cs (length cs) = Some (ctx3, concat bs).
Proof.
  intros Hl Hli Hkey Hiv Hbs. destruct (key_words_ok key Hkey) as (_ & _ & Hexp).
  pose proof (state_len iv Hiv) as Hlv.
  assert (AES_init_ctx_iv ctx key iv = Some (mk_ctx (concat (Fips.key_words key)) iv)) as E1.
  { unfold AES_init_ctx_iv. rewrite (Hexp _ Hl), bind_Some.
    rewrite (mslice_Some iv), bind_Some by (rewrite Hlv; done).
    rewrite drop_0, take_ge by (rewrite Hlv; done).
    rewrite mwr_0, bind_Some by (rewrite Hlv, Hli; done). by rewrite drop_ge, app_nil_r by (rewrite Hlv, Hli; done). }
  pose proof (blocks_len bs Hbs) as Hlb.
  destruct (tiny_cbc_encrypt_ok key bs [] iv (length (concat bs)) Hkey Hiv Hbs ltac:(lia)) as (iv2 & E2 & Hiv2 & Hcs).
  destruct (tiny_cbc_decrypt_ok key bs [] iv (length (concat bs)) Hkey Hiv Hbs ltac:(lia)) as (iv3 & E3).
  assert (length (cbc_blocks (Fips.cipher key) iv bs) = length bs) as Hlcb.
  { clear. revert iv. induction bs; simpl; auto. }
  pose proof (blocks_len _ Hcs) as Hlc. rewrite Hlcb, <-Hlb in Hlc.
  cbn [length app] in E2, E3. rewrite Hlc in E3. rewrite Nat.add_0_l in E2, E3.
  eexists _, _, _, (concat (cbc_blocks (Fips.cipher key) iv bs)). split; [exact E1|]. split.
  { unfold AES_CBC_encrypt_buffer. cbn [RoundKey Iv]. rewrite E2, bind_Some.
    rewrite (mslice_Some iv2), bind_Some by (by rewrite (state_len iv2)).
    rewrite drop_0, take_ge by (by rewrite (state_len iv2)).
    rewrite mwr_0, bind_Some by (by rewrite (state_len iv2), (state_len iv)). reflexivity. }
  split; [done|]. unfold AES_CBC_decrypt_buffer. cbn [RoundKey Iv]. by rewrite Hlc, E3, bind_Some.
Qed.

(** The example vectors of FIPS 197, appendix C.1. *)
Example fips_197_c1 :
  Fips.cipher [0; 1; 2; 3; 4; 5; 6; 7; 8; 9; 10; 11; 12; 13; 14; 15]%Z
    [0x00; 0x11; 0x22; 0x33; 0x44; 0x55; 0x66; 0x77; 0x88; 0x99; 0xaa; 0xbb; 0xcc; 0xdd; 0xee; 0xff]%Z =
  [0x69; 0xc4; 0xe0; 0xd8; 0x6a; 0x7b; 0x04; 0x30; 0xd8; 0xcd; 0xb7; 0x80; 0x70; 0xb4; 0xc5; 0x5a]%Z.
Proof. vm_compute. reflexivity. Qed.

(** ** Witnesses *)

Definition ex_ctx : AES_ctx := mk_ctx (replicate 176 0xA5%Z) (replicate 16 0xA5%Z).
Definition ex_key : list Z := Z.of_nat <$> seq 0 16.

Lemma tiny_aes_is_fips_197_witness :
  ∃ ctx', AES_init_ctx ex_ctx ex_key = Some ctx' ∧
    AES_ECB_encrypt ctx' ex_key = Some (Fips.cipher ex_key ex_key) ∧ state_ok (Fips.cipher ex_key ex_key) ∧
    AES_ECB_decrypt ctx' (Fips.cipher ex_key ex_key) = Some ex_key.
Proof. apply tiny_aes_is_fips_197; [done|split; vm_decide..]. Defined.
