(* ===== verification/PdTypes.v ===== *)
(** * The peripheral device context: osdp_pd.h

    [osdp_pd] is osdp_pd_t, field by field.  A host callback is a function on
    the host's world [W], which stands for everything behind the [user]
    pointers; [None] is a null callback.  The four working regions are the
    contents of the storage they are bound to (the embedded array of
    [OSDP_PD_BUF_LEN] bytes after [osdp_pd_init]), so the arrays and the
    pointers to them are one field.  Regions do not overlap, as
    osdp_pd_buffers_t demands. *)
From S2P Require Import Prelude Types State Frame Stream Commands Replies Records Indicators.
From S2P Require Import Multipart ScCrypto ScFrame.

(** ** Build-time constants *)

Definition OSDP_PD_MAX_LEDS : nat := 8.
Definition OSDP_PD_MAX_BUZZERS : nat := 4.
Definition OSDP_PD_MAX_PDCAP_RECORDS : nat := 13.
Definition OSDP_PDCAP_RESERVED_COUNT : nat := 3.
Definition OSDP_PD_BUF_LEN : nat := 512.
Definition OSDP_PD_BUF_MIN_LEN : nat := OSDP_FRAME_MIN_LEN_CRC.
Definition OSDP_PD_REPLY_SCRATCH_LEN : nat := 64.
Definition OSDP_PD_DEFAULT_ACU_RX_SIZE : Z := 128.
Definition OSDP_PD_OFFLINE_TIMEOUT_MS : Z := 8000.
Definition OSDP_PD_INTERCHAR_TIMEOUT_MS : Z := 20.
Definition OSDP_PD_MAX_ADDR : Z := 0x7E.
Definition EVENT_HEADER_BYTES : nat := 3.

(** ** Host interface *)

Record osdp_pd_transport (W : Type) : Type := mk_transport {
  (** Capacity to the returned count and the bytes stored in the buffer. *)
  tr_read : option (nat → W → Z * list Z * W);
  tr_write : option (list Z → W → Z * W);
  tr_now_ms : option (W → Z * W) }.
Arguments mk_transport {_}.
Arguments tr_read {_}.
Arguments tr_write {_}.
Arguments tr_now_ms {_}.

Record osdp_pd_reply : Type := mk_reply {
  rp_code : Z; rp_payload : ptr; rp_payload_len : nat }.

Record osdp_pd_file_info : Type := mk_file_info {
  fi_ft_type : Z; fi_total_size : Z; fi_offset : Z; fi_fragment : ptr; fi_fragment_len : nat;
  fi_data : ptr; fi_received : Z; fi_complete : bool }.

(** [command code, payload, length, *reply] to status and [*reply]. *)
Definition osdp_pd_command_cb (W : Type) : Type :=
  Z → ptr → nat → osdp_pd_reply → W → osdp_status * osdp_pd_reply * W.
Definition osdp_pd_led_cb (W : Type) : Type := Z → Z → Z → W → W.
Definition osdp_pd_buzzer_cb (W : Type) : Type := Z → bool → Z → W → W.
(** Requested address and baud rate, [*eff_address], [*eff_baud]. *)
Definition osdp_pd_comset_cb (W : Type) : Type := Z → Z → Z → Z → W → Z * Z * W.
Definition osdp_pd_comset_applied_cb (W : Type) : Type := Z → Z → W → W.
Definition osdp_pd_file_cb (W : Type) : Type := osdp_pd_file_info → W → osdp_status * W.
Definition osdp_pd_abort_cb (W : Type) : Type := W → osdp_status * W.
Definition osdp_pd_acurxsize_cb (W : Type) : Type := Z → W → W.
Definition osdp_pd_keepactive_cb (W : Type) : Type := Z → W → osdp_status * W.
Definition osdp_pd_mfg_cb (W : Type) : Type :=
  list Z → ptr → nat → osdp_pd_reply → W → osdp_status * osdp_pd_reply * W.

(** The array-valued members take the contents and capacity of [out] and give
    the count and the new contents. *)
Definition status_fn (W : Type) : Type := list Z → nat → W → nat * list Z * W.

Record osdp_pd_status_provider (W : Type) : Type := mk_provider {
  sp_local : option (Z → Z → W → Z * Z * W);
  sp_inputs : option (status_fn W);
  sp_outputs : option (status_fn W);
  sp_readers : option (status_fn W) }.
Arguments mk_provider {_}.
Arguments sp_local {_}.
Arguments sp_inputs {_}.
Arguments sp_outputs {_}.
Arguments sp_readers {_}.

Record osdp_pd_buffers : Type := mk_buffers {
  pb_tx : ptr; pb_tx_cap : nat;
  pb_rx_plain : ptr; pb_rx_plain_cap : nat;
  pb_rpl_cache : ptr; pb_rpl_cache_cap : nat;
  pb_cmd_cache : ptr; pb_cmd_cache_cap : nat }.

(** ** The context *)

Record osdp_pd_led_slot : Type := mk_led_slot {
  sl_used : bool; sl_reader_no : Z; sl_led_no : Z; sl_last_color : Z; sl_state : osdp_led }.

Record osdp_pd_buz_slot : Type := mk_buz_slot {
  sb_used : bool; sb_reader_no : Z; sb_last_sounding : bool; sb_state : osdp_buz }.

Record osdp_pd_sc (W : Type) : Type := mk_pd_sc {
  sc_crypto : osdp_sc_crypto W;
  sc_crypto_set : bool;
  sc_scbk : list Z;
  sc_scbk_set : bool;
  sc_scbk_d : list Z;
  sc_scbk_d_set : bool;
  sc_cuid : list Z;
  sc_cuid_set : bool;
  sc_session : osdp_sc_session;
  sc_got_chlng : bool;
  sc_rnd_a : list Z;
  sc_rnd_b : list Z;
  sc_key_selector : Z }.
Arguments mk_pd_sc {_}.
Arguments sc_crypto {_}.
Arguments sc_crypto_set {_}.
Arguments sc_scbk {_}.
Arguments sc_scbk_set {_}.
Arguments sc_scbk_d {_}.
Arguments sc_scbk_d_set {_}.
Arguments sc_cuid {_}.
Arguments sc_cuid_set {_}.
Arguments sc_session {_}.
Arguments sc_got_chlng {_}.
Arguments sc_rnd_a {_}.
Arguments sc_rnd_b {_}.
Arguments sc_key_selector {_}.

#[export] Instance sc_settable W : Settable (osdp_pd_sc W) := λ r,
  mk_pd_sc (sc_crypto r) (sc_crypto_set r) (sc_scbk r) (sc_scbk_set r) (sc_scbk_d r)
    (sc_scbk_d_set r) (sc_cuid r) (sc_cuid_set r) (sc_session r) (sc_got_chlng r) (sc_rnd_a r)
    (sc_rnd_b r) (sc_key_selector r).

Record osdp_pd (W : Type) : Type := mk_pd {
  pd_address : Z;
  pd_rx : osdp_stream;
  pd_transport : osdp_pd_transport W;
  pd_cmd_cb : option (osdp_pd_command_cb W);
  pd_reply_scratch : list Z;
  pd_last_reply_len : nat;
  pd_last_cmd_len : nat;
  pd_last_seq : Z;
  pd_have_last : bool;
  pd_tx : ptr;
  pd_tx_cap : nat;
  pd_rx_plain : ptr;
  pd_rx_plain_cap : nat;
  pd_rpl_cache : ptr;
  pd_rpl_cache_cap : nat;
  pd_cmd_cache : ptr;
  pd_cmd_cache_cap : nat;
  pd_online : bool;
  pd_last_comm_ms : Z;
  pd_rx_partial_len : nat;
  pd_rx_partial_ms : Z;
  pd_sc : osdp_pd_sc W;
  pd_leds : list osdp_pd_led_slot;
  pd_led_cb : option (osdp_pd_led_cb W);
  pd_buzzers : list osdp_pd_buz_slot;
  pd_buzzer_cb : option (osdp_pd_buzzer_cb W);
  pd_comset_cb : option (osdp_pd_comset_cb W);
  pd_comset_applied_cb : option (osdp_pd_comset_applied_cb W);
  pd_comset_pending : bool;
  pd_comset_new_address : Z;
  pd_comset_new_baud : Z;
  pd_file_buf : ptr;
  pd_file_cap : nat;
  pd_file_cb : option (osdp_pd_file_cb W);
  pd_ft_active : bool;
  pd_ft_type : Z;
  pd_ft_total : Z;
  pd_ft_received : Z;
  pd_status : osdp_pd_status_provider W;
  pd_pdcap_records : list osdp_pdcap_record;
  pd_pdcap_count : nat;
  pd_event_buf : ptr;
  pd_event_cap : nat;
  pd_event_len : nat;
  pd_acu_rx_size : Z;
  pd_acurxsize_cb : option (osdp_pd_acurxsize_cb W);
  pd_abort_cb : option (osdp_pd_abort_cb W);
  pd_keepactive_cb : option (osdp_pd_keepactive_cb W);
  pd_mfg_reasm : osdp_mp_reasm;
  pd_mfg_cb : option (osdp_pd_mfg_cb W);
  pd_mfg_vendor : list Z;
  pd_reply_cacheable : bool }.
Arguments mk_pd {_}.
Arguments pd_address {_}.
Arguments pd_rx {_}.
Arguments pd_transport {_}.
Arguments pd_cmd_cb {_}.
Arguments pd_reply_scratch {_}.
Arguments pd_last_reply_len {_}.
Arguments pd_last_cmd_len {_}.
Arguments pd_last_seq {_}.
Arguments pd_have_last {_}.
Arguments pd_tx {_}.
Arguments pd_tx_cap {_}.
Arguments pd_rx_plain {_}.
Arguments pd_rx_plain_cap {_}.
Arguments pd_rpl_cache {_}.
Arguments pd_rpl_cache_cap {_}.
Arguments pd_cmd_cache {_}.
Arguments pd_cmd_cache_cap {_}.
Arguments pd_online {_}.
Arguments pd_last_comm_ms {_}.
Arguments pd_rx_partial_len {_}.
Arguments pd_rx_partial_ms {_}.
Arguments pd_sc {_}.
Arguments pd_leds {_}.
Arguments pd_led_cb {_}.
Arguments pd_buzzers {_}.
Arguments pd_buzzer_cb {_}.
Arguments pd_comset_cb {_}.
Arguments pd_comset_applied_cb {_}.
Arguments pd_comset_pending {_}.
Arguments pd_comset_new_address {_}.
Arguments pd_comset_new_baud {_}.
Arguments pd_file_buf {_}.
Arguments pd_file_cap {_}.
Arguments pd_file_cb {_}.
Arguments pd_ft_active {_}.
Arguments pd_ft_type {_}.
Arguments pd_ft_total {_}.
Arguments pd_ft_received {_}.
Arguments pd_status {_}.
Arguments pd_pdcap_records {_}.
Arguments pd_pdcap_count {_}.
Arguments pd_event_buf {_}.
Arguments pd_event_cap {_}.
Arguments pd_event_len {_}.
Arguments pd_acu_rx_size {_}.
Arguments pd_acurxsize_cb {_}.
Arguments pd_abort_cb {_}.
Arguments pd_keepactive_cb {_}.
Arguments pd_mfg_reasm {_}.
Arguments pd_mfg_cb {_}.
Arguments pd_mfg_vendor {_}.
Arguments pd_reply_cacheable {_}.

#[export] Instance pd_settable W : Settable (osdp_pd W) := λ r,   mk_pd (pd_address r) (pd_rx r)
    (pd_transport r) (pd_cmd_cb r) (pd_reply_scratch r) (pd_last_reply_len r) (pd_last_cmd_len
    r) (pd_last_seq r) (pd_have_last r) (pd_tx r) (pd_tx_cap r) (pd_rx_plain r) (pd_rx_plain_cap
    r) (pd_rpl_cache r) (pd_rpl_cache_cap r) (pd_cmd_cache r) (pd_cmd_cache_cap r) (pd_online r)
    (pd_last_comm_ms r) (pd_rx_partial_len r) (pd_rx_partial_ms r) (pd_sc r) (pd_leds r)
    (pd_led_cb r) (pd_buzzers r) (pd_buzzer_cb r) (pd_comset_cb r) (pd_comset_applied_cb r)
    (pd_comset_pending r) (pd_comset_new_address r) (pd_comset_new_baud r) (pd_file_buf r)
    (pd_file_cap r) (pd_file_cb r) (pd_ft_active r) (pd_ft_type r) (pd_ft_total r)
    (pd_ft_received r) (pd_status r) (pd_pdcap_records r) (pd_pdcap_count r) (pd_event_buf r)
    (pd_event_cap r) (pd_event_len r) (pd_acu_rx_size r) (pd_acurxsize_cb r) (pd_abort_cb r)
    (pd_keepactive_cb r) (pd_mfg_reasm r) (pd_mfg_cb r) (pd_mfg_vendor r) (pd_reply_cacheable
    r).

(** A computation on the context and the host. *)
Abbreviation PD W := (M (osdp_pd W) W).

(** [pd->f = v] *)
Notation "f ::= v" := (modify (λ c, c <| f := v |>)) (at level 70, only parsing) : osdp_scope.

(** [pd->sc.f = v] *)
Definition with_sc {W} (g : osdp_pd_sc W → osdp_pd_sc W) : PD W unit :=
  modify (set pd_sc g).

(** ** osdp_pd_init and the setters *)

Definition no_crypto {W} : osdp_sc_crypto W := mk_crypto None None None.

Definition session_zero : osdp_sc_session :=
  let z := replicate 16 0%Z in mk_session (mk_keys z z z) z z false.

Definition led_zero : osdp_led := mk_led (mk_flash 0 0 0 0) (mk_flash 0 0 0 0) false 0 0.
Definition buz_zero : osdp_buz := mk_buzzer 0 0 0 0 0 false.

Definition sc_zero {W} : osdp_pd_sc W :=
  mk_pd_sc no_crypto false (replicate OSDP_SC_KEY_LEN 0%Z) false (replicate OSDP_SC_KEY_LEN 0%Z) false
    (replicate OSDP_SC_CUID_LEN 0%Z) false session_zero false (replicate OSDP_SC_RND_LEN 0%Z)
    (replicate OSDP_SC_RND_LEN 0%Z) 0.

(** [memset(pd, 0, sizeof *pd)], with the four regions at the embedded arrays. *)
Definition pd_zero {W} : osdp_pd W :=
  let region := Ptr (replicate OSDP_PD_BUF_LEN 0%Z) in
  mk_pd 0 (mk_stream (replicate OSDP_STREAM_BUFFER_LEN 0%Z) 0 0) (mk_transport None None None)
    None (replicate OSDP_PD_REPLY_SCRATCH_LEN 0%Z)
    0 0 0 false
    region 0 region 0 region 0 region 0
    false 0 0 0 sc_zero
    (replicate OSDP_PD_MAX_LEDS (mk_led_slot false 0 0 0 led_zero)) None
    (replicate OSDP_PD_MAX_BUZZERS (mk_buz_slot false 0 false buz_zero)) None
    None None false 0 0
    NULL 0 None false 0 0 0
    (mk_provider None None None None)
    (replicate OSDP_PD_MAX_PDCAP_RECORDS (mk_pdcap 0 0 0)) 0
    NULL 0 0
    0 None None None
    (mk_reasm NULL 0 0 0 false) None (replicate 3 0%Z) false.

Section api.
Context {W : Type}.
Implicit Types pd : option (osdp_pd W).

Definition osdp_pd_init pd (address : Z) : option (osdp_pd W) :=
  match pd with
  | None => None
  | Some _ =>
      let c := pd_zero <| pd_address := Z.land address 0x7F |> in
      rx ← osdp_stream_init (Some (pd_rx c));
      Some (c <| pd_rx := rx |>
              <| pd_tx_cap := OSDP_PD_BUF_LEN |> <| pd_rx_plain_cap := OSDP_PD_BUF_LEN |>
              <| pd_rpl_cache_cap := OSDP_PD_BUF_LEN |> <| pd_cmd_cache_cap := OSDP_PD_BUF_LEN |>
              <| pd_acu_rx_size := OSDP_PD_DEFAULT_ACU_RX_SIZE |>)
  end.

Definition osdp_pd_set_buffers pd (bufs : option osdp_pd_buffers) : osdp_status * option (osdp_pd W) :=
  match pd, bufs with
  | Some c, Some b =>
      let small p cap := negb (is_null p) && bool_decide (cap < OSDP_PD_BUF_MIN_LEN) in
      if small (pb_tx b) (pb_tx_cap b) || small (pb_rx_plain b) (pb_rx_plain_cap b)
         || small (pb_rpl_cache b) (pb_rpl_cache_cap b) || small (pb_cmd_cache b) (pb_cmd_cache_cap b)
      then (OSDP_ERR_BUFFER_TOO_SMALL, Some c)
      else
        let c := if is_null (pb_tx b) then c
                 else c <| pd_tx := pb_tx b |> <| pd_tx_cap := pb_tx_cap b |> in
        let c := if is_null (pb_rx_plain b) then c
                 else c <| pd_rx_plain := pb_rx_plain b |>
                        <| pd_rx_plain_cap := pb_rx_plain_cap b |> in
        let c := if is_null (pb_rpl_cache b) then c
                 else c <| pd_rpl_cache := pb_rpl_cache b |>
                        <| pd_rpl_cache_cap := pb_rpl_cache_cap b |>
                        <| pd_last_reply_len := 0 |> <| pd_have_last := false |> in
        let c := if is_null (pb_cmd_cache b) then c
                 else c <| pd_cmd_cache := pb_cmd_cache b |>
                        <| pd_cmd_cache_cap := pb_cmd_cache_cap b |>
                        <| pd_last_cmd_len := 0 |> <| pd_have_last := false |> in
        (OSDP_OK, Some c)
  | _, _ => (OSDP_ERR_INVALID_ARG, pd)
  end.

Definition osdp_pd_set_transport pd (transport : option (osdp_pd_transport W)) : option (osdp_pd W) :=
  c ← pd; match transport with None => Some c | Some t => Some (c <| pd_transport := t |>) end.

Definition osdp_pd_set_command_handler pd cb : option (osdp_pd W) :=
  c ← pd; Some (c <| pd_cmd_cb := cb |>).

Definition osdp_pd_set_led_handler pd cb : option (osdp_pd W) :=
  c ← pd; Some (c <| pd_led_cb := cb |>).

Definition osdp_pd_set_buzzer_handler pd cb : option (osdp_pd W) :=
  c ← pd; Some (c <| pd_buzzer_cb := cb |>).

Definition osdp_pd_set_comset_handler pd decide applied : option (osdp_pd W) :=
  c ← pd; Some (c <| pd_comset_cb := decide |> <| pd_comset_applied_cb := applied |>).

Definition osdp_pd_set_file_receiver pd (buf : ptr) (cap : nat) cb : option (osdp_pd W) :=
  c ← pd; Some (c <| pd_file_buf := buf |> <| pd_file_cap := cap |> <| pd_file_cb := cb |>
                  <| pd_ft_active := false |> <| pd_ft_received := 0%Z |>).

Definition osdp_pd_set_file_stream pd cb : option (osdp_pd W) :=
  c ← pd; Some (c <| pd_file_buf := NULL |> <| pd_file_cap := 0 |> <| pd_file_cb := cb |>
                  <| pd_ft_active := false |> <| pd_ft_received := 0%Z |>).

Definition osdp_pd_set_status_provider pd (p : option (osdp_pd_status_provider W))
  : option (osdp_pd W) :=
  c ← pd; Some (c <| pd_status := default (mk_provider None None None None) p |>).

Definition osdp_pd_set_mfg_receiver pd (buf : ptr) (cap : nat) cb : option (osdp_pd W) :=
  c ← pd;
  r ← osdp_mp_reasm_init (Some (pd_mfg_reasm c)) buf cap;
  Some (c <| pd_mfg_reasm := r |> <| pd_mfg_cb := cb |> <| pd_mfg_vendor := replicate 3 0%Z |>).

Definition osdp_pd_set_abort_handler pd cb : option (osdp_pd W) :=
  c ← pd; Some (c <| pd_abort_cb := cb |>).

Definition osdp_pd_set_acurxsize_handler pd cb : option (osdp_pd W) :=
  c ← pd; Some (c <| pd_acurxsize_cb := cb |>).

Definition osdp_pd_set_keepactive_handler pd cb : option (osdp_pd W) :=
  c ← pd; Some (c <| pd_keepactive_cb := cb |>).

Definition osdp_pd_set_sc_crypto pd (crypto : option (osdp_sc_crypto W)) : option (osdp_pd W) :=
  c ← pd;
  match crypto with
  | None => Some c
  | Some cr =>
      s ← osdp_sc_session_init (Some (sc_session (pd_sc c)));
      Some (c <| pd_sc := (pd_sc c) <| sc_crypto := cr |> <| sc_crypto_set := true |>
                            <| sc_session := s |> <| sc_got_chlng := false |> |>)
  end.

(** The three key and identity setters copy [n] bytes, unless given NULL. *)
Definition osdp_pd_set_sc_scbk pd (scbk : ptr) : option (osdp_pd W) :=
  c ← pd;
  if is_null scbk then Some c else
  k ← rd_slice scbk 0 OSDP_SC_KEY_LEN;
  Some (c <| pd_sc := (pd_sc c) <| sc_scbk := k |> <| sc_scbk_set := true |> |>).

Definition osdp_pd_set_sc_scbk_d pd (scbk_d : ptr) : option (osdp_pd W) :=
  c ← pd;
  if is_null scbk_d then Some c else
  k ← rd_slice scbk_d 0 OSDP_SC_KEY_LEN;
  Some (c <| pd_sc := (pd_sc c) <| sc_scbk_d := k |> <| sc_scbk_d_set := true |> |>).

Definition osdp_pd_set_sc_cuid pd (cuid : ptr) : option (osdp_pd W) :=
  c ← pd;
  if is_null cuid then Some c else
  k ← rd_slice cuid 0 OSDP_SC_CUID_LEN;
  Some (c <| pd_sc := (pd_sc c) <| sc_cuid := k |> <| sc_cuid_set := true |> |>).

Definition osdp_pd_acu_rx_size pd : Z := match pd with Some c => pd_acu_rx_size c | None => 0 end.
Definition osdp_pd_is_online pd : bool := match pd with Some c => pd_online c | None => false end.
Definition osdp_pd_sc_established pd : bool :=
  match pd with Some c => established (sc_session (pd_sc c)) | None => false end.

(** ** Sizing *)

(** [memset(&shape, 0, ..)] and the fields the sizing helpers read. *)
Definition reply_shape (c : osdp_pd W) (secure : bool) : osdp_frame :=
  mk_frame (pd_address c) true 0 OSDP_INTEGRITY_CRC secure
    (if secure then Z.of_nat OSDP_SCB_MIN_LEN else 0) (if secure then OSDP_SCS_18 else 0)
    NULL 0 0 NULL 0 NULL 0 NULL 0.

Definition max_payload_for_cap (c : osdp_pd W) (cap : nat) : nat :=
  let '(s, max) :=
    if established (sc_session (pd_sc c))
    then osdp_sc_max_payload (Some (reply_shape c true)) cap (Some 0)
    else osdp_frame_max_payload (Some (reply_shape c false)) cap (Some 0) in
  if decide (s = OSDP_OK) then default 0 max else 0.

Definition osdp_pd_max_reply_payload pd : nat :=
  match pd with Some c => max_payload_for_cap c (pd_tx_cap c) | None => 0 end.

Definition osdp_pd_max_fragment_payload pd : nat :=
  match pd with
  | None => 0
  | Some c =>
      let acu := Z.to_nat (pd_acu_rx_size c) in
      let cap := if decide (acu < pd_tx_cap c) then acu else pd_tx_cap c in
      let max := max_payload_for_cap c cap in
      if decide (max ≤ OSDP_MP_HEADER_BYTES) then 0 else max - OSDP_MP_HEADER_BYTES
  end.

End api.

(** [osdp_pd_init] is defined. *)
Example ex_init : osdp_pd_init (Some (pd_zero (W := unit))) 0xFF ≫= (λ c, Some (pd_address c)) = Some 0x7F%Z.
Proof. reflexivity. Qed.
