(* ===== verification/PdEvents.v ===== *)
(** * The poll-response event queue of the PD (pd.c)

    The code keeps the queued replies as length-prefixed records, compacted to
    the front of a caller-owned buffer.  The specification is a plain list of
    (reply code, payload) pairs; [queue_rep] relates the two. *)
From S2P Require Import Prelude Types State Pack Codec PdTypes.

Section ops.
Context {W : Type}.
Implicit Types pd : option (osdp_pd W).

Definition osdp_pd_set_event_queue pd (buf : ptr) (cap : nat) : option (osdp_pd W) :=
  c ← pd;
  Some (c <| pd_event_buf := buf |> <| pd_event_cap := if is_null buf then 0 else cap |>
          <| pd_event_len := 0 |>).

Definition osdp_pd_clear_events pd : option (osdp_pd W) :=
  c ← pd; Some (c <| pd_event_len := 0 |>).

Definition osdp_pd_event_pending pd : bool :=
  match pd with Some c => bool_decide (0 < pd_event_len c) | None => false end.

(** The record [at[0] = .., at[1] = .., at[2] = .., memcpy(&at[3], ..)]. *)
Definition write_event (buf : ptr) (at_ : nat) (reply_code : Z) (payload : ptr) (len : nat)
  : option ptr :=
  buf ← wr buf at_ [Z.land (Z.of_nat len) 0xFF];
  buf ← wr buf (at_ + 1) [Z.land (Z.shiftr (Z.of_nat len) 8) 0xFF];
  buf ← wr buf (at_ + 2) [reply_code];
  copy_tail buf (at_ + EVENT_HEADER_BYTES) payload len.

(** [pd->event_cap - pd->event_len] does not wrap: the length never exceeds
    the capacity ([queue_rep]). *)
Definition osdp_pd_enqueue_event pd (reply_code : Z) (payload : ptr) (len : nat)
  : option (osdp_status * option (osdp_pd W)) :=
  match pd with
  | None => Some (OSDP_ERR_INVALID_ARG, None)
  | Some c =>
      if is_null (pd_event_buf c) then Some (OSDP_ERR_INVALID_ARG, pd) else
      if decide (0 < len ∧ payload = NULL) then Some (OSDP_ERR_INVALID_ARG, pd) else
      if decide (0xFFFF < Z.of_nat len)%Z then Some (OSDP_ERR_INVALID_ARG, pd) else
      let need := EVENT_HEADER_BYTES + len in
      if decide (pd_event_cap c - pd_event_len c < need) then Some (OSDP_ERR_BUFFER_TOO_SMALL, pd) else
      let at_ := pd_event_len c in
      buf ← write_event (pd_event_buf c) at_ reply_code payload len;
      Some (OSDP_OK, Some (c <| pd_event_buf := buf |> <| pd_event_len := at_ + need |>))
  end.

(** [memmove(event_buf, &event_buf[record], event_len - record)]. *)
Definition event_compact (record : nat) : PD W unit :=
  buf ← gets pd_event_buf;
  len ← gets pd_event_len;
  bs ← lift (rd_slice buf record (len - record));
  buf ← lift (wr buf 0 bs);
  pd_event_buf ::= buf;;
  pd_event_len ::= len - record.

(** [Some reply] for [true] with [*reply] written. *)
Definition osdp_pd_internal_dequeue_event : PD W (option osdp_pd_reply) :=
  buf ← gets pd_event_buf;
  event_len ← gets pd_event_len;
  if is_null buf || bool_decide (event_len < EVENT_HEADER_BYTES) then mret None else
  b0 ← lift (rd buf 0);
  b1 ← lift (rd buf 1);
  code ← lift (rd buf 2);
  let len := Z.to_nat (Z.lor b0 (Z.shiftl b1 8)) in
  let record := EVENT_HEADER_BYTES + len in
  if decide (event_len < record) then pd_event_len ::= 0;; mret None else
  if decide (OSDP_PD_REPLY_SCRATCH_LEN < len) then event_compact record;; mret None else
  (if decide (0 < len) then
     bs ← lift (rd_slice buf EVENT_HEADER_BYTES len);
     scratch ← gets pd_reply_scratch;
     scratch ← lift (mwr scratch 0 bs);
     pd_reply_scratch ::= scratch
   else mret tt);;
  event_compact record;;
  scratch ← gets pd_reply_scratch;
  mret (Some (mk_reply code (if decide (0 < len) then Ptr scratch else NULL) len)).

End ops.

(** ** Specification: a list of events *)

Definition event : Type := Z * list Z.

Definition event_record (e : event) : list Z := le_split 2 (Z.of_nat (length e.2)) ++ e.1 :: e.2.

Definition queue_bytes (q : list event) : list Z := q ≫= event_record.

Definition event_ok (e : event) : Prop :=
  is_byte e.1 ∧ bytes_ok e.2 ∧ (Z.of_nat (length e.2) ≤ 0xFFFF)%Z.

(** The context holds the events [q]. *)
Record queue_rep {W} (c : osdp_pd W) (q : list event) : Prop := {
  qr_buf : ∃ m, pd_event_buf c = Ptr (queue_bytes q ++ m) ∧
             pd_event_cap c ≤ length (queue_bytes q) + length m;
  qr_len : pd_event_len c = length (queue_bytes q);
  qr_cap : pd_event_len c ≤ pd_event_cap c;
  qr_events : Forall event_ok q;
  qr_scratch : length (pd_reply_scratch c) = OSDP_PD_REPLY_SCRATCH_LEN }.

(** What an application and the poll handler do with the queue. *)
Inductive event_op : Type :=
  | Enqueue (code : Z) (payload : ptr) (len : nat)
  | Poll
  | Clear.

Inductive event_out : Type :=
  | Status (s : osdp_status)
  | Reply (r : option event)
  | Done.

Definition event_op_ok (o : event_op) : Prop :=
  match o with
  | Enqueue code payload len => is_byte code ∧ region_ok payload len
  | _ => True
  end.

(** The reply as the framer sees it. *)
Definition reply_event (r : osdp_pd_reply) : event := (rp_code r, view (rp_payload r) (rp_payload_len r)).

Definition run_op {W} (c : osdp_pd W) (w : W) (o : event_op) : option (event_out * osdp_pd W * W) :=
  match o with
  | Enqueue code payload len =>
      '(s, pd) ← osdp_pd_enqueue_event (Some c) code payload len;
      c ← pd; Some (Status s, c, w)
  | Poll =>
      '(r, c, w) ← osdp_pd_internal_dequeue_event c w;
      Some (Reply (reply_event <$> r), c, w)
  | Clear => c ← osdp_pd_clear_events (Some c); Some (Done, c, w)
  end.

Fixpoint run_ops {W} (c : osdp_pd W) (w : W) (os : list event_op)
  : option (list event_out * osdp_pd W * W) :=
  match os with
  | [] => Some ([], c, w)
  | o :: os =>
      '(x, c, w) ← run_op c w o;
      '(xs, c, w) ← run_ops c w os;
      Some (x :: xs, c, w)
  end.

(** The same operations on a plain first-in first-out list, with the capacity
    in bytes. *)
Definition fifo_op (cap : nat) (q : list event) (o : event_op) : event_out * list event :=
  match o with
  | Enqueue code payload len =>
      if decide ((0 < len ∧ payload = NULL) ∨ (0xFFFF < Z.of_nat len)%Z)
      then (Status OSDP_ERR_INVALID_ARG, q)
      else if decide (length (queue_bytes q) + EVENT_HEADER_BYTES + len ≤ cap)
      then (Status OSDP_OK, q ++ [(code, view payload len)])
      else (Status OSDP_ERR_BUFFER_TOO_SMALL, q)
  | Poll => (Reply (head q), tail q)
  | Clear => (Done, [])
  end.

Fixpoint fifo_ops (cap : nat) (q : list event) (os : list event_op) : list event_out * list event :=
  match os with
  | [] => ([], q)
  | o :: os =>
      let '(x, q) := fifo_op cap q o in
      let '(xs, q) := fifo_ops cap q os in (x :: xs, q)
  end.

(** The one way in which the code departs from the list: an event whose payload
    exceeds the reply scratch leaves the queue, but the poll is not given it. *)
Definition deliverable (e : event) : Prop := length e.2 ≤ OSDP_PD_REPLY_SCRATCH_LEN.

Definition polled (x : event_out) : event_out :=
  match x with
  | Reply (Some e) => Reply (if decide (deliverable e) then Some e else None)
  | _ => x
  end.

Definition op_deliverable (o : event_op) : Prop :=
  match o with Enqueue _ _ len => len ≤ OSDP_PD_REPLY_SCRATCH_LEN | _ => True end.

(** ** Lemmas *)

Lemma length_event_record e : length (event_record e) = EVENT_HEADER_BYTES + length e.2.
Proof. unfold event_record. rewrite length_app, length_le_split. simpl. unfold EVENT_HEADER_BYTES. lia. Qed.

Lemma queue_bytes_snoc q e : queue_bytes (q ++ [e]) = queue_bytes q ++ event_record e.
Proof. unfold queue_bytes. rewrite bind_app. simpl. by rewrite app_nil_r. Qed.

(** The record [osdp_pd_enqueue_event] lays down behind [pre]. *)
Lemma write_record pre rest at_ code payload len :
  at_ = length pre → 3 + len ≤ length rest → region_ok payload len → (0 < len → payload ≠ NULL) →
  write_event (Ptr (pre ++ rest)) at_ code payload len =
  Some (Ptr (pre ++ event_record (code, view payload len) ++ drop (3 + len) rest)).
Proof.
  intros -> Hl Hr Hn. pose proof (length_view payload len Hr Hn) as Hv.
  unfold write_event, EVENT_HEADER_BYTES. rewrite wr_next by (simpl; lia). rewrite bind_Some.
  rewrite wr_next by len_tac. rewrite bind_Some.
  rewrite wr_next by len_tac. rewrite bind_Some.
  rewrite copy_tail_next by (done || len_tac). do 2 f_equal.
  rewrite !drop_drop, <-!app_assoc. unfold event_record. cbn [fst snd length le_split app Nat.add].
  by rewrite Hv.
Qed.

Lemma enqueue_refines {W} (c : osdp_pd W) w q code payload len :
  queue_rep c q → is_byte code → region_ok payload len →
  ∃ c', run_op c w (Enqueue code payload len) =
          Some (polled (fifo_op (pd_event_cap c) q (Enqueue code payload len)).1, c', w) ∧
    queue_rep c' (fifo_op (pd_event_cap c) q (Enqueue code payload len)).2 ∧
    pd_event_cap c' = pd_event_cap c.
Proof.
  intros Hq Hc Hr. pose proof Hq as [(m & Hb & Hm) Hl Hcap He Hs].
  unfold run_op, osdp_pd_enqueue_event, fifo_op. rewrite Hb. cbn [is_null].
  destruct (decide (0 < len ∧ payload = NULL)) as [H1|H1].
  { rewrite decide_True by (by left). by exists c. }
  destruct (decide (0xFFFF < Z.of_nat len)%Z) as [H2|H2].
  { rewrite (decide_True (P := _ ∨ _)) by (by right). by exists c. }
  rewrite (decide_False (P := _ ∨ _)) by tauto.
  destruct (decide (pd_event_cap c - pd_event_len c < EVENT_HEADER_BYTES + len)) as [H3|H3].
  { rewrite (decide_False (P := _ ≤ _)) by (unfold EVENT_HEADER_BYTES in *; lia). by exists c. }
  rewrite (decide_True (P := _ ≤ _)) by (unfold EVENT_HEADER_BYTES in *; lia).
  assert (0 < len → payload ≠ NULL) as Hn by (intros ? ->; by apply H1).
  pose proof (length_view payload len Hr Hn) as Hv.
  pose proof (length_event_record (code, view payload len)) as Hlen. cbn [snd] in Hlen.
  unfold EVENT_HEADER_BYTES in H3, Hlen.
  cbv zeta. rewrite (write_record _ _ _ code payload len Hl) by (done || lia). rewrite !bind_Some.
  eexists. split; [reflexivity|]. split; [|reflexivity].
  constructor; cbn [snd]; rewrite ?queue_bytes_snoc, ?length_app, ?Hlen, ?Hv.
  - eexists. split; [by rewrite <-app_assoc|].
    change (pd_event_cap c ≤ length (queue_bytes q) + (3 + len) + length (drop (3 + len) m)).
    rewrite length_drop. lia.
  - by change (pd_event_len c + (3 + len) = length (queue_bytes q) + (3 + len)); rewrite Hl.
  - change (pd_event_len c + (3 + len) ≤ pd_event_cap c). lia.
  - apply Forall_app. split; [done|]. apply Forall_singleton. unfold event_ok. cbn [fst snd].
    rewrite Hv. split_and!; [done| |lia]. by apply view_bytes.
  - done.
Qed.

Lemma event_header_reads e rest :
  event_ok e →
  let buf := Ptr (event_record e ++ rest) in
  ∃ b0 b1, rd buf 0 = Some b0 ∧ rd buf 1 = Some b1 ∧ rd buf 2 = Some e.1 ∧
    Z.to_nat (Z.lor b0 (Z.shiftl b1 8)) = length e.2.
Proof.
  intros (_ & _ & Hl) buf. eexists _, _. split_and!; [reflexivity..|].
  rewrite le16, u16_id by (unfold is_u16; lia). lia.
Qed.

Lemma event_payload_read e rest :
  rd_slice (Ptr (event_record e ++ rest)) EVENT_HEADER_BYTES (length e.2) = Some e.2.
Proof.
  unfold event_record. change (e.1 :: e.2) with ([e.1] ++ e.2). rewrite app_assoc, <-app_assoc.
  by apply rd_slice_app; rewrite ?length_app, ?length_le_split.
Qed.

(** Dropping the front record of the buffer. *)
Lemma event_compact_ok {W} (c : osdp_pd W) w r rest len :
  pd_event_buf c = Ptr (r ++ rest) → pd_event_len c = length r + len → len ≤ length rest →
  ∃ m, event_compact (length r) c w =
         Some (tt, c <| pd_event_buf := Ptr (take len rest ++ m) |> <| pd_event_len := len |>, w) ∧
       length (take len rest) + length m = length r + length rest.
Proof.
  intros Hb Hl Hr. exists (drop len (r ++ rest)). unfold event_compact. m_run.
  rewrite Hb, Hl. replace (length r + len - length r) with len by lia.
  rewrite (run_lift _ (take len rest)) by (simpl; by rewrite mslice_app).
  rewrite (run_lift _ (Ptr (take len rest ++ drop len (r ++ rest)))).
  2: { simpl. rewrite mwr_0 by solve_len. by rewrite length_take_le by done. }
  m_run. split; [done|]. solve_len.
Qed.

Lemma compact_rep {W} (c : osdp_pd W) w e q m :
  pd_event_buf c = Ptr (event_record e ++ queue_bytes q ++ m) →
  pd_event_cap c ≤ length (event_record e) + length (queue_bytes q) + length m →
  pd_event_len c = length (event_record e) + length (queue_bytes q) →
  pd_event_len c ≤ pd_event_cap c → Forall event_ok q →
  length (pd_reply_scratch c) = OSDP_PD_REPLY_SCRATCH_LEN →
  ∃ b n, let c' := c <| pd_event_buf := b |> <| pd_event_len := n |> in
    event_compact (length (event_record e)) c w = Some (tt, c', w) ∧ queue_rep c' q.
Proof.
  intros Hb Hm Hl Hcap Hq Hs.
  destruct (event_compact_ok c w _ _ (length (queue_bytes q)) Hb Hl) as (m' & -> & Hm'); [solve_len|].
  rewrite take_app_length. rewrite take_app_length, length_app in Hm'.
  eexists _, _. split; [done|]. constructor; read_set; [|done|lia|done|done].
  exists m'. split; [done|lia].
Qed.

Lemma dequeue_ok {W} (c : osdp_pd W) w e q :
  queue_rep c (e :: q) →
  ∃ r b n s, let c' := c <| pd_event_buf := b |> <| pd_event_len := n |> <| pd_reply_scratch := s |> in
    osdp_pd_internal_dequeue_event c w = Some (r, c', w) ∧ queue_rep c' q ∧
    (bytes_ok (pd_reply_scratch c) → bytes_ok s) ∧
    r = (if decide (length e.2 ≤ OSDP_PD_REPLY_SCRATCH_LEN)
         then Some (mk_reply e.1 (if decide (0 < length e.2) then Ptr s else NULL) (length e.2)) else None) ∧
    reply_event <$> r = (if decide (length e.2 ≤ OSDP_PD_REPLY_SCRATCH_LEN) then Some e else None).
Proof.
  intros [(m & Hb & Hm) Hl Hcap He Hs]. unfold osdp_pd_internal_dequeue_event. m_run. rewrite Hb.
  apply Forall_cons_1 in He as [He Hes]. pose proof (length_event_record e) as Hlen.
  change (queue_bytes (e :: q)) with (event_record e ++ queue_bytes q) in *.
  rewrite length_app in Hl, Hm. rewrite <-app_assoc in *. cbn [is_null orb].
  rewrite bool_decide_eq_false_2 by (unfold EVENT_HEADER_BYTES in *; lia).
  destruct (event_header_reads e (queue_bytes q ++ m) He) as (b0 & b1 & R0 & R1 & R2 & Hn).
  rewrite (run_lift _ _ _ _ _ R0), (run_lift _ _ _ _ _ R1), (run_lift _ _ _ _ _ R2).
  cbv zeta. rewrite Hn, <-Hlen. rewrite decide_False by lia.
  destruct (decide (OSDP_PD_REPLY_SCRATCH_LEN < length e.2)) as [Hbig|Hfit].
  { destruct (compact_rep c w e q m) as (b & n & Hc & Hrep); try done.
    rewrite (run_bind _ _ _ _ _ _ _ Hc). m_run. rewrite !(decide_False (P := _ ≤ _)) by lia.
    exists None, b, n, (pd_reply_scratch c). split_and!; [reflexivity|exact Hrep|done| |done]. by rewrite decide_False by lia. }
  rewrite !(decide_True (P := _ ≤ _)) by lia.
  destruct (decide (0 < length e.2)) as [Hpos|H0].
  - m_run.
    rewrite (run_lift _ e.2).
    2: apply event_payload_read.
    m_run. rewrite (run_lift _ (e.2 ++ drop (length e.2) (pd_reply_scratch c))) by (apply mwr_0; lia).
    m_run.
    destruct (compact_rep (c <| pd_reply_scratch := e.2 ++ drop (length e.2) (pd_reply_scratch c) |>)
      w e q m) as (b & n & Hc & Hrep); read_set; try done; [solve_len|].
    rewrite (run_bind _ _ _ _ _ _ _ Hc). m_run.
    exists (Some (mk_reply e.1 (Ptr (e.2 ++ drop (length e.2) (pd_reply_scratch c))) (length e.2))), b, n,
      (e.2 ++ drop (length e.2) (pd_reply_scratch c)).
    split_and!; [reflexivity|exact Hrep| |by rewrite decide_True by lia|].
    + intros Hsb. destruct He as (_ & He & _). apply Forall_app. split; [done|by apply Forall_drop].
    + cbn [fmap option_fmap option_map]. unfold reply_event. simpl. rewrite take_app_length. by destruct e.
  - m_run. destruct (compact_rep c w e q m) as (b & n & Hc & Hrep); try done.
    rewrite (run_bind _ _ _ _ _ _ _ Hc). m_run.
    exists (Some (mk_reply e.1 NULL (length e.2))), b, n, (pd_reply_scratch c).
    split_and!; [reflexivity|exact Hrep|done|by rewrite decide_True by lia|]. cbn [fmap option_fmap option_map].
    unfold reply_event. simpl. destruct e as [? []]; simpl in *; [done|lia].
Qed.

Lemma op_refines {W} (c : osdp_pd W) w q o :
  queue_rep c q → event_op_ok o →
  ∃ c', run_op c w o = Some (polled (fifo_op (pd_event_cap c) q o).1, c', w) ∧
    queue_rep c' (fifo_op (pd_event_cap c) q o).2 ∧ pd_event_cap c' = pd_event_cap c.
Proof.
  intros Hq Ho. destruct o as [code payload len| |].
  - apply enqueue_refines; [done|apply Ho..].
  - destruct q as [|e q].
    + exists c. split; [|done]. destruct Hq as [(m & Hb & _) Hl _ _ _].
      unfold run_op, osdp_pd_internal_dequeue_event. m_run. rewrite Hb, Hl. done.
    + destruct (dequeue_ok c w e q Hq) as (r & b & n & s & Hd & Hrep & _ & _ & Hr). eexists.
      unfold run_op. rewrite Hd, bind_Some, Hr. split_and!; done.
  - eexists. split; [reflexivity|]. split; [|done].
    destruct Hq as [(m & Hb & Hm) Hl Hcap He Hs]. constructor; read_set; [|done|lia|constructor|done].
    exists (queue_bytes q ++ m). split; [done|]. simpl. rewrite length_app. lia.
Qed.

Lemma ops_refine {W} (c : osdp_pd W) w q os :
  queue_rep c q → Forall event_op_ok os →
  ∃ c', run_ops c w os = Some (polled <$> (fifo_ops (pd_event_cap c) q os).1, c', w) ∧
    queue_rep c' (fifo_ops (pd_event_cap c) q os).2.
Proof.
  intros Hq Hos. revert c q Hq. induction Hos as [|o os Ho _ IH]; intros c q Hq; [by exists c|].
  destruct (op_refines c w q o Hq Ho) as (c1 & H1 & Hq1 & Hcap). cbn [run_ops fifo_ops].
  rewrite H1, bind_Some. destruct (fifo_op (pd_event_cap c) q o) as [x q1] eqn:E.
  destruct (IH c1 q1 Hq1) as (c2 & H2 & Hq2). cbn [fst]. rewrite H2, bind_Some, <-Hcap.
  exists c2. by destruct (fifo_ops (pd_event_cap c1) q1 os).
Qed.

(** Events that fit the scratch are never dropped. *)
Lemma fifo_op_deliverable cap q o :
  Forall deliverable q → event_op_ok o → op_deliverable o →
  polled (fifo_op cap q o).1 = (fifo_op cap q o).1 ∧ Forall deliverable (fifo_op cap q o).2.
Proof.
  intros Hq Ho Hd. destruct o as [code payload len| |]; cbn [fifo_op].
  - case_decide as Hbad; [done|]. case_decide; [|done]. split; [done|]. apply Forall_app. split; [done|].
    apply Forall_singleton. unfold deliverable. cbn [snd]. rewrite length_view; [done|apply Ho|].
    intros ? ->. apply Hbad. by left.
  - destruct Hq as [|e q He Hq]; [done|]. cbn. by rewrite decide_True.
  - done.
Qed.

Lemma fifo_ops_deliverable cap q os :
  Forall deliverable q → Forall event_op_ok os → Forall op_deliverable os →
  polled <$> (fifo_ops cap q os).1 = (fifo_ops cap q os).1.
Proof.
  intros Hq Hos. revert q Hq. induction Hos as [|o os Ho _ IH]; intros q Hq Hd; [done|].
  apply Forall_cons_1 in Hd as [Hd Hds].
  destruct (fifo_op_deliverable cap q o Hq Ho Hd) as [Hx Hq1]. cbn [fifo_ops].
  destruct (fifo_op cap q o) as [x q1]. specialize (IH q1 Hq1 Hds).
  destruct (fifo_ops cap q1 os). cbn [fst snd] in *. rewrite fmap_cons. by f_equal.
Qed.

(** ** Properties *)

(** C31: the length-prefixed, compacting event queue of the PD against a plain
    first-in first-out list.  For every sequence of enqueue, poll and clear
    operations the code is defined, its queue always holds exactly the events of
    the list, and an event is accepted if and only if it is representable and its
    record fits the free bytes.  When every payload fits the 64-byte reply
    scratch, the answers are exactly those of the list: events come out whole and
    in order, one per poll.  A larger event, which the enqueue accepts with
    [OSDP_OK], is the one exception: the poll that reaches it removes it and is
    given nothing, so the event is lost. *)
Theorem event_queue_refines_fifo {W} (c : osdp_pd W) w q os :
  queue_rep c q → Forall event_op_ok os →
  ∃ c', let '(answers, q') := fifo_ops (pd_event_cap c) q os in
    run_ops c w os = Some (polled <$> answers, c', w) ∧ queue_rep c' q' ∧
    (Forall deliverable q → Forall op_deliverable os → run_ops c w os = Some (answers, c', w)).
Proof.
  intros Hq Hos. destruct (ops_refine c w q os Hq Hos) as (c' & H & Hq'). exists c'.
  pose proof (fifo_ops_deliverable (pd_event_cap c) q os) as Hd.
  destruct (fifo_ops (pd_event_cap c) q os) as [answers q']. split_and!; [done|done|].
  intros Hdq Hdo. rewrite H. by rewrite Hd.
Qed.

(** A fresh queue holds nothing. *)
Lemma set_event_queue_rep {W} (c : osdp_pd W) m cap :
  cap ≤ length m → length (pd_reply_scratch c) = OSDP_PD_REPLY_SCRATCH_LEN →
  ∃ c', osdp_pd_set_event_queue (Some c) (Ptr m) cap = Some c' ∧ queue_rep c' [] ∧ pd_event_cap c' = cap.
Proof.
  intros Hm Hs. eexists. split; [reflexivity|]. split; [|done].
  constructor; read_set; [|done|simpl; lia|constructor|done]. exists m. done.
Qed.

(** An enqueued card read that is too long for the scratch is accepted, then
    dropped by the poll; the next event follows. *)
Lemma event_queue_refines_fifo_witness :
  let c := default pd_zero (osdp_pd_set_event_queue (Some (pd_zero (W := unit)))
             (Ptr (replicate 80 0%Z)) 80) in
  let os := [Enqueue 0x50 (Ptr (replicate 65 7%Z)) 65; Enqueue 0x53 (Ptr [1; 2]%Z) 2; Poll; Poll; Poll] in
  ∃ c', run_ops c tt os =
    Some ([Status OSDP_OK; Status OSDP_OK; Reply None; Reply (Some (0x53%Z, [1; 2]%Z)); Reply None], c', tt).
Proof.
  intros c os.
  destruct (event_queue_refines_fifo c tt [] os) as (c' & H & _).
  - constructor; [|done|vm_compute; lia|constructor|reflexivity]. exists (replicate 80 0%Z). split; [reflexivity|vm_compute; lia].
  - repeat constructor; try vm_decide; simpl; lia.
  - exists c'. exact H.
Defined.
