(* ===== verification/PdPdcap.v ===== *)
(** * Capability reports of the PD: pd_pdcap.c

    The advisory check, the template, binding a record set and reading it
    back, with the library-computed records and the sort.  The sort is the
    code's in-place insertion sort; what a PD reports is a sorted permutation
    of the computed and the bound records. *)
From Stdlib Require Import Sorted Permutation.
From S2P Require Import Prelude Types State Frame Stream Records Multipart ScCrypto ScFrame PdTypes.

(** pd_sc.c: enough configuration to attempt a handshake. *)
Definition osdp_pd_internal_sc_configured {W} (pd : option (osdp_pd W)) : bool :=
  match pd with
  | None => false
  | Some c =>
      if negb (sc_crypto_set (pd_sc c)) || negb (sc_cuid_set (pd_sc c)) then false
      else sc_scbk_set (pd_sc c) || sc_scbk_d_set (pd_sc c)
  end.

Definition PDCAP_FN_CHECK_CHARACTER : Z := 8.
Definition PDCAP_FN_COMMUNICATION_SECURITY : Z := 9.
Definition PDCAP_FN_RECEIVE_BUFFER_SIZE : Z := 10.
Definition PDCAP_FN_LARGEST_COMBINED_MSG : Z := 11.
Definition PDCAP_SEC_AES128 : Z := 1.

Definition record_size_value (r : osdp_pdcap_record) : Z :=
  u16 (Z.lor (pc_compliance_level r) (Z.shiftl (pc_num_objects r) 8)).

Definition check_shape : osdp_frame :=
  mk_frame 0 false 0 OSDP_INTEGRITY_CRC true (Z.of_nat OSDP_SCB_MIN_LEN) OSDP_SCS_17
    NULL 0 0 NULL 0 NULL 0 NULL 0.

(** The verdict on one record; on an error the caller stores its index. *)
Definition check_record {W} (c : osdp_pd W) (sc_ready : bool) (r : osdp_pdcap_record) : osdp_status :=
  if decide (pc_function_code r = PDCAP_FN_COMMUNICATION_SECURITY) then
    if decide (Z.land (pc_compliance_level r) PDCAP_SEC_AES128 ≠ 0%Z ∧ sc_ready = false)
    then OSDP_ERR_NOT_SUPPORTED else OSDP_OK
  else if decide (pc_function_code r = PDCAP_FN_RECEIVE_BUFFER_SIZE) then
    let advertised := Z.to_nat (record_size_value r) in
    if decide (OSDP_STREAM_BUFFER_LEN < advertised) then OSDP_ERR_BUFFER_TOO_SMALL else
    if sc_ready then
      match osdp_sc_max_payload (Some check_shape) advertised (Some 0) with
      | (OSDP_OK, Some plaintext) =>
          if decide (pd_rx_plain_cap c < plaintext) then OSDP_ERR_BUFFER_TOO_SMALL else OSDP_OK
      | _ => OSDP_OK
      end
    else OSDP_OK
  else if decide (pc_function_code r = PDCAP_FN_LARGEST_COMBINED_MSG) then
    let advertised := Z.to_nat (record_size_value r) in
    if decide (advertised = 0) then OSDP_OK else
    if is_null (mr_buf (pd_mfg_reasm c)) then OSDP_ERR_NOT_SUPPORTED else
    if decide (mr_cap (pd_mfg_reasm c) < advertised) then OSDP_ERR_BUFFER_TOO_SMALL else OSDP_OK
  else OSDP_OK.

(** [*bad_index = i] unless the pointer is null. *)
Definition store_index (bad_index : option nat) (i : nat) : option nat := (λ _, i) <$> bad_index.

(** [for (i = 0; i < count; i++)] with a verdict per record: the first error
    is returned with its index. *)
Fixpoint first_bad (verdict : osdp_pdcap_record → osdp_status) (records : list osdp_pdcap_record)
    (i n : nat) (bad_index : option nat) : option (osdp_status * option nat) :=
  match n with
  | O => Some (OSDP_OK, bad_index)
  | S n =>
      r ← records !! i;
      if decide (verdict r = OSDP_OK) then first_bad verdict records (S i) n bad_index
      else Some (verdict r, store_index bad_index i)
  end.

Definition osdp_pd_check_pdcap {W} (pd : option (osdp_pd W)) (records : option (list osdp_pdcap_record))
    (count : nat) (bad_index : option nat) : option (osdp_status * option nat) :=
  match pd with
  | None => Some (OSDP_ERR_INVALID_ARG, bad_index)
  | Some c =>
      if decide (0 < count ∧ records = None) then Some (OSDP_ERR_INVALID_ARG, bad_index) else
      first_bad (check_record c (osdp_pd_internal_sc_configured pd)) (default [] records) 0 count
        (store_index bad_index 0)
  end.

Definition is_reserved_pdcap_fn (function_code : Z) : bool :=
  bool_decide (function_code = PDCAP_FN_CHECK_CHARACTER ∨
               function_code = PDCAP_FN_COMMUNICATION_SECURITY ∨
               function_code = PDCAP_FN_RECEIVE_BUFFER_SIZE).

Definition k_pdcap_template_secure_reader : list osdp_pdcap_record :=
  [mk_pdcap 3 1 0; mk_pdcap 4 4 1; mk_pdcap 5 2 1; mk_pdcap 11 0xFF 0xFF; mk_pdcap 13 0 1;
   mk_pdcap 16 4 0].

Definition OSDP_PDCAP_TEMPLATE_SECURE_READER : Z := 0.

(** [memcpy] of records to the front of an array. *)
Definition copy_records (dst src : list osdp_pdcap_record) (off n : nat) : option (list osdp_pdcap_record) :=
  if decide (n ≤ length src ∧ off + n ≤ length dst)
  then Some (take off dst ++ take n src ++ drop (off + n) dst) else None.

Definition osdp_pd_pdcap_template (template : Z) (out : option (list osdp_pdcap_record)) (cap : nat)
    (count : option nat) : option (osdp_status * option (list osdp_pdcap_record) * option nat) :=
  match out, count with
  | Some o, Some _ =>
      if decide (template ≠ OSDP_PDCAP_TEMPLATE_SECURE_READER) then Some (OSDP_ERR_INVALID_ARG, out, count) else
      let n := length k_pdcap_template_secure_reader in
      if decide (cap < n) then Some (OSDP_ERR_BUFFER_TOO_SMALL, out, count) else
      o ← copy_records o k_pdcap_template_secure_reader 0 n;
      Some (OSDP_OK, Some o, Some n)
  | _, _ => Some (OSDP_ERR_INVALID_ARG, out, count)
  end.

(** The first loop of [osdp_pd_set_pdcap]: reserved codes and the catalog. *)
Definition bindable (r : osdp_pdcap_record) : osdp_status :=
  if is_reserved_pdcap_fn (pc_function_code r) then OSDP_ERR_INVALID_ARG
  else osdp_pdcap_validate_record (Some r).

Definition osdp_pd_set_pdcap {W} (pd : option (osdp_pd W)) (records : option (list osdp_pdcap_record))
    (count : nat) (bad_index : option nat) : option (osdp_status * option (osdp_pd W) * option nat) :=
  let bad_index := store_index bad_index 0 in
  match pd with
  | None => Some (OSDP_ERR_INVALID_ARG, None, bad_index)
  | Some c =>
      if decide (0 < count ∧ records = None) then Some (OSDP_ERR_INVALID_ARG, pd, bad_index) else
      if decide (OSDP_PD_MAX_PDCAP_RECORDS < count) then Some (OSDP_ERR_BUFFER_TOO_SMALL, pd, bad_index) else
      '(s, bad_index) ← first_bad bindable (default [] records) 0 count bad_index;
      if decide (s ≠ OSDP_OK) then Some (s, pd, bad_index) else
      '(s, bad_index) ← osdp_pd_check_pdcap pd records count bad_index;
      if decide (s ≠ OSDP_OK) then Some (s, pd, bad_index) else
      rs ← (if decide (0 < count) then copy_records (pd_pdcap_records c) (default [] records) 0 count
            else Some (pd_pdcap_records c));
      Some (OSDP_OK, Some (c <| pd_pdcap_records := rs |> <| pd_pdcap_count := count |>), bad_index)
  end.

(** The three computed records. *)
Definition reserved_pdcap {W} (c : osdp_pd W) : list osdp_pdcap_record :=
  let rx_cap := if decide (OSDP_STREAM_BUFFER_LEN < pd_rx_plain_cap c) then OSDP_STREAM_BUFFER_LEN
                else pd_rx_plain_cap c in
  [mk_pdcap PDCAP_FN_CHECK_CHARACTER 1 0;
   mk_pdcap PDCAP_FN_COMMUNICATION_SECURITY PDCAP_SEC_AES128 (if sc_scbk_set (pd_sc c) then 0 else 1);
   mk_pdcap PDCAP_FN_RECEIVE_BUFFER_SIZE (Z.land (Z.of_nat rx_cap) 0xFF)
     (Z.land (Z.shiftr (Z.of_nat rx_cap) 8) 0xFF)].

Definition osdp_pd_internal_fill_reserved_pdcap {W} (c : osdp_pd W) (out : list osdp_pdcap_record)
  : option (list osdp_pdcap_record) :=
  copy_records out (reserved_pdcap c) 0 OSDP_PDCAP_RESERVED_COUNT.

(** The inner [while] of the insertion sort, from [j] down. *)
Fixpoint sort_shift (records : list osdp_pdcap_record) (key : osdp_pdcap_record) (j : nat)
  : option (list osdp_pdcap_record * nat) :=
  match j with
  | O => Some (records, O)
  | S j' =>
      r ← records !! j';
      if decide (pc_function_code key < pc_function_code r)%Z then
        records ← arr_set records j r;
        sort_shift records key j'
      else Some (records, j)
  end.

Definition osdp_pd_internal_sort_pdcap (records : list osdp_pdcap_record) (count : nat)
  : option (list osdp_pdcap_record) :=
  for_loop (λ i records,
      key ← records !! i;
      '(records, j) ← sort_shift records key i;
      arr_set records j key)
    1 (count - 1) records.

(** The records of a reply: computed ones, then the bound ones, sorted. *)
Definition gather_pdcap {W} (c : osdp_pd W) (out : list osdp_pdcap_record)
  : option (list osdp_pdcap_record * nat) :=
  out ← osdp_pd_internal_fill_reserved_pdcap c out;
  out ← copy_records out (pd_pdcap_records c) OSDP_PDCAP_RESERVED_COUNT (pd_pdcap_count c);
  let total := OSDP_PDCAP_RESERVED_COUNT + pd_pdcap_count c in
  out ← osdp_pd_internal_sort_pdcap out total;
  Some (out, total).

Definition osdp_pd_get_pdcap {W} (pd : option (osdp_pd W)) (out : option (list osdp_pdcap_record))
    (cap : nat) (count : option nat)
  : option (osdp_status * option (list osdp_pdcap_record) * option nat) :=
  match pd, out, count with
  | Some c, Some o, Some _ =>
      if decide (pd_pdcap_count c = 0) then Some (OSDP_OK, out, Some 0) else
      let total := OSDP_PDCAP_RESERVED_COUNT + pd_pdcap_count c in
      if decide (cap < total) then Some (OSDP_ERR_BUFFER_TOO_SMALL, out, count) else
      '(o, total) ← gather_pdcap c o;
      Some (OSDP_OK, Some o, Some total)
  | _, _, _ => Some (OSDP_ERR_INVALID_ARG, out, count)
  end.

(** ** The insertion sort *)

Definition code_le (a b : osdp_pdcap_record) : Prop := (pc_function_code a ≤ pc_function_code b)%Z.

Notation fn_sorted := (StronglySorted code_le).

(** Inserting [x] into a sorted list, after its equals. *)
Fixpoint insert_code (x : osdp_pdcap_record) (l : list osdp_pdcap_record) : list osdp_pdcap_record :=
  match l with
  | [] => [x]
  | y :: l => if decide (pc_function_code x < pc_function_code y)%Z then x :: y :: l
              else y :: insert_code x l
  end.

Lemma insert_code_perm x l : insert_code x l ≡ₚ x :: l.
Proof.
  induction l as [|y l IH]; [done|]. simpl. case_decide; [done|]. rewrite IH. by rewrite Permutation_swap.
Qed.

Lemma insert_code_sorted x l : fn_sorted l → fn_sorted (insert_code x l).
Proof.
  induction 1 as [|y l Hl IH Hy]; simpl; [by repeat constructor|]. case_decide as Hlt.
  - constructor; [by constructor|]. constructor; [unfold code_le; lia|].
    eapply Forall_impl; [|exact Hy]. unfold code_le. intros. simpl in *. lia.
  - constructor; [done|]. rewrite insert_code_perm. constructor; [unfold code_le; lia|done].
Qed.

(** Behind an element with a smaller or equal code nothing moves. *)
Lemma insert_code_app_ge x l y l' :
  fn_sorted (l ++ [y]) → (pc_function_code y ≤ pc_function_code x)%Z →
  insert_code x (l ++ y :: l') = l ++ y :: insert_code x l'.
Proof.
  intros Hs Hy. induction l as [|z l IH]; simpl.
  - by rewrite decide_False by lia.
  - simpl in Hs. apply StronglySorted_inv in Hs as [Hs Hz].
    apply Forall_app in Hz as [_ Hz]. apply Forall_cons_1 in Hz as [Hz _]. unfold code_le in Hz.
    rewrite decide_False by lia. by rewrite IH.
Qed.

Lemma insert_code_all_gt x l :
  Forall (λ y, (pc_function_code x < pc_function_code y)%Z) l → insert_code x l = x :: l.
Proof. intros H. destruct l; [done|]. apply Forall_cons_1 in H as [? _]. simpl. by rewrite decide_True. Qed.

Lemma insert_code_snoc_lt x l y :
  (pc_function_code x < pc_function_code y)%Z → insert_code x (l ++ [y]) = insert_code x l ++ [y].
Proof.
  intros. induction l as [|z l IH]; simpl; [by rewrite decide_True|]. case_decide; [done|]. by rewrite IH.
Qed.

Lemma sorted_app_l l l' : fn_sorted (l ++ l') → fn_sorted l.
Proof.
  induction l as [|x l IH]; [constructor|]. simpl. intros [? Hf]%StronglySorted_inv.
  apply Forall_app in Hf as [? _]. constructor; auto.
Qed.

(** The shifting loop: [gt] are the larger elements already moved one place up. *)
Lemma sort_shift_ok l hole gt rest key :
  fn_sorted l → Forall (λ y, (pc_function_code key < pc_function_code y)%Z) gt →
  ∃ records j, sort_shift (l ++ hole :: gt ++ rest) key (length l) = Some (records, j) ∧
    arr_set records j key = Some (insert_code key l ++ gt ++ rest).
Proof.
  revert hole gt. induction l as [|y l IH] using rev_ind; intros hole gt Hs Hgt.
  - eexists _, _. split; [reflexivity|]. unfold arr_set. rewrite decide_True by (simpl; lia). done.
  - rewrite length_app, Nat.add_comm. cbn [length Nat.add sort_shift].
    rewrite <-app_assoc. cbn [app]. rewrite list_lookup_middle by done. cbn [mbind option_bind].
    destruct (decide (pc_function_code key < pc_function_code y)%Z) as [Hlt|Hge].
    + unfold arr_set at 1. rewrite decide_True by (rewrite length_app; simpl; lia).
      cbn [mbind option_bind]. rewrite insert_app_r_alt by lia.
      replace (S (length l) - length l) with 1 by lia. cbn [insert list_insert].
      destruct (IH y (y :: gt)) as (records & j & Hsh & Hset); [by eapply sorted_app_l|by constructor|].
      exists records, j. split; [exact Hsh|]. rewrite Hset, insert_code_snoc_lt by done.
      by rewrite <-app_assoc.
    + eexists _, _. split; [reflexivity|]. unfold arr_set.
      rewrite decide_True by (rewrite length_app; simpl; lia).
      rewrite insert_app_r_alt by lia. replace (S (length l) - length l) with 1 by lia.
      cbn [insert list_insert]. rewrite insert_code_app_ge by (done || lia). by rewrite <-app_assoc.
Qed.

(** Sorting is inserting one record after the other. *)
Lemma sort_loop_ok l rest n :
  n ≤ length rest → fn_sorted l →
  ∃ l', for_loop (λ i records,
      key ← records !! i;
      '(records, j) ← sort_shift records key i;
      arr_set records j key) (length l) n (l ++ rest) = Some (l' ++ drop n rest) ∧
    fn_sorted l' ∧ l' ≡ₚ l ++ take n rest.
Proof.
  revert l rest. induction n as [|n IH]; intros l rest Hn Hs.
  { exists l. rewrite drop_0, take_0, app_nil_r. done. }
  destruct rest as [|key rest]; [simpl in Hn; lia|]. rewrite for_loop_S.
  rewrite list_lookup_middle by done. rewrite bind_Some.
  destruct (sort_shift_ok l key [] rest key Hs ltac:(constructor)) as (records & j & Hsh & Hset).
  cbn [app] in Hsh, Hset. rewrite Hsh, bind_Some, Hset, bind_Some.
  replace (S (length l)) with (length (insert_code key l)) by (by rewrite insert_code_perm).
  destruct (IH (insert_code key l) rest) as (l' & Hl' & Hs' & Hp');
    [simpl in Hn; lia|by apply insert_code_sorted|].
  exists l'. split; [exact Hl'|]. split; [done|]. rewrite Hp', insert_code_perm. simpl.
  by rewrite Permutation_middle.
Qed.

Lemma sort_pdcap_ok l n :
  n ≤ length l →
  ∃ l', osdp_pd_internal_sort_pdcap l n = Some (l' ++ drop n l) ∧ fn_sorted l' ∧ l' ≡ₚ take n l.
Proof.
  intros Hn. unfold osdp_pd_internal_sort_pdcap. destruct n as [|n].
  { exists []. rewrite drop_0. split_and!; [done|constructor|done]. }
  destruct l as [|x l]; [simpl in Hn; lia|].
  destruct (sort_loop_ok [x] l n) as (l' & Hl' & Hs & Hp); [simpl in Hn; lia|by repeat constructor|].
  exists l'. replace (S n - 1) with n by lia. split; [exact Hl'|]. split; [done|]. by rewrite Hp.
Qed.

(** ** What the PD reports *)

(** The bound records of a context. *)
Definition bound_pdcap {W} (c : osdp_pd W) : list osdp_pdcap_record :=
  take (pd_pdcap_count c) (pd_pdcap_records c).

(** The array is the C array, and what is bound passed the checks. *)
Record pdcap_inv {W} (c : osdp_pd W) : Prop := {
  pv_len : length (pd_pdcap_records c) = OSDP_PD_MAX_PDCAP_RECORDS;
  pv_count : pd_pdcap_count c ≤ OSDP_PD_MAX_PDCAP_RECORDS;
  pv_bound : Forall (λ r, bindable r = OSDP_OK) (bound_pdcap c) }.

Lemma copy_records_front src rest n :
  n ≤ length src → n ≤ length rest → copy_records rest src 0 n = Some (take n src ++ drop n rest).
Proof. intros. unfold copy_records. rewrite decide_True by (simpl; lia). done. Qed.

Lemma copy_records_next pre rest src n :
  n ≤ length src → n ≤ length rest →
  copy_records (pre ++ rest) src (length pre) n = Some ((pre ++ take n src) ++ drop n rest).
Proof.
  intros. unfold copy_records. rewrite decide_True by (rewrite length_app; lia).
  rewrite take_app_length, <-drop_drop, drop_app_length. by rewrite app_assoc.
Qed.

Lemma gather_ok {W} (c : osdp_pd W) out :
  pdcap_inv c → OSDP_PDCAP_RESERVED_COUNT + pd_pdcap_count c ≤ length out →
  ∃ rs, gather_pdcap c out =
      Some (rs ++ drop (OSDP_PDCAP_RESERVED_COUNT + pd_pdcap_count c) out,
            OSDP_PDCAP_RESERVED_COUNT + pd_pdcap_count c) ∧
    fn_sorted rs ∧ rs ≡ₚ reserved_pdcap c ++ bound_pdcap c.
Proof.
  intros [Hl Hc _] Ho. unfold gather_pdcap, osdp_pd_internal_fill_reserved_pdcap.
  unfold OSDP_PDCAP_RESERVED_COUNT in *.
  rewrite copy_records_front by (simpl; lia). rewrite bind_Some.
  change (take 3 (reserved_pdcap c)) with (reserved_pdcap c).
  rewrite (copy_records_next (reserved_pdcap c)) by (rewrite ?length_drop; lia). rewrite bind_Some.
  rewrite drop_drop. fold (bound_pdcap c).
  assert (length (reserved_pdcap c ++ bound_pdcap c) = 3 + pd_pdcap_count c) as Hn.
  { rewrite length_app. unfold bound_pdcap. rewrite length_take. simpl. lia. }
  edestruct (sort_pdcap_ok ((reserved_pdcap c ++ bound_pdcap c) ++ drop (3 + pd_pdcap_count c) out)
    (3 + pd_pdcap_count c)) as (rs & -> & Hs & Hp); [rewrite length_app; lia|].
  rewrite bind_Some. exists rs. rewrite drop_app_length' by done.
  split; [done|]. split; [done|]. by rewrite Hp, take_app_length' by done.
Qed.

Lemma first_bad_ok verdict rs i n bad :
  i + n ≤ length rs →
  ∃ s bad', first_bad verdict rs i n bad = Some (s, bad') ∧
    (s = OSDP_OK → bad' = bad ∧ Forall (λ r, verdict r = OSDP_OK) (take n (drop i rs))).
Proof.
  revert i. induction n as [|n IH]; intros i Hn; simpl.
  { eexists _, _. split; [done|]. intros _. split; [done|]. by rewrite take_0. }
  destruct (lookup_lt_is_Some_2 rs i) as [r Hr]; [lia|]. rewrite Hr. cbn [mbind option_bind].
  case_decide as Hv.
  - destruct (IH (S i)) as (s & bad' & -> & Hok); [lia|]. eexists _, _. split; [done|].
    intros Hs. destruct (Hok Hs) as [-> ?]. split; [done|]. rewrite (drop_S rs r i Hr). simpl.
    by constructor.
  - eexists _, _. split; [done|]. intros. done.
Qed.

Lemma check_pdcap_run {W} (c : osdp_pd W) rs count bad :
  osdp_pd_check_pdcap (Some c) (Some rs) count bad =
    first_bad (check_record c (osdp_pd_internal_sc_configured (Some c))) rs 0 count (store_index bad 0).
Proof. unfold osdp_pd_check_pdcap. rewrite decide_False by (intros [_ ?]; done). done. Qed.

(** A rejected set changes nothing; an accepted one is what is bound. *)
Lemma set_pdcap_ok {W} (c : osdp_pd W) rs count bad :
  pdcap_inv c → count ≤ length rs →
  ∃ s c' bad', osdp_pd_set_pdcap (Some c) (Some rs) count bad = Some (s, Some c', bad') ∧ pdcap_inv c' ∧
    (s ≠ OSDP_OK → c' = c) ∧
    (s = OSDP_OK → bound_pdcap c' = take count rs ∧ pd_pdcap_count c' = count ∧
       reserved_pdcap c' = reserved_pdcap c ∧ Forall (λ r, bindable r = OSDP_OK) (take count rs)).
Proof.
  intros Hi Hn. pose proof Hi as [Hl Hc Hb]. unfold osdp_pd_set_pdcap. cbv zeta.
  rewrite decide_False by (intros [_ ?]; done).
  case_decide as Hbig; [by eexists _, c, _; split_and!|]. cbn [default from_option id].
  destruct (first_bad_ok bindable rs 0 count (store_index bad 0)) as (s1 & bad1 & -> & H1); [lia|].
  rewrite bind_Some. case_decide as Hs1; [by eexists _, c, _; split_and!|].
  destruct (H1 Hs1) as [_ Hok]. rewrite drop_0 in Hok.
  rewrite check_pdcap_run.
  edestruct (first_bad_ok (check_record c (osdp_pd_internal_sc_configured (Some c))) rs 0 count)
    as (s2 & bad2 & -> & _); [lia|].
  rewrite bind_Some. case_decide as Hs2; [by eexists _, c, _; split_and!|].
  unfold OSDP_PD_MAX_PDCAP_RECORDS in *.
  assert (∃ rs', (if decide (0 < count) then copy_records (pd_pdcap_records c) rs 0 count
     else Some (pd_pdcap_records c)) = Some rs' ∧ length rs' = 13 ∧ take count rs' = take count rs)
    as (rs' & -> & Hl' & Ht').
  { case_decide.
    - rewrite copy_records_front by lia. eexists. split; [done|]. split; [solve_len|].
      by rewrite take_app_length' by solve_len.
    - exists (pd_pdcap_records c). assert (count = 0) as -> by lia. done. }
  rewrite bind_Some. eexists _, _, _. split; [done|].
  assert (bound_pdcap (c <| pd_pdcap_records := rs' |> <| pd_pdcap_count := count |>) = take count rs)
    as Hbd by exact Ht'.
  split; [constructor; [done|exact (not_lt _ _ Hbig)|by rewrite Hbd]|].
  split; [done|]. intros _. split_and!; done.
Qed.

Lemma bindable_not_reserved r : bindable r = OSDP_OK → is_reserved_pdcap_fn (pc_function_code r) = false.
Proof. unfold bindable. by destruct (is_reserved_pdcap_fn _). Qed.
