(* ===== verification/PdBanks.v ===== *)
(** * Reader LED and buzzer banks of the PD (pd.c)

    osdp_LED and osdp_BUZ commands are folded into fixed banks of slots, keyed
    by reader and LED number (LEDs) or by reader (buzzers).  A slot pointer is
    its index.  The specification of a bank is a finite map from keys to
    indicator states; an osdp_LED command is applied whole or not at all. *)
From stdpp Require Import gmap.
From S2P Require Import Prelude Types State Commands Records Indicators Dispatch ScFrame PdTypes.

Section ops.
Context {W : Type}.

(** [pd->transport.now_ms], time 0 without a clock. *)
Definition pd_now_ms : PD W Z :=
  t ← gets pd_transport;
  match tr_now_ms t with
  | Some now_ms => host now_ms
  | None => mret 0%Z
  end.

(** ** LEDs *)

Definition led_slot_is (reader_no led_no : Z) (s : osdp_pd_led_slot) : Prop :=
  sl_used s = true ∧ sl_reader_no s = reader_no ∧ sl_led_no s = led_no.

#[export] Instance led_slot_is_dec r l s : Decision (led_slot_is r l s).
Proof. unfold led_slot_is. apply _. Defined.

Definition pd_led_slot_find (c : osdp_pd W) (reader_no led_no : Z) : option nat :=
  fst <$> list_find (led_slot_is reader_no led_no) (pd_leds c).

Definition pd_led_slots_free (c : osdp_pd W) : nat :=
  length (filter (λ s, sl_used s = false) (pd_leds c)).

(** The slot of an LED, claimed on first sighting. *)
Definition pd_led_slot (reader_no led_no : Z) : PD W (option nat) :=
  c ← gets id;
  match pd_led_slot_find c reader_no led_no with
  | Some i => mret (Some i)
  | None =>
      match list_find (λ s, sl_used s = false) (pd_leds c) with
      | Some (i, s) =>
          st ← lift (osdp_led_init (Some (sl_state s)));
          pd_leds ::= <[i := mk_led_slot true reader_no led_no OSDP_LED_BLACK st]> (pd_leds c);;
          mret (Some i)
      | None => mret None
      end
  end.

(** One slot of the refresh loop. *)
Definition led_refresh_slot (led_cb : osdp_pd_led_cb W) (now : Z) (i : nat) : PD W unit :=
  leds ← gets pd_leds;
  s ← lift (leds !! i);
  if negb (sl_used s) then mret tt else
  let color := osdp_led_color (Some (sl_state s)) now in
  if decide (color ≠ sl_last_color s) then
    pd_leds ::= <[i := mk_led_slot (sl_used s) (sl_reader_no s) (sl_led_no s) color (sl_state s)]> leds;;
    host_ (led_cb (sl_reader_no s) (sl_led_no s) color)
  else mret tt.

Definition pd_led_refresh (now : Z) : PD W unit :=
  cb ← gets pd_led_cb;
  match cb with
  | None => mret tt
  | Some led_cb => for_m (led_refresh_slot led_cb now) 0 OSDP_PD_MAX_LEDS
  end.

(** ** Buzzers *)

Definition buz_slot_is (reader_no : Z) (s : osdp_pd_buz_slot) : Prop :=
  sb_used s = true ∧ sb_reader_no s = reader_no.

#[export] Instance buz_slot_is_dec r s : Decision (buz_slot_is r s).
Proof. unfold buz_slot_is. apply _. Defined.

(** The one pass of the code: the first match, else the first free slot. *)
Definition pd_buz_slot (reader_no : Z) : PD W (option nat) :=
  buzzers ← gets pd_buzzers;
  match list_find (buz_slot_is reader_no) buzzers with
  | Some (i, _) => mret (Some i)
  | None =>
      match list_find (λ s, sb_used s = false) buzzers with
      | Some (i, s) =>
          st ← lift (osdp_buz_init (Some (sb_state s)));
          pd_buzzers ::= <[i := mk_buz_slot true reader_no false st]> buzzers;;
          mret (Some i)
      | None => mret None
      end
  end.

Definition buz_refresh_slot (buzzer_cb : osdp_pd_buzzer_cb W) (now : Z) (i : nat) : PD W unit :=
  buzzers ← gets pd_buzzers;
  s ← lift (buzzers !! i);
  if negb (sb_used s) then mret tt else
  let sounding := osdp_buz_sounding (Some (sb_state s)) now in
  if decide (sounding ≠ sb_last_sounding s) then
    pd_buzzers ::= <[i := mk_buz_slot (sb_used s) (sb_reader_no s) sounding (sb_state s)]> buzzers;;
    host_ (buzzer_cb (sb_reader_no s) sounding (bu_tone (sb_state s)))
  else mret tt.

Definition pd_buz_refresh (now : Z) : PD W unit :=
  cb ← gets pd_buzzer_cb;
  match cb with
  | None => mret tt
  | Some buzzer_cb => for_m (buz_refresh_slot buzzer_cb now) 0 OSDP_PD_MAX_BUZZERS
  end.

(** ** Observing a command *)

Definition osdp_pd_internal_is_observed_command (cmd_code : Z) : bool :=
  bool_decide (cmd_code = OSDP_CMD_LED ∨ cmd_code = OSDP_CMD_BUZ).

(** The local [osdp_led_record_t] before the decoder writes it. *)
Definition led_record_zero : osdp_led_record := mk_led_record 0 0 0 0 0 0 0 0 0 0 0 0 0.

Definition pd_led_record_at (payload : ptr) (index : nat) : option (osdp_status * osdp_led_record) :=
  p ← ptr_add payload (index * OSDP_LED_RECORD_BYTES);
  '(s, rs, _) ← osdp_led_decode p OSDP_LED_RECORD_BYTES (Some [led_record_zero]) 1 (Some 0);
  rs ← rs;
  r ← rs !! 0;
  Some (s, r).

Definition same_led (a b : osdp_led_record) : bool :=
  bool_decide (lr_reader_no a = lr_reader_no b ∧ lr_led_no a = lr_led_no b).

(** [for (j = 0; j < i && !seen_earlier; j++)]. *)
Fixpoint seen_earlier (payload : ptr) (rec : osdp_led_record) (j n : nat) : option bool :=
  match n with
  | O => Some false
  | S n =>
      '(s, prev) ← pd_led_record_at payload j;
      if decide (s = OSDP_OK ∧ same_led prev rec = true) then Some true
      else seen_earlier payload rec (S j) n
  end.

Fixpoint can_fit_loop (c : osdp_pd W) (payload : ptr) (i n needed : nat) : option bool :=
  match n with
  | O => Some (bool_decide (needed ≤ pd_led_slots_free c))
  | S n =>
      '(s, rec) ← pd_led_record_at payload i;
      if decide (s ≠ OSDP_OK) then Some false else
      if decide (pd_led_slot_find c (lr_reader_no rec) (lr_led_no rec) ≠ None)
      then can_fit_loop c payload (S i) n needed
      else
        seen ← seen_earlier payload rec 0 i;
        can_fit_loop c payload (S i) n (if (seen : bool) then needed else S needed)
  end.

Definition pd_led_bank_can_fit (c : osdp_pd W) (payload : ptr) (count : nat) : option bool :=
  can_fit_loop c payload 0 count 0.

(** The loop that applies the records, left early on the first refusal. *)
Fixpoint led_apply_loop (payload : ptr) (now : Z) (i n : nat) : PD W osdp_status :=
  match n with
  | O => mret OSDP_OK
  | S n =>
      '(s, rec) ← lift (pd_led_record_at payload i);
      if decide (s ≠ OSDP_OK) then mret OSDP_ERR_BAD_PAYLOAD else
      slot ← pd_led_slot (lr_reader_no rec) (lr_led_no rec);
      match slot with
      | None => mret OSDP_ERR_INVALID_ARG
      | Some k =>
          leds ← gets pd_leds;
          s ← lift (leds !! k);
          st ← lift (osdp_led_apply (Some (sl_state s)) (Some rec) now);
          pd_leds ::= <[k := mk_led_slot (sl_used s) (sl_reader_no s) (sl_led_no s)
                               (sl_last_color s) st]> leds;;
          led_apply_loop payload now (S i) n
      end
  end.

Definition observe_led (payload : ptr) (payload_len : nat) : PD W osdp_status :=
  if decide (payload = NULL ∨ payload_len = 0 ∨ payload_len mod OSDP_LED_RECORD_BYTES ≠ 0)
  then mret OSDP_ERR_BAD_PAYLOAD else
  let count := payload_len / OSDP_LED_RECORD_BYTES in
  c ← gets id;
  fits ← lift (pd_led_bank_can_fit c payload count);
  if negb (fits : bool) then mret OSDP_ERR_INVALID_ARG else
  now ← pd_now_ms;
  s ← led_apply_loop payload now 0 count;
  if decide (s ≠ OSDP_OK) then mret s else
  pd_led_refresh now;;
  mret OSDP_OK.

(** The local [osdp_buz_cmd_t] before the decoder writes it. *)
Definition buz_cmd_zero : osdp_buz_cmd := mk_buz 0 0 0 0 0.

Definition observe_buz (payload : ptr) (payload_len : nat) : PD W osdp_status :=
  '(s, buz) ← lift (osdp_buz_decode payload payload_len (Some buz_cmd_zero));
  if decide (s ≠ OSDP_OK) then mret OSDP_ERR_BAD_PAYLOAD else
  buz ← lift buz;
  now ← pd_now_ms;
  slot ← pd_buz_slot (bz_reader_no buz);
  match slot with
  | None => mret OSDP_ERR_INVALID_ARG
  | Some k =>
      buzzers ← gets pd_buzzers;
      s ← lift (buzzers !! k);
      st ← lift (osdp_buz_apply (Some (sb_state s)) (Some buz) now);
      pd_buzzers ::= <[k := mk_buz_slot (sb_used s) (sb_reader_no s) (sb_last_sounding s) st]> buzzers;;
      pd_buz_refresh now;;
      mret OSDP_OK
  end.

Definition osdp_pd_internal_observe_command (cmd_code : Z) (payload : ptr) (payload_len : nat)
  : PD W osdp_status :=
  if negb (osdp_pd_internal_is_observed_command cmd_code) then mret OSDP_ERR_NOT_SUPPORTED else
  if decide (cmd_code = OSDP_CMD_LED) then observe_led payload payload_len else
  if decide (cmd_code = OSDP_CMD_BUZ) then observe_buz payload payload_len else
  mret OSDP_ERR_NOT_SUPPORTED.

(** ** Queries *)

Definition osdp_pd_led_color (reader_no led_no : Z) : PD W Z :=
  now ← pd_now_ms;
  leds ← gets pd_leds;
  mret match list_find (led_slot_is reader_no led_no) leds with
       | Some (_, s) => osdp_led_color (Some (sl_state s)) now
       | None => OSDP_LED_BLACK
       end.

Definition osdp_pd_buzzer_sounding (reader_no : Z) : PD W bool :=
  now ← pd_now_ms;
  buzzers ← gets pd_buzzers;
  mret match list_find (buz_slot_is reader_no) buzzers with
       | Some (_, s) => osdp_buz_sounding (Some (sb_state s)) now
       | None => false
       end.

End ops.
