(* ===== verification/PdFile.v ===== *)
(** * File transfer receiver of the PD: osdp_pd_internal_filetransfer (pd.c)

    One osdp_FILETRANSFER fragment: the transfer bookkeeping, the copy into the
    receiver buffer (reassembly mode) or none (streaming mode), the evaluation
    callback and the osdp_FTSTAT answer.  The specification is a transfer in
    progress: its type, its declared size and the bytes received so far. *)
From S2P Require Import Prelude Types State Pack Codec Commands Replies PdTypes.

Definition OSDP_FTSTAT_MALFORMED : Z := -3.
Definition OSDP_FTSTAT_UNRECOGNIZED : Z := -2.
Definition OSDP_FTSTAT_ABORT : Z := -1.
Definition OSDP_FTSTAT_OK : Z := 0.
Definition OSDP_FTSTAT_PROCESSED : Z := 1.

(** The local [osdp_filetransfer_cmd_t] before the decoder writes it. *)
Definition ft_zero : osdp_filetransfer_cmd := mk_filetransfer 0 0 0 0 NULL 0.

Section ops.
Context {W : Type}.
Implicit Types c : osdp_pd W.

(** (Re)starting or continuing a transfer: the context, and [ok]. *)
Definition ft_begin c (ft : osdp_filetransfer_cmd) : osdp_pd W * bool :=
  if decide (ft_offset ft = 0%Z) then
    (c <| pd_ft_active := true |> <| pd_ft_type := ft_ft_type ft |>
       <| pd_ft_total := ft_total_size ft |> <| pd_ft_received := 0%Z |>,
     is_null (pd_file_buf c) || bool_decide (ft_total_size ft ≤ Z.of_nat (pd_file_cap c))%Z)
  else if negb (pd_ft_active c) then (c, false)
  else if decide (ft_offset ft ≠ pd_ft_received c) then (c, false)
  else if decide (ft_ft_type ft ≠ pd_ft_type c ∨ ft_total_size ft ≠ pd_ft_total c) then (c, false)
  else (c, true).

(** The bounds of the fragment, in 64-bit arithmetic. *)
Definition ft_bounded c (ft : osdp_filetransfer_cmd) : bool :=
  let end_ := (ft_offset ft + ft_fragment_size ft)%Z in
  if decide (0 < ft_fragment_size ft)%Z then
    if decide (pd_ft_total c < end_)%Z then false
    else is_null (pd_file_buf c) || bool_decide (end_ ≤ Z.of_nat (pd_file_cap c))%Z
  else true.

(** [switch (verdict)]. *)
Definition ft_verdict (verdict : osdp_status) (complete : bool) : Z :=
  match verdict with
  | OSDP_OK => if complete then OSDP_FTSTAT_PROCESSED else OSDP_FTSTAT_OK
  | OSDP_ERR_BAD_PAYLOAD => OSDP_FTSTAT_MALFORMED
  | OSDP_ERR_NOT_SUPPORTED => OSDP_FTSTAT_UNRECOGNIZED
  | _ => OSDP_FTSTAT_ABORT
  end.

(** The accepted fragment: copy, advance, evaluate; gives [status_detail]. *)
Definition ft_take (file_cb : osdp_pd_file_cb W) (ft : osdp_filetransfer_cmd) : PD W Z :=
  buf ← gets pd_file_buf;
  let streaming := is_null buf in
  (if decide ((0 < ft_fragment_size ft)%Z ∧ ft_data ft ≠ NULL) then
     (if streaming then mret tt else
        bs ← lift (rd_slice (ft_data ft) 0 (Z.to_nat (ft_fragment_size ft)));
        buf ← lift (wr buf (Z.to_nat (ft_offset ft)) bs);
        pd_file_buf ::= buf);;
     received ← gets pd_ft_received;
     pd_ft_received ::= u32 (received + ft_fragment_size ft)%Z
   else mret tt);;
  c ← gets id;
  let complete := bool_decide (pd_ft_total c ≤ pd_ft_received c)%Z in
  let info := mk_file_info (pd_ft_type c) (pd_ft_total c) (ft_offset ft) (ft_data ft)
    (Z.to_nat (ft_fragment_size ft)) (if streaming then NULL else pd_file_buf c)
    (pd_ft_received c) complete in
  verdict ← host (file_cb info);
  let detail := ft_verdict verdict complete in
  (if decide (detail < 0 ∨ complete = true)%Z then pd_ft_active ::= false else mret tt);;
  mret detail.

(** The status and the bytes of [ftstat_payload]. *)
Definition osdp_pd_internal_filetransfer (payload : ptr) (payload_len : nat)
  : PD W (osdp_status * ptr) :=
  let out := Ptr (replicate OSDP_FTSTAT_PAYLOAD_BYTES 0%Z) in
  cb ← gets pd_file_cb;
  match cb with
  | None => mret (OSDP_ERR_NOT_SUPPORTED, out)
  | Some file_cb =>
      '(s, ft) ← lift (osdp_filetransfer_decode payload payload_len (Some ft_zero));
      if decide (s ≠ OSDP_OK) then mret (OSDP_ERR_BAD_PAYLOAD, out) else
      ft ← lift ft;
      c ← gets id;
      let '(c, ok) := ft_begin c ft in
      modify (λ _, c);;
      detail ← (if ok && ft_bounded c ft then ft_take file_cb ft
                else (pd_ft_active ::= false);; mret OSDP_FTSTAT_ABORT);
      '(s, out, _) ← lift (osdp_ftstat_build (Some (mk_ftstat 0 0 detail 0)) out
                             OSDP_FTSTAT_PAYLOAD_BYTES (Some 0));
      mret (s, out)
  end.

End ops.

(** ** Specification: a transfer in progress *)

Record transfer : Type := mk_transfer { tf_type : Z; tf_total : Z; tf_data : list Z }.

(** The receiver, in reassembly mode ([Some cap]) or streaming. *)
Definition receiver {W} (c : osdp_pd W) : option nat :=
  if is_null (pd_file_buf c) then None else Some (pd_file_cap c).

Definition fits_receiver (r : option nat) (n : Z) : Prop :=
  match r with Some cap => (n ≤ Z.of_nat cap)%Z | None => True end.

#[export] Instance fits_receiver_dec r n : Decision (fits_receiver r n).
Proof. destruct r; simpl; apply _. Defined.

(** The bytes of a fragment. *)
Definition frag_bytes (v : osdp_filetransfer_cmd) : list Z := view (ft_data v) (ft_data_len v).

(** The transfer a fragment continues, if the rules of osdp_pd.h admit it:
    offset 0 (re)starts, anything else continues where the data ends with the
    same parameters, and the fragment stays inside the declared size. *)
Definition admit_begin (r : option nat) (st : option transfer) (v : osdp_filetransfer_cmd)
  : option transfer :=
  if decide (ft_offset v = 0%Z) then
    if decide (fits_receiver r (ft_total_size v))
    then Some (mk_transfer (ft_ft_type v) (ft_total_size v) []) else None
  else
    t ← st;
    if decide (ft_offset v = Z.of_nat (length (tf_data t)) ∧ ft_ft_type v = tf_type t ∧
               ft_total_size v = tf_total t) then Some t else None.

Definition admit_fragment (r : option nat) (st : option transfer) (v : osdp_filetransfer_cmd)
  : option transfer :=
  t ← admit_begin r st v;
  if decide (ft_offset v + Z.of_nat (ft_data_len v) ≤ tf_total t)%Z then Some t else None.

(** The bytes received are what the buffer holds. *)
Definition received_in (buf : ptr) (cap : nat) (data : list Z) (total : Z) : Prop :=
  match buf with
  | NULL => True
  | Ptr m => cap ≤ length m ∧ take (length data) m = data ∧ (total ≤ Z.of_nat cap)%Z
  end.

Definition transfer_at {W} (c : osdp_pd W) (t : transfer) : Prop :=
  pd_ft_active c = true ∧ pd_ft_type c = tf_type t ∧ pd_ft_total c = tf_total t ∧
  pd_ft_received c = Z.of_nat (length (tf_data t)) ∧ is_u32 (tf_total t) ∧
  (Z.of_nat (length (tf_data t)) ≤ tf_total t)%Z ∧
  received_in (pd_file_buf c) (pd_file_cap c) (tf_data t) (tf_total t).

Definition ft_rep {W} (c : osdp_pd W) (st : option transfer) : Prop :=
  match pd_file_buf c with NULL => True | Ptr m => pd_file_cap c ≤ length m end ∧
  match st with None => pd_ft_active c = false | Some t => transfer_at c t end.

(** What a context keeps across a fragment. *)
Definition same_receiver {W} (c c' : osdp_pd W) : Prop :=
  receiver c' = receiver c ∧ pd_file_cb c' = pd_file_cb c ∧ pd_file_cap c' = pd_file_cap c.

(** ** Lemmas *)

Lemma received_nil buf cap total :
  match buf with NULL => True | Ptr m => cap ≤ length m end →
  match buf with NULL => True | Ptr m => (total ≤ Z.of_nat cap)%Z end →
  received_in buf cap [] total.
Proof. destruct buf; simpl; [done|]. intros. by rewrite take_0. Qed.

Lemma fits_receiver_bool {W} (c : osdp_pd W) n :
  is_null (pd_file_buf c) || bool_decide (n ≤ Z.of_nat (pd_file_cap c))%Z =
  bool_decide (fits_receiver (receiver c) n).
Proof. unfold receiver. by destruct (pd_file_buf c). Qed.

Lemma transfer_fits {W} (c : osdp_pd W) t n :
  transfer_at c t → (n ≤ tf_total t)%Z → fits_receiver (receiver c) n.
Proof.
  intros (_ & _ & _ & _ & _ & _ & Hr) Hn. unfold receiver.
  destruct (pd_file_buf c); simpl in *; [done|]. destruct Hr as (_ & _ & ?). lia.
Qed.

Lemma ft_bounded_ok {W} (c : osdp_pd W) t v :
  transfer_at c t → ft_offset v = Z.of_nat (length (tf_data t)) →
  ft_fragment_size v = Z.of_nat (ft_data_len v) →
  ft_bounded c v = bool_decide (ft_offset v + Z.of_nat (ft_data_len v) ≤ tf_total t)%Z.
Proof.
  intros Ht Ho Hl. unfold ft_bounded. rewrite fits_receiver_bool, Hl.
  pose proof Ht as (_ & _ & Htot & _ & _ & Hle & _). rewrite Htot. symmetry.
  destruct (decide (0 < Z.of_nat (ft_data_len v))%Z).
  - destruct (decide (tf_total t < ft_offset v + Z.of_nat (ft_data_len v))%Z).
    + apply bool_decide_eq_false. lia.
    + rewrite (bool_decide_eq_true_2 (fits_receiver _ _)) by (apply (transfer_fits c t); [done|lia]).
      apply bool_decide_eq_true. lia.
  - apply bool_decide_eq_true. lia.
Qed.

Lemma ft_begin_ok {W} (c : osdp_pd W) st v :
  ft_rep c st → is_u32 (ft_total_size v) →
  ∃ c' ok, ft_begin c v = (c', ok) ∧ same_receiver c c' ∧ pd_file_buf c' = pd_file_buf c ∧
    match admit_begin (receiver c) st v with
    | Some t => ok = true ∧ transfer_at c' t ∧ ft_offset v = Z.of_nat (length (tf_data t))
    | None => ok = false
    end.
Proof.
  intros [Hbuf Hst] Htot. unfold ft_begin, admit_begin. rewrite fits_receiver_bool.
  destruct (decide (ft_offset v = 0%Z)) as [H0|H0].
  { eexists _, _. split; [reflexivity|]. split_and!; [done..|].
    destruct (decide (fits_receiver (receiver c) (ft_total_size v))) as [Hf|Hf].
    - rewrite bool_decide_eq_true_2 by done. split_and!; [done| |done].
      unfold transfer_at. read_set. split_and!; try done; [unfold is_u32 in *; simpl; lia|].
      apply received_nil; [done|]. unfold receiver in Hf. by destruct (pd_file_buf c).
    - by rewrite bool_decide_eq_false_2. }
  destruct st as [t|]; cbn [mbind option_bind].
  - pose proof Hst as (Ha & Hty & Htt & Hr & _). rewrite Ha, Hty, Htt, Hr. cbn [negb].
    exists c. destruct (decide (ft_offset v ≠ Z.of_nat (length (tf_data t)))) as [Hne|He].
    { rewrite decide_False by tauto. by eexists. }
    destruct (decide (ft_ft_type v ≠ tf_type t ∨ ft_total_size v ≠ tf_total t)) as [Hne|He'].
    { rewrite decide_False by (destruct Hne; tauto). by eexists. }
    assert (ft_offset v = Z.of_nat (length (tf_data t))) by lia.
    rewrite decide_True by (split_and!; lia). by eexists.
  - rewrite Hst. cbn [negb]. by eexists _, _.
Qed.

(** ** The accepted fragment *)

(** What the callback is told. *)
Definition info_of {W} (c : osdp_pd W) (t : transfer) (v : osdp_filetransfer_cmd) (info : osdp_pd_file_info) : Prop :=
  fi_ft_type info = tf_type t ∧ fi_total_size info = tf_total t ∧ fi_offset info = ft_offset v ∧
  view (fi_fragment info) (fi_fragment_len info) = frag_bytes v ∧
  fi_received info = Z.of_nat (length (tf_data t)) ∧
  fi_complete info = bool_decide (Z.of_nat (length (tf_data t)) = tf_total t) ∧
  match receiver c with
  | Some _ => view (fi_data info) (length (tf_data t)) = tf_data t
  | None => fi_data info = NULL
  end.

(** The transfer after the fragment's bytes. *)
Definition extend (t : transfer) (v : osdp_filetransfer_cmd) : transfer :=
  mk_transfer (tf_type t) (tf_total t) (tf_data t ++ frag_bytes v).

Lemma received_extend m cap t v buf' :
  cap ≤ length m → take (length (tf_data t)) m = tf_data t → (tf_total t ≤ Z.of_nat cap)%Z →
  (Z.of_nat (length (tf_data t) + length (frag_bytes v)) ≤ tf_total t)%Z →
  wr (Ptr m) (length (tf_data t)) (frag_bytes v) = Some buf' →
  received_in buf' cap (tf_data (extend t v)) (tf_total t) ∧ is_null buf' = false.
Proof.
  intros Hcap Ht Htot Hl Hw. simpl in Hw. rewrite mwr_Some in Hw by lia.
  cbn [fmap option_fmap option_map] in Hw. simplify_eq. split; [|done]. rewrite Ht. simpl. split_and!; [|  |lia].
  - solve_len.
  - rewrite app_assoc, take_app_length'; [done|by rewrite length_app].
Qed.

Lemma ft_copy_ok {W} (c : osdp_pd W) (w : W) t v :
  transfer_at c t → cd_typed v → cd_ok v → ft_offset v = Z.of_nat (length (tf_data t)) →
  (ft_offset v + Z.of_nat (ft_data_len v) ≤ tf_total t)%Z →
  match pd_file_buf c with NULL => True | Ptr m => pd_file_cap c ≤ length m end →
  wp (if decide ((0 < ft_fragment_size v)%Z ∧ ft_data v ≠ NULL) then
       (if is_null (pd_file_buf c) then mret tt else
          bs ← lift (rd_slice (ft_data v) 0 (Z.to_nat (ft_fragment_size v)));
          buf ← lift (wr (pd_file_buf c) (Z.to_nat (ft_offset v)) bs);
          pd_file_buf ::= buf);;
       received ← gets pd_ft_received;
       pd_ft_received ::= u32 (received + ft_fragment_size v)%Z
     else mret tt)
    (λ _ c' w', w' = w ∧ transfer_at c' (extend t v) ∧ same_receiver c c' ∧
       match pd_file_buf c' with NULL => True | Ptr m => pd_file_cap c' ≤ length m end) c w.
Proof.
  intros Ht (_ & Htot & _ & Hsz & Hreg) [Hlen Hnn] Ho Hle Hbuf. cbn [cd_typed cd_ok filetransfer_codec] in *.
  pose proof Ht as (Ha & Hty & Htt & Hrc & Hu & Hdl & Hrec).
  pose proof (length_view _ _ Hreg Hnn) as Hfl. fold (frag_bytes v) in Hfl.
  destruct (decide ((0 < ft_fragment_size v)%Z ∧ ft_data v ≠ NULL)) as [[Hp Hd]|Hz].
  2:{ assert (ft_data_len v = 0) as H0.
      { destruct (decide (ft_data_len v = 0)) as [|Hnz]; [done|]. exfalso. apply Hz. split; [lia|]. apply Hnn. lia. }
      assert (extend t v = t) as ->.
      { unfold extend. assert (frag_bytes v = []) as -> by (apply length_zero_iff_nil; lia).
        rewrite app_nil_r. by destruct t. }
      apply wp_ret. done. }
  assert (u32 (pd_ft_received c + ft_fragment_size v) = Z.of_nat (length (tf_data t ++ frag_bytes v))) as Hnew.
  { rewrite Hrc, Hlen, length_app, Hfl. rewrite u32_id by (unfold is_u32 in *; lia). lia. }
  destruct (pd_file_buf c) as [|m] eqn:Eb; cbn [is_null].
  - eapply wp_run; [m_run; reflexivity|]. unfold same_receiver, receiver. read_set.
    split_and!; try done; [|by rewrite Eb].
    unfold transfer_at. read_set. rewrite Eb. split_and!; try done. simpl. rewrite length_app, Hfl. lia.
  - rewrite Hlen, Nat2Z.id, Ho, Nat2Z.id.
    cbn [received_in] in Hrec. destruct Hrec as (Hcap & Htk & Htc).
    edestruct (wr (Ptr m) (length (tf_data t)) (frag_bytes v)) as [buf'|] eqn:Hw.
    2:{ simpl in Hw. rewrite mwr_Some in Hw by lia. done. }
    destruct (received_extend m (pd_file_cap c) t v buf' Hcap Htk Htc) as [Hrec' Hnl]; [lia|done|].
    apply (wp_run _ _ _ _ tt (c <| pd_file_buf := buf' |>
      <| pd_ft_received := Z.of_nat (length (tf_data t ++ frag_bytes v)) |>) w).
    { rewrite run_assoc, (run_lift _ (frag_bytes v)) by (by apply rd_slice_view).
      rewrite run_assoc, (run_lift _ buf') by done. m_run. by rewrite <-Hlen, Hnew. }
    unfold same_receiver, receiver. read_set.
    split_and!; try done; [|by rewrite Hnl, Eb|by destruct buf'; [|apply Hrec']].
    unfold transfer_at. read_set. split_and!; try done. simpl. rewrite length_app, Hfl. lia.
Qed.

(** The state after the verdict [detail]. *)
Definition after_verdict (t : transfer) (detail : Z) : option transfer :=
  if decide (detail < 0 ∨ Z.of_nat (length (tf_data t)) = tf_total t)%Z then None else Some t.

Lemma ft_take_ok {W} (c : osdp_pd W) (w : W) cb t v :
  transfer_at c t → cd_typed v → cd_ok v → ft_offset v = Z.of_nat (length (tf_data t)) →
  (ft_offset v + Z.of_nat (ft_data_len v) ≤ tf_total t)%Z →
  match pd_file_buf c with NULL => True | Ptr m => pd_file_cap c ≤ length m end →
  ∃ info, info_of c (extend t v) v info ∧
    wp (ft_take cb v) (λ detail c' w', w' = (cb info w).2 ∧
      detail = ft_verdict (cb info w).1 (fi_complete info) ∧ same_receiver c c' ∧
      ft_rep c' (after_verdict (extend t v) detail) ∧
      received_in (pd_file_buf c') (pd_file_cap c') (tf_data (extend t v)) (tf_total t)) c w.
Proof.
  intros Ht Hv Hok Ho Hle Hbuf.
  destruct (ft_copy_ok c w t v Ht Hv Hok Ho Hle Hbuf) as ([] & c1 & w1 & Hcopy & -> & Ht1 & Hsame & Hbuf1).
  pose proof Ht1 as (Ha & Hty & Htt & Hrc & Hu & Hdl & Hrec).
  assert (bool_decide (pd_ft_total c1 ≤ pd_ft_received c1)%Z =
          bool_decide (Z.of_nat (length (tf_data (extend t v))) = tf_total (extend t v))) as Hc.
  { apply bool_decide_ext. lia. }
  eexists (mk_file_info (pd_ft_type c1) (pd_ft_total c1) (ft_offset v) (ft_data v)
    (Z.to_nat (ft_fragment_size v)) (if is_null (pd_file_buf c) then NULL else pd_file_buf c1)
    (pd_ft_received c1) (bool_decide (pd_ft_total c1 ≤ pd_ft_received c1)%Z)).
  split.
  - destruct Hok as [Hlen _]. cbn [cd_ok filetransfer_codec] in Hlen.
    unfold info_of. cbn [fi_ft_type fi_total_size fi_offset fi_fragment fi_fragment_len fi_data fi_received fi_complete].
    rewrite Hlen, Nat2Z.id. split_and!; try done. destruct Hsame as [Hsr _]. revert Hsr. unfold receiver.
    destruct (pd_file_buf c), (pd_file_buf c1); cbn [is_null]; try done. by intros; apply Hrec.
  - unfold ft_take. wp_step. wp_step. cbv zeta.
    apply wp_bind. apply (wp_run _ _ _ _ _ _ _ Hcopy). repeat wp_step. cbv zeta.
    cbn [id fi_complete]. set (info := mk_file_info _ _ _ _ _ _ _ _). rewrite Hc.
    set (complete := bool_decide _). set (detail := ft_verdict _ complete). unfold after_verdict.
    destruct (decide (detail < 0 ∨ complete = true)%Z) as [Hend|Hgo].
    + repeat wp_step. rewrite decide_True by (unfold complete in Hend; rewrite bool_decide_eq_true in Hend; lia).
      split_and!; done.
    + repeat wp_step. rewrite decide_False by (unfold complete in Hgo; rewrite bool_decide_eq_true in Hgo; lia).
      split_and!; try done.
Qed.

(** The answer to a fragment. *)
Definition ftstat_of (detail : Z) : list Z := cd_wire (mk_ftstat 0 0 detail 0).

Lemma ftstat_build_ok detail :
  is_i16 detail →
  osdp_ftstat_build (Some (mk_ftstat 0 0 detail 0)) (Ptr (replicate OSDP_FTSTAT_PAYLOAD_BYTES 0%Z))
    OSDP_FTSTAT_PAYLOAD_BYTES (Some 0) = Some (OSDP_OK, Ptr (ftstat_of detail), Some 7).
Proof.
  intros Hd. pose proof (cl_build (mk_ftstat 0 0 detail 0) (replicate OSDP_FTSTAT_PAYLOAD_BYTES 0%Z)
    OSDP_FTSTAT_PAYLOAD_BYTES 0) as H.
  cbn [cd_build cd_typed cd_buildable ftstat_codec] in H. rewrite H; [|split_and!; try done; by vm_decide|done|done].
  rewrite decide_True by (simpl; unfold OSDP_FTSTAT_PAYLOAD_BYTES; lia). do 3 f_equal.
Qed.

Lemma verdict_i16 s b : is_i16 (ft_verdict s b).
Proof. unfold is_i16, ft_verdict. destruct s, b; vm_compute; split; congruence. Qed.

Lemma filetransfer_step {W} (c : osdp_pd W) w st cb m len v :
  pd_file_cb c = Some cb → ft_rep c st → cd_typed v → cd_ok v →
  osdp_filetransfer_decode (Ptr m) len (Some ft_zero) = Some (OSDP_OK, Some v) →
  match admit_fragment (receiver c) st v with
  | None => ∃ c', osdp_pd_internal_filetransfer (Ptr m) len c w =
        Some ((OSDP_OK, Ptr (ftstat_of OSDP_FTSTAT_ABORT)), c', w) ∧
      ft_rep c' None ∧ same_receiver c c' ∧ pd_file_buf c' = pd_file_buf c
  | Some t => ∃ info c', info_of c (extend t v) v info ∧
      let detail := ft_verdict (cb info w).1 (fi_complete info) in
      osdp_pd_internal_filetransfer (Ptr m) len c w =
        Some ((OSDP_OK, Ptr (ftstat_of detail)), c', (cb info w).2) ∧
      ft_rep c' (after_verdict (extend t v) detail) ∧ same_receiver c c' ∧
      received_in (pd_file_buf c') (pd_file_cap c') (tf_data (extend t v)) (tf_total t)
  end.
Proof.
  intros Hcb Hrep Hv Hok Hdec. pose proof Hv as (_ & Htot & _). pose proof Hok as [Hlen _].
  cbn [cd_typed cd_ok filetransfer_codec] in *.
  destruct (ft_begin_ok c st v Hrep Htot) as (c1 & ok & Hb & Hsame & Hbuf & Hadm).
  assert (∀ d c' w', ok && ft_bounded c1 v = false → d = OSDP_FTSTAT_ABORT →
    c' = c1 <| pd_ft_active := false |> → w' = w →
    osdp_pd_internal_filetransfer (Ptr m) len c w = Some ((OSDP_OK, Ptr (ftstat_of d)), c', w') ∧
    ft_rep c' None ∧ same_receiver c c' ∧ pd_file_buf c' = pd_file_buf c) as Habort.
  { intros d c' w' Hno -> -> ->. destruct Hrep as [Hbase _]. destruct Hsame as (Hs1 & Hs2 & Hs3). split.
    - unfold osdp_pd_internal_filetransfer. m_run. rewrite Hcb. rewrite (run_lift _ _ _ _ _ Hdec). cbv beta iota.
      rewrite decide_False by tauto. m_run. unfold id. rewrite Hb, Hno.
      m_run. rewrite (run_lift _ _ _ _ _ (ftstat_build_ok OSDP_FTSTAT_ABORT ltac:(vm_compute; split; congruence))). by m_run.
    - split_and!; try done. split; [|done]. read_set. by rewrite Hbuf, Hs3. }
  unfold admit_fragment. revert Hadm.
  destruct (admit_begin (receiver c) st v) as [t|]; cbn [mbind option_bind]; intros Hadm.
  2: { subst ok. eexists. by apply Habort. }
  destruct Hadm as (-> & Ht & Ho). pose proof (ft_bounded_ok c1 t v Ht Ho Hlen) as Hbd.
  destruct (decide (ft_offset v + Z.of_nat (ft_data_len v) ≤ tf_total t)%Z) as [Hle|Hgt].
  2: { eexists. apply Habort; try done. rewrite Hbd. by apply bool_decide_eq_false. }
  rewrite bool_decide_eq_true_2 in Hbd by done.
  destruct (ft_take_ok c1 w cb t v Ht Hv Hok Ho Hle) as (info & Hinfo & detail & c' & w' & Htake & -> & -> & Hs' & Hr' & Hrec).
  { destruct Hrep as [Hbase _]. destruct Hsame as (_ & _ & ->). by rewrite Hbuf. }
  assert (receiver c1 = receiver c) as Hrc by apply Hsame.
  exists info, c'. split; [unfold info_of in *; by rewrite Hrc in Hinfo|]. cbv zeta.
  assert (same_receiver c c') as Hs2 by (destruct Hs' as (?&?&?), Hsame as (?&?&?); split_and!; congruence).
  split_and!; try done.
  unfold osdp_pd_internal_filetransfer. m_run. rewrite Hcb. rewrite (run_lift _ _ _ _ _ Hdec). cbv beta iota.
  rewrite decide_False by tauto. m_run. unfold id. rewrite Hb, Hbd. m_run.
  rewrite (run_bind _ _ _ _ _ _ _ Htake).
  rewrite (run_lift _ _ _ _ _ (ftstat_build_ok _ (verdict_i16 _ _))). by m_run.
Qed.

(** ** A whole file *)

(** The payload of the fragment [data] at [off]. *)
Definition fragment_cmd (ty total : Z) (off : nat) (data : list Z) : osdp_filetransfer_cmd :=
  mk_filetransfer ty total (Z.of_nat off) (Z.of_nat (length data)) (slice_ptr data) (length data).

(** The control unit sends the fragments in order; the answers are collected. *)
Fixpoint send_file {W} (ty total : Z) (off : nat) (chunks : list (list Z)) (c : osdp_pd W) (w : W)
  : option (list (list Z) * osdp_pd W * W) :=
  match chunks with
  | [] => Some ([], c, w)
  | data :: chunks =>
      let payload := cd_wire (fragment_cmd ty total off data) in
      '(r, c, w) ← osdp_pd_internal_filetransfer (Ptr payload) (length payload) c w;
      answer ← (match r.2 with Ptr a => Some a | NULL => None end);
      '(answers, c, w) ← send_file ty total (off + length data) chunks c w;
      Some (answer :: answers, c, w)
  end.

Lemma fragment_cmd_ok ty total off data :
  is_byte ty → is_u32 total → is_u32 (Z.of_nat off) → bytes_ok data →
  (Z.of_nat (length data) < 65536)%Z → 0 < length data →
  let v := fragment_cmd ty total off data in
  let m := cd_wire v in
  cd_typed v ∧ cd_ok v ∧ osdp_filetransfer_decode (Ptr m) (length m) (Some ft_zero) = Some (OSDP_OK, Some v) ∧
  frag_bytes v = data.
Proof.
  intros Hty Htot Hoff Hd Hl Hp v m.
  pose proof (view_slice_ptr data) as Hview.
  assert (cd_typed v) as Ht.
  { cbn [cd_typed filetransfer_codec v fragment_cmd ft_ft_type ft_total_size ft_offset ft_fragment_size ft_data ft_data_len].
    split_and!; try done; [unfold is_u16; lia|]. unfold slice_ptr. by rewrite decide_True. }
  assert (cd_ok v) as Hok.
  { split; [done|]. intros _. simpl. unfold slice_ptr. by rewrite decide_True. }
  split_and!; [done|done| |done].
  pose proof (cl_decode_wire v [] ft_zero Ht Hok) as H. rewrite app_nil_r in H.
  cbn [cd_decode filetransfer_codec] in H. fold m in H. rewrite H. do 2 f_equal. f_equal.
  cbn [cd_canon filetransfer_codec]. unfold v, fragment_cmd, canon_slice. simpl. by rewrite Hview.
Qed.

(** A transfer at [data] receives the rest of the file. *)
Lemma send_file_ok {W} ty total cb chunks (c : osdp_pd W) w st data :
  pd_file_cb c = Some cb → (∀ info w, (cb info w).1 = OSDP_OK) → chunks ≠ [] →
  Forall (λ d, bytes_ok d ∧ 0 < length d ∧ (Z.of_nat (length d) < 65536)%Z) chunks →
  is_byte ty → is_u32 total → total = Z.of_nat (length data + length (concat chunks)) →
  fits_receiver (receiver c) total → ft_rep c st →
  (data = [] ∨ st = Some (mk_transfer ty total data)) →
  ∃ c' w', send_file ty total (length data) chunks c w =
      Some (replicate (length chunks - 1) (ftstat_of OSDP_FTSTAT_OK) ++ [ftstat_of OSDP_FTSTAT_PROCESSED], c', w') ∧
    ft_rep c' None ∧ same_receiver c c' ∧
    received_in (pd_file_buf c') (pd_file_cap c') (data ++ concat chunks) total.
Proof.
  intros Hcb Hver Hne Hch Hty Htot. revert c w st data Hcb.
  induction Hch as [|d chunks (Hd & Hdp & Hdl) Hch IH]; [done|]; clear Hne.
  intros c w st data Hcb Heq Hfit Hrep Hst. cbn [concat] in *. rewrite length_app in Heq.
  destruct (fragment_cmd_ok ty total (length data) d) as (Hv & Hok & Hdec & Hfb);
    try done; [unfold is_u32 in *; lia|].
  pose proof (filetransfer_step c w st cb _ _ _ Hcb Hrep Hv Hok Hdec) as Hstep.
  assert (admit_fragment (receiver c) st (fragment_cmd ty total (length data) d) =
    Some (mk_transfer ty total data)) as Hadm.
  { unfold admit_fragment, admit_begin. cbn [fragment_cmd ft_offset ft_total_size ft_ft_type ft_data_len].
    destruct (decide (Z.of_nat (length data) = 0%Z)) as [H0|H0].
    - assert (data = []) as -> by (destruct data; [done|simpl in H0; lia]).
      rewrite decide_True by done. cbn [mbind option_bind tf_total]. by rewrite decide_True by lia.
    - destruct Hst as [->| ->]; [done|]. cbn [mbind option_bind tf_data tf_type tf_total].
      rewrite decide_True by done. cbn [mbind option_bind tf_total]. by rewrite decide_True by lia. }
  rewrite Hadm in Hstep. destruct Hstep as (info & c1 & Hinfo & Hrun & Hrep1 & Hs1 & Hrec1).
  rewrite Hver in Hrun, Hrep1. unfold extend in Hinfo, Hrep1, Hrec1. rewrite Hfb in Hinfo, Hrep1, Hrec1.
  cbn [tf_type tf_total tf_data] in Hinfo, Hrep1, Hrec1.
  pose proof Hinfo as (_ & _ & _ & _ & _ & Hcomp & _). cbn [tf_data tf_total] in Hcomp.
  cbn [send_file]. rewrite Hrun, bind_Some. cbn [snd]. rewrite bind_Some.
  destruct chunks as [|d2 chunks].
  - cbn [concat length] in *. rewrite bool_decide_eq_true_2 in Hcomp by (rewrite length_app; lia).
    rewrite Hcomp in Hrep1 |- *. cbn [send_file]. rewrite bind_Some. eexists _, _. split; [done|].
    unfold after_verdict in Hrep1. rewrite decide_True in Hrep1 by (right; simpl; rewrite length_app; lia).
    rewrite app_nil_r. done.
  - assert (0 < length (concat (d2 :: chunks))) as Hpos.
    { apply Forall_cons_1 in Hch as [(_ & ? & _) _]. cbn [concat]. rewrite length_app. lia. }
    rewrite bool_decide_eq_false_2 in Hcomp by (rewrite length_app; lia). rewrite Hcomp in Hrep1 |- *.
    unfold after_verdict in Hrep1.
    rewrite decide_False in Hrep1 by (intros [?|Hx]; [done|simpl in Hx; rewrite length_app in Hx; lia]).
    destruct Hs1 as (Hr1 & Hcb1 & Hcap1).
    destruct (IH ltac:(done) c1 (cb info w).2 (Some (mk_transfer ty total (data ++ d))) (data ++ d))
      as (c2 & w2 & Hsend & Hrep2 & (Hr2 & Hcb2 & Hcap2) & Hrec2);
      [congruence|rewrite length_app; lia|by rewrite Hr1|done|by right|].
    rewrite <-length_app, Hsend, bind_Some. exists c2, w2. split.
    { cbn [ft_verdict length]. replace (S (S (length chunks)) - 1) with (S (S (length chunks) - 1)) by lia. done. }
    split_and!; [done|unfold same_receiver; split_and!; congruence|by rewrite app_assoc].
Qed.

(** ** Properties *)

(** C30: a PD with a file receiver answers every osdp_FILETRANSFER payload as
    the transfer specification says of the fragment whose wire image the payload
    is.  A payload that is not a fragment is refused and changes nothing.  A
    fragment that does not continue the
    transfer (gap, changed parameters, past the declared size or the buffer)
    is answered with abort, the buffer untouched and the transfer dropped,
    without consulting the application.  An admitted fragment extends the
    received bytes, the callback sees exactly those bytes, its verdict fixes
    the status, and a refusal or completion ends the transfer. *)
Theorem filetransfer_refines_transfer {W} (c : osdp_pd W) w st cb m len :
  pd_file_cb c = Some cb → ft_rep c st → bytes_ok m → len ≤ length m →
  (∃ v, cd_typed v ∧ cd_ok v ∧ cd_wire v = take len m ∧ frag_bytes v = drop 11 (take len m) ∧
     match admit_fragment (receiver c) st v with
     | None => ∃ c', osdp_pd_internal_filetransfer (Ptr m) len c w =
           Some ((OSDP_OK, Ptr (ftstat_of OSDP_FTSTAT_ABORT)), c', w) ∧
         ft_rep c' None ∧ pd_file_buf c' = pd_file_buf c
     | Some t => ∃ info c', info_of c (extend t v) v info ∧
         let detail := ft_verdict (cb info w).1 (fi_complete info) in
         osdp_pd_internal_filetransfer (Ptr m) len c w =
           Some ((OSDP_OK, Ptr (ftstat_of detail)), c', (cb info w).2) ∧
         ft_rep c' (after_verdict (extend t v) detail)
     end) ∨
  ((∀ v : osdp_filetransfer_cmd, cd_typed v → cd_ok v → cd_wire v ≠ take len m) ∧
   ∃ out, osdp_pd_internal_filetransfer (Ptr m) len c w = Some ((OSDP_ERR_BAD_PAYLOAD, out), c, w)).
Proof.
  intros Hcb Hrep Hm Hl.
  destruct (codec_laws_correct osdp_filetransfer_cmd) as (_ & _ & Hdec & _).
  destruct (Hdec m len ft_zero Hm Hl) as (s & v & Hd & [(-> & Hv & Hok & Hw)|[-> Hno]]).
  - left. exists v. split_and!; [done|done|done| |].
    { rewrite <-Hw. cbn [cd_wire filetransfer_codec]. by rewrite !app_assoc, drop_app_length'. }
    pose proof (filetransfer_step c w st cb m len v Hcb Hrep Hv Hok Hd) as Hstep.
    destruct (admit_fragment (receiver c) st v); [destruct Hstep as (info & c' & ?); exists info, c'|
      destruct Hstep as (c' & ?); exists c']; cbv zeta in *; tauto.
  - right. split; [done|]. eexists. unfold osdp_pd_internal_filetransfer. m_run. rewrite Hcb.
    rewrite (run_lift _ _ _ _ _ Hd). cbv beta iota. rewrite decide_True by done. by m_run.
Qed.

(** a file of any size that fits, cut into any non-empty fragments and sent
    in order to a PD whose application accepts them, is answered "proceed"
    until the last fragment and "processed" then; the receiver buffer holds
    the file byte for byte and the transfer is over. *)
Theorem filetransfer_reassembles {W} (c : osdp_pd W) w cb ty m chunks :
  let file := concat chunks in
  pd_file_cb c = Some cb → (∀ info w, (cb info w).1 = OSDP_OK) →
  pd_file_buf c = Ptr m → pd_file_cap c ≤ length m → pd_ft_active c = false →
  is_byte ty → chunks ≠ [] →
  Forall (λ d, bytes_ok d ∧ 0 < length d ∧ (Z.of_nat (length d) < 65536)%Z) chunks →
  length file ≤ pd_file_cap c → is_u32 (Z.of_nat (length file)) →
  ∃ c' w' m', send_file ty (Z.of_nat (length file)) 0 chunks c w =
      Some (replicate (length chunks - 1) (ftstat_of OSDP_FTSTAT_OK) ++ [ftstat_of OSDP_FTSTAT_PROCESSED], c', w') ∧
    pd_file_buf c' = Ptr m' ∧ take (length file) m' = file ∧ pd_ft_active c' = false.
Proof.
  intros file Hcb Hver Hbuf Hcap Hidle Hty Hne Hch Hfit Hu.
  assert (receiver c = Some (pd_file_cap c)) as Hr by (unfold receiver; by rewrite Hbuf).
  destruct (send_file_ok ty (Z.of_nat (length file)) cb chunks c w None [])
    as (c' & w' & Hsend & [_ Hrep] & (Hr' & _) & Hrec); try done.
  - rewrite Hr. simpl. lia.
  - split; [by rewrite Hbuf|done].
  - by left.
  - rewrite Hr in Hr'. unfold receiver in Hr'. destruct (pd_file_buf c') as [|m'] eqn:Eb; [done|].
    exists c', w', m'. destruct Hrec as (_ & Htk & _). done.
Qed.

Definition ex_file_pd : osdp_pd nat :=
  default pd_zero (osdp_pd_set_file_receiver (Some pd_zero) (Ptr (replicate 6 0%Z)) 6
    (Some (λ _ n, (OSDP_OK, S n)))).

Lemma filetransfer_reassembles_witness :
  ∃ c' w' m', send_file 1 5 0 [[10; 20; 30]; [40; 50]]%Z ex_file_pd 0 =
      Some ([ftstat_of OSDP_FTSTAT_OK; ftstat_of OSDP_FTSTAT_PROCESSED], c', w') ∧
    pd_file_buf c' = Ptr m' ∧ take 5 m' = [10; 20; 30; 40; 50]%Z ∧ pd_ft_active c' = false.
Proof.
  apply (filetransfer_reassembles ex_file_pd 0 (λ _ n, (OSDP_OK, S n)) 1 (replicate 6 0%Z) [[10; 20; 30]; [40; 50]]%Z);
    try done; vm_decide.
Defined.

(** A continuation with no transfer in progress is aborted. *)
Lemma filetransfer_refines_transfer_witness :
  let m := cd_wire (fragment_cmd 1 5 3 [40; 50]%Z) in
  ∃ c', osdp_pd_internal_filetransfer (Ptr m) 13 ex_file_pd 0 =
    Some ((OSDP_OK, Ptr (ftstat_of OSDP_FTSTAT_ABORT)), c', 0).
Proof.
  intros m.
  destruct (filetransfer_refines_transfer ex_file_pd 0 None (λ _ n, (OSDP_OK, S n)) m 13)
    as [(v & Hv & Hok & _ & _ & Hcase)|[_ (out & Hbad)]]; try done.
  - split; [vm_compute; lia|done].
  - vm_decide.
  - eexists. vm_compute. reflexivity.
Defined.
