(* ===== verification/PdDispatch.v ===== *)
(** * Command dispatch of the PD: pd_dispatch.c, with the COMSET and KEYSET
    hooks of pd.c

    [osdp_pd_internal_dispatch] decides the reply to one accepted command,
    whatever channel carried it.  A [bool] result with an output reply is an
    optional reply. *)
From S2P Require Import Prelude Types State Codec Commands Replies Records Multipart Dispatch ScCrypto.
From S2P Require Import PdTypes PdEvents PdPdcap PdBanks PdFile.

Definition OSDP_NAK_BAD_CHECK : Z := 1.
Definition OSDP_NAK_CMD_LENGTH : Z := 2.
Definition OSDP_NAK_UNKNOWN_CMD : Z := 3.
Definition OSDP_NAK_UNSUPPORTED_SCB : Z := 5.
Definition OSDP_NAK_ENCRYPTION_REQUIRED : Z := 6.
Definition OSDP_NAK_RECORD_INVALID : Z := 9.
Definition OSDP_KEYSET_KEY_TYPE_SCBK : Z := 1.
Definition OSDP_LSTATR_NORMAL : Z := 0.

Inductive osdp_pd_channel : Type := OSDP_PD_CH_PLAIN | OSDP_PD_CH_SC1.

Inductive osdp_pd_dispatch_outcome : Type :=
  | OSDP_PD_DISPATCH_SEND
  | OSDP_PD_DISPATCH_DROP
  | OSDP_PD_DISPATCH_BUSY.

#[export] Instance outcome_eq_dec : EqDecision osdp_pd_dispatch_outcome.
Proof. solve_decision. Defined.

(** A reply structure before anything is written to it. *)
Definition reply_zero : osdp_pd_reply := mk_reply 0 NULL 0.

Definition ack_reply : osdp_pd_reply := mk_reply OSDP_REPLY_ACK NULL 0.

(** The contents of a region. *)
Definition mem_of (p : ptr) : option (list Z) := match p with NULL => None | Ptr m => Some m end.

Section ops.
Context {W : Type}.
Implicit Types c : osdp_pd W.

(** [memcpy(pd->reply_scratch, bs, n)] and the reply that points there. *)
Definition scratch_reply (code : Z) (bs : list Z) : PD W osdp_pd_reply :=
  scratch ← gets pd_reply_scratch;
  scratch ← lift (mwr scratch 0 bs);
  pd_reply_scratch ::= scratch;;
  mret (mk_reply code (Ptr scratch) (length bs)).

Definition nak_into (error_code : Z) : PD W osdp_pd_reply :=
  scratch_reply OSDP_REPLY_NAK [error_code].

(** A builder's result in the scratch. *)
Definition built_reply (code : Z) (build : ptr → option (osdp_status * ptr * option nat))
  : PD W osdp_pd_reply :=
  scratch ← gets pd_reply_scratch;
  '(s, scratch, written) ← lift (build (Ptr scratch));
  scratch ← lift (mem_of scratch);
  pd_reply_scratch ::= scratch;;
  if decide (s ≠ OSDP_OK) then nak_into OSDP_NAK_RECORD_INVALID else
  n ← lift written;
  mret (mk_reply code (Ptr scratch) n).

(** ** COMSET (pd.c) *)

Definition comset_zero : osdp_comset_cmd := mk_comset 0 0.

(** Status, effective address and baud rate, and the osdp_COM body. *)
Definition osdp_pd_internal_comset_effective (payload : ptr) (payload_len : nat)
  : PD W (osdp_status * (Z * Z * list Z)) :=
  '(s, req) ← lift (osdp_comset_decode payload payload_len (Some comset_zero));
  if decide (s ≠ OSDP_OK) then mret (s, (0%Z, 0%Z, [])) else
  req ← lift req;
  cb ← gets pd_comset_cb;
  '(addr, baud) ←
    (match cb with
     | None => mret (cs_address req, cs_baud_rate req)
     | Some comset_cb =>
         host (comset_cb (cs_address req) (cs_baud_rate req) (cs_address req) (cs_baud_rate req))
     end);
  cur ← gets pd_address;
  let addr := if decide (OSDP_PD_MAX_ADDR < addr)%Z then cur else addr in
  '(s, com_payload, _) ← lift (osdp_com_build (Some (mk_com addr baud))
    (Ptr (replicate OSDP_COM_PAYLOAD_BYTES 0%Z)) OSDP_COM_PAYLOAD_BYTES (Some 0));
  com_payload ← lift (mem_of com_payload);
  mret (s, (addr, baud, com_payload)).

Definition osdp_pd_internal_apply_comset : PD W unit :=
  pd_comset_pending ::= false;;
  c ← gets id;
  pd_address ::= pd_comset_new_address c;;
  pd_have_last ::= false;;
  match pd_comset_applied_cb c with
  | None => mret tt
  | Some applied => host_ (applied (pd_comset_new_address c) (pd_comset_new_baud c))
  end.

Definition handle_comset (payload : ptr) (payload_len : nat) : PD W osdp_pd_reply :=
  '(s, (eff_addr, eff_baud, com_payload)) ← osdp_pd_internal_comset_effective payload payload_len;
  if decide (s ≠ OSDP_OK) then nak_into OSDP_NAK_CMD_LENGTH else
  reply ← scratch_reply OSDP_REPLY_COM com_payload;
  pd_comset_pending ::= true;;
  pd_comset_new_address ::= eff_addr;;
  pd_comset_new_baud ::= eff_baud;;
  mret reply.

(** ** FILETRANSFER *)

Definition handle_filetransfer (payload : ptr) (payload_len : nat) : PD W osdp_pd_reply :=
  '(s, ftstat_payload) ← osdp_pd_internal_filetransfer payload payload_len;
  if decide (s ≠ OSDP_OK) then
    nak_into (if decide (s = OSDP_ERR_NOT_SUPPORTED) then OSDP_NAK_UNKNOWN_CMD else OSDP_NAK_CMD_LENGTH)
  else
    bs ← lift (rd_slice ftstat_payload 0 OSDP_FTSTAT_PAYLOAD_BYTES);
    scratch_reply OSDP_REPLY_FTSTAT bs.

(** ** KEYSET (pd.c) *)

Definition keyset_zero : osdp_keyset_cmd := mk_keyset 0 0 NULL 0.

Definition osdp_pd_internal_apply_keyset (payload : ptr) (payload_len : nat) : PD W osdp_status :=
  '(s, parsed) ← lift (osdp_keyset_decode payload payload_len (Some keyset_zero));
  if decide (s ≠ OSDP_OK) then mret s else
  parsed ← lift parsed;
  if decide (ks_key_type parsed ≠ OSDP_KEYSET_KEY_TYPE_SCBK) then mret OSDP_ERR_BAD_PAYLOAD else
  if decide (Z.to_nat (ks_key_length parsed) ≠ OSDP_SC_KEY_LEN ∨ ks_key_data parsed = NULL)
  then mret OSDP_ERR_BAD_PAYLOAD else
  key ← lift (rd_slice (ks_key_data parsed) 0 OSDP_SC_KEY_LEN);
  with_sc (λ sc, sc <| sc_scbk := key |> <| sc_scbk_set := true |>);;
  mret OSDP_OK.

Definition apply_keyset_for_channel (channel : osdp_pd_channel) (payload : ptr) (payload_len : nat)
  : PD W bool :=
  s ← osdp_pd_internal_apply_keyset payload payload_len;
  mret (bool_decide (s = OSDP_OK)).

(** ** Status requests *)

(** Provider, reply code and builder of ISTAT, OSTAT and RSTAT. *)
Definition status_request (p : osdp_pd_status_provider W) (cmd_code : Z)
  : option (option (status_fn W) * Z *
            (ptr → nat → ptr → nat → option nat → option (osdp_status * ptr * option nat))) :=
  if decide (cmd_code = OSDP_CMD_ISTAT) then Some (sp_inputs p, OSDP_REPLY_ISTATR, osdp_istatr_build) else
  if decide (cmd_code = OSDP_CMD_OSTAT) then Some (sp_outputs p, OSDP_REPLY_OSTATR, osdp_ostatr_build) else
  if decide (cmd_code = OSDP_CMD_RSTAT) then Some (sp_readers p, OSDP_REPLY_RSTATR, osdp_rstatr_build) else
  None.

Definition handle_status_request (cmd_code : Z) : PD W (option osdp_pd_reply) :=
  p ← gets pd_status;
  if decide (cmd_code = OSDP_CMD_LSTAT) then
    match sp_local p with
    | None => mret None
    | Some local =>
        '(tamper, power) ← host (local OSDP_LSTATR_NORMAL OSDP_LSTATR_NORMAL);
        reply ← built_reply OSDP_REPLY_LSTATR (λ buf,
          osdp_lstatr_build (Some (mk_lstatr tamper power)) buf OSDP_PD_REPLY_SCRATCH_LEN (Some 0));
        mret (Some reply)
    end
  else
    match status_request p cmd_code with
    | Some (Some provider, reply_code, build) =>
        '(count, statuses) ← host (provider (replicate OSDP_PD_REPLY_SCRATCH_LEN 0%Z) OSDP_PD_REPLY_SCRATCH_LEN);
        let count := if decide (OSDP_PD_REPLY_SCRATCH_LEN < count) then OSDP_PD_REPLY_SCRATCH_LEN else count in
        reply ← built_reply reply_code (λ buf,
          build (Ptr statuses) count buf OSDP_PD_REPLY_SCRATCH_LEN (Some 0));
        mret (Some reply)
    | _ => mret None
    end.

(** ** ABORT, ACURXSIZE, KEEPACTIVE *)

Definition handle_abort : PD W osdp_pd_reply :=
  modify (λ c, c <| pd_ft_active := false |> <| pd_ft_total := 0%Z |> <| pd_ft_received := 0%Z |>
                 <| pd_ft_type := 0%Z |>);;
  reasm ← gets pd_mfg_reasm;
  pd_mfg_reasm ::= osdp_mp_reasm_reset reasm;;
  cb ← gets pd_abort_cb;
  s ← (match cb with None => mret OSDP_OK | Some abort_cb => host abort_cb end);
  if decide (s ≠ OSDP_OK) then nak_into OSDP_NAK_UNKNOWN_CMD else mret ack_reply.

Definition handle_acurxsize (payload : ptr) (payload_len : nat) : PD W osdp_pd_reply :=
  '(s, cmd) ← lift (osdp_acurxsize_decode payload payload_len (Some (mk_acurxsize 0)));
  if decide (s ≠ OSDP_OK) then nak_into OSDP_NAK_CMD_LENGTH else
  cmd ← lift cmd;
  pd_acu_rx_size ::= ar_max_size cmd;;
  cb ← gets pd_acurxsize_cb;
  (match cb with None => mret tt | Some f => host_ (f (ar_max_size cmd)) end);;
  mret ack_reply.

Definition handle_keepactive (payload : ptr) (payload_len : nat) : PD W osdp_pd_reply :=
  cb ← gets pd_keepactive_cb;
  match cb with
  | None => nak_into OSDP_NAK_UNKNOWN_CMD
  | Some keepactive_cb =>
      '(s, cmd) ← lift (osdp_keepactive_decode payload payload_len (Some (mk_keepactive 0)));
      if decide (s ≠ OSDP_OK) then nak_into OSDP_NAK_CMD_LENGTH else
      cmd ← lift cmd;
      s ← host (keepactive_cb (ka_time_ms cmd));
      if decide (s ≠ OSDP_OK) then nak_into OSDP_NAK_UNKNOWN_CMD else mret ack_reply
  end.

(** ** CAP *)

Definition handle_pdcap : PD W (option osdp_pd_reply) :=
  c ← gets id;
  if decide (pd_pdcap_count c = 0) then mret None else
  '(all, total) ← lift (gather_pdcap c
    (replicate (OSDP_PD_MAX_PDCAP_RECORDS + OSDP_PDCAP_RESERVED_COUNT) (mk_pdcap 0 0 0)));
  reply ← built_reply OSDP_REPLY_PDCAP (λ buf,
    osdp_pdcap_build (Some all) total buf OSDP_PD_REPLY_SCRATCH_LEN (Some 0));
  mret (Some reply).

(** ** The application's verdict *)

Definition apply_app_status (app_status : osdp_status) (reply : osdp_pd_reply)
  : PD W (osdp_pd_dispatch_outcome * osdp_pd_reply) :=
  match app_status with
  | OSDP_OK => mret (OSDP_PD_DISPATCH_SEND, reply)
  | OSDP_ERR_NOT_SUPPORTED =>
      r ← nak_into OSDP_NAK_UNKNOWN_CMD; mret (OSDP_PD_DISPATCH_SEND, r)
  | OSDP_ERR_BAD_PAYLOAD | OSDP_ERR_BAD_LENGTH =>
      r ← nak_into OSDP_NAK_CMD_LENGTH; mret (OSDP_PD_DISPATCH_SEND, r)
  | OSDP_ERR_INVALID_ARG =>
      r ← nak_into OSDP_NAK_RECORD_INVALID; mret (OSDP_PD_DISPATCH_SEND, r)
  | OSDP_ERR_BUSY => mret (OSDP_PD_DISPATCH_BUSY, reply)
  | _ => mret (OSDP_PD_DISPATCH_DROP, reply)
  end.

(** ** Multi-part MFG *)

Definition mfg_zero : osdp_mfg_cmd := mk_mfg (replicate 3 0%Z) NULL 0.
Definition fragment_zero : osdp_mp_fragment := mk_fragment 0 0 NULL 0.

(** [osdp_mp_reasm_reset(&pd->mfg_reasm)] and NAK 0x09. *)
Definition mfg_refuse : PD W (osdp_pd_dispatch_outcome * osdp_pd_reply) :=
  reasm ← gets pd_mfg_reasm;
  pd_mfg_reasm ::= osdp_mp_reasm_reset reasm;;
  r ← nak_into OSDP_NAK_RECORD_INVALID;
  mret (OSDP_PD_DISPATCH_SEND, r).

(** The whole message, handed to the receiver. *)
Definition mfg_complete (mfg_cb : osdp_pd_mfg_cb W) : PD W (osdp_pd_dispatch_outcome * osdp_pd_reply) :=
  c ← gets id;
  '(app, reply) ← host (mfg_cb (pd_mfg_vendor c) (mr_buf (pd_mfg_reasm c))
                          (Z.to_nat (mr_total (pd_mfg_reasm c))) ack_reply);
  pd_mfg_reasm ::= osdp_mp_reasm_reset (pd_mfg_reasm c);;
  apply_app_status app reply.

(** Offset 0 claims the transfer for a vendor; [false] for another vendor's
    continuation. *)
Definition mfg_claim (frag : osdp_mp_fragment) (vendor_code : list Z) : PD W bool :=
  vendor ← gets pd_mfg_vendor;
  if decide (mf_offset frag = 0%Z) then
    bs ← lift (mslice vendor_code 0 OSDP_MFG_VENDOR_CODE_BYTES);
    vendor ← lift (mwr vendor 0 bs);
    pd_mfg_vendor ::= vendor;;
    mret true
  else mret (bool_decide (vendor = vendor_code)).

Definition handle_mfg_multipart (payload : ptr) (payload_len : nat)
  : PD W (option (osdp_pd_dispatch_outcome * osdp_pd_reply)) :=
  cb ← gets pd_mfg_cb;
  match cb with
  | None => mret None
  | Some mfg_cb =>
      '(s, cmd) ← lift (osdp_mfg_decode payload payload_len (Some mfg_zero));
      if decide (s ≠ OSDP_OK) then
        r ← nak_into OSDP_NAK_CMD_LENGTH; mret (Some (OSDP_PD_DISPATCH_SEND, r))
      else
      cmd ← lift cmd;
      '(s, frag) ← lift (osdp_mp_fragment_decode (mg_data cmd) (mg_data_len cmd) (Some fragment_zero));
      if decide (s ≠ OSDP_OK) then (r ← mfg_refuse; mret (Some r)) else
      frag ← lift frag;
      mine ← mfg_claim frag (mg_vendor_code cmd);
      if negb mine then (r ← mfg_refuse; mret (Some r)) else
      reasm ← gets pd_mfg_reasm;
      '(s, reasm, state) ← lift (osdp_mp_reasm_push (Some reasm) (Some frag) (Some OSDP_MP_IN_PROGRESS));
      reasm ← lift reasm;
      state ← lift state;
      pd_mfg_reasm ::= reasm;;
      if decide (s ≠ OSDP_OK) then (r ← mfg_refuse; mret (Some r)) else
      match state with
      | OSDP_MP_COMPLETE => r ← mfg_complete mfg_cb; mret (Some r)
      | _ => mret (Some (OSDP_PD_DISPATCH_SEND, ack_reply))
      end
  end.

(** ** Dispatch *)

(** The commands the library answers by itself. *)
Definition library_command (cmd_code : Z) (payload : ptr) (payload_len : nat)
  : option (PD W osdp_pd_reply) :=
  if decide (cmd_code = OSDP_CMD_COMSET) then Some (handle_comset payload payload_len) else
  if decide (cmd_code = OSDP_CMD_FILETRANSFER) then Some (handle_filetransfer payload payload_len) else
  if decide (cmd_code = OSDP_CMD_ABORT) then Some handle_abort else
  if decide (cmd_code = OSDP_CMD_ACURXSIZE) then Some (handle_acurxsize payload payload_len) else
  if decide (cmd_code = OSDP_CMD_KEEPACTIVE) then Some (handle_keepactive payload payload_len) else None.

(** The optional library answers tried next, in order. *)
Definition bound_command (cmd_code : Z) (payload : ptr) (payload_len : nat)
  : PD W (option (osdp_pd_dispatch_outcome * osdp_pd_reply)) :=
  r ← handle_status_request cmd_code;
  match r with
  | Some reply => mret (Some (OSDP_PD_DISPATCH_SEND, reply))
  | None =>
      r ← (if decide (cmd_code = OSDP_CMD_CAP) then handle_pdcap else mret None);
      match r with
      | Some reply => mret (Some (OSDP_PD_DISPATCH_SEND, reply))
      | None =>
          r ← (if decide (cmd_code = OSDP_CMD_MFG) then handle_mfg_multipart payload payload_len
               else mret None);
          match r with
          | Some res => mret (Some res)
          | None =>
              r ← (if decide (cmd_code = OSDP_CMD_POLL) then osdp_pd_internal_dequeue_event
                   else mret None);
              mret ((λ reply, (OSDP_PD_DISPATCH_SEND, reply)) <$> r)
          end
      end
  end.

(** The application handler, the banks, the verdict and the KEYSET hook. *)
Definition app_command (channel : osdp_pd_channel) (cmd_code : Z) (payload : ptr) (payload_len : nat)
  : PD W (osdp_pd_dispatch_outcome * osdp_pd_reply) :=
  cb ← gets pd_cmd_cb;
  '(app_status, reply) ←
    (match cb with
     | None => mret (OSDP_ERR_NOT_SUPPORTED, ack_reply)
     | Some cmd_cb => host (cmd_cb cmd_code payload payload_len ack_reply)
     end);
  observed ← osdp_pd_internal_observe_command cmd_code payload payload_len;
  let no_opinion := bool_decide (app_status = OSDP_ERR_NOT_SUPPORTED) &&
    osdp_pd_internal_is_observed_command cmd_code in
  let reply := if no_opinion && bool_decide (observed = OSDP_OK) then ack_reply else reply in
  let app_status := if no_opinion then observed else app_status in
  '(outcome, reply) ← apply_app_status app_status reply;
  if decide (outcome ≠ OSDP_PD_DISPATCH_SEND) then mret (outcome, reply) else
  if decide (cmd_code = OSDP_CMD_KEYSET) then
    applied ← apply_keyset_for_channel channel payload payload_len;
    if negb applied then
      r ← nak_into OSDP_NAK_RECORD_INVALID; mret (OSDP_PD_DISPATCH_SEND, r)
    else mret (OSDP_PD_DISPATCH_SEND, reply)
  else mret (OSDP_PD_DISPATCH_SEND, reply).

Definition osdp_pd_internal_dispatch (channel : osdp_pd_channel) (cmd_code : Z) (payload : ptr)
    (payload_len : nat) : PD W (osdp_pd_dispatch_outcome * osdp_pd_reply) :=
  match library_command cmd_code payload payload_len with
  | Some handler => reply ← handler; mret (OSDP_PD_DISPATCH_SEND, reply)
  | None =>
      r ← bound_command cmd_code payload payload_len;
      match r with
      | Some res => mret res
      | None => app_command channel cmd_code payload payload_len
      end
  end.

End ops.
