(* ===== verification/PdSc.v ===== *)
(** * Framing of replies and the Secure Channel of the PD: pd.c (build_reply,
    build_busy, build_nak) and pd_sc.c

    The SCS_11..14 handshake, and SCS_15 / SCS_17 traffic through the dispatch.
    A handler returns the number of bytes in the TX buffer, 0 for no reply. *)
From S2P Require Import Prelude Types State Frame Commands Dispatch ScCrypto ScFrame.
From S2P Require Import PdTypes PdPdcap PdDispatch.

Section ops.
Context {W : Type}.

(** ** Framing (pd.c) *)

(** [osdp_frame_build(&out, pd->tx, pd->tx_cap, out_len)], [*out_len] 0 before. *)
Definition build_into_tx (out : osdp_frame) : PD W (osdp_status * nat) :=
  tx ← gets pd_tx;
  cap ← gets pd_tx_cap;
  '(s, tx, n) ← lift (osdp_frame_build (Some out) tx cap (Some 0));
  pd_tx ::= tx;;
  n ← lift n;
  mret (s, n).

Definition reply_frame (cmd : osdp_frame) (reply : osdp_pd_reply) : osdp_frame :=
  mk_frame (fr_address cmd) true (fr_sequence cmd) (fr_integrity cmd) false 0 0 NULL 0
    (rp_code reply) (rp_payload reply) (rp_payload_len reply) NULL 0 NULL 0.

Definition build_reply (cmd : osdp_frame) (reply : osdp_pd_reply) : PD W (osdp_status * nat) :=
  build_into_tx (reply_frame cmd reply).

Definition busy_frame (cmd : osdp_frame) : osdp_frame :=
  mk_frame (fr_address cmd) true 0 (fr_integrity cmd) false 0 0 NULL 0
    OSDP_REPLY_BUSY NULL 0 NULL 0 NULL 0.

Definition osdp_pd_internal_build_busy (cmd : osdp_frame) : PD W (osdp_status * nat) :=
  pd_reply_cacheable ::= false;;
  build_into_tx (busy_frame cmd).

Definition nak_reply (error_code : Z) : osdp_pd_reply := mk_reply OSDP_REPLY_NAK (Ptr [error_code]) 1.

Definition build_nak (cmd : osdp_frame) (error_code : Z) : PD W (osdp_status * nat) :=
  build_reply cmd (nak_reply error_code).

Definition osdp_pd_internal_build_nak (cmd : osdp_frame) (error_code : Z) : PD W (osdp_status * nat) :=
  build_nak cmd error_code.

Definition osdp_pd_internal_build_reply (cmd : osdp_frame) (reply : osdp_pd_reply)
  : PD W (osdp_status * nat) :=
  build_reply cmd reply.

(** [(void)build_nak(..., &n); return n;] *)
Definition refuse_with (cmd : osdp_frame) (error_code : Z) : PD W nat :=
  '(_, n) ← osdp_pd_internal_build_nak cmd error_code;
  mret n.

(** [return build(...) == OSDP_OK ? built : 0;] *)
Definition length_if_ok (r : osdp_status * nat) : nat := if decide (r.1 = OSDP_OK) then r.2 else 0.

(** ** The handshake (pd_sc.c) *)

Definition select_handshake_key (c : osdp_pd W) (selector : Z) : option (list Z) :=
  let sc := pd_sc c in
  if decide (selector = 1%Z ∧ sc_scbk_set sc = true) then Some (sc_scbk sc)
  else if decide (selector = 0%Z ∧ sc_scbk_d_set sc = true) then Some (sc_scbk_d sc)
  else None.

Definition handshake_frame (c : osdp_pd W) (cmd : osdp_frame) (scb_type selector_or_status reply_code : Z)
    (payload : ptr) (payload_len : nat) : osdp_frame :=
  mk_frame (pd_address c) true (fr_sequence cmd) (fr_integrity cmd) true
    (Z.of_nat (OSDP_SCB_MIN_LEN + 1)) scb_type (Ptr [selector_or_status]) 1
    reply_code payload payload_len NULL 0 NULL 0.

Definition build_handshake_reply (cmd : osdp_frame) (scb_type selector_or_status reply_code : Z)
    (payload : ptr) (payload_len : nat) : PD W (osdp_status * nat) :=
  c ← gets id;
  build_into_tx (handshake_frame c cmd scb_type selector_or_status reply_code payload payload_len).

Definition set_session (g : osdp_sc_session → osdp_sc_session) : PD W unit :=
  with_sc (λ sc, sc <| sc_session := g (sc_session sc) |>).

Definition with_keys (ks : osdp_sc_session_keys) (s : osdp_sc_session) : osdp_sc_session :=
  mk_session ks (last_outbound_mac s) (last_inbound_mac s) (established s).

Definition with_established (b : bool) (s : osdp_sc_session) : osdp_sc_session :=
  mk_session (ss_keys s) (last_outbound_mac s) (last_inbound_mac s) b.

Definition rnd_zero : list Z := replicate OSDP_SC_CRYPTOGRAM_LEN 0%Z.

(** RND.B, the session keys and the client cryptogram: [None] for a failure. *)
Definition chlng_values (cmd : osdp_frame) (selector : Z) (key : list Z)
    (rand : nat → W → osdp_status * list Z * W) : PD W (option (list Z)) :=
  '(s, rnd) ← host (rand OSDP_SC_RND_LEN);
  sc ← gets pd_sc;
  rnd_b ← lift (mwr (sc_rnd_b sc) 0 rnd);
  with_sc (λ sc, sc <| sc_rnd_b := rnd_b |>);;
  if decide (s ≠ OSDP_OK) then mret None else
  rnd_a ← lift (rd_slice (fr_payload cmd) 0 OSDP_SC_RND_LEN);
  with_sc (λ sc, sc <| sc_rnd_a := rnd_a |> <| sc_key_selector := selector |>);;
  sc ← gets pd_sc;
  '(s, keys) ← lift (osdp_sc_derive_session_keys (Some (sc_crypto sc)) (Ptr key) (Ptr (sc_rnd_a sc))
                       (Some (ss_keys (sc_session sc))));
  keys ← lift keys;
  set_session (with_keys keys);;
  if decide (s ≠ OSDP_OK) then mret None else
  '(s, client_crypto) ← lift (osdp_sc_client_cryptogram (Some (sc_crypto sc)) (Ptr (s_enc keys))
                               (Ptr (sc_rnd_a sc)) (Ptr (sc_rnd_b sc)) (Ptr rnd_zero));
  if decide (s ≠ OSDP_OK) then mret None else
  cc ← lift (rd_slice client_crypto 0 OSDP_SC_CRYPTOGRAM_LEN);
  mret (Some (sc_cuid sc ++ sc_rnd_b sc ++ cc)).

Definition handle_chlng (cmd : osdp_frame) : PD W nat :=
  if decide (fr_code cmd ≠ OSDP_CMD_CHLNG) then refuse_with cmd OSDP_NAK_UNKNOWN_CMD else
  if decide (fr_payload_len cmd ≠ OSDP_SC_RND_LEN) then refuse_with cmd OSDP_NAK_CMD_LENGTH else
  if decide (fr_scb_data_len cmd < 1 ∨ fr_scb_data cmd = NULL)
  then refuse_with cmd OSDP_NAK_UNSUPPORTED_SCB else
  selector ← lift (rd (fr_scb_data cmd) 0);
  c ← gets id;
  match select_handshake_key c selector with
  | None => refuse_with cmd OSDP_NAK_UNSUPPORTED_SCB
  | Some key =>
      match rand_bytes (sc_crypto (pd_sc c)) with
      | None => refuse_with cmd OSDP_NAK_UNSUPPORTED_SCB
      | Some rand =>
          values ← chlng_values cmd selector key rand;
          match values with
          | None => mret 0
          | Some reply_payload =>
              '(s, built) ← build_handshake_reply cmd OSDP_SCS_12 selector OSDP_REPLY_CCRYPT
                 (Ptr reply_payload) (OSDP_SC_CUID_LEN + OSDP_SC_RND_LEN + OSDP_SC_CRYPTOGRAM_LEN);
              if decide (s ≠ OSDP_OK) then mret 0 else
              with_sc (λ sc, sc <| sc_got_chlng := true |>);;
              set_session (with_established false);;
              mret built
          end
      end
  end.

(** The wrong cryptogram: RMAC_I with status 0xFF and the handshake over. *)
Definition scrypt_fail (cmd : osdp_frame) : PD W nat :=
  '(_, built) ← build_handshake_reply cmd OSDP_SCS_14 0xFF OSDP_REPLY_RMAC_I (Ptr [0%Z]) 0;
  with_sc (λ sc, sc <| sc_got_chlng := false |>);;
  set_session (with_established false);;
  mret built.

Definition scrypt_accept (cmd : osdp_frame) : PD W nat :=
  sc ← gets pd_sc;
  let ks := ss_keys (sc_session sc) in
  '(s, rmac) ← lift (osdp_sc_initial_rmac (Some (sc_crypto sc)) (Ptr (s_mac1 ks)) (Ptr (s_mac2 ks))
                       (fr_payload cmd) (Ptr rnd_zero));
  if decide (s ≠ OSDP_OK) then mret 0 else
  rmac ← lift (rd_slice rmac 0 OSDP_SC_MAC_LEN);
  '(s, built) ← build_handshake_reply cmd OSDP_SCS_14 0x01 OSDP_REPLY_RMAC_I (Ptr rmac) OSDP_SC_MAC_LEN;
  if decide (s ≠ OSDP_OK) then mret 0 else
  set_session (λ ss, mk_session (ss_keys ss) rmac rmac true);;
  with_sc (λ sc, sc <| sc_got_chlng := false |>);;
  mret built.

Definition handle_scrypt (cmd : osdp_frame) : PD W nat :=
  if decide (fr_code cmd ≠ OSDP_CMD_SCRYPT) then refuse_with cmd OSDP_NAK_UNKNOWN_CMD else
  if decide (fr_payload_len cmd ≠ OSDP_SC_CRYPTOGRAM_LEN) then refuse_with cmd OSDP_NAK_CMD_LENGTH else
  sc ← gets pd_sc;
  if negb (sc_got_chlng sc) then refuse_with cmd OSDP_NAK_UNSUPPORTED_SCB else
  if decide (fr_scb_data_len cmd < 1 ∨ fr_scb_data cmd = NULL)
  then refuse_with cmd OSDP_NAK_UNSUPPORTED_SCB else
  '(s, expected) ← lift (osdp_sc_server_cryptogram (Some (sc_crypto sc))
      (Ptr (s_enc (ss_keys (sc_session sc)))) (Ptr (sc_rnd_a sc)) (Ptr (sc_rnd_b sc)) (Ptr rnd_zero));
  if decide (s ≠ OSDP_OK) then mret 0 else
  expected ← lift (rd_slice expected 0 OSDP_SC_CRYPTOGRAM_LEN);
  sent ← lift (rd_slice (fr_payload cmd) 0 OSDP_SC_CRYPTOGRAM_LEN);
  if decide (expected ≠ sent) then scrypt_fail cmd else scrypt_accept cmd.

(** ** Operational traffic *)

Definition sc_reply_template (cmd : osdp_frame) (reply : osdp_pd_reply) : osdp_frame :=
  mk_frame (fr_address cmd) true (fr_sequence cmd) (fr_integrity cmd) true
    (Z.of_nat OSDP_SCB_MIN_LEN) OSDP_SCS_18 NULL 0
    (rp_code reply) (rp_payload reply) (rp_payload_len reply) NULL 0 NULL 0.

(** Verifying the command: its plaintext length, or [None]. *)
Definition operational_unwrap (cmd : osdp_frame) : PD W (option nat) :=
  c ← gets id;
  '(s, session, plain, n) ← lift (osdp_sc_unwrap_frame (Some (sc_crypto (pd_sc c)))
      (Some (sc_session (pd_sc c))) (Some cmd) (pd_rx_plain c) (pd_rx_plain_cap c) (Some 0));
  session ← lift session;
  set_session (λ _, session);;
  pd_rx_plain ::= plain;;
  if decide (s ≠ OSDP_OK) then mret None else
  n ← lift n;
  mret (Some n).

Definition operational_wrap (cmd : osdp_frame) (reply : osdp_pd_reply) : PD W nat :=
  c ← gets id;
  '(s, session, tx, n) ← lift (osdp_sc_wrap_frame (Some (sc_crypto (pd_sc c)))
      (Some (sc_session (pd_sc c))) (Some (sc_reply_template cmd reply)) (pd_tx c) (pd_tx_cap c) (Some 0));
  session ← lift session;
  set_session (λ _, session);;
  pd_tx ::= tx;;
  if decide (s ≠ OSDP_OK) then mret 0 else
  lift n.

Definition handle_operational (cmd : osdp_frame) : PD W nat :=
  sc ← gets pd_sc;
  if negb (established (sc_session sc)) then refuse_with cmd OSDP_NAK_UNSUPPORTED_SCB else
  plaintext_len ← operational_unwrap cmd;
  match plaintext_len with
  | None => mret 0
  | Some n =>
      plain ← gets pd_rx_plain;
      '(outcome, reply) ← osdp_pd_internal_dispatch OSDP_PD_CH_SC1 (fr_code cmd) plain n;
      match outcome with
      | OSDP_PD_DISPATCH_DROP => mret 0
      | OSDP_PD_DISPATCH_BUSY => r ← osdp_pd_internal_build_busy cmd; mret (length_if_ok r)
      | OSDP_PD_DISPATCH_SEND => operational_wrap cmd reply
      end
  end.

Definition osdp_pd_internal_handle_sc_into_tx (cmd : osdp_frame) : PD W nat :=
  if decide (fr_scb_type cmd = OSDP_SCS_11) then handle_chlng cmd
  else if decide (fr_scb_type cmd = OSDP_SCS_13) then handle_scrypt cmd
  else if decide (fr_scb_type cmd = OSDP_SCS_15 ∨ fr_scb_type cmd = OSDP_SCS_17)
  then handle_operational cmd
  else refuse_with cmd OSDP_NAK_UNSUPPORTED_SCB.

End ops.

(** ** Lemmas: the handshake on the PD *)

Lemma slice_ptr_pos bs : 0 < length bs → slice_ptr bs = Ptr bs.
Proof. intros. unfold slice_ptr. by rewrite decide_True. Qed.

(** A handshake message of either side. *)
Definition hs_frame (address : Z) (reply : bool) (seq integrity ty b code : Z) (payload : list Z)
  : osdp_frame :=
  mk_frame address reply seq integrity true 3 ty (Ptr [b]) 1 code (Ptr payload) (length payload)
    NULL 0 NULL 0.

Definition integrity_ok (i : Z) : Prop := i = OSDP_INTEGRITY_CHECKSUM ∨ i = OSDP_INTEGRITY_CRC.

(** The handshake messages are well-formed frames of a known size. *)
Lemma hs_frame_ok address rpl seq i ty b code payload :
  (0 ≤ address ≤ 0x7F)%Z → (0 ≤ seq ≤ 3)%Z → integrity_ok i → (0x11 ≤ ty ≤ 0x14)%Z →
  is_byte b → is_byte code → bytes_ok payload → 0 < length payload ≤ 64 →
  let f := hs_frame address rpl seq i ty b code payload in
  frame_typed f ∧ buildable f ∧ frame_total f ≤ 11 + length payload.
Proof.
  intros Ha Hs Hi Hty Hb Hc Hp Hl. cbv zeta.
  assert (osdp_scb_mac_len ty = 0) as Hm.
  { unfold osdp_scb_mac_len, OSDP_SCS_15, OSDP_SCS_18, OSDP_SCS_25, OSDP_SCS_28.
    by rewrite !decide_False by lia. }
  assert (∀ f, fr_integrity f = i → 1 ≤ integrity_size f ≤ 2) as Hisz
    by (intros; unfold integrity_size; case_decide; lia).
  specialize (Hisz (hs_frame address rpl seq i ty b code payload) eq_refl).
  assert (frame_total (hs_frame address rpl seq i ty b code payload) ≤ 11 + length payload) as Htot.
  { unfold frame_total, OSDP_FRAME_HEADER_LEN, mac_needed. cbn [hs_frame fr_has_scb fr_scb_type].
    rewrite Hm. change (scb_total_of (hs_frame address rpl seq i ty b code payload)) with 3.
    cbn [fr_payload_len hs_frame]. lia. }
  split_and!; [| |done].
  - constructor; cbn; unfold is_byte in *; first [lia | done | idtac]. split; [lia|by constructor].
  - constructor; cbn [hs_frame fr_address fr_sequence fr_integrity fr_has_scb fr_scb_length fr_scb_type
      fr_scb_data fr_scb_data_len fr_payload fr_payload_len fr_mac fr_mac_len mac_needed]; rewrite ?Hm;
      first [lia | done | idtac].
    + intros _. split_and!; first [done|vm_compute; lia].
    + unfold OSDP_FRAME_MAX_LEN. lia.
Qed.

(** What the decoder hands out for such a message. *)
Lemma hs_frame_decoded address rpl seq i ty b code payload :
  0 < length payload →
  let d := decoded_of (hs_frame address rpl seq i ty b code payload) in
  fr_scb_data d = Ptr [b] ∧ fr_payload d = Ptr payload.
Proof.
  intros Hp. cbn [decoded_of hs_frame fr_scb_data fr_payload fr_has_scb fr_scb_data_len fr_payload_len view].
  rewrite firstn_all. split; [done|by apply slice_ptr_pos].
Qed.

(** Working regions hold what they claim. *)
Definition region (p : ptr) (cap : nat) : Prop :=
  match p with NULL => False | Ptr m => cap ≤ length m end.

(** The framed message in a region. *)
Definition framed (f : osdp_frame) (tx : ptr) : ptr :=
  match tx with
  | NULL => NULL
  | Ptr m => Ptr (OSDP_FRAME_MARK :: frame_wire f ++ drop (S (frame_total f)) m)
  end.

Lemma framed_read f tx cap :
  frame_typed f → buildable f → region tx cap →
  rd_slice (framed f tx) 0 (S (frame_total f)) = Some (OSDP_FRAME_MARK :: frame_wire f).
Proof.
  intros Ht Hb. destruct tx as [|m]; [done|]. intros _. cbn [framed].
  change (OSDP_FRAME_MARK :: frame_wire f ++ ?r) with ((OSDP_FRAME_MARK :: frame_wire f) ++ r).
  apply rd_front. cbn [length]. by rewrite length_frame_wire.
Qed.

Lemma framed_region f tx cap :
  frame_typed f → buildable f → region tx cap → S (frame_total f) ≤ cap → region (framed f tx) cap.
Proof.
  intros Ht Hb. destruct tx as [|m]; [done|]. intros Hl Hc. cbn [framed region] in *.
  cbn [length]. rewrite length_app, length_drop, length_frame_wire by done. lia.
Qed.

Lemma build_into_tx_ok {W} (out : osdp_frame) (p : osdp_pd W) w :
  frame_typed out → buildable out → region (pd_tx p) (pd_tx_cap p) → S (frame_total out) ≤ pd_tx_cap p →
  build_into_tx out p w = Some ((OSDP_OK, S (frame_total out)), p <| pd_tx := framed out (pd_tx p) |>, w).
Proof.
  intros Ht Hb Hr Hc. unfold build_into_tx. m_run. destruct (pd_tx p) as [|m] eqn:Em; [done|].
  rewrite (run_lift _ _ _ _ _ (osdp_frame_build_ok out m (pd_tx_cap p) 0 Ht Hb ltac:(unfold OSDP_FRAME_MARK_LEN; lia) Hr)).
  m_run. done.
Qed.

Section handshake.
Context {W : Type} (cr : osdp_sc_crypto W) (E D : list Z → list Z → list Z) {A : Aes cr E D}.

(** CHLNG: RND.B is drawn, the session keys derived, and CCRYPT answered. *)
Lemma handle_chlng_ok (p : osdp_pd W) address seq i sel ra rb key w w' rand :
  let cmd := decoded_of (hs_frame address false seq i OSDP_SCS_11 sel OSDP_CMD_CHLNG ra) in
  rnd_ok ra → rnd_ok rb → block key → (0 ≤ seq ≤ 3)%Z → integrity_ok i →
  (0 ≤ pd_address p ≤ 0x7F)%Z → is_byte sel →
  sc_crypto (pd_sc p) = cr → rand_bytes cr = Some rand → rand OSDP_SC_RND_LEN w = (OSDP_OK, rb, w') →
  select_handshake_key p sel = Some key →
  length (sc_rnd_b (pd_sc p)) = 8 → length (sc_cuid (pd_sc p)) = 8 → bytes_ok (sc_cuid (pd_sc p)) →
  region (pd_tx p) (pd_tx_cap p) → 44 ≤ pd_tx_cap p →
  let ks := derived_keys E key ra in
  let reply := sc_cuid (pd_sc p) ++ rb ++ E (s_enc ks) (ra ++ rb) in
  let R := hs_frame (pd_address p) true seq i OSDP_SCS_12 sel OSDP_REPLY_CCRYPT reply in
  frame_typed R ∧ buildable R ∧
  handle_chlng cmd p w = Some (S (frame_total R),
    p <| pd_tx := framed R (pd_tx p) |>
      <| pd_sc := (pd_sc p) <| sc_rnd_b := rb |> <| sc_rnd_a := ra |> <| sc_key_selector := sel |>
           <| sc_session := with_established false (with_keys ks (sc_session (pd_sc p))) |>
           <| sc_got_chlng := true |> |>, w').
Proof.
  intros cmd Ba Bb Bk Hseq Hi Ha Hsel Hcr Hr Hrand Hkey Hlb Hlc Hcuid Htx Hcap ks reply R.
  pose proof Ba as [La _]. pose proof Bb as [Lb Yb]. unfold OSDP_SC_RND_LEN in La, Lb.
  destruct (derived_keys_ok cr E D key ra Bk Ba) as (Be & _ & _). fold ks in Be.
  assert (block (E (s_enc ks) (ra ++ rb))) as [Lcc Ycc]
    by (apply (aes_E_block (c := cr)); [done|by apply rnd_pair_block]).
  unfold OSDP_AES_BLOCK_LEN in Lcc.
  assert (length reply = 32 ∧ bytes_ok reply) as [Hlr Hyr].
  { unfold reply. rewrite !length_app, Hlc, Lb, Lcc. split; [done|]. by rewrite !Forall_app. }
  destruct (hs_frame_ok (pd_address p) true seq i OSDP_SCS_12 sel OSDP_REPLY_CCRYPT reply)
    as (Ht & Hb & Htot); [done..|unfold OSDP_SCS_12; lia|done|by vm_decide|done|lia|].
  fold R in Ht, Hb, Htot. split_and!; [done|done|].
  destruct (hs_frame_decoded address false seq i OSDP_SCS_11 sel OSDP_CMD_CHLNG ra) as [Hs Hp]; [lia|].
  fold cmd in Hs, Hp. unfold handle_chlng.
  rewrite Hs, decide_False by (by intros []). rewrite decide_False by (intros []; exact La).
  rewrite decide_False by (intros [Hx|]; [cbn in Hx; lia|done]).
  rewrite (run_lift _ sel) by done. m_run. unfold id. rewrite Hkey, Hcr, Hr.
  unfold chlng_values, set_session, with_sc. m_run. rewrite run_host, Hrand. cbn [fst snd]. m_run.
  rewrite (run_lift _ rb) by (rewrite mwr_0 by lia; rewrite drop_ge, app_nil_r by lia; done). m_run.
  m_ok.
  rewrite Hp, (run_lift _ ra) by (by apply rd_all). m_run. rewrite Hcr.
  rewrite (run_lift _ _ _ _ _ (derive_ok cr E D _ _ key ra _ (rd_block _ Bk) (rd_rnd _ Ba) Bk Ba)).
  fold ks. m_run.
  m_ok.
  unfold osdp_sc_client_cryptogram.
  rewrite (run_lift _ _ _ _ _ (cryptogram_ok cr E D _ _ _ _ ra rb rnd_zero (rd_block _ Be) (rd_rnd _ Ba)
    (rd_rnd _ Bb) Be Ba Bb ltac:(unfold rnd_zero; by rewrite length_replicate))). m_run.
  m_ok. rewrite drop_ge, app_nil_r by (unfold rnd_zero; by rewrite length_replicate).
  rewrite (run_lift _ _ _ _ _ (rd_all _ OSDP_SC_CRYPTOGRAM_LEN Lcc)). m_run.
  change (OSDP_SC_CUID_LEN + OSDP_SC_RND_LEN + OSDP_SC_CRYPTOGRAM_LEN) with 32. fold reply.
  unfold build_handshake_reply. m_run.
  match goal with |- context [handshake_frame ?c0 ?f _ _ _ _ _] =>
    assert (handshake_frame c0 f OSDP_SCS_12 sel OSDP_REPLY_CCRYPT (Ptr reply) 32 = R) as -> end.
  { unfold handshake_frame, R, hs_frame. by rewrite Hlr. }
  erewrite run_bind by (apply build_into_tx_ok; [done|done|exact Htx|read_set; lia]). cbv beta iota.
  m_ok. reflexivity.
Qed.

(** SCRYPT with the right cryptogram: the session opens under the initial R-MAC. *)
Lemma handle_scrypt_ok (p : osdp_pd W) address seq i sel ra rb ks w :
  let server := E (s_enc ks) (rb ++ ra) in
  let cmd := decoded_of (hs_frame address false seq i OSDP_SCS_13 sel OSDP_CMD_SCRYPT server) in
  rnd_ok ra → rnd_ok rb → keys_ok ks → (0 ≤ seq ≤ 3)%Z → integrity_ok i →
  (0 ≤ pd_address p ≤ 0x7F)%Z →
  sc_crypto (pd_sc p) = cr → sc_got_chlng (pd_sc p) = true → ss_keys (sc_session (pd_sc p)) = ks →
  sc_rnd_a (pd_sc p) = ra → sc_rnd_b (pd_sc p) = rb →
  region (pd_tx p) (pd_tx_cap p) → 28 ≤ pd_tx_cap p →
  let rmac := rmac_of E ks server in
  let R := hs_frame (pd_address p) true seq i OSDP_SCS_14 0x01 OSDP_REPLY_RMAC_I rmac in
  frame_typed R ∧ buildable R ∧ block rmac ∧
  handle_scrypt cmd p w = Some (S (frame_total R),
    p <| pd_tx := framed R (pd_tx p) |>
      <| pd_sc := (pd_sc p) <| sc_session := mk_session ks rmac rmac true |> <| sc_got_chlng := false |> |>, w).
Proof.
  intros server cmd Ba Bb Hks Hseq Hi Ha Hcr Hgot Hk Hra Hrb Htx Hcap rmac R.
  pose proof Hks as (Be & B1 & B2).
  assert (block server) as Bs by (apply (aes_E_block (c := cr)); [done|by apply rnd_pair_block]).
  assert (block rmac) as Br by (unfold rmac, rmac_of; do 2 (apply (aes_E_block (c := cr)); [done|]); done).
  pose proof Bs as [Ls Ys]. pose proof Br as [Lr Yr]. unfold OSDP_AES_BLOCK_LEN in Ls, Lr.
  destruct (hs_frame_ok (pd_address p) true seq i OSDP_SCS_14 0x01 OSDP_REPLY_RMAC_I rmac)
    as (Ht & Hb & Htot); [done..|unfold OSDP_SCS_14; lia|by vm_decide|by vm_decide|done|lia|].
  fold R in Ht, Hb, Htot. split_and!; [done..|].
  destruct (hs_frame_decoded address false seq i OSDP_SCS_13 sel OSDP_CMD_SCRYPT server) as [Hs Hp]; [lia|].
  fold cmd in Hs, Hp. unfold handle_scrypt.
  rewrite Hs, decide_False by (by intros []). rewrite decide_False by (intros []; exact Ls). m_run.
  rewrite Hgot. cbn [negb]. rewrite decide_False by (intros [Hx|]; [cbn in Hx; lia|done]).
  rewrite Hcr, Hk, Hra, Hrb. unfold osdp_sc_server_cryptogram.
  rewrite (run_lift _ _ _ _ _ (cryptogram_ok cr E D _ _ _ _ rb ra rnd_zero (rd_block _ Be) (rd_rnd _ Bb)
    (rd_rnd _ Ba) Be Bb Ba ltac:(unfold rnd_zero; by rewrite length_replicate))). m_ok.
  rewrite drop_ge, app_nil_r by (unfold rnd_zero; by rewrite length_replicate). fold server.
  rewrite (run_lift _ _ _ _ _ (rd_all server OSDP_SC_CRYPTOGRAM_LEN Ls)).
  rewrite Hp, (run_lift _ _ _ _ _ (rd_all server OSDP_SC_CRYPTOGRAM_LEN Ls)), decide_False by (by intros []).
  unfold scrypt_accept. m_run. rewrite Hcr, Hk, Hp.
  destruct (initial_rmac_ok cr E D (Ptr (s_mac1 ks)) (Ptr (s_mac2 ks)) (Ptr server) ks server rnd_zero)
    as [Hrm _]; [by apply rd_block..|done|done|unfold rnd_zero; by rewrite length_replicate|].
  rewrite (run_lift _ _ _ _ _ Hrm). m_ok. fold rmac.
  rewrite drop_ge, app_nil_r by (unfold rnd_zero; by rewrite length_replicate).
  rewrite (run_lift _ _ _ _ _ (rd_all rmac OSDP_SC_MAC_LEN Lr)). unfold build_handshake_reply. m_run.
  match goal with |- context [handshake_frame ?c0 ?f _ _ _ _ _] =>
    assert (handshake_frame c0 f OSDP_SCS_14 0x01 OSDP_REPLY_RMAC_I (Ptr rmac) OSDP_SC_MAC_LEN = R) as -> end.
  { unfold handshake_frame, R, hs_frame. by rewrite Lr. }
  erewrite run_bind by (apply build_into_tx_ok; [done|done|exact Htx|lia]). cbv beta iota.
  m_ok. unfold set_session, with_sc. m_run. subst ks. reflexivity.
Qed.

End handshake.
