(* ===== verification/Pd.v ===== *)
(** * The PD state machine: pd.c

    Transmission, the offline and inter-character timeouts, the secure-mode
    policy, the retransmit cache of spec 5.9 and [osdp_pd_tick]. *)
From S2P Require Import Prelude Types State Frame Stream Dispatch ScCrypto ScFrame.
From S2P Require Import PdTypes PdEvents PdPdcap PdBanks PdDispatch PdSc.

Section ops.
Context {W : Type}.

(** ** Transmission *)

(** [while (sent < len)]: a write that accepts nothing ends it. *)
Fixpoint send_loop (fuel : nat) (write : list Z → W → Z * W) (buf : ptr) (len sent : nat) : PD W nat :=
  match fuel with
  | O => lift UB
  | S fuel =>
      if decide (sent < len) then
        bs ← lift (rd_slice buf sent (len - sent));
        n ← host (write bs);
        if decide (n ≤ 0)%Z then mret sent
        else send_loop fuel write buf len (sent + Z.to_nat n)
      else mret sent
  end.

Definition send_bytes (buf : ptr) (len : nat) : PD W unit :=
  t ← gets pd_transport;
  match tr_write t with
  | None => mret tt
  | Some write =>
      if decide (len = 0) then mret tt else
      sent ← send_loop (S len) write buf len 0;
      if decide (sent = 0) then mret tt else
      (match tr_now_ms t with
       | None => mret tt
       | Some now_ms => now ← host now_ms; pd_last_comm_ms ::= now
       end);;
      pd_online ::= true
  end.

(** ** Timeouts *)

Definition check_offline_timeout : PD W unit :=
  c ← gets id;
  if negb (pd_online c) then mret tt else
  match tr_now_ms (pd_transport c) with
  | None => mret tt
  | Some now_ms =>
      now ← host now_ms;
      let elapsed := u32 (now - pd_last_comm_ms c)%Z in
      if decide (OSDP_PD_OFFLINE_TIMEOUT_MS < elapsed)%Z then
        pd_online ::= false;;
        pd_have_last ::= false;;
        c ← gets id;
        c ← lift (osdp_pd_clear_events (Some c));
        modify (λ _, c)
      else mret tt
  end.

Definition check_interchar_timeout : PD W unit :=
  c ← gets id;
  let pending := osdp_stream_pending (Some (pd_rx c)) in
  if decide (pending = 0) then pd_rx_partial_len ::= 0 else
  match tr_now_ms (pd_transport c) with
  | None => mret tt
  | Some now_ms =>
      now ← host now_ms;
      if decide (pending ≠ pd_rx_partial_len c) then
        pd_rx_partial_len ::= pending;;
        pd_rx_partial_ms ::= now
      else if decide (OSDP_PD_INTERCHAR_TIMEOUT_MS ≤ u32 (now - pd_rx_partial_ms c))%Z then
        rx ← lift (osdp_stream_reset (Some (pd_rx c)));
        pd_rx ::= rx;;
        pd_rx_partial_len ::= 0
      else mret tt
  end.

(** ** One command *)

Definition clear_command_allowed_pre_sc (code : Z) : bool :=
  bool_decide (code = OSDP_CMD_ID ∨ code = OSDP_CMD_CAP ∨ code = OSDP_CMD_COMSET).

(** [osdp_sc_session_init(&pd->sc.session); pd->sc.got_chlng = false;] *)
Definition drop_session : PD W unit :=
  sc ← gets pd_sc;
  s ← lift (osdp_sc_session_init (Some (sc_session sc)));
  with_sc (λ sc, sc <| sc_session := s |> <| sc_got_chlng := false |>).

(** A clear-text command that passed the policy. *)
Definition answer_plain (cmd : osdp_frame) : PD W nat :=
  '(outcome, reply) ← osdp_pd_internal_dispatch OSDP_PD_CH_PLAIN (fr_code cmd) (fr_payload cmd)
                        (fr_payload_len cmd);
  match outcome with
  | OSDP_PD_DISPATCH_BUSY => r ← osdp_pd_internal_build_busy cmd; mret (length_if_ok r)
  | OSDP_PD_DISPATCH_DROP => mret 0
  | OSDP_PD_DISPATCH_SEND => r ← build_reply cmd reply; mret (length_if_ok r)
  end.

Definition handle_command_into_tx (cmd : osdp_frame) : PD W nat :=
  c ← gets id;
  if fr_has_scb cmd then
    if osdp_pd_internal_sc_configured (Some c) then osdp_pd_internal_handle_sc_into_tx cmd
    else r ← build_nak cmd OSDP_NAK_UNSUPPORTED_SCB; mret (length_if_ok r)
  else
  let live := established (sc_session (pd_sc c)) in
  (if live then drop_session else mret tt);;
  if live && bool_decide (fr_sequence cmd ≠ 0%Z)
  then refuse_with cmd OSDP_NAK_ENCRYPTION_REQUIRED else
  if sc_scbk_set (pd_sc c) && negb (clear_command_allowed_pre_sc (fr_code cmd))
  then refuse_with cmd OSDP_NAK_ENCRYPTION_REQUIRED else
  answer_plain cmd.

(** ** The retransmit cache *)

(** [memcpy(cache, src, n)]. *)
Definition copy_to (cache src : ptr) (n : nat) : option ptr :=
  bs ← rd_slice src 0 n; wr cache 0 bs.

Definition cache_reply (cmd : osdp_frame) (reply_len : nat) : PD W unit :=
  c ← gets id;
  (if decide (0 < reply_len ≤ pd_rpl_cache_cap c) then
     cache ← lift (copy_to (pd_rpl_cache c) (pd_tx c) reply_len);
     pd_rpl_cache ::= cache;;
     pd_last_reply_len ::= reply_len
   else pd_last_reply_len ::= 0);;
  (if decide (fr_raw cmd ≠ NULL ∧ 0 < fr_raw_len cmd ∧ fr_raw_len cmd ≤ pd_cmd_cache_cap c) then
     cache ← lift (copy_to (pd_cmd_cache c) (fr_raw cmd) (fr_raw_len cmd));
     pd_cmd_cache ::= cache;;
     pd_last_cmd_len ::= fr_raw_len cmd
   else pd_last_cmd_len ::= 0);;
  pd_last_seq ::= fr_sequence cmd;;
  pd_have_last ::= true.

Definition is_retransmit (c : osdp_pd W) (cmd : osdp_frame) : option bool :=
  if decide (fr_sequence cmd = 0%Z ∨ pd_have_last c = false) then Some false else
  if decide (pd_last_cmd_len c = 0 ∨ fr_raw cmd = NULL) then Some false else
  if decide (fr_raw_len cmd ≠ pd_last_cmd_len c) then Some false else
  a ← rd_slice (pd_cmd_cache c) 0 (fr_raw_len cmd);
  b ← rd_slice (fr_raw cmd) 0 (fr_raw_len cmd);
  Some (bool_decide (a = b)).

Definition process_frame (cmd : osdp_frame) : PD W unit :=
  c ← gets id;
  again ← lift (is_retransmit c cmd);
  if (again : bool) then
    if decide (0 < pd_last_reply_len c) then send_bytes (pd_rpl_cache c) (pd_last_reply_len c)
    else mret tt
  else
    pd_reply_cacheable ::= true;;
    built ← handle_command_into_tx cmd;
    c ← gets id;
    (if pd_reply_cacheable c then cache_reply cmd built else pd_have_last ::= false);;
    (if decide (0 < built) then tx ← gets pd_tx; send_bytes tx built else mret tt);;
    pending ← gets pd_comset_pending;
    if (pending : bool) then osdp_pd_internal_apply_comset else mret tt.

(** ** The tick *)

Definition CHUNK : nat := 128.

(** The drain loop: until a read gives nothing or a buffer's worth was read. *)
Fixpoint drain_loop (fuel : nat) (read : nat → W → Z * list Z * W) (drained : nat) : PD W unit :=
  match fuel with
  | O => lift UB
  | S fuel =>
      '(n, bytes) ← host (read CHUNK);
      if decide (n ≤ 0)%Z then mret tt else
      chunk ← lift (mwr (replicate CHUNK 0%Z) 0 bytes);
      rx ← gets pd_rx;
      '(_, rx) ← lift (osdp_stream_feed (Some rx) (Ptr chunk) (Z.to_nat n));
      rx ← lift rx;
      pd_rx ::= rx;;
      let drained := drained + Z.to_nat n in
      if decide (OSDP_STREAM_BUFFER_LEN ≤ drained) then mret tt
      else drain_loop fuel read drained
  end.

(** NAK 0x01 for a damaged command addressed to this PD. *)
Definition answer_damaged (r : osdp_status) (cmd : osdp_frame) : PD W unit :=
  c ← gets id;
  if decide ((r = OSDP_ERR_BAD_CRC ∨ r = OSDP_ERR_BAD_CHECKSUM) ∧ fr_reply cmd = false ∧
             fr_address cmd = pd_address c) then
    '(s, nak_len) ← osdp_pd_internal_build_nak cmd OSDP_NAK_BAD_CHECK;
    if decide (s = OSDP_OK ∧ 0 < nak_len) then tx ← gets pd_tx; send_bytes tx nak_len else mret tt
  else mret tt.

(** The frame loop; [cmd] is the local frame, indeterminate at first. *)
Fixpoint frame_loop (fuel : nat) (cmd : osdp_frame) : PD W unit :=
  match fuel with
  | O => lift UB
  | S fuel =>
      rx ← gets pd_rx;
      '(r, rx, cmd) ← lift (osdp_stream_next (Some rx) (Some cmd));
      rx ← lift rx;
      cmd ← lift cmd;
      pd_rx ::= rx;;
      if decide (r = OSDP_ERR_TRUNCATED) then mret tt else
      (if decide (r ≠ OSDP_OK) then answer_damaged r cmd else
       address ← gets pd_address;
       if fr_reply cmd then mret tt else
       if decide (fr_address cmd ≠ address ∧ fr_address cmd ≠ OSDP_BROADCAST_ADDR) then mret tt else
       process_frame cmd);;
      frame_loop fuel cmd
  end.

Definition osdp_pd_tick : PD W unit :=
  t ← gets pd_transport;
  match tr_read t with
  | None => mret tt
  | Some read =>
      check_offline_timeout;;
      drain_loop (S OSDP_STREAM_BUFFER_LEN) read 0;;
      frame_loop (S OSDP_STREAM_BUFFER_LEN) frame_zero;;
      check_interchar_timeout;;
      now ← pd_now_ms;
      pd_led_refresh now;;
      pd_buz_refresh now
  end.

End ops.

(** ** Lemmas: the retransmit cache *)

Lemma copy_to_ok cache src n cap scap bs :
  region cache cap → region src scap → n ≤ cap → rd_slice src 0 n = Some bs →
  ∃ cache', copy_to cache src n = Some cache' ∧ region cache' cap ∧ rd_slice cache' 0 n = Some bs.
Proof.
  destruct cache as [|m]; [done|]. destruct src as [|ms]; [done|]. cbn [region]. intros Hl _ Hn Hrd.
  unfold copy_to. rewrite Hrd. cbn [rd_slice] in Hrd. apply mslice_inv in Hrd as (Hbs & Hlen & _).
  cbn [mbind option_bind wr]. rewrite mwr_0 by lia. eexists. split; [done|].
  split; [|by apply rd_front]. cbn [region]. solve_len.
Qed.

(** What the cache remembers of an answered command. *)
Record cached {W} (p p' : osdp_pd W) (cmd : osdp_frame) (n : nat) : Prop := {
  cd_state : ∃ rc lr cc lc, p' = p <| pd_rpl_cache := rc |> <| pd_last_reply_len := lr |>
    <| pd_cmd_cache := cc |> <| pd_last_cmd_len := lc |> <| pd_last_seq := fr_sequence cmd |>
    <| pd_have_last := true |>;
  cd_rpl : region (pd_rpl_cache p') (pd_rpl_cache_cap p);
  cd_cmd : region (pd_cmd_cache p') (pd_cmd_cache_cap p);
  cd_rlen : pd_last_reply_len p' = if decide (0 < n ≤ pd_rpl_cache_cap p) then n else 0;
  cd_reply : 0 < pd_last_reply_len p' → rd_slice (pd_rpl_cache p') 0 n = rd_slice (pd_tx p) 0 n;
  cd_clen : pd_last_cmd_len p' = if decide (fr_raw_len cmd ≤ pd_cmd_cache_cap p) then fr_raw_len cmd else 0;
  cd_bytes : 0 < pd_last_cmd_len p' → rd_slice (pd_cmd_cache p') 0 (fr_raw_len cmd) = rd_slice (fr_raw cmd) 0 (fr_raw_len cmd) }.

(** A command as the decoder hands it out. *)
Definition raw_ok (cmd : osdp_frame) : Prop := region (fr_raw cmd) (fr_raw_len cmd) ∧ 0 < fr_raw_len cmd.

Lemma region_read p cap n : region p cap → n ≤ cap → ∃ bs, rd_slice p 0 n = Some bs ∧ length bs = n.
Proof.
  destruct p as [|m]; [done|]. cbn [region rd_slice]. intros Hl Hn. rewrite mslice_Some by lia.
  eexists. split; [done|solve_len].
Qed.

(** The two halves of [cache_reply]. *)
Lemma cache_half {W} (p : osdp_pd W) (ok : Prop) `{Decision ok} cache src n cap scap
    (set_cache : ptr → osdp_pd W → osdp_pd W) (set_len : nat → osdp_pd W → osdp_pd W) (w : W) :
  (ok → n ≤ cap) → region cache cap → region src scap → n ≤ scap →
  (∀ l, set_len l (set_cache cache p) = set_len l p) →
  ∃ c' l, (if decide ok then
       c' ← lift (copy_to cache src n); modify (set_cache c');; modify (set_len n)
     else modify (set_len 0)) p w = Some (tt, set_len l (set_cache c' p), w) ∧
    region c' cap ∧ l = (if decide ok then n else 0) ∧
    (0 < l → rd_slice c' 0 n = rd_slice src 0 n).
Proof.
  intros Hcap Hc Hs Hn Hset. destruct (region_read _ _ n Hs Hn) as (bs & Hb & _). case_decide as Hok.
  - destruct (copy_to_ok _ _ n _ _ bs Hc Hs (Hcap Hok) Hb) as (c' & E & R & E').
    exists c', n. rewrite (run_lift _ _ _ _ _ E). m_run. split_and!; [done|done|done|congruence].
  - exists cache, 0. m_run. rewrite Hset. split_and!; [done|done|done|lia].
Qed.

Lemma cache_reply_ok {W} (p : osdp_pd W) cmd n w :
  region (pd_tx p) (pd_tx_cap p) → n ≤ pd_tx_cap p → raw_ok cmd →
  region (pd_rpl_cache p) (pd_rpl_cache_cap p) → region (pd_cmd_cache p) (pd_cmd_cache_cap p) →
  ∃ p', cache_reply cmd n p w = Some (tt, p', w) ∧ cached p p' cmd n.
Proof.
  intros Htx Hn [Hraw Hpos] Hrpl Hcmd. unfold cache_reply. m_run. unfold id.
  assert (fr_raw cmd ≠ NULL) as Hnn by (by destruct (fr_raw cmd)).
  destruct (cache_half p (0 < n ≤ pd_rpl_cache_cap p) (pd_rpl_cache p) (pd_tx p) n
    (pd_rpl_cache_cap p) (pd_tx_cap p) (λ v c, c <| pd_rpl_cache := v |>)
    (λ v c, c <| pd_last_reply_len := v |>) w) as (rc & lr & E1 & R1 & L1 & B1);
    [tauto|done|done|lia|done|].
  rewrite (run_bind _ _ _ _ _ _ _ E1). cbv beta.
  destruct (cache_half (p <| pd_rpl_cache := rc |> <| pd_last_reply_len := lr |>)
    (fr_raw cmd ≠ NULL ∧ 0 < fr_raw_len cmd ∧ fr_raw_len cmd ≤ pd_cmd_cache_cap p) (pd_cmd_cache p) (fr_raw cmd)
    (fr_raw_len cmd) (pd_cmd_cache_cap p) (fr_raw_len cmd) (λ v c, c <| pd_cmd_cache := v |>)
    (λ v c, c <| pd_last_cmd_len := v |>) w) as (cc & lc & E2 & R2 & L2 & B2);
    [tauto|done|done|lia|done|].
  rewrite (run_bind _ _ _ _ _ _ _ E2). cbv beta. m_run. eexists. split; [done|].
  constructor; read_set; try done.
  - by exists rc, lr, cc, lc.
  - rewrite L2. by_cases; tauto.
Qed.

(** The same command again, bit for bit, is a retransmission. *)
Lemma is_retransmit_cached {W} (p p' : osdp_pd W) cmd n :
  cached p p' cmd n → raw_ok cmd → fr_sequence cmd ≠ 0%Z → fr_raw_len cmd ≤ pd_cmd_cache_cap p →
  is_retransmit p' cmd = Some true.
Proof.
  intros [(rc & lr & cc & lc & Hp') _ _ _ _ Hlen Hb] [Hraw Hpos] Hseq Hle.
  rewrite decide_True in Hlen by done. unfold is_retransmit.
  assert (pd_have_last p' = true) as Hh by (by rewrite Hp'). rewrite Hh, Hlen in *.
  rewrite decide_False by (intros [|]; done).
  rewrite decide_False by (intros [|Hn]; [lia|by rewrite Hn in Hraw]). rewrite decide_False by (by intros []).
  rewrite (Hb Hpos). destruct (region_read _ _ (fr_raw_len cmd) Hraw ltac:(lia)) as (bs & -> & _).
  cbn [mbind option_bind]. by rewrite bool_decide_true.
Qed.
