(* ===== verification/PdInv.v ===== *)
(** * The invariant of the peripheral device

    [pd_inv] is the well-formedness of an osdp_pd_t with a well-behaved host:
    every region holds what its capacity claims, every count is within its
    array, the keys, chains and random numbers have their sizes, the event queue
    and the file receiver represent their specifications.  [safe m Q]: from any
    well-formed context and any host world, [m] has no undefined behaviour and
    leaves the context well-formed, with a result in [Q].  This file proves the
    dispatch safe; PdSafe.v the Secure Channel and the tick. *)
From S2P Require Import Prelude Types State Pack Codec Commands Replies Records Indicators Frame Stream.
From S2P Require Import Multipart Dispatch ScCrypto ScFrame.
From S2P Require Import PdTypes PdEvents PdPdcap PdBanks PdFile PdDispatch PdSc.

(** ** The invariant *)

(** A reply as the application hands it over. *)
Record reply_ok (r : osdp_pd_reply) : Prop := {
  rk_code : is_byte (rp_code r);
  rk_payload : region_ok (rp_payload r) (rp_payload_len r);
  rk_null : 0 < rp_payload_len r → rp_payload r ≠ NULL }.

(** The array-valued status callbacks fill the 64-byte array they are given. *)
Definition status_fn_ok {W} (f : status_fn W) : Prop :=
  ∀ w, let bs := (f (replicate OSDP_PD_REPLY_SCRATCH_LEN 0%Z) OSDP_PD_REPLY_SCRATCH_LEN w).1.2 in
  length bs = OSDP_PD_REPLY_SCRATCH_LEN ∧ bytes_ok bs.

(** What the PD relies on of its host: the documented behaviour of the callbacks
    whose results the library uses. *)
Record host_ok {W} (t : osdp_pd_transport W) (cmd : option (osdp_pd_command_cb W))
    (comset : option (osdp_pd_comset_cb W)) (mfg : option (osdp_pd_mfg_cb W))
    (sp : osdp_pd_status_provider W) : Prop := {
  ho_read : ∀ read n w, tr_read t = Some read → let r := (read n w).1 in
    (r.1 ≤ Z.of_nat n)%Z ∧ length r.2 ≤ n ∧ bytes_ok r.2;
  ho_cmd : ∀ cb code p n r w, cmd = Some cb → reply_ok r → reply_ok (cb code p n r w).1.2;
  ho_comset : ∀ cb a b w, comset = Some cb → is_byte a → is_u32 b →
    is_byte (cb a b a b w).1.1 ∧ is_u32 (cb a b a b w).1.2;
  ho_mfg : ∀ cb v p n r w, mfg = Some cb → reply_ok r → reply_ok (cb v p n r w).1.2;
  ho_local : ∀ f a b w, sp_local sp = Some f → is_byte a → is_byte b →
    is_byte (f a b w).1.1 ∧ is_byte (f a b w).1.2;
  ho_status : ∀ f, sp_inputs sp = Some f ∨ sp_outputs sp = Some f ∨ sp_readers sp = Some f →
    status_fn_ok f }.

(** The event queue: detached, or a compacted queue of records. *)
Definition queue_ok (buf : ptr) (cap len : nat) : Prop :=
  buf = NULL ∨
  ∃ q m, buf = Ptr (queue_bytes q ++ m) ∧ cap ≤ length (queue_bytes q) + length m ∧
    len = length (queue_bytes q) ∧ len ≤ cap ∧ Forall event_ok q.

(** The bound capability records. *)
Definition caps_ok (records : list osdp_pdcap_record) (count : nat) : Prop :=
  length records = OSDP_PD_MAX_PDCAP_RECORDS ∧ count ≤ OSDP_PD_MAX_PDCAP_RECORDS ∧
  Forall (λ r, bindable r = OSDP_OK ∧ pdcap_typed r) (take count records).

Definition bytes_in (p : ptr) : Prop := match p with NULL => True | Ptr m => bytes_ok m end.

(** What no command handler changes: the sizes of the TX and the plaintext
    region, the cipher the host installed, and the byte stream. *)
Class PdFixed (W : Type) : Type := mk_fixed {
  tx_cap : nat;
  plain_cap : nat;
  cipher : osdp_sc_crypto W;
  cipher_set : bool;
  rx_now : osdp_stream }.

(** The cipher vtable: AES on blocks, and random bytes within the request. *)
Definition cipher_ok {W} (c : osdp_sc_crypto W) : Prop :=
  (∃ E D, Aes c E D) ∧
  ∀ rand w, rand_bytes c = Some rand →
    let bs := (rand OSDP_SC_RND_LEN w).1.2 in length bs ≤ OSDP_SC_RND_LEN ∧ bytes_ok bs.

Record sc_ok {W} {TC : PdFixed W} (sc : osdp_pd_sc W) : Prop := {
  so_cipher : sc_crypto sc = cipher;
  so_set : sc_crypto_set sc = cipher_set;
  so_scbk : block (sc_scbk sc);
  so_scbk_d : block (sc_scbk_d sc);
  so_cuid : length (sc_cuid sc) = OSDP_SC_CUID_LEN ∧ bytes_ok (sc_cuid sc);
  so_session : session_blocks (sc_session sc);
  so_rnd_a : rnd_ok (sc_rnd_a sc);
  so_rnd_b : rnd_ok (sc_rnd_b sc) }.

Record pd_inv {W} {TC : PdFixed W} (c : osdp_pd W) : Prop := {
  pi_tx_cap : pd_tx_cap c = tx_cap;
  pi_host : host_ok (pd_transport c) (pd_cmd_cb c) (pd_comset_cb c) (pd_mfg_cb c) (pd_status c);
  pi_sc : sc_ok (pd_sc c);
  pi_cipher : cipher_set = true → cipher_ok cipher;
  pi_address : (0 ≤ pd_address c ≤ 0x7F)%Z;
  pi_rx : pd_rx c = rx_now;
  pi_stream : stream_inv rx_now;
  pi_scratch : length (pd_reply_scratch c) = OSDP_PD_REPLY_SCRATCH_LEN;
  pi_scratch_bytes : bytes_ok (pd_reply_scratch c);
  pi_tx : region (pd_tx c) tx_cap;
  pi_plain_cap : pd_rx_plain_cap c = plain_cap;
  pi_plain : region (pd_rx_plain c) plain_cap;
  pi_plain_bytes : bytes_in (pd_rx_plain c);
  pi_rpl : region (pd_rpl_cache c) (pd_rpl_cache_cap c);
  pi_rpl_len : pd_last_reply_len c ≤ pd_rpl_cache_cap c;
  pi_cmd : region (pd_cmd_cache c) (pd_cmd_cache_cap c);
  pi_cmd_len : pd_last_cmd_len c ≤ pd_cmd_cache_cap c;
  pi_leds : length (pd_leds c) = OSDP_PD_MAX_LEDS;
  pi_buzzers : length (pd_buzzers c) = OSDP_PD_MAX_BUZZERS;
  pi_new_address : (0 ≤ pd_comset_new_address c ≤ 0x7F)%Z;
  pi_file : ∃ st, ft_rep c st;
  pi_caps : caps_ok (pd_pdcap_records c) (pd_pdcap_count c);
  pi_events : queue_ok (pd_event_buf c) (pd_event_cap c) (pd_event_len c);
  pi_mfg : mr_buf (pd_mfg_reasm c) = NULL ∨ reasm_inv (pd_mfg_reasm c);
  pi_vendor : length (pd_mfg_vendor c) = OSDP_MFG_VENDOR_CODE_BYTES }.

(** Re-establishes the invariant after an update from the parts it touches. *)
Ltac inv_with H := destruct H; constructor; read_set; try assumption.

(** ** Safety of a computation *)

Abbreviation safe := (triple pd_inv).

(** ** The indicator banks *)

Section banks.
Context {W : Type} {TC : PdFixed W}.
Implicit Types (p : osdp_pd W) (w : W).

Lemma inv_leds p leds : length leds = OSDP_PD_MAX_LEDS → pd_inv p → pd_inv (p <| pd_leds := leds |>).
Proof. intros ? H. inv_with H. Qed.

Lemma inv_buzzers p bs : length bs = OSDP_PD_MAX_BUZZERS → pd_inv p → pd_inv (p <| pd_buzzers := bs |>).
Proof. intros ? H. inv_with H. Qed.

Lemma pd_now_ms_safe : safe (pd_now_ms : PD W Z) (λ _, True).
Proof.
  apply tr_get. intros p _. destruct (tr_now_ms _); [by apply tr_host|by apply tr_ret].
Qed.

Lemma led_refresh_safe now : safe (pd_led_refresh now : PD W unit) (λ _, True).
Proof.
  apply tr_get. intros p _. destruct (pd_led_cb p) as [cb|]; [|by apply tr_ret].
  apply tr_for. intros i Hi. apply tr_get. intros q Hq. pose proof (pi_leds q Hq) as Hl.
  destruct (lookup_lt_is_Some_2 (pd_leds q) i ltac:(lia)) as [s Hs].
  apply (tr_lift_bind _ _ _ _ Hs). destruct (sl_used s); cbn [negb]; [|by apply tr_ret].
  case_decide; [|by apply tr_ret]. apply tr_modify_bind; [|by apply tr_host_].
  intros. apply inv_leds; [by rewrite length_insert|done].
Qed.

Lemma buz_refresh_safe now : safe (pd_buz_refresh now : PD W unit) (λ _, True).
Proof.
  apply tr_get. intros p _. destruct (pd_buzzer_cb p) as [cb|]; [|by apply tr_ret].
  apply tr_for. intros i Hi. apply tr_get. intros q Hq. pose proof (pi_buzzers q Hq) as Hl.
  destruct (lookup_lt_is_Some_2 (pd_buzzers q) i ltac:(lia)) as [s Hs].
  apply (tr_lift_bind _ _ _ _ Hs). destruct (sb_used s); cbn [negb]; [|by apply tr_ret].
  case_decide; [|by apply tr_ret]. apply tr_modify_bind; [|by apply tr_host_].
  intros. apply inv_buzzers; [by rewrite length_insert|done].
Qed.

Lemma list_find_bound {A} (P : A → Prop) `{∀ x, Decision (P x)} l i x :
  list_find P l = Some (i, x) → i < length l.
Proof. intros (H' & _ & _)%list_find_Some. by apply lookup_lt_Some in H'. Qed.

(** The slot of an indicator is in range. *)
Lemma led_slot_safe r l :
  safe (pd_led_slot r l : PD W (option nat)) (λ o, ∀ k, o = Some k → k < OSDP_PD_MAX_LEDS).
Proof.
  apply tr_get. intros p Hp. pose proof (pi_leds p Hp) as Hl. unfold id, pd_led_slot_find.
  destruct (list_find (led_slot_is r l) (pd_leds p)) as [[i s]|] eqn:E; cbn [fmap option_fmap option_map fst].
  { apply tr_ret. intros k [= <-]. apply list_find_bound in E. lia. }
  clear E. destruct (list_find _ (pd_leds p)) as [[i s]|] eqn:E'; [|by apply tr_ret].
  eapply tr_lift_bind; [reflexivity|]. apply tr_modify_bind.
  - intros. apply inv_leds; [by rewrite length_insert|done].
  - apply tr_ret. intros k [= <-]. apply list_find_bound in E'. lia.
Qed.

Lemma buz_slot_safe r :
  safe (pd_buz_slot r : PD W (option nat)) (λ o, ∀ k, o = Some k → k < OSDP_PD_MAX_BUZZERS).
Proof.
  apply tr_get. intros p Hp. pose proof (pi_buzzers p Hp) as Hl.
  destruct (list_find (buz_slot_is r) (pd_buzzers p)) as [[i s]|] eqn:E.
  { apply tr_ret. intros k [= <-]. apply list_find_bound in E. lia. }
  clear E. destruct (list_find _ (pd_buzzers p)) as [[i s]|] eqn:E'; [|by apply tr_ret].
  eapply tr_lift_bind; [reflexivity|]. apply tr_modify_bind.
  - intros. apply inv_buzzers; [by rewrite length_insert|done].
  - apply tr_ret. intros k [= <-]. apply list_find_bound in E'. lia.
Qed.

(** Reading one record of an osdp_LED payload. *)
Lemma led_record_at_ok m i :
  bytes_ok m → (i + 1) * OSDP_LED_RECORD_BYTES ≤ length m →
  ∃ s r, pd_led_record_at (Ptr m) i = Some (s, r).
Proof.
  unfold OSDP_LED_RECORD_BYTES. intros Hm Hl. unfold pd_led_record_at, ptr_add.
  rewrite decide_True by (unfold OSDP_LED_RECORD_BYTES; lia). cbn [mbind option_bind].
  destruct led_codec_correct as (_ & _ & H & _).
  destruct (H (drop (i * OSDP_LED_RECORD_BYTES) m) OSDP_LED_RECORD_BYTES [led_record_zero] 1 0)
    as (s & a & n & -> & Hc); [by apply Forall_drop| |done|].
  { rewrite length_drop. unfold OSDP_LED_RECORD_BYTES. lia. }
  cbn [mbind option_bind]. assert (is_Some (a !! 0)) as [r ->]; [|by eexists _, _].
  destruct Hc as [(_ & rs & -> & -> & _ & Hw & _)|[(_ & -> & _)|(_ & -> & _)]]; [|done..].
  destruct rs; [|done]. cbn [app]. done.
Qed.

Lemma seen_earlier_ok m rec j n :
  bytes_ok m → (j + n) * OSDP_LED_RECORD_BYTES ≤ length m → ∃ b, seen_earlier (Ptr m) rec j n = Some b.
Proof.
  intros Hm. revert j. induction n as [|n IH]; intros j Hl; cbn [seen_earlier]; [by eexists|].
  destruct (led_record_at_ok m j) as (s & r & ->); [done|unfold OSDP_LED_RECORD_BYTES in *; lia|].
  cbn [mbind option_bind]. case_decide; [by eexists|]. apply IH. unfold OSDP_LED_RECORD_BYTES in *. lia.
Qed.

Lemma can_fit_ok p m i n k :
  bytes_ok m → (i + n) * OSDP_LED_RECORD_BYTES ≤ length m → ∃ b, can_fit_loop p (Ptr m) i n k = Some b.
Proof.
  intros Hm. revert i k. induction n as [|n IH]; intros i k Hl; cbn [can_fit_loop]; [by eexists|].
  destruct (led_record_at_ok m i) as (s & r & ->); [done|unfold OSDP_LED_RECORD_BYTES in *; lia|].
  cbn [mbind option_bind]. case_decide; [by eexists|]. case_decide.
  - apply IH. unfold OSDP_LED_RECORD_BYTES in *. lia.
  - destruct (seen_earlier_ok m r 0 i) as [b ->]; [done|unfold OSDP_LED_RECORD_BYTES in *; lia|].
    cbn [mbind option_bind]. apply IH. unfold OSDP_LED_RECORD_BYTES in *. lia.
Qed.

Lemma led_apply_loop_safe m now i n :
  bytes_ok m → (i + n) * OSDP_LED_RECORD_BYTES ≤ length m →
  safe (led_apply_loop (Ptr m) now i n : PD W osdp_status) (λ _, True).
Proof.
  intros Hm. revert i. induction n as [|n IH]; intros i Hl; cbn [led_apply_loop]; [by apply tr_ret|].
  destruct (led_record_at_ok m i) as (s & r & E); [done|unfold OSDP_LED_RECORD_BYTES in *; lia|].
  apply (tr_lift_bind _ _ _ _ E). case_decide; [by apply tr_ret|].
  eapply tr_bind; [apply led_slot_safe|]. intros [k|] Hk; [|by apply tr_ret].
  apply tr_get. intros p Hp. pose proof (pi_leds p Hp).
  destruct (lookup_lt_is_Some_2 (pd_leds p) k) as [sl Hs]; [specialize (Hk k eq_refl); lia|].
  apply (tr_lift_bind _ _ _ _ Hs). eapply tr_lift_bind; [reflexivity|].
  apply tr_modify_bind.
  - intros. apply inv_leds; [by rewrite length_insert|done].
  - apply IH. unfold OSDP_LED_RECORD_BYTES in *. lia.
Qed.

(** What a handler is given: a payload pointer valid for its length. *)
Definition payload_ok (p : ptr) (n : nat) : Prop := region_ok p n ∧ (0 < n → p ≠ NULL).

(** A decoder on such a payload. *)
Lemma decode_safe {T} `{CodecLaws T} (p : ptr) n (o : T) :
  payload_ok p n → ∃ s v, cd_decode p n (Some o) = Some (s, Some v) ∧ (s = OSDP_OK → cd_typed v ∧ cd_ok v ∧ p ≠ NULL).
Proof.
  intros [Hr Hn]. destruct p as [|m].
  - destruct (cl_null NULL n o None NULL 0 None) as (_ & E & _). eexists _, _. split; [exact E|done].
  - destruct Hr as [Hl Hm]. destruct (cl_decode_sound m n o Hm Hl) as (s & v & E & Hc).
    eexists _, _. split; [exact E|]. intros ->. destruct Hc as [(_ & ? & ? & _)|]; done.
Qed.

Lemma observe_safe code (p : ptr) n :
  payload_ok p n → safe (osdp_pd_internal_observe_command code p n : PD W osdp_status) (λ _, True).
Proof.
  intros Hp. unfold osdp_pd_internal_observe_command. destruct (negb _); [by apply tr_ret|].
  case_decide; [|case_decide; [|by apply tr_ret]].
  - unfold observe_led. case_decide as Hc; [by apply tr_ret|].
    destruct p as [|m]; [tauto|]. destruct Hp as [[Hn Hm] _].
    assert (n / OSDP_LED_RECORD_BYTES * OSDP_LED_RECORD_BYTES ≤ length m).
    { unfold OSDP_LED_RECORD_BYTES. pose proof (Nat.div_mod_eq n 14). lia. }
    apply tr_get. intros c _. unfold pd_led_bank_can_fit.
    destruct (can_fit_ok c m 0 (n / OSDP_LED_RECORD_BYTES) 0) as [b Hb]; [done..|].
    apply (tr_lift_bind _ _ _ _ Hb). destruct b; cbn [negb]; [|by apply tr_ret].
    eapply tr_bind; [apply pd_now_ms_safe|]. intros now _.
    eapply tr_bind; [by apply led_apply_loop_safe|]. intros s _. case_decide; [by apply tr_ret|].
    eapply tr_bind; [apply led_refresh_safe|]. intros [] _. by apply tr_ret.
  - unfold observe_buz. destruct (decode_safe (T := osdp_buz_cmd) p n buz_cmd_zero Hp) as (s & v & E & _).
    apply (tr_lift_bind _ _ _ _ E). case_decide; [by apply tr_ret|].
    eapply tr_lift_bind; [reflexivity|]. eapply tr_bind; [apply pd_now_ms_safe|]. intros now _.
    eapply tr_bind; [apply buz_slot_safe|]. intros [k|] Hk; [|by apply tr_ret].
    apply tr_get. intros c Hc. pose proof (pi_buzzers c Hc).
    destruct (lookup_lt_is_Some_2 (pd_buzzers c) k) as [sl Hs]; [specialize (Hk k eq_refl); lia|].
    apply (tr_lift_bind _ _ _ _ Hs). eapply tr_lift_bind; [reflexivity|].
    apply tr_modify_bind; [intros; apply inv_buzzers; [by rewrite length_insert|done]|].
    eapply tr_bind; [apply buz_refresh_safe|]. intros [] _. by apply tr_ret.
Qed.

End banks.

(** ** Replies in the scratch *)

Section handlers.
Context {W : Type} {TC : PdFixed W}.
Implicit Types (p : osdp_pd W) (w : W).

Lemma inv_scratch p m :
  length m = OSDP_PD_REPLY_SCRATCH_LEN → bytes_ok m → pd_inv p → pd_inv (p <| pd_reply_scratch := m |>).
Proof. intros ?? H. inv_with H. Qed.

Lemma scratch_reply_safe code bs :
  is_byte code → bytes_ok bs → length bs ≤ OSDP_PD_REPLY_SCRATCH_LEN →
  safe (scratch_reply code bs : PD W osdp_pd_reply) reply_ok.
Proof.
  intros Hc Hb Hl. apply tr_get. intros p Hp.
  pose proof (pi_scratch p Hp) as Hs. pose proof (pi_scratch_bytes p Hp) as Hsb.
  assert (length (bs ++ drop (length bs) (pd_reply_scratch p)) = OSDP_PD_REPLY_SCRATCH_LEN) as Hl' by solve_len.
  assert (bytes_ok (bs ++ drop (length bs) (pd_reply_scratch p)))
    by (apply Forall_app; split; [done|by apply Forall_drop]).
  eapply tr_lift_bind; [apply mwr_0; lia|].
  apply tr_modify_bind; [intros; by apply inv_scratch|].
  apply tr_ret. constructor; cbn; [done|split; [solve_len|done]|done].
Qed.

Lemma nak_into_safe e : is_byte e → safe (nak_into e : PD W osdp_pd_reply) reply_ok.
Proof.
  intros. apply scratch_reply_safe; [by vm_decide|by constructor|].
  unfold OSDP_PD_REPLY_SCRATCH_LEN. simpl. lia.
Qed.

(** A builder that stays inside the scratch. *)
Definition builds (build : ptr → option (osdp_status * ptr * option nat)) : Prop :=
  ∀ m, length m = OSDP_PD_REPLY_SCRATCH_LEN → bytes_ok m →
  ∃ s m' n, build (Ptr m) = Some (s, Ptr m', Some n) ∧ length m' = OSDP_PD_REPLY_SCRATCH_LEN ∧
    bytes_ok m' ∧ n ≤ OSDP_PD_REPLY_SCRATCH_LEN.

Lemma built_reply_safe code build :
  is_byte code → builds build → safe (built_reply code build : PD W osdp_pd_reply) reply_ok.
Proof.
  intros Hc Hb. apply tr_get. intros p Hp.
  destruct (Hb (pd_reply_scratch p)) as (s & m & n & E & Hl & Hm & Hn); [apply Hp..|].
  apply (tr_lift_bind _ _ _ _ E). eapply tr_lift_bind; [reflexivity|].
  apply tr_modify_bind; [intros; by apply inv_scratch|].
  case_decide; [apply nak_into_safe; by vm_decide|]. eapply tr_lift_bind; [reflexivity|].
  apply tr_ret. constructor; cbn; [done|split; [lia|done]|done].
Qed.

Lemma front_write m bs :
  length m = OSDP_PD_REPLY_SCRATCH_LEN → bytes_ok m → bytes_ok bs → length bs ≤ OSDP_PD_REPLY_SCRATCH_LEN →
  length (bs ++ drop (length bs) m) = OSDP_PD_REPLY_SCRATCH_LEN ∧ bytes_ok (bs ++ drop (length bs) m).
Proof. intros. split; [solve_len|]. apply Forall_app. split; [done|by apply Forall_drop]. Qed.

(** A codec's builder on a typed value. *)
Lemma codec_builds {T} `{CodecLaws T} (v : T) :
  cd_typed v → cd_buildable v → bytes_ok (cd_wire v) →
  builds (λ buf, cd_build (Some v) buf OSDP_PD_REPLY_SCRATCH_LEN (Some 0)).
Proof.
  intros Ht Hb Hw m Hl Hm. rewrite cl_build by (done || lia). case_decide.
  - destruct (front_write m (cd_wire v)) as [? ?]; [done..|]. eexists _, _, _. split_and!; done.
  - eexists _, _, 0. split_and!; [done..|lia].
Qed.

Lemma report_builds dec bld bs n :
  report_codec_correct dec bld → length bs = OSDP_PD_REPLY_SCRATCH_LEN → bytes_ok bs →
  n ≤ OSDP_PD_REPLY_SCRATCH_LEN →
  builds (λ buf, bld (Ptr bs) n buf OSDP_PD_REPLY_SCRATCH_LEN (Some 0)).
Proof.
  intros (Hb & _) Hl Hbs Hn m Hlm Hm.
  assert (region_ok (Ptr bs) n) as Hr by (split; [lia|done]).
  assert (length (view (Ptr bs) n) = n) as Hv by (by apply length_view).
  rewrite Hb by (done || lia). rewrite decide_True by done.
  destruct (front_write m (view (Ptr bs) n)) as [? ?]; [done..|by apply view_bytes|lia|].
  rewrite Hv in *. eexists _, _, _. split_and!; done.
Qed.

(** ** COMSET *)

Lemma inv_comset p b a baud :
  (0 ≤ a ≤ 0x7F)%Z → pd_inv p →
  pd_inv (p <| pd_comset_pending := b |> <| pd_comset_new_address := a |> <| pd_comset_new_baud := baud |>).
Proof. intros ? H. inv_with H. Qed.

Lemma com_wire_bytes a b : is_byte a → is_u32 b → bytes_ok ([a] ++ le_split 4 b).
Proof. intros. constructor; [done|apply le_split_bytes]. Qed.

Lemma comset_effective_safe payload n :
  payload_ok payload n →
  safe (osdp_pd_internal_comset_effective payload n : PD W (osdp_status * (Z * Z * list Z)))
    (λ r, r.1 = OSDP_OK → (0 ≤ r.2.1.1 ≤ 0x7F)%Z ∧ bytes_ok r.2.2 ∧ length r.2.2 = OSDP_COM_PAYLOAD_BYTES).
Proof.
  intros Hp. unfold osdp_pd_internal_comset_effective.
  destruct (decode_safe (T := osdp_comset_cmd) payload n comset_zero Hp) as (s & v & E & Hv).
  apply (tr_lift_bind _ _ _ _ E). case_decide as Hs; [by apply tr_ret; intros ?|].
  destruct (Hv Hs) as ([Ha Hb] & _ & _). eapply tr_lift_bind; [reflexivity|].
  apply tr_get. intros c Hc.
  eapply (tr_bind _ _ (λ r, is_byte r.1 ∧ is_u32 r.2)).
  { destruct (pd_comset_cb c) as [cb|] eqn:Ecb; [|by apply tr_ret]. apply tr_host. intros w.
    destruct (pi_host c Hc) as [_ _ Hcs _ _ _]. rewrite Ecb in Hcs.
    specialize (Hcs cb (cs_address v) (cs_baud_rate v) w eq_refl Ha Hb).
    by destruct (cb _ _ _ _ w) as [[? ?] ?]. }
  intros [a b] [Ha' Hb']. cbn [fst snd] in *. apply tr_get. intros q Hq.
  set (addr := if decide (OSDP_PD_MAX_ADDR < a)%Z then pd_address q else a).
  assert (0 ≤ addr ≤ 0x7F)%Z as Haddr.
  { pose proof (pi_address q Hq). unfold addr, OSDP_PD_MAX_ADDR, is_byte in *. case_decide; lia. }
  assert (is_byte addr) as Hab by (unfold is_byte; lia).
  pose proof (cl_build (T := osdp_com) (mk_com addr b) (replicate OSDP_COM_PAYLOAD_BYTES 0%Z)
    OSDP_COM_PAYLOAD_BYTES 0 (conj Hab Hb') I ltac:(by rewrite length_replicate)) as Eb.
  rewrite decide_True in Eb by (vm_compute; lia). apply (tr_lift_bind _ _ _ _ Eb).
  eapply tr_lift_bind; [reflexivity|]. apply tr_ret. intros _. cbn [fst snd].
  split_and!; [lia|lia| |].
  - apply Forall_app. split; [by apply com_wire_bytes|apply Forall_drop; by vm_decide].
  - rewrite length_app, length_drop, length_replicate. vm_compute. done.
Qed.

Lemma handle_comset_safe payload n :
  payload_ok payload n → safe (handle_comset payload n : PD W osdp_pd_reply) reply_ok.
Proof.
  intros Hp. eapply tr_bind; [by apply comset_effective_safe|]. intros [s [[a b] bs]] H. cbn [fst snd] in H.
  case_decide as Hs; [apply nak_into_safe; by vm_decide|].
  destruct (H Hs) as (Ha & Hbs & Hl).
  eapply tr_bind; [apply scratch_reply_safe; [by vm_decide|done|rewrite Hl; vm_compute; lia]|].
  intros r Hr q w Hq. do 3 (apply wp_bind, wp_modify). apply wp_ret. split; [|done].
  by apply inv_comset.
Qed.

Lemma apply_comset_safe : safe (osdp_pd_internal_apply_comset : PD W unit) (λ _, True).
Proof.
  intros p w Hp. unfold osdp_pd_internal_apply_comset. apply wp_bind, wp_modify, wp_bind, wp_gets.
  do 2 (apply wp_bind, wp_modify). unfold id. read_set.
  assert (pd_inv (p <| pd_comset_pending := false |> <| pd_address := pd_comset_new_address p |>
                    <| pd_have_last := false |>)) as Hq by inv_with Hp.
  destruct (pd_comset_applied_cb p); [by apply wp_host_|by apply wp_ret].
Qed.

End handlers.

(** ** FILETRANSFER *)

Section files.
Context {W : Type} {TC : PdFixed W}.
Implicit Types (p : osdp_pd W) (w : W).

(** The context without the transfer. *)
Definition file_rest p : osdp_pd W :=
  p <| pd_file_buf := NULL |> <| pd_ft_active := false |> <| pd_ft_type := 0%Z |>
    <| pd_ft_total := 0%Z |> <| pd_ft_received := 0%Z |>.

Lemma inv_file p p' : pd_inv p → file_rest p' = file_rest p → (∃ st, ft_rep p' st) → pd_inv p'.
Proof.
  intros H E Hft.
  assert (∃ b a t n r, p' = p <| pd_file_buf := b |> <| pd_ft_active := a |> <| pd_ft_type := t |>
    <| pd_ft_total := n |> <| pd_ft_received := r |>) as (b & a & t & n & r & ->).
  { exists (pd_file_buf p'), (pd_ft_active p'), (pd_ft_type p'), (pd_ft_total p'), (pd_ft_received p').
    clear H Hft. destruct p, p'. lazy in E. injection E. intros. subst. reflexivity. }
  inv_with H.
Qed.

Lemma ft_take_keeps cb v : keeps file_rest (ft_take cb v : PD W Z).
Proof. unfold ft_take. keeps_step. Qed.

Lemma ft_begin_rest p v : file_rest (ft_begin p v).1 = file_rest p.
Proof. unfold ft_begin. by repeat case_decide; destruct (pd_ft_active p). Qed.

Lemma filetransfer_keeps payload n : keeps file_rest (osdp_pd_internal_filetransfer payload n : PD W _).
Proof.
  unfold osdp_pd_internal_filetransfer. apply keeps_bind; [apply keeps_gets|]. intros [cb|]; [|apply keeps_ret].
  apply keeps_bind; [apply keeps_lift|]. intros [s v]. case_decide; [apply keeps_ret|].
  apply keeps_bind; [apply keeps_lift|]. intros ft p w a p' w' HR. revert HR. m_run. unfold id.
  pose proof (ft_begin_rest p ft) as Hb. destruct (ft_begin p ft) as [c ok]. cbn [fst] in Hb. m_run.
  intros HR. rewrite <-Hb. refine (keeps_bind file_rest _ _ _ _ c w a p' w' HR).
  - destruct (_ && _); [apply ft_take_keeps|keeps_step].
  - keeps_step.
Qed.

Lemma ftstat_bytes d : is_i16 d → bytes_ok (ftstat_of d) ∧ length (ftstat_of d) = OSDP_FTSTAT_PAYLOAD_BYTES.
Proof.
  intros _. unfold ftstat_of. cbn [cd_wire ftstat_codec]. split; [|done].
  repeat (apply Forall_app; split); [by constructor|apply le_split_bytes..].
Qed.

Lemma handle_filetransfer_safe payload n :
  payload_ok payload n → safe (handle_filetransfer payload n : PD W osdp_pd_reply) reply_ok.
Proof.
  intros Hp. apply (tr_bind _ _ (λ r, r.1 = OSDP_OK →
    ∃ bs, bytes_ok bs ∧ length bs = OSDP_FTSTAT_PAYLOAD_BYTES ∧ r.2 = Ptr bs)).
  - intros p w Hi. pose proof (filetransfer_keeps payload n p w) as Hk.
    destruct (pi_file p Hi) as [st Hst].
    unfold osdp_pd_internal_filetransfer in *. destruct (pd_file_cb p) as [cb|] eqn:Hcb.
    2:{ apply wp_bind, wp_gets. rewrite Hcb. by apply wp_ret. }
    destruct (decode_safe (T := osdp_filetransfer_cmd) payload n ft_zero Hp) as (s & v & E & Hv).
    destruct (decide (s = OSDP_OK)) as [->|Hs].
    2:{ apply wp_bind, wp_gets. rewrite Hcb. apply wp_bind, (wp_lift _ _ _ _ _ E).
        rewrite decide_True by done. apply wp_ret. split; [done|]. cbn. intros ?. done. }
    destruct (Hv eq_refl) as (Ht & Hok & Hnn). destruct payload as [|m]; [done|].
    pose proof (filetransfer_step p w st cb m n v Hcb Hst Ht Hok E) as HS.
    fold (osdp_pd_internal_filetransfer (W := W) (Ptr m) n) in *.
    destruct (admit_fragment (receiver p) st v) as [t|].
    + destruct HS as (info & p' & _ & HR & Hft & _). eapply wp_run; [exact HR|]. split.
      * apply (inv_file p); [done|by apply (Hk _ _ _ HR)|by eexists].
      * intros _. exists (ftstat_of (ft_verdict (cb info w).1 (fi_complete info))).
        destruct (ftstat_bytes _ (verdict_i16 (cb info w).1 (fi_complete info))). by split_and!.
    + destruct HS as (p' & HR & Hft & _). eapply wp_run; [exact HR|]. split.
      * apply (inv_file p); [done|by apply (Hk _ _ _ HR)|by eexists].
      * intros _. exists (ftstat_of OSDP_FTSTAT_ABORT).
        destruct (ftstat_bytes OSDP_FTSTAT_ABORT); [by vm_decide|]. by split_and!.
  - intros [s out] H. cbn [fst snd] in H. case_decide as Hs.
    + case_decide; apply nak_into_safe; by vm_decide.
    + destruct (H Hs) as (bs & Hbs & Hl & ->). eapply tr_lift_bind; [by apply rd_all|].
      apply scratch_reply_safe; [by vm_decide|done|rewrite Hl; vm_compute; lia].
Qed.

End files.

(** ** Status, CAP and events *)

Section queries.
Context {W : Type} {TC : PdFixed W}.
Implicit Types (p : osdp_pd W) (w : W).

Lemma status_request_ok (sp : osdp_pd_status_provider W) code o rc bld :
  status_request sp code = Some (o, rc, bld) →
  (o = sp_inputs sp ∨ o = sp_outputs sp ∨ o = sp_readers sp) ∧ is_byte rc ∧
  ∃ dec, report_codec_correct dec bld.
Proof.
  unfold status_request. repeat case_decide; intros [= <- <- <-]; (split; [by auto|]); split; try by vm_decide.
  - eexists. apply istatr_codec_correct.
  - eexists. apply ostatr_codec_correct.
  - eexists. apply rstatr_codec_correct.
Qed.

Lemma handle_status_request_safe code :
  safe (handle_status_request code : PD W (option osdp_pd_reply)) (λ o, ∀ r, o = Some r → reply_ok r).
Proof.
  apply tr_get. intros p Hp. destruct (pi_host p Hp) as [_ _ _ _ Hlocal Hst].
  assert (∀ m : PD W osdp_pd_reply, safe m reply_ok →
    safe (reply ← m; mret (Some reply)) (λ o, ∀ r, o = Some r → reply_ok r)) as Hsome.
  { intros m Hm. eapply tr_bind; [exact Hm|]. intros r Hr. apply tr_ret. by intros ? [= <-]. }
  case_decide.
  - destruct (sp_local (pd_status p)) as [local|]; [|by apply tr_ret]. apply tr_host_bind. intros w.
    specialize (Hlocal local OSDP_LSTATR_NORMAL OSDP_LSTATR_NORMAL w eq_refl ltac:(by vm_decide) ltac:(by vm_decide)).
    destruct (local _ _ w) as [[tamper power] w1]. cbn [fst snd] in *. destruct Hlocal as [Ht Hpw].
    apply Hsome, built_reply_safe; [by vm_decide|].
    refine (codec_builds (T := osdp_lstatr) (mk_lstatr tamper power) _ _ _); [by split|done|do 2 (apply Forall_cons_2; [done|]); constructor].
  - destruct (status_request (pd_status p) code) as [[[o rc] bld]|] eqn:E; [|by apply tr_ret].
    apply status_request_ok in E as (Ho & Hrc & dec & Hcodec).
    destruct o as [f|]; [|by apply tr_ret]. apply tr_host_bind. intros w.
    assert (status_fn_ok f) as Hf by (apply Hst; destruct Ho as [|[|]]; auto). specialize (Hf w). cbv zeta in Hf.
    destruct (f _ _ w) as [[count bs] w1]. cbn [fst snd] in *. destruct Hf as [Hl Hb].
    apply Hsome, built_reply_safe; [done|]. eapply report_builds; [exact Hcodec|done|done|]. case_decide; lia.
Qed.

Lemma pdcap_wires_bytes rs : Forall pdcap_typed rs → bytes_ok (wires pdcap_wire rs).
Proof.
  unfold wires. induction 1 as [|r rs (? & ? & ?) _ IH]; [by constructor|].
  cbn [fmap list_fmap concat]. apply Forall_app. split; [|exact IH]. do 3 (apply Forall_cons_2; [done|]); constructor.
Qed.

Lemma reserved_typed p : Forall pdcap_typed (reserved_pdcap p).
Proof.
  assert (∀ a b c, is_byte a → is_byte b → is_byte c → pdcap_typed (mk_pdcap a b c)) as H by done.
  unfold reserved_pdcap. apply Forall_cons_2; [|apply Forall_cons_2; [|apply Forall_cons_2; [|constructor]]]; apply H.
  all: first [apply land_FF_byte|destruct (sc_scbk_set _); by vm_decide|by vm_decide].
Qed.

Lemma caps_inv p : pd_inv p → pdcap_inv p.
Proof.
  intros Hp. destruct (pi_caps p Hp) as (? & ? & H). constructor; [done|done|].
  revert H. apply Forall_impl. by intros ? [].
Qed.

(** The report: the computed and the bound records, sorted, at the front of the
    scratch. *)
Lemma handle_pdcap_run p w :
  pd_inv p → pd_pdcap_count p ≠ 0 →
  ∃ rs m, fn_sorted rs ∧ rs ≡ₚ reserved_pdcap p ++ bound_pdcap p ∧
    length m = OSDP_PD_REPLY_SCRATCH_LEN ∧ bytes_ok m ∧ length (wires pdcap_wire rs) ≤ length m ∧
    rd_slice (Ptr m) 0 (length (wires pdcap_wire rs)) = Some (wires pdcap_wire rs) ∧
    handle_pdcap p w = Some (Some (mk_reply OSDP_REPLY_PDCAP (Ptr m) (length (wires pdcap_wire rs))),
      p <| pd_reply_scratch := m |>, w).
Proof.
  intros Hp H0. pose proof (pi_caps p Hp) as (Hlen & Hcount & Hb).
  destruct (gather_ok p (replicate (OSDP_PD_MAX_PDCAP_RECORDS + OSDP_PDCAP_RESERVED_COUNT) (mk_pdcap 0 0 0)))
    as (rs & E & Hsort & Hperm); [by apply caps_inv|rewrite length_replicate; lia|].
  assert (length rs = OSDP_PDCAP_RESERVED_COUNT + pd_pdcap_count p) as Hl.
  { rewrite Hperm, length_app. unfold bound_pdcap. rewrite length_take. simpl. lia. }
  assert (Forall pdcap_typed rs) as Ht.
  { rewrite Hperm. apply Forall_app. split; [apply reserved_typed|].
    unfold bound_pdcap. revert Hb. apply Forall_impl. by intros ? []. }
  assert (length (wires pdcap_wire rs) = length rs * 3) as Hw by (apply (length_wires _ _ _ _ _ pdcap_laws)).
  pose proof (pi_scratch p Hp) as Hs. pose proof (pi_scratch_bytes p Hp) as Hsb.
  assert (length (wires pdcap_wire rs) ≤ OSDP_PD_REPLY_SCRATCH_LEN) as Hfit.
  { rewrite Hw, Hl. unfold OSDP_PD_REPLY_SCRATCH_LEN, OSDP_PDCAP_RESERVED_COUNT, OSDP_PD_MAX_PDCAP_RECORDS in *. lia. }
  destruct (front_write (pd_reply_scratch p) (wires pdcap_wire rs)) as [Hml Hmb]; [done..|by apply pdcap_wires_bytes|done|].
  exists rs, (wires pdcap_wire rs ++ drop (length (wires pdcap_wire rs)) (pd_reply_scratch p)).
  split_and!; [done..|by rewrite Hml|by apply rd_front|].
  unfold handle_pdcap. m_run. unfold id. rewrite decide_False by done. rewrite (run_lift _ _ _ _ _ E).
  unfold built_reply. m_run. rewrite <-Hl, pdcap_build_front.
  destruct pdcap_codec_correct as (Hbld & _ & _).
  rewrite (Hbld rs (pd_reply_scratch p) OSDP_PD_REPLY_SCRATCH_LEN 0) by (done || lia).
  unfold OSDP_PDCAP_RECORD_BYTES. rewrite decide_True by lia. cbn [mem_of]. m_run. by rewrite Hw.
Qed.

Lemma handle_pdcap_safe :
  safe (handle_pdcap : PD W (option osdp_pd_reply)) (λ o, ∀ r, o = Some r → reply_ok r).
Proof.
  intros p w Hp. destruct (decide (pd_pdcap_count p = 0)) as [H0|H0].
  { unfold handle_pdcap. apply wp_bind, wp_gets. unfold id. rewrite decide_True by done. by apply wp_ret. }
  destruct (handle_pdcap_run p w Hp H0) as (rs & m & _ & _ & Hl & Hb & Hfit & _ & E).
  eapply wp_run; [exact E|]. split; [by apply inv_scratch|]. intros r [= <-].
  constructor; cbn [rp_code rp_payload rp_payload_len]; [by vm_decide|by split|done].
Qed.

Lemma dequeue_safe :
  safe (osdp_pd_internal_dequeue_event : PD W (option osdp_pd_reply)) (λ o, ∀ r, o = Some r → reply_ok r).
Proof.
  intros p w Hp. pose proof (pi_events p Hp) as Hq. pose proof (pi_scratch p Hp) as Hs.
  pose proof (pi_scratch_bytes p Hp) as Hsb.
  destruct Hq as [Hnull|(q & m & Hb & Hcap & Hlen & Hle & Hev)].
  { unfold osdp_pd_internal_dequeue_event. apply wp_bind, wp_gets, wp_bind, wp_gets. rewrite Hnull.
    by apply wp_ret. }
  destruct q as [|e q].
  { unfold osdp_pd_internal_dequeue_event. apply wp_bind, wp_gets, wp_bind, wp_gets. rewrite Hb, Hlen.
    by apply wp_ret. }
  assert (queue_rep p (e :: q)) as Hrep.
  { constructor; [by exists m|done|done|done|done]. }
  destruct (dequeue_ok p w e q Hrep) as (r & b & n & s & Hrun & [(m' & Hb' & Hm') Hn Hcap' Hev' Hs'] & Hs2 & -> & _).
  eapply wp_run; [exact Hrun|]. specialize (Hs2 Hsb). revert Hb' Hm' Hn Hcap' Hs'. read_set. intros. split.
  - inv_with Hp. right. by exists q, m'.
  - apply Forall_cons_1 in Hev as [(He & _) _]. case_decide as Hfit; [|done]. intros r [= <-].
    constructor; cbn [rp_code rp_payload rp_payload_len]; [done| |].
    + case_decide; [|done]. split; [lia|done].
    + intros. by rewrite decide_True.
Qed.

End queries.

(** ** The other handlers and the dispatch *)

Section dispatch.
Context {W : Type} {TC : PdFixed W}.
Implicit Types (p : osdp_pd W) (w : W).

Lemma inv_sc p sc : sc_ok sc → pd_inv p → pd_inv (p <| pd_sc := sc |>).
Proof. intros ? H. inv_with H. Qed.

Lemma apply_keyset_safe payload n :
  payload_ok payload n → safe (osdp_pd_internal_apply_keyset payload n : PD W osdp_status) (λ _, True).
Proof.
  intros Hp. unfold osdp_pd_internal_apply_keyset.
  destruct (decode_safe (T := osdp_keyset_cmd) payload n keyset_zero Hp) as (s & v & E & Hv).
  apply (tr_lift_bind _ _ _ _ E). case_decide as Hs; [by apply tr_ret|].
  destruct (Hv Hs) as ((_ & _ & Hr) & [Hl Hn] & _).
  eapply tr_lift_bind; [reflexivity|]. case_decide; [by apply tr_ret|].
  case_decide as Hk; [by apply tr_ret|].
  assert (ks_key_data_len v = 16) as Hlen.
  { destruct (decide (ks_key_data_len v = 16)); [done|]. exfalso. apply Hk. left. unfold OSDP_SC_KEY_LEN. lia. }
  assert (ks_key_data v ≠ NULL) as Hnn by tauto. rewrite Hlen in Hr.
  eapply tr_lift_bind; [apply rd_slice_view; [exact Hr|done]|].
  apply tr_modify_bind; [|by apply tr_ret]. intros p Hi. unfold set at 1. 
  apply inv_sc; [|done]. destruct (pi_sc p Hi). constructor; read_set; try done.
  split; [by apply length_view|by apply view_bytes].
Qed.

Lemma inv_mfg p r : mr_buf r = NULL ∨ reasm_inv r → pd_inv p → pd_inv (p <| pd_mfg_reasm := r |>).
Proof. intros ? H. inv_with H. Qed.

Lemma reset_mfg r : mr_buf r = NULL ∨ reasm_inv r → mr_buf (osdp_mp_reasm_reset r) = NULL ∨ reasm_inv (osdp_mp_reasm_reset r).
Proof.
  intros [?|[Hb [Ht Hc] Hr]]; [by left|]. right. constructor; cbn [osdp_mp_reasm_reset mr_buf mr_cap mr_total mr_received].
  - done.
  - split; [by vm_decide|simpl; lia].
  - lia.
Qed.

Lemma reset_mfg_safe {A} (k : PD W A) Q :
  safe k Q → safe (reasm ← gets pd_mfg_reasm; pd_mfg_reasm ::= osdp_mp_reasm_reset reasm;; k) Q.
Proof.
  intros Hk. apply tr_get. intros p Hp. apply tr_modify_bind; [|done].
  intros. apply inv_mfg; [|done]. apply reset_mfg, Hp.
Qed.

Lemma ack_ok : reply_ok ack_reply.
Proof. constructor; [by vm_decide|done|simpl; lia]. Qed.

Lemma handle_abort_safe : safe (handle_abort : PD W osdp_pd_reply) reply_ok.
Proof.
  unfold handle_abort. apply tr_modify_bind.
  { intros p H. destruct (pi_file p H) as (st & Hb & _). inv_with H. by exists None. }
  apply reset_mfg_safe, tr_get. intros p Hp.
  eapply (tr_bind _ _ (λ _, True)).
  { destruct (pd_abort_cb p); [by apply tr_host|by apply tr_ret]. }
  intros s _. case_decide; [apply nak_into_safe; by vm_decide|apply tr_ret, ack_ok].
Qed.

Lemma handle_acurxsize_safe payload n :
  payload_ok payload n → safe (handle_acurxsize payload n : PD W osdp_pd_reply) reply_ok.
Proof.
  intros Hp. unfold handle_acurxsize.
  destruct (decode_safe (T := osdp_acurxsize_cmd) payload n (mk_acurxsize 0) Hp) as (s & v & E & _).
  apply (tr_lift_bind _ _ _ _ E). case_decide; [apply nak_into_safe; by vm_decide|].
  eapply tr_lift_bind; [reflexivity|]. apply tr_modify_bind; [intros q Hq; inv_with Hq|].
  apply tr_get. intros p _. apply (tr_bind _ _ (λ _, True)).
  - destruct (pd_acurxsize_cb p); [by apply tr_host_|by apply tr_ret].
  - intros [] _. apply tr_ret, ack_ok.
Qed.

Lemma handle_keepactive_safe payload n :
  payload_ok payload n → safe (handle_keepactive payload n : PD W osdp_pd_reply) reply_ok.
Proof.
  intros Hp. apply tr_get. intros p _. destruct (pd_keepactive_cb p) as [cb|].
  2:{ apply nak_into_safe. by vm_decide. }
  destruct (decode_safe (T := osdp_keepactive_cmd) payload n (mk_keepactive 0) Hp) as (s & v & E & _).
  apply (tr_lift_bind _ _ _ _ E). case_decide; [apply nak_into_safe; by vm_decide|].
  eapply tr_lift_bind; [reflexivity|]. apply tr_host_bind. intros w.
  case_decide; [apply nak_into_safe; by vm_decide|apply tr_ret, ack_ok].
Qed.

Lemma nak_send_safe {A} e (f : osdp_pd_reply → A) (Q : A → Prop) :
  is_byte e → (∀ r, reply_ok r → Q (f r)) → safe (r ← nak_into e; mret (f r) : PD W A) Q.
Proof. intros He H. eapply tr_bind; [by apply nak_into_safe|]. intros r Hr. apply tr_ret. auto. Qed.

Lemma apply_app_status_safe s r :
  reply_ok r → safe (apply_app_status s r : PD W _) (λ o, reply_ok o.2).
Proof.
  intros Hr. destruct s; try (by apply tr_ret); by (apply nak_send_safe; [by vm_decide|]).
Qed.

Lemma mfg_refuse_safe : safe (mfg_refuse : PD W _) (λ o, reply_ok o.2).
Proof. apply reset_mfg_safe, nak_send_safe; [by vm_decide|done]. Qed.

Lemma mfg_claim_safe frag v :
  length v = OSDP_MFG_VENDOR_CODE_BYTES → safe (mfg_claim frag v : PD W bool) (λ _, True).
Proof.
  intros Hv. apply tr_get. intros p Hp. pose proof (pi_vendor p Hp) as Hl.
  case_decide; [|by apply tr_ret].
  eapply tr_lift_bind; [apply mslice_Some; lia|]. rewrite drop_0, firstn_all2 by lia.
  eapply tr_lift_bind; [apply mwr_0; lia|].
  apply tr_modify_bind; [|by apply tr_ret]. intros q Hq.
  assert (length (v ++ drop (length v) (pd_mfg_vendor p)) = OSDP_MFG_VENDOR_CODE_BYTES)
    by (rewrite drop_ge, app_nil_r; lia).
  inv_with Hq.
Qed.

Lemma handle_mfg_safe payload n :
  payload_ok payload n →
  safe (handle_mfg_multipart payload n : PD W _) (λ o, ∀ r, o = Some r → reply_ok r.2).
Proof.
  intros Hp. apply tr_get. intros p Hi. destruct (pd_mfg_cb p) as [cb|] eqn:Hcb; [|by apply tr_ret].
  pose proof (ho_mfg _ _ _ _ _ (pi_host p Hi)) as Hmfg.
  destruct (decode_safe (T := osdp_mfg_cmd) payload n mfg_zero Hp) as (s & v & E & Hv).
  apply (tr_lift_bind _ _ _ _ E).
  case_decide as Hs; [apply nak_send_safe; [by vm_decide|]; by intros r Hr ? [= <-]|].
  destruct (Hv Hs) as ((_ & Hlen & Hr) & Hn & _). eapply tr_lift_bind; [reflexivity|].
  assert (safe (r ← mfg_refuse; mret (Some r) : PD W _) (λ o, ∀ r, o = Some r → reply_ok r.2)) as Hrefuse.
  { eapply tr_bind; [apply mfg_refuse_safe|]. intros r Hr'. apply tr_ret. by intros ? [= <-]. }
  assert (∃ s o, osdp_mp_fragment_decode (mg_data v) (mg_data_len v) (Some fragment_zero) = Some (s, Some o) ∧
    (s = OSDP_OK → fragment_typed o ∧ fragment_ok o)) as (s' & o & E' & Ho).
  { destruct (mg_data v) as [|m].
    - eexists _, _. split; [reflexivity|done].
    - destruct Hr as [Hl Hm]. destruct (fragment_decode_cases m (mg_data_len v) fragment_zero Hm Hl)
        as [[o' ->]|(f & -> & ? & ? & _)]; eexists _, _; by split. }
  apply (tr_lift_bind _ _ _ _ E'). case_decide as Hs'; [exact Hrefuse|].
  destruct (Ho Hs') as [Hft Hfo]. eapply tr_lift_bind; [reflexivity|].
  eapply tr_bind; [by apply mfg_claim_safe|]. intros mine _. destruct mine; cbn [negb]; [|exact Hrefuse].
  apply tr_get. intros q Hq.
  assert (∃ s r st, osdp_mp_reasm_push (Some (pd_mfg_reasm q)) (Some o) (Some OSDP_MP_IN_PROGRESS) =
    Some (s, Some r, Some st) ∧ (mr_buf r = NULL ∨ reasm_inv r)) as (s2 & r & st & E2 & Hreasm).
  { destruct (pi_mfg q Hq) as [Hnull|Hinv].
    - eexists _, _, _. unfold osdp_mp_reasm_push. rewrite Hnull. split; [reflexivity|by left].
    - destruct (reasm_push_safe _ _ OSDP_MP_IN_PROGRESS Hinv Hft Hfo) as (s2 & r & st & E2 & ? & _).
      eexists _, _, _. split; [exact E2|by right]. }
  apply (tr_lift_bind _ _ _ _ E2). do 2 (eapply tr_lift_bind; [reflexivity|]).
  apply tr_modify_bind; [intros; by apply inv_mfg|]. case_decide; [exact Hrefuse|].
  destruct st; try (apply tr_ret; intros ? [= <-]; apply ack_ok).
  eapply tr_bind; [|intros x Hx; apply tr_ret; intros ? [= <-]; exact Hx].
  apply tr_get. intros c Hc. apply tr_host_bind. intros w.
  specialize (Hmfg cb (pd_mfg_vendor c) (mr_buf (pd_mfg_reasm c)) (Z.to_nat (mr_total (pd_mfg_reasm c)))
    ack_reply w Hcb ack_ok). unfold id. destruct (cb _ _ _ _ w) as [[a r1] w1]. cbn [fst snd] in *.
  apply tr_modify_bind; [intros; apply inv_mfg; [apply reset_mfg, Hc|done]|].
  by apply apply_app_status_safe.
Qed.

Lemma bound_command_safe code payload n :
  payload_ok payload n →
  safe (bound_command code payload n : PD W _) (λ o, ∀ r, o = Some r → reply_ok r.2).
Proof.
  intros Hp. eapply tr_bind; [apply handle_status_request_safe|].
  intros [r|] Hr; [apply tr_ret; intros ? [= <-]; by apply Hr|]. clear Hr.
  eapply (tr_bind _ _ (λ o, ∀ r, o = Some r → reply_ok r)).
  { case_decide; [apply handle_pdcap_safe|by apply tr_ret]. }
  intros [r|] Hr; [apply tr_ret; intros ? [= <-]; by apply Hr|]. clear Hr.
  eapply (tr_bind _ _ (λ o, ∀ r, o = Some r → reply_ok r.2)).
  { case_decide; [by apply handle_mfg_safe|by apply tr_ret]. }
  intros [r|] Hr; [apply tr_ret; intros ? [= <-]; by apply Hr|]. clear Hr.
  eapply (tr_bind _ _ (λ o, ∀ r, o = Some r → reply_ok r)).
  { case_decide; [apply dequeue_safe|by apply tr_ret]. }
  intros [r|] Hr; apply tr_ret; [|done]. intros ? [= <-]. by apply Hr.
Qed.

Lemma app_command_safe channel code payload n :
  payload_ok payload n → safe (app_command channel code payload n : PD W _) (λ o, reply_ok o.2).
Proof.
  intros Hp. apply tr_get. intros p Hi.
  apply (tr_bind _ _ (λ r, reply_ok r.2)).
  { pose proof (ho_cmd _ _ _ _ _ (pi_host p Hi)) as Hcmd.
    destruct (pd_cmd_cb p) as [cb|]; [|apply tr_ret, ack_ok].
    apply tr_host. intros w. specialize (Hcmd cb code payload n ack_reply w eq_refl ack_ok).
    by destruct (cb _ _ _ _ w) as [[? ?] ?]. }
  intros [s r] Hr. cbn [snd] in Hr. eapply tr_bind; [by apply observe_safe|]. intros observed _. cbv zeta.
  eapply tr_bind.
  { apply apply_app_status_safe. case_match; [apply ack_ok|exact Hr]. }
  intros [outcome r'] Hr'. cbn [snd] in Hr'. case_decide; [by apply tr_ret|].
  case_decide; [|by apply tr_ret].
  apply (tr_bind _ _ (λ _, True)).
  { eapply tr_bind; [by apply apply_keyset_safe|]. intros ? _. by apply tr_ret. }
  intros applied _. destruct applied; cbn [negb]; [by apply tr_ret|].
  by apply nak_send_safe; [by vm_decide|].
Qed.

Lemma dispatch_safe channel code payload n :
  payload_ok payload n → safe (osdp_pd_internal_dispatch channel code payload n : PD W _) (λ o, reply_ok o.2).
Proof.
  intros Hp. unfold osdp_pd_internal_dispatch.
  destruct (library_command code payload n) as [h|] eqn:E.
  - eapply (tr_bind _ _ reply_ok); [|intros r Hr; by apply tr_ret].
    revert E. unfold library_command. repeat case_decide; intros [= <-];
      [by apply handle_comset_safe|by apply handle_filetransfer_safe|apply handle_abort_safe|
       by apply handle_acurxsize_safe|by apply handle_keepactive_safe].
  - eapply tr_bind; [by apply bound_command_safe|].
    intros [r|] Hr; [apply tr_ret; by apply Hr|by apply app_command_safe].
Qed.

End dispatch.
