(* ===== verification/PdLeds.v ===== *)
(** * The LED bank refines a finite map

    What an osdp_LED command means to the PD: a finite map from (reader, LED) to
    the LED's state, each record applied to its key in turn, the whole command
    refused when the map would outgrow the bank.  [bank_rep] relates the slots of
    [pd_leds] to the map; the refresh reports every LED whose colour changed. *)
From stdpp Require Import gmap.
From S2P Require Import Prelude Types State Commands Records Indicators Dispatch ScFrame PdTypes PdBanks PdInv.

Abbreviation led_key := (Z * Z)%type.
Abbreviation led_bank := (gmap led_key osdp_led).

Definition key_of (r : osdp_led_record) : led_key := (lr_reader_no r, lr_led_no r).
Definition slot_key (s : osdp_pd_led_slot) : led_key := (sl_reader_no s, sl_led_no s).

(** ** The specification *)

Definition led_after (now : Z) (r : osdp_led_record) (st : osdp_led) : osdp_led :=
  default st (osdp_led_apply (Some st) (Some r) now).

Definition record_step (now : Z) (b : led_bank) (r : osdp_led_record) : led_bank :=
  <[key_of r := led_after now r (default led_zero (b !! key_of r))]> b.

(** A whole command, or nothing. *)
Definition led_command (now : Z) (b : led_bank) (rs : list osdp_led_record) : option led_bank :=
  let b' := foldl (record_step now) b rs in
  if decide (size b' ≤ OSDP_PD_MAX_LEDS) then Some b' else None.

(** What the colour callback has been shown once the refresh at [now] is over, and
    the calls it makes, in slot order. *)
Definition shown (now : Z) (s : osdp_pd_led_slot) : osdp_pd_led_slot :=
  if sl_used s then mk_led_slot (sl_used s) (sl_reader_no s) (sl_led_no s) (osdp_led_color (Some (sl_state s)) now) (sl_state s)
  else s.

Definition show {W} (cb : osdp_pd_led_cb W) (now : Z) (w : W) (s : osdp_pd_led_slot) : W :=
  if sl_used s && negb (bool_decide (osdp_led_color (Some (sl_state s)) now = sl_last_color s))
  then cb (sl_reader_no s) (sl_led_no s) (osdp_led_color (Some (sl_state s)) now) w else w.

(** ** The representation *)

Definition used_slots (leds : list osdp_pd_led_slot) : nat := length (filter (λ s, sl_used s = true) leds).

Record bank_rep (leds : list osdp_pd_led_slot) (b : led_bank) : Prop := {
  br_len : length leds = OSDP_PD_MAX_LEDS;
  br_find : ∀ r l, (λ x : nat * _, sl_state x.2) <$> list_find (led_slot_is r l) leds = b !! (r, l);
  br_size : size b = used_slots leds }.

Lemma list_find_insert {A} (P : A → Prop) `{∀ x, Decision (P x)} l k x y :
  l !! k = Some x → (P x ↔ P y) →
  list_find P (<[k := y]> l) = (λ iz, (iz.1, if decide (iz.1 = k) then y else iz.2)) <$> list_find P l.
Proof.
  revert k. induction l as [|a l IH]; intros k Hk Hxy; [done|]. destruct k as [|k]; simpl in *.
  - injection Hk as ->. by do 2 case_decide; try tauto; destruct (list_find P l) as [[i z]|].
  - case_decide; [done|]. rewrite (IH k) by done. destruct (list_find P l) as [[i z]|]; simpl; [|done].
    by repeat case_decide; simplify_eq.
Qed.

Lemma used_insert leds k s s' : leds !! k = Some s →
  used_slots (<[k := s']> leds) + Nat.b2n (sl_used s) = used_slots leds + Nat.b2n (sl_used s').
Proof.
  unfold used_slots. revert k. induction leds as [|a l IH]; intros k Hk; [done|]. destruct k as [|k]; simpl in *.
  - injection Hk as ->. rewrite !filter_cons. destruct (sl_used s), (sl_used s'); simpl; lia.
  - specialize (IH k Hk). rewrite !filter_cons. case_decide; simpl; lia.
Qed.

Lemma free_used leds : length (filter (λ s, sl_used s = false) leds) + used_slots leds = length leds.
Proof.
  unfold used_slots. induction leds as [|a l IH]; [done|]. rewrite !filter_cons. destruct (sl_used a); simpl; lia.
Qed.

Lemma all_used leds : Forall (λ s, ¬ sl_used s = false) leds → used_slots leds = length leds.
Proof.
  unfold used_slots. induction 1 as [|a l Ha _ IH]; [done|]. rewrite filter_cons. case_decide; simpl; [by f_equal|].
  by destruct (sl_used a).
Qed.

(** A slot of the bank gets another state or colour. *)
Lemma bank_rep_state leds b k s st color : bank_rep leds b → leds !! k = Some s → sl_used s = true →
  fst <$> list_find (led_slot_is (sl_reader_no s) (sl_led_no s)) leds = Some k →
  bank_rep (<[k := mk_led_slot (sl_used s) (sl_reader_no s) (sl_led_no s) color st]> leds) (<[slot_key s := st]> b).
Proof.
  intros [Hl Hf Hs] Hk Hu Hfirst. constructor.
  - by rewrite length_insert.
  - intros r l. rewrite (list_find_insert _ _ _ s) by done. destruct (decide ((r, l) = slot_key s)) as [E|E].
    + rewrite E, lookup_insert_eq. injection E as -> ->.
      destruct (list_find (led_slot_is (sl_reader_no s) (sl_led_no s)) leds) as [[i z]|]; [|done].
      injection Hfirst as ->. simpl. by rewrite decide_True by done.
    + rewrite lookup_insert_ne by done. rewrite <-Hf.
      destruct (list_find (led_slot_is r l) leds) as [[i z]|] eqn:Ef; simpl; [|done].
      case_decide; [|done]. subst i. apply list_find_Some in Ef as (Ez & (_ & Hr & Hl') & _).
      rewrite Hk in Ez. injection Ez as <-. exfalso. apply E. unfold slot_key. congruence.
  - rewrite map_size_insert. pose proof (used_insert leds k s (mk_led_slot (sl_used s) (sl_reader_no s) (sl_led_no s) color st) Hk) as Hc.
    simpl in Hc. specialize (Hf (sl_reader_no s) (sl_led_no s)).
    destruct (list_find _ leds) as [[i z]|]; [|done]. unfold slot_key. rewrite <-Hf. simpl. lia.
Qed.

(** A free slot is claimed. *)
Lemma bank_rep_claim leds b k s r l color st : bank_rep leds b → leds !! k = Some s → sl_used s = false →
  b !! (r, l) = None → bank_rep (<[k := mk_led_slot true r l color st]> leds) (<[(r, l) := st]> b) ∧
  list_find (led_slot_is r l) (<[k := mk_led_slot true r l color st]> leds) = Some (k, mk_led_slot true r l color st).
Proof.
  intros [Hl Hf Hs] Hk Hu Hn. pose proof (lookup_lt_Some _ _ _ Hk) as Hlt.
  assert (list_find (led_slot_is r l) (<[k := mk_led_slot true r l color st]> leds) = Some (k, mk_led_slot true r l color st)) as Enew.
  { apply list_find_Some. split_and!; [by apply list_lookup_insert_eq|done|]. intros j y Hj Hlj.
    rewrite list_lookup_insert_ne in Hj by lia. specialize (Hf r l). rewrite Hn in Hf.
    destruct (list_find (led_slot_is r l) leds) as [|] eqn:Ef; [done|]. apply list_find_None in Ef.
    rewrite Forall_lookup in Ef. by apply (Ef j). }
  split; [|done]. constructor.
  - by rewrite length_insert.
  - intros r' l'. destruct (decide ((r', l') = (r, l))) as [E|E].
    + rewrite E, lookup_insert_eq. injection E as -> ->. by rewrite Enew.
    + rewrite lookup_insert_ne by done. rewrite <-Hf. rewrite (list_find_insert _ _ _ s); [|done|].
      * destruct (list_find (led_slot_is r' l') leds) as [[i z]|] eqn:Ef; simpl; [|done]. case_decide; [|done].
        subst i. apply list_find_Some in Ef as (Ez & (Hz & _) & _). rewrite Hk in Ez. injection Ez as <-. congruence.
      * unfold led_slot_is. simpl. rewrite Hu. split; [by intros [? _]|]. intros (_ & -> & ->). done.
  - rewrite map_size_insert_None by done.
    pose proof (used_insert leds k s (mk_led_slot true r l color st) Hk) as Hc. rewrite Hu in Hc. simpl in Hc. lia.
Qed.

(** ** The loops *)

Lemma record_at rs ext i r : Forall led_typed rs → rs !! i = Some r →
  pd_led_record_at (Ptr (wires led_wire rs ++ ext)) i = Some (OSDP_OK, r).
Proof.
  intros Ht Hi. apply list_elem_of_split_length in Hi as (rs1 & rs2 & -> & ->).
  apply Forall_app in Ht as [_ Ht]. apply Forall_cons_1 in Ht as [Ht _].
  unfold pd_led_record_at, ptr_add. pose proof (length_wires _ _ _ _ _ led_laws) as Hlen.
  rewrite decide_True by (rewrite length_app, Hlen, length_app; unfold OSDP_LED_RECORD_BYTES; simpl; lia). rewrite bind_Some.
  change (rs1 ++ r :: rs2) with (rs1 ++ [r] ++ rs2). rewrite !wires_app, <-!app_assoc.
  rewrite drop_app_length' by (by rewrite Hlen).
  destruct led_codec_correct as (_ & H & _).
  assert (length (wires led_wire [r]) = OSDP_LED_RECORD_BYTES) as E by (by rewrite Hlen).
  specialize (H [r] (wires led_wire rs2 ++ ext) [led_record_zero] 0). rewrite E in H.
  cbn [length] in H. rewrite H, bind_Some; [done|done|by apply Forall_cons_2|done].
Qed.

Section loops.
Context {W : Type} (rs : list osdp_led_record) (ext : list Z) (Hrs : Forall led_typed rs).
Implicit Types (c : osdp_pd W) (w : W) (b : led_bank).
Local Abbreviation payload := (Ptr (wires led_wire rs ++ ext)).

Lemma seen_spec r j n : j + n ≤ length rs →
  seen_earlier payload r j n = Some (bool_decide (key_of r ∈ key_of <$> take n (drop j rs))).
Proof.
  revert j. induction n as [|n IH]; intros j Hj; cbn [seen_earlier].
  { rewrite bool_decide_eq_false_2; [done|]. rewrite take_0. by apply not_elem_of_nil. }
  destruct (lookup_lt_is_Some_2 rs j ltac:(lia)) as [p Hp]. rewrite (record_at rs ext j p Hrs Hp), bind_Some.
  rewrite (drop_S _ _ _ Hp), firstn_cons, fmap_cons. unfold same_led.
  case_decide as Hs.
  - destruct Hs as [_ Hs%bool_decide_eq_true]. f_equal. symmetry. apply bool_decide_eq_true_2.
    apply elem_of_cons. left. unfold key_of. destruct Hs. congruence.
  - rewrite IH by lia. f_equal. apply bool_decide_ext. rewrite elem_of_cons. split; [by right|].
    intros [E|?]; [|done]. exfalso. apply Hs. split; [done|]. apply bool_decide_eq_true_2.
    unfold key_of in E. by injection E as -> ->.
Qed.

Lemma fold_lookup now b l k :
  is_Some (foldl (record_step now) b l !! k) ↔ is_Some (b !! k) ∨ k ∈ key_of <$> l.
Proof.
  revert b. induction l as [|r l IH]; intros b; cbn [foldl fmap list_fmap].
  - split; [by left|]. intros [?|H]; [done|]. by apply not_elem_of_nil in H.
  - rewrite IH, elem_of_cons. unfold record_step.
    destruct (decide (k = key_of r)) as [->|E].
    + rewrite lookup_insert_eq. split; [by right; left|]. intros _. left. by eexists.
    + rewrite lookup_insert_ne by done. tauto.
Qed.

Lemma fold_size_mono now b l : size b ≤ size (foldl (record_step now) b l).
Proof.
  revert b. induction l as [|r l IH]; intros b; [done|]. cbn [foldl].
  etrans; [|apply IH]. unfold record_step. rewrite map_size_insert. destruct (b !! key_of r); simpl; lia.
Qed.

Lemma find_rep c b r : bank_rep (pd_leds c) b →
  pd_led_slot_find c (lr_reader_no r) (lr_led_no r) = None ↔ b !! key_of r = None.
Proof.
  intros [_ Hf _]. unfold pd_led_slot_find, key_of. rewrite <-Hf.
  by destruct (list_find _ _) as [[i s]|].
Qed.

Lemma can_fit_spec now c b i n needed : bank_rep (pd_leds c) b → i + n = length rs →
  needed + size b = size (foldl (record_step now) b (take i rs)) →
  can_fit_loop c payload i n needed = Some (bool_decide (size (foldl (record_step now) b rs) ≤ OSDP_PD_MAX_LEDS)).
Proof.
  intros Hb. revert i needed. induction n as [|n IH]; intros i needed Hi Hn; cbn [can_fit_loop].
  { rewrite take_ge in Hn by lia. f_equal. apply bool_decide_ext. unfold pd_led_slots_free.
    pose proof (free_used (pd_leds c)). destruct Hb as [Hl _ Hs]. lia. }
  destruct (lookup_lt_is_Some_2 rs i ltac:(lia)) as [r Hr]. rewrite (record_at rs ext i r Hrs Hr), bind_Some.
  rewrite decide_False by auto. pose proof (find_rep c b r Hb) as Hfind.
  pose proof (take_S_r _ _ _ Hr) as Ht. pose proof (fold_lookup now b (take i rs) (key_of r)) as Hlk.
  set (bi := foldl (record_step now) b (take i rs)) in *.
  assert (size (foldl (record_step now) b (take (S i) rs)) =
    (match bi !! key_of r with Some _ => size bi | None => S (size bi) end)) as Hsz.
  { rewrite Ht, foldl_app. cbn [foldl]. fold bi. unfold record_step. rewrite map_size_insert.
    destruct (bi !! key_of r); simpl; lia. }
  destruct (decide (pd_led_slot_find c (lr_reader_no r) (lr_led_no r) ≠ None)) as [Hd|Hd].
  - apply IH; [lia|]. rewrite Hsz, Hn. rewrite Hfind in Hd.
    destruct (bi !! key_of r) eqn:E; [done|]. exfalso. destruct (b !! key_of r); [|done].
    destruct Hlk as [_ Hlk]. destruct Hlk as [? ?]; [by left|done].
  - rewrite seen_spec, bind_Some by lia. rewrite drop_0. apply IH; [lia|]. rewrite Hsz.
    assert (b !! key_of r = None) as Hnone by (apply Hfind; by apply dec_stable).
    rewrite Hnone in Hlk. destruct (bool_decide (key_of r ∈ key_of <$> take i rs)) eqn:Hin;
      [apply bool_decide_eq_true in Hin|apply bool_decide_eq_false in Hin].
    + destruct (bi !! key_of r) eqn:E; [done|]. destruct Hlk as [_ Hlk]. destruct Hlk as [? ?]; [by right|done].
    + destruct (bi !! key_of r) eqn:E; [|lia]. destruct Hlk as [Hlk _]. destruct Hlk as [[? ?]|?]; done.
Qed.

(** The slot of an LED the bank has room for. *)
Lemma led_slot_run c w b r l : bank_rep (pd_leds c) b →
  (b !! (r, l) = None → size b < OSDP_PD_MAX_LEDS) →
  ∃ k s leds, pd_led_slot r l c w = Some (Some k, c <| pd_leds := leds |>, w) ∧
    list_find (led_slot_is r l) leds = Some (k, s) ∧ sl_state s = default led_zero (b !! (r, l)) ∧
    bank_rep leds (<[(r, l) := sl_state s]> b).
Proof.
  intros Hb Hroom. unfold pd_led_slot. m_run. unfold id, pd_led_slot_find.
  pose proof (br_find _ _ Hb r l) as Hf. destruct (list_find (led_slot_is r l) (pd_leds c)) as [[k s]|] eqn:E.
  - simpl in Hf. exists k, s, (pd_leds c). split_and!; [by destruct c|done|by rewrite <-Hf|].
    by rewrite insert_id.
  - simpl in Hf. symmetry in Hf. specialize (Hroom Hf). rewrite Hf. destruct Hb as [Hl Hfind Hs].
    destruct (list_find (λ s, sl_used s = false) (pd_leds c)) as [[k s]|] eqn:Efree.
    + apply list_find_Some in Efree as (Ek & Hu & _). simpl.
      destruct (bank_rep_claim (pd_leds c) b k s r l OSDP_LED_BLACK led_zero) as [Hrep Hnew]; [by constructor|done..|].
      m_run. by eexists _, _, _.
    + exfalso. apply list_find_None, all_used in Efree. lia.
Qed.

Lemma apply_loop_run now c w b i n : bank_rep (pd_leds c) b → i + n = length rs →
  size (foldl (record_step now) b (drop i rs)) ≤ OSDP_PD_MAX_LEDS →
  ∃ leds, led_apply_loop payload now i n c w = Some (OSDP_OK, c <| pd_leds := leds |>, w) ∧
    bank_rep leds (foldl (record_step now) b (drop i rs)).
Proof.
  revert c b i. induction n as [|n IH]; intros c b i Hb Hi Hsz; cbn [led_apply_loop].
  { exists (pd_leds c). rewrite drop_ge by lia. split; [by destruct c|done]. }
  destruct (lookup_lt_is_Some_2 rs i ltac:(lia)) as [r Hr]. rewrite (run_lift _ _ _ _ _ (record_at rs ext i r Hrs Hr)).
  rewrite decide_False by auto. rewrite (drop_S _ _ _ Hr) in *. cbn [foldl] in *.
  destruct (led_slot_run c w b (lr_reader_no r) (lr_led_no r) Hb) as (k & s & leds & E & Ef & Es & Hrep).
  { intros Hn. pose proof (fold_size_mono now (record_step now b r) (drop (S i) rs)) as Hm.
    unfold record_step in Hm at 1. rewrite map_size_insert in Hm. unfold key_of in Hm at 1. rewrite Hn in Hm. simpl in Hm. lia. }
  rewrite (run_bind _ _ _ _ _ _ _ E). m_run. pose proof Ef as (Ek & (Hu & Hkr & Hkl) & _)%list_find_Some.
  rewrite (run_lift _ s) by done. m_run.
  pose proof (bank_rep_state leds _ k s (led_after now r (sl_state s)) (sl_last_color s) Hrep Ek Hu) as Hrep'.
  rewrite Hkr, Hkl, Ef in Hrep'. specialize (Hrep' eq_refl). unfold slot_key in Hrep'.
  rewrite Hkr, Hkl, insert_insert_eq in Hrep'.
  assert (<[(lr_reader_no r, lr_led_no r) := led_after now r (sl_state s)]> b = record_step now b r) as Eb.
  { unfold record_step, key_of. by rewrite Es. }
  rewrite Eb in Hrep'. cbn [osdp_led_apply]. m_run.
  destruct (IH (c <| pd_leds := leds |> <| pd_leds := <[k := mk_led_slot (sl_used s) (sl_reader_no s) (sl_led_no s)
    (sl_last_color s) (led_after now r (sl_state s))]> leds |>) (record_step now b r) (S i)) as (leds' & E' & Hrep'').
  - rewrite Hkr, Hkl. exact Hrep'.
  - lia.
  - done.
  - exists leds'. split; [exact E'|done].
Qed.
End loops.

(** ** The refresh *)

Lemma refresh_slot_run {W} (cb : osdp_pd_led_cb W) now (c : osdp_pd W) w i s : pd_leds c !! i = Some s →
  led_refresh_slot cb now i c w = Some (tt, c <| pd_leds := <[i := shown now s]> (pd_leds c) |>, show cb now w s).
Proof.
  intros Hi. unfold led_refresh_slot, shown, show. m_run. rewrite (run_lift _ s) by done.
  assert (c = c <| pd_leds := <[i := s]> (pd_leds c) |>) as Hid by (rewrite list_insert_id by done; by destruct c).
  destruct (sl_used s) eqn:Hu; cbn [negb andb]; [|by rewrite <-Hid].
  destruct (decide (osdp_led_color (Some (sl_state s)) now = sl_last_color s)) as [Hb|Hb].
  2: { rewrite decide_True, bool_decide_eq_false_2 by done. done. }
  rewrite decide_False, bool_decide_eq_true_2 by auto. cbn [negb]. m_run.
  rewrite Hb. replace (mk_led_slot true (sl_reader_no s) (sl_led_no s) (sl_last_color s) (sl_state s)) with s; [by rewrite <-Hid|].
  destruct s; simpl in *; congruence.
Qed.

Lemma refresh_loop_run {W} (cb : osdp_pd_led_cb W) now (c : osdp_pd W) w done_ todo :
  pd_leds c = done_ ++ todo →
  for_m (led_refresh_slot cb now) (length done_) (length todo) c w =
    Some (tt, c <| pd_leds := done_ ++ (shown now <$> todo) |>, foldl (show cb now) w todo).
Proof.
  revert c w done_. induction todo as [|s todo IH]; intros c w done_ Hc; cbn [length for_m].
  { m_run. rewrite fmap_nil. rewrite <-Hc. by destruct c. }
  rewrite (run_bind _ _ _ _ _ _ _ (refresh_slot_run cb now c w (length done_) s
    ltac:(rewrite Hc, lookup_app_r, Nat.sub_diag by lia; done))).
  rewrite Hc, insert_app_r_alt, Nat.sub_diag by lia. cbn [list_insert].
  specialize (IH (c <| pd_leds := done_ ++ shown now s :: todo |>) (show cb now w s) (done_ ++ [shown now s])).
  rewrite length_app in IH. simpl length in IH. rewrite Nat.add_1_r in IH.
  etrans; [apply IH; by rewrite <-app_assoc|]. rewrite <-app_assoc. done.
Qed.

(** Every LED whose colour at [now] is not the one last shown is reported, in slot
    order, and nothing else. *)
Lemma refresh_run {W} (c : osdp_pd W) now w : length (pd_leds c) = OSDP_PD_MAX_LEDS →
  pd_led_refresh now c w = match pd_led_cb c with
    | None => Some (tt, c, w)
    | Some cb => Some (tt, c <| pd_leds := shown now <$> pd_leds c |>, foldl (show cb now) w (pd_leds c))
    end.
Proof.
  intros Hl. unfold pd_led_refresh. m_run. destruct (pd_led_cb c) as [cb|]; [|done].
  rewrite <-Hl. exact (refresh_loop_run cb now c w [] (pd_leds c) eq_refl).
Qed.

Lemma shown_rep now leds b : bank_rep leds b → bank_rep (shown now <$> leds) b.
Proof.
  assert (∀ s, sl_used (shown now s) = sl_used s ∧ sl_reader_no (shown now s) = sl_reader_no s ∧
    sl_led_no (shown now s) = sl_led_no s ∧ sl_state (shown now s) = sl_state s) as Hs.
  { intros s. unfold shown. by destruct (sl_used s) eqn:E. }
  intros [Hl Hf Hu]. constructor.
  - by rewrite length_fmap.
  - intros r l. rewrite <-Hf. clear -Hs. induction leds as [|s leds IH]; [done|]. cbn [fmap list_fmap list_find].
    destruct (Hs s) as (E1 & E2 & E3 & E4). change (list_fmap _ _ (shown now) leds) with (shown now <$> leds).
    destruct (decide (led_slot_is r l s)) as [Hd|Hd].
    + rewrite decide_True by (unfold led_slot_is in *; by rewrite E1, E2, E3). simpl. by rewrite E4.
    + rewrite decide_False by (unfold led_slot_is in *; by rewrite E1, E2, E3).
      destruct (list_find _ (shown now <$> leds)) as [[]|], (list_find _ leds) as [[]|]; simpl in *; congruence.
  - rewrite Hu. unfold used_slots. clear -Hs. induction leds as [|s leds IH]; [done|].
    cbn [fmap list_fmap]. rewrite !filter_cons. destruct (Hs s) as (E1 & _).
    repeat case_decide; simpl; try (f_equal; exact IH); try exact IH; congruence.
Qed.

(** ** The commands *)

(** The clock as a command reads it, 0 without one. *)
Definition clock {W} (c : osdp_pd W) (w : W) : Z * W :=
  match tr_now_ms (pd_transport c) with Some now_ms => now_ms w | None => (0%Z, w) end.

Lemma now_run {W} (c : osdp_pd W) w : pd_now_ms c w = Some ((clock c w).1, c, (clock c w).2).
Proof.
  unfold pd_now_ms, clock. m_run. destruct (tr_now_ms (pd_transport c)) as [f|]; [|done].
  unfold host. by destruct (f w).
Qed.

(** The state of the bank before the refresh, and after it. *)
Definition refreshed {W} (c : osdp_pd W) (now : Z) (leds : list osdp_pd_led_slot) : list osdp_pd_led_slot :=
  match pd_led_cb c with Some _ => shown now <$> leds | None => leds end.

Definition reported {W} (c : osdp_pd W) (now : Z) (leds : list osdp_pd_led_slot) (w : W) : W :=
  match pd_led_cb c with Some cb => foldl (show cb now) w leds | None => w end.

Lemma observe_led_head {W} (c : osdp_pd W) w b rs ext now : Forall led_typed rs → rs ≠ [] → bank_rep (pd_leds c) b →
  osdp_pd_internal_observe_command OSDP_CMD_LED (Ptr (wires led_wire rs ++ ext)) (length (wires led_wire rs)) c w =
    (if bool_decide (size (foldl (record_step now) b rs) ≤ OSDP_PD_MAX_LEDS) then
       (now ← pd_now_ms;
        s ← led_apply_loop (Ptr (wires led_wire rs ++ ext)) now 0 (length rs);
        if decide (s ≠ OSDP_OK) then mret s else pd_led_refresh now;; mret OSDP_OK)
     else mret OSDP_ERR_INVALID_ARG) c w.
Proof.
  intros Ht Hne Hb. unfold osdp_pd_internal_observe_command.
  change (osdp_pd_internal_is_observed_command OSDP_CMD_LED) with true. cbn [negb].
  rewrite decide_True by done. unfold observe_led.
  rewrite (wires_len_mod _ _ _ _ _ led_laws), (wires_len_div _ _ _ _ _ led_laws), (length_wires _ _ _ _ _ led_laws).
  rewrite (decide_False (P := Ptr (wires led_wire rs ++ ext) = NULL ∨ _)).
  2: { intros [?|[Hz|?]]; [done| |done]. destruct rs; [done|]. unfold OSDP_LED_RECORD_BYTES in Hz. simpl in Hz. lia. }
  m_run. unfold id, pd_led_bank_can_fit.
  rewrite (run_lift _ _ _ _ _ (can_fit_spec rs ext Ht now c b 0 (length rs) 0 Hb eq_refl eq_refl)).
  by destruct (bool_decide _).
Qed.

Lemma observe_led_run {W} (c : osdp_pd W) w b rs ext : Forall led_typed rs → rs ≠ [] → bank_rep (pd_leds c) b →
  match led_command (clock c w).1 b rs with
  | Some b' =>
      ∃ leds, bank_rep leds b' ∧
        osdp_pd_internal_observe_command OSDP_CMD_LED (Ptr (wires led_wire rs ++ ext)) (length (wires led_wire rs)) c w =
          Some (OSDP_OK, c <| pd_leds := refreshed c (clock c w).1 leds |>, reported c (clock c w).1 leds (clock c w).2)
  | None =>
      osdp_pd_internal_observe_command OSDP_CMD_LED (Ptr (wires led_wire rs ++ ext)) (length (wires led_wire rs)) c w =
        Some (OSDP_ERR_INVALID_ARG, c, w)
  end.
Proof.
  intros Ht Hne Hb. set (now := (clock c w).1). pose proof (observe_led_head c w b rs ext now Ht Hne Hb) as Ehead.
  unfold led_command. destruct (decide (size (foldl (record_step now) b rs) ≤ OSDP_PD_MAX_LEDS)) as [Hs|Hs].
  2: { by rewrite bool_decide_eq_false_2 in Ehead by done. }
  rewrite bool_decide_eq_true_2 in Ehead by done. rewrite (run_bind _ _ _ _ _ _ _ (now_run c w)) in Ehead.
  destruct (apply_loop_run rs ext Ht now c (clock c w).2 b 0 (length rs) Hb eq_refl Hs) as (leds & E & Hrep).
  fold now in Ehead. rewrite (run_bind _ _ _ _ _ _ _ E) in Ehead. exists leds. split; [done|].
  rewrite Ehead. m_ok. pose proof (refresh_run (c <| pd_leds := leds |>) now (clock c w).2) as Hr.
  change (pd_leds (c <| pd_leds := leds |>)) with leds in Hr. specialize (Hr (br_len _ _ Hrep)).
  change (pd_led_cb (c <| pd_leds := leds |>)) with (pd_led_cb c) in Hr. unfold refreshed, reported.
  destruct (pd_led_cb c); by rewrite (run_bind _ _ _ _ _ _ _ Hr).
Qed.

Lemma led_color_run {W} (c : osdp_pd W) w b r l : bank_rep (pd_leds c) b →
  osdp_pd_led_color r l c w =
    Some (match b !! (r, l) with Some st => osdp_led_color (Some st) (clock c w).1 | None => OSDP_LED_BLACK end,
          c, (clock c w).2).
Proof.
  intros [_ Hf _]. unfold osdp_pd_led_color. rewrite (run_bind _ _ _ _ _ _ _ (now_run c w)). m_run.
  rewrite <-Hf. by destruct (list_find _ _) as [[i s]|].
Qed.

Lemma empty_rep : bank_rep (replicate OSDP_PD_MAX_LEDS (mk_led_slot false 0 0 0 led_zero)) ∅.
Proof. by constructor. Qed.

(** C37: The LED bank refines a finite map.  [osdp_pd_init] starts with the empty map.
    An osdp_LED command of any records is applied to the map record by record, or, when
    the map would outgrow the bank, refused with nothing changed and no callback; a
    payload that is not a whole number of records is refused.  After an accepted
    command the colour callback has been called exactly for the LEDs whose colour
    changed, and a query answers the colour the map holds. *)
Theorem led_bank_refines_map {W} (c : osdp_pd W) w b rs ext :
  Forall led_typed rs → rs ≠ [] → bank_rep (pd_leds c) b →
  (∀ c0 a c1, osdp_pd_init (Some c0) a = Some c1 → bank_rep (pd_leds (W := W) c1) ∅) ∧
  (∀ m n, n mod OSDP_LED_RECORD_BYTES ≠ 0 ∨ n = 0 →
    osdp_pd_internal_observe_command OSDP_CMD_LED (Ptr m) n c w = Some (OSDP_ERR_BAD_PAYLOAD, c, w)) ∧
  (∀ r l, osdp_pd_led_color r l c w =
    Some (match b !! (r, l) with Some st => osdp_led_color (Some st) (clock c w).1 | None => OSDP_LED_BLACK end,
          c, (clock c w).2)) ∧
  match led_command (clock c w).1 b rs with
  | None =>
      osdp_pd_internal_observe_command OSDP_CMD_LED (Ptr (wires led_wire rs ++ ext)) (length (wires led_wire rs)) c w =
        Some (OSDP_ERR_INVALID_ARG, c, w)
  | Some b' =>
      ∃ leds c', bank_rep leds b' ∧ bank_rep (pd_leds c') b' ∧
        osdp_pd_internal_observe_command OSDP_CMD_LED (Ptr (wires led_wire rs ++ ext)) (length (wires led_wire rs)) c w =
          Some (OSDP_OK, c', reported c (clock c w).1 leds (clock c w).2) ∧
        c' = c <| pd_leds := refreshed c (clock c w).1 leds |>
  end.
Proof.
  intros Ht Hne Hb. split_and!.
  - intros c0 a c1. intros [= <-]. apply empty_rep.
  - intros m n Hn. unfold osdp_pd_internal_observe_command.
    change (osdp_pd_internal_is_observed_command OSDP_CMD_LED) with true. cbn [negb]. rewrite decide_True by done.
    unfold observe_led. rewrite decide_True; [done|]. tauto.
  - intros r l. by apply led_color_run.
  - pose proof (observe_led_run c w b rs ext Ht Hne Hb) as H. destruct (led_command _ b rs); [|done].
    destruct H as (leds & Hrep & E). eexists leds, _. split; [done|]. split; [|by split; [exact E|]].
    read_set. unfold refreshed. destruct (pd_led_cb c); [by apply shown_rep|done].
Qed.

(** ** Witness *)

Definition ex_red : osdp_led_record := mk_led_record 0 1 0 0 0 0 0 0 1 10 0 1 0.

Lemma led_bank_refines_map_witness :
  ∃ leds c', bank_rep leds {[ (0%Z, 1%Z) := led_after 0 ex_red led_zero ]} ∧
    bank_rep (pd_leds c') {[ (0%Z, 1%Z) := led_after 0 ex_red led_zero ]} ∧
    osdp_pd_internal_observe_command OSDP_CMD_LED (Ptr (led_wire ex_red)) 14 (pd_zero (W := unit)) tt =
      Some (OSDP_OK, c', tt).
Proof.
  assert (Forall led_typed [ex_red]) as Ht by (repeat constructor; by vm_decide).
  destruct (led_bank_refines_map (W := unit) pd_zero tt ∅ [ex_red] [] Ht ltac:(done) empty_rep)
    as (_ & _ & _ & leds & c' & H1 & H2 & E & _).
  exists leds, c'. by split_and!.
Defined.
