(* ===== verification/PdSafe.v ===== *)
(** * Safety and termination of the peripheral device

    The Secure Channel handlers, the retransmit cache and the tick keep
    [pd_inv]; the fuel of every loop of the model is enough.  With PdInv.v this
    gives the PD's safety theorem: from a well-formed context, with any bytes on
    the line and any well-behaved host, [osdp_pd_tick] ends, touches no memory
    outside its regions and leaves a well-formed context. *)
From S2P Require Import Prelude Types State Pack Codec Commands Frame Stream Dispatch ScCrypto ScFrame.
From S2P Require Import PdTypes PdEvents PdPdcap PdBanks PdDispatch PdSc Pd PdInv.

(** A command as the decoder hands it out. *)
Record cmd_ok (f : osdp_frame) : Prop := {
  ck_typed : frame_typed f;
  ck_buildable : buildable f;
  ck_decoded : f = decoded_of f }.

(** What the stream hands out for a well-formed message. *)
Lemma decoded_cmd_ok f : frame_typed f → buildable f → cmd_ok (decoded_of f).
Proof.
  intros Ht Hb. pose proof (osdp_frame_decode_wire_prefix f [] frame_zero Ht Hb) as E. rewrite app_nil_r in E.
  destruct (osdp_frame_decode_cases (frame_wire f) (length (frame_wire f)) frame_zero) as
    [(s & E' & Hs)|[(F & E' & _)|(F & E' & (H1 & H2 & _ & H3))]]; [by apply frame_wire_bytes|done|..];
    rewrite E in E'; [by injection E' as <-|by destruct (uses_crc F)|].
  injection E' as ->. by constructor.
Qed.

Lemma cmd_payload_ok f : cmd_ok f → payload_ok (fr_payload f) (fr_payload_len f).
Proof. intros [Ht Hb _]. split; [apply Ht|apply Hb]. Qed.

Section framing.
Context {W : Type} {TC : PdFixed W}.
Implicit Types (p : osdp_pd W) (w : W).

Lemma inv_tx p tx : region tx tx_cap → pd_inv p → pd_inv (p <| pd_tx := tx |>).
Proof. intros ? H. inv_with H. Qed.

Lemma build_into_tx_safe (out : osdp_frame) :
  frame_typed out → safe (build_into_tx out : PD W _) (λ r, r.2 ≤ tx_cap).
Proof.
  intros Ht p w Hp. pose proof (pi_tx p Hp) as Hr. pose proof (pi_tx_cap p Hp) as Hc.
  unfold build_into_tx. apply wp_bind, wp_gets, wp_bind, wp_gets. rewrite Hc.
  destruct (pd_tx p) as [|m]; [done|]. cbn [region] in Hr.
  destruct (osdp_frame_build_total out m tx_cap 0 Ht Hr) as (s & m' & n & E & Hl & Hn).
  apply wp_bind. eapply wp_lift; [exact E|]. apply wp_bind, wp_modify, wp_bind.
  eapply wp_lift; [reflexivity|]. apply wp_ret. split; [|done].
  apply inv_tx; [cbn [region]; lia|done].
Qed.

Lemma reply_frame_typed cmd r :
  is_byte (fr_address cmd) → is_byte (fr_sequence cmd) → reply_ok r → frame_typed (reply_frame cmd r).
Proof. intros ?? [? ? ?]. constructor; cbn; first [done|by vm_decide]. Qed.

Lemma nak_reply_ok e : is_byte e → reply_ok (nak_reply e).
Proof.
  intros. constructor; cbn; [by vm_decide| |done]. split; [done|]. apply Forall_cons_2; [done|constructor].
Qed.

Lemma build_reply_safe cmd r :
  is_byte (fr_address cmd) → is_byte (fr_sequence cmd) → reply_ok r →
  safe (build_reply cmd r : PD W _) (λ r, r.2 ≤ tx_cap).
Proof. intros. by apply build_into_tx_safe, reply_frame_typed. Qed.

Lemma build_nak_safe cmd e :
  is_byte (fr_address cmd) → is_byte (fr_sequence cmd) → is_byte e →
  safe (build_nak cmd e : PD W _) (λ r, r.2 ≤ tx_cap).
Proof. intros. by apply build_reply_safe; [..|apply nak_reply_ok]. Qed.

Lemma build_busy_safe cmd :
  is_byte (fr_address cmd) → safe (osdp_pd_internal_build_busy cmd : PD W _) (λ r, r.2 ≤ tx_cap).
Proof.
  intros Ha. apply tr_modify_bind; [intros p H; inv_with H|].
  apply build_into_tx_safe. constructor; cbn; first [done|by vm_decide].
Qed.

Lemma length_if_ok_le r n : r.2 ≤ n → length_if_ok r ≤ n.
Proof. unfold length_if_ok. case_decide; lia. Qed.

Lemma if_ok_safe (m : PD W (osdp_status * nat)) :
  safe m (λ r, r.2 ≤ tx_cap) → safe (r ← m; mret (length_if_ok r)) (λ n, n ≤ tx_cap).
Proof. intros Hm. eapply tr_bind; [exact Hm|]. intros r Hr. by apply tr_ret, length_if_ok_le. Qed.

Lemma refuse_with_safe cmd e :
  cmd_ok cmd → is_byte e → safe (refuse_with cmd e : PD W _) (λ n, n ≤ tx_cap).
Proof.
  intros [Ht _ _] He. eapply tr_bind; [by apply build_nak_safe; [apply Ht..|]|].
  intros [s n] Hn. by apply tr_ret.
Qed.

End framing.

(** ** The handshake *)

Section handshake.
Context {W : Type} {TC : PdFixed W} (E D : list Z → list Z → list Z) {A : Aes cipher E D}.
Context (Hrandom : ∀ rand w, rand_bytes cipher = Some rand →
  let bs := (rand OSDP_SC_RND_LEN w).1.2 in length bs ≤ OSDP_SC_RND_LEN ∧ bytes_ok bs).
Implicit Types (p : osdp_pd W) (w : W).

Lemma with_sc_safe {B} (g : osdp_pd_sc W → osdp_pd_sc W) (k : unit → PD W B) Q :
  (∀ sc, sc_ok sc → sc_ok (g sc)) → safe (k tt) Q → safe (with_sc g ≫= k) Q.
Proof.
  intros Hg Hk. apply tr_modify_bind; [|done]. intros p Hp.
  apply (inv_sc p (g (pd_sc p))); [|done]. apply Hg, Hp.
Qed.

Lemma set_session_safe {B} (g : osdp_sc_session → osdp_sc_session) (k : unit → PD W B) Q :
  (∀ s, session_blocks s → session_blocks (g s)) → safe (k tt) Q → safe (set_session g ≫= k) Q.
Proof. intros Hg Hk. apply with_sc_safe; [|done]. intros sc H. inv_with H. by apply Hg. Qed.

Lemma handshake_frame_typed c (cmd : osdp_frame) ty b code bs n :
  (0 ≤ pd_address c ≤ 0x7F)%Z → cmd_ok cmd → is_byte ty → is_byte b → is_byte code → bytes_ok bs → n ≤ length bs →
  frame_typed (handshake_frame (W := W) c cmd ty b code (Ptr bs) n).
Proof.
  intros Ha [Ht _ _] Hty Hb Hc Hbs Hn.
  constructor; cbn; first [done|apply Ht|by vm_decide|unfold is_byte; lia|idtac].
  split; [lia|]. apply Forall_cons_2; [done|constructor].
Qed.

Lemma build_handshake_safe cmd ty b code bs n :
  cmd_ok cmd → is_byte ty → is_byte b → is_byte code → bytes_ok bs → n ≤ length bs →
  safe (build_handshake_reply cmd ty b code (Ptr bs) n : PD W _) (λ r, r.2 ≤ tx_cap).
Proof.
  intros. apply tr_get. intros p Hp. apply build_into_tx_safe, handshake_frame_typed; try done.
  apply Hp.
Qed.

Lemma rnd_zero_long : 16 ≤ length rnd_zero.
Proof. unfold rnd_zero. by rewrite length_replicate. Qed.

Lemma chlng_values_safe cmd sel key rand :
  region_ok (fr_payload cmd) OSDP_SC_RND_LEN → fr_payload cmd ≠ NULL → block key →
  rand_bytes cipher = Some rand →
  safe (chlng_values cmd sel key rand : PD W _) (λ o, ∀ l, o = Some l → length l = 32 ∧ bytes_ok l).
Proof.
  intros Hr Hn Bk Hrand. apply tr_host_bind. intros w0. pose proof (Hrandom rand w0 Hrand) as Hrb. cbv zeta in Hrb.
  destruct (rand OSDP_SC_RND_LEN w0) as [[s rnd] w1]. cbn [fst snd] in *. destruct Hrb as [Hl Hb].
  apply tr_get. intros p Hp. destruct (so_rnd_b _ (pi_sc p Hp)) as [Lb Yb].
  assert (mwr (sc_rnd_b (pd_sc p)) 0 rnd = Some (rnd ++ drop (length rnd) (sc_rnd_b (pd_sc p)))) as Em
    by (apply mwr_0; lia).
  apply (tr_lift_bind _ _ _ _ Em). apply with_sc_safe.
  { intros sc H. inv_with H. split; [by rewrite length_app, length_drop; lia|].
    apply Forall_app. split; [done|by apply Forall_drop]. }
  clear Em. case_decide; [by apply tr_ret|].
  assert (rnd_ok (view (fr_payload cmd) OSDP_SC_RND_LEN)) as Ra by (split; [by apply length_view|by apply view_bytes]).
  eapply tr_lift_bind; [by apply rd_slice_view|]. apply with_sc_safe; [intros sc Hsc; inv_with Hsc|].
  apply tr_get. intros q Hq. destruct (pi_sc q Hq) as [Hc _ _ _ [Lc Yc] _ Ba Bb]. rewrite Hc.
  eapply tr_lift_bind; [exact (derive_ok cipher E D _ _ key _ _ (rd_block _ Bk) (rd_rnd _ Ba) Bk Ba)|].
  destruct (derived_keys_ok cipher E D key _ Bk Ba) as (Be & B1 & B2).
  remember (derived_keys E key (sc_rnd_a (pd_sc q))) as ks eqn:Hks. clear Hks.
  eapply tr_lift_bind; [reflexivity|]. apply set_session_safe; [by intros s0 (_ & ? & ?)|].
  case_decide; [by apply tr_ret|].
  eapply tr_lift_bind; [exact (cryptogram_ok cipher E D _ _ _ _ _ _ rnd_zero (rd_block _ Be) (rd_rnd _ Ba)
    (rd_rnd _ Bb) Be Ba Bb rnd_zero_long)|].
  cbv beta iota. case_decide; [by apply tr_ret|].
  pose proof (aes_E_block (c := cipher) _ _ Be (rnd_pair_block _ _ Ba Bb)) as [Le Ye].
  eapply tr_lift_bind; [by apply rd_front|]. apply tr_ret. intros l [= <-].
  rewrite !length_app, Le, Lc. destruct Bb as [Lb' Yb']. rewrite Lb'. split; [done|]. by rewrite !Forall_app.
Qed.

Lemma scb_byte cmd :
  cmd_ok cmd → ¬ (fr_scb_data_len cmd < 1 ∨ fr_scb_data cmd = NULL) →
  ∃ b, rd (fr_scb_data cmd) 0 = Some b ∧ is_byte b.
Proof.
  intros [Ht _ _] Hn. pose proof (ft_scb_data _ Ht) as Hr. destruct (fr_scb_data cmd) as [|m]; [tauto|].
  destruct Hr as [Hl Hm]. destruct (rd_byte m 0 Hm) as (b & ? & _ & ?); [|by exists b].
  destruct (decide (fr_scb_data_len cmd < 1)); [tauto|lia].
Qed.

Lemma select_key_block c sel key : sc_ok (pd_sc c) → select_handshake_key (W := W) c sel = Some key → block key.
Proof. intros Hs. unfold select_handshake_key. repeat case_decide; intros [= <-]; apply Hs. Qed.

Lemma session_established b s : session_blocks s → session_blocks (with_established b s).
Proof. by intros (? & ? & ?). Qed.

Lemma handle_chlng_safe cmd : cmd_ok cmd → safe (handle_chlng cmd : PD W nat) (λ n, n ≤ tx_cap).
Proof.
  intros Hc. pose proof chlng_values_safe as Hvalues. unfold handle_chlng. case_decide; [apply refuse_with_safe; [done|by vm_decide]|].
  case_decide as Hl; [apply refuse_with_safe; [done|by vm_decide]|].
  case_decide as Hs; [apply refuse_with_safe; [done|by vm_decide]|].
  destruct (scb_byte cmd Hc Hs) as (sel & Er & Hsel). apply (tr_lift_bind _ _ _ _ Er).
  apply tr_get. intros p Hp. unfold id.
  destruct (select_handshake_key p sel) as [key|] eqn:Ek; [|apply refuse_with_safe; [done|by vm_decide]].
  apply select_key_block in Ek; [|apply Hp]. rewrite (so_cipher _ (pi_sc p Hp)).
  destruct (rand_bytes cipher) as [rand|] eqn:Erand; [|apply refuse_with_safe; [done|by vm_decide]].
  pose proof (cmd_payload_ok cmd Hc) as [Hr Hn]. rewrite Hl in Hr, Hn.
  eapply tr_bind; [apply Hvalues; [done|apply Hn; by vm_decide|done..]|].
  intros [l|] Hv; [|apply tr_ret; lia]. destruct (Hv l eq_refl) as [Hll Hlb].
  eapply tr_bind; [apply build_handshake_safe; [done|by vm_decide|done|by vm_decide|done|by rewrite Hll]|].
  intros [s built] Hbuilt. cbn [snd] in Hbuilt. case_decide; [apply tr_ret; lia|].
  apply with_sc_safe; [intros sc Hsc; inv_with Hsc|]. apply set_session_safe; [apply session_established|].
  by apply tr_ret.
Qed.

Lemma handle_scrypt_safe cmd : cmd_ok cmd → safe (handle_scrypt cmd : PD W nat) (λ n, n ≤ tx_cap).
Proof.
  intros Hc. unfold handle_scrypt. case_decide; [apply refuse_with_safe; [done|by vm_decide]|].
  case_decide as Hl; [apply refuse_with_safe; [done|by vm_decide]|].
  apply tr_get. intros p Hp. destruct (pi_sc p Hp) as [Hci _ _ _ _ ((Be & B1 & B2) & _ & _) Ba Bb].
  destruct (sc_got_chlng _); cbn [negb]; [|apply refuse_with_safe; [done|by vm_decide]].
  case_decide as Hs; [apply refuse_with_safe; [done|by vm_decide]|]. rewrite Hci.
  eapply tr_lift_bind; [exact (cryptogram_ok cipher E D _ _ _ _ _ _ rnd_zero (rd_block _ Be) (rd_rnd _ Bb)
    (rd_rnd _ Ba) Be Bb Ba rnd_zero_long)|].
  cbv beta iota. case_decide; [apply tr_ret; lia|].
  pose proof (aes_E_block (c := cipher) _ _ Be (rnd_pair_block _ _ Bb Ba)) as [Le Ye].
  eapply tr_lift_bind; [by apply rd_front|].
  pose proof (cmd_payload_ok cmd Hc) as [Hr Hn]. rewrite Hl in Hr, Hn.
  assert (fr_payload cmd ≠ NULL) as Hnn by (apply Hn; by vm_decide).
  eapply tr_lift_bind; [by apply rd_slice_view|]. case_decide as Heq.
  - eapply tr_bind; [apply build_handshake_safe; [done|by vm_decide..|simpl; lia]|].
    intros [s built] Hbuilt. apply with_sc_safe; [intros sc Hsc; inv_with Hsc|].
    apply set_session_safe; [apply session_established|]. by apply tr_ret.
  - apply tr_get. intros q Hq. destruct (pi_sc q Hq) as [Hcq _ _ _ _ (Kq & _ & _) _ _]. rewrite Hcq.
    pose proof Kq as (_ & C1 & C2).
    assert (block (view (fr_payload cmd) OSDP_SC_CRYPTOGRAM_LEN)) as Bs
      by (split; [by apply length_view|by apply view_bytes]).
    destruct (initial_rmac_ok cipher E D (Ptr (s_mac1 (ss_keys (sc_session (pd_sc q)))))
      (Ptr (s_mac2 (ss_keys (sc_session (pd_sc q))))) (fr_payload cmd) _ _ rnd_zero (rd_block _ C1) (rd_block _ C2)
      (rd_slice_view _ _ Hr Hnn) Kq Bs rnd_zero_long) as [Er Br].
    apply (tr_lift_bind _ _ _ _ Er). case_decide; [apply tr_ret; lia|].
    pose proof Br as [Lr Yr]. eapply tr_lift_bind; [by apply rd_front|].
    eapply tr_bind; [apply build_handshake_safe; [done|by vm_decide..|done|by rewrite Lr]|].
    intros [s built] Hbuilt. cbn [snd] in Hbuilt. case_decide; [apply tr_ret; lia|].
    apply set_session_safe; [by intros ss (? & _ & _)|].
    apply with_sc_safe; [intros sc Hsc; inv_with Hsc|]. by apply tr_ret.
Qed.

End handshake.

(** ** Operational traffic and the routing of a command *)

Section commands.
Context {W : Type} {TC : PdFixed W}.
Implicit Types (p : osdp_pd W) (w : W).

Lemma reply_template_ok cmd r :
  cmd_ok cmd → reply_ok r → sc_template (sc_reply_template cmd r).
Proof.
  intros [Ht Hb _] [Hc Hp Hn].
  constructor; [constructor|..]; cbn; first [done|apply Ht|apply Hb|by vm_decide|idtac].
Qed.

Lemma inv_session p s : session_blocks s → pd_inv p → pd_inv (p <| pd_sc := (pd_sc p) <| sc_session := s |> |>).
Proof. intros Hs Hp. apply inv_sc; [|done]. destruct (pi_sc p Hp). by constructor. Qed.

Lemma operational_unwrap_safe cmd :
  cmd_ok cmd → cipher_set = true →
  safe (operational_unwrap cmd : PD W _) (λ o, ∀ n, o = Some n → n ≤ plain_cap).
Proof.
  intros [Ht Hb Hd] Hset p w Hp. destruct (pi_cipher p Hp Hset) as [(E & D & A) _].
  pose proof (so_cipher _ (pi_sc p Hp)) as Hc. pose proof (so_session _ (pi_sc p Hp)) as Hs.
  pose proof (pi_plain_cap p Hp) as Hcap. pose proof (pi_plain p Hp) as Hr. pose proof (pi_plain_bytes p Hp) as Hby.
  unfold operational_unwrap. apply wp_bind, wp_gets. unfold id. rewrite Hc, Hcap.
  destruct (pd_rx_plain p) as [|o]; [done|]. cbn [region bytes_in] in *.
  destruct (unwrap_total cipher E D (sc_session (pd_sc p)) cmd o plain_cap 0 Hs Ht Hb Hr)
    as (st & r & o' & n & Erun & Hsb & _ & Hl & Hby' & Hn).
  rewrite <-Hd in Erun. apply wp_bind. eapply wp_lift; [exact Erun|].
  apply wp_bind. eapply wp_lift; [reflexivity|]. apply wp_bind, wp_modify, wp_bind, wp_modify.
  pose proof (inv_session p r Hsb Hp) as Hq.
  assert (pd_inv (p <| pd_sc := (pd_sc p) <| sc_session := r |> |> <| pd_rx_plain := Ptr o' |>)) as Hq'.
  { assert (bytes_ok o') by auto. inv_with Hq. cbn [region]. lia. }
  case_decide as Hst; [by apply wp_ret|]. apply wp_bind. eapply wp_lift; [reflexivity|].
  apply wp_ret. split; [exact Hq'|]. intros k [= <-]. auto.
Qed.

Lemma operational_wrap_safe cmd r :
  cmd_ok cmd → reply_ok r → cipher_set = true →
  safe (operational_wrap cmd r : PD W nat) (λ n, n ≤ tx_cap).
Proof.
  intros Hcmd Hr Hset p w Hp. destruct (pi_cipher p Hp Hset) as [(E & D & A) _].
  pose proof (so_cipher _ (pi_sc p Hp)) as Hc.
  pose proof (pi_tx_cap p Hp) as Hcap. pose proof (pi_tx p Hp) as Htx.
  unfold operational_wrap. apply wp_bind, wp_gets. unfold id. rewrite Hc, Hcap.
  destruct (pd_tx p) as [|m]; [done|]. cbn [region] in Htx.
  destruct (wrap_total cipher E D _ _ m tx_cap 0 (so_session _ (pi_sc p Hp)) (reply_template_ok cmd r Hcmd Hr) Htx)
    as (st & s & m' & n & Erun & Hs & _ & Hl & Hn).
  apply wp_bind. eapply wp_lift; [exact Erun|]. apply wp_bind. eapply wp_lift; [reflexivity|].
  apply wp_bind, wp_modify, wp_bind, wp_modify. pose proof (inv_session p s Hs Hp) as Hq.
  assert (pd_inv (p <| pd_sc := (pd_sc p) <| sc_session := s |> |> <| pd_tx := Ptr m' |>)) as Hq'.
  { apply inv_tx; [cbn [region]; lia|done]. }
  case_decide; [apply wp_ret; split; [exact Hq'|lia]|]. by eapply wp_lift.
Qed.

Lemma plain_payload_ok p n : pd_inv p → n ≤ plain_cap → payload_ok (pd_rx_plain p) n.
Proof.
  intros Hp Hn. pose proof (pi_plain p Hp) as Hr. pose proof (pi_plain_bytes p Hp).
  destruct (pd_rx_plain p); [done|]. cbn [region] in Hr. split; [split; [lia|done]|done].
Qed.

Lemma handle_operational_safe cmd :
  cmd_ok cmd → cipher_set = true → safe (handle_operational cmd : PD W nat) (λ n, n ≤ tx_cap).
Proof.
  intros Hcmd Hset. apply tr_get. intros p _.
  destruct (established _); cbn [negb]; [|apply refuse_with_safe; [done|by vm_decide]].
  eapply tr_bind; [by apply operational_unwrap_safe|]. intros [n|] Hn; [|apply tr_ret; lia].
  specialize (Hn n eq_refl). apply tr_get. intros q Hq.
  eapply tr_bind; [apply dispatch_safe; by apply plain_payload_ok|]. intros [outcome r] Hr. cbn [snd] in Hr.
  destruct outcome; [by apply operational_wrap_safe|apply tr_ret; lia|].
  apply if_ok_safe, build_busy_safe, Hcmd.
Qed.

Lemma handle_sc_safe cmd :
  cmd_ok cmd → cipher_set = true → safe (osdp_pd_internal_handle_sc_into_tx cmd : PD W nat) (λ n, n ≤ tx_cap).
Proof.
  intros Hcmd Hset p w Hp. destruct (pi_cipher p Hp Hset) as [(E & D & A) Hrand].
  revert p w Hp. change (safe (osdp_pd_internal_handle_sc_into_tx cmd : PD W nat) (λ n, n ≤ tx_cap)).
  unfold osdp_pd_internal_handle_sc_into_tx.
  case_decide; [by apply (handle_chlng_safe E D)|]. case_decide; [by apply (handle_scrypt_safe E D)|].
  case_decide; [by apply handle_operational_safe|]. apply refuse_with_safe; [done|by vm_decide].
Qed.

Lemma drop_session_safe : safe (drop_session : PD W unit) (λ _, True).
Proof.
  apply tr_get. intros p _. eapply tr_lift_bind; [reflexivity|].
  apply tr_modify; [|done]. intros q Hq.
  apply (inv_sc q ((pd_sc q) <| sc_session := session_zero |> <| sc_got_chlng := false |>)); [|done].
  destruct (pi_sc q Hq). constructor; read_set; try done; by vm_decide.
Qed.

Lemma answer_plain_safe cmd : cmd_ok cmd → safe (answer_plain cmd : PD W nat) (λ n, n ≤ tx_cap).
Proof.
  intros Hcmd. pose proof Hcmd as [Ht _ _].
  eapply tr_bind; [apply dispatch_safe; by apply cmd_payload_ok|]. intros [outcome r] Hr. cbn [snd] in Hr.
  destruct outcome; [apply if_ok_safe; by apply build_reply_safe; [apply Ht..|]|apply tr_ret; lia|].
  apply if_ok_safe, build_busy_safe, Ht.
Qed.

Lemma handle_command_safe cmd : cmd_ok cmd → safe (handle_command_into_tx cmd : PD W nat) (λ n, n ≤ tx_cap).
Proof.
  intros Hcmd. pose proof Hcmd as [Ht _ _]. apply tr_get. intros p Hp. unfold id.
  destruct (fr_has_scb cmd).
  - destruct (osdp_pd_internal_sc_configured (Some p)) eqn:Hconf.
    + apply handle_sc_safe; [done|]. rewrite <-(so_set _ (pi_sc p Hp)). revert Hconf.
      unfold osdp_pd_internal_sc_configured. by destruct (sc_crypto_set _).
    + apply if_ok_safe. apply build_nak_safe; [apply Ht..|by vm_decide].
  - apply (tr_bind _ _ (λ _, True)).
    { destruct (established _); [apply drop_session_safe|by apply tr_ret]. }
    intros [] _. destruct (_ && bool_decide _); [apply refuse_with_safe; [done|by vm_decide]|].
    destruct (_ && negb _); [apply refuse_with_safe; [done|by vm_decide]|by apply answer_plain_safe].
Qed.

End commands.

(** ** Transmission, timeouts and the retransmit cache *)

Section tick.
Context {W : Type}.
Implicit Types (p : osdp_pd W) (w : W).

(** Transmission: every accepted write advances, so the fuel is enough. *)
Lemma send_loop_safe {TC : PdFixed W} fuel write buf len sent :
  region buf len → len - sent < fuel → safe (send_loop fuel write buf len sent : PD W nat) (λ _, True).
Proof.
  intros Hr. revert sent. induction fuel as [|fuel IH]; intros sent Hf; [lia|]. cbn [send_loop].
  case_decide; [|by apply tr_ret]. destruct buf as [|m]; [done|]. cbn [region] in Hr.
  eapply tr_lift_bind; [apply mslice_Some; lia|]. apply tr_host_bind. intros w.
  case_decide; [by apply tr_ret|]. apply IH. lia.
Qed.

Lemma send_bytes_safe {TC : PdFixed W} buf len :
  region buf len → safe (send_bytes buf len : PD W unit) (λ _, True).
Proof.
  intros Hr. apply tr_get. intros p _. destruct (tr_write _) as [write|]; [|by apply tr_ret].
  case_decide; [by apply tr_ret|]. eapply tr_bind; [apply send_loop_safe; [done|lia]|]. intros sent _.
  case_decide; [by apply tr_ret|]. apply (tr_bind _ _ (λ _, True)).
  - destruct (tr_now_ms _); [|by apply tr_ret]. apply tr_host_bind. intros w0.
    apply tr_modify; [|done]. intros q Hq. inv_with Hq.
  - intros [] _. apply tr_modify; [|done]. intros q Hq. inv_with Hq.
Qed.

Lemma check_offline_safe {TC : PdFixed W} : safe (check_offline_timeout : PD W unit) (λ _, True).
Proof.
  intros p w Hp. unfold check_offline_timeout. apply wp_bind, wp_gets. unfold id.
  destruct (pd_online p); cbn [negb]; [|by apply wp_ret].
  destruct (tr_now_ms _); [|by apply wp_ret]. apply wp_bind, wp_host.
  case_decide; [|by apply wp_ret]. apply wp_bind, wp_modify, wp_bind, wp_modify, wp_bind, wp_gets, wp_bind.
  eapply wp_lift; [reflexivity|]. apply wp_modify. split; [|done]. unfold id.
  inv_with Hp. destruct pi_events as [?|(q & m & -> & Hm & _)]; [by left|]. right.
  exists [], (queue_bytes q ++ m). split_and!; [done| |done|lia|constructor]. rewrite length_app. simpl. lia.
Qed.

(** A slice of a region of at least that size. *)
Lemma region_le m cap n : region m cap → n ≤ cap → region m n.
Proof. destruct m; [done|]. cbn [region]. lia. Qed.

Lemma cmd_raw_ok cmd : cmd_ok cmd → raw_ok cmd.
Proof.
  intros [Ht Hb ->]. pose proof (frame_wire_head cmd) as [r Hr]. cbn [raw_ok].
  unfold raw_ok. cbn [fr_raw fr_raw_len decoded_of region]. rewrite Hr. cbn [length]. split; lia.
Qed.

Lemma cache_reply_safe {TC : PdFixed W} cmd n :
  cmd_ok cmd → n ≤ tx_cap → safe (cache_reply cmd n : PD W unit) (λ _, True).
Proof.
  intros Hc Hn p w Hp.
  destruct (cache_reply_ok p cmd n w) as (p' & E & [(rc & lr & cc & lc & Hp') R1 R2 L1 _ L2 _]);
    [rewrite (pi_tx_cap p Hp); apply Hp|by rewrite (pi_tx_cap p Hp)|by apply cmd_raw_ok|apply Hp..|].
  eapply wp_run; [exact E|]. split; [|done]. rewrite Hp' in *. revert R1 R2 L1 L2. read_set. intros.
  assert (lr ≤ pd_rpl_cache_cap p) by (clear -L1; subst lr; case_decide; lia).
  assert (lc ≤ pd_cmd_cache_cap p) by (clear -L2; subst lc; case_decide; lia). inv_with Hp.
Qed.

Lemma is_retransmit_total {TC : PdFixed W} p cmd :
  pd_inv p → cmd_ok cmd → ∃ b, is_retransmit p cmd = Some b.
Proof.
  intros Hp Hc. unfold is_retransmit. case_decide; [by eexists|]. case_decide; [by eexists|].
  case_decide as Hl; [by eexists|]. destruct (cmd_raw_ok cmd Hc) as [Hr _].
  pose proof (pi_cmd_len p Hp).
  destruct (region_read _ _ (fr_raw_len cmd) (pi_cmd p Hp)) as (a & -> & _); [lia|].
  destruct (region_read _ _ (fr_raw_len cmd) Hr) as (b & -> & _); [lia|].
  cbn [mbind option_bind]. by eexists.
Qed.

Lemma process_frame_safe {TC : PdFixed W} cmd : cmd_ok cmd → safe (process_frame cmd : PD W unit) (λ _, True).
Proof.
  intros Hcmd. apply tr_get. intros p Hp. unfold id.
  destruct (is_retransmit_total p cmd Hp Hcmd) as [again Ha]. apply (tr_lift_bind _ _ _ _ Ha).
  destruct again.
  - case_decide; [|by apply tr_ret]. apply send_bytes_safe.
    eapply region_le; [apply (pi_rpl p Hp)|apply Hp].
  - apply tr_modify_bind; [intros q Hq; inv_with Hq|].
    eapply tr_bind; [by apply handle_command_safe|]. intros built Hb. apply tr_get. intros c _.
    apply (tr_bind _ _ (λ _, True)).
    { destruct (pd_reply_cacheable _); [by apply cache_reply_safe|].
      apply tr_modify; [|done]. intros q Hq. inv_with Hq. }
    intros [] _. apply (tr_bind _ _ (λ _, True)).
    { case_decide; [|by apply tr_ret]. apply tr_get. intros q Hq. apply send_bytes_safe.
      eapply region_le; [apply (pi_tx q Hq)|done]. }
    intros [] _. apply tr_get. intros q _. destruct (pd_comset_pending q); [apply apply_comset_safe|by apply tr_ret].
Qed.

Lemma answer_damaged_safe {TC : PdFixed W} r cmd :
  ident_ok cmd → safe (answer_damaged r cmd : PD W unit) (λ _, True).
Proof.
  intros [Ha Hs]. apply tr_get. intros p _. case_decide; [|by apply tr_ret].
  eapply tr_bind; [apply build_nak_safe; [done..|by vm_decide]|]. intros [s n] Hn. cbn [snd] in Hn.
  case_decide; [|by apply tr_ret]. apply tr_get. intros q Hq. apply send_bytes_safe.
  eapply region_le; [apply (pi_tx q Hq)|done].
Qed.

(** ** The byte stream *)

(** The same device with another stream. *)
Definition with_rx (TC : PdFixed W) (rx : osdp_stream) : PdFixed W :=
  mk_fixed W tx_cap plain_cap cipher cipher_set rx.

Lemma inv_rx (TC : PdFixed W) p rx :
  stream_inv rx → pd_inv p → pd_inv (TC := with_rx TC rx) (p <| pd_rx := rx |>).
Proof.
  intros ? H. destruct H. constructor; read_set; try assumption; [|done].
  by destruct pi_sc; constructor.
Qed.

Lemma inv_rx_now {TC : PdFixed W} p : pd_inv p → pd_rx p = rx_now ∧ stream_inv (pd_rx p).
Proof. intros H. pose proof (pi_rx p H) as E. rewrite E. split; [done|apply H]. Qed.

Definition read_ok (read : nat → W → Z * list Z * W) : Prop :=
  ∀ n w, let r := (read n w).1 in (r.1 ≤ Z.of_nat n)%Z ∧ length r.2 ≤ n ∧ bytes_ok r.2.

(** The stream after the drain loop, and what else it changed: nothing. *)
Lemma drain_loop_safe (TC : PdFixed W) fuel read drained p w :
  read_ok read → pd_inv p → OSDP_STREAM_BUFFER_LEN - drained < fuel →
  wp (drain_loop fuel read drained) (λ _ p' _, ∃ rx, pd_inv (TC := with_rx TC rx) p') p w.
Proof.
  intros Hread. revert TC drained p w. induction fuel as [|fuel IH]; intros TC drained p w Hp Hf; [lia|].
  assert (pd_inv (TC := with_rx TC (pd_rx p)) p) as Hsame.
  { destruct (inv_rx_now p Hp) as [E _]. rewrite E. by destruct TC. }
  cbn [drain_loop]. apply wp_bind, wp_host. specialize (Hread CHUNK w).
  destruct (read CHUNK w) as [[n bytes] w1]. cbn [fst snd] in *. destruct Hread as (Hn & Hl & Hb).
  case_decide; [apply wp_ret; by eexists|].
  assert (mwr (replicate CHUNK 0%Z) 0 bytes = Some (bytes ++ drop (length bytes) (replicate CHUNK 0%Z))) as Em
    by (apply mwr_0; rewrite length_replicate; lia).
  apply wp_bind. eapply wp_lift; [exact Em|]. apply wp_bind, wp_gets.
  destruct (inv_rx_now p Hp) as [_ Hs].
  destruct (osdp_stream_feed_ok (pd_rx p) (bytes ++ drop (length bytes) (replicate CHUNK 0%Z)) (Z.to_nat n))
    as (rx & E & Hrx & _); [done| | |lia|].
  { apply Forall_app. split; [done|]. apply Forall_drop, Forall_replicate. by vm_decide. }
  { rewrite length_app, length_drop, length_replicate. lia. }
  apply wp_bind. eapply wp_lift; [exact E|]. apply wp_bind. eapply wp_lift; [reflexivity|].
  apply wp_bind, wp_modify. cbv zeta. pose proof (inv_rx TC p rx Hrx Hp) as Hq.
  case_decide; [apply wp_ret; by exists rx|].
  eapply wp_weaken; [apply (IH (with_rx TC rx)); [exact Hq|lia]|]. intros [] p' w' [rx' H']. by exists rx'.
Qed.

(** The frame loop: every call that does not ask for more input consumes a byte. *)
Lemma frame_loop_safe (TC : PdFixed W) fuel cmd p w :
  pd_inv p → ident_ok cmd → length (unread (pd_rx p)) < fuel →
  wp (frame_loop fuel cmd) (λ _ p' _, ∃ rx, pd_inv (TC := with_rx TC rx) p') p w.
Proof.
  revert TC cmd p w. induction fuel as [|fuel IH]; intros TC cmd p w Hp Hid Hf; [lia|].
  cbn [frame_loop]. apply wp_bind, wp_gets. destruct (inv_rx_now p Hp) as [_ Hs].
  destruct (osdp_stream_next_ok (pd_rx p) cmd Hs) as (st & rx & cmd' & E & Hrx & Hstep).
  pose proof (osdp_stream_next_ident _ _ _ _ _ Hs Hid E) as Hid'.
  apply wp_bind. eapply wp_lift; [exact E|]. do 2 (apply wp_bind; eapply wp_lift; [reflexivity|]).
  apply wp_bind, wp_modify. pose proof (inv_rx TC p rx Hrx Hp) as Hq.
  destruct (decide (st = OSDP_ERR_TRUNCATED)) as [Htr|Htr]; [apply wp_ret; by exists rx|].
  apply next_step_progress in Hstep as Hprog. destruct Hprog as [_ Hprog]. specialize (Hprog Htr).
  set (body := if decide (st ≠ OSDP_OK) then _ else _).
  assert (triple (pd_inv (TC := with_rx TC rx)) body (λ _, True)) as Hbody.
  { unfold body. clear body. destruct (decide (st ≠ OSDP_OK)) as [Hok|Hok]; [by apply (answer_damaged_safe (TC := with_rx TC rx))|].
    assert (cmd_ok cmd') as Hcmd.
    { assert (st = OSDP_OK) as -> by (by apply dec_stable). rewrite decide_True in Hstep by done. inversion Hstep as [| | |F H1 H2 (Ht & Hb & _ & Hd)].
      by constructor. }
    clear Hstep. apply tr_get. intros q _. destruct (fr_reply cmd'); [by apply tr_ret|].
    case_decide; [by apply tr_ret|]. by apply (process_frame_safe (TC := with_rx TC rx)). }
  apply wp_bind. eapply wp_weaken; [apply (Hbody _ w Hq)|]. intros [] p1 w1 [Hp1 _].
  assert (pd_rx p1 = rx) as Erx by apply (pi_rx (TC := with_rx TC rx) p1 Hp1).
  eapply wp_weaken; [apply (IH (with_rx TC rx)); [exact Hp1|done|rewrite Erx; lia]|].
  intros [] p2 w2 [rx2 H2]. by exists rx2.
Qed.

Lemma interchar_safe (TC : PdFixed W) p w :
  pd_inv p → wp check_interchar_timeout (λ _ p' _, ∃ rx, pd_inv (TC := with_rx TC rx) p') p w.
Proof.
  intros Hp.
  assert (∀ q, pd_inv q → ∃ rx, pd_inv (TC := with_rx TC rx) q) as Hsame.
  { intros q Hq. exists rx_now. by destruct TC. }
  unfold check_interchar_timeout. apply wp_bind, wp_gets. case_decide.
  { apply wp_modify, Hsame. inv_with Hp. }
  destruct (tr_now_ms _); [|by apply wp_ret, Hsame]. apply wp_bind, wp_host.
  case_decide; [apply wp_bind, wp_modify, wp_modify, Hsame; inv_with Hp|].
  case_decide; [|by apply wp_ret, Hsame]. destruct (inv_rx_now p Hp) as [_ [Hl Hf Hpe Hb]].
  apply wp_bind. eapply wp_lift; [reflexivity|]. apply wp_bind, wp_modify, wp_modify.
  exists (mk_stream (st_buffer (pd_rx p)) 0 0). pose proof (inv_rx TC p (mk_stream (st_buffer (pd_rx p)) 0 0)
    ltac:(by constructor; simpl; lia || done) Hp) as Hq. unfold id. inv_with Hq.
Qed.

End tick.

(** ** A well-formed device *)

(** What [pd_inv] says of a context on its own. *)
Definition fixed_of {W} (c : osdp_pd W) : PdFixed W :=
  mk_fixed W (pd_tx_cap c) (pd_rx_plain_cap c) (sc_crypto (pd_sc c)) (sc_crypto_set (pd_sc c)) (pd_rx c).

Definition pd_ok {W} (c : osdp_pd W) : Prop := pd_inv (TC := fixed_of c) c.

Lemma pd_ok_of {W} (TC : PdFixed W) (c : osdp_pd W) : pd_inv c → pd_ok c.
Proof.
  intros Hp. unfold pd_ok. enough (fixed_of c = TC) as -> by done. unfold fixed_of.
  rewrite (pi_tx_cap c Hp), (pi_plain_cap c Hp), (pi_rx c Hp), (so_cipher _ (pi_sc c Hp)), (so_set _ (pi_sc c Hp)).
  by destruct TC.
Qed.

Lemma tick_safe {W} (p : osdp_pd W) (w : W) :
  pd_ok p → wp osdp_pd_tick (λ _ p' _, pd_ok p') p w.
Proof.
  intros Hp. unfold osdp_pd_tick. apply wp_bind, wp_gets.
  destruct (tr_read (pd_transport p)) as [read|] eqn:Hr; [|by apply wp_ret].
  assert (read_ok read) as Hread.
  { intros n w0. exact (ho_read _ _ _ _ _ (pi_host p Hp) read n w0 Hr). }
  apply wp_bind. eapply wp_weaken; [by apply (check_offline_safe (TC := fixed_of p))|]. intros [] p1 w1 [H1 _].
  apply wp_bind. eapply wp_weaken; [apply (drain_loop_safe (fixed_of p)); [done|exact H1|lia]|].
  intros [] p2 w2 [rx2 H2].
  apply wp_bind. eapply wp_weaken; [apply (frame_loop_safe (with_rx (fixed_of p) rx2)); [exact H2|by vm_decide|]|].
  { destruct (inv_rx_now (TC := with_rx (fixed_of p) rx2) p2 H2) as [_ Hs]. rewrite length_unread by done.
    destruct Hs. lia. }
  intros [] p3 w3 [rx3 H3].
  apply wp_bind. eapply wp_weaken; [apply (interchar_safe (with_rx (with_rx (fixed_of p) rx2) rx3)); exact H3|].
  intros [] p4 w4 [rx4 H4].
  set (TC := with_rx _ rx4) in H4.
  apply wp_bind. eapply wp_weaken; [by apply (pd_now_ms_safe (TC := TC))|]. intros now p5 w5 [H5 _].
  apply wp_bind. eapply wp_weaken; [by apply (led_refresh_safe (TC := TC))|]. intros [] p6 w6 [H6 _].
  eapply wp_weaken; [by apply (buz_refresh_safe (TC := TC))|]. intros [] p7 w7 [H7 _]. by apply (pd_ok_of TC).
Qed.
