(* ===== verification/PdReach.v ===== *)
(** * Every reachable PD is well-formed

    The API of osdp_pd.h as a transition system: the setters, the event queue
    and [osdp_pd_tick] as operations on a context and the host's world, started
    by [osdp_pd_init].  An operation is admissible when its arguments are what
    the header asks for: buffers as large as said, a cipher that is AES, callbacks
    that answer in range.  Every sequence of admissible operations runs without
    undefined behaviour and ends. *)
From S2P Require Import Prelude Types State Codec Commands Replies Records Frame Stream Multipart ScCrypto ScFrame.
From S2P Require Import PdTypes PdEvents PdPdcap PdBanks PdFile PdDispatch PdSc Pd PdInv PdSafe.

Inductive pd_op (W : Type) : Type :=
  | OpBuffers (b : option osdp_pd_buffers)
  | OpTransport (t : option (osdp_pd_transport W))
  | OpCommandHandler (cb : option (osdp_pd_command_cb W))
  | OpLedHandler (cb : option (osdp_pd_led_cb W))
  | OpBuzzerHandler (cb : option (osdp_pd_buzzer_cb W))
  | OpComsetHandler (cb : option (osdp_pd_comset_cb W)) (applied : option (osdp_pd_comset_applied_cb W))
  | OpFileReceiver (buf : ptr) (cap : nat) (cb : option (osdp_pd_file_cb W))
  | OpFileStream (cb : option (osdp_pd_file_cb W))
  | OpStatusProvider (sp : option (osdp_pd_status_provider W))
  | OpMfgReceiver (buf : ptr) (cap : nat) (cb : option (osdp_pd_mfg_cb W))
  | OpAbortHandler (cb : option (osdp_pd_abort_cb W))
  | OpAcurxsizeHandler (cb : option (osdp_pd_acurxsize_cb W))
  | OpKeepactiveHandler (cb : option (osdp_pd_keepactive_cb W))
  | OpScCrypto (c : option (osdp_sc_crypto W))
  | OpScbk (k : ptr)
  | OpScbkD (k : ptr)
  | OpCuid (k : ptr)
  | OpPdcap (rs : option (list osdp_pdcap_record)) (count : nat)
  | OpEventQueue (buf : ptr) (cap : nat)
  | OpEnqueue (code : Z) (payload : ptr) (len : nat)
  | OpClearEvents
  | OpTick.
Arguments OpBuffers {_}. Arguments OpTransport {_}. Arguments OpCommandHandler {_}.
Arguments OpLedHandler {_}. Arguments OpBuzzerHandler {_}. Arguments OpComsetHandler {_}.
Arguments OpFileReceiver {_}. Arguments OpFileStream {_}. Arguments OpStatusProvider {_}.
Arguments OpMfgReceiver {_}. Arguments OpAbortHandler {_}. Arguments OpAcurxsizeHandler {_}.
Arguments OpKeepactiveHandler {_}. Arguments OpScCrypto {_}. Arguments OpScbk {_}. Arguments OpScbkD {_}.
Arguments OpCuid {_}. Arguments OpPdcap {_}. Arguments OpEventQueue {_}. Arguments OpEnqueue {_}.
Arguments OpClearEvents {_}. Arguments OpTick {_}.

(** One operation on the context. *)
Definition pd_run {W} (o : pd_op W) (c : osdp_pd W) (w : W) : option (osdp_pd W * W) :=
  let pure (r : option (osdp_pd W)) := (λ c, (c, w)) <$> r in
  match o with
  | OpBuffers b => pure (osdp_pd_set_buffers (Some c) b).2
  | OpTransport t => pure (osdp_pd_set_transport (Some c) t)
  | OpCommandHandler cb => pure (osdp_pd_set_command_handler (Some c) cb)
  | OpLedHandler cb => pure (osdp_pd_set_led_handler (Some c) cb)
  | OpBuzzerHandler cb => pure (osdp_pd_set_buzzer_handler (Some c) cb)
  | OpComsetHandler cb applied => pure (osdp_pd_set_comset_handler (Some c) cb applied)
  | OpFileReceiver buf cap cb => pure (osdp_pd_set_file_receiver (Some c) buf cap cb)
  | OpFileStream cb => pure (osdp_pd_set_file_stream (Some c) cb)
  | OpStatusProvider sp => pure (osdp_pd_set_status_provider (Some c) sp)
  | OpMfgReceiver buf cap cb => pure (osdp_pd_set_mfg_receiver (Some c) buf cap cb)
  | OpAbortHandler cb => pure (osdp_pd_set_abort_handler (Some c) cb)
  | OpAcurxsizeHandler cb => pure (osdp_pd_set_acurxsize_handler (Some c) cb)
  | OpKeepactiveHandler cb => pure (osdp_pd_set_keepactive_handler (Some c) cb)
  | OpScCrypto cr => pure (osdp_pd_set_sc_crypto (Some c) cr)
  | OpScbk k => pure (osdp_pd_set_sc_scbk (Some c) k)
  | OpScbkD k => pure (osdp_pd_set_sc_scbk_d (Some c) k)
  | OpCuid k => pure (osdp_pd_set_sc_cuid (Some c) k)
  | OpPdcap rs count => pure ('(_, c, _) ← osdp_pd_set_pdcap (Some c) rs count None; c)
  | OpEventQueue buf cap => pure (osdp_pd_set_event_queue (Some c) buf cap)
  | OpEnqueue code payload len => pure ('(_, c) ← osdp_pd_enqueue_event (Some c) code payload len; c)
  | OpClearEvents => pure (osdp_pd_clear_events (Some c))
  | OpTick => '(_, c, w) ← osdp_pd_tick c w; Some (c, w)
  end.

Fixpoint pd_runs {W} (os : list (pd_op W)) (c : osdp_pd W) (w : W) : option (osdp_pd W * W) :=
  match os with
  | [] => Some (c, w)
  | o :: os => '(c, w) ← pd_run o c w; pd_runs os c w
  end.

(** A buffer of at least [cap] bytes, or NULL. *)
Definition buffer_ok (p : ptr) (cap : nat) : Prop := region_ok p cap.

Definition pd_op_ok {W} (o : pd_op W) : Prop :=
  match o with
  | OpBuffers (Some b) => buffer_ok (pb_tx b) (pb_tx_cap b) ∧ buffer_ok (pb_rx_plain b) (pb_rx_plain_cap b) ∧
      buffer_ok (pb_rpl_cache b) (pb_rpl_cache_cap b) ∧ buffer_ok (pb_cmd_cache b) (pb_cmd_cache_cap b)
  | OpTransport (Some t) => ∀ read, tr_read t = Some read → read_ok read
  | OpCommandHandler (Some cb) => ∀ code p n r w, reply_ok r → reply_ok (cb code p n r w).1.2
  | OpComsetHandler (Some cb) _ => ∀ a b w, is_byte a → is_u32 b →
      is_byte (cb a b a b w).1.1 ∧ is_u32 (cb a b a b w).1.2
  | OpFileReceiver buf cap _ => buffer_ok buf cap
  | OpStatusProvider (Some sp) =>
      (∀ f a b w, sp_local sp = Some f → is_byte a → is_byte b → is_byte (f a b w).1.1 ∧ is_byte (f a b w).1.2) ∧
      ∀ f, sp_inputs sp = Some f ∨ sp_outputs sp = Some f ∨ sp_readers sp = Some f → status_fn_ok f
  | OpMfgReceiver buf cap cb => buffer_ok buf cap ∧
      ∀ f v p n r w, cb = Some f → reply_ok r → reply_ok (f v p n r w).1.2
  | OpScCrypto (Some cr) => cipher_ok cr
  | OpScbk k | OpScbkD k => buffer_ok k OSDP_SC_KEY_LEN
  | OpCuid k => buffer_ok k OSDP_SC_CUID_LEN
  | OpPdcap (Some rs) count => count ≤ length rs ∧ Forall pdcap_typed rs
  | OpEventQueue buf cap => buffer_ok buf cap
  | OpEnqueue code payload len => is_byte code ∧ region_ok payload len
  | _ => True
  end.

(** ** Lemmas *)

Section reach.
Context {W : Type}.
Implicit Types (c : osdp_pd W) (w : W).

(** The power-on contents. *)
Lemma init_pd_ok c0 address : ∃ c, osdp_pd_init (Some c0) address = Some c ∧ pd_ok c.
Proof.
  eexists. split; [reflexivity|].
  assert (block (replicate 16 0%Z)) as Hz by by vm_decide.
  assert (∀ n, bytes_ok (replicate n 0%Z)) as Hb by (intros; apply Forall_replicate; by vm_decide).
  assert (∀ n, region (Ptr (replicate n 0%Z)) n) as Hr by (intros; cbn; by rewrite length_replicate).
  unfold pd_ok. constructor; read_set; try reflexivity.
  - constructor; cbn; try done. intros f. by intros [|[|]].
  - constructor; first [reflexivity|exact Hz|by vm_decide|by split_and!].
  - done.
  - change 127%Z with (Z.ones 7). rewrite Z.land_ones by done.
    change (2 ^ 7)%Z with 128%Z. pose proof (Z.mod_pos_bound address 128 ltac:(lia)). change (Z.ones 7) with 127%Z. lia.
  - change (stream_inv (mk_stream (replicate OSDP_STREAM_BUFFER_LEN 0%Z) 0 0)).
    constructor; cbn [st_buffer st_fill st_pending_consume]; [by rewrite length_replicate|lia|lia|apply Hb].
  - apply Hb.
  - apply Hr.
  - apply Hr.
  - apply Hb.
  - apply Hr.
  - cbn. lia.
  - apply Hr.
  - cbn. lia.
  - done.
  - by exists None.
  - split_and!; [done|cbn; lia|constructor].
  - by left.
  - by left.
Qed.

(** An update that leaves what [fixed_of] records alone. *)
Lemma pd_ok_upd c c' : fixed_of c' = fixed_of c → pd_inv (TC := fixed_of c) c' → pd_ok c'.
Proof. unfold pd_ok. by intros ->. Qed.

Ltac upd Hc := eexists _, _; split; [reflexivity|]; unfold pd_ok in *; inv_with Hc.

Lemma buffers_ok c w b :
  pd_ok c → pd_op_ok (OpBuffers (W := W) b) → ∃ c' w', pd_run (OpBuffers b) c w = Some (c', w') ∧ pd_ok c'.
Proof.
  intros Hc Ho. destruct b as [b|]; [|eexists _, _; by split]. destruct Ho as (Ht & Hp & Hr & Hm).
  cbn [pd_run osdp_pd_set_buffers]. destruct (_ || _); [eexists _, _; by split|].
  eexists _, _. split; [reflexivity|]. cbn [snd].
  assert (∀ p cap, buffer_ok p cap → p ≠ NULL → region p cap ∧ bytes_in p) as Hreg by (by intros [|m] cap []).
  set (c1 := if is_null (pb_tx b) then c else c <| pd_tx := pb_tx b |> <| pd_tx_cap := pb_tx_cap b |>).
  assert (pd_ok c1) as H1.
  { unfold c1. destruct (pb_tx b) as [|m] eqn:E; [done|]. cbn [is_null].
    destruct (Hreg (Ptr m) _ Ht ltac:(done)). unfold pd_ok in *.
    inv_with Hc; first [reflexivity|assumption|simpl; lia|by destruct pi_sc; constructor]. }
  clearbody c1. clear Hc.
  set (c2 := if is_null (pb_rx_plain b) then c1 else _).
  assert (pd_ok c2) as H2.
  { unfold c2. destruct (pb_rx_plain b) as [|m] eqn:E; [done|]. cbn [is_null].
    destruct (Hreg (Ptr m) _ Hp ltac:(done)). unfold pd_ok in *.
    inv_with H1; first [reflexivity|assumption|simpl; lia|by destruct pi_sc; constructor]. }
  clearbody c2. clear H1 c1.
  set (c3 := if is_null (pb_rpl_cache b) then c2 else _).
  assert (pd_ok c3) as H3.
  { unfold c3. destruct (pb_rpl_cache b) as [|m] eqn:E; [done|]. cbn [is_null].
    destruct (Hreg (Ptr m) _ Hr ltac:(done)). unfold pd_ok in *.
    inv_with H2; first [reflexivity|assumption|simpl; lia|by destruct pi_sc; constructor]. }
  clearbody c3. clear H2 c2.
  destruct (pb_cmd_cache b) as [|m] eqn:E; [done|]. cbn [is_null].
  destruct (Hreg (Ptr m) _ Hm ltac:(done)). unfold pd_ok in *.
    inv_with H3; first [reflexivity|assumption|simpl; lia|by destruct pi_sc; constructor].
Qed.

Ltac handler Hc := eexists _, _; (split; [reflexivity|]); unfold pd_ok in *; inv_with Hc.

(** The setters of callbacks the invariant says nothing about. *)
Lemma plain_setters_ok c w o :
  match o with
  | OpLedHandler _ | OpBuzzerHandler _ | OpAbortHandler _ | OpAcurxsizeHandler _ | OpKeepactiveHandler _
  | OpClearEvents => True
  | _ => False
  end → pd_ok c → ∃ c' w', pd_run o c w = Some (c', w') ∧ pd_ok c'.
Proof.
  intros Ho Hc. destruct o; try done; handler Hc.
  destruct pi_events as [?|(q & m & -> & Hm & _)]; [by left|]. right.
  exists [], (queue_bytes q ++ m). split_and!; [done| |done|lia|constructor]. rewrite length_app. simpl. lia.
Qed.

(** The setters of the callbacks in [host_ok]. *)
Lemma host_setters_ok c w o :
  match o with
  | OpTransport _ | OpCommandHandler _ | OpComsetHandler _ _ | OpStatusProvider _ => True
  | _ => False
  end → pd_op_ok o → pd_ok c → ∃ c' w', pd_run o c w = Some (c', w') ∧ pd_ok c'.
Proof.
  intros Hk Ho Hc. pose proof (pi_host (TC := fixed_of c) c Hc) as Hh. destruct o as [|t|cb| | |cb a| | |sp| | | | | | | | | | | | |]; try done.
  - destruct t as [t|]; [|eexists _, _; by split]. handler Hc. destruct Hh. constructor; try done.
    intros read n w0 E. exact (Ho read E n w0).
  - handler Hc. destruct Hh. constructor; try done. intros f code p n r w0 -> Hr. by apply Ho.
  - handler Hc. destruct Hh. constructor; try done. intros f a' b w0 ->. apply Ho.
  - destruct sp as [sp|].
    + destruct Ho as [H1 H2]. handler Hc. by destruct Hh; constructor.
    + handler Hc. destruct Hh. constructor; try done. intros f. by intros [|[|]].
Qed.

(** The receivers and the event queue. *)
Lemma receivers_ok c w o :
  match o with
  | OpFileReceiver _ _ _ | OpFileStream _ | OpMfgReceiver _ _ _ | OpEventQueue _ _ => True
  | _ => False
  end → pd_op_ok o → pd_ok c → ∃ c' w', pd_run o c w = Some (c', w') ∧ pd_ok c'.
Proof.
  intros Hk Ho Hc. destruct o as [| | | | | |buf cap cb|cb| |buf cap cb| | | | | | | | |buf cap| | |]; try done.
  - handler Hc. exists None. split; [|done]. read_set. destruct buf; [done|]. apply Ho.
  - handler Hc. by exists None.
  - destruct Ho as [Hb Hcb]. pose proof (pi_host (TC := fixed_of c) c Hc) as Hh.
    eexists _, _. split; [reflexivity|]. unfold pd_ok in *. inv_with Hc.
    + by destruct Hh; constructor.
    + destruct buf as [|m]; [by left|]. right. destruct Hb as [Hb _].
      constructor; cbn [mr_buf mr_cap mr_total mr_received]; [by exists m|split; [by vm_decide|simpl; lia]|lia].
    + by rewrite length_replicate.
  - handler Hc. destruct buf as [|m]; [by left|]. right. destruct Ho as [Hb _].
    exists [], m. split_and!; [done|done|done|cbn; lia|constructor].
Qed.

(** The keys and the cipher. *)
Lemma sc_setters_ok c w o :
  match o with OpScCrypto _ | OpScbk _ | OpScbkD _ | OpCuid _ => True | _ => False end →
  pd_op_ok o → pd_ok c → ∃ c' w', pd_run o c w = Some (c', w') ∧ pd_ok c'.
Proof.
  intros Hk Ho Hc. pose proof (pi_sc (TC := fixed_of c) c Hc) as Hs.
  assert (∀ k n, buffer_ok k n → k ≠ NULL → ∃ bs, rd_slice k 0 n = Some bs ∧ length bs = n ∧ bytes_ok bs) as Hread.
  { intros k n Hb Hn. exists (view k n). split_and!; [by apply rd_slice_view|by apply length_view|by apply view_bytes]. }
  destruct o as [| | | | | | | | | | | | |cr|k|k|k| | | | |]; try done.
  - destruct cr as [cr|]; [|eexists _, _; by split]. eexists _, _. split; [reflexivity|].
    unfold pd_ok in *. inv_with Hc; first [reflexivity|assumption|done|idtac].
    destruct Hs. constructor; read_set; try done; by vm_decide.
  - destruct k as [|m]; [eexists _, _; by split|]. destruct (Hread (Ptr m) _ Ho ltac:(done)) as (bs & E & Hb).
    cbn [pd_run]. unfold osdp_pd_set_sc_scbk. cbn [is_null]. rewrite bind_Some, E, bind_Some. handler Hc.
    by destruct Hs; constructor.
  - destruct k as [|m]; [eexists _, _; by split|]. destruct (Hread (Ptr m) _ Ho ltac:(done)) as (bs & E & Hb).
    cbn [pd_run]. unfold osdp_pd_set_sc_scbk_d. cbn [is_null]. rewrite bind_Some, E, bind_Some. handler Hc.
    by destruct Hs; constructor.
  - destruct k as [|m]; [eexists _, _; by split|]. destruct (Hread (Ptr m) _ Ho ltac:(done)) as (bs & E & Hb).
    cbn [pd_run]. unfold osdp_pd_set_sc_cuid. cbn [is_null]. rewrite bind_Some, E, bind_Some. handler Hc.
    by destruct Hs; constructor.
Qed.

Lemma enqueue_shape c code payload len s c' :
  osdp_pd_enqueue_event (Some c) code payload len = Some (s, Some c') →
  ∃ b n, c' = c <| pd_event_buf := b |> <| pd_event_len := n |>.
Proof.
  assert (∃ b n, c = c <| pd_event_buf := b |> <| pd_event_len := n |>) as Hid.
  { exists (pd_event_buf c), (pd_event_len c). by destruct c. }
  unfold osdp_pd_enqueue_event. destruct (is_null _); [by intros [= _ <-]|].
  do 2 (case_decide; [by intros [= _ <-]|]). cbv zeta. case_decide; [by intros [= _ <-]|].
  destruct (write_event _ _ _ _ _); [|done]. rewrite bind_Some. intros [= _ <-]. by eexists _, _.
Qed.

Lemma enqueue_ok c w code payload len :
  is_byte code → region_ok payload len → pd_ok c →
  ∃ c' w', pd_run (OpEnqueue code payload len) c w = Some (c', w') ∧ pd_ok c'.
Proof.
  intros Hcode Hp Hc. cbn [pd_run].
  pose proof (pi_events (TC := fixed_of c) c Hc) as [Hn|(q & m & Hb & Hm & Hl & Hcap & Hev)].
  { unfold osdp_pd_enqueue_event. rewrite Hn. eexists _, _. by split. }
  assert (queue_rep c q) as Hq.
  { constructor; [by exists m|done|done|done|exact (pi_scratch (TC := fixed_of c) c Hc)]. }
  destruct (enqueue_refines c w q code payload len Hq Hcode Hp) as (c' & E & [(m' & Hb' & Hm') Hl' Hcap' Hev' _] & _).
  cbn [run_op] in E. destruct (osdp_pd_enqueue_event (Some c) code payload len) as [[s [c''|]]|] eqn:Eq; try done.
  cbn [mbind option_bind] in E. injection E as _ ->. eexists _, _. split; [reflexivity|].
  destruct (enqueue_shape _ _ _ _ _ _ Eq) as (b & n & ->).
  revert Hb' Hm' Hl' Hcap'. read_set. intros. unfold pd_ok in *. inv_with Hc. right. by eexists _, m'.
Qed.

Lemma set_pdcap_shape c rs count bad s c' bad' :
  osdp_pd_set_pdcap (Some c) rs count bad = Some (s, Some c', bad') → s = OSDP_OK →
  ∃ rs', c' = c <| pd_pdcap_records := rs' |> <| pd_pdcap_count := count |>.
Proof.
  unfold osdp_pd_set_pdcap. cbv zeta. do 2 (case_decide; [by intros [= <-]|]).
  destruct (first_bad _ _ _ _ _) as [[s1 b1]|]; [|done]. rewrite bind_Some. case_decide; [by intros [= <-]|].
  destruct (osdp_pd_check_pdcap _ _ _ _) as [[s2 b2]|]; [|done]. rewrite bind_Some. case_decide; [by intros [= <-]|].
  destruct (if decide (0 < count) then _ else _) as [rs'|]; [|done]. rewrite bind_Some. intros [= _ <-] _.
  by exists rs'.
Qed.

Lemma set_pdcap_pd_ok c rs count bad : count ≤ length rs → Forall pdcap_typed rs → pd_ok c →
  ∃ s c' bad', osdp_pd_set_pdcap (Some c) (Some rs) count bad = Some (s, Some c', bad') ∧ pd_ok c'.
Proof.
  intros Hcount Ht Hc.
  destruct (set_pdcap_ok c rs count bad (caps_inv (TC := fixed_of c) c Hc) Hcount)
    as (s & c' & bad' & E & [Hl Hn _] & Hsame & Hok).
  exists s, c', bad'. split; [done|].
  destruct (decide (s = OSDP_OK)) as [Hs|Hs]; [|by rewrite Hsame]. destruct (Hok Hs) as (Hb & Hc' & _ & Hbind).
  assert (∃ rs', c' = c <| pd_pdcap_records := rs' |> <| pd_pdcap_count := count |>) as (rs' & ->)
    by (by eapply set_pdcap_shape).
  revert Hl Hn Hb. unfold bound_pdcap. read_set. intros. unfold pd_ok in *. inv_with Hc.
  split_and!; [done|done|]. rewrite Hb.
  apply (Forall_take _ count) in Ht. rewrite Forall_forall in *. auto.
Qed.

Lemma pdcap_ok c w rs count :
  pd_op_ok (OpPdcap (W := W) rs count) → pd_ok c → ∃ c' w', pd_run (OpPdcap rs count) c w = Some (c', w') ∧ pd_ok c'.
Proof.
  intros Ho Hc. cbn [pd_run]. destruct rs as [rs|].
  2:{ unfold osdp_pd_set_pdcap. case_decide; [eexists _, _; by split|]. assert (count = 0) as -> by (destruct count; [done|exfalso; apply H; split; [lia|done]]).
      cbn. eexists _, _. split; [reflexivity|]. unfold pd_ok in *. inv_with Hc. destruct pi_caps as (? & _ & _).
      split_and!; [done|cbn; lia|constructor]. }
  destruct Ho as [Hcount Ht]. destruct (set_pdcap_pd_ok c rs count None Hcount Ht Hc) as (s & c' & bad & -> & Hc').
  rewrite bind_Some. eexists _, _. by split; [reflexivity|].
Qed.

(** One admissible operation. *)
Lemma pd_run_ok o c w : pd_op_ok o → pd_ok c → ∃ c' w', pd_run o c w = Some (c', w') ∧ pd_ok c'.
Proof.
  intros Ho Hc. destruct o.
  all: try (by apply buffers_ok); try (by apply plain_setters_ok); try (by apply host_setters_ok);
    try (by apply receivers_ok); try (by apply sc_setters_ok); try (by apply pdcap_ok).
  - by apply enqueue_ok; [apply Ho..|].
  - destruct (tick_safe c w Hc) as ([] & c' & w' & E & Hc'). cbn [pd_run]. rewrite E. by eexists _, _.
Qed.

Lemma pd_runs_ok os c w :
  Forall pd_op_ok os → pd_ok c → ∃ c' w', pd_runs os c w = Some (c', w') ∧ pd_ok c'.
Proof.
  intros Hos. revert c w. induction Hos as [|o os Ho _ IH]; intros c w Hc; [by eexists _, _|].
  cbn [pd_runs]. destruct (pd_run_ok o c w Ho Hc) as (c1 & w1 & -> & H1). rewrite bind_Some. by apply IH.
Qed.

End reach.

(** ** Example device *)

(** A PD at [address] after [osdp_pd_init] and some operations. *)
Definition pd_device {W} (address : Z) (os : list (pd_op W)) (w : W) : osdp_pd W :=
  match (c ← osdp_pd_init (Some pd_zero) address; pd_runs os c w) with
  | Some (c, _) => c
  | None => pd_zero
  end.

Lemma pd_device_ok {W} address (os : list (pd_op W)) w : Forall pd_op_ok os → pd_ok (pd_device address os w).
Proof.
  intros Hos. destruct (init_pd_ok (W := W) pd_zero address) as (c & E & Hc).
  destruct (pd_runs_ok os c w Hos Hc) as (c' & w' & E' & Hc').
  unfold pd_device. by rewrite E, bind_Some, E'.
Qed.

(** A host that delivers one message per read, has no clock and takes every byte. *)
Definition ex_transport (line : list Z) : osdp_pd_transport unit :=
  mk_transport (Some (λ n w, (Z.of_nat (length (take n line)), take n line, w)))
    (Some (λ bs w, (Z.of_nat (length bs), w))) None.

Lemma ex_transport_ok line : bytes_ok line → pd_op_ok (OpTransport (Some (ex_transport line))).
Proof.
  intros Hl read [= <-] n w. cbn. rewrite length_take. split_and!; [lia|lia|by apply Forall_take].
Qed.

Lemma toy_cipher_ok : cipher_ok toy_crypto.
Proof.
  split; [by exists toy, toy; apply toy_aes|]. intros rand w [= <-]. cbn. split; [by vm_decide|].
  by vm_decide.
Qed.

Definition ex_ops : list (pd_op unit) :=
  [OpTransport (Some (ex_transport (frame_wire ex_frame))); OpScCrypto (Some toy_crypto);
   OpScbk (Ptr OSDP_SCBK_DEFAULT); OpEventQueue (Ptr (replicate 32 0%Z)) 32; OpTick; OpTick].

(** ** Properties *)

(** C1: Memory safety and termination of the PD.  Whatever the bytes on the line
    and whatever sequence of admissible API calls and ticks a host makes on a
    context that [osdp_pd_init] set up, every call is defined and ends, and the
    context stays well-formed. *)
Theorem pd_never_undefined {W} (c0 : osdp_pd W) address os (w : W) :
  Forall pd_op_ok os →
  ∃ c c' w', osdp_pd_init (Some c0) address = Some c ∧ pd_runs os c w = Some (c', w') ∧ pd_ok c'.
Proof.
  intros Hos. destruct (init_pd_ok c0 address) as (c & E & Hc).
  destruct (pd_runs_ok os c w Hos Hc) as (c' & w' & E' & Hc'). by eexists _, _, _.
Qed.

(** The tick ends.  From a well-formed context, with any host whose reads
    stay within the request, the loops of one [osdp_pd_tick] end within their
    fuel and leave a well-formed context. *)
Theorem pd_tick_terminates {W} (p : osdp_pd W) (w : W) :
  pd_ok p → ∃ p' w', osdp_pd_tick p w = Some (tt, p', w') ∧ pd_ok p'.
Proof. intros Hp. destruct (tick_safe p w Hp) as ([] & p' & w' & E & Hp'). by eexists _, _. Qed.

(** ** Witnesses *)

Lemma pd_never_undefined_witness :
  ∃ c c' w', osdp_pd_init (Some (pd_zero (W := unit))) 1 = Some c ∧ pd_runs ex_ops c tt = Some (c', w') ∧ pd_ok c'.
Proof.
  apply (pd_never_undefined pd_zero 1 ex_ops tt).
  repeat (apply Forall_cons_2); [|..|constructor].
  - apply ex_transport_ok. by vm_decide.
  - apply toy_cipher_ok.
  - by vm_decide.
  - by vm_decide.
  - done.
  - done.
Defined.

Lemma pd_tick_terminates_witness :
  ∃ p' w', osdp_pd_tick (pd_device 1 [] tt) tt = Some (tt, p', w') ∧ pd_ok p'.
Proof. apply (pd_tick_terminates (pd_device 1 [] tt) tt). by apply pd_device_ok. Defined.
