(* ===== verification/PdSpec.v ===== *)
(** * What the PD promises on the line

    The retransmit rule and the secure-mode policy of the specification's
    chapter 5, the capability report, and what a KEYSET does to the key. *)
From S2P Require Import Prelude Types State Pack Codec Commands Replies Records Frame Stream Dispatch ScCrypto ScFrame.
From S2P Require Import PdTypes PdEvents PdPdcap PdBanks PdDispatch PdSc Pd PdInv PdSafe PdReach.

(** ** Transmission depends on the bytes alone *)

Section lemmas.
Context {W : Type}.
Implicit Types (p q : osdp_pd W) (w : W).

Lemma rd_slice_sub (b : ptr) n bs off k :
  rd_slice b 0 n = Some bs → off + k ≤ n → rd_slice b off k = Some (take k (drop off bs)).
Proof.
  destruct b as [|m]; [done|]. cbn [rd_slice]. intros (-> & Hl & Hm)%mslice_inv Ho.
  rewrite mslice_Some by lia. rewrite drop_0. f_equal. rewrite skipn_firstn_comm, take_take. f_equal. lia.
Qed.

Lemma send_loop_ext fuel write a b len bs sent :
  rd_slice a 0 len = Some bs → rd_slice b 0 len = Some bs →
  ∀ p w, send_loop fuel write a len sent p w = send_loop fuel write b len sent p w.
Proof.
  intros Ha Hb. revert sent. induction fuel as [|fuel IH]; intros sent p w; [done|]. cbn [send_loop].
  case_decide; [|done].
  rewrite (run_lift _ _ _ _ _ (rd_slice_sub a len bs sent (len - sent) Ha ltac:(lia))),
    (run_lift _ _ _ _ _ (rd_slice_sub b len bs sent (len - sent) Hb ltac:(lia))).
  rewrite !run_host. case_decide; [done|]. apply IH.
Qed.

Lemma send_bytes_ext a b len bs :
  rd_slice a 0 len = Some bs → rd_slice b 0 len = Some bs →
  ∀ p w, send_bytes a len p w = send_bytes b len p w.
Proof.
  intros Ha Hb p w. unfold send_bytes. rewrite !run_gets. destruct (tr_write _) as [write|]; [|done].
  case_decide; [done|]. unfold mbind at 1 3, M_bind.
  by rewrite (send_loop_ext _ write a b len bs 0 Ha Hb).
Qed.

(** Transmission touches the online state only. *)
Lemma send_bytes_shape buf len p w p' w' :
  send_bytes buf len p w = Some (tt, p', w') →
  ∃ b t, p' = p <| pd_last_comm_ms := t |> <| pd_online := b |>.
Proof.
  assert (∃ b t, p = p <| pd_last_comm_ms := t |> <| pd_online := b |>) as Hid
    by (exists (pd_online p), (pd_last_comm_ms p); by destruct p).
  assert (∀ fuel write sent w r q w1, send_loop fuel write buf len sent p w = Some (r, q, w1) → q = p) as Hloop.
  { intros fuel. induction fuel as [|fuel IH]; intros write sent w0 r q w1; [done|]. cbn [send_loop].
    case_decide; [|by intros [= _ <- _]].
    destruct (rd_slice buf sent (len - sent)) as [bs|]; [|done]. rewrite run_lift_Some, run_host.
    case_decide; [by intros [= _ <- _]|apply IH]. }
  unfold send_bytes. rewrite run_gets. destruct (tr_write _) as [write|]; [|by intros [= <- _]].
  case_decide; [by intros [= <- _]|]. intros Hsend. apply bind_inv in Hsend as (sent & q & w1 & H1 & H2).
  apply Hloop in H1 as ->. revert H2. case_decide; [by intros [= <- _]|].
  destruct (tr_now_ms _); m_run.
  - rewrite run_host. m_run. intros [= <- _]. by eexists true, _.
  - intros [= <- _]. exists true, (pd_last_comm_ms p). by destruct p.
Qed.

Lemma is_retransmit_ext p q cmd :
  pd_have_last q = pd_have_last p → pd_last_cmd_len q = pd_last_cmd_len p → pd_cmd_cache q = pd_cmd_cache p →
  is_retransmit q cmd = is_retransmit p cmd.
Proof. unfold is_retransmit. by intros -> -> ->. Qed.

Lemma send_nothing buf p w : send_bytes buf 0 p w = Some (tt, p, w).
Proof. unfold send_bytes. rewrite run_gets. by destruct (tr_write _). Qed.

End lemmas.

(** ** Refusals *)

Lemma nak_frame_ok cmd e :
  cmd_ok cmd → is_byte e →
  let f := reply_frame cmd (nak_reply e) in frame_typed f ∧ buildable f ∧ frame_total f ≤ 9.
Proof.
  intros [Ht Hb _] He. cbv zeta.
  assert (frame_total (reply_frame cmd (nak_reply e)) ≤ 9) as Hl.
  { unfold frame_total, integrity_size, OSDP_FRAME_HEADER_LEN. cbn. case_decide; lia. }
  split_and!; [by apply reply_frame_typed; [apply Ht..|apply nak_reply_ok]| |done].
  constructor; first [apply Hb|by cbn|unfold OSDP_FRAME_MAX_LEN; lia|by intros ?%Nat.lt_irrefl].
Qed.

Section refuse.
Context {W : Type}.
Implicit Types (p q : osdp_pd W) (w : W).

(** The NAK is built in the TX region; nothing else changes. *)
Lemma refuse_with_ok cmd e p w :
  cmd_ok cmd → is_byte e → region (pd_tx p) (pd_tx_cap p) → 10 ≤ pd_tx_cap p →
  let f := reply_frame cmd (nak_reply e) in
  refuse_with cmd e p w = Some (S (frame_total f), p <| pd_tx := framed f (pd_tx p) |>, w).
Proof.
  intros Hc He Hr Hcap. destruct (nak_frame_ok cmd e Hc He) as (Ht & Hb & Hl). cbv zeta in *.
  unfold refuse_with, osdp_pd_internal_build_nak, build_nak, build_reply.
  rewrite (run_bind _ _ _ _ _ _ _ (build_into_tx_ok _ p w Ht Hb Hr ltac:(lia))). by m_run.
Qed.

Lemma pd_ok_tx p : pd_ok p → region (pd_tx p) (pd_tx_cap p).
Proof. intros Hp. exact (pi_tx (TC := fixed_of p) p Hp). Qed.

End refuse.

(** What a clear-text command does to the Secure Channel state before it is
    looked at: a live session is over. *)
Definition after_clear {W} (p : osdp_pd W) : osdp_pd W :=
  if established (sc_session (pd_sc p))
  then p <| pd_sc := (pd_sc p) <| sc_session := session_zero |> <| sc_got_chlng := false |> |> else p.

(** Whether the secure-mode policy refuses a clear-text command. *)
Definition clear_refused {W} (p : osdp_pd W) (cmd : osdp_frame) : Prop :=
  (established (sc_session (pd_sc p)) = true ∧ fr_sequence cmd ≠ 0%Z) ∨
  (sc_scbk_set (pd_sc p) = true ∧ fr_code cmd ∉ [OSDP_CMD_ID; OSDP_CMD_CAP; OSDP_CMD_COMSET]).

#[export] Instance clear_refused_dec {W} (p : osdp_pd W) cmd : Decision (clear_refused p cmd).
Proof. unfold clear_refused. apply _. Defined.

Lemma clear_allowed_iff code :
  clear_command_allowed_pre_sc code = true ↔ code ∈ [OSDP_CMD_ID; OSDP_CMD_CAP; OSDP_CMD_COMSET].
Proof. unfold clear_command_allowed_pre_sc. rewrite bool_decide_eq_true, !elem_of_cons, elem_of_nil. tauto. Qed.

(** ** A command that is not a retransmission *)

(** What the retransmit cache holds after an answer: the command and its reply,
    or, after a BUSY, nothing. *)
Definition remembered {W} (q q' : osdp_pd W) (cmd : osdp_frame) (n : nat) : Prop :=
  if pd_reply_cacheable q then cached q q' cmd n else q' = q <| pd_have_last := false |>.

Lemma remember_ok {W} {TC : PdFixed W} (q : osdp_pd W) cmd n w :
  pd_inv q → cmd_ok cmd → n ≤ tx_cap →
  ∃ q', (if pd_reply_cacheable q then cache_reply cmd n else pd_have_last ::= false) q w = Some (tt, q', w) ∧
    remembered q q' cmd n ∧ pd_inv q' ∧ pd_tx q' = pd_tx q ∧ pd_comset_pending q' = pd_comset_pending q.
Proof.
  intros Hq Hcmd Hn. unfold remembered. destruct (pd_reply_cacheable q).
  - destruct (cache_reply_safe cmd n Hcmd Hn q w Hq) as ([] & q2 & w2 & E2 & Hq2 & _).
    rewrite <-(pi_tx_cap q Hq) in Hn.
    destruct (cache_reply_ok q cmd n w ltac:(rewrite (pi_tx_cap q Hq); apply Hq) Hn (cmd_raw_ok cmd Hcmd)
      (pi_rpl q Hq) (pi_cmd q Hq)) as (q' & Ec & Hc).
    rewrite Ec in E2. injection E2 as <- <-. exists q'. pose proof Hc as [(rc & lr & cc & lc & Hq') _ _ _ _ _ _].
    split_and!; [done|done|done|by rewrite Hq'..].
  - m_run. eexists. split; [done|]. split_and!; [done|inv_with Hq|done|done].
Qed.

(** It is executed, its reply recorded as [remembered] says, and the reply sent. *)
Lemma process_once {W} (p : osdp_pd W) cmd w n q w1 :
  pd_ok p → cmd_ok cmd → is_retransmit p cmd = Some false →
  handle_command_into_tx cmd (p <| pd_reply_cacheable := true |>) w = Some (n, q, w1) →
  pd_comset_pending q = false →
  ∃ bs q' p1 w2, rd_slice (pd_tx q) 0 n = Some bs ∧ length bs = n ∧ remembered q q' cmd n ∧
    send_bytes (Ptr bs) n q' w1 = Some (tt, p1, w2) ∧ process_frame cmd p w = Some (tt, p1, w2).
Proof.
  intros Hp Hcmd Hfirst Hrun Hpend.
  assert (pd_inv (TC := fixed_of p) (p <| pd_reply_cacheable := true |>)) as Hp1 by (unfold pd_ok in Hp; inv_with Hp).
  destruct (handle_command_safe (TC := fixed_of p) cmd Hcmd _ w Hp1) as (n' & q1 & w1' & E & Hq & Hn).
  rewrite Hrun in E. injection E as <- <- <-.
  destruct (remember_ok (TC := fixed_of p) q cmd n w1 Hq Hcmd Hn) as (q' & Ec & Hc & Hq' & Htx' & Hpend').
  pose proof (pi_tx q Hq) as Htx. destruct (region_read _ _ n Htx Hn) as (bs & Hbs & Hlen).
  assert (rd_slice (Ptr bs) 0 n = Some bs) as Hself by (by apply rd_all).
  destruct (send_bytes_safe (W := W) (TC := fixed_of p) (Ptr bs) n ltac:(cbn; lia) q' w1 Hq') as ([] & p1 & w2 & Es & _ & _).
  exists bs, q', p1, w2. split_and!; [done..|].
  unfold process_frame. m_run. unfold id. rewrite Hfirst. m_run. cbv iota. m_run.
  rewrite (run_bind _ _ _ _ _ _ _ Hrun). m_run. unfold id.
  rewrite (run_bind _ _ _ _ _ _ _ Ec). destruct (send_bytes_shape _ _ _ _ _ _ Es) as (b & t & Hp1').
  assert (pd_comset_pending p1 = false) as Hpend1 by (rewrite Hp1'; cbn; congruence).
  destruct (decide (0 < n)) as [Hp0|Hz].
  - rewrite run_assoc. m_run. rewrite Htx'.
    rewrite (run_bind (send_bytes (pd_tx q) n) _ _ _ tt p1 w2)
      by (rewrite (send_bytes_ext _ _ _ _ Hbs Hself); exact Es).
    m_run. by rewrite Hpend1.
  - assert (n = 0) as -> by lia. rewrite send_nothing in Es. injection Es as <- <-. m_run. by rewrite Hpend1.
Qed.

(** The same when the reply is cacheable. *)
Lemma process_fresh {W} (p : osdp_pd W) cmd w n q w1 :
  pd_ok p → cmd_ok cmd → is_retransmit p cmd = Some false →
  handle_command_into_tx cmd (p <| pd_reply_cacheable := true |>) w = Some (n, q, w1) →
  pd_reply_cacheable q = true → pd_comset_pending q = false →
  ∃ bs q' p1 w2, rd_slice (pd_tx q) 0 n = Some bs ∧ length bs = n ∧ cached q q' cmd n ∧
    send_bytes (Ptr bs) n q' w1 = Some (tt, p1, w2) ∧ process_frame cmd p w = Some (tt, p1, w2).
Proof.
  intros Hp Hcmd Hfirst Hrun Hcache Hpend.
  destruct (process_once p cmd w n q w1) as (bs & q' & p1 & w2 & ? & ? & Hc & ?); [done..|].
  unfold remembered in Hc. rewrite Hcache in Hc. by exists bs, q', p1, w2.
Qed.

(** A command too long for its cache, or answered BUSY, is not recognised again. *)
Lemma remembered_not_again {W} (q q' : osdp_pd W) cmd n :
  remembered q q' cmd n → pd_reply_cacheable q = false ∨ pd_cmd_cache_cap q < fr_raw_len cmd →
  is_retransmit q' cmd = Some false.
Proof.
  unfold remembered, is_retransmit. destruct (pd_reply_cacheable q) eqn:Ec.
  - intros [_ _ _ _ _ Hl _] [?|Hbig]; [done|]. rewrite decide_False in Hl by lia. case_decide; [done|].
    by rewrite decide_True by auto.
  - intros -> _. by rewrite decide_True by auto.
Qed.

(** A replayed command: the answer recorded for it. *)
Lemma cached_replay {W} (q q' : osdp_pd W) cmd n bs b t :
  let p1 := q' <| pd_last_comm_ms := t |> <| pd_online := b |> in
  cached q q' cmd n → rd_slice (pd_tx q) 0 n = Some bs → length bs = n →
  cmd_ok cmd → fr_sequence cmd ≠ 0%Z → fr_raw_len cmd ≤ pd_cmd_cache_cap q →
  ∀ w, process_frame cmd p1 w =
    if decide (n ≤ pd_rpl_cache_cap q) then send_bytes (Ptr bs) n p1 w else Some (tt, p1, w).
Proof.
  intros p1 Hc Hbs Hlen Hcmd Hseq Hraw w. pose proof Hc as [_ _ _ Hrl Hrb _ _].
  assert (rd_slice (Ptr bs) 0 n = Some bs) as Hself by (by apply rd_all).
  assert (is_retransmit p1 cmd = Some true) as Hagain.
  { rewrite <-(is_retransmit_cached q q' cmd n Hc (cmd_raw_ok cmd Hcmd) Hseq Hraw). by apply is_retransmit_ext. }
  assert (pd_last_reply_len p1 = pd_last_reply_len q' ∧ pd_rpl_cache p1 = pd_rpl_cache q') as [Hl1 Hr1] by done.
  unfold process_frame. m_run. unfold id. rewrite Hagain. m_run. cbv iota. rewrite Hl1, Hr1.
  destruct (decide (n ≤ pd_rpl_cache_cap q)) as [Hfit|Hbig], (decide (0 < n)) as [Hp0|Hz].
  - rewrite decide_True in Hrl by lia. rewrite Hrl, decide_True by lia. apply (send_bytes_ext _ _ n bs); [|done].
    rewrite Hrb; [done|lia].
  - rewrite decide_False in Hrl by lia. rewrite Hrl, decide_False by lia.
    assert (n = 0) as -> by lia. by rewrite send_nothing.
  - rewrite decide_False in Hrl by lia. by rewrite Hrl, decide_False by lia.
  - rewrite decide_False in Hrl by lia. by rewrite Hrl, decide_False by lia.
Qed.

(** ** The reply scratch and the key *)

Section keyset.
Context {W : Type}.
Implicit Types (p q : osdp_pd W) (w : W).

Notation with_scratch q m := (q <| pd_reply_scratch := m |>).

Lemma nak_into_run e q w :
  length (pd_reply_scratch q) = OSDP_PD_REPLY_SCRATCH_LEN →
  ∃ m, nak_into e q w = Some (mk_reply OSDP_REPLY_NAK (Ptr m) 1, with_scratch q m, w) ∧
    rd_slice (Ptr m) 0 1 = Some [e] ∧ length m = OSDP_PD_REPLY_SCRATCH_LEN.
Proof.
  intros Hl. exists ([e] ++ drop 1 (pd_reply_scratch q)). unfold nak_into, scratch_reply. m_run.
  rewrite (run_lift _ _ _ _ _ (mwr_0 _ [e] ltac:(rewrite Hl; unfold OSDP_PD_REPLY_SCRATCH_LEN; cbn; lia))).
  m_run. split_and!; [done|by apply (rd_front [e])|]. rewrite length_app, length_drop, Hl. done.
Qed.

Lemma apply_app_status_run s r q w :
  length (pd_reply_scratch q) = OSDP_PD_REPLY_SCRATCH_LEN →
  ∃ outcome r' m, apply_app_status s r q w = Some ((outcome, r'), with_scratch q m, w) ∧
    length m = OSDP_PD_REPLY_SCRATCH_LEN.
Proof.
  intros Hl. assert (with_scratch q (pd_reply_scratch q) = q) as Hid by (by destruct q).
  unfold apply_app_status.
  destruct s; try (eexists _, r, (pd_reply_scratch q); by rewrite Hid);
    match goal with |- context [nak_into ?e] => destruct (nak_into_run e q w Hl) as (m & E & _ & Hm) end;
    rewrite (run_bind _ _ _ _ _ _ _ E); eexists _, _, m; by split.
Qed.

(** The key of a well-formed osdp_KEYSET body. *)
Definition installs (v : osdp_keyset_cmd) : Prop :=
  ks_key_type v = OSDP_KEYSET_KEY_TYPE_SCBK ∧ Z.to_nat (ks_key_length v) = OSDP_SC_KEY_LEN.

#[export] Instance installs_dec v : Decision (installs v).
Proof. unfold installs. apply _. Defined.

Definition new_key (sc : osdp_pd_sc W) (v : osdp_keyset_cmd) : osdp_pd_sc W :=
  sc <| sc_scbk := view (ks_key_data v) OSDP_SC_KEY_LEN |> <| sc_scbk_set := true |>.

Lemma apply_keyset_run channel payload n v q w :
  payload_ok payload n → osdp_keyset_decode payload n (Some keyset_zero) = Some (OSDP_OK, Some v) →
  apply_keyset_for_channel channel payload n q w =
    if decide (installs v) then Some (true, q <| pd_sc := new_key (pd_sc q) v |>, w) else Some (false, q, w).
Proof.
  intros Hp E.
  destruct (decode_safe (T := osdp_keyset_cmd) payload n keyset_zero Hp) as (s & v' & E' & Hv).
  change cd_decode with osdp_keyset_decode in E'. rewrite E in E'. injection E' as <- <-.
  destruct (Hv eq_refl) as ((_ & _ & Hr) & [Hl Hn] & _).
  unfold apply_keyset_for_channel, osdp_pd_internal_apply_keyset. rewrite run_assoc, (run_lift _ _ _ _ _ E).
  rewrite decide_False by (intros []; done). m_run. unfold installs.
  destruct (decide (ks_key_type v = OSDP_KEYSET_KEY_TYPE_SCBK)) as [Ht|Ht].
  2:{ rewrite decide_True by done. m_run. by rewrite decide_False by tauto. }
  rewrite decide_False by tauto.
  destruct (decide (Z.to_nat (ks_key_length v) = OSDP_SC_KEY_LEN)) as [Hk|Hk].
  2:{ rewrite decide_True by tauto. m_run. by rewrite decide_False by tauto. }
  assert (ks_key_data_len v = OSDP_SC_KEY_LEN) as Hlen by lia. rewrite Hlen in Hr, Hn.
  assert (ks_key_data v ≠ NULL) as Hnn by (apply Hn; by vm_decide).
  rewrite decide_False by tauto. m_run. rewrite (run_lift _ _ _ _ _ (rd_slice_view _ _ Hr Hnn)).
  unfold with_sc. m_run. by rewrite decide_True by tauto.
Qed.

End keyset.

(** ** Secured commands *)

(** A secured command goes to the operational handler when the channel is configured. *)
Lemma secured_is_operational {W} (p : osdp_pd W) cmd w :
  osdp_pd_internal_sc_configured (Some p) = true → fr_has_scb cmd = true →
  fr_scb_type cmd = OSDP_SCS_15 ∨ fr_scb_type cmd = OSDP_SCS_17 →
  handle_command_into_tx cmd p w = handle_operational cmd p w.
Proof.
  intros Hconf Hscb Hty. unfold handle_command_into_tx. m_run. unfold id. rewrite Hscb, Hconf.
  unfold osdp_pd_internal_handle_sc_into_tx. by destruct Hty as [-> | ->].
Qed.

(** A wrong MAC ends in the unwrap. *)
Lemma forged_dropped {W} (p : osdp_pd W) cmd w E D :
  pd_ok p → Aes (sc_crypto (pd_sc p)) E D → osdp_pd_internal_sc_configured (Some p) = true → cmd_ok cmd →
  fr_has_scb cmd = true → fr_scb_type cmd = OSDP_SCS_15 ∨ fr_scb_type cmd = OSDP_SCS_17 →
  let s := sc_session (pd_sc p) in
  established s = true →
  take 4 (mac_ref E (s_mac1 (ss_keys s)) (s_mac2 (ss_keys s)) (last_outbound_mac s) (frame_prefix cmd)) ≠
    view (fr_mac cmd) 4 →
  handle_command_into_tx cmd p w = Some (0, p, w).
Proof.
  intros Hp A Hconf Hc Hscb Hty s Hest Hmac. rewrite secured_is_operational by done.
  unfold handle_operational. m_run. fold s. rewrite Hest. cbn [negb].
  pose proof (so_session _ (pi_sc (TC := fixed_of p) p Hp)) as Hs. pose proof Hc as [Ht Hb Hd].
  pose proof (pi_plain (TC := fixed_of p) p Hp) as Hpl. change plain_cap with (pd_rx_plain_cap p) in Hpl.
  assert (osdp_scb_mac_len (fr_scb_type cmd) = 4) as Hm by (by destruct Hty as [-> | ->]).
  assert (operational_unwrap cmd p w = Some (None, p, w)) as Hun; [|by rewrite (run_bind _ _ _ _ _ _ _ Hun)].
  destruct (pd_rx_plain p) as [|o] eqn:Eo; [done|].
  destruct (unwrap_start (sc_crypto (pd_sc p)) E D s cmd o (pd_rx_plain_cap p) 0 (conj Hest Hs) Ht Hb Hscb Hm) as [_ Eu].
  unfold operational_unwrap. m_run. unfold id. rewrite Eo. rewrite Hd at 1.
  unfold expected_mac in Eu. rewrite decide_True in Eu by done.
  rewrite (run_lift _ _ _ _ _ Eu). unfold set_session, with_sc. m_run.
  rewrite decide_True by done. m_run. unfold s. rewrite <-Eo. by destruct p as [? ? ? ? ? ? ? ? ? ? ? ? ? ? ? ? ? ? ? ? ? []].
Qed.

(** ** Properties *)

(** C8: Retransmission (spec 5.9).  A new command is executed and answered (with no
    COMSET left to apply).  If the answer is not BUSY and the command fits the
    command cache, the same command received next, bit for bit and with the same
    non-zero sequence number, is not executed again: the PD sends exactly the bytes
    of its first answer once more, or nothing at all if that answer was larger than
    the reply cache (where a comment of the code promises a fresh execution).  If
    the answer is BUSY or the command does not fit, the repeated command is not
    taken for a retransmission and is executed again. *)
Theorem retransmission_replays {W} (p : osdp_pd W) cmd w n q w1 :
  pd_ok p → cmd_ok cmd → fr_sequence cmd ≠ 0%Z → is_retransmit p cmd = Some false →
  handle_command_into_tx cmd (p <| pd_reply_cacheable := true |>) w = Some (n, q, w1) →
  pd_comset_pending q = false →
  ∃ bs q' p1 w2, rd_slice (pd_tx q) 0 n = Some bs ∧
    send_bytes (Ptr bs) n q' w1 = Some (tt, p1, w2) ∧
    process_frame cmd p w = Some (tt, p1, w2) ∧
    (pd_reply_cacheable q = true → fr_raw_len cmd ≤ pd_cmd_cache_cap q →
     ∀ w3, process_frame cmd p1 w3 =
       if decide (n ≤ pd_rpl_cache_cap q) then send_bytes (Ptr bs) n p1 w3 else Some (tt, p1, w3)) ∧
    (pd_reply_cacheable q = false ∨ pd_cmd_cache_cap q < fr_raw_len cmd →
     is_retransmit p1 cmd = Some false).
Proof.
  intros Hp Hcmd Hseq Hfirst Hrun Hpend.
  destruct (process_once p cmd w n q w1) as (bs & q' & p1 & w2 & Hbs & Hlen & Hc & Es & Efresh); [done..|].
  exists bs, q', p1, w2. destruct (send_bytes_shape _ _ _ _ _ _ Es) as (b & t & Hp1').
  split_and!; [done..| |].
  - intros Hcache Hraw. unfold remembered in Hc. rewrite Hcache in Hc. rewrite Hp1'.
    by apply cached_replay.
  - intros Hno. rewrite <-(remembered_not_again q q' cmd n Hc Hno). apply is_retransmit_ext; by rewrite Hp1'.
Qed.

(** C9: Secure-mode policy (spec 5.7).  A clear-text command ends a live session
    before anything else.  If a session was live and the sequence number is not
    zero, or a SCBK is installed and the command is not ID, CAP or COMSET, the
    answer is NAK 0x06 alone: no handler runs, the application is not called, and
    nothing but the TX buffer changes.  Every other clear command is dispatched. *)
Theorem clear_command_policy {W} (p : osdp_pd W) cmd w :
  pd_ok p → cmd_ok cmd → fr_has_scb cmd = false → 10 ≤ pd_tx_cap p →
  let q := after_clear p in
  let nak := reply_frame cmd (nak_reply OSDP_NAK_ENCRYPTION_REQUIRED) in
  handle_command_into_tx cmd p w =
    if decide (clear_refused p cmd)
    then Some (S (frame_total nak), q <| pd_tx := framed nak (pd_tx q) |>, w)
    else answer_plain cmd q w.
Proof.
  intros Hp Hc Hscb Hcap q nak. unfold handle_command_into_tx. m_run. unfold id. rewrite Hscb. cbv zeta.
  assert ((if established (sc_session (pd_sc p)) then drop_session else mret tt) p w = Some (tt, q, w)) as Hd.
  { unfold q, after_clear, drop_session. by destruct (established _). }
  rewrite (run_bind _ _ _ _ _ _ _ Hd).
  assert (region (pd_tx q) (pd_tx_cap q) ∧ 10 ≤ pd_tx_cap q) as [Hr Hq].
  { unfold q, after_clear. apply pd_ok_tx in Hp. by destruct (established _). }
  pose proof (refuse_with_ok cmd OSDP_NAK_ENCRYPTION_REQUIRED q w Hc ltac:(by vm_decide) Hr Hq) as Hnak.
  case_decide as Hd0; unfold clear_refused in Hd0; rewrite <-clear_allowed_iff in Hd0; revert Hd0; clear Hd;
    destruct (established _), (bool_decide_reflect (fr_sequence cmd ≠ 0%Z)) as [Hs|Hs], (sc_scbk_set _),
      (clear_command_allowed_pre_sc _); cbn [andb negb]; intros Hd0; rewrite ?Hnak; first [done|exfalso; clear -Hs Hd0; intuition congruence].
Qed.


(** C20: Key rotation.  A decoded osdp_KEYSET that is answered installs its key on
    either channel, if it is a 16-byte SCBK, and earns NAK 0x09 otherwise; one the
    application drops or defers leaves the key alone.  Whether the application's
    answer was itself a NAK makes no difference. *)
Theorem keyset_installs_key {W} (p : osdp_pd W) channel payload n v w :
  pd_ok p → payload_ok payload n → osdp_keyset_decode payload n (Some keyset_zero) = Some (OSDP_OK, Some v) →
  ∃ outcome r p' w',
    osdp_pd_internal_dispatch channel OSDP_CMD_KEYSET payload n p w = Some ((outcome, r), p', w') ∧
    if decide (outcome ≠ OSDP_PD_DISPATCH_SEND) then pd_sc p' = pd_sc p
    else if decide (installs v) then pd_sc p' = new_key (pd_sc p) v
    else pd_sc p' = pd_sc p ∧ rp_code r = OSDP_REPLY_NAK ∧
         rd_slice (rp_payload r) 0 (rp_payload_len r) = Some [OSDP_NAK_RECORD_INVALID].
Proof.
  intros Hp Hpay Hdec. pose proof (pi_scratch (TC := fixed_of p) p Hp) as Hs.
  change (osdp_pd_internal_dispatch channel OSDP_CMD_KEYSET payload n p w) with
    (app_command channel OSDP_CMD_KEYSET payload n p w).
  unfold app_command. m_run.
  assert (∃ st r w1, (match pd_cmd_cb p with
     | None => mret (OSDP_ERR_NOT_SUPPORTED, ack_reply)
     | Some cmd_cb => host (cmd_cb OSDP_CMD_KEYSET payload n ack_reply) end) p w = Some ((st, r), p, w1))
    as (st & r & w1 & E).
  { destruct (pd_cmd_cb p) as [cb|]; [|by eexists _, _, _]. unfold host.
    destruct (cb _ _ _ _ _) as [[st r] w1]. by eexists _, _, _. }
  rewrite (run_bind _ _ _ _ _ _ _ E).
  change (osdp_pd_internal_observe_command OSDP_CMD_KEYSET payload n : PD W osdp_status) with
    (mret OSDP_ERR_NOT_SUPPORTED : PD W osdp_status).
  m_run. rewrite andb_false_r. cbn [andb].
  destruct (apply_app_status_run st r p w1 Hs) as (outcome & r' & m & E' & Hm).
  rewrite (run_bind _ _ _ _ _ _ _ E'). cbv beta iota.
  destruct (decide (outcome ≠ OSDP_PD_DISPATCH_SEND)) as [Ho|Ho].
  { eexists _, _, _, _. split; [done|]. by rewrite decide_True by done. }
  rewrite decide_True by done.
  pose proof (apply_keyset_run channel payload n v (p <| pd_reply_scratch := m |>) w1 Hpay Hdec) as Ek.
  destruct (decide (installs v)).
  - rewrite (run_bind _ _ _ _ _ _ _ Ek). cbn [negb]. eexists _, _, _, _. split; [done|].
    by rewrite decide_False by (by intros []).
  - rewrite (run_bind _ _ _ _ _ _ _ Ek). cbn [negb].
    destruct (nak_into_run OSDP_NAK_RECORD_INVALID (p <| pd_reply_scratch := m |>) w1
      ltac:(by read_set)) as (m' & En & Hrd & _).
    rewrite (run_bind _ _ _ _ _ _ _ En). eexists _, _, _, _. split; [done|].
    by rewrite decide_False by (by intros []).
Qed.

(** C21: The capability report.  Once a record set is bound, osdp_CAP is answered with
    the computed and the bound records together, sorted by function code, in their
    wire form; only the scratch changes. *)
Theorem capability_report_sorted {W} (p : osdp_pd W) channel payload n w :
  pd_ok p → pd_pdcap_count p ≠ 0 →
  ∃ r m rs, osdp_pd_internal_dispatch channel OSDP_CMD_CAP payload n p w =
      Some ((OSDP_PD_DISPATCH_SEND, r), p <| pd_reply_scratch := m |>, w) ∧
    rp_code r = OSDP_REPLY_PDCAP ∧
    rd_slice (rp_payload r) 0 (rp_payload_len r) = Some (wires pdcap_wire rs) ∧
    fn_sorted rs ∧ rs ≡ₚ reserved_pdcap p ++ bound_pdcap p.
Proof.
  intros Hp H0. destruct (handle_pdcap_run (TC := fixed_of p) p w Hp H0) as (rs & m & Hs & Hperm & _ & _ & _ & Hr & E).
  exists (mk_reply OSDP_REPLY_PDCAP (Ptr m) (length (wires pdcap_wire rs))), m, rs.
  split; [|split_and!; [reflexivity|exact Hr|done|done]].
  unfold osdp_pd_internal_dispatch, bound_command.
  change (library_command (W := W) OSDP_CMD_CAP payload n) with (@None (PD W osdp_pd_reply)).
  change (handle_status_request OSDP_CMD_CAP : PD W (option osdp_pd_reply)) with
    (gets pd_status ≫= λ _, mret None : PD W (option osdp_pd_reply)).
  cbv iota. m_run. rewrite (decide_True (P := OSDP_CMD_CAP = OSDP_CMD_CAP)) by done.
  rewrite (run_bind _ _ _ _ _ _ _ E). by m_run.
Qed.

(** ** Witnesses *)

(** A PD at address 1 that logs what it writes. *)
Definition log_transport : osdp_pd_transport (list (list Z)) :=
  mk_transport None (Some (λ bs w, (Z.of_nat (length bs), w ++ [bs]))) None.

(** An application that answers everything with a NAK. *)
Definition naysayer : osdp_pd_command_cb (list (list Z)) :=
  λ _ _ _ _ w, (OSDP_OK, mk_reply OSDP_REPLY_NAK (Ptr [OSDP_NAK_UNKNOWN_CMD]) 1, w).

Definition ex_pd1 : osdp_pd (list (list Z)) :=
  pd_device 1 [OpTransport (Some log_transport); OpCommandHandler (Some naysayer)] [].

Lemma ex_pd1_ok : pd_ok ex_pd1.
Proof.
  apply pd_device_ok. repeat (apply Forall_cons_2); [done| |constructor].
  intros code p n r w _. constructor; [by vm_decide|split; [cbn; lia|by vm_decide]|done].
Qed.

(** A clear command as the decoder hands it out. *)
Definition ex_cmd (seq code : Z) (payload : list Z) : osdp_frame :=
  decoded_of (mk_frame 1 false seq OSDP_INTEGRITY_CRC false 0 0 NULL 0 code
    (slice_ptr payload) (length payload) NULL 0 NULL 0).

Lemma ex_poll_ok : cmd_ok (ex_cmd 1 OSDP_CMD_POLL []).
Proof. constructor; [by vm_decide|by vm_decide|by vm_compute]. Qed.

Lemma ex_id_ok : cmd_ok (ex_cmd 1 OSDP_CMD_ID [0%Z]).
Proof. constructor; [by vm_decide|by vm_decide|by vm_compute]. Qed.

(** An application that defers everything. *)
Definition deferrer : osdp_pd_command_cb (list (list Z)) :=
  λ _ _ _ r w, (OSDP_ERR_BUSY, r, w).

Definition ex_pd3 : osdp_pd (list (list Z)) :=
  pd_device 1 [OpTransport (Some log_transport); OpCommandHandler (Some deferrer)] [].

Lemma ex_pd3_ok : pd_ok ex_pd3.
Proof.
  apply pd_device_ok. repeat (apply Forall_cons_2); [done| |constructor]. by intros code p n r w Hr.
Qed.

(** A refused command is answered twice with the same bytes; a deferred one is new
    each time. *)
Lemma retransmission_replays_witness :
  (∃ n q w1 bs q' p1 w2,
    handle_command_into_tx (ex_cmd 1 OSDP_CMD_ID [0%Z]) (ex_pd1 <| pd_reply_cacheable := true |>) [] = Some (n, q, w1) ∧
    n ≤ pd_rpl_cache_cap q ∧
    rd_slice (pd_tx q) 0 n = Some bs ∧ send_bytes (Ptr bs) n q' w1 = Some (tt, p1, w2) ∧
    process_frame (ex_cmd 1 OSDP_CMD_ID [0%Z]) ex_pd1 [] = Some (tt, p1, w2) ∧
    ∀ w3, process_frame (ex_cmd 1 OSDP_CMD_ID [0%Z]) p1 w3 =
      if decide (n ≤ pd_rpl_cache_cap q) then send_bytes (Ptr bs) n p1 w3 else Some (tt, p1, w3)) ∧
  (∃ p1 w2, process_frame (ex_cmd 1 OSDP_CMD_ID [0%Z]) ex_pd3 [] = Some (tt, p1, w2) ∧
    is_retransmit p1 (ex_cmd 1 OSDP_CMD_ID [0%Z]) = Some false).
Proof.
  split.
  - destruct (handle_command_into_tx (ex_cmd 1 OSDP_CMD_ID [0%Z]) (ex_pd1 <| pd_reply_cacheable := true |>) [])
      as [[[n q] w1]|] eqn:E; [|exfalso; revert E; by vm_compute].
    assert (n ≤ pd_rpl_cache_cap q ∧ pd_reply_cacheable q = true ∧ pd_comset_pending q = false ∧
      fr_raw_len (ex_cmd 1 OSDP_CMD_ID [0%Z]) ≤ pd_cmd_cache_cap q) as (Hn & Hc & Hp & Hr).
    { vm_compute in E. injection E as <- <- <-. by vm_decide. }
    destruct (retransmission_replays ex_pd1 (ex_cmd 1 OSDP_CMD_ID [0%Z]) [] n q w1 ex_pd1_ok ex_id_ok)
      as (bs & q' & p1 & w2 & Hb & Hs & Hf & Hrep & _); [done|by vm_compute|exact E|done|].
    exists n, q, w1, bs, q', p1, w2. split_and!; [done..|]. by apply Hrep.
  - destruct (handle_command_into_tx (ex_cmd 1 OSDP_CMD_ID [0%Z]) (ex_pd3 <| pd_reply_cacheable := true |>) [])
      as [[[n q] w1]|] eqn:E; [|exfalso; revert E; by vm_compute].
    assert (pd_reply_cacheable q = false ∧ pd_comset_pending q = false) as (Hc & Hp).
    { vm_compute in E. injection E as <- <- <-. by vm_decide. }
    destruct (retransmission_replays ex_pd3 (ex_cmd 1 OSDP_CMD_ID [0%Z]) [] n q w1 ex_pd3_ok ex_id_ok)
      as (bs & q' & p1 & w2 & Hb & Hs & Hf & _ & Hno); [done|by vm_compute|exact E|done|].
    exists p1, w2. split; [done|]. apply Hno. by left.
Defined.

Lemma clear_command_policy_witness :
  let p := pd_device 1 [OpScbk (Ptr OSDP_SCBK_DEFAULT)] tt in
  let cmd := ex_cmd 1 OSDP_CMD_POLL [] in
  let nak := reply_frame cmd (nak_reply OSDP_NAK_ENCRYPTION_REQUIRED) in
  clear_refused p cmd ∧
  handle_command_into_tx cmd p tt =
    if decide (clear_refused p cmd)
    then Some (S (frame_total nak), (after_clear p) <| pd_tx := framed nak (pd_tx (after_clear p)) |>, tt)
    else answer_plain cmd (after_clear p) tt.
Proof.
  split; [right; by vm_decide|]. apply clear_command_policy; [|apply ex_poll_ok|done|by vm_decide].
  apply pd_device_ok. apply Forall_cons_2; [by vm_decide|constructor].
Defined.

Lemma pd_ok_session {W} (p : osdp_pd W) s :
  session_blocks s → pd_ok p → pd_ok (p <| pd_sc := (pd_sc p) <| sc_session := s |> |>).
Proof. intros Hs Hp. exact (inv_session (TC := fixed_of p) p s Hs Hp). Qed.

(** A secured device in a session, and a forged secured POLL. *)
Definition ex_secured (s : osdp_sc_session) : osdp_pd unit :=
  let p := pd_device 1 [OpScCrypto (Some toy_crypto); OpScbk (Ptr OSDP_SCBK_DEFAULT); OpCuid (Ptr (replicate 8 0%Z))] tt in
  p <| pd_sc := (pd_sc p) <| sc_session := s |> |>.

Lemma ex_secured_ok s : session_blocks s → pd_ok (ex_secured s).
Proof.
  intros Hs. apply pd_ok_session; [done|]. apply pd_device_ok.
  repeat (apply Forall_cons_2); [apply toy_cipher_ok|by vm_decide|by vm_decide|constructor].
Qed.

Definition ex_pd2 : osdp_pd unit := ex_secured ex_pd.

Definition ex_forged : osdp_frame :=
  decoded_of (mk_frame 1 false 1 OSDP_INTEGRITY_CRC true 2 OSDP_SCS_17 NULL 0 OSDP_CMD_POLL NULL 0
    (Ptr [1; 2; 3; 4]%Z) 4 NULL 0).


(** The application refuses the KEYSET with a NAK of its own; the key is replaced. *)
Lemma keyset_installs_key_witness :
  let key := replicate 16 7%Z in
  let v := mk_keyset 1 16 (Ptr key) 16 in
  ∃ outcome r p' w',
    osdp_pd_internal_dispatch OSDP_PD_CH_SC1 OSDP_CMD_KEYSET (Ptr (1 :: 16 :: key)%Z) 18 ex_pd1 [] =
      Some ((outcome, r), p', w') ∧
    outcome = OSDP_PD_DISPATCH_SEND ∧ rp_code r = OSDP_REPLY_NAK ∧ pd_sc p' = new_key (pd_sc ex_pd1) v ∧
    if decide (outcome ≠ OSDP_PD_DISPATCH_SEND) then pd_sc p' = pd_sc ex_pd1
    else if decide (installs v) then pd_sc p' = new_key (pd_sc ex_pd1) v
    else pd_sc p' = pd_sc ex_pd1 ∧ rp_code r = OSDP_REPLY_NAK ∧
         rd_slice (rp_payload r) 0 (rp_payload_len r) = Some [OSDP_NAK_RECORD_INVALID].
Proof.
  cbv zeta.
  destruct (keyset_installs_key ex_pd1 OSDP_PD_CH_SC1 (Ptr (1 :: 16 :: replicate 16 7)%Z) 18
    (mk_keyset 1 16 (Ptr (replicate 16 7%Z)) 16) [] ex_pd1_ok) as (o & r & p' & w' & E & H);
    [split; [split; [cbn; lia|by vm_decide]|done]|done|].
  exists o, r, p', w'. split; [exact E|].
  assert (o = OSDP_PD_DISPATCH_SEND ∧ rp_code r = OSDP_REPLY_NAK) as [-> Hr].
  { vm_compute in E. by injection E as <- <- _ _. }
  split; [done|]. split; [done|]. split; [|exact H].
  by rewrite decide_False, decide_True in H by (by vm_decide || by intros []).
Defined.

Definition ex_caps : list osdp_pdcap_record := [mk_pdcap 16 4 0; mk_pdcap 3 1 0; mk_pdcap 4 4 1].

Lemma capability_report_sorted_witness :
  ∃ r m rs, osdp_pd_internal_dispatch OSDP_PD_CH_PLAIN OSDP_CMD_CAP (Ptr [0%Z]) 1
      (pd_device 1 [OpPdcap (Some ex_caps) 3] tt) tt =
      Some ((OSDP_PD_DISPATCH_SEND, r),
        (pd_device 1 [OpPdcap (Some ex_caps) 3] tt) <| pd_reply_scratch := m |>, tt) ∧
    rp_code r = OSDP_REPLY_PDCAP ∧
    rd_slice (rp_payload r) 0 (rp_payload_len r) = Some (wires pdcap_wire rs) ∧
    fn_sorted rs ∧
    rs ≡ₚ reserved_pdcap (pd_device 1 [OpPdcap (Some ex_caps) 3] tt) ++
      bound_pdcap (pd_device 1 [OpPdcap (Some ex_caps) 3] tt).
Proof.
  apply capability_report_sorted; [|by vm_decide].
  apply pd_device_ok. apply Forall_cons_2; [|constructor]. split; [by vm_decide|].
  repeat (apply Forall_cons_2; [split_and!; by vm_decide|]). constructor.
Defined.
