(* ===== verification/Ports.v ===== *)
(** * Cipher ports: ports/tiny, ports/wolfcrypt and the mocks' aes_adapter.c

    The vtables a host installs with [osdp_pd_set_sc_crypto] and
    [osdp_acu_set_sc_crypto].  The tiny port runs the [Aes] model, so the laws the
    Secure Channel layer asks of a cipher ([Aes], [cipher_ok]) hold of it without an
    assumption.  wolfCrypt is not under src/: its functions are the operations of
    [WolfCrypt], and what the port relies on of their life cycle is [WolfLaws]. *)
From S2P Require Import Prelude Types State ScCrypto ScFrame PdInv Aes.

(** ** ports/tiny/osdp_sc_tiny.c *)

(** The operands of a block call: the same buffer, or two. *)
Inductive buffers : Type :=
  | In_place (b : list Z)
  | Apart (inp out : list Z).

Definition place (b : buffers) : option (list Z) :=
  match b with
  | In_place b => Ret b
  | Apart inp out => v ← mslice inp 0 OSDP_AES_BLOCK_LEN; mwr out 0 v
  end.

(** [ctx] is the uninitialised local. *)
Definition tiny_encrypt (ctx : AES_ctx) (key : list Z) (b : buffers) : option (osdp_status * list Z) :=
  ctx ← AES_init_ctx ctx key;
  out ← place b;
  out ← AES_ECB_encrypt ctx out;
  Ret (OSDP_OK, out).

Definition tiny_decrypt (ctx : AES_ctx) (key : list Z) (b : buffers) : option (osdp_status * list Z) :=
  ctx ← AES_init_ctx ctx key;
  out ← place b;
  out ← AES_ECB_decrypt ctx out;
  Ret (OSDP_OK, out).

(** A callback as the vtable's type has it, an undefined call failing. *)
Definition callback (f : list Z → buffers → option (osdp_status * list Z)) : block_fn :=
  λ key b, default (OSDP_ERR_INVALID_ARG, []) (f key (In_place b)).

Definition osdp_sc_tiny_aes128 {W} (ctx : AES_ctx) (out : option (osdp_sc_crypto W)) : option (osdp_sc_crypto W) :=
  match out with
  | None => None
  | Some out => Some (mk_crypto (Some (callback (tiny_encrypt ctx))) (Some (callback (tiny_decrypt ctx))) (rand_bytes out))
  end.

(** ** tools/*/aes_adapter.c

    [rand], [srand] and [time] of the C library over the process state [P]. *)
Class Clib (P : Type) : Type := {
  c_rand : P → Z * P;
  c_srand : Z → P → P;
  c_time : P → Z }.

(** The statics of the adapter beside the process state. *)
Record adapter (P : Type) : Type := mk_adapter { g_seeded : bool; g_proc : P }.
Arguments mk_adapter {_}.
Arguments g_seeded {_}.
Arguments g_proc {_}.

Section adapter.
Context {P : Type} {C : Clib P}.

Definition seed_once_lazily (w : adapter P) : adapter P :=
  if g_seeded w then w
  else mk_adapter true (c_srand (u32 (c_time (g_proc w))) (g_proc w)).

(** The loop of [adapter_rand]: the bytes it stores. *)
Fixpoint rand_loop (len : nat) (p : P) : list Z * P :=
  match len with
  | O => ([], p)
  | S len =>
      let '(r, p) := c_rand p in
      let '(bs, p) := rand_loop len p in
      (Z.land r 0xFF :: bs, p)
  end.

Definition adapter_rand (len : nat) (w : adapter P) : osdp_status * list Z * adapter P :=
  let w := seed_once_lazily w in
  let '(out, p) := rand_loop len (g_proc w) in
  (OSDP_OK, out, mk_adapter (g_seeded w) p).

Definition pd_mock_aes_seed_rand (seed : Z) (w : adapter P) : adapter P :=
  mk_adapter true (if decide (seed = 0%Z) then c_srand (u32 (c_time (g_proc w))) (g_proc w)
                   else c_srand (u32 seed) (g_proc w)).

(** [g_vtable] under [g_vtable_ready]: absent until it is built. *)
Definition pd_mock_aes_crypto (ctx : AES_ctx) (g_vtable : option (osdp_sc_crypto (adapter P)))
  : option (osdp_sc_crypto (adapter P)) :=
  match g_vtable with
  | Some v => Some v
  | None =>
      v ← osdp_sc_tiny_aes128 ctx (Some (mk_crypto (W := adapter P) None None None));
      Ret (mk_crypto (aes128_ecb_encrypt v) (aes128_ecb_decrypt v) (Some adapter_rand))
  end.

(** The acu-mock's own copies. *)
Definition adapter_encrypt (ctx : AES_ctx) (key : list Z) (b : buffers) : option (osdp_status * list Z) :=
  ctx ← AES_init_ctx ctx key;
  out ← place b;
  out ← AES_ECB_encrypt ctx out;
  Ret (OSDP_OK, out).

Definition adapter_decrypt (ctx : AES_ctx) (key : list Z) (b : buffers) : option (osdp_status * list Z) :=
  ctx ← AES_init_ctx ctx key;
  out ← place b;
  out ← AES_ECB_decrypt ctx out;
  Ret (OSDP_OK, out).

Definition k_vtable (ctx : AES_ctx) : osdp_sc_crypto (adapter P) :=
  mk_crypto (Some (callback (adapter_encrypt ctx))) (Some (callback (adapter_decrypt ctx))) (Some adapter_rand).

End adapter.

(** ** ports/wolfcrypt/osdp_sc_wolfcrypt.c *)

Inductive aes_dir : Type := AES_ENCRYPTION | AES_DECRYPTION.

(** wolfCrypt over the process state [P]: results as wolfCrypt's return codes. *)
Class WolfCrypt (P A R : Type) : Type := {
  wolfCrypt_Init : P → Z * P;
  wolfCrypt_Cleanup : P → P;
  wc_AesInit : A → P → Z * A * P;
  wc_AesFree : A → P → A * P;
  wc_AesSetKey : A → list Z → aes_dir → Z * A;
  wc_AesEcbEncrypt : A → list Z → Z * list Z * A;
  wc_AesEcbDecrypt : A → list Z → Z * list Z * A;
  wc_InitRng : R → P → Z * R * P;
  wc_FreeRng : R → P → R * P;
  wc_RNG_GenerateBlock : R → nat → Z * list Z * R;
  zero_aes : A;
  zero_rng : R }.

Record osdp_sc_wolfcrypt (A R : Type) : Type := mk_wolf {
  wf_aes : A; wf_rng : R; lib_ready : bool; aes_ready : bool; rng_ready : bool }.
Arguments mk_wolf {_ _}.
Arguments wf_aes {_ _}.
Arguments wf_rng {_ _}.
Arguments lib_ready {_ _}.
Arguments aes_ready {_ _}.
Arguments rng_ready {_ _}.

(** The vtable members the port sets: which callbacks are its own, and [user] (the
    address of the context bound there). *)
Record wolf_vtable : Type := mk_wvt { own_encrypt : bool; own_decrypt : bool; own_rand : bool; vt_user : option nat }.

Section wolf.
Context {P A R : Type} {H : WolfCrypt P A R}.
Abbreviation ctx_t := (osdp_sc_wolfcrypt A R).

(** [None] for a null context; the result carries [out] as it is after the call. *)
Definition wolfcrypt_block (user : option ctx_t) (key inp out : ptr) (dir : aes_dir)
  : option (osdp_status * option ctx_t * ptr) :=
  match user with
  | None => Ret (OSDP_ERR_INVALID_ARG, user, out)
  | Some ctx =>
      if negb (aes_ready ctx) || is_null key || is_null inp || is_null out
      then Ret (OSDP_ERR_INVALID_ARG, user, out) else
      k ← rd_slice key 0 OSDP_AES_KEY_LEN;
      let '(rc, a) := wc_AesSetKey (wf_aes ctx) k dir in
      '(rc, tmp, a) ← (if decide (rc = 0%Z) then
          b ← rd_slice inp 0 OSDP_AES_BLOCK_LEN;
          Ret (match dir with AES_ENCRYPTION => wc_AesEcbEncrypt a b | AES_DECRYPTION => wc_AesEcbDecrypt a b end)
        else Ret (rc, [], a));
      out ← (if decide (rc = 0%Z) then wr out 0 tmp else Ret out);
      let ctx := mk_wolf a (wf_rng ctx) (lib_ready ctx) (aes_ready ctx) (rng_ready ctx) in
      Ret (if decide (rc = 0%Z) then OSDP_OK else OSDP_ERR_INVALID_ARG, Some ctx, out)
  end.

Definition wolfcrypt_encrypt (user : option ctx_t) (key inp out : ptr) : option (osdp_status * option ctx_t * ptr) :=
  wolfcrypt_block user key inp out AES_ENCRYPTION.
Definition wolfcrypt_decrypt (user : option ctx_t) (key inp out : ptr) : option (osdp_status * option ctx_t * ptr) :=
  wolfcrypt_block user key inp out AES_DECRYPTION.

Definition wolfcrypt_rand (user : option ctx_t) (out : ptr) (len : nat) : option (osdp_status * option ctx_t * ptr) :=
  match user with
  | None => Ret (OSDP_ERR_INVALID_ARG, user, out)
  | Some ctx =>
      if negb (rng_ready ctx) then Ret (OSDP_ERR_INVALID_ARG, user, out) else
      if decide (len = 0) then Ret (OSDP_OK, user, out) else
      if is_null out || (0xFFFFFFFF <? Z.of_nat len)%Z then Ret (OSDP_ERR_INVALID_ARG, user, out) else
      let '(rc, bs, r) := wc_RNG_GenerateBlock (wf_rng ctx) len in
      out ← wr out 0 bs;
      Ret (if decide (rc = 0%Z) then OSDP_OK else OSDP_ERR_INVALID_ARG,
           Some (mk_wolf (wf_aes ctx) r (lib_ready ctx) (aes_ready ctx) (rng_ready ctx)), out)
  end.

Definition osdp_sc_wolfcrypt_free (ctx : option ctx_t) (p : P) : option ctx_t * P :=
  match ctx with
  | None => (None, p)
  | Some ctx =>
      let '(r, rr, p) := if rng_ready ctx then let '(r, p) := wc_FreeRng (wf_rng ctx) p in (r, false, p)
                         else (wf_rng ctx, rng_ready ctx, p) in
      let '(a, ar, p) := if aes_ready ctx then let '(a, p) := wc_AesFree (wf_aes ctx) p in (a, false, p)
                         else (wf_aes ctx, aes_ready ctx, p) in
      let '(lr, p) := if lib_ready ctx then (false, wolfCrypt_Cleanup p) else (lib_ready ctx, p) in
      (Some (mk_wolf a r lr ar rr), p)
  end.

(** [at] is the address of [ctx]. *)
Definition osdp_sc_wolfcrypt_aes128 (at_ : nat) (ctx : option ctx_t) (out : option wolf_vtable) (p : P)
  : osdp_status * option ctx_t * option wolf_vtable * P :=
  match ctx, out with
  | Some _, Some o =>
      let ctx := mk_wolf zero_aes zero_rng false false false in
      let '(rc, p) := wolfCrypt_Init p in
      if decide (rc ≠ 0%Z) then (OSDP_ERR_INVALID_ARG, Some ctx, out, p) else
      let ctx := mk_wolf (wf_aes ctx) (wf_rng ctx) true (aes_ready ctx) (rng_ready ctx) in
      let '(rc, a, p) := wc_AesInit (wf_aes ctx) p in
      let ctx := mk_wolf a (wf_rng ctx) (lib_ready ctx) (aes_ready ctx) (rng_ready ctx) in
      if decide (rc ≠ 0%Z) then
        let '(ctx, p) := osdp_sc_wolfcrypt_free (Some ctx) p in (OSDP_ERR_INVALID_ARG, ctx, out, p)
      else
      let ctx := mk_wolf (wf_aes ctx) (wf_rng ctx) (lib_ready ctx) true (rng_ready ctx) in
      (OSDP_OK, Some ctx, Some (mk_wvt true true (own_rand o) (Some at_)), p)
  | _, _ => (OSDP_ERR_INVALID_ARG, ctx, out, p)
  end.

Definition osdp_sc_wolfcrypt_rng (at_ : nat) (ctx : option ctx_t) (out : option wolf_vtable) (p : P)
  : osdp_status * option ctx_t * option wolf_vtable * P :=
  match ctx, out with
  | Some c, Some o =>
      if negb (aes_ready c) || negb (bool_decide (vt_user o = Some at_)) then (OSDP_ERR_INVALID_ARG, ctx, out, p) else
      let '(rc, c, p) := if rng_ready c then (0%Z, c, p) else
        let '(rc, r, p) := wc_InitRng (wf_rng c) p in
        (rc, mk_wolf (wf_aes c) r (lib_ready c) (aes_ready c) (if decide (rc ≠ 0%Z) then rng_ready c else true), p) in
      if decide (rc ≠ 0%Z) then (OSDP_ERR_INVALID_ARG, Some c, out, p) else
      (OSDP_OK, Some c, Some (mk_wvt (own_encrypt o) (own_decrypt o) true (vt_user o)), p)
  | _, _ => (OSDP_ERR_INVALID_ARG, ctx, out, p)
  end.

End wolf.

(** What the port relies on of wolfCrypt: the references and objects held in the
    process (library, AES, DRBG) grow on a successful initialisation only and shrink
    on a release; a block call writes one block; the DRBG writes what was asked. *)
Class WolfLaws (P A R : Type) {H : WolfCrypt P A R} (held : P → nat * nat * nat) : Prop := {
  wl_init p : held (wolfCrypt_Init p).2 =
    let '(l, a, r) := held p in (if decide ((wolfCrypt_Init p).1 = 0%Z) then S l else l, a, r);
  wl_cleanup p : held (wolfCrypt_Cleanup p) = let '(l, a, r) := held p in (pred l, a, r);
  wl_aes_init x p : held (wc_AesInit x p).2 =
    let '(l, a, r) := held p in (l, if decide ((wc_AesInit x p).1.1 = 0%Z) then S a else a, r);
  wl_aes_free x p : held (wc_AesFree x p).2 = let '(l, a, r) := held p in (l, pred a, r);
  wl_rng_init x p : held (wc_InitRng x p).2 =
    let '(l, a, r) := held p in (l, a, if decide ((wc_InitRng x p).1.1 = 0%Z) then S r else r);
  wl_rng_free x p : held (wc_FreeRng x p).2 = let '(l, a, r) := held p in (l, a, pred r);
  wl_encrypt x b : length (wc_AesEcbEncrypt x b).1.2 = OSDP_AES_BLOCK_LEN;
  wl_decrypt x b : length (wc_AesEcbDecrypt x b).1.2 = OSDP_AES_BLOCK_LEN;
  wl_generate x n : length (wc_RNG_GenerateBlock x n).1.2 ≤ n }.

(** ** The tiny port *)

(** The inverse cipher, as the port computes it. *)
Definition inverse (key b : list Z) : list Z := default [] (InvCipher b (concat (Fips.key_words key))).

(** The array of the local context. *)
Definition local_ctx (ctx : AES_ctx) : Prop := length (RoundKey ctx) = AES_keyExpSize.

(** Both operand modes bring the input block into the output buffer. *)
Definition operands (b : buffers) (inp : list Z) : Prop :=
  match b with In_place b => b = inp | Apart i out => i = inp ∧ length out = OSDP_AES_BLOCK_LEN end.

Lemma place_ok b inp : block inp → operands b inp → place b = Some inp.
Proof.
  intros [L _]. destruct b as [b|i out]; simpl; [by intros ->|intros [-> Lo]].
  rewrite mslice_Some, drop_0, take_ge, bind_Some by lia. by rewrite mwr_0, drop_ge, app_nil_r by lia.
Qed.

Lemma init_ctx_ok ctx key : local_ctx ctx → block key →
  ∃ ctx', AES_init_ctx ctx key = Some ctx' ∧ RoundKey ctx' = concat (Fips.key_words key).
Proof.
  intros Hl Hk. destruct (key_words_ok key Hk) as (_ & _ & Hexp). unfold AES_init_ctx.
  rewrite (Hexp _ Hl), bind_Some. by eexists.
Qed.

Lemma tiny_encrypt_ok ctx key b inp : local_ctx ctx → block key → block inp → operands b inp →
  tiny_encrypt ctx key b = Some (OSDP_OK, Fips.cipher key inp).
Proof.
  intros Hl Hk Hi Hb. unfold tiny_encrypt, AES_ECB_encrypt.
  destruct (init_ctx_ok ctx key Hl Hk) as (c & -> & E). rewrite bind_Some, (place_ok b inp), bind_Some, E by done.
  by rewrite (proj1 (cipher_ok key Hk inp Hi)), bind_Some.
Qed.

Lemma tiny_decrypt_ok ctx key b inp : local_ctx ctx → block key → block inp → operands b inp →
  tiny_decrypt ctx key b = Some (OSDP_OK, inverse key inp) ∧ block (inverse key inp).
Proof.
  intros Hl Hk Hi Hb. unfold tiny_decrypt, AES_ECB_decrypt, inverse.
  destruct (init_ctx_ok ctx key Hl Hk) as (c & -> & E). rewrite bind_Some, (place_ok b inp), bind_Some, E by done.
  destruct (inv_cipher_total key Hk inp Hi) as (t & -> & Ht). by rewrite bind_Some.
Qed.

Lemma inverse_cipher key inp : block key → block inp → inverse key (Fips.cipher key inp) = inp.
Proof. intros Hk Hi. unfold inverse. by rewrite inv_cipher_ok. Qed.

Lemma port_aes {W} ctx (v : osdp_sc_crypto W) : local_ctx ctx →
  aes128_ecb_encrypt v = Some (callback (tiny_encrypt ctx)) →
  aes128_ecb_decrypt v = Some (callback (tiny_decrypt ctx)) → Aes v Fips.cipher inverse.
Proof.
  intros Hl He Hd. constructor.
  - eexists. split; [exact He|]. intros k b Hk Hb. unfold callback. by rewrite (tiny_encrypt_ok _ _ _ b).
  - eexists. split; [exact Hd|]. intros k b Hk Hb. unfold callback.
    by destruct (tiny_decrypt_ok ctx k (In_place b) b) as [-> _].
  - intros k b Hk Hb. by apply cipher_ok.
  - intros k b Hk Hb. by apply (tiny_decrypt_ok ctx k (In_place b) b).
  - intros. by apply inverse_cipher.
Qed.

(** ** The mocks' vtables *)

Section mocks.
Context {P : Type} {C : Clib P}.

Lemma rand_loop_ok n p : length (rand_loop n p).1 = n ∧ bytes_ok (rand_loop n p).1.
Proof.
  revert p. induction n as [|n IH]; intros p; cbn [rand_loop]; [done|].
  destruct (c_rand p) as [r p']. specialize (IH p'). destruct (rand_loop n p') as [bs q].
  destruct IH as [L Y]. split; [by simpl; f_equal|]. constructor; [|done]. rewrite land_FF. apply u8_byte.
Qed.

Lemma adapter_rand_ok n w :
  let '(s, bs, w') := adapter_rand n w in
  s = OSDP_OK ∧ length bs = n ∧ bytes_ok bs ∧ g_seeded w' = true.
Proof.
  unfold adapter_rand. pose proof (rand_loop_ok n (g_proc (seed_once_lazily w))) as Hr.
  destruct (rand_loop n (g_proc (seed_once_lazily w))) as [bs p]. destruct Hr. split_and!; [done..|].
  unfold seed_once_lazily. by destruct (g_seeded w) eqn:E.
Qed.

Lemma mock_vtable_ok ctx (v : osdp_sc_crypto (adapter P)) : Aes v Fips.cipher inverse →
  rand_bytes v = Some adapter_rand → local_ctx ctx → PdInv.cipher_ok v.
Proof.
  intros Ha Hr Hl. split; [by exists Fips.cipher, inverse|]. rewrite Hr. intros rand w [= <-].
  pose proof (adapter_rand_ok OSDP_SC_RND_LEN w) as H. destruct (adapter_rand _ w) as [[s bs] w'].
  destruct H as (_ & L & Y & _). simpl. split; [lia|done].
Qed.
End mocks.

(** ** The life cycle of the wolfCrypt port *)

Section life.
Context {P A R : Type} {H : WolfCrypt P A R} (held : P → nat * nat * nat) {L : WolfLaws P A R held}.
Abbreviation ctx_t := (osdp_sc_wolfcrypt A R).

(** What a context holds, by its flags. *)
Definition holds (c : ctx_t) : nat * nat * nat :=
  (Nat.b2n (lib_ready c), Nat.b2n (aes_ready c), Nat.b2n (rng_ready c)).

Definition plus3 (x y : nat * nat * nat) : nat * nat * nat :=
  (x.1.1 + y.1.1, x.1.2 + y.1.2, x.2 + y.2).

(** The process holds what it held before, [base], and what the context holds; the
    DRBG is only there with AES, and AES with the library. *)
Definition balanced (base : nat * nat * nat) (c : ctx_t) (p : P) : Prop :=
  held p = plus3 base (holds c) ∧ implb (rng_ready c) (aes_ready c) = true ∧
  implb (aes_ready c) (lib_ready c) = true.

Inductive wop : Type :=
  | WAes128
  | WRng
  | WBlock (dir : aes_dir) (key inp out : ptr)
  | WRand (out : ptr) (len : nat)
  | WFree.

Definition region_of (p : ptr) (n : nat) : Prop := match p with NULL => True | Ptr m => n ≤ length m end.

Definition wop_ok (o : wop) : Prop :=
  match o with
  | WBlock _ key inp out =>
      region_of key OSDP_AES_KEY_LEN ∧ region_of inp OSDP_AES_BLOCK_LEN ∧ region_of out OSDP_AES_BLOCK_LEN
  | WRand out len => region_of out len
  | _ => True
  end.

Record wolf_state : Type := mk_ws { ws_ctx : ctx_t; ws_vt : wolf_vtable; ws_proc : P }.

(** One call on the context at [at_]. *)
Definition wolf_call (at_ : nat) (o : wop) (s : wolf_state) : option wolf_state :=
  match o with
  | WAes128 =>
      match osdp_sc_wolfcrypt_aes128 at_ (Some (ws_ctx s)) (Some (ws_vt s)) (ws_proc s) with
      | (_, Some c, Some v, p) => Ret (mk_ws c v p)
      | _ => UB
      end
  | WRng =>
      match osdp_sc_wolfcrypt_rng at_ (Some (ws_ctx s)) (Some (ws_vt s)) (ws_proc s) with
      | (_, Some c, Some v, p) => Ret (mk_ws c v p)
      | _ => UB
      end
  | WBlock dir key inp out =>
      '(_, c, _) ← wolfcrypt_block (Some (ws_ctx s)) key inp out dir;
      c ← c; Ret (mk_ws c (ws_vt s) (ws_proc s))
  | WRand out len =>
      '(_, c, _) ← wolfcrypt_rand (Some (ws_ctx s)) out len;
      c ← c; Ret (mk_ws c (ws_vt s) (ws_proc s))
  | WFree =>
      match osdp_sc_wolfcrypt_free (Some (ws_ctx s)) (ws_proc s) with
      | (Some c, p) => Ret (mk_ws c (ws_vt s) p)
      | _ => UB
      end
  end.

Fixpoint wolf_calls (at_ : nat) (os : list wop) (s : wolf_state) : option wolf_state :=
  match os with
  | [] => Ret s
  | o :: os => s ← wolf_call at_ o s; wolf_calls at_ os s
  end.

(** The header's rule: one [osdp_sc_wolfcrypt_aes128] per context until it is
    released; [open] tells whether the context is initialised. *)
Fixpoint once (open_ : bool) (os : list wop) : bool :=
  match os with
  | [] => true
  | WAes128 :: os => negb open_ && once true os
  | WFree :: os => once false os
  | _ :: os => once open_ os
  end.

Lemma free_balanced base c p : balanced base c p →
  ∃ c' p', osdp_sc_wolfcrypt_free (Some c) p = (Some c', p') ∧
    lib_ready c' = false ∧ aes_ready c' = false ∧ rng_ready c' = false ∧ held p' = base.
Proof.
  destruct base as [[l a] r], c as [x y lr ar rr]. unfold balanced, holds, plus3. cbn. intros (E & H1 & H2).
  destruct rr, ar, lr; try discriminate; cbn in *;
    repeat match goal with |- context [wc_FreeRng ?x ?q] =>
      pose proof (wl_rng_free (held := held) x q); destruct (wc_FreeRng x q) as [? ?] end;
    repeat match goal with |- context [wc_AesFree ?x ?q] =>
      pose proof (wl_aes_free (held := held) x q); destruct (wc_AesFree x q) as [? ?] end;
    cbn in *; eexists _, _; (split; [reflexivity|]); split_and!; try done; rewrite ?(wl_cleanup (held := held));
    repeat match goal with E : held ?q = _ |- _ => rewrite E in *; cbn in *; clear E end;
    repeat f_equal; lia.
Qed.

(** Closes a balance whose flags are known. *)
Local Ltac settle := unfold balanced, holds, plus3; cbn;
  repeat match goal with E : held ?q = _ |- _ => rewrite E in *; clear E end;
  cbn; split_and!; first [done | repeat f_equal; lia].

Lemma aes128_balanced base at_ c v p : held p = base →
  ∃ s c' v' p', osdp_sc_wolfcrypt_aes128 at_ (Some c) (Some v) p = (s, Some c', Some v', p') ∧
    balanced base c' p' ∧ (s = OSDP_OK ↔ aes_ready c' = true) ∧ (s ≠ OSDP_OK → lib_ready c' = false ∧ v' = v).
Proof.
  destruct base as [[l a] r]. intros E. unfold osdp_sc_wolfcrypt_aes128.
  pose proof (wl_init (held := held) p) as Ei. rewrite E in Ei. destruct (wolfCrypt_Init p) as [rc p1]. cbn [fst snd] in Ei.
  destruct (decide (rc = 0%Z)) as [->|Hrc].
  2: { rewrite decide_True by done. eexists _, _, _, _. split; [done|]. settle. }
  rewrite decide_False by auto. cbn [wf_aes wf_rng lib_ready aes_ready rng_ready].
  pose proof (wl_aes_init (held := held) zero_aes p1) as Ea. rewrite Ei in Ea.
  destruct (wc_AesInit zero_aes p1) as [[rc x] p2]. cbn [fst snd] in Ea.
  destruct (decide (rc = 0%Z)) as [->|Hrc].
  { rewrite decide_False by auto. eexists _, _, _, _. split; [done|]. settle. }
  rewrite decide_True by done. cbn. eexists _, _, _, _. split; [done|].
  pose proof (wl_cleanup (held := held) p2) as Ec. rewrite Ea in Ec. clear Ea Ei E. settle.
Qed.

Lemma rng_balanced base at_ c v p : balanced base c p →
  ∃ s c' v' p', osdp_sc_wolfcrypt_rng at_ (Some c) (Some v) p = (s, Some c', Some v', p') ∧
    balanced base c' p' ∧ lib_ready c' = lib_ready c.
Proof.
  destruct base as [[l a] r], c as [x y lr ar rr]. unfold balanced, holds, plus3. cbn. intros (E & H1 & H2).
  unfold osdp_sc_wolfcrypt_rng. cbn. destruct (negb ar || _) eqn:Eg; [eexists _, _, _, _; by split_and!|].
  destruct ar; [|discriminate]. destruct lr; [|discriminate]. destruct rr; cbn in *.
  { eexists _, _, _, _. by split_and!. }
  pose proof (wl_rng_init (held := held) y p) as Er. rewrite E in Er. cbn in Er.
  destruct (wc_InitRng y p) as [[rc z] q]. cbn in Er |- *. clear E.
  destruct (decide (rc = 0%Z)) as [->|Hrc].
  - rewrite !decide_False by auto. eexists _, _, _, _. split; [done|]. settle.
  - rewrite !decide_True by done. eexists _, _, _, _. split; [done|]. settle.
Qed.

Lemma rd_region p n : is_null p = false → region_of p n → ∃ bs, rd_slice p 0 n = Some bs ∧ length bs = n.
Proof.
  destruct p as [|m]; [done|]. intros _ Hn. cbn in Hn |- *. rewrite mslice_Some by (simpl; lia).
  eexists. split; [done|]. rewrite drop_0, length_take. lia.
Qed.

Lemma wr_region p bs n : is_null p = false → region_of p n → length bs ≤ n → ∃ p', wr p 0 bs = Some p'.
Proof.
  destruct p as [|m]; [done|]. intros _ Hn Hl. cbn in Hn |- *. rewrite mwr_0 by lia. by eexists.
Qed.

(** A block call leaves the flags; it writes [out] on success only. *)
Lemma block_call c dir key inp out : wop_ok (WBlock dir key inp out) →
  ∃ s c' out', wolfcrypt_block (Some c) key inp out dir = Some (s, Some c', out') ∧ holds c' = holds c ∧
    (s = OSDP_OK ∨ s = OSDP_ERR_INVALID_ARG ∧ out' = out).
Proof.
  intros (Hk & Hi & Ho). unfold wolfcrypt_block.
  destruct (negb (aes_ready c) || is_null key || is_null inp || is_null out) eqn:Eg.
  { eexists _, _, _. split; [done|]. split; [done|]. by right. }
  apply orb_false_iff in Eg as [Eg No]. apply orb_false_iff in Eg as [Eg Ni]. apply orb_false_iff in Eg as [Er Nk].
  destruct (rd_region key _ Nk Hk) as (k & -> & _). rewrite bind_Some.
  destruct (wc_AesSetKey (wf_aes c) k dir) as [rc a]. destruct (decide (rc = 0%Z)) as [->|Hrc].
  2: { rewrite bind_Some, !decide_False, bind_Some by done. eexists _, _, _. split; [done|]. split; [done|]. by right. }
  destruct (rd_region inp _ Ni Hi) as (b & -> & _). rewrite !bind_Some.
  assert (length (match dir with AES_ENCRYPTION => wc_AesEcbEncrypt a b | AES_DECRYPTION => wc_AesEcbDecrypt a b end).1.2
    = OSDP_AES_BLOCK_LEN) as Hl by (destruct dir; [apply (wl_encrypt (held := held))|apply (wl_decrypt (held := held))]).
  destruct (match dir with AES_ENCRYPTION => _ | AES_DECRYPTION => _ end) as [[rc tmp] a']. cbn in Hl.
  destruct (decide (rc = 0%Z)).
  - destruct (wr_region out tmp _ No Ho ltac:(lia)) as (o' & ->). rewrite bind_Some.
    eexists _, _, _. split; [done|]. split; [done|]. by left.
  - rewrite bind_Some. eexists _, _, _. split; [done|]. split; [done|]. by right.
Qed.

Lemma rand_call c out len : region_of out len →
  ∃ s c' out', wolfcrypt_rand (Some c) out len = Some (s, Some c', out') ∧ holds c' = holds c.
Proof.
  intros Ho. unfold wolfcrypt_rand. destruct (negb (rng_ready c)); [by eexists _, _, _|].
  case_decide; [by eexists _, _, _|]. destruct (is_null out || _) eqn:Eg; [by eexists _, _, _|].
  apply orb_false_iff in Eg as [No _]. pose proof (wl_generate (held := held) (wf_rng c) len) as Hl.
  destruct (wc_RNG_GenerateBlock (wf_rng c) len) as [[rc bs] r]. cbn in Hl.
  destruct (wr_region out bs _ No Ho Hl) as (o' & ->). rewrite bind_Some. by eexists _, _, _.
Qed.

Lemma holds_balanced base c c' p : holds c' = holds c → balanced base c p → balanced base c' p ∧ lib_ready c' = lib_ready c.
Proof.
  unfold balanced, holds. intros E (Hp & H1 & H2). injection E as E1 E2 E3.
  assert (lib_ready c' = lib_ready c ∧ aes_ready c' = aes_ready c ∧ rng_ready c' = rng_ready c) as (Ea & Eb & Ec).
  { by destruct (lib_ready c'), (lib_ready c), (aes_ready c'), (aes_ready c), (rng_ready c'), (rng_ready c). }
  rewrite Ea, Eb, Ec. by rewrite Hp.
Qed.

Lemma calls_balanced base at_ os : ∀ open_ s, once open_ os = true → Forall wop_ok os →
  balanced base (ws_ctx s) (ws_proc s) → (open_ = false → lib_ready (ws_ctx s) = false) →
  ∃ s', wolf_calls at_ os s = Some s' ∧ balanced base (ws_ctx s') (ws_proc s').
Proof.
  induction os as [|o os IH]; intros open_ [c v p] Ho Hok Hb Hf; [by eexists|]. cbn in Hb, Hf.
  apply Forall_cons_1 in Hok as [Hop Hok]. cbn [wolf_calls].
  destruct o as [| |dir key inp out|out len|]; cbn [wolf_call ws_ctx ws_vt ws_proc].
  - cbn in Ho. apply andb_true_iff in Ho as [Ho1 Ho]. destruct open_; [discriminate|]. specialize (Hf eq_refl).
    assert (held p = base) as Hh.
    { destruct base as [[l a] r], Hb as (E & H1 & H2). rewrite E. unfold plus3, holds. rewrite Hf in *.
      destruct (aes_ready c); [discriminate|]. destruct (rng_ready c); [discriminate|]. cbn. repeat f_equal; lia. }
    destruct (aes128_balanced base at_ c v p Hh) as (s & c' & v' & p' & -> & Hb' & _). rewrite bind_Some.
    by apply (IH true).
  - destruct (rng_balanced base at_ c v p Hb) as (s & c' & v' & p' & -> & Hb' & E). rewrite bind_Some.
    apply (IH open_); [done..|]. cbn. by rewrite E.
  - destruct (block_call c dir key inp out Hop) as (s & c' & o' & -> & E & _). rewrite !bind_Some.
    destruct (holds_balanced base c c' p E Hb) as [Hb' El]. apply (IH open_); [done..|]. cbn. by rewrite El.
  - destruct (rand_call c out len Hop) as (s & c' & o' & -> & E). rewrite !bind_Some.
    destruct (holds_balanced base c c' p E Hb) as [Hb' El]. apply (IH open_); [done..|]. cbn. by rewrite El.
  - destruct (free_balanced base c p Hb) as (c' & p' & -> & E1 & E2 & E3 & Hh). rewrite bind_Some.
    apply (IH false); [done..| |done]. unfold balanced, holds, plus3. cbn. rewrite E1, E2, E3, Hh.
    destruct base as [[l a] r]. cbn. split_and!; try done. repeat f_equal; lia.
Qed.

(** C36: The wolfCrypt port leaks nothing.  Starting from a context that holds nothing
    and calling [osdp_sc_wolfcrypt_aes128] once per release, whatever calls follow and
    whichever of wolfCrypt's own calls fail: every call is defined, the references the
    process holds are those the context's flags say, and a final
    [osdp_sc_wolfcrypt_free] brings the process back to where it was. *)
Theorem wolf_port_balanced at_ os s base :
  once false os = true → Forall wop_ok os → holds (ws_ctx s) = (0, 0, 0) → held (ws_proc s) = base →
  ∃ s', wolf_calls at_ os s = Some s' ∧ held (ws_proc s') = plus3 base (holds (ws_ctx s')) ∧
    ∃ c p, osdp_sc_wolfcrypt_free (Some (ws_ctx s')) (ws_proc s') = (Some c, p) ∧
      holds c = (0, 0, 0) ∧ held p = base.
Proof.
  intros Ho Hok Hh Hb. assert (balanced base (ws_ctx s) (ws_proc s)) as Hbal.
  { unfold balanced. rewrite Hb, Hh. injection Hh as E1 E2 E3.
    destruct base as [[l a] r], (lib_ready (ws_ctx s)), (aes_ready (ws_ctx s)), (rng_ready (ws_ctx s)); try discriminate.
    unfold plus3. cbn. split_and!; try done. repeat f_equal; lia. }
  destruct (calls_balanced base at_ os false s Ho Hok Hbal) as (s' & E & Hb').
  { injection Hh as E1 _ _. by destruct (lib_ready (ws_ctx s)). }
  exists s'. split; [done|]. split; [apply Hb'|].
  destruct (free_balanced base _ _ Hb') as (c & p & Ef & E1 & E2 & E3 & Hp). exists c, p.
  unfold holds. by rewrite Ef, E1, E2, E3.
Qed.
End life.

(** ** Properties *)

(** C17: The shipped ciphers refine the cipher the Secure Channel asks for.  Whatever
    its local context held, the tiny port's callbacks compute FIPS 197 and its inverse,
    in place and from one buffer into another; installing them leaves [rand_bytes]; and
    both mocks' vtables satisfy all that the PD and the ACU rely on of a cipher, the
    pd-mock's being built once. *)
Theorem shipped_ciphers_are_aes {W P} {C : Clib P} ctx (out : osdp_sc_crypto W) :
  local_ctx ctx →
  (∃ v, osdp_sc_tiny_aes128 ctx (Some out) = Some v ∧ rand_bytes v = rand_bytes out ∧ Aes v Fips.cipher inverse) ∧
  (∀ key b inp, block key → block inp → operands b inp →
    tiny_encrypt ctx key b = Some (OSDP_OK, Fips.cipher key inp) ∧
    tiny_decrypt ctx key b = Some (OSDP_OK, inverse key inp)) ∧
  (∃ v, pd_mock_aes_crypto (P := P) ctx None = Some v ∧ PdInv.cipher_ok v ∧
    pd_mock_aes_crypto ctx (Some v) = Some v) ∧
  PdInv.cipher_ok (k_vtable (P := P) ctx).
Proof.
  intros Hl. split_and!.
  - eexists. split; [done|]. split; [done|]. by apply (port_aes ctx).
  - intros key b inp Hk Hi Hb. split; [by apply tiny_encrypt_ok|by apply tiny_decrypt_ok].
  - eexists. split; [done|]. split; [|done]. apply (mock_vtable_ok ctx); [|done..]. by apply (port_aes ctx).
  - apply (mock_vtable_ok ctx); [|done..]. by apply (port_aes ctx).
Qed.

(** ** Witnesses *)

(** A C library: the generator of the C standard's example. *)
Definition ex_clib : Clib Z := {|
  c_rand := λ s, (Z.land (Z.shiftr (u32 (s * 1103515245 + 12345)) 16) 0x7FFF, u32 (s * 1103515245 + 12345))%Z;
  c_srand := λ seed _, seed;
  c_time := λ _, 1700000000%Z |}.

Lemma shipped_ciphers_are_aes_witness :
  PdInv.cipher_ok (@k_vtable Z ex_clib (mk_ctx (replicate 176 0%Z) (replicate 16 0%Z))) ∧
  (adapter_rand (C := ex_clib) 8 (mk_adapter false 0%Z)).1.1 = OSDP_OK.
Proof.
  split; [|done].
  by apply (shipped_ciphers_are_aes (C := ex_clib) (mk_ctx (replicate 176 0%Z) (replicate 16 0%Z)) toy_crypto).
Defined.

(** A wolfCrypt whose DRBG cannot be seeded: the state counts what is held. *)
Definition ex_wolf : WolfCrypt (nat * nat * nat) unit unit := {|
  wolfCrypt_Init := λ p, (0%Z, (S p.1.1, p.1.2, p.2));
  wolfCrypt_Cleanup := λ p, (pred p.1.1, p.1.2, p.2);
  wc_AesInit := λ x p, (0%Z, x, (p.1.1, S p.1.2, p.2));
  wc_AesFree := λ x p, (x, (p.1.1, pred p.1.2, p.2));
  wc_AesSetKey := λ x k d, (0%Z, x);
  wc_AesEcbEncrypt := λ x b, (0%Z, replicate 16 0%Z, x);
  wc_AesEcbDecrypt := λ x b, (0%Z, replicate 16 0%Z, x);
  wc_InitRng := λ x p, ((-199)%Z, x, p);
  wc_FreeRng := λ x p, (x, (p.1.1, p.1.2, pred p.2));
  wc_RNG_GenerateBlock := λ x n, (0%Z, replicate n 0%Z, x);
  zero_aes := tt; zero_rng := tt |}.

Lemma ex_wolf_laws : @WolfLaws _ _ _ ex_wolf id.
Proof. constructor; intros; repeat match goal with p : (_ * _)%type |- _ => destruct p end; cbn; by rewrite ?length_replicate. Qed.

Definition ex_wolf_state : @wolf_state (nat * nat * nat) unit unit :=
  mk_ws (mk_wolf tt tt false false false) (mk_wvt false false false None) (1, 0, 0).

Lemma wolf_port_balanced_witness :
  ∃ s', wolf_calls (H := ex_wolf) 0 [WAes128; WRng; WBlock AES_ENCRYPTION (Ptr ex_key) (Ptr ex_key) (Ptr ex_key)]
    ex_wolf_state = Some s' ∧ ws_proc s' = plus3 (1, 0, 0) (holds (ws_ctx s')) ∧
    ∃ c p, osdp_sc_wolfcrypt_free (H := ex_wolf) (Some (ws_ctx s')) (ws_proc s') = (Some c, p) ∧
      holds c = (0, 0, 0) ∧ p = (1, 0, 0).
Proof.
  apply (wolf_port_balanced (H := ex_wolf) id (L := ex_wolf_laws)); [done| |done..].
  repeat apply Forall_cons_2; try done.
  by split_and!; apply Nat.leb_le.
Defined.
