(* ===== verification/AcuTypes.v ===== *)
(** * The control unit context: osdp_acu.h

    [osdp_acu] is osdp_acu_t, field by field, and [None] a null callback.  The transport,
    the clock and the indicator callbacks are functions on the host's world [W]; the
    reply, timeout and Secure Channel callbacks may besides send a command or start a
    handshake on the ACU that runs them ([cb_action]).  The slot array is the caller's
    storage, empty for a NULL array; a slot pointer is its index. *)
From S2P Require Import Prelude Types State Frame Stream Commands Records Indicators.
From S2P Require Import Dispatch ScCrypto ScFrame PdTypes.

(** ** Build-time constants *)

Definition OSDP_ACU_REPLY_TIMEOUT_MS : Z := 200.
Definition OSDP_ACU_OFFLINE_TIMEOUT_MS : Z := 8000.
Definition OSDP_ACU_INTERCHAR_TIMEOUT_MS : Z := 20.
Definition OSDP_ACU_BUF_LEN : nat := OSDP_FRAME_MAX_LEN.
Definition OSDP_ACU_MAX_LEDS : nat := 16.
Definition OSDP_ACU_MAX_BUZZERS : nat := 8.

(** ** Host interface *)

Record osdp_acu_transport (W : Type) : Type := mk_acu_transport {
  at_read : option (nat → W → Z * list Z * W);
  at_write : option (list Z → W → Z * W);
  at_now_ms : option (W → Z * W) }.
Arguments mk_acu_transport {_}.
Arguments at_read {_}.
Arguments at_write {_}.
Arguments at_now_ms {_}.

Inductive osdp_acu_sc_phase : Type :=
  | OSDP_ACU_SC_IDLE
  | OSDP_ACU_SC_AWAITING_CCRYPT
  | OSDP_ACU_SC_AWAITING_RMAC_I
  | OSDP_ACU_SC_ESTABLISHED.

#[export] Instance sc_phase_eq_dec : EqDecision osdp_acu_sc_phase.
Proof. solve_decision. Defined.

Record osdp_acu_reply_event : Type := mk_reply_event {
  re_pd_address : Z; re_cmd_code : Z; re_reply_code : Z; re_payload : ptr; re_payload_len : nat }.

Record osdp_acu_timeout_event : Type := mk_timeout_event {
  te_pd_address : Z; te_cmd_code : Z; te_cmd_seq : Z }.

Inductive osdp_acu_sc_event_kind : Type :=
  | OSDP_ACU_SC_EVENT_ESTABLISHED
  | OSDP_ACU_SC_EVENT_HANDSHAKE_FAILED
  | OSDP_ACU_SC_EVENT_SESSION_LOST.

Record osdp_acu_sc_event : Type := mk_sc_event {
  se_pd_address : Z; se_kind : osdp_acu_sc_event_kind }.

(** What a callback does from a world: it returns, or calls the ACU and goes on with
    the status it got. *)
Inductive cb_action (W : Type) : Type :=
  | Cb_return (w : W)
  | Cb_send_command (pd_address cmd_code : Z) (payload : ptr) (payload_len : nat) (w : W)
      (k : osdp_status → W → cb_action W)
  | Cb_start_sc_handshake (pd_address : Z) (use_default_key : bool) (w : W)
      (k : osdp_status → W → cb_action W).
Arguments Cb_return {_}.
Arguments Cb_send_command {_}.
Arguments Cb_start_sc_handshake {_}.

Definition osdp_acu_reply_cb (W : Type) : Type := osdp_acu_reply_event → W → cb_action W.
Definition osdp_acu_timeout_cb (W : Type) : Type := osdp_acu_timeout_event → W → cb_action W.
Definition osdp_acu_sc_event_cb (W : Type) : Type := osdp_acu_sc_event → W → cb_action W.
Definition osdp_acu_led_cb (W : Type) : Type := Z → Z → Z → Z → W → W.
Definition osdp_acu_buzzer_cb (W : Type) : Type := Z → Z → bool → Z → W → W.

(** ** The context *)

Record osdp_acu_pd_slot : Type := mk_pd_slot {
  as_in_use : bool;
  as_address : Z;
  as_next_seq : Z;
  as_waiting : bool;
  as_pending_seq : Z;
  as_pending_code : Z;
  as_pending_sent_ms : Z;
  as_online : bool;
  as_last_reply_ms : Z;
  as_scbk_set : bool;
  as_scbk : list Z;
  as_scbk_d_set : bool;
  as_scbk_d : list Z;
  as_sc_phase : osdp_acu_sc_phase;
  as_sc_key_selector : Z;
  as_sc_rnd_a : list Z;
  as_sc_rnd_b : list Z;
  as_sc_cuid : list Z;
  as_sc_session : osdp_sc_session }.

#[export] Instance pd_slot_settable : Settable osdp_acu_pd_slot := λ r,
  mk_pd_slot (as_in_use r) (as_address r) (as_next_seq r) (as_waiting r) (as_pending_seq r)
    (as_pending_code r) (as_pending_sent_ms r) (as_online r) (as_last_reply_ms r) (as_scbk_set r)
    (as_scbk r) (as_scbk_d_set r) (as_scbk_d r) (as_sc_phase r) (as_sc_key_selector r)
    (as_sc_rnd_a r) (as_sc_rnd_b r) (as_sc_cuid r) (as_sc_session r).

Record osdp_acu_led_slot : Type := mk_acu_led_slot {
  al_used : bool; al_pd_address : Z; al_reader_no : Z; al_led_no : Z; al_last_color : Z;
  al_state : osdp_led }.

Record osdp_acu_buz_slot : Type := mk_acu_buz_slot {
  ab_used : bool; ab_pd_address : Z; ab_reader_no : Z; ab_last_sounding : bool; ab_state : osdp_buz }.

Record osdp_acu (W : Type) : Type := mk_acu {
  ac_transport : osdp_acu_transport W;
  ac_pds : list osdp_acu_pd_slot;
  ac_pd_count : nat;
  ac_reply_cb : option (osdp_acu_reply_cb W);
  ac_timeout_cb : option (osdp_acu_timeout_cb W);
  ac_rx : osdp_stream;
  ac_rx_partial_len : nat;
  ac_rx_partial_ms : Z;
  ac_tx_buf : ptr;
  ac_integrity : Z;
  ac_sc_crypto : osdp_sc_crypto W;
  ac_sc_crypto_set : bool;
  ac_sc_event_cb : option (osdp_acu_sc_event_cb W);
  ac_leds : list osdp_acu_led_slot;
  ac_led_cb : option (osdp_acu_led_cb W);
  ac_buzzers : list osdp_acu_buz_slot;
  ac_buzzer_cb : option (osdp_acu_buzzer_cb W) }.
Arguments mk_acu {_}.
Arguments ac_transport {_}.
Arguments ac_pds {_}.
Arguments ac_pd_count {_}.
Arguments ac_reply_cb {_}.
Arguments ac_timeout_cb {_}.
Arguments ac_rx {_}.
Arguments ac_rx_partial_len {_}.
Arguments ac_rx_partial_ms {_}.
Arguments ac_tx_buf {_}.
Arguments ac_integrity {_}.
Arguments ac_sc_crypto {_}.
Arguments ac_sc_crypto_set {_}.
Arguments ac_sc_event_cb {_}.
Arguments ac_leds {_}.
Arguments ac_led_cb {_}.
Arguments ac_buzzers {_}.
Arguments ac_buzzer_cb {_}.

#[export] Instance acu_settable W : Settable (osdp_acu W) := λ r,
  mk_acu (ac_transport r) (ac_pds r) (ac_pd_count r) (ac_reply_cb r) (ac_timeout_cb r) (ac_rx r)
    (ac_rx_partial_len r) (ac_rx_partial_ms r) (ac_tx_buf r) (ac_integrity r) (ac_sc_crypto r)
    (ac_sc_crypto_set r) (ac_sc_event_cb r) (ac_leds r) (ac_led_cb r) (ac_buzzers r)
    (ac_buzzer_cb r).

(** A computation on the context and the host. *)
Abbreviation ACU W := (M (osdp_acu W) W).

Definition slot_zero : osdp_acu_pd_slot :=
  mk_pd_slot false 0 0 false 0 0 0 false 0 false (replicate OSDP_SC_KEY_LEN 0%Z) false
    (replicate OSDP_SC_KEY_LEN 0%Z) OSDP_ACU_SC_IDLE 0 (replicate OSDP_SC_RND_LEN 0%Z)
    (replicate OSDP_SC_RND_LEN 0%Z) (replicate OSDP_SC_CUID_LEN 0%Z) session_zero.

(** [memset(acu, 0, sizeof *acu)]. *)
Definition acu_zero {W} : osdp_acu W :=
  mk_acu (mk_acu_transport None None None) [] 0 None None
    (mk_stream (replicate OSDP_STREAM_BUFFER_LEN 0%Z) 0 0) 0 0
    (Ptr (replicate OSDP_ACU_BUF_LEN 0%Z)) OSDP_INTEGRITY_CHECKSUM no_crypto false None
    (replicate OSDP_ACU_MAX_LEDS (mk_acu_led_slot false 0 0 0 0 led_zero)) None
    (replicate OSDP_ACU_MAX_BUZZERS (mk_acu_buz_slot false 0 0 false buz_zero)) None.

(** [for (i = 0; i < pd_count; i++) if (pds[i].in_use && pds[i].address == address)]. *)
Fixpoint find_slot_loop (pds : list osdp_acu_pd_slot) (address : Z) (i n : nat) : option (option nat) :=
  match n with
  | O => Some None
  | S n =>
      s ← pds !! i;
      if decide (as_in_use s = true ∧ as_address s = address) then Some (Some i)
      else find_slot_loop pds address (S i) n
  end.

Section api.
Context {W : Type}.
Implicit Types acu : option (osdp_acu W).

Definition find_slot_by_address (c : osdp_acu W) (address : Z) : option (option nat) :=
  find_slot_loop (ac_pds c) address 0 (ac_pd_count c).

(** [slot->...], through the pointer [&acu->pds[i]]. *)
Definition slot_at (i : nat) : ACU W osdp_acu_pd_slot :=
  pds ← gets ac_pds; lift (pds !! i).

Definition with_slot (i : nat) (g : osdp_acu_pd_slot → osdp_acu_pd_slot) : ACU W unit :=
  s ← slot_at i;
  modify (λ c, c <| ac_pds := <[i := g s]> (ac_pds c) |>).

Definition now_ms_or_zero : ACU W Z :=
  t ← gets ac_transport;
  match at_now_ms t with
  | Some now_ms => host now_ms
  | None => mret 0%Z
  end.

(** ** osdp_acu_init and the setters *)

Definition osdp_acu_init acu (pd_slots : option (list osdp_acu_pd_slot)) (pd_count : nat)
  : option (osdp_acu W) :=
  match acu with
  | None => None
  | Some _ =>
      rx ← osdp_stream_init (Some (ac_rx (acu_zero (W := W))));
      pds ← (match pd_slots with
             | None => Some []
             | Some pds =>
                 if decide (pd_count ≤ length pds)
                 then Some (replicate pd_count slot_zero ++ drop pd_count pds) else UB
             end);
      Some (acu_zero <| ac_pds := pds |>
              <| ac_pd_count := if pd_slots is Some _ then pd_count else 0 |>
              <| ac_integrity := OSDP_INTEGRITY_CRC |> <| ac_rx := rx |>)
  end.

Definition osdp_acu_set_transport acu (transport : option (osdp_acu_transport W)) : option (osdp_acu W) :=
  c ← acu; match transport with None => Some c | Some t => Some (c <| ac_transport := t |>) end.

Definition osdp_acu_set_reply_handler acu cb : option (osdp_acu W) :=
  c ← acu; Some (c <| ac_reply_cb := cb |>).

Definition osdp_acu_set_timeout_handler acu cb : option (osdp_acu W) :=
  c ← acu; Some (c <| ac_timeout_cb := cb |>).

Definition osdp_acu_set_integrity acu (integrity : Z) : option (osdp_acu W) :=
  c ← acu; Some (c <| ac_integrity := integrity |>).

Definition osdp_acu_set_led_handler acu cb : option (osdp_acu W) :=
  c ← acu; Some (c <| ac_led_cb := cb |>).

Definition osdp_acu_set_buzzer_handler acu cb : option (osdp_acu W) :=
  c ← acu; Some (c <| ac_buzzer_cb := cb |>).

Definition osdp_acu_set_sc_crypto acu (crypto : option (osdp_sc_crypto W)) : option (osdp_acu W) :=
  c ← acu;
  match crypto with
  | None => Some c
  | Some cr => Some (c <| ac_sc_crypto := cr |> <| ac_sc_crypto_set := true |>)
  end.

Definition osdp_acu_set_sc_event_handler acu cb : option (osdp_acu W) :=
  c ← acu; Some (c <| ac_sc_event_cb := cb |>).

Definition osdp_acu_register_pd (slot_index : nat) (pd_address : Z) : ACU W osdp_status :=
  c ← gets id;
  if decide (ac_pd_count c ≤ slot_index) then mret OSDP_ERR_INVALID_ARG else
  if decide (OSDP_BROADCAST_ADDR < pd_address)%Z then mret OSDP_ERR_INVALID_ARG else
  with_slot slot_index (λ _, slot_zero <| as_in_use := true |> <| as_address := pd_address |>
                                       <| as_next_seq := 0%Z |>);;
  mret OSDP_OK.

(** The two key setters copy 16 bytes into the slot. *)
Definition osdp_acu_set_pd_scbk (pd_address : Z) (scbk : ptr) : ACU W osdp_status :=
  if is_null scbk then mret OSDP_ERR_INVALID_ARG else
  c ← gets id;
  slot ← lift (find_slot_by_address c pd_address);
  match slot with
  | None => mret OSDP_ERR_INVALID_ARG
  | Some i =>
      k ← lift (rd_slice scbk 0 OSDP_SC_KEY_LEN);
      with_slot i (λ s, s <| as_scbk := k |> <| as_scbk_set := true |>);;
      mret OSDP_OK
  end.

Definition osdp_acu_set_pd_scbk_d (pd_address : Z) (scbk_d : ptr) : ACU W osdp_status :=
  if is_null scbk_d then mret OSDP_ERR_INVALID_ARG else
  c ← gets id;
  slot ← lift (find_slot_by_address c pd_address);
  match slot with
  | None => mret OSDP_ERR_INVALID_ARG
  | Some i =>
      k ← lift (rd_slice scbk_d 0 OSDP_SC_KEY_LEN);
      with_slot i (λ s, s <| as_scbk_d := k |> <| as_scbk_d_set := true |>);;
      mret OSDP_OK
  end.

(** ** Queries *)

(** [slot != NULL && P(slot)]. *)
Definition slot_query acu (pd_address : Z) (P : osdp_acu_pd_slot → bool) : option bool :=
  match acu with
  | None => Some false
  | Some c =>
      slot ← find_slot_by_address c pd_address;
      match slot with
      | None => Some false
      | Some i => s ← ac_pds c !! i; Some (P s)
      end
  end.

Definition osdp_acu_is_pd_online acu (pd_address : Z) : option bool :=
  slot_query acu pd_address as_online.

Definition osdp_acu_is_pd_busy acu (pd_address : Z) : option bool :=
  slot_query acu pd_address as_waiting.

Definition osdp_acu_is_pd_sc_established acu (pd_address : Z) : option bool :=
  slot_query acu pd_address (λ s, bool_decide (as_sc_phase s = OSDP_ACU_SC_ESTABLISHED)).

End api.
