(* ===== verification/AcuBanks.v ===== *)
(** * Reader LED and buzzer banks of the control unit (acu.c)

    The ACU mirrors the osdp_LED and osdp_BUZ commands it sent, keyed by PD
    address, reader and LED number; records beyond the bank are left out. *)
From S2P Require Import Prelude Types State Commands Records Indicators Dispatch PdTypes PdBanks.
From S2P Require Import AcuTypes.

Section ops.
Context {W : Type}.

(** ** LEDs *)

Definition acu_led_is (pd_address reader_no led_no : Z) (s : osdp_acu_led_slot) : Prop :=
  al_used s = true ∧ al_pd_address s = pd_address ∧ al_reader_no s = reader_no ∧ al_led_no s = led_no.

#[export] Instance acu_led_is_dec a r l s : Decision (acu_led_is a r l s).
Proof. unfold acu_led_is. apply _. Defined.

(** The one pass of the code: the first match, else the first free slot. *)
Definition acu_led_slot (pd_address reader_no led_no : Z) : ACU W (option nat) :=
  leds ← gets ac_leds;
  match list_find (acu_led_is pd_address reader_no led_no) leds with
  | Some (i, _) => mret (Some i)
  | None =>
      match list_find (λ s, al_used s = false) leds with
      | Some (i, s) =>
          st ← lift (osdp_led_init (Some (al_state s)));
          modify (λ c, c <| ac_leds :=
            <[i := mk_acu_led_slot true pd_address reader_no led_no OSDP_LED_BLACK st]> leds |>);;
          mret (Some i)
      | None => mret None
      end
  end.

Definition acu_led_refresh_slot (led_cb : osdp_acu_led_cb W) (now : Z) (i : nat) : ACU W unit :=
  leds ← gets ac_leds;
  s ← lift (leds !! i);
  if negb (al_used s) then mret tt else
  let color := osdp_led_color (Some (al_state s)) now in
  if decide (color ≠ al_last_color s) then
    modify (λ c, c <| ac_leds :=
      <[i := mk_acu_led_slot (al_used s) (al_pd_address s) (al_reader_no s) (al_led_no s) color
               (al_state s)]> leds |>);;
    host_ (led_cb (al_pd_address s) (al_reader_no s) (al_led_no s) color)
  else mret tt.

Definition acu_led_refresh (now : Z) : ACU W unit :=
  cb ← gets ac_led_cb;
  match cb with
  | None => mret tt
  | Some led_cb => for_m (acu_led_refresh_slot led_cb now) 0 OSDP_ACU_MAX_LEDS
  end.

(** Folding one record into the bank. *)
Definition acu_led_fold (pd_address : Z) (recs : list osdp_led_record) (now : Z) (i : nat)
  : ACU W unit :=
  rec ← lift (recs !! i);
  slot ← acu_led_slot pd_address (lr_reader_no rec) (lr_led_no rec);
  match slot with
  | None => mret tt
  | Some k =>
      leds ← gets ac_leds;
      s ← lift (leds !! k);
      st ← lift (osdp_led_apply (Some (al_state s)) (Some rec) now);
      modify (λ c, c <| ac_leds :=
        <[k := mk_acu_led_slot (al_used s) (al_pd_address s) (al_reader_no s) (al_led_no s)
                 (al_last_color s) st]> leds |>)
  end.

Definition acu_observe_led (pd_address cmd_code : Z) (payload : ptr) (payload_len : nat) : ACU W unit :=
  if decide (cmd_code ≠ OSDP_CMD_LED) then mret tt else
  '(s, recs, n) ← lift (osdp_led_decode payload payload_len
      (Some (replicate OSDP_ACU_MAX_LEDS led_record_zero)) OSDP_ACU_MAX_LEDS (Some 0));
  if decide (s ≠ OSDP_OK) then mret tt else
  recs ← lift recs;
  n ← lift n;
  now ← now_ms_or_zero;
  for_m (acu_led_fold pd_address recs now) 0 n;;
  acu_led_refresh now.

(** ** Buzzers *)

Definition acu_buz_is (pd_address reader_no : Z) (s : osdp_acu_buz_slot) : Prop :=
  ab_used s = true ∧ ab_pd_address s = pd_address ∧ ab_reader_no s = reader_no.

#[export] Instance acu_buz_is_dec a r s : Decision (acu_buz_is a r s).
Proof. unfold acu_buz_is. apply _. Defined.

Definition acu_buz_slot (pd_address reader_no : Z) : ACU W (option nat) :=
  buzzers ← gets ac_buzzers;
  match list_find (acu_buz_is pd_address reader_no) buzzers with
  | Some (i, _) => mret (Some i)
  | None =>
      match list_find (λ s, ab_used s = false) buzzers with
      | Some (i, s) =>
          st ← lift (osdp_buz_init (Some (ab_state s)));
          modify (λ c, c <| ac_buzzers :=
            <[i := mk_acu_buz_slot true pd_address reader_no false st]> buzzers |>);;
          mret (Some i)
      | None => mret None
      end
  end.

Definition acu_buz_refresh_slot (buzzer_cb : osdp_acu_buzzer_cb W) (now : Z) (i : nat) : ACU W unit :=
  buzzers ← gets ac_buzzers;
  s ← lift (buzzers !! i);
  if negb (ab_used s) then mret tt else
  let sounding := osdp_buz_sounding (Some (ab_state s)) now in
  if decide (sounding ≠ ab_last_sounding s) then
    modify (λ c, c <| ac_buzzers :=
      <[i := mk_acu_buz_slot (ab_used s) (ab_pd_address s) (ab_reader_no s) sounding (ab_state s)]>
        buzzers |>);;
    host_ (buzzer_cb (ab_pd_address s) (ab_reader_no s) sounding (bu_tone (ab_state s)))
  else mret tt.

Definition acu_buz_refresh (now : Z) : ACU W unit :=
  cb ← gets ac_buzzer_cb;
  match cb with
  | None => mret tt
  | Some buzzer_cb => for_m (acu_buz_refresh_slot buzzer_cb now) 0 OSDP_ACU_MAX_BUZZERS
  end.

Definition acu_observe_buzzer (pd_address cmd_code : Z) (payload : ptr) (payload_len : nat)
  : ACU W unit :=
  if decide (cmd_code ≠ OSDP_CMD_BUZ) then mret tt else
  '(s, buz) ← lift (osdp_buz_decode payload payload_len (Some buz_cmd_zero));
  if decide (s ≠ OSDP_OK) then mret tt else
  buz ← lift buz;
  now ← now_ms_or_zero;
  slot ← acu_buz_slot pd_address (bz_reader_no buz);
  (match slot with
   | None => mret tt
   | Some k =>
       buzzers ← gets ac_buzzers;
       s ← lift (buzzers !! k);
       st ← lift (osdp_buz_apply (Some (ab_state s)) (Some buz) now);
       modify (λ c, c <| ac_buzzers :=
         <[k := mk_acu_buz_slot (ab_used s) (ab_pd_address s) (ab_reader_no s) (ab_last_sounding s)
                  st]> buzzers |>)
   end);;
  acu_buz_refresh now.

(** ** Queries *)

Definition osdp_acu_led_color (pd_address reader_no led_no : Z) : ACU W Z :=
  now ← now_ms_or_zero;
  leds ← gets ac_leds;
  mret match list_find (acu_led_is pd_address reader_no led_no) leds with
       | Some (_, s) => osdp_led_color (Some (al_state s)) now
       | None => OSDP_LED_BLACK
       end.

Definition osdp_acu_buzzer_sounding (pd_address reader_no : Z) : ACU W bool :=
  now ← now_ms_or_zero;
  buzzers ← gets ac_buzzers;
  mret match list_find (acu_buz_is pd_address reader_no) buzzers with
       | Some (_, s) => osdp_buz_sounding (Some (ab_state s)) now
       | None => false
       end.

End ops.
