(* ===== verification/AcuCmd.v ===== *)
(** * What the control unit sends: commands and the start of a handshake

    The sending half of acu.c and acu_sc.c - [osdp_acu_send_command],
    [osdp_acu_start_sc_handshake] - and [run_callback], which runs a callback of the host
    that calls these two.  The other files of the unit run every callback with it. *)
From S2P Require Import Prelude Types State Frame Commands Dispatch ScCrypto ScFrame.
From S2P Require Import PdTypes AcuTypes AcuBanks.

Section ops.
Context {W : Type}.

(** ** Helpers *)

Definition reset_sc_handshake (i : nat) (clear_session : bool) : ACU W unit :=
  with_slot i (λ s, s <| as_sc_phase := OSDP_ACU_SC_IDLE |>
                      <| as_sc_rnd_a := replicate OSDP_SC_RND_LEN 0%Z |>
                      <| as_sc_rnd_b := replicate OSDP_SC_RND_LEN 0%Z |>
                      <| as_sc_cuid := replicate OSDP_SC_CUID_LEN 0%Z |>);;
  if clear_session then
    s ← slot_at i;
    session ← lift (osdp_sc_session_init (Some (as_sc_session s)));
    with_slot i (λ s, s <| as_sc_session := session |>)
  else mret tt.

(** [transport.write(user, tx_buf, written)]; whether everything was taken.
    Calling a null write is undefined. *)
Definition write_tx (written : nat) : ACU W bool :=
  c ← gets id;
  write ← lift (at_write (ac_transport c));
  bs ← lift (rd_slice (ac_tx_buf c) 0 written);
  tx ← host (write bs);
  mret (negb (bool_decide (tx < 0 ∨ tx ≠ Z.of_nat written)%Z)).

(** The slot waits for the reply to the command just written. *)
Definition mark_pending (i : nat) (sequence cmd_code : Z) : ACU W unit :=
  with_slot i (λ s, s <| as_waiting := true |> <| as_pending_seq := sequence |>
                      <| as_pending_code := cmd_code |>);;
  now ← now_ms_or_zero;
  with_slot i (λ s, s <| as_pending_sent_ms := now |>).

Definition sc_cmd_frame (c : osdp_acu W) (slot : osdp_acu_pd_slot)
    (scb_type key_selector_byte cmd_code : Z) (payload : ptr) (payload_len : nat) : osdp_frame :=
  mk_frame (as_address slot) false (Z.land (as_next_seq slot) 0x03) (ac_integrity c) true
    (Z.of_nat (OSDP_SCB_MIN_LEN + 1)) scb_type (Ptr [key_selector_byte]) 1
    cmd_code payload payload_len NULL 0 NULL 0.

Definition send_sc_cmd (i : nat) (scb_type key_selector_byte cmd_code : Z) (payload : ptr)
    (payload_len : nat) : ACU W osdp_status :=
  c ← gets id;
  slot ← slot_at i;
  let frame := sc_cmd_frame c slot scb_type key_selector_byte cmd_code payload payload_len in
  '(s, tx, written) ← lift (osdp_frame_build (Some frame) (ac_tx_buf c) OSDP_ACU_BUF_LEN (Some 0));
  modify (λ c, c <| ac_tx_buf := tx |>);;
  if decide (s ≠ OSDP_OK) then mret s else
  written ← lift written;
  whole ← write_tx written;
  if negb whole then mret OSDP_ERR_NOT_SUPPORTED else
  mark_pending i (fr_sequence frame) cmd_code;;
  mret OSDP_OK.

Definition osdp_acu_internal_sc_configured (acu : option (osdp_acu W))
    (slot : option osdp_acu_pd_slot) (use_default_key : bool) : bool :=
  match acu, slot with
  | Some c, Some s =>
      if negb (ac_sc_crypto_set c) then false else
      if aes128_ecb_encrypt (ac_sc_crypto c) is None then false else
      if rand_bytes (ac_sc_crypto c) is None then false else
      if use_default_key then as_scbk_d_set s else as_scbk_set s
  | _, _ => false
  end.

(** ** CHLNG *)

Definition osdp_acu_internal_send_chlng (i : nat) (use_default_key : bool) : ACU W osdp_status :=
  c ← gets id;
  rand ← lift (rand_bytes (ac_sc_crypto c));
  '(s, rnd) ← host (rand OSDP_SC_RND_LEN);
  slot ← slot_at i;
  rnd_a ← lift (mwr (as_sc_rnd_a slot) 0 rnd);
  with_slot i (λ s, s <| as_sc_rnd_a := rnd_a |>);;
  if decide (s ≠ OSDP_OK) then mret s else
  let selector := (if use_default_key then 0 else 1)%Z in
  with_slot i (λ s, s <| as_sc_key_selector := selector |>);;
  s ← send_sc_cmd i OSDP_SCS_11 selector OSDP_CMD_CHLNG (Ptr rnd_a) OSDP_SC_RND_LEN;
  if decide (s ≠ OSDP_OK) then mret s else
  with_slot i (λ s, s <| as_sc_phase := OSDP_ACU_SC_AWAITING_CCRYPT |>);;
  mret OSDP_OK.

(** ** Commands *)

Definition cmd_frame (c : osdp_acu W) (slot : osdp_acu_pd_slot) (pd_address cmd_code : Z)
    (payload : ptr) (payload_len : nat) : osdp_frame :=
  let secure := bool_decide (as_sc_phase slot = OSDP_ACU_SC_ESTABLISHED) in
  mk_frame pd_address false (Z.land (as_next_seq slot) 0x03) (ac_integrity c) secure
    (if secure then Z.of_nat OSDP_SCB_MIN_LEN else 0) (if secure then OSDP_SCS_17 else 0)
    NULL 0 cmd_code payload payload_len NULL 0 NULL 0.

(** Wraps or builds the command into [tx_buf]. *)
Definition build_cmd (i : nat) (frame : osdp_frame) : ACU W (osdp_status * nat) :=
  c ← gets id;
  slot ← slot_at i;
  if decide (as_sc_phase slot = OSDP_ACU_SC_ESTABLISHED) then
    '(s, session, tx, written) ← lift (osdp_sc_wrap_frame (Some (ac_sc_crypto c))
        (Some (as_sc_session slot)) (Some frame) (ac_tx_buf c) OSDP_ACU_BUF_LEN (Some 0));
    session ← lift session;
    with_slot i (λ s, s <| as_sc_session := session |>);;
    modify (λ c, c <| ac_tx_buf := tx |>);;
    written ← lift written;
    mret (s, written)
  else
    '(s, tx, written) ← lift (osdp_frame_build (Some frame) (ac_tx_buf c) OSDP_ACU_BUF_LEN (Some 0));
    modify (λ c, c <| ac_tx_buf := tx |>);;
    written ← lift written;
    mret (s, written).

Definition osdp_acu_send_command (pd_address cmd_code : Z) (payload : ptr) (payload_len : nat)
  : ACU W osdp_status :=
  if decide (0 < payload_len ∧ payload = NULL) then mret OSDP_ERR_INVALID_ARG else
  c ← gets id;
  slot ← lift (find_slot_by_address c pd_address);
  match slot with
  | None => mret OSDP_ERR_INVALID_ARG
  | Some i =>
      s ← slot_at i;
      if as_waiting s then mret OSDP_ERR_NOT_SUPPORTED else
      if at_write (ac_transport c) is None then mret OSDP_ERR_INVALID_ARG else
      let frame := cmd_frame c s pd_address cmd_code payload payload_len in
      '(br, written) ← build_cmd i frame;
      if decide (br ≠ OSDP_OK) then mret br else
      whole ← write_tx written;
      if negb whole then mret OSDP_ERR_NOT_SUPPORTED else
      mark_pending i (fr_sequence frame) cmd_code;;
      acu_observe_led pd_address cmd_code payload payload_len;;
      acu_observe_buzzer pd_address cmd_code payload payload_len;;
      mret OSDP_OK
  end.

Definition osdp_acu_start_sc_handshake (pd_address : Z) (use_default_key : bool)
  : ACU W osdp_status :=
  c ← gets id;
  slot ← lift (find_slot_by_address c pd_address);
  match slot with
  | None => mret OSDP_ERR_INVALID_ARG
  | Some i =>
      s ← slot_at i;
      if at_write (ac_transport c) is None then mret OSDP_ERR_INVALID_ARG else
      if negb (osdp_acu_internal_sc_configured (Some c) (Some s) use_default_key)
      then mret OSDP_ERR_INVALID_ARG else
      if as_waiting s then mret OSDP_ERR_NOT_SUPPORTED else
      session ← lift (osdp_sc_session_init (Some (as_sc_session s)));
      with_slot i (λ s, s <| as_sc_session := session |> <| as_sc_phase := OSDP_ACU_SC_IDLE |>);;
      osdp_acu_internal_send_chlng i use_default_key
  end.

(** ** Callbacks *)

(** A callback from its world on: each call runs on the context as it is then. *)
Fixpoint run_callback (cb : cb_action W) : ACU W unit :=
  match cb with
  | Cb_return w => λ c _, Some (tt, c, w)
  | Cb_send_command address code payload len w k => λ c _,
      '(s, c, w) ← osdp_acu_send_command address code payload len c w;
      run_callback (k s w) c w
  | Cb_start_sc_handshake address use_default_key w k => λ c _,
      '(s, c, w) ← osdp_acu_start_sc_handshake address use_default_key c w;
      run_callback (k s w) c w
  end.

(** [if (cb != NULL) cb(user, &event);] *)
Definition call_back {E : Type} (cb : option (E → W → cb_action W)) (event : E) : ACU W unit :=
  match cb with
  | None => mret tt
  | Some cb => λ c w, run_callback (cb event w) c w
  end.

End ops.
