(* ===== verification/AcuSc.v ===== *)
(** * The Secure Channel of the control unit: acu_sc.c, with deliver_reply of acu.c

    The ACU's side of the SCS_11..14 handshake as a machine on a PD slot
    ([as_sc_phase]), session termination, and verified operational replies. *)
From S2P Require Import Prelude Types State Frame Commands Dispatch ScCrypto ScFrame.
From S2P Require Import PdTypes PdSc AcuTypes AcuBanks AcuCmd.

(** Spec 5.9, Table 2: 0, 1, 2, 3, 1, 2, 3, ... *)
Definition advance_sqn (current : Z) : Z :=
  if decide (3 ≤ current)%Z then 1 else u8 (current + 1).

Section ops.
Context {W : Type}.

(** ** Helpers *)

Definition fire_sc_event (pd_address : Z) (kind : osdp_acu_sc_event_kind) : ACU W unit :=
  cb ← gets ac_sc_event_cb;
  call_back cb (mk_sc_event pd_address kind).

(** [slot->waiting = false; reset_sc_handshake(slot, true); fire(HANDSHAKE_FAILED)]. *)
Definition handshake_failed (i : nat) : ACU W unit :=
  with_slot i (λ s, s <| as_waiting := false |>);;
  reset_sc_handshake i true;;
  s ← slot_at i;
  fire_sc_event (as_address s) OSDP_ACU_SC_EVENT_HANDSHAKE_FAILED.

(** ** CCRYPT *)

Definition keys_zero : osdp_sc_session_keys :=
  let z := replicate 16 0%Z in mk_keys z z z.

(** Cryptogram checks of a well-formed CCRYPT: the session keys and the server
    cryptogram, or [None]; the session keys are stored once verified. *)
Definition ccrypt_values (i : nat) (got_client : list Z) : ACU W (option (list Z)) :=
  c ← gets id;
  slot ← slot_at i;
  let key := if decide (as_sc_key_selector slot = 1%Z) then as_scbk slot else as_scbk_d slot in
  '(s, keys) ← lift (osdp_sc_derive_session_keys (Some (ac_sc_crypto c)) (Ptr key)
                       (Ptr (as_sc_rnd_a slot)) (Some keys_zero));
  if decide (s ≠ OSDP_OK) then mret None else
  keys ← lift keys;
  '(s, expected) ← lift (osdp_sc_client_cryptogram (Some (ac_sc_crypto c)) (Ptr (s_enc keys))
                           (Ptr (as_sc_rnd_a slot)) (Ptr (as_sc_rnd_b slot)) (Ptr rnd_zero));
  expected ← lift (rd_slice expected 0 OSDP_SC_CRYPTOGRAM_LEN);
  if decide (s ≠ OSDP_OK ∨ expected ≠ got_client) then mret None else
  with_slot i (λ s, s <| as_sc_session := with_keys keys (as_sc_session s) |>);;
  '(s, server) ← lift (osdp_sc_server_cryptogram (Some (ac_sc_crypto c)) (Ptr (s_enc keys))
                         (Ptr (as_sc_rnd_a slot)) (Ptr (as_sc_rnd_b slot)) (Ptr rnd_zero));
  if decide (s ≠ OSDP_OK) then mret None else
  server ← lift (rd_slice server 0 OSDP_SC_CRYPTOGRAM_LEN);
  mret (Some server).

(** The server cryptogram goes out as SCRYPT on the next sequence number. *)
Definition send_scrypt (i : nat) (server_crypto : list Z) : ACU W unit :=
  with_slot i (λ s, s <| as_next_seq := if decide (3 ≤ as_pending_seq s)%Z then 1%Z
                                        else u8 (as_pending_seq s + 1) |>
                      <| as_waiting := false |>);;
  slot ← slot_at i;
  s ← send_sc_cmd i OSDP_SCS_13 (as_sc_key_selector slot) OSDP_CMD_SCRYPT (Ptr server_crypto)
        OSDP_SC_CRYPTOGRAM_LEN;
  if decide (s ≠ OSDP_OK) then
    reset_sc_handshake i true;;
    slot ← slot_at i;
    fire_sc_event (as_address slot) OSDP_ACU_SC_EVENT_HANDSHAKE_FAILED
  else with_slot i (λ s, s <| as_sc_phase := OSDP_ACU_SC_AWAITING_RMAC_I |>).

Definition CCRYPT_LEN : nat := OSDP_SC_CUID_LEN + OSDP_SC_RND_LEN + OSDP_SC_CRYPTOGRAM_LEN.

Definition osdp_acu_internal_handle_ccrypt (i : nat) (frame : osdp_frame) : ACU W unit :=
  slot ← slot_at i;
  if decide (fr_sequence frame ≠ as_pending_seq slot) then mret tt else
  if decide (fr_code frame ≠ OSDP_REPLY_CCRYPT ∨ fr_scb_data_len frame < 1 ∨
             fr_scb_data frame = NULL ∨ fr_payload_len frame ≠ CCRYPT_LEN)
  then handshake_failed i else
  selector ← lift (rd (fr_scb_data frame) 0);
  if decide (selector ≠ as_sc_key_selector slot) then handshake_failed i else
  cuid ← lift (rd_slice (fr_payload frame) 0 OSDP_SC_CUID_LEN);
  rnd_b ← lift (rd_slice (fr_payload frame) OSDP_SC_CUID_LEN OSDP_SC_RND_LEN);
  got_client ← lift (rd_slice (fr_payload frame) (OSDP_SC_CUID_LEN + OSDP_SC_RND_LEN)
                       OSDP_SC_CRYPTOGRAM_LEN);
  with_slot i (λ s, s <| as_sc_cuid := cuid |> <| as_sc_rnd_b := rnd_b |>);;
  values ← ccrypt_values i got_client;
  match values with
  | None => handshake_failed i
  | Some server_crypto => send_scrypt i server_crypto
  end.

(** ** RMAC_I *)

(** The Initial R-MAC this side expects, or [None] for a crypto failure. *)
Definition expected_rmac (c : osdp_acu W) (slot : osdp_acu_pd_slot) : option (option (list Z)) :=
  let ks := ss_keys (as_sc_session slot) in
  '(s, server) ← osdp_sc_server_cryptogram (Some (ac_sc_crypto c)) (Ptr (s_enc ks))
                   (Ptr (as_sc_rnd_a slot)) (Ptr (as_sc_rnd_b slot)) (Ptr rnd_zero);
  if decide (s ≠ OSDP_OK) then Some None else
  '(s, rmac) ← osdp_sc_initial_rmac (Some (ac_sc_crypto c)) (Ptr (s_mac1 ks)) (Ptr (s_mac2 ks))
                 server (Ptr rnd_zero);
  if decide (s ≠ OSDP_OK) then Some None else
  rmac ← rd_slice rmac 0 OSDP_SC_MAC_LEN;
  Some (Some rmac).

Definition rmac_accept (i : nat) (rmac : list Z) : ACU W unit :=
  with_slot i (λ s, s <| as_sc_session := mk_session (ss_keys (as_sc_session s)) rmac rmac true |>
                      <| as_next_seq := if decide (3 ≤ as_pending_seq s)%Z then 1%Z
                                        else u8 (as_pending_seq s + 1) |>
                      <| as_waiting := false |> <| as_online := true |>);;
  now ← now_ms_or_zero;
  with_slot i (λ s, s <| as_last_reply_ms := now |> <| as_sc_phase := OSDP_ACU_SC_ESTABLISHED |>);;
  slot ← slot_at i;
  fire_sc_event (as_address slot) OSDP_ACU_SC_EVENT_ESTABLISHED.

Definition osdp_acu_internal_handle_rmac_i (i : nat) (frame : osdp_frame) : ACU W unit :=
  slot ← slot_at i;
  if decide (fr_sequence frame ≠ as_pending_seq slot) then mret tt else
  if decide (fr_code frame ≠ OSDP_REPLY_RMAC_I ∨ fr_scb_data_len frame < 1 ∨
             fr_scb_data frame = NULL)
  then handshake_failed i else
  status ← lift (rd (fr_scb_data frame) 0);
  if decide (status ≠ 0x01%Z) then handshake_failed i else
  if decide (fr_payload_len frame ≠ OSDP_SC_MAC_LEN) then handshake_failed i else
  c ← gets id;
  expected ← lift (expected_rmac c slot);
  match expected with
  | None => handshake_failed i
  | Some rmac =>
      sent ← lift (rd_slice (fr_payload frame) 0 OSDP_SC_MAC_LEN);
      if decide (rmac ≠ sent) then handshake_failed i else rmac_accept i rmac
  end.

(** ** Termination and operational replies *)

(** The event a termination fires, by the phase it ends. *)
Definition termination_event (phase : osdp_acu_sc_phase) : option osdp_acu_sc_event_kind :=
  match phase with
  | OSDP_ACU_SC_ESTABLISHED => Some OSDP_ACU_SC_EVENT_SESSION_LOST
  | OSDP_ACU_SC_AWAITING_CCRYPT | OSDP_ACU_SC_AWAITING_RMAC_I =>
      Some OSDP_ACU_SC_EVENT_HANDSHAKE_FAILED
  | OSDP_ACU_SC_IDLE => None
  end.

Definition osdp_acu_internal_terminate_sc (i : nat) : ACU W unit :=
  slot ← slot_at i;
  let event := termination_event (as_sc_phase slot) in
  with_slot i (λ s, s <| as_waiting := false |> <| as_next_seq := 0%Z |>);;
  reset_sc_handshake i true;;
  slot ← slot_at i;
  match event with
  | Some kind => fire_sc_event (as_address slot) kind
  | None => mret tt
  end.

(** Shared by the clear and the Secure Channel path (acu.c). *)
Definition osdp_acu_internal_deliver_reply (i : nat) (frame : osdp_frame) (payload : ptr)
    (payload_len : nat) : ACU W unit :=
  with_slot i (λ s, s <| as_online := true |>);;
  now ← now_ms_or_zero;
  with_slot i (λ s, s <| as_last_reply_ms := now |>);;
  slot ← slot_at i;
  let cmd_code := as_pending_code slot in
  with_slot i (λ s, s <| as_waiting := false |> <| as_next_seq := advance_sqn (as_pending_seq s) |>);;
  cb ← gets ac_reply_cb;
  call_back cb (mk_reply_event (fr_address frame) cmd_code (fr_code frame) payload payload_len).

Definition osdp_acu_internal_handle_sc_reply (i : nat) (frame : osdp_frame) : ACU W unit :=
  if decide (fr_sequence frame = 0%Z) then osdp_acu_internal_terminate_sc i else
  slot ← slot_at i;
  if decide (as_waiting slot = false ∨ fr_sequence frame ≠ as_pending_seq slot) then mret tt else
  c ← gets id;
  '(s, session, plaintext, n) ← lift (osdp_sc_unwrap_frame (Some (ac_sc_crypto c))
      (Some (as_sc_session slot)) (Some frame) (Ptr (replicate OSDP_ACU_BUF_LEN 0%Z))
      OSDP_ACU_BUF_LEN (Some 0));
  session ← lift session;
  with_slot i (λ s, s <| as_sc_session := session |>);;
  if decide (s ≠ OSDP_OK) then osdp_acu_internal_terminate_sc i else
  n ← lift n;
  osdp_acu_internal_deliver_reply i frame plaintext n.

End ops.
