(* ===== verification/Acu.v ===== *)
(** * The control unit: acu.c

    Reply routing, the reply, offline and inter-character timeouts, and
    [osdp_acu_tick].  A callback may have changed every slot when it returns: each step
    reads the slot again, as the code does through its pointer. *)
From S2P Require Import Prelude Types State Frame Stream Commands Dispatch ScCrypto ScFrame.
From S2P Require Import PdTypes Pd AcuTypes AcuBanks AcuCmd AcuSc.

Section ops.
Context {W : Type}.

(** ** Clear-text replies *)

Definition process_reply (frame : osdp_frame) : ACU W unit :=
  c ← gets id;
  slot ← lift (find_slot_by_address c (fr_address frame));
  match slot with
  | None => mret tt
  | Some i =>
      s ← slot_at i;
      if decide (fr_sequence frame = 0%Z ∧ as_sc_phase s = OSDP_ACU_SC_ESTABLISHED)
      then osdp_acu_internal_terminate_sc i else
      if decide (as_sc_phase s = OSDP_ACU_SC_ESTABLISHED ∧ fr_code frame ≠ OSDP_REPLY_BUSY)
      then osdp_acu_internal_terminate_sc i else
      if negb (as_waiting s) then mret tt else
      if decide (fr_sequence frame ≠ as_pending_seq s) then mret tt else
      osdp_acu_internal_deliver_reply i frame (fr_payload frame) (fr_payload_len frame)
  end.

(** ** Timeouts *)

(** The reply timeout of one slot. *)
Definition check_reply_timeout (now : Z) (i : nat) : ACU W unit :=
  s ← slot_at i;
  if negb (as_waiting s) then mret tt else
  if decide (OSDP_ACU_REPLY_TIMEOUT_MS < u32 (now - as_pending_sent_ms s))%Z then
    with_slot i (λ s, s <| as_waiting := false |>);;
    with_slot i (λ sl, sl <| as_next_seq := as_pending_seq s |>);;
    cb ← gets ac_timeout_cb;
    call_back cb (mk_timeout_event (as_address s) (as_pending_code s) (as_pending_seq s))
  else mret tt.

(** The online window of one slot. *)
Definition check_online_window (now : Z) (i : nat) : ACU W unit :=
  s ← slot_at i;
  if negb (as_online s) then mret tt else
  if decide (OSDP_ACU_OFFLINE_TIMEOUT_MS < u32 (now - as_last_reply_ms s))%Z then
    with_slot i (λ s, s <| as_online := false |>);;
    if decide (as_sc_phase s ≠ OSDP_ACU_SC_IDLE) then osdp_acu_internal_terminate_sc i else mret tt
  else mret tt.

Definition scan_slot (now : Z) (i : nat) : ACU W unit :=
  s ← slot_at i;
  if negb (as_in_use s) then mret tt else
  check_reply_timeout now i;;
  check_online_window now i.

Definition scan_timeouts_and_offline : ACU W unit :=
  c ← gets id;
  match at_now_ms (ac_transport c) with
  | None => mret tt
  | Some now_ms =>
      now ← host now_ms;
      for_m (scan_slot now) 0 (ac_pd_count c)
  end.

(** ** The tick *)

Definition acu_check_interchar_timeout : ACU W unit :=
  c ← gets id;
  let pending := osdp_stream_pending (Some (ac_rx c)) in
  if decide (pending = 0) then modify (λ c, c <| ac_rx_partial_len := 0 |>) else
  match at_now_ms (ac_transport c) with
  | None => mret tt
  | Some now_ms =>
      now ← host now_ms;
      if decide (pending ≠ ac_rx_partial_len c) then
        modify (λ c, c <| ac_rx_partial_len := pending |> <| ac_rx_partial_ms := now |>)
      else if decide (OSDP_ACU_INTERCHAR_TIMEOUT_MS ≤ u32 (now - ac_rx_partial_ms c))%Z then
        rx ← lift (osdp_stream_reset (Some (ac_rx c)));
        modify (λ c, c <| ac_rx := rx |> <| ac_rx_partial_len := 0 |>)
      else mret tt
  end.

Fixpoint acu_drain_loop (fuel : nat) (read : nat → W → Z * list Z * W) (drained : nat) : ACU W unit :=
  match fuel with
  | O => lift UB
  | S fuel =>
      '(n, bytes) ← host (read CHUNK);
      if decide (n ≤ 0)%Z then mret tt else
      chunk ← lift (mwr (replicate CHUNK 0%Z) 0 bytes);
      rx ← gets ac_rx;
      '(_, rx) ← lift (osdp_stream_feed (Some rx) (Ptr chunk) (Z.to_nat n));
      rx ← lift rx;
      modify (λ c, c <| ac_rx := rx |>);;
      let drained := drained + Z.to_nat n in
      if decide (OSDP_STREAM_BUFFER_LEN ≤ drained) then mret tt
      else acu_drain_loop fuel read drained
  end.

(** The switch on the SCB type of a reply. *)
Definition route_sc_reply (frame : osdp_frame) : ACU W unit :=
  c ← gets id;
  slot ← lift (find_slot_by_address c (fr_address frame));
  match slot with
  | None => mret tt
  | Some i =>
      s ← slot_at i;
      let phase := as_sc_phase s in
      let t := fr_scb_type frame in
      if decide (t = OSDP_SCS_12) then
        if decide (phase = OSDP_ACU_SC_AWAITING_CCRYPT) then osdp_acu_internal_handle_ccrypt i frame
        else mret tt
      else if decide (t = OSDP_SCS_14) then
        if decide (phase = OSDP_ACU_SC_AWAITING_RMAC_I) then osdp_acu_internal_handle_rmac_i i frame
        else mret tt
      else if decide (t = OSDP_SCS_16 ∨ t = OSDP_SCS_18) then
        if decide (phase = OSDP_ACU_SC_ESTABLISHED) then osdp_acu_internal_handle_sc_reply i frame
        else mret tt
      else mret tt
  end.

(** One decoded frame. *)
Definition take_frame (frame : osdp_frame) : ACU W unit :=
  if negb (fr_reply frame) then mret tt else
  if fr_has_scb frame then route_sc_reply frame else process_reply frame.

Fixpoint acu_frame_loop (fuel : nat) : ACU W unit :=
  match fuel with
  | O => lift UB
  | S fuel =>
      rx ← gets ac_rx;
      '(r, rx, frame) ← lift (osdp_stream_next (Some rx) (Some frame_zero));
      rx ← lift rx;
      frame ← lift frame;
      modify (λ c, c <| ac_rx := rx |>);;
      if decide (r = OSDP_ERR_TRUNCATED) then mret tt else
      (if decide (r ≠ OSDP_OK) then mret tt else take_frame frame);;
      acu_frame_loop fuel
  end.

Definition osdp_acu_tick : ACU W unit :=
  t ← gets ac_transport;
  match at_read t with
  | None => mret tt
  | Some read =>
      scan_timeouts_and_offline;;
      acu_drain_loop (S OSDP_STREAM_BUFFER_LEN) read 0;;
      acu_frame_loop (S OSDP_STREAM_BUFFER_LEN);;
      acu_check_interchar_timeout;;
      now ← now_ms_or_zero;
      acu_led_refresh now;;
      acu_buz_refresh now
  end.

End ops.
