(* ===== verification/AcuSlot.v ===== *)
(** * A logic for one PD slot of the control unit

    The handlers of acu_sc.c and the reply path of acu.c work on one slot of the
    slot array and on the transmit buffer, until a callback of the host is run; the rest
    of the context is read only.  [swr i c m R s tx w]: from slot [i] being [s] and the
    buffer [tx], [m] is defined and ends with a context and a world in [R];
    [sw i c m Q s tx w]: besides, nothing else changed, and the slot, the buffer and the
    world are in [Q].  This file gives the rules and what every handler does to its
    slot, with a host whose callbacks do not call the ACU ([plain]) where it runs one. *)
From S2P Require Import Prelude Types State Frame Stream Commands Dispatch ScCrypto ScFrame.
From S2P Require Import PdTypes PdSc Pd PdInv PdSafe AcuTypes AcuBanks AcuCmd AcuSc Acu.

(** The context [c] with slot [i] and the transmit buffer replaced. *)
Definition at_slot {W} (i : nat) (c : osdp_acu W) (s : osdp_acu_pd_slot) (tx : ptr) : osdp_acu W :=
  c <| ac_tx_buf := tx |> <| ac_pds := <[i := s]> (ac_pds c) |>.

Definition swr {W A} (i : nat) (c : osdp_acu W) (m : ACU W A) (R : A → osdp_acu W → W → Prop)
    (s : osdp_acu_pd_slot) (tx : ptr) (w : W) : Prop := wp m R (at_slot i c s tx) w.

Definition on_slot {W A} (i : nat) (c : osdp_acu W) (Q : A → osdp_acu_pd_slot → ptr → W → Prop)
    (a : A) (c' : osdp_acu W) (w : W) : Prop := ∃ s tx, c' = at_slot i c s tx ∧ Q a s tx w.

Abbreviation sw i c m Q := (swr i c m (on_slot i c Q)).

(** The clock, and the event callback. *)
Definition now_of {W} (c : osdp_acu W) (w : W) : Z * W :=
  match at_now_ms (ac_transport c) with Some now_ms => now_ms w | None => (0%Z, w) end.

(** The world a callback leaves when it does not call the ACU. *)
Definition cb_world {W} (cb : cb_action W) : W :=
  match cb with Cb_return w | Cb_send_command _ _ _ _ w _ | Cb_start_sc_handshake _ _ w _ => w end.

Definition called_back {E W} (cb : option (E → W → cb_action W)) (event : E) (w : W) : W :=
  match cb with Some cb => cb_world (cb event w) | None => w end.

(** A callback that returns at once. *)
Definition plain {E W} (cb : option (E → W → cb_action W)) : Prop :=
  ∀ h event w, cb = Some h → ∃ w', h event w = Cb_return w'.

(** A callback that writes something down. *)
Definition reports {E W} (log : E → W → W) (event : E) (w : W) : cb_action W := Cb_return (log event w).

Lemma plain_reports {E W} (log : E → W → W) : plain (Some (reports log)).
Proof. intros h event w [= <-]. by eexists. Qed.

Definition fired {W} (c : osdp_acu W) (address : Z) (kind : osdp_acu_sc_event_kind) (w : W) : W :=
  called_back (ac_sc_event_cb c) (mk_sc_event address kind) w.

Lemma plain_run {E W} (cb : option (E → W → cb_action W)) event c w :
  plain cb → call_back cb event c w = Some (tt, c, called_back cb event w).
Proof.
  intros Hp. unfold called_back. destruct cb as [h|]; [|done]. cbn [call_back].
  by destruct (Hp h event w eq_refl) as [w' ->].
Qed.

(** The slot is in the array. *)
Class SlotIn {W} (i : nat) (c : osdp_acu W) : Prop := slot_in : i < length (ac_pds c).

(** ** Rules *)

Section rules.
Context {W : Type} (i : nat) (c : osdp_acu W) {Hi : SlotIn i c}.
Implicit Types (s : osdp_acu_pd_slot) (tx : ptr) (w : W).

Lemma sw_weaken {A} (m : ACU W A) (Q Q' : A → osdp_acu_pd_slot → ptr → W → Prop) s tx w :
  sw i c m Q s tx w → (∀ a s' tx' w', Q a s' tx' w' → Q' a s' tx' w') → sw i c m Q' s tx w.
Proof. intros H HQ. eapply wp_weaken; [exact H|]. intros a c' w' (s' & tx' & -> & ?). exists s', tx'. auto. Qed.

Lemma sw_ret {A} (a : A) (Q : A → osdp_acu_pd_slot → ptr → W → Prop) s tx w : Q a s tx w → sw i c (mret a) Q s tx w.
Proof. intros. apply wp_ret. by exists s, tx. Qed.

Lemma sw_bind {A B} (m : ACU W A) (k : A → ACU W B) R s tx w :
  sw i c m (λ a, swr i c (k a) R) s tx w → swr i c (m ≫= k) R s tx w.
Proof. intros H. apply wp_bind. eapply wp_weaken; [exact H|]. by intros a c' w' (s' & tx' & -> & ?). Qed.

Lemma sw_gets {A} (f : osdp_acu W → A) (Q : A → osdp_acu_pd_slot → ptr → W → Prop) s tx w :
  Q (f (at_slot i c s tx)) s tx w → sw i c (gets f) Q s tx w.
Proof. intros. apply wp_gets. by exists s, tx. Qed.

Lemma sw_get {A B} (f : osdp_acu W → A) (k : A → ACU W B) R s tx w :
  swr i c (k (f (at_slot i c s tx))) R s tx w → swr i c (gets f ≫= k) R s tx w.
Proof. intros. by apply sw_bind, sw_gets. Qed.

Lemma sw_lift {A B} (o : option A) a (k : A → ACU W B) R s tx w :
  o = Some a → swr i c (k a) R s tx w → swr i c (lift o ≫= k) R s tx w.
Proof. intros E H. apply wp_bind. by apply (wp_lift _ _ _ _ _ E). Qed.

Lemma sw_host {A B} (f : W → A * W) (k : A → ACU W B) R s tx w :
  swr i c (k (f w).1) R s tx (f w).2 → swr i c (host f ≫= k) R s tx w.
Proof. intros H. by apply wp_bind, wp_host. Qed.

Lemma sw_slot {B} (k : osdp_acu_pd_slot → ACU W B) R s tx w :
  swr i c (k s) R s tx w → swr i c (slot_at i ≫= k) R s tx w.
Proof.
  intros H. unfold slot_at. apply wp_bind, wp_bind, wp_gets. eapply wp_lift; [|exact H].
  cbn. apply list_lookup_insert_eq, Hi.
Qed.

Lemma with_slot_run g s tx w : with_slot i g (at_slot i c s tx) w = Some (tt, at_slot i c (g s) tx, w).
Proof.
  unfold with_slot, slot_at. m_run.
  assert (ac_pds (at_slot i c s tx) !! i = Some s) as E by (cbn; apply list_lookup_insert_eq, Hi).
  rewrite (run_lift _ _ _ _ _ E). m_run. unfold at_slot. cbn. by rewrite list_insert_insert_eq.
Qed.

Lemma sw_with {B} g (k : unit → ACU W B) R s tx w :
  swr i c (k tt) R (g s) tx w → swr i c (with_slot i g ≫= k) R s tx w.
Proof. intros H. apply wp_bind. by eapply wp_run; [apply with_slot_run|]. Qed.

Lemma sw_with_end g (Q : unit → osdp_acu_pd_slot → ptr → W → Prop) s tx w :
  Q tt (g s) tx w → sw i c (with_slot i g) Q s tx w.
Proof. intros H. eapply wp_run; [apply with_slot_run|]. by eexists _, _. Qed.

Lemma sw_set_tx {B} tx' (k : unit → ACU W B) R s tx w :
  swr i c (k tt) R s tx' w → swr i c (modify (λ c, c <| ac_tx_buf := tx' |>) ≫= k) R s tx w.
Proof. intros H. by apply wp_bind, wp_modify. Qed.

Lemma sw_now {B} (k : Z → ACU W B) R s tx w :
  swr i c (k (now_of c w).1) R s tx (now_of c w).2 → swr i c (now_ms_or_zero ≫= k) R s tx w.
Proof.
  unfold now_of. intros H. unfold now_ms_or_zero. apply sw_bind, sw_get.
  change (ac_transport (at_slot i c s tx)) with (ac_transport c).
  destruct (at_now_ms (ac_transport c)); [|by apply sw_ret]. apply wp_host. by eexists _, _.
Qed.

(** A callback that does not call the ACU. *)
Lemma sw_call_back {E} (cb : option (E → W → cb_action W)) event (Q : unit → osdp_acu_pd_slot → ptr → W → Prop) s tx w :
  plain cb → Q tt s tx (called_back cb event w) → sw i c (call_back cb event) Q s tx w.
Proof. intros Hp H. eapply wp_run; [by apply plain_run|]. by eexists _, _. Qed.

Lemma sw_fire address kind (Q : unit → osdp_acu_pd_slot → ptr → W → Prop) s tx w :
  plain (ac_sc_event_cb c) → Q tt s tx (fired c address kind w) → sw i c (fire_sc_event address kind) Q s tx w.
Proof. intros Hp H. unfold fire_sc_event. apply sw_get. by apply sw_call_back. Qed.

(** ** The ends of a handshake and of a session *)

Definition reset_slot (s : osdp_acu_pd_slot) : osdp_acu_pd_slot :=
  s <| as_sc_phase := OSDP_ACU_SC_IDLE |> <| as_sc_rnd_a := replicate OSDP_SC_RND_LEN 0%Z |>
    <| as_sc_rnd_b := replicate OSDP_SC_RND_LEN 0%Z |> <| as_sc_cuid := replicate OSDP_SC_CUID_LEN 0%Z |>
    <| as_sc_session := session_zero |>.

Definition failed_slot (s : osdp_acu_pd_slot) : osdp_acu_pd_slot := reset_slot (s <| as_waiting := false |>).

Definition terminated_slot (s : osdp_acu_pd_slot) : osdp_acu_pd_slot :=
  reset_slot (s <| as_waiting := false |> <| as_next_seq := 0%Z |>).

Lemma sw_reset {B} (k : unit → ACU W B) R s tx w :
  swr i c (k tt) R (reset_slot s) tx w → swr i c (reset_sc_handshake i true ≫= k) R s tx w.
Proof.
  intros H. apply sw_bind. unfold reset_sc_handshake. apply sw_with, sw_slot.
  eapply sw_lift; [reflexivity|]. by apply sw_with_end.
Qed.

Lemma sw_failed (Q : unit → osdp_acu_pd_slot → ptr → W → Prop) s tx w :
  plain (ac_sc_event_cb c) → Q tt (failed_slot s) tx (fired c (as_address s) OSDP_ACU_SC_EVENT_HANDSHAKE_FAILED w) →
  sw i c (handshake_failed i) Q s tx w.
Proof. intros Hp H. unfold handshake_failed. by apply sw_with, sw_reset, sw_slot, sw_fire. Qed.

Definition fired_end (s : osdp_acu_pd_slot) (w : W) : W :=
  match termination_event (as_sc_phase s) with Some kind => fired c (as_address s) kind w | None => w end.

Lemma sw_terminate (Q : unit → osdp_acu_pd_slot → ptr → W → Prop) s tx w :
  plain (ac_sc_event_cb c) → Q tt (terminated_slot s) tx (fired_end s w) →
  sw i c (osdp_acu_internal_terminate_sc i) Q s tx w.
Proof.
  unfold fired_end. intros Hp H. unfold osdp_acu_internal_terminate_sc. apply sw_slot. cbv zeta.
  apply sw_with, sw_reset, sw_slot. destruct (termination_event _); [by apply sw_fire|by apply sw_ret].
Qed.

(** ** Transmission *)

Definition pending_slot (sequence cmd_code now : Z) (s : osdp_acu_pd_slot) : osdp_acu_pd_slot :=
  s <| as_waiting := true |> <| as_pending_seq := sequence |> <| as_pending_code := cmd_code |>
    <| as_pending_sent_ms := now |>.

Lemma sw_mark sequence code (Q : unit → osdp_acu_pd_slot → ptr → W → Prop) s tx w :
  Q tt (pending_slot sequence code (now_of c w).1 s) tx (now_of c w).2 →
  sw i c (mark_pending i sequence code) Q s tx w.
Proof. intros H. unfold mark_pending. by apply sw_with, sw_now, sw_with_end. Qed.

Lemma sw_write write bs n (Q : bool → osdp_acu_pd_slot → ptr → W → Prop) s tx w :
  at_write (ac_transport c) = Some write → rd_slice tx 0 n = Some bs →
  (let r := write bs w in Q (bool_decide (r.1 = Z.of_nat n)) s tx r.2) →
  sw i c (write_tx n) Q s tx w.
Proof.
  intros Hw Hr H. cbv zeta in H. unfold write_tx. apply sw_get. unfold id.
  change (ac_transport (at_slot i c s tx)) with (ac_transport c). rewrite Hw.
  eapply sw_lift; [reflexivity|]. eapply sw_lift; [exact Hr|]. apply sw_host, sw_ret.
  replace (negb _) with (bool_decide ((write bs w).1 = Z.of_nat n)); [done|].
  do 2 case_bool_decide; cbn; lia || done.
Qed.

(** A Secure Channel command: sent, or refused with the slot as it was. *)
Lemma sw_send_sc_cmd {B} ty sel code payload n (k : osdp_status → ACU W B) R s tx w :
  is_Some (at_write (ac_transport c)) → region tx OSDP_ACU_BUF_LEN →
  frame_typed (sc_cmd_frame c s ty sel code payload n) →
  (∀ st s' tx' w', region tx' OSDP_ACU_BUF_LEN →
     (st = OSDP_OK ∧ (∃ now, s' = pending_slot (Z.land (as_next_seq s) 0x03) code now s)) ∨
     (st ≠ OSDP_OK ∧ s' = s) → swr i c (k st) R s' tx' w') →
  swr i c (send_sc_cmd i ty sel code payload n ≫= k) R s tx w.
Proof.
  intros [write Hw] Hr Ht H. apply sw_bind. unfold send_sc_cmd. apply sw_get, sw_slot. unfold id. cbv zeta.
  change (sc_cmd_frame (at_slot i c s tx) s ty sel code payload n) with (sc_cmd_frame c s ty sel code payload n).
  destruct tx as [|m]; [done|]. cbn [region] in Hr.
  destruct (osdp_frame_build_total _ m OSDP_ACU_BUF_LEN 0 Ht Hr) as (st & m' & len & E & Hl & Hn).
  eapply sw_lift; [exact E|]. apply sw_set_tx.
  assert (region (Ptr m') OSDP_ACU_BUF_LEN) as Hr' by (cbn [region]; lia).
  case_decide as Hst; [apply sw_ret, H; [done|by right]|]. eapply sw_lift; [reflexivity|].
  destruct (region_read _ _ len Hr' Hn) as (bs & Hbs & _). apply sw_bind. eapply sw_write; [exact Hw|exact Hbs|]. cbv zeta.
  case_bool_decide; cbn [negb]; [|apply sw_ret, H; [done|by right]].
  apply sw_bind, sw_mark, sw_ret, H; [done|]. left. split; [done|]. by eexists.
Qed.

End rules.
