(* ===== verification/AcuInv.v ===== *)
(** * The invariant of the control unit

    [acu_inv] is the well-formedness of an osdp_acu_t: buffers of their size,
    banks of their size, and every PD slot well-formed ([slot_ok]).  A slot's phase
    is OSDP_ACU_SC_ESTABLISHED exactly when its session is live, and a slot outside
    the idle phase has a cipher and a transport that writes.  The callbacks of the host
    may call the ACU, with arguments as the API asks for ([callback_ok]). *)
From S2P Require Import Prelude Types State Frame Stream Commands Records Indicators Dispatch ScCrypto ScFrame.
From S2P Require Import PdTypes PdSc Pd PdInv PdSafe AcuTypes AcuBanks AcuCmd AcuSc Acu AcuSlot.

(** What no handler changes: the host, the byte stream, the number of slots. *)
Class AcuFixed (W : Type) : Type := mk_acu_fixed {
  af_transport : osdp_acu_transport W;
  af_rx : osdp_stream;
  af_count : nat;
  af_cipher : osdp_sc_crypto W;
  af_set : bool }.

Record slot_ok {W} {TC : AcuFixed W} (s : osdp_acu_pd_slot) : Prop := {
  sk_address : (0 ≤ as_address s ≤ 0x7F)%Z;
  sk_next : (0 ≤ as_next_seq s ≤ 3)%Z;
  sk_pending : (0 ≤ as_pending_seq s ≤ 3)%Z;
  sk_selector : is_byte (as_sc_key_selector s);
  sk_scbk : block (as_scbk s);
  sk_scbk_d : block (as_scbk_d s);
  sk_rnd_a : rnd_ok (as_sc_rnd_a s);
  sk_rnd_b : rnd_ok (as_sc_rnd_b s);
  sk_session : session_blocks (as_sc_session s);
  sk_phase : established (as_sc_session s) = true ↔ as_sc_phase s = OSDP_ACU_SC_ESTABLISHED;
  sk_secure : as_sc_phase s ≠ OSDP_ACU_SC_IDLE → af_set = true ∧ is_Some (at_write af_transport) }.

(** What a callback may ask of the ACU: a command with a readable payload; the status it
    gets and the world it goes on from are arbitrary. *)
Fixpoint callback_ok {W} (cb : cb_action W) : Prop :=
  match cb with
  | Cb_return _ => True
  | Cb_send_command _ code payload n _ k => is_byte code ∧ region_ok payload n ∧ ∀ s w, callback_ok (k s w)
  | Cb_start_sc_handshake _ _ _ k => ∀ s w, callback_ok (k s w)
  end.

Definition handler_ok {E W} (cb : option (E → W → cb_action W)) : Prop :=
  ∀ h event w, cb = Some h → callback_ok (h event w).

Record acu_inv {W} {TC : AcuFixed W} (c : osdp_acu W) : Prop := {
  ai_transport : ac_transport c = af_transport;
  ai_read : ∀ read, at_read af_transport = Some read → read_ok read;
  ai_rx : ac_rx c = af_rx;
  ai_stream : stream_inv af_rx;
  ai_count : ac_pd_count c = af_count;
  ai_pds : af_count ≤ length (ac_pds c);
  ai_slots : ∀ i s, i < af_count → ac_pds c !! i = Some s → slot_ok s;
  ai_tx : region (ac_tx_buf c) OSDP_ACU_BUF_LEN;
  ai_integrity : integrity_ok (ac_integrity c);
  ai_crypto : ac_sc_crypto c = af_cipher;
  ai_set : ac_sc_crypto_set c = af_set;
  ai_cipher : af_set = true → cipher_ok af_cipher;
  ai_reply_cb : handler_ok (ac_reply_cb c);
  ai_timeout_cb : handler_ok (ac_timeout_cb c);
  ai_event_cb : handler_ok (ac_sc_event_cb c);
  ai_leds : length (ac_leds c) = OSDP_ACU_MAX_LEDS;
  ai_buzzers : length (ac_buzzers c) = OSDP_ACU_MAX_BUZZERS }.

Abbreviation acu_safe := (triple acu_inv).

(** What is left to do once a slot is at hand, callbacks included. *)
Definition inv_and {W A} {TC : AcuFixed W} (Q : A → Prop) (a : A) (c : osdp_acu W) (_ : W) : Prop := acu_inv c ∧ Q a.

Abbreviation rest_safe i c m Q := (swr i c m (inv_and Q)).

(** ** Slots *)

Section slots.
Context {W : Type} {TC : AcuFixed W}.
Implicit Types (c : osdp_acu W) (s : osdp_acu_pd_slot) (w : W).

Lemma at_slot_self i c s : ac_pds c !! i = Some s → at_slot i c s (ac_tx_buf c) = c.
Proof. intros H. unfold at_slot. destruct c. cbn in *. by rewrite list_insert_id. Qed.

Lemma inv_slot c i s tx :
  i < af_count → slot_ok s → region tx OSDP_ACU_BUF_LEN → acu_inv c → acu_inv (at_slot i c s tx).
Proof.
  intros Hi Hs Ht H. unfold at_slot. inv_with H.
  - by rewrite length_insert.
  - intros j s' Hj. destruct (decide (i = j)) as [<-|Hne].
    + rewrite list_lookup_insert_eq by lia. by intros [= <-].
    + rewrite list_lookup_insert_ne by done. eauto.
Qed.

(** A computation on one slot, its callbacks included. *)
Lemma rest_all {A} i (m : ACU W A) (Q : A → Prop) :
  i < af_count →
  (∀ c s tx w, SlotIn i c → acu_inv c → slot_ok s → region tx OSDP_ACU_BUF_LEN → rest_safe i c m Q s tx w) →
  acu_safe m Q.
Proof.
  intros Hi Hm c w Hc. pose proof (ai_pds c Hc). destruct (lookup_lt_is_Some_2 (ac_pds c) i) as [s Hs]; [lia|].
  assert (SlotIn i c) as Hin by (unfold SlotIn; lia).
  pose proof (Hm c s (ac_tx_buf c) w Hin Hc (ai_slots c Hc i s Hi Hs) (ai_tx c Hc)) as Hr.
  unfold swr in Hr. by rewrite at_slot_self in Hr.
Qed.

(** A computation on one slot that ends well-formed is safe. *)
Lemma sw_safe {A} i (m : ACU W A) (Q : A → Prop) :
  i < af_count →
  (∀ c s tx w, SlotIn i c → acu_inv c → slot_ok s → region tx OSDP_ACU_BUF_LEN →
     sw i c m (λ a s' tx' _, slot_ok s' ∧ region tx' OSDP_ACU_BUF_LEN ∧ Q a) s tx w) →
  acu_safe m Q.
Proof.
  intros Hi Hm. apply (rest_all i _ _ Hi). intros c s tx w Hin Hc Hs Ht.
  eapply wp_weaken; [by apply Hm|]. intros a c' w' (s' & tx' & -> & Hs' & Htx' & HQ). split; [by apply inv_slot|done].
Qed.

Lemma tr_slot {A} i (k : osdp_acu_pd_slot → ACU W A) (Q : A → Prop) :
  i < af_count →
  (∀ c s tx w, SlotIn i c → acu_inv c → slot_ok s → region tx OSDP_ACU_BUF_LEN → rest_safe i c (k s) Q s tx w) →
  acu_safe (slot_at i ≫= k) Q.
Proof. intros Hi Hk. apply (rest_all i _ _ Hi). intros. apply sw_slot; [done|]. by apply Hk. Qed.

(** A step on the slot, then the rest. *)
Lemma rest_step {A B} i c (m : ACU W A) (k : A → ACU W B) P (Q : B → Prop) s tx w :
  sw i c m P s tx w → (∀ a s' tx' w', P a s' tx' w' → rest_safe i c (k a) Q s' tx' w') →
  rest_safe i c (m ≫= k) Q s tx w.
Proof.
  intros Hm Hk. apply wp_bind. eapply wp_weaken; [exact Hm|]. intros a c' w' (s' & tx' & -> & HP). by apply Hk.
Qed.

Lemma rest_triple {A} i c (m : ACU W A) (Q : A → Prop) s tx w :
  i < af_count → acu_inv c → slot_ok s → region tx OSDP_ACU_BUF_LEN → acu_safe m Q → rest_safe i c m Q s tx w.
Proof. intros Hi Hc Hs Ht Hm. by apply Hm, inv_slot. Qed.

Lemma rest_ret {A} i c (a : A) (Q : A → Prop) s tx w :
  i < af_count → acu_inv c → slot_ok s → region tx OSDP_ACU_BUF_LEN → Q a → rest_safe i c (mret a) Q s tx w.
Proof. intros. by apply rest_triple, tr_ret. Qed.

Lemma rest_with i c g s tx w :
  i < af_count → SlotIn i c → acu_inv c → slot_ok (g s) → region tx OSDP_ACU_BUF_LEN →
  rest_safe i c (with_slot i g) (λ _, True) s tx w.
Proof.
  intros Hi Hin Hc Hs Ht. eapply wp_run; [by apply with_slot_run|]. split; [by apply inv_slot|done].
Qed.

(** The search by address. *)
Lemma find_slot_loop_ok pds address i n :
  i + n ≤ length pds →
  ∃ r, find_slot_loop pds address i n = Some r ∧
    ∀ k, r = Some k → i ≤ k < i + n ∧ ∃ s, pds !! k = Some s ∧ as_in_use s = true ∧ as_address s = address.
Proof.
  revert i. induction n as [|n IH]; intros i Hl; cbn [find_slot_loop]; [by exists None|].
  destruct (lookup_lt_is_Some_2 pds i ltac:(lia)) as [s Hs]. rewrite Hs. cbn [mbind option_bind].
  case_decide as Hd.
  - eexists. split; [done|]. intros k [= <-]. split; [lia|]. exists s. tauto.
  - destruct (IH (S i) ltac:(lia)) as (r & E & H). exists r. split; [done|]. intros k Hk.
    destruct (H k Hk) as [? ?]. split; [lia|done].
Qed.

Lemma find_slot_ok c address :
  acu_inv c → ∃ r, find_slot_by_address c address = Some r ∧
    ∀ k, r = Some k → k < af_count ∧ ∃ s, ac_pds c !! k = Some s ∧ slot_ok s ∧ as_address s = address.
Proof.
  intros H. pose proof (ai_pds c H). unfold find_slot_by_address. rewrite (ai_count c H).
  destruct (find_slot_loop_ok (ac_pds c) address 0 af_count) as (r & E & Hr); [lia|].
  exists r. split; [done|]. intros k Hk. destruct (Hr k Hk) as (? & s & Es & _ & Ha). split; [lia|].
  exists s. split_and!; [done|by eapply (ai_slots c H); [|done]; lia|done].
Qed.

(** ** What the handlers leave of a slot *)

Ltac slot_with H := destruct H; constructor; read_set; try assumption.

Lemma zero_blocks : session_blocks session_zero.
Proof. by vm_decide. Qed.

Lemma reset_ok s : slot_ok s → slot_ok (reset_slot s).
Proof. intros H. unfold reset_slot. slot_with H; first [by vm_decide|done]. Qed.

Lemma failed_ok s : slot_ok s → slot_ok (failed_slot s).
Proof. intros H. apply reset_ok. slot_with H. Qed.

Lemma terminated_ok s : slot_ok s → slot_ok (terminated_slot s).
Proof. intros H. apply reset_ok. slot_with H; lia. Qed.

Lemma land3 z : (0 ≤ Z.land z 0x03 ≤ 3)%Z.
Proof. change (Z.land z 0x03) with (Z.land z (Z.ones 2)). rewrite Z.land_ones by done. pose proof (Z.mod_pos_bound z 4 ltac:(lia)). change (2 ^ 2)%Z with 4%Z. lia. Qed.

Lemma pending_ok q code now s : (0 ≤ q ≤ 3)%Z → slot_ok s → slot_ok (pending_slot q code now s).
Proof. intros ? H. unfold pending_slot. slot_with H. Qed.

(** A step from one phase of the handshake to the next. *)
Lemma phase_ok ph s :
  ph ≠ OSDP_ACU_SC_ESTABLISHED → established (as_sc_session s) = false →
  af_set = true → is_Some (at_write af_transport) → slot_ok s → slot_ok (s <| as_sc_phase := ph |>).
Proof. intros Hp He ?? H. slot_with H; [|done]. by rewrite He. Qed.

Lemma next_ok s :
  slot_ok s → (0 ≤ (if decide (3 ≤ as_pending_seq s)%Z then 1 else u8 (as_pending_seq s + 1)) ≤ 3)%Z.
Proof.
  intros H. pose proof (sk_pending s H). case_decide; [lia|]. unfold u8. rewrite Z.mod_small; lia.
Qed.

Lemma sc_cmd_typed c s ty sel code bs n :
  slot_ok s → is_byte ty → is_byte sel → is_byte code → bytes_ok bs → n ≤ length bs →
  frame_typed (sc_cmd_frame (W := W) c s ty sel code (Ptr bs) n).
Proof.
  intros Hs ?????. pose proof (sk_address s Hs). pose proof (land3 (as_next_seq s)).
  constructor; cbn; unfold is_byte in *; first [lia|done|idtac].
  split; [cbn; lia|]. apply Forall_cons_2; [done|constructor].
Qed.

End slots.

Ltac slot_with H := destruct H; constructor; read_set; try assumption.
