(* ===== verification/AcuSafe.v ===== *)
(** * Safety of the control unit

    The reply handlers, the commands, the timeouts and the tick keep [acu_inv];
    the fuel of the tick's loops is enough. *)
From S2P Require Import Prelude Types State Frame Stream Commands Records Indicators Dispatch ScCrypto ScFrame.
From S2P Require Import PdTypes PdBanks PdSc Pd PdInv PdSafe AcuTypes AcuBanks AcuCmd AcuSc Acu AcuSlot AcuInv.

(** A field of a payload. *)
Lemma rd_slice_field p n off k :
  region_ok p n → (0 < n → p ≠ NULL) → off + k ≤ n → 0 < k →
  ∃ bs, rd_slice p off k = Some bs ∧ length bs = k ∧ bytes_ok bs.
Proof.
  destruct p as [|m]; intros Hr Hn Ho Hk; [exfalso; apply Hn; [lia|done]|].
  destruct Hr as [Hl Hb]. cbn [rd_slice]. rewrite mslice_Some by lia. eexists. split; [done|].
  split; [rewrite length_take, length_drop; lia|by apply Forall_take, Forall_drop].
Qed.

Section commands.
Context {W : Type} {TC : AcuFixed W}.
Implicit Types (c : osdp_acu W) (s : osdp_acu_pd_slot) (tx : ptr) (w : W) (frame : osdp_frame).

(** How a handler ends. *)
Definition ends {A} (Q : A → Prop) (a : A) (s : osdp_acu_pd_slot) (tx : ptr) (_ : W) : Prop :=
  slot_ok s ∧ region tx OSDP_ACU_BUF_LEN ∧ Q a.

(** The cipher, for a slot outside the idle phase. *)
Lemma slot_cipher c (Hc : acu_inv c) s :
  slot_ok s → as_sc_phase s ≠ OSDP_ACU_SC_IDLE →
  af_set = true ∧ is_Some (at_write (ac_transport c)) ∧ ∃ E D, Aes af_cipher E D.
Proof.
  intros Hs Hp. destruct (sk_secure s Hs Hp) as [Hset Hw]. rewrite (ai_transport c Hc).
  split_and!; [done..|]. by destruct (ai_cipher c Hc Hset) as [? _].
Qed.

Lemma not_established s : slot_ok s → as_sc_phase s ≠ OSDP_ACU_SC_ESTABLISHED → established (as_sc_session s) = false.
Proof. intros Hs Hp. destruct (established _) eqn:E; [|done]. by apply (sk_phase s Hs) in E. Qed.

(** ** Commands *)

Lemma start_handshake_safe address d : acu_safe (osdp_acu_start_sc_handshake address d : ACU W osdp_status) (λ _, True).
Proof.
  unfold osdp_acu_start_sc_handshake. apply tr_get. intros c0 Hc0. unfold id.
  destruct (find_slot_ok c0 address Hc0) as (r & E & Hr). apply (tr_lift_bind _ _ _ _ E).
  destruct r as [i|]; [|by apply tr_ret]. destruct (Hr i eq_refl) as [Hi _]. clear E Hr.
  apply (sw_safe i _ _ Hi). intros c s tx w Hin Hc Hs Ht.
  assert (∀ st, ends (λ _ : osdp_status, True) st s tx w) as Hend by done.
  apply sw_slot; [done|]. destruct (at_write (ac_transport c0)) as [write|] eqn:Hw; [|by apply sw_ret].
  destruct (osdp_acu_internal_sc_configured _ _ _) eqn:Hconf; cbn [negb]; [|by apply sw_ret].
  destruct (as_waiting s); [by apply sw_ret|]. rewrite (ai_transport c0 Hc0) in Hw.
  unfold osdp_acu_internal_sc_configured in Hconf. rewrite (ai_set c0 Hc0), (ai_crypto c0 Hc0) in Hconf.
  destruct af_set eqn:Hset; cbn [negb] in Hconf; [|done]. destruct (aes128_ecb_encrypt af_cipher); [|done].
  destruct (rand_bytes af_cipher) as [rand|] eqn:Hrand; [|done].
  destruct (ai_cipher c Hc Hset) as [_ Hrb]. specialize (Hrb rand).
  eapply sw_lift; [exact (eq_refl : osdp_sc_session_init (Some (as_sc_session s)) = Some session_zero)|].
  apply sw_with; [done|]. set (s1 := s <| as_sc_session := session_zero |> <| as_sc_phase := OSDP_ACU_SC_IDLE |>).
  assert (slot_ok s1) as Hs1 by (unfold s1; slot_with Hs; first [by vm_decide|done]).
  assert (established (as_sc_session s1) = false) as He1 by done. clearbody s1.
  unfold osdp_acu_internal_send_chlng. apply sw_get. unfold id.
  change (ac_sc_crypto (at_slot i c s1 tx)) with (ac_sc_crypto c). rewrite (ai_crypto c Hc), Hrand.
  eapply sw_lift; [reflexivity|]. apply sw_host. specialize (Hrb w Hrand). cbv zeta in Hrb.
  destruct (rand OSDP_SC_RND_LEN w) as [[st rnd] w1]. cbn [fst snd] in *. destruct Hrb as [Hl Hb].
  apply sw_slot; [done|]. destruct (sk_rnd_a s1 Hs1) as [La Ya].
  eapply sw_lift; [apply mwr_0; lia|]. set (ra := rnd ++ drop (length rnd) (as_sc_rnd_a s1)).
  assert (rnd_ok ra) as Bra.
  { split; [unfold ra; rewrite length_app, length_drop; lia|]. apply Forall_app. split; [done|by apply Forall_drop]. }
  clearbody ra. apply sw_with; [done|].
  assert (slot_ok (s1 <| as_sc_rnd_a := ra |>)) as Hs2 by slot_with Hs1.
  case_decide; [by apply sw_ret|]. cbv zeta. apply sw_with; [done|]. set (sel := (if d then 0 else 1)%Z).
  assert (is_byte sel) as Hsel by (unfold sel; by destruct d; vm_decide). clearbody sel.
  set (s3 := s1 <| as_sc_rnd_a := ra |> <| as_sc_key_selector := sel |>).
  assert (slot_ok s3) as Hs3 by (unfold s3; slot_with Hs2).
  assert (established (as_sc_session s3) = false) as He3 by done. clearbody s3.
  destruct Bra as [Lra Yra].
  apply sw_send_sc_cmd; [done|by rewrite (ai_transport c Hc)|done|by apply sc_cmd_typed; [..|by vm_decide|done|by vm_decide|done|rewrite Lra]|].
  intros st' s' tx' w' Ht' Hcase. case_decide as Hst.
  - destruct Hcase as [(-> & _)|(_ & ->)]; [done|]. by apply sw_ret.
  - destruct Hcase as [(_ & now & ->)|(? & _)]; [|done]. apply sw_with; [done|]. apply sw_ret. split_and!; [|done..].
    apply phase_ok; [done|exact He3|done|by rewrite Hw|]. apply pending_ok; [apply land3|done].
Qed.

(** Wrapping or building a command for a slot in either phase. *)
Lemma build_cmd_safe i c c0 s tx w address code payload n :
  SlotIn i c → acu_inv c → acu_inv c0 → slot_ok s → region tx OSDP_ACU_BUF_LEN →
  (0 ≤ address ≤ 0x7F)%Z → is_byte code → payload_ok payload n →
  sw i c (build_cmd i (cmd_frame c0 s address code payload n)) (ends (λ r, r.2 ≤ OSDP_ACU_BUF_LEN)) s tx w.
Proof.
  intros Hin Hc Hc0 Hs Ht Ha Hcode [Hr Hn]. unfold build_cmd. apply sw_get, sw_slot; [done|]. unfold id.
  change (ac_sc_crypto (at_slot i c s tx)) with (ac_sc_crypto c). rewrite (ai_crypto c Hc).
  change (ac_tx_buf (at_slot i c s tx)) with tx. destruct tx as [|m]; [done|]. cbn [region] in Ht.
  pose proof (land3 (as_next_seq s)) as Hseq.
  assert (frame_typed (cmd_frame c0 s address code payload n)) as Hft.
  { constructor; cbn; unfold is_byte in *; first [lia|done|by case_bool_decide]. }
  case_decide as Hph.
  - destruct (slot_cipher c Hc s Hs ltac:(by rewrite Hph)) as (_ & _ & E & D & A).
    assert (sc_template (cmd_frame c0 s address code payload n)) as Htm.
    { constructor; cbn; rewrite ?(bool_decide_true (as_sc_phase s = OSDP_ACU_SC_ESTABLISHED)) by done;
        first [done|lia|apply Hc0|idtac]. }
    destruct (wrap_total af_cipher E D (as_sc_session s) _ m OSDP_ACU_BUF_LEN 0 (sk_session s Hs) Htm Ht)
      as (st & r & m' & k & Ew & Hsr & He & Hl & Hk).
    eapply sw_lift; [exact Ew|]. eapply sw_lift; [reflexivity|]. apply sw_with; [done|]. apply sw_set_tx.
    eapply sw_lift; [reflexivity|]. apply sw_ret. split_and!; [|cbn [region]; lia|done].
    slot_with Hs. by rewrite He.
  - destruct (osdp_frame_build_total _ m OSDP_ACU_BUF_LEN 0 Hft Ht) as (st & m' & k & Eb & Hl & Hk).
    eapply sw_lift; [exact Eb|]. apply sw_set_tx. eapply sw_lift; [reflexivity|]. apply sw_ret.
    split_and!; [done|cbn [region]; lia|done].
Qed.

(** The indicator banks. *)
Lemma inv_acu_leds leds c : length leds = OSDP_ACU_MAX_LEDS → acu_inv c → acu_inv (c <| ac_leds := leds |>).
Proof. intros ? H. inv_with H. Qed.

Lemma inv_acu_buzzers bs c : length bs = OSDP_ACU_MAX_BUZZERS → acu_inv c → acu_inv (c <| ac_buzzers := bs |>).
Proof. intros ? H. inv_with H. Qed.

Lemma acu_now_safe : acu_safe (now_ms_or_zero : ACU W Z) (λ _, True).
Proof. apply tr_get. intros c _. destruct (at_now_ms _); [by apply tr_host|by apply tr_ret]. Qed.

Lemma acu_led_refresh_safe now : acu_safe (acu_led_refresh now : ACU W unit) (λ _, True).
Proof.
  apply tr_get. intros p _. destruct (ac_led_cb p) as [cb|]; [|by apply tr_ret].
  apply tr_for. intros i Hi. apply tr_get. intros q Hq. pose proof (ai_leds q Hq) as Hl.
  destruct (lookup_lt_is_Some_2 (ac_leds q) i ltac:(lia)) as [s Hs].
  apply (tr_lift_bind _ _ _ _ Hs). destruct (negb _); [by apply tr_ret|]. cbv zeta.
  case_decide; [|by apply tr_ret]. apply tr_modify_bind; [|by apply tr_host_].
  intros. apply inv_acu_leds; [by rewrite length_insert|done].
Qed.

Lemma acu_buz_refresh_safe now : acu_safe (acu_buz_refresh now : ACU W unit) (λ _, True).
Proof.
  apply tr_get. intros p _. destruct (ac_buzzer_cb p) as [cb|]; [|by apply tr_ret].
  apply tr_for. intros i Hi. apply tr_get. intros q Hq. pose proof (ai_buzzers q Hq) as Hl.
  destruct (lookup_lt_is_Some_2 (ac_buzzers q) i ltac:(lia)) as [s Hs].
  apply (tr_lift_bind _ _ _ _ Hs). destruct (negb _); [by apply tr_ret|]. cbv zeta.
  case_decide; [|by apply tr_ret]. apply tr_modify_bind; [|by apply tr_host_].
  intros. apply inv_acu_buzzers; [by rewrite length_insert|done].
Qed.

Lemma acu_led_slot_safe a r l :
  acu_safe (acu_led_slot a r l : ACU W (option nat)) (λ o, ∀ k, o = Some k → k < OSDP_ACU_MAX_LEDS).
Proof.
  apply tr_get. intros p Hp. pose proof (ai_leds p Hp) as Hl.
  destruct (list_find (acu_led_is a r l) (ac_leds p)) as [[k s]|] eqn:E.
  { apply tr_ret. intros ? [= <-]. apply list_find_bound in E. lia. }
  clear E. destruct (list_find _ (ac_leds p)) as [[k s]|] eqn:E'; [|by apply tr_ret].
  eapply tr_lift_bind; [reflexivity|]. apply tr_modify_bind.
  - intros. apply inv_acu_leds; [by rewrite length_insert|done].
  - apply tr_ret. intros ? [= <-]. apply list_find_bound in E'. lia.
Qed.

Lemma acu_buz_slot_safe a r :
  acu_safe (acu_buz_slot a r : ACU W (option nat)) (λ o, ∀ k, o = Some k → k < OSDP_ACU_MAX_BUZZERS).
Proof.
  apply tr_get. intros p Hp. pose proof (ai_buzzers p Hp) as Hl.
  destruct (list_find (acu_buz_is a r) (ac_buzzers p)) as [[k s]|] eqn:E.
  { apply tr_ret. intros ? [= <-]. apply list_find_bound in E. lia. }
  clear E. destruct (list_find _ (ac_buzzers p)) as [[k s]|] eqn:E'; [|by apply tr_ret].
  eapply tr_lift_bind; [reflexivity|]. apply tr_modify_bind.
  - intros. apply inv_acu_buzzers; [by rewrite length_insert|done].
  - apply tr_ret. intros ? [= <-]. apply list_find_bound in E'. lia.
Qed.

Lemma acu_led_fold_safe a recs now j :
  j < length recs → acu_safe (acu_led_fold a recs now j : ACU W unit) (λ _, True).
Proof.
  intros Hj. destruct (lookup_lt_is_Some_2 recs j Hj) as [r Hr]. apply (tr_lift_bind _ _ _ _ Hr).
  eapply tr_bind; [apply acu_led_slot_safe|]. intros [k|] Hk; [|by apply tr_ret].
  apply tr_get. intros c Hc. pose proof (ai_leds c Hc).
  destruct (lookup_lt_is_Some_2 (ac_leds c) k) as [sl Hs]; [specialize (Hk k eq_refl); lia|].
  apply (tr_lift_bind _ _ _ _ Hs). eapply tr_lift_bind; [reflexivity|].
  apply tr_modify; [|done]. intros. apply inv_acu_leds; [by rewrite length_insert|done].
Qed.

Lemma acu_observe_led_safe a code payload n :
  payload_ok payload n → acu_safe (acu_observe_led a code payload n : ACU W unit) (λ _, True).
Proof.
  intros [Hr Hn]. unfold acu_observe_led. case_decide; [by apply tr_ret|].
  assert (∃ (s : osdp_status) recs k, osdp_led_decode payload n (Some (replicate OSDP_ACU_MAX_LEDS led_record_zero))
    OSDP_ACU_MAX_LEDS (Some 0) = Some (s, Some recs, Some k) ∧ (s = OSDP_OK → k ≤ length recs)) as (s & recs & k & E & Hk).
  { destruct payload as [|m].
    { assert (n = 0) as -> by (destruct n; [done|exfalso; apply Hn; [lia|done]]).
      eexists _, _, _. split; [reflexivity|done]. }
    destruct Hr as [Hl Hm].
    destruct led_codec_correct as (_ & _ & Hd & _).
    destruct (Hd m n (replicate OSDP_ACU_MAX_LEDS led_record_zero) OSDP_ACU_MAX_LEDS 0 Hm Hl)
      as (s & recs & k & E & Hcase); [by rewrite length_replicate|].
    exists s, recs, k. split; [done|]. intros ->.
    destruct Hcase as [(_ & rs & -> & -> & _)|[(? & _)|(? & _)]]; [|done..]. rewrite length_app. lia. }
  apply (tr_lift_bind _ _ _ _ E). case_decide as Hs; [by apply tr_ret|].
  do 2 (eapply tr_lift_bind; [reflexivity|]). eapply tr_bind; [apply acu_now_safe|]. intros now _.
  eapply tr_bind; [|intros [] _; apply acu_led_refresh_safe].
  apply tr_for. intros j Hj. apply acu_led_fold_safe.
  assert (s = OSDP_OK) as Hok by (by destruct (decide (s = OSDP_OK))). specialize (Hk Hok). lia.
Qed.

Lemma acu_observe_buzzer_safe a code payload n :
  payload_ok payload n → acu_safe (acu_observe_buzzer a code payload n : ACU W unit) (λ _, True).
Proof.
  intros Hp. unfold acu_observe_buzzer. case_decide; [by apply tr_ret|].
  destruct (decode_safe (T := osdp_buz_cmd) payload n buz_cmd_zero Hp) as (s & v & E & _).
  apply (tr_lift_bind _ _ _ _ E). case_decide; [by apply tr_ret|]. eapply tr_lift_bind; [reflexivity|].
  eapply tr_bind; [apply acu_now_safe|]. intros now _. eapply tr_bind; [apply acu_buz_slot_safe|]. intros o Ho.
  apply (tr_bind _ _ (λ _, True)); [|intros [] _; apply acu_buz_refresh_safe].
  destruct o as [k|]; [|by apply tr_ret]. apply tr_get. intros c Hc. pose proof (ai_buzzers c Hc).
  destruct (lookup_lt_is_Some_2 (ac_buzzers c) k) as [sl Hs]; [specialize (Ho k eq_refl); lia|].
  apply (tr_lift_bind _ _ _ _ Hs). eapply tr_lift_bind; [reflexivity|].
  apply tr_modify; [|done]. intros. apply inv_acu_buzzers; [by rewrite length_insert|done].
Qed.

Lemma send_command_safe address code payload n :
  is_byte code → region_ok payload n →
  acu_safe (osdp_acu_send_command address code payload n : ACU W osdp_status) (λ _, True).
Proof.
  intros Hcode Hr. unfold osdp_acu_send_command. case_decide as Hnull; [by apply tr_ret|].
  assert (payload_ok payload n) as Hp by (split; [done|]; intros ? ->; by apply Hnull).
  apply tr_get. intros c0 Hc0. unfold id. destruct (find_slot_ok c0 address Hc0) as (r & E & Hfind).
  apply (tr_lift_bind _ _ _ _ E). destruct r as [i|]; [|by apply tr_ret].
  destruct (Hfind i eq_refl) as (Hi & s0 & _ & Hs0 & <-). pose proof (sk_address s0 Hs0) as Ha.
  set (address := as_address s0) in *. clearbody address. clear s0 Hs0 E Hfind.
  apply tr_slot; [done|]. intros c s tx w Hin Hc Hs Ht.
  assert (∀ st s' tx' w', slot_ok s' → region tx' OSDP_ACU_BUF_LEN →
    rest_safe i c (mret st) (λ _ : osdp_status, True) s' tx' w') as Hret.
  { intros. by apply rest_triple, tr_ret. }
  destruct (as_waiting s); [by apply Hret|].
  destruct (at_write (ac_transport c0)) as [write|] eqn:Hw; [|by apply Hret].
  eapply rest_step; [by apply build_cmd_safe|]. intros [br written] s1 tx1 w1 (Hs1 & Ht1 & Hlen). cbn [snd] in Hlen.
  case_decide; [by apply Hret|]. destruct (region_read _ _ written Ht1 Hlen) as (bs & Hbs & _).
  eapply (rest_step _ _ _ _ (ends (λ _ : bool, True))).
  { eapply sw_write; [|exact Hbs|done].
    rewrite (ai_transport c Hc), <-(ai_transport c0 Hc0). exact Hw. }
  intros whole s2 tx2 w2 (Hs2 & Ht2 & _). destruct (negb whole); [by apply Hret|].
  eapply (rest_step _ _ _ _ (ends (λ _ : unit, True))).
  { apply sw_mark; [done|]. split_and!; [|done..]. apply pending_ok; [apply land3|done]. }
  intros [] s3 tx3 w3 (Hs3 & Ht3 & _). apply rest_triple; [done..|].
  eapply tr_bind; [by apply acu_observe_led_safe|]. intros [] _.
  eapply tr_bind; [by apply acu_observe_buzzer_safe|]. intros [] _. by apply tr_ret.
Qed.

(** ** Callbacks *)

(** A callback that calls the ACU leaves it well-formed. *)
Lemma run_callback_safe (cb : cb_action W) : callback_ok cb → acu_safe (run_callback cb) (λ _, True).
Proof.
  induction cb as [w|a code p n w k IH|a d w k IH]; intros Hcb c w0 Hc; unfold wp; cbn [run_callback callback_ok] in *.
  - by eexists _, _, _.
  - destruct Hcb as (Hcode & Hr & Hk). destruct (send_command_safe a code p n Hcode Hr c w Hc) as (s & c1 & w1 & E & Hc1 & _).
    rewrite E, bind_Some. by apply IH.
  - destruct (start_handshake_safe a d c w Hc) as (s & c1 & w1 & E & Hc1 & _). rewrite E, bind_Some. by apply IH.
Qed.

Lemma call_back_safe {E} (cb : option (E → W → cb_action W)) event :
  handler_ok cb → acu_safe (call_back cb event) (λ _, True).
Proof.
  intros Hcb. destruct cb as [h|]; [|by apply tr_ret]. intros c w Hc. by apply run_callback_safe; [eapply Hcb|].
Qed.

End commands.

(** ** Handlers of a reply *)

Section handlers.
Context {W : Type} {TC : AcuFixed W} (i : nat) (c : osdp_acu W) {Hi : SlotIn i c} (Hlt : i < af_count) (Hc : acu_inv c).
Implicit Types (s : osdp_acu_pd_slot) (tx : ptr) (w : W) (frame : osdp_frame).

Lemma fire_safe address kind s tx w :
  slot_ok s → region tx OSDP_ACU_BUF_LEN → rest_safe i c (fire_sc_event address kind) (λ _, True) s tx w.
Proof.
  intros Hs Ht. apply rest_triple; [done..|]. apply tr_get. intros q Hq. by apply call_back_safe, ai_event_cb.
Qed.

Lemma failed_safe s tx w :
  slot_ok s → region tx OSDP_ACU_BUF_LEN → rest_safe i c (handshake_failed i) (λ _, True) s tx w.
Proof.
  intros Hs Ht. apply sw_with; [done|]. apply sw_reset; [done|]. apply sw_slot; [done|].
  apply fire_safe; [by apply failed_ok|done].
Qed.

Lemma terminate_safe s tx w :
  slot_ok s → region tx OSDP_ACU_BUF_LEN → rest_safe i c (osdp_acu_internal_terminate_sc i) (λ _, True) s tx w.
Proof.
  intros Hs Ht. apply sw_slot; [done|]. cbv zeta. apply sw_with; [done|]. apply sw_reset; [done|]. apply sw_slot; [done|].
  assert (slot_ok (terminated_slot s)) as Hs' by (by apply terminated_ok).
  destruct (termination_event _); [by apply fire_safe|by apply rest_ret].
Qed.

Lemma deliver_safe frame payload n s tx w :
  slot_ok s → region tx OSDP_ACU_BUF_LEN →
  rest_safe i c (osdp_acu_internal_deliver_reply i frame payload n) (λ _, True) s tx w.
Proof.
  intros Hs Ht. unfold osdp_acu_internal_deliver_reply. apply sw_with; [done|]. apply sw_now, sw_with; [done|].
  apply sw_slot; [done|]. cbv zeta. apply sw_with; [done|]. apply rest_triple; [done..| |done|].
  - pose proof (next_ok s Hs). slot_with Hs.
  - apply tr_get. intros q Hq. by apply call_back_safe, ai_reply_cb.
Qed.

Lemma zeros_long : 16 ≤ length rnd_zero.
Proof. unfold rnd_zero. by rewrite length_replicate. Qed.

(** The cryptogram checks keep the phase. *)
Lemma ccrypt_values_safe got s tx w :
  slot_ok s → as_sc_phase s = OSDP_ACU_SC_AWAITING_CCRYPT →
  sw i c (ccrypt_values i got) (λ o s' tx' _, slot_ok s' ∧ tx' = tx ∧
    as_sc_phase s' = OSDP_ACU_SC_AWAITING_CCRYPT ∧ ∀ l, o = Some l → block l) s tx w.
Proof.
  intros Hs Hph. destruct (slot_cipher c Hc s Hs ltac:(by rewrite Hph)) as (_ & _ & E & D & A).
  assert (∀ s1, slot_ok s1 → as_sc_phase s1 = OSDP_ACU_SC_AWAITING_CCRYPT →
    slot_ok s1 ∧ tx = tx ∧ as_sc_phase s1 = OSDP_ACU_SC_AWAITING_CCRYPT ∧ ∀ l, None = Some l → block l) as Hnone
    by done.
  unfold ccrypt_values. apply sw_get, sw_slot; [done|]. unfold id.
  change (ac_sc_crypto (at_slot i c s tx)) with (ac_sc_crypto c). rewrite (ai_crypto c Hc).
  set (key := if decide _ then as_scbk s else as_scbk_d s).
  assert (block key) as Bk by (unfold key; case_decide; apply Hs).
  pose proof (sk_rnd_a s Hs) as Ba. pose proof (sk_rnd_b s Hs) as Bb.
  eapply sw_lift; [exact (derive_ok af_cipher E D _ _ key _ _ (rd_block _ Bk) (rd_rnd _ Ba) Bk Ba)|].
  destruct (derived_keys_ok af_cipher E D key _ Bk Ba) as (Be & B1 & B2).
  remember (derived_keys E key (as_sc_rnd_a s)) as ks eqn:Hks. clear Hks.
  rewrite decide_False by (by intros []). eapply sw_lift; [reflexivity|].
  eapply sw_lift; [exact (cryptogram_ok af_cipher E D _ _ _ _ _ _ rnd_zero (rd_block _ Be) (rd_rnd _ Ba)
    (rd_rnd _ Bb) Be Ba Bb zeros_long)|]. cbv beta iota.
  pose proof (aes_E_block (c := af_cipher) _ _ Be (rnd_pair_block _ _ Ba Bb)) as [Le _].
  eapply sw_lift; [by apply rd_front|]. case_decide; [by apply sw_ret, Hnone|]. apply sw_with; [done|].
  assert (slot_ok (s <| as_sc_session := with_keys ks (as_sc_session s) |>)) as Hs1.
  { slot_with Hs. destruct sk_session as (_ & ? & ?). by split. }
  eapply sw_lift; [exact (cryptogram_ok af_cipher E D _ _ _ _ _ _ rnd_zero (rd_block _ Be) (rd_rnd _ Bb)
    (rd_rnd _ Ba) Be Bb Ba zeros_long)|]. cbv beta iota.
  pose proof (aes_E_block (c := af_cipher) _ _ Be (rnd_pair_block _ _ Bb Ba)) as Bs.
  rewrite decide_False by (by intros []). eapply sw_lift; [apply rd_front; symmetry; apply Bs|].
  apply sw_ret. split_and!; [done..|]. by intros l [= <-].
Qed.

Lemma send_scrypt_safe server s tx w :
  slot_ok s → as_sc_phase s = OSDP_ACU_SC_AWAITING_CCRYPT → block server → region tx OSDP_ACU_BUF_LEN →
  rest_safe i c (send_scrypt i server) (λ _, True) s tx w.
Proof.
  intros Hs Hph [Ls Ys] Ht. destruct (slot_cipher c Hc s Hs ltac:(by rewrite Hph)) as (Hset & Hw & _).
  unfold send_scrypt. apply sw_with; [done|]. set (s1 := s <| as_next_seq := _ |> <| as_waiting := false |>).
  assert (slot_ok s1) as Hs1 by (pose proof (next_ok s Hs); unfold s1; slot_with Hs).
  assert (as_sc_phase s1 = OSDP_ACU_SC_AWAITING_CCRYPT) as Hp1 by done. clearbody s1.
  apply sw_slot; [done|]. apply sw_send_sc_cmd; [done|done|done| |].
  { apply sc_cmd_typed; [done|by vm_decide|apply Hs1|by vm_decide|done|by rewrite Ls]. }
  intros st s' tx' w' Ht' Hcase.
  assert (slot_ok s' ∧ as_sc_phase s' = OSDP_ACU_SC_AWAITING_CCRYPT) as [Hs' Hp'].
  { destruct Hcase as [(_ & now & ->)|(_ & ->)]; [|done]. split; [|done]. apply pending_ok; [apply land3|done]. }
  case_decide.
  - apply sw_reset; [done|]. apply sw_slot; [done|]. apply fire_safe; [by apply reset_ok|done].
  - rewrite (ai_transport c Hc) in Hw. assert (slot_ok (s' <| as_sc_phase := OSDP_ACU_SC_AWAITING_RMAC_I |>)) as Hs2.
    { apply phase_ok; [done| |done..]. apply not_established; [done|]. by rewrite Hp'. }
    by apply rest_with.
Qed.

Lemma handle_ccrypt_safe frame s tx w :
  slot_ok s → as_sc_phase s = OSDP_ACU_SC_AWAITING_CCRYPT → region tx OSDP_ACU_BUF_LEN → cmd_ok frame →
  rest_safe i c (osdp_acu_internal_handle_ccrypt i frame) (λ _, True) s tx w.
Proof.
  intros Hs Hph Ht Hf. unfold osdp_acu_internal_handle_ccrypt. apply sw_slot; [done|].
  case_decide; [by apply rest_ret|]. case_decide as Hbad; [by apply failed_safe|].
  destruct (scb_byte frame Hf) as (sel & Hsel & _); [tauto|]. eapply sw_lift; [exact Hsel|].
  case_decide; [by apply failed_safe|]. destruct (cmd_payload_ok frame Hf) as [Hr Hn].
  assert (fr_payload_len frame = 32) as Hlen.
  { destruct (decide (fr_payload_len frame = CCRYPT_LEN)); [done|tauto]. }
  rewrite Hlen in Hr, Hn.
  destruct (rd_slice_field _ 32 0 OSDP_SC_CUID_LEN Hr Hn) as (cuid & E1 & L1 & _); [cbv; lia..|].
  destruct (rd_slice_field _ 32 OSDP_SC_CUID_LEN OSDP_SC_RND_LEN Hr Hn) as (rb & E2 & L2 & Y2); [cbv; lia..|].
  destruct (rd_slice_field _ 32 (OSDP_SC_CUID_LEN + OSDP_SC_RND_LEN) OSDP_SC_CRYPTOGRAM_LEN Hr Hn)
    as (got & E3 & _ & _); [cbv; lia..|].
  eapply sw_lift; [exact E1|]. eapply sw_lift; [exact E2|]. eapply sw_lift; [exact E3|]. apply sw_with; [done|].
  eapply rest_step.
  - apply ccrypt_values_safe; [|done]. slot_with Hs. by split.
  - intros [server|] s' tx' w' (Hs' & -> & Hp' & Hl); [|by apply failed_safe].
    by apply send_scrypt_safe; [..|apply Hl|].
Qed.

(** The R-MAC this side expects is a block. *)
Lemma expected_rmac_ok s :
  slot_ok s → as_sc_phase s ≠ OSDP_ACU_SC_IDLE → ∃ r, expected_rmac c s = Some (Some r) ∧ block r.
Proof.
  intros Hs Hph. destruct (slot_cipher c Hc s Hs Hph) as (_ & _ & E & D & A).
  pose proof (sk_rnd_a s Hs) as Ba. pose proof (sk_rnd_b s Hs) as Bb.
  pose proof (sk_session s Hs) as (Hk & _ & _). pose proof Hk as (Be & B1 & B2).
  unfold expected_rmac. rewrite (ai_crypto c Hc). unfold osdp_sc_server_cryptogram.
  rewrite (cryptogram_ok af_cipher E D _ _ _ _ _ _ rnd_zero (rd_block _ Be) (rd_rnd _ Bb)
    (rd_rnd _ Ba) Be Bb Ba zeros_long), bind_Some. cbv beta iota. rewrite decide_False by (by intros []).
  pose proof (aes_E_block (c := af_cipher) _ _ Be (rnd_pair_block _ _ Bb Ba)) as Bs.
  destruct (initial_rmac_ok af_cipher E D (Ptr (s_mac1 (ss_keys (as_sc_session s))))
    (Ptr (s_mac2 (ss_keys (as_sc_session s)))) (Ptr (E (s_enc (ss_keys (as_sc_session s)))
      (as_sc_rnd_b s ++ as_sc_rnd_a s) ++ drop 16 rnd_zero)) _ _ rnd_zero (rd_block _ B1) (rd_block _ B2)
    ltac:(apply rd_front; symmetry; apply Bs) Hk Bs zeros_long) as [-> Br].
  rewrite bind_Some. cbv beta iota. rewrite decide_False by (by intros []).
  rewrite rd_front by (symmetry; apply Br). rewrite bind_Some. eauto.
Qed.

Lemma handle_rmac_i_safe frame s tx w :
  slot_ok s → as_sc_phase s = OSDP_ACU_SC_AWAITING_RMAC_I → region tx OSDP_ACU_BUF_LEN → cmd_ok frame →
  rest_safe i c (osdp_acu_internal_handle_rmac_i i frame) (λ _, True) s tx w.
Proof.
  intros Hs Hph Ht Hf. unfold osdp_acu_internal_handle_rmac_i. apply sw_slot; [done|].
  case_decide; [by apply rest_ret|]. case_decide as Hbad; [by apply failed_safe|].
  destruct (scb_byte frame Hf) as (st & Hst & _); [tauto|]. eapply sw_lift; [exact Hst|].
  case_decide; [by apply failed_safe|]. case_decide as Hlen; [by apply failed_safe|].
  destruct (cmd_payload_ok frame Hf) as [Hr Hn].
  assert (fr_payload_len frame = OSDP_SC_MAC_LEN) as Hl by (by destruct (decide (fr_payload_len frame = OSDP_SC_MAC_LEN))).
  rewrite Hl in Hr, Hn.
  destruct (rd_slice_field _ _ 0 OSDP_SC_MAC_LEN Hr Hn) as (sent & Es & _ & _); [cbv; lia..|].
  apply sw_get. unfold id. destruct (expected_rmac_ok s Hs) as (rmac & Er & Br); [by rewrite Hph|].
  change (expected_rmac (at_slot i c s tx) s) with (expected_rmac c s). eapply sw_lift; [exact Er|].
  eapply sw_lift; [exact Es|]. case_decide; [by apply failed_safe|].
  unfold rmac_accept. apply sw_with; [done|]. apply sw_now, sw_with; [done|]. apply sw_slot; [done|].
  apply fire_safe; [|done]. pose proof (next_ok s Hs).
  destruct (sk_secure s Hs) as [? ?]; [by rewrite Hph|]. pose proof (sk_session s Hs) as (? & _ & _).
  slot_with Hs; [by split_and!|done..].
Qed.

Lemma handle_sc_reply_safe frame s tx w :
  slot_ok s → as_sc_phase s = OSDP_ACU_SC_ESTABLISHED → region tx OSDP_ACU_BUF_LEN → cmd_ok frame →
  rest_safe i c (osdp_acu_internal_handle_sc_reply i frame) (λ _, True) s tx w.
Proof.
  intros Hs Hph Ht [Hft Hfb Hfd]. destruct (slot_cipher c Hc s Hs ltac:(by rewrite Hph)) as (_ & _ & E & D & A).
  unfold osdp_acu_internal_handle_sc_reply. case_decide; [by apply terminate_safe|]. apply sw_slot; [done|].
  case_decide; [by apply rest_ret|]. apply sw_get. unfold id.
  change (ac_sc_crypto (at_slot i c s tx)) with (ac_sc_crypto c). rewrite (ai_crypto c Hc).
  destruct (unwrap_total af_cipher E D (as_sc_session s) frame (replicate OSDP_ACU_BUF_LEN 0%Z) OSDP_ACU_BUF_LEN 0
    (sk_session s Hs) Hft Hfb ltac:(by rewrite length_replicate)) as (st & r & o' & n & Eu & Hr & He & _ & _ & _).
  rewrite <-Hfd in Eu. eapply sw_lift; [exact Eu|]. eapply sw_lift; [reflexivity|]. apply sw_with; [done|].
  assert (slot_ok (s <| as_sc_session := r |>)) as Hs1 by (slot_with Hs; by rewrite He).
  case_decide; [by apply terminate_safe|]. eapply sw_lift; [reflexivity|]. by apply deliver_safe.
Qed.

End handlers.

(** ** Routing of a reply and timeouts *)

Section routing.
Context {W : Type} {TC : AcuFixed W}.
Implicit Types (c : osdp_acu W) (s : osdp_acu_pd_slot) (tx : ptr) (w : W) (frame : osdp_frame).

(** A slot picked by its address. *)
Lemma tr_find {B} address (k : option nat → ACU W B) Q :
  acu_safe (k None) Q → (∀ i, i < af_count → acu_safe (k (Some i)) Q) →
  acu_safe (c ← gets id; slot ← lift (find_slot_by_address c address); k slot) Q.
Proof.
  intros H0 H1. apply tr_get. intros c Hc. unfold id.
  destruct (find_slot_ok c address Hc) as (r & E & Hr). apply (tr_lift_bind _ _ _ _ E).
  destruct r as [i|]; [|exact H0]. apply H1. by destruct (Hr i eq_refl).
Qed.

Lemma process_reply_safe frame : acu_safe (process_reply frame : ACU W unit) (λ _, True).
Proof.
  apply tr_find; [by apply tr_ret|]. intros i Hi. apply tr_slot; [done|]. intros c s tx w Hin Hc Hs Ht.
  case_decide; [by apply terminate_safe|]. case_decide; [by apply terminate_safe|].
  destruct (negb _); [by apply rest_ret|]. case_decide; [by apply rest_ret|by apply deliver_safe].
Qed.

Lemma route_sc_reply_safe frame : cmd_ok frame → acu_safe (route_sc_reply frame : ACU W unit) (λ _, True).
Proof.
  intros Hf. apply tr_find; [by apply tr_ret|]. intros i Hi. apply tr_slot; [done|]. intros c s tx w Hin Hc Hs Ht. cbv zeta.
  case_decide; [case_decide; [by apply handle_ccrypt_safe|by apply rest_ret]|].
  case_decide; [case_decide; [by apply handle_rmac_i_safe|by apply rest_ret]|].
  case_decide; [case_decide; [by apply handle_sc_reply_safe|by apply rest_ret]|by apply rest_ret].
Qed.

Lemma take_frame_safe frame : cmd_ok frame → acu_safe (take_frame frame : ACU W unit) (λ _, True).
Proof.
  intros Hf. unfold take_frame. destruct (negb _); [by apply tr_ret|].
  destruct (fr_has_scb frame); [by apply route_sc_reply_safe|apply process_reply_safe].
Qed.

Lemma reply_timeout_safe now i : i < af_count → acu_safe (check_reply_timeout now i : ACU W unit) (λ _, True).
Proof.
  intros Hi. apply tr_slot; [done|]. intros c s tx w Hin Hc Hs Ht. destruct (negb _); [by apply rest_ret|].
  case_decide; [|by apply rest_ret]. apply sw_with; [done|]. apply sw_with; [done|]. apply rest_triple; [done..|slot_with Hs|done|].
  apply tr_get. intros q Hq. by apply call_back_safe, ai_timeout_cb.
Qed.

Lemma online_window_safe now i : i < af_count → acu_safe (check_online_window now i : ACU W unit) (λ _, True).
Proof.
  intros Hi. apply tr_slot; [done|]. intros c s tx w Hin Hc Hs Ht. destruct (negb _); [by apply rest_ret|].
  case_decide; [|by apply rest_ret]. apply sw_with; [done|].
  assert (slot_ok (s <| as_online := false |>)) as Hs1 by slot_with Hs.
  case_decide; [by apply terminate_safe|by apply rest_ret].
Qed.

Lemma scan_slot_safe now i : i < af_count → acu_safe (scan_slot now i : ACU W unit) (λ _, True).
Proof.
  intros Hi. apply tr_slot; [done|]. intros c s tx w Hin Hc Hs Ht. destruct (negb _); [by apply rest_ret|].
  apply rest_triple; [done..|]. eapply tr_bind; [by apply reply_timeout_safe|]. intros [] _. by apply online_window_safe.
Qed.

Lemma scan_safe : acu_safe (scan_timeouts_and_offline : ACU W unit) (λ _, True).
Proof.
  apply tr_get. intros c Hc. unfold id. destruct (at_now_ms _); [|by apply tr_ret]. apply tr_host_bind. intros w.
  apply tr_for. intros j Hj. apply scan_slot_safe. rewrite (ai_count c Hc) in Hj. lia.
Qed.

End routing.
