(* ===== verification/AcuReach.v ===== *)
(** * Every reachable control unit is well-formed

    The tick of acu.c, and the API of osdp_acu.h as a transition system: setters,
    slot registration, keys, commands, handshakes and ticks as operations on a
    context that [osdp_acu_init] set up.  Every sequence of admissible operations
    runs without undefined behaviour and ends. *)
From S2P Require Import Prelude Types State Frame Stream Commands Records Dispatch ScCrypto ScFrame.
From S2P Require Import PdTypes PdSc Pd PdInv PdSafe PdReach AcuTypes AcuBanks AcuCmd AcuSc Acu AcuSlot AcuInv AcuSafe.

(** ** The tick *)

Section tick.
Context {W : Type}.
Implicit Types (c : osdp_acu W) (w : W).

(** The same unit with another stream. *)
Definition acu_with_rx (TC : AcuFixed W) (rx : osdp_stream) : AcuFixed W :=
  mk_acu_fixed W af_transport rx af_count af_cipher af_set.

Lemma slot_ok_rx (TC : AcuFixed W) rx s : slot_ok s → slot_ok (TC := acu_with_rx TC rx) s.
Proof. intros []. by constructor. Qed.

Lemma inv_acu_rx (TC : AcuFixed W) c rx :
  stream_inv rx → acu_inv c → acu_inv (TC := acu_with_rx TC rx) (c <| ac_rx := rx |>).
Proof.
  intros ? H. destruct H. constructor; read_set; try assumption; [done|].
  intros i s Hi Hs. apply slot_ok_rx. eauto.
Qed.

Lemma acu_drain_safe (TC : AcuFixed W) fuel read drained c w :
  read_ok read → acu_inv c → OSDP_STREAM_BUFFER_LEN - drained < fuel →
  wp (acu_drain_loop fuel read drained) (λ _ c' _, ∃ rx, acu_inv (TC := acu_with_rx TC rx) c') c w.
Proof.
  intros Hread. revert TC drained c w. induction fuel as [|fuel IH]; intros TC drained c w Hc Hf; [lia|].
  assert (acu_inv (TC := acu_with_rx TC (ac_rx c)) c) as Hsame.
  { pose proof (inv_acu_rx TC c (ac_rx c)) as H. rewrite (ai_rx c Hc) in *. destruct TC. apply Hc. }
  cbn [acu_drain_loop]. apply wp_bind, wp_host. specialize (Hread CHUNK w).
  destruct (read CHUNK w) as [[n bytes] w1]. cbn [fst snd] in *. destruct Hread as (Hn & Hl & Hb).
  case_decide; [apply wp_ret; by eexists|].
  assert (mwr (replicate CHUNK 0%Z) 0 bytes = Some (bytes ++ drop (length bytes) (replicate CHUNK 0%Z))) as Em
    by (apply mwr_0; rewrite length_replicate; lia).
  apply wp_bind. eapply wp_lift; [exact Em|]. apply wp_bind, wp_gets.
  assert (stream_inv (ac_rx c)) as Hs by (rewrite (ai_rx c Hc); apply Hc).
  destruct (osdp_stream_feed_ok (ac_rx c) (bytes ++ drop (length bytes) (replicate CHUNK 0%Z)) (Z.to_nat n))
    as (rx & E & Hrx & _); [done| | |lia|].
  { apply Forall_app. split; [done|]. apply Forall_drop, Forall_replicate. by vm_decide. }
  { rewrite length_app, length_drop, length_replicate. lia. }
  apply wp_bind. eapply wp_lift; [exact E|]. apply wp_bind. eapply wp_lift; [reflexivity|].
  apply wp_bind, wp_modify. cbv zeta. pose proof (inv_acu_rx TC c rx Hrx Hc) as Hq.
  case_decide; [apply wp_ret; by exists rx|].
  eapply wp_weaken; [apply (IH (acu_with_rx TC rx)); [exact Hq|lia]|]. intros [] c' w' [rx' H']. by exists rx'.
Qed.

Lemma acu_frame_safe (TC : AcuFixed W) fuel c w :
  acu_inv c → length (unread (ac_rx c)) < fuel →
  wp (acu_frame_loop fuel) (λ _ c' _, ∃ rx, acu_inv (TC := acu_with_rx TC rx) c') c w.
Proof.
  revert TC c w. induction fuel as [|fuel IH]; intros TC c w Hc Hf; [lia|].
  cbn [acu_frame_loop]. apply wp_bind, wp_gets.
  assert (stream_inv (ac_rx c)) as Hs by (rewrite (ai_rx c Hc); apply Hc).
  destruct (osdp_stream_next_ok (ac_rx c) frame_zero Hs) as (st & rx & frame & E & Hrx & Hstep).
  apply wp_bind. eapply wp_lift; [exact E|]. do 2 (apply wp_bind; eapply wp_lift; [reflexivity|]).
  apply wp_bind, wp_modify. pose proof (inv_acu_rx TC c rx Hrx Hc) as Hq.
  destruct (decide (st = OSDP_ERR_TRUNCATED)) as [Htr|Htr]; [apply wp_ret; by exists rx|].
  apply next_step_progress in Hstep as Hprog. destruct Hprog as [_ Hprog]. specialize (Hprog Htr).
  set (body := if decide (st ≠ OSDP_OK) then _ else _).
  assert (triple (acu_inv (TC := acu_with_rx TC rx)) body (λ _, True)) as Hbody.
  { unfold body. clear body. destruct (decide (st ≠ OSDP_OK)) as [Hok|Hok]; [by apply tr_ret|].
    apply (take_frame_safe (TC := acu_with_rx TC rx)). assert (st = OSDP_OK) as -> by (by apply dec_stable).
    rewrite decide_True in Hstep by done. inversion Hstep as [| | |F H1 H2 (Ht & Hb & _ & Hd)]. by constructor. }
  apply wp_bind. eapply wp_weaken; [apply (Hbody _ w Hq)|]. intros [] c1 w1 [Hc1 _].
  assert (ac_rx c1 = rx) as Erx by apply (ai_rx (TC := acu_with_rx TC rx) c1 Hc1).
  eapply wp_weaken; [apply (IH (acu_with_rx TC rx)); [exact Hc1|rewrite Erx; lia]|].
  intros [] c2 w2 [rx2 H2]. by exists rx2.
Qed.

Lemma acu_interchar_safe (TC : AcuFixed W) c w :
  acu_inv c → wp acu_check_interchar_timeout (λ _ c' _, ∃ rx, acu_inv (TC := acu_with_rx TC rx) c') c w.
Proof.
  intros Hc.
  assert (∀ q, acu_inv q → ∃ rx, acu_inv (TC := acu_with_rx TC rx) q) as Hsame.
  { intros q Hq. exists af_rx. by destruct TC. }
  unfold acu_check_interchar_timeout. apply wp_bind, wp_gets. unfold id. case_decide.
  { apply wp_modify, Hsame. inv_with Hc. }
  destruct (at_now_ms (ac_transport c)); [|by apply wp_ret, Hsame]. apply wp_bind, wp_host.
  case_decide; [apply wp_modify, Hsame; inv_with Hc|].
  case_decide; [|by apply wp_ret, Hsame].
  assert (stream_inv (ac_rx c)) as [Hl Hf Hpe Hb] by (rewrite (ai_rx c Hc); apply Hc).
  apply wp_bind. eapply wp_lift; [reflexivity|]. apply wp_modify.
  exists (mk_stream (st_buffer (ac_rx c)) 0 0). pose proof (inv_acu_rx TC c (mk_stream (st_buffer (ac_rx c)) 0 0)
    ltac:(by constructor; simpl; lia || done) Hc) as Hq. unfold id. inv_with Hq.
Qed.

End tick.

(** What [acu_inv] says of a context on its own. *)
Definition acu_fixed_of {W} (c : osdp_acu W) : AcuFixed W :=
  mk_acu_fixed W (ac_transport c) (ac_rx c) (ac_pd_count c) (ac_sc_crypto c) (ac_sc_crypto_set c).

Definition acu_ok {W} (c : osdp_acu W) : Prop := acu_inv (TC := acu_fixed_of c) c.

Lemma acu_ok_of {W} (TC : AcuFixed W) (c : osdp_acu W) : acu_inv c → acu_ok c.
Proof.
  intros Hc. unfold acu_ok. enough (acu_fixed_of c = TC) as -> by done. unfold acu_fixed_of.
  rewrite (ai_transport c Hc), (ai_rx c Hc), (ai_count c Hc), (ai_crypto c Hc), (ai_set c Hc). by destruct TC.
Qed.

Lemma acu_tick_safe {W} (c : osdp_acu W) (w : W) : acu_ok c → wp osdp_acu_tick (λ _ c' _, acu_ok c') c w.
Proof.
  intros Hc. unfold osdp_acu_tick. apply wp_bind, wp_gets.
  destruct (at_read (ac_transport c)) as [read|] eqn:Hr; [|by apply wp_ret].
  pose proof (ai_read (TC := acu_fixed_of c) c Hc read Hr) as Hread.
  apply wp_bind. eapply wp_weaken; [by apply (scan_safe (TC := acu_fixed_of c))|]. intros [] c1 w1 [H1 _].
  apply wp_bind. eapply wp_weaken; [apply (acu_drain_safe (acu_fixed_of c)); [done|exact H1|lia]|].
  intros [] c2 w2 [rx2 H2].
  apply wp_bind. eapply wp_weaken; [apply (acu_frame_safe (acu_with_rx (acu_fixed_of c) rx2)); [exact H2|]|].
  { assert (stream_inv (ac_rx c2)) as Hs.
    { rewrite (ai_rx (TC := acu_with_rx (acu_fixed_of c) rx2) c2 H2).
      apply (ai_stream (TC := acu_with_rx (acu_fixed_of c) rx2) c2 H2). }
    rewrite length_unread by done. destruct Hs. lia. }
  intros [] c3 w3 [rx3 H3].
  apply wp_bind. eapply wp_weaken; [apply (acu_interchar_safe (acu_with_rx (acu_with_rx (acu_fixed_of c) rx2) rx3)); exact H3|].
  intros [] c4 w4 [rx4 H4]. set (TC := acu_with_rx _ rx4) in H4.
  apply wp_bind. eapply wp_weaken; [by apply (acu_now_safe (TC := TC))|]. intros now c5 w5 [H5 _].
  apply wp_bind. eapply wp_weaken; [by apply (acu_led_refresh_safe (TC := TC))|]. intros [] c6 w6 [H6 _].
  eapply wp_weaken; [by apply (acu_buz_refresh_safe (TC := TC))|]. intros [] c7 w7 [H7 _]. by apply (acu_ok_of TC).
Qed.

(** ** Operations *)

Inductive acu_op (W : Type) : Type :=
  | AOpTransport (t : option (osdp_acu_transport W))
  | AOpReplyHandler (cb : option (osdp_acu_reply_cb W))
  | AOpTimeoutHandler (cb : option (osdp_acu_timeout_cb W))
  | AOpScEventHandler (cb : option (osdp_acu_sc_event_cb W))
  | AOpLedHandler (cb : option (osdp_acu_led_cb W))
  | AOpBuzzerHandler (cb : option (osdp_acu_buzzer_cb W))
  | AOpIntegrity (integrity : Z)
  | AOpScCrypto (c : option (osdp_sc_crypto W))
  | AOpRegister (slot : nat) (address : Z)
  | AOpScbk (address : Z) (k : ptr)
  | AOpScbkD (address : Z) (k : ptr)
  | AOpSend (address code : Z) (payload : ptr) (len : nat)
  | AOpHandshake (address : Z) (use_default_key : bool)
  | AOpTick.
Arguments AOpTransport {_}. Arguments AOpReplyHandler {_}. Arguments AOpTimeoutHandler {_}.
Arguments AOpScEventHandler {_}. Arguments AOpLedHandler {_}. Arguments AOpBuzzerHandler {_}.
Arguments AOpIntegrity {_}. Arguments AOpScCrypto {_}. Arguments AOpRegister {_}. Arguments AOpScbk {_}.
Arguments AOpScbkD {_}. Arguments AOpSend {_}. Arguments AOpHandshake {_}. Arguments AOpTick {_}.

(** One operation on the context. *)
Definition acu_run {W} (o : acu_op W) (c : osdp_acu W) (w : W) : option (osdp_acu W * W) :=
  let pure (r : option (osdp_acu W)) := (λ c, (c, w)) <$> r in
  let call {A} (m : ACU W A) := '(_, c, w) ← m c w; Some (c, w) in
  match o with
  | AOpTransport t => pure (osdp_acu_set_transport (Some c) t)
  | AOpReplyHandler cb => pure (osdp_acu_set_reply_handler (Some c) cb)
  | AOpTimeoutHandler cb => pure (osdp_acu_set_timeout_handler (Some c) cb)
  | AOpScEventHandler cb => pure (osdp_acu_set_sc_event_handler (Some c) cb)
  | AOpLedHandler cb => pure (osdp_acu_set_led_handler (Some c) cb)
  | AOpBuzzerHandler cb => pure (osdp_acu_set_buzzer_handler (Some c) cb)
  | AOpIntegrity i => pure (osdp_acu_set_integrity (Some c) i)
  | AOpScCrypto cr => pure (osdp_acu_set_sc_crypto (Some c) cr)
  | AOpRegister i a => call (osdp_acu_register_pd i a)
  | AOpScbk a k => call (osdp_acu_set_pd_scbk a k)
  | AOpScbkD a k => call (osdp_acu_set_pd_scbk_d a k)
  | AOpSend a code p n => call (osdp_acu_send_command a code p n)
  | AOpHandshake a d => call (osdp_acu_start_sc_handshake a d)
  | AOpTick => call osdp_acu_tick
  end.

Fixpoint acu_runs {W} (os : list (acu_op W)) (c : osdp_acu W) (w : W) : option (osdp_acu W * W) :=
  match os with
  | [] => Some (c, w)
  | o :: os => '(c, w) ← acu_run o c w; acu_runs os c w
  end.

(** The transport reads within the request and can write; the callbacks call the API with
    readable payloads. *)
Definition acu_op_ok {W} (o : acu_op W) : Prop :=
  match o with
  | AOpTransport (Some t) => (∀ read, at_read t = Some read → read_ok read) ∧ is_Some (at_write t)
  | AOpReplyHandler cb => handler_ok cb
  | AOpTimeoutHandler cb => handler_ok cb
  | AOpScEventHandler cb => handler_ok cb
  | AOpIntegrity i => integrity_ok i
  | AOpScCrypto (Some cr) => cipher_ok cr
  | AOpRegister _ a => is_byte a
  | AOpScbk _ k | AOpScbkD _ k => buffer_ok k OSDP_SC_KEY_LEN
  | AOpSend _ code p n => is_byte code ∧ region_ok p n
  | _ => True
  end.

Section reach.
Context {W : Type}.
Implicit Types (c : osdp_acu W) (w : W).

Lemma zero_slot_ok {TC : AcuFixed W} a : (0 ≤ a ≤ 0x7F)%Z →
  slot_ok (slot_zero <| as_in_use := true |> <| as_address := a |> <| as_next_seq := 0%Z |>).
Proof. intros Ha. constructor; read_set; first [done|by vm_decide|lia|idtac]. Qed.

Lemma init_acu_ok c0 pds count :
  count ≤ length pds → ∃ c, osdp_acu_init (Some c0) (Some pds) count = Some c ∧ acu_ok (W := W) c.
Proof.
  intros Hl. eexists. split; [unfold osdp_acu_init; cbn; rewrite decide_True by done; reflexivity|].
  unfold acu_ok. constructor; read_set; try done; try (by right).
  - change (stream_inv (mk_stream (replicate OSDP_STREAM_BUFFER_LEN 0%Z) 0 0)).
    constructor; cbn [st_buffer st_fill st_pending_consume]; [by rewrite length_replicate|lia|lia|].
    apply Forall_replicate. by vm_decide.
  - cbn. rewrite length_app, length_replicate, length_drop. lia.
  - cbn. intros i s Hi. rewrite lookup_app_l by (by rewrite length_replicate).
    rewrite lookup_replicate. intros [-> _]. constructor; first [done|by vm_decide|cbn; lia].
  - change (OSDP_ACU_BUF_LEN ≤ length (replicate OSDP_ACU_BUF_LEN 0%Z)). by rewrite length_replicate.
Qed.

(** A new slot content, or a new key. *)
Lemma with_slot_safe {TC : AcuFixed W} {B} i g (k : unit → ACU W B) Q :
  i < af_count → (∀ s, slot_ok s → slot_ok (g s)) → acu_safe (k tt) Q → acu_safe (with_slot i g ≫= k) Q.
Proof.
  intros Hi Hg Hk. apply (tr_bind _ _ (λ _, True)); [|intros [] _; exact Hk].
  apply (sw_safe i _ _ Hi). intros c s tx w Hin Hc Hs Ht. apply sw_with_end; [done|]. split_and!; [by apply Hg|done..].
Qed.

Lemma register_safe {TC : AcuFixed W} i a :
  is_byte a → acu_safe (osdp_acu_register_pd i a : ACU W osdp_status) (λ _, True).
Proof.
  intros [Ha _]. apply tr_get. intros c Hc. unfold id. case_decide as Hi; [by apply tr_ret|].
  case_decide as H; [by apply tr_ret|]. rewrite (ai_count c Hc) in Hi.
  apply with_slot_safe; [lia| |by apply tr_ret]. intros s _. apply zero_slot_ok. unfold OSDP_BROADCAST_ADDR, OSDP_CONFIG_ADDR in H. lia.
Qed.

(** The two key setters. *)
Lemma set_key_safe {TC : AcuFixed W} (m : Z → ptr → ACU W osdp_status) (g : list Z → osdp_acu_pd_slot → osdp_acu_pd_slot) a k :
  (∀ a k, m a k = if is_null k then mret OSDP_ERR_INVALID_ARG else
     (c ← gets id; slot ← lift (find_slot_by_address c a);
      match slot with
      | None => mret OSDP_ERR_INVALID_ARG
      | Some i => key ← lift (rd_slice k 0 OSDP_SC_KEY_LEN); with_slot i (g key);; mret OSDP_OK
      end)) →
  (∀ key s, block key → slot_ok s → slot_ok (g key s)) →
  buffer_ok k OSDP_SC_KEY_LEN → acu_safe (m a k) (λ _, True).
Proof.
  intros -> Hg Hk. destruct (is_null k) eqn:Hn; [by apply tr_ret|].
  apply tr_find; [by apply tr_ret|]. intros i Hi.
  assert (k ≠ NULL) as Hnn by (by destruct k).
  eapply tr_lift_bind; [by apply rd_slice_view|]. apply with_slot_safe; [done| |by apply tr_ret].
  intros s Hs. apply Hg; [|done]. split; [by apply length_view|by apply view_bytes].
Qed.

Lemma acu_call_ok {A} (m : ACU W A) c w :
  triple (acu_inv (TC := acu_fixed_of c)) m (λ _, True) → acu_ok c →
  ∃ c' w', ('(_, c, w) ← m c w; Some (c, w)) = Some (c', w') ∧ acu_ok c'.
Proof.
  intros Hm Hc. destruct (Hm c w Hc) as (a & c' & w' & E & Hc' & _). rewrite E, bind_Some.
  eexists _, _. split; [done|]. by apply (acu_ok_of (acu_fixed_of c)).
Qed.

(** One admissible operation. *)
Lemma acu_run_ok o c w : acu_op_ok o → acu_ok c → ∃ c' w', acu_run o c w = Some (c', w') ∧ acu_ok c'.
Proof.
  intros Ho Hc. destruct o as [t| | | | | |i|cr|i a|a k|a k|a code p n|a d|]; cbn [acu_run].
  2-7: eexists _, _; (split; [reflexivity|]); unfold acu_ok in *; by inv_with Hc.
  - destruct t as [t|]; [|eexists _, _; by split]. eexists _, _. split; [reflexivity|]. destruct Ho as [Hr Hw].
    unfold acu_ok in *. inv_with Hc; [reflexivity|]. intros i s Hi Hs. destruct (ai_slots i s Hi Hs). constructor; try assumption.
    intros Hp. split; [|exact Hw]. by destruct (sk_secure Hp).
  - destruct cr as [cr|]; [|eexists _, _; by split]. eexists _, _. split; [reflexivity|].
    unfold acu_ok in *. inv_with Hc; try reflexivity; [|done]. intros i s Hi Hs. destruct (ai_slots i s Hi Hs). constructor; try assumption.
    intros Hp. split; [reflexivity|]. by destruct (sk_secure Hp).
  - apply acu_call_ok; [by apply (register_safe (TC := acu_fixed_of c))|done].
  - apply acu_call_ok; [|done]. eapply (set_key_safe (TC := acu_fixed_of c) osdp_acu_set_pd_scbk); [reflexivity| |done].
    intros key s Hk Hs. slot_with Hs.
  - apply acu_call_ok; [|done]. eapply (set_key_safe (TC := acu_fixed_of c) osdp_acu_set_pd_scbk_d); [reflexivity| |done].
    intros key s Hk Hs. slot_with Hs.
  - destruct Ho. apply acu_call_ok; [by apply (send_command_safe (TC := acu_fixed_of c))|done].
  - apply acu_call_ok; [by apply (start_handshake_safe (TC := acu_fixed_of c))|done].
  - destruct (acu_tick_safe c w Hc) as ([] & c' & w' & E & Hc'). rewrite E, bind_Some. by eexists _, _.
Qed.

Lemma acu_runs_ok os c w :
  Forall acu_op_ok os → acu_ok c → ∃ c' w', acu_runs os c w = Some (c', w') ∧ acu_ok c'.
Proof.
  intros Hos. revert c w. induction Hos as [|o os Ho _ IH]; intros c w Hc; [by eexists _, _|].
  cbn [acu_runs]. destruct (acu_run_ok o c w Ho Hc) as (c1 & w1 & -> & H1). rewrite bind_Some. by apply IH.
Qed.

End reach.

(** ** Example unit *)

(** An ACU with [count] slots after some operations. *)
Definition acu_device {W} (count : nat) (os : list (acu_op W)) (w : W) : osdp_acu W :=
  match (c ← osdp_acu_init (Some acu_zero) (Some (replicate count slot_zero)) count; acu_runs os c w) with
  | Some (c, _) => c
  | None => acu_zero
  end.

Lemma acu_device_ok {W} count (os : list (acu_op W)) w : Forall acu_op_ok os → acu_ok (acu_device count os w).
Proof.
  intros Hos. destruct (init_acu_ok (W := W) acu_zero (replicate count slot_zero) count) as (c & E & Hc).
  { by rewrite length_replicate. }
  destruct (acu_runs_ok os c w Hos Hc) as (c' & w' & E' & Hc').
  unfold acu_device. by rewrite E, bind_Some, E'.
Qed.

(** A host that delivers [line] on every read and takes every byte. *)
Definition ex_acu_transport (line : list Z) : osdp_acu_transport unit :=
  mk_acu_transport (Some (λ n w, (Z.of_nat (length (take n line)), take n line, w)))
    (Some (λ bs w, (Z.of_nat (length bs), w))) (Some (λ w, (1000%Z, w))).

Lemma ex_acu_transport_ok line : bytes_ok line → acu_op_ok (AOpTransport (Some (ex_acu_transport line))).
Proof.
  intros Hl. split; [|by eexists]. intros read [= <-] n w. cbn. rewrite length_take.
  split_and!; [lia|lia|by apply Forall_take].
Qed.

(** Callbacks that call the ACU: the next command on a reply, a handshake on a lost session. *)
Definition ex_poll_on_reply : osdp_acu_reply_cb unit := λ e w,
  Cb_send_command (re_pd_address e) OSDP_CMD_POLL NULL 0 w (λ _ w, Cb_return w).

Definition ex_restart : osdp_acu_sc_event_cb unit := λ e w,
  match se_kind e with
  | OSDP_ACU_SC_EVENT_ESTABLISHED => Cb_return w
  | _ => Cb_start_sc_handshake (se_pd_address e) false w (λ _ w, Cb_return w)
  end.

Definition ex_acu_ops : list (acu_op unit) :=
  [AOpReplyHandler (Some ex_poll_on_reply); AOpScEventHandler (Some ex_restart); AOpTransport (Some (ex_acu_transport (frame_wire ex_frame))); AOpScCrypto (Some toy_crypto);
   AOpRegister 0 0x25; AOpScbk 0x25 (Ptr OSDP_SCBK_DEFAULT); AOpHandshake 0x25 false; AOpTick;
   AOpSend 0x25 OSDP_CMD_POLL NULL 0; AOpTick].

(** ** Properties *)

(** C2: Memory safety, termination and the session invariant of the ACU.  Whatever
    the bytes on the line and whatever sequence of admissible API calls, handshakes
    and ticks a host makes on a context [osdp_acu_init] set up, with reply, timeout and
    Secure Channel callbacks that themselves send commands and start handshakes, every
    call is defined and ends, and every slot stays well-formed: sequence numbers within 0..3
    and its phase ESTABLISHED exactly when its session is live. *)
Theorem acu_never_undefined {W} (c0 : osdp_acu W) pds count os (w : W) :
  count ≤ length pds → Forall acu_op_ok os →
  ∃ c c' w', osdp_acu_init (Some c0) (Some pds) count = Some c ∧ acu_runs os c w = Some (c', w') ∧ acu_ok c' ∧
    ∀ i s, i < ac_pd_count c' → ac_pds c' !! i = Some s →
      (0 ≤ as_next_seq s ≤ 3)%Z ∧ (0 ≤ as_pending_seq s ≤ 3)%Z ∧
      (established (as_sc_session s) = true ↔ as_sc_phase s = OSDP_ACU_SC_ESTABLISHED).
Proof.
  intros Hl Hos. destruct (init_acu_ok c0 pds count Hl) as (c & E & Hc).
  destruct (acu_runs_ok os c w Hos Hc) as (c' & w' & E' & Hc'). exists c, c', w'. split_and!; [done..|].
  intros i s Hi Hs. destruct (ai_slots (TC := acu_fixed_of c') c' Hc' i s Hi Hs). by split; [|split].
Qed.

(** ** Witnesses *)

Lemma acu_never_undefined_witness :
  ∃ c c' w', osdp_acu_init (Some (acu_zero (W := unit))) (Some [slot_zero; slot_zero]) 2 = Some c ∧
    acu_runs ex_acu_ops c tt = Some (c', w') ∧ acu_ok c' ∧
    ∀ i s, i < ac_pd_count c' → ac_pds c' !! i = Some s →
      (0 ≤ as_next_seq s ≤ 3)%Z ∧ (0 ≤ as_pending_seq s ≤ 3)%Z ∧
      (established (as_sc_session s) = true ↔ as_sc_phase s = OSDP_ACU_SC_ESTABLISHED).
Proof.
  apply (acu_never_undefined acu_zero [slot_zero; slot_zero] 2 ex_acu_ops tt); [by vm_decide|].
  repeat (apply Forall_cons_2); [|..|constructor].
  - intros h e w [= <-]. split_and!; [by vm_decide|done..].
  - intros h [a []] w [= <-]; done.
  - apply ex_acu_transport_ok. by vm_decide.
  - apply toy_cipher_ok.
  - by vm_decide.
  - by vm_decide.
  - done.
  - done.
  - split; [by vm_decide|done].
  - done.
Defined.
