(* ===== verification/AcuSpec.v ===== *)
(** * What the control unit does with time and with replies

    The timeout scan of [osdp_acu_tick] and the treatment of a clear-text frame,
    as functions of a slot: which slots change and how, and which callbacks run, for a
    host whose callbacks do not call the ACU ([plain_host]). *)
From S2P Require Import Prelude Types State Frame Stream Commands Dispatch ScCrypto ScFrame.
From S2P Require Import PdTypes PdSc Pd PdInv AcuTypes AcuBanks AcuCmd AcuSc Acu AcuSlot AcuInv.

(** A host whose callbacks return at once. *)
Record plain_host {W} (c : osdp_acu W) : Prop := {
  ph_reply : plain (ac_reply_cb c);
  ph_timeout : plain (ac_timeout_cb c);
  ph_event : plain (ac_sc_event_cb c) }.

(** ** The specification of the scan *)

(** No reply within the reply timeout; no reply within the online window. *)
Definition overdue (now : Z) (s : osdp_acu_pd_slot) : bool :=
  as_waiting s && bool_decide (OSDP_ACU_REPLY_TIMEOUT_MS < u32 (now - as_pending_sent_ms s))%Z.

Definition silent (now : Z) (s : osdp_acu_pd_slot) : bool :=
  as_online s && bool_decide (OSDP_ACU_OFFLINE_TIMEOUT_MS < u32 (now - as_last_reply_ms s))%Z.

(** The command may be sent again under its own sequence number. *)
Definition timed_out (now : Z) (s : osdp_acu_pd_slot) : osdp_acu_pd_slot :=
  if overdue now s then s <| as_waiting := false |> <| as_next_seq := as_pending_seq s |> else s.

Definition gone_offline (now : Z) (s : osdp_acu_pd_slot) : osdp_acu_pd_slot :=
  if silent now s then
    let s := s <| as_online := false |> in
    if decide (as_sc_phase s ≠ OSDP_ACU_SC_IDLE) then terminated_slot s else s
  else s.

Definition scanned (now : Z) (s : osdp_acu_pd_slot) : osdp_acu_pd_slot :=
  if as_in_use s then gone_offline now (timed_out now s) else s.

Section fx.
Context {W : Type} (c : osdp_acu W) (now : Z).

Definition timeout_fx (w : W) (s : osdp_acu_pd_slot) : W :=
  if overdue now s
  then called_back (ac_timeout_cb c) (mk_timeout_event (as_address s) (as_pending_code s) (as_pending_seq s)) w else w.

Definition offline_fx (w : W) (s : osdp_acu_pd_slot) : W :=
  if silent now s && negb (bool_decide (as_sc_phase s = OSDP_ACU_SC_IDLE)) then fired_end c s w else w.

Definition scan_fx (w : W) (s : osdp_acu_pd_slot) : W :=
  if as_in_use s then offline_fx (timeout_fx w s) (timed_out now s) else w.
End fx.

(** ** The specification of a clear-text reply *)

Definition delivered_slot (now : Z) (s : osdp_acu_pd_slot) : osdp_acu_pd_slot :=
  s <| as_online := true |> <| as_last_reply_ms := now |> <| as_waiting := false |>
    <| as_next_seq := advance_sqn (as_pending_seq s) |>.

Definition reply_fx {W} (c : osdp_acu W) (f : osdp_frame) (s : osdp_acu_pd_slot) (w : W) : W :=
  called_back (ac_reply_cb c)
    (mk_reply_event (fr_address f) (as_pending_code s) (fr_code f) (fr_payload f) (fr_payload_len f)) w.

(** A clear frame in a session ends it, osdp_BUSY under a running sequence number
    apart; otherwise a reply counts only if it answers the command outstanding. *)
Definition ends_session (f : osdp_frame) (s : osdp_acu_pd_slot) : bool :=
  bool_decide (as_sc_phase s = OSDP_ACU_SC_ESTABLISHED) &&
  (bool_decide (fr_sequence f = 0%Z) || negb (bool_decide (fr_code f = OSDP_REPLY_BUSY))).

Definition answers (f : osdp_frame) (s : osdp_acu_pd_slot) : bool :=
  as_waiting s && bool_decide (fr_sequence f = as_pending_seq s).

Definition clear_reply {W} (c : osdp_acu W) (f : osdp_frame) (s : osdp_acu_pd_slot) (w : W) : osdp_acu_pd_slot * W :=
  if ends_session f s then (terminated_slot s, fired_end c s w)
  else if answers f s then (delivered_slot (now_of c w).1 s, reply_fx c f s (now_of c w).2)
  else (s, w).

(** ** Proofs *)

Section spec.
Context {W : Type}.
Implicit Types (c : osdp_acu W) (w : W) (s : osdp_acu_pd_slot).

(** The context with one slot replaced. *)
Definition put_slot (i : nat) (c : osdp_acu W) (s : osdp_acu_pd_slot) : osdp_acu W := c <| ac_pds := <[i := s]> (ac_pds c) |>.

Lemma sw_exact {A} i c (m : ACU W A) a s s' w w' : ac_pds c !! i = Some s →
  (SlotIn i c → sw i c m (λ a1 s1 tx1 w1, a1 = a ∧ s1 = s' ∧ tx1 = ac_tx_buf c ∧ w1 = w') s (ac_tx_buf c) w) →
  m c w = Some (a, put_slot i c s', w').
Proof.
  intros Hs H. assert (SlotIn i c) as Hi by by eapply lookup_lt_Some. specialize (H Hi).
  unfold swr in H. rewrite at_slot_self in H by done.
  destruct H as (a1 & c1 & w1 & E & s1 & tx1 & -> & -> & -> & -> & ->). rewrite E. unfold put_slot, at_slot. by destruct c.
Qed.

Lemma reply_timeout_sw i c now s tx w (k : unit → ACU W unit) R : SlotIn i c → plain_host c →
  swr i c (k tt) R (timed_out now s) tx (timeout_fx c now w s) →
  swr i c (check_reply_timeout now i ≫= k) R s tx w.
Proof.
  intros Hi Hp H. apply sw_bind. unfold check_reply_timeout. apply sw_slot; [done|].
  unfold timed_out, timeout_fx, overdue in H. destruct (as_waiting s); cbn [negb andb] in *; [|by apply sw_ret].
  case_decide as Hd.
  - rewrite bool_decide_eq_true_2 in H by done. do 2 (apply sw_with; [done|]). apply sw_get, sw_call_back; [apply Hp|exact H].
  - rewrite bool_decide_eq_false_2 in H by done. by apply sw_ret.
Qed.

Lemma online_window_sw i c now s tx w (Q : unit → osdp_acu_pd_slot → ptr → W → Prop) : SlotIn i c → plain_host c →
  Q tt (gone_offline now s) tx (offline_fx c now w s) → sw i c (check_online_window now i) Q s tx w.
Proof.
  intros Hi Hpl H. unfold check_online_window. apply sw_slot; [done|].
  unfold gone_offline, offline_fx, silent in H. destruct (as_online s); cbn [negb andb] in *; [|by apply sw_ret].
  destruct (decide (OSDP_ACU_OFFLINE_TIMEOUT_MS < u32 (now - as_last_reply_ms s))%Z) as [Hd|Hd].
  2: { rewrite bool_decide_eq_false_2 in H by done. by apply sw_ret. }
  rewrite bool_decide_eq_true_2 in H by done. apply sw_with; [done|]. cbv zeta in H.
  change (as_sc_phase (s <| as_online := false |>)) with (as_sc_phase s) in H.
  destruct (decide (as_sc_phase s = OSDP_ACU_SC_IDLE)) as [Hp|Hp].
  - rewrite bool_decide_eq_true_2 in H by done. rewrite decide_False in H by auto.
    rewrite decide_False by auto. by apply sw_ret.
  - rewrite bool_decide_eq_false_2 in H by done. rewrite decide_True in H by done.
    rewrite decide_True by done. apply sw_terminate; [done|apply Hpl|done].
Qed.

Lemma scan_slot_run i c now s w : plain_host c → ac_pds c !! i = Some s →
  scan_slot now i c w = Some (tt, put_slot i c (scanned now s), scan_fx c now w s).
Proof.
  intros Hp Hs. apply (sw_exact i c _ _ s); [done|]. intros Hi. unfold scan_slot, scanned, scan_fx. apply sw_slot; [done|].
  destruct (as_in_use s); cbn [negb]; [|by apply sw_ret].
  apply reply_timeout_sw; [done..|]. by apply online_window_sw.
Qed.

Lemma scan_loop_run c now w done_ todo rest : plain_host c → ac_pds c = done_ ++ todo ++ rest →
  for_m (scan_slot now) (length done_) (length todo) c w =
    Some (tt, c <| ac_pds := done_ ++ (scanned now <$> todo) ++ rest |>, foldl (scan_fx c now) w todo).
Proof.
  revert c w done_. induction todo as [|s todo IH]; intros c w done_ Hp Hc; cbn [length for_m].
  { m_run. cbn [fmap list_fmap app] in *. rewrite <-Hc. by destruct c. }
  rewrite (run_bind _ _ _ _ _ _ _ (scan_slot_run (length done_) c now s w Hp
    ltac:(rewrite Hc, lookup_app_r, Nat.sub_diag by lia; done))).
  unfold put_slot. rewrite Hc, insert_app_r_alt, Nat.sub_diag by lia. cbn [list_insert app].
  specialize (IH (c <| ac_pds := done_ ++ scanned now s :: todo ++ rest |>) (scan_fx c now w s) (done_ ++ [scanned now s])
    ltac:(by destruct Hp)).
  rewrite length_app in IH. simpl length in IH. rewrite Nat.add_1_r in IH.
  etrans; [apply IH; by rewrite <-app_assoc|]. rewrite <-app_assoc. done.
Qed.

Lemma deliver_sw i c f s tx w (Q : unit → osdp_acu_pd_slot → ptr → W → Prop) : SlotIn i c → plain_host c →
  Q tt (delivered_slot (now_of c w).1 s) tx (reply_fx c f s (now_of c w).2) →
  sw i c (osdp_acu_internal_deliver_reply i f (fr_payload f) (fr_payload_len f)) Q s tx w.
Proof.
  intros Hi Hp H. unfold osdp_acu_internal_deliver_reply. apply sw_with; [done|]. apply sw_now, sw_with; [done|].
  apply sw_slot; [done|]. cbv zeta. apply sw_with; [done|]. apply sw_get, sw_call_back; [apply Hp|exact H].
Qed.

Lemma process_reply_run c f w : plain_host c →
  process_reply f c w =
    (o ← find_slot_by_address c (fr_address f);
     match o with
     | None => Some (tt, c, w)
     | Some i => s ← ac_pds c !! i; Some (tt, put_slot i c (clear_reply c f s w).1, (clear_reply c f s w).2)
     end).
Proof.
  intros Hpl. unfold process_reply. m_run. unfold id. destruct (find_slot_by_address c (fr_address f)) as [o|] eqn:Ef; [|done].
  rewrite bind_Some, (run_lift _ _ _ _ _ eq_refl). destruct o as [i|]; [|done].
  destruct (ac_pds c !! i) as [s|] eqn:Es.
  2: { unfold slot_at. m_run. unfold mbind, M_bind, lift. by rewrite Es. }
  rewrite bind_Some. apply (sw_exact i c _ _ s); [done|]. intros Hi. apply sw_slot; [done|].
  unfold clear_reply, ends_session, answers.
  destruct (decide (as_sc_phase s = OSDP_ACU_SC_ESTABLISHED)) as [Hp|Hp].
  - rewrite bool_decide_eq_true_2 by done. cbn [andb].
    destruct (decide (fr_sequence f = 0%Z)) as [Hz|Hz].
    { rewrite decide_True, bool_decide_eq_true_2 by done. cbn [orb]. by apply sw_terminate; [|apply Hpl|]. }
    rewrite decide_False, bool_decide_eq_false_2 by tauto. cbn [orb].
    destruct (decide (fr_code f = OSDP_REPLY_BUSY)) as [Hb|Hb].
    2: { rewrite decide_True, bool_decide_eq_false_2 by done. cbn [negb]. by apply sw_terminate; [|apply Hpl|]. }
    rewrite decide_False, bool_decide_eq_true_2 by tauto. cbn [negb].
    destruct (as_waiting s); cbn [negb andb]; [|by apply sw_ret].
    destruct (decide (fr_sequence f = as_pending_seq s)) as [Hq|Hq].
    + rewrite decide_False, bool_decide_eq_true_2 by auto. by apply deliver_sw.
    + rewrite decide_True, bool_decide_eq_false_2 by done. by apply sw_ret.
  - rewrite bool_decide_eq_false_2 by done. rewrite !decide_False by tauto. cbn [andb].
    destruct (as_waiting s); cbn [negb andb]; [|by apply sw_ret].
    destruct (decide (fr_sequence f = as_pending_seq s)) as [Hq|Hq].
    + rewrite decide_False, bool_decide_eq_true_2 by auto. by apply deliver_sw.
    + rewrite decide_True, bool_decide_eq_false_2 by done. by apply sw_ret.
Qed.

(** The scan, whole. *)
Lemma scan_run c w : plain_host c → ac_pd_count c ≤ length (ac_pds c) →
  scan_timeouts_and_offline c w =
    match at_now_ms (ac_transport c) with
    | None => Some (tt, c, w)
    | Some now_ms =>
        Some (tt, c <| ac_pds := (scanned (now_ms w).1 <$> take (ac_pd_count c) (ac_pds c)) ++ drop (ac_pd_count c) (ac_pds c) |>,
              foldl (scan_fx c (now_ms w).1) (now_ms w).2 (take (ac_pd_count c) (ac_pds c)))
    end.
Proof.
  intros Hp Hn. unfold scan_timeouts_and_offline. m_run. unfold id. destruct (at_now_ms (ac_transport c)) as [now_ms|]; [|done].
  rewrite run_host. pose proof (scan_loop_run c (now_ms w).1 (now_ms w).2 [] (take (ac_pd_count c) (ac_pds c))
    (drop (ac_pd_count c) (ac_pds c)) Hp) as H. cbn [app] in H. rewrite take_drop in H. specialize (H eq_refl).
  cbn [length] in H. by rewrite length_take, Nat.min_l in H by done.
Qed.
End spec.

(** ** Properties *)

(** C12: Timeouts of the ACU, exactly.  With a clock, and callbacks that do not call
    the ACU, the scan treats every registered slot once, in order: a command without reply for more than 200 ms is given up, its
    sequence number kept for the next command, and reported; a PD silent for more than
    8 s goes offline, its session or handshake ended and reported.  Nothing else
    changes, and a command given up is not reported again.  Without a clock nothing
    happens. *)
Theorem acu_timeouts_exact {W} (c : osdp_acu W) (w : W) :
  plain_host c → ac_pd_count c ≤ length (ac_pds c) →
  scan_timeouts_and_offline c w =
    match at_now_ms (ac_transport c) with
    | None => Some (tt, c, w)
    | Some now_ms =>
        Some (tt, c <| ac_pds := (scanned (now_ms w).1 <$> take (ac_pd_count c) (ac_pds c)) ++ drop (ac_pd_count c) (ac_pds c) |>,
              foldl (scan_fx c (now_ms w).1) (now_ms w).2 (take (ac_pd_count c) (ac_pds c)))
    end ∧
  (∀ now s, as_in_use s = true → overdue now s = true →
    as_waiting (scanned now s) = false ∧ (as_next_seq (scanned now s) = as_pending_seq s ∨ as_next_seq (scanned now s) = 0%Z) ∧
    ∀ now' w', timeout_fx c now' w' (scanned now s) = w').
Proof.
  intros Hp Hn. split.
  - by apply scan_run.
  - intros now s Hu Ho. unfold scanned. rewrite Hu.
    assert (as_waiting (gone_offline now (timed_out now s)) = false ∧
      (as_next_seq (gone_offline now (timed_out now s)) = as_pending_seq s ∨ as_next_seq (gone_offline now (timed_out now s)) = 0%Z)) as [H1 H2].
    { unfold timed_out. rewrite Ho. unfold gone_offline. destruct (silent now _); [|by split; [|left]]. cbv zeta.
      case_decide; [by split; [|right]|by split; [|left]]. }
    split_and!; [done|done|]. intros now' w'. unfold timeout_fx, overdue. by rewrite H1.
Qed.

(** C13: Clear-text replies, exactly, for callbacks that do not call the ACU.  A frame
    that is no reply or comes from an unknown address changes nothing.  In a session a clear frame ends the session, reported once.
    Otherwise a reply with the sequence number of the command outstanding is handed to the
    application once, with the command it answers, and moves the sequence number on;
    any other is dropped, and so is a second copy. *)
Theorem acu_clear_reply_exact {W} (c : osdp_acu W) (f : osdp_frame) (w : W) i s :
  plain_host c → fr_has_scb f = false → find_slot_by_address c (fr_address f) = Some (Some i) → ac_pds c !! i = Some s →
  take_frame f c w =
    (if fr_reply f then Some (tt, put_slot i c (clear_reply c f s w).1, (clear_reply c f s w).2) else Some (tt, c, w)) ∧
  (∀ f', fr_has_scb f' = false → find_slot_by_address c (fr_address f') = Some None → take_frame f' c w = Some (tt, c, w)) ∧
  (ends_session f s = false → answers f s = true → ∀ f' w', ends_session f' s = false →
    clear_reply c f' (clear_reply c f s w).1 w' = ((clear_reply c f s w).1, w')).
Proof.
  intros Hp Hscb Hf Hs. split_and!.
  - unfold take_frame. rewrite Hscb. destruct (fr_reply f); cbn [negb]; [|done].
    rewrite process_reply_run by done. by rewrite Hf, bind_Some, Hs, bind_Some.
  - intros f' Hscb' Hf'. unfold take_frame. rewrite Hscb'. destruct (fr_reply f'); cbn [negb]; [|done].
    rewrite process_reply_run by done. by rewrite Hf', bind_Some.
  - intros He Ha f' w' He'. unfold clear_reply. rewrite He, Ha. cbn [fst].
    change (ends_session f' (delivered_slot (now_of c w).1 s)) with (ends_session f' s). by rewrite He'.
Qed.

(** ** Witnesses *)

Definition ex_waiting : osdp_acu_pd_slot :=
  slot_zero <| as_in_use := true |> <| as_address := 5%Z |> <| as_next_seq := 2%Z |> <| as_waiting := true |>
    <| as_pending_seq := 2%Z |> <| as_pending_code := OSDP_CMD_POLL |>.

Definition ex_late : osdp_acu (list osdp_acu_timeout_event) :=
  acu_zero <| ac_transport := mk_acu_transport None None (Some (λ w, (201%Z, w))) |>
    <| ac_pds := [ex_waiting] |> <| ac_pd_count := 1 |> <| ac_timeout_cb := Some (reports (λ e w, w ++ [e])) |>.

Lemma ex_late_plain : plain_host ex_late.
Proof. by constructor; [|apply plain_reports|]. Qed.

Lemma acu_timeouts_exact_witness :
  ∃ c', scan_timeouts_and_offline ex_late [] = Some (tt, c', [mk_timeout_event 5 OSDP_CMD_POLL 2]).
Proof. eexists. apply (acu_timeouts_exact ex_late [] ex_late_plain). done. Defined.

Definition ex_ack : osdp_frame := mk_frame 5 true 2 OSDP_INTEGRITY_CRC false 0 0 NULL 0 OSDP_REPLY_ACK NULL 0 NULL 0 NULL 0.

Lemma acu_clear_reply_exact_witness :
  take_frame ex_ack ex_late [] = Some (tt, put_slot 0 ex_late (delivered_slot 201 ex_waiting), []).
Proof. apply (acu_clear_reply_exact ex_late ex_ack [] 0 ex_waiting ex_late_plain); done. Defined.
