(* ===== verification/Link.v ===== *)
(** * A line between a control unit and a peripheral device

    The two sides of the library joined by a line: what one writes the other reads, in
    order.  The host world [link] holds the bytes in flight, a tape of random numbers,
    the ACU's clock, and logs of the ACU's callbacks and of what the PD's application
    executed; the PD has no clock.  Time passes and messages get lost only where a
    theorem says so.  This file shows what one tick of either side does with one message. *)
From S2P Require Import Prelude Types State Pack Frame Stream Commands Records Dispatch ScCrypto ScFrame.
From S2P Require Import PdTypes PdBanks PdDispatch PdSc Pd PdInv PdSafe PdReach PdSpec.
From S2P Require Import AcuTypes AcuBanks AcuCmd AcuSc Acu AcuSlot AcuInv AcuSafe AcuReach AcuSpec.

Record link : Type := mk_link {
  lk_to_pd : list Z;
  lk_to_acu : list Z;
  lk_tape : list (list Z);
  lk_events : list osdp_acu_sc_event;
  lk_replies : list (Z * Z * list Z);
  lk_timeouts : list osdp_acu_timeout_event;
  lk_served : list (Z * list Z);
  lk_clock : Z }.

#[export] Instance link_settable : Settable link := λ r,
  mk_link (lk_to_pd r) (lk_to_acu r) (lk_tape r) (lk_events r) (lk_replies r) (lk_timeouts r) (lk_served r)
    (lk_clock r).

(** Up to [n] bytes off a line. *)
Definition fetch (n : nat) (line : list Z) : list Z := u8 <$> take n line.

Definition pd_port : osdp_pd_transport link :=
  mk_transport
    (Some (λ n w, (Z.of_nat (length (fetch n (lk_to_pd w))), fetch n (lk_to_pd w), w <| lk_to_pd := drop n (lk_to_pd w) |>)))
    (Some (λ bs w, (Z.of_nat (length bs), w <| lk_to_acu := lk_to_acu w ++ bs |>)))
    None.

Definition acu_port : osdp_acu_transport link :=
  mk_acu_transport
    (Some (λ n w, (Z.of_nat (length (fetch n (lk_to_acu w))), fetch n (lk_to_acu w), w <| lk_to_acu := drop n (lk_to_acu w) |>)))
    (Some (λ bs w, (Z.of_nat (length bs), w <| lk_to_pd := lk_to_pd w ++ bs |>)))
    (Some (λ w, (lk_clock w, w))).

(** The random number generator both sides use: the next entry of the tape. *)
Definition draw (n : nat) (w : link) : osdp_status * list Z * link :=
  match lk_tape w with
  | [] => (OSDP_ERR_NOT_SUPPORTED, [], w)
  | r :: t => (OSDP_OK, fetch n r, w <| lk_tape := t |>)
  end.

Definition log_event (e : osdp_acu_sc_event) (w : link) : link := w <| lk_events := lk_events w ++ [e] |>.

Definition log_reply (e : osdp_acu_reply_event) (w : link) : link :=
  w <| lk_replies := lk_replies w ++ [(re_cmd_code e, re_reply_code e, view (re_payload e) (re_payload_len e))] |>.

Definition log_timeout (e : osdp_acu_timeout_event) (w : link) : link := w <| lk_timeouts := lk_timeouts w ++ [e] |>.

(** ** Lines *)

(** A message on the line. *)
Definition message (f : osdp_frame) : list Z := OSDP_FRAME_MARK :: frame_wire f.

Definition sendable (f : osdp_frame) : Prop := frame_typed f ∧ buildable f ∧ S (frame_total f) ≤ CHUNK.

Lemma fetch_bytes n l : bytes_ok (fetch n l).
Proof. apply Forall_fmap, Forall_true. intros z. unfold u8. apply Z.mod_pos_bound. lia. Qed.

Lemma length_fetch n l : length (fetch n l) ≤ n.
Proof. unfold fetch. rewrite length_fmap, length_take. lia. Qed.

Lemma fetch_all n l : bytes_ok l → length l ≤ n → fetch n l = l.
Proof.
  intros Hb Hl. unfold fetch. rewrite take_ge by done. induction Hb as [|z l Hz _ IH]; [done|].
  cbn [fmap list_fmap]. unfold u8. rewrite Z.mod_small by done. f_equal. apply IH. simpl in Hl. lia.
Qed.

Lemma message_facts f :
  sendable f → bytes_ok (message f) ∧ length (message f) = S (frame_total f) ∧ length (message f) ≤ CHUNK.
Proof.
  intros (Ht & Hb & Hl). unfold message. cbn [length]. rewrite length_frame_wire by done.
  split_and!; [|done|done]. apply Forall_cons_2; [by vm_decide|by apply frame_wire_bytes].
Qed.

(** One message through an empty stream. *)
Lemma stream_one_message s f pad o :
  stream_inv s → unread s = [] → sendable f → bytes_ok pad →
  ∃ s1 s2, osdp_stream_feed (Some s) (Ptr (message f ++ pad)) (length (message f)) = Some (OSDP_OK, Some s1) ∧
    osdp_stream_next (Some s1) (Some o) = Some (OSDP_OK, Some s2, Some (decoded_of f)) ∧
    stream_inv s1 ∧ stream_inv s2 ∧ unread s2 = [].
Proof.
  intros Hs Hu Hf Hpad. destruct (message_facts f Hf) as (Hm & Hml & Hmc). pose proof Hf as (Ht & Hb & _).
  destruct (osdp_stream_feed_ok s (message f ++ pad) (length (message f)) Hs) as (s1 & E1 & Hs1 & Hu1);
    [by apply Forall_app|rewrite length_app; lia|lia|].
  rewrite Hu, app_nil_l, take_app_length in Hu1.
  rewrite keep_last_id in Hu1 by (unfold CHUNK, OSDP_STREAM_BUFFER_LEN, OSDP_FRAME_MAX_LEN in *; lia).
  destruct (osdp_stream_next_ok s1 o Hs1) as (st & s2 & o' & E2 & Hs2 & Hstep). rewrite Hu1 in Hstep.
  apply (next_step_noise [OSDP_FRAME_MARK]) in Hstep; [|by apply Forall_cons_2; [by vm_decide|constructor]].
  destruct (next_step_in_wire (frame_wire f) [] f [] st _ _ Ht Hb eq_refl Hstep) as [(Hlt & _)|(-> & Ho & Hr)];
    [rewrite length_frame_wire in Hlt by done; lia|].
  rewrite decide_True in Ho by done. injection Ho as ->. rewrite app_nil_r in Hr.
  exists s1, s2. by split_and!.
Qed.

(** ** One tick of the PD *)

(** A PD on the line, with nothing unread and no COMSET to apply. *)
Record pd_linked (p : osdp_pd link) : Prop := {
  pl_ok : pd_ok p;
  pl_port : pd_transport p = pd_port;
  pl_led : pd_led_cb p = None;
  pl_buzzer : pd_buzzer_cb p = None;
  pl_unread : unread (pd_rx p) = [] }.

Definition pd_read (n : nat) (w : link) : Z * list Z * link :=
  (Z.of_nat (length (fetch n (lk_to_pd w))), fetch n (lk_to_pd w), w <| lk_to_pd := drop n (lk_to_pd w) |>).

Lemma mwr_chunk bs : length bs ≤ CHUNK → ∃ pad, mwr (replicate CHUNK 0%Z) 0 bs = Some (bs ++ pad) ∧ bytes_ok pad.
Proof.
  intros Hl. exists (drop (length bs) (replicate CHUNK 0%Z)).
  split; [by apply mwr_0; rewrite length_replicate|]. apply Forall_drop, Forall_replicate. by vm_decide.
Qed.

(** The drain loop takes the message whole. *)
Lemma pd_drain_one k p w f :
  stream_inv (pd_rx p) → unread (pd_rx p) = [] → sendable f → lk_to_pd w = message f →
  ∃ s1 s2, drain_loop (S (S k)) pd_read 0 p w = Some (tt, p <| pd_rx := s1 |>, w <| lk_to_pd := [] |>) ∧
    osdp_stream_next (Some s1) (Some frame_zero) = Some (OSDP_OK, Some s2, Some (decoded_of f)) ∧
    stream_inv s2 ∧ unread s2 = [].
Proof.
  intros Hs Hu Hf Hline. destruct (message_facts f Hf) as (Hm & Hml & Hmc).
  destruct (mwr_chunk (message f) Hmc) as (pad & Ep & Hpad).
  destruct (stream_one_message (pd_rx p) f pad frame_zero Hs Hu Hf Hpad) as (s1 & s2 & E1 & E2 & Hs1 & Hs2 & Hu2).
  exists s1, s2. split_and!; [|done..]. cbn [drain_loop].
  assert (pd_read CHUNK w = (Z.of_nat (length (message f)), message f, w <| lk_to_pd := [] |>)) as Er1.
  { unfold pd_read. by rewrite Hline, fetch_all, drop_ge by done. }
  assert (pd_read CHUNK (w <| lk_to_pd := [] |>) = (0%Z, [], w <| lk_to_pd := [] |>)) as Er2 by done.
  rewrite run_host, Er1. cbn [fst snd].
  rewrite decide_False by lia. rewrite (run_lift _ _ _ _ _ Ep). m_run.
  rewrite Nat2Z.id, (run_lift _ _ _ _ _ E1). m_run.
  rewrite decide_False by (unfold CHUNK, OSDP_STREAM_BUFFER_LEN, OSDP_FRAME_MAX_LEN in *; lia).
  rewrite run_host, Er2. cbn [fst snd]. by rewrite decide_True by lia.
Qed.

(** The frame loop processes it and finds nothing more. *)
Lemma pd_frame_one k (p : osdp_pd link) w f p2 w2 s2 :
  osdp_stream_next (Some (pd_rx p)) (Some frame_zero) = Some (OSDP_OK, Some s2, Some (decoded_of f)) →
  fr_reply f = false → fr_address f = pd_address p →
  process_frame (decoded_of f) (p <| pd_rx := s2 |>) w = Some (tt, p2, w2) →
  stream_inv (pd_rx p2) → unread (pd_rx p2) = [] →
  ∃ s3, frame_loop (S (S k)) frame_zero p w = Some (tt, p2 <| pd_rx := s3 |>, w2) ∧
    unread s3 = [] ∧ osdp_stream_pending (Some s3) = 0 ∧ stream_inv s3.
Proof.
  intros E2 Hr Ha Hproc Hs2 Hu2.
  destruct (stream_nothing (pd_rx p2) (decoded_of f) Hs2 Hu2) as (s3 & o3 & E3 & Hs3 & Hu3 & Hp3).
  exists s3. split_and!; [|done..]. cbn [frame_loop]. m_run.
  rewrite (run_lift _ _ _ _ _ E2). m_run. rewrite decide_False by done. rewrite decide_False by (by intros []).
  m_run. change (fr_reply (decoded_of f)) with (fr_reply f). rewrite Hr.
  change (fr_address (decoded_of f)) with (fr_address f). rewrite decide_False by tauto.
  rewrite (run_bind _ _ _ _ _ _ _ Hproc). m_run. rewrite (run_lift _ _ _ _ _ E3). m_run.
  by rewrite decide_True by done.
Qed.

(** One tick on one command. *)
Lemma pd_tick_one p w f (R : osdp_pd link → Prop) w2 :
  pd_linked p → sendable f → fr_reply f = false → fr_address f = pd_address p → lk_to_pd w = message f →
  (∀ q n s, R q → R (q <| pd_rx := s |> <| pd_rx_partial_len := n |>)) →
  (∀ s, stream_inv s → unread s = [] → let q := p <| pd_rx := s |> in pd_ok q →
     ∃ p2, process_frame (decoded_of f) q (w <| lk_to_pd := [] |>) = Some (tt, p2, w2) ∧ R p2 ∧
       pd_transport p2 = pd_port ∧ pd_led_cb p2 = None ∧ pd_buzzer_cb p2 = None) →
  ∃ p', osdp_pd_tick p w = Some (tt, p', w2) ∧ pd_linked p' ∧ R p'.
Proof.
  intros [Hok Hport Hled Hbuz Hu] Hf Hr Ha Hline HR Hproc.
  assert (stream_inv (pd_rx p)) as Hs by exact (pi_stream (TC := fixed_of p) p Hok).
  destruct (pd_drain_one 1439 p w f Hs Hu Hf Hline) as (s1 & s2 & Ed & En & Hs2 & Hu2).
  assert (pd_ok (p <| pd_rx := s2 |>)) as Hq by (apply (pd_ok_of (with_rx (fixed_of p) s2)), inv_rx; done).
  destruct (Hproc s2 Hs2 Hu2 Hq) as (p2 & Ep & HR2 & Hport2 & Hled2 & Hbuz2). clear Hproc.
  destruct (process_frame_safe (W := link) (TC := fixed_of (p <| pd_rx := s2 |>)) (decoded_of f)) with
    (s := p <| pd_rx := s2 |>) (w := w <| lk_to_pd := [] |>) as ([] & p2' & w2' & E & Hp2 & _); [|exact Hq|].
  { destruct Hf as (? & ? & _). by apply decoded_cmd_ok. }
  rewrite Ep in E. injection E as <- <-.
  assert (pd_rx p2 = s2) as Hrx by exact (pi_rx (TC := fixed_of (p <| pd_rx := s2 |>)) p2 Hp2).
  destruct (pd_frame_one 1439 (p <| pd_rx := s1 |>) (w <| lk_to_pd := [] |>) f p2 w2 s2)
    as (s3 & Ef & Hu3 & Hp3 & Hs3); [exact En|done|done|exact Ep|by rewrite Hrx|by rewrite Hrx|].
  exists (p2 <| pd_rx := s3 |> <| pd_rx_partial_len := 0 |>). split; [|split; [|by apply HR]].
  - unfold osdp_pd_tick. m_run. rewrite Hport. cbn [tr_read pd_port].
    assert (check_offline_timeout p w = Some (tt, p, w)) as Eoff.
    { unfold check_offline_timeout. m_run. unfold id. rewrite Hport. by destruct (pd_online p). }
    rewrite (run_bind _ _ _ _ _ _ _ Eoff). change (S OSDP_STREAM_BUFFER_LEN) with (S (S 1439)).
    rewrite (run_bind _ _ _ _ _ _ _ Ed), (run_bind _ _ _ _ _ _ _ Ef).
    assert (check_interchar_timeout (p2 <| pd_rx := s3 |>) w2 =
      Some (tt, p2 <| pd_rx := s3 |> <| pd_rx_partial_len := 0 |>, w2)) as Eint.
    { unfold check_interchar_timeout. m_run. unfold id. read_set. rewrite Hp3. by rewrite decide_True by done. }
    rewrite (run_bind _ _ _ _ _ _ _ Eint).
    unfold pd_now_ms. m_run. rewrite Hport2. cbn [tr_now_ms pd_port]. m_run.
    unfold pd_led_refresh, pd_buz_refresh. m_run. rewrite Hled2. m_run. by rewrite Hbuz2.
  - constructor; read_set; [|done..].
    apply (pd_ok_of (with_rx (fixed_of (p <| pd_rx := s2 |>)) s3)).
    pose proof (inv_rx _ p2 s3 Hs3 Hp2) as H. inv_with H.
Qed.

(** ** One tick of the ACU *)

Record acu_linked (c : osdp_acu link) : Prop := {
  al_ok : acu_ok c;
  al_port : ac_transport c = acu_port;
  al_led : ac_led_cb c = None;
  al_buzzer : ac_buzzer_cb c = None;
  al_event : ac_sc_event_cb c = Some (reports log_event);
  al_reply : ac_reply_cb c = Some (reports log_reply);
  al_timeout : ac_timeout_cb c = Some (reports log_timeout);
  al_unread : unread (ac_rx c) = [] }.

Lemma linked_plain c : acu_linked c → plain_host c.
Proof. intros []. by constructor; rewrite ?al_reply0, ?al_timeout0, ?al_event0; apply plain_reports. Qed.

Definition acu_read (n : nat) (w : link) : Z * list Z * link :=
  (Z.of_nat (length (fetch n (lk_to_acu w))), fetch n (lk_to_acu w), w <| lk_to_acu := drop n (lk_to_acu w) |>).

Lemma acu_drain_one k c w f :
  stream_inv (ac_rx c) → unread (ac_rx c) = [] → sendable f → lk_to_acu w = message f →
  ∃ s1 s2, acu_drain_loop (S (S k)) acu_read 0 c w = Some (tt, c <| ac_rx := s1 |>, w <| lk_to_acu := [] |>) ∧
    osdp_stream_next (Some s1) (Some frame_zero) = Some (OSDP_OK, Some s2, Some (decoded_of f)) ∧
    stream_inv s2 ∧ unread s2 = [].
Proof.
  intros Hs Hu Hf Hline. destruct (message_facts f Hf) as (Hm & Hml & Hmc).
  destruct (mwr_chunk (message f) Hmc) as (pad & Ep & Hpad).
  destruct (stream_one_message (ac_rx c) f pad frame_zero Hs Hu Hf Hpad) as (s1 & s2 & E1 & E2 & Hs1 & Hs2 & Hu2).
  exists s1, s2. split_and!; [|done..]. cbn [acu_drain_loop].
  assert (acu_read CHUNK w = (Z.of_nat (length (message f)), message f, w <| lk_to_acu := [] |>)) as Er1.
  { unfold acu_read. by rewrite Hline, fetch_all, drop_ge by done. }
  assert (acu_read CHUNK (w <| lk_to_acu := [] |>) = (0%Z, [], w <| lk_to_acu := [] |>)) as Er2 by done.
  rewrite run_host, Er1. cbn [fst snd].
  rewrite decide_False by lia. rewrite (run_lift _ _ _ _ _ Ep). m_run.
  rewrite Nat2Z.id, (run_lift _ _ _ _ _ E1). m_run.
  rewrite decide_False by (unfold CHUNK, OSDP_STREAM_BUFFER_LEN, OSDP_FRAME_MAX_LEN in *; lia).
  rewrite run_host, Er2. cbn [fst snd]. by rewrite decide_True by lia.
Qed.

Lemma acu_frame_one k (c : osdp_acu link) w f c2 w2 s2 :
  osdp_stream_next (Some (ac_rx c)) (Some frame_zero) = Some (OSDP_OK, Some s2, Some (decoded_of f)) →
  take_frame (decoded_of f) (c <| ac_rx := s2 |>) w = Some (tt, c2, w2) →
  stream_inv (ac_rx c2) → unread (ac_rx c2) = [] →
  ∃ s3, acu_frame_loop (S (S k)) c w = Some (tt, c2 <| ac_rx := s3 |>, w2) ∧
    unread s3 = [] ∧ osdp_stream_pending (Some s3) = 0 ∧ stream_inv s3.
Proof.
  intros E2 Hproc Hs2 Hu2.
  destruct (stream_nothing (ac_rx c2) frame_zero Hs2 Hu2) as (s3 & o3 & E3 & Hs3 & Hu3 & Hp3).
  exists s3. split_and!; [|done..]. cbn [acu_frame_loop]. m_run.
  rewrite (run_lift _ _ _ _ _ E2). m_run. rewrite decide_False by done. rewrite decide_False by (by intros []).
  rewrite (run_bind _ _ _ _ _ _ _ Hproc). m_run. rewrite (run_lift _ _ _ _ _ E3). m_run.
  by rewrite decide_True by done.
Qed.

Lemma now_port (c : osdp_acu link) w : ac_transport c = acu_port → now_ms_or_zero c w = Some (lk_clock w, c, w).
Proof. intros Hp. unfold now_ms_or_zero. m_run. rewrite Hp. cbn [at_now_ms acu_port]. by unfold host. Qed.

(** One tick on one reply. *)
Lemma acu_tick_one c w f (R : osdp_acu link → Prop) w2 :
  acu_linked c → sendable f → lk_to_acu w = message f → scan_timeouts_and_offline c w = Some (tt, c, w) →
  (∀ q n s, R q → R (q <| ac_rx := s |> <| ac_rx_partial_len := n |>)) →
  (∀ s, stream_inv s → unread s = [] → let q := c <| ac_rx := s |> in acu_ok q →
     ∃ c2, take_frame (decoded_of f) q (w <| lk_to_acu := [] |>) = Some (tt, c2, w2) ∧ R c2 ∧
       ac_transport c2 = acu_port ∧ ac_led_cb c2 = None ∧ ac_buzzer_cb c2 = None ∧
       ac_sc_event_cb c2 = Some (reports log_event) ∧ ac_reply_cb c2 = Some (reports log_reply) ∧ ac_timeout_cb c2 = Some (reports log_timeout)) →
  ∃ c', osdp_acu_tick c w = Some (tt, c', w2) ∧ acu_linked c' ∧ R c'.
Proof.
  intros [Hok Hport Hled Hbuz Hev Hrep Htime Hu] Hf Hline Escan HR Hproc.
  assert (stream_inv (ac_rx c)) as Hs by exact (ai_stream (TC := acu_fixed_of c) c Hok).
  destruct (acu_drain_one 1439 c w f Hs Hu Hf Hline) as (s1 & s2 & Ed & En & Hs2 & Hu2).
  assert (acu_ok (c <| ac_rx := s2 |>)) as Hq by (apply (acu_ok_of (acu_with_rx (acu_fixed_of c) s2)), inv_acu_rx; done).
  destruct (Hproc s2 Hs2 Hu2 Hq) as (c2 & Ep & HR2 & Hport2 & Hled2 & Hbuz2 & Hev2 & Hrep2 & Htime2). clear Hproc.
  destruct (take_frame_safe (W := link) (TC := acu_fixed_of (c <| ac_rx := s2 |>)) (decoded_of f)) with
    (s := c <| ac_rx := s2 |>) (w := w <| lk_to_acu := [] |>) as ([] & c2' & w2' & E & Hc2 & _); [|exact Hq|].
  { destruct Hf as (? & ? & _). by apply decoded_cmd_ok. }
  rewrite Ep in E. injection E as <- <-.
  assert (ac_rx c2 = s2) as Hrx by exact (ai_rx (TC := acu_fixed_of (c <| ac_rx := s2 |>)) c2 Hc2).
  destruct (acu_frame_one 1439 (c <| ac_rx := s1 |>) (w <| lk_to_acu := [] |>) f c2 w2 s2)
    as (s3 & Ef & Hu3 & Hp3 & Hs3); [exact En|exact Ep|by rewrite Hrx|by rewrite Hrx|].
  exists (c2 <| ac_rx := s3 |> <| ac_rx_partial_len := 0 |>). split; [|split; [|by apply HR]].
  - unfold osdp_acu_tick. m_run. rewrite Hport. cbn [at_read acu_port].
    rewrite (run_bind _ _ _ _ _ _ _ Escan). change (S OSDP_STREAM_BUFFER_LEN) with (S (S 1439)).
    rewrite (run_bind _ _ _ _ _ _ _ Ed), (run_bind _ _ _ _ _ _ _ Ef).
    assert (acu_check_interchar_timeout (c2 <| ac_rx := s3 |>) w2 =
      Some (tt, c2 <| ac_rx := s3 |> <| ac_rx_partial_len := 0 |>, w2)) as Eint.
    { unfold acu_check_interchar_timeout. m_run. unfold id. read_set. rewrite Hp3. by rewrite decide_True by done. }
    rewrite (run_bind _ _ _ _ _ _ _ Eint).
    erewrite run_bind; [|apply now_port; exact Hport2].
    unfold acu_led_refresh, acu_buz_refresh. m_run. rewrite Hled2. m_run. by rewrite Hbuz2.
  - constructor; read_set; [|done..].
    apply (acu_ok_of (acu_with_rx (acu_fixed_of (c <| ac_rx := s2 |>)) s3)).
    pose proof (inv_acu_rx _ c2 s3 Hs3 Hc2) as H. inv_with H.
Qed.
