(* ===== verification/Steps.v ===== *)
(** * Steps of the two sides on a line

    What one tick does with one command or one reply, in terms of the PD's command
    handler and of the ACU's slot: the PD answers a command it has not seen
    ([pd_answer_one]), the ACU takes a reply with the handler of one slot
    ([acu_take_step]). *)
From S2P Require Import Prelude Types State Pack Frame Stream Commands Records Dispatch ScCrypto ScFrame.
From S2P Require Import PdTypes PdPdcap PdBanks PdDispatch PdSc Pd PdInv PdSafe PdReach PdSpec.
From S2P Require Import AcuTypes AcuBanks AcuCmd AcuSc Acu AcuSlot AcuInv AcuSafe AcuReach AcuSpec Link.

(** ** The PD answers *)

Lemma send_bytes_port p w bs :
  pd_transport p = pd_port → 0 < length bs →
  send_bytes (Ptr bs) (length bs) p w =
    Some (tt, p <| pd_online := true |>, w <| lk_to_acu := lk_to_acu w ++ bs |>).
Proof.
  intros Hp Hl. unfold send_bytes. m_run. rewrite Hp. cbn [tr_write pd_port]. rewrite decide_False by lia.
  assert (∀ wr, wr bs w = (Z.of_nat (length bs), w <| lk_to_acu := lk_to_acu w ++ bs |>) →
    send_loop (S (length bs)) wr (Ptr bs) (length bs) 0 p w =
      Some (length bs, p, w <| lk_to_acu := lk_to_acu w ++ bs |>)) as Hloop.
  { intros wr Hw. cbn [send_loop]. rewrite decide_True by done. rewrite Nat.sub_0_r.
    rewrite (run_lift _ bs) by (by apply rd_all). rewrite run_host, Hw. cbn [fst snd]. rewrite decide_False by lia.
    rewrite Nat2Z.id. destruct (length bs) eqn:E; [lia|]. cbn [send_loop]. by rewrite decide_False by lia. }
  rewrite (run_bind _ _ _ _ _ _ _ (Hloop _ eq_refl)). rewrite decide_False by lia. by m_run.
Qed.

(** What no command and no tick changes on the PD of a line: its address, host and
    regions, and that nothing else waits to be answered or applied. *)
Record kept (p q : osdp_pd link) : Prop := {
  kp_address : pd_address q = pd_address p;
  kp_transport : pd_transport q = pd_transport p;
  kp_led : pd_led_cb q = pd_led_cb p;
  kp_buzzer : pd_buzzer_cb q = pd_buzzer_cb p;
  kp_cmd : pd_cmd_cb q = pd_cmd_cb p;
  kp_status : pd_status q = pd_status p;
  kp_tx_cap : pd_tx_cap q = pd_tx_cap p;
  kp_plain_cap : pd_rx_plain_cap q = pd_rx_plain_cap p;
  kp_rpl_cap : pd_rpl_cache_cap q = pd_rpl_cache_cap p;
  kp_cmd_cap : pd_cmd_cache_cap q = pd_cmd_cache_cap p;
  kp_events : pd_event_len q = pd_event_len p;
  kp_pending : pd_comset_pending q = pd_comset_pending p }.

Lemma kept_trans p q r : kept p q → kept q r → kept p r.
Proof. intros [] []. constructor; congruence. Qed.

(** No command with sequence number [n] is taken for a retransmission. *)
Definition unseen (p : osdp_pd link) (n : Z) : Prop :=
  ∀ g, frame_typed g → buildable g → fr_sequence g = n → is_retransmit p (decoded_of g) = Some false.

Lemma unseen_zero p : unseen p 0.
Proof. intros g _ _ Hn. unfold is_retransmit. rewrite decide_True; [done|by left]. Qed.

Lemma unseen_ext p q n :
  pd_have_last q = pd_have_last p → pd_last_cmd_len q = pd_last_cmd_len p → pd_cmd_cache q = pd_cmd_cache p →
  unseen p n → unseen q n.
Proof. intros H1 H2 H3 Hp g Ht Hb Hn. rewrite <-(Hp g Ht Hb Hn). by apply is_retransmit_ext. Qed.

Lemma frame_wire_sequence f g :
  frame_typed f → buildable f → frame_typed g → buildable g → frame_wire f = frame_wire g → fr_sequence f = fr_sequence g.
Proof.
  intros Hf Hbf Hg Hbg Hw. pose proof (osdp_frame_decode_wire_prefix f [] frame_zero Hf Hbf) as Ef.
  rewrite Hw, (osdp_frame_decode_wire_prefix g [] frame_zero Hg Hbg) in Ef. injection Ef. congruence.
Qed.

(** The sequence number of the last command tells it from the others. *)
Lemma unseen_cached q q' f n k :
  cached q q' (decoded_of f) n → frame_typed f → buildable f → k ≠ fr_sequence f → unseen q' k.
Proof.
  intros [_ _ _ _ _ Hcl Hcb] Hf Hbf Hk g Hg Hbg Hn. unfold is_retransmit. revert Hcl Hcb.
  destruct (decide (fr_sequence _ = 0%Z ∨ _)); [done|]. destruct (decide (pd_last_cmd_len q' = 0 ∨ _)) as [|Hz]; [done|].
  destruct (decide (fr_raw_len (decoded_of g) ≠ _)) as [|Hlen]; [done|]. intros Hcl Hcb. change (fr_raw_len (decoded_of f)) with (length (frame_wire f)) in *.
  change (fr_raw_len (decoded_of g)) with (length (frame_wire g)) in *.
  change (fr_raw (decoded_of f)) with (Ptr (frame_wire f)) in *. change (fr_raw (decoded_of g)) with (Ptr (frame_wire g)) in *.
  assert (length (frame_wire g) = pd_last_cmd_len q') as Hl by (destruct (decide (length (frame_wire g) = pd_last_cmd_len q')); [done|lia]).
  assert (0 < pd_last_cmd_len q') as Hpos by (destruct (pd_last_cmd_len q'); [exfalso; apply Hz; by left|lia]).
  assert (length (frame_wire f) = length (frame_wire g)) as Hlfg by (rewrite Hl, Hcl in *; case_decide; lia).
  rewrite <-Hlfg, (Hcb Hpos), !rd_all by done. cbn [mbind option_bind]. f_equal. apply bool_decide_false.
  intros Hw. apply Hk. rewrite <-Hn. symmetry. by apply frame_wire_sequence.
Qed.

(** A PD that will answer [f], sent again, with [bs] once more. *)
Record replayable (p : osdp_pd link) (f : osdp_frame) (bs : list Z) : Prop := {
  rb_again : is_retransmit p (decoded_of f) = Some true;
  rb_len : pd_last_reply_len p = length bs;
  rb_bytes : rd_slice (pd_rpl_cache p) 0 (length bs) = Some bs;
  rb_some : 0 < length bs }.

(** What an answered command leaves in the caches, when both fit them. *)
Lemma cached_replays q q' f bs :
  cached q q' (decoded_of f) (length bs) → frame_typed f → buildable f → fr_sequence f ≠ 0%Z →
  rd_slice (pd_tx q) 0 (length bs) = Some bs → 0 < length bs ≤ pd_rpl_cache_cap q →
  length (frame_wire f) ≤ pd_cmd_cache_cap q → replayable q' f bs.
Proof.
  intros [(rc & lr & cc & lc & Hq') _ _ Hrl Hrb Hcl Hcb] Ht Hb Hseq Htx Hn Hcmd.
  change (fr_raw_len (decoded_of f)) with (length (frame_wire f)) in *.
  change (fr_raw (decoded_of f)) with (Ptr (frame_wire f)) in *.
  rewrite decide_True in Hrl by done. rewrite decide_True in Hcl by done. pose proof (length_frame_wire f Ht Hb) as Hl.
  assert (0 < length (frame_wire f)) as Hpos by (rewrite Hl; unfold frame_total, OSDP_FRAME_HEADER_LEN; lia).
  constructor; [|done|by rewrite Hrb by lia|lia].
  unfold is_retransmit. change (fr_raw_len (decoded_of f)) with (length (frame_wire f)).
  change (fr_raw (decoded_of f)) with (Ptr (frame_wire f)).
  rewrite decide_False by (rewrite Hq'; cbn; intros [?|?]; done). rewrite decide_False by (intros [?|?]; [lia|done]).
  rewrite decide_False by auto. rewrite Hcb by lia. rewrite rd_all by done. cbn [mbind option_bind].
  by rewrite bool_decide_eq_true_2.
Qed.

Lemma replayable_ext p q f bs :
  pd_have_last q = pd_have_last p → pd_last_cmd_len q = pd_last_cmd_len p → pd_cmd_cache q = pd_cmd_cache p →
  pd_last_reply_len q = pd_last_reply_len p → pd_rpl_cache q = pd_rpl_cache p →
  replayable p f bs → replayable q f bs.
Proof.
  intros H1 H2 H3 H4 H5 [Ha Hl Hb Hs]. constructor; [|by rewrite H4|by rewrite H5|done].
  rewrite <-Ha. by apply is_retransmit_ext.
Qed.

(** A PD after an answered command with sequence number [n]. *)
Record answered (p p' : osdp_pd link) (sc : osdp_pd_sc link) (n : Z) : Prop := {
  an_kept : kept p p';
  an_sc : pd_sc p' = sc;
  an_unseen : ∀ k, k ≠ n → unseen p' k }.

(** One tick on a command the handler answers with [R]. *)
Lemma pd_answer_one p w f R sc w1 :
  pd_linked p → sendable f → fr_reply f = false → fr_address f = pd_address p → lk_to_pd w = message f →
  lk_to_acu w1 = [] → pd_comset_pending p = false → unseen p (fr_sequence f) →
  (∀ q, kept p q → pd_sc q = pd_sc p → pd_ok q → pd_reply_cacheable q = true → ∃ q1,
     handle_command_into_tx (decoded_of f) q (w <| lk_to_pd := [] |>) = Some (S (frame_total R), q1, w1) ∧
     rd_slice (pd_tx q1) 0 (S (frame_total R)) = Some (message R) ∧ kept q q1 ∧ pd_reply_cacheable q1 = true ∧
     pd_sc q1 = sc) →
  ∃ p', osdp_pd_tick p w = Some (tt, p', w1 <| lk_to_acu := message R |>) ∧ pd_linked p' ∧
    answered p p' sc (fr_sequence f) ∧
    (fr_sequence f ≠ 0%Z → CHUNK ≤ pd_rpl_cache_cap p → CHUNK ≤ pd_cmd_cache_cap p → frame_total R < CHUNK →
     replayable p' f (message R)).
Proof.
  intros Hp Hf Hr Ha Hline Hout1 Hpend Hnew Hrun.
  destruct (pd_tick_one p w f (λ p', answered p p' sc (fr_sequence f) ∧
    (fr_sequence f ≠ 0%Z → CHUNK ≤ pd_rpl_cache_cap p → CHUNK ≤ pd_cmd_cache_cap p → frame_total R < CHUNK →
     replayable p' f (message R))) (w1 <| lk_to_acu := message R |>)) as (p' & E & Hp' & Han & Hre);
    [done..| | |by exists p'].
  { intros q n s [[[] Hsc Hun] Hre]. split.
    - constructor; [by constructor|done|]. intros k Hk. by apply (unseen_ext q), Hun.
    - intros. by apply (replayable_ext q), Hre. }
  intros s Hs Hu q Hq. pose proof Hp as [_ Hport Hled Hbuz _]. pose proof Hf as (Hft & Hfb & _).
  pose proof (decoded_cmd_ok f Hft Hfb) as Hcmd.
  assert (is_retransmit q (decoded_of f) = Some false) as Hfirst.
  { rewrite <-(Hnew f Hft Hfb eq_refl). by apply is_retransmit_ext. }
  destruct (Hrun (q <| pd_reply_cacheable := true |>)) as (q1 & Eh & Htx & Hkept & Hcache & Hsc);
    [by constructor|done|unfold pd_ok in Hq |- *; inv_with Hq|done|].
  assert (kept p q1) as Hk1 by (eapply kept_trans; [|exact Hkept]; by constructor).
  destruct (process_fresh q (decoded_of f) _ _ _ _ Hq Hcmd Hfirst Eh Hcache) as (bs & q' & p2 & w2 & Hbs & Hlen & Hc & Es & Ep);
    [by rewrite (kp_pending _ _ Hk1)|].
  rewrite Htx in Hbs. injection Hbs as <-.
  pose proof Hc as [(rc & lr & cc & lc & Hq') _ _ _ _ _ _].
  assert (pd_transport q' = pd_port) as Hport' by (rewrite Hq'; exact (eq_trans (kp_transport _ _ Hk1) Hport)).
  rewrite <-Hlen, (send_bytes_port q' w1 _ Hport'), Hout1, app_nil_l in Es by lia.
  injection Es as <- <-. exists (q' <| pd_online := true |>). split; [exact Ep|]. destruct Hk1.
  split; [|rewrite Hq'; split_and!; cbn; congruence]. split.
  - constructor; [rewrite Hq'; by constructor|by rewrite Hq'|]. intros k Hk.
    apply (unseen_ext q'); [done..|]. by apply (unseen_cached q1 q' f (S (frame_total R)) k).
  - intros Hseq Hrc Hcc HR. apply (replayable_ext q'); [done..|]. rewrite <-Hlen in Htx, Hc.
    destruct (message_facts f Hf) as (_ & Hml & Hmc). unfold message in Hml, Hmc. cbn [length] in Hml, Hmc.
    by apply (cached_replays q1 q'); [done..|lia|lia].
Qed.

(** ** The control unit's steps *)

(** Slot [i] of the unit holds [s] and is the one its address finds; the other slots are
    at rest. *)
Record acu_has (c : osdp_acu link) (i : nat) (s : osdp_acu_pd_slot) : Prop := {
  ah_find : find_slot_by_address c (as_address s) = Some (Some i);
  ah_slot : ac_pds c !! i = Some s;
  ah_alone : ∀ j s', j ≠ i → ac_pds c !! j = Some s' → as_waiting s' = false ∧ as_online s' = false }.

(** Nothing of the slot is due at [now]. *)
Definition quiet (now : Z) (s : osdp_acu_pd_slot) : Prop := overdue now s = false ∧ silent now s = false.

(** The search only looks at addresses in use. *)
Lemma find_slot_insert pds a i s s' j n :
  pds !! i = Some s → as_in_use s' = as_in_use s → as_address s' = as_address s →
  find_slot_loop (<[i := s']> pds) a j n = find_slot_loop pds a j n.
Proof.
  intros Hs Hu Ha. revert j. induction n as [|n IH]; intros j; cbn [find_slot_loop]; [done|]. rewrite IH.
  destruct (decide (i = j)) as [<-|Hne]; [|by rewrite list_lookup_insert_ne].
  rewrite list_lookup_insert_eq by (by eapply lookup_lt_Some). rewrite Hs. cbn [mbind option_bind]. by rewrite Hu, Ha.
Qed.

Lemma acu_has_at c i s s' tx :
  acu_has c i s → as_in_use s' = as_in_use s → as_address s' = as_address s → acu_has (at_slot i c s' tx) i s'.
Proof.
  intros [Hf Hs Hal] Hu Ha. constructor.
  - unfold find_slot_by_address, at_slot. cbn. by rewrite (find_slot_insert _ _ _ s), Ha.
  - unfold at_slot. cbn. apply list_lookup_insert_eq. by eapply lookup_lt_Some.
  - intros j s'' Hj. unfold at_slot. cbn. rewrite list_lookup_insert_ne by done. by apply Hal.
Qed.

Lemma acu_has_rx c i s rx n : acu_has c i s → acu_has (c <| ac_rx := rx |> <| ac_rx_partial_len := n |>) i s.
Proof. by intros []. Qed.

Lemma acu_has_in c i s : acu_has c i s → SlotIn i c.
Proof. intros [_ Hs _]. by eapply lookup_lt_Some. Qed.

Lemma acu_has_ok {TC : AcuFixed link} c i s : acu_inv c → acu_has c i s → slot_ok s.
Proof.
  intros Hc [Hf Hs _]. destruct (find_slot_ok c (as_address s) Hc) as (r & E & Hr). rewrite Hf in E. injection E as <-.
  destruct (Hr i eq_refl) as [Hi _]. by eapply (ai_slots c Hc).
Qed.

(** What a slot computation says of the whole context. *)
Lemma sw_run {A} i c (m : ACU link A) a s s' w w' :
  acu_has c i s →
  sw i c m (λ a1 s1 _ w1, a1 = a ∧ s1 = s' ∧ w1 = w') s (ac_tx_buf c) w →
  ∃ tx, m c w = Some (a, at_slot i c s' tx, w').
Proof.
  intros [_ Hs _] H. unfold sw in H. rewrite at_slot_self in H by done.
  destruct H as (a1 & c1 & w1 & E & s1 & tx1 & -> & -> & -> & ->). by exists tx1.
Qed.

(** A frame goes out on the line whole. *)
Lemma sw_send_port {B} i c ty sel code bs (k : osdp_status → ACU link B) Q s tx w :
  SlotIn i c → ac_transport c = acu_port → region tx OSDP_ACU_BUF_LEN →
  let f := hs_frame (as_address s) false (Z.land (as_next_seq s) 0x03) (ac_integrity c) ty sel code bs in
  sendable f →
  (∀ tx', region tx' OSDP_ACU_BUF_LEN →
     sw i c (k OSDP_OK) Q (pending_slot (Z.land (as_next_seq s) 0x03) code (lk_clock w) s) tx'
       (w <| lk_to_pd := lk_to_pd w ++ message f |>)) →
  sw i c (send_sc_cmd i ty sel code (Ptr bs) (length bs) ≫= k) Q s tx w.
Proof.
  intros Hi Hp Hr f Hf Hk. pose proof Hf as (Ht & Hb & Hn).
  apply sw_bind. unfold send_sc_cmd. apply sw_get, sw_slot; [done|]. unfold id. cbv zeta.
  change (sc_cmd_frame (at_slot i c s tx) s ty sel code (Ptr bs) (length bs)) with f.
  assert (S (frame_total f) ≤ OSDP_ACU_BUF_LEN) as Hcap by (unfold CHUNK, OSDP_ACU_BUF_LEN, OSDP_FRAME_MAX_LEN in *; lia).
  destruct tx as [|m] eqn:Em; [done|].
  eapply sw_lift; [exact (osdp_frame_build_ok f m OSDP_ACU_BUF_LEN 0 Ht Hb ltac:(unfold OSDP_FRAME_MARK_LEN; lia) Hr)|].
  cbv beta iota. apply sw_set_tx. rewrite decide_False by (by intros []). eapply sw_lift; [reflexivity|].
  pose proof (framed_read f (Ptr m) OSDP_ACU_BUF_LEN Ht Hb Hr) as Hread.
  pose proof (framed_region f (Ptr m) OSDP_ACU_BUF_LEN Ht Hb Hr Hcap) as Hreg. cbn [framed] in Hread, Hreg.
  pose proof (length_frame_wire f Ht Hb) as Hl.
  apply sw_bind. eapply sw_write; [by rewrite Hp|exact Hread|]. cbv zeta. cbn [fst snd].
  rewrite bool_decide_true by (cbn [length]; by rewrite Hl). cbn [negb].
  apply sw_bind, sw_mark; [done|]. unfold now_of. rewrite Hp. cbn [at_now_ms acu_port fst snd]. by apply sw_ret, Hk.
Qed.

Lemma acu_linked_at c i s tx : acu_linked c → acu_ok (at_slot i c s tx) → acu_linked (at_slot i c s tx).
Proof. intros [] Hok. by constructor. Qed.

(** A slot with nothing due is left alone. *)
Lemma scanned_quiet now s : quiet now s → scanned now s = s.
Proof. intros [Ho Hs]. unfold scanned, timed_out. rewrite Ho. unfold gone_offline. rewrite Hs. by destruct (as_in_use s). Qed.

Lemma scan_fx_quiet (c : osdp_acu link) now w s : quiet now s → scan_fx c now w s = w.
Proof.
  intros [Ho Hs]. unfold scan_fx, timeout_fx, timed_out. rewrite Ho. unfold offline_fx. rewrite Hs.
  destruct (as_in_use s), (ac_timeout_cb c); done.
Qed.

Lemma rest_quiet now s : as_waiting s = false ∧ as_online s = false → quiet now s.
Proof. intros [Hw Ho]. unfold quiet, overdue, silent. by rewrite Hw, Ho. Qed.

(** The scan of a unit whose other slots are at rest. *)
Lemma scan_one c i s w : acu_linked c → acu_has c i s →
  scan_timeouts_and_offline c w = Some (tt, put_slot i c (scanned (lk_clock w) s), scan_fx c (lk_clock w) w s).
Proof.
  intros Hc [Hf Hs Hal]. pose proof (al_ok c Hc) as Hok. pose proof (ai_count (TC := acu_fixed_of c) c Hok) as Hn.
  destruct (find_slot_ok (TC := acu_fixed_of c) c (as_address s) Hok) as (r & E & Hr). rewrite Hf in E. injection E as <-.
  destruct (Hr i eq_refl) as [Hi _]. pose proof (ai_pds (TC := acu_fixed_of c) c Hok) as Hlen. rewrite <-Hn in Hi, Hlen.
  rewrite scan_run by (done || by apply linked_plain). rewrite (al_port c Hc). cbn [at_now_ms acu_port fst snd].
  assert (ac_pds c = take i (ac_pds c) ++ s :: drop (S i) (ac_pds c)) as Hsplit by (by rewrite take_drop_middle).
  assert (take (ac_pd_count c) (ac_pds c) = take i (ac_pds c) ++ s :: take (ac_pd_count c - S i) (drop (S i) (ac_pds c))) as Htake.
  { rewrite Hsplit at 1. rewrite take_app, length_take, Nat.min_l, take_take, Nat.min_r by (apply lookup_lt_Some in Hs; lia).
    f_equal. replace (ac_pd_count c - i) with (S (ac_pd_count c - S i)) by lia. done. }
  assert (Forall (quiet (lk_clock w)) (take i (ac_pds c))) as Hq1.
  { apply Forall_lookup. intros j s' Hj. apply lookup_take_Some in Hj as [Hj ?]. apply rest_quiet, (Hal j); [lia|done]. }
  assert (Forall (quiet (lk_clock w)) (take (ac_pd_count c - S i) (drop (S i) (ac_pds c)))) as Hq2.
  { apply Forall_lookup. intros j s' Hj. apply lookup_take_Some in Hj as [Hj ?]. rewrite lookup_drop in Hj.
    apply rest_quiet, (Hal (S i + j)); [lia|done]. }
  assert (∀ l w', Forall (quiet (lk_clock w)) l → scanned (lk_clock w) <$> l = l ∧ foldl (scan_fx c (lk_clock w)) w' l = w') as Hrest.
  { induction l as [|s' l IH]; intros w' Hl; [done|]. apply Forall_cons_1 in Hl as [H1 H2]. cbn.
    rewrite scan_fx_quiet by done. destruct (IH w' H2) as [E1 E2]. by rewrite E1, E2, scanned_quiet. }
  rewrite Htake, fmap_app, fmap_cons, foldl_app. cbn [foldl].
  destruct (Hrest _ w Hq1) as [-> ->]. destruct (Hrest _ (scan_fx c (lk_clock w) w s) Hq2) as [-> ->].
  assert (drop (ac_pd_count c) (ac_pds c) = drop (ac_pd_count c - S i) (drop (S i) (ac_pds c))) as ->
    by (rewrite drop_drop; f_equal; lia).
  rewrite <-app_assoc, <-app_comm_cons, take_drop. unfold put_slot.
  by rewrite insert_take_drop by (by eapply lookup_lt_Some).
Qed.

Lemma scan_quiet c i s w : acu_linked c → acu_has c i s → quiet (lk_clock w) s →
  scan_timeouts_and_offline c w = Some (tt, c, w).
Proof.
  intros Hc Hs Hq. rewrite (scan_one c i s w Hc Hs), scanned_quiet, scan_fx_quiet by done.
  unfold put_slot. rewrite list_insert_id by apply Hs. by destruct c.
Qed.

(** One tick on a reply that a computation on the slot handles. *)
Lemma acu_take_step c i s f s' w w1 :
  acu_linked c → acu_has c i s → quiet (lk_clock w) s → sendable f → lk_to_acu w = message f →
  as_in_use s' = as_in_use s → as_address s' = as_address s →
  (∀ q, q = c <| ac_rx := ac_rx q |> → acu_has q i s → region (ac_tx_buf q) OSDP_ACU_BUF_LEN → slot_ok (TC := acu_fixed_of q) s →
     sw i q (take_frame (decoded_of f)) (λ a s1 _ w2, a = tt ∧ s1 = s' ∧ w2 = w1) s (ac_tx_buf q) (w <| lk_to_acu := [] |>)) →
  ∃ c', osdp_acu_tick c w = Some (tt, c', w1) ∧ acu_linked c' ∧ acu_has c' i s' ∧
    ac_sc_crypto c' = ac_sc_crypto c ∧ ac_integrity c' = ac_integrity c.
Proof.
  intros Hc Hs Hquiet Hf Hline Hu Ha Hrun.
  destruct (acu_tick_one c w f (λ c', acu_has c' i s' ∧ ac_sc_crypto c' = ac_sc_crypto c ∧ ac_integrity c' = ac_integrity c) w1)
    as (c' & E & Hc' & ? & ? & ?); [done|done|done|by apply (scan_quiet c i s)| | |by exists c'].
  { intros q n r (? & ? & ?). split_and!; [by apply acu_has_rx|done..]. }
  intros r Hr Hur q Hq. assert (acu_has q i s) as Hqs by (destruct Hs; by constructor).
  destruct (sw_run i q (take_frame (decoded_of f)) tt s s' (w <| lk_to_acu := [] |>) w1 Hqs) as (tx & E).
  { apply Hrun; [done|done|apply (ai_tx (TC := acu_fixed_of q) q Hq)|by eapply (acu_has_ok (TC := acu_fixed_of q))]. }
  exists (at_slot i q s' tx). split; [exact E|]. destruct Hc. split_and!; [exact (acu_has_at q i s s' tx Hqs Hu Ha)|done..].
Qed.

(** A Secure Channel reply reaches the slot of its address. *)
Lemma sw_route i q s f (Q : unit → osdp_acu_pd_slot → ptr → link → Prop) w :
  acu_has q i s → fr_reply f = true → fr_has_scb f = true → fr_address f = as_address s →
  sw i q (let t := fr_scb_type f in
      if decide (t = OSDP_SCS_12) then
        if decide (as_sc_phase s = OSDP_ACU_SC_AWAITING_CCRYPT) then osdp_acu_internal_handle_ccrypt i f
        else mret tt
      else if decide (t = OSDP_SCS_14) then
        if decide (as_sc_phase s = OSDP_ACU_SC_AWAITING_RMAC_I) then osdp_acu_internal_handle_rmac_i i f
        else mret tt
      else if decide (t = OSDP_SCS_16 ∨ t = OSDP_SCS_18) then
        if decide (as_sc_phase s = OSDP_ACU_SC_ESTABLISHED) then osdp_acu_internal_handle_sc_reply i f
        else mret tt
      else mret tt) Q s (ac_tx_buf q) w →
  sw i q (take_frame f) Q s (ac_tx_buf q) w.
Proof.
  intros Hs Hr Hscb Ha H. unfold take_frame. rewrite Hr, Hscb. cbn [negb]. unfold route_sc_reply. apply sw_get. unfold id.
  eapply sw_lift; [rewrite Ha; apply (ah_find _ _ _ (acu_has_at q i s s _ Hs eq_refl eq_refl))|].
  apply sw_slot; [by eapply acu_has_in|]. exact H.
Qed.

