(* ===== verification/Handshake.v ===== *)
(** * Both sides agree on a session

    The SCS_11..14 handshake over a line: [osdp_acu_start_sc_handshake] on one side,
    then two ticks of each side, leave the ACU's slot and the PD with one session:
    the same keys and mirrored MAC chains. *)
From S2P Require Import Prelude Types State Pack Frame Stream Commands Records Dispatch ScCrypto ScFrame.
From S2P Require Import PdTypes PdPdcap PdBanks PdDispatch PdSc Pd PdInv PdSafe PdReach PdSpec.
From S2P Require Import AcuTypes AcuBanks AcuCmd AcuSc Acu AcuSlot AcuInv AcuSafe AcuReach AcuSpec Link Steps.

(** ** Handshake messages on the line *)

Lemma hs_sendable address rpl seq i ty b code payload :
  (0 ≤ address ≤ 0x7F)%Z → (0 ≤ seq ≤ 3)%Z → integrity_ok i → (0x11 ≤ ty ≤ 0x14)%Z →
  is_byte b → is_byte code → bytes_ok payload → 0 < length payload ≤ 64 →
  sendable (hs_frame address rpl seq i ty b code payload).
Proof.
  intros. destruct (hs_frame_ok address rpl seq i ty b code payload) as (Ht & Hb & Hl); [done..|].
  split_and!; [done..|]. unfold CHUNK. lia.
Qed.

Section handshake.
Context (cr : osdp_sc_crypto link) (E D : list Z → list Z → list Z) {A : Aes cr E D}.
Context (Hdraw : rand_bytes cr = Some draw).

(** A PD that can run the handshake under [key]. *)
Record pd_keyed (p : osdp_pd link) (sel : Z) (key : list Z) : Prop := {
  pk_linked : pd_linked p;
  pk_configured : osdp_pd_internal_sc_configured (Some p) = true;
  pk_crypto : sc_crypto (pd_sc p) = cr;
  pk_key : select_handshake_key p sel = Some key;
  pk_cap : 44 ≤ pd_tx_cap p;
  pk_pending : pd_comset_pending p = false }.

Lemma draw_ok rb t w : rnd_ok rb → lk_tape w = rb :: t → draw OSDP_SC_RND_LEN w = (OSDP_OK, rb, w <| lk_tape := t |>).
Proof. intros [L Y] Hw. unfold draw. rewrite Hw, fetch_all by (done || lia). done. Qed.

(** CHLNG, answered with CCRYPT. *)
Lemma pd_chlng_step p w seq i sel ra rb t key :
  let f := hs_frame (pd_address p) false seq i OSDP_SCS_11 sel OSDP_CMD_CHLNG ra in
  pd_keyed p sel key → rnd_ok ra → rnd_ok rb → (0 ≤ seq ≤ 3)%Z → integrity_ok i → is_byte sel →
  lk_to_pd w = message f → lk_to_acu w = [] → lk_tape w = rb :: t → unseen p seq →
  let ks := derived_keys E key ra in
  let reply := sc_cuid (pd_sc p) ++ rb ++ E (s_enc ks) (ra ++ rb) in
  let R := hs_frame (pd_address p) true seq i OSDP_SCS_12 sel OSDP_REPLY_CCRYPT reply in
  let sc := (pd_sc p) <| sc_rnd_b := rb |> <| sc_rnd_a := ra |> <| sc_key_selector := sel |>
    <| sc_session := with_established false (with_keys ks (sc_session (pd_sc p))) |> <| sc_got_chlng := true |> in
  ∃ p', osdp_pd_tick p w = Some (tt, p', w <| lk_to_pd := [] |> <| lk_tape := t |> <| lk_to_acu := message R |>) ∧
    pd_linked p' ∧ answered p p' sc seq ∧ sendable R.
Proof.
  intros f [Hp Hconf Hcr Hkey Hcap Hpend] Ba Bb Hseq Hi Hsel Hline Hout Htape Hlast ks reply R sc.
  pose proof (pl_ok p Hp) as Hok. pose proof (pi_sc (TC := fixed_of p) p Hok) as Hsc.
  pose proof (pi_address (TC := fixed_of p) p Hok) as Ha.
  assert (block key) as Bk.
  { revert Hkey. unfold select_handshake_key. repeat case_decide; intros [= <-]; apply Hsc. }
  destruct (so_cuid _ Hsc) as [Lc Yc]. pose proof (so_rnd_b _ Hsc) as [Lb _].
  destruct (derived_keys_ok cr E D key ra Bk Ba) as (Be & _). fold ks in Be.
  destruct (aes_E_block (c := cr) _ _ Be (rnd_pair_block _ _ Ba Bb)) as [Lcc Ycc].
  assert (length reply = 32 ∧ bytes_ok reply) as [Hlr Hyr].
  { unfold reply. rewrite !length_app, Lc, Lcc. destruct Bb as [-> Yb]. split; [done|]. by rewrite !Forall_app. }
  assert (sendable f) as Hf.
  { pose proof Ba as [La Ya]. apply hs_sendable; first [done|by vm_decide|rewrite La; cbv; lia]. }
  assert (sendable R) as HR by (apply hs_sendable; first [done|by vm_decide|lia]).
  destruct (pd_answer_one p w f R sc (w <| lk_to_pd := [] |> <| lk_tape := t |>)) as (p' & Et & Hp' & Han);
    [done..| |by exists p'; destruct Han].
  intros q Hk Eqs Hq Hcache. pose proof (pd_ok_tx q Hq) as Htx. destruct Hk as [Eqa _ _ _ _ _ Eqc _ _ _ _ _].
  assert (select_handshake_key q sel = Some key) as Hkq by (unfold select_handshake_key; rewrite Eqs; exact Hkey).
  assert (osdp_pd_internal_sc_configured (Some q) = true) as Hcq.
  { unfold osdp_pd_internal_sc_configured. rewrite Eqs. exact Hconf. }
  destruct (handle_chlng_ok cr E D q (pd_address p) seq i sel ra rb key (w <| lk_to_pd := [] |>)
    (w <| lk_to_pd := [] |> <| lk_tape := t |>) draw) as (Ht & Hb & Erun);
    rewrite ?Eqa, ?Eqs, ?Eqc in *; try done; [by apply (draw_ok rb t (w <| lk_to_pd := [] |>))|].
  eexists. split; [|split; [|split_and!]].
  - unfold handle_command_into_tx. m_run. unfold id.
    change (fr_has_scb (decoded_of f)) with true. cbv iota. rewrite Hcq.
    unfold osdp_pd_internal_handle_sc_into_tx. rewrite decide_True by done. exact Erun.
  - by apply (framed_read R (pd_tx q) (pd_tx_cap p)).
  - by constructor.
  - exact Hcache.
  - done.
Qed.

(** SCRYPT with the right cryptogram, answered with RMAC_I. *)
Lemma pd_scrypt_step p w seq i sel ra rb ks :
  let server := E (s_enc ks) (rb ++ ra) in
  let f := hs_frame (pd_address p) false seq i OSDP_SCS_13 sel OSDP_CMD_SCRYPT server in
  pd_linked p → osdp_pd_internal_sc_configured (Some p) = true → sc_crypto (pd_sc p) = cr →
  44 ≤ pd_tx_cap p → pd_comset_pending p = false →
  sc_got_chlng (pd_sc p) = true → ss_keys (sc_session (pd_sc p)) = ks →
  sc_rnd_a (pd_sc p) = ra → sc_rnd_b (pd_sc p) = rb →
  rnd_ok ra → rnd_ok rb → keys_ok ks → (0 ≤ seq ≤ 3)%Z → integrity_ok i → is_byte sel →
  lk_to_pd w = message f → lk_to_acu w = [] → unseen p seq →
  let rmac := rmac_of E ks server in
  let R := hs_frame (pd_address p) true seq i OSDP_SCS_14 0x01 OSDP_REPLY_RMAC_I rmac in
  let sc := (pd_sc p) <| sc_session := mk_session ks rmac rmac true |> <| sc_got_chlng := false |> in
  ∃ p', osdp_pd_tick p w = Some (tt, p', w <| lk_to_pd := [] |> <| lk_to_acu := message R |>) ∧
    pd_linked p' ∧ answered p p' sc seq ∧ sendable R ∧ block rmac.
Proof.
  intros server f Hp Hconf Hcr Hcap Hpend Hgot Hks Hra Hrb Ba Bb Bk Hseq Hi Hsel Hline Hout Hlast rmac R sc.
  pose proof (pl_ok p Hp) as Hok. pose proof (pi_address (TC := fixed_of p) p Hok) as Ha.
  pose proof Bk as (Be & B1 & B2).
  assert (block server) as [Ls Ys] by (apply (aes_E_block (c := cr)); [done|by apply rnd_pair_block]).
  assert (sendable f) as Hf by (apply hs_sendable; first [done|by vm_decide|rewrite Ls; cbv; lia]).
  assert (block server) as Bs by done.
  assert (block rmac) as Br by (unfold rmac, rmac_of; do 2 (apply (aes_E_block (c := cr)); [done|]); done).
  pose proof Br as [Lr Yr].
  assert (sendable R) as HR by (apply hs_sendable; first [done|by vm_decide|rewrite Lr; cbv; lia]).
  destruct (pd_answer_one p w f R sc (w <| lk_to_pd := [] |>)) as (p' & Et & Hp' & Han);
    [done..| |by exists p'; destruct Han].
  intros q Hk Eqs Hq Hcache. pose proof (pd_ok_tx q Hq) as Htx. destruct Hk as [Eqa _ _ _ _ _ Eqc _ _ _ _ _].
  assert (osdp_pd_internal_sc_configured (Some q) = true) as Hcq.
  { unfold osdp_pd_internal_sc_configured. rewrite Eqs. exact Hconf. }
  destruct (handle_scrypt_ok cr E D q (pd_address p) seq i sel ra rb ks (w <| lk_to_pd := [] |>)) as (Ht & Hb & _ & Erun);
    rewrite ?Eqa, ?Eqs, ?Eqc in *; try done; [lia|].
  eexists. split; [|split; [|split_and!]].
  - unfold handle_command_into_tx. m_run. unfold id.
    change (fr_has_scb (decoded_of f)) with true. cbv iota. rewrite Hcq.
    unfold osdp_pd_internal_handle_sc_into_tx. rewrite decide_False, decide_True by done. exact Erun.
  - by apply (framed_read R (pd_tx q) (pd_tx_cap p)).
  - by constructor.
  - exact Hcache.
  - done.
Qed.

End handshake.

(** ** The control unit's side *)

Section control.
Context (cr : osdp_sc_crypto link) (E D : list Z → list Z → list Z) {A : Aes cr E D}.
Context (Hdraw : rand_bytes cr = Some draw).

(** The slot after CHLNG, CCRYPT and RMAC_I. *)
Definition challenged (ra : list Z) (sel q now : Z) (s : osdp_acu_pd_slot) : osdp_acu_pd_slot :=
  pending_slot q OSDP_CMD_CHLNG now (s <| as_sc_session := session_zero |> <| as_sc_phase := OSDP_ACU_SC_IDLE |>
    <| as_sc_rnd_a := ra |> <| as_sc_key_selector := sel |>) <| as_sc_phase := OSDP_ACU_SC_AWAITING_CCRYPT |>.

(** A slot whose command is just out has nothing due, unless its PD was silent before. *)
Lemma sent_quiet now s s' : silent now s = false → as_online s' = as_online s →
  as_last_reply_ms s' = as_last_reply_ms s → as_pending_sent_ms s' = now → quiet now s'.
Proof.
  intros Hs H1 H2 H3. split; [|unfold silent in *; by rewrite H1, H2].
  unfold overdue. by rewrite H3, Z.sub_diag, andb_false_r.
Qed.

Lemma acu_start_step c i s d ra t w :
  acu_linked c → acu_has c i s → ac_sc_crypto c = cr →
  osdp_acu_internal_sc_configured (Some c) (Some s) d = true → as_waiting s = false →
  rnd_ok ra → lk_tape w = ra :: t → lk_to_pd w = [] →
  let sel := (if d then 0 else 1)%Z in
  let f := hs_frame (as_address s) false (as_next_seq s) (ac_integrity c) OSDP_SCS_11 sel OSDP_CMD_CHLNG ra in
  sendable f ∧ ∃ tx,
    let c' := at_slot i c (challenged ra sel (as_next_seq s) (lk_clock w) s) tx in
    osdp_acu_start_sc_handshake (as_address s) d c w =
      Some (OSDP_OK, c', w <| lk_tape := t |> <| lk_to_pd := message f |>) ∧ acu_linked c'.
Proof.
  intros Hc Hs Hcr Hconf Hwait Ba Htape Hline sel f. pose proof (acu_has_in c i s Hs) as Hi.
  pose proof (al_ok c Hc) as Hok. pose proof (acu_has_ok (TC := acu_fixed_of c) c i s Hok Hs) as Hslot.
  pose proof (al_port c Hc) as Hport. pose proof Ba as [La Ya]. pose proof (sk_next s Hslot) as Hq.
  assert (Z.land (as_next_seq s) 0x03 = as_next_seq s) as Eq.
  { change 0x03%Z with (Z.ones 2). rewrite Z.land_ones by lia. apply Z.mod_small. lia. }
  assert (sendable f) as Hf.
  { apply hs_sendable; first [apply Hslot|apply (ai_integrity (TC := acu_fixed_of c) c Hok)|done|by destruct d|
      by vm_decide|rewrite La; cbv; lia]. }
  split; [done|].
  destruct (sw_run i c (osdp_acu_start_sc_handshake (as_address s) d) OSDP_OK s
    (challenged ra sel (as_next_seq s) (lk_clock w) s) w (w <| lk_tape := t |> <| lk_to_pd := message f |>) Hs) as (tx & Erun).
  { unfold osdp_acu_start_sc_handshake. apply sw_get. unfold id.
    eapply sw_lift; [apply (ah_find _ _ _ (acu_has_at c i s s _ Hs eq_refl eq_refl))|].
    apply sw_slot; [done|]. change (ac_transport (at_slot i c s (ac_tx_buf c))) with (ac_transport c). rewrite Hport.
    cbn [at_write acu_port]. change (osdp_acu_internal_sc_configured _ (Some s) d) with
      (osdp_acu_internal_sc_configured (Some c) (Some s) d). rewrite Hconf, Hwait. cbn [negb].
    eapply sw_lift; [exact (eq_refl : _ = Some session_zero)|]. apply sw_with; [done|].
    unfold osdp_acu_internal_send_chlng. apply sw_get. unfold id.
    eapply sw_lift; [exact (eq_trans (f_equal rand_bytes Hcr) Hdraw)|].
    apply sw_host. rewrite (draw_ok ra t w Ba Htape). cbn [fst snd]. apply sw_slot; [done|].
    eapply sw_lift.
    { rewrite mwr_0; [|destruct (sk_rnd_a s Hslot) as [Lr _]; cbn; rewrite Lr, La; reflexivity].
      rewrite drop_ge by (destruct (sk_rnd_a s Hslot) as [Lr _]; cbn; by rewrite Lr, La). by rewrite app_nil_r. }
    apply sw_with; [done|]. rewrite decide_False by (by intros []). cbv zeta. apply sw_with; [done|].
    fold sel. rewrite <-La. apply sw_send_port; [done|done|apply (ai_tx (TC := acu_fixed_of c) c Hok)| |].
    { cbn. by rewrite Eq. }
    intros tx' Htx'. rewrite decide_False by (by intros []). apply sw_with; [done|]. apply sw_ret.
    split_and!; [done| |]; cbn; rewrite Eq; [done|]. by rewrite Hline. }
  exists tx. split; [done|]. apply acu_linked_at; [done|].
  destruct (start_handshake_safe (TC := acu_fixed_of c) (as_address s) d c w Hok) as (r & c' & w' & E' & Hc' & _).
  rewrite Erun in E'. injection E' as <- <- <-. by apply (acu_ok_of (acu_fixed_of c)).
Qed.

(** The base key of the handshake in progress. *)
Definition acu_base_key (s : osdp_acu_pd_slot) : list Z :=
  if decide (as_sc_key_selector s = 1%Z) then as_scbk s else as_scbk_d s.

Definition answered_slot (cuid rb : list Z) (ks : osdp_sc_session_keys) (now : Z) (s : osdp_acu_pd_slot) : osdp_acu_pd_slot :=
  let q := advance_sqn (as_pending_seq s) in
  pending_slot q OSDP_CMD_SCRYPT now (s <| as_sc_cuid := cuid |> <| as_sc_rnd_b := rb |>
    <| as_sc_session := with_keys ks (as_sc_session s) |> <| as_next_seq := q |> <| as_waiting := false |>)
    <| as_sc_phase := OSDP_ACU_SC_AWAITING_RMAC_I |>.

(** The right client cryptogram gives the session keys and the server cryptogram. *)
Lemma sw_ccrypt_values {B} i c (k : option (list Z) → ACU link B) Q s tx w :
  SlotIn i c → ac_sc_crypto c = cr → block (acu_base_key s) → rnd_ok (as_sc_rnd_a s) → rnd_ok (as_sc_rnd_b s) →
  let ks := derived_keys E (acu_base_key s) (as_sc_rnd_a s) in
  sw i c (k (Some (E (s_enc ks) (as_sc_rnd_b s ++ as_sc_rnd_a s)))) Q
    (s <| as_sc_session := with_keys ks (as_sc_session s) |>) tx w →
  sw i c (ccrypt_values i (E (s_enc ks) (as_sc_rnd_a s ++ as_sc_rnd_b s)) ≫= k) Q s tx w.
Proof.
  intros Hi Hcr Bk Ba Bb ks H. apply sw_bind. unfold ccrypt_values. apply sw_get, sw_slot; [done|]. unfold id. cbv zeta.
  fold (acu_base_key s). change (ac_sc_crypto (at_slot i c s tx)) with (ac_sc_crypto c). rewrite Hcr.
  eapply sw_lift; [exact (derive_ok cr E D _ _ _ _ _ (rd_block _ Bk) (rd_rnd _ Ba) Bk Ba)|].
  destruct (derived_keys_ok cr E D _ _ Bk Ba) as (Be & _). fold ks in Be |- *.
  rewrite decide_False by (by intros []). eapply sw_lift; [reflexivity|].
  eapply sw_lift; [exact (cryptogram_ok cr E D _ _ _ _ _ _ rnd_zero (rd_block _ Be) (rd_rnd _ Ba)
    (rd_rnd _ Bb) Be Ba Bb rnd_zero_long)|]. cbv beta iota.
  pose proof (aes_E_block (c := cr) _ _ Be (rnd_pair_block _ _ Ba Bb)) as [Le _].
  eapply sw_lift; [by apply rd_front|]. rewrite decide_False by (by intros [[]|[]]). apply sw_with; [done|].
  eapply sw_lift; [exact (cryptogram_ok cr E D _ _ _ _ _ _ rnd_zero (rd_block _ Be) (rd_rnd _ Bb)
    (rd_rnd _ Ba) Be Bb Ba rnd_zero_long)|]. cbv beta iota.
  pose proof (aes_E_block (c := cr) _ _ Be (rnd_pair_block _ _ Bb Ba)) as Bs.
  rewrite decide_False by (by intros []). eapply sw_lift; [apply rd_front; symmetry; apply Bs|]. by apply sw_ret.
Qed.

(** The parts of a CCRYPT payload. *)
Lemma ccrypt_parts cuid rb g :
  length cuid = 8 → length rb = 8 → length g = 16 →
  rd_slice (Ptr (cuid ++ rb ++ g)) 0 OSDP_SC_CUID_LEN = Some cuid ∧
  rd_slice (Ptr (cuid ++ rb ++ g)) OSDP_SC_CUID_LEN OSDP_SC_RND_LEN = Some rb ∧
  rd_slice (Ptr (cuid ++ rb ++ g)) (OSDP_SC_CUID_LEN + OSDP_SC_RND_LEN) OSDP_SC_CRYPTOGRAM_LEN = Some g.
Proof.
  intros Lc Lb Lg. unfold OSDP_SC_CUID_LEN, OSDP_SC_RND_LEN, OSDP_SC_CRYPTOGRAM_LEN. cbn [rd_slice].
  rewrite !mslice_Some by (rewrite !length_app, Lc, Lb, Lg; cbn; lia). split_and!; f_equal.
  - by rewrite drop_0, take_app_length' by done.
  - by rewrite drop_app_length', take_app_length' by done.
  - by rewrite app_assoc, drop_app_length', take_ge by (rewrite ?length_app, ?Lc, ?Lb, ?Lg; done).
Qed.

Lemma acu_ccrypt_step c i s cuid rb w :
  let ks := derived_keys E (acu_base_key s) (as_sc_rnd_a s) in
  let R := hs_frame (as_address s) true (as_pending_seq s) (ac_integrity c) OSDP_SCS_12 (as_sc_key_selector s)
    OSDP_REPLY_CCRYPT (cuid ++ rb ++ E (s_enc ks) (as_sc_rnd_a s ++ rb)) in
  acu_linked c → acu_has c i s → quiet (lk_clock w) s → ac_sc_crypto c = cr → as_sc_phase s = OSDP_ACU_SC_AWAITING_CCRYPT →
  length cuid = 8 → rnd_ok rb → sendable R → lk_to_acu w = message R → lk_to_pd w = [] →
  let f := hs_frame (as_address s) false (advance_sqn (as_pending_seq s)) (ac_integrity c) OSDP_SCS_13
    (as_sc_key_selector s) OSDP_CMD_SCRYPT (E (s_enc ks) (rb ++ as_sc_rnd_a s)) in
  sendable f ∧ ∃ c', osdp_acu_tick c w = Some (tt, c', w <| lk_to_acu := [] |> <| lk_to_pd := message f |>) ∧
    acu_linked c' ∧ acu_has c' i (answered_slot cuid rb ks (lk_clock w) s) ∧ ac_sc_crypto c' = cr ∧
    ac_integrity c' = ac_integrity c ∧ keys_ok ks.
Proof.
  intros ks R Hc Hs Hquiet Hcr Hph Lc Bb HR Hline Hpd f.
  pose proof (al_ok c Hc) as Hok. pose proof (acu_has_ok (TC := acu_fixed_of c) c i s Hok Hs) as Hslot.
  pose proof (sk_rnd_a s Hslot) as Ba. pose proof Bb as [Lb Yb].
  assert (block (acu_base_key s)) as Bk by (unfold acu_base_key; case_decide; apply Hslot).
  pose proof (derived_keys_ok cr E D _ _ Bk Ba) as Hks. fold ks in Hks. pose proof Hks as (Be & _).
  pose proof (aes_E_block (c := cr) _ _ Be (rnd_pair_block _ _ Ba Bb)) as [Lg _].
  pose proof (aes_E_block (c := cr) _ _ Be (rnd_pair_block _ _ Bb Ba)) as [Ls Ys].
  pose proof (next_ok s Hslot) as Hnext.
  assert (sendable f) as Hf.
  { apply hs_sendable; first [done|apply Hslot|apply (ai_integrity (TC := acu_fixed_of c) c Hok)|
      by vm_decide|rewrite Ls; cbv; lia]. }
  split; [done|].
  destruct (acu_take_step c i s R (answered_slot cuid rb ks (lk_clock w) s) w (w <| lk_to_acu := [] |> <| lk_to_pd := message f |>))
    as (c' & Et & Hc' & Hs' & Hcr' & Hi'); [done..| |].
  2:{ exists c'. split_and!; [done..|by rewrite Hcr'|done|done]. }
  intros q Hq Hqs Htx _. pose proof (acu_has_in q i s Hqs) as Hi.
  assert (ac_transport q = acu_port ∧ ac_sc_crypto q = cr ∧ ac_integrity q = ac_integrity c) as (Hport & Hqcr & Hqi).
  { rewrite Hq. by destruct Hc. }
  assert (length (cuid ++ rb ++ E (s_enc ks) (as_sc_rnd_a s ++ rb)) = 32) as Lp by (by rewrite !length_app, Lc, Lb, Lg).
  destruct (hs_frame_decoded (as_address s) true (as_pending_seq s) (ac_integrity c) OSDP_SCS_12 (as_sc_key_selector s)
    OSDP_REPLY_CCRYPT (cuid ++ rb ++ E (s_enc ks) (as_sc_rnd_a s ++ rb))) as [Eb Ep]; [rewrite Lp; lia|]. fold R in Eb, Ep.
  apply sw_route; [done..|]. cbv zeta. rewrite decide_True by done. rewrite decide_True by done.
  unfold osdp_acu_internal_handle_ccrypt. apply sw_slot; [done|].
  rewrite decide_False by (by intros []). rewrite decide_False.
  2:{ intros [[]|[Hx|[Hx|[]]]]; [done|cbn in Hx; lia|by rewrite Eb in Hx|exact Lp]. }
  rewrite Eb. eapply sw_lift; [reflexivity|]. rewrite decide_False by (by intros []).
  destruct (ccrypt_parts cuid rb _ Lc Lb Lg) as (E1 & E2 & E3). rewrite Ep.
  eapply sw_lift; [exact E1|]. eapply sw_lift; [exact E2|]. eapply sw_lift; [exact E3|]. apply sw_with; [done|].
  set (s1 := s <| as_sc_cuid := cuid |> <| as_sc_rnd_b := rb |>).
  apply (sw_ccrypt_values i q _ _ s1); [done..|]. cbv beta iota. unfold send_scrypt. apply sw_with; [done|]. apply sw_slot; [done|].
  assert (Z.land (advance_sqn (as_pending_seq s)) 0x03 = advance_sqn (as_pending_seq s)) as Eq.
  { change 0x03%Z with (Z.ones 2). rewrite Z.land_ones by lia. apply Z.mod_small. unfold advance_sqn. lia. }
  change OSDP_SC_CRYPTOGRAM_LEN with OSDP_AES_BLOCK_LEN. rewrite <-Ls. apply sw_send_port; [done|done|done| |].
  { cbn. fold (advance_sqn (as_pending_seq s)). by rewrite Eq, Hqi. }
  intros tx' Htx'. rewrite decide_False by (by intros []). apply sw_with_end; [done|]. cbn.
  fold (advance_sqn (as_pending_seq s)). rewrite Eq, Hqi, Hpd. by split_and!.
Qed.

(** *** RMAC_I *)


Definition accepted_slot (rmac : list Z) (now : Z) (s : osdp_acu_pd_slot) : osdp_acu_pd_slot :=
  s <| as_sc_session := mk_session (ss_keys (as_sc_session s)) rmac rmac true |>
    <| as_next_seq := advance_sqn (as_pending_seq s) |> <| as_waiting := false |> <| as_online := true |>
    <| as_last_reply_ms := now |> <| as_sc_phase := OSDP_ACU_SC_ESTABLISHED |>.

Lemma acu_rmac_i_step c i s w :
  let ks := ss_keys (as_sc_session s) in
  let rmac := rmac_of E ks (E (s_enc ks) (as_sc_rnd_b s ++ as_sc_rnd_a s)) in
  let R := hs_frame (as_address s) true (as_pending_seq s) (ac_integrity c) OSDP_SCS_14 0x01 OSDP_REPLY_RMAC_I rmac in
  acu_linked c → acu_has c i s → quiet (lk_clock w) s → ac_sc_crypto c = cr → as_sc_phase s = OSDP_ACU_SC_AWAITING_RMAC_I →
  sendable R → lk_to_acu w = message R →
  ∃ c', osdp_acu_tick c w = Some (tt, c', log_event (mk_sc_event (as_address s) OSDP_ACU_SC_EVENT_ESTABLISHED)
      (w <| lk_to_acu := [] |>)) ∧
    acu_linked c' ∧ acu_has c' i (accepted_slot rmac (lk_clock w) s) ∧ ac_sc_crypto c' = cr ∧ ac_integrity c' = ac_integrity c.
Proof.
  intros ks rmac R Hc Hs Hquiet Hcr Hph HR Hline.
  pose proof (al_ok c Hc) as Hok. pose proof (acu_has_ok (TC := acu_fixed_of c) c i s Hok Hs) as Hslot.
  pose proof (sk_rnd_a s Hslot) as Ba. pose proof (sk_rnd_b s Hslot) as Bb.
  pose proof (sk_session s Hslot) as (Hk & _ & _). fold ks in Hk. pose proof Hk as (Be & B1 & B2).
  pose proof (aes_E_block (c := cr) _ _ Be (rnd_pair_block _ _ Bb Ba)) as Bs. pose proof Bs as [Ls _].
  destruct (acu_take_step c i s R (accepted_slot rmac (lk_clock w) s) w
    (log_event (mk_sc_event (as_address s) OSDP_ACU_SC_EVENT_ESTABLISHED) (w <| lk_to_acu := [] |>)))
    as (c' & Et & Hc' & Hs' & Hcr' & Hi'); [done..| |by exists c'; rewrite Hcr'].
  intros q Hq Hqs Htx _. pose proof (acu_has_in q i s Hqs) as Hi.
  assert (ac_transport q = acu_port ∧ ac_sc_crypto q = cr ∧ ac_sc_event_cb q = Some (reports log_event)) as (Hport & Hqcr & Hqe).
  { rewrite Hq. by destruct Hc. }
  assert (expected_rmac q s = Some (Some rmac) ∧ length rmac = 16) as [Eexp Lr].
  { unfold expected_rmac. rewrite Hqcr. unfold osdp_sc_server_cryptogram. fold ks.
    rewrite (cryptogram_ok cr E D _ _ _ _ _ _ rnd_zero (rd_block _ Be) (rd_rnd _ Bb)
      (rd_rnd _ Ba) Be Bb Ba rnd_zero_long), bind_Some. cbv beta iota. rewrite decide_False by (by intros []).
    destruct (initial_rmac_ok cr E D (Ptr (s_mac1 ks)) (Ptr (s_mac2 ks))
      (Ptr (E (s_enc ks) (as_sc_rnd_b s ++ as_sc_rnd_a s) ++ drop 16 rnd_zero)) _ _ rnd_zero (rd_block _ B1) (rd_block _ B2)
      ltac:(apply rd_front; symmetry; apply Bs) Hk Bs rnd_zero_long) as [-> [Lr _]].
    rewrite bind_Some. cbv beta iota. rewrite decide_False by (by intros []).
    rewrite rd_front by (symmetry; apply Lr). rewrite bind_Some. by split. }
  destruct (hs_frame_decoded (as_address s) true (as_pending_seq s) (ac_integrity c) OSDP_SCS_14 0x01
    OSDP_REPLY_RMAC_I rmac) as [Eb Ep]; [rewrite Lr; lia|]. fold R in Eb, Ep.
  apply sw_route; [done..|]. cbv zeta. rewrite decide_False by done. rewrite decide_True by done. rewrite decide_True by done.
  unfold osdp_acu_internal_handle_rmac_i. apply sw_slot; [done|].
  rewrite decide_False by (by intros []). rewrite decide_False.
  2:{ intros [[]|[Hx|Hx]]; [done|cbn in Hx; lia|by rewrite Eb in Hx]. }
  rewrite Eb. eapply sw_lift; [reflexivity|]. rewrite decide_False by (by intros []).
  rewrite decide_False by (intros []; exact Lr). apply sw_get. unfold id.
  change (expected_rmac (at_slot i q s (ac_tx_buf q)) s) with (expected_rmac q s). eapply sw_lift; [exact Eexp|].
  rewrite Ep. eapply sw_lift; [by apply rd_all|]. rewrite decide_False by (by intros []).
  unfold rmac_accept. apply sw_with; [done|]. apply sw_now. unfold now_of. rewrite Hport. cbn [at_now_ms acu_port fst snd].
  apply sw_with; [done|]. apply sw_slot; [done|].
  apply sw_fire; [rewrite Hqe; apply plain_reports|]. unfold fired. rewrite Hqe. by split_and!.
Qed.

End control.

(** ** The whole handshake *)

(** [n] rounds: a tick of the PD, then a tick of the ACU. *)
Fixpoint rounds (n : nat) (c : osdp_acu link) (p : osdp_pd link) (w : link)
  : option (osdp_acu link * osdp_pd link * link) :=
  match n with
  | O => Some (c, p, w)
  | S n =>
      '(_, p, w) ← osdp_pd_tick p w;
      '(_, c, w) ← osdp_acu_tick c w;
      rounds n c p w
  end.

(** What the handshake leaves alone: the replies, the timeouts, the application's log and
    the clock. *)
Definition logs_kept (w w' : link) : Prop :=
  lk_replies w' = lk_replies w ∧ lk_timeouts w' = lk_timeouts w ∧ lk_served w' = lk_served w ∧ lk_clock w' = lk_clock w.

Lemma logs_kept_trans w1 w2 w3 : logs_kept w1 w2 → logs_kept w2 w3 → logs_kept w1 w3.
Proof. intros (? & ? & ? & ?) (? & ? & ? & ?). split_and!; congruence. Qed.

(** The start of a handshake, and two rounds. *)
Definition handshake (address : Z) (use_default_key : bool) (c : osdp_acu link) (p : osdp_pd link) (w : link)
  : option (osdp_acu link * osdp_pd link * link) :=
  '(s, c, w) ← osdp_acu_start_sc_handshake address use_default_key c w;
  if decide (s = OSDP_OK) then rounds 2 c p w else None.

(** Both sides on the line, with one cipher and one base key. *)
Record paired (cr : osdp_sc_crypto link) (c : osdp_acu link) (i : nat) (s : osdp_acu_pd_slot) (d : bool)
    (p : osdp_pd link) : Prop := {
  pr_acu : acu_linked c;
  pr_slot : acu_has c i s;
  pr_acu_cipher : ac_sc_crypto c = cr;
  pr_acu_configured : osdp_acu_internal_sc_configured (Some c) (Some s) d = true;
  pr_idle : as_waiting s = false;
  pr_pd : pd_keyed cr p (if d then 0 else 1) (if d then as_scbk_d s else as_scbk s);
  pr_address : as_address s = pd_address p;
  pr_new : unseen p (as_next_seq s) }.

(** Both sides hold one live session and nothing is in flight. *)
Record in_session (cr : osdp_sc_crypto link) (c : osdp_acu link) (i : nat) (s : osdp_acu_pd_slot)
    (p : osdp_pd link) (w : link) : Prop := {
  se_acu : acu_linked c;
  se_slot : acu_has c i s;
  se_acu_cipher : ac_sc_crypto c = cr;
  se_phase : as_sc_phase s = OSDP_ACU_SC_ESTABLISHED;
  se_idle : as_waiting s = false;
  se_next : (1 ≤ as_next_seq s)%Z;
  se_new : unseen p (as_next_seq s);
  se_pd : pd_linked p;
  se_configured : osdp_pd_internal_sc_configured (Some p) = true;
  se_pending : pd_comset_pending p = false;
  se_pd_cipher : sc_crypto (pd_sc p) = cr;
  se_address : as_address s = pd_address p;
  se_acu_session : session_ok (as_sc_session s);
  se_pd_session : session_ok (sc_session (pd_sc p));
  se_heard : as_online s = true ∧ as_last_reply_ms s = lk_clock w;
  se_mirrored : mirrored (as_sc_session s) (sc_session (pd_sc p));
  se_to_pd : lk_to_pd w = [];
  se_to_acu : lk_to_acu w = [] }.

Section agreement.
Context (cr : osdp_sc_crypto link) (E D : list Z → list Z → list Z) {A : Aes cr E D}.
Context (Hdraw : rand_bytes cr = Some draw).

Lemma advance_sqn_range q : (0 ≤ q ≤ 3)%Z → (0 ≤ advance_sqn q ≤ 3)%Z.
Proof. intros. unfold advance_sqn. case_decide; [lia|]. unfold u8. rewrite Z.mod_small; lia. Qed.

Lemma advance_sqn_ne q : (0 ≤ q ≤ 3)%Z → advance_sqn q ≠ q.
Proof. intros. unfold advance_sqn. case_decide; [lia|]. unfold u8. rewrite Z.mod_small; lia. Qed.

Lemma advance_sqn_pos q : (0 ≤ q ≤ 3)%Z → (1 ≤ advance_sqn q)%Z.
Proof. intros. unfold advance_sqn. case_decide; [lia|]. unfold u8. rewrite Z.mod_small; lia. Qed.

(** After CHLNG, CCRYPT and SCRYPT: the PD has to verify the server cryptogram. *)
Record halfway (c : osdp_acu link) (i : nat) (s : osdp_acu_pd_slot) (p : osdp_pd link) (sel : Z)
    (ks : osdp_sc_session_keys) (w : link) : Prop := {
  hw_acu : acu_linked c;
  hw_slot : acu_has c i s;
  hw_acu_cipher : ac_sc_crypto c = cr;
  hw_phase : as_sc_phase s = OSDP_ACU_SC_AWAITING_RMAC_I;
  hw_acu_keys : ss_keys (as_sc_session s) = ks;
  hw_pd : pd_linked p;
  hw_pd_cipher : sc_crypto (pd_sc p) = cr;
  hw_configured : osdp_pd_internal_sc_configured (Some p) = true;
  hw_cap : 44 ≤ pd_tx_cap p;
  hw_pending : pd_comset_pending p = false;
  hw_got : sc_got_chlng (pd_sc p) = true;
  hw_pd_keys : ss_keys (sc_session (pd_sc p)) = ks;
  hw_rnd_a : sc_rnd_a (pd_sc p) = as_sc_rnd_a s;
  hw_rnd_b : sc_rnd_b (pd_sc p) = as_sc_rnd_b s;
  hw_address : as_address s = pd_address p;
  hw_selector : is_byte sel;
  hw_line : let f := hs_frame (as_address s) false (as_pending_seq s) (ac_integrity c) OSDP_SCS_13 sel
      OSDP_CMD_SCRYPT (E (s_enc ks) (as_sc_rnd_b s ++ as_sc_rnd_a s)) in
    lk_to_pd w = message f;
  hw_new : unseen p (as_pending_seq s);
  hw_quiet : quiet (lk_clock w) s;
  hw_to_acu : lk_to_acu w = [] }.

Lemma first_round c i s d p ra rb t w :
  paired cr c i s d p → rnd_ok ra → rnd_ok rb → silent (lk_clock w) s = false →
  lk_tape w = ra :: rb :: t → lk_to_pd w = [] → lk_to_acu w = [] →
  let ks := derived_keys E (if d then as_scbk_d s else as_scbk s) ra in
  ∃ c0 w0 p' w1 c' w' s', osdp_acu_start_sc_handshake (as_address s) d c w = Some (OSDP_OK, c0, w0) ∧
    osdp_pd_tick p w0 = Some (tt, p', w1) ∧ osdp_acu_tick c0 w1 = Some (tt, c', w') ∧
    halfway c' i s' p' (if d then 0 else 1) ks w' ∧ as_pending_seq s' = advance_sqn (as_next_seq s) ∧
    as_address s' = as_address s ∧ lk_tape w' = t ∧ lk_events w' = lk_events w ∧ logs_kept w w' ∧ kept p p'.
Proof.
  intros [Hc Hs Hcr Hconf Hidle Hp Ha Hlast] Ba Bb Hquiet Htape Hpd Hacu.
  pose proof (acu_has_ok (TC := acu_fixed_of c) c i s (al_ok c Hc) Hs) as Hslot.
  pose proof (sk_next s Hslot) as Hq. pose proof (ai_integrity (TC := acu_fixed_of c) c (al_ok c Hc)) as Hint.
  pose proof (advance_sqn_range _ Hq) as Hq'. pose proof Ba as [La _].
  destruct (acu_start_step cr Hdraw c i s d ra (rb :: t) w) as (Hf1 & tx & Estart & Hc0); [done..|].
  set (sel := (if d then 0 else 1)%Z) in *. set (s0 := challenged ra sel (as_next_seq s) (lk_clock w) s) in *.
  pose proof (acu_has_at c i s s0 tx Hs eq_refl eq_refl) as Hs0. set (c0 := at_slot i c s0 tx) in *.
  set (key := if d then as_scbk_d s else as_scbk s) in *.
  assert (acu_base_key s0 = key ∧ as_address s0 = as_address s ∧ as_sc_phase s0 = OSDP_ACU_SC_AWAITING_CCRYPT ∧
    as_sc_rnd_a s0 = ra ∧ as_pending_seq s0 = as_next_seq s ∧ as_sc_key_selector s0 = sel ∧ quiet (lk_clock w) s0)
    as (Ekey & Ea0 & Eph0 & Era0 & Eseq0 & Esel0 & Eq0).
  { split_and!; [by unfold key, s0, sel; destruct d|done..|by apply (sent_quiet _ s)]. }
  assert (ac_integrity c0 = ac_integrity c ∧ ac_sc_crypto c0 = cr) as [Ei0 Ecr0] by done.
  clearbody c0 s0.
  set (f1 := hs_frame (as_address s) false (as_next_seq s) (ac_integrity c) OSDP_SCS_11 sel OSDP_CMD_CHLNG ra) in *.
  set (w0 := w <| lk_tape := rb :: t |> <| lk_to_pd := message f1 |>) in *.
  destruct (pd_chlng_step cr E D Hdraw p w0 (as_next_seq s) (ac_integrity c) sel ra rb t key)
    as (p1 & Ep1 & Hp1 & [Hk1 Hsc1 Hun1] & HR1);
    [done|done|done|lia|done|by destruct d|by rewrite <-Ha|done|done|done|].
  rewrite <-Ha in *.
  set (w1 := w0 <| lk_to_pd := [] |> <| lk_tape := t |> <| lk_to_acu := _ |>) in *.
  pose proof (so_cuid _ (pi_sc (TC := fixed_of p) p (pl_ok p (pk_linked _ _ _ _ Hp)))) as [Lc _].
  destruct (acu_ccrypt_step cr E D c0 i s0 (sc_cuid (pd_sc p)) rb w1) as (_ & c1 & Ec1 & Hc1 & Hs1 & Hcr1 & Hi1 & Bks);
    rewrite ?Ekey, ?Ea0, ?Era0, ?Eseq0, ?Esel0, ?Ei0 in *; [done..|].
  set (ks := derived_keys E key ra) in *. intros ks'. change ks' with ks. clear ks'.
  set (s1 := answered_slot (sc_cuid (pd_sc p)) rb ks (lk_clock w1) s0) in *.
  assert (as_address s1 = as_address s ∧ as_sc_phase s1 = OSDP_ACU_SC_AWAITING_RMAC_I ∧ as_sc_rnd_a s1 = ra ∧
    as_sc_rnd_b s1 = rb ∧ as_pending_seq s1 = advance_sqn (as_next_seq s) ∧ ss_keys (as_sc_session s1) = ks ∧
    quiet (lk_clock w) s1) as (Ea1 & Eph1 & Era1 & Erb1 & Eseq1 & Eks1 & Eq1).
  { rewrite <-Ea0, <-Era0, <-Eseq0. split_and!; [done..|]. by apply (sent_quiet _ s0); [apply Eq0|..]. }
  clearbody s1. set (f2 := hs_frame _ false _ _ OSDP_SCS_13 _ OSDP_CMD_SCRYPT _) in *.
  set (w2 := w1 <| lk_to_acu := [] |> <| lk_to_pd := message f2 |>) in *.
  assert (lk_to_pd w2 = message f2 ∧ lk_to_acu w2 = [] ∧ lk_tape w2 = t ∧ lk_events w2 = lk_events w ∧
    logs_kept w w2) as (L1 & L2 & L3 & L4 & L5) by done.
  clearbody w0 w1 w2. exists c0, w0, p1, w1, c1, w2, s1. split; [done|]. split; [done|]. split; [done|].
  split; [|by split_and!].
  pose proof Hp as [_ Hpconf Hpcr _ Hpcap _].
  constructor; rewrite ?Era1, ?Erb1, ?Ea1, ?Eseq1, ?Hi1; try done; try (by rewrite Hsc1).
  - unfold osdp_pd_internal_sc_configured. by rewrite Hsc1.
  - by rewrite (kp_tx_cap _ _ Hk1).
  - rewrite (kp_pending _ _ Hk1). by destruct Hp.
  - by rewrite (kp_address _ _ Hk1).
  - by destruct d.
  - by apply Hun1, advance_sqn_ne.
  - by rewrite (proj2 (proj2 (proj2 L5))).
Qed.

Lemma second_round c i s p sel ks w :
  halfway c i s p sel ks w →
  ∃ p' w1 c' w' s', osdp_pd_tick p w = Some (tt, p', w1) ∧ osdp_acu_tick c w1 = Some (tt, c', w') ∧
    in_session cr c' i s' p' w' ∧ ss_keys (as_sc_session s') = ks ∧
    as_next_seq s' = advance_sqn (as_pending_seq s) ∧ as_address s' = as_address s ∧
    lk_events w' = lk_events w ++ [mk_sc_event (as_address s) OSDP_ACU_SC_EVENT_ESTABLISHED] ∧ lk_tape w' = lk_tape w ∧
    logs_kept w w' ∧ kept p p'.
Proof.
  intros [Hc Hs Hcr Hph Hks Hp Hpcr Hconf Hcap Hpend Hgot Hpks Hra Hrb Ha Hsel Hline Hnew Hquiet Hacu].
  pose proof (acu_has_ok (TC := acu_fixed_of c) c i s (al_ok c Hc) Hs) as Hslot.
  pose proof (sk_pending s Hslot) as Hq. pose proof (ai_integrity (TC := acu_fixed_of c) c (al_ok c Hc)) as Hint.
  pose proof (sk_session s Hslot) as (Bks & _ & _). rewrite Hks in Bks.
  pose proof (sk_rnd_a s Hslot) as Ba. pose proof (sk_rnd_b s Hslot) as Bb. rewrite Ha in *.
  destruct (pd_scrypt_step cr E D p w (as_pending_seq s) (ac_integrity c) sel (as_sc_rnd_a s) (as_sc_rnd_b s) ks)
    as (p2 & Ep2 & Hp2 & [Hk2 Hsc2 Hun2] & HR2 & Brm); [done..|].
  set (rmac := rmac_of E ks _) in *. set (w1 := w <| lk_to_pd := [] |> <| lk_to_acu := _ |>) in *.
  assert (lk_to_acu w1 = message (hs_frame (pd_address p) true (as_pending_seq s) (ac_integrity c) OSDP_SCS_14 1
    OSDP_REPLY_RMAC_I rmac) ∧ lk_to_pd w1 = [] ∧ lk_events w1 = lk_events w ∧ lk_tape w1 = lk_tape w ∧ logs_kept w w1)
    as (L1 & L2 & L3 & L4 & L5)
    by done.
  clearbody w1. rewrite <-(proj2 (proj2 (proj2 L5))) in Hquiet.
  destruct (acu_rmac_i_step cr E D c i s w1) as (c2 & Ec2 & Hc2 & Hs2 & Hcr2 & _); rewrite ?Hks, ?Ha in *; [done..|].
  fold rmac in Ec2, Hs2. set (w2 := log_event _ _) in *. set (s2 := accepted_slot rmac (lk_clock w1) s) in *.
  assert (as_address s2 = pd_address p ∧ as_sc_phase s2 = OSDP_ACU_SC_ESTABLISHED ∧ as_waiting s2 = false ∧
    as_sc_session s2 = mk_session (ss_keys (as_sc_session s)) rmac rmac true ∧ as_next_seq s2 = advance_sqn (as_pending_seq s) ∧
    as_online s2 = true ∧ as_last_reply_ms s2 = lk_clock w2) as (Ea & Eph & Ew & Ess & Eq & Heard) by (by split_and!).
  assert (lk_to_pd w2 = [] ∧ lk_to_acu w2 = [] ∧ lk_tape w2 = lk_tape w ∧
    lk_events w2 = lk_events w ++ [mk_sc_event (pd_address p) OSDP_ACU_SC_EVENT_ESTABLISHED] ∧ logs_kept w w2)
    as (M1 & M2 & M3 & M4 & M5).
  { rewrite <-L2, <-L3, <-L4. by split_and!. }
  rewrite Hks in Ess. clearbody s2 w2. exists p2, w1, c2, w2, s2. split_and!; try done; [|by rewrite Ess].
  constructor; rewrite ?Ess, ?Hsc2, ?Eq; try done; [by apply advance_sqn_pos|by apply Hun2, advance_sqn_ne| | |].
  - unfold osdp_pd_internal_sc_configured. by rewrite Hsc2.
  - by rewrite (kp_pending _ _ Hk2).
  - by rewrite Ea, (kp_address _ _ Hk2).
Qed.

Lemma agreement c i s d p ra rb t w :
  paired cr c i s d p → rnd_ok ra → rnd_ok rb → silent (lk_clock w) s = false →
  lk_tape w = ra :: rb :: t → lk_to_pd w = [] → lk_to_acu w = [] →
  ∃ c' s' p' w', handshake (as_address s) d c p w = Some (c', p', w') ∧ in_session cr c' i s' p' w' ∧
    ss_keys (as_sc_session s') = derived_keys E (if d then as_scbk_d s else as_scbk s) ra ∧
    as_next_seq s' = advance_sqn (advance_sqn (as_next_seq s)) ∧
    lk_events w' = lk_events w ++ [mk_sc_event (as_address s) OSDP_ACU_SC_EVENT_ESTABLISHED] ∧ lk_tape w' = t ∧
    as_address s' = as_address s ∧ logs_kept w w' ∧ kept p p'.
Proof.
  intros Hpair Ba Bb Hsil Htape Hpd Hacu.
  destruct (first_round c i s d p ra rb t w) as (c0 & w0 & p1 & w1 & c1 & w2 & s1 & E0 & E1 & E2 & Hh & Eq & Ea & Et & Ee & Er & Hk1);
    [done..|].
  destruct (second_round c1 i s1 p1 _ _ w2 Hh) as (p2 & w3 & c2 & w4 & s2 & E3 & E4 & Hin & Hk & Eq' & Ea' & Ee' & Et' & Er' & Hk2).
  exists c2, s2, p2, w4. split; [|split_and!; [done|done|by rewrite Eq', Eq|by rewrite Ee', Ee, Ea|by rewrite Et'|by rewrite Ea'|by eapply logs_kept_trans|by eapply kept_trans]].
  unfold handshake. rewrite E0. cbn [mbind option_bind]. rewrite decide_True by done. cbn [rounds].
  rewrite E1. cbn [mbind option_bind]. rewrite E2. cbn [mbind option_bind].
  rewrite E3. cbn [mbind option_bind]. by rewrite E4.
Qed.

(** C3: The handshake.  An ACU slot and a PD with one cipher and one base key
    (SCBK, or SCBK-D under [use_default_key]) on a line without loss: after
    [osdp_acu_start_sc_handshake] and two rounds of ticks both sides hold a live
    session with the keys derived from the ACU's challenge and mirrored MAC chains
    (which is what [ScFrame.sc_conversation_in_sync] starts from), the slot is
    ESTABLISHED with its sequence number two steps on, the application got exactly
    one ESTABLISHED event, and nothing is left on the line. *)
Theorem handshake_agreement c i s d p ra rb t w :
  paired cr c i s d p → rnd_ok ra → rnd_ok rb → silent (lk_clock w) s = false →
  lk_tape w = ra :: rb :: t → lk_to_pd w = [] → lk_to_acu w = [] →
  ∃ c' s' p' w', handshake (as_address s) d c p w = Some (c', p', w') ∧ in_session cr c' i s' p' w' ∧
    ss_keys (as_sc_session s') = derived_keys E (if d then as_scbk_d s else as_scbk s) ra ∧
    as_next_seq s' = advance_sqn (advance_sqn (as_next_seq s)) ∧
    lk_events w' = lk_events w ++ [mk_sc_event (as_address s) OSDP_ACU_SC_EVENT_ESTABLISHED] ∧ lk_tape w' = t.
Proof.
  intros. destruct (agreement c i s d p ra rb t w) as (c' & s' & p' & w' & ? & ? & ? & ? & ? & ? & _); [done..|].
  by exists c', s', p', w'.
Qed.

End agreement.

(** ** Witness *)

Definition line_crypto : osdp_sc_crypto link :=
  mk_crypto (Some (λ k b, (OSDP_OK, toy k b))) (Some (λ k b, (OSDP_OK, toy k b))) (Some draw).

#[export] Instance line_aes : Aes line_crypto toy toy.
Proof.
  constructor; [by eexists|by eexists|intros; by apply xor_block_ok|intros; by apply xor_block_ok|
    intros; by apply xor_block_cancel].
Qed.

Lemma line_cipher_ok : cipher_ok line_crypto.
Proof.
  split; [by exists toy, toy; apply line_aes|]. intros rand w [= <-]. unfold draw.
  destruct (lk_tape w); cbn [fst snd]; [by split; [apply le_0_n|constructor]|].
  split; [apply length_fetch|apply fetch_bytes].
Qed.

Definition ex_line : link := mk_link [] [] [replicate 8 1%Z; replicate 8 2%Z; [3%Z]] [] [] [] [] 5000.

Definition ex_peripheral (app : option (osdp_pd_command_cb link)) : osdp_pd link :=
  pd_device 0x25 [OpTransport (Some pd_port); OpScCrypto (Some line_crypto); OpScbk (Ptr OSDP_SCBK_DEFAULT);
    OpCuid (Ptr (replicate 8 9%Z)); OpCommandHandler app] ex_line.

Definition ex_control : osdp_acu link :=
  acu_device 1 [AOpTransport (Some acu_port); AOpReplyHandler (Some (reports log_reply)); AOpScEventHandler (Some (reports log_event));
    AOpTimeoutHandler (Some (reports log_timeout)); AOpScCrypto (Some line_crypto); AOpRegister 0 0x25; AOpScbk 0x25 (Ptr OSDP_SCBK_DEFAULT)] ex_line.

Definition ex_slot : osdp_acu_pd_slot := default slot_zero (ac_pds ex_control !! 0).

Lemma ex_paired app : pd_op_ok (OpCommandHandler app) → paired line_crypto ex_control 0 ex_slot false (ex_peripheral app).
Proof.
  intros Happ.
  assert (∀ n l, Z.of_nat (length (fetch n l)) ≤ Z.of_nat n)%Z as Hlen by (intros; pose proof (length_fetch n l); lia).
  constructor; [| |by vm_compute|by vm_compute|by vm_compute| |by vm_compute|apply unseen_zero].
  - constructor; [|by vm_compute..]. apply acu_device_ok. repeat (apply Forall_cons_2); [|by intros h e w [= <-]|by intros h e w [= <-]|by intros h e w [= <-]|apply line_cipher_ok|..|constructor].
    + split; [|by eexists]. intros read [= <-] n w. cbn. pose proof (Hlen n (lk_to_acu w)); pose proof (Hlen n (lk_to_pd w)). split_and!; [lia|lia|apply fetch_bytes].
    + by vm_decide.
    + by vm_decide.
  - constructor; [by vm_compute|by vm_compute|]. intros [|j] s' Hj; [done|]. by destruct j.
  - constructor; [|by vm_compute..| |by vm_compute].
    + constructor; [|by vm_compute..]. apply pd_device_ok. repeat (apply Forall_cons_2); [|apply line_cipher_ok|..|constructor].
      * intros read [= <-] n w. cbn. pose proof (Hlen n (lk_to_acu w)); pose proof (Hlen n (lk_to_pd w)). split_and!; [lia|lia|apply fetch_bytes].
      * by vm_decide.
      * by vm_decide.
      * exact Happ.
    + by vm_decide.
Qed.

Lemma handshake_agreement_witness :
  ∃ c' s' p' w', handshake (as_address ex_slot) false ex_control (ex_peripheral None) ex_line = Some (c', p', w') ∧
    in_session line_crypto c' 0 s' p' w' ∧
    ss_keys (as_sc_session s') = derived_keys toy (as_scbk ex_slot) (replicate 8 1%Z) ∧
    as_next_seq s' = advance_sqn (advance_sqn (as_next_seq ex_slot)) ∧
    lk_events w' = lk_events ex_line ++ [mk_sc_event (as_address ex_slot) OSDP_ACU_SC_EVENT_ESTABLISHED] ∧
    lk_tape w' = [[3%Z]].
Proof.
  apply (handshake_agreement line_crypto toy toy eq_refl ex_control 0 ex_slot false (ex_peripheral None)
    (replicate 8 1%Z) (replicate 8 2%Z) [[3%Z]] ex_line (ex_paired None I)); by vm_decide.
Defined.
