(* ===== verification/Session.v ===== *)
(** * Commands under a session

    The two sides of a live session as a remote procedure call: a command given to
    [osdp_acu_send_command] reaches the PD's application handler decrypted and
    verified, and the handler's reply reaches the ACU's reply handler; the session
    stays in step for any sequence of commands.  A BUSY reply ends the session. *)
From S2P Require Import Prelude Types State Pack Frame Stream Commands Records Dispatch ScCrypto ScFrame.
From S2P Require Import PdTypes PdEvents PdPdcap PdBanks PdDispatch PdSc Pd PdInv PdSafe PdReach PdSpec.
From S2P Require Import AcuTypes AcuBanks AcuCmd AcuSc Acu AcuSlot AcuInv AcuSafe AcuReach AcuSpec Link Steps Handshake.

(** ** The application of the PD *)

(** The application executes a request. *)
Definition executed (r : Z * list Z) (w : link) : link := w <| lk_served := lk_served w ++ [r] |>.

(** A handler that executes every command and answers with [f] of its code and payload. *)
Definition serve (f : Z → list Z → Z * list Z) : osdp_pd_command_cb link :=
  λ code p n _ w, (OSDP_OK, mk_reply (f code (view p n)).1 (Ptr (f code (view p n)).2) (length (f code (view p n)).2),
                   executed (code, view p n) w).

(** The commands the library leaves to the application, or to the event queue. *)
Definition library_codes : list Z :=
  [OSDP_CMD_COMSET; OSDP_CMD_FILETRANSFER; OSDP_CMD_ABORT; OSDP_CMD_ACURXSIZE; OSDP_CMD_KEEPACTIVE;
   OSDP_CMD_LSTAT; OSDP_CMD_ISTAT; OSDP_CMD_OSTAT; OSDP_CMD_RSTAT; OSDP_CMD_CAP; OSDP_CMD_MFG; OSDP_CMD_KEYSET;
   OSDP_CMD_LED; OSDP_CMD_BUZ].

(** A payload that fits one chunk of the line, wrapped. *)
Definition short (l : list Z) : Prop := bytes_ok l ∧ length l ≤ 111.

#[export] Instance short_dec l : Decision (short l).
Proof. unfold short. apply _. Defined.

(** The dispatch hands such a command to the handler. *)
Lemma dispatch_served f ch code m n (q : osdp_pd link) w :
  code ∉ library_codes → pd_cmd_cb q = Some (serve f) → pd_event_len q < EVENT_HEADER_BYTES →
  osdp_pd_internal_dispatch ch code (Ptr m) n q w =
    Some ((OSDP_PD_DISPATCH_SEND, mk_reply (f code (take n m)).1 (Ptr (f code (take n m)).2)
      (length (f code (take n m)).2)), q, executed (code, take n m) w).
Proof.
  unfold library_codes. rewrite !not_elem_of_cons.
  intros (H1 & H2 & H3 & H4 & H5 & H6 & H7 & H8 & H9 & H10 & H11 & H12 & H13 & H14 & _) Hcb Hev.
  unfold osdp_pd_internal_dispatch, library_command. repeat (rewrite (decide_False (P := code = _)) by done). cbv iota.
  assert (handle_status_request code q w = Some (None, q, w)) as Estat.
  { unfold handle_status_request, status_request. m_run. repeat (rewrite (decide_False (P := code = _)) by done). by m_run. }
  unfold bound_command. rewrite run_assoc, (run_bind _ _ _ _ _ _ _ Estat).
  rewrite (decide_False (P := code = OSDP_CMD_CAP)), (decide_False (P := code = OSDP_CMD_MFG)) by done. m_run.
  assert ((if decide (code = OSDP_CMD_POLL) then osdp_pd_internal_dequeue_event else mret None) q w =
    Some (None, q, w)) as Epoll.
  { case_decide; [|done]. unfold osdp_pd_internal_dequeue_event. m_run. rewrite (bool_decide_true (_ < _)) by done.
    rewrite orb_true_r. by m_run. }
  rewrite (run_bind _ _ _ _ _ _ _ Epoll). m_run. cbn [fmap option_fmap option_map]. unfold app_command. m_run.
  rewrite Hcb. m_run. rewrite run_host. unfold serve. cbn [fst snd view].
  assert (osdp_pd_internal_is_observed_command code = false) as Hobs by (apply bool_decide_false; tauto).
  assert (∀ w, osdp_pd_internal_observe_command code (Ptr m) n q w = Some (OSDP_ERR_NOT_SUPPORTED, q, w)) as Eobs
    by (unfold osdp_pd_internal_observe_command; by rewrite Hobs).
  rewrite (run_bind _ _ _ _ _ _ _ (Eobs _)), Hobs, !andb_false_r. cbn [andb apply_app_status]. m_run.
  rewrite decide_False by (by intros []). by rewrite decide_False by done.
Qed.

(** ** Messages of a session *)

(** A command or a reply before it is wrapped. *)
Definition op_template (address : Z) (rpl : bool) (seq i ty code : Z) (payload : list Z) : osdp_frame :=
  mk_frame address rpl seq i true (Z.of_nat OSDP_SCB_MIN_LEN) ty NULL 0 code (Ptr payload) (length payload) NULL 0 NULL 0.

Lemma op_template_ok address rpl seq i ty code payload :
  (0 ≤ address ≤ 0x7F)%Z → (0 ≤ seq ≤ 3)%Z → integrity_ok i → (OSDP_SCS_15 ≤ ty ≤ OSDP_SCS_18)%Z → is_byte code →
  short payload → sc_template (op_template address rpl seq i ty code payload).
Proof.
  intros Ha Hs Hi Hty Hc [Hb Hl]. unfold OSDP_SCS_15, OSDP_SCS_18 in Hty.
  constructor; cbn; [|done..|lia|lia|done|done].
  constructor; cbn; unfold is_byte in *; first [lia|done|idtac].
Qed.

Section messages.
Context (cr : osdp_sc_crypto link) (E D : list Z → list Z → list Z) {A : Aes cr E D}.
Implicit Types (s : osdp_sc_session) (t : osdp_frame).

Lemma sealed_fields s t :
  let g := sealed E s t in
  fr_address g = fr_address t ∧ fr_reply g = fr_reply t ∧ fr_sequence g = fr_sequence t ∧
  fr_integrity g = fr_integrity t ∧ fr_has_scb g = fr_has_scb t ∧ fr_code g = fr_code t ∧
  fr_scb_type g = coerce_scb_type (fr_payload_len t) (fr_scb_type t).
Proof. unfold sealed, sealed_shape. cbv zeta. by destruct (osdp_scb_is_encrypted _). Qed.

Lemma short_total t : fr_payload_len t ≤ 111 → wire_payload_len t ≤ 112 ∧ S (sealed_total t) ≤ CHUNK.
Proof.
  intros Hl. assert (wire_payload_len t ≤ 112) as Hw.
  { unfold wire_payload_len. case_decide; [lia|]. pose proof (Nat.Div0.div_le_mono (fr_payload_len t) 111 16 Hl).
    change (111 / 16) with 6 in *. lia. }
  split; [done|]. unfold sealed_total, integrity_size, CHUNK. case_decide; lia.
Qed.

Lemma sealed_sendable s t :
  session_ok s → sc_template t → fr_payload_len t ≤ 111 →
  sendable (sealed E s t) ∧ frame_total (sealed E s t) = sealed_total t ∧ block (seal_mac E s t).
Proof.
  intros Hs Ht Hl. destruct (short_total t Hl) as [_ Hn].
  destruct (sealed_facts cr E D s t Hs Ht) as (Hg & Hb & Htot & Bm & _);
    [unfold CHUNK, OSDP_FRAME_MAX_LEN in *; lia|]. split; [split; [done|]; split; [done|by rewrite Htot]|done].
Qed.

(** The PD's handler on a wrapped command: verified, served, and the reply wrapped. *)
Lemma operational_served f (q : osdp_pd link) a b address code payload seq i w :
  let t := op_template address false seq i OSDP_SCS_17 code payload in
  let r := f code payload in
  let b' := mk_session (ss_keys b) (last_outbound_mac b) (seal_mac E a t) true in
  let rt := op_template address true seq i OSDP_SCS_18 r.1 r.2 in
  sc_crypto (pd_sc q) = cr → sc_session (pd_sc q) = b → session_ok a → session_ok b → mirrored a b → pd_cmd_cb q = Some (serve f) →
  pd_event_len q < EVENT_HEADER_BYTES → region (pd_tx q) (pd_tx_cap q) → 128 ≤ pd_tx_cap q →
  region (pd_rx_plain q) (pd_rx_plain_cap q) → 112 ≤ pd_rx_plain_cap q → pd_reply_cacheable q = true →
  sc_template t → sc_template rt → code ∉ library_codes → length payload ≤ 111 → length r.2 ≤ 111 →
  ∃ q1, handle_operational (decoded_of (sealed E a t)) q w = Some (S (frame_total (sealed E b' rt)), q1, executed (code, payload) w) ∧
    rd_slice (pd_tx q1) 0 (S (frame_total (sealed E b' rt))) = Some (message (sealed E b' rt)) ∧
    kept q q1 ∧ pd_reply_cacheable q1 = true ∧
    pd_sc q1 = (pd_sc q) <| sc_session := mk_session (ss_keys b) (seal_mac E b' rt) (last_inbound_mac b') true |>.
Proof.
  intros t r b' rt Hcr Hsess Ha Hb Hm Hcb Hev Htx Hcap Hpl Hpcap Hcache Ht Hrt Hcode Hlp Hlr.
  destruct (pd_tx q) as [|tx] eqn:Etx; [done|]. destruct (pd_rx_plain q) as [|plain] eqn:Epl; [done|].
  cbn [region] in Htx, Hpl.
  destruct (short_total t Hlp) as [Hw1 Hn1]. destruct (short_total rt Hlr) as [Hw2 Hn2].
  destruct (sealed_sendable a t Ha Ht Hlp) as (_ & _ & Bm).
  assert (sealed_total t ≤ OSDP_FRAME_MAX_LEN ∧ sealed_total rt ≤ OSDP_FRAME_MAX_LEN) as [Hx1 Hx2]
    by (unfold CHUNK, OSDP_FRAME_MAX_LEN in *; lia).
  assert (session_ok b') as Hb' by (destruct Hb as (? & ? & ? & ?); by split_and!).
  destruct (sealed_sendable b' rt Hb' Hrt Hlr) as (_ & Htot & _).
  destruct (unwrap_ok cr E D a b t plain (pd_rx_plain_cap q) 0 Ha Hb Hm Ht Hx1 ltac:(lia) Hpl) as (o' & Eu & Htk & _).
  fold b' in Eu. change (take (length payload) o' = take (length payload) payload) in Htk.
  rewrite (take_ge payload) in Htk by lia. change (fr_payload_len t) with (length payload) in Eu.
  unfold handle_operational. m_run. destruct Hb as [Hest _]. rewrite Hsess, Hest. cbn [negb].
  unfold operational_unwrap. rewrite !run_assoc. m_run. unfold id. rewrite Epl, Hcr, Hsess.
  rewrite (run_lift _ _ _ _ _ Eu). unfold set_session, with_sc. m_run. m_ok.
  destruct (sealed_fields a t) as (Ea & _ & Es & Ei & _ & Ec & _).
  change (fr_code (decoded_of (sealed E a t))) with (fr_code (sealed E a t)). rewrite Ec.
  set (q2 := set pd_sc (λ sc : osdp_pd_sc link, sc <| sc_session := b' |>) q <| pd_rx_plain := Ptr o' |>).
  pose proof (dispatch_served f OSDP_PD_CH_SC1 code o' (length payload) q2 w Hcode Hcb Hev) as Ed. rewrite Htk in Ed.
  change (fr_code t) with code. rewrite (run_bind _ _ _ _ _ _ _ Ed). fold r.
  assert (sc_reply_template (decoded_of (sealed E a t)) (mk_reply r.1 (Ptr r.2) (length r.2)) = rt) as Ert.
  { unfold sc_reply_template, rt, op_template. cbn [rp_code rp_payload rp_payload_len].
    change (fr_address (decoded_of (sealed E a t))) with (fr_address (sealed E a t)).
    change (fr_sequence (decoded_of (sealed E a t))) with (fr_sequence (sealed E a t)).
    change (fr_integrity (decoded_of (sealed E a t))) with (fr_integrity (sealed E a t)). by rewrite Ea, Es, Ei. }
  destruct (wrap_cases cr E D b' rt tx (pd_tx_cap q) 0 Hb' Hrt Htx) as [(_ & _ & Ew)|(Hbad & _)];
    [|unfold CHUNK in *; lia].
  unfold operational_wrap. m_run. unfold id. rewrite Ert.
  change (sc_crypto (pd_sc q2)) with (sc_crypto (pd_sc q)). change (sc_session (pd_sc q2)) with b'.
  change (pd_tx q2) with (pd_tx q). change (pd_tx_cap q2) with (pd_tx_cap q). rewrite Hcr, Etx, (run_lift _ _ _ _ _ Ew).
  unfold set_session, with_sc. m_run. m_ok. rewrite Htot. eexists. split; [reflexivity|].
  split; [|split; [by constructor|by split]].
  destruct (sealed_facts cr E D b' rt Hb' Hrt Hx2) as (Hg & Hbd & _).
  cbn [pd_tx]. apply (rd_front (message (sealed E b' rt))). unfold message. cbn [length].
  by rewrite length_frame_wire, Htot.
Qed.

End messages.

(** ** Steps of a call *)

Section steps.
Context (cr : osdp_sc_crypto link) (E D : list Z → list Z → list Z) {A : Aes cr E D}.

(** The slot once the command is on the line. *)
Definition called (code now : Z) (mac : list Z) (s : osdp_acu_pd_slot) : osdp_acu_pd_slot :=
  pending_slot (as_next_seq s) code now
    (s <| as_sc_session := mk_session (ss_keys (as_sc_session s)) mac (last_inbound_mac (as_sc_session s)) true |>).

Lemma acu_call_step c i s code payload w :
  let t := op_template (as_address s) false (as_next_seq s) (ac_integrity c) OSDP_SCS_17 code payload in
  acu_linked c → acu_has c i s → ac_sc_crypto c = cr → as_sc_phase s = OSDP_ACU_SC_ESTABLISHED →
  as_waiting s = false → session_ok (as_sc_session s) → code ∉ library_codes → is_byte code → short payload →
  lk_to_pd w = [] →
  sc_template t ∧ ∃ tx, let c' := at_slot i c (called code (lk_clock w) (seal_mac E (as_sc_session s) t) s) tx in
    osdp_acu_send_command (as_address s) code (Ptr payload) (length payload) c w =
      Some (OSDP_OK, c', w <| lk_to_pd := message (sealed E (as_sc_session s) t) |>) ∧ acu_linked c'.
Proof.
  intros t Hc Hs Hcr Hph Hwait Hss Hcode Hbyte Hpay Hline. pose proof (acu_has_in c i s Hs) as Hi.
  pose proof (al_ok c Hc) as Hok. pose proof (acu_has_ok (TC := acu_fixed_of c) c i s Hok Hs) as Hslot.
  pose proof (al_port c Hc) as Hport. pose proof (sk_next s Hslot) as Hq. pose proof Hpay as [Yp Lp].
  assert (Z.land (as_next_seq s) 0x03 = as_next_seq s) as Eq.
  { change 0x03%Z with (Z.ones 2). rewrite Z.land_ones by lia. apply Z.mod_small. lia. }
  assert (sc_template t) as Ht.
  { apply op_template_ok; first [apply Hslot|apply (ai_integrity (TC := acu_fixed_of c) c Hok)|done|by vm_decide]. }
  split; [done|].
  destruct (sealed_sendable cr E D (as_sc_session s) t Hss Ht Lp) as ((Hg & Hb & Hn) & Htot & Bm).
  destruct (ac_tx_buf c) as [|tx] eqn:Etx.
  { pose proof (ai_tx (TC := acu_fixed_of c) c Hok) as Hr. by rewrite Etx in Hr. }
  assert (OSDP_ACU_BUF_LEN ≤ length tx) as Hr.
  { pose proof (ai_tx (TC := acu_fixed_of c) c Hok) as Hr. by rewrite Etx in Hr. }
  destruct (wrap_cases cr E D (as_sc_session s) t tx OSDP_ACU_BUF_LEN 0 Hss Ht Hr) as [(_ & _ & Ew)|(Hbad & _)];
    [|rewrite Htot in Hn; unfold CHUNK, OSDP_ACU_BUF_LEN, OSDP_FRAME_MAX_LEN in *; lia].
  destruct (sw_run i c (osdp_acu_send_command (as_address s) code (Ptr payload) (length payload)) OSDP_OK s
    (called code (lk_clock w) (seal_mac E (as_sc_session s) t) s) w (w <| lk_to_pd := message (sealed E (as_sc_session s) t) |>) Hs)
    as (tx' & Erun).
  { unfold osdp_acu_send_command. rewrite decide_False by (by intros []). apply sw_get. unfold id.
    eapply sw_lift; [apply (ah_find _ _ _ (acu_has_at c i s s _ Hs eq_refl eq_refl))|].
    apply sw_slot; [done|]. rewrite Hwait. change (ac_transport (at_slot i c s (ac_tx_buf c))) with (ac_transport c).
    rewrite Hport. cbn [at_write acu_port]. cbv zeta.
    assert (cmd_frame (at_slot i c s (ac_tx_buf c)) s (as_address s) code (Ptr payload) (length payload) = t) as ->.
    { unfold cmd_frame. rewrite Hph, Eq. done. }
    apply sw_bind. unfold build_cmd. apply sw_get, sw_slot; [done|]. unfold id.
    rewrite decide_True by done. change (ac_sc_crypto (at_slot i c s (ac_tx_buf c))) with (ac_sc_crypto c).
    change (ac_tx_buf (at_slot i c s (ac_tx_buf c))) with (ac_tx_buf c). rewrite Hcr, Etx.
    eapply sw_lift; [exact Ew|]. eapply sw_lift; [reflexivity|]. apply sw_with; [done|]. apply sw_set_tx.
    eapply sw_lift; [reflexivity|]. apply sw_ret. rewrite decide_False by (by intros []).
    apply sw_bind. eapply sw_write; [by rewrite Hport| |].
    { apply (rd_front (message (sealed E (as_sc_session s) t))). unfold message. cbn [length]. by rewrite length_frame_wire, Htot. }
    cbv zeta. cbn [fst snd]. rewrite bool_decide_true by (unfold message; cbn [length]; by rewrite length_frame_wire, Htot).
    cbn [negb]. apply sw_bind, sw_mark; [done|]. unfold now_of. rewrite Hport. cbn [at_now_ms acu_port fst snd].
    unfold library_codes in Hcode. rewrite !not_elem_of_cons in Hcode.
    unfold acu_observe_led, acu_observe_buzzer. rewrite !decide_True by tauto.
    apply sw_bind, sw_ret, sw_bind, sw_ret, sw_ret. split_and!; [done|..].
    - unfold called. change (fr_sequence t) with (as_next_seq s). done.
    - by rewrite Hline. }
  exists tx'. split; [done|]. apply acu_linked_at; [done|].
  destruct (send_command_safe (TC := acu_fixed_of c) (as_address s) code (Ptr payload) (length payload)) with (s := c) (w := w)
    as (r & c' & w' & E' & Hc' & _); [done|by split|done|].
  rewrite Erun in E'. injection E' as <- <- <-. by apply (acu_ok_of (acu_fixed_of c)).
Qed.

Definition returned (now : Z) (mac : list Z) (s : osdp_acu_pd_slot) : osdp_acu_pd_slot :=
  s <| as_sc_session := mk_session (ss_keys (as_sc_session s)) (last_outbound_mac (as_sc_session s)) mac true |>
    <| as_online := true |> <| as_last_reply_ms := now |> <| as_waiting := false |>
    <| as_next_seq := advance_sqn (as_pending_seq s) |>.

Definition logged (r : Z * Z * list Z) (w : link) : link := w <| lk_replies := lk_replies w ++ [r] |>.

Lemma acu_return_step c i s b code payload w :
  let t := op_template (as_address s) true (as_pending_seq s) (ac_integrity c) OSDP_SCS_18 code payload in
  acu_linked c → acu_has c i s → quiet (lk_clock w) s → ac_sc_crypto c = cr → as_sc_phase s = OSDP_ACU_SC_ESTABLISHED →
  as_waiting s = true → (1 ≤ as_pending_seq s)%Z → session_ok b → session_ok (as_sc_session s) →
  mirrored b (as_sc_session s) → sc_template t → length payload ≤ 111 →
  lk_to_acu w = message (sealed E b t) →
  ∃ c', osdp_acu_tick c w = Some (tt, c', logged (as_pending_code s, code, payload) (w <| lk_to_acu := [] |>)) ∧
    acu_linked c' ∧ acu_has c' i (returned (lk_clock w) (seal_mac E b t) s) ∧ ac_sc_crypto c' = cr ∧ ac_integrity c' = ac_integrity c.
Proof.
  intros t Hc Hs Hquiet Hcr Hph Hwait Hseq Hb Hss Hm Ht Lp Hline.
  destruct (sealed_sendable cr E D b t Hb Ht Lp) as (HR & Htot & Bm). destruct (short_total t Lp) as [Hw1 Hn1].
  destruct (sealed_fields E b t) as (Ea & Er & Eq & _ & Ehs & Ec & Ety).
  destruct (acu_take_step c i s (sealed E b t) (returned (lk_clock w) (seal_mac E b t) s) w
    (logged (as_pending_code s, code, payload) (w <| lk_to_acu := [] |>)))
    as (c' & Et & Hc' & Hs' & Hcr' & Hi'); [done..| |by exists c'; rewrite Hcr'].
  intros q Hq Hqs Htx _. pose proof (acu_has_in q i s Hqs) as Hi.
  assert (ac_transport q = acu_port ∧ ac_sc_crypto q = cr ∧ ac_reply_cb q = Some (reports log_reply)) as (Hport & Hqcr & Hqr).
  { rewrite Hq. by destruct Hc. }
  apply sw_route; [done|exact Er|exact Ehs|exact Ea|]. cbv zeta.
  assert (fr_scb_type (decoded_of (sealed E b t)) = OSDP_SCS_16 ∨ fr_scb_type (decoded_of (sealed E b t)) = OSDP_SCS_18) as Hty.
  { assert (fr_scb_type (decoded_of (sealed E b t)) = fr_scb_type (sealed E b t)) as ->
      by (unfold decoded_of; cbn [fr_scb_type]; by rewrite Ehs).
    rewrite Ety. change (fr_scb_type t) with OSDP_SCS_18. unfold coerce_scb_type. case_decide; [by left|by right]. }
  rewrite (decide_False (P := _ = OSDP_SCS_12)), (decide_False (P := _ = OSDP_SCS_14)), decide_True, decide_True
    by (done || (by destruct Hty as [->| ->])).
  unfold osdp_acu_internal_handle_sc_reply.
  assert (fr_sequence (decoded_of (sealed E b t)) = as_pending_seq s) as Es by exact Eq.
  rewrite Es. rewrite decide_False by lia. apply sw_slot; [done|]. rewrite Hwait, decide_False by (by intros [|[]]).
  apply sw_get. unfold id. change (ac_sc_crypto (at_slot i q s (ac_tx_buf q))) with (ac_sc_crypto q). rewrite Hqcr.
  assert (sealed_total t ≤ OSDP_FRAME_MAX_LEN) as Hx by (unfold CHUNK, OSDP_FRAME_MAX_LEN in *; lia).
  destruct (unwrap_ok cr E D b (as_sc_session s) t (replicate OSDP_ACU_BUF_LEN 0%Z) OSDP_ACU_BUF_LEN 0 Hb Hss Hm Ht Hx)
    as (o' & Eu & Htk & _); [unfold OSDP_ACU_BUF_LEN, OSDP_FRAME_MAX_LEN; lia|by rewrite length_replicate|].
  change (take (length payload) o' = take (length payload) payload) in Htk. rewrite (take_ge payload) in Htk by lia.
  eapply sw_lift; [exact Eu|]. eapply sw_lift; [reflexivity|]. apply sw_with; [done|].
  rewrite decide_False by (by intros []). eapply sw_lift; [reflexivity|].
  unfold osdp_acu_internal_deliver_reply. apply sw_with; [done|]. apply sw_now. unfold now_of. rewrite Hport.
  cbn [at_now_ms acu_port fst snd]. apply sw_with; [done|]. apply sw_slot; [done|]. cbv zeta. apply sw_with; [done|].
  apply sw_get. change (ac_reply_cb (at_slot i q _ _)) with (ac_reply_cb q). rewrite Hqr.
  apply sw_call_back; [apply plain_reports|]. split_and!; [done|done|]. unfold called_back, reports, log_reply, logged.
  cbn [cb_world]. cbn [re_cmd_code re_reply_code re_payload re_payload_len view].
  change (fr_code (decoded_of (sealed E b t))) with (fr_code (sealed E b t)). rewrite Ec.
  change (fr_payload_len t) with (length payload). by rewrite Htk.
Qed.

(** ** The PD executes a command *)

#[local] Opaque seal_mac sealed.

Section served.
Context (f : Z → list Z → Z * list Z) (a b : osdp_sc_session) (address n integ code : Z) (payload : list Z).

(** The command and the reply before they are wrapped, the PD's session in between and
    after, and the reply on the line. *)
Definition request : osdp_frame := op_template address false n integ OSDP_SCS_17 code payload.
Definition reply : osdp_frame := op_template address true n integ OSDP_SCS_18 (f code payload).1 (f code payload).2.
Definition heard : osdp_sc_session := mk_session (ss_keys b) (last_outbound_mac b) (seal_mac E a request) true.
Definition reply_sealed : osdp_frame := sealed E heard reply.
Definition replied : osdp_sc_session := mk_session (ss_keys b) (seal_mac E heard reply) (seal_mac E a request) true.

(** The ACU's session once the command is out, and once the reply is in. *)
Definition asked : osdp_sc_session := mk_session (ss_keys a) (seal_mac E a request) (last_inbound_mac a) true.
Definition informed : osdp_sc_session := mk_session (ss_keys a) (seal_mac E a request) (seal_mac E heard reply) true.

(** The chains stay in step. *)
Lemma served_sessions :
  session_ok a → session_ok b → mirrored a b → sc_template request → sc_template reply →
  length payload ≤ 111 → length (f code payload).2 ≤ 111 →
  session_ok asked ∧ session_ok heard ∧ mirrored asked heard ∧
  session_ok informed ∧ session_ok replied ∧ mirrored informed replied.
Proof.
  intros Hsa Hsb Hm Ht Hrt Hp Hr. destruct (sealed_sendable cr E D a request Hsa Ht Hp) as (_ & _ & Bm).
  destruct (chains_advance a b (seal_mac E a request) Hsa Hsb Hm Bm) as (Ha' & Hb' & Hm').
  fold asked heard in Ha', Hb', Hm'. destruct (sealed_sendable cr E D heard reply Hb' Hrt Hr) as (_ & _ & Bm2).
  destruct (chains_advance heard asked (seal_mac E heard reply) Hb' Ha' (mirrored_sym _ _ Hm') Bm2) as (Hb2 & Ha2 & Hm2).
  split_and!; [exact Ha'|exact Hb'|exact Hm'|exact Ha2|exact Hb2|]. exact (mirrored_sym _ _ Hm2).
Qed.

(** What the PD needs to execute it. *)
Record executes (p : osdp_pd link) : Prop := {
  ex_linked : pd_linked p;
  ex_configured : osdp_pd_internal_sc_configured (Some p) = true;
  ex_pending : pd_comset_pending p = false;
  ex_cipher : sc_crypto (pd_sc p) = cr;
  ex_address : pd_address p = address;
  ex_handler : pd_cmd_cb p = Some (serve f);
  ex_events : pd_event_len p < EVENT_HEADER_BYTES;
  ex_tx : 128 ≤ pd_tx_cap p;
  ex_plain : 112 ≤ pd_rx_plain_cap p }.

Lemma executes_answered p p' s k : executes p → pd_linked p' → answered p p' ((pd_sc p) <| sc_session := s |>) k → executes p'.
Proof.
  intros [] Hl [[] Hsc _]. constructor; try congruence; try done; rewrite ?Hsc; try done; try lia.
  - unfold osdp_pd_internal_sc_configured. by rewrite Hsc.
Qed.

Lemma pd_serves p w :
  executes p → sc_session (pd_sc p) = b → session_ok a → session_ok b → mirrored a b →
  sc_template request → sc_template reply → code ∉ library_codes → short payload → short (f code payload).2 →
  lk_to_pd w = message (sealed E a request) → lk_to_acu w = [] → unseen p n →
  ∃ p', osdp_pd_tick p w =
      Some (tt, p', (executed (code, payload) (w <| lk_to_pd := [] |>)) <| lk_to_acu := message reply_sealed |>) ∧
    executes p' ∧ answered p p' ((pd_sc p) <| sc_session := replied |>) n ∧
    (n ≠ 0%Z → CHUNK ≤ pd_rpl_cache_cap p → CHUNK ≤ pd_cmd_cache_cap p →
     replayable p' (sealed E a request) (message reply_sealed)).
Proof.
  intros Hex Hb Hsa Hsb Hm Ht Hrt Hcode Hpay Hrp Hpd Hacu Hnew. pose proof Hex as [Hp Hconf Hpend Hpcr Ha Hcb Hev Htx Hplain].
  destruct (sealed_sendable cr E D a request Hsa Ht (proj2 Hpay)) as (Hf & Htot & Bm).
  destruct (sealed_fields E a request) as (Efa & Efr & Efq & _ & Efs & _ & Efty).
  destruct (chains_advance a b (seal_mac E a request) Hsa Hsb Hm Bm) as (Ha' & Hb' & Hm').
  destruct (sealed_sendable cr E D heard reply Hb' Hrt (proj2 Hrp)) as ((_ & _ & HRlen) & _ & _).
  destruct (pd_answer_one p w (sealed E a request) reply_sealed ((pd_sc p) <| sc_session := replied |>)
    (executed (code, payload) (w <| lk_to_pd := [] |>))) as (p' & Etick & Hp' & Han & Hre); [done|done|exact Efr|
      by rewrite Efa|done|done|done|by rewrite Efq| |].
  2:{ exists p'. split; [exact Etick|]. split; [by eapply executes_answered|]. rewrite Efq in Han, Hre.
      split; [exact Han|]. intros. apply Hre; [done..|]. unfold reply_sealed, CHUNK in *. lia. }
  intros q Hk Eqs Hq' Hcache. destruct Hk as [Eqa _ _ _ Eqcb _ Eqc Eqp _ _ Eqe _].
  destruct (operational_served cr E D f q a b address code payload n integ
    (w <| lk_to_pd := [] |>)) as (q1 & Eh & Hrest); rewrite ?Eqs, ?Eqcb, ?Eqc, ?Eqp, ?Eqe; try done.
  { pose proof (pd_ok_tx q Hq') as H. by rewrite Eqc in H. }
  { pose proof (pi_plain (TC := fixed_of q) q Hq') as H. cbn in H. by rewrite Eqp in H. }
  { apply Hpay. } { apply Hrp. }
  rewrite Eqs in Hrest. exists q1. split; [|exact Hrest]. etransitivity; [|exact Eh].
  unfold handle_command_into_tx. m_run. unfold id.
  change (fr_has_scb (decoded_of (sealed E a request))) with (fr_has_scb (sealed E a request)). rewrite Efs. cbv iota.
  assert (osdp_pd_internal_sc_configured (Some q) = true) as ->.
  { unfold osdp_pd_internal_sc_configured. rewrite Eqs. exact Hconf. }
  unfold osdp_pd_internal_handle_sc_into_tx.
  assert (fr_scb_type (decoded_of (sealed E a request)) = OSDP_SCS_15 ∨
    fr_scb_type (decoded_of (sealed E a request)) = OSDP_SCS_17) as Hty.
  { assert (fr_scb_type (decoded_of (sealed E a request)) = fr_scb_type (sealed E a request)) as ->
      by (unfold decoded_of; cbn [fr_scb_type]; by rewrite Efs).
    rewrite Efty. change (fr_scb_type request) with OSDP_SCS_17. unfold coerce_scb_type. case_decide; [by left|by right]. }
  rewrite (decide_False (P := _ = OSDP_SCS_11)), (decide_False (P := _ = OSDP_SCS_13)), decide_True
    by (done || (by destruct Hty as [->| ->])). done.
Qed.
End served.

End steps.

(** ** Calls *)

(** One command, and one round of ticks. *)
Definition call (address code : Z) (payload : list Z) (c : osdp_acu link) (p : osdp_pd link) (w : link)
  : option (osdp_acu link * osdp_pd link * link) :=
  '(s, c, w) ← osdp_acu_send_command address code (Ptr payload) (length payload) c w;
  if decide (s = OSDP_OK) then rounds 1 c p w else None.

Fixpoint calls (address : Z) (requests : list (Z * list Z)) (c : osdp_acu link) (p : osdp_pd link) (w : link)
  : option (osdp_acu link * osdp_pd link * link) :=
  match requests with
  | [] => Some (c, p, w)
  | (code, payload) :: requests =>
      '(c, p, w) ← call address code payload c p w;
      calls address requests c p w
  end.

(** A session whose PD serves [f]. *)
Record serving (cr : osdp_sc_crypto link) (f : Z → list Z → Z * list Z) (c : osdp_acu link) (i : nat)
    (s : osdp_acu_pd_slot) (p : osdp_pd link) (w : link) : Prop := {
  sv_session : in_session cr c i s p w;
  sv_handler : pd_cmd_cb p = Some (serve f);
  sv_events : pd_event_len p < EVENT_HEADER_BYTES;
  sv_tx : 128 ≤ pd_tx_cap p;
  sv_plain : 112 ≤ pd_rx_plain_cap p }.

(** Requests the application serves, with requests and replies that fit. *)
Definition servable (f : Z → list Z → Z * list Z) (r : Z * list Z) : Prop :=
  is_byte r.1 ∧ (r.1 ∉ library_codes) ∧ short r.2 ∧ is_byte (f r.1 r.2).1 ∧ short (f r.1 r.2).2.

(** What the ACU's reply handler is given for a request. *)
Definition response (f : Z → list Z → Z * list Z) (r : Z * list Z) : Z * Z * list Z :=
  (r.1, (f r.1 r.2).1, (f r.1 r.2).2).

(** Each request executed once and answered once, in order, and nothing else happened. *)
Definition answered_logs (f : Z → list Z → Z * list Z) (requests : list (Z * list Z)) (w w' : link) : Prop :=
  lk_replies w' = lk_replies w ++ (response f <$> requests) ∧ lk_served w' = lk_served w ++ requests ∧
  lk_events w' = lk_events w.

Lemma answered_logs_app f r1 r2 w1 w2 w3 : answered_logs f r1 w1 w2 → answered_logs f r2 w2 w3 → answered_logs f (r1 ++ r2) w1 w3.
Proof. intros (E1 & E2 & E3) (F1 & F2 & F3). unfold answered_logs. by rewrite F1, F2, F3, E1, E2, E3, fmap_app, !app_assoc. Qed.

Section calls.
Context (cr : osdp_sc_crypto link) (E D : list Z → list Z → list Z) {A : Aes cr E D}.

Lemma heard_now now s : as_last_reply_ms s = now → silent now s = false.
Proof. intros H. unfold silent. by rewrite H, Z.sub_diag, andb_false_r. Qed.

Lemma call_served f c i s p w r :
  serving cr f c i s p w → servable f r →
  ∃ c' s' p' w', call (as_address s) r.1 r.2 c p w = Some (c', p', w') ∧ serving cr f c' i s' p' w' ∧
    as_address s' = as_address s ∧ answered_logs f [r] w w'.
Proof.
  destruct r as [code payload]. cbn [fst snd].
  intros [[Hc Hs Hcr Hph Hwait Hnext Hnew Hp Hconf Hpend Hpcr Ha Hsa Hsb Hheard Hm Hpd Hacu] Hcb Hev Htx Hplain]
    (Hbyte & Hcode & Hpay & Hrb & Hrp). cbn [fst snd] in *.
  pose proof (acu_has_ok (TC := acu_fixed_of c) c i s (al_ok c Hc) Hs) as Hslot.
  pose proof (sk_next s Hslot) as Hq. pose proof (ai_integrity (TC := acu_fixed_of c) c (al_ok c Hc)) as Hint.
  destruct (acu_call_step cr E D c i s code payload w) as (Ht & tx & Esend & Hc1); [done..|].
  fold (request (as_address s) (as_next_seq s) (ac_integrity c) code payload) in *.
  set (t := request _ _ _ _ _) in *. set (a := as_sc_session s) in *. set (b := sc_session (pd_sc p)) in *.
  set (s1 := called code (lk_clock w) (seal_mac E a t) s) in *. set (c1 := at_slot i c s1 tx) in *.
  pose proof (acu_has_at c i s s1 tx Hs eq_refl eq_refl) as Hs1. fold c1 in Hs1.
  set (rt := reply f (as_address s) (as_next_seq s) (ac_integrity c) code payload).
  assert (sc_template rt) as Hrt by (apply op_template_ok; first [apply Hslot|done|by vm_decide]).
  assert (executes cr f (as_address s) p) as Hex by (constructor; done).
  destruct (served_sessions cr E D f a b (as_address s) (as_next_seq s) (ac_integrity c) code payload Hsa Hsb Hm Ht Hrt
    (proj2 Hpay) (proj2 Hrp)) as (Ha' & Hb' & Hm' & Ha2 & Hb2 & Hm2).
  destruct (pd_serves cr E D f a b (as_address s) (as_next_seq s) (ac_integrity c) code payload p
    (w <| lk_to_pd := message (sealed E a t) |>)) as (p' & Etick & Hex' & [Hk' Hsc' Hun'] & _); [done..|].
  set (w2 := (executed _ _) <| lk_to_acu := _ |>) in *.
  destruct (acu_return_step cr E D c1 i s1 (heard E a b (as_address s) (as_next_seq s) (ac_integrity c) code payload)
    (f code payload).1 (f code payload).2 w2) as (c2 & Eret & Hc2 & Hs2 & Hcr2 & _);
    [done|done|by apply (sent_quiet _ s), eq_refl; [apply heard_now, Hheard|..]|exact Hcr|exact Hph|done|exact Hnext|
     exact Hb'|exact Ha'|by apply mirrored_sym|exact Hrt|apply Hrp|done|].
  set (s2 := returned _ _ s1) in *. set (w3 := logged _ _) in *.
  assert (as_sc_session s2 = informed E f a b (as_address s) (as_next_seq s) (ac_integrity c) code payload ∧
    as_address s2 = as_address s ∧ as_sc_phase s2 = as_sc_phase s ∧ as_waiting s2 = false ∧
    as_next_seq s2 = advance_sqn (as_next_seq s) ∧ as_online s2 = true ∧ as_last_reply_ms s2 = lk_clock w3)
    as (Ess & Eas & Eps & Ews & Eqs & Eo & El) by done.
  assert (answered_logs f [(code, payload)] w w3 ∧ lk_to_pd w3 = [] ∧ lk_to_acu w3 = []) as (L1 & L3 & L4)
    by (by split_and!).
  clearbody s2 w3. exists c2, s2, p', w3. split; [|split; [|by split_and!]].
  - unfold call. rewrite Esend. cbn [mbind option_bind]. rewrite decide_True by done. cbn [rounds].
    rewrite Etick. cbn [mbind option_bind]. by rewrite Eret.
  - pose proof Hex' as [Hp' Hconf' Hpend' Hpcr' Ha'' Hcb' Hev' Htx' Hplain']. constructor; [|done..].
    constructor; rewrite ?Ess, ?Eqs, ?Eas, ?Eps, ?Hsc'; [done..|by apply advance_sqn_pos|by apply Hun', advance_sqn_ne|done| |
      done| |done|exact Ha2|exact Hb2|done|exact Hm2|done|done].
    + by apply (ex_configured _ _ _ _ Hex').
    + by rewrite <-Hsc'.
Qed.

Lemma calls_served f requests c i s p w :
  serving cr f c i s p w → Forall (servable f) requests →
  ∃ c' s' p' w', calls (as_address s) requests c p w = Some (c', p', w') ∧ serving cr f c' i s' p' w' ∧
    as_address s' = as_address s ∧ answered_logs f requests w w'.
Proof.
  intros Hv Hr. revert c s p w Hv. induction Hr as [|[code payload] requests Hr _ IH]; intros c s p w Hv.
  { exists c, s, p, w. unfold answered_logs. by rewrite !app_nil_r. }
  destruct (call_served f c i s p w (code, payload) Hv Hr) as (c1 & s1 & p1 & w1 & E1 & Hv1 & Ea & El).
  destruct (IH c1 s1 p1 w1 Hv1) as (c2 & s2 & p2 & w2 & E2 & Hv2 & Ea2 & El2).
  exists c2, s2, p2, w2. cbn [calls]. cbn [fst snd] in E1. rewrite E1. cbn [mbind option_bind]. rewrite <-Ea.
  split_and!; [done|done|done|by apply (answered_logs_app f [_] _ w w1)].
Qed.

(** The handshake with a PD whose application serves [f]. *)
Lemma serving_reached f c i s d p ra rb t w :
  paired cr c i s d p → rand_bytes cr = Some draw → rnd_ok ra → rnd_ok rb → silent (lk_clock w) s = false →
  lk_tape w = ra :: rb :: t → lk_to_pd w = [] → lk_to_acu w = [] →
  pd_cmd_cb p = Some (serve f) → pd_event_len p < EVENT_HEADER_BYTES → 128 ≤ pd_tx_cap p → 112 ≤ pd_rx_plain_cap p →
  ∃ c1 s1 p1 w1, handshake (as_address s) d c p w = Some (c1, p1, w1) ∧ serving cr f c1 i s1 p1 w1 ∧
    as_address s1 = as_address s ∧
    lk_events w1 = lk_events w ++ [mk_sc_event (as_address s) OSDP_ACU_SC_EVENT_ESTABLISHED] ∧ logs_kept w w1 ∧ kept p p1.
Proof.
  intros Hpair Hdraw Ba Bb Hsil Htape Hpd Hacu Hcb Hev Htx Hplain.
  destruct (agreement cr E D Hdraw c i s d p ra rb t w) as (c1 & s1 & p1 & w1 & E1 & Hin & _ & _ & Ee & _ & Ea & Er & Hk);
    [done..|].
  exists c1, s1, p1, w1. split_and!; try done; try apply Er. destruct Hk. constructor; [done|congruence|lia..].
Qed.

(** C4: The stack is a remote procedure call, for the commands the application serves
    itself.  An ACU slot and a PD with the same base key, the PD's application
    answering every command at once, with OK, by a function [f] of code and payload
    (it never defers with BUSY and drops nothing): after the handshake, any sequence
    of such commands, each followed by one tick of each side, is executed by the
    application once each, in order, and gives the ACU's reply handler exactly [f] of
    each command, on encrypted and authenticated messages; both sides are still in
    session, with no event but ESTABLISHED.  The commands are those [servable]: not
    one the library answers or observes ([library_codes]: COMSET, FILETRANSFER, ABORT,
    ACURXSIZE, KEEPACTIVE, the four status requests, CAP, MFG, KEYSET, LED, BUZ), with
    payload and reply of at most 111 bytes; the PD has no event queued and buffers of
    at least 128 (TX) and 112 (plaintext) bytes.  BUSY is [busy_reply_ends_session]. *)
Theorem secured_calls_refine_rpc f c i s d p ra rb t w requests :
  paired cr c i s d p → rand_bytes cr = Some draw → rnd_ok ra → rnd_ok rb → silent (lk_clock w) s = false →
  lk_tape w = ra :: rb :: t → lk_to_pd w = [] → lk_to_acu w = [] →
  pd_cmd_cb p = Some (serve f) → pd_event_len p < EVENT_HEADER_BYTES → 128 ≤ pd_tx_cap p → 112 ≤ pd_rx_plain_cap p →
  Forall (servable f) requests →
  ∃ c1 p1 w1 c' s' p' w', handshake (as_address s) d c p w = Some (c1, p1, w1) ∧
    calls (as_address s) requests c1 p1 w1 = Some (c', p', w') ∧
    lk_replies w' = lk_replies w ++ (response f <$> requests) ∧ lk_served w' = lk_served w ++ requests ∧
    in_session cr c' i s' p' w' ∧ lk_events w' = lk_events w ++ [mk_sc_event (as_address s) OSDP_ACU_SC_EVENT_ESTABLISHED].
Proof.
  intros Hpair Hdraw Ba Bb Hsil Htape Hpd Hacu Hcb Hev Htx Hplain Hreq.
  destruct (serving_reached f c i s d p ra rb t w) as (c1 & s1 & p1 & w1 & E1 & Hv & Ea & Ee & (Er & _ & Es & _) & _); [done..|].
  destruct (calls_served f requests c1 i s1 p1 w1 Hv Hreq) as (c2 & s2 & p2 & w2 & E2 & [Hin2 _ _ _ _] & _ & El & Ex & Ev).
  rewrite Ea in E2. exists c1, p1, w1, c2, s2, p2, w2.
  split_and!; [done..|by rewrite El, Er|by rewrite Ex, Es|done|by rewrite Ev].
Qed.

End calls.

(** ** BUSY *)

Section busy.
Context (cmd : osdp_frame).

(** The frame of [osdp_pd_internal_build_busy], as an ACU decodes it. *)
Lemma busy_sendable : (0 ≤ fr_address cmd ≤ 0x7F)%Z → integrity_ok (fr_integrity cmd) → sendable (busy_frame cmd).
Proof.
  intros Ha Hi. assert (frame_total (busy_frame cmd) ≤ 9) as Hl.
  { unfold frame_total, integrity_size, OSDP_FRAME_HEADER_LEN. cbn. case_decide; lia. }
  split_and!; [..|unfold CHUNK; lia]; constructor; cbn; unfold is_byte; first [done|lia|by vm_decide|idtac].
  change (frame_total (busy_frame cmd) ≤ OSDP_FRAME_MAX_LEN). unfold OSDP_FRAME_MAX_LEN. lia.
Qed.

(** C35: A BUSY ends the session.  [osdp_pd_internal_build_busy] answers in the clear
    with sequence number 0, and the ACU takes any clear reply with sequence number 0
    in an established session for a reset before it looks at the code: one BUSY and
    the session is gone on the ACU, its sequence number 0, with a SESSION_LOST
    event and no reply delivered. *)
Theorem busy_reply_ends_session c i s w :
  acu_linked c → acu_has c i s → quiet (lk_clock w) s → as_sc_phase s = OSDP_ACU_SC_ESTABLISHED →
  fr_address cmd = as_address s → integrity_ok (fr_integrity cmd) → lk_to_acu w = message (busy_frame cmd) →
  ∃ c', osdp_acu_tick c w = Some (tt, c', log_event (mk_sc_event (as_address s) OSDP_ACU_SC_EVENT_SESSION_LOST)
      (w <| lk_to_acu := [] |>)) ∧
    acu_linked c' ∧ acu_has c' i (terminated_slot s) ∧ as_next_seq (terminated_slot s) = 0%Z ∧
    established (as_sc_session (terminated_slot s)) = false.
Proof.
  intros Hc Hs Hquiet Hph Ha Hi Hline.
  pose proof (acu_has_ok (TC := acu_fixed_of c) c i s (al_ok c Hc) Hs) as Hslot.
  assert (sendable (busy_frame cmd)) as Hf by (apply busy_sendable; [rewrite Ha; apply Hslot|done]).
  destruct (acu_take_step c i s (busy_frame cmd) (terminated_slot s) w
    (log_event (mk_sc_event (as_address s) OSDP_ACU_SC_EVENT_SESSION_LOST) (w <| lk_to_acu := [] |>)))
    as (c' & Et & Hc' & Hs' & _ & _); [done..| |by exists c'].
  intros q Hq Hqs Htx _. pose proof (acu_has_in q i s Hqs) as Hin.
  assert (ac_sc_event_cb q = Some (reports log_event)) as Hev by (rewrite Hq; by destruct Hc).
  change (take_frame (decoded_of (busy_frame cmd))) with (process_reply (W := link) (decoded_of (busy_frame cmd))).
  unfold process_reply. apply sw_get. unfold id. change (fr_address (decoded_of (busy_frame cmd))) with (fr_address cmd).
  eapply sw_lift; [rewrite Ha; apply (ah_find _ _ _ (acu_has_at q i s s _ Hqs eq_refl eq_refl))|].
  apply sw_slot; [done|]. rewrite decide_True by done.
  apply sw_terminate; [done|rewrite Hev; apply plain_reports|].
  unfold fired_end, fired. rewrite Hph. cbn [termination_event]. rewrite Hev. by split_and!.
Qed.

End busy.

(** ** Witnesses *)

(** An application that answers every command with its payload reversed. *)
Definition mirror (code : Z) (payload : list Z) : Z * list Z := (OSDP_REPLY_RAW, u8 <$> rev payload).

Lemma serve_mirror_ok : pd_op_ok (OpCommandHandler (Some (serve mirror))).
Proof.
  intros code p n r w _. cbn [serve mirror fst snd]. constructor; [by vm_decide| |done].
  split; [done|]. apply Forall_fmap, Forall_true. intros z. unfold u8. apply Z.mod_pos_bound. lia.
Qed.

Definition ex_requests : list (Z * list Z) := [(OSDP_CMD_POLL, []); (OSDP_CMD_OUT, [1; 2; 3]%Z); (OSDP_CMD_TEXT, replicate 40 7%Z)].

Lemma secured_calls_refine_rpc_witness :
  ∃ c1 p1 w1 c' s' p' w', handshake (as_address ex_slot) false ex_control (ex_peripheral (Some (serve mirror))) ex_line =
      Some (c1, p1, w1) ∧
    calls (as_address ex_slot) ex_requests c1 p1 w1 = Some (c', p', w') ∧
    lk_replies w' = lk_replies ex_line ++
      [(OSDP_CMD_POLL, OSDP_REPLY_RAW, []); (OSDP_CMD_OUT, OSDP_REPLY_RAW, [3; 2; 1]%Z);
       (OSDP_CMD_TEXT, OSDP_REPLY_RAW, replicate 40 7%Z)] ∧
    lk_served w' = lk_served ex_line ++ ex_requests ∧
    in_session line_crypto c' 0 s' p' w' ∧
    lk_events w' = lk_events ex_line ++ [mk_sc_event (as_address ex_slot) OSDP_ACU_SC_EVENT_ESTABLISHED].
Proof.
  apply (secured_calls_refine_rpc line_crypto toy toy mirror ex_control 0 ex_slot false (ex_peripheral (Some (serve mirror)))
    (replicate 8 1%Z) (replicate 8 2%Z) [[3%Z]] ex_line ex_requests (ex_paired _ serve_mirror_ok) eq_refl);
    first [by vm_decide|by vm_compute].
Defined.

(** A command the example PD would answer with BUSY. *)
Definition ex_poll : osdp_frame := hs_frame 0x25 false 1 OSDP_INTEGRITY_CRC OSDP_SCS_17 1 OSDP_CMD_POLL [].

Lemma busy_reply_ends_session_witness :
  ∃ c s c', as_sc_phase s = OSDP_ACU_SC_ESTABLISHED ∧
    osdp_acu_tick c (ex_line <| lk_to_acu := message (busy_frame ex_poll) |>) =
      Some (tt, c', log_event (mk_sc_event (as_address s) OSDP_ACU_SC_EVENT_SESSION_LOST)
        (ex_line <| lk_to_acu := message (busy_frame ex_poll) |> <| lk_to_acu := [] |>)) ∧
    acu_linked c' ∧ acu_has c' 0 (terminated_slot s) ∧ as_next_seq (terminated_slot s) = 0%Z ∧
    established (as_sc_session (terminated_slot s)) = false.
Proof.
  destruct (agreement line_crypto toy toy eq_refl ex_control 0 ex_slot false (ex_peripheral None) (replicate 8 1%Z)
    (replicate 8 2%Z) [[3%Z]] ex_line (ex_paired None I)) as (c & s & p & w & _ & [Hc Hs _ Hph Hidle _ _ _ _ _ _ _ _ _ [_ Hheard] _ _ _] & _ & _ & _ & _ & Ea & (_ & _ & _ & Hclk) & _);
    [by vm_decide..|].
  assert (quiet (lk_clock (ex_line <| lk_to_acu := message (busy_frame ex_poll) |>)) s) as Hq.
  { split; [unfold overdue; by rewrite Hidle|]. apply heard_now. by rewrite Hheard. }
  destruct (busy_reply_ends_session ex_poll c 0 s (ex_line <| lk_to_acu := message (busy_frame ex_poll) |>) Hc Hs Hq Hph)
    as (c' & H); [by rewrite Ea; vm_compute|by vm_decide|done|].
  exists c, s, c'. by split.
Defined.
