(* ===== verification/Lossy.v ===== *)
(** * Exactly once over a line that loses messages

    The ACU repeats a command it got no reply to within the reply timeout, under the same
    sequence number and, in a session, with the same bytes; the PD replays its answer to a
    command it has executed.  This file shows the two together: whatever messages of
    either direction get lost, a command is executed once and answered once. *)
From S2P Require Import Prelude Types State Pack Frame Stream Commands Records Dispatch ScCrypto ScFrame.
From S2P Require Import PdTypes PdEvents PdPdcap PdBanks PdDispatch PdSc Pd PdInv PdSafe PdReach PdSpec.
From S2P Require Import AcuTypes AcuBanks AcuCmd AcuSc Acu AcuSlot AcuInv AcuSafe AcuReach AcuSpec Link Steps Handshake Session.

(** What goes on the line depends on the keys and on the last MAC received only: a
    repeated command is the same bytes. *)
Lemma sealed_same E s s' t : ss_keys s = ss_keys s' → last_inbound_mac s = last_inbound_mac s' →
  sealed E s t = sealed E s' t ∧ seal_mac E s t = seal_mac E s' t.
Proof.
  intros Hk Hm. assert (sealed_shape E s t = sealed_shape E s' t) as Hs by (unfold sealed_shape; by rewrite Hk, Hm).
  assert (seal_mac E s t = seal_mac E s' t) as H by (unfold seal_mac; by rewrite Hk, Hm, Hs).
  split; [|done]. unfold sealed. by rewrite Hs, H.
Qed.

#[local] Opaque seal_mac sealed.

(** ** A call with losses *)

(** What the line loses of an attempt. *)
Inductive loss : Type := Lost_command | Lost_reply.

(** [t] milliseconds pass. *)
Definition pass (t : Z) (w : link) : link := w <| lk_clock := u32 (lk_clock w + t) |>.

(** The PD's part of an attempt that fails. *)
Definition failed_attempt (l : loss) (p : osdp_pd link) (w : link) : option (osdp_pd link * link) :=
  match l with
  | Lost_command => Some (p, w <| lk_to_pd := [] |>)
  | Lost_reply => '(_, p, w) ← osdp_pd_tick p w; Some (p, w <| lk_to_acu := [] |>)
  end.

(** The command is sent; after each loss the ACU waits, ticks, and sends it again. *)
Fixpoint lossy_call (losses : list (loss * Z)) (address code : Z) (payload : list Z)
    (c : osdp_acu link) (p : osdp_pd link) (w : link) : option (osdp_acu link * osdp_pd link * link) :=
  match losses with
  | [] => call address code payload c p w
  | (l, t) :: losses =>
      '(st, c, w) ← osdp_acu_send_command address code (Ptr payload) (length payload) c w;
      if decide (st ≠ OSDP_OK) then None else
      '(p, w) ← failed_attempt l p w;
      '(_, c, w) ← osdp_acu_tick c (pass t w);
      lossy_call losses address code payload c p w
  end.

Fixpoint lossy_calls (address : Z) (requests : list (Z * list Z * list (loss * Z)))
    (c : osdp_acu link) (p : osdp_pd link) (w : link) : option (osdp_acu link * osdp_pd link * link) :=
  match requests with
  | [] => Some (c, p, w)
  | (code, payload, losses) :: requests =>
      '(c, p, w) ← lossy_call losses address code payload c p w;
      lossy_calls address requests c p w
  end.

(** ** The clock *)

Lemma u32_elapsed a b t : u32 (u32 (a + t) - b) = u32 (u32 (a - b) + t).
Proof. unfold u32. rewrite Zminus_mod_idemp_l, Zplus_mod_idemp_l. f_equal. lia. Qed.

(** The time the losses take. *)
Definition waited (losses : list (loss * Z)) : Z := foldr (λ l z, l.2 + z)%Z 0%Z losses.

Lemma waited_pos losses : Forall (λ l, OSDP_ACU_REPLY_TIMEOUT_MS < l.2)%Z losses → (0 ≤ waited losses)%Z.
Proof.
  induction 1 as [|l losses Hl _ IH]; [done|]. unfold waited in *. cbn [foldr].
  unfold OSDP_ACU_REPLY_TIMEOUT_MS in Hl. lia.
Qed.

(** ** The ACU gives a command up *)

Lemma acu_in_use c i s : acu_linked c → acu_has c i s → as_in_use s = true.
Proof.
  intros Hc [Hf Hs _]. pose proof (al_ok c Hc) as Hok.
  unfold find_slot_by_address in Hf. pose proof (ai_pds (TC := acu_fixed_of c) c Hok) as Hlen.
  pose proof (ai_count (TC := acu_fixed_of c) c Hok) as Hn.
  destruct (find_slot_loop_ok (ac_pds c) (as_address s) 0 (ac_pd_count c)) as (r & E & Hr); [rewrite Hn; lia|].
  rewrite Hf in E. injection E as <-. destruct (Hr i eq_refl) as (_ & s' & Hs' & Hu & _). congruence.
Qed.

(** The unit given up on: the clock has passed the reply timeout. *)
Definition given_up (s : osdp_acu_pd_slot) : osdp_acu_pd_slot := s <| as_waiting := false |> <| as_next_seq := as_pending_seq s |>.

Definition gave_up (s : osdp_acu_pd_slot) : osdp_acu_timeout_event :=
  mk_timeout_event (as_address s) (as_pending_code s) (as_pending_seq s).

Lemma scan_overdue c i s w : acu_linked c → acu_has c i s → overdue (lk_clock w) s = true → silent (lk_clock w) s = false →
  scan_timeouts_and_offline c w = Some (tt, put_slot i c (given_up s), log_timeout (gave_up s) w).
Proof.
  intros Hc Hs Ho Hq. rewrite (scan_one c i s w Hc Hs). unfold scanned, scan_fx. rewrite (acu_in_use c i s Hc Hs).
  unfold timeout_fx, timed_out. rewrite (al_timeout c Hc), Ho. fold (given_up s). unfold gone_offline, offline_fx.
  change (silent (lk_clock w) (given_up s)) with (silent (lk_clock w) s). by rewrite Hq.
Qed.

Lemma acu_read_nothing n w : lk_to_acu w = [] → acu_read n w = (0%Z, [], w).
Proof. destruct w. cbn. intros ->. unfold acu_read, fetch. cbn. by rewrite take_nil, drop_nil. Qed.

Lemma acu_give_up c i s w :
  acu_linked c → acu_has c i s → overdue (lk_clock w) s = true → silent (lk_clock w) s = false → lk_to_acu w = [] →
  ∃ c', osdp_acu_tick c w = Some (tt, c', log_timeout (gave_up s) w) ∧ acu_linked c' ∧ acu_has c' i (given_up s) ∧
    ac_sc_crypto c' = ac_sc_crypto c ∧ ac_integrity c' = ac_integrity c.
Proof.
  intros Hc Hs Ho Hq Hline. pose proof Hc as [Hok Hport Hled Hbuz Hev Hrep Htime Hu].
  set (c1 := put_slot i c (given_up s)). set (w1 := log_timeout (gave_up s) w).
  assert (stream_inv (ac_rx c)) as Hst by exact (ai_stream (TC := acu_fixed_of c) c Hok).
  destruct (stream_nothing (ac_rx c) frame_zero Hst Hu) as (s3 & o3 & E3 & Hs3 & Hu3 & Hp3).
  assert (osdp_acu_tick c w = Some (tt, c1 <| ac_rx := s3 |> <| ac_rx_partial_len := 0 |>, w1)) as Et.
  { unfold osdp_acu_tick. m_run. rewrite Hport. cbn [at_read acu_port].
    rewrite (run_bind _ _ _ _ _ _ _ (scan_overdue c i s w Hc Hs Ho Hq)). fold c1 w1.
    assert (∀ k, acu_drain_loop (S k) acu_read 0 c1 w1 = Some (tt, c1, w1)) as Ed.
    { intros k. cbn [acu_drain_loop]. assert (acu_read CHUNK w1 = (0%Z, [], w1)) as Er.
      { by apply acu_read_nothing. }
      rewrite run_host, Er. cbn [fst snd]. by rewrite decide_True by lia. }
    rewrite (run_bind _ _ _ _ _ _ _ (Ed OSDP_STREAM_BUFFER_LEN)).
    assert (∀ k, acu_frame_loop (S k) c1 w1 = Some (tt, c1 <| ac_rx := s3 |>, w1)) as Ef.
    { intros k. cbn [acu_frame_loop]. m_run. change (ac_rx c1) with (ac_rx c).
      rewrite (run_lift _ _ _ _ _ E3). m_run. by rewrite decide_True by done. }
    rewrite (run_bind _ _ _ _ _ _ _ (Ef OSDP_STREAM_BUFFER_LEN)).
    assert (acu_check_interchar_timeout (c1 <| ac_rx := s3 |>) w1 =
      Some (tt, c1 <| ac_rx := s3 |> <| ac_rx_partial_len := 0 |>, w1)) as Eint.
    { unfold acu_check_interchar_timeout. m_run. unfold id. read_set. rewrite Hp3. by rewrite decide_True by done. }
    rewrite (run_bind _ _ _ _ _ _ _ Eint).
    erewrite run_bind; [|apply now_port; exact Hport].
    unfold acu_led_refresh, acu_buz_refresh. m_run.
    change (ac_led_cb c1) with (ac_led_cb c). rewrite Hled. m_run.
    change (ac_buzzer_cb c1) with (ac_buzzer_cb c). by rewrite Hbuz. }
  eexists. split; [exact Et|]. destruct (acu_tick_safe c w Hok) as ([] & c2 & w2 & E & Hc2). rewrite Et in E. injection E as <- <-.
  split; [by constructor|]. split; [|done].
  destruct (acu_has_at c i s (given_up s) (ac_tx_buf c) Hs eq_refl eq_refl) as [H1 H2 H3]. by constructor.
Qed.

(** ** The PD repeats its answer *)

Lemma pd_replays p w f bs :
  pd_linked p → sendable f → fr_reply f = false → fr_address f = pd_address p →
  lk_to_pd w = message f → lk_to_acu w = [] → replayable p f bs →
  ∃ p', osdp_pd_tick p w = Some (tt, p', w <| lk_to_pd := [] |> <| lk_to_acu := bs |>) ∧ pd_linked p' ∧
    replayable p' f bs ∧ kept p p' ∧ pd_sc p' = pd_sc p ∧ (∀ k, unseen p k → unseen p' k).
Proof.
  intros Hp Hf Hr Ha Hline Hacu Hre.
  destruct (pd_tick_one p w f (λ p', replayable p' f bs ∧ kept p p' ∧ pd_sc p' = pd_sc p ∧ (∀ k, unseen p k → unseen p' k))
    (w <| lk_to_pd := [] |> <| lk_to_acu := bs |>)) as (p' & E & Hp' & H); [done..| | |by exists p'].
  { intros q n st (H1 & [] & H3 & H4). split_and!; [by apply (replayable_ext q)|by constructor|done|].
    intros k Hk. by apply (unseen_ext q), H4. }
  intros st Hst Hu q Hq. pose proof Hre as [Hag Hlen Hbs Hpos]. exists (q <| pd_online := true |>).
  split; [|split_and!; [by apply (replayable_ext p)|by constructor|done|by intros k; apply unseen_ext|apply Hp..]].
  unfold process_frame. m_run. unfold id.
  assert (is_retransmit q (decoded_of f) = Some true) as Hq1 by (rewrite <-Hag; by apply is_retransmit_ext).
  rewrite (run_lift _ _ _ _ _ Hq1). change (pd_last_reply_len q) with (pd_last_reply_len p).
  change (pd_rpl_cache q) with (pd_rpl_cache p). rewrite Hlen, decide_True by done.
  rewrite (send_bytes_ext _ (Ptr bs) (length bs) bs Hbs) by (by apply rd_all).
  rewrite send_bytes_port; [|apply Hp|done].
  change (lk_to_acu (w <| lk_to_pd := [] |>)) with (lk_to_acu w). by rewrite Hacu.
Qed.

(** ** The attempts *)

Section lossy.
Context (cr : osdp_sc_crypto link) (E D : list Z → list Z → list Z) {A : Aes cr E D}.
Context (f : Z → list Z → Z * list Z).

Section attempts.
Context (a b : osdp_sc_session) (address n integ code : Z) (payload : list Z).
Hypotheses (Hsa : session_ok a) (Hsb : session_ok b) (Hm : mirrored a b) (Hn : (1 ≤ n ≤ 3)%Z).
Hypotheses (Hcode : code ∉ library_codes) (Hbyte : is_byte code) (Hpay : short payload).
Hypotheses (Hrp : short (f code payload).2).
Hypothesis (Hrt : sc_template (reply f address n integ code payload)).

Notation command := (sealed E a (request address n integ code payload)).
Notation answer := (message (reply_sealed E f a b address n integ code payload)).

(** The ACU about to send the command, [el] milliseconds after the last reply. *)
Record dialing (el : Z) (c : osdp_acu link) (i : nat) (s : osdp_acu_pd_slot) (w : link) : Prop := {
  dl_acu : acu_linked c;
  dl_slot : acu_has c i s;
  dl_cipher : ac_sc_crypto c = cr;
  dl_integrity : ac_integrity c = integ;
  dl_phase : as_sc_phase s = OSDP_ACU_SC_ESTABLISHED;
  dl_idle : as_waiting s = false;
  dl_next : as_next_seq s = n;
  dl_address : as_address s = address;
  dl_session : session_ok (as_sc_session s);
  dl_keys : ss_keys (as_sc_session s) = ss_keys a;
  dl_inbound : last_inbound_mac (as_sc_session s) = last_inbound_mac a;
  dl_online : as_online s = true;
  dl_elapsed : u32 (lk_clock w - as_last_reply_ms s) = el;
  dl_to_pd : lk_to_pd w = [];
  dl_to_acu : lk_to_acu w = [] }.

(** The PD before and after it executed the command. *)
Record answering (ran : bool) (p : osdp_pd link) : Prop := {
  aw_executes : executes cr f address p;
  aw_rpl_cap : CHUNK ≤ pd_rpl_cache_cap p;
  aw_cmd_cap : CHUNK ≤ pd_cmd_cache_cap p;
  aw_state : if ran then sc_session (pd_sc p) = replied E f a b address n integ code payload ∧
                         replayable p command answer ∧ (∀ k, k ≠ n → unseen p k)
             else sc_session (pd_sc p) = b ∧ unseen p n }.

(** One tick on the command: executed if it was not, and answered with the same bytes. *)
Lemma answering_tick ran p w :
  answering ran p → sc_template (request address n integ code payload) →
  lk_to_pd w = message command → lk_to_acu w = [] →
  ∃ p' w', osdp_pd_tick p w = Some (tt, p', w') ∧ answering true p' ∧
    w' = (if ran then w else executed (code, payload) w) <| lk_to_pd := [] |> <| lk_to_acu := answer |>.
Proof.
  intros [Hex Hrc Hcc Hst] Ht Hpd Hacu. destruct ran.
  - destruct Hst as (Hb & Hre & Hun). destruct (sealed_sendable cr E D a _ Hsa Ht (proj2 Hpay)) as (Hf & _ & _).
    destruct (sealed_fields E a (request address n integ code payload)) as (Efa & Efr & _).
    destruct (pd_replays p w command answer) as (p' & Et & Hp' & Hre' & Hk & Hsc & Hun'); [apply Hex|done|exact Efr|
      rewrite Efa; symmetry; apply Hex|done|done|done|].
    eexists _, _. split; [exact Et|]. split; [|done].
    assert (executes cr f address p') as Hex'.
    { destruct Hex, Hk. constructor; try congruence; try lia; try done.
      unfold osdp_pd_internal_sc_configured. by rewrite Hsc. }
    destruct Hk. constructor; [done|lia|lia|]. split_and!; [by rewrite Hsc|done|auto].
  - destruct Hst as (Hb & Hun).
    destruct (pd_serves cr E D f a b address n integ code payload p w) as (p' & Et & Hex' & [Hk Hsc Hun'] & Hre); [done..|].
    eexists _, _. split; [exact Et|]. split; [|done].
    destruct Hk. constructor; [done|lia|lia|]. split_and!; [by rewrite Hsc|apply Hre; [lia|done..]|done].
Qed.

(** The ACU once the command is out. *)
Record dialed (el now : Z) (c : osdp_acu link) (i : nat) (s : osdp_acu_pd_slot) : Prop := {
  dd_acu : acu_linked c;
  dd_slot : acu_has c i s;
  dd_cipher : ac_sc_crypto c = cr;
  dd_integrity : ac_integrity c = integ;
  dd_phase : as_sc_phase s = OSDP_ACU_SC_ESTABLISHED;
  dd_waiting : as_waiting s = true;
  dd_seq : as_pending_seq s = n;
  dd_code : as_pending_code s = code;
  dd_address : as_address s = address;
  dd_session : as_sc_session s = asked E a address n integ code payload;
  dd_online : as_online s = true;
  dd_elapsed : u32 (now - as_last_reply_ms s) = el;
  dd_sent : as_pending_sent_ms s = now }.

Lemma dialing_send el c i s w : dialing el c i s w →
  sc_template (request address n integ code payload) ∧
  ∃ c' s', osdp_acu_send_command address code (Ptr payload) (length payload) c w =
      Some (OSDP_OK, c', w <| lk_to_pd := message command |>) ∧ dialed el (lk_clock w) c' i s'.
Proof.
  intros [Hc Hs Hcr Hi Hph Hw Hq Ha Hss Hk Hin Hon Hel Hpd _].
  destruct (acu_call_step cr E D c i s code payload w) as (Ht & tx & Esend & Hc1); [done..|].
  rewrite Ha, Hq, Hi in *. fold (request address n integ code payload) in *. split; [done|].
  destruct (sealed_same E (as_sc_session s) a (request address n integ code payload) Hk Hin) as [E1 E2].
  rewrite E1, E2 in *. set (s1 := called _ _ _ s) in *. exists (at_slot i c s1 tx), s1. split; [exact Esend|].
  constructor; try done.
  - by apply (acu_has_at c i s).
  - exact (eq_trans (f_equal2 (λ k m, mk_session k _ m true) Hk Hin) eq_refl).
Qed.

Lemma silent_elapsed now s el : as_online s = true → u32 (now - as_last_reply_ms s) = el → (el ≤ OSDP_ACU_OFFLINE_TIMEOUT_MS)%Z →
  silent now s = false.
Proof. intros Ho He Hl. unfold silent. rewrite Ho, He. by rewrite bool_decide_eq_false_2 by lia. Qed.

(** The reply does not come. *)
Lemma dialed_give_up el t now c i s w :
  dialed el now c i s → lk_clock w = u32 (now + t) → (OSDP_ACU_REPLY_TIMEOUT_MS < t)%Z →
  sc_template (request address n integ code payload) → (0 ≤ el)%Z → (el + t ≤ OSDP_ACU_OFFLINE_TIMEOUT_MS)%Z → lk_to_pd w = [] → lk_to_acu w = [] →
  ∃ c' s', osdp_acu_tick c w = Some (tt, c', log_timeout (mk_timeout_event address code n) w) ∧
    dialing (el + t) c' i s' (log_timeout (mk_timeout_event address code n) w).
Proof.
  intros [Hc Hs Hcr Hi Hph Hw Hq Hcd Ha Hss Hon Hel Hsent] Hclk Ht Htm Hel0 Hsum Hpd Hacu.
  unfold OSDP_ACU_REPLY_TIMEOUT_MS, OSDP_ACU_OFFLINE_TIMEOUT_MS in *.
  assert (u32 (lk_clock w - as_last_reply_ms s) = el + t)%Z as Hel'.
  { rewrite Hclk, u32_elapsed, Hel. apply u32_id. unfold is_u32. lia. }
  assert (overdue (lk_clock w) s = true) as Ho.
  { unfold overdue. rewrite Hw, Hsent, Hclk, u32_elapsed, Z.sub_diag. cbn [andb]. change (u32 0) with 0%Z.
    rewrite Z.add_0_l, u32_id by (unfold is_u32; lia). apply bool_decide_eq_true_2. unfold OSDP_ACU_REPLY_TIMEOUT_MS. lia. }
  destruct (acu_give_up c i s w Hc Hs Ho) as (c' & Et & Hc' & Hs' & Hcr' & Hi');
    [apply (silent_elapsed _ _ (el + t)); [done|done|unfold OSDP_ACU_OFFLINE_TIMEOUT_MS; lia]|done|].
  exists c', (given_up s). unfold gave_up in Et. rewrite Ha, Hcd, Hq in Et. split; [exact Et|].
  destruct (served_sessions cr E D f a b address n integ code payload) as (Hasked & _); [done..|apply Hpay|apply Hrp|].
  constructor; try done; try congruence.
  - change (as_sc_session (given_up s)) with (as_sc_session s). by rewrite Hss.
  - change (as_sc_session (given_up s)) with (as_sc_session s). by rewrite Hss.
  - change (as_sc_session (given_up s)) with (as_sc_session s). by rewrite Hss.
Qed.

(** The reply comes. *)
Lemma dialed_return el c i s p w :
  dialed el (lk_clock w) c i s → answering true p → sc_template (request address n integ code payload) →
  (el ≤ OSDP_ACU_OFFLINE_TIMEOUT_MS)%Z → lk_to_acu w = answer → lk_to_pd w = [] →
  ∃ c' s' w', osdp_acu_tick c w = Some (tt, c', w') ∧ w' = logged (response f (code, payload)) (w <| lk_to_acu := [] |>) ∧
    serving cr f c' i s' p w' ∧ as_address s' = address.
Proof.
  intros [Hc Hs Hcr Hi Hph Hw Hq Hcd Ha Hss Hon Hel Hsent] [Hex _ _ (Hb & Hre & Hun)] Ht Hmax Hline Hpd.
  destruct (served_sessions cr E D f a b address n integ code payload) as (Hasked & Hheard & Hm1 & Hinf & Hrep & Hm2);
    [done..|apply Hpay|apply Hrp|].
  assert (quiet (lk_clock w) s) as Hquiet.
  { split; [|by apply (silent_elapsed _ _ el)]. unfold overdue. by rewrite Hsent, Z.sub_diag, andb_false_r. }
  assert (sc_template (op_template (as_address s) true (as_pending_seq s) (ac_integrity c) OSDP_SCS_18 (f code payload).1
    (f code payload).2)) as Hrt' by (rewrite Ha, Hq, Hi; exact Hrt).
  destruct (acu_return_step cr E D c i s (heard E a b address n integ code payload) (f code payload).1 (f code payload).2 w)
    as (c' & Et & Hc' & Hs' & Hcr' & _);
    [done|done|done|done|done|done|lia|done|by rewrite Hss|by rewrite Hss; apply mirrored_sym|done|apply Hrp| |].
  { rewrite Ha, Hq, Hi. exact Hline. }
  rewrite Ha, Hq, Hi, Hcd in *. set (s2 := returned _ _ s) in *. set (w' := logged _ _) in *.
  assert (as_sc_session s2 = informed E f a b address n integ code payload) as Ess by (unfold s2, returned; cbn; by rewrite Hss).
  assert (as_address s2 = address ∧ as_sc_phase s2 = OSDP_ACU_SC_ESTABLISHED ∧ as_waiting s2 = false ∧
    as_next_seq s2 = advance_sqn n ∧ as_online s2 = true ∧ as_last_reply_ms s2 = lk_clock w') as (Eas & Eps & Ews & Eqs & Eo & El)
    by (unfold s2, returned; cbn; by rewrite Ha, Hq).
  assert (lk_to_pd w' = [] ∧ lk_to_acu w' = []) as [L1 L2] by done.
  exists c', s2, w'. split; [exact Et|]. split; [done|]. split; [|done]. clearbody s2 w'. pose proof Hex as [].
  constructor; [|done..]. constructor; rewrite ?Ess, ?Hb, ?Eqs, ?Eas; try done.
  - apply advance_sqn_pos. lia.
  - apply Hun, advance_sqn_ne. lia.
Qed.

(** All attempts: the losses, then one that gets through. *)
Lemma lossy_attempts losses ran el c i s p w :
  dialing el c i s w → answering ran p → (0 ≤ el)%Z →
  Forall (λ l, OSDP_ACU_REPLY_TIMEOUT_MS < l.2)%Z losses →
  (el + waited losses ≤ OSDP_ACU_OFFLINE_TIMEOUT_MS)%Z →
  ∃ c' s' p' w', lossy_call losses address code payload c p w = Some (c', p', w') ∧ serving cr f c' i s' p' w' ∧
    CHUNK ≤ pd_rpl_cache_cap p' ∧ CHUNK ≤ pd_cmd_cache_cap p' ∧ as_address s' = address ∧
    lk_replies w' = lk_replies w ++ [response f (code, payload)] ∧
    lk_served w' = lk_served w ++ (if ran then [] else [(code, payload)]) ∧ lk_events w' = lk_events w ∧
    lk_timeouts w' = lk_timeouts w ++ replicate (length losses) (mk_timeout_event address code n).
Proof.
  intros Hd Hp Hel Hl. revert ran el c s p w Hd Hp Hel.
  induction Hl as [|[l t] losses Ht Hl IH]; intros ran el c s p w Hd Hp Hel Hsum; cbn [lossy_call snd] in *.
  - destruct (dialing_send el c i s w Hd) as (Htm & c1 & s1 & Es & Hd1). pose proof Hd as [_ _ _ _ _ _ _ _ _ _ _ _ _ _ Hacu].
    destruct (answering_tick ran p (w <| lk_to_pd := message command |>) Hp Htm) as (p1 & w1 & Ep & Hp1 & Hw1); [done..|].
    destruct (dialed_return el c1 i s1 p1 w1) as (c2 & s2 & w2 & Ec & Hw2 & Hv & Ha); [|done..|unfold waited in Hsum; cbn in Hsum; lia| | |];
      [rewrite Hw1; by destruct ran|rewrite Hw1; by destruct ran|rewrite Hw1; by destruct ran|].
    exists c2, s2, p1, w2. unfold call. rewrite Es. cbn [mbind option_bind]. rewrite decide_True by done. cbn [rounds].
    rewrite Ep. cbn [mbind option_bind]. rewrite Ec. split; [done|]. rewrite Hw2, Hw1.
    split_and!; [by rewrite <-Hw1, <-Hw2|apply Hp1|apply Hp1|done|..]; destruct ran; cbn; by rewrite ?app_nil_r.
  - destruct (dialing_send el c i s w Hd) as (Htm & c1 & s1 & Es & Hd1). pose proof Hd as [_ _ _ _ _ _ _ _ _ _ _ _ _ _ Hacu].
    change (waited ((l, t) :: losses)) with (t + waited losses)%Z in Hsum.
    rewrite Es. cbn [mbind option_bind]. rewrite decide_False by auto.
    assert (∃ p1 w1 r1, failed_attempt l p (w <| lk_to_pd := message command |>) = Some (p1, w1) ∧ answering r1 p1 ∧
      lk_clock w1 = lk_clock w ∧ lk_to_pd w1 = [] ∧ lk_to_acu w1 = [] ∧ lk_replies w1 = lk_replies w ∧ lk_events w1 = lk_events w ∧
      lk_timeouts w1 = lk_timeouts w ∧
      lk_served w1 ++ (if r1 then [] else [(code, payload)]) = lk_served w ++ (if ran then [] else [(code, payload)]))
      as (p1 & w1 & r1 & Ef & Hp1 & K1 & K2 & K3 & K4 & K5 & K6 & K7).
    { destruct l; cbn [failed_attempt]; [by exists p, (w <| lk_to_pd := [] |>), ran|].
      destruct (answering_tick ran p (w <| lk_to_pd := message command |>) Hp Htm) as (p1 & w1 & Ep & Hp1 & ->); [done..|].
      rewrite Ep. cbn [mbind option_bind]. eexists p1, _, true. split; [done|]. split; [done|].
      destruct ran; cbn; by rewrite ?app_nil_r. }
    rewrite Ef. cbn [mbind option_bind].
    pose proof (waited_pos losses Hl) as Hpos.
    destruct (dialed_give_up el t (lk_clock w) c1 i s1 (pass t w1) Hd1) as (c2 & s2 & Et & Hd2); [by rewrite <-K1|done|done|done|lia|done|done|].
    rewrite Et. cbn [mbind option_bind].
    destruct (IH r1 (el + t)%Z c2 s2 p1 (log_timeout (mk_timeout_event address code n) (pass t w1)) Hd2 Hp1)
      as (c3 & s3 & p3 & w3 & E3 & Hv & Hc1 & Hc2 & Ha & L1 & L2 & L3 & L4); [unfold OSDP_ACU_REPLY_TIMEOUT_MS in *; lia|lia|].
    exists c3, s3, p3, w3. split; [done|]. split_and!; try done.
    + rewrite L1. cbn. by rewrite K4.
    + rewrite L2. cbn. by rewrite K7.
    + rewrite L3. cbn. by rewrite K5.
    + rewrite L4. cbn. by rewrite K6, <-app_assoc.
Qed.

End attempts.

(** A session that can be resumed after a loss: the PD's replay buffers take a message. *)
Record resilient (c : osdp_acu link) (i : nat) (s : osdp_acu_pd_slot) (p : osdp_pd link) (w : link) : Prop := {
  rs_serving : serving cr f c i s p w;
  rs_rpl_cap : CHUNK ≤ pd_rpl_cache_cap p;
  rs_cmd_cap : CHUNK ≤ pd_cmd_cache_cap p }.

(** Requests with losses the reply timeout notices and the offline timeout does not. *)
Definition recoverable (losses : list (loss * Z)) : Prop :=
  Forall (λ l, OSDP_ACU_REPLY_TIMEOUT_MS < l.2)%Z losses ∧ (waited losses ≤ OSDP_ACU_OFFLINE_TIMEOUT_MS)%Z.

(** One timeout event for each loss. *)
Definition losses_of (requests : list (Z * list Z * list (loss * Z))) : nat := sum_list (length ∘ snd <$> requests).

Lemma lossy_call_served c i s p w code payload losses :
  resilient c i s p w → servable f (code, payload) → recoverable losses →
  ∃ c' s' p' w', lossy_call losses (as_address s) code payload c p w = Some (c', p', w') ∧ resilient c' i s' p' w' ∧
    as_address s' = as_address s ∧ answered_logs f [(code, payload)] w w' ∧
    length (lk_timeouts w') = length (lk_timeouts w) + length losses.
Proof.
  intros [[[Hc Hs Hcr Hph Hwait Hnext Hnew Hp Hconf Hpend Hpcr Ha Hsa Hsb [Hon Hlast] Hm Hpd Hacu] Hcb Hev Htx Hplain] Hrc Hcc]
    (Hbyte & Hcode & Hpay & Hrb & Hrp) [Hl Hsum]. cbn [fst snd] in *.
  pose proof (acu_has_ok (TC := acu_fixed_of c) c i s (al_ok c Hc) Hs) as Hslot.
  pose proof (sk_next s Hslot) as Hq. pose proof (ai_integrity (TC := acu_fixed_of c) c (al_ok c Hc)) as Hint.
  assert (1 ≤ as_next_seq s ≤ 3)%Z as Hn by lia.
  assert (sc_template (reply f (as_address s) (as_next_seq s) (ac_integrity c) code payload)) as Hrt
    by (apply op_template_ok; first [apply Hslot|done|by vm_decide]).
  destruct (lossy_attempts (as_sc_session s) (sc_session (pd_sc p)) (as_address s) (as_next_seq s) (ac_integrity c) code payload
    Hsa Hsb Hm Hn Hcode Hbyte Hpay Hrp Hrt losses false 0%Z c i s p w) as
    (c' & s' & p' & w' & Ecall & Hv & Hrc' & Hcc' & Ea & L1 & L2 & L3 & L4); [|by constructor|done..|].
  - constructor; try done. by rewrite Hlast, Z.sub_diag.
  - exists c', s', p', w'. split_and!; [done|by constructor|done|by split_and!|]. by rewrite L4, length_app, length_replicate.
Qed.

(** The requests without what the line does to them. *)
Definition commands_of (requests : list (Z * list Z * list (loss * Z))) : list (Z * list Z) := fst <$> requests.

Lemma lossy_calls_served c i s p w requests :
  resilient c i s p w → Forall (λ r, servable f r.1 ∧ recoverable r.2) requests →
  ∃ c' s' p' w', lossy_calls (as_address s) requests c p w = Some (c', p', w') ∧ resilient c' i s' p' w' ∧
    answered_logs f (commands_of requests) w w' ∧ length (lk_timeouts w') = length (lk_timeouts w) + losses_of requests.
Proof.
  intros Hv Hr. revert c s p w Hv. induction Hr as [|[[code payload] losses] requests [Hsv Hrec] _ IH]; intros c s p w Hv.
  { exists c, s, p, w. split_and!; [done|done|by unfold answered_logs; rewrite !app_nil_r|unfold losses_of; cbn; lia]. }
  destruct (lossy_call_served c i s p w code payload losses Hv Hsv Hrec) as (c1 & s1 & p1 & w1 & E1 & Hv1 & Ea & El & Et).
  destruct (IH c1 s1 p1 w1 Hv1) as (c2 & s2 & p2 & w2 & E2 & Hv2 & El2 & Et2).
  exists c2, s2, p2, w2. cbn [lossy_calls]. rewrite E1. cbn [mbind option_bind]. rewrite <-Ea.
  split_and!; [done|done|by apply (answered_logs_app f [_] _ w w1)|]. rewrite Et2, Et. unfold losses_of. cbn. lia.
Qed.

(** C5: Exactly once over a line that loses messages, for the commands the application
    serves itself.  As in [secured_calls_refine_rpc], the PD's application answers every
    command at once by a function [f], the commands are [servable] (no code the library
    handles, payload and reply of at most 111 bytes), and the replay caches of the PD
    hold a message of 128 bytes each.  The line loses any command or any reply of a
    call, as often as it likes: after each loss the ACU is next called more than the
    reply timeout (200 ms) later, and the losses of one call take no longer than the
    offline timeout (8 s) in all.  The ACU notices each loss by its reply timeout, its
    application gives it the command again, which goes out as the same bytes, and the PD
    executes it if the command was lost and repeats its answer if the reply was.  (The
    PD's transport has no clock.)  Every command is executed exactly once, in order, and
    the reply handler gets exactly [f] of each, with one timeout event for each loss and
    no other event; both sides are still in session. *)
Theorem lossy_line_exactly_once c i s d p ra rb t w requests :
  paired cr c i s d p → rand_bytes cr = Some draw → rnd_ok ra → rnd_ok rb → silent (lk_clock w) s = false →
  lk_tape w = ra :: rb :: t → lk_to_pd w = [] → lk_to_acu w = [] →
  pd_cmd_cb p = Some (serve f) → pd_event_len p < EVENT_HEADER_BYTES → 128 ≤ pd_tx_cap p → 112 ≤ pd_rx_plain_cap p →
  CHUNK ≤ pd_rpl_cache_cap p → CHUNK ≤ pd_cmd_cache_cap p →
  Forall (λ r, servable f r.1 ∧ recoverable r.2) requests →
  ∃ c1 p1 w1 c' s' p' w', handshake (as_address s) d c p w = Some (c1, p1, w1) ∧
    lossy_calls (as_address s) requests c1 p1 w1 = Some (c', p', w') ∧
    lk_replies w' = lk_replies w ++ (response f <$> commands_of requests) ∧
    lk_served w' = lk_served w ++ commands_of requests ∧
    length (lk_timeouts w') = length (lk_timeouts w) + losses_of requests ∧
    in_session cr c' i s' p' w' ∧ lk_events w' = lk_events w ++ [mk_sc_event (as_address s) OSDP_ACU_SC_EVENT_ESTABLISHED].
Proof.
  intros Hpair Hdraw Ba Bb Hsil Htape Hpd Hacu Hcb Hev Htx Hplain Hrc Hcc Hreq.
  destruct (serving_reached cr E D f c i s d p ra rb t w) as (c1 & s1 & p1 & w1 & E1 & Hv & Ea & Ee & (Er & Et & Es & _) & []); [done..|].
  destruct (lossy_calls_served c1 i s1 p1 w1 requests) as (c2 & s2 & p2 & w2 & E2 & [[Hin _ _ _ _] _ _] & (L1 & L2 & L3) & L4);
    [by constructor; [done|lia..]|done|].
  rewrite Ea in E2. exists c1, p1, w1, c2, s2, p2, w2. split_and!; [done..| | | |done|]; congruence.
Qed.

End lossy.

(** ** Witness *)

(** The second command is lost once, the third twice, its reply once in between. *)
Definition ex_lossy_requests : list (Z * list Z * list (loss * Z)) :=
  [(OSDP_CMD_POLL, [], []); (OSDP_CMD_OUT, [1; 2; 3]%Z, [(Lost_command, 250%Z)]);
   (OSDP_CMD_TEXT, replicate 40 7%Z, [(Lost_command, 201%Z); (Lost_reply, 300%Z); (Lost_command, 7000%Z)])].

Lemma lossy_line_exactly_once_witness :
  ∃ c1 p1 w1 c' s' p' w', handshake (as_address ex_slot) false ex_control (ex_peripheral (Some (serve mirror))) ex_line =
      Some (c1, p1, w1) ∧
    lossy_calls (as_address ex_slot) ex_lossy_requests c1 p1 w1 = Some (c', p', w') ∧
    lk_replies w' = lk_replies ex_line ++
      [(OSDP_CMD_POLL, OSDP_REPLY_RAW, []); (OSDP_CMD_OUT, OSDP_REPLY_RAW, [3; 2; 1]%Z);
       (OSDP_CMD_TEXT, OSDP_REPLY_RAW, replicate 40 7%Z)] ∧
    lk_served w' = lk_served ex_line ++ ex_requests ∧
    length (lk_timeouts w') = length (lk_timeouts ex_line) + 4 ∧
    in_session line_crypto c' 0 s' p' w' ∧
    lk_events w' = lk_events ex_line ++ [mk_sc_event (as_address ex_slot) OSDP_ACU_SC_EVENT_ESTABLISHED].
Proof.
  apply (lossy_line_exactly_once line_crypto toy toy mirror ex_control 0 ex_slot false (ex_peripheral (Some (serve mirror)))
    (replicate 8 1%Z) (replicate 8 2%Z) [[3%Z]] ex_line ex_lossy_requests (ex_paired _ serve_mirror_ok) eq_refl);
    first [by vm_decide|by vm_compute].
Defined.
