(* ===== verification/Osdpcap.v ===== *)
(** * OSDPCAP captures: tools/osdp-parser/osdpcap.c

    The reader of JSON-Lines capture records: a key scanner, string and integer
    readers, a hex decoder and [osdpcap_parse_line].  A C string is the list of
    its bytes before the terminating NUL; a pointer into it is the suffix it points
    to, and [deref] reads through it. *)
From S2P Require Import Prelude.
From Stdlib Require Import Ascii.
From Stdlib Require String.
Import String.StringSyntax.

(** ** C strings *)

(** A string literal. *)
Definition lit (s : String.string) : list Z := (λ a, Z.of_N (N_of_ascii a)) <$> String.list_ascii_of_string s.
Arguments lit s%_string_scope.

Definition QUOTE : Z := 34.
Definition COLON : Z := 58.

(** [*p]: the NUL at the end. *)
Definition deref (p : list Z) : Z := hd 0%Z p.

(** A string without a NUL inside. *)
Definition cstr_ok (s : list Z) : Prop := Forall (λ c, is_byte c ∧ c ≠ 0%Z) s.

(** The string a buffer holds. *)
Fixpoint cstr_of (buf : list Z) : list Z :=
  match buf with
  | [] => []
  | c :: buf => if decide (c = 0%Z) then [] else c :: cstr_of buf
  end.

(** ** The record *)

Definition OSDPCAP_MAX_DATA_LEN : nat := 2048.
Definition OSDPCAP_VERSION_LEN : nat := 16.
Definition OSDPCAP_SOURCE_LEN : nat := 128.

Inductive osdpcap_status : Type :=
  | OSDPCAP_OK
  | OSDPCAP_ERR_INVALID_ARG
  | OSDPCAP_ERR_EMPTY_LINE
  | OSDPCAP_ERR_PARSE
  | OSDPCAP_ERR_MISSING_DATA
  | OSDPCAP_ERR_BAD_HEX
  | OSDPCAP_ERR_DATA_TOO_LARGE.

#[export] Instance osdpcap_status_eq_dec : EqDecision osdpcap_status.
Proof. solve_decision. Defined.

Inductive osdpcap_io : Type := OSDPCAP_IO_UNKNOWN | OSDPCAP_IO_INPUT | OSDPCAP_IO_OUTPUT | OSDPCAP_IO_TRACE.

#[export] Instance osdpcap_io_eq_dec : EqDecision osdpcap_io.
Proof. solve_decision. Defined.

Record osdpcap_record : Type := mk_cap {
  cap_time_sec : Z;
  cap_time_nano : Z;
  cap_io : osdpcap_io;
  cap_data : list Z;
  cap_data_len : nat;
  cap_version : list Z;
  cap_source : list Z }.

(** ** Scanning *)

Definition is_ws (c : Z) : bool := bool_decide (c = 32 ∨ c = 9 ∨ c = 13 ∨ c = 10)%Z.

Fixpoint skip_ws (p : list Z) : list Z :=
  match p with
  | c :: p' => if is_ws c then skip_ws p' else p
  | [] => []
  end.

(** [strncmp(p, name, strlen(name)) == 0]. *)
Fixpoint starts_with (name p : list Z) : bool :=
  match name, p with
  | [], _ => true
  | n :: name, c :: p => bool_decide (n = c) && starts_with name p
  | _ :: _, [] => false
  end.

(** The [strstr] loop: every occurrence of [name] in turn, [before] the byte in
    front of it unless it starts the line. *)
Fixpoint find_key_from (before : option Z) (p name : list Z) : option (list Z) :=
  match p with
  | [] => None
  | c :: p' =>
      let after := drop (length name) p in
      if starts_with name p && bool_decide (before = Some QUOTE) && bool_decide (deref after = QUOTE)
      then Some (tail after)
      else find_key_from (Some c) p' name
  end.

Definition find_key (line name : list Z) : option (list Z) := find_key_from None line name.

Definition find_value (line name : list Z) : option (list Z) :=
  p ← find_key line name;
  let p := skip_ws p in
  if decide (deref p ≠ COLON) then None else Some (skip_ws (tail p)).

(** ** Values *)

(** The loop of [read_string]: what is left at its end, the index and the buffer. *)
Fixpoint read_chars (p out : list Z) (out_cap i : nat) : option (list Z * nat * list Z) :=
  match p with
  | [] => Ret ([], i, out)
  | c :: p' =>
      if decide (c = QUOTE) then Ret (p, i, out) else
      if decide (i + 1 < out_cap) then
        out ← mwr out i [c];
        read_chars p' out out_cap (S i)
      else read_chars p' out out_cap i
  end.

Definition read_string (p out : list Z) (out_cap : nat) : option (option (list Z) * list Z) :=
  if decide (deref p ≠ QUOTE) then Ret (None, out) else
  '(p, i, out) ← read_chars (tail p) out out_cap 0;
  if decide (deref p ≠ QUOTE) then Ret (None, out) else
  out ← mwr out (if decide (i < out_cap) then i else out_cap - 1) [0%Z];
  Ret (Some (tail p), out).

(** The bytes up to a stop byte or the end, and what is left. *)
Fixpoint token (stop : Z → bool) (p : list Z) : list Z * list Z :=
  match p with
  | [] => ([], [])
  | c :: p' => if stop c then ([], p) else let '(t, rest) := token stop p' in (c :: t, rest)
  end.

Definition is_space (c : Z) : bool := bool_decide (c = 32 ∨ 9 ≤ c ≤ 13)%Z.
Definition is_digit (c : Z) : bool := bool_decide (48 ≤ c ≤ 57)%Z.
Definition ULLONG_MAX : Z := 2 ^ 64 - 1.

(** Decimal digits, saturating. *)
Fixpoint digits_value (acc : Z) (p : list Z) : Z :=
  match p with
  | c :: p => if is_digit c then digits_value (Z.min (acc * 10 + (c - 48)) (ULLONG_MAX + 1)) p else acc
  | [] => acc
  end.

(** [strtoull(buf, &end, 10)]; [None] for [end == buf]. *)
Definition strtoull (buf : list Z) : option Z :=
  let p := snd (token (λ c, negb (is_space c)) buf) in
  let '(neg, p) := (if decide (deref p = 45%Z) then (true, tail p)
                    else if decide (deref p = 43%Z) then (false, tail p) else (false, p)) in
  if is_digit (deref p) then
    let v := digits_value 0 p in
    Some (if decide (ULLONG_MAX < v)%Z then ULLONG_MAX else if (neg : bool) then (- v) mod 2 ^ 64 else v)%Z
  else None.

Definition UINT_BUF : nat := 32.

Definition read_uint (p : list Z) (out : Z) : osdpcap_status * Z :=
  let quoted := bool_decide (deref p = QUOTE) in
  let '(t, rest) :=
    if quoted then token (λ c, bool_decide (c = QUOTE)) (tail p)
    else token (λ c, is_ws c || bool_decide (c = 44 ∨ c = 125)%Z) p in
  if quoted && bool_decide (deref rest ≠ QUOTE) then (OSDPCAP_ERR_PARSE, out) else
  let buf := take (UINT_BUF - 1) t in
  if decide (length buf = 0) then (OSDPCAP_ERR_PARSE, out) else
  match strtoull buf with
  | None => (OSDPCAP_ERR_PARSE, out)
  | Some v => (OSDPCAP_OK, v)
  end.

(** ** Hex *)

Definition hex_digit (c : Z) : Z :=
  if decide (48 ≤ c ≤ 57)%Z then c - 48
  else if decide (97 ≤ c ≤ 102)%Z then 10 + (c - 97)
  else if decide (65 ≤ c ≤ 70)%Z then 10 + (c - 65)
  else -1.

Definition is_hex_sep (c : Z) : bool := is_ws c || bool_decide (c = 45%Z).

(** [dst] holds [written] bytes so far. *)
Fixpoint decode_hex_from (src dst : list Z) (cap written : nat) : option (osdpcap_status * list Z * nat) :=
  match src with
  | [] => Ret (OSDPCAP_OK, dst, written)
  | c :: src =>
      if is_hex_sep c then decode_hex_from src dst cap written else
      let hi := hex_digit c in
      match src with
      | [] => Ret (OSDPCAP_ERR_BAD_HEX, dst, written)
      | d :: src =>
          let lo := if decide (0 ≤ hi)%Z then hex_digit d else (-1)%Z in
          if decide (hi < 0 ∨ lo < 0)%Z then Ret (OSDPCAP_ERR_BAD_HEX, dst, written) else
          if decide (cap ≤ written) then Ret (OSDPCAP_ERR_DATA_TOO_LARGE, dst, written) else
          dst ← mwr dst written [Z.lor (Z.shiftl hi 4) lo];
          decode_hex_from src dst cap (S written)
      end
  end.

Definition decode_hex (src dst : list Z) (cap : nat) : option (osdpcap_status * list Z * nat) :=
  decode_hex_from src dst cap 0.

(** ** One line *)

Definition DATA_STR_LEN : nat := OSDPCAP_MAX_DATA_LEN * 3 + 16.
Definition IO_STR_LEN : nat := 16.

(** An optional integer field. *)
Definition read_time (line name : list Z) (out : Z) : Z :=
  match find_value line name with Some t => (read_uint t out).2 | None => out end.

(** The optional direction. *)
Definition read_io (line : list Z) : option osdpcap_io :=
  match find_value line (lit "io") with
  | None => Ret OSDPCAP_IO_UNKNOWN
  | Some v =>
      '(r, tmp) ← read_string v (replicate IO_STR_LEN 0%Z) IO_STR_LEN;
      match r with
      | None => Ret OSDPCAP_IO_UNKNOWN
      | Some _ =>
          let s := cstr_of tmp in
          Ret (if decide (s = lit "input") then OSDPCAP_IO_INPUT
               else if decide (s = lit "output") then OSDPCAP_IO_OUTPUT
               else if decide (s = lit "trace") then OSDPCAP_IO_TRACE
               else OSDPCAP_IO_UNKNOWN)
      end
  end.

(** An optional string field, read into an array of the record. *)
Definition read_field (line name out : list Z) (cap : nat) : option (list Z) :=
  match find_value line name with
  | None => Ret out
  | Some v => '(_, out) ← read_string v out cap; Ret out
  end.

Definition osdpcap_parse_line (line : option (list Z)) (out : option osdpcap_record)
  : option (osdpcap_status * option osdpcap_record) :=
  match line, out with
  | Some line, Some r =>
      let p := skip_ws line in
      if decide (deref p = 0%Z ∨ deref p = 35%Z) then Ret (OSDPCAP_ERR_EMPTY_LINE, out) else
      if decide (123%Z ∉ line) then Ret (OSDPCAP_ERR_EMPTY_LINE, out) else
      version ← mwr (cap_version r) 0 [0%Z];
      source ← mwr (cap_source r) 0 [0%Z];
      let r := mk_cap 0 0 OSDPCAP_IO_UNKNOWN (cap_data r) 0 version source in
      match find_value line (lit "data") with
      | None => Ret (OSDPCAP_ERR_MISSING_DATA, Some r)
      | Some data_val =>
          '(s, data_str) ← read_string data_val (replicate DATA_STR_LEN 0%Z) DATA_STR_LEN;
          match s with
          | None => Ret (OSDPCAP_ERR_PARSE, Some r)
          | Some _ =>
              '(hex_s, data, n) ← decode_hex (cstr_of data_str) (cap_data r) OSDPCAP_MAX_DATA_LEN;
              let r := mk_cap 0 0 OSDPCAP_IO_UNKNOWN data n version source in
              if decide (hex_s ≠ OSDPCAP_OK) then Ret (hex_s, Some r) else
              io ← read_io line;
              version ← read_field line (lit "osdpTraceVersion") version OSDPCAP_VERSION_LEN;
              source ← read_field line (lit "osdpSource") source OSDPCAP_SOURCE_LEN;
              Ret (OSDPCAP_OK, Some (mk_cap (read_time line (lit "timeSec") 0) (read_time line (lit "timeNano") 0)
                                       io data n version source))
          end
      end
  | _, _ => Ret (OSDPCAP_ERR_INVALID_ARG, out)
  end.

Definition osdpcap_status_str (s : osdpcap_status) : list Z :=
  match s with
  | OSDPCAP_OK => lit "ok"
  | OSDPCAP_ERR_INVALID_ARG => lit "invalid argument"
  | OSDPCAP_ERR_EMPTY_LINE => lit "empty line"
  | OSDPCAP_ERR_PARSE => lit "parse error"
  | OSDPCAP_ERR_MISSING_DATA => lit "missing data field"
  | OSDPCAP_ERR_BAD_HEX => lit "bad hex digit"
  | OSDPCAP_ERR_DATA_TOO_LARGE => lit "data exceeds buffer"
  end.

Definition osdpcap_io_str (io : osdpcap_io) : list Z :=
  match io with
  | OSDPCAP_IO_INPUT => lit "input"
  | OSDPCAP_IO_OUTPUT => lit "output"
  | OSDPCAP_IO_TRACE => lit "trace"
  | OSDPCAP_IO_UNKNOWN => lit "unknown"
  end.

(** ** Specification

    A string value: the bytes up to the closing quote, and what follows it. *)
Definition quote (c : Z) : bool := bool_decide (c = QUOTE).

Definition string_at (p : list Z) : option (list Z * list Z) :=
  if decide (deref p = QUOTE) then
    match token quote (tail p) with (_, []) => None | (t, _ :: q) => Some (t, q) end
  else None.

(** The bytes a hex text stands for: digit pairs, with separators between them. *)
Inductive hex_text : list Z → list Z → Prop :=
  | hex_end : hex_text [] []
  | hex_sep c s bs : is_hex_sep c = true → hex_text s bs → hex_text (c :: s) bs
  | hex_pair h l s bs : (0 ≤ hex_digit h)%Z → (0 ≤ hex_digit l)%Z → hex_text s bs →
      hex_text (h :: l :: s) (hex_digit h * 16 + hex_digit l :: bs)%Z.

(** Where the decoder stops, after the bytes [bs]. *)
Definition hex_stop (src : list Z) (cap : nat) (bs : list Z) (st : osdpcap_status) : Prop :=
  match st with
  | OSDPCAP_OK => hex_text src bs
  | OSDPCAP_ERR_DATA_TOO_LARGE =>
      length bs = cap ∧ ∃ pre h l rest, src = pre ++ h :: l :: rest ∧ hex_text pre bs ∧
        (0 ≤ hex_digit h)%Z ∧ (0 ≤ hex_digit l)%Z
  | OSDPCAP_ERR_BAD_HEX =>
      ∃ pre c rest, src = pre ++ c :: rest ∧ hex_text pre bs ∧ is_hex_sep c = false ∧
        (hex_digit c < 0 ∨ rest = [] ∨ ∃ d rest', rest = d :: rest' ∧ hex_digit d < 0)%Z
  | _ => False
  end.

(** The arrays have their declared sizes. *)
Definition cap_sizes (r : osdpcap_record) : Prop :=
  (length (cap_data r) = OSDPCAP_MAX_DATA_LEN ∧ bytes_ok (cap_data r)) ∧
  (length (cap_version r) = OSDPCAP_VERSION_LEN ∧ bytes_ok (cap_version r)) ∧
  (length (cap_source r) = OSDPCAP_SOURCE_LEN ∧ bytes_ok (cap_source r)).

Definition cap_ok (r : osdpcap_record) : Prop :=
  cap_sizes r ∧ cap_data_len r ≤ OSDPCAP_MAX_DATA_LEN ∧
  (0 ≤ cap_time_sec r ≤ ULLONG_MAX)%Z ∧ (0 ≤ cap_time_nano r ≤ ULLONG_MAX)%Z.

(** ** Strings *)

Lemma cstr_ok_bytes s : cstr_ok s → bytes_ok s.
Proof. apply Forall_impl. by intros ? []. Qed.

Lemma cstr_of_prefix s rest : cstr_ok s → cstr_of (s ++ 0%Z :: rest) = s.
Proof.
  induction 1 as [|c s [_ ?] _ IH]; simpl; [done|].
  rewrite decide_False by done. by rewrite IH.
Qed.

Lemma token_split stop p : p = (token stop p).1 ++ (token stop p).2.
Proof.
  induction p as [|c p IH]; simpl; [done|]. destruct (stop c); [done|].
  destruct (token stop p) as [t q]. simpl in *. by rewrite <-IH.
Qed.

Lemma token_stop stop t c q :
  Forall (λ c, stop c = false) t → stop c = true → token stop (t ++ c :: q) = (t, c :: q).
Proof.
  intros Ht Hc. induction Ht as [|d t Hd _ IH]; simpl; [by rewrite Hc|]. by rewrite Hd, IH.
Qed.

Lemma token_free stop p : Forall (λ c, stop c = false) (token stop p).1.
Proof.
  induction p as [|c p IH]; simpl; [done|]. destruct (stop c) eqn:E; [done|].
  destruct (token stop p). by constructor.
Qed.

Lemma token_head stop p c q : (token stop p).2 = c :: q → stop c = true.
Proof.
  induction p as [|d p IH]; simpl; [done|].
  destruct (stop d) eqn:E; [by intros [= <- <-]|by destruct (token stop p)].
Qed.

Lemma quote_true c : quote c = true → c = QUOTE.
Proof. apply bool_decide_eq_true. Qed.

Lemma Forall_suffix {A} (P : A → Prop) a b l : l = a ++ b → Forall P l → Forall P b.
Proof. intros ->. rewrite Forall_app. tauto. Qed.

Lemma skip_ws_suffix p : ∃ w, p = w ++ skip_ws p.
Proof.
  induction p as [|c p [w IH]]; simpl; [by exists []|].
  destruct (is_ws c); [|by exists []]. exists (c :: w). simpl. by rewrite <-IH.
Qed.

Lemma tail_drop {A} n (l : list A) : tail (drop n l) = drop (S n) l.
Proof. revert l. induction n as [|n IH]; intros [|x l]; try done. apply IH. Qed.

Lemma find_key_suffix before p name v : find_key_from before p name = Some v → ∃ w, p = w ++ v.
Proof.
  revert before. induction p as [|c p IH]; intros before; simpl; [done|].
  destruct (_ && _ && _).
  - intros [= <-]. exists (take (S (length name)) (c :: p)).
    by rewrite tail_drop, take_drop.
  - intros H. destruct (IH _ H) as [w Hw]. exists (c :: w). by rewrite Hw at 1.
Qed.

Lemma find_value_suffix line name v : find_value line name = Some v → ∃ w, line = w ++ v.
Proof.
  unfold find_value, find_key. destruct (find_key_from _ _ _) as [p|] eqn:E; simpl; [|done].
  destruct (decide (deref (skip_ws p) ≠ COLON)); [done|]. intros [= <-].
  apply find_key_suffix in E as [w ->]. destruct (skip_ws_suffix p) as [w1 Hp].
  destruct (skip_ws_suffix (tail (skip_ws p))) as [w2 Hp2].
  exists (w ++ w1 ++ take 1 (skip_ws p) ++ w2). rewrite <-!app_assoc, <-Hp2.
  assert (take 1 (skip_ws p) ++ tail (skip_ws p) = skip_ws p) as -> by by destruct (skip_ws p).
  by rewrite <-Hp.
Qed.

Lemma find_value_cstr line name v : find_value line name = Some v → cstr_ok line → cstr_ok v.
Proof. intros [w Hw]%find_value_suffix. by apply Forall_suffix with w. Qed.

Lemma string_at_split p t q : string_at p = Some (t, q) → p = QUOTE :: t ++ QUOTE :: q.
Proof.
  unfold string_at. case_decide as Hd; [|done]. destruct p as [|c p]; [done|].
  simpl in *. subst c. pose proof (token_split quote p) as Hp.
  pose proof (token_head quote p) as Hq.
  destruct (token quote p) as [t' [|d q']]; [done|]. intros [= -> ->].
  simpl in *. specialize (quote_true _ (Hq d q eq_refl)). intros ->. by rewrite Hp.
Qed.

Lemma string_at_cstr p t q : string_at p = Some (t, q) → cstr_ok p → cstr_ok t.
Proof.
  intros ->%string_at_split H. unfold cstr_ok in *. apply Forall_cons_1 in H as [_ H].
  by apply Forall_app in H as [H _].
Qed.

Lemma read_chars_ok p out cap i :
  length out = cap → i < cap → bytes_ok p → bytes_ok out →
  ∃ i' out', read_chars p out cap i = Some ((token quote p).2, i', out') ∧
    length out' = cap ∧ bytes_ok out' ∧
    i' = (i + length (token quote p).1) `min` (cap - 1) ∧
    take i' out' = take i out ++ take (cap - 1 - i) (token quote p).1.
Proof.
  revert out i. induction p as [|c p IH]; intros out i Hl Hi Hp Hb; simpl.
  { exists i, out. split_and!; try done; simpl; [lia|]. by rewrite take_nil, app_nil_r. }
  apply Forall_cons_1 in Hp as [Hc Hp]. destruct (quote c) eqn:Hq;
    [apply quote_true in Hq|apply bool_decide_eq_false in Hq].
  { rewrite decide_True by done. exists i, out.
    split_and!; try done; simpl; [lia|]. by rewrite take_nil, app_nil_r. }
  rewrite decide_False by done. destruct (token quote p) as [t q]. cbn [fst snd] in *.
  case_decide.
  - rewrite mwr_Some by (simpl; lia). rewrite bind_Some.
    edestruct (IH (take i out ++ [c] ++ drop (i + 1) out) (S i)) as (i' & o & E & ? & ? & Hi' & Ht);
      [solve_len|lia|done| |].
    { apply Forall_app; split; [by apply Forall_take|].
      apply Forall_app; split; [by constructor|by apply Forall_drop]. }
    exists i', o. split_and!; [done..| |]; [simpl; lia|].
    rewrite Ht. rewrite (app_assoc (take i out)).
    rewrite take_app_length' by (solve_len).
    rewrite <-app_assoc. f_equal. by replace (cap - 1 - i) with (S (cap - 1 - S i)) by lia.
  - edestruct (IH out i) as (i' & o & E & ? & ? & Hi' & Ht); [done..|].
    exists i', o. split_and!; [done..| |]; [simpl; lia|].
    rewrite Ht. by replace (cap - 1 - i) with 0 by lia.
Qed.

(** [read_string] by its specification: a value that is a string leaves its first
    [cap - 1] bytes and a NUL. *)
Lemma read_string_ok p out cap :
  length out = cap → 0 < cap → bytes_ok p → bytes_ok out →
  ∃ out', read_string p out cap = Some (snd <$> string_at p, out') ∧
    length out' = cap ∧ bytes_ok out' ∧
    ∀ t q, string_at p = Some (t, q) →
      ∃ rest, out' = take (cap - 1) t ++ 0%Z :: rest.
Proof.
  intros Hl Hc Hp Hb. unfold read_string, string_at.
  destruct (decide (deref p = QUOTE)) as [Hd|Hd];
    [rewrite decide_False by tauto|rewrite decide_True by done; by exists out].
  destruct (read_chars_ok (tail p) out cap 0 Hl Hc) as (i & o & E & Hlo & Hbo & Hi & Ht); [|done|].
  { destruct p; [done|]. by apply Forall_cons_1 in Hp as [_ ?]. }
  rewrite E, bind_Some. pose proof (token_split quote (tail p)) as Hs.
  pose proof (token_head quote (tail p)) as Hq.
  destruct (token quote (tail p)) as [t [|c q]]; simpl in *.
  { by exists o. }
  rewrite (quote_true c), decide_False by naive_solver. rewrite (decide_True (P := i < cap)) by lia.
  rewrite mwr_Some by (simpl; lia). rewrite bind_Some.
  eexists. split; [done|]. split; [solve_len|]. split.
  { apply Forall_app; split; [by apply Forall_take|]. constructor; [done|by apply Forall_drop]. }
  intros t' q' [= <- <-]. rewrite Ht, Nat.sub_0_r. by eexists.
Qed.

(** ** The decoder *)

Lemma hex_digit_range c : (0 ≤ hex_digit c)%Z → (hex_digit c < 16)%Z.
Proof. unfold hex_digit. repeat case_decide; lia. Qed.

Lemma hex_text_app a b x y : hex_text a x → hex_text b y → hex_text (a ++ b) (x ++ y).
Proof. intros Ha Hb. induction Ha; simpl; [done|by constructor|by constructor]. Qed.

Lemma hex_digit_not_sep c : (0 ≤ hex_digit c)%Z → is_hex_sep c = false.
Proof.
  unfold hex_digit, is_hex_sep, is_ws. intros H.
  rewrite orb_false_iff, !bool_decide_eq_false. repeat case_decide; lia.
Qed.

(** Two readings of one text agree. *)
Lemma hex_text_det s x y : hex_text s x → hex_text s y → x = y.
Proof.
  intros H. revert y. induction H as [|c s bs Hc _ IH|h l s bs Hh Hl _ IH]; intros y Hy.
  - by inversion Hy.
  - inversion Hy as [|? ? ? ? Hy'|? ? ? ? Hh]; subst; [by apply IH|].
    apply hex_digit_not_sep in Hh. congruence.
  - inversion Hy as [|? ? ? Hs|? ? ? ? ? ? Hy']; subst;
      [apply hex_digit_not_sep in Hh; congruence|]. by rewrite (IH _ Hy').
Qed.

Lemma hex_text_bytes s bs : hex_text s bs → bytes_ok bs.
Proof.
  induction 1 as [| |h l s bs Hh Hl _ IH]; [done|done|]. constructor; [|done].
  apply hex_digit_range in Hh as ?. apply hex_digit_range in Hl as ?. unfold is_byte. lia.
Qed.

(** Moving a stop past a decoded prefix. *)
Lemma hex_stop_app src cap pre xs bs st :
  hex_text pre xs → hex_stop src (cap - length xs) bs st → length xs ≤ cap →
  hex_stop (pre ++ src) cap (xs ++ bs) st.
Proof.
  intros Hp. destruct st; simpl; try done.
  - intros. by apply hex_text_app.
  - intros (p & c & rest & -> & Ht & H) _. exists (pre ++ p), c, rest.
    rewrite <-app_assoc. split; [done|]. split; [by apply hex_text_app|done].
  - intros (Hl & p & h & l & rest & -> & Ht & H) ?. split; [rewrite length_app; lia|].
    exists (pre ++ p), h, l, rest. rewrite <-app_assoc.
    split; [done|]. split; [by apply hex_text_app|done].
Qed.

(** What a run of the decoder from a state with the bytes [dn] stored must do. *)
Definition hex_run (src dst : list Z) (cap : nat) (dn : list Z) : Prop :=
  ∃ st bs, decode_hex_from src dst cap (length dn) =
      Some (st, dn ++ bs ++ drop (length dn + length bs) dst, length dn + length bs) ∧
    length dn + length bs ≤ cap ∧ bytes_ok bs ∧ hex_stop src (cap - length dn) bs st.

Definition hex_state (dst : list Z) (cap : nat) (dn : list Z) : Prop :=
  length dst = cap ∧ dst = dn ++ drop (length dn) dst.

Lemma hex_run_stop src dst cap dn st :
  hex_state dst cap dn → decode_hex_from src dst cap (length dn) = Some (st, dst, length dn) →
  hex_stop src (cap - length dn) [] st → hex_run src dst cap dn.
Proof.
  intros (Hl & E) ? ?. exists st, []. rewrite Nat.add_0_r. cbn [app]. rewrite <-E.
  split; [done|]. apply (f_equal length) in E. rewrite length_app in E. split; [lia|by split].
Qed.

Lemma hex_byte c d :
  (0 ≤ hex_digit c)%Z → (0 ≤ hex_digit d)%Z →
  Z.lor (Z.shiftl (hex_digit c) 4) (hex_digit d) = (hex_digit c * 16 + hex_digit d)%Z ∧
  is_byte (hex_digit c * 16 + hex_digit d).
Proof.
  intros Hc Hd. apply hex_digit_range in Hc as ?. apply hex_digit_range in Hd as ?.
  split; [|unfold is_byte; lia]. rewrite Z.lor_comm, (lor_shiftl_add 4) by lia. lia.
Qed.

(** Storing one more byte. *)
Lemma hex_state_step dst cap dn x :
  hex_state dst cap dn → length dn < cap →
  mwr dst (length dn) [x] = Some (dn ++ [x] ++ drop (length dn + 1) dst) ∧
  hex_state (dn ++ [x] ++ drop (length dn + 1) dst) cap (dn ++ [x]).
Proof.
  intros (Hl & E) Hlt. split.
  - rewrite mwr_Some by (simpl; lia). f_equal. f_equal. rewrite E at 1. apply take_app_length.
  - split; [solve_len|]. by rewrite (app_assoc dn), drop_app_length.
Qed.

Lemma decode_hex_from_ok n src dst cap dn :
  length src ≤ n → hex_state dst cap dn → hex_run src dst cap dn.
Proof.
  revert src dst dn. induction n as [|n IH]; intros src dst dn Hn Hst.
  all: destruct src as [|c src];
    [apply hex_run_stop with OSDPCAP_OK; [done|done|constructor]|simpl in Hn; try lia].
  destruct (is_hex_sep c) eqn:Hs.
  { destruct (IH src dst dn) as (st & bs & E & ? & ? & Hh); [lia|done|].
    exists st, bs. split; [cbn [decode_hex_from]; by rewrite Hs|]. do 2 (split; [done|]).
    apply (hex_stop_app src _ [c] [] bs); [by constructor; [|constructor]|by rewrite Nat.sub_0_r|simpl; lia]. }
  destruct src as [|d src].
  { apply hex_run_stop with OSDPCAP_ERR_BAD_HEX; [done|cbn [decode_hex_from]; by rewrite Hs|].
    exists [], c, []. split_and!; [done|constructor|done|by right; left]. }
  destruct (decide (hex_digit c < 0 ∨ hex_digit d < 0)%Z) as [Hh|Hh].
  { apply hex_run_stop with OSDPCAP_ERR_BAD_HEX; [done| |].
    - cbn [decode_hex_from]. rewrite Hs, decide_True; [done|]. case_decide; lia.
    - exists [], c, (d :: src). split; [done|]. split; [constructor|]. split; [done|].
      destruct Hh as [Hh|Hh]; [by left|right; right]. by exists d, src. }
  destruct (decide (cap ≤ length dn)) as [Hc|Hc].
  { apply hex_run_stop with OSDPCAP_ERR_DATA_TOO_LARGE; [done| |].
    - cbn [decode_hex_from]. rewrite Hs. rewrite (decide_True (P := 0 ≤ hex_digit c)%Z) by lia.
      by rewrite decide_False, decide_True by done.
    - split; [simpl; lia|]. exists [], c, d, src. split_and!; [done|constructor|lia|lia]. }
  destruct (hex_byte c d) as [Ev Hb]; [lia..|].
  destruct (hex_state_step dst cap dn (hex_digit c * 16 + hex_digit d) Hst ltac:(lia)) as [Ew Hst'].
  destruct (IH src _ _ ltac:(simpl in Hn; lia) Hst') as (st & bs & E & Hle & ? & Hh').
  rewrite length_app in E, Hle, Hh'. simpl length in E, Hle, Hh'.
  exists st, (hex_digit c * 16 + hex_digit d :: bs)%Z. simpl length. split.
  { cbn [decode_hex_from]. rewrite Hs. rewrite (decide_True (P := 0 ≤ hex_digit c)%Z) by lia.
    rewrite decide_False, decide_False by done. rewrite Ev, Ew, bind_Some.
    rewrite Nat.add_1_r in *. rewrite E. f_equal. f_equal; [|lia]. f_equal.
    rewrite <-app_assoc. f_equal. cbn [app]. f_equal. f_equal.
    rewrite (cons_middle _ dn), (app_assoc dn [_]), drop_app_ge by solve_len.
    rewrite drop_drop. f_equal. solve_len. }
  split; [lia|]. split; [by constructor|].
  apply (hex_stop_app src _ [c; d] [_] bs); [constructor; [lia|lia|constructor]| |simpl; lia].
  simpl. by replace (cap - length dn - 1) with (cap - (length dn + 1)) by lia.
Qed.

Lemma decode_hex_ok src dst cap :
  length dst = cap →
  ∃ st bs, decode_hex src dst cap = Some (st, bs ++ drop (length bs) dst, length bs) ∧
    length bs ≤ cap ∧ bytes_ok bs ∧ hex_stop src cap bs st.
Proof.
  intros Hl. destruct (decode_hex_from_ok (length src) src dst cap [])
    as (st & bs & E & H); [done|by split|].
  exists st, bs. rewrite Nat.sub_0_r in H. by split.
Qed.

(** A text that starts with a decoded prefix. *)
Lemma hex_text_prefix pre bs rest xs :
  hex_text pre bs → hex_text (pre ++ rest) xs → ∃ ys, hex_text rest ys ∧ xs = bs ++ ys.
Proof.
  intros H. revert xs. induction H as [|c s bs Hc _ IH|h l s bs Hh Hl _ IH]; intros xs Hx; simpl in Hx.
  - by exists xs.
  - inversion Hx as [|? ? ? ? Hx'|? ? ? ? Hh]; subst; [by apply IH|].
    apply hex_digit_not_sep in Hh. congruence.
  - inversion Hx as [|? ? ? Hs|? ? ? ? ? ? Hx']; subst;
      [apply hex_digit_not_sep in Hh; congruence|].
    destruct (IH _ Hx') as (ys & ? & ->). by exists ys.
Qed.

(** The decoder stops early only where no reading fits the capacity. *)
Lemma hex_stop_ok src cap bs xs st :
  hex_stop src cap bs st → hex_text src xs → length xs ≤ cap → st = OSDPCAP_OK.
Proof.
  intros H Hx Hle. destruct st; try done; exfalso.
  - destruct H as (pre & c & rest & -> & Hp & Hs & Hbad).
    destruct (hex_text_prefix _ _ _ _ Hp Hx) as (ys & Hy & _). inversion Hy; subst; [congruence|].
    destruct Hbad as [?|[?|(? & ? & [= -> ->] & ?)]]; [lia|done|lia].
  - destruct H as (Hl & pre & h & l & rest & -> & Hp & Hh & _).
    destruct (hex_text_prefix _ _ _ _ Hp Hx) as (ys & Hy & ->). rewrite length_app in Hle.
    inversion Hy; subst; [apply hex_digit_not_sep in Hh; congruence|]. simpl in Hle. lia.
Qed.

(** ** Integers *)

Lemma digits_value_range acc p :
  (0 ≤ acc ≤ ULLONG_MAX + 1)%Z → (0 ≤ digits_value acc p ≤ ULLONG_MAX + 1)%Z.
Proof.
  revert acc. induction p as [|c p IH]; intros acc H; simpl; [done|].
  destruct (is_digit c) eqn:E; [|done]. apply bool_decide_eq_true in E. apply IH.
  unfold ULLONG_MAX in *. lia.
Qed.

Lemma strtoull_range buf v : strtoull buf = Some v → (0 ≤ v ≤ ULLONG_MAX)%Z.
Proof.
  unfold strtoull. destruct (if decide _ then _ else _) as [neg p]. destruct (is_digit _); [|done].
  intros [= <-]. pose proof (digits_value_range 0 p ltac:(done)) as H.
  case_decide; [done|]. destruct neg; [|lia]. unfold ULLONG_MAX.
  pose proof (Z.mod_pos_bound (- digits_value 0 p) (2 ^ 64) ltac:(done)). lia.
Qed.

Lemma read_uint_range p out st v :
  read_uint p out = (st, v) → (0 ≤ out ≤ ULLONG_MAX)%Z → (0 ≤ v ≤ ULLONG_MAX)%Z.
Proof.
  unfold read_uint. destruct (if bool_decide _ then _ else _) as [t rest].
  destruct (_ && _); [by intros [= _ <-]|]. case_decide; [by intros [= _ <-]|].
  destruct (strtoull _) eqn:E; [|by intros [= _ <-]].
  intros [= _ <-] _. by apply strtoull_range in E.
Qed.

Lemma read_time_range line name out :
  (0 ≤ out ≤ ULLONG_MAX)%Z → (0 ≤ read_time line name out ≤ ULLONG_MAX)%Z.
Proof.
  unfold read_time. destruct (find_value line name) as [t|]; [|done].
  destruct (read_uint t out) eqn:E. simpl. by eapply read_uint_range.
Qed.

(** ** Fields *)

(** The text of a string field. *)
Definition text_of (line name : list Z) : option (list Z) :=
  v ← find_value line name; fst <$> string_at v.

Lemma text_of_cstr line name t : text_of line name = Some t → cstr_ok line → cstr_ok t.
Proof.
  unfold text_of. destruct (find_value line name) as [v|] eqn:Ev; simpl; [|done].
  destruct (string_at v) as [[u q]|] eqn:E; simpl; [|done]. intros [= ->] Hc.
  eapply string_at_cstr; [done|]. by eapply find_value_cstr.
Qed.

(** Reading a value into an array. *)
Lemma read_text_ok line name v out cap :
  cstr_ok line → length out = cap → 0 < cap → bytes_ok out → find_value line name = Some v →
  ∃ out', read_string v out cap = Some (snd <$> string_at v, out') ∧
    length out' = cap ∧ bytes_ok out' ∧
    ∀ t, text_of line name = Some t → cstr_of out' = take (cap - 1) t.
Proof.
  intros Hc Hl H0 Hb Hv. pose proof (find_value_cstr _ _ _ Hv Hc) as Hcv.
  destruct (read_string_ok v out cap) as (o & E & ? & ? & Ht);
    [done|done|by apply cstr_ok_bytes|done|].
  exists o. do 3 (split; [done|]). intros t Et. unfold text_of in Et. rewrite Hv in Et. simpl in Et.
  destruct (string_at v) as [[u q]|] eqn:Eu; [|done]. injection Et as <-.
  destruct (Ht u q) as [rest ->]; [done|]. apply cstr_of_prefix.
  apply Forall_take. by eapply string_at_cstr.
Qed.

Lemma read_field_ok line name out cap :
  cstr_ok line → length out = cap → 0 < cap → bytes_ok out →
  ∃ out', read_field line name out cap = Some out' ∧ length out' = cap ∧ bytes_ok out' ∧
    (find_value line name = None → out' = out) ∧
    ∀ t, text_of line name = Some t → cstr_of out' = take (cap - 1) t.
Proof.
  intros Hc Hl H0 Hb. unfold read_field. destruct (find_value line name) as [v|] eqn:Ev.
  - destruct (read_text_ok line name v out cap) as (o & E & ? & ? & Ht); [done..|].
    rewrite E, bind_Some. exists o. by split_and!.
  - exists out. split_and!; try done. intros t. unfold text_of. by rewrite Ev.
Qed.

Lemma read_io_ok line :
  cstr_ok line → ∃ io, read_io line = Some io ∧
    ∀ io', text_of line (lit "io") = Some (osdpcap_io_str io') → io = io'.
Proof.
  intros Hc. unfold read_io. destruct (find_value line (lit "io")) as [v|] eqn:Ev.
  - destruct (read_text_ok line (lit "io") v (replicate IO_STR_LEN 0%Z) IO_STR_LEN)
      as (o & E & _ & _ & Ht); [done|done|vm_decide|vm_decide|done|].
    rewrite E, bind_Some. destruct (string_at v) as [[t q]|] eqn:Et.
    + eexists. split; [done|]. intros io' H. rewrite (Ht _ H). by destruct io'.
    + eexists. split; [done|]. intros io'. unfold text_of. by rewrite Ev, bind_Some, Et.
  - eexists. split; [done|]. intros io'. unfold text_of. by rewrite Ev.
Qed.

(** ** One line *)

Definition blank (line : list Z) : Prop :=
  deref (skip_ws line) = 0%Z ∨ deref (skip_ws line) = 35%Z ∨ 123%Z ∉ line.

(** [a[0] = 0]. *)
Lemma zero_first a n :
  length a = n → 0 < n → bytes_ok a → ∃ a', mwr a 0 [0%Z] = Some a' ∧ length a' = n ∧ bytes_ok a'.
Proof.
  intros <- H Hb. destruct (mwr a 0 [0%Z]) as [a'|] eqn:E; [|by rewrite mwr_Some in E].
  exists a'. rewrite (mwr_length _ _ _ _ E). do 2 (split; [done|]).
  apply (mwr_bytes _ _ _ _ E); [done|vm_decide].
Qed.

(** A line with no data text: nothing is stored but the zeroed fields. *)
Lemma parse_no_text line r :
  cap_sizes r → ¬ blank line → text_of line (lit "data") = None → cstr_ok line →
  ∃ r', osdpcap_parse_line (Some line) (Some r) =
      Some (if find_value line (lit "data") is Some _ then OSDPCAP_ERR_PARSE else OSDPCAP_ERR_MISSING_DATA,
            Some r') ∧ cap_ok r' ∧ cap_data_len r' = 0.
Proof.
  intros Hs Hb Ht Hc. unfold osdpcap_parse_line, blank in *.
  rewrite decide_False, decide_False by tauto.
  destruct Hs as ((Hl & Hd) & (Hlv & Hv) & (Hls & Hso)).
  destruct (zero_first (cap_version r) _ Hlv) as (ver & -> & ? & ?); [vm_decide|done|].
  destruct (zero_first (cap_source r) _ Hls) as (src & -> & ? & ?); [vm_decide|done|].
  rewrite !bind_Some.
  assert (cap_ok (mk_cap 0 0 OSDPCAP_IO_UNKNOWN (cap_data r) 0 ver src)) as Hok.
  { unfold cap_ok, cap_sizes. cbn. split_and!; try done; lia. }
  unfold text_of in Ht. destruct (find_value line (lit "data")) as [v|] eqn:Ev'; simpl in Ht; [|by eexists].
  destruct (read_text_ok line (lit "data") v (replicate DATA_STR_LEN 0%Z) DATA_STR_LEN)
      as (o & E & _); [done|apply length_replicate|vm_decide|vm_decide|done|].
  rewrite E, bind_Some. destruct (string_at v); [done|]. by eexists.
Qed.

(** A line with a data text: the decoder's verdict, and on success every field. *)
Lemma parse_text line r t :
  cap_sizes r → ¬ blank line → text_of line (lit "data") = Some t → cstr_ok line →
  ∃ st r', osdpcap_parse_line (Some line) (Some r) = Some (st, Some r') ∧ cap_ok r' ∧
    hex_stop (take (DATA_STR_LEN - 1) t) OSDPCAP_MAX_DATA_LEN (take (cap_data_len r') (cap_data r')) st ∧
    (st = OSDPCAP_OK →
      cap_time_sec r' = read_time line (lit "timeSec") 0 ∧
      cap_time_nano r' = read_time line (lit "timeNano") 0 ∧
      (∀ io, text_of line (lit "io") = Some (osdpcap_io_str io) → cap_io r' = io) ∧
      (∀ v, text_of line (lit "osdpTraceVersion") = Some v →
         cstr_of (cap_version r') = take (OSDPCAP_VERSION_LEN - 1) v) ∧
      (∀ s, text_of line (lit "osdpSource") = Some s →
         cstr_of (cap_source r') = take (OSDPCAP_SOURCE_LEN - 1) s)).
Proof.
  intros Hs Hb Ht Hc. unfold osdpcap_parse_line, blank in *.
  rewrite decide_False, decide_False by tauto.
  destruct Hs as ((Hl & Hd) & (Hlv & Hv) & (Hls & Hso)).
  destruct (zero_first (cap_version r) _ Hlv) as (ver & -> & Hlv' & Hbv); [vm_decide|done|].
  destruct (zero_first (cap_source r) _ Hls) as (src & -> & Hls' & Hbs); [vm_decide|done|].
  rewrite !bind_Some.
  assert (∃ v q, find_value line (lit "data") = Some v ∧ string_at v = Some (t, q)) as (v & q & Hv' & Hq).
  { unfold text_of in Ht. destruct (find_value _ _) as [v|]; [|done]. simpl in Ht.
    destruct (string_at v) as [[t' q]|] eqn:Eq; [|done]. injection Ht as <-. by eauto. }
  rewrite Hv'.
  destruct (read_text_ok line (lit "data") v (replicate DATA_STR_LEN 0%Z) DATA_STR_LEN)
      as (o & E & _ & _ & Ho); [done|apply length_replicate|vm_decide|vm_decide|done|].
  rewrite E, bind_Some, Hq, (Ho t Ht). cbn [fmap option_fmap option_map snd cap_data].
  destruct (decode_hex_ok (take (DATA_STR_LEN - 1) t) (cap_data r) OSDPCAP_MAX_DATA_LEN Hl)
    as (st & bs & -> & Hle & Hbs' & Hh).
  assert (length (bs ++ drop (length bs) (cap_data r)) = OSDPCAP_MAX_DATA_LEN) as Hld by solve_len.
  assert (bytes_ok (bs ++ drop (length bs) (cap_data r))) as Hbd
    by (apply Forall_app; split; [done|by apply Forall_drop]).
  pose proof (take_app_length bs (drop (length bs) (cap_data r))) as Htk.
  rewrite bind_Some. case_decide as Hst.
  { eexists st, _. split; [done|]. cbn [cap_data_len cap_data]. rewrite Htk.
    split; [|split; [done|by intros ->]].
    unfold cap_ok, cap_sizes. cbn. split_and!; try done; lia. }
  destruct (read_io_ok line Hc) as (io & -> & Hio). rewrite bind_Some.
  destruct (read_field_ok line (lit "osdpTraceVersion") ver OSDPCAP_VERSION_LEN)
    as (ver' & -> & ? & ? & _ & Hver); [done|done|vm_decide|done|]. rewrite bind_Some.
  destruct (read_field_ok line (lit "osdpSource") src OSDPCAP_SOURCE_LEN)
    as (src' & -> & ? & ? & _ & Hsrc); [done|done|vm_decide|done|]. rewrite bind_Some.
  eexists OSDPCAP_OK, _. split; [done|]. cbn [cap_data_len cap_data]. rewrite Htk.
  subst st.
  split; [|split; [done|by intros _]].
  unfold cap_ok, cap_sizes. cbn. split_and!; try done; apply read_time_range; done.
Qed.

Lemma osdpcap_parse_total line r :
  cstr_ok line → cap_sizes r →
  ∃ st r', osdpcap_parse_line (Some line) (Some r) = Some (st, Some r') ∧
    (if decide (st = OSDPCAP_ERR_EMPTY_LINE) then blank line ∧ r' = r
     else ¬ blank line ∧ cap_ok r').
Proof.
  intros Hc Hs. destruct (decide (blank line)) as [Hb|Hb].
  - exists OSDPCAP_ERR_EMPTY_LINE, r. rewrite decide_True by done. split; [|done].
    unfold osdpcap_parse_line, blank in *. case_decide; [done|]. by rewrite decide_True by tauto.
  - destruct (text_of line (lit "data")) as [t|] eqn:Et.
    + destruct (parse_text line r t Hs Hb Et Hc) as (st & r' & E & Hok & Hh & _).
      exists st, r'. rewrite decide_False by by intros ->. done.
    + destruct (parse_no_text line r Hs Hb Et Hc) as (r' & E & Hok & _).
      eexists _, r'. split; [exact E|]. by destruct (find_value line (lit "data")).
Qed.

(** ** Rendering *)

(** Decimal digits. *)
Fixpoint dec_from (fuel : nat) (n : Z) : list Z :=
  match fuel with
  | O => []
  | S fuel => if decide (n < 10)%Z then [48 + n]%Z else dec_from fuel (n / 10) ++ [48 + n mod 10]%Z
  end.

(** Twenty digits hold any 64-bit value. *)
Definition dec (n : Z) : list Z := dec_from 20 n.

(** A line is the texts between its quotes. *)
Fixpoint join (segs : list (list Z)) : list Z :=
  match segs with
  | [] => []
  | [a] => a
  | a :: segs => a ++ QUOTE :: join segs
  end.

(** A capture line: [data] is the hex text, [eol] what follows the object. *)
Definition capture_segs (sec nano : Z) (io : osdpcap_io) (data ver src eol : list Z) : list (list Z) :=
       [lit "{ "; lit "timeSec"; lit ":"; dec sec; lit ", "; lit "timeNano"; lit ":"; dec nano;
        lit ", "; lit "io"; lit ":"; osdpcap_io_str io; lit ", "; lit "data"; lit ":"; data;
        lit ", "; lit "osdpTraceVersion"; lit ":"; ver; lit ", "; lit "osdpSource"; lit ":"; src;
        lit " }" ++ eol].

Definition capture_line (sec nano : Z) (io : osdpcap_io) (data ver src eol : list Z) : list Z :=
  join (capture_segs sec nano io data ver src eol).

Lemma digits_value_snoc acc a d :
  Forall (λ c, is_digit c = true) a → is_digit d = true →
  digits_value acc (a ++ [d]) = Z.min (digits_value acc a * 10 + (d - 48)) (ULLONG_MAX + 1).
Proof.
  intros Ha Hd. revert acc. induction Ha as [|c a Hc _ IH]; intros acc; simpl; [by rewrite Hd|].
  by rewrite Hc, IH.
Qed.

Lemma is_digit_48 d : (0 ≤ d < 10)%Z → is_digit (48 + d) = true.
Proof. intros. apply bool_decide_eq_true. lia. Qed.

Lemma dec_from_digits fuel n : (0 ≤ n)%Z → Forall (λ c, is_digit c = true) (dec_from fuel n).
Proof.
  revert n. induction fuel as [|fuel IH]; intros n Hn; simpl; [constructor|]. case_decide.
  - constructor; [apply is_digit_48; lia|constructor].
  - apply Forall_app; split; [apply IH, Z.div_pos; lia|]. constructor; [|constructor].
    apply is_digit_48, Z.mod_pos_bound. lia.
Qed.

Lemma dec_from_value fuel n :
  (0 ≤ n ≤ ULLONG_MAX)%Z → (n < 10 ^ Z.of_nat fuel)%Z → digits_value 0 (dec_from fuel n) = n.
Proof.
  revert n. induction fuel as [|fuel IH]; intros n Hn Hf; [simpl in *; lia|].
  cbn [dec_from]. case_decide.
  - simpl. rewrite is_digit_48 by lia. unfold ULLONG_MAX in *. lia.
  - pose proof (Z.div_mod n 10). pose proof (Z.mod_pos_bound n 10).
    assert (0 ≤ n / 10)%Z by (apply Z.div_pos; lia).
    rewrite digits_value_snoc; [|apply dec_from_digits; lia|apply is_digit_48; lia].
    rewrite IH; [unfold ULLONG_MAX in *; lia|unfold ULLONG_MAX in *; lia|].
    rewrite Nat2Z.inj_succ, Z.pow_succ_r in Hf by lia. apply Z.div_lt_upper_bound; lia.
Qed.

Lemma length_dec_from fuel n : length (dec_from (S fuel) n) ≤ S fuel ∧ 0 < length (dec_from (S fuel) n).
Proof.
  revert n. induction fuel as [|fuel IH]; intros n; cbn [dec_from]; case_decide; simpl; try lia.
  destruct (IH (n / 10)%Z). cbn [dec_from] in *. rewrite length_app. simpl. lia.
Qed.

Lemma strtoull_dec n : (0 ≤ n ≤ ULLONG_MAX)%Z → strtoull (dec n) = Some n.
Proof.
  intros Hn. unfold strtoull. pose proof (dec_from_digits 20 n ltac:(lia)) as Hd.
  pose proof (dec_from_value 20 n Hn ltac:(unfold ULLONG_MAX in *; lia)) as Hv.
  fold (dec n) in Hd, Hv. destruct (dec n) as [|c ds] eqn:E.
  { pose proof (length_dec_from 19 n). fold (dec n) in *. rewrite E in *. simpl in *. lia. }
  apply Forall_cons_1 in Hd as [Hc _]. pose proof Hc as Hr. apply bool_decide_eq_true in Hr.
  assert (is_space c = false) as Hs by (apply bool_decide_eq_false; lia).
  cbn [token]. rewrite Hs. cbn [negb snd deref hd].
  rewrite decide_False, decide_False by lia. cbn [deref hd]. rewrite Hc, Hv.
  rewrite decide_False by lia. done.
Qed.

(** ** Searching a rendered line *)

Lemma starts_with_seg name a rest :
  QUOTE ∉ a → QUOTE ∉ name →
  starts_with name (a ++ QUOTE :: rest) = true ∧
    deref (drop (length name) (a ++ QUOTE :: rest)) = QUOTE ↔ a = name.
Proof.
  revert a. induction name as [|n name IH]; intros a Ha Hn.
  - simpl. rewrite drop_0. destruct a as [|c a]; simpl; [done|]. split; [|done].
    intros [_ ->]. by apply not_elem_of_cons in Ha as [? _].
  - apply not_elem_of_cons in Hn as [Hn Hns]. destruct a as [|c a]; simpl.
    + rewrite bool_decide_eq_false_2 by done. simpl. split; [by intros []|done].
    + apply not_elem_of_cons in Ha as [Hc Ha]. specialize (IH a Ha Hns).
      case_bool_decide; simpl; [|split; [by intros []|by intros [= ]]].
      subst c. rewrite IH. split; [by intros ->|by intros [= ->]].
Qed.

Lemma find_key_seg before a rest name :
  QUOTE ∉ a → QUOTE ∉ name → name ≠ [] →
  find_key_from before (a ++ QUOTE :: rest) name =
    if decide (before = Some QUOTE ∧ a = name) then Some rest else find_key_from (Some QUOTE) rest name.
Proof.
  intros Ha Hn Hne. revert before Ha. induction a as [|c a IH]; intros before Ha.
  - rewrite decide_False by (intros [_ <-]; done). simpl. destruct name as [|n name]; [done|].
    apply not_elem_of_cons in Hn as [Hn _]. cbn [starts_with]. by rewrite bool_decide_eq_false_2.
  - apply not_elem_of_cons in Ha as [Hc Ha]. cbn [app find_key_from].
    rewrite (IH (Some c) Ha), (decide_False (P := Some c = Some QUOTE ∧ _)) by (intros [? _]; congruence).
    pose proof (starts_with_seg name (c :: a) rest ltac:(by apply not_elem_of_cons) Hn) as Hs.
    cbn [app] in Hs. destruct (decide (before = Some QUOTE ∧ c :: a = name)) as [[-> <-]|Hno].
    + destruct Hs as [_ Hs]. destruct (Hs eq_refl) as [-> Hd]. cbv zeta.
      rewrite bool_decide_eq_true_2, bool_decide_eq_true_2 by done. cbn [andb].
      change (c :: a ++ QUOTE :: rest) with ((c :: a) ++ QUOTE :: rest). by rewrite drop_app_length.
    + cbv zeta. destruct (starts_with _ _) eqn:E; [|done]. case_bool_decide; [|done].
      case_bool_decide; [|done]. exfalso. apply Hno. split; [done|]. by apply Hs.
Qed.

Lemma find_value_seg line name val rest :
  find_key line name = Some (lit ":" ++ QUOTE :: val ++ QUOTE :: rest) → QUOTE ∉ val →
  find_value line name = Some (QUOTE :: val ++ QUOTE :: rest) ∧ text_of line name = Some val.
Proof.
  intros Hk Hq.
  assert (find_value line name = Some (QUOTE :: val ++ QUOTE :: rest)) as E.
  { unfold find_value. by rewrite Hk. }
  split; [done|]. unfold text_of. rewrite E, bind_Some. unfold string_at.
  rewrite decide_True by done. cbn [tail].
  rewrite token_stop; [done| |by apply bool_decide_eq_true].
  apply Forall_forall. intros c Hc%list_elem_of_In. apply bool_decide_eq_false. by intros ->.
Qed.

Lemma find_key_join before a segs name b rest :
  Forall (λ s, QUOTE ∉ s) (a :: segs) → QUOTE ∉ name → name ≠ [] → name ∉ segs →
  before ≠ Some QUOTE ∨ a ≠ name →
  find_key_from before (join (a :: segs ++ name :: b :: rest)) name = Some (join (b :: rest)).
Proof.
  intros Hq Hn Hne. revert before a Hq. induction segs as [|s segs IH]; intros before a Hq Hin Ha.
  - apply Forall_cons_1 in Hq as [Hqa _]. cbn [app join]. rewrite find_key_seg by done.
    rewrite decide_False by tauto. rewrite find_key_seg by done. by rewrite decide_True.
  - apply Forall_cons_1 in Hq as [Hqa Hq]. apply not_elem_of_cons in Hin as [Hns Hin].
    cbn [app]. change (join (a :: s :: segs ++ name :: b :: rest)) with
      (a ++ QUOTE :: join (s :: segs ++ name :: b :: rest)).
    rewrite find_key_seg by done. rewrite decide_False by tauto. apply IH; [done|done|]. by right.
Qed.

(** The field of a rendered line. *)
Lemma text_of_join a segs name val rest :
  Forall (λ s, QUOTE ∉ s) (a :: segs) → QUOTE ∉ name → name ≠ [] → name ∉ segs →
  QUOTE ∉ val → rest ≠ [] →
  let line := join (a :: segs ++ name :: lit ":" :: val :: rest) in
  find_value line name = Some (QUOTE :: val ++ QUOTE :: join rest) ∧ text_of line name = Some val.
Proof.
  intros ? ? ? ? ? Hr line. apply find_value_seg; [|done].
  unfold find_key, line. rewrite find_key_join by (try left; done). by destruct rest.
Qed.

Lemma hex_text_no_quote s bs : hex_text s bs → QUOTE ∉ s.
Proof.
  induction 1; rewrite ?not_elem_of_cons; [by apply not_elem_of_nil|split; [|done]|split_and!; [..|done]];
    intros <-; vm_compute in *; congruence.
Qed.

Lemma dec_no_quote n : (0 ≤ n)%Z → QUOTE ∉ dec n.
Proof.
  intros Hn Hq. pose proof (dec_from_digits 20 n Hn) as Hd. rewrite Forall_forall in Hd.
  by specialize (Hd QUOTE (proj1 (list_elem_of_In _ _) Hq)).
Qed.

(** A rendered number reads back. *)
Lemma read_uint_dec n out rest :
  (0 ≤ n ≤ ULLONG_MAX)%Z → read_uint (QUOTE :: dec n ++ QUOTE :: rest) out = (OSDPCAP_OK, n).
Proof.
  intros Hn. unfold read_uint. cbn [deref hd tail]. rewrite bool_decide_eq_true_2 by done.
  change (λ c, bool_decide (c = QUOTE)) with quote. rewrite token_stop; [| |done].
  - cbn [deref hd]. rewrite bool_decide_eq_false_2 by tauto. cbn [andb].
    pose proof (length_dec_from 19 n) as [Hl H0]. fold (dec n) in *.
    rewrite (take_ge (dec n)) by (unfold UINT_BUF; lia). rewrite decide_False by lia.
    by rewrite strtoull_dec.
  - apply Forall_forall. intros c Hc%list_elem_of_In. apply bool_decide_eq_false.
    intros ->. by apply (dec_no_quote n); [lia|].
Qed.

(** Texts of digits and hex texts are no key. *)
Lemma dec_ne n c name : (0 ≤ n)%Z → is_digit c = false → dec n ≠ c :: name.
Proof.
  intros Hn Hc E. pose proof (dec_from_digits 20 n Hn) as Hd. fold (dec n) in Hd. rewrite E in Hd.
  apply Forall_cons_1 in Hd as [Hd _]. congruence.
Qed.

Lemma hex_text_ne c name s bs :
  hex_text s bs → is_hex_sep c = false → (hex_digit c < 0)%Z → s ≠ c :: name.
Proof. intros H Hs Hd ->. inversion H; subst; [congruence|lia]. Qed.

Lemma join_cstr segs : Forall cstr_ok segs → cstr_ok (join segs).
Proof.
  induction 1 as [|a segs Ha Hs IH]; [constructor|]. simpl. destruct segs; [done|].
  apply Forall_app. split; [done|]. constructor; [split; [vm_decide|done]|done].
Qed.

Lemma dec_cstr n : (0 ≤ n)%Z → cstr_ok (dec n).
Proof.
  intros Hn. eapply Forall_impl; [|by apply (dec_from_digits 20)]. intros c Hc.
  apply bool_decide_eq_true in Hc. unfold is_byte. lia.
Qed.

Lemma io_str_cstr io : cstr_ok (osdpcap_io_str io) ∧ QUOTE ∉ osdpcap_io_str io.
Proof. destruct io; vm_decide. Qed.

(** What a line can be rendered from. *)
Record capture_fits (sec nano : Z) (data bs ver src eol : list Z) : Prop := {
  cf_sec : (0 ≤ sec ≤ ULLONG_MAX)%Z;
  cf_nano : (0 ≤ nano ≤ ULLONG_MAX)%Z;
  cf_data : cstr_ok data ∧ hex_text data bs;
  cf_ver : cstr_ok ver ∧ QUOTE ∉ ver;
  cf_src : cstr_ok src ∧ QUOTE ∉ src;
  cf_eol : cstr_ok eol;
  cf_room : length bs ≤ OSDPCAP_MAX_DATA_LEN ∧ length data < DATA_STR_LEN ∧
    length ver < OSDPCAP_VERSION_LEN ∧ length src < OSDPCAP_SOURCE_LEN;
  cf_key : ver ≠ lit "osdpSource" }.

(** Side conditions on the texts of a rendered line. *)
Ltac seg_solve :=
  repeat match goal with
    | |- Forall _ [] => constructor
    | |- Forall _ (_ :: _) => constructor
    | |- _ ∉ [] => apply not_elem_of_nil
    | |- _ ∉ _ :: _ => apply not_elem_of_cons; split
    end;
  first
    [ assumption | by apply dec_no_quote; lia | by apply io_str_cstr
    | by eapply hex_text_no_quote
    | by apply not_eq_sym, dec_ne; [lia|]
    | by apply not_eq_sym; eapply hex_text_ne
    | by apply not_eq_sym
    | match goal with |- context [osdpcap_io_str ?io] => destruct io; vm_decide end
    | lazymatch goal with |- context [dec] => fail | |- _ => vm_decide end ].

Section Rendered.
Context (sec nano : Z) (io : osdpcap_io) (data bs ver src eol : list Z).
Context (F : capture_fits sec nano data bs ver src eol).
Local Abbreviation line := (capture_line sec nano io data ver src eol).

Lemma capture_line_cstr : cstr_ok line.
Proof.
  destruct F as [? ? [? _] [? _] [? _] ? _ _]. apply join_cstr.
  repeat apply Forall_cons_2; try apply Forall_nil_2.
  all: first [done | apply dec_cstr; lia | apply io_str_cstr | vm_decide].
Qed.

Lemma capture_line_not_blank : ¬ blank line.
Proof.
  intros [H|[H|H]]; [done|done|]. apply H. unfold line, capture_line. cbn [join].
  apply elem_of_app. left. vm_decide.
Qed.

Lemma capture_line_fields :
  read_time line (lit "timeSec") 0 = sec ∧ read_time line (lit "timeNano") 0 = nano ∧
  text_of line (lit "io") = Some (osdpcap_io_str io) ∧ text_of line (lit "data") = Some data ∧
  text_of line (lit "osdpTraceVersion") = Some ver ∧ text_of line (lit "osdpSource") = Some src.
Proof.
  destruct F as [Hs Hn [_ Hd] [_ Hv] [_ Hsr] _ _ Hk].
  assert (∀ segs name val b rest,
    capture_segs sec nano io data ver src eol =
      lit "{ " :: segs ++ name :: lit ":" :: val :: b :: rest →
    Forall (λ s, QUOTE ∉ s) segs → QUOTE ∉ name → name ≠ [] → name ∉ segs → QUOTE ∉ val →
    find_value line name = Some (QUOTE :: val ++ QUOTE :: join (b :: rest)) ∧
      text_of line name = Some val) as Ht.
  { intros segs name val b rest E ? ? ? ? ?. unfold line, capture_line. rewrite E.
    apply text_of_join; try done.
    apply Forall_cons_2; [vm_decide|done]. }
  unfold read_time. split; [|split; [|split_and!]].
  - rewrite (proj1 (Ht [] (lit "timeSec") (dec sec) _ _ eq_refl
      ltac:(seg_solve) ltac:(seg_solve) ltac:(done) ltac:(seg_solve) ltac:(seg_solve))).
    by rewrite read_uint_dec.
  - rewrite (proj1 (Ht [lit "timeSec"; lit ":"; dec sec; lit ", "] (lit "timeNano") (dec nano) _ _ eq_refl
      ltac:(seg_solve) ltac:(seg_solve) ltac:(done) ltac:(seg_solve) ltac:(seg_solve))).
    by rewrite read_uint_dec.
  - eapply (Ht [_; _; _; _; _; _; _; _]); [reflexivity|..]; seg_solve.
  - eapply (Ht [_; _; _; _; _; _; _; _; _; _; _; _]); [reflexivity|..]; seg_solve.
  - eapply (Ht [_; _; _; _; _; _; _; _; _; _; _; _; _; _; _; _]); [reflexivity|..]; seg_solve.
  - eapply (Ht [_; _; _; _; _; _; _; _; _; _; _; _; _; _; _; _; _; _; _; _]); [reflexivity|..]; seg_solve.
Qed.
End Rendered.

Lemma parse_capture_line sec nano io data bs ver src eol r :
  capture_fits sec nano data bs ver src eol → cap_sizes r →
  ∃ r', osdpcap_parse_line (Some (capture_line sec nano io data ver src eol)) (Some r) =
      Some (OSDPCAP_OK, Some r') ∧ cap_ok r' ∧
    cap_time_sec r' = sec ∧ cap_time_nano r' = nano ∧ cap_io r' = io ∧
    take (cap_data_len r') (cap_data r') = bs ∧
    cstr_of (cap_version r') = ver ∧ cstr_of (cap_source r') = src.
Proof.
  intros F Hs.
  destruct (capture_line_fields sec nano io data bs ver src eol F) as (Es & En & Ei & Ed & Ev & Er).
  destruct (parse_text _ r data Hs (capture_line_not_blank sec nano io data ver src eol) Ed
    (capture_line_cstr sec nano io data bs ver src eol F)) as (st & r' & E & Hok & Hh & Hf).
  destruct F as [_ _ [_ Hd] _ _ _ (Hb & Hl & Hv & Hr) _].
  rewrite take_ge in Hh by lia. assert (st = OSDPCAP_OK) as -> by by eapply hex_stop_ok.
  destruct (Hf eq_refl) as (Ets & Etn & Hio & Hver & Hsrc).
  exists r'. do 2 (split; [done|]). rewrite Ets, Etn, Es, En. split_and!; [done|done|by apply Hio| | |].
  - by eapply hex_text_det.
  - rewrite (Hver _ Ev). apply take_ge. lia.
  - rewrite (Hsrc _ Er). apply take_ge. lia.
Qed.

(** ** Example lines *)

(** A record as the stack left it. *)
Definition ex_record : osdpcap_record :=
  mk_cap 7 7 OSDPCAP_IO_TRACE (replicate 2048 0xA5%Z) 9 (replicate 16 0xA5%Z) (replicate 128 0xA5%Z).

Definition ex_data_line (text : list Z) : list Z := join [lit "{"; lit "data"; lit ":"; text; lit "}"].

Definition ex_long_text : list Z := concat (replicate 1600 (lit "53 -")).

Definition ex_hidden_line : list Z :=
  join [lit "{"; lit "osdpSource"; lit ":"; lit "data"; lit ","; lit "data"; lit ":"; lit "53"; lit "}"].

Lemma ex_capture_fits :
  capture_fits 1580342115 984691851 (lit " ff 53-80") [0xFF; 0x53; 0x80]%Z (lit "1")
    (lit "libosdp-conformance 0.91-5") [10]%Z.
Proof.
  constructor; try vm_decide. split; [vm_decide|]. change (lit " ff 53-80") with
    [32; 102; 102; 32; 53; 51; 45; 56; 48]%Z.
  apply hex_sep; [done|]. apply (hex_pair 102 102 _ [_; _]%Z); [done|done|].
  apply hex_sep; [done|]. apply (hex_pair 53 51 _ [_]%Z); [done|done|].
  apply hex_sep; [done|]. apply (hex_pair 56 48 _ []); [done|done|]. constructor.
Qed.

Lemma long_text n : hex_text (concat (replicate n (lit "53 -"))) (replicate n 0x53%Z).
Proof.
  induction n as [|n IH]; [constructor|]. cbn [replicate concat].
  apply (hex_pair 53 51 (32 :: 45 :: _)%Z); [done|done|].
  apply hex_sep; [done|]. by apply hex_sep.
Qed.

(** ** Properties *)

(** C34: Type invariant.  For every NUL-terminated line and every record whose arrays
    have their declared sizes, whatever they hold, [osdpcap_parse_line] is defined
    (no access leaves an array, the 16-byte scratch and the data text included), and
    a line that is not blank leaves a well-formed record: at most 2048 data bytes, the
    arrays at their sizes, 64-bit times. *)
Theorem osdpcap_record_well_formed line r :
  cstr_ok line → cap_sizes r →
  ∃ st r', osdpcap_parse_line (Some line) (Some r) = Some (st, Some r') ∧
    (if decide (st = OSDPCAP_ERR_EMPTY_LINE) then blank line ∧ r' = r
     else ¬ blank line ∧ cap_ok r').
Proof.
  apply osdpcap_parse_total.
Qed.

(** Hex decoding is exact.  [decode_hex] succeeds exactly on the texts of digit
    pairs with separators between them that stand for at most [cap] bytes, and stores
    those bytes; on any other text it stores the longest prefix that is one and names
    the reason: a character that starts no pair, or a pair beyond the capacity. *)
Theorem decode_hex_exact src dst cap :
  length dst = cap →
  ∃ st bs, decode_hex src dst cap = Some (st, bs ++ drop (length bs) dst, length bs) ∧
    length bs ≤ cap ∧ bytes_ok bs ∧ hex_stop src cap bs st ∧
    (st = OSDPCAP_OK ↔ ∃ xs, hex_text src xs ∧ length xs ≤ cap).
Proof.
  intros Hl. destruct (decode_hex_ok src dst cap Hl) as (st & bs & E & Hle & Hb & Hh).
  exists st, bs. do 4 (split; [done|]). split.
  - intros ->. by exists bs.
  - intros (xs & Hx & Hlx). by eapply hex_stop_ok.
Qed.

(** Round trip.  A capture line whose texts hold no quote and whose data text
    stands for at most 2048 bytes parses to exactly what it was written from: times,
    direction, data, version and source (the latter two when they fit their arrays).
    The version must not be the text [osdpSource], which the key scanner would take
    for the key. *)
Theorem osdpcap_round_trip sec nano io data bs ver src eol r :
  capture_fits sec nano data bs ver src eol → cap_sizes r →
  ∃ r', osdpcap_parse_line (Some (capture_line sec nano io data ver src eol)) (Some r) =
      Some (OSDPCAP_OK, Some r') ∧ cap_ok r' ∧
    cap_time_sec r' = sec ∧ cap_time_nano r' = nano ∧ cap_io r' = io ∧
    take (cap_data_len r') (cap_data r') = bs ∧
    cstr_of (cap_version r') = ver ∧ cstr_of (cap_source r') = src.
Proof.
  apply parse_capture_line.
Qed.

(** Lossy lines.  Two lines [osdpcap_parse_line] does not read back.  A data text
    of 1600 byte pairs with two separators after each (the decoder accepts any
    number) is longer than the text buffer: the call reports success with 1540 bytes.
    And a value that is the name of a field hides the field: the line has a data
    field, yet the answer is that it is missing. *)
Theorem osdpcap_lossy_lines :
  (∃ bs r', hex_text ex_long_text bs ∧ length bs = 1600 ∧
    text_of (ex_data_line ex_long_text) (lit "data") = Some ex_long_text ∧
    osdpcap_parse_line (Some (ex_data_line ex_long_text)) (Some ex_record) =
      Some (OSDPCAP_OK, Some r') ∧ take (cap_data_len r') (cap_data r') = take 1540 bs ∧
    cap_data_len r' = 1540) ∧
  (∃ r', osdpcap_parse_line (Some ex_hidden_line) (Some ex_record) =
    Some (OSDPCAP_ERR_MISSING_DATA, Some r')).
Proof.
  split; [|eexists; vm_compute; reflexivity].
  assert (text_of (ex_data_line ex_long_text) (lit "data") = Some ex_long_text) as Et
    by (vm_compute; reflexivity).
  assert (hex_text (take (DATA_STR_LEN - 1) ex_long_text) (replicate 1540 0x53%Z)) as Hx.
  { replace (take (DATA_STR_LEN - 1) ex_long_text) with (concat (replicate 1539 (lit "53 -")) ++ lit "53 ")
      by (vm_compute; reflexivity).
    change (replicate 1540 0x53%Z) with (replicate (1539 + 1) 0x53%Z). rewrite replicate_add.
    apply hex_text_app; [apply long_text|]. apply (hex_pair 53 51 [32]%Z); [done|done|].
    apply hex_sep; [done|constructor]. }
  destruct (parse_text (ex_data_line ex_long_text) ex_record ex_long_text)
    as (st & r' & E & Hok & Hh & _); [vm_decide|vm_decide|done|vm_decide|].
  assert (st = OSDPCAP_OK) as -> by (eapply hex_stop_ok; [exact Hh|exact Hx|rewrite length_replicate; vm_decide]).
  pose proof (hex_text_det _ _ _ Hh Hx) as Ed.
  exists (replicate 1600 0x53%Z), r'. split; [apply long_text|]. split; [apply length_replicate|].
  do 2 (split; [done|]). rewrite Ed. split; [vm_compute; reflexivity|].
  apply (f_equal length) in Ed. rewrite length_take_le, length_replicate in Ed; [done|].
  destruct Hok as (((-> & _) & _) & ? & _). done.
Qed.

(** ** Witnesses *)

Lemma osdpcap_record_well_formed_witness :
  ∃ st r', osdpcap_parse_line (Some (ex_data_line (lit " ff 53-80"))) (Some ex_record) =
      Some (st, Some r') ∧
    (if decide (st = OSDPCAP_ERR_EMPTY_LINE) then blank (ex_data_line (lit " ff 53-80")) ∧ r' = ex_record
     else ¬ blank (ex_data_line (lit " ff 53-80")) ∧ cap_ok r').
Proof. apply osdpcap_record_well_formed; vm_decide. Defined.

Lemma decode_hex_exact_witness :
  ∃ st bs, decode_hex (lit " ff 5") (replicate 4 0%Z) 4 =
      Some (st, bs ++ drop (length bs) (replicate 4 0%Z), length bs) ∧
    length bs ≤ 4 ∧ bytes_ok bs ∧ hex_stop (lit " ff 5") 4 bs st ∧
    (st = OSDPCAP_OK ↔ ∃ xs, hex_text (lit " ff 5") xs ∧ length xs ≤ 4).
Proof. apply decode_hex_exact. reflexivity. Defined.

Lemma osdpcap_round_trip_witness :
  let line := capture_line 1580342115 984691851 OSDPCAP_IO_TRACE (lit " ff 53-80") (lit "1")
                (lit "libosdp-conformance 0.91-5") [10]%Z in
  ∃ r', osdpcap_parse_line (Some line) (Some ex_record) = Some (OSDPCAP_OK, Some r') ∧ cap_ok r' ∧
    cap_time_sec r' = 1580342115%Z ∧ cap_time_nano r' = 984691851%Z ∧
    cap_io r' = OSDPCAP_IO_TRACE ∧ take (cap_data_len r') (cap_data r') = [0xFF; 0x53; 0x80]%Z ∧
    cstr_of (cap_version r') = lit "1" ∧ cstr_of (cap_source r') = lit "libosdp-conformance 0.91-5".
Proof. apply osdpcap_round_trip; [apply ex_capture_fits|vm_decide]. Defined.
