(* ===== verification/ToolText.v ===== *)
(** * Command-line texts of the two mock tools

    The functions of the C library that the command lines of osdp-pd-mock and osdp-acu-mock
    are read with, on NUL-terminated texts as lists, and the hexadecimal key both tools
    read with the same code (main.c of each). *)
From S2P Require Import Prelude Types State Osdpcap.

(** ** The C library *)

(** [strcmp(a, b) == 0], and [strncmp(a, prefix, strlen(prefix)) == 0]. *)
Definition streq (a b : list Z) : bool := bool_decide (a = b).
Definition has_prefix (prefix a : list Z) : bool := bool_decide (take (length prefix) a = prefix).

(** The digits of a number in [base], saturating. *)
Fixpoint base_digits (base acc : Z) (p : list Z) : Z :=
  match p with
  | c :: p => if decide (0 ≤ hex_digit c < base)%Z
              then base_digits base (Z.min (acc * base + hex_digit c) (ULLONG_MAX + 1)) p else acc
  | [] => acc
  end.

(** [strtoul(s, NULL, 0)]: the prefix chooses the base; 0 without digits. *)
Definition strtoul_any (buf : list Z) : Z :=
  let p := snd (token (λ c, negb (is_space c)) buf) in
  let '(neg, p) := (if decide (deref p = 45%Z) then (true, tail p)
                    else if decide (deref p = 43%Z) then (false, tail p) else (false, p)) in
  let '(base, p) :=
    (if decide (deref p = 48%Z) then
       if decide ((deref (tail p) = 120 ∨ deref (tail p) = 88) ∧ 0 ≤ hex_digit (deref (tail (tail p))))%Z
       then (16, tail (tail p)) else (8, p)
     else (10, p))%Z in
  let v := base_digits base 0 p in
  (if decide (ULLONG_MAX < v) then ULLONG_MAX else if (neg : bool) then (- v) mod 2 ^ 64 else v)%Z.

(** [(unsigned int)strtoul(s, NULL, 10)]. *)
Definition strtoul_uint (s : list Z) : Z := u32 (default 0%Z (strtoull s)).

(** [sscanf(s, "%2x", &b) == 1]: blanks are skipped, then at most two characters of a
    hexadecimal number, its sign and its 0x among them. *)
Definition sscanf_2x (s : list Z) : option Z :=
  match take 2 (snd (token (λ c, negb (is_space c)) s)) with
  | [] => None
  | [c] => if decide (0 ≤ hex_digit c)%Z then Some (hex_digit c) else None
  | c :: d :: _ =>
      if decide (c = 45 ∨ c = 43)%Z then
        if decide (0 ≤ hex_digit d)%Z then Some (if decide (c = 45%Z) then u32 (- hex_digit d) else hex_digit d) else None
      else if decide (c = 48 ∧ (d = 120 ∨ d = 88))%Z then None
      else if decide (hex_digit c < 0)%Z then None
      else Some (if decide (0 ≤ hex_digit d)%Z then 16 * hex_digit c + hex_digit d else hex_digit c)%Z
  end.

(** ** A key in hexadecimal *)

(** The loop over the bytes of the key: the verdict, and [out] as far as it was written. *)
Fixpoint hex_key_loop (s : list Z) (out : list Z) (i n : nat) : option (bool * list Z) :=
  match n with
  | O => Ret (true, out)
  | S n =>
      match sscanf_2x (drop (i * 2) s) with
      | None => Ret (false, out)
      | Some b => out ← mwr out i [u8 b]; hex_key_loop s out (S i) n
      end
  end.

Lemma hex_key_loop_ok s out i n : i + n ≤ length out → bytes_ok out →
  ∃ ok out', hex_key_loop s out i n = Some (ok, out') ∧ length out' = length out ∧ bytes_ok out'.
Proof.
  revert out i. induction n as [|n IH]; intros out i Hl Hb; cbn [hex_key_loop]; [by eexists _, _|].
  destruct (sscanf_2x _) as [b|]; [|by eexists _, _].
  rewrite mwr_Some by (simpl; lia). rewrite bind_Some. set (o := take i out ++ _).
  assert (length o = length out) as Lo by (unfold o; rewrite length_app, length_take; simpl; rewrite length_drop; lia).
  assert (bytes_ok o) as Yo.
  { unfold o. apply Forall_app; split; [by apply Forall_take|]. apply Forall_cons_2; [apply u8_byte|by apply Forall_drop]. }
  destruct (IH o (S i) ltac:(lia) Yo) as (ok & out' & -> & L & Y). exists ok, out'. by rewrite L, Lo.
Qed.

(** The modes of --sc=. *)
Inductive sc_mode : Type := SC_NONE | SC_SCBKD | SC_SCBK_CUSTOM.

#[export] Instance sc_mode_eq_dec : EqDecision sc_mode.
Proof. solve_decision. Defined.
