(* ===== verification/Parser.v ===== *)
(** * The capture inspector: tools/osdp-parser/main.c

    [main]: each line of the capture is parsed (Osdpcap.v), its bytes are fed to one
    stream decoder (Stream.v), and every frame the decoder completes is classified
    (Dispatch.v) and printed.  What the program prints is a list of [output] values,
    one per line of text, with the values each line shows; the bytes an uninitialised
    local variable holds are an arbitrary function of the iteration. *)
From S2P Require Import Prelude Types Integrity Frame Dispatch Stream Osdpcap.
From Stdlib Require String.
Import String.StringSyntax.

Definition LINE_CAP : nat := 16 * 1024.

Definition err_name (s : osdp_status) : list Z :=
  match s with
  | OSDP_OK => lit "ok"
  | OSDP_ERR_INVALID_ARG => lit "invalid_arg"
  | OSDP_ERR_BUFFER_TOO_SMALL => lit "buffer_too_small"
  | OSDP_ERR_TRUNCATED => lit "truncated"
  | OSDP_ERR_BAD_SOM => lit "bad_som"
  | OSDP_ERR_BAD_LENGTH => lit "bad_length"
  | OSDP_ERR_BAD_CTRL => lit "bad_ctrl"
  | OSDP_ERR_BAD_CRC => lit "bad_crc"
  | OSDP_ERR_BAD_CHECKSUM => lit "bad_checksum"
  | OSDP_ERR_BAD_PAYLOAD => lit "bad_payload"
  | OSDP_ERR_NOT_SUPPORTED => lit "not_supported"
  | OSDP_ERR_BUSY => lit "unknown"
  end.

(** One printed line. *)
Inductive output : Type :=
  | Out_record (sec nano : Z) (io : list Z) (len : nat) (plural : bool) (shown : list Z)
  | Out_frame (to_acu : bool) (address sequence : Z) (crc : bool) (code : Z) (name : String.string)
      (payload : option nat) (scb_type : option Z)
  | Out_decode_error (name : list Z)
  | Out_feed_error (name : list Z)
  | Out_parse_error (name : list Z)
  | Out_summary (records frames decode_errors parse_errors : Z)
  | Out_usage
  | Out_cannot_open.

Definition print_record_header (r : osdpcap_record) : output :=
  Out_record (cap_time_sec r) (cap_time_nano r) (osdpcap_io_str (cap_io r)) (cap_data_len r)
    (negb (bool_decide (cap_data_len r = 1)))
    (if decide (0 < cap_data_len r ∧ cap_data_len r ≤ 32) then take (cap_data_len r) (cap_data r) else []).

Definition print_frame (f : osdp_frame) : output :=
  let kind := osdp_dispatch_classify (Some f) in
  Out_frame (fr_reply f) (fr_address f) (fr_sequence f)
    (bool_decide (fr_integrity f = OSDP_INTEGRITY_CRC)) (fr_code f) (osdp_dispatch_name kind)
    (if decide (0 < fr_payload_len f) then Some (fr_payload_len f) else None)
    (if fr_has_scb f then Some (fr_scb_type f) else None).

(** [unsigned long] arithmetic (64 bits wide on the hosts the tool builds on). *)
Definition ulong (v : Z) : Z := (v mod 2 ^ 64)%Z.

(** The locals of [main]. *)
Record parser : Type := mk_parser {
  pa_stream : osdp_stream;
  pa_records : Z;
  pa_frames : Z;
  pa_parse_errors : Z;
  pa_decode_errors : Z }.

(** [fgets]: up to [n] bytes, stopping after a newline. *)
Fixpoint fgets_bytes (n : nat) (file : list Z) : list Z * list Z :=
  match n, file with
  | S n, c :: file =>
      if decide (c = 10%Z) then ([c], file) else
      let '(l, rest) := fgets_bytes n file in (c :: l, rest)
  | _, _ => ([], file)
  end.

Definition fgets (size : nat) (file : list Z) : option (list Z * list Z) :=
  match file with [] => None | _ => Some (fgets_bytes (size - 1) file) end.

Section Main.
  (** What the uninitialised [rec] and [f] hold when an iteration starts. *)
  Context (rec_junk : nat → osdpcap_record) (frame_junk : nat → osdp_frame).

(** The loop over the frames of the stream. *)
Fixpoint decode_loop (fuel : nat) (p : parser) : option (list output * parser) :=
  match fuel with
  | O => UB
  | S fuel =>
      r ← osdp_stream_next (Some (pa_stream p)) (Some (frame_junk fuel));
      match r with
      | (r, Some s, Some f) =>
          if decide (r = OSDP_OK) then
            '(out, p) ← decode_loop fuel
              (mk_parser s (pa_records p) (ulong (pa_frames p + 1)) (pa_parse_errors p) (pa_decode_errors p));
            Ret (print_frame f :: out, p)
          else if decide (r = OSDP_ERR_TRUNCATED) then
            Ret ([], mk_parser s (pa_records p) (pa_frames p) (pa_parse_errors p) (pa_decode_errors p))
          else
            '(out, p) ← decode_loop fuel
              (mk_parser s (pa_records p) (pa_frames p) (pa_parse_errors p) (ulong (pa_decode_errors p + 1)));
            Ret (Out_decode_error (err_name r) :: out, p)
      | _ => UB
      end
  end.

(** The body of the loop over the lines. *)
Definition parse_record (n : nat) (line : list Z) (p : parser) : option (list output * parser) :=
  '(s, rec) ← osdpcap_parse_line (Some line) (Some (rec_junk n));
  rec ← rec;
  if decide (s = OSDPCAP_ERR_EMPTY_LINE) then Ret ([], p) else
  if decide (s ≠ OSDPCAP_OK) then
    Ret ([Out_parse_error (osdpcap_status_str s)],
         mk_parser (pa_stream p) (pa_records p) (pa_frames p) (ulong (pa_parse_errors p + 1))
           (pa_decode_errors p)) else
  let p := mk_parser (pa_stream p) (ulong (pa_records p + 1)) (pa_frames p) (pa_parse_errors p)
             (pa_decode_errors p) in
  '(fs, st) ← osdp_stream_feed (Some (pa_stream p)) (Ptr (cap_data rec)) (cap_data_len rec);
  st ← st;
  let p := mk_parser st (pa_records p) (pa_frames p) (pa_parse_errors p) (pa_decode_errors p) in
  if decide (fs ≠ OSDP_OK) then Ret ([print_record_header rec; Out_feed_error (err_name fs)], p) else
  '(out, p) ← decode_loop (S (st_fill st)) p;
  Ret (print_record_header rec :: out, p).

(** The loop over the lines; [fuel] bounds the calls of [fgets]. *)
Fixpoint read_lines (fuel : nat) (file : list Z) (p : parser) : option (list output * parser) :=
  match fuel with
  | O => UB
  | S fuel =>
      match fgets LINE_CAP file with
      | None => Ret ([], p)
      | Some (line, file) =>
          '(o1, p) ← parse_record fuel (cstr_of line) p;
          '(o2, p) ← read_lines fuel file p;
          Ret (o1 ++ o2, p)
      end
  end.

(** [main]: [file] is the capture ([None] when [fopen] fails), [buffer] what the
    stream's array holds at the start; the result is what is printed and the exit code. *)
Definition main (argc : nat) (file : option (list Z)) (buffer : list Z) : option (list output * Z) :=
  if decide (2 < argc) then Ret ([Out_usage], 2%Z) else
  match file with
  | None => Ret ([Out_cannot_open], 2%Z)
  | Some file =>
      s ← osdp_stream_init (Some (fresh_stream buffer));
      '(out, p) ← read_lines (S (length file)) file (mk_parser s 0 0 0 0);
      Ret (out ++ [Out_summary (pa_records p) (pa_frames p) (pa_decode_errors p) (pa_parse_errors p)],
           if decide (pa_parse_errors p = 0%Z) then 0%Z else 1%Z)
  end.
End Main.

(** ** What was printed *)

Definition is_record (o : output) : bool := match o with Out_record _ _ _ _ _ _ => true | _ => false end.
Definition is_frame (o : output) : bool := match o with Out_frame _ _ _ _ _ _ _ _ => true | _ => false end.
Definition is_decode_error (o : output) : bool := match o with Out_decode_error _ => true | _ => false end.
Definition is_parse_error (o : output) : bool := match o with Out_parse_error _ => true | _ => false end.
Definition is_feed_error (o : output) : bool := match o with Out_feed_error _ => true | _ => false end.

Definition count (f : output → bool) (out : list output) : Z := Z.of_nat (length (List.filter f out)).

(** The counters count the lines printed. *)
Definition tallied (p : parser) (out : list output) (p' : parser) : Prop :=
  pa_records p' = ulong (pa_records p + count is_record out) ∧
  pa_frames p' = ulong (pa_frames p + count is_frame out) ∧
  pa_decode_errors p' = ulong (pa_decode_errors p + count is_decode_error out) ∧
  pa_parse_errors p' = ulong (pa_parse_errors p + count is_parse_error out) ∧
  List.filter is_feed_error out = [].

Definition is_ulong (v : Z) : Prop := (0 ≤ v < 2 ^ 64)%Z.

Record parser_inv (p : parser) : Prop := {
  pi_stream : stream_inv (pa_stream p);
  pi_records : is_ulong (pa_records p);
  pi_frames : is_ulong (pa_frames p);
  pi_parse_errors : is_ulong (pa_parse_errors p);
  pi_decode_errors : is_ulong (pa_decode_errors p) }.

(** ** Counting *)

Lemma ulong_range v : is_ulong (ulong v).
Proof. apply Z.mod_pos_bound. done. Qed.

Lemma ulong_id v : is_ulong v → ulong v = v.
Proof. apply Z.mod_small. Qed.

Lemma ulong_keep v : is_ulong v → v = ulong (v + 0).
Proof. intros. by rewrite Z.add_0_r, ulong_id. Qed.

Lemma ulong_add a b : ulong (ulong a + b) = ulong (a + b).
Proof. unfold ulong. by rewrite Zplus_mod_idemp_l. Qed.

Lemma count_app f a b : count f (a ++ b) = (count f a + count f b)%Z.
Proof. unfold count. rewrite List.filter_app, length_app. lia. Qed.

Lemma tallied_nil p s :
  parser_inv p →
  tallied p [] (mk_parser s (pa_records p) (pa_frames p) (pa_parse_errors p) (pa_decode_errors p)).
Proof.
  intros [_ ? ? ? ?]. split_and!; [by apply ulong_keep..|done].
Qed.

Lemma tallied_trans p o1 p1 o2 p2 : tallied p o1 p1 → tallied p1 o2 p2 → tallied p (o1 ++ o2) p2.
Proof.
  intros (E1 & E2 & E3 & E4 & E5) (F1 & F2 & F3 & F4 & F5). unfold tallied.
  rewrite !count_app, List.filter_app, E5, F5, F1, F2, F3, F4, E1, E2, E3, E4, !ulong_add, !Z.add_assoc.
  done.
Qed.

(** ** Lines *)

Lemma cstr_of_ok buf : bytes_ok buf → cstr_ok (cstr_of buf).
Proof.
  induction 1 as [|c buf Hc _ IH]; simpl; [constructor|].
  case_decide; [constructor|]. by constructor.
Qed.

Lemma fgets_bytes_split n file : (fgets_bytes n file).1 ++ (fgets_bytes n file).2 = file.
Proof.
  revert file. induction n as [|n IH]; intros [|c file]; try done. simpl. case_decide; [done|].
  specialize (IH file). destruct (fgets_bytes n file). simpl in *. by rewrite IH.
Qed.

Lemma fgets_spec file buf rest :
  fgets LINE_CAP file = Some (buf, rest) → file = buf ++ rest ∧ length rest < length file.
Proof.
  assert (∃ m, LINE_CAP - 1 = S m) as [m Em] by (exists (LINE_CAP - 2); unfold LINE_CAP; lia).
  unfold fgets. rewrite Em. destruct file as [|c file]; [done|]. intros E'.
  assert (fgets_bytes (S m) (c :: file) = (buf, rest)) as E by congruence. clear E'. pose proof (fgets_bytes_split (S m) (c :: file)) as H. rewrite E in H.
  cbn [fst snd] in H. split; [done|]. rewrite <-H, length_app. cbn [fgets_bytes] in E. case_decide.
  - injection E as <- <-. simpl. lia.
  - destruct (fgets_bytes m file). injection E as <- <-. simpl. lia.
Qed.

(** A line within the limit comes out whole. *)
Lemma fgets_line l rest :
  10%Z ∉ l → S (length l) < LINE_CAP → fgets LINE_CAP (l ++ 10%Z :: rest) = Some (l ++ [10%Z], rest).
Proof.
  intros Hl Hn. unfold fgets. destruct (l ++ 10%Z :: rest) eqn:E; [by destruct l|]. rewrite <-E. f_equal.
  assert (length l < LINE_CAP - 1) as Hlt by lia. clear E Hn. revert Hlt. generalize (LINE_CAP - 1). intros m.
  revert m. induction l as [|c l IH]; intros [|m] Hm; simpl in *; try lia; [done|].
  apply not_elem_of_cons in Hl as [Hc Hl]. rewrite decide_False by done. rewrite IH by (done || lia). done.
Qed.

(** ** Captures

    A capture file is a line per record; this is what the tool should print for it. *)
Record capture : Type := mk_capture {
  ca_sec : Z; ca_nano : Z; ca_io : osdpcap_io;
  ca_text : list Z; ca_bytes : list Z; ca_ver : list Z; ca_src : list Z }.

Definition capture_body (c : capture) : list Z :=
  capture_line (ca_sec c) (ca_nano c) (ca_io c) (ca_text c) (ca_ver c) (ca_src c) [].

Definition capture_file (cs : list capture) : list Z := concat ((λ c, capture_body c ++ [10%Z]) <$> cs).

Definition capture_ok (c : capture) : Prop :=
  capture_fits (ca_sec c) (ca_nano c) (ca_text c) (ca_bytes c) (ca_ver c) (ca_src c) [10%Z] ∧
  (10%Z ∉ capture_body c) ∧ S (length (capture_body c)) < LINE_CAP.

Definition header_of (c : capture) : output :=
  Out_record (ca_sec c) (ca_nano c) (osdpcap_io_str (ca_io c)) (length (ca_bytes c))
    (negb (bool_decide (length (ca_bytes c) = 1)))
    (if decide (0 < length (ca_bytes c) ∧ length (ca_bytes c) ≤ 32) then ca_bytes c else []).

(** One record's lines: its header, then the frames its bytes complete. *)
Definition record_lines (c : capture) (fs : list osdp_frame) : list output :=
  header_of c :: (print_frame <$> fs).

Lemma capture_body_line c :
  capture_body c ++ [10%Z] =
    capture_line (ca_sec c) (ca_nano c) (ca_io c) (ca_text c) (ca_ver c) (ca_src c) [10%Z].
Proof.
  unfold capture_body, capture_line, capture_segs. cbn [join].
  repeat rewrite <-!app_assoc, <-app_comm_cons. rewrite app_nil_r. done.
Qed.

Lemma capture_nul_free c : capture_ok c → cstr_of (capture_body c ++ [10%Z]) = capture_body c ++ [10%Z].
Proof.
  intros [F _]. rewrite capture_body_line.
  pose proof (capture_line_cstr _ _ (ca_io c) _ _ _ _ _ F) as H. revert H.
  generalize (capture_line (ca_sec c) (ca_nano c) (ca_io c) (ca_text c) (ca_ver c) (ca_src c) [10%Z]).
  intros l. induction 1 as [|x l [_ ?] _ IH]; simpl; [done|]. by rewrite decide_False, IH by done.
Qed.

(** ** The loops *)

Section Loops.
Context (rec_junk : nat → osdpcap_record) (frame_junk : nat → osdp_frame).
Context (Hjunk : ∀ n, cap_sizes (rec_junk n)).

Abbreviation decode_loop := (decode_loop frame_junk).
Abbreviation parse_record := (parse_record rec_junk frame_junk).
Abbreviation read_lines := (read_lines rec_junk frame_junk).

Lemma decode_loop_total fuel p :
  parser_inv p → length (unread (pa_stream p)) < fuel →
  ∃ out p', decode_loop fuel p = Some (out, p') ∧ parser_inv p' ∧ tallied p out p'.
Proof.
  revert p. induction fuel as [|fuel IH]; intros p Hp Hl; [lia|]. cbn [Parser.decode_loop].
  destruct (osdp_stream_next_ok (pa_stream p) (frame_junk fuel)) as (st & s & f & -> & Hs & Hstep);
    [apply Hp|]. apply next_step_progress in Hstep as [_ Hlt]. rewrite bind_Some.
  destruct (decide (st = OSDP_OK)) as [->|Ho].
  - destruct (IH (mk_parser s (pa_records p) (ulong (pa_frames p + 1)) (pa_parse_errors p)
      (pa_decode_errors p))) as (out & p' & -> & Hp' & Ht).
    { destruct Hp. constructor; try done. apply ulong_range. }
    { specialize (Hlt ltac:(done)). simpl. lia. }
    eexists _, _. split; [done|]. split; [done|]. refine (tallied_trans _ [_] _ _ _ _ Ht).
    destruct Hp. split_and!; first [done | by apply ulong_keep].
  - case_decide as Htr.
    { eexists _, _. split; [done|]. split; [by destruct Hp|]. by apply tallied_nil. }
    destruct (IH (mk_parser s (pa_records p) (pa_frames p) (pa_parse_errors p)
      (ulong (pa_decode_errors p + 1)))) as (out & p' & -> & Hp' & Ht).
    { destruct Hp. constructor; try done. apply ulong_range. }
    { specialize (Hlt Htr). simpl. lia. }
    eexists _, _. split; [done|]. split; [done|]. refine (tallied_trans _ [_] _ _ _ _ Ht).
    destruct Hp. split_and!; first [done | by apply ulong_keep].
Qed.

(** What feeding a record's bytes does. *)
Lemma feed_record s r :
  stream_inv s → cap_ok r →
  ∃ s', osdp_stream_feed (Some s) (Ptr (cap_data r)) (cap_data_len r) = Some (OSDP_OK, Some s') ∧
    stream_inv s' ∧
    (length (unread s) + cap_data_len r ≤ OSDP_STREAM_BUFFER_LEN ∨ cap_data_len r = 0 →
      unread s' = unread s ++ take (cap_data_len r) (cap_data r)).
Proof.
  intros Hs (((Hl & Hb) & _) & Hle & _). destruct (decide (cap_data_len r = 0)) as [E|E].
  - exists s. rewrite E. by rewrite take_0, app_nil_r.
  - destruct (osdp_stream_feed_ok s (cap_data r) (cap_data_len r)) as (s' & E' & Hs' & Hu);
      [done|done|lia|lia|].
    exists s'. do 2 (split; [done|]). intros [H|H]; [|done]. rewrite Hu. apply keep_last_id.
    rewrite length_app, length_take. lia.
Qed.

Lemma parse_record_total n line p :
  parser_inv p → cstr_ok line →
  ∃ out p', parse_record n line p = Some (out, p') ∧ parser_inv p' ∧ tallied p out p'.
Proof.
  intros Hp Hc. unfold Parser.parse_record.
  destruct (osdpcap_parse_total line (rec_junk n) Hc (Hjunk n)) as (st & r & -> & Hr).
  rewrite !bind_Some. destruct (decide (st = OSDPCAP_ERR_EMPTY_LINE)) as [He|He].
  { eexists _, _. split; [done|]. split; [done|]. destruct p. by apply tallied_nil. }
  destruct Hr as [_ Hr]. case_decide as Hst.
  { eexists _, _. split; [done|]. destruct Hp. split; [constructor; first [done|apply ulong_range]|].
    split_and!; first [done | by apply ulong_keep]. }
  destruct (feed_record (pa_stream p) r) as (s & E & Hs & _); [apply Hp|done|].
  cbn [pa_stream]. rewrite E, !bind_Some, decide_False by tauto.
  destruct (decode_loop_total (S (st_fill s)) (mk_parser s (ulong (pa_records p + 1)) (pa_frames p)
    (pa_parse_errors p) (pa_decode_errors p))) as (out & p' & E' & Hp' & Ht).
  { destruct Hp. constructor; first [done|apply ulong_range]. }
  { simpl. rewrite length_unread by done. lia. }
  cbn [pa_records pa_frames pa_parse_errors pa_decode_errors]. rewrite E', bind_Some.
  eexists _, _. split; [done|]. split; [done|]. refine (tallied_trans _ [_] _ _ _ _ Ht).
  destruct Hp. split_and!; first [done | by apply ulong_keep].
Qed.

Lemma read_lines_total fuel file p :
  parser_inv p → bytes_ok file → length file < fuel →
  ∃ out p', read_lines fuel file p = Some (out, p') ∧ parser_inv p' ∧ tallied p out p'.
Proof.
  revert file p. induction fuel as [|fuel IH]; intros file p Hp Hb Hl; [lia|]. cbn [Parser.read_lines].
  destruct (fgets LINE_CAP file) as [[line rest]|] eqn:E.
  - apply fgets_spec in E as [-> Hlt]. apply Forall_app in Hb as [Hbl Hbr].
    destruct (parse_record_total fuel (cstr_of line) p Hp (cstr_of_ok line Hbl))
      as (o1 & p1 & -> & Hp1 & Ht1). rewrite bind_Some.
    destruct (IH rest p1 Hp1 Hbr ltac:(lia)) as (o2 & p2 & -> & Hp2 & Ht2). rewrite bind_Some.
    eexists _, _. split; [done|]. split; [done|]. by eapply tallied_trans.
  - eexists _, _. split; [done|]. split; [done|]. destruct p. by apply tallied_nil.
Qed.

(** Draining a stream that holds part of a line of messages prints the messages
    that are complete, and nothing else. *)
Lemma decode_loop_line fuel p ext segs :
  stream_inv (pa_stream p) → Forall seg_ok segs → unread (pa_stream p) ++ ext = line_of segs →
  length (unread (pa_stream p)) < fuel →
  ∃ fs p' segs', decode_loop fuel p = Some (print_frame <$> fs, p') ∧ stream_inv (pa_stream p') ∧
    Forall seg_ok segs' ∧ unread (pa_stream p') ++ ext = line_of segs' ∧
    delivered segs = fs ++ delivered segs' ∧ (ext = [] → segs' = []) ∧
    leftover_ok (unread (pa_stream p')) segs' ∧
    ∀ k, completed segs (length (unread (pa_stream p)) + k) =
           fs ++ completed segs' (length (unread (pa_stream p')) + k).
Proof.
  revert p segs. induction fuel as [|fuel IH]; intros p segs Hi Hok E Hl; [lia|].
  cbn [Parser.decode_loop].
  destruct (osdp_stream_next_ok (pa_stream p) (frame_junk fuel) Hi) as (st & s1 & o1 & -> & Hi1 & Hstep).
  rewrite bind_Some. pose proof (next_step_progress _ _ _ _ Hstep) as [Hle Hlt].
  destruct (next_step_line _ ext segs _ _ _ Hok E Hstep)
    as [(-> & _ & segs' & Hok' & E' & Hd & He & Hlo & Hc)|(sg & segs' & -> & -> & HF & E')].
  - rewrite decide_False, decide_True by done. eexists [], _, segs'. split; [done|].
    split_and!; try done; [intros ->; specialize (He eq_refl); subst segs; by destruct segs'|].
    by apply (leftover_delivered segs).
  - rewrite decide_True by done. rewrite decide_True in HF by done.
    apply Forall_cons_1 in Hok as [Hsg Hok].
    destruct (IH (mk_parser s1 (pa_records p) (ulong (pa_frames p + 1)) (pa_parse_errors p)
      (pa_decode_errors p)) segs' Hi1 Hok E' ltac:(specialize (Hlt ltac:(done)); simpl; lia))
      as (fs & p2 & segs2 & -> & Hi2 & Hok2 & E2 & Hd2 & He2 & Hlo2 & Hc2).
    rewrite bind_Some. injection HF as ->. eexists (_ :: fs), _, segs2. split_and!; try done.
    + unfold delivered in *. cbn [fmap list_fmap app]. by rewrite Hd2.
    + intros k. rewrite (completed_next _ _ _ _ _ _ Hsg E E'). cbn [app]. f_equal. apply Hc2.
Qed.

(** One capture line. *)
Lemma parse_record_capture n c p segs rest :
  stream_inv (pa_stream p) → capture_ok c → Forall seg_ok segs →
  unread (pa_stream p) ++ ca_bytes c ++ rest = line_of segs →
  leftover_ok (unread (pa_stream p)) segs →
  Forall (λ F, fr_raw_len F + length (ca_bytes c) ≤ S OSDP_STREAM_BUFFER_LEN) (delivered segs) →
  ∃ fs p' segs', parse_record n (capture_body c ++ [10%Z]) p = Some (record_lines c fs, p') ∧
    stream_inv (pa_stream p') ∧ Forall seg_ok segs' ∧
    unread (pa_stream p') ++ rest = line_of segs' ∧ delivered segs = fs ++ delivered segs' ∧
    (rest = [] → segs' = []) ∧ leftover_ok (unread (pa_stream p')) segs' ∧
    ∀ k, completed segs (length (unread (pa_stream p)) + (length (ca_bytes c) + k)) =
           fs ++ completed segs' (length (unread (pa_stream p')) + k).
Proof.
  intros Hi [F _] Hok E Hlo Hr. unfold Parser.parse_record. rewrite capture_body_line.
  destruct (parse_capture_line _ _ (ca_io c) _ _ _ _ _ (rec_junk n) F (Hjunk n))
    as (r & -> & Hcap & Es & En & Ei & Ed & _ & _).
  rewrite !bind_Some, decide_False by done. rewrite decide_False by tauto. cbn [pa_stream].
  assert (length (ca_bytes c) = cap_data_len r) as El.
  { rewrite <-Ed, length_take_le; [done|]. destruct Hcap as (((-> & _) & _) & ? & _). done. }
  destruct (feed_record (pa_stream p) r Hi Hcap) as (s & Ef & Hs & Hu). rewrite Ef, !bind_Some.
  rewrite (decide_False (P := OSDP_OK ≠ OSDP_OK)) by tauto.
  assert (unread s = unread (pa_stream p) ++ ca_bytes c) as Hu'.
  { rewrite <-Ed. apply Hu. rewrite <-El. destruct segs as [|sg segs].
    - simpl in Hlo. rewrite Hlo in E. right. destruct (ca_bytes c); [done|discriminate E].
    - left. apply Forall_cons_1 in Hr as [Hr _]. apply Forall_cons_1 in Hok as [(_ & ? & ?) _].
      simpl in Hlo. cbn beta in Hr. cbn [fr_raw_len decoded_of] in Hr.
      rewrite length_frame_wire in Hr by done. lia. }
  destruct (decode_loop_line (S (st_fill s)) (mk_parser s (ulong (pa_records p + 1)) (pa_frames p)
    (pa_parse_errors p) (pa_decode_errors p)) rest segs)
    as (fs & p' & segs' & E' & H); [done|done| |simpl; rewrite length_unread by done; lia|].
  { simpl. by rewrite Hu', <-app_assoc. }
  cbn [pa_records pa_frames pa_parse_errors pa_decode_errors]. rewrite E', bind_Some.
  cbn [pa_stream] in H. rewrite Hu', length_app in H. setoid_rewrite <-Nat.add_assoc in H.
  exists fs, p', segs'. split; [|done]. unfold record_lines, header_of, print_record_header.
  by rewrite Es, En, Ei, Ed, El.
Qed.

Lemma read_lines_captures fuel cs segs p :
  stream_inv (pa_stream p) → Forall capture_ok cs → Forall seg_ok segs →
  unread (pa_stream p) ++ concat (ca_bytes <$> cs) = line_of segs →
  leftover_ok (unread (pa_stream p)) segs →
  Forall (λ c, Forall (λ F, fr_raw_len F + length (ca_bytes c) ≤ S OSDP_STREAM_BUFFER_LEN)
    (delivered segs)) cs →
  (concat (ca_bytes <$> cs) = [] → segs = []) → length (capture_file cs) < fuel →
  ∃ groups p', read_lines fuel (capture_file cs) p = Some (concat (zip_with record_lines cs groups), p') ∧
    length groups = length cs ∧ concat groups = delivered segs ∧
    ∀ k, concat (take k groups) =
           completed segs (length (unread (pa_stream p)) + length (concat (ca_bytes <$> take k cs))).
Proof.
  revert cs segs p. induction fuel as [|fuel IH]; intros cs segs p Hi Hcs Hok E Hlo Hr He Hf; [lia|].
  destruct cs as [|c cs].
  { rewrite He by done. exists [], p. split_and!; try done. by intros [|k]. }
  apply Forall_cons_1 in Hcs as [Hc Hcs]. apply Forall_cons_1 in Hr as [Hrc Hr].
  unfold capture_file in *. cbn [fmap list_fmap concat] in *. rewrite <-app_assoc in *.
  cbn [app] in *. cbn [Parser.read_lines]. rewrite fgets_line by apply Hc.
  rewrite capture_nul_free by done.
  destruct (parse_record_capture fuel c p segs _ Hi Hc Hok E Hlo Hrc)
    as (fs & p1 & segs1 & -> & Hi1 & Hok1 & E1 & Hd1 & He1 & Hlo1 & Hc1). rewrite bind_Some.
  destruct (IH cs segs1 p1) as (groups & p2 & -> & Hl & Hg & Hk); try done.
  { revert Hr. apply Forall_impl. intros c' Hc'. rewrite Hd1 in Hc'. by apply Forall_app in Hc' as [_ ?]. }
  { rewrite length_app in Hf. cbn [length] in Hf. lia. }
  rewrite bind_Some. exists (fs :: groups), p2. split; [done|].
  split; [simpl; by rewrite Hl|]. split; [simpl; by rewrite Hg, Hd1|]. intros [|k].
  - rewrite Nat.add_0_r. symmetry. by apply completed_leftover.
  - cbn [take firstn fmap list_fmap concat]. rewrite length_app, Hc1. f_equal. apply Hk.
Qed.
End Loops.

(** ** Counting what a capture prints *)

Lemma count_frames f fs :
  (∀ x, f (print_frame x) = true) → count f (print_frame <$> fs) = Z.of_nat (length fs).
Proof.
  intros H. unfold count. induction fs as [|x fs IH]; [done|].
  rewrite fmap_cons. cbn [List.filter]. rewrite H. cbn [length]. lia.
Qed.

Lemma count_none f (out : list output) : Forall (λ o, f o = false) out → count f out = 0%Z.
Proof. unfold count. induction 1 as [|o out H _ IH]; simpl; [done|]. by rewrite H. Qed.

Lemma record_lines_free f cs groups :
  (∀ c, f (header_of c) = false) → (∀ x, f (print_frame x) = false) →
  count f (concat (zip_with record_lines cs groups)) = 0%Z.
Proof.
  intros Hh Hf. apply count_none. revert groups.
  induction cs as [|c cs IH]; intros [|fs groups]; simpl; [constructor..|]. constructor; [done|].
  apply Forall_app; split; [|done]. apply Forall_fmap. by apply Forall_true.
Qed.

Lemma record_lines_count cs groups :
  length groups = length cs →
  count is_record (concat (zip_with record_lines cs groups)) = Z.of_nat (length cs) ∧
  count is_frame (concat (zip_with record_lines cs groups)) = Z.of_nat (length (concat groups)).
Proof.
  revert groups. induction cs as [|c cs IH]; intros [|fs groups] Hl; try done.
  destruct (IH groups) as [Er Ef]; [by injection Hl|]. cbn [zip_with concat].
  rewrite !count_app, Er, Ef, length_app. unfold record_lines.
  change (header_of c :: (print_frame <$> fs)) with ([header_of c] ++ (print_frame <$> fs)).
  rewrite !count_app, (count_frames is_frame) by done.
  rewrite (count_none is_record (print_frame <$> fs)) by (apply Forall_fmap; by apply Forall_true).
  change (count is_record [header_of c]) with 1%Z. change (count is_frame [header_of c]) with 0%Z.
  cbn [length]. lia.
Qed.

Lemma capture_file_bytes cs : Forall capture_ok cs → bytes_ok (capture_file cs).
Proof.
  unfold capture_file. induction 1 as [|c cs Hc _ IH]; [constructor|]. cbn [fmap list_fmap concat].
  apply Forall_app; split; [|done]. rewrite capture_body_line. destruct Hc as [F _].
  by apply cstr_ok_bytes, (capture_line_cstr _ _ (ca_io c) _ _ _ _ _ F).
Qed.

(** ** Example capture *)

Definition ex_rec_junk (n : nat) : osdpcap_record := ex_record.
Definition ex_frame_junk (n : nat) : osdp_frame := frame_zero.

(** Two digits per byte. *)
Definition hex_char (v : Z) : Z := if decide (v < 10)%Z then (48 + v)%Z else (87 + v)%Z.
Definition hex_of (bs : list Z) : list Z := concat ((λ b, [32; hex_char (b / 16); hex_char (b mod 16)]%Z) <$> bs).

Definition ex_capture (bs : list Z) : capture :=
  mk_capture 1580342115 984691851 OSDPCAP_IO_TRACE (hex_of bs) bs (lit "1") (lit "bench").

(** One message cut across two records, with marking bytes in front. *)
Definition ex_cut : list capture :=
  [ex_capture ([0xFF; 0xFF]%Z ++ take 3 (frame_wire ex_frame)); ex_capture (drop 3 (frame_wire ex_frame))].

Lemma hex_char_digit v : (0 ≤ v < 16)%Z → hex_digit (hex_char v) = v.
Proof. intros H. unfold hex_digit, hex_char. repeat case_decide; lia. Qed.

Lemma hex_of_text bs : bytes_ok bs → hex_text (hex_of bs) bs.
Proof.
  induction 1 as [|b bs Hb _ IH]; [constructor|].
  assert (0 ≤ b / 16 < 16)%Z by (unfold is_byte in Hb; split; [apply Z.div_pos|apply Z.div_lt_upper_bound]; lia).
  pose proof (Z.mod_pos_bound b 16 ltac:(lia)).
  unfold hex_of. cbn [fmap list_fmap concat app]. apply hex_sep; [done|].
  rewrite (Z.div_mod b 16) at 3 by done. rewrite Z.mul_comm.
  rewrite <-(hex_char_digit (b / 16)) at 2 by done. rewrite <-(hex_char_digit (b mod 16)) at 2 by done.
  apply hex_pair; [rewrite hex_char_digit; lia..|done].
Qed.

Lemma ex_cut_ok : Forall capture_ok ex_cut.
Proof.
  apply Forall_cons_2; [|apply Forall_cons_2; [|constructor]].
  all: split; [constructor; [vm_decide|vm_decide| |vm_decide|vm_decide|vm_decide|vm_decide|vm_decide]|vm_decide].
  all: split; [vm_decide|apply hex_of_text; vm_decide].
Qed.

(** ** Properties *)

(** C33: Termination and accounting.  On any file of bytes the tool ends: every line
    is read, every loop over the decoder stops, no feed fails and no access leaves its
    array.  The summary counts exactly the lines printed, and the exit code is 0 just
    when no line failed to parse (on counters below 2^64). *)
Theorem parser_total rec_junk frame_junk argc file buffer :
  (∀ n, cap_sizes (rec_junk n)) → argc ≤ 2 → bytes_ok file →
  length buffer = OSDP_STREAM_BUFFER_LEN → bytes_ok buffer →
  ∃ out, main rec_junk frame_junk argc (Some file) buffer =
      Some (out ++ [Out_summary (ulong (count is_record out)) (ulong (count is_frame out))
                      (ulong (count is_decode_error out)) (ulong (count is_parse_error out))],
            if decide (ulong (count is_parse_error out) = 0%Z) then 0%Z else 1%Z) ∧
    List.filter is_feed_error out = [].
Proof.
  intros Hj Ha Hf Hl Hb. unfold main, osdp_stream_init. rewrite decide_False by lia.
  rewrite !bind_Some. destruct (read_lines_total rec_junk frame_junk Hj (S (length file)) file
    (mk_parser (fresh_stream buffer) 0 0 0 0)) as (out & p & E & _ & (E1 & E2 & E3 & E4 & E5)).
  { constructor; [by apply fresh_stream_inv|done..]. }
  { done. }
  { lia. }
  unfold fresh_stream in *. cbn [st_buffer]. rewrite E, bind_Some. exists out.
  rewrite E1, E2, E3, E4. done.
Qed.


(** ** Witnesses *)

Lemma parser_total_witness :
  ∃ out, main ex_rec_junk ex_frame_junk 2 (Some (lit "# note")) (replicate 1440 0%Z) =
      Some (out ++ [Out_summary (ulong (count is_record out)) (ulong (count is_frame out))
                      (ulong (count is_decode_error out)) (ulong (count is_parse_error out))],
            if decide (ulong (count is_parse_error out) = 0%Z) then 0%Z else 1%Z) ∧
    List.filter is_feed_error out = [].
Proof. apply parser_total; [intros n; vm_decide|lia|vm_decide..]. Defined.

