(* ===== verification/Serial.v ===== *)
(** * The serial layer of the tools: tools/osdp-pd-mock/serial.h and serial_posix.c

    serial.h is the class [Serial], what the mock PD needs of a port.  serial_posix.c
    implements it on the system calls [Posix]; [posix_serial] is the instance, with the
    handle [serial_ctx_t *] next to the system's state.  serial_win.c is not modelled. *)
From S2P Require Import Prelude State.

(** Why an operation failed: the text in [errbuf]. *)
Inductive serial_error : Type :=
  | Bad_arguments
  | Port_not_open
  | Unsupported_baud (baud : Z)
  | Open_failed (port : list Z)
  | Tcgetattr_failed
  | Tcsetattr_failed
  | Out_of_memory.

(** serial.h; [None] is success. *)
Class Serial (Q : Type) : Type := {
  serial_open : option (list Z) → Z → Q → option serial_error * Q;
  serial_read : nat → Q → Z * list Z * Q;
  serial_write : list Z → Q → Z * Q;
  serial_now_ms : Q → Z * Q;
  serial_baud_supported : Z → bool;
  serial_set_baud : Z → Q → option serial_error * Q;
  serial_sleep_ms : Z → Q → Q;
  serial_close : Q → Q }.

(** What the tools rely on: a read stores at most what was asked for. *)
Class SerialLaws (Q : Type) {SE : Serial Q} : Prop := {
  sr_read n q : let r := (serial_read n q).1 in (r.1 ≤ Z.of_nat n)%Z ∧ length r.2 ≤ n ∧ bytes_ok r.2 }.

(** ** The system *)

(** The rates of <termios.h>. *)
Inductive speed_t : Type :=
  | B0 | B1200 | B2400 | B4800 | B9600 | B19200 | B38400 | B57600 | B115200 | B230400.

#[export] Instance speed_eq_dec : EqDecision speed_t.
Proof. solve_decision. Defined.

Inductive errno_t : Type := EAGAIN | EOTHER.

(** The fields of [struct termios] the code writes; [T] is the rest. *)
Record termios (T : Type) : Type := mk_termios {
  c_cflag : Z;
  c_vmin : Z;
  c_vtime : Z;
  c_ispeed : speed_t;
  c_ospeed : speed_t;
  c_rest : T }.
Arguments mk_termios {_}.
Arguments c_cflag {_}.
Arguments c_vmin {_}.
Arguments c_vtime {_}.
Arguments c_ispeed {_}.
Arguments c_ospeed {_}.
Arguments c_rest {_}.

#[export] Instance termios_settable T : Settable (termios T) := λ r,
  mk_termios (c_cflag r) (c_vmin r) (c_vtime r) (c_ispeed r) (c_ospeed r) (c_rest r).

(** The calls; a descriptor or a result below 0 is a failure. *)
Class Posix (P T : Type) : Type := {
  x_open : list Z → P → Z * P;
  x_read : Z → nat → P → Z * list Z * P;
  x_write : Z → list Z → P → Z * errno_t * P;
  x_tcgetattr : Z → P → option (termios T) * P;
  x_tcsetattr : Z → bool → termios T → P → bool * P;
  x_tcflush : Z → P → P;
  x_tcdrain : Z → P → P;
  x_calloc : P → bool * P;
  x_close : Z → P → P;
  x_clock : P → Z * Z * P;
  x_nanosleep : Z → Z → P → P;
  x_cfmakeraw : termios T → termios T;
  CLOCAL : Z; CREAD : Z; CRTSCTS : Z; PARENB : Z; CSTOPB : Z; CSIZE : Z; CS8 : Z }.

(** POSIX: [read] stores what it returns, at most [nbyte] bytes; [write] takes at most
    what it is given; the driver takes a byte after at most [patience] refusals. *)
Fixpoint refused {P T} {X : Posix P T} (fd : Z) (bs : list Z) (k : nat) (p : P) : P :=
  match k with
  | O => p
  | S k => refused fd bs k (x_nanosleep 0 1000000 (x_write fd bs p).2)
  end.

Definition refuses {P T} {X : Posix P T} (fd : Z) (bs : list Z) (p : P) : Prop :=
  ((x_write fd bs p).1.1 < 0)%Z ∧ (x_write fd bs p).1.2 = EAGAIN.

Class PosixLaws (P T : Type) {X : Posix P T} : Type := {
  patience : nat;
  x_read_ok fd n p : let r := (x_read fd n p).1 in
    (r.1 ≤ Z.of_nat n)%Z ∧ length r.2 = Z.to_nat r.1 ∧ bytes_ok r.2;
  x_write_le fd bs p : ((x_write fd bs p).1.1 ≤ Z.of_nat (length bs))%Z;
  x_write_some fd bs p : bs ≠ [] → (x_write fd bs p).1.1 ≠ 0%Z;
  x_write_drains fd bs p : bs ≠ [] → ∃ k, k ≤ patience ∧ ¬ refuses fd bs (refused fd bs k p) }.

(** ** serial_posix.c *)

(** [struct serial_ctx], and the state it lives in: the handle, NULL or one with [fd],
    and the system. *)
Record serial_ctx : Type := mk_serial { fd : Z }.
Record port (P : Type) : Type := mk_port { handle : option serial_ctx; sys : P }.
Arguments mk_port {_}.
Arguments handle {_}.
Arguments sys {_}.

#[export] Instance port_settable P : Settable (port P) := λ r, mk_port (handle r) (sys r).

Definition baud_to_speed (baud : Z) : speed_t :=
  if decide (baud = 1200%Z) then B1200 else
  if decide (baud = 2400%Z) then B2400 else
  if decide (baud = 4800%Z) then B4800 else
  if decide (baud = 9600%Z) then B9600 else
  if decide (baud = 19200%Z) then B19200 else
  if decide (baud = 38400%Z) then B38400 else
  if decide (baud = 57600%Z) then B57600 else
  if decide (baud = 115200%Z) then B115200 else
  if decide (baud = 230400%Z) then B230400 else B0.

Definition posix_baud_supported (baud : Z) : bool := bool_decide (baud_to_speed baud ≠ B0).

Section posix.
Context {P T : Type} {X : Posix P T}.
Implicit Types (q : port P) (p : P).

(** A usable handle: [ctx == NULL || ctx->fd < 0] fails. *)
Definition usable (q : port P) : option Z :=
  match handle q with
  | Some c => if decide (fd c < 0)%Z then None else Some (fd c)
  | None => None
  end.

Definition posix_read (cap : nat) (q : port P) : Z * list Z * port P :=
  match usable q with
  | None => (0%Z, [], q)
  | Some fd =>
      let '(n, bs, p) := x_read fd cap (sys q) in
      let q := q <| sys := p |> in
      if decide (n < 0)%Z then (0%Z, [], q) else (n, bs, q)
  end.

(** The loop of [posix_write] from [total] on; [None] when [fuel] turns are not enough. *)
Fixpoint write_loop (fuel : nat) (fd : Z) (buf : list Z) (total : nat) (p : P) : option (nat * P) :=
  match fuel with
  | O => None
  | S fuel =>
      if decide (total < length buf) then
        let '(n, errno, p) := x_write fd (drop total buf) p in
        if decide (n < 0)%Z then
          match errno with
          | EAGAIN => write_loop fuel fd buf total (x_nanosleep 0 1000000 p)
          | EOTHER => Some (total, p)
          end
        else write_loop fuel fd buf (total + Z.to_nat n) p
      else Some (total, p)
  end.

(** With [retries] refusals before each byte the loop is done in this many turns. *)
Definition write_fuel (retries : nat) (buf : list Z) : nat := S (S retries * length buf).

Definition posix_write (fuel : nat) (buf : list Z) (q : port P) : option (Z * port P) :=
  match usable q with
  | None => Some (0%Z, q)
  | Some fd => '(total, p) ← write_loop fuel fd buf 0 (sys q); Some (Z.of_nat total, q <| sys := p |>)
  end.

Definition posix_now_ms (q : port P) : Z * port P :=
  let '(sec, nsec, p) := x_clock (sys q) in
  (u32 (((sec mod 2 ^ 64) * 1000 + (nsec mod 2 ^ 64) / 1000000) mod 2 ^ 64), q <| sys := p |>)%Z.

(** The line settings of [serial_open]. *)
Definition line_settings (speed : speed_t) (tio : termios T) : termios T :=
  let tio := x_cfmakeraw tio in
  let tio := tio <| c_ispeed := speed |> <| c_ospeed := speed |> in
  let tio := set c_cflag (λ f, Z.lor f (Z.lor CLOCAL CREAD)) tio in
  let tio := set c_cflag (λ f, Z.land f (Z.lnot CRTSCTS)) tio in
  let tio := set c_cflag (λ f, Z.land f (Z.lnot PARENB)) tio in
  let tio := set c_cflag (λ f, Z.land f (Z.lnot CSTOPB)) tio in
  let tio := set c_cflag (λ f, Z.land f (Z.lnot CSIZE)) tio in
  let tio := set c_cflag (λ f, Z.lor f CS8) tio in
  tio <| c_vmin := 0%Z |> <| c_vtime := 0%Z |>.

Definition posix_open (port_name : option (list Z)) (baud : Z) (q : port P) : option serial_error * port P :=
  let q := q <| handle := None |> in
  match port_name with
  | None => (Some Bad_arguments, q)
  | Some port_name =>
      let speed := baud_to_speed baud in
      if decide (speed = B0) then (Some (Unsupported_baud baud), q) else
      let '(fd, p) := x_open port_name (sys q) in
      if decide (fd < 0)%Z then (Some (Open_failed port_name), q <| sys := p |>) else
      let '(tio, p) := x_tcgetattr fd p in
      match tio with
      | None => (Some Tcgetattr_failed, q <| sys := x_close fd p |>)
      | Some tio =>
          let '(ok, p) := x_tcsetattr fd false (line_settings speed tio) p in
          if negb ok then (Some Tcsetattr_failed, q <| sys := x_close fd p |>) else
          let '(ok, p) := x_calloc (x_tcflush fd p) in
          if negb ok then (Some Out_of_memory, q <| sys := x_close fd p |>) else
          (None, mk_port (Some (mk_serial fd)) p)
      end
  end.

Definition posix_set_baud (baud : Z) (q : port P) : option serial_error * port P :=
  match usable q with
  | None => (Some Port_not_open, q)
  | Some fd =>
      let speed := baud_to_speed baud in
      if decide (speed = B0) then (Some (Unsupported_baud baud), q) else
      let '(tio, p) := x_tcgetattr fd (x_tcdrain fd (sys q)) in
      match tio with
      | None => (Some Tcgetattr_failed, q <| sys := p |>)
      | Some tio =>
          let '(ok, p) := x_tcsetattr fd true (tio <| c_ispeed := speed |> <| c_ospeed := speed |>) p in
          (if ok then None else Some Tcsetattr_failed, q <| sys := p |>)
      end
  end.

Definition posix_close (q : port P) : port P :=
  match handle q with
  | None => q
  | Some c => mk_port None (if decide (0 ≤ fd c)%Z then x_close (fd c) (sys q) else sys q)
  end.

Definition posix_sleep_ms (ms : Z) (q : port P) : port P :=
  q <| sys := x_nanosleep (ms / 1000) (ms mod 1000 * 1000000) (sys q) |>.

End posix.

(** ** Properties *)

Section write.
Context {P T : Type} {X : Posix P T} {XL : PosixLaws P T}.

(** The device never fails for good. *)
Definition healthy (fd : Z) : Prop := ∀ bs (p : P), ((x_write fd bs p).1.1 < 0)%Z → (x_write fd bs p).1.2 = EAGAIN.

Definition written (fd : Z) (buf : list Z) (total : nat) (r : option (nat * P)) : Prop :=
  ∃ n p, r = Some (n, p) ∧ total ≤ n ≤ length buf ∧ (healthy fd → n = length buf).

Lemma write_loop_stop fuel fd buf p : written fd buf (length buf) (write_loop (S fuel) fd buf (length buf) p).
Proof. cbn [write_loop]. rewrite decide_False by lia. eexists _, _. split; [done|]. split; [lia|done]. Qed.

(** One byte or more go out within [k] refusals. *)
Lemma write_loop_drain fd buf total k fuel p : total < length buf →
  ¬ refuses fd (drop total buf) (refused fd (drop total buf) k p) →
  (∀ total' p' fuel', total < total' ≤ length buf → fuel ≤ fuel' → written fd buf total' (write_loop fuel' fd buf total' p')) →
  ∀ fuel', k + S fuel ≤ fuel' → written fd buf total (write_loop fuel' fd buf total p).
Proof.
  intros Ht Hk Hrest. revert p Hk. induction k as [|k IH]; intros p Hk [|f] Hf; try lia.
  all: cbn [write_loop]; rewrite decide_True by done.
  all: pose proof (x_write_le fd (drop total buf) p) as Hle; rewrite length_drop in Hle.
  all: assert (drop total buf ≠ []) as Hne by (intros E%(f_equal length); rewrite length_drop in E; cbn in E; lia).
  all: pose proof (x_write_some fd (drop total buf) p Hne) as Hs.
  all: destruct (x_write fd (drop total buf) p) as [[n e] p1] eqn:E; cbn in Hle, Hs.
  all: case_decide as Hn.
  2, 4: edestruct (Hrest (total + Z.to_nat n) p1 f) as (m & p2 & -> & Hm & Hh); [lia|lia|];
    eexists _, _; split; [done|]; split; [lia|done].
  all: destruct e; [|exists total, p1; split; [done|]; split; [lia|]; intros H;
    specialize (H (drop total buf) p); rewrite E in H; by specialize (H Hn)].
  - destruct Hk. unfold refuses, refused. by rewrite E.
  - apply IH; [|lia]. cbn [refused] in Hk. by rewrite E in Hk.
Qed.

Lemma write_loop_ends fd buf m total p fuel : total ≤ length buf → length buf - total ≤ m → S (S patience * m) ≤ fuel →
  written fd buf total (write_loop fuel fd buf total p).
Proof.
  revert total p fuel. induction m as [|m IH]; intros total p fuel Ht Hm Hf.
  all: destruct (decide (total < length buf)) as [Hlt|];
    [|assert (total = length buf) as -> by lia; destruct fuel; [lia|]; apply write_loop_stop].
  - lia.
  - assert (drop total buf ≠ []) as Hne by (intros E%(f_equal length); rewrite length_drop in E; cbn in E; lia).
    destruct (x_write_drains fd (drop total buf) p Hne) as (k & Hk & Hd).
    eapply (write_loop_drain _ _ _ k (S (S patience * m))); [done|done| |nia].
    intros total' p' fuel' H1 H2. apply IH; lia.
Qed.

#[export] Instance posix_serial : Serial (port P) := {|
  serial_open := posix_open;
  serial_read := posix_read;
  serial_write bs q := default (0%Z, q) (posix_write (write_fuel patience bs) bs q);
  serial_now_ms := posix_now_ms;
  serial_baud_supported := posix_baud_supported;
  serial_set_baud := posix_set_baud;
  serial_sleep_ms := posix_sleep_ms;
  serial_close := posix_close |}.

#[export] Instance posix_serial_laws : SerialLaws (port P).
Proof.
  constructor. intros n q. cbn. unfold posix_read. destruct (usable q) as [d|]; cbn; [|split_and!; [lia|lia|constructor]].
  pose proof (x_read_ok d n (sys q)) as H. cbv zeta in H. destruct (x_read d n (sys q)) as [[k bs] p]. cbn in H.
  destruct H as (H1 & H2 & H3). case_decide; cbn; split_and!; try done; try lia.
Qed.

End write.

(** The POSIX serial port.  A write on an open port ends, whatever the driver refuses
    on the way: it reports at most the length, and the whole length unless the device
    fails for good; and the reads, rates and rate changes keep what serial.h promises - a
    rate is supported iff it is one of the nine of termios, a failed open leaves no handle
    behind, and a change to an unsupported rate leaves the port as it was. *)
Theorem posix_port_sound {P T} {X : Posix P T} {XL : PosixLaws P T} (q : port P) :
  (∀ buf, ∃ n q', posix_write (write_fuel patience buf) buf q = Some (Z.of_nat n, q') ∧ n ≤ length buf ∧
     handle q' = handle q ∧ (∀ d, usable q = Some d → healthy d → n = length buf)) ∧
  (∀ b, posix_baud_supported b = true ↔ b ∈ [1200; 2400; 4800; 9600; 19200; 38400; 57600; 115200; 230400]%Z) ∧
  (∀ name b, match posix_open name b q with
             | (None, q') => (∃ d, usable q' = Some d) ∧ posix_baud_supported b = true
             | (Some _, q') => handle q' = None
             end) ∧
  (∀ b, match posix_set_baud b q with
        | (None, q') => posix_baud_supported b = true ∧ handle q' = handle q
        | (Some (Unsupported_baud b'), q') => b' = b ∧ q' = q ∧ posix_baud_supported b = false
        | (Some _, q') => handle q' = handle q
        end).
Proof.
  split_and!.
  - intros buf. unfold posix_write. destruct (usable q) as [d|]; [|exists 0, q; split_and!; [done|lia|done|done]].
    destruct (write_loop_ends d buf (length buf) 0 (sys q) (write_fuel patience buf)) as (n & p & -> & Hn & Hh); [lia|lia|done|].
    exists n. eexists. split; [done|]. split_and!; [lia|by destruct q|]. intros ? [= <-]. auto.
  - intros b. unfold posix_baud_supported, baud_to_speed. rewrite bool_decide_eq_true. rewrite !elem_of_cons. split.
    + repeat case_decide; tauto.
    + rewrite elem_of_nil. intros H. repeat case_decide; tauto || done.
  - intros [name|] b; [|done]. unfold posix_open, posix_baud_supported. cbv zeta.
    case_decide as Hs; [done|]. rewrite bool_decide_eq_true_2 by done.
    destruct (x_open _ _) as [d p]. case_decide as Hd; [done|]. destruct (x_tcgetattr d p) as [[tio|] p1]; [|done].
    destruct (x_tcsetattr _ _ _ _) as [[] p2]; cbn [negb]; [|done]. destruct (x_calloc _) as [[] p3]; cbn [negb]; [|done].
    split; [|done]. exists d. unfold usable. cbn. by rewrite decide_False by done.
  - intros b. unfold posix_set_baud, posix_baud_supported. destruct (usable q) as [d|] eqn:E; [|done]. cbv zeta.
    case_decide as Hs; [by rewrite bool_decide_eq_false_2 by auto|]. rewrite bool_decide_eq_true_2 by done.
    destruct (x_tcgetattr d _) as [[tio|] p]; [|by destruct q].
    destruct (x_tcsetattr _ _ _ _) as [[] p2]; by destruct q.
Qed.

(** ** Witnesses *)

(** A device that refuses every other write and takes a byte at a time: the lines it
    took, and whether it is ready. *)
Record loopback : Type := mk_loopback { lb_ready : bool; lb_out : list Z }.

#[export] Instance loopback_posix : Posix loopback unit := {|
  x_open := λ _ p, (3%Z, p);
  x_read := λ _ n p, (0%Z, [], p);
  x_write := λ _ bs p, match bs with
    | [] => (0%Z, EOTHER, p)
    | b :: _ => if lb_ready p then (1%Z, EOTHER, mk_loopback false (lb_out p ++ [b]))
                else ((-1)%Z, EAGAIN, mk_loopback true (lb_out p))
    end;
  x_tcgetattr := λ _ p, (Some (mk_termios 0 0 0 B0 B0 ()), p);
  x_tcsetattr := λ _ _ _ p, (true, p);
  x_tcflush := λ _ p, p;
  x_tcdrain := λ _ p, p;
  x_calloc := λ p, (true, p);
  x_close := λ _ p, p;
  x_clock := λ p, (1, 2000000, p)%Z;
  x_nanosleep := λ _ _ p, p;
  x_cfmakeraw := λ tio, tio;
  CLOCAL := 0x800; CREAD := 0x80; CRTSCTS := 0x80000000; PARENB := 0x100; CSTOPB := 0x40; CSIZE := 0x30; CS8 := 0x30 |}%Z.

#[export] Instance loopback_laws : PosixLaws loopback unit.
Proof.
  refine {| patience := 1 |}; unfold refuses.
  - intros fd n p. cbn. split_and!; [lia|done|constructor].
  - intros fd [|b bs] [[] out]; cbn; lia.
  - by intros fd [|b bs] [[] out].
  - intros fd [|b bs] [[] out] Hne; [done|done|exists 0|exists 1]; cbn; (split; [lia|]); intros [H _]; lia.
Defined.

Definition ex_port : port loopback := mk_port (Some (mk_serial 3)) (mk_loopback false []).

Lemma posix_port_sound_witness :
  (∃ n q', posix_write (write_fuel 1 [1; 2; 3]%Z) [1; 2; 3]%Z ex_port = Some (Z.of_nat n, q') ∧ n = 3) ∧
  posix_write (write_fuel 1 [1; 2; 3]%Z) [1; 2; 3]%Z ex_port = Some (3%Z, mk_port (Some (mk_serial 3)) (mk_loopback false [1; 2; 3]%Z)).
Proof.
  split; [|done]. destruct (proj1 (posix_port_sound (T := unit) ex_port) [1; 2; 3]%Z) as (n & q' & E & _ & _ & Hh).
  exists n, q'. split; [exact E|]. apply (Hh 3%Z); [done|].
  intros [|b bs] [[] out]; cbn; done || lia.
Defined.
