(* ===== verification/PdMock.v ===== *)
(** * The mock PD: tools/osdp-pd-mock/main.c

    The tool as a host of the PD: its callbacks, the command line, the set-up of the
    context and the main loop.  Its state - [app_state], the adapter's statics, the
    lines printed on stderr, the serial port and the C library behind it - is the world
    [mock Q] of the PD model.  serial.h is the interface [Serial] of Serial.v.  The storage
    of [app.events] is with the queue it is given to, in the PD; what the command line
    prints before it refuses is not modelled. *)
From S2P Require Import Prelude Types State Pack Codec Commands Replies Records Frame Stream Multipart Dispatch.
From S2P Require Import ScCrypto ScFrame Aes PdTypes PdEvents PdPdcap PdBanks PdFile PdDispatch PdSc Pd PdInv PdSafe PdReach Ports Osdpcap ToolText Serial.
From Stdlib Require String.
Import String.StringSyntax.

(** ** Defaults *)

Definition DEFAULT_BAUD : Z := 9600.
Definition DEFAULT_ADDRESS : Z := 0.

Definition kDefaultPdid : osdp_pdid := mk_pdid 90 66 67 1 0 1 0 1 0.

Definition kDefaultPdcap : list osdp_pdcap_record :=
  [mk_pdcap 1 4 1; mk_pdcap 2 4 1; mk_pdcap 3 1 0; mk_pdcap 4 4 1; mk_pdcap 5 2 1; mk_pdcap 6 1 1;
   mk_pdcap 12 0 0; mk_pdcap 13 0 1; mk_pdcap 16 2 0].

Definition OSDP_LSTATR_TAMPER : Z := 0x01.
Definition OSDP_ISTATR_INACTIVE : Z := 0x00.
Definition OSDP_OSTATR_INACTIVE : Z := 0x00.
Definition OSDP_RSTATR_NORMAL : Z := 0x00.

(** ** The application *)

Record app_state : Type := mk_app_state {
  ap_pdid : osdp_pdid;
  ap_pdcap : list osdp_pdcap_record;
  ap_pdcap_count : nat;
  ap_address : Z;
  ap_baud : Z;
  ap_verbose : Z;
  ap_scratch : list Z;
  ap_file_received : Z;
  ap_tamper : bool;
  ap_acu_rx_size : Z }.

#[export] Instance app_settable : Settable app_state := λ r,
  mk_app_state (ap_pdid r) (ap_pdcap r) (ap_pdcap_count r) (ap_address r) (ap_baud r) (ap_verbose r)
    (ap_scratch r) (ap_file_received r) (ap_tamper r) (ap_acu_rx_size r).

Definition cmd_name (code : Z) : list Z :=
  if decide (code = OSDP_CMD_POLL) then lit "POLL" else
  if decide (code = OSDP_CMD_ID) then lit "ID" else
  if decide (code = OSDP_CMD_CAP) then lit "CAP" else
  if decide (code = OSDP_CMD_LED) then lit "LED" else
  if decide (code = OSDP_CMD_BUZ) then lit "BUZ" else
  if decide (code = OSDP_CMD_TEXT) then lit "TEXT" else
  if decide (code = OSDP_CMD_OUT) then lit "OUT" else
  if decide (code = OSDP_CMD_COMSET) then lit "COMSET" else
  if decide (code = OSDP_CMD_KEYSET) then lit "KEYSET" else
  if decide (code = OSDP_CMD_FILETRANSFER) then lit "FILETRANSFER" else
  if decide (code = OSDP_CMD_LSTAT) then lit "LSTAT" else
  if decide (code = OSDP_CMD_ISTAT) then lit "ISTAT" else
  if decide (code = OSDP_CMD_OSTAT) then lit "OSTAT" else
  if decide (code = OSDP_CMD_RSTAT) then lit "RSTAT" else
  if decide (code = OSDP_CMD_CHLNG) then lit "CHLNG" else
  if decide (code = OSDP_CMD_SCRYPT) then lit "SCRYPT" else lit "?".

Definition reply_name (code : Z) : list Z :=
  if decide (code = OSDP_REPLY_ACK) then lit "ACK" else
  if decide (code = OSDP_REPLY_NAK) then lit "NAK" else
  if decide (code = OSDP_REPLY_PDID) then lit "PDID" else
  if decide (code = OSDP_REPLY_PDCAP) then lit "PDCAP" else
  if decide (code = OSDP_REPLY_LSTATR) then lit "LSTATR" else
  if decide (code = OSDP_REPLY_ISTATR) then lit "ISTATR" else
  if decide (code = OSDP_REPLY_OSTATR) then lit "OSTATR" else
  if decide (code = OSDP_REPLY_RSTATR) then lit "RSTATR" else
  if decide (code = OSDP_REPLY_RAW) then lit "RAW" else
  if decide (code = OSDP_REPLY_KEYPAD) then lit "KEYPAD" else
  if decide (code = OSDP_REPLY_COM) then lit "COM" else
  if decide (code = OSDP_REPLY_BUSY) then lit "BUSY" else
  if decide (code = OSDP_REPLY_CCRYPT) then lit "CCRYPT" else
  if decide (code = OSDP_REPLY_RMAC_I) then lit "RMAC_I" else lit "?".

(** A line on stderr, with the values it shows. *)
Inductive err_line : Type :=
  | Err_rx (bytes : list Z)
  | Err_recv (address : Z) (name : list Z) (payload : list Z)
  | Err_reply (address : Z) (name reply : list Z) (payload : list Z)
  | Err_nak (address : Z) (name : list Z)
  | Err_abort
  | Err_acurxsize (size : Z)
  | Err_keepactive (time_ms : Z)
  | Err_baud_unsupported (requested kept : Z)
  | Err_set_baud_failed (baud : Z) (why : serial_error)
  | Err_comset_applied (address baud : Z)
  | Err_file (ty received total offset : Z) (complete : bool)
  | Err_file_complete (total ty : Z)
  | Err_pdcap (index : nat) (fn : Z) (status : osdp_status)
  | Err_listening (port : list Z) (baud address : Z)
  | Err_sc (up : bool)
  | Err_card (serial : Z) (queued : bool)
  | Err_open_failed (why : serial_error)
  | Err_shutdown.

(** The world of the PD. *)
Record mock (Q : Type) : Type := mk_mock {
  mw_app : app_state;
  mw_seeded : bool;
  mw_os : Q;
  mw_err : list err_line }.
Arguments mk_mock {_}.
Arguments mw_app {_}.
Arguments mw_seeded {_}.
Arguments mw_os {_}.
Arguments mw_err {_}.

#[export] Instance mock_settable Q : Settable (mock Q) := λ r,
  mk_mock (mw_app r) (mw_seeded r) (mw_os r) (mw_err r).

Section pd_mock.
Context {Q : Type} {SE : Serial Q} {CL : Clib Q}.
Implicit Types (w : mock Q).

Definition print (l : err_line) (w : mock Q) : mock Q := w <| mw_err := mw_err w ++ [l] |>.

Definition with_app (f : app_state → app_state) (w : mock Q) : mock Q := w <| mw_app := f (mw_app w) |>.

(** A call on the operating system. *)
Definition os_call {A} (f : Q → A * Q) (w : mock Q) : A * mock Q :=
  let '(a, q) := f (mw_os w) in (a, w <| mw_os := q |>).

(** [g_tap.verbose] is [cli.verbose], which [app.verbose] copies. *)
Definition read_tap (cap : nat) (w : mock Q) : Z * list Z * mock Q :=
  let '((n, buf), w) := os_call (serial_read cap) w in
  (n, buf, if decide (0 < n ∧ 2 ≤ ap_verbose (mw_app w))%Z then print (Err_rx (take (Z.to_nat n) buf)) w else w).

Fixpoint cap_num_objects_in (records : list osdp_pdcap_record) (n : nat) (fc dflt : Z) : Z :=
  match n, records with
  | S n, r :: records => if decide (pc_function_code r = fc) then pc_num_objects r else cap_num_objects_in records n fc dflt
  | _, _ => dflt
  end.

Definition cap_num_objects (s : app_state) (fc dflt : Z) : Z :=
  cap_num_objects_in (ap_pdcap s) (ap_pdcap_count s) fc dflt.

(** *** Status providers *)

Definition status_local (tamper power : Z) (w : mock Q) : Z * Z * mock Q :=
  (if ap_tamper (mw_app w) then OSDP_LSTATR_TAMPER else OSDP_LSTATR_NORMAL, OSDP_LSTATR_NORMAL, w).

Definition status_fill (s : app_state) (fc value : Z) (out : list Z) (cap : nat) : nat * list Z :=
  let n := Z.to_nat (cap_num_objects s fc 1) in
  let n := if decide (cap < n) then cap else n in
  (n, replicate n value ++ drop n out).

Definition status_inputs (out : list Z) (cap : nat) (w : mock Q) : nat * list Z * mock Q :=
  (status_fill (mw_app w) 1 OSDP_ISTATR_INACTIVE out cap, w).
Definition status_outputs (out : list Z) (cap : nat) (w : mock Q) : nat * list Z * mock Q :=
  (status_fill (mw_app w) 2 OSDP_OSTATR_INACTIVE out cap, w).
Definition status_readers (out : list Z) (cap : nat) (w : mock Q) : nat * list Z * mock Q :=
  (status_fill (mw_app w) 13 OSDP_RSTATR_NORMAL out cap, w).

(** *** Library-handled command hooks *)

Definition on_abort (w : mock Q) : osdp_status * mock Q :=
  (OSDP_OK, with_app (λ s, s <| ap_file_received := 0%Z |>) (print Err_abort w)).

Definition on_acurxsize (max_size : Z) (w : mock Q) : mock Q :=
  with_app (λ s, s <| ap_acu_rx_size := max_size |>) (print (Err_acurxsize max_size) w).

Definition on_keepactive (time_ms : Z) (w : mock Q) : osdp_status * mock Q := (OSDP_OK, print (Err_keepactive time_ms) w).

(** The switch of [app_handler]: the status, the reply and the scratch. *)
Definition answer (s : app_state) (cmd_code : Z) (payload : ptr) (payload_len : nat) (reply : osdp_pd_reply)
  : option (osdp_status * osdp_pd_reply * list Z) :=
  let scratch := ap_scratch s in
  if decide (cmd_code = OSDP_CMD_POLL) then Ret (OSDP_OK, mk_reply OSDP_REPLY_ACK NULL 0, scratch) else
  if decide (cmd_code = OSDP_CMD_ID) then
    '(r, buf, built) ← osdp_pdid_build (Some (ap_pdid s)) (Ptr scratch) OSDP_PD_BUF_LEN (Some 0);
    if decide (r ≠ OSDP_OK) then Ret (OSDP_ERR_BAD_PAYLOAD, reply, view buf OSDP_PD_BUF_LEN) else
    built ← built;
    Ret (OSDP_OK, mk_reply OSDP_REPLY_PDID buf built, view buf OSDP_PD_BUF_LEN)
  else
  if decide (cmd_code = OSDP_CMD_LED ∨ cmd_code = OSDP_CMD_BUZ ∨ cmd_code = OSDP_CMD_OUT ∨ cmd_code = OSDP_CMD_TEXT ∨
             cmd_code = OSDP_CMD_KEYSET) then Ret (OSDP_OK, mk_reply OSDP_REPLY_ACK NULL 0, scratch) else
  if decide (cmd_code = OSDP_CMD_MFG) then
    '(r, req) ← osdp_mfg_decode payload payload_len (Some (mk_mfg [] NULL 0));
    if decide (r ≠ OSDP_OK) then Ret (OSDP_ERR_BAD_PAYLOAD, reply, scratch) else
    req ← req;
    let ours := [pi_vendor_code0 (ap_pdid s); pi_vendor_code1 (ap_pdid s); pi_vendor_code2 (ap_pdid s)] in
    if decide (mg_vendor_code req ≠ ours) then Ret (OSDP_ERR_INVALID_ARG, reply, scratch) else
    '(r, buf, built) ← osdp_mfgrep_build (Some (mk_mfgrep ours (mg_data req) (mg_data_len req))) (Ptr scratch)
                         OSDP_PD_BUF_LEN (Some 0);
    if decide (r ≠ OSDP_OK) then Ret (OSDP_ERR_BAD_PAYLOAD, reply, view buf OSDP_PD_BUF_LEN) else
    built ← built;
    Ret (OSDP_OK, mk_reply OSDP_REPLY_MFGREP buf built, view buf OSDP_PD_BUF_LEN)
  else Ret (OSDP_ERR_NOT_SUPPORTED, reply, scratch).

(** What [app_handler] prints before and after the switch. *)
Definition log_recv (cmd_code : Z) (payload : ptr) (payload_len : nat) (w : mock Q) : mock Q :=
  if decide (1 ≤ ap_verbose (mw_app w))%Z
  then print (Err_recv (ap_address (mw_app w)) (cmd_name cmd_code) (view payload payload_len)) w else w.

Definition log_reply_line (r : osdp_status) (cmd_code : Z) (reply : osdp_pd_reply) (w : mock Q) : mock Q :=
  let a := ap_address (mw_app w) in
  if decide (r = OSDP_OK) then
    print (Err_reply a (cmd_name cmd_code) (reply_name (rp_code reply)) (view (rp_payload reply) (rp_payload_len reply))) w
  else if decide (r = OSDP_ERR_NOT_SUPPORTED) then print (Err_nak a (cmd_name cmd_code)) w else w.

Definition app_handler (cmd_code : Z) (payload : ptr) (payload_len : nat) (reply : osdp_pd_reply) (w : mock Q)
  : option (osdp_status * osdp_pd_reply * mock Q) :=
  let w := log_recv cmd_code payload payload_len w in
  '(r, reply, scratch) ← answer (mw_app w) cmd_code payload payload_len reply;
  let w := with_app (λ s, s <| ap_scratch := scratch |>) w in
  Ret (r, reply, log_reply_line r cmd_code reply w).

(** A reply as the memory of the callback holds it: bytes. *)
Definition as_bytes (r : osdp_pd_reply) : osdp_pd_reply :=
  mk_reply (u8 (rp_code r)) (match rp_payload r with NULL => NULL | Ptr m => Ptr (u8 <$> m) end) (rp_payload_len r).

(** The handler as the PD's callback type has it, an undefined call refusing. *)
Definition handler_cb : osdp_pd_command_cb (mock Q) := λ code payload n reply w,
  let '(s, r, w) := default (OSDP_ERR_NOT_SUPPORTED, reply, w) (app_handler code payload n reply w) in
  (s, as_bytes r, w).

(** *** COMSET and FILETRANSFER

    [app.baud] is a uint32_t. *)

Definition mock_comset_decide (req_addr req_baud eff_addr eff_baud : Z) (w : mock Q) : Z * Z * mock Q :=
  if serial_baud_supported req_baud then (req_addr, req_baud, w)
  else (req_addr, u32 (ap_baud (mw_app w)), print (Err_baud_unsupported req_baud (ap_baud (mw_app w))) w).

Definition mock_comset_applied (address baud : Z) (w : mock Q) : mock Q :=
  let w := with_app (λ s, s <| ap_address := address |>) w in
  let w :=
    if decide (baud ≠ ap_baud (mw_app w)) then
      let '(err, w) := os_call (serial_set_baud baud) w in
      match err with
      | None => with_app (λ s, s <| ap_baud := baud |>) w
      | Some err => print (Err_set_baud_failed baud err) w
      end
    else w in
  print (Err_comset_applied address (ap_baud (mw_app w))) w.

Definition mock_file_eval (info : osdp_pd_file_info) (w : mock Q) : osdp_status * mock Q :=
  let w := with_app (λ s, s <| ap_file_received := fi_received info |>) w in
  let w := if decide (0 < ap_verbose (mw_app w))%Z
           then print (Err_file (fi_ft_type info) (fi_received info) (fi_total_size info) (fi_offset info) (fi_complete info)) w
           else w in
  let w := if fi_complete info then print (Err_file_complete (fi_total_size info) (fi_ft_type info)) w else w in
  (OSDP_OK, w).

End pd_mock.

(** ** The command line *)

Definition parse_hex_keyn (s : list Z) (out : list Z) (n : nat) : option (bool * list Z) :=
  if decide (length s ≠ n * 2) then Ret (false, out) else hex_key_loop s out 0 n.

Record cli : Type := mk_cli {
  cl_port : option (list Z);
  cl_baud : Z;
  cl_address : Z;
  cl_sc_mode : sc_mode;
  cl_sc_custom_key : list Z;
  cl_verbose : Z;
  cl_tamper : bool;
  cl_card_every_ms : Z }.

#[export] Instance cli_settable : Settable cli := λ r,
  mk_cli (cl_port r) (cl_baud r) (cl_address r) (cl_sc_mode r) (cl_sc_custom_key r) (cl_verbose r)
    (cl_tamper r) (cl_card_every_ms r).

(** [exit(0)] after the help, [false], or [true] with [*out]. *)
Inductive args_result : Type :=
  | Args_help
  | Args_refused
  | Args_ok (o : cli).

(** The value of --sc=. *)
Definition parse_sc (mode : list Z) (o : cli) : option args_result :=
  if streq mode (lit "off") then Ret (Args_ok (o <| cl_sc_mode := SC_NONE |>))
  else if streq mode (lit "scbkd") then Ret (Args_ok (o <| cl_sc_mode := SC_SCBKD |>))
  else if has_prefix (lit "scbk:") mode then
    '(ok, key) ← parse_hex_keyn (drop 5 mode) (cl_sc_custom_key o) OSDP_SC_KEY_LEN;
    Ret (if (ok : bool) then Args_ok (o <| cl_sc_custom_key := key |> <| cl_sc_mode := SC_SCBK_CUSTOM |>) else Args_refused)
  else Ret Args_refused.

(** An option with a value: [None] when [a] is none. *)
Definition value_option (a v : list Z) (o : cli) : option args_result :=
  if streq a (lit "--card-every") then Some (Args_ok (o <| cl_card_every_ms := strtoul_uint v |>))
  else if streq a (lit "--port") then Some (Args_ok (o <| cl_port := Some v |>))
  else if streq a (lit "--baud") then Some (Args_ok (o <| cl_baud := strtoul_uint v |>))
  else if streq a (lit "--address") then
    let n := strtoul_any v in
    Some (if decide (0x7E < n)%Z then Args_refused else Args_ok (o <| cl_address := u8 n |>))
  else None.

(** An option without one. *)
Definition plain_option (a : list Z) (o : cli) : option args_result :=
  if streq a (lit "-h") || streq a (lit "--help") then Ret Args_help
  else if streq a (lit "-v") then Ret (Args_ok (o <| cl_verbose := 1%Z |>))
  else if streq a (lit "-vv") then Ret (Args_ok (o <| cl_verbose := 2%Z |>))
  else if streq a (lit "--tamper") then Ret (Args_ok (o <| cl_tamper := true |>))
  else if has_prefix (lit "--sc=") a then parse_sc (drop 5 a) o
  else Ret Args_refused.

(** The loop over [argv[1..]]. *)
Fixpoint parse_loop (args : list (list Z)) (o : cli) : option args_result :=
  match args with
  | [] => Ret (Args_ok o)
  | a :: rest =>
      match rest with
      | v :: rest' =>
          match value_option a v o with
          | Some (Args_ok o) => parse_loop rest' o
          | Some r => Ret r
          | None => r ← plain_option a o; match r with Args_ok o => parse_loop rest o | r => Ret r end
          end
      | [] => plain_option a o
      end
  end.

(** [port] is the environment variable. *)
Definition parse_args (argv : list (list Z)) (port : option (list Z)) : option args_result :=
  r ← parse_loop (tail argv) (mk_cli port DEFAULT_BAUD DEFAULT_ADDRESS SC_NONE (replicate OSDP_SC_KEY_LEN 0%Z) 0 false 0);
  match r with
  | Args_ok o =>
      match cl_port o with
      | None | Some [] => Ret Args_refused
      | Some _ => Ret (Args_ok o)
      end
  | r => Ret r
  end.

(** ** main *)

(** The first eight bytes of the PDID; zeros if it cannot be built. *)
Definition cuid_from_pdid (pdid : osdp_pdid) (pdid_bytes : list Z) : option (list Z) :=
  '(r, buf, built) ← osdp_pdid_build (Some pdid) (Ptr pdid_bytes) OSDP_PDID_PAYLOAD_BYTES (Some 0);
  built ← built;
  if decide (r ≠ OSDP_OK ∨ built < OSDP_SC_CUID_LEN) then Ret (replicate OSDP_SC_CUID_LEN 0%Z)
  else rd_slice buf 0 OSDP_SC_CUID_LEN.

Section main.
Context {Q : Type} {SE : Serial Q} {CL : Clib Q}.

(** [app] as [main] fills it. *)
Definition initial_app (c : cli) : app_state :=
  mk_app_state kDefaultPdid (kDefaultPdcap ++ replicate (16 - length kDefaultPdcap) (mk_pdcap 0 0 0))
    (length kDefaultPdcap) (cl_address c) (cl_baud c) (cl_verbose c) (replicate OSDP_PD_BUF_LEN 0%Z) 0 (cl_tamper c) 0.

(** The transport [serial_open] fills in, its read wrapped by the tap. *)
Definition mock_transport : osdp_pd_transport (mock Q) :=
  mk_transport (Some read_tap) (Some (λ bs, os_call (serial_write bs))) (Some (os_call serial_now_ms)).

Definition mock_provider : osdp_pd_status_provider (mock Q) :=
  mk_provider (Some status_local) (Some status_inputs) (Some status_outputs) (Some status_readers).

(** [pd_mock_aes_crypto()] on the tool's world; [ctx] is the uninitialised local of the port. *)
Definition mock_crypto (ctx : AES_ctx) : option (osdp_sc_crypto (mock Q)) :=
  v ← pd_mock_aes_crypto (P := Q) ctx None;
  Ret (mk_crypto (aes128_ecb_encrypt v) (aes128_ecb_decrypt v)
    ((λ rand n w, let '(s, bs, a) := rand n (mk_adapter (mw_seeded w) (mw_os w)) in
                  (s, bs, w <| mw_seeded := g_seeded a |> <| mw_os := g_proc a |>)) <$> rand_bytes v)).

(** The Secure Channel set-up. *)
Definition setup_sc (c : cli) (ctx : AES_ctx) (junk : list Z) (pd : option (osdp_pd (mock Q))) : option (osdp_pd (mock Q)) :=
  if decide (cl_sc_mode c = SC_NONE) then pd else
  cuid ← cuid_from_pdid kDefaultPdid junk;
  cr ← mock_crypto ctx;
  let pd := osdp_pd_set_sc_crypto pd (Some cr) in
  let pd := osdp_pd_set_sc_cuid pd (Ptr cuid) in
  if decide (cl_sc_mode c = SC_SCBKD) then osdp_pd_set_sc_scbk_d pd (Ptr OSDP_SCBK_DEFAULT)
  else osdp_pd_set_sc_scbk pd (Ptr (cl_sc_custom_key c)).

(** From [osdp_pd_init] to the handlers. *)
Definition setup_handlers (c : cli) (pd : osdp_pd (mock Q)) : option (osdp_pd (mock Q)) :=
  let pd := osdp_pd_init (Some pd) (cl_address c) in
  let pd := osdp_pd_set_transport pd (Some mock_transport) in
  let pd := osdp_pd_set_command_handler pd (Some handler_cb) in
  let pd := osdp_pd_set_comset_handler pd (Some mock_comset_decide) (Some mock_comset_applied) in
  let pd := osdp_pd_set_file_stream pd (Some mock_file_eval) in
  let pd := osdp_pd_set_status_provider pd (Some mock_provider) in
  let pd := osdp_pd_set_event_queue pd (Ptr (replicate 512 0%Z)) 512 in
  let pd := osdp_pd_set_abort_handler pd (Some on_abort) in
  let pd := osdp_pd_set_acurxsize_handler pd (Some on_acurxsize) in
  osdp_pd_set_keepactive_handler pd (Some on_keepactive).

(** The PD up to the main loop, once the port is open. *)
Definition setup (c : cli) (ctx : AES_ctx) (junk : list Z) (pd : osdp_pd (mock Q)) (w : mock Q)
  : option (osdp_pd (mock Q) * mock Q) :=
  let app := initial_app c in
  let w := with_app (λ _, app) w in
  pd ← setup_sc c ctx junk (setup_handlers c pd);
  '(s, pd, bad) ← osdp_pd_set_pdcap (Some pd) (Some (ap_pdcap app)) (ap_pdcap_count app) (Some 0);
  pd ← pd;
  bad ← bad;
  w ← (if decide (s ≠ OSDP_OK) then
         r ← ap_pdcap app !! bad;
         Ret (print (Err_pdcap bad (pc_function_code r) s) w)
       else Ret w);
  Ret (pd, print (Err_listening (default [] (cl_port c)) (cl_baud c) (cl_address c)) w).

(** The locals of the main loop. *)
Record loop_vars : Type := mk_loop { lv_sc_was_up : bool; lv_last_card_ms : Z; lv_card_serial : Z }.

(** The announcement of a Secure Channel transition. *)
Definition watch_sc (c : cli) (pd : osdp_pd (mock Q)) (v : loop_vars) (w : mock Q) : loop_vars * mock Q :=
  if decide (cl_sc_mode c = SC_NONE) then (v, w) else
  let sc_now := osdp_pd_sc_established (Some pd) in
  if decide (sc_now ≠ lv_sc_was_up v)
  then (mk_loop sc_now (lv_last_card_ms v) (lv_card_serial v), print (Err_sc sc_now) w) else (v, w).

(** [body[32]] as it is before the builder writes it is [junk]. *)
Definition queue_card (junk : list Z) (serial : Z) (pd : osdp_pd (mock Q)) (w : mock Q)
  : option (osdp_pd (mock Q) * mock Q) :=
  let bits := [u8 (Z.shiftr serial 16); u8 (Z.shiftr serial 8); u8 serial; 0%Z] in
  '(r, body, len) ← osdp_raw_build (Some (mk_raw 0 0 26 (Ptr bits) 4)) (Ptr junk) 32 (Some 0);
  if decide (r ≠ OSDP_OK) then Ret (pd, w) else
  len ← len;
  '(q, pd) ← osdp_pd_enqueue_event (Some pd) OSDP_REPLY_RAW body len;
  pd ← pd;
  Ret (pd, print (Err_card serial (bool_decide (q = OSDP_OK))) w).

Definition card_reads (c : cli) (junk : list Z) (pd : osdp_pd (mock Q)) (v : loop_vars) (w : mock Q)
  : option (osdp_pd (mock Q) * loop_vars * mock Q) :=
  if decide (cl_card_every_ms c = 0%Z) then Ret (pd, v, w) else
  let '(now, w) := os_call serial_now_ms w in
  let last := if decide (lv_last_card_ms v = 0%Z) then now else lv_last_card_ms v in
  if decide (cl_card_every_ms c ≤ u32 (now - last))%Z then
    let serial := u32 (lv_card_serial v + 1) in
    '(pd, w) ← queue_card junk serial pd w;
    Ret (pd, mk_loop (lv_sc_was_up v) now serial, w)
  else Ret (pd, mk_loop (lv_sc_was_up v) last (lv_card_serial v), w).

(** One turn of the main loop. *)
Definition main_turn (c : cli) (junk : list Z) (pd : osdp_pd (mock Q)) (v : loop_vars) (w : mock Q)
  : option (osdp_pd (mock Q) * loop_vars * mock Q) :=
  '(_, pd, w) ← osdp_pd_tick pd w;
  let '(v, w) := watch_sc c pd v w in
  '(pd, v, w) ← card_reads c junk pd v w;
  Ret (pd, v, w <| mw_os := serial_sleep_ms 2 (mw_os w) |>).

(** The turns until the signal. *)
Fixpoint main_turns (c : cli) (junk : nat → list Z) (n : nat) (pd : osdp_pd (mock Q)) (v : loop_vars) (w : mock Q)
  : option (osdp_pd (mock Q) * loop_vars * mock Q) :=
  match n with
  | O => Ret (pd, v, w)
  | S n => '(pd, v, w) ← main_turn c (junk n) pd v w; main_turns c junk n pd v w
  end.

(** [main]: the exit code and the world at the end; [turns] is when the signal comes,
    [pd0], [ctx] and [junk] the uninitialised memory. *)
Definition main (argv : list (list Z)) (env : option (list Z)) (turns : nat) (pd0 : osdp_pd (mock Q)) (ctx : AES_ctx)
    (pdid_junk : list Z) (junk : nat → list Z) (w : mock Q) : option (Z * mock Q) :=
  r ← parse_args argv env;
  match r with
  | Args_help => Ret (0%Z, w)
  | Args_refused => Ret (2%Z, w)
  | Args_ok c =>
      let '(err, w) := os_call (serial_open (cl_port c) (cl_baud c)) w in
      match err with
      | Some err => Ret (1%Z, print (Err_open_failed err) w)
      | None =>
          '(pd, w) ← setup c ctx pdid_junk pd0 w;
          '(_, _, w) ← main_turns c junk turns pd (mk_loop false 0 0) w;
          Ret (0%Z, print Err_shutdown w <| mw_os := serial_close (mw_os w) |>)
      end
  end.

End main.

(** ** The callbacks answer in range *)

Section callbacks.
Context {Q : Type} {SE : Serial Q} {CL : Clib Q} {SL : SerialLaws Q}.

Lemma transport_ok : pd_op_ok (OpTransport (Some (mock_transport (Q := Q)))).
Proof.
  intros read [= <-] n w. unfold read_tap, os_call. pose proof (sr_read n (mw_os w)) as H. cbv zeta in H.
  destruct (serial_read n (mw_os w)) as [[k bs] q]. destruct H as (H1 & H2 & H3). by case_decide.
Qed.

(** Where a reply points. *)
Definition reply_space (r : osdp_pd_reply) : Prop :=
  match rp_payload r with NULL => rp_payload_len r = 0 | Ptr m => rp_payload_len r ≤ length m end.

Lemma as_bytes_ok r : reply_space r → reply_ok (as_bytes r).
Proof.
  destruct r as [code [|m] n]; unfold reply_space; cbn; intros H; constructor; cbn.
  - apply u8_byte.
  - done.
  - lia.
  - apply u8_byte.
  - rewrite length_fmap. split; [done|]. apply Forall_fmap, Forall_true. intros. apply u8_byte.
  - done.
Qed.

Lemma reply_ok_space r : reply_ok r → reply_space r.
Proof.
  intros [_ H Hn]. unfold reply_space. destruct (rp_payload r) as [|m]; [|by destruct H].
  destruct (rp_payload_len r); [done|]. by specialize (Hn ltac:(lia)).
Qed.

Lemma wr_inv p off bs p' : wr p off bs = Some p' → ∃ m m', p = Ptr m ∧ p' = Ptr m' ∧ mwr m off bs = Some m' ∧
  length m' = length m ∧ off + length bs ≤ length m.
Proof.
  destruct p as [|m]; [done|]. cbn. destruct (mwr m off bs) as [m'|] eqn:E; [|done]. intros [= <-].
  exists m, m'. split_and!; [done|done|done|by eapply mwr_length|]. unfold mwr in E. by case_decide.
Qed.

(** Takes apart a sequence of writes that succeeded. *)
Local Ltac writes :=
  repeat match goal with
  | H : mbind _ ?o = Some _ |- _ => let E := fresh "E" in destruct o eqn:E; [cbn [mbind option_bind] in H|done]
  | H : wr _ _ _ = Some _ |- _ => apply wr_inv in H as (? & ? & ? & ? & _ & ? & ?); simplify_eq
  end.

Lemma pdid_space pdid scratch s buf built : osdp_pdid_build (Some pdid) (Ptr scratch) OSDP_PD_BUF_LEN (Some 0) =
  Some (s, buf, Some built) → s = OSDP_OK → ∃ m, buf = Ptr m ∧ built ≤ length m.
Proof.
  unfold osdp_pdid_build, osdp_pack_write_u32le. cbn [is_null]. case_decide; [by intros [= <- _ _]|].
  intros H' _. writes. simplify_eq. eexists. split; [done|]. cbn [length] in *. unfold OSDP_PDID_PAYLOAD_BYTES. lia.
Qed.

Lemma mfgrep_space rep scratch s buf built : length (mp_vendor_code rep) = 3 →
  osdp_mfgrep_build (Some rep) (Ptr scratch) OSDP_PD_BUF_LEN (Some 0) = Some (s, buf, Some built) →
  s = OSDP_OK → ∃ m, buf = Ptr m ∧ built ≤ length m.
Proof.
  intros Hv. unfold osdp_mfgrep_build. cbn [is_null]. case_decide; [by intros [= <- _ _]|]. cbv zeta.
  case_decide; [by intros [= <- _ _]|]. intros H' _. unfold copy_tail in H'. writes.
  case_decide.
  - writes. simplify_eq. eexists. split; [done|].
    match goal with H : rd_slice (mp_data rep) _ _ = Some _ |- _ =>
      destruct (mp_data rep); [done|]; apply mslice_inv in H as (_ & ? & _) end. lia.
  - simplify_eq. eexists. split; [done|]. unfold OSDP_MFGREP_HEADER_BYTES, OSDP_MFGREP_VENDOR_CODE_BYTES in *. lia.
Qed.

Lemma answer_space a code p n r s r' scratch : reply_space r → answer a code p n r = Some (s, r', scratch) → reply_space r'.
Proof.
  intros Hr. unfold answer. cbv zeta. case_decide; [by intros [= _ <- _]|]. case_decide.
  { destruct (osdp_pdid_build _ _ _ _) as [[[s1 buf] built]|] eqn:E; [|done]. rewrite bind_Some.
    case_decide as Hs; [by intros [= _ <- _]|]. destruct built as [built|]; [|done]. rewrite bind_Some.
    intros [= _ <- _]. destruct (pdid_space _ _ _ _ _ E Hs) as (m & -> & Hm). exact Hm. }
  case_decide; [by intros [= _ <- _]|]. case_decide; [|by intros [= _ <- _]].
  destruct (osdp_mfg_decode _ _ _) as [[s1 req]|]; [|done]. rewrite bind_Some.
  case_decide; [by intros [= _ <- _]|]. destruct req as [req|]; [|done]. rewrite bind_Some.
  case_decide; [by intros [= _ <- _]|].
  destruct (osdp_mfgrep_build _ _ _ _) as [[[s2 buf] built]|] eqn:E; [|done]. rewrite bind_Some.
  case_decide as Hs; [by intros [= _ <- _]|]. destruct built as [built|]; [|done]. rewrite bind_Some.
  intros [= _ <- _]. edestruct mfgrep_space as (m & -> & Hm); [|exact E|exact Hs|exact Hm]. done.
Qed.

Lemma handler_ok : pd_op_ok (OpCommandHandler (Some (handler_cb (Q := Q)))).
Proof.
  intros code p n r w Hr%reply_ok_space. unfold handler_cb, app_handler.
  destruct (answer _ _ _ _ _) as [[[s r'] scratch]|] eqn:E; [|by apply as_bytes_ok].
  rewrite bind_Some. by eapply as_bytes_ok, answer_space.
Qed.

Lemma comset_ok : pd_op_ok (OpComsetHandler (Some (mock_comset_decide (Q := Q))) (Some mock_comset_applied)).
Proof.
  intros a b w Ha Hb. unfold mock_comset_decide. destruct (serial_baud_supported b); cbn; split; try done. unfold is_u32, u32. apply Z.mod_pos_bound. lia.
Qed.

Lemma fill_ok a fc v : is_byte v → let bs := (status_fill a fc v (replicate OSDP_PD_REPLY_SCRATCH_LEN 0%Z) OSDP_PD_REPLY_SCRATCH_LEN).2 in
  length bs = OSDP_PD_REPLY_SCRATCH_LEN ∧ bytes_ok bs.
Proof.
  intros Hv. unfold status_fill. generalize (Z.to_nat (cap_num_objects a fc 1)). intros k. cbv zeta.
  assert ((if decide (OSDP_PD_REPLY_SCRATCH_LEN < k) then OSDP_PD_REPLY_SCRATCH_LEN else k) ≤ OSDP_PD_REPLY_SCRATCH_LEN) as Hk
    by (case_decide; lia). revert Hk. generalize (if decide (OSDP_PD_REPLY_SCRATCH_LEN < k) then OSDP_PD_REPLY_SCRATCH_LEN else k).
  intros j Hj. cbn [snd]. rewrite length_app, length_drop, !length_replicate. split; [lia|].
  apply Forall_app; split; [by apply Forall_replicate|]. apply Forall_drop, Forall_replicate. by vm_decide.
Qed.

Lemma provider_ok : pd_op_ok (OpStatusProvider (Some (mock_provider (Q := Q)))).
Proof.
  split.
  - intros f a b w [= <-] _ _. unfold status_local. cbn. split; [|by vm_decide]. destruct (ap_tamper (mw_app w)); by vm_decide.
  - intros f Hf w. destruct Hf as [[= <-]|[[= <-]|[= <-]]]; apply fill_ok; by vm_decide.
Qed.
End callbacks.

(** ** The set-up *)

(** What [parse_args] leaves: a whole key. *)
Definition cli_ok (c : cli) : Prop := length (cl_sc_custom_key c) = OSDP_SC_KEY_LEN ∧ bytes_ok (cl_sc_custom_key c).

Section setup.
Context {Q : Type} {SE : Serial Q} {CL : Clib Q} {SL : SerialLaws Q}.
Implicit Types (c : cli) (w : mock Q).

Definition handler_ops : list (pd_op (mock Q)) :=
  [OpTransport (Some mock_transport); OpCommandHandler (Some handler_cb);
   OpComsetHandler (Some mock_comset_decide) (Some mock_comset_applied); OpFileStream (Some mock_file_eval);
   OpStatusProvider (Some mock_provider); OpEventQueue (Ptr (replicate 512 0%Z)) 512; OpAbortHandler (Some on_abort);
   OpAcurxsizeHandler (Some on_acurxsize); OpKeepactiveHandler (Some on_keepactive)].

Lemma handler_ops_ok : Forall pd_op_ok handler_ops.
Proof.
  repeat (apply Forall_cons_2); [apply transport_ok|apply handler_ok|apply comset_ok|done|apply provider_ok|by vm_decide|done..|constructor].
Qed.

(** Setters run as operations. *)
Lemma setters_ok (os : list (pd_op (mock Q))) pd w pd' : Forall pd_op_ok os → pd_ok pd →
  pd_runs os pd w = (λ p, (p, w)) <$> pd' → ∃ p, pd' = Some p ∧ pd_ok p.
Proof.
  intros Hos Hpd E. destruct (pd_runs_ok os pd w Hos Hpd) as (p & w' & E' & Hp). rewrite E' in E.
  destruct pd' as [q|]; [|done]. injection E as -> _. by exists q.
Qed.

Lemma setup_handlers_ok c pd0 w : ∃ pd, setup_handlers c pd0 = Some pd ∧ pd_ok (W := mock Q) pd.
Proof.
  destruct (init_pd_ok pd0 (cl_address c)) as (p & E & Hp). unfold setup_handlers. rewrite E.
  apply (setters_ok handler_ops p w); [apply handler_ops_ok|done|]. reflexivity.
Qed.

Lemma mock_crypto_ok ctx : local_ctx ctx → ∃ cr, mock_crypto (Q := Q) ctx = Some cr ∧ PdInv.cipher_ok cr.
Proof.
  intros Hl. eexists. split; [reflexivity|]. split.
  - exists Fips.cipher, inverse. by apply (port_aes ctx).
  - intros rand w [= <-]. pose proof (adapter_rand_ok OSDP_SC_RND_LEN (mk_adapter (mw_seeded w) (mw_os w))) as H.
    destruct (adapter_rand _ _) as [[s bs] a]. destruct H as (_ & L & Y & _). cbn. split; [lia|done].
Qed.

Lemma cuid_ok junk : length junk = OSDP_PDID_PAYLOAD_BYTES →
  cuid_from_pdid kDefaultPdid junk = Some [90; 66; 67; 1; 0; 1; 0; 0]%Z.
Proof.
  intros Hl. unfold cuid_from_pdid. change (osdp_pdid_build ?a) with (cd_build (T := osdp_pdid) a).
  rewrite (cl_build (T := osdp_pdid)) by first [by vm_decide|done|lia].
  rewrite decide_True by (cbn; unfold OSDP_PDID_PAYLOAD_BYTES; lia). rewrite !bind_Some.
  rewrite decide_False by (intros [?|?]; [done|]; cbn in *; unfold OSDP_SC_CUID_LEN in *; lia). reflexivity.
Qed.

Lemma setup_sc_ok c ctx junk pd w : cli_ok c → local_ctx ctx → length junk = OSDP_PDID_PAYLOAD_BYTES → pd_ok pd →
  ∃ pd', setup_sc c ctx junk (Some pd) = Some pd' ∧ pd_ok (W := mock Q) pd'.
Proof.
  intros [Hk Hb] Hl Hj Hpd. unfold setup_sc. case_decide; [by eexists|].
  rewrite (cuid_ok junk Hj), bind_Some. destruct (mock_crypto_ok ctx Hl) as (cr & -> & Hcr). rewrite bind_Some.
  case_decide.
  - apply (setters_ok [OpScCrypto (Some cr); OpCuid (Ptr [90; 66; 67; 1; 0; 1; 0; 0]%Z); OpScbkD (Ptr OSDP_SCBK_DEFAULT)] pd w);
      [|done|reflexivity]. repeat apply Forall_cons_2; [done|by vm_decide|by vm_decide|constructor].
  - apply (setters_ok [OpScCrypto (Some cr); OpCuid (Ptr [90; 66; 67; 1; 0; 1; 0; 0]%Z); OpScbk (Ptr (cl_sc_custom_key c))] pd w);
      [|done|]. { repeat apply Forall_cons_2; [done|by vm_decide| |constructor]. cbn. split; [lia|done]. }
    cbn [pd_runs pd_run]. unfold osdp_pd_set_sc_scbk. cbn -[rd_slice]. by destruct (rd_slice _ _ _).
Qed.

(** The tool's own capability records are always accepted. *)
Lemma default_pdcap_bound c (pd : osdp_pd (mock Q)) : pdcap_inv pd →
  ∃ pd', osdp_pd_set_pdcap (Some pd) (Some (ap_pdcap (initial_app c))) (ap_pdcap_count (initial_app c)) (Some 0) =
    Some (OSDP_OK, Some pd', Some 0) ∧ bound_pdcap pd' = kDefaultPdcap.
Proof.
  intros Hi. unfold initial_app. cbn [ap_pdcap ap_pdcap_count].
  destruct (set_pdcap_ok pd (kDefaultPdcap ++ replicate (16 - length kDefaultPdcap) (mk_pdcap 0 0 0)) (length kDefaultPdcap) (Some 0) Hi)
    as (s & pd' & bad & E & _ & _ & Hok); [by apply Nat.leb_le|].
  unfold osdp_pd_set_pdcap in E |- *. cbv zeta in *.
  rewrite decide_False in E |- * by (intros [_ ?]; done).
  rewrite decide_False in E |- * by (apply Nat.nlt_ge; by apply Nat.leb_le).
  assert (∀ v, v = bindable ∨ v = check_record pd (osdp_pd_internal_sc_configured (Some pd)) →
    first_bad v (kDefaultPdcap ++ replicate (16 - length kDefaultPdcap) (mk_pdcap 0 0 0)) 0 (length kDefaultPdcap) (Some 0) = Some (OSDP_OK, Some 0)) as Hgood by (intros v [->| ->]; reflexivity).
  cbn [store_index fmap option_fmap option_map default from_option id] in *.
  rewrite (Hgood bindable) in E |- * by auto. rewrite bind_Some in E |- *. rewrite decide_False in E |- * by auto.
  rewrite check_pdcap_run in E |- *. cbn [store_index fmap option_fmap option_map] in *.
  rewrite (Hgood (check_record pd _)) in E |- * by auto. rewrite bind_Some in E |- *. rewrite decide_False in E |- * by auto.
  destruct (if decide (0 < _) then _ else _) as [rs|]; [|done]. rewrite bind_Some in E |- *.
  injection E as <- <- <-. eexists. split; [done|]. etrans; [apply (Hok eq_refl)|reflexivity].
Qed.

Lemma setup_ok c ctx junk pd0 w : cli_ok c → local_ctx ctx → length junk = OSDP_PDID_PAYLOAD_BYTES →
  ∃ pd w', setup c ctx junk pd0 w = Some (pd, w') ∧ pd_ok (W := mock Q) pd ∧ bound_pdcap pd = kDefaultPdcap.
Proof.
  intros Hc Hl Hj. unfold setup. cbv zeta. destruct (setup_handlers_ok c pd0 w) as (p1 & E1 & H1).
  assert (∃ p2, setup_sc c ctx junk (setup_handlers c pd0) = Some p2 ∧ pd_ok p2) as (p2 & -> & H2)
    by (rewrite E1; by apply setup_sc_ok).
  rewrite bind_Some. pose proof (caps_inv (TC := fixed_of p2) p2 H2) as Hi.
  destruct (default_pdcap_bound c p2 Hi) as (p3 & E3 & Hb).
  destruct (set_pdcap_pd_ok p2 (ap_pdcap (initial_app c)) (ap_pdcap_count (initial_app c)) (Some 0)) as (s & p4 & bad & E4 & H4).
  { by apply Nat.leb_le. }
  { repeat apply Forall_cons_2; by vm_decide. }
  { done. }
  rewrite E3 in E4. injection E4 as _ <- _. rewrite E3, !bind_Some, decide_False by auto. rewrite bind_Some.
  eexists _, _. split; [done|]. by split.
Qed.

Lemma queue_card_ok junk serial pd w : length junk = 32 → bytes_ok junk → pd_ok pd →
  ∃ pd' w', queue_card (Q := Q) junk serial pd w = Some (pd', w') ∧ pd_ok pd'.
Proof.
  intros Hj Hjb Hp. unfold queue_card. cbv zeta. set (bits := [u8 (Z.shiftr serial 16); u8 (Z.shiftr serial 8); u8 serial; 0%Z]).
  assert (bytes_ok bits) as Hb by (repeat apply Forall_cons_2; try apply u8_byte; [by vm_decide|constructor]).
  change (osdp_raw_build ?a) with (cd_build (T := osdp_raw) a).
  assert (cd_typed (mk_raw 0 0 26 (Ptr bits) 4)) as Ht by (split_and!; first [by vm_decide|by split|done]).
  rewrite (cl_build (T := osdp_raw)) by (first [done|split; [reflexivity|done]|lia]).
  assert (cd_wire (mk_raw 0 0 26 (Ptr bits) 4) = [0; 0; 26; 0]%Z ++ bits) as -> by reflexivity.
  rewrite decide_True by (cbn; lia). rewrite bind_Some, decide_False, bind_Some by auto.
  destruct (enqueue_ok pd w OSDP_REPLY_RAW (Ptr (([0; 0; 26; 0]%Z ++ bits) ++ drop (length ([0; 0; 26; 0]%Z ++ bits)) junk)) 8)
    as (p1 & w1 & E & H1); [by vm_decide| |done|].
  { split; [cbn; lia|]. apply Forall_app; split; [|by apply Forall_drop]. apply Forall_app; split; [by vm_decide|done]. }
  cbn [pd_run] in E. change (length ([0; 0; 26; 0]%Z ++ bits)) with 8 in *.
  destruct (osdp_pd_enqueue_event _ _ _ _) as [[q [p2|]]|]; try done. rewrite !bind_Some in *.
  injection E as -> _. by eexists _, _.
Qed.

Lemma main_turn_ok c junk pd v w : length junk = 32 → bytes_ok junk → pd_ok pd →
  ∃ pd' v' w', main_turn (Q := Q) c junk pd v w = Some (pd', v', w') ∧ pd_ok pd'.
Proof.
  intros Hj Hjb Hp. unfold main_turn. destruct (tick_safe pd w Hp) as ([] & p1 & w1 & -> & H1). rewrite bind_Some.
  destruct (watch_sc c p1 v w1) as [v2 w2]. unfold card_reads.
  case_decide; [rewrite bind_Some; by eexists _, _, _|]. destruct (os_call serial_now_ms w2) as [now w3]. cbv zeta.
  case_decide; [|rewrite bind_Some; by eexists _, _, _].
  destruct (queue_card_ok junk (u32 (lv_card_serial v2 + 1)) p1 w3 Hj Hjb H1) as (p2 & w4 & -> & H2).
  rewrite !bind_Some. by eexists _, _, _.
Qed.

Lemma main_turns_ok c junk n pd v w : (∀ i, length (junk i) = 32 ∧ bytes_ok (junk i)) → pd_ok pd →
  ∃ pd' v' w', main_turns (Q := Q) c junk n pd v w = Some (pd', v', w') ∧ pd_ok pd'.
Proof.
  intros Hj. revert pd v w. induction n as [|n IH]; intros pd v w Hp; cbn [main_turns]; [by eexists _, _, _|].
  destruct (main_turn_ok c (junk n) pd v w (proj1 (Hj n)) (proj2 (Hj n)) Hp) as (p1 & v1 & w1 & -> & H1).
  rewrite bind_Some. by apply IH.
Qed.
End setup.

(** ** The command line *)

Definition result_ok (r : args_result) : Prop := match r with Args_ok o => cli_ok o | _ => True end.

Lemma plain_option_ok a o : cli_ok o → ∃ r, plain_option a o = Some r ∧ result_ok r.
Proof.
  intros Ho. unfold plain_option. repeat (case_match; [by eexists|]). case_match; [|by eexists].
  unfold parse_sc. repeat (case_match; [by eexists|]). case_match; [|by eexists].
  unfold parse_hex_keyn. destruct Ho as [Hl Hb]. case_decide; [rewrite bind_Some; by eexists|].
  destruct (hex_key_loop_ok (drop 5 (drop 5 a)) (cl_sc_custom_key o) 0 OSDP_SC_KEY_LEN ltac:(lia) Hb) as (ok & out & -> & L & Y).
  rewrite bind_Some. eexists. split; [done|]. destruct ok; [|done]. split; [by rewrite <-Hl|done].
Qed.

Lemma value_option_ok a v o r : cli_ok o → value_option a v o = Some r → result_ok r.
Proof. intros Ho. unfold value_option. repeat (case_match; [by intros [= <-]|]). case_match; [|done]. intros [= <-]. by case_decide. Qed.

Lemma parse_loop_cons a v rest o : parse_loop (a :: v :: rest) o =
  match value_option a v o with
  | Some (Args_ok o) => parse_loop rest o
  | Some r => Ret r
  | None => r ← plain_option a o; match r with Args_ok o => parse_loop (v :: rest) o | r => Ret r end
  end.
Proof. done. Qed.

Lemma parse_loop_ok n args o : length args ≤ n → cli_ok o → ∃ r, parse_loop args o = Some r ∧ result_ok r.
Proof.
  revert args o. induction n as [|n IH]; intros [|a [|v rest]] o Hn Ho; try (simpl in Hn; lia); try by eexists.
  { by apply plain_option_ok. }
  rewrite parse_loop_cons. destruct (value_option a v o) as [r|] eqn:E.
  - pose proof (value_option_ok _ _ _ _ Ho E) as Hr. destruct r as [| |o']; [by eexists..|].
    apply IH; [simpl in Hn; lia|done].
  - destruct (plain_option_ok a o Ho) as (r & -> & Hr). rewrite bind_Some. destruct r as [| |o']; [by eexists..|].
    apply IH; [simpl in *; lia|done].
Qed.

Lemma parse_args_ok argv env : ∃ r, parse_args argv env = Some r ∧ result_ok r.
Proof.
  unfold parse_args. destruct (parse_loop_ok (length (tail argv)) (tail argv)
    (mk_cli env DEFAULT_BAUD DEFAULT_ADDRESS SC_NONE (replicate OSDP_SC_KEY_LEN 0%Z) 0 false 0)) as (r & -> & Hr); [lia|by split; vm_decide|].
  rewrite bind_Some. destruct r as [| |o]; [by eexists..|]. destruct (cl_port o) as [[|]|]; by eexists.
Qed.

(** ** Properties *)

(** C38: The mock PD, from its command line on.  With any arguments, any bytes on the serial
    port and any number of turns of the main loop, the program is defined and ends with
    exit code 0, 1 or 2; once it listens, its PD is well-formed and its own capability
    records are bound. *)
Theorem pd_mock_total {Q} {SE : Serial Q} {CL : Clib Q} {SL : SerialLaws Q}
    argv env turns (pd0 : osdp_pd (mock Q)) ctx pdid_junk junk (w : mock Q) :
  local_ctx ctx → length pdid_junk = OSDP_PDID_PAYLOAD_BYTES → (∀ i, length (junk i) = 32 ∧ bytes_ok (junk i)) →
  (∃ code w', main argv env turns pd0 ctx pdid_junk junk w = Some (code, w') ∧ (0 ≤ code ≤ 2)%Z) ∧
  (∀ c, parse_args argv env = Some (Args_ok c) →
    ∃ pd w', setup c ctx pdid_junk pd0 w = Some (pd, w') ∧ pd_ok pd ∧ bound_pdcap pd = kDefaultPdcap).
Proof.
  intros Hl Hj Hjs. destruct (parse_args_ok argv env) as (r & E & Hr). split.
  - unfold main. rewrite E, bind_Some. destruct r as [| |c]; [by eexists _, _..|].
    destruct (os_call _ w) as [[err|] w1]; [by eexists _, _|].
    destruct (setup_ok c ctx pdid_junk pd0 w1 Hr Hl Hj) as (pd & w2 & -> & Hp & _). rewrite bind_Some.
    destruct (main_turns_ok c junk turns pd (mk_loop false 0 0) w2 Hjs Hp) as (pd' & v & w3 & -> & _). rewrite bind_Some.
    by eexists _, _.
  - intros c Ec. rewrite E in Ec. injection Ec as ->. by apply setup_ok.
Qed.

Lemma applied_exact {Q} {SE : Serial Q} address eff (w : mock Q) :
  ap_address (mw_app (mock_comset_applied address eff w)) = address ∧
  (eff = ap_baud (mw_app w) → mw_os (mock_comset_applied address eff w) = mw_os w ∧
     ap_baud (mw_app (mock_comset_applied address eff w)) = eff) ∧
  (eff ≠ ap_baud (mw_app w) → mw_os (mock_comset_applied address eff w) = (serial_set_baud eff (mw_os w)).2 ∧
     ap_baud (mw_app (mock_comset_applied address eff w)) =
       match (serial_set_baud eff (mw_os w)).1 with None => eff | Some _ => ap_baud (mw_app w) end).
Proof.
  unfold mock_comset_applied, os_call, with_app, print. destruct w as [app sd q err]. cbn.
  destruct (decide (eff = ap_baud app)) as [->|Hd].
  - rewrite decide_False by auto. cbn. by split_and!.
  - rewrite decide_True by done. destruct (serial_set_baud eff q) as [[] q']; cbn; by split_and!.
Qed.

(** COMSET of the mock is truthful (6.13).  The rate [mock_comset_decide] puts in the
    osdp_COM reply is one the port supports, or the rate in use; when the reply is out,
    [mock_comset_applied] records the new address, and switches the port exactly when the
    rate changes: the rate on record is then the one announced, unless the port refused. *)
Theorem mock_comset_truthful {Q} {SE : Serial Q} address baud (w : mock Q) :
  is_u32 (ap_baud (mw_app w)) →
  ∃ eff w1, mock_comset_decide address baud address baud w = (address, eff, w1) ∧ mw_app w1 = mw_app w ∧ mw_os w1 = mw_os w ∧
    (eff = baud ∧ serial_baud_supported baud = true ∨ eff = ap_baud (mw_app w) ∧ serial_baud_supported baud = false) ∧
    ap_address (mw_app (mock_comset_applied address eff w1)) = address ∧
    (eff = ap_baud (mw_app w) → mw_os (mock_comset_applied address eff w1) = mw_os w ∧
       ap_baud (mw_app (mock_comset_applied address eff w1)) = eff) ∧
    (eff ≠ ap_baud (mw_app w) → mw_os (mock_comset_applied address eff w1) = (serial_set_baud eff (mw_os w)).2 ∧
       ap_baud (mw_app (mock_comset_applied address eff w1)) =
         match (serial_set_baud eff (mw_os w)).1 with None => eff | Some _ => ap_baud (mw_app w) end).
Proof.
  intros Hu. unfold mock_comset_decide. rewrite (u32_id (ap_baud (mw_app w))) by apply Hu.
  destruct (serial_baud_supported baud); eexists _, _; (split; [done|]); (split; [done|]); (split; [done|]);
    (split; [tauto|]).
  - apply applied_exact.
  - apply (applied_exact address _ (print (Err_baud_unsupported baud _) w)).
Qed.

(** What [parse_hex_keyn] takes for hexadecimal: the conversion of [sscanf] admits a sign
    and blanks, so texts that are not 32 hex digits are keys as well. *)
Lemma hex_key_accepts_signs :
  parse_hex_keyn (lit "-1+2 3") (replicate 3 0%Z) 3 = Some (true, [255; 2; 3]%Z).
Proof. reflexivity. Qed.

(** ** Witnesses *)

(** The tool on the port of Serial.v. *)
#[local] Instance port_clib : Clib (port loopback) := {|
  c_rand := λ q, (4%Z, q);
  c_srand := λ _ q, q;
  c_time := λ _, 1700000000%Z |}.

Definition ex_world : mock (port loopback) :=
  mk_mock (initial_app (mk_cli None 9600 0 SC_NONE [] 0 false 0)) false ex_port [].

Definition ex_argv : list (list Z) := [lit "osdp-pd-mock"; lit "--port"; lit "/dev/ttyUSB0"; lit "--sc=scbkd"; lit "--card-every"; lit "1"].

Lemma pd_mock_total_witness :
  ∃ code w', main ex_argv None 3 pd_zero (mk_ctx (replicate 176 0%Z) (replicate 16 0%Z)) (replicate 12 0%Z)
    (λ _, replicate 32 0%Z) ex_world = Some (code, w') ∧ (0 ≤ code ≤ 2)%Z.
Proof.
  apply (pd_mock_total ex_argv None 3 pd_zero (mk_ctx (replicate 176 0%Z) (replicate 16 0%Z)) (replicate 12 0%Z)
    (λ _, replicate 32 0%Z) ex_world); [done|done|].
  intros i. split; [done|by vm_decide].
Defined.

Lemma mock_comset_truthful_witness :
  ∃ eff w1, mock_comset_decide 5 250000 5 250000 ex_world = (5%Z, eff, w1) ∧ eff = 9600%Z.
Proof.
  destruct (mock_comset_truthful 5 250000 ex_world) as (eff & w1 & E & _ & _ & [[_ H]|[H _]] & _); [by vm_decide|done|].
  by exists eff, w1.
Defined.

Example ex_bad_args : parse_args [lit "osdp-pd-mock"; lit "--port"] None = Some Args_refused.
Proof. done. Qed.
