(* ===== verification/AcuMock.v ===== *)
(** * The mock ACU: tools/osdp-acu-mock/main.c

    The tool as a host of the ACU: its callbacks, the command line, the scheduler of its
    commands, the set-up and the main loop.  [app_t] without the pointer to the context, the
    adapter's statics, the lines on stderr and the system behind serial.h are the world
    [acu_mock Q] of the ACU model.  [on_sc_event] calls the ACU from inside its tick.
    serial.h is the class [Serial] of Serial.v, of which this tool uses what its own
    serial_posix.c, a copy of the PD tool's without the rate change, provides.  What the
    command line prints before it refuses is not modelled. *)
From S2P Require Import Prelude Types State Frame Stream Commands Dispatch ScCrypto ScFrame Aes PdTypes PdSc Pd PdInv PdReach Ports.
From S2P Require Import AcuTypes AcuBanks AcuCmd AcuSc Acu AcuSlot AcuInv AcuSafe AcuReach AcuSpec Osdpcap ToolText Serial.
From Stdlib Require String.
Import String.StringSyntax.

(** ** Defaults *)

Definition DEFAULT_BAUD : Z := 9600.
Definition DEFAULT_PD_ADDRESS : Z := 0.
Definition DEFAULT_POLL_INTERVAL : Z := 500.
Definition MAIN_LOOP_TICK_MS : Z := 2.

Definition cmd_name (code : Z) : list Z :=
  if decide (code = OSDP_CMD_POLL) then lit "POLL" else
  if decide (code = OSDP_CMD_ID) then lit "ID" else
  if decide (code = OSDP_CMD_CAP) then lit "CAP" else
  if decide (code = OSDP_CMD_LED) then lit "LED" else
  if decide (code = OSDP_CMD_BUZ) then lit "BUZ" else
  if decide (code = OSDP_CMD_TEXT) then lit "TEXT" else
  if decide (code = OSDP_CMD_OUT) then lit "OUT" else
  if decide (code = OSDP_CMD_COMSET) then lit "COMSET" else
  if decide (code = OSDP_CMD_KEYSET) then lit "KEYSET" else
  if decide (code = OSDP_CMD_CHLNG) then lit "CHLNG" else
  if decide (code = OSDP_CMD_SCRYPT) then lit "SCRYPT" else lit "?".

Definition reply_name (code : Z) : list Z :=
  if decide (code = OSDP_REPLY_ACK) then lit "ACK" else
  if decide (code = OSDP_REPLY_NAK) then lit "NAK" else
  if decide (code = OSDP_REPLY_PDID) then lit "PDID" else
  if decide (code = OSDP_REPLY_PDCAP) then lit "PDCAP" else
  if decide (code = OSDP_REPLY_LSTATR) then lit "LSTATR" else
  if decide (code = OSDP_REPLY_ISTATR) then lit "ISTATR" else
  if decide (code = OSDP_REPLY_OSTATR) then lit "OSTATR" else
  if decide (code = OSDP_REPLY_RSTATR) then lit "RSTATR" else
  if decide (code = OSDP_REPLY_RAW) then lit "RAW" else
  if decide (code = OSDP_REPLY_KEYPAD) then lit "KEYPAD" else
  if decide (code = OSDP_REPLY_COM) then lit "COM" else
  if decide (code = OSDP_REPLY_BUSY) then lit "BUSY" else
  if decide (code = OSDP_REPLY_CCRYPT) then lit "CCRYPT" else
  if decide (code = OSDP_REPLY_RMAC_I) then lit "RMAC_I" else lit "?".

(** ** The application *)

Inductive send_phase : Type :=
  | SEND_PHASE_INIT
  | SEND_PHASE_PENDING_SC
  | SEND_PHASE_ID
  | SEND_PHASE_CAP
  | SEND_PHASE_POLL.

#[export] Instance send_phase_eq_dec : EqDecision send_phase.
Proof. solve_decision. Defined.

Record app_t : Type := mk_app {
  aa_pd_address : Z;
  aa_verbose : Z;
  aa_phase : send_phase;
  aa_last_send_ms : Z;
  aa_poll_interval_ms : Z;
  aa_sc_enabled : bool;
  aa_sc_use_default_key : bool }.

#[export] Instance app_settable : Settable app_t := λ r,
  mk_app (aa_pd_address r) (aa_verbose r) (aa_phase r) (aa_last_send_ms r) (aa_poll_interval_ms r)
    (aa_sc_enabled r) (aa_sc_use_default_key r).

(** A line on stderr, with the values it shows. *)
Inductive acu_line : Type :=
  | Line_reply (address : Z) (cmd reply : list Z) (nak : option Z) (payload : list Z)
  | Line_timeout (address : Z) (cmd : list Z) (seq : Z)
  | Line_sc_event (address : Z) (kind : osdp_acu_sc_event_kind)
  | Line_fallback
  | Line_restarting
  | Line_restart_failed (status : osdp_status)
  | Line_send (address : Z) (cmd payload : list Z)
  | Line_send_failed (cmd : list Z) (status : osdp_status)
  | Line_open_failed (why : serial_error)
  | Line_register_failed (address : Z)
  | Line_handshake_failed (status : osdp_status)
  | Line_running (port : list Z) (baud address poll : Z)
  | Line_shutdown.

(** The world of the ACU. *)
Record acu_mock (Q : Type) : Type := mk_acu_mock {
  am_app : app_t;
  am_seeded : bool;
  am_os : Q;
  am_err : list acu_line }.
Arguments mk_acu_mock {_}.
Arguments am_app {_}.
Arguments am_seeded {_}.
Arguments am_os {_}.
Arguments am_err {_}.

#[export] Instance acu_mock_settable Q : Settable (acu_mock Q) := λ r,
  mk_acu_mock (am_app r) (am_seeded r) (am_os r) (am_err r).

Section mock.
Context {Q : Type} {SE : Serial Q} {CL : Clib Q}.
Implicit Types (w : acu_mock Q).

Definition say (l : acu_line) (w : acu_mock Q) : acu_mock Q := w <| am_err := am_err w ++ [l] |>.

Definition with_app (f : app_t → app_t) (w : acu_mock Q) : acu_mock Q := w <| am_app := f (am_app w) |>.

(** A call on the operating system. *)
Definition os_call {A} (f : Q → A * Q) (w : acu_mock Q) : A * acu_mock Q :=
  let '(a, q) := f (am_os w) in (a, w <| am_os := q |>).

(** *** Callbacks *)

Definition on_reply : osdp_acu_reply_cb (acu_mock Q) := reports (λ e,
  let payload := view (re_payload e) (re_payload_len e) in
  let nak := (if decide (re_reply_code e = OSDP_REPLY_NAK ∧ 1 ≤ re_payload_len e) then head payload else None) in
  say (Line_reply (re_pd_address e) (cmd_name (re_cmd_code e)) (reply_name (re_reply_code e)) nak payload)).

Definition on_timeout : osdp_acu_timeout_cb (acu_mock Q) := reports (λ e,
  say (Line_timeout (te_pd_address e) (cmd_name (te_cmd_code e)) (te_cmd_seq e))).

Definition on_sc_event : osdp_acu_sc_event_cb (acu_mock Q) := λ e w,
  let w := say (Line_sc_event (se_pd_address e) (se_kind e)) w in
  match se_kind e with
  | OSDP_ACU_SC_EVENT_ESTABLISHED => Cb_return (with_app (λ a, a <| aa_phase := SEND_PHASE_ID |>) w)
  | OSDP_ACU_SC_EVENT_HANDSHAKE_FAILED =>
      Cb_return (with_app (λ a, a <| aa_sc_enabled := false |> <| aa_phase := SEND_PHASE_ID |>) (say Line_fallback w))
  | OSDP_ACU_SC_EVENT_SESSION_LOST =>
      let w := with_app (λ a, a <| aa_phase := SEND_PHASE_PENDING_SC |>) (say Line_restarting w) in
      Cb_start_sc_handshake (aa_pd_address (am_app w)) (aa_sc_use_default_key (am_app w)) w
        (λ r w, Cb_return (if decide (r ≠ OSDP_OK) then say (Line_restart_failed r) w else w))
  end.

(** *** The scheduler *)

(** The command of a phase, with its payload; none while a handshake is pending. *)
Definition next_command (phase : send_phase) : option (Z * ptr * nat) :=
  match phase with
  | SEND_PHASE_INIT | SEND_PHASE_ID => Some (OSDP_CMD_ID, Ptr [0%Z], 1)
  | SEND_PHASE_CAP => Some (OSDP_CMD_CAP, Ptr [0%Z], 1)
  | SEND_PHASE_POLL => Some (OSDP_CMD_POLL, NULL, 0)
  | SEND_PHASE_PENDING_SC => None
  end.

(** The phase once the command is out. *)
Definition next_phase (phase : send_phase) : send_phase :=
  match phase with
  | SEND_PHASE_INIT | SEND_PHASE_ID => SEND_PHASE_CAP
  | SEND_PHASE_CAP => SEND_PHASE_POLL
  | phase => phase
  end.

Definition maybe_send_next : ACU (acu_mock Q) bool :=
  app ← host (λ w, (am_app w, w));
  if decide (aa_phase app = SEND_PHASE_PENDING_SC) then mret false else
  c ← gets id;
  busy ← lift (osdp_acu_is_pd_busy (Some c) (aa_pd_address app));
  if (busy : bool) then mret false else
  match next_command (aa_phase app) with
  | None => mret false
  | Some (cmd, payload, plen) =>
      (if decide (1 ≤ aa_verbose app)%Z
       then host_ (say (Line_send (aa_pd_address app) (cmd_name cmd) (view payload plen))) else mret tt);;
      r ← osdp_acu_send_command (aa_pd_address app) cmd payload plen;
      if decide (r ≠ OSDP_OK) then host_ (say (Line_send_failed (cmd_name cmd) r));; mret false else
      host_ (with_app (λ a, a <| aa_phase := next_phase (aa_phase a) |>));;
      mret true
  end.

End mock.

(** ** The command line *)

Record cli_t : Type := mk_cli {
  ct_port : option (list Z);
  ct_baud : Z;
  ct_pd_address : Z;
  ct_sc_mode : sc_mode;
  ct_sc_custom_key : list Z;
  ct_poll_interval_ms : Z;
  ct_verbose : Z }.

#[export] Instance cli_settable : Settable cli_t := λ r,
  mk_cli (ct_port r) (ct_baud r) (ct_pd_address r) (ct_sc_mode r) (ct_sc_custom_key r)
    (ct_poll_interval_ms r) (ct_verbose r).

(** [exit(0)] after the help, [false], or [true] with [*out]. *)
Inductive cli_result : Type :=
  | Cli_help
  | Cli_refused
  | Cli_ok (o : cli_t).

Definition parse_hex_key (s : list Z) (out : list Z) : option (bool * list Z) :=
  if decide (length s ≠ OSDP_SC_KEY_LEN * 2) then Ret (false, out) else hex_key_loop s out 0 OSDP_SC_KEY_LEN.

(** The value of --sc=. *)
Definition parse_sc_mode (mode : list Z) (o : cli_t) : option cli_result :=
  if streq mode (lit "off") then Ret (Cli_ok (o <| ct_sc_mode := SC_NONE |>))
  else if streq mode (lit "scbkd") then Ret (Cli_ok (o <| ct_sc_mode := SC_SCBKD |>))
  else if has_prefix (lit "scbk:") mode then
    '(ok, key) ← parse_hex_key (drop 5 mode) (ct_sc_custom_key o);
    Ret (if (ok : bool) then Cli_ok (o <| ct_sc_custom_key := key |> <| ct_sc_mode := SC_SCBK_CUSTOM |>) else Cli_refused)
  else Ret Cli_refused.

(** An option with a value: [None] when [a] is none. *)
Definition option_value (a v : list Z) (o : cli_t) : option cli_result :=
  if streq a (lit "--port") then Some (Cli_ok (o <| ct_port := Some v |>))
  else if streq a (lit "--baud") then Some (Cli_ok (o <| ct_baud := strtoul_uint v |>))
  else if streq a (lit "--address") then
    let n := strtoul_any v in
    Some (if decide (0x7E < n)%Z then Cli_refused else Cli_ok (o <| ct_pd_address := u8 n |>))
  else if streq a (lit "--poll-interval") then Some (Cli_ok (o <| ct_poll_interval_ms := strtoul_uint v |>))
  else None.

(** An option without one. *)
Definition option_plain (a : list Z) (o : cli_t) : option cli_result :=
  if streq a (lit "-h") || streq a (lit "--help") then Ret Cli_help
  else if streq a (lit "-v") then Ret (Cli_ok (o <| ct_verbose := 1%Z |>))
  else if streq a (lit "-vv") then Ret (Cli_ok (o <| ct_verbose := 2%Z |>))
  else if has_prefix (lit "--sc=") a then parse_sc_mode (drop 5 a) o
  else Ret Cli_refused.

(** The loop over [argv[1..]]; the tests of the code exclude one another. *)
Fixpoint cli_loop (args : list (list Z)) (o : cli_t) : option cli_result :=
  match args with
  | [] => Ret (Cli_ok o)
  | a :: rest =>
      match rest with
      | v :: rest' =>
          match option_value a v o with
          | Some (Cli_ok o) => cli_loop rest' o
          | Some r => Ret r
          | None => r ← option_plain a o; match r with Cli_ok o => cli_loop rest o | r => Ret r end
          end
      | [] => option_plain a o
      end
  end.

(** [port] is the environment variable. *)
Definition parse_args (argv : list (list Z)) (port : option (list Z)) : option cli_result :=
  r ← cli_loop (tail argv) (mk_cli port DEFAULT_BAUD DEFAULT_PD_ADDRESS SC_NONE (replicate OSDP_SC_KEY_LEN 0%Z)
        DEFAULT_POLL_INTERVAL 0);
  match r with
  | Cli_ok o =>
      match ct_port o with
      | None | Some [] => Ret Cli_refused
      | Some _ => Ret (Cli_ok o)
      end
  | r => Ret r
  end.

(** ** main *)

Section main.
Context {Q : Type} {SE : Serial Q} {CL : Clib Q}.

(** [app] as [main] fills it; [last_send_ms] is set before the loop. *)
Definition initial_app (c : cli_t) : app_t :=
  mk_app (ct_pd_address c) (ct_verbose c)
    (if decide (ct_sc_mode c ≠ SC_NONE) then SEND_PHASE_PENDING_SC else SEND_PHASE_INIT) 0 (ct_poll_interval_ms c)
    (bool_decide (ct_sc_mode c ≠ SC_NONE)) (bool_decide (ct_sc_mode c = SC_SCBKD)).

(** The transport [serial_open] fills in. *)
Definition acu_transport : osdp_acu_transport (acu_mock Q) :=
  mk_acu_transport (Some (λ n w, os_call (serial_read n) w)) (Some (λ bs, os_call (serial_write bs)))
    (Some (os_call serial_now_ms)).

(** [acu_mock_aes_crypto()] on the tool's world; [ctx] is the uninitialised local of the port. *)
Definition acu_mock_aes_crypto (ctx : AES_ctx) : osdp_sc_crypto (acu_mock Q) :=
  let v := k_vtable (P := Q) ctx in
  mk_crypto (aes128_ecb_encrypt v) (aes128_ecb_decrypt v)
    ((λ rand n w, let '(s, bs, a) := rand n (mk_adapter (am_seeded w) (am_os w)) in
                  (s, bs, w <| am_seeded := g_seeded a |> <| am_os := g_proc a |>)) <$> rand_bytes v).

(** From [osdp_acu_init] to the handlers. *)
Definition setup_acu (acu : osdp_acu (acu_mock Q)) (slots : list osdp_acu_pd_slot) : option (osdp_acu (acu_mock Q)) :=
  let acu := osdp_acu_init (Some acu) (Some slots) 1 in
  let acu := osdp_acu_set_transport acu (Some acu_transport) in
  let acu := osdp_acu_set_reply_handler acu (Some on_reply) in
  let acu := osdp_acu_set_timeout_handler acu (Some on_timeout) in
  osdp_acu_set_sc_event_handler acu (Some on_sc_event).

(** The Secure Channel set-up and the first CHLNG; OSDP_OK without Secure Channel. *)
Definition start_sc (c : cli_t) (ctx : AES_ctx) (acu : osdp_acu (acu_mock Q)) (w : acu_mock Q)
  : option (osdp_status * osdp_acu (acu_mock Q) * acu_mock Q) :=
  if decide (ct_sc_mode c = SC_NONE) then Ret (OSDP_OK, acu, w) else
  acu ← osdp_acu_set_sc_crypto (Some acu) (Some (acu_mock_aes_crypto ctx));
  '(_, acu, w) ← (if decide (ct_sc_mode c = SC_SCBKD)
                  then osdp_acu_set_pd_scbk_d (ct_pd_address c) (Ptr OSDP_SCBK_DEFAULT) acu w
                  else osdp_acu_set_pd_scbk (ct_pd_address c) (Ptr (ct_sc_custom_key c)) acu w);
  osdp_acu_start_sc_handshake (ct_pd_address c) (bool_decide (ct_sc_mode c = SC_SCBKD)) acu w.

(** One turn of the main loop. *)
Definition main_turn : ACU (acu_mock Q) unit :=
  osdp_acu_tick;;
  now ← host (os_call serial_now_ms);
  app ← host (λ w, (am_app w, w));
  (if decide (aa_poll_interval_ms app ≤ u32 (now - aa_last_send_ms app))%Z then
     sent ← maybe_send_next;
     if (sent : bool) then host_ (with_app (λ a, a <| aa_last_send_ms := now |>)) else mret tt
   else mret tt);;
  host_ (λ w, w <| am_os := serial_sleep_ms MAIN_LOOP_TICK_MS (am_os w) |>).

(** The turns until the signal. *)
Fixpoint main_turns (n : nat) : ACU (acu_mock Q) unit :=
  match n with
  | O => mret tt
  | S n => main_turn;; main_turns n
  end.

(** [main] after the set-up: the loop and the shutdown. *)
Definition run (c : cli_t) (turns : nat) (acu : osdp_acu (acu_mock Q)) (w : acu_mock Q) : option (Z * acu_mock Q) :=
  let w := say (Line_running (default [] (ct_port c)) (ct_baud c) (ct_pd_address c) (ct_poll_interval_ms c)) w in
  let '(now, w) := os_call serial_now_ms w in
  let w := with_app (λ a, a <| aa_last_send_ms := u32 (now - ct_poll_interval_ms c) |>) w in
  '(_, _, w) ← main_turns turns acu w;
  Ret (0%Z, say Line_shutdown w <| am_os := serial_close (am_os w) |>).

(** A failure of [main] once the port is open. *)
Definition exit_failure (l : acu_line) (w : acu_mock Q) : Z * acu_mock Q :=
  (1%Z, say l w <| am_os := serial_close (am_os w) |>).

(** [main]: the exit code and the world at the end; [turns] is when the signal comes,
    [acu0], [slots0] and [ctx] the uninitialised memory. *)
Definition main (argv : list (list Z)) (env : option (list Z)) (turns : nat) (acu0 : osdp_acu (acu_mock Q))
    (slots0 : list osdp_acu_pd_slot) (ctx : AES_ctx) (w : acu_mock Q) : option (Z * acu_mock Q) :=
  r ← parse_args argv env;
  match r with
  | Cli_help => Ret (0%Z, w)
  | Cli_refused => Ret (2%Z, w)
  | Cli_ok c =>
      let '(err, w) := os_call (serial_open (ct_port c) (ct_baud c)) w in
      match err with
      | Some err => Ret (1%Z, say (Line_open_failed err) w)
      | None =>
          let w := with_app (λ _, initial_app c) w in
          acu ← setup_acu acu0 slots0;
          '(r, acu, w) ← osdp_acu_register_pd 0 (ct_pd_address c) acu w;
          if decide (r ≠ OSDP_OK) then Ret (exit_failure (Line_register_failed (ct_pd_address c)) w) else
          '(r, acu, w) ← start_sc c ctx acu w;
          if decide (r ≠ OSDP_OK) then Ret (exit_failure (Line_handshake_failed r) w) else
          run c turns acu w
      end
  end.

End main.

(** ** The set-up and a turn are safe *)

(** What [parse_args] leaves: a whole key, and an address a PD can have. *)
Definition cli_ok (c : cli_t) : Prop :=
  length (ct_sc_custom_key c) = OSDP_SC_KEY_LEN ∧ bytes_ok (ct_sc_custom_key c) ∧ (0 ≤ ct_pd_address c ≤ 0x7E)%Z.

Section safe.
Context {Q : Type} {SE : Serial Q} {CL : Clib Q} {SL : SerialLaws Q}.
Implicit Types (w : acu_mock Q).

Lemma acu_transport_ok : acu_op_ok (AOpTransport (Some (acu_transport (Q := Q)))).
Proof.
  split; [|by eexists]. intros read [= <-] n w. unfold os_call. pose proof (sr_read n (am_os w)) as H. cbv zeta in H.
  by destruct (serial_read n (am_os w)) as [[k bs] q].
Qed.

Lemma reports_ok {E} (log : E → acu_mock Q → acu_mock Q) : AcuInv.handler_ok (Some (reports log)).
Proof. by intros h e w [= <-]. Qed.

Lemma on_sc_event_ok : AcuInv.handler_ok (Some (on_sc_event (Q := Q))).
Proof. intros h [a []] w [= <-]; done. Qed.

Lemma acu_mock_crypto_ok ctx : local_ctx ctx → PdInv.cipher_ok (acu_mock_aes_crypto (Q := Q) ctx).
Proof.
  intros Hl. split.
  - exists Fips.cipher, inverse. by apply (port_aes ctx).
  - intros rand w [= <-]. pose proof (adapter_rand_ok OSDP_SC_RND_LEN (mk_adapter (am_seeded w) (am_os w))) as H.
    destruct (adapter_rand _ _) as [[s bs] a]. destruct H as (_ & L & Y & _). cbn. split; [lia|done].
Qed.

Lemma handlers_ok : Forall acu_op_ok [AOpTransport (Some (acu_transport (Q := Q))); AOpReplyHandler (Some on_reply);
  AOpTimeoutHandler (Some on_timeout); AOpScEventHandler (Some on_sc_event)].
Proof.
  repeat apply Forall_cons_2; [apply acu_transport_ok|apply reports_ok|apply reports_ok|apply on_sc_event_ok|constructor].
Qed.

(** The context of the tool: its own callbacks, one slot, nothing unread. *)
Record wired (c : osdp_acu (acu_mock Q)) : Prop := {
  wi_transport : ac_transport c = acu_transport;
  wi_reply : ac_reply_cb c = Some on_reply;
  wi_timeout : ac_timeout_cb c = Some on_timeout;
  wi_event : ac_sc_event_cb c = Some on_sc_event;
  wi_led : ac_led_cb c = None;
  wi_buzzer : ac_buzzer_cb c = None;
  wi_count : ac_pd_count c = 1;
  wi_stream : stream_inv (ac_rx c);
  wi_unread : unread (ac_rx c) = [] }.

Lemma setup_acu_ok (acu0 : osdp_acu (acu_mock Q)) slots w : 1 ≤ length slots →
  ∃ c, setup_acu acu0 slots = Some c ∧ acu_ok c ∧ wired c ∧ ac_pds c !! 0 = Some slot_zero ∧
    rand_bytes (ac_sc_crypto c) = None.
Proof.
  intros Hl. destruct (init_acu_ok acu0 slots 1 Hl) as (c & E & Hc).
  destruct (acu_runs_ok _ c w handlers_ok Hc) as (c' & w' & E' & Hc'). exists c'.
  assert (setup_acu acu0 slots = Some c') as Es.
  { unfold setup_acu. rewrite E. cbn in E' |- *. congruence. }
  split; [done|]. split; [done|]. revert Es. unfold setup_acu, osdp_acu_init. cbn -[Nat.le]. rewrite decide_True by done.
  cbn. intros [= <-]. split; [|done]. constructor; try done. by apply (ai_stream (TC := acu_fixed_of _) _ Hc').
Qed.

(** A safe computation, run. *)
Lemma run_safe {A} (m : ACU (acu_mock Q) A) c w :
  acu_ok c → (∀ TC : AcuFixed (acu_mock Q), acu_safe m (λ _, True)) → ∃ a c' w', m c w = Some (a, c', w') ∧ acu_ok c'.
Proof.
  intros Hc Hm. destruct (Hm (acu_fixed_of c) c w Hc) as (a & c' & w' & E & Hc' & _).
  exists a, c', w'. split; [done|]. by apply (acu_ok_of (acu_fixed_of c)).
Qed.

Lemma start_sc_ok c ctx acu w : cli_ok c → local_ctx ctx → acu_ok acu →
  ∃ r acu' w', start_sc (Q := Q) c ctx acu w = Some (r, acu', w') ∧ acu_ok acu'.
Proof.
  intros (Hk & Hb & Ha) Hl Hc. unfold start_sc. case_decide; [by eexists _, _, _|].
  destruct (acu_run_ok (AOpScCrypto (Some (acu_mock_aes_crypto ctx))) acu w) as (c1 & w1 & E1 & H1); [by apply acu_mock_crypto_ok|done|].
  cbn [acu_run] in E1. destruct (osdp_acu_set_sc_crypto _ _) as [q1|]; [|done]. injection E1 as -> ->. rewrite bind_Some.
  assert (∃ s c2 w2, (if decide (ct_sc_mode c = SC_SCBKD) then osdp_acu_set_pd_scbk_d (ct_pd_address c) (Ptr OSDP_SCBK_DEFAULT) c1 w1
    else osdp_acu_set_pd_scbk (ct_pd_address c) (Ptr (ct_sc_custom_key c)) c1 w1) = Some (s, c2, w2) ∧ acu_ok c2)
    as (s & c2 & w2 & -> & H2).
  { case_decide; (eapply run_safe; [exact H1|]); intros TC.
    - eapply (set_key_safe osdp_acu_set_pd_scbk_d); [reflexivity| |by vm_decide]. intros key s Bk Hs. slot_with Hs.
    - eapply (set_key_safe osdp_acu_set_pd_scbk); [reflexivity| |cbn; split; [lia|done]]. intros key s Bk Hs. slot_with Hs. }
  rewrite bind_Some. apply run_safe; [done|]. intros TC. apply start_handshake_safe.
Qed.

Lemma maybe_send_next_safe (TC : AcuFixed (acu_mock Q)) : acu_safe maybe_send_next (λ _, True).
Proof.
  apply tr_host_bind. intros w. cbn [fst]. case_decide; [by apply tr_ret|]. apply tr_get. intros c Hc. unfold id.
  destruct (find_slot_ok c (aa_pd_address (am_app w)) Hc) as (r & E & Hr).
  assert (∃ b, osdp_acu_is_pd_busy (Some c) (aa_pd_address (am_app w)) = Some b) as [b Hb].
  { unfold osdp_acu_is_pd_busy, slot_query. rewrite E, bind_Some. destruct r as [i|]; [|by eexists].
    destruct (Hr i eq_refl) as (_ & s & -> & _). rewrite bind_Some. by eexists. }
  apply (tr_lift_bind _ _ _ _ Hb). destruct b; [by apply tr_ret|].
  assert (∀ cmd p n, next_command (aa_phase (am_app w)) = Some (cmd, p, n) → is_byte cmd ∧ region_ok p n) as Hcmd.
  { intros cmd p n. destruct (aa_phase _); intros [= <- <- <-]; by split; vm_decide. }
  destruct (next_command _) as [[[cmd p] n]|]; [|by apply tr_ret]. destruct (Hcmd cmd p n eq_refl) as [Hc1 Hc2].
  eapply (tr_bind _ _ (λ _, True)); [by case_decide; [apply tr_host_|apply tr_ret]|]. intros [] _.
  eapply tr_bind; [by apply send_command_safe|]. intros s _. case_decide.
  - eapply (tr_bind _ _ (λ _, True)); [by apply tr_host_|]. intros [] _. by apply tr_ret.
  - eapply (tr_bind _ _ (λ _, True)); [by apply tr_host_|]. intros [] _. by apply tr_ret.
Qed.

Lemma acu_main_turn_ok c w : acu_ok c → ∃ c' w', main_turn (Q := Q) c w = Some (tt, c', w') ∧ acu_ok c'.
Proof.
  intros Hc. unfold main_turn. destruct (acu_tick_safe c w Hc) as ([] & c1 & w1 & E1 & H1).
  rewrite (run_bind _ _ _ _ _ _ _ E1), !run_host. cbn [fst snd].
  set (m := _ ≫= _). assert (∀ TC : AcuFixed (acu_mock Q), acu_safe m (λ _, True)) as Hm.
  { intros TC. unfold m. clear m. eapply (tr_bind _ _ (λ _, True)); [|intros [] _; by apply tr_host_].
    case_decide; [|by apply tr_ret]. eapply tr_bind; [apply maybe_send_next_safe|].
    intros [] _; [by apply tr_host_|by apply tr_ret]. }
  destruct (run_safe m c1 (os_call serial_now_ms w1).2 H1 Hm) as ([] & c2 & w2 & E2 & H2). by exists c2, w2.
Qed.

Lemma acu_main_turns_ok n c w : acu_ok c → ∃ c' w', main_turns (Q := Q) n c w = Some (tt, c', w') ∧ acu_ok c'.
Proof.
  revert c w. induction n as [|n IH]; intros c w Hc; cbn [main_turns]; [by eexists _, _|].
  destruct (acu_main_turn_ok c w Hc) as (c1 & w1 & E1 & H1). rewrite (run_bind _ _ _ _ _ _ _ E1). by apply IH.
Qed.

Lemma run_ok c n acu w : acu_ok acu → ∃ w', run (Q := Q) c n acu w = Some (0%Z, w').
Proof.
  intros Hc. unfold run. cbv zeta. destruct (os_call _ _) as [now w1].
  edestruct (acu_main_turns_ok n acu) as (c' & w' & -> & _); [done|]. rewrite bind_Some. by eexists.
Qed.
End safe.

(** ** The unit while its PD is silent *)

Section silent.
Context {Q : Type} {SE : Serial Q} {CL : Clib Q} {SL : SerialLaws Q}.
Implicit Types (c : osdp_acu (acu_mock Q)) (w : acu_mock Q).

(** The generator leaves the application alone. *)
Definition rand_apart c : Prop :=
  ∀ rand n w, rand_bytes (ac_sc_crypto c) = Some rand → am_app (rand n w).2 = am_app w.

(** The PD counts as offline, so that no timeout ends its handshake, and the scheduler
    waits for the handshake; [T] is what is known of the system. *)
Definition offline (T : Q → Prop) c w : Prop :=
  wired c ∧ rand_apart c ∧ (∃ s, ac_pds c !! 0 = Some s ∧ as_online s = false) ∧
  aa_phase (am_app w) = SEND_PHASE_PENDING_SC ∧ T (am_os w).

Section rules.
Context (T : Q → Prop) (Tnow : ∀ q, T q → T (serial_now_ms q).2).

Lemma st_slot {B} i (k : osdp_acu_pd_slot → ACU (acu_mock Q) B) :
  (∀ s, (i = 0 → as_online s = false) → stable (offline T) (k s)) → stable (offline T) (slot_at i ≫= k).
Proof.
  intros Hk c w b c' w' (s & c1 & w1 & E & E')%bind_inv H. unfold slot_at in E. rewrite run_gets in E. unfold lift in E.
  destruct (ac_pds c !! i) as [s1|] eqn:Es; [|done]. injection E as <- <- <-. eapply Hk; [|exact E'|exact H].
  intros ->. destruct H as (_ & _ & (s & Hs & Ho) & _). rewrite Es in Hs. by injection Hs as ->.
Qed.

Lemma st_with i g : (∀ s, as_online s = false → as_online (g s) = false) → stable (offline T) (with_slot i g).
Proof.
  intros Hg. unfold with_slot. apply st_slot. intros s Hs. apply st_modify. intros c w (Hw & Hr & (s0 & Hs0 & Ho) & HP).
  split; [by destruct Hw|]. split; [done|]. split; [|done]. read_set. destruct i as [|i].
  - exists (g s). split; [|auto]. apply list_lookup_insert_eq. by eapply lookup_lt_Some.
  - exists s0. by rewrite list_lookup_insert_ne.
Qed.

Lemma st_os {A B} (f : Q → A * Q) (k : A → ACU (acu_mock Q) B) :
  (∀ q, T q → T (f q).2) → (∀ a, stable (offline T) (k a)) → stable (offline T) (host (os_call f) ≫= k).
Proof.
  intros Hf Hk. apply st_host. intros c w (Hw & Hr & Hs & Hp & Ht). specialize (Hf (am_os w) Ht). unfold os_call.
  destruct (f (am_os w)) as [a q]. split; [by split_and!|apply Hk].
Qed.

Lemma st_now {B} (k : Z → ACU (acu_mock Q) B) :
  (∀ now, stable (offline T) (k now)) → stable (offline T) (now_ms_or_zero ≫= k).
Proof.
  intros Hk. unfold now_ms_or_zero. intros c w b c' w' E H. pose proof (wi_transport c (proj1 H)) as Ht.
  eapply (st_os serial_now_ms k Tnow Hk); [|exact H]. rewrite <-E. unfold mbind, M_bind, gets. by rewrite Ht.
Qed.

(** A callback that prints a line. *)
Lemma st_reports {E} (log : E → acu_mock Q → acu_mock Q) event :
  (∀ w, am_app (log event w) = am_app w ∧ am_os (log event w) = am_os w) →
  stable (offline T) (call_back (Some (reports log)) event).
Proof.
  intros Hl. change (stable (offline T) (host_ (log event) : ACU (acu_mock Q) unit)). apply st_host_.
  intros c w (Hw & Hr & Hs & Hp & Ht). destruct (Hl w) as [H1 H2]. split_and!; [done..|by rewrite H1|by rewrite H2].
Qed.

(** *** A tick on a silent line *)

Lemma scan_slot_stable now : stable (offline T) (scan_slot now 0).
Proof.
  unfold scan_slot. apply st_slot. intros s _. destruct (negb _); [apply st_ret|]. apply st_bind; [|intros []].
  - unfold check_reply_timeout. apply st_slot. intros s1 _. destruct (negb _); [apply st_ret|].
    case_decide; [|apply st_ret]. do 2 (apply st_bind; [by apply st_with|intros []]). apply st_get. intros c w Hof.
    rewrite (wi_timeout c (proj1 Hof)). by apply st_reports.
  - unfold check_online_window. apply st_slot. intros s1 Hs. rewrite (Hs eq_refl). apply st_ret.
Qed.

Lemma scan_stable : stable (offline T) scan_timeouts_and_offline.
Proof.
  unfold scan_timeouts_and_offline. apply st_get. intros c w H. unfold id. rewrite (wi_transport c (proj1 H)), (wi_count c (proj1 H)).
  cbn [at_now_ms acu_transport]. apply st_os; [done|]. intros now. apply st_for. intros j Hj. assert (j = 0) as -> by lia.
  apply scan_slot_stable.
Qed.

Lemma drain_stable k n :
  (∀ m q, T q → (serial_read m q).1 = (0%Z, []) ∧ T (serial_read m q).2) →
  stable (offline T) (acu_drain_loop (S k) (λ m w, os_call (serial_read m) w) n).
Proof.
  intros Hr. cbn [acu_drain_loop]. apply st_host. intros c w (Hw & Ha & Hs & Hp & Ht). unfold os_call.
  destruct (Hr CHUNK (am_os w) Ht) as [H1 H2]. destruct (serial_read CHUNK (am_os w)) as [r q]. cbn [fst snd] in *. subst r.
  split; [by split_and!|]. rewrite decide_True by done. apply st_ret.
Qed.

Lemma offline_rx c w rx : stream_inv rx → unread rx = [] → offline T c w → offline T (c <| ac_rx := rx |>) w.
Proof. intros Hi Hu (Hw & Hr & Hs & Hp & Ht). split; [destruct Hw; by constructor|by split_and!]. Qed.

Lemma offline_partial c w n : offline T c w → offline T (c <| ac_rx_partial_len := n |>) w.
Proof. intros (Hw & Hr & Hs & Hp & Ht). split; [destruct Hw; by constructor|by split_and!]. Qed.

Lemma frames_stable k : stable (offline T) (acu_frame_loop (S k)).
Proof.
  intros c w a c' w' E H. pose proof H as ([] & _). cbn [acu_frame_loop] in E. rewrite run_gets in E.
  destruct (stream_nothing (ac_rx c) frame_zero) as (s3 & o3 & E3 & Hs3 & Hu3 & _); [done..|].
  rewrite (run_lift _ _ _ _ _ E3) in E. revert E. m_run. rewrite decide_True by done. m_run. intros [= <- <- <-].
  by apply offline_rx.
Qed.

Lemma interchar_stable : stable (offline T) acu_check_interchar_timeout.
Proof.
  unfold acu_check_interchar_timeout. apply st_get. intros c w H. unfold id. pose proof H as ([] & _).
  assert (osdp_stream_pending (Some (ac_rx c)) = 0) as ->.
  { pose proof (length_unread (ac_rx c) wi_stream0) as Hl. rewrite wi_unread0 in Hl. cbn [osdp_stream_pending length] in *. case_decide; lia. }
  rewrite decide_True by done. apply st_modify. intros c1 w1. apply offline_partial.
Qed.

Lemma tick_stable :
  (∀ m q, T q → (serial_read m q).1 = (0%Z, []) ∧ T (serial_read m q).2) → stable (offline T) osdp_acu_tick.
Proof.
  intros Hr. unfold osdp_acu_tick. apply st_get. intros c w H. rewrite (wi_transport c (proj1 H)). cbn [at_read acu_transport].
  apply st_bind; [apply scan_stable|intros []]. apply st_bind; [by apply drain_stable|intros []].
  apply st_bind; [apply frames_stable|intros []]. apply st_bind; [apply interchar_stable|intros []].
  apply st_now. intros now. apply st_bind; [|intros []].
  - apply st_get. intros c1 w1 H1. rewrite (wi_led c1 (proj1 H1)). apply st_ret.
  - apply st_get. intros c1 w1 H1. rewrite (wi_buzzer c1 (proj1 H1)). apply st_ret.
Qed.

(** While the handshake is pending the scheduler sends nothing. *)
Lemma turn_stable :
  (∀ m q, T q → (serial_read m q).1 = (0%Z, []) ∧ T (serial_read m q).2) →
  (∀ ms q, T q → T (serial_sleep_ms ms q)) → stable (offline T) main_turn.
Proof.
  intros Hr Hsl. unfold main_turn. apply st_bind; [by apply tick_stable|intros []]. apply st_os; [done|]. intros now.
  apply st_host. intros c w H. cbn [fst snd]. split; [done|]. apply st_bind.
  - case_decide; [|apply st_ret]. apply st_bind; [|intros []; [|apply st_ret]].
    + unfold maybe_send_next. apply st_host. intros c1 w1 H1. cbn [fst snd]. split; [done|].
      destruct H1 as (_ & _ & _ & Hp & _). rewrite decide_True by done. apply st_ret.
    + apply st_host_. intros c1 w1 (Hw & Ha & Hs & Hp & Ht). by split_and!.
  - intros []. apply st_host_. intros c1 w1 (Hw & Ha & Hs & Hp & Ht). split_and!; [done..|by apply Hsl].
Qed.

End rules.

(** *** The set-up *)

Abbreviation starting := (offline (λ _, True)).

Lemma starting_tx c w tx : starting c w → starting (c <| ac_tx_buf := tx |>) w.
Proof. intros (Hw & Hr & Hs & Hp & Ht). split; [destruct Hw; by constructor|by split_and!]. Qed.

Lemma register_starting i a : stable starting (osdp_acu_register_pd i a).
Proof.
  unfold osdp_acu_register_pd. apply st_get. intros c w _. do 2 (case_decide; [apply st_ret|]).
  apply st_bind; [by apply st_with|intros []; apply st_ret].
Qed.

Lemma set_key_starting (m : ACU (acu_mock Q) osdp_status) a k g :
  m = (c ← gets id; slot ← lift (find_slot_by_address c a);
       match slot with
       | None => mret OSDP_ERR_INVALID_ARG
       | Some i => key ← lift (rd_slice k 0 OSDP_SC_KEY_LEN); with_slot i (g key);; mret OSDP_OK
       end) →
  (∀ key s, as_online s = false → as_online (g key s) = false) → stable starting m.
Proof.
  intros -> Hg. apply st_get. intros c w _. apply st_lift. intros [i|] _; [|apply st_ret]. apply st_lift. intros key _.
  apply st_bind; [apply st_with, Hg|intros []; apply st_ret].
Qed.

Lemma send_sc_cmd_starting i ty sel code p n : stable starting (send_sc_cmd i ty sel code p n).
Proof.
  unfold send_sc_cmd. apply st_get. intros c w _. apply st_slot. intros s _. cbv zeta. apply st_lift. intros [[st tx] k] _.
  apply st_bind; [apply st_modify; intros c1 w1; apply starting_tx|intros []]. case_decide; [apply st_ret|].
  apply st_lift. intros written _. apply st_bind.
  - unfold write_tx. apply st_get. intros c1 w1 H1. unfold id. rewrite (wi_transport c1 (proj1 H1)).
    apply st_lift. intros write [= <-]. apply st_lift. intros bs _. apply st_os; [done|]. intros r. apply st_ret.
  - intros whole. destruct (negb whole); [apply st_ret|]. apply st_bind; [|intros []; apply st_ret].
    unfold mark_pending. apply st_bind; [by apply st_with|intros []]. apply st_now; [done|]. intros now. by apply st_with.
Qed.

Lemma handshake_starting a d : stable starting (osdp_acu_start_sc_handshake a d).
Proof.
  unfold osdp_acu_start_sc_handshake. apply st_get. intros c w _. apply st_lift. intros [i|] _; [|apply st_ret].
  apply st_slot. intros s _. destruct (at_write _); [|apply st_ret]. destruct (negb _); [apply st_ret|].
  destruct (as_waiting s); [apply st_ret|]. apply st_lift. intros session _. apply st_bind; [by apply st_with|intros []].
  unfold osdp_acu_internal_send_chlng. apply st_get. intros c1 w1 (_ & Hra & _). apply st_lift. intros rand Hrand.
  apply st_host. intros c2 w2 (Hw & Hr & Hs & Hp & Ht). split.
  { split_and!; [done..| |done]. by rewrite (Hra rand _ w2 Hrand). }
  destruct (rand OSDP_SC_RND_LEN w2).1 as [st rnd]. apply st_slot. intros s1 _. apply st_lift. intros rnd_a _.
  apply st_bind; [by apply st_with|intros []]. case_decide; [apply st_ret|]. cbv zeta.
  apply st_bind; [by apply st_with|intros []]. apply st_bind; [apply send_sc_cmd_starting|]. intros st1.
  case_decide; [apply st_ret|]. apply st_bind; [by apply st_with|intros []; apply st_ret].
Qed.

Lemma crypto_starting ctx c c' w :
  osdp_acu_set_sc_crypto (Some c) (Some (acu_mock_aes_crypto ctx)) = Some c' → starting c w → starting c' w.
Proof.
  intros [= <-] (Hw & Hr & Hs & Hp & Ht). split; [destruct Hw; by constructor|]. split; [|by split_and!].
  intros rand n v [= <-]. by destruct (adapter_rand _ _) as [[? ?] ?].
Qed.

Lemma start_sc_starting (o : cli_t) ctx acu w r acu' w' : ct_sc_mode o ≠ SC_NONE →
  start_sc o ctx acu w = Some (r, acu', w') → starting acu w → starting acu' w'.
Proof.
  intros Hm E H. unfold start_sc in E. rewrite decide_False in E by done.
  destruct (osdp_acu_set_sc_crypto _ _) as [c1|] eqn:E1; [|done]. rewrite bind_Some in E.
  pose proof (crypto_starting ctx acu c1 w E1 H) as H1.
  assert (stable starting (if decide (ct_sc_mode o = SC_SCBKD) then osdp_acu_set_pd_scbk_d (ct_pd_address o) (Ptr OSDP_SCBK_DEFAULT)
    else osdp_acu_set_pd_scbk (ct_pd_address o) (Ptr (ct_sc_custom_key o)))) as Hk.
  { case_decide; eapply set_key_starting; [reflexivity|done|reflexivity|done]. }
  destruct (decide (ct_sc_mode o = SC_SCBKD)).
  - destruct (osdp_acu_set_pd_scbk_d _ _ c1 w) as [[[s c2] w2]|] eqn:E2; [|done]. rewrite bind_Some in E.
    eapply handshake_starting, Hk; done.
  - destruct (osdp_acu_set_pd_scbk _ _ c1 w) as [[[s c2] w2]|] eqn:E2; [|done]. rewrite bind_Some in E.
    eapply handshake_starting, Hk; done.
Qed.

End silent.

(** ** The command line *)

Definition cli_result_ok (r : cli_result) : Prop := match r with Cli_ok o => cli_ok o | _ => True end.

Lemma strtoul_any_nonneg s : (0 ≤ strtoul_any s)%Z.
Proof.
  unfold strtoul_any. cbv zeta.
  assert (∀ base acc p, (0 ≤ acc)%Z → (0 ≤ base)%Z → (0 ≤ base_digits base acc p)%Z) as Hd.
  { intros base acc p. revert acc. induction p as [|c p IH]; intros acc Ha Hb; cbn [base_digits]; [done|].
    case_decide; [|done]. apply IH; [|done]. unfold ULLONG_MAX. nia. }
  destruct (if decide (deref _ = 45%Z) then _ else _) as [neg p].
  destruct (if decide (deref p = 48%Z) then _ else _) as [base q] eqn:E.
  assert (0 ≤ base)%Z as Hb by (repeat case_decide; by injection E as <- _).
  clear E. destruct (decide _); [by apply Z.leb_le|]. destruct neg; [by apply Z.mod_pos_bound|by apply Hd].
Qed.

Lemma option_plain_ok a o : cli_ok o → ∃ r, option_plain a o = Some r ∧ cli_result_ok r.
Proof.
  intros Ho. unfold option_plain. repeat (case_match; [by eexists|]). case_match; [|by eexists].
  unfold parse_sc_mode. repeat (case_match; [by eexists|]). case_match; [|by eexists].
  unfold parse_hex_key. destruct Ho as (Hl & Hb & Ha). case_decide; [rewrite bind_Some; by eexists|].
  destruct (hex_key_loop_ok (drop 5 (drop 5 a)) (ct_sc_custom_key o) 0 OSDP_SC_KEY_LEN ltac:(lia) Hb) as (ok & out & -> & L & Y).
  rewrite bind_Some. eexists. split; [done|]. destruct ok; [|done]. split_and!; [by rewrite <-Hl|done|apply Ha..].
Qed.

Lemma option_value_ok a v o r : cli_ok o → option_value a v o = Some r → cli_result_ok r.
Proof.
  intros Ho. unfold option_value. repeat (case_match; [by intros [= <-]|]). case_match.
  - intros [= <-]. case_decide; [done|]. destruct Ho as (Hl & Hb & _). pose proof (strtoul_any_nonneg v).
    split_and!; [done|done| |]; read_set; unfold u8; rewrite Z.mod_small; lia.
  - case_match; [by intros [= <-]|done].
Qed.

Lemma cli_loop_cons a v rest o : cli_loop (a :: v :: rest) o =
  match option_value a v o with
  | Some (Cli_ok o) => cli_loop rest o
  | Some r => Ret r
  | None => r ← option_plain a o; match r with Cli_ok o => cli_loop (v :: rest) o | r => Ret r end
  end.
Proof. done. Qed.

Lemma cli_loop_ok n args o : length args ≤ n → cli_ok o → ∃ r, cli_loop args o = Some r ∧ cli_result_ok r.
Proof.
  revert args o. induction n as [|n IH]; intros [|a [|v rest]] o Hn Ho; try (simpl in Hn; lia); try by eexists.
  { by apply option_plain_ok. }
  rewrite cli_loop_cons. destruct (option_value a v o) as [r|] eqn:E.
  - pose proof (option_value_ok _ _ _ _ Ho E) as Hr. destruct r as [| |o']; [by eexists..|].
    apply IH; [simpl in Hn; lia|done].
  - destruct (option_plain_ok a o Ho) as (r & -> & Hr). rewrite bind_Some. destruct r as [| |o']; [by eexists..|].
    apply IH; [simpl in *; lia|done].
Qed.

Lemma acu_parse_args_ok argv env : ∃ r, parse_args argv env = Some r ∧ cli_result_ok r.
Proof.
  unfold parse_args. destruct (cli_loop_ok (length (tail argv)) (tail argv)
    (mk_cli env DEFAULT_BAUD DEFAULT_PD_ADDRESS SC_NONE (replicate OSDP_SC_KEY_LEN 0%Z) DEFAULT_POLL_INTERVAL 0)) as (r & -> & Hr);
    [lia|by split_and!; vm_decide|].
  rewrite bind_Some. destruct r as [| |o]; [by eexists..|]. destruct (ct_port o) as [[|]|]; by eexists.
Qed.

(** The slot of the tool takes any address the command line lets through. *)
Lemma register_ok {Q} {SE : Serial Q} c (acu : osdp_acu (acu_mock Q)) w :
  cli_ok c → acu_ok acu → ac_pd_count acu = 1 →
  ∃ acu', osdp_acu_register_pd 0 (ct_pd_address c) acu w = Some (OSDP_OK, acu', w) ∧ acu_ok acu'.
Proof.
  intros (_ & _ & Ha) Hc Hn.
  destruct (acu_run_ok (AOpRegister 0 (ct_pd_address c)) acu w) as (c' & w' & E & Hc'); [change (is_byte (ct_pd_address c)); unfold is_byte; lia|done|].
  cbn [acu_run] in E. destruct (osdp_acu_register_pd _ _ acu w) as [[[s q] v]|] eqn:Er; [|done].
  injection E as <- <-. revert Er. unfold osdp_acu_register_pd. m_run. unfold id. rewrite Hn, decide_False by lia.
  rewrite decide_False by (unfold OSDP_BROADCAST_ADDR, OSDP_CONFIG_ADDR; lia).
  intros ([] & c1 & w1 & Ew & E)%bind_inv. injection E as <- <- <-. exists c1. split; [|done].
  revert Ew. unfold with_slot, slot_at. m_run. destruct (ac_pds acu !! 0) eqn:Es; [|done]. m_run. by intros [= <- <-].
Qed.

(** ** Properties *)

(** C39: The mock ACU, from its command line on.  With any arguments, any bytes on the serial
    port and any number of turns of the main loop, its Secure Channel callback starting
    handshakes from inside the tick, the program is defined and ends with exit code 0, 1
    or 2; the registration of the PD never fails. *)
Theorem acu_mock_total {Q} {SE : Serial Q} {CL : Clib Q} {SL : SerialLaws Q}
    argv env turns (acu0 : osdp_acu (acu_mock Q)) slots0 ctx (w : acu_mock Q) :
  1 ≤ length slots0 → local_ctx ctx →
  (∃ code w', main argv env turns acu0 slots0 ctx w = Some (code, w') ∧ (0 ≤ code ≤ 2)%Z) ∧
  (∀ c, parse_args argv env = Some (Cli_ok c) →
    ∃ acu acu', setup_acu acu0 slots0 = Some acu ∧ acu_ok acu' ∧
      osdp_acu_register_pd 0 (ct_pd_address c) acu w = Some (OSDP_OK, acu', w)).
Proof.
  intros Hs Hl. destruct (acu_parse_args_ok argv env) as (r & E & Hr). destruct (setup_acu_ok acu0 slots0 w Hs) as (acu & Ea & Ha & Hw & _).
  split.
  - unfold main. rewrite E, bind_Some. destruct r as [| |c]; [by eexists _, _..|].
    destruct (os_call _ w) as [[err|] w1]; [by eexists _, _|]. cbv zeta. rewrite Ea, bind_Some.
    destruct (register_ok c acu (with_app (λ _, initial_app c) w1) Hr Ha (wi_count _ Hw)) as (acu1 & -> & H1).
    rewrite bind_Some, decide_False by auto.
    destruct (start_sc_ok c ctx acu1 (with_app (λ _, initial_app c) w1) Hr Hl H1) as (r & acu2 & w2 & -> & H2). rewrite bind_Some.
    case_decide; [by eexists _, _|]. destruct (run_ok c turns acu2 w2 H2) as (w' & ->). by eexists _, _.
  - intros c Ec. rewrite E in Ec. injection Ec as ->. destruct (register_ok c acu w Hr Ha (wi_count _ Hw)) as (acu1 & E1 & H1).
    by exists acu, acu1.
Qed.

(** A port nothing arrives on; [sent] is what went out. *)
Record silent_port {Q X} {SE : Serial Q} (sent : Q → X) : Prop := {
  sp_read n q : (serial_read n q).1 = (0%Z, []) ∧ sent (serial_read n q).2 = sent q;
  sp_now q : sent (serial_now_ms q).2 = sent q;
  sp_sleep ms q : sent (serial_sleep_ms ms q) = sent q;
  sp_close q : sent (serial_close q) = sent q }.

Section silence.
Context {Q X : Type} {SE : Serial Q} {CL : Clib Q} {SL : SerialLaws Q} (sent : Q → X) (Hsilent : silent_port sent).

Lemma turns_stable B n : stable (offline (λ q, sent q = B)) (main_turns n).
Proof.
  induction n as [|n IH]; cbn [main_turns]; [apply st_ret|]. apply st_bind; [|intros []; exact IH].
  apply turn_stable; [|intros m q <-; split; apply Hsilent|intros ms q <-; apply Hsilent]. intros q <-. apply Hsilent.
Qed.

(** The loop on a silent port, its handshake started. *)
Lemma run_silent c n acu w w' :
  offline (λ _, True) acu w → run c n acu w = Some (0%Z, w') → sent (am_os w') = sent (am_os w).
Proof.
  intros (Hw & Ha & Hsl & Hp & _) E. unfold run, os_call in E. cbv zeta in E. set (w1 := say _ w) in E.
  pose proof (sp_now sent Hsilent (am_os w1)) as Hn. destruct (serial_now_ms (am_os w1)) as [now q].
  set (w2 := with_app _ _) in E. destruct (main_turns n acu w2) as [[[[] c3] w3]|] eqn:Et; [|done].
  rewrite bind_Some in E. injection E as <-.
  destruct (turns_stable (sent (am_os w)) n acu w2 tt c3 w3 Et) as (_ & _ & _ & _ & Hq); [by split_and!|].
  etrans; [apply (sp_close sent Hsilent)|exact Hq].
Qed.

(** C40: A lost CHLNG is final.  With Secure Channel on, nothing answers the first CHLNG: however
    long the mock ACU runs, it sends nothing more, so a PD that comes up later is never
    addressed.  The reply timeout leaves the handshake pending, the offline timeout ends
    only that of a PD that was online, and the scheduler waits for either. *)
Theorem acu_mock_lost_challenge argv env c turns (acu0 : osdp_acu (acu_mock Q)) slots0 ctx (w w0 : acu_mock Q) :
  1 ≤ length slots0 → local_ctx ctx → parse_args argv env = Some (Cli_ok c) → ct_sc_mode c ≠ SC_NONE →
  main argv env 0 acu0 slots0 ctx w = Some (0%Z, w0) →
  ∃ w1, main argv env turns acu0 slots0 ctx w = Some (0%Z, w1) ∧ sent (am_os w1) = sent (am_os w0).
Proof.
  intros Hs Hl Hargs Hm E0. destruct (acu_parse_args_ok argv env) as (r & Er & Hc). rewrite Hargs in Er. injection Er as <-.
  cbn [cli_result_ok] in Hc. destruct (setup_acu_ok acu0 slots0 w Hs) as (acu & Ea & Ha & Hw & Hsl & Hrand).
  unfold main in E0 |- *. rewrite Hargs, bind_Some in E0 |- *. destruct (os_call _ w) as [[err|] w1]; [done|].
  cbv zeta in E0 |- *. rewrite Ea, bind_Some in E0 |- *. set (w2 := with_app (λ _, initial_app c) w1) in E0 |- *.
  destruct (register_ok c acu w2 Hc Ha (wi_count _ Hw)) as (acu1 & E1 & H1).
  rewrite E1, bind_Some, decide_False in E0 |- * by auto.
  destruct (start_sc_ok c ctx acu1 w2 Hc Hl H1) as (r & acu2 & w3 & E2 & H2). rewrite E2, bind_Some in E0 |- *.
  destruct (decide (r ≠ OSDP_OK)); [done|].
  assert (offline (λ _, True) acu2 w3) as Hst.
  { eapply start_sc_starting; [exact Hm|exact E2|]. eapply register_starting; [exact E1|].
    split; [done|]. split; [|split; [by exists slot_zero|]].
    - intros rand k v E. by rewrite Hrand in E.
    - split; [|done]. cbn. by rewrite decide_True. }
  destruct (run_ok c turns acu2 w3 H2) as (w4 & E4). exists w4. split; [done|].
  etrans; [by eapply run_silent|]. symmetry. by eapply run_silent.
Qed.

End silence.

(** ** Witnesses *)

(** A port nothing arrives on, with a clock: the time and what was sent. *)
Definition quiet_line : Type := Z * list Z.

#[local] Instance quiet_serial : Serial quiet_line := {|
  serial_open := λ _ _ q, (None, q);
  serial_read := λ _ q, (0%Z, [], q);
  serial_write := λ bs q, (Z.of_nat (length bs), (q.1, q.2 ++ bs));
  serial_now_ms := λ q, (q.1, q);
  serial_baud_supported := λ _, true;
  serial_set_baud := λ _ q, (None, q);
  serial_sleep_ms := λ ms q, (u32 (q.1 + ms), q.2);
  serial_close := λ q, q |}.

#[local] Instance quiet_laws : SerialLaws quiet_line.
Proof. constructor. intros n q. cbn. split_and!; [lia|lia|constructor]. Qed.

#[local] Instance quiet_clib : Clib quiet_line := {|
  c_rand := λ q, (4%Z, q);
  c_srand := λ _ q, q;
  c_time := λ _, 1700000000%Z |}.

Lemma quiet_silent : silent_port (snd : quiet_line → list Z).
Proof. by constructor. Qed.

Definition ex_acu_world : acu_mock quiet_line :=
  mk_acu_mock (initial_app (mk_cli None 9600 0 SC_NONE [] 500 0)) false (0%Z, []) [].

Definition ex_acu_argv : list (list Z) :=
  [lit "osdp-acu-mock"; lit "--port"; lit "/dev/ttyUSB0"; lit "--address"; lit "0x25"; lit "--sc=scbkd"; lit "-v"].

Definition ex_port_ctx : AES_ctx := mk_ctx (replicate 176 0%Z) (replicate 16 0%Z).

Lemma acu_mock_total_witness :
  ∃ code w', main ex_acu_argv None 3 acu_zero [slot_zero] ex_port_ctx ex_acu_world = Some (code, w') ∧ (0 ≤ code ≤ 2)%Z.
Proof. apply (acu_mock_total ex_acu_argv None 3 acu_zero [slot_zero] ex_port_ctx ex_acu_world); [by apply Nat.leb_le|done]. Defined.

Definition ex_chlng : list Z :=
  [0xFF; 0x53; 0x25; 0x13; 0x00; 0x0C; 0x03; 0x11; 0x00; 0x76; 4; 4; 4; 4; 4; 4; 4; 4; 0x3D; 0x8B]%Z.

Lemma acu_mock_lost_challenge_witness :
  ∃ w1, main ex_acu_argv None 1000 acu_zero [slot_zero] ex_port_ctx ex_acu_world = Some (0%Z, w1) ∧ (am_os w1).2 = ex_chlng.
Proof.
  edestruct (acu_mock_lost_challenge (snd : quiet_line → list Z) quiet_silent ex_acu_argv None) with
    (turns := 1000) (acu0 := acu_zero (W := acu_mock quiet_line)) (slots0 := [slot_zero]) (ctx := ex_port_ctx) (w := ex_acu_world)
    as (w1 & E & H); [by apply Nat.leb_le|done|vm_compute; reflexivity|done|vm_compute; reflexivity|].
  exists w1. split; [exact E|]. rewrite H. reflexivity.
Defined.
